(* ===== verification/_CoqProject ===== *)
-Q . S2P
Prelude.v
Encoding.v
Verhoeff.v
TLVTypes.v
TLVReader.v
TLVReaderRefine.v
TLVWriter.v
TLVHead.v
TLVTree.v
TLVSkip.v
TLV.v
KeyIds.v
TimeUtils.v
Session.v
Counter.v
Crypto.v
PacketBuffer.v
PacketBufferChain.v
WoBle.v
BtpTransfer.v
PeerTable.v
FabricState.v
AppKeys.v
MessageLayer.v
Address.v
ExchangeHeader.v
ExchangeTypes.v
ExchangeMgr.v
ExchangeInv.v
ExchangeQuiet.v
ExchangeRefs.v
ExchangeSafe.v
ExchangeSend.v
ExchangeWrmp.v
ExchangeRecv.v
ExchangeDispatch.v
ExchangeShutdown.v
ExchangeSafety.v
ExchangeLive.v
ExchangeThrottle.v
PairingCode.v
SimpleAlloc.v
Base64.v
ASN1OID.v
ASN1Writer.v
ASN1Reader.v
ASN1Tree.v
ASN1Leaf.v
ASN1Doc.v
ASN1Write.v
ASN1Read.v
ASN1.v
CircularTLV.v
CircularTLVLog.v
SerialNumber.v
CertTime.v
Cert.v
CertChain.v
CertToX509.v
X509ToCert.v
CertSpec.v
TLVCursor.v
CertConv.v
CertToX509Refine.v
ASN1Cursor.v
XConvRun.v
X509ToCertRefine.v
CertConvert.v
CertLoad.v
CertSet.v
HostPortList.v
