(* ===== verification/Prelude.v ===== *)
(** * OpenWeave core: a verification library

    A model of the core of OpenWeave (src/src), the network application layer of
    a home-automation fabric, and the theorems that make it correct.  This is the
    root file: this comment documents the whole development, and the rest of the
    file is the prelude the others share (machine integers, the error codes, the
    state-and-error monad [M] with its notations, lemmas on lists and bits).

    ** The program

    A node is a stack.  Application data is encoded in TLV
    (lib/core/WeaveTLV*.cpp) into PacketBuffers (system/SystemPacketBuffer.cpp),
    fixed blocks from a pool, chained.  A message belongs to an exchange: the
    exchange manager (lib/core/WeaveExchangeMgr.cpp, ExchangeContext.cpp) prepends
    its header, keeps messages that want an acknowledgement in a retransmission
    table (WRMP) and hands the rest to the message layer
    (lib/core/WeaveMessageLayer.cpp), which prepends the message header, encrypts
    with AES-128-CTR and authenticates with HMAC-SHA-1, and sends over UDP, TCP or
    BLE (ble/WoBle.cpp cuts it into fragments).  The fabric state
    (lib/core/WeaveFabricState.cpp) holds the node's identity, the session keys with
    the end nodes of shared sessions, the peers' message counters and a cache of application
    keys; a session (WeaveSessionState) decides which message identifiers are
    duplicates.  Application group keys are derived by
    lib/profiles/security/WeaveApplicationKeys.cpp with HKDF.  Nodes prove who they are
    with certificates (lib/profiles/security/WeaveCert.cpp), which are TLV structures
    signed over their X.509 form: WeaveToX509.cpp and X509ToWeave.cpp convert between
    the two, over the ASN.1 codec of lib/support/ASN1*.cpp.  Counters that must never
    repeat survive restarts through lib/support/PersistedCounter.cpp.

    ** The files

    - Prelude: this file.  Encoding: Weave encodings of integers (WeaveEncoding.h).
    - Verhoeff: check digits (lib/support/verhoeff), over the dihedral group.
    - TLVTypes, TLVReader, TLVWriter: the state of WeaveTLVReader.cpp and
      WeaveTLVWriter.cpp, one definition per method.  TLVReaderRefine: the reader over a
      chain of buffers is the reader over their concatenation.  TLVHead, TLVTree,
      TLVSkip: element heads, trees of elements and their encoding, skipping.  TLV: the
      properties of the codec.
    - KeyIds: WeaveKeyIds.h.  TimeUtils: lib/support/TimeUtils.cpp.  Session:
      WeaveSessionState.  Counter: PersistedCounter and MonotonicallyIncreasingCounter.
    - Crypto: CTR mode, HMAC, HKDF (lib/support/crypto) over an abstract block cipher and
      hash.
    - PacketBuffer: one buffer.  PacketBufferChain: the pool, chains, reference counts.
    - WoBle, BtpTransfer: the BLE transport protocol engine (ble/WoBle.cpp): one side,
      and a whole transfer between two engines.
    - PeerTable, FabricState: PeerStates, the key cache, WeaveFabricState.
    - AppKeys: WeaveApplicationKeys.cpp over an abstract platform key store.
    - MessageLayer: the message codec of WeaveMessageLayer.cpp on top of Crypto,
      FabricState and Session.
    - Address: inet/IPAddress.cpp, inet/IPPrefix.cpp and node addresses.
    - ExchangeHeader, ExchangeTypes, ExchangeMgr: the exchange header, the data and the
      operations of the exchange manager with WRMP.  ExchangeInv: a small logic of weakest
      preconditions ([wp]), the invariant [inv] on references and buffers, and [frame]s.
      ExchangeQuiet, ExchangeRefs, ExchangeSafe, ExchangeSend, ExchangeWrmp, ExchangeRecv,
      ExchangeDispatch: the operations keep it, from the smallest to the timer and the
      messages received.  ExchangeShutdown: what Shutdown leaves behind.  ExchangeSafety:
      everything that the application, the network and the clock may do, Shutdown and the
      next Init included, as a step relation, and that it is safe.  ExchangeLive: messages
      that are not acknowledged are given up.  ExchangeThrottle: throttled exchanges.
    - PairingCode, Base64, SerialNumber: the codecs of lib/support/pairing-code,
      lib/support/Base64.cpp and lib/support/SerialNumberUtils.cpp.  SimpleAlloc: the block
      allocator of lib/core/WeaveSecurityMgr-SimpleAlloc.cpp.
    - HostPortList: lib/core/HostPortList.cpp.
    - ASN1OID, ASN1Writer, ASN1Reader: the object identifiers, the writer and the reader of
      lib/support/ASN1*.cpp, one definition per method.  ASN1Tree: ASN.1 values, their DER
      encoding ([der]), and the calls that write and read a value.  ASN1Leaf, ASN1Doc,
      ASN1Write, ASN1Read: integers, bit strings and times; the writer's buffer with its
      unfinished length fields; the writer writes, and the reader reads, the encoding.
      ASN1: the properties of the codec.  ASN1Cursor: where a reader stands.
    - CircularTLV, CircularTLVLog: lib/core/WeaveCircularTLVBuffer.cpp with a reader and a
      writer of TLV on it, and the ring as a log of whole elements.  TLVCursor: where a
      reader stands in a container.
    - CertTime, Cert, CertToX509, X509ToCert: the packed times, the certificate data, the set
      and its validation (WeaveCert.cpp), the conversions and the loading and saving of
      certificates.  CertChain: certification paths, the specification of validation.
      CertSpec: an abstract certificate ([certificate]), its two forms, a TLV tree and
      an ASN.1 value, and what the code keeps of it ([kept_in_x509], [kept_in_weave]).  CertConv and CertToX509Refine, XConvRun and X509ToCertRefine: each
      converter, at the encoding of its part of one form, writes its part of the other.
      CertConvert, CertLoad: the properties of conversion and of loading and saving.
      CertSet: the set is well-formed whatever is loaded.

    Functions keep the names of the C++ ones; where a C++ function is long, its stages
    are definitions of their own.  Names that would clash carry a prefix (mi_, xh_, ec_,
    re_, pb_ for members).

    ** How the code is modelled

    Integers are [Z] with the wrap-around of their width written out (u8, u16, u32,
    u64, s32).  A byte is a [Z] in [0, 256).  Fallible stateful code is
    [M S A = S -> res A * S]; [res] is [Ok], [Err e] for a WEAVE_ERROR returned,
    [Undefined] for what C++ leaves undefined and for VerifyOrDie, and [Diverges] for
    fuel that ran out.  The state after an error is kept, as in the code.  Pointers are
    indices into the array or pool they point into.  The safety relation of the
    exchanges asks of an application what the interface asks: a reference of its own to the
    contexts it names, buffers it has not handed over, no reference held at Shutdown and
    only buffers and handlers used until the next Init; it leaves out messages sent
    with Trickle, and asks that the buffer of a received message has room for the
    24 bytes that the decoders read without a check.  Its system layer always has a timer to
    start (class ExchangeEnvLaws): without one WRMPStartTimer ends the process.  Callbacks to the application
    are entries of a log: an application that calls back into the stack from a callback is seen as
    calling it afterwards.

    Parameters of the model are what is not in the repository or is a platform's: the
    block cipher and the hashes, the platform's key store and persisted storage, random
    numbers, sockets and timers.  Laws assumed of them are named hypotheses or classes,
    each with an instance.

    ** What the theorems show

    - TLV: what is written is read back (TLV_roundtrip), the writer produces the encoding
      of the tree it is told to write and refuses the rest, Skip moves over exactly one
      element, a chain of buffers reads as their concatenation; the stale state of a
      reader after the end of a chain.
    - Check digits detect every substitution and adjacent transposition.
    - Session and counters: the replay window accepts an identifier at most once as new; a
      persisted counter never repeats across restarts.
    - Crypto: the counter-mode key stream is that of the mode's definition, over any calls
      of at most 65535 bytes, as the code's lengths are 16 bits wide; HKDF is RFC 5869's.
    - PacketBuffer: no operation of the pool frees twice, leaks or overruns, chains are
      strings of bytes.
    - WoBle: the acknowledgement window is respected and every message arrives.
    - FabricState: life cycle of session keys, the peer table is an LRU cache; error
      behaviours found in the code.
    - AppKeys: the epoch key in use is the current one; keys are derived along the
      hierarchy; what goes wrong after a restart.
    - MessageLayer: encode and decode are inverse, forged messages are refused, replayed
      ones are marked, framing of streams.
    - Address: prefix matching, node addresses identify nodes.
    - Exchange: header round trip; in every reachable state the tables of the exchange
      manager agree and no operation is undefined, and Shutdown leaves no timer and no
      context; a message that is never acknowledged
      is reported within a bounded number of timeouts; a throttle received while the
      retransmission table is empty is never lifted.
    - PairingCode: codes and numbers are in bijection.  Base64: decoding gives back what was
      encoded, with either interface.  SerialNumber: manufacturing weeks are calendar weeks.
      SimpleAlloc: allocated blocks are disjoint, and lie in the memory given unless its
      size wraps around.  HostPortList: the packed list refines the list
      of its entries.
    - ASN.1: the writer produces the DER encoding of what it is told to write, whatever the
      size of pointers, or fails with OVERFLOW exactly when the buffer is too small, for
      values of at most 65531 bytes (longer ones pass a check that wraps around); what
      is written is read back; decoding a head ends, and where long tags make it not.
    - CircularTLV: the ring is a log of whole elements, of which the oldest are dropped, as
      many as are needed and no more.
    - Certificates: packed times are faithful and ordered.  Validation succeeds only with a
      certification path to a trusted certificate, always ends, and finds the path where
      issuers are unambiguous.  The converters write what the code keeps of a certificate in the
      other form - it narrows the path length, the key usage and the lengths of r and s - and
      are inverses of each other on what is kept; loading stores the same, with the hash of the
      X.509 form; loading a list and saving the set gives the list back; and no certificate,
      damaged or hostile, takes the set out of the types of its members, though a released
      set keeps a count without places.  Values that neither the code nor these theorems
      handle (strings beyond 65531 bytes, encodings beyond 64 KB) are named with each
      property.

    ** Bounds and fuel

    Loops of the code that are not structural carry fuel, and theorems state results,
    so that fuel is shown to be enough: ReadData: buffers of the chain + 2;
    SkipToEndOfContainer: bytes left + 2; WriteData: free buffers + 2; get_list: bytes + 1;
    ExpandKey: 257 rounds; AllocSessionKey: the list of the random numbers it
    will draw; chains of buffers: size of the pool + 1; GetGroupKey: 2 (an epoch key is
    derived from at most one stored key); transfers: length of the message + 1; Release of
    an exchange: 2, as the release inside closing never drops the last reference;
    ValidateCert: certificates + 2, as the depth is compared with their number; the loops of
    the converters: bytes left + 1, as each turn reads an element.
    Table sizes are those of the default configuration (lib/core/WeaveConfig.h,
    system/SystemConfig.h), for the socket build.

    ** Not modelled, and why

    Sockets, LwIP, BLE, threads and timers of the platforms (I/O); OpenSSL, mincrypt,
    micro-ecc and the engines built on elliptic curves and J-PAKE, whose logic is
    third-party mathematics; ports, JNI and Objective-C wrappers, test programs and tools;
    logging, statistics and fault injection, which have no behaviour to state.  Weave data
    management, the tunnel, provisioning, BDX and the other profiles are applications above
    exchanges, driven by the callbacks of an application; bindings, connections and the
    security manager drive platform endpoints and the protocol engines. *)
From Stdlib Require Export ZArith Lia Bool.
From stdpp Require Export base list numbers decidable.
Open Scope Z_scope.

Declare Scope weave_scope.
Delimit Scope weave_scope with weave.

(** ** Machine integers: values of [Z] with the wrap-around written out *)

Definition u8 (x : Z) : Z := x mod 256.
Definition u16 (x : Z) : Z := x mod 65536.
Definition u32 (x : Z) : Z := x mod 4294967296.
Definition u64 (x : Z) : Z := x mod 18446744073709551616.
Definition s8 (x : Z) : Z := (x + 128) mod 256 - 128.
Definition s16 (x : Z) : Z := (x + 32768) mod 65536 - 32768.
Definition s32 (x : Z) : Z := (x + 2147483648) mod 4294967296 - 2147483648.
Definition s64 (x : Z) : Z := (x + 9223372036854775808) mod 18446744073709551616 - 9223372036854775808.

Definition UINT8_MAX : Z := 255.
Definition UINT16_MAX : Z := 65535.
Definition UINT32_MAX : Z := 4294967295.
Definition UINT64_MAX : Z := 18446744073709551615.

(** [mlia]: linear arithmetic through the wrap-around operators. *)
Ltac wunfold := unfold u8, u16, u32, u64, s8, s16, s32, s64,
  UINT8_MAX, UINT16_MAX, UINT32_MAX, UINT64_MAX in *.
Ltac mlia := wunfold; Z.to_euclidean_division_equations; lia.

(** Boolean tests of the code, turned into propositions. *)
Ltac bool_prop := repeat match goal with
  | H : (_ && _)%bool = true |- _ => apply andb_prop in H; destruct H
  | H : (_ || _)%bool = false |- _ => apply orb_false_elim in H; destruct H
  | H : negb _ = true |- _ => apply negb_true_iff in H
  | H : negb _ = false |- _ => apply negb_false_iff in H
  | H : (_ =? _) = true |- _ => apply Z.eqb_eq in H
  | H : (_ =? _) = false |- _ => apply Z.eqb_neq in H
  | H : (_ <=? _) = true |- _ => apply Z.leb_le in H
  | H : (_ <=? _) = false |- _ => apply Z.leb_gt in H
  | H : (_ <? _) = true |- _ => apply Z.ltb_lt in H
  | H : (_ <? _) = false |- _ => apply Z.ltb_ge in H
  end.

Lemma u8_range x : 0 <= u8 x < 256.
Proof. mlia. Qed.
Lemma u16_range x : 0 <= u16 x < 65536.
Proof. mlia. Qed.
Lemma u32_range x : 0 <= u32 x < 4294967296.
Proof. mlia. Qed.
Lemma u64_range x : 0 <= u64 x < 18446744073709551616.
Proof. mlia. Qed.
Lemma u8_id x : 0 <= x < 256 -> u8 x = x.
Proof. mlia. Qed.
Lemma u16_id x : 0 <= x < 65536 -> u16 x = x.
Proof. mlia. Qed.
Lemma u32_id x : 0 <= x < 4294967296 -> u32 x = x.
Proof. mlia. Qed.
Lemma u64_id x : 0 <= x < 18446744073709551616 -> u64 x = x.
Proof. mlia. Qed.

Create HintDb weave.
#[export] Hint Resolve u8_range u16_range u32_range u64_range : weave.

(** ** Bits

    The code masks and shifts unsigned values; the lemmas below turn the
    common patterns into quotients and remainders, where [mlia] works. *)

Lemma land_ones_mod x n : 0 <= n -> Z.land x (2 ^ n - 1) = x mod 2 ^ n.
Proof.
  intros Hn. rewrite <- (Z.land_ones x n Hn). f_equal.
  rewrite Z.ones_equiv. lia.
Qed.

Lemma shiftl_mul x n : 0 <= n -> Z.shiftl x n = x * 2 ^ n.
Proof. apply Z.shiftl_mul_pow2. Qed.

Lemma shiftr_div x n : 0 <= n -> Z.shiftr x n = x / 2 ^ n.
Proof. apply Z.shiftr_div_pow2. Qed.

(** A bit-or of values that do not overlap is their sum. *)
Lemma land_shifted_low hi lo n :
  0 <= n -> 0 <= lo < 2 ^ n -> Z.land (hi * 2 ^ n) lo = 0.
Proof.
  intros Hn Hlo. rewrite <- (Z.shiftl_mul_pow2 hi n Hn).
  apply Z.bits_inj'; intros i Hi. rewrite Z.land_spec, Z.bits_0.
  destruct (Z.lt_ge_cases i n) as [Hlt|Hge]; [by rewrite Z.shiftl_spec_low by lia|].
  destruct (Z.eq_dec lo 0) as [->|Hz]; [rewrite Z.bits_0; apply andb_false_r|].
  rewrite (Z.bits_above_log2 lo i); [apply andb_false_r | lia |].
  apply Z.log2_lt_pow2; [lia|].
  apply Z.lt_le_trans with (2 ^ n); [lia | apply Z.pow_le_mono_r; lia].
Qed.

Lemma lor_add_disjoint hi lo n :
  0 <= n -> 0 <= lo < 2 ^ n -> Z.lor (hi * 2 ^ n) lo = hi * 2 ^ n + lo.
Proof.
  intros Hn Hlo. symmetry. apply Z.add_nocarry_lor. by apply land_shifted_low.
Qed.

Lemma lor_range a b n :
  0 <= n -> 0 <= a < 2 ^ n -> 0 <= b < 2 ^ n -> 0 <= Z.lor a b < 2 ^ n.
Proof.
  intros Hn Ha Hb. assert (0 <= Z.lor a b) by (apply Z.lor_nonneg; lia). split; [done|].
  destruct (Z.eq_dec (Z.lor a b) 0) as [->|Hz]; [apply Z.pow_pos_nonneg; lia|].
  apply Z.log2_lt_pow2; [lia|]. rewrite Z.log2_lor by lia.
  assert (Hlog : forall x, 0 <= x < 2 ^ n -> 0 < n -> Z.log2 x < n).
  { intros x Hx Hn0. destruct (Z.eq_dec x 0) as [->|]; [done|]. apply Z.log2_lt_pow2; lia. }
  destruct (Z.eq_dec n 0) as [->|]; [|apply Z.max_lub_lt; apply Hlog; lia].
  change (2 ^ 0) with 1 in *. assert (a = 0) as -> by lia. assert (b = 0) as -> by lia. done.
Qed.

(** ** Lists, arrays and strings of the code *)

(** [arr l i] is the C read [l[i]]; the places that use it prove the index in range. *)
Definition arr (l : list Z) (i : Z) : Z := nth (Z.to_nat i) l 0.

Definition is_byte (b : Z) : Prop := 0 <= b < 256.
Abbreviation is_bytes := (Forall is_byte).

Definition byte_ok (b : Z) : bool := (0 <=? b) && (b <? 256).
Lemma byte_ok_spec l : forallb byte_ok l = true -> is_bytes l.
Proof.
  induction l as [|x l IH]; [constructor|]. simpl. intros H. bool_prop.
  unfold byte_ok in *. bool_prop. constructor; [unfold is_byte; lia | auto].
Qed.

(** Exhaustive checks over an interval [0..n), evaluated by [vm_compute]. *)
Definition upto (n : Z) : list Z := seqZ 0 n.
Definition all_upto (n : Z) (f : Z -> bool) : bool := forallb f (upto n).
Lemma all_upto_spec n f : all_upto n f = true -> forall x, 0 <= x < n -> f x = true.
Proof.
  unfold all_upto, upto. intros H x Hx. rewrite forallb_forall in H. apply H.
  apply list_elem_of_In, elem_of_seqZ. lia.
Qed.

(** ** Error codes and the monad of the stateful operations

    [WEAVE_ERROR] has the codes of WeaveError.h, BleError.h and ASN1Error.h that the
    modelled code returns; [WEAVE_ERROR_APP n] is a code supplied by an application
    callback. *)
Inductive WEAVE_ERROR :=
  | WEAVE_ERROR_TOO_MANY_CONNECTIONS | WEAVE_ERROR_INCORRECT_STATE
  | WEAVE_ERROR_MESSAGE_TOO_LONG | WEAVE_ERROR_UNSUPPORTED_MESSAGE_VERSION
  | WEAVE_ERROR_INVALID_MESSAGE_LENGTH | WEAVE_ERROR_INVALID_ARGUMENT
  | WEAVE_ERROR_UNSUPPORTED_ENCRYPTION_TYPE | WEAVE_ERROR_WRONG_ENCRYPTION_TYPE
  | WEAVE_ERROR_WRONG_KEY_TYPE | WEAVE_ERROR_KEY_NOT_FOUND | WEAVE_ERROR_INVALID_KEY_ID
  | WEAVE_ERROR_TOO_MANY_KEYS | WEAVE_ERROR_INTEGRITY_CHECK_FAILED
  | WEAVE_ERROR_UNSUPPORTED_EXCHANGE_VERSION | WEAVE_ERROR_BUFFER_TOO_SMALL
  | WEAVE_ERROR_NO_MEMORY | WEAVE_ERROR_INVALID_TLV_ELEMENT | WEAVE_ERROR_INVALID_TLV_TAG
  | WEAVE_ERROR_UNKNOWN_IMPLICIT_TLV_TAG | WEAVE_ERROR_WRONG_TLV_TYPE
  | WEAVE_ERROR_TLV_CONTAINER_OPEN | WEAVE_ERROR_TLV_UNDERRUN | WEAVE_END_OF_TLV
  | WEAVE_ERROR_UNEXPECTED_TLV_ELEMENT | WEAVE_ERROR_TLV_TAG_NOT_FOUND
  | WEAVE_ERROR_INVALID_INTEGER_VALUE | WEAVE_ERROR_PERSISTED_STORAGE_FAIL
  | WEAVE_ERROR_PERSISTED_STORAGE_VALUE_NOT_FOUND
  | WEAVE_ERROR_INVALID_STRING_LENGTH | WEAVE_ERROR_NOT_IMPLEMENTED
  | WEAVE_ERROR_SENDING_BLOCKED | WEAVE_ERROR_NOT_CONNECTED
  | WEAVE_ERROR_UNKNOWN_KEY_TYPE | WEAVE_ERROR_DUPLICATE_KEY_ID | WEAVE_ERROR_INVALID_USE_OF_SESSION_KEY
  | WEAVE_ERROR_TOO_MANY_SHARED_SESSION_END_NODES | WEAVE_ERROR_INVALID_MESSAGE_FLAG
  | WEAVE_ERROR_MESSAGE_INCOMPLETE | WEAVE_ERROR_UNSUPPORTED_CLOCK | WEAVE_ERROR_TIME_NOT_SYNCED_YET
  | WEAVE_ERROR_INVALID_ADDRESS | WEAVE_ERROR_TIMEOUT | WEAVE_ERROR_INVALID_EXCHANGE_ID
  | WEAVE_ERROR_NO_MESSAGE_HANDLER | WEAVE_ERROR_TOO_MANY_UNSOLICITED_MESSAGE_HANDLERS
  | WEAVE_ERROR_NO_UNSOLICITED_MESSAGE_HANDLER | WEAVE_ERROR_RETRANS_TABLE_FULL
  | WEAVE_ERROR_INVALID_ACK_ID | WEAVE_ERROR_SEND_THROTTLED | WEAVE_ERROR_MESSAGE_NOT_ACKNOWLEDGED
  | WEAVE_ERROR_INVALID_MESSAGE_TYPE | WEAVE_ERROR_INVALID_HOST_NAME
  | WEAVE_ERROR_WRONG_MSG_VERSION_FOR_EXCHANGE | WEAVE_ERROR_UNSOLICITED_MSG_NO_ORIGINATOR
  | WEAVE_ERROR_NO_ENDPOINT | WEAVE_ERROR_INVALID_DESTINATION_NODE_ID
  | WEAVE_ERROR_UNSUPPORTED_WEAVE_FEATURE | WEAVE_ERROR_UNSUPPORTED_CERT_FORMAT | WEAVE_ERROR_UNSUPPORTED_SIGNATURE_TYPE
  | WEAVE_ERROR_INVALID_SIGNATURE | WEAVE_ERROR_WRONG_WEAVE_SIGNATURE_ALGORITHM | WEAVE_ERROR_WRONG_CERT_SIGNATURE_ALGORITHM
  | WEAVE_ERROR_WRONG_CERT_TYPE | WEAVE_ERROR_CERT_NOT_FOUND | WEAVE_ERROR_CA_CERT_NOT_FOUND | WEAVE_ERROR_CERT_NOT_TRUSTED
  | WEAVE_ERROR_CERT_EXPIRED | WEAVE_ERROR_CERT_NOT_VALID_YET | WEAVE_ERROR_CERT_PATH_LEN_CONSTRAINT_EXCEEDED
  | WEAVE_ERROR_CERT_PATH_TOO_LONG | WEAVE_ERROR_CERT_USAGE_NOT_ALLOWED | WEAVE_CERT_NOT_USED
  | WEAVE_ERROR_UNSUPPORTED_ELLIPTIC_CURVE | WEAVE_ERROR_UNSUPPORTED_PASSCODE_CONFIG
  | WEAVE_ERROR_PASSCODE_AUTHENTICATION_FAILED | WEAVE_ERROR_PASSCODE_FINGERPRINT_FAILED
  | WEAVE_ERROR_UNSUPPORTED_HOST_PORT_ELEMENT | WEAVE_ERROR_HOST_PORT_LIST_EMPTY | WEAVE_ERROR_INVALID_HOST_SUFFIX_INDEX
  | WEAVE_ERROR_INVALID_TRANSFER_MODE
  | INET_ERROR_NOT_IMPLEMENTED | INET_ERROR_OUTBOUND_MESSAGE_TRUNCATED | INET_ERROR_MESSAGE_TOO_LONG | INET_ERROR_NO_MEMORY
  | WEAVE_ERROR_APP (code : Z)
  | BLE_ERROR_BAD_ARGS | BLE_ERROR_NO_MEMORY | BLE_ERROR_INVALID_ACK | BLE_ERROR_INVALID_BTP_SEQUENCE_NUMBER
  | BLE_ERROR_INVALID_BTP_HEADER_FLAGS | BLE_ERROR_RECEIVED_MESSAGE_TOO_BIG | BLE_ERROR_REASSEMBLER_INCORRECT_STATE
  | BLE_ERROR_REASSEMBLER_MISSING_DATA
  | ASN1_END | ASN1_ERROR_UNDERRUN | ASN1_ERROR_OVERFLOW | ASN1_ERROR_INVALID_STATE | ASN1_ERROR_MAX_DEPTH_EXCEEDED
  | ASN1_ERROR_INVALID_ENCODING | ASN1_ERROR_UNSUPPORTED_ENCODING | ASN1_ERROR_TAG_OVERFLOW | ASN1_ERROR_LENGTH_OVERFLOW
  | ASN1_ERROR_VALUE_OVERFLOW | ASN1_ERROR_UNKNOWN_OBJECT_ID.

#[export] Instance WEAVE_ERROR_eq_dec : EqDecision WEAVE_ERROR.
Proof. solve_decision. Defined.

(** The outcome of an operation: [Ok] is the return of WEAVE_NO_ERROR with what
    the operation hands back through its reference arguments, [Err] the return
    of a code.  [Undefined] marks an execution that C++ leaves undefined (a read
    through a stale or null pointer) and [Diverges] one that does not return;
    the theorems say where neither happens. *)
Inductive res (A : Type) :=
  | Ok (a : A)
  | Err (e : WEAVE_ERROR)
  | Undefined
  | Diverges.
Arguments Ok {A} a.
Arguments Err {A} e.
Arguments Undefined {A}.
Arguments Diverges {A}.

#[export] Instance res_eq_dec {A} `{EqDecision A} : EqDecision (res A).
Proof. solve_decision. Defined.

(** An operation on an object of type [S] returns its outcome and the object as
    it leaves it, on the error paths too. *)
Definition M (S A : Type) : Type := S -> res A * S.
Definition ret {S A} (a : A) : M S A := fun s => (Ok a, s).
Definition fail {S A} (e : WEAVE_ERROR) : M S A := fun s => (Err e, s).
Definition undefined {S A} : M S A := fun s => (Undefined, s).
Definition bind {S A B} (m : M S A) (f : A -> M S B) : M S B := fun s =>
  match m s with
  | (Ok a, s') => f a s'
  | (Err e, s') => (Err e, s')
  | (Undefined, s') => (Undefined, s')
  | (Diverges, s') => (Diverges, s')
  end.
Definition gets {S A} (f : S -> A) : M S A := fun s => (Ok (f s), s).
Definition modify {S} (f : S -> S) : M S unit := fun s => (Ok tt, f s).
(** [VerifyOrExit(cond, err = e)]. *)
Definition verify {S} (cond : bool) (e : WEAVE_ERROR) : M S unit :=
  if cond then ret tt else fail e.

Notation "'let*' x := m 'in' k" := (bind m (fun x => k))
  (at level 10, x name, k at level 200) : weave_scope.
Notation "'do*' m 'in' k" := (bind m (fun _ => k))
  (at level 10, m at level 200, k at level 200) : weave_scope.

Lemma bind_ok {S A B} (m : M S A) (f : A -> M S B) s a s' :
  m s = (Ok a, s') -> bind m f s = f a s'.
Proof. unfold bind. by intros ->. Qed.

Lemma bind_err {S A B} (m : M S A) (f : A -> M S B) s e s' :
  m s = (Err e, s') -> bind m f s = (Err e, s').
Proof. unfold bind. by intros ->. Qed.

Lemma bind_inv {S A B} (m : M S A) (f : A -> M S B) s b s' :
  bind m f s = (Ok b, s') -> exists a s1, m s = (Ok a, s1) /\ f a s1 = (Ok b, s').
Proof. unfold bind. destruct (m s) as [[] s1]; intros; simplify_eq; eauto. Qed.

Lemma bind_ret {S A B} (a : A) (f : A -> M S B) s : bind (ret a) f s = f a s.
Proof. done. Qed.
