(* ===== verification/Encoding.v ===== *)
(** * Fixed-width integers in byte strings (src/src/lib/core/WeaveEncoding.h)

    The Get/Put/Read/Write families of the namespaces LittleEndian and
    BigEndian.  A pointer into a buffer is the list of the bytes from it on;
    [Read] returns the value and the advanced pointer, [Put] and [Write] are
    given by the bytes they store. *)
From S2P Require Import Prelude.

(** ** Bytes of a number, least significant first *)

Fixpoint le_put (n : nat) (v : Z) : list Z :=
  match n with
  | O => []
  | S k => v mod 256 :: le_put k (v / 256)
  end.

Fixpoint le_get (l : list Z) : Z :=
  match l with
  | [] => 0
  | b :: r => b + 256 * le_get r
  end.

Definition Get8 (p : list Z) : Z := arr p 0.
Definition Read8 (p : list Z) : Z * list Z := (Get8 p, drop 1 p).
Definition Write8 (v : Z) : list Z := [u8 v].

Definition LittleEndian_Get16 (p : list Z) : Z := le_get (take 2 p).
Definition LittleEndian_Get32 (p : list Z) : Z := le_get (take 4 p).
Definition LittleEndian_Get64 (p : list Z) : Z := le_get (take 8 p).
Definition LittleEndian_Read16 (p : list Z) : Z * list Z := (LittleEndian_Get16 p, drop 2 p).
Definition LittleEndian_Read32 (p : list Z) : Z * list Z := (LittleEndian_Get32 p, drop 4 p).
Definition LittleEndian_Read64 (p : list Z) : Z * list Z := (LittleEndian_Get64 p, drop 8 p).
Definition LittleEndian_Write16 (v : Z) : list Z := le_put 2 v.
Definition LittleEndian_Write32 (v : Z) : list Z := le_put 4 v.
Definition LittleEndian_Write64 (v : Z) : list Z := le_put 8 v.

Definition BigEndian_Get16 (p : list Z) : Z := le_get (rev (take 2 p)).
Definition BigEndian_Get32 (p : list Z) : Z := le_get (rev (take 4 p)).
Definition BigEndian_Get64 (p : list Z) : Z := le_get (rev (take 8 p)).
Definition BigEndian_Read16 (p : list Z) : Z * list Z := (BigEndian_Get16 p, drop 2 p).
Definition BigEndian_Read32 (p : list Z) : Z * list Z := (BigEndian_Get32 p, drop 4 p).
Definition BigEndian_Read64 (p : list Z) : Z * list Z := (BigEndian_Get64 p, drop 8 p).
Definition BigEndian_Write16 (v : Z) : list Z := rev (le_put 2 v).
Definition BigEndian_Write32 (v : Z) : list Z := rev (le_put 4 v).
Definition BigEndian_Write64 (v : Z) : list Z := rev (le_put 8 v).

Example le32 : LittleEndian_Write32 305419896 = [120; 86; 52; 18].
Proof. reflexivity. Qed.
Example be32 : BigEndian_Read32 [18; 52; 86; 120; 9] = (305419896, [9]).
Proof. reflexivity. Qed.

(** ** Laws *)

Lemma le_put_length n v : length (le_put n v) = n.
Proof. revert v. induction n as [|n IH]; intros v; [done|]. simpl. by rewrite IH. Qed.

Lemma le_put_bytes n v : is_bytes (le_put n v).
Proof.
  revert v. induction n as [|n IH]; intros v; constructor; [|done].
  unfold is_byte. mlia.
Qed.

Lemma le_get_put n v : le_get (le_put n v) = v mod 256 ^ Z.of_nat n.
Proof.
  revert v. induction n as [|n IH]; intros v; [by rewrite Z.mod_1_r|].
  cbn [le_put le_get]. rewrite IH.
  replace (256 ^ Z.of_nat (S n)) with (256 * 256 ^ Z.of_nat n)
    by (rewrite Nat2Z.inj_succ, Z.pow_succ_r; lia).
  rewrite Z.rem_mul_r by (try lia; apply Z.pow_pos_nonneg; lia). lia.
Qed.

Lemma le_get_range l : is_bytes l -> 0 <= le_get l < 256 ^ Z.of_nat (length l).
Proof.
  induction 1 as [|b l Hb Hl IH]; [done|]. cbn [le_get length].
  rewrite Nat2Z.inj_succ, Z.pow_succ_r by lia. unfold is_byte in Hb. lia.
Qed.

Lemma le_put_mod n v m : (n <= m)%nat -> le_put n (v mod 256 ^ Z.of_nat m) = le_put n v.
Proof.
  revert v m. induction n as [|n IH]; intros v m Hm; [done|]. destruct m as [|m]; [lia|]. cbn [le_put].
  rewrite Nat2Z.inj_succ, Z.pow_succ_r by lia. rewrite Z.rem_mul_r by (try lia; apply Z.pow_pos_nonneg; lia).
  set (q := (v / 256) mod 256 ^ Z.of_nat m).
  replace ((v mod 256 + 256 * q) mod 256) with (v mod 256) by mlia.
  replace ((v mod 256 + 256 * q) / 256) with q by mlia. unfold q. by rewrite IH by lia.
Qed.

Lemma le_put_get l : is_bytes l -> le_put (length l) (le_get l) = l.
Proof.
  induction 1 as [|b l Hb Hl IH]; [done|]. cbn [le_get length le_put]. unfold is_byte in Hb.
  replace ((b + 256 * le_get l) mod 256) with b by (Z.to_euclidean_division_equations; lia).
  replace ((b + 256 * le_get l) / 256) with (le_get l) by (Z.to_euclidean_division_equations; lia).
  by rewrite IH.
Qed.

Lemma take_app_exact {A} n (l k : list A) : length l = n -> take n (l ++ k) = l.
Proof. intros <-. by rewrite take_app_length. Qed.
Lemma drop_app_exact {A} n (l k : list A) : length l = n -> drop n (l ++ k) = k.
Proof. intros <-. by rewrite drop_app_length. Qed.

Lemma le_get_app n v k : le_get (take n (le_put n v ++ k)) = v mod 256 ^ Z.of_nat n.
Proof. rewrite take_app_exact by apply le_put_length. apply le_get_put. Qed.

Lemma Read8_app v k : Read8 (Write8 v ++ k) = (u8 v, k).
Proof. done. Qed.
Lemma LE_Read16_app v k : LittleEndian_Read16 (LittleEndian_Write16 v ++ k) = (u16 v, k).
Proof. unfold LittleEndian_Read16, LittleEndian_Get16, LittleEndian_Write16. by rewrite le_get_app. Qed.
Lemma LE_Read32_app v k : LittleEndian_Read32 (LittleEndian_Write32 v ++ k) = (u32 v, k).
Proof. unfold LittleEndian_Read32, LittleEndian_Get32, LittleEndian_Write32. by rewrite le_get_app. Qed.
Lemma LE_Read64_app v k : LittleEndian_Read64 (LittleEndian_Write64 v ++ k) = (u64 v, k).
Proof. unfold LittleEndian_Read64, LittleEndian_Get64, LittleEndian_Write64. by rewrite le_get_app. Qed.

Lemma LE_Get16_app v k : LittleEndian_Get16 (LittleEndian_Write16 v ++ k) = u16 v.
Proof. unfold LittleEndian_Get16, LittleEndian_Write16. by rewrite le_get_app. Qed.
Lemma LE_Get32_app v k : LittleEndian_Get32 (LittleEndian_Write32 v ++ k) = u32 v.
Proof. unfold LittleEndian_Get32, LittleEndian_Write32. by rewrite le_get_app. Qed.
Lemma LE_Get64_app v k : LittleEndian_Get64 (LittleEndian_Write64 v ++ k) = u64 v.
Proof. unfold LittleEndian_Get64, LittleEndian_Write64. by rewrite le_get_app. Qed.

Lemma be_get_app n v k : le_get (rev (take n (rev (le_put n v) ++ k))) = v mod 256 ^ Z.of_nat n.
Proof.
  rewrite take_app_exact by (rewrite length_rev; apply le_put_length).
  rewrite rev_involutive. apply le_get_put.
Qed.
Lemma BE_Read16_app v k : BigEndian_Read16 (BigEndian_Write16 v ++ k) = (u16 v, k).
Proof. unfold BigEndian_Read16, BigEndian_Get16, BigEndian_Write16. by rewrite be_get_app. Qed.
Lemma BE_Read32_app v k : BigEndian_Read32 (BigEndian_Write32 v ++ k) = (u32 v, k).
Proof. unfold BigEndian_Read32, BigEndian_Get32, BigEndian_Write32. by rewrite be_get_app. Qed.
Lemma BE_Read64_app v k : BigEndian_Read64 (BigEndian_Write64 v ++ k) = (u64 v, k).
Proof. unfold BigEndian_Read64, BigEndian_Get64, BigEndian_Write64. by rewrite be_get_app. Qed.

Lemma BE_Write16_length v : length (BigEndian_Write16 v) = 2%nat.
Proof. done. Qed.
Lemma BE_Write32_length v : length (BigEndian_Write32 v) = 4%nat.
Proof. done. Qed.
Lemma BE_Write64_length v : length (BigEndian_Write64 v) = 8%nat.
Proof. done. Qed.

Lemma LE_Write16_bytes v : is_bytes (LittleEndian_Write16 v).
Proof. apply le_put_bytes. Qed.
Lemma LE_Write32_bytes v : is_bytes (LittleEndian_Write32 v).
Proof. apply le_put_bytes. Qed.
Lemma LE_Write64_bytes v : is_bytes (LittleEndian_Write64 v).
Proof. apply le_put_bytes. Qed.
Lemma Write8_bytes v : is_bytes (Write8 v).
Proof. constructor; [apply u8_range|constructor]. Qed.

Create Rewrite HintDb wread.
#[export] Hint Rewrite Read8_app LE_Read16_app LE_Read32_app LE_Read64_app
  BE_Read16_app BE_Read32_app BE_Read64_app : wread.
#[export] Hint Resolve LE_Write16_bytes LE_Write32_bytes LE_Write64_bytes Write8_bytes : weave.
