(* ===== verification/Verhoeff.v ===== *)
(** * Verhoeff check digits (src/src/lib/support/verhoeff)

    Module [Verhoeff] holds the shared operations of Verhoeff.cpp.  The four
    classes Verhoeff10, Verhoeff16, Verhoeff32 and Verhoeff36 are textual
    copies of each other over different tables; [alg] gathers what differs,
    the loops are written once over it, and each class is an instance.  The
    class [DihedralChecks] is what the error-detection theorems need of the
    tables; its instances are checked by evaluation.

    Characters are [Z] character codes, a string is the list of its characters
    before the terminator. *)
From S2P Require Import Prelude.

(** ** Verhoeff.cpp: operations in the dihedral group *)

(** Values are [int]; [%] is the remainder that truncates towards zero. *)
Definition DihedralMultiply (x y n : Z) : Z :=
  let n2 := n * 2 in
  let x := Z.rem x n2 in
  let y := Z.rem y n2 in
  if x <? n then
    if y <? n then Z.rem (x + y) n
    else Z.rem (x + (y - n)) n + n
  else
    if y <? n then Z.rem (n + (x - n) - y) n + n
    else Z.rem (n + (x - n) - (y - n)) n.

Definition DihedralInvert (val n : Z) : Z :=
  if (0 <? val) && (val <? n) then n - val else val.

Fixpoint Permute (val : Z) (permTable : list Z) (permTableLen : Z) (iterCount : nat) : Z :=
  let val := Z.rem val permTableLen in
  match iterCount with
  | O => val
  | S k => Permute (arr permTable val) permTable permTableLen k
  end.

(** ** The tables of the four classes *)

Definition Verhoeff10_sMultiplyTable : list Z :=
  [ 0; 1; 2; 3; 4; 5; 6; 7; 8; 9;
    1; 2; 3; 4; 0; 6; 7; 8; 9; 5;
    2; 3; 4; 0; 1; 7; 8; 9; 5; 6;
    3; 4; 0; 1; 2; 8; 9; 5; 6; 7;
    4; 0; 1; 2; 3; 9; 5; 6; 7; 8;
    5; 9; 8; 7; 6; 0; 4; 3; 2; 1;
    6; 5; 9; 8; 7; 1; 0; 4; 3; 2;
    7; 6; 5; 9; 8; 2; 1; 0; 4; 3;
    8; 7; 6; 5; 9; 3; 2; 1; 0; 4;
    9; 8; 7; 6; 5; 4; 3; 2; 1; 0 ].

Definition Verhoeff10_sPermTable : list Z :=
  [ 1; 5; 7; 6; 2; 8; 3; 0; 9; 4 ].

Definition Verhoeff16_sMultiplyTable : list Z :=
  [ 0; 1; 2; 3; 4; 5; 6; 7; 8; 9; 10; 11; 12; 13; 14; 15;
    1; 2; 3; 4; 5; 6; 7; 0; 9; 10; 11; 12; 13; 14; 15; 8;
    2; 3; 4; 5; 6; 7; 0; 1; 10; 11; 12; 13; 14; 15; 8; 9;
    3; 4; 5; 6; 7; 0; 1; 2; 11; 12; 13; 14; 15; 8; 9; 10;
    4; 5; 6; 7; 0; 1; 2; 3; 12; 13; 14; 15; 8; 9; 10; 11;
    5; 6; 7; 0; 1; 2; 3; 4; 13; 14; 15; 8; 9; 10; 11; 12;
    6; 7; 0; 1; 2; 3; 4; 5; 14; 15; 8; 9; 10; 11; 12; 13;
    7; 0; 1; 2; 3; 4; 5; 6; 15; 8; 9; 10; 11; 12; 13; 14;
    8; 15; 14; 13; 12; 11; 10; 9; 0; 7; 6; 5; 4; 3; 2; 1;
    9; 8; 15; 14; 13; 12; 11; 10; 1; 0; 7; 6; 5; 4; 3; 2;
    10; 9; 8; 15; 14; 13; 12; 11; 2; 1; 0; 7; 6; 5; 4; 3;
    11; 10; 9; 8; 15; 14; 13; 12; 3; 2; 1; 0; 7; 6; 5; 4;
    12; 11; 10; 9; 8; 15; 14; 13; 4; 3; 2; 1; 0; 7; 6; 5;
    13; 12; 11; 10; 9; 8; 15; 14; 5; 4; 3; 2; 1; 0; 7; 6;
    14; 13; 12; 11; 10; 9; 8; 15; 6; 5; 4; 3; 2; 1; 0; 7;
    15; 14; 13; 12; 11; 10; 9; 8; 7; 6; 5; 4; 3; 2; 1; 0 ].

Definition Verhoeff16_sPermTable : list Z :=
  [ 4; 7; 5; 14; 8; 12; 15; 0; 2; 11; 3; 13; 10; 6; 9; 1 ].

Definition Verhoeff32_sMultiplyTable : list Z :=
  [ 0; 1; 2; 3; 4; 5; 6; 7; 8; 9; 10; 11; 12; 13; 14; 15; 16; 17; 18; 19; 20; 21; 22; 23; 24; 25; 26; 27; 28; 29; 30; 31;
    1; 2; 3; 4; 5; 6; 7; 8; 9; 10; 11; 12; 13; 14; 15; 0; 17; 18; 19; 20; 21; 22; 23; 24; 25; 26; 27; 28; 29; 30; 31; 16;
    2; 3; 4; 5; 6; 7; 8; 9; 10; 11; 12; 13; 14; 15; 0; 1; 18; 19; 20; 21; 22; 23; 24; 25; 26; 27; 28; 29; 30; 31; 16; 17;
    3; 4; 5; 6; 7; 8; 9; 10; 11; 12; 13; 14; 15; 0; 1; 2; 19; 20; 21; 22; 23; 24; 25; 26; 27; 28; 29; 30; 31; 16; 17; 18;
    4; 5; 6; 7; 8; 9; 10; 11; 12; 13; 14; 15; 0; 1; 2; 3; 20; 21; 22; 23; 24; 25; 26; 27; 28; 29; 30; 31; 16; 17; 18; 19;
    5; 6; 7; 8; 9; 10; 11; 12; 13; 14; 15; 0; 1; 2; 3; 4; 21; 22; 23; 24; 25; 26; 27; 28; 29; 30; 31; 16; 17; 18; 19; 20;
    6; 7; 8; 9; 10; 11; 12; 13; 14; 15; 0; 1; 2; 3; 4; 5; 22; 23; 24; 25; 26; 27; 28; 29; 30; 31; 16; 17; 18; 19; 20; 21;
    7; 8; 9; 10; 11; 12; 13; 14; 15; 0; 1; 2; 3; 4; 5; 6; 23; 24; 25; 26; 27; 28; 29; 30; 31; 16; 17; 18; 19; 20; 21; 22;
    8; 9; 10; 11; 12; 13; 14; 15; 0; 1; 2; 3; 4; 5; 6; 7; 24; 25; 26; 27; 28; 29; 30; 31; 16; 17; 18; 19; 20; 21; 22; 23;
    9; 10; 11; 12; 13; 14; 15; 0; 1; 2; 3; 4; 5; 6; 7; 8; 25; 26; 27; 28; 29; 30; 31; 16; 17; 18; 19; 20; 21; 22; 23; 24;
    10; 11; 12; 13; 14; 15; 0; 1; 2; 3; 4; 5; 6; 7; 8; 9; 26; 27; 28; 29; 30; 31; 16; 17; 18; 19; 20; 21; 22; 23; 24; 25;
    11; 12; 13; 14; 15; 0; 1; 2; 3; 4; 5; 6; 7; 8; 9; 10; 27; 28; 29; 30; 31; 16; 17; 18; 19; 20; 21; 22; 23; 24; 25; 26;
    12; 13; 14; 15; 0; 1; 2; 3; 4; 5; 6; 7; 8; 9; 10; 11; 28; 29; 30; 31; 16; 17; 18; 19; 20; 21; 22; 23; 24; 25; 26; 27;
    13; 14; 15; 0; 1; 2; 3; 4; 5; 6; 7; 8; 9; 10; 11; 12; 29; 30; 31; 16; 17; 18; 19; 20; 21; 22; 23; 24; 25; 26; 27; 28;
    14; 15; 0; 1; 2; 3; 4; 5; 6; 7; 8; 9; 10; 11; 12; 13; 30; 31; 16; 17; 18; 19; 20; 21; 22; 23; 24; 25; 26; 27; 28; 29;
    15; 0; 1; 2; 3; 4; 5; 6; 7; 8; 9; 10; 11; 12; 13; 14; 31; 16; 17; 18; 19; 20; 21; 22; 23; 24; 25; 26; 27; 28; 29; 30;
    16; 31; 30; 29; 28; 27; 26; 25; 24; 23; 22; 21; 20; 19; 18; 17; 0; 15; 14; 13; 12; 11; 10; 9; 8; 7; 6; 5; 4; 3; 2; 1;
    17; 16; 31; 30; 29; 28; 27; 26; 25; 24; 23; 22; 21; 20; 19; 18; 1; 0; 15; 14; 13; 12; 11; 10; 9; 8; 7; 6; 5; 4; 3; 2;
    18; 17; 16; 31; 30; 29; 28; 27; 26; 25; 24; 23; 22; 21; 20; 19; 2; 1; 0; 15; 14; 13; 12; 11; 10; 9; 8; 7; 6; 5; 4; 3;
    19; 18; 17; 16; 31; 30; 29; 28; 27; 26; 25; 24; 23; 22; 21; 20; 3; 2; 1; 0; 15; 14; 13; 12; 11; 10; 9; 8; 7; 6; 5; 4;
    20; 19; 18; 17; 16; 31; 30; 29; 28; 27; 26; 25; 24; 23; 22; 21; 4; 3; 2; 1; 0; 15; 14; 13; 12; 11; 10; 9; 8; 7; 6; 5;
    21; 20; 19; 18; 17; 16; 31; 30; 29; 28; 27; 26; 25; 24; 23; 22; 5; 4; 3; 2; 1; 0; 15; 14; 13; 12; 11; 10; 9; 8; 7; 6;
    22; 21; 20; 19; 18; 17; 16; 31; 30; 29; 28; 27; 26; 25; 24; 23; 6; 5; 4; 3; 2; 1; 0; 15; 14; 13; 12; 11; 10; 9; 8; 7;
    23; 22; 21; 20; 19; 18; 17; 16; 31; 30; 29; 28; 27; 26; 25; 24; 7; 6; 5; 4; 3; 2; 1; 0; 15; 14; 13; 12; 11; 10; 9; 8;
    24; 23; 22; 21; 20; 19; 18; 17; 16; 31; 30; 29; 28; 27; 26; 25; 8; 7; 6; 5; 4; 3; 2; 1; 0; 15; 14; 13; 12; 11; 10; 9;
    25; 24; 23; 22; 21; 20; 19; 18; 17; 16; 31; 30; 29; 28; 27; 26; 9; 8; 7; 6; 5; 4; 3; 2; 1; 0; 15; 14; 13; 12; 11; 10;
    26; 25; 24; 23; 22; 21; 20; 19; 18; 17; 16; 31; 30; 29; 28; 27; 10; 9; 8; 7; 6; 5; 4; 3; 2; 1; 0; 15; 14; 13; 12; 11;
    27; 26; 25; 24; 23; 22; 21; 20; 19; 18; 17; 16; 31; 30; 29; 28; 11; 10; 9; 8; 7; 6; 5; 4; 3; 2; 1; 0; 15; 14; 13; 12;
    28; 27; 26; 25; 24; 23; 22; 21; 20; 19; 18; 17; 16; 31; 30; 29; 12; 11; 10; 9; 8; 7; 6; 5; 4; 3; 2; 1; 0; 15; 14; 13;
    29; 28; 27; 26; 25; 24; 23; 22; 21; 20; 19; 18; 17; 16; 31; 30; 13; 12; 11; 10; 9; 8; 7; 6; 5; 4; 3; 2; 1; 0; 15; 14;
    30; 29; 28; 27; 26; 25; 24; 23; 22; 21; 20; 19; 18; 17; 16; 31; 14; 13; 12; 11; 10; 9; 8; 7; 6; 5; 4; 3; 2; 1; 0; 15;
    31; 30; 29; 28; 27; 26; 25; 24; 23; 22; 21; 20; 19; 18; 17; 16; 15; 14; 13; 12; 11; 10; 9; 8; 7; 6; 5; 4; 3; 2; 1; 0 ].

Definition Verhoeff32_sPermTable : list Z :=
  [ 7; 2; 1; 30; 16; 20; 27; 11; 31; 6; 8; 13; 29; 5; 10; 21;
    22; 3; 24; 0; 23; 25; 12; 9; 28; 14; 4; 15; 17; 18; 19; 26 ].

Definition Verhoeff32_sCharToValTable : list Z :=
  [ 0; 1; 2; 3; 4; 5; 6; 7; 8; 9; (-1); (-1); (-1); (-1); (-1); (-1);
    (-1); 10; 11; 12; 13; 14; 15; 16; 17; (-1); 18; 19; 20; 21; 22; (-1);
    23; (-1); 24; 25; 26; 27; 28; 29; 30; 31; (-1); (-1); (-1); (-1); (-1); (-1);
    (-1); 10; 11; 12; 13; 14; 15; 16; 17; (-1); 18; 19; 20; 21; 22; (-1);
    23; (-1); 24; 25; 26; 27; 28; 29; 30; 31 ].

(** The characters 0123456789ABCDEFGHJKLMNPRSTUVWXY. *)
Definition Verhoeff32_sValToCharTable : list Z :=
  [ 48; 49; 50; 51; 52; 53; 54; 55; 56; 57; 65; 66; 67; 68; 69; 70;
    71; 72; 74; 75; 76; 77; 78; 80; 82; 83; 84; 85; 86; 87; 88; 89 ].

Definition Verhoeff36_sMultiplyTable : list Z :=
  [ 0; 1; 2; 3; 4; 5; 6; 7; 8; 9; 10; 11; 12; 13; 14; 15; 16; 17; 18; 19; 20; 21; 22; 23; 24; 25; 26; 27; 28; 29; 30; 31; 32; 33; 34; 35;
    1; 2; 3; 4; 5; 6; 7; 8; 9; 10; 11; 12; 13; 14; 15; 16; 17; 0; 19; 20; 21; 22; 23; 24; 25; 26; 27; 28; 29; 30; 31; 32; 33; 34; 35; 18;
    2; 3; 4; 5; 6; 7; 8; 9; 10; 11; 12; 13; 14; 15; 16; 17; 0; 1; 20; 21; 22; 23; 24; 25; 26; 27; 28; 29; 30; 31; 32; 33; 34; 35; 18; 19;
    3; 4; 5; 6; 7; 8; 9; 10; 11; 12; 13; 14; 15; 16; 17; 0; 1; 2; 21; 22; 23; 24; 25; 26; 27; 28; 29; 30; 31; 32; 33; 34; 35; 18; 19; 20;
    4; 5; 6; 7; 8; 9; 10; 11; 12; 13; 14; 15; 16; 17; 0; 1; 2; 3; 22; 23; 24; 25; 26; 27; 28; 29; 30; 31; 32; 33; 34; 35; 18; 19; 20; 21;
    5; 6; 7; 8; 9; 10; 11; 12; 13; 14; 15; 16; 17; 0; 1; 2; 3; 4; 23; 24; 25; 26; 27; 28; 29; 30; 31; 32; 33; 34; 35; 18; 19; 20; 21; 22;
    6; 7; 8; 9; 10; 11; 12; 13; 14; 15; 16; 17; 0; 1; 2; 3; 4; 5; 24; 25; 26; 27; 28; 29; 30; 31; 32; 33; 34; 35; 18; 19; 20; 21; 22; 23;
    7; 8; 9; 10; 11; 12; 13; 14; 15; 16; 17; 0; 1; 2; 3; 4; 5; 6; 25; 26; 27; 28; 29; 30; 31; 32; 33; 34; 35; 18; 19; 20; 21; 22; 23; 24;
    8; 9; 10; 11; 12; 13; 14; 15; 16; 17; 0; 1; 2; 3; 4; 5; 6; 7; 26; 27; 28; 29; 30; 31; 32; 33; 34; 35; 18; 19; 20; 21; 22; 23; 24; 25;
    9; 10; 11; 12; 13; 14; 15; 16; 17; 0; 1; 2; 3; 4; 5; 6; 7; 8; 27; 28; 29; 30; 31; 32; 33; 34; 35; 18; 19; 20; 21; 22; 23; 24; 25; 26;
    10; 11; 12; 13; 14; 15; 16; 17; 0; 1; 2; 3; 4; 5; 6; 7; 8; 9; 28; 29; 30; 31; 32; 33; 34; 35; 18; 19; 20; 21; 22; 23; 24; 25; 26; 27;
    11; 12; 13; 14; 15; 16; 17; 0; 1; 2; 3; 4; 5; 6; 7; 8; 9; 10; 29; 30; 31; 32; 33; 34; 35; 18; 19; 20; 21; 22; 23; 24; 25; 26; 27; 28;
    12; 13; 14; 15; 16; 17; 0; 1; 2; 3; 4; 5; 6; 7; 8; 9; 10; 11; 30; 31; 32; 33; 34; 35; 18; 19; 20; 21; 22; 23; 24; 25; 26; 27; 28; 29;
    13; 14; 15; 16; 17; 0; 1; 2; 3; 4; 5; 6; 7; 8; 9; 10; 11; 12; 31; 32; 33; 34; 35; 18; 19; 20; 21; 22; 23; 24; 25; 26; 27; 28; 29; 30;
    14; 15; 16; 17; 0; 1; 2; 3; 4; 5; 6; 7; 8; 9; 10; 11; 12; 13; 32; 33; 34; 35; 18; 19; 20; 21; 22; 23; 24; 25; 26; 27; 28; 29; 30; 31;
    15; 16; 17; 0; 1; 2; 3; 4; 5; 6; 7; 8; 9; 10; 11; 12; 13; 14; 33; 34; 35; 18; 19; 20; 21; 22; 23; 24; 25; 26; 27; 28; 29; 30; 31; 32;
    16; 17; 0; 1; 2; 3; 4; 5; 6; 7; 8; 9; 10; 11; 12; 13; 14; 15; 34; 35; 18; 19; 20; 21; 22; 23; 24; 25; 26; 27; 28; 29; 30; 31; 32; 33;
    17; 0; 1; 2; 3; 4; 5; 6; 7; 8; 9; 10; 11; 12; 13; 14; 15; 16; 35; 18; 19; 20; 21; 22; 23; 24; 25; 26; 27; 28; 29; 30; 31; 32; 33; 34;
    18; 35; 34; 33; 32; 31; 30; 29; 28; 27; 26; 25; 24; 23; 22; 21; 20; 19; 0; 17; 16; 15; 14; 13; 12; 11; 10; 9; 8; 7; 6; 5; 4; 3; 2; 1;
    19; 18; 35; 34; 33; 32; 31; 30; 29; 28; 27; 26; 25; 24; 23; 22; 21; 20; 1; 0; 17; 16; 15; 14; 13; 12; 11; 10; 9; 8; 7; 6; 5; 4; 3; 2;
    20; 19; 18; 35; 34; 33; 32; 31; 30; 29; 28; 27; 26; 25; 24; 23; 22; 21; 2; 1; 0; 17; 16; 15; 14; 13; 12; 11; 10; 9; 8; 7; 6; 5; 4; 3;
    21; 20; 19; 18; 35; 34; 33; 32; 31; 30; 29; 28; 27; 26; 25; 24; 23; 22; 3; 2; 1; 0; 17; 16; 15; 14; 13; 12; 11; 10; 9; 8; 7; 6; 5; 4;
    22; 21; 20; 19; 18; 35; 34; 33; 32; 31; 30; 29; 28; 27; 26; 25; 24; 23; 4; 3; 2; 1; 0; 17; 16; 15; 14; 13; 12; 11; 10; 9; 8; 7; 6; 5;
    23; 22; 21; 20; 19; 18; 35; 34; 33; 32; 31; 30; 29; 28; 27; 26; 25; 24; 5; 4; 3; 2; 1; 0; 17; 16; 15; 14; 13; 12; 11; 10; 9; 8; 7; 6;
    24; 23; 22; 21; 20; 19; 18; 35; 34; 33; 32; 31; 30; 29; 28; 27; 26; 25; 6; 5; 4; 3; 2; 1; 0; 17; 16; 15; 14; 13; 12; 11; 10; 9; 8; 7;
    25; 24; 23; 22; 21; 20; 19; 18; 35; 34; 33; 32; 31; 30; 29; 28; 27; 26; 7; 6; 5; 4; 3; 2; 1; 0; 17; 16; 15; 14; 13; 12; 11; 10; 9; 8;
    26; 25; 24; 23; 22; 21; 20; 19; 18; 35; 34; 33; 32; 31; 30; 29; 28; 27; 8; 7; 6; 5; 4; 3; 2; 1; 0; 17; 16; 15; 14; 13; 12; 11; 10; 9;
    27; 26; 25; 24; 23; 22; 21; 20; 19; 18; 35; 34; 33; 32; 31; 30; 29; 28; 9; 8; 7; 6; 5; 4; 3; 2; 1; 0; 17; 16; 15; 14; 13; 12; 11; 10;
    28; 27; 26; 25; 24; 23; 22; 21; 20; 19; 18; 35; 34; 33; 32; 31; 30; 29; 10; 9; 8; 7; 6; 5; 4; 3; 2; 1; 0; 17; 16; 15; 14; 13; 12; 11;
    29; 28; 27; 26; 25; 24; 23; 22; 21; 20; 19; 18; 35; 34; 33; 32; 31; 30; 11; 10; 9; 8; 7; 6; 5; 4; 3; 2; 1; 0; 17; 16; 15; 14; 13; 12;
    30; 29; 28; 27; 26; 25; 24; 23; 22; 21; 20; 19; 18; 35; 34; 33; 32; 31; 12; 11; 10; 9; 8; 7; 6; 5; 4; 3; 2; 1; 0; 17; 16; 15; 14; 13;
    31; 30; 29; 28; 27; 26; 25; 24; 23; 22; 21; 20; 19; 18; 35; 34; 33; 32; 13; 12; 11; 10; 9; 8; 7; 6; 5; 4; 3; 2; 1; 0; 17; 16; 15; 14;
    32; 31; 30; 29; 28; 27; 26; 25; 24; 23; 22; 21; 20; 19; 18; 35; 34; 33; 14; 13; 12; 11; 10; 9; 8; 7; 6; 5; 4; 3; 2; 1; 0; 17; 16; 15;
    33; 32; 31; 30; 29; 28; 27; 26; 25; 24; 23; 22; 21; 20; 19; 18; 35; 34; 15; 14; 13; 12; 11; 10; 9; 8; 7; 6; 5; 4; 3; 2; 1; 0; 17; 16;
    34; 33; 32; 31; 30; 29; 28; 27; 26; 25; 24; 23; 22; 21; 20; 19; 18; 35; 16; 15; 14; 13; 12; 11; 10; 9; 8; 7; 6; 5; 4; 3; 2; 1; 0; 17;
    35; 34; 33; 32; 31; 30; 29; 28; 27; 26; 25; 24; 23; 22; 21; 20; 19; 18; 17; 16; 15; 14; 13; 12; 11; 10; 9; 8; 7; 6; 5; 4; 3; 2; 1; 0 ].

Definition Verhoeff36_sPermTable : list Z :=
  [ 29; 0; 32; 11; 35; 20; 7; 27; 2; 4; 19; 28; 30; 1; 5; 12;
    3; 9; 16; 22; 6; 33; 8; 24; 26; 21; 14; 10; 34; 31; 15; 25;
    17; 13; 23; 18 ].

Definition Verhoeff36_sCharToValTable : list Z :=
  [ 0; 1; 2; 3; 4; 5; 6; 7; 8; 9; (-1); (-1); (-1); (-1); (-1); (-1);
    (-1); 10; 11; 12; 13; 14; 15; 16; 17; 18; 19; 20; 21; 22; 23; 24;
    25; 26; 27; 28; 29; 30; 31; 32; 33; 34; 35; (-1); (-1); (-1); (-1); (-1);
    (-1); 10; 11; 12; 13; 14; 15; 16; 17; 18; 19; 20; 21; 22; 23; 24;
    25; 26; 27; 28; 29; 30; 31; 32; 33; 34; 35 ].

(** The characters 0123456789ABCDEFGHIJKLMNOPQRSTUVWXYZ. *)
Definition Verhoeff36_sValToCharTable : list Z :=
  [ 48; 49; 50; 51; 52; 53; 54; 55; 56; 57; 65; 66; 67; 68; 69; 70;
    71; 72; 73; 74; 75; 76; 77; 78; 79; 80; 81; 82; 83; 84; 85; 86;
    87; 88; 89; 90 ].

(** ** CharToVal and ValToChar of the four classes *)

Definition Verhoeff10_CharToVal (ch : Z) : Z :=
  if (48 <=? ch) && (ch <=? 57) then ch - 48 else -1.

(** The upper bound test is [val <= Base], as in the source. *)
Definition Verhoeff10_ValToChar (val : Z) : Z :=
  if (0 <=? val) && (val <=? 10) then 48 + val else 0.

Definition Verhoeff16_CharToVal (ch : Z) : Z :=
  if (48 <=? ch) && (ch <=? 57) then ch - 48
  else if (65 <=? ch) && (ch <=? 70) then (ch - 65) + 10
  else if (97 <=? ch) && (ch <=? 102) then (ch - 97) + 10
  else -1.

Definition Verhoeff16_ValToChar (val : Z) : Z :=
  if (0 <=? val) && (val <? 10) then 48 + val
  else if (10 <=? val) && (val <? 16) then 65 + (val - 10)
  else 0.

Definition Verhoeff32_CharToVal (ch : Z) : Z :=
  if (48 <=? ch) && (ch <=? 121) then arr Verhoeff32_sCharToValTable (ch - 48) else -1.

Definition Verhoeff32_ValToChar (val : Z) : Z :=
  if (0 <=? val) && (val <? 32) then arr Verhoeff32_sValToCharTable val else 0.

Definition Verhoeff36_CharToVal (ch : Z) : Z :=
  if (48 <=? ch) && (ch <=? 122) then arr Verhoeff36_sCharToValTable (ch - 48) else -1.

Definition Verhoeff36_ValToChar (val : Z) : Z :=
  if (0 <=? val) && (val <? 36) then arr Verhoeff36_sValToCharTable val else 0.

(** ** The check character, over the parameters of a class *)

Record alg := Alg {
  Base : Z;
  PolygonSize : Z;
  sMultiplyTable : list Z;
  sPermTable : list Z;
  CharToVal : Z -> Z;
  ValToChar : Z -> Z }.

(** The loop of ComputeCheckChar: [i] runs from 1 to [strLen] and reads
    [str[strLen - i]], so the loop consumes the string from its last character;
    [rstr] is what is left to read.  [None] is the early [return 0]. *)
Fixpoint ComputeCheckChar_loop (A : alg) (rstr : list Z) (i : nat) (c : Z) : option Z :=
  match rstr with
  | [] => Some c
  | ch :: rest =>
    let val := CharToVal A ch in
    if val <? 0 then None
    else
      let p := Permute val (sPermTable A) (Base A) i in
      ComputeCheckChar_loop A rest (S i) (arr (sMultiplyTable A) (c * Base A + p))
  end.

Definition ComputeCheckChar (A : alg) (str : list Z) : Z :=
  match ComputeCheckChar_loop A (rev str) 1 0 with
  | None => 0
  | Some c => ValToChar A (DihedralInvert c (PolygonSize A))
  end.

(** [ValidateCheckChar(checkChar, str, strLen)]. *)
Definition ValidateCheckChar2 (A : alg) (checkChar : Z) (str : list Z) : bool :=
  ComputeCheckChar A str =? checkChar.

(** [ValidateCheckChar(str, strLen)]: the check character is the last one. *)
Definition ValidateCheckChar (A : alg) (str : list Z) : bool :=
  if Z.of_nat (length str) =? 0 then false
  else ValidateCheckChar2 A (arr str (Z.of_nat (length str) - 1)) (removelast str).

Definition Verhoeff10 : alg :=
  Alg 10 5 Verhoeff10_sMultiplyTable Verhoeff10_sPermTable Verhoeff10_CharToVal Verhoeff10_ValToChar.
Definition Verhoeff16 : alg :=
  Alg 16 8 Verhoeff16_sMultiplyTable Verhoeff16_sPermTable Verhoeff16_CharToVal Verhoeff16_ValToChar.
Definition Verhoeff32 : alg :=
  Alg 32 16 Verhoeff32_sMultiplyTable Verhoeff32_sPermTable Verhoeff32_CharToVal Verhoeff32_ValToChar.
Definition Verhoeff36 : alg :=
  Alg 36 18 Verhoeff36_sMultiplyTable Verhoeff36_sPermTable Verhoeff36_CharToVal Verhoeff36_ValToChar.

Definition Verhoeff10_ComputeCheckChar := ComputeCheckChar Verhoeff10.
Definition Verhoeff16_ComputeCheckChar := ComputeCheckChar Verhoeff16.
Definition Verhoeff32_ComputeCheckChar := ComputeCheckChar Verhoeff32.
Definition Verhoeff36_ComputeCheckChar := ComputeCheckChar Verhoeff36.
Definition Verhoeff10_ValidateCheckChar := ValidateCheckChar Verhoeff10.
Definition Verhoeff16_ValidateCheckChar := ValidateCheckChar Verhoeff16.
Definition Verhoeff32_ValidateCheckChar := ValidateCheckChar Verhoeff32.
Definition Verhoeff36_ValidateCheckChar := ValidateCheckChar Verhoeff36.

(** The four classes of the source. *)
Inductive is_class : alg -> Prop :=
  | class10 : is_class Verhoeff10
  | class16 : is_class Verhoeff16
  | class32 : is_class Verhoeff32
  | class36 : is_class Verhoeff36.

Example compute10 : Verhoeff10_ComputeCheckChar [50; 51; 54] = 51.
Proof. reflexivity. Qed.

(** ** What the error-detection theorems need of a class

    [DihedralChecks] is a finite check of the tables, decided by evaluation for
    each class; the lemmas of section [Laws] turn the checks into the algebraic
    laws (a group whose permutation is anti-symmetric). *)

Definition mul (A : alg) (c p : Z) : Z := arr (sMultiplyTable A) (c * Base A + p).
Definition dmul (A : alg) (c p : Z) : Z := DihedralMultiply c p (PolygonSize A).
Definition dinv (A : alg) (c : Z) : Z := DihedralInvert c (PolygonSize A).
Definition perm (A : alg) (x : Z) : Z := arr (sPermTable A) x.
Definition in_base (A : alg) (x : Z) : Prop := 0 <= x < Base A.
Definition in_baseb (A : alg) (x : Z) : bool := (0 <=? x) && (x <? Base A).

Lemma in_baseb_spec A x : in_baseb A x = true -> in_base A x.
Proof. unfold in_baseb, in_base. intros H. bool_prop. lia. Qed.

Definition all_upto2 (n : Z) (f : Z -> Z -> bool) : bool :=
  all_upto n (fun x => all_upto n (f x)).

Lemma all_upto2_spec n f :
  all_upto2 n f = true -> forall x y, 0 <= x < n -> 0 <= y < n -> f x y = true.
Proof.
  intros H x y Hx Hy. apply (all_upto_spec n (f x)); [|done].
  by apply (all_upto_spec n (fun x => all_upto n (f x))).
Qed.

Lemma implb_eqb (P : bool) x y : negb P || (x =? y) = true -> P = true -> x = y.
Proof. intros H ->. by apply Z.eqb_eq. Qed.

Class DihedralChecks (A : alg) : Prop := {
  ck_base : 0 < Base A;
  ck_table : all_upto2 (Base A) (fun c p => mul A c p =? dmul A c p) = true;
  ck_range : all_upto2 (Base A) (fun c p => in_baseb A (dmul A c p)) = true;
  ck_assoc : all_upto2 (Base A) (fun a b => all_upto (Base A) (fun c =>
    dmul A a (dmul A b c) =? dmul A (dmul A a b) c)) = true;
  ck_id : all_upto (Base A) (fun p => dmul A 0 p =? p) = true;
  ck_inv_range : all_upto (Base A) (fun c => in_baseb A (dinv A c)) = true;
  ck_inv_l : all_upto (Base A) (fun c => dmul A (dinv A c) c =? 0) = true;
  ck_inv_r : all_upto (Base A) (fun c => dmul A c (dinv A c) =? 0) = true;
  ck_perm_range : all_upto (Base A) (fun x => in_baseb A (perm A x)) = true;
  ck_perm_inj : all_upto2 (Base A) (fun x y => negb (perm A x =? perm A y) || (x =? y)) = true;
  ck_perm_anti : all_upto2 (Base A) (fun x y =>
    negb (dmul A x (perm A y) =? dmul A y (perm A x)) || (x =? y)) = true;
  ck_chars : all_upto (Base A) (fun v => CharToVal A (ValToChar A v) =? v) = true;
  ck_nul : CharToVal A 0 < 0;
  ck_charval : forall ch, CharToVal A ch < Base A }.

Section Laws.
Context (A : alg) {CK : DihedralChecks A}.

Lemma mul_dmul c p : in_base A c -> in_base A p -> mul A c p = dmul A c p.
Proof. intros Hc Hp. apply Z.eqb_eq, (all_upto2_spec _ _ ck_table c p Hc Hp). Qed.

Lemma dmul_range c p : in_base A c -> in_base A p -> in_base A (dmul A c p).
Proof. intros Hc Hp. apply in_baseb_spec, (all_upto2_spec _ _ ck_range c p Hc Hp). Qed.

Lemma mul_range c p : in_base A c -> in_base A p -> in_base A (mul A c p).
Proof. intros. rewrite mul_dmul by done. by apply dmul_range. Qed.

Lemma mul_assoc a b c : in_base A a -> in_base A b -> in_base A c ->
    mul A a (mul A b c) = mul A (mul A a b) c.
Proof.
    intros Ha Hb Hc. rewrite !mul_dmul by auto using mul_range, dmul_range.
    pose proof (all_upto2_spec _ _ ck_assoc a b Ha Hb) as H.
    apply Z.eqb_eq, (all_upto_spec _ _ H c Hc).
Qed.

Lemma zero_base : in_base A 0.
Proof. pose proof ck_base. unfold in_base. lia. Qed.

Lemma mul_id_l p : in_base A p -> mul A 0 p = p.
Proof.
    intros Hp. rewrite mul_dmul by (auto using zero_base).
    apply Z.eqb_eq, (all_upto_spec _ _ ck_id p Hp).
Qed.

Lemma inv_range c : in_base A c -> in_base A (dinv A c).
Proof. intros Hc. apply in_baseb_spec, (all_upto_spec _ _ ck_inv_range c Hc). Qed.

Lemma mul_inv_l c : in_base A c -> mul A (dinv A c) c = 0.
Proof.
    intros Hc. rewrite mul_dmul by auto using inv_range.
    apply Z.eqb_eq, (all_upto_spec _ _ ck_inv_l c Hc).
Qed.

Lemma mul_inv_r c : in_base A c -> mul A c (dinv A c) = 0.
Proof.
    intros Hc. rewrite mul_dmul by auto using inv_range.
    apply Z.eqb_eq, (all_upto_spec _ _ ck_inv_r c Hc).
Qed.

Lemma perm_range x : in_base A x -> in_base A (perm A x).
Proof. intros Hx. apply in_baseb_spec, (all_upto_spec _ _ ck_perm_range x Hx). Qed.

Lemma perm_inj x y : in_base A x -> in_base A y -> perm A x = perm A y -> x = y.
Proof.
    intros Hx Hy E. apply (implb_eqb _ _ _ (all_upto2_spec _ _ ck_perm_inj x y Hx Hy)).
    by apply Z.eqb_eq.
Qed.

Lemma perm_anti x y : in_base A x -> in_base A y ->
    mul A x (perm A y) = mul A y (perm A x) -> x = y.
Proof.
    intros Hx Hy E. rewrite !mul_dmul in E by auto using perm_range.
    apply (implb_eqb _ _ _ (all_upto2_spec _ _ ck_perm_anti x y Hx Hy)). by apply Z.eqb_eq.
Qed.

Lemma char_val v : in_base A v -> CharToVal A (ValToChar A v) = v.
Proof. intros Hv. apply Z.eqb_eq, (all_upto_spec _ _ ck_chars v Hv). Qed.

  (** Consequences: a group. *)

Lemma mul_cancel_l a x y : in_base A a -> in_base A x -> in_base A y ->
    mul A a x = mul A a y -> x = y.
Proof.
    intros Ha Hx Hy E. rewrite <- (mul_id_l x Hx), <- (mul_id_l y Hy), <- (mul_inv_l a Ha).
    rewrite <- !mul_assoc by auto using inv_range. by rewrite E.
Qed.

Lemma mul_id_r p : in_base A p -> mul A p 0 = p.
Proof.
    intros Hp. rewrite <- (mul_inv_l p Hp), mul_assoc by auto using inv_range.
    by rewrite mul_inv_r, mul_id_l by done.
Qed.

Lemma mul_cancel_r a x y : in_base A a -> in_base A x -> in_base A y ->
    mul A x a = mul A y a -> x = y.
Proof.
    intros Ha Hx Hy E. rewrite <- (mul_id_r x Hx), <- (mul_id_r y Hy), <- (mul_inv_r a Ha).
    rewrite !mul_assoc by auto using inv_range. by rewrite E.
Qed.

Lemma inv_iff k c : in_base A k -> in_base A c -> dinv A c = k <-> mul A k c = 0.
Proof.
    intros Hk Hc. split; [intros <-; by apply mul_inv_l|].
    intros E. apply (mul_cancel_r c); auto using inv_range. by rewrite E, mul_inv_l.
Qed.
End Laws.

#[export] Hint Resolve mul_range perm_range inv_range zero_base : weave.

Lemma Verhoeff32_charval ch : Verhoeff32_CharToVal ch < 32.
Proof.
  unfold Verhoeff32_CharToVal. destruct ((48 <=? ch) && (ch <=? 121)) eqn:E; [|lia]. bool_prop.
  pose proof (all_upto_spec 74 (fun i => arr Verhoeff32_sCharToValTable i <? 32) eq_refl (ch - 48) ltac:(lia)) as H'.
  by apply Z.ltb_lt in H'.
Qed.

Lemma Verhoeff36_charval ch : Verhoeff36_CharToVal ch < 36.
Proof.
  unfold Verhoeff36_CharToVal. destruct ((48 <=? ch) && (ch <=? 122)) eqn:E; [|lia]. bool_prop.
  pose proof (all_upto_spec 75 (fun i => arr Verhoeff36_sCharToValTable i <? 36) eq_refl (ch - 48) ltac:(lia)) as H'.
  by apply Z.ltb_lt in H'.
Qed.

Ltac check_tables := split; lazymatch goal with
  | |- forall _, _ => idtac
  | |- _ => vm_compute; reflexivity end.

Lemma Verhoeff10_charval ch : Verhoeff10_CharToVal ch < 10.
Proof. unfold Verhoeff10_CharToVal. destruct (_ && _) eqn:E; bool_prop; lia. Qed.

Lemma Verhoeff16_charval ch : Verhoeff16_CharToVal ch < 16.
Proof.
  unfold Verhoeff16_CharToVal.
  destruct ((48 <=? ch) && (ch <=? 57)) eqn:E1; [bool_prop; lia|].
  destruct ((65 <=? ch) && (ch <=? 70)) eqn:E2; [bool_prop; lia|].
  destruct ((97 <=? ch) && (ch <=? 102)) eqn:E3; bool_prop; lia.
Qed.

#[export] Instance checks10 : DihedralChecks Verhoeff10.
Proof. check_tables. exact Verhoeff10_charval. Qed.
#[export] Instance checks16 : DihedralChecks Verhoeff16.
Proof. check_tables. exact Verhoeff16_charval. Qed.
#[export] Instance checks32 : DihedralChecks Verhoeff32.
Proof. check_tables. exact Verhoeff32_charval. Qed.
#[export] Instance checks36 : DihedralChecks Verhoeff36.
Proof. check_tables. exact Verhoeff36_charval. Qed.

Lemma class_checks A : is_class A -> DihedralChecks A.
Proof. destruct 1; exact _. Qed.

(** ** The loop of ComputeCheckChar *)

Section Loop.
Context (A : alg) {CK : DihedralChecks A}.
Implicit Types (l : list Z) (i : nat) (c : Z).

Abbreviation loop := (ComputeCheckChar_loop A).
Abbreviation sigma i v := (Permute v (sPermTable A) (Base A) i).

Lemma sigma_0 v : in_base A v -> sigma 0 v = v.
Proof. intros [??]. simpl. by apply Z.rem_small. Qed.

Lemma sigma_S i v : in_base A v -> sigma (S i) v = sigma i (perm A v).
Proof. intros [??]. cbn [Permute]. by rewrite Z.rem_small. Qed.

Lemma sigma_range i : forall v, in_base A v -> in_base A (sigma i v).
Proof.
    induction i as [|i IH]; intros v Hv; [by rewrite sigma_0|].
    rewrite sigma_S by done. apply IH. by apply perm_range.
Qed.

Lemma sigma_S_r i : forall v, in_base A v -> sigma (S i) v = perm A (sigma i v).
Proof.
    induction i as [|i IH]; intros v Hv.
    - rewrite sigma_S, !sigma_0 by eauto with weave. done.
    - rewrite sigma_S, IH by eauto with weave. by rewrite sigma_S.
Qed.

Lemma sigma_inj i : forall v w, in_base A v -> in_base A w -> sigma i v = sigma i w -> v = w.
Proof.
    induction i as [|i IH]; intros v w Hv Hw; [by rewrite !sigma_0|].
    rewrite !sigma_S by done. intros E. apply (perm_inj A); auto. apply IH; eauto with weave.
Qed.

  (** A character with a value contributes one multiplication. *)
Lemma loop_cons ch l i c :
    0 <= CharToVal A ch ->
    loop (ch :: l) i c = loop l (S i) (mul A c (sigma i (CharToVal A ch))).
Proof.
    intros Hv. cbn [ComputeCheckChar_loop]. destruct (Z.ltb_spec (CharToVal A ch) 0); [lia|done].
Qed.

Lemma loop_bad ch l i c : CharToVal A ch < 0 -> loop (ch :: l) i c = None.
Proof. intros Hv. simpl. destruct (Z.ltb_spec (CharToVal A ch) 0); [done|lia]. Qed.

Lemma valued ch : 0 <= CharToVal A ch -> in_base A (CharToVal A ch).
Proof. intros. split; [done|]. by apply ck_charval. Qed.

Lemma step_range ch i c :
    in_base A c -> 0 <= CharToVal A ch -> in_base A (mul A c (sigma i (CharToVal A ch))).
Proof. intros. apply mul_range; auto using sigma_range, valued. Qed.

Lemma loop_app l1 l2 : forall i c,
    loop (l1 ++ l2) i c = c' ← loop l1 i c; loop l2 (length l1 + i)%nat c'.
Proof.
    induction l1 as [|ch l1 IH]; intros i c; [done|].
    cbn [app ComputeCheckChar_loop]. destruct (_ <? 0); [done|].
    rewrite IH. simpl. by rewrite Nat.add_succ_r.
Qed.

Lemma loop_valued l : forall i c c', loop l i c = Some c' -> Forall (fun ch => 0 <= CharToVal A ch) l.
Proof.
    induction l as [|ch l IH]; intros i c c' H; [constructor|].
    destruct (Z.lt_ge_cases (CharToVal A ch) 0); [by rewrite loop_bad in H|].
    rewrite loop_cons in H by done. constructor; eauto.
Qed.

Lemma loop_range l : forall i c c', in_base A c -> loop l i c = Some c' -> in_base A c'.
Proof.
    induction l as [|ch l IH]; intros i c c' Hc H; [by injection H as <-|].
    destruct (Z.lt_ge_cases (CharToVal A ch) 0); [by rewrite loop_bad in H|].
    rewrite loop_cons in H by done. eauto using step_range.
Qed.

Lemma loop_total l : forall i c,
    Forall (fun ch => 0 <= CharToVal A ch) l -> exists c', loop l i c = Some c'.
Proof.
    induction l as [|ch l IH]; intros i c Hl; [by eexists|].
    inversion_clear Hl. rewrite loop_cons by done. auto.
Qed.

  (** The loop multiplies its accumulator on the right. *)
Lemma loop_mul k l : in_base A k -> forall i c c',
    in_base A c -> loop l i c = Some c' -> loop l i (mul A k c) = Some (mul A k c').
Proof.
    intros Hk. induction l as [|ch l IH]; intros i c c' Hc H; [by injection H as <-|].
    destruct (Z.lt_ge_cases (CharToVal A ch) 0); [by rewrite loop_bad in H|].
    rewrite loop_cons in * by done. rewrite <- mul_assoc by auto using sigma_range, valued.
    auto using step_range.
Qed.

Lemma loop_inj l : forall i c d x, in_base A c -> in_base A d ->
    loop l i c = Some x -> loop l i d = Some x -> c = d.
Proof.
    induction l as [|ch l IH]; intros i c d x Hc Hd H1 H2; [by simplify_eq/=|].
    destruct (Z.lt_ge_cases (CharToVal A ch) 0); [by rewrite loop_bad in H1|].
    rewrite loop_cons in * by done.
    apply (mul_cancel_r A (sigma i (CharToVal A ch))); auto using sigma_range, valued.
    eapply IH; eauto using step_range.
Qed.

  (** ** Check characters *)

Lemma Validate_snoc body k : ValidateCheckChar A (body ++ [k]) = (ComputeCheckChar A body =? k).
Proof.
    unfold ValidateCheckChar, ValidateCheckChar2. rewrite length_app, removelast_last. simpl.
    destruct (Z.eqb_spec (Z.of_nat (length body + 1)) 0); [lia|].
    unfold arr. replace (Z.to_nat _) with (length body) by lia.
    by rewrite app_nth2, Nat.sub_diag by lia.
Qed.

Lemma nul_bad k : k <> 0 -> (0 =? k) = false.
Proof. intros. apply Z.eqb_neq. congruence. Qed.

  (** What a successful validation says: the value of the check character times
      the product of the body is the identity. *)
Lemma Compute_spec body k : k <> 0 -> (ComputeCheckChar A body =? k) = true ->
    exists c, loop (rev body) 1 0 = Some c /\ in_base A c /\
      in_base A (CharToVal A k) /\ k = ValToChar A (CharToVal A k) /\ mul A (CharToVal A k) c = 0.
Proof.
    intros Hk H. unfold ComputeCheckChar in H.
    destruct (loop (rev body) 1 0) as [c|] eqn:E; [|by rewrite nul_bad in H].
    apply Z.eqb_eq in H. subst k.
    assert (in_base A c) as Hc by (eapply loop_range; eauto using zero_base).
    exists c. rewrite (char_val A) by (by apply inv_range).
    split; [done|]. split; [done|]. split; [by apply (inv_range A)|].
    split; [done|]. by apply (mul_inv_l A).
Qed.

Lemma Compute_ok body k c : loop (rev body) 1 0 = Some c -> in_base A c ->
    (ComputeCheckChar A body =? k) = true -> in_base A (CharToVal A k) /\ mul A (CharToVal A k) c = 0.
Proof.
    intros E Hc H. unfold ComputeCheckChar in H. rewrite E in H. apply Z.eqb_eq in H as <-.
    rewrite (char_val A) by (by apply inv_range). split; [by apply inv_range|by apply mul_inv_l].
Qed.

Lemma Compute_bad body k : k <> 0 ->
    loop (rev body) 1 0 = None -> (ComputeCheckChar A body =? k) = false.
Proof. intros Hk E. unfold ComputeCheckChar. rewrite E. by apply nul_bad. Qed.
End Loop.

(** ** Error detection *)

Section Detection.
Context (A : alg) {CK : DihedralChecks A}.

Lemma step_cons ch l i c r : ComputeCheckChar_loop A (ch :: l) i c = Some r ->
    0 <= CharToVal A ch /\
    ComputeCheckChar_loop A l (S i) (mul A c (Permute (CharToVal A ch) (sPermTable A) (Base A) i)) = Some r.
Proof.
    intros H. destruct (Z.lt_ge_cases (CharToVal A ch) 0); [by rewrite loop_bad in H|].
    by rewrite loop_cons in H.
Qed.

  (** One wrong value in the body changes the product. *)
Lemma substitution_body pre ch ch' body k :
    k <> 0 -> CharToVal A ch' <> CharToVal A ch ->
    (ComputeCheckChar A (pre ++ ch :: body) =? k) = true ->
    (ComputeCheckChar A (pre ++ ch' :: body) =? k) = false.
Proof.
    intros Hk Hne H. destruct (Compute_spec A _ _ Hk H) as (c & E & Hc & Hkv & _ & Hm).
    destruct (ComputeCheckChar A (pre ++ ch' :: body) =? k) eqn:H'; [exfalso|done].
    destruct (Compute_spec A _ _ Hk H') as (c' & E' & Hc' & _ & _ & Hm').
    assert (c = c') as <- by (apply (mul_cancel_l A (CharToVal A k)); auto; congruence).
    rewrite rev_app_distr in E, E'. simpl in E, E'. rewrite <- app_assoc in E, E'.
    rewrite loop_app in E, E'.
    destruct (ComputeCheckChar_loop A (rev body) 1 0) as [d|] eqn:Ed; [|done].
    assert (in_base A d) as Hd by exact (loop_range A _ _ _ _ (zero_base A) Ed).
    cbn [mbind option_bind app] in E, E'.
    apply step_cons in E as [Hch E], E' as [Hch' E'].
    apply Hne. apply (sigma_inj A (length (rev body) + 1)); auto using valued.
    apply (mul_cancel_l A d); auto using sigma_range, valued.
    symmetry. eapply (loop_inj A); [| |exact E|exact E']; auto using step_range.
Qed.

  (** Two adjacent body characters contribute different products in the two orders. *)
Lemma transposition_body pre a b body k :
    k <> 0 -> CharToVal A a <> CharToVal A b ->
    (ComputeCheckChar A (pre ++ a :: b :: body) =? k) = true ->
    (ComputeCheckChar A (pre ++ b :: a :: body) =? k) = false.
Proof.
    intros Hk Hne H. destruct (Compute_spec A _ _ Hk H) as (c & E & Hc & Hkv & _ & Hm).
    destruct (ComputeCheckChar A (pre ++ b :: a :: body) =? k) eqn:H'; [exfalso|done].
    destruct (Compute_spec A _ _ Hk H') as (c' & E' & Hc' & _ & _ & Hm').
    assert (c = c') as <- by (apply (mul_cancel_l A (CharToVal A k)); auto; congruence).
    rewrite rev_app_distr in E, E'. simpl in E, E'. rewrite <- !app_assoc in E, E'.
    rewrite loop_app in E, E'.
    destruct (ComputeCheckChar_loop A (rev body) 1 0) as [d|] eqn:Ed; [|done].
    assert (in_base A d) as Hd by exact (loop_range A _ _ _ _ (zero_base A) Ed).
    cbn [mbind option_bind app] in E, E'.
    apply step_cons in E as [Hb E], E' as [Ha E'].
    apply step_cons in E as [_ E], E' as [_ E'].
    apply Hne. apply (sigma_inj A (length (rev body) + 1)); auto using valued.
    pose proof (loop_inj A _ _ _ _ _ (step_range A _ _ _ (step_range A _ _ _ Hd Hb) Ha)
                  (step_range A _ _ _ (step_range A _ _ _ Hd Ha) Hb) E E') as Hx.
    rewrite <- !mul_assoc in Hx by auto using sigma_range, valued.
    apply mul_cancel_l in Hx; auto using sigma_range, valued, mul_range.
    rewrite !sigma_S_r in Hx by auto using valued.
    symmetry. apply (perm_anti A); auto using sigma_range, valued.
Qed.

  (** The check character exchanged with its neighbour. *)
Lemma transposition_check pre a k :
    k <> 0 -> a <> 0 -> CharToVal A a <> CharToVal A k ->
    (ComputeCheckChar A (pre ++ [a]) =? k) = true ->
    (ComputeCheckChar A (pre ++ [k]) =? a) = false.
Proof.
    intros Hk Ha Hne H. destruct (Compute_spec A _ _ Hk H) as (c & E & Hc & Hkv & _ & Hm).
    destruct (ComputeCheckChar A (pre ++ [k]) =? a) eqn:H'; [exfalso|done].
    destruct (Compute_spec A _ _ Ha H') as (c' & E' & Hc' & Hav & _ & Hm').
    rewrite rev_app_distr in E, E'. apply step_cons in E as [_ E], E' as [_ E'].
    assert (forall v, in_base A v -> mul A 0 (Permute v (sPermTable A) (Base A) 1) = perm A v) as H1.
    { intros v Hv. by rewrite mul_id_l, sigma_S_r, sigma_0 by auto using sigma_range. }
    rewrite H1 in E, E' by done.
    apply (loop_mul A _ _ Hkv) in E; [|by apply perm_range].
    apply (loop_mul A _ _ Hav) in E'; [|by apply perm_range].
    apply Hne. apply (perm_anti A); auto.
    eapply (loop_inj A); [| |exact E'|]; eauto using mul_range, perm_range. congruence.
Qed.
End Detection.

(** ** Properties *)

Section Whole.
Context (A : alg) {CK : DihedralChecks A}.

  (** The value part of a string's characters. *)
Definition all_valued (str : list Z) : Prop := Forall (fun ch => 0 <= CharToVal A ch) str.

Lemma Compute_nonzero body : all_valued body -> ComputeCheckChar A body <> 0.
Proof.
    intros Hb. unfold ComputeCheckChar.
    destruct (loop_total A (rev body) 1 0 ltac:(by apply Forall_rev)) as [c E]. rewrite E.
    assert (in_base A c) as Hc by (eapply loop_range; eauto using zero_base).
    intros Hz. pose proof (char_val A _ (inv_range A c Hc)) as Hv.
    unfold dinv in Hv. rewrite Hz in Hv. pose proof ck_nul.
    destruct (inv_range A c Hc). unfold dinv in *. lia.
Qed.

Lemma Compute_valued body : ComputeCheckChar A body <> 0 -> all_valued body.
Proof.
    unfold ComputeCheckChar. destruct (ComputeCheckChar_loop A (rev body) 1 0) eqn:E; [|done].
    intros _. apply loop_valued in E. apply Forall_rev in E. by rewrite rev_involutive in E.
Qed.

Lemma substitution_whole pre ch ch' post :
    Forall (fun x => x <> 0) post -> CharToVal A ch' <> CharToVal A ch ->
    ValidateCheckChar A (pre ++ ch :: post) = true ->
    ValidateCheckChar A (pre ++ ch' :: post) = false.
Proof.
    destruct post as [|k post _] using rev_ind; intros Hz Hne.
    - rewrite !Validate_snoc. intros <-%Z.eqb_eq. apply Z.eqb_neq. congruence.
    - apply Forall_app in Hz as [_ Hk]. inversion_clear Hk.
      rewrite !app_comm_cons, !app_assoc, !Validate_snoc. by apply substitution_body.
Qed.

Lemma transposition_whole pre a b post :
    a <> 0 -> b <> 0 -> Forall (fun x => x <> 0) post -> CharToVal A a <> CharToVal A b ->
    ValidateCheckChar A (pre ++ a :: b :: post) = true ->
    ValidateCheckChar A (pre ++ b :: a :: post) = false.
Proof.
    destruct post as [|k post _] using rev_ind; intros Ha Hb Hz Hne.
    - rewrite (app_assoc pre [a] [b] : pre ++ a :: [b] = _), (app_assoc pre [b] [a] : pre ++ b :: [a] = _),
        !Validate_snoc. by apply transposition_check.
    - apply Forall_app in Hz as [_ Hk]. inversion_clear Hk.
      rewrite !app_comm_cons, !app_assoc, !Validate_snoc. by apply transposition_body.
Qed.
End Whole.

(** in each of the four classes the multiplication table is the operation
    [DihedralMultiply] of the dihedral group of its polygon, at every pair of
    values: the table-driven loop and the arithmetic definition agree. *)
Theorem Verhoeff_table_dihedral A c p :
  is_class A -> 0 <= c < Base A -> 0 <= p < Base A ->
  arr (sMultiplyTable A) (c * Base A + p) = DihedralMultiply c p (PolygonSize A).
Proof. intros HA Hc Hp. apply class_checks in HA. by apply mul_dmul. Qed.

Theorem Verhoeff_table_dihedral_witness :
  arr (sMultiplyTable Verhoeff16) (9 * 16 + 12) = DihedralMultiply 9 12 8.
Proof. apply (Verhoeff_table_dihedral Verhoeff16 9 12); [constructor|simpl; lia|simpl; lia]. Defined.

(** the check character validates and is the only one that does: over every
    string, [ComputeCheckChar] returns 0 exactly when some character is not in
    the class's alphabet, and a non-NUL character appended to the string
    validates exactly when the string is in the alphabet and the character is
    the computed one. *)
Theorem Verhoeff_check_char_unique A str k :
  is_class A -> k <> 0 ->
  (ComputeCheckChar A str = 0 <-> ~ Forall (fun ch => 0 <= CharToVal A ch) str) /\
  (ValidateCheckChar A (str ++ [k]) = true <->
   Forall (fun ch => 0 <= CharToVal A ch) str /\ k = ComputeCheckChar A str).
Proof.
  intros HA Hk. apply class_checks in HA. split.
  - split; [intros E H; by apply (Compute_nonzero A str)|].
    intros H. destruct (Z.eq_dec (ComputeCheckChar A str) 0); [done|].
    exfalso. by apply H, Compute_valued.
  - rewrite Validate_snoc, Z.eqb_eq. split; [|by intros [_ ->]].
    intros <-. split; [by apply Compute_valued|done].
Qed.

Theorem Verhoeff_check_char_unique_witness :
  Verhoeff10_ValidateCheckChar ([50; 51; 54] ++ [51]) = true.
Proof.
  apply (Verhoeff_check_char_unique Verhoeff10 [50; 51; 54] 51); [constructor|lia|].
  split; [repeat constructor; vm_compute; discriminate|reflexivity].
Defined.

(** C4: a valid string in which any one character (a body character or the check
    character itself) is replaced by one of another value no longer validates,
    in each of the four classes. *)
Theorem Verhoeff_detects_substitution A pre ch ch' post :
  is_class A -> Forall (fun x => x <> 0) post -> CharToVal A ch' <> CharToVal A ch ->
  ValidateCheckChar A (pre ++ ch :: post) = true ->
  ValidateCheckChar A (pre ++ ch' :: post) = false.
Proof. intros HA. apply class_checks in HA. by apply substitution_whole. Qed.

Theorem Verhoeff_detects_substitution_witness :
  Verhoeff10_ValidateCheckChar ([50] ++ 52 :: [54; 51]) = false.
Proof.
  apply (Verhoeff_detects_substitution Verhoeff10 [50] 51 52 [54; 51]);
    [constructor|repeat constructor; lia|vm_compute; discriminate|reflexivity].
Defined.

(** A valid string in which two adjacent characters of different values are
    exchanged (two body characters, or the last one and the check character) no
    longer validates, in each of the four classes. *)
Theorem Verhoeff_detects_transposition A pre a b post :
  is_class A -> a <> 0 -> b <> 0 -> Forall (fun x => x <> 0) post ->
  CharToVal A a <> CharToVal A b ->
  ValidateCheckChar A (pre ++ a :: b :: post) = true ->
  ValidateCheckChar A (pre ++ b :: a :: post) = false.
Proof. intros HA. apply class_checks in HA. by apply transposition_whole. Qed.

Theorem Verhoeff_detects_transposition_witness :
  Verhoeff10_ValidateCheckChar ([50] ++ 54 :: 51 :: [51]) = false.
Proof.
  apply (Verhoeff_detects_transposition Verhoeff10 [50] 51 54 [51]);
    [constructor|lia|lia|repeat constructor; lia|vm_compute; discriminate|reflexivity].
Defined.

(** [Verhoeff10::ValToChar] tests [val <= Base] where the three other classes
    test [val < Base]: for the value 10, which is no digit, it returns the
    character ':' instead of 0, and that character has no value. *)
Theorem Verhoeff10_ValToChar_base :
  Verhoeff10_ValToChar 10 = 58 /\ Verhoeff10_CharToVal 58 = -1 /\
  Verhoeff16_ValToChar 16 = 0 /\ Verhoeff32_ValToChar 32 = 0 /\ Verhoeff36_ValToChar 36 = 0.
Proof. by vm_compute. Qed.
