(* ===== verification/TLVTypes.v ===== *)
(** * TLV types and tags (src/src/lib/core/WeaveTLVTypes.h, WeaveTLVTags.h)

    The enumerations are numbers, because the code casts between TLVType,
    TLVElementType and the control byte; each enumerator keeps its name.  A tag
    is a 64-bit number: profile id in the upper half, tag number in the lower,
    with the special tags in the profile 0xFFFFFFFF. *)
From S2P Require Import Prelude.

(** ** WeaveTLVTypes.h *)

Definition kTLVType_NotSpecified : Z := -1.
Definition kTLVType_UnknownContainer : Z := -2.
Definition kTLVType_SignedInteger : Z := 0.
Definition kTLVType_UnsignedInteger : Z := 4.
Definition kTLVType_Boolean : Z := 8.
Definition kTLVType_FloatingPointNumber : Z := 10.
Definition kTLVType_UTF8String : Z := 12.
Definition kTLVType_ByteString : Z := 16.
Definition kTLVType_Null : Z := 20.
Definition kTLVType_Structure : Z := 21.
Definition kTLVType_Array : Z := 22.
Definition kTLVType_Path : Z := 23.

Definition kTLVElementType_NotSpecified : Z := -1.
Definition kTLVElementType_Int8 : Z := 0.
Definition kTLVElementType_Int16 : Z := 1.
Definition kTLVElementType_Int32 : Z := 2.
Definition kTLVElementType_Int64 : Z := 3.
Definition kTLVElementType_UInt8 : Z := 4.
Definition kTLVElementType_UInt16 : Z := 5.
Definition kTLVElementType_UInt32 : Z := 6.
Definition kTLVElementType_UInt64 : Z := 7.
Definition kTLVElementType_BooleanFalse : Z := 8.
Definition kTLVElementType_BooleanTrue : Z := 9.
Definition kTLVElementType_FloatingPointNumber32 : Z := 10.
Definition kTLVElementType_FloatingPointNumber64 : Z := 11.
Definition kTLVElementType_UTF8String_1ByteLength : Z := 12.
Definition kTLVElementType_ByteString_8ByteLength : Z := 19.
Definition kTLVElementType_Null : Z := 20.
Definition kTLVElementType_Structure : Z := 21.
Definition kTLVElementType_Array : Z := 22.
Definition kTLVElementType_Path : Z := 23.
Definition kTLVElementType_EndOfContainer : Z := 24.

Definition kTLVFieldSize_0Byte : Z := -1.
Definition kTLVFieldSize_1Byte : Z := 0.
Definition kTLVFieldSize_2Byte : Z := 1.
Definition kTLVFieldSize_4Byte : Z := 2.
Definition kTLVFieldSize_8Byte : Z := 3.

Definition kTLVTypeMask : Z := 31.
Definition kTLVTypeSizeMask : Z := 3.

(** The parameter of these predicates is a [uint8_t]: the argument -1
    (kTLVElementType_NotSpecified) arrives as 255. *)
Definition IsValidTLVType (type : Z) : bool := u8 type <=? kTLVElementType_EndOfContainer.

Definition TLVTypeHasValue (type : Z) : bool :=
  (u8 type <=? kTLVElementType_UInt64) ||
  ((kTLVElementType_FloatingPointNumber32 <=? u8 type) && (u8 type <=? kTLVElementType_ByteString_8ByteLength)).

Definition TLVTypeHasLength (type : Z) : bool :=
  (kTLVElementType_UTF8String_1ByteLength <=? u8 type) && (u8 type <=? kTLVElementType_ByteString_8ByteLength).

Definition TLVTypeIsContainer (type : Z) : bool :=
  (kTLVElementType_Structure <=? u8 type) && (u8 type <=? kTLVElementType_Path).

Definition TLVTypeIsString (type : Z) : bool :=
  (kTLVElementType_UTF8String_1ByteLength <=? u8 type) && (u8 type <=? kTLVElementType_ByteString_8ByteLength).

Definition GetTLVFieldSize (type : Z) : Z :=
  if TLVTypeHasValue type then Z.land (u8 type) kTLVTypeSizeMask else kTLVFieldSize_0Byte.

Definition TLVFieldSizeToBytes (fieldSize : Z) : Z :=
  if negb (fieldSize =? kTLVFieldSize_0Byte) then Z.shiftl 1 fieldSize else 0.

(** ** WeaveTLVTags.h *)

Definition kProfileIdNotSpecified : Z := 4294967295.
Definition kCommonProfileId : Z := 0.

Definition kProfileIdMask : Z := 18446744069414584320.
Definition kProfileIdShift : Z := 32.
Definition kVendorIdShift : Z := 48.
Definition kProfileNumShift : Z := 32.
Definition kTagNumMask : Z := 4294967295.
Definition kSpecialTagMarker : Z := 18446744069414584320.
Definition kContextTagMaxNum : Z := 256.

Definition kTLVTagControl_Anonymous : Z := 0.
Definition kTLVTagControl_ContextSpecific : Z := 32.
Definition kTLVTagControl_CommonProfile_2Bytes : Z := 64.
Definition kTLVTagControl_CommonProfile_4Bytes : Z := 96.
Definition kTLVTagControl_ImplicitProfile_2Bytes : Z := 128.
Definition kTLVTagControl_ImplicitProfile_4Bytes : Z := 160.
Definition kTLVTagControl_FullyQualified_6Bytes : Z := 192.
Definition kTLVTagControl_FullyQualified_8Bytes : Z := 224.

Definition kTLVTagControlMask : Z := 224.
Definition kTLVTagControlShift : Z := 5.

(** ProfileTag(uint32_t profileId, uint32_t tagNum) *)
Definition ProfileTag (profileId tagNum : Z) : Z := Z.lor (Z.shiftl profileId kProfileIdShift) tagNum.
(** ProfileTag(uint16_t vendorId, uint16_t profileNum, uint32_t tagNum) *)
Definition ProfileTag3 (vendorId profileNum tagNum : Z) : Z :=
  Z.lor (Z.lor (Z.shiftl vendorId kVendorIdShift) (Z.shiftl profileNum kProfileNumShift)) tagNum.
Definition ContextTag (tagNum : Z) : Z := Z.lor kSpecialTagMarker tagNum.
Definition CommonTag (tagNum : Z) : Z := ProfileTag kCommonProfileId tagNum.

Definition AnonymousTag : Z := Z.lor kSpecialTagMarker 4294967295.
Definition UnknownImplicitTag : Z := Z.lor kSpecialTagMarker 4294967294.

Definition ProfileIdFromTag (tag : Z) : Z := u32 (Z.shiftr (Z.land tag kProfileIdMask) kProfileIdShift).
Definition ProfileNumFromTag (tag : Z) : Z := u16 (Z.shiftr (Z.land tag kProfileIdMask) kProfileIdShift).
Definition TagNumFromTag (tag : Z) : Z := u32 (Z.land tag kTagNumMask).
Definition VendorIdFromTag (tag : Z) : Z := u16 (Z.shiftr (Z.land tag kProfileIdMask) kVendorIdShift).
Definition IsProfileTag (tag : Z) : bool := negb (Z.land tag kProfileIdMask =? kSpecialTagMarker).
Definition IsContextTag (tag : Z) : bool :=
  (Z.land tag kProfileIdMask =? kSpecialTagMarker) && (TagNumFromTag tag <? kContextTagMaxNum).
Definition IsSpecialTag (tag : Z) : bool := Z.land tag kProfileIdMask =? kSpecialTagMarker.

Example context_tag : ContextTag 5 = 18446744069414584325 /\ IsContextTag (ContextTag 5) = true.
Proof. by vm_compute. Qed.
Example profile_tag : VendorIdFromTag (ProfileTag3 9050 4 70000) = 9050 /\
  ProfileNumFromTag (ProfileTag3 9050 4 70000) = 4 /\ TagNumFromTag (ProfileTag3 9050 4 70000) = 70000.
Proof. by vm_compute. Qed.

(** ** Tags as numbers *)

(** A tag is its profile id and its tag number. *)
Definition is_tag (tag : Z) : Prop := 0 <= tag < 18446744073709551616.
Definition tag_hi (tag : Z) : Z := tag / 4294967296.
Definition tag_lo (tag : Z) : Z := tag mod 4294967296.

Lemma land_profile_mask tag : is_tag tag ->
  Z.land tag kProfileIdMask = tag_hi tag * 4294967296.
Proof.
  intros Ht. unfold kProfileIdMask, tag_hi.
  rewrite <- (Z.shiftl_mul_pow2 _ 32), <- (Z.shiftr_div_pow2 _ 32) by lia.
  apply Z.bits_inj'; intros n Hn. rewrite Z.land_spec.
  change 18446744069414584320 with (Z.shiftl (Z.ones 32) 32).
  destruct (Z.lt_ge_cases n 32); [by rewrite !Z.shiftl_spec_low, andb_false_r by lia|].
  rewrite !Z.shiftl_spec, Z.shiftr_spec by lia. replace (n - 32 + 32) with n by lia.
  destruct (Z.lt_ge_cases n 64).
  - rewrite Z.ones_spec_low by lia. apply andb_true_r.
  - rewrite Z.ones_spec_high, andb_false_r by lia. symmetry.
    destruct (Z.eq_dec tag 0) as [->|]; [apply Z.bits_0|].
    apply Z.bits_above_log2; [unfold is_tag in Ht; lia|].
    apply Z.lt_le_trans with 64; [|lia]. apply Z.log2_lt_pow2; unfold is_tag in Ht; lia.
Qed.

Lemma land_tag_mask tag : Z.land tag kTagNumMask = tag_lo tag.
Proof. unfold kTagNumMask, tag_lo. apply (land_ones_mod tag 32). lia. Qed.

Lemma tag_hi_range tag : is_tag tag -> 0 <= tag_hi tag < 4294967296.
Proof. unfold is_tag, tag_hi. intros. mlia. Qed.
Lemma tag_lo_range tag : 0 <= tag_lo tag < 4294967296.
Proof. unfold tag_lo. mlia. Qed.

Lemma TagNum_lo tag : TagNumFromTag tag = tag_lo tag.
Proof. unfold TagNumFromTag. rewrite land_tag_mask. apply u32_id, tag_lo_range. Qed.

Lemma ProfileId_hi tag : is_tag tag -> ProfileIdFromTag tag = tag_hi tag.
Proof.
  intros Ht. unfold ProfileIdFromTag, kProfileIdShift.
  rewrite land_profile_mask, shiftr_div by (done || lia). pose proof (tag_hi_range tag Ht). mlia.
Qed.

Lemma IsSpecialTag_hi tag : is_tag tag -> IsSpecialTag tag = (tag_hi tag =? 4294967295).
Proof.
  intros Ht. unfold IsSpecialTag, kSpecialTagMarker. rewrite land_profile_mask by done.
  destruct (Z.eqb_spec (tag_hi tag) 4294967295) as [->|]; [done|]. apply Z.eqb_neq. lia.
Qed.

Lemma IsContextTag_hi tag : is_tag tag ->
  IsContextTag tag = (tag_hi tag =? 4294967295) && (tag_lo tag <? 256).
Proof.
  intros Ht. unfold IsContextTag. rewrite TagNum_lo.
  pose proof (IsSpecialTag_hi tag Ht) as H. unfold IsSpecialTag in H. by rewrite H.
Qed.

Lemma ProfileTag_sum p n : 0 <= n < 4294967296 -> ProfileTag p n = p * 4294967296 + n.
Proof.
  intros Hn. unfold ProfileTag, kProfileIdShift. rewrite shiftl_mul by lia.
  by apply (lor_add_disjoint p n 32).
Qed.

Lemma ContextTag_sum n : 0 <= n < 256 -> ContextTag n = 18446744069414584320 + n.
Proof.
  intros Hn. unfold ContextTag, kSpecialTagMarker.
  change 18446744069414584320 with (4294967295 * 2 ^ 32). apply lor_add_disjoint; lia.
Qed.

Lemma ProfileTag3_sum v p n : 0 <= p < 65536 -> 0 <= n < 4294967296 ->
  ProfileTag3 v p n = v * 281474976710656 + p * 4294967296 + n.
Proof.
  intros Hp Hn. unfold ProfileTag3, kVendorIdShift, kProfileNumShift. rewrite !shiftl_mul by lia.
  rewrite (lor_add_disjoint v (p * 2 ^ 32) 48) by lia.
  replace (v * 2 ^ 48 + p * 2 ^ 32) with ((v * 65536 + p) * 2 ^ 32) by lia.
  rewrite lor_add_disjoint by lia. lia.
Qed.

Lemma tag_split tag : tag = tag_hi tag * 4294967296 + tag_lo tag.
Proof. unfold tag_hi, tag_lo. mlia. Qed.

(** ** Element types *)

Definition is_elem_type (t : Z) : Prop := 0 <= t <= 24.

