(* ===== verification/TLVReader.v ===== *)
(** * The TLV reader (src/src/lib/core/WeaveTLVReader.cpp)

    [TLVReader] is the state of the C++ class, one operation per method, in the
    monad [M TLVReader].  The two pointers mReadPoint and mBufEnd are one field:
    [Some l] when both lie in one buffer, [l] being the bytes from mReadPoint to
    mBufEnd; [None] when GetNextPacketBuffer has moved mReadPoint (to NULL or to
    an empty buffer) and mBufEnd was left behind, so that a comparison or a read
    through them is undefined.  mBufHandle is the list of the contents of the
    packet buffers that follow the current one.  GetNextBuffer is either NULL or
    GetNextPacketBuffer; other callbacks are not modelled. *)
From S2P Require Import Prelude Encoding TLVTypes.
Local Open Scope weave_scope.

Record TLVReader := mkReader {
  ImplicitProfileId : Z;
  GetNextBuffer : bool;
  mElemTag : Z;
  mElemLenOrVal : Z;
  mBufHandle : list (list Z);
  mReadPoint : option (list Z);
  mLenRead : Z;
  mMaxLen : Z;
  mContainerType : Z;
  mControlByte : Z;
  mContainerOpen : bool }.

Definition kTLVControlByte_NotSpecified : Z := 65535.
Definition sTagSizes : list Z := [0; 1; 2; 4; 2; 4; 6; 8].

(** Assignments to groups of fields. *)
Definition set_position (h : list (list Z)) (p : option (list Z)) (n : Z) (r : TLVReader) : TLVReader :=
  mkReader (ImplicitProfileId r) (GetNextBuffer r) (mElemTag r) (mElemLenOrVal r) h p n
    (mMaxLen r) (mContainerType r) (mControlByte r) (mContainerOpen r).
Definition set_element (tag v c : Z) (r : TLVReader) : TLVReader :=
  mkReader (ImplicitProfileId r) (GetNextBuffer r) tag v (mBufHandle r) (mReadPoint r) (mLenRead r)
    (mMaxLen r) (mContainerType r) c (mContainerOpen r).
Definition set_lenOrVal (v : Z) (r : TLVReader) : TLVReader := set_element (mElemTag r) v (mControlByte r) r.
Definition set_tag (t : Z) (r : TLVReader) : TLVReader := set_element t (mElemLenOrVal r) (mControlByte r) r.
Definition set_control (c : Z) (r : TLVReader) : TLVReader := set_element (mElemTag r) (mElemLenOrVal r) c r.
Definition set_containerType (t : Z) (r : TLVReader) : TLVReader :=
  mkReader (ImplicitProfileId r) (GetNextBuffer r) (mElemTag r) (mElemLenOrVal r) (mBufHandle r) (mReadPoint r)
    (mLenRead r) (mMaxLen r) t (mControlByte r) (mContainerOpen r).
Definition SetContainerOpen (b : bool) (r : TLVReader) : TLVReader :=
  mkReader (ImplicitProfileId r) (GetNextBuffer r) (mElemTag r) (mElemLenOrVal r) (mBufHandle r) (mReadPoint r)
    (mLenRead r) (mMaxLen r) (mContainerType r) (mControlByte r) b.
(** The application assigns the public field ImplicitProfileId. *)
Definition set_implicit (p : Z) (r : TLVReader) : TLVReader :=
  mkReader p (GetNextBuffer r) (mElemTag r) (mElemLenOrVal r) (mBufHandle r) (mReadPoint r)
    (mLenRead r) (mMaxLen r) (mContainerType r) (mControlByte r) (mContainerOpen r).

(** ** Initialisation *)

(** Init(const uint8_t *data, uint32_t dataLen) *)
Definition Init (data : list Z) : TLVReader :=
  mkReader kProfileIdNotSpecified false AnonymousTag 0 [] (Some data) 0 (Z.of_nat (length data))
    kTLVType_NotSpecified kTLVControlByte_NotSpecified false.

(** Init(PacketBuffer *buf, uint32_t maxLen): [buf] is the content of the buffer
    and [chain] those of the buffers linked after it. *)
Definition InitBuffer (buf : list Z) (chain : list (list Z)) (maxLen : Z) : TLVReader :=
  mkReader kProfileIdNotSpecified false AnonymousTag 0 chain (Some buf) 0 maxLen
    kTLVType_NotSpecified kTLVControlByte_NotSpecified false.

(** Init(PacketBuffer *buf, uint32_t maxLen, bool allowDiscontiguousBuffers) *)
Definition InitBuffers (buf : list Z) (chain : list (list Z)) (maxLen : Z) (allowDiscontiguousBuffers : bool) : TLVReader :=
  mkReader kProfileIdNotSpecified allowDiscontiguousBuffers AnonymousTag 0 chain (Some buf) 0 maxLen
    kTLVType_NotSpecified kTLVControlByte_NotSpecified false.

(** ** The current element *)

Definition ElementType (r : TLVReader) : Z :=
  if mControlByte r =? kTLVControlByte_NotSpecified then kTLVElementType_NotSpecified
  else Z.land (mControlByte r) kTLVTypeMask.

Definition GetType (r : TLVReader) : Z :=
  let elemType := ElementType r in
  if elemType =? kTLVElementType_EndOfContainer then kTLVType_NotSpecified
  else if (elemType =? kTLVElementType_FloatingPointNumber32) || (elemType =? kTLVElementType_FloatingPointNumber64)
  then kTLVType_FloatingPointNumber
  else if (elemType =? kTLVElementType_NotSpecified) || (kTLVElementType_Null <=? elemType) then elemType
  else Z.land elemType (Z.lnot kTLVTypeSizeMask).

Definition GetTag (r : TLVReader) : Z := mElemTag r.
Definition GetControlByte (r : TLVReader) : Z := mControlByte r.
Definition GetContainerType (r : TLVReader) : Z := mContainerType r.
Definition GetLength (r : TLVReader) : Z :=
  if TLVTypeHasLength (ElementType r) then u32 (mElemLenOrVal r) else 0.
Definition GetLengthRead (r : TLVReader) : Z := mLenRead r.
Definition GetRemainingLength (r : TLVReader) : Z := u32 (mMaxLen r - mLenRead r).

(** ClearElementState *)
Definition ClearElementState (r : TLVReader) : TLVReader :=
  set_element AnonymousTag 0 kTLVControlByte_NotSpecified r.

(** ** Reading bytes *)

(** EnsureData with GetNextPacketBuffer inlined. *)
Definition EnsureData (noDataErr : WEAVE_ERROR) : M TLVReader unit := fun r =>
  match mReadPoint r with
  | Some [] =>
    if mLenRead r =? mMaxLen r then (Err noDataErr, r)
    else if negb (GetNextBuffer r) then (Err noDataErr, r)
    else
      match mBufHandle r with
      | [] => (Err noDataErr, set_position [] None (mLenRead r) r)
      | b :: rest =>
        let bufLen := u32 (Z.of_nat (length b)) in
        if bufLen =? 0 then (Err noDataErr, set_position rest None (mLenRead r) r)
        else
          let overallLenRemaining := u32 (mMaxLen r - mLenRead r) in
          let bufLen := if overallLenRemaining <? bufLen then overallLenRemaining else bufLen in
          (Ok tt, set_position rest (Some (take (Z.to_nat bufLen) b)) (mLenRead r) r)
      end
  | _ => (Ok tt, r)
  end.

(** ReadData: the bytes copied to [buf] are returned (a NULL [buf] ignores them). *)
Fixpoint ReadData_loop (fuel : nat) (len : Z) (acc : list Z) : M TLVReader (list Z) :=
  if negb (0 <? len) then ret acc
  else match fuel with
  | O => fun r => (Diverges, r)
  | S k =>
    do* EnsureData WEAVE_ERROR_TLV_UNDERRUN in
    fun r => match mReadPoint r with
    | None => (Undefined, r)
    | Some l =>
      let remainingLen := u32 (Z.of_nat (length l)) in
      let readLen := if remainingLen <? len then remainingLen else len in
      ReadData_loop k (len - readLen) (acc ++ take (Z.to_nat readLen) l)
        (set_position (mBufHandle r) (Some (drop (Z.to_nat readLen) l)) (u32 (mLenRead r + readLen)) r)
    end
  end.

(** Every round but the last leaves the current buffer, so two more than the
    number of following buffers are enough. *)
Definition ReadData (len : Z) : M TLVReader (list Z) := fun r =>
  ReadData_loop (S (S (length (mBufHandle r)))) len [] r.

(** ReadTag(tagControl, p): the tag and the advanced pointer. *)
Definition ReadTag (implicitProfileId tagControl : Z) (p : list Z) : Z * list Z :=
  if tagControl =? kTLVTagControl_ContextSpecific then
    let '(n, p) := Read8 p in (ContextTag n, p)
  else if tagControl =? kTLVTagControl_CommonProfile_2Bytes then
    let '(n, p) := LittleEndian_Read16 p in (CommonTag n, p)
  else if tagControl =? kTLVTagControl_CommonProfile_4Bytes then
    let '(n, p) := LittleEndian_Read32 p in (CommonTag n, p)
  else if tagControl =? kTLVTagControl_ImplicitProfile_2Bytes then
    if implicitProfileId =? kProfileIdNotSpecified then (UnknownImplicitTag, p)
    else let '(n, p) := LittleEndian_Read16 p in (ProfileTag implicitProfileId n, p)
  else if tagControl =? kTLVTagControl_ImplicitProfile_4Bytes then
    if implicitProfileId =? kProfileIdNotSpecified then (UnknownImplicitTag, p)
    else let '(n, p) := LittleEndian_Read32 p in (ProfileTag implicitProfileId n, p)
  else if tagControl =? kTLVTagControl_FullyQualified_6Bytes then
    let '(vendorId, p) := LittleEndian_Read16 p in
    let '(profileNum, p) := LittleEndian_Read16 p in
    let '(n, p) := LittleEndian_Read16 p in (ProfileTag3 vendorId profileNum n, p)
  else if tagControl =? kTLVTagControl_FullyQualified_8Bytes then
    let '(vendorId, p) := LittleEndian_Read16 p in
    let '(profileNum, p) := LittleEndian_Read16 p in
    let '(n, p) := LittleEndian_Read32 p in (ProfileTag3 vendorId profileNum n, p)
  else (AnonymousTag, p).

(** The switch on lenOrValFieldSize of ReadElement. *)
Definition ReadLenOrVal (lenOrValFieldSize : Z) (p : list Z) : Z :=
  if lenOrValFieldSize =? kTLVFieldSize_1Byte then Get8 p
  else if lenOrValFieldSize =? kTLVFieldSize_2Byte then LittleEndian_Get16 p
  else if lenOrValFieldSize =? kTLVFieldSize_4Byte then LittleEndian_Get32 p
  else if lenOrValFieldSize =? kTLVFieldSize_8Byte then LittleEndian_Get64 p
  else 0.

(** The error VerifyElement finds, if any: it only reads the element state. *)
Definition VerifyElement_error (r : TLVReader) : option WEAVE_ERROR :=
  let check :=
    if ElementType r =? kTLVElementType_EndOfContainer then
      if mContainerType r =? kTLVType_NotSpecified then Some WEAVE_ERROR_INVALID_TLV_ELEMENT
      else if negb (mElemTag r =? AnonymousTag) then Some WEAVE_ERROR_INVALID_TLV_TAG
      else None
    else if mElemTag r =? UnknownImplicitTag then Some WEAVE_ERROR_UNKNOWN_IMPLICIT_TLV_TAG
    else if mContainerType r =? kTLVType_NotSpecified then
      if IsContextTag (mElemTag r) then Some WEAVE_ERROR_INVALID_TLV_TAG else None
    else if (mContainerType r =? kTLVType_Structure) || (mContainerType r =? kTLVType_Path) then
      if mElemTag r =? AnonymousTag then Some WEAVE_ERROR_INVALID_TLV_TAG else None
    else if mContainerType r =? kTLVType_Array then
      if negb (mElemTag r =? AnonymousTag) then Some WEAVE_ERROR_INVALID_TLV_TAG else None
    else if mContainerType r =? kTLVType_UnknownContainer then None
    else Some WEAVE_ERROR_INCORRECT_STATE in
  match check with
  | Some e => Some e
  | None =>
    if TLVTypeHasLength (ElementType r) &&
       (u32 (mMaxLen r - mLenRead r) <? u32 (mElemLenOrVal r))
    then Some WEAVE_ERROR_TLV_UNDERRUN
    else None
  end.

Definition VerifyElement : M TLVReader unit := fun r =>
  match VerifyElement_error r with
  | Some e => (Err e, r)
  | None => (Ok tt, r)
  end.

(** The number of bytes of an element's head, from its control byte. *)
Definition elemHeadBytes (controlByte : Z) : Z :=
  let tagControl := Z.land controlByte kTLVTagControlMask in
  let tagBytes := arr sTagSizes (Z.shiftr tagControl kTLVTagControlShift) in
  1 + tagBytes + TLVFieldSizeToBytes (GetTLVFieldSize (Z.land controlByte kTLVTypeMask)).

(** The bytes of the head: read in place when the current buffer holds all of
    them, through the staging buffer otherwise. *)
Definition ReadHead (headBytes : Z) : M TLVReader (list Z) := fun r =>
  match mReadPoint r with
  | None => (Undefined, r)
  | Some l =>
    if Z.of_nat (length l) <? headBytes then ReadData headBytes r
    else (Ok (take (Z.to_nat headBytes) l), set_position (mBufHandle r) (Some (drop (Z.to_nat headBytes) l)) (u32 (mLenRead r + headBytes)) r)
  end.

Definition ReadElement : M TLVReader unit :=
  do* EnsureData WEAVE_END_OF_TLV in
  fun r => match mReadPoint r with
  | None | Some [] => (Undefined, r)
  | Some (control :: _) =>
    let r := set_control control r in
    let elemType := ElementType r in
    if negb (IsValidTLVType elemType) then (Err WEAVE_ERROR_INVALID_TLV_ELEMENT, r)
    else
      (let* p := ReadHead (elemHeadBytes control) in
       fun r =>
         let '(tag, p) := ReadTag (ImplicitProfileId r) (Z.land control kTLVTagControlMask) (drop 1 p) in
         VerifyElement (set_element tag (ReadLenOrVal (GetTLVFieldSize elemType) p) control r)) r
  end.

Definition GetElementHeadLength (r : TLVReader) : WEAVE_ERROR + Z :=
  if negb (IsValidTLVType (ElementType r)) then inl WEAVE_ERROR_INVALID_TLV_ELEMENT
  else
    let tagControl := Z.land (mControlByte r) kTLVTagControlMask in
    inr (1 + arr sTagSizes (Z.shiftr tagControl kTLVTagControlShift) +
         TLVFieldSizeToBytes (GetTLVFieldSize (ElementType r))).

(** ** Skipping *)

Definition SkipData : M TLVReader unit := fun r =>
  if TLVTypeHasLength (ElementType r)
  then (do* ReadData (u32 (mElemLenOrVal r)) in ret tt) r
  else (Ok tt, r).

(** The number of bytes the reader can still reach. *)
Definition bytes_left (r : TLVReader) : nat :=
  (match mReadPoint r with Some l => length l | None => 0 end + length (concat (mBufHandle r)))%nat.

(** The loop of SkipToEndOfContainer.  Every round reads the head of an element,
    so one more round than there are bytes left is enough. *)
Fixpoint SkipToEndOfContainer_loop (fuel : nat) (outerContainerType nestLevel : Z) : M TLVReader unit :=
  match fuel with
  | O => fun r => (Diverges, r)
  | S k => fun r =>
    let elemType := ElementType r in
    let go nestLevel r :=
      (do* SkipData in do* ReadElement in SkipToEndOfContainer_loop k outerContainerType nestLevel) r in
    if elemType =? kTLVElementType_EndOfContainer then
      if nestLevel =? 0 then (Ok tt, r)
      else
        let nestLevel := nestLevel - 1 in
        go nestLevel (set_containerType (if nestLevel =? 0 then outerContainerType else kTLVType_UnknownContainer) r)
    else if TLVTypeIsContainer elemType then
      go (u32 (nestLevel + 1)) (set_containerType elemType r)
    else go nestLevel r
  end.

Definition SkipToEndOfContainer : M TLVReader unit := fun r =>
  SkipToEndOfContainer_loop (S (S (bytes_left r))) (mContainerType r) 0 (SetContainerOpen false r).

(** ** Containers *)

(** EnterContainer returns the outer container type. *)
Definition EnterContainer : M TLVReader Z := fun r =>
  let elemType := ElementType r in
  if negb (TLVTypeIsContainer elemType) then (Err WEAVE_ERROR_INCORRECT_STATE, r)
  else (Ok (mContainerType r), SetContainerOpen false (ClearElementState (set_containerType elemType r))).

Definition ExitContainer (outerContainerType : Z) : M TLVReader unit :=
  do* SkipToEndOfContainer in
  modify (fun r => ClearElementState (set_containerType outerContainerType r)).

(** OpenContainer returns the reader of the container's elements. *)
Definition OpenContainer : M TLVReader TLVReader := fun r =>
  let elemType := ElementType r in
  if negb (TLVTypeIsContainer elemType) then (Err WEAVE_ERROR_INCORRECT_STATE, r)
  else (Ok (SetContainerOpen false (set_containerType elemType (ClearElementState r))), SetContainerOpen true r).

(** CloseContainer(containerReader): the outcome, the container reader and the
    reader, both as the call leaves them. *)
Definition CloseContainer (containerReader r : TLVReader) : res unit * TLVReader * TLVReader :=
  if negb (mContainerOpen r) then (Err WEAVE_ERROR_INCORRECT_STATE, containerReader, r)
  else if negb (mContainerType containerReader =? ElementType r)
  then (Err WEAVE_ERROR_INCORRECT_STATE, containerReader, r)
  else
    match SkipToEndOfContainer containerReader with
    | (Ok _, c) =>
      (Ok tt, c, ClearElementState
         (mkReader (ImplicitProfileId r) (GetNextBuffer r) (mElemTag r) (mElemLenOrVal r) (mBufHandle c) (mReadPoint c)
            (mLenRead c) (mMaxLen c) (mContainerType r) (mControlByte r) (mContainerOpen r)))
    | (e, c) => (e, c, r)
    end.

Definition Skip : M TLVReader unit := fun r =>
  let elemType := ElementType r in
  if elemType =? kTLVElementType_EndOfContainer then (Err WEAVE_END_OF_TLV, r)
  else if TLVTypeIsContainer elemType then
    (let* outerContainerType := EnterContainer in ExitContainer outerContainerType) r
  else (do* SkipData in modify ClearElementState) r.

(** ** Moving to the next element *)

Definition Next : M TLVReader unit :=
  do* Skip in
  do* ReadElement in
  fun r => if ElementType r =? kTLVElementType_EndOfContainer then (Err WEAVE_END_OF_TLV, r) else (Ok tt, r).

(** Next(expectedType, expectedTag) *)
Definition NextExpect (expectedType expectedTag : Z) : M TLVReader unit :=
  do* Next in
  fun r =>
    if negb (GetType r =? expectedType) then (Err WEAVE_ERROR_WRONG_TLV_TYPE, r)
    else if negb (mElemTag r =? expectedTag) then (Err WEAVE_ERROR_UNEXPECTED_TLV_ELEMENT, r)
    else (Ok tt, r).

Definition VerifyEndOfContainer : M TLVReader unit := fun r =>
  match Next r with
  | (Err WEAVE_END_OF_TLV, r) => (Ok tt, r)
  | (Ok _, r) => (Err WEAVE_ERROR_UNEXPECTED_TLV_ELEMENT, r)
  | x => x
  end.

(** ** Values *)

(** Get(bool&) *)
Definition Get_bool (r : TLVReader) : res bool :=
  if ElementType r =? kTLVElementType_BooleanFalse then Ok false
  else if ElementType r =? kTLVElementType_BooleanTrue then Ok true
  else Err WEAVE_ERROR_WRONG_TLV_TYPE.

(** Get(uint64_t&): the narrower signed types are sign-extended. *)
Definition Get_u64 (r : TLVReader) : res Z :=
  let t := ElementType r in
  if t =? kTLVElementType_Int8 then Ok (u64 (s8 (mElemLenOrVal r)))
  else if t =? kTLVElementType_Int16 then Ok (u64 (s16 (mElemLenOrVal r)))
  else if t =? kTLVElementType_Int32 then Ok (u64 (s32 (mElemLenOrVal r)))
  else if (t =? kTLVElementType_Int64) || (t =? kTLVElementType_UInt8) || (t =? kTLVElementType_UInt16) ||
          (t =? kTLVElementType_UInt32) || (t =? kTLVElementType_UInt64) then Ok (mElemLenOrVal r)
  else Err WEAVE_ERROR_WRONG_TLV_TYPE.

(** The other integer widths convert the 64-bit value. *)
Definition res_map {A B} (f : A -> B) (x : res A) : res B :=
  match x with Ok a => Ok (f a) | Err e => Err e | Undefined => Undefined | Diverges => Diverges end.
Definition Get_u32 (r : TLVReader) : res Z := res_map u32 (Get_u64 r).
Definition Get_u16 (r : TLVReader) : res Z := res_map u16 (Get_u64 r).
Definition Get_u8 (r : TLVReader) : res Z := res_map u8 (Get_u64 r).
Definition Get_s64 (r : TLVReader) : res Z := res_map s64 (Get_u64 r).
Definition Get_s32 (r : TLVReader) : res Z := res_map s32 (Get_u64 r).
Definition Get_s16 (r : TLVReader) : res Z := res_map s16 (Get_u64 r).
Definition Get_s8 (r : TLVReader) : res Z := res_map s8 (Get_u64 r).

(** Get(double&): the bits of the single or double precision value. *)
Inductive float_bits := Single (bits : Z) | Double (bits : Z).

Definition Get_double (r : TLVReader) : res float_bits :=
  let t := ElementType r in
  if t =? kTLVElementType_FloatingPointNumber32 then Ok (Single (u32 (mElemLenOrVal r)))
  else if t =? kTLVElementType_FloatingPointNumber64 then Ok (Double (mElemLenOrVal r))
  else Err WEAVE_ERROR_WRONG_TLV_TYPE.

(** GetBytes: the bytes stored into [buf]. *)
Definition GetBytes (bufSize : Z) : M TLVReader (list Z) := fun r =>
  if negb (TLVTypeIsString (ElementType r)) then (Err WEAVE_ERROR_WRONG_TLV_TYPE, r)
  else if bufSize <? mElemLenOrVal r then (Err WEAVE_ERROR_BUFFER_TOO_SMALL, r)
  else
    (let* data := ReadData (u32 (mElemLenOrVal r)) in
     do* modify (set_lenOrVal 0) in ret data) r.

(** GetString: the characters stored before the NUL. *)
Definition GetString (bufSize : Z) : M TLVReader (list Z) := fun r =>
  if negb (TLVTypeIsString (ElementType r)) then (Err WEAVE_ERROR_WRONG_TLV_TYPE, r)
  else if bufSize <? u64 (mElemLenOrVal r + 1) then (Err WEAVE_ERROR_BUFFER_TOO_SMALL, r)
  else GetBytes (u32 (bufSize - 1)) r.

(** DupBytes and DupString; [malloc] says whether an allocation succeeds. *)
Definition DupBytes (malloc : Z -> bool) : M TLVReader (list Z) := fun r =>
  if negb (TLVTypeIsString (ElementType r)) then (Err WEAVE_ERROR_WRONG_TLV_TYPE, r)
  else if negb (malloc (mElemLenOrVal r)) then (Err WEAVE_ERROR_NO_MEMORY, r)
  else
    (let* data := ReadData (u32 (mElemLenOrVal r)) in
     do* modify (set_lenOrVal 0) in ret data) r.

Definition DupString (malloc : Z -> bool) : M TLVReader (list Z) := fun r =>
  if negb (TLVTypeIsString (ElementType r)) then (Err WEAVE_ERROR_WRONG_TLV_TYPE, r)
  else if negb (malloc (u64 (mElemLenOrVal r + 1))) then (Err WEAVE_ERROR_NO_MEMORY, r)
  else
    (let* data := ReadData (u32 (mElemLenOrVal r)) in
     do* modify (set_lenOrVal 0) in ret data) r.

(** GetDataPtr: the bytes from the returned pointer to the end of its buffer. *)
Definition GetDataPtr : M TLVReader (list Z) := fun r =>
  if negb (TLVTypeIsString (ElementType r)) then (Err WEAVE_ERROR_WRONG_TLV_TYPE, r)
  else
    (do* EnsureData WEAVE_ERROR_TLV_UNDERRUN in
     fun r => match mReadPoint r with
     | None => (Undefined, r)
     | Some l =>
       if u32 (Z.of_nat (length l)) <? u32 (mElemLenOrVal r) then (Err WEAVE_ERROR_TLV_UNDERRUN, r)
       else (Ok l, r)
     end) r.

(** A structure { 1: true, 2: "ab" } at top level, then a UInt8. *)
Example read_structure :
  let r := Init [21; 41; 1; 44; 2; 2; 97; 98; 24; 4; 7] in
  fst (Next r) = Ok tt /\
  GetType (snd (Next r)) = kTLVType_Structure /\
  (let r2 := snd (Next (snd (Next r))) in fst (Next (snd (Next r))) = Ok tt /\ Get_u64 r2 = Ok 7) /\
  (let r2 := snd (Next (snd (EnterContainer (snd (Next r))))) in
   Get_bool r2 = Ok true /\ mElemTag r2 = ContextTag 1 /\
   fst (GetBytes 10 (snd (Next r2))) = Ok [97; 98]).
Proof. vm_compute. repeat split. Qed.
