(* ===== verification/TLVReaderRefine.v ===== *)
(** * The TLV reader over a chain of buffers refines the reader over one buffer

    [flat r] is the data the reader can still reach, [flatten r] the reader
    placed on one buffer with that data.  Every operation of a well-formed
    reader has the outcome of the same operation on the flattened reader and,
    when it succeeds, a successor state that flattens to the other's. *)
From S2P Require Import Prelude Encoding TLVTypes TLVReader.
Local Open Scope weave_scope.

(** ** Well-formed readers *)

Definition chunk_ok (b : list Z) : Prop := b <> [] /\ Z.of_nat (length b) < 4294967296.

(** The reader is at a position of a buffer, the buffer does not go past the
    maximum length, and no following buffer is empty. *)
Definition wf (r : TLVReader) : Prop :=
  exists l, mReadPoint r = Some l /\ 0 <= mLenRead r /\
    mLenRead r + Z.of_nat (length l) <= mMaxLen r < 4294967296 /\ Forall chunk_ok (mBufHandle r).

Definition current (r : TLVReader) : list Z := default [] (mReadPoint r).

Definition flat (r : TLVReader) : list Z :=
  current r ++
  (if GetNextBuffer r
   then take (Z.to_nat (mMaxLen r - mLenRead r - Z.of_nat (length (current r)))) (concat (mBufHandle r))
   else []).

Definition flatten (r : TLVReader) : TLVReader :=
  mkReader (ImplicitProfileId r) false (mElemTag r) (mElemLenOrVal r) [] (Some (flat r)) (mLenRead r)
    (mMaxLen r) (mContainerType r) (mControlByte r) (mContainerOpen r).

(** Two executions agree: the outcomes are equal, and on success the state on
    the left is well-formed and flattens to the one on the right. *)
Definition sim {A} (x y : res A * TLVReader) : Prop :=
  fst x = fst y /\
  match fst x with
  | Ok _ => wf (snd x) /\ flatten (snd x) = snd y
  | Err _ => True
  | _ => False
  end.

Definition refines {A} (m : M TLVReader A) : Prop := forall r, wf r -> sim (m r) (m (flatten r)).

Lemma flat_length r : wf r -> mLenRead r + Z.of_nat (length (flat r)) <= mMaxLen r.
Proof.
  intros (l & El & H1 & H2 & _). unfold flat, current. rewrite El. cbn [default].
  destruct (GetNextBuffer r); rewrite length_app, ?length_take; simpl; lia.
Qed.

Lemma wf_flatten r : wf r -> wf (flatten r).
Proof.
  intros Hw. pose proof (flat_length r Hw). destruct Hw as (l & El & H1 & H2 & _).
  exists (flat r). repeat split; simpl; try lia. constructor.
Qed.

Lemma flat_flatten r : flat (flatten r) = flat r.
Proof. unfold flat at 1. apply app_nil_r. Qed.

Lemma flatten_idem r : flatten (flatten r) = flatten r.
Proof. unfold flatten at 1. by rewrite flat_flatten. Qed.

(** ** Composition *)

Lemma sim_bind {A B} (x y : res A * TLVReader) (f g : A -> M TLVReader B) :
  sim x y -> (forall a r, fst x = Ok a -> wf r -> sim (f a r) (g a (flatten r))) ->
  sim (bind (fun _ => x) f (snd x)) (bind (fun _ => y) g (snd y)).
Proof.
  destruct x as [ex rx], y as [ey ry]. unfold sim, bind; simpl.
  intros [<- Hx] Hf. destruct ex as [a|e| |]; simpl; try done.
  destruct Hx as [Hw <-]. by apply Hf.
Qed.

Lemma refines_bind {A B} (m : M TLVReader A) (f : A -> M TLVReader B) :
  refines m -> (forall a, refines (f a)) -> refines (bind m f).
Proof.
  intros Hm Hf r Hr. pose proof (sim_bind (m r) (m (flatten r)) f f (Hm r Hr)) as H.
  unfold bind in *. apply H. intros a r' _ Hr'. by apply Hf.
Qed.

Lemma refines_ret {A} (a : A) : refines (ret a).
Proof. intros r Hr. by split. Qed.

Lemma refines_fail {A} e : refines (fail (A := A) e).
Proof. intros r Hr. by split. Qed.

(** A guard on fields that flattening keeps. *)
Lemma refines_if {A} (b : TLVReader -> bool) (m1 m2 : M TLVReader A) :
  (forall r, b (flatten r) = b r) -> refines m1 -> refines m2 ->
  refines (fun r => if b r then m1 r else m2 r).
Proof. intros Hb H1 H2 r Hr. rewrite Hb. destruct (b r); auto. Qed.

(** A change of fields that are not the position. *)
Definition keeps_position (f : TLVReader -> TLVReader) : Prop :=
  forall r, mBufHandle (f r) = mBufHandle r /\ mReadPoint (f r) = mReadPoint r /\
    mLenRead (f r) = mLenRead r /\ mMaxLen (f r) = mMaxLen r /\ GetNextBuffer (f r) = GetNextBuffer r.

Lemma keeps_wf f r : keeps_position f -> wf r -> wf (f r).
Proof.
  intros Hf (l & H). destruct (Hf r) as (E1 & E2 & E3 & E4 & E5). exists l.
  by rewrite E1, E2, E3, E4.
Qed.

Lemma keeps_flat f r : keeps_position f -> flat (f r) = flat r.
Proof.
  intros Hf. destruct (Hf r) as (E1 & E2 & E3 & E4 & E5). unfold flat, current.
  by rewrite E1, E2, E3, E4, E5.
Qed.

Lemma keeps_set_element t v c : keeps_position (set_element t v c).
Proof. by intros r. Qed.
Lemma keeps_set_containerType t : keeps_position (set_containerType t).
Proof. by intros r. Qed.
Lemma keeps_SetContainerOpen b : keeps_position (SetContainerOpen b).
Proof. by intros r. Qed.
Lemma keeps_set_implicit p : keeps_position (set_implicit p).
Proof. by intros r. Qed.
#[export] Hint Resolve keeps_set_element keeps_set_containerType keeps_SetContainerOpen keeps_set_implicit : weave.

Lemma flatten_set_element t v c r : flatten (set_element t v c r) = set_element t v c (flatten r).
Proof. unfold flatten. by rewrite (keeps_flat (set_element t v c) r (keeps_set_element t v c)). Qed.
Lemma flatten_set_containerType t r : flatten (set_containerType t r) = set_containerType t (flatten r).
Proof. unfold flatten. by rewrite (keeps_flat _ r (keeps_set_containerType t)). Qed.
Lemma flatten_SetContainerOpen b r : flatten (SetContainerOpen b r) = SetContainerOpen b (flatten r).
Proof. unfold flatten. by rewrite (keeps_flat _ r (keeps_SetContainerOpen b)). Qed.

Lemma refines_modify f :
  keeps_position f -> (forall r, flatten (f r) = f (flatten r)) -> refines (modify f).
Proof. intros Hk Hf r Hr. split; [done|]. split; [by apply keeps_wf|apply Hf]. Qed.

(** ** EnsureData and ReadData *)

(** The flattened reader [n] bytes further. *)
Definition advance (n : Z) (s : TLVReader) : TLVReader :=
  set_position [] (Some (drop (Z.to_nat n) (flat s))) (mLenRead s + n) s.

Lemma wf_current r : wf r -> mReadPoint r = Some (current r) /\ 0 <= mLenRead r /\
  mLenRead r + Z.of_nat (length (current r)) <= mMaxLen r < 4294967296 /\ Forall chunk_ok (mBufHandle r).
Proof. intros (l & El & H). unfold current. by rewrite El. Qed.

(** The next buffer, cut at the maximum length, and what follows it. *)
Lemma take_chunk (m : nat) (b k : list Z) :
  take (Nat.min (length b) m) b ++ take (m - Nat.min (length b) m) k = take m (b ++ k).
Proof.
  rewrite take_app. f_equal.
  - destruct (Nat.le_gt_cases (length b) m); [|by rewrite Nat.min_r by lia].
    by rewrite Nat.min_l, !take_ge by lia.
  - f_equal. lia.
Qed.

Lemma EnsureData_spec e r : wf r ->
  (flat r = [] /\ fst (EnsureData e r) = Err e) \/
  (exists r', EnsureData e r = (Ok tt, r') /\ wf r' /\ flatten r' = flatten r /\ current r' <> [] /\
    GetNextBuffer r' = GetNextBuffer r /\
    (length (mBufHandle r') + (if decide (current r = []) then 1 else 0) <= length (mBufHandle r))%nat).
Proof.
  intros Hw. destruct (wf_current r Hw) as (El & H1 & H2 & H3). unfold EnsureData. rewrite El.
  destruct (current r) as [|b0 l0] eqn:Ec.
  2:{ right. exists r. rewrite Ec, decide_False by done. repeat split; auto; lia. }
  assert (flat r = if GetNextBuffer r then take (Z.to_nat (mMaxLen r - mLenRead r)) (concat (mBufHandle r)) else []) as Ef.
  { unfold flat. rewrite Ec. simpl. by rewrite Z.sub_0_r. }
  destruct (Z.eqb_spec (mLenRead r) (mMaxLen r)) as [E|Hne].
  { left. split; [|done]. rewrite Ef, E, Z.sub_diag. by destruct (GetNextBuffer r). }
  destruct (GetNextBuffer r) eqn:Eg; simpl negb; cbv iota; [|by left].
  destruct (mBufHandle r) as [|b rest] eqn:Eh.
  { left. split; [|done]. rewrite Ef. simpl. by rewrite take_nil. }
  inversion H3 as [|? ? [Hb0 Hb1] Hrest]; subst.
  assert (0 < Z.of_nat (length b)) by (destruct b; simpl; [done|lia]).
  rewrite (u32_id (Z.of_nat (length b))) by lia.
  destruct (Z.eqb_spec (Z.of_nat (length b)) 0); [lia|]. simpl length in *.
  rewrite u32_id by lia. set (m := if _ <? _ then _ else _).
  assert (Z.to_nat m = Nat.min (length b) (Z.to_nat (mMaxLen r - mLenRead r))) as Em.
  { unfold m. destruct (Z.ltb_spec (mMaxLen r - mLenRead r) (Z.of_nat (length b))); lia. }
  right. eexists. split; [reflexivity|].
  set (r' := set_position rest (Some (take (Z.to_nat m) b)) (mLenRead r) r).
  assert (length (current r') = Z.to_nat m) as Elen.
  { unfold r', current. simpl. rewrite length_take. lia. }
  assert (Hw' : wf r').
  { exists (current r'). change (mLenRead r') with (mLenRead r). change (mMaxLen r') with (mMaxLen r).
    rewrite Elen. repeat split; auto; lia. }
  assert (flat r' = flat r) as Efl.
  { rewrite Ef. cbn [concat]. rewrite <- take_chunk. unfold flat. rewrite Elen.
    change (GetNextBuffer r') with (GetNextBuffer r). rewrite Eg. rewrite Em.
    unfold r' at 1, current; simpl. rewrite Em. f_equal. f_equal. simpl. lia. }
  repeat split; auto.
  - unfold flatten. by rewrite Efl.
  - intros E. apply (f_equal length) in E. rewrite Elen in E. simpl in E. lia.
  - rewrite decide_True by done. simpl. lia.
Qed.

Lemma flat_current r : wf r -> exists k, flat r = current r ++ k.
Proof. intros _. by eexists. Qed.

(** Moving inside the current buffer. *)
Lemma flat_move n r : wf r -> 0 <= n <= Z.of_nat (length (current r)) ->
  let r' := set_position (mBufHandle r) (Some (drop (Z.to_nat n) (current r))) (mLenRead r + n) r in
  wf r' /\ flatten r' = advance n (flatten r) /\ take (Z.to_nat n) (flat r) = take (Z.to_nat n) (current r).
Proof.
  intros Hw Hn r'. destruct (wf_current r Hw) as (El & H1 & H2 & H3).
  assert (flat r' = drop (Z.to_nat n) (flat r)) as E.
  { unfold flat. rewrite drop_app_le by lia. f_equal. destruct (GetNextBuffer r) eqn:Eg; simpl; rewrite Eg; [|done].
    f_equal. unfold current at 1. simpl. rewrite length_drop. lia. }
  split; [|split].
  - exists (drop (Z.to_nat n) (current r)). simpl. rewrite length_drop. repeat split; auto; lia.
  - unfold flatten at 1, advance. rewrite flat_flatten, E. done.
  - unfold flat. by rewrite take_app_le by lia.
Qed.

Lemma flat_advance n s : flat (advance n s) = drop (Z.to_nat n) (flat s).
Proof.
  set (d := drop (Z.to_nat n) (flat s)).
  change (flat (advance n s)) with
    (d ++ (if GetNextBuffer s then take (Z.to_nat (mMaxLen s - (mLenRead s + n) - Z.of_nat (length d))) (concat []) else [])).
  destruct (GetNextBuffer s); cbn [concat]; by rewrite ?take_nil, app_nil_r.
Qed.

Lemma advance_advance a b s : 0 <= a -> 0 <= b -> advance b (advance a s) = advance (a + b) s.
Proof.
  intros Ha Hb. unfold advance at 1 3. rewrite flat_advance, drop_drop. unfold set_position; simpl.
  f_equal; [|lia]. do 2 f_equal. lia.
Qed.

Lemma advance_0 r : advance 0 (flatten r) = flatten r.
Proof. unfold advance. rewrite flat_flatten. unfold set_position. simpl. by rewrite Z.add_0_r. Qed.

Lemma ReadData_loop_spec fuel : forall len acc r, wf r -> 0 <= len < 4294967296 ->
  (length (mBufHandle r) + (if decide (current r = []) then 1 else 2) <= fuel)%nat ->
  (len <= Z.of_nat (length (flat r)) /\
   exists r', ReadData_loop fuel len acc r = (Ok (acc ++ take (Z.to_nat len) (flat r)), r') /\
     wf r' /\ flatten r' = advance len (flatten r) /\
     GetNextBuffer r' = GetNextBuffer r /\ (length (mBufHandle r') <= length (mBufHandle r))%nat) \/
  (Z.of_nat (length (flat r)) < len /\ fst (ReadData_loop fuel len acc r) = Err WEAVE_ERROR_TLV_UNDERRUN).
Proof.
  induction fuel as [|k IH]; intros len acc r Hw Hlen Hfuel; [destruct (decide _); lia|].
  cbn [ReadData_loop]. destruct (Z.ltb_spec 0 len) as [Hpos|Hz]; cbn [negb].
  2:{ assert (len = 0) as -> by lia. left. split; [lia|]. exists r. simpl. rewrite take_0, app_nil_r.
      split; [done|]. split; [done|]. split; [by rewrite advance_0|]. split; [done|lia]. }
  unfold bind. destruct (EnsureData_spec WEAVE_ERROR_TLV_UNDERRUN r Hw) as [[Ef Ee]|(r1 & Ee & Hw1 & Efl & Hc & Hg & Hh)].
  { right. rewrite Ef. split; [simpl; lia|]. by destruct (EnsureData WEAVE_ERROR_TLV_UNDERRUN r) as [[] ?]; simplify_eq/=. }
  rewrite Ee. destruct (wf_current r1 Hw1) as (El1 & H1 & H2 & H3). rewrite El1.
  assert (flat r1 = flat r) as Efl' by (by apply (f_equal flat) in Efl; rewrite !flat_flatten in Efl).
  rewrite u32_id by lia. set (n := if _ <? _ then _ else _).
  assert (0 < n <= Z.of_nat (length (current r1)) /\ n <= len /\ (n < len -> n = Z.of_nat (length (current r1)))) as (Hn & Hnl & Hnc).
  { assert (0 < Z.of_nat (length (current r1))) by (destruct (current r1); simpl; [done|lia]).
    unfold n. destruct (Z.ltb_spec (Z.of_nat (length (current r1))) len); lia. }
  rewrite (u32_id (mLenRead r1 + n)) by lia.
  destruct (flat_move n r1 Hw1 ltac:(lia)) as (Hw2 & Efl2 & Et).
  set (r2 := set_position (mBufHandle r1) (Some (drop (Z.to_nat n) (current r1))) (mLenRead r1 + n) r1) in *.
  assert (flat r2 = drop (Z.to_nat n) (flat r)) as Efl3.
  { apply (f_equal flat) in Efl2. by rewrite flat_advance, !flat_flatten, Efl' in Efl2. }
  assert (Z.of_nat (length (flat r2)) = Z.of_nat (length (flat r)) - n) as Elen.
  { rewrite Efl3, length_drop. rewrite <- Efl'. unfold flat. rewrite length_app. lia. }
  destruct (Z.eq_dec n len) as [->|Hlt].
  - left. assert (0 <= Z.of_nat (length (flat r2))) by lia. split; [lia|]. rewrite Z.sub_diag. exists r2.
    rewrite <- Efl', Et. assert (length (mBufHandle r2) <= length (mBufHandle r))%nat by (simpl; case_decide; lia).
    destruct k; simpl; rewrite Efl2, Efl; auto.
  - assert (current r2 = []) as Ec2.
    { unfold current at 1. simpl. apply drop_ge. lia. }
    destruct (IH (len - n) (acc ++ take (Z.to_nat n) (current r1)) r2 Hw2 ltac:(lia)) as [(Hl & r' & E & Hw' & Efr & Hg' & Hh')|(Hl & E)].
    { rewrite decide_True by done. change (mBufHandle r2) with (mBufHandle r1).
      repeat case_decide; lia. }
    + left. split; [lia|]. exists r'. split; [|split; [done|split; [|simpl in *; split; [congruence|case_decide; lia]]]].
      * rewrite E. do 2 f_equal. rewrite Efl3, <- app_assoc, <- Et, Efl'. f_equal.
        rewrite <- (take_drop (Z.to_nat n) (take (Z.to_nat len) (flat r))).
        rewrite take_take, skipn_firstn_comm. f_equal; f_equal; lia.
      * rewrite Efr, Efl2, Efl, advance_advance by lia. f_equal. lia.
    + right. split; [lia|]. done.
Qed.

(** [m] takes [n] bytes of the reachable data, or reports that there are fewer. *)
Definition reads (n : Z) (m : M TLVReader (list Z)) : Prop := forall r, wf r ->
  (n <= Z.of_nat (length (flat r)) /\
   exists r', m r = (Ok (take (Z.to_nat n) (flat r)), r') /\
     wf r' /\ flatten r' = advance n (flatten r) /\
     GetNextBuffer r' = GetNextBuffer r /\ (length (mBufHandle r') <= length (mBufHandle r))%nat) \/
  (Z.of_nat (length (flat r)) < n /\ fst (m r) = Err WEAVE_ERROR_TLV_UNDERRUN).

Lemma reads_ReadData len : 0 <= len < 4294967296 -> reads len (ReadData len).
Proof.
  intros Hlen r Hw. apply (ReadData_loop_spec _ len [] r Hw Hlen). case_decide; lia.
Qed.

Lemma reads_ReadHead n : 0 <= n < 4294967296 -> reads n (ReadHead n).
Proof.
  intros Hn r Hw. unfold ReadHead. destruct (wf_current r Hw) as (El & H1 & H2 & H3). rewrite El.
  destruct (Z.ltb_spec (Z.of_nat (length (current r))) n); [by apply reads_ReadData|].
  left. destruct (flat_move n r Hw ltac:(lia)) as (Hw' & Ef & Et).
  assert (length (current r) <= length (flat r))%nat by (unfold flat; rewrite length_app; lia).
  split; [lia|]. rewrite u32_id by lia. eexists. split; [by rewrite Et|]. auto.
Qed.

Lemma flatten_flat r : wf r -> GetNextBuffer r = false -> mBufHandle r = [] -> flatten r = r.
Proof.
  intros Hw Hg Hh. destruct (wf_current r Hw) as (El & _). unfold flatten, flat. rewrite Hg, app_nil_r.
  rewrite <- El. destruct r; simpl in *; by subst.
Qed.

Lemma no_chain (r r' : TLVReader) :
  mBufHandle r = [] -> (length (mBufHandle r') <= length (mBufHandle r))%nat -> mBufHandle r' = [].
Proof. intros ->. destruct (mBufHandle r'); simpl; [done|lia]. Qed.

Lemma refines_reads n m : reads n m -> refines m.
Proof.
  intros Hm r Hw.
  destruct (Hm r Hw) as [(H1 & r1 & E1 & Hw1 & F1 & _)|(H1 & E1)];
  destruct (Hm (flatten r) (wf_flatten r Hw)) as [(H2 & r2 & E2 & Hw2 & F2 & G2 & L2)|(H2 & E2)];
    rewrite flat_flatten in *; try lia.
  - rewrite E1, E2. split; [done|]. split; [done|]. cbn [snd].
    rewrite F1. rewrite flatten_idem in F2. rewrite <- F2. apply flatten_flat; [done|done|].
    by apply (no_chain (flatten r)).
  - unfold sim. destruct (m r) as [[] ?], (m (flatten r)) as [[] ?]; simpl in *; by simplify_eq.
Qed.

Lemma refines_EnsureData e : refines (EnsureData e).
Proof.
  intros r Hw.
  destruct (EnsureData_spec e r Hw) as [[F1 E1]|(r1 & E1 & Hw1 & F1 & C1 & _)];
  destruct (EnsureData_spec e (flatten r) (wf_flatten r Hw)) as [[F2 E2]|(r2 & E2 & Hw2 & F2 & C2 & G2 & L2)];
    rewrite ?flat_flatten in *.
  - unfold sim. destruct (EnsureData e r) as [[] ?], (EnsureData e (flatten r)) as [[] ?]; simpl in *; by simplify_eq.
  - exfalso. apply C2. apply (f_equal flat) in F2. rewrite !flat_flatten, F1 in F2.
    by destruct (app_eq_nil _ _ F2).
  - exfalso. apply C1. apply (f_equal flat) in F1. rewrite !flat_flatten, F2 in F1.
    by destruct (app_eq_nil _ _ F1).
  - rewrite E1, E2. split; [done|]. split; [done|]. cbn [snd]. rewrite F1, <- (flatten_idem r), <- F2.
    apply flatten_flat; [done|done|]. apply (no_chain (flatten r)); [done|lia].
Qed.

(** ** Elements *)

Lemma refines_VerifyElement : refines VerifyElement.
Proof.
  intros r Hw. unfold VerifyElement.
  change (VerifyElement_error (flatten r)) with (VerifyElement_error r).
  by destruct (VerifyElement_error r).
Qed.

(** ReadElement once the control byte is known. *)
Definition ReadElement_body (control : Z) : M TLVReader unit := fun r =>
  let elemType := ElementType r in
  if negb (IsValidTLVType elemType) then (Err WEAVE_ERROR_INVALID_TLV_ELEMENT, r)
  else
    (let* p := ReadHead (elemHeadBytes control) in
     fun r =>
       let '(tag, p) := ReadTag (ImplicitProfileId r) (Z.land control kTLVTagControlMask) (drop 1 p) in
       VerifyElement (set_element tag (ReadLenOrVal (GetTLVFieldSize elemType) p) control r)) r.

Lemma land_low c m : Z.land 255 m = m -> Z.land (c mod 256) m = Z.land c m.
Proof.
  intros H. pose proof (land_ones_mod c 8 ltac:(lia)) as E. change (2 ^ 8) with 256 in E. rewrite <- E.
  change (256 - 1) with 255. by rewrite <- Z.land_assoc, H.
Qed.

Lemma head_bytes_bound c : 1 <= elemHeadBytes c <= 17.
Proof.
  pose proof (all_upto_spec 256 (fun c => (1 <=? elemHeadBytes c) && (elemHeadBytes c <=? 17))
    ltac:(by vm_compute) (c mod 256) ltac:(mlia)) as H.
  cbv beta in H. unfold elemHeadBytes, kTLVTagControlMask, kTLVTypeMask in *. rewrite !land_low in H by done.
  bool_prop. lia.
Qed.

Lemma refines_set_element_then {A} (m : M TLVReader A) (f : TLVReader -> TLVReader) :
  keeps_position f -> (forall r, flatten (f r) = f (flatten r)) -> refines m ->
  refines (fun r => m (f r)).
Proof. intros Hk Hf Hm r Hw. rewrite <- Hf. apply Hm. by apply keeps_wf. Qed.

Lemma refines_ReadElement_body c : refines (ReadElement_body c).
Proof.
  intros r Hw. unfold ReadElement_body. change (ElementType (flatten r)) with (ElementType r).
  destruct (negb (IsValidTLVType (ElementType r))); [by split|]. pose proof (head_bytes_bound c).
  revert r Hw. intros r0 Hw0. set (et := ElementType r0).
  refine (refines_bind (ReadHead (elemHeadBytes c)) _ _ _ r0 Hw0).
  - apply (refines_reads (elemHeadBytes c)), reads_ReadHead. lia.
  - intros p r Hw. change (ImplicitProfileId (flatten r)) with (ImplicitProfileId r).
    destruct (ReadTag _ _ _) as [tag p']. rewrite <- flatten_set_element. apply refines_VerifyElement.
    apply keeps_wf; auto with weave.
Qed.

Lemma current_flat r c l : wf r -> current r = c :: l -> exists k, flat r = c :: k.
Proof. intros _ E. unfold flat. rewrite E. by eexists. Qed.

Lemma ReadElement_unfold r : ReadElement r =
  bind (EnsureData WEAVE_END_OF_TLV) (fun _ r => match mReadPoint r with
    | None | Some [] => (Undefined, r)
    | Some (c :: _) => ReadElement_body c (set_control c r)
    end) r.
Proof. done. Qed.

Lemma refines_ReadElement : refines ReadElement.
Proof.
  intros r Hw. rewrite (ReadElement_unfold r), (ReadElement_unfold (flatten r)).
  destruct (EnsureData_spec WEAVE_END_OF_TLV r Hw) as [[F1 E1]|(r1 & E1 & Hw1 & F1 & C1 & _)];
    pose proof (refines_EnsureData WEAVE_END_OF_TLV r Hw) as [S1 S2]; unfold bind.
  - rewrite E1 in S1. unfold sim.
    destruct (EnsureData WEAVE_END_OF_TLV r) as [[] ?], (EnsureData WEAVE_END_OF_TLV (flatten r)) as [[] ?];
      simpl in *; by simplify_eq.
  - rewrite E1 in *. cbn [fst snd] in *. destruct S2 as [_ S2].
    destruct (EnsureData WEAVE_END_OF_TLV (flatten r)) as [ef rf]. cbn [fst snd] in *. subst ef rf.
    destruct (wf_current r1 Hw1) as (El & _). rewrite El. destruct (current r1) as [|c l] eqn:Ec; [done|].
    destruct (current_flat r1 c l Hw1 Ec) as [k Ef]. cbn [flatten mReadPoint]. rewrite Ef.
    refine (refines_set_element_then (ReadElement_body c) (set_control c) _ _ (refines_ReadElement_body c) r1 Hw1).
    + by intros r0.
    + intros r0. apply flatten_set_element.
Qed.

(** ReadElement, when it succeeds, has consumed at least the control byte. *)
Lemma ReadElement_consumes r r' : wf r -> ReadElement r = (Ok tt, r') -> (length (flat r') < length (flat r))%nat.
Proof.
  intros Hw. rewrite ReadElement_unfold.
  intros (u & r1 & E1 & H)%bind_inv.
  destruct (EnsureData_spec WEAVE_END_OF_TLV r Hw) as [[_ E]|(r1' & E & Hw1 & F1 & C1 & _)];
    rewrite E1 in E; [done|injection E as -> ->].
  apply (f_equal flat) in F1. rewrite !flat_flatten in F1. rewrite <- F1.
  destruct (wf_current r1' Hw1) as (El & _). rewrite El in H. destruct (current r1') as [|c l] eqn:Ec; [done|].
  unfold ReadElement_body in H. destruct (negb _); [done|].
  apply bind_inv in H as (p & r2 & E2 & H).
  assert (wf (set_control c r1')) as Hw2 by (apply keeps_wf; [by intros ?|done]).
  pose proof (head_bytes_bound c).
  destruct (reads_ReadHead (elemHeadBytes c) ltac:(lia) _ Hw2) as [(Hl & r3 & E3 & Hw3 & F3 & _)|(_ & E3)];
    rewrite E2 in E3; [injection E3 as -> ->|done].
  destruct (ReadTag _ _ _) as [tag p'].
  assert (r' = set_element tag (ReadLenOrVal (GetTLVFieldSize (ElementType (set_control c r1'))) p') c r3) as ->.
  { unfold VerifyElement in H. by destruct (VerifyElement_error _); simplify_eq. }
  rewrite keeps_flat by auto with weave.
  apply (f_equal flat) in F3. rewrite flat_advance, !flat_flatten in F3. rewrite F3, length_drop.
  change (flat (set_control c r1')) with (flat r1') in *. lia.
Qed.

(** ** Skipping *)

Lemma sim_bind_state {A B} (m m' : M TLVReader A) (f g : A -> M TLVReader B) r s :
  sim (m r) (m' s) ->
  (forall a r', m r = (Ok a, r') -> wf r' -> sim (f a r') (g a (flatten r'))) ->
  sim (bind m f r) (bind m' g s).
Proof.
  unfold sim at 1, bind. destruct (m r) as [ex rx], (m' s) as [ey ry]. cbn [fst snd].
  intros [<- Hx] Hf. destruct ex as [a|e| |]; try done. destruct Hx as [Hw <-]. by apply Hf.
Qed.

Lemma u32_bound x : 0 <= u32 x < 4294967296.
Proof. apply u32_range. Qed.

Lemma refines_SkipData : refines SkipData.
Proof.
  intros r Hw. unfold SkipData. change (ElementType (flatten r)) with (ElementType r).
  change (mElemLenOrVal (flatten r)) with (mElemLenOrVal r).
  destruct (TLVTypeHasLength (ElementType r)); [|by split].
  apply refines_bind; [|intros; apply refines_ret|done].
  apply (refines_reads (u32 (mElemLenOrVal r))), reads_ReadData, u32_bound.
Qed.

Lemma SkipData_shrinks r r' : wf r -> SkipData r = (Ok tt, r') -> (length (flat r') <= length (flat r))%nat.
Proof.
  intros Hw. unfold SkipData. destruct (TLVTypeHasLength (ElementType r)); [|by intros [= <-]].
  intros (p & r1 & E & H)%bind_inv. injection H as <-.
  destruct (reads_ReadData _ (u32_bound (mElemLenOrVal r)) r Hw) as [(_ & r2 & E2 & _ & F2 & _)|(_ & E2)];
    rewrite E in E2; [injection E2 as -> ->|done].
  apply (f_equal flat) in F2. rewrite flat_advance, !flat_flatten in F2. rewrite F2, length_drop. lia.
Qed.

Lemma sim_SkipToEnd n : forall outer nest r k1 k2, wf r -> (length (flat r) <= n)%nat -> (n < k1)%nat -> (n < k2)%nat ->
  sim (SkipToEndOfContainer_loop k1 outer nest r) (SkipToEndOfContainer_loop k2 outer nest (flatten r)).
Proof.
  induction n as [n IH] using lt_wf_ind. intros outer nest r k1 k2 Hw Hn Hk1 Hk2.
  destruct k1 as [|k1]; [lia|]. destruct k2 as [|k2]; [lia|].
  cbn [SkipToEndOfContainer_loop]. change (ElementType (flatten r)) with (ElementType r).
  assert (forall nest r, wf r -> (length (flat r) <= n)%nat ->
    sim ((do* SkipData in do* ReadElement in SkipToEndOfContainer_loop k1 outer nest) r)
        ((do* SkipData in do* ReadElement in SkipToEndOfContainer_loop k2 outer nest) (flatten r))) as Hgo.
  { clear r Hw Hn nest. intros nest r Hw Hn. apply sim_bind_state; [by apply refines_SkipData|].
    intros [] r1 E1 Hw1. apply (SkipData_shrinks r r1 Hw) in E1.
    apply sim_bind_state; [by apply refines_ReadElement|]. intros [] r2 E2 Hw2.
    apply (ReadElement_consumes r1 r2 Hw1) in E2.
    apply (IH (length (flat r2))); (lia || done). }
  destruct (ElementType r =? kTLVElementType_EndOfContainer).
  - destruct (nest =? 0); [by split|]. rewrite <- flatten_set_containerType. apply Hgo; [|done].
    by apply keeps_wf; auto with weave.
  - destruct (TLVTypeIsContainer (ElementType r)); [|by apply Hgo].
    rewrite <- flatten_set_containerType. apply Hgo; [|done]. by apply keeps_wf; auto with weave.
Qed.

Lemma flat_bytes_left r : wf r -> (length (flat r) <= bytes_left r)%nat.
Proof.
  intros Hw. destruct (wf_current r Hw) as (El & _). unfold flat, bytes_left. rewrite El, length_app.
  destruct (GetNextBuffer r); rewrite ?length_take; simpl; lia.
Qed.

Lemma refines_SkipToEndOfContainer : refines SkipToEndOfContainer.
Proof.
  intros r Hw. unfold SkipToEndOfContainer. change (mContainerType (flatten r)) with (mContainerType r).
  rewrite <- flatten_SetContainerOpen. assert (wf (SetContainerOpen false r)) by (apply keeps_wf; auto with weave).
  pose proof (flat_bytes_left r Hw). pose proof (flat_bytes_left (flatten r) (wf_flatten r Hw)) as H1.
  rewrite flat_flatten in H1.
  apply (sim_SkipToEnd (length (flat r))); [done| |lia|lia].
  by rewrite keeps_flat by auto with weave.
Qed.

(** ** Containers and elements *)

Lemma refines_EnterContainer : refines EnterContainer.
Proof.
  intros r Hw. unfold EnterContainer. change (ElementType (flatten r)) with (ElementType r).
  destruct (negb _); [by split|]. split; [done|]. split; [by apply keeps_wf; [intros ?|]|done].
Qed.

Lemma refines_ExitContainer o : refines (ExitContainer o).
Proof.
  apply refines_bind; [apply refines_SkipToEndOfContainer|intros _].
  apply refines_modify; [by intros ?|done].
Qed.

Lemma refines_Skip : refines Skip.
Proof.
  intros r Hw. unfold Skip. change (ElementType (flatten r)) with (ElementType r).
  destruct (_ =? _); [by split|]. destruct (TLVTypeIsContainer _).
  - apply refines_bind; [apply refines_EnterContainer|apply refines_ExitContainer|done].
  - apply refines_bind; [apply refines_SkipData|intros _|done]. by apply refines_modify; [intros ?|].
Qed.

Lemma refines_Next : refines Next.
Proof.
  apply refines_bind; [apply refines_Skip|intros _].
  apply refines_bind; [apply refines_ReadElement|intros _ r Hw].
  change (ElementType (flatten r)) with (ElementType r). by destruct (_ =? _); split.
Qed.

Lemma refines_NextExpect t g : refines (NextExpect t g).
Proof.
  apply refines_bind; [apply refines_Next|intros _ r Hw].
  change (GetType (flatten r)) with (GetType r). change (mElemTag (flatten r)) with (mElemTag r).
  destruct (negb (_ =? t)); [by split|]. by destruct (negb _); split.
Qed.

Lemma refines_GetBytes n : refines (GetBytes n).
Proof.
  intros r Hw. unfold GetBytes. change (ElementType (flatten r)) with (ElementType r).
  change (mElemLenOrVal (flatten r)) with (mElemLenOrVal r).
  destruct (negb _); [by split|]. destruct (_ <? _); [by split|].
  apply refines_bind; [|intros p|done].
  - apply (refines_reads (u32 (mElemLenOrVal r))), reads_ReadData, u32_bound.
  - apply refines_bind; [|intros; apply refines_ret]. by apply refines_modify; [intros ?|].
Qed.

Lemma refines_GetString n : refines (GetString n).
Proof.
  intros r Hw. unfold GetString. change (ElementType (flatten r)) with (ElementType r).
  change (mElemLenOrVal (flatten r)) with (mElemLenOrVal r).
  destruct (negb _); [by split|]. destruct (_ <? _); [by split|]. by apply refines_GetBytes.
Qed.

Lemma refines_DupBytes malloc : refines (DupBytes malloc).
Proof.
  intros r Hw. unfold DupBytes. change (ElementType (flatten r)) with (ElementType r).
  change (mElemLenOrVal (flatten r)) with (mElemLenOrVal r).
  destruct (negb (TLVTypeIsString _)); [by split|]. destruct (negb _); [by split|].
  apply refines_bind; [|intros p|done].
  - apply (refines_reads (u32 (mElemLenOrVal r))), reads_ReadData, u32_bound.
  - apply refines_bind; [|intros; apply refines_ret]. by apply refines_modify; [intros ?|].
Qed.
