(* ===== verification/TLVWriter.v ===== *)
(** * The TLV writer (src/src/lib/core/WeaveTLVWriter.cpp)

    [TLVWriter] is the state of the C++ class (its fields carry the prefix [w]
    instead of m), one operation per method, in the monad [M TLVWriter].
    The memory behind mBufHandle, mBufStart and mWritePoint is kept as contents:
    [wDone] are the contents of the packet buffers already left (as
    FinalizePacketBuffer sets their lengths), [wBufStart] the data the current
    buffer holds before mBufStart and [wCur] the bytes from mBufStart to
    mWritePoint.  [wPool] lists the capacities (MaxDataLength) of the buffers
    GetNewPacketBuffer will obtain, by Next or by PacketBuffer::New.
    GetNewBuffer is NULL or GetNewPacketBuffer, FinalizeBuffer NULL or
    FinalizePacketBuffer. *)
From S2P Require Import Prelude Encoding TLVTypes TLVReader.
Local Open Scope weave_scope.

Record TLVWriter := mkWriter {
  wImplicitProfileId : Z;
  wGetNewBuffer : bool;
  wFinalizeBuffer : bool;
  wPool : list Z;
  wDone : list (list Z);
  wBufStart : list Z;
  wCur : list Z;
  wRemainingLen : Z;
  wLenWritten : Z;
  wMaxLen : Z;
  wContainerType : Z;
  wContainerOpen : bool;
  wCloseContainerReserved : bool }.

(** Assignments to groups of fields. *)
Definition set_buffers (pool : list Z) (done : list (list Z)) (start cur : list Z) (rem written : Z) (w : TLVWriter) : TLVWriter :=
  mkWriter (wImplicitProfileId w) (wGetNewBuffer w) (wFinalizeBuffer w) pool done start cur rem written
    (wMaxLen w) (wContainerType w) (wContainerOpen w) (wCloseContainerReserved w).
Definition set_wMaxLen (n : Z) (w : TLVWriter) : TLVWriter :=
  mkWriter (wImplicitProfileId w) (wGetNewBuffer w) (wFinalizeBuffer w) (wPool w) (wDone w) (wBufStart w) (wCur w)
    (wRemainingLen w) (wLenWritten w) n (wContainerType w) (wContainerOpen w) (wCloseContainerReserved w).
Definition set_wContainerType (t : Z) (w : TLVWriter) : TLVWriter :=
  mkWriter (wImplicitProfileId w) (wGetNewBuffer w) (wFinalizeBuffer w) (wPool w) (wDone w) (wBufStart w) (wCur w)
    (wRemainingLen w) (wLenWritten w) (wMaxLen w) t (wContainerOpen w) (wCloseContainerReserved w).
Definition set_wContainerOpen (b : bool) (w : TLVWriter) : TLVWriter :=
  mkWriter (wImplicitProfileId w) (wGetNewBuffer w) (wFinalizeBuffer w) (wPool w) (wDone w) (wBufStart w) (wCur w)
    (wRemainingLen w) (wLenWritten w) (wMaxLen w) (wContainerType w) b (wCloseContainerReserved w).
Definition set_wImplicit (p : Z) (w : TLVWriter) : TLVWriter :=
  mkWriter p (wGetNewBuffer w) (wFinalizeBuffer w) (wPool w) (wDone w) (wBufStart w) (wCur w)
    (wRemainingLen w) (wLenWritten w) (wMaxLen w) (wContainerType w) (wContainerOpen w) (wCloseContainerReserved w).
(** Bytes stored at mWritePoint, which moves past them. *)
Definition append (data : list Z) (w : TLVWriter) : TLVWriter :=
  let n := Z.of_nat (length data) in
  set_buffers (wPool w) (wDone w) (wBufStart w) (wCur w ++ data) (u32 (wRemainingLen w - n)) (u32 (wLenWritten w + n)) w.

(** ** Initialisation *)

(** Init(uint8_t *buf, uint32_t maxLen) *)
Definition InitWriter (maxLen : Z) : TLVWriter :=
  mkWriter kProfileIdNotSpecified false false [] [] [] [] maxLen 0 maxLen kTLVType_NotSpecified false true.

(** Init(PacketBuffer *buf, uint32_t maxLen): [data] is what [buf] already holds,
    [avail] its AvailableDataLength. *)
Definition InitWriterBuffer (data : list Z) (avail maxLen : Z) : TLVWriter :=
  mkWriter kProfileIdNotSpecified false true [] [] data [] (if maxLen <? avail then maxLen else avail) 0 maxLen
    kTLVType_NotSpecified false true.

(** Init(PacketBuffer *buf, uint32_t maxLen, bool allowDiscontiguousBuffers) *)
Definition InitWriterBuffers (data : list Z) (avail maxLen : Z) (allowDiscontiguousBuffers : bool) (pool : list Z) : TLVWriter :=
  mkWriter kProfileIdNotSpecified allowDiscontiguousBuffers true pool [] data []
    (if maxLen <? avail then maxLen else avail) 0 maxLen kTLVType_NotSpecified false true.

Definition GetLengthWritten (w : TLVWriter) : Z := wLenWritten w.

(** FinalizePacketBuffer: the data of the current packet buffer once its length
    covers what was written; without a FinalizeBuffer function the length stays. *)
Definition FinalizePacketBuffer (w : TLVWriter) : list Z := wBufStart w ++ wCur w.
Definition finalized (w : TLVWriter) : list Z :=
  if wFinalizeBuffer w then FinalizePacketBuffer w else wBufStart w.

(** Finalize: the contents of the packet buffers afterwards. *)
Definition Finalize : M TLVWriter (list (list Z)) := fun w =>
  if wContainerOpen w then (Err WEAVE_ERROR_TLV_CONTAINER_OPEN, w)
  else (Ok (wDone w ++ [finalized w]), w).

(** ** Bytes *)

(** GetNewPacketBuffer and the lines of WriteData around it: the current buffer is
    finalized and writing goes on in the next one.  When no buffer can be
    obtained, GetNewPacketBuffer returns success with a NULL start; WriteData
    then comes round again with a NULL mBufStart, which FinalizePacketBuffer
    subtracts the buffer's start from. *)
Definition NextBuffer : M TLVWriter unit := fun w =>
  if negb (wGetNewBuffer w) then (Err WEAVE_ERROR_NO_MEMORY, w)
  else
    match wPool w with
    | [] => (Undefined, w)
    | size :: rest =>
      let left := u32 (wMaxLen w - wLenWritten w) in
      (Ok tt, set_buffers rest (wDone w ++ [finalized w]) [] []
                (if left <? size then left else size) (wLenWritten w) w)
    end.

Fixpoint WriteData_loop (fuel : nat) (p : list Z) : M TLVWriter unit :=
  match p with
  | [] => ret tt
  | _ => match fuel with
    | O => fun w => (Diverges, w)
    | S k =>
      do* (fun w => if wRemainingLen w =? 0 then NextBuffer w else (Ok tt, w)) in
      fun w =>
        let writeLen := Z.to_nat (Z.min (Z.of_nat (length p)) (wRemainingLen w)) in
        WriteData_loop k (drop writeLen p) (append (take writeLen p) w)
    end
  end.

Definition WriteData (p : list Z) : M TLVWriter unit := fun w =>
  if negb (u32 (wLenWritten w + Z.of_nat (length p)) <=? wMaxLen w) then (Err WEAVE_ERROR_BUFFER_TOO_SMALL, w)
  else WriteData_loop (S (S (length (wPool w)))) p w.

(** ** Element heads *)

(** The control byte and tag field that WriteElementHead stores, with the tests
    of the tag against the container. *)
Definition ElementHeadTag (containerType implicitProfileId elemType tag : Z) : WEAVE_ERROR + list Z :=
  let tagNum := TagNumFromTag tag in
  if IsSpecialTag tag then
    if tagNum <? 256 then
      if negb (containerType =? kTLVType_Structure) && negb (containerType =? kTLVType_Path)
      then inl WEAVE_ERROR_INVALID_TLV_TAG
      else inr (Write8 (Z.lor kTLVTagControl_ContextSpecific elemType) ++ Write8 (u8 tagNum))
    else
      if negb (elemType =? kTLVElementType_EndOfContainer) && negb (containerType =? kTLVType_NotSpecified)
         && negb (containerType =? kTLVType_Array)
      then inl WEAVE_ERROR_INVALID_TLV_TAG
      else inr (Write8 (Z.lor kTLVTagControl_Anonymous elemType))
  else
    let profileId := ProfileIdFromTag tag in
    if negb (containerType =? kTLVType_NotSpecified) && negb (containerType =? kTLVType_Structure)
       && negb (containerType =? kTLVType_Path)
    then inl WEAVE_ERROR_INVALID_TLV_TAG
    else if profileId =? kCommonProfileId then
      if tagNum <? 65536
      then inr (Write8 (Z.lor kTLVTagControl_CommonProfile_2Bytes elemType) ++ LittleEndian_Write16 (u16 tagNum))
      else inr (Write8 (Z.lor kTLVTagControl_CommonProfile_4Bytes elemType) ++ LittleEndian_Write32 tagNum)
    else if profileId =? implicitProfileId then
      if tagNum <? 65536
      then inr (Write8 (Z.lor kTLVTagControl_ImplicitProfile_2Bytes elemType) ++ LittleEndian_Write16 (u16 tagNum))
      else inr (Write8 (Z.lor kTLVTagControl_ImplicitProfile_4Bytes elemType) ++ LittleEndian_Write32 tagNum)
    else
      let vendorId := u16 (Z.shiftr profileId 16) in
      let profileNum := u16 profileId in
      if tagNum <? 65536
      then inr (Write8 (Z.lor kTLVTagControl_FullyQualified_6Bytes elemType) ++ LittleEndian_Write16 vendorId ++
                LittleEndian_Write16 profileNum ++ LittleEndian_Write16 (u16 tagNum))
      else inr (Write8 (Z.lor kTLVTagControl_FullyQualified_8Bytes elemType) ++ LittleEndian_Write16 vendorId ++
                LittleEndian_Write16 profileNum ++ LittleEndian_Write32 tagNum).

(** The length or value field, by the switch on GetTLVFieldSize. *)
Definition ElementHeadValue (elemType lenOrVal : Z) : list Z :=
  let size := GetTLVFieldSize elemType in
  if size =? kTLVFieldSize_1Byte then Write8 (u8 lenOrVal)
  else if size =? kTLVFieldSize_2Byte then LittleEndian_Write16 (u16 lenOrVal)
  else if size =? kTLVFieldSize_4Byte then LittleEndian_Write32 (u32 lenOrVal)
  else if size =? kTLVFieldSize_8Byte then LittleEndian_Write64 lenOrVal
  else [].

(** The head is built in place when 17 bytes are left in the buffer, and copied
    from the staging buffer by WriteData otherwise. *)
Definition WriteElementHead (elemType tag lenOrVal : Z) : M TLVWriter unit := fun w =>
  if wContainerOpen w then (Err WEAVE_ERROR_TLV_CONTAINER_OPEN, w)
  else
    match ElementHeadTag (wContainerType w) (wImplicitProfileId w) elemType tag with
    | inl e => (Err e, w)
    | inr t =>
      let head := t ++ ElementHeadValue elemType lenOrVal in
      if (17 <=? wRemainingLen w) && (17 <=? wMaxLen w)
      then (Ok tt, append head w)
      else WriteData head w
    end.

Definition WriteElementWithData (type tag : Z) (data : list Z) : M TLVWriter unit :=
  let dataLen := Z.of_nat (length data) in
  let lenFieldSize :=
    if dataLen <=? UINT8_MAX then kTLVFieldSize_1Byte
    else if dataLen <=? UINT16_MAX then kTLVFieldSize_2Byte
    else kTLVFieldSize_4Byte in
  do* WriteElementHead (Z.lor type lenFieldSize) tag dataLen in
  WriteData data.

(** ** Values *)

Definition PutBoolean (tag : Z) (v : bool) : M TLVWriter unit :=
  WriteElementHead (if v then kTLVElementType_BooleanTrue else kTLVElementType_BooleanFalse) tag 0.

(** Put(uint64_t tag, uint64_t v) *)
Definition Put_u64 (tag v : Z) : M TLVWriter unit :=
  let elemType :=
    if v <=? UINT8_MAX then kTLVElementType_UInt8
    else if v <=? UINT16_MAX then kTLVElementType_UInt16
    else if v <=? UINT32_MAX then kTLVElementType_UInt32
    else kTLVElementType_UInt64 in
  WriteElementHead elemType tag v.

(** Put(uint64_t tag, int64_t v); the value field takes [v] as a [uint64_t]. *)
Definition Put_s64 (tag v : Z) : M TLVWriter unit :=
  let elemType :=
    if (-128 <=? v) && (v <=? 127) then kTLVElementType_Int8
    else if (-32768 <=? v) && (v <=? 32767) then kTLVElementType_Int16
    else if (-2147483648 <=? v) && (v <=? 2147483647) then kTLVElementType_Int32
    else kTLVElementType_Int64 in
  WriteElementHead elemType tag (u64 v).

(** The narrower types widen; with preserveSize they keep their own element type. *)
Definition Put_u8 (tag v : Z) := Put_u64 tag v.
Definition Put_u16 (tag v : Z) := Put_u64 tag v.
Definition Put_u32 (tag v : Z) := Put_u64 tag v.
Definition Put_s8 (tag v : Z) := Put_s64 tag v.
Definition Put_s16 (tag v : Z) := Put_s64 tag v.
Definition Put_s32 (tag v : Z) := Put_s64 tag v.
Definition Put_u8_preserve (tag v : Z) (preserveSize : bool) : M TLVWriter unit :=
  if preserveSize then WriteElementHead kTLVElementType_UInt8 tag v else Put_u8 tag v.
Definition Put_u16_preserve (tag v : Z) (preserveSize : bool) : M TLVWriter unit :=
  if preserveSize then WriteElementHead kTLVElementType_UInt16 tag v else Put_u16 tag v.
Definition Put_u32_preserve (tag v : Z) (preserveSize : bool) : M TLVWriter unit :=
  if preserveSize then WriteElementHead kTLVElementType_UInt32 tag v else Put_u32 tag v.
Definition Put_u64_preserve (tag v : Z) (preserveSize : bool) : M TLVWriter unit :=
  if preserveSize then WriteElementHead kTLVElementType_UInt64 tag v else Put_u64 tag v.
Definition Put_s8_preserve (tag v : Z) (preserveSize : bool) : M TLVWriter unit :=
  if preserveSize then WriteElementHead kTLVElementType_Int8 tag (u64 v) else Put_s8 tag v.
Definition Put_s16_preserve (tag v : Z) (preserveSize : bool) : M TLVWriter unit :=
  if preserveSize then WriteElementHead kTLVElementType_Int16 tag (u64 v) else Put_s16 tag v.
Definition Put_s32_preserve (tag v : Z) (preserveSize : bool) : M TLVWriter unit :=
  if preserveSize then WriteElementHead kTLVElementType_Int32 tag (u64 v) else Put_s32 tag v.
Definition Put_s64_preserve (tag v : Z) (preserveSize : bool) : M TLVWriter unit :=
  if preserveSize then WriteElementHead kTLVElementType_Int64 tag (u64 v) else Put_s64 tag v.

(** Put(float) and Put(double) store the bits of the value. *)
Definition Put_float (tag bits : Z) : M TLVWriter unit :=
  WriteElementHead kTLVElementType_FloatingPointNumber32 tag bits.
Definition Put_double (tag bits : Z) : M TLVWriter unit :=
  WriteElementHead kTLVElementType_FloatingPointNumber64 tag bits.

Definition PutBytes (tag : Z) (buf : list Z) : M TLVWriter unit := WriteElementWithData kTLVType_ByteString tag buf.
Definition PutString (tag : Z) (buf : list Z) : M TLVWriter unit := WriteElementWithData kTLVType_UTF8String tag buf.
Definition PutNull (tag : Z) : M TLVWriter unit := WriteElementHead kTLVElementType_Null tag 0.

(** ** Containers *)

Definition kEndOfContainerMarkerSize : Z := 1.
Definition reserve (w : TLVWriter) : TLVWriter :=
  if wCloseContainerReserved w then set_wMaxLen (u32 (wMaxLen w - kEndOfContainerMarkerSize)) w else w.
Definition unreserve (w : TLVWriter) : TLVWriter :=
  if wCloseContainerReserved w then set_wMaxLen (u32 (wMaxLen w + kEndOfContainerMarkerSize)) w else w.

(** StartContainer returns the outer container type. *)
Definition StartContainer (tag containerType : Z) : M TLVWriter Z := fun w =>
  if negb (TLVTypeIsContainer containerType) then (Err WEAVE_ERROR_WRONG_TLV_TYPE, w)
  else
    match WriteElementHead containerType tag 0 (reserve w) with
    | (Ok _, w) => (Ok (wContainerType w), set_wContainerOpen false (set_wContainerType containerType w))
    | (Err e, w) => (Err e, unreserve w)
    | (Undefined, w) => (Undefined, w)
    | (Diverges, w) => (Diverges, w)
    end.

Definition EndContainer (outerContainerType : Z) : M TLVWriter unit := fun w =>
  if negb (TLVTypeIsContainer (wContainerType w)) then (Err WEAVE_ERROR_INCORRECT_STATE, w)
  else WriteElementHead kTLVElementType_EndOfContainer AnonymousTag 0
         (unreserve (set_wContainerType outerContainerType w)).

(** OpenContainer returns the writer of the container's elements. *)
Definition OpenContainer (tag containerType : Z) : M TLVWriter TLVWriter := fun w =>
  if negb (TLVTypeIsContainer containerType) then (Err WEAVE_ERROR_WRONG_TLV_TYPE, w)
  else
    match WriteElementHead containerType tag 0 (reserve w) with
    | (Ok _, w) =>
      (Ok (mkWriter (wImplicitProfileId w) (wGetNewBuffer w) (wFinalizeBuffer w) (wPool w) (wDone w) (wBufStart w) (wCur w)
             (wRemainingLen w) 0 (u32 (wMaxLen w - wLenWritten w)) containerType false (wCloseContainerReserved w)),
       set_wContainerOpen true w)
    | (Err e, w) => (Err e, unreserve w)
    | (Undefined, w) => (Undefined, w)
    | (Diverges, w) => (Diverges, w)
    end.

(** CloseContainer(containerWriter): the container writer is initialised again. *)
Definition CloseContainer (containerWriter w : TLVWriter) : res unit * TLVWriter * TLVWriter :=
  if negb (TLVTypeIsContainer (wContainerType containerWriter)) then (Err WEAVE_ERROR_INCORRECT_STATE, containerWriter, w)
  else if wContainerOpen containerWriter then (Err WEAVE_ERROR_TLV_CONTAINER_OPEN, containerWriter, w)
  else
    let w := set_buffers (wPool containerWriter) (wDone containerWriter) (wBufStart containerWriter) (wCur containerWriter)
               (wRemainingLen containerWriter) (u32 (wLenWritten w + wLenWritten containerWriter)) w in
    let w := set_wContainerOpen false (unreserve w) in
    let '(e, w) := WriteElementHead kTLVElementType_EndOfContainer AnonymousTag 0 w in
    (e, InitWriter 0, w).

Definition PutPreEncodedContainer (tag containerType : Z) (data : list Z) : M TLVWriter unit :=
  if negb (TLVTypeIsContainer containerType) then fail WEAVE_ERROR_INVALID_ARGUMENT
  else do* WriteElementHead containerType tag 0 in WriteData data.

(** CopyContainer(tag, container): the container's bytes lie between the read
    points after EnterContainer and ExitContainer; their difference is undefined
    when the reader has gone to another buffer in between. *)
Definition CopyContainer (tag : Z) (container : TLVReader) (w : TLVWriter) : res unit * TLVReader * TLVWriter :=
  let containerType := GetType container in
  match TLVReader.EnterContainer container with
  | (Ok outerContainerType, c1) =>
    match TLVReader.ExitContainer outerContainerType c1 with
    | (Ok _, c2) =>
      match TLVReader.mReadPoint c1, TLVReader.mReadPoint c2 with
      | Some l1, Some l2 =>
        if negb (Nat.eqb (length (mBufHandle c1)) (length (mBufHandle c2))) then (Undefined, c2, w)
        else
        let '(e, w) := PutPreEncodedContainer tag containerType (take (length l1 - length l2)%nat l1) w in (e, c2, w)
      | _, _ => (Undefined, c2, w)
      end
    | (e, c2) => (e, c2, w)
    end
  | (Err e, c1) => (Err e, c1, w)
  | (Undefined, c1) => (Undefined, c1, w)
  | (Diverges, c1) => (Diverges, c1, w)
  end.

(** The copy loop of CopyElement: 16 bytes at a time from [helper]. *)
Definition kWeaveTLVCopyChunkSize : Z := 16.

Fixpoint CopyData (fuel : nat) (copyDataLen : Z) (helper : TLVReader) : M TLVWriter unit := fun w =>
  if negb (0 <? copyDataLen) then (Ok tt, w)
  else match fuel with
  | O => (Diverges, w)
  | S k =>
    let chunkSize := if kWeaveTLVCopyChunkSize <? copyDataLen then kWeaveTLVCopyChunkSize else copyDataLen in
    match ReadData chunkSize helper with
    | (Ok chunk, helper) => (do* WriteData chunk in CopyData k (copyDataLen - chunkSize) helper) w
    | (Err e, _) => (Err e, w)
    | (Undefined, _) => (Undefined, w)
    | (Diverges, _) => (Diverges, w)
    end
  end.

(** CopyElement(tag, reader): the outcome, the reader and the writer. *)
Definition CopyElement (tag : Z) (reader : TLVReader) (w : TLVWriter) : res unit * TLVReader * TLVWriter :=
  let elemType := ElementType reader in
  let elemLenOrVal := mElemLenOrVal reader in
  if negb (negb (elemType =? kTLVElementType_NotSpecified) && negb (elemType =? kTLVElementType_EndOfContainer))
  then (Err WEAVE_ERROR_INCORRECT_STATE, reader, w)
  else
    let readerHelper := reader in
    match Skip reader with
    | (Ok _, reader) =>
      let copyDataLen := u32 (GetLengthRead reader - GetLengthRead readerHelper) in
      let '(e, w) :=
        (do* WriteElementHead elemType tag elemLenOrVal in
         CopyData (S (Z.to_nat copyDataLen)) copyDataLen readerHelper) w in
      (e, reader, w)
    | (e, reader) => (e, reader, w)
    end.

(** A structure with a boolean and a string, in a buffer of 10 bytes. *)
Example write_structure :
  let m := let* outer := StartContainer AnonymousTag kTLVType_Structure in
           do* PutBoolean (ContextTag 1) true in
           do* PutString (ContextTag 2) [97; 98] in
           EndContainer outer in
  fst (m (InitWriter 10)) = Ok tt /\ wCur (snd (m (InitWriter 10))) = [21; 41; 1; 44; 2; 2; 97; 98; 24] /\
  fst (m (InitWriter 8)) = Err WEAVE_ERROR_BUFFER_TOO_SMALL.
Proof. vm_compute. repeat split. Qed.
