(* ===== verification/TLVHead.v ===== *)
(** * Element heads: what WriteElementHead writes is what ReadElement reads

    The control byte, the eight forms of the tag field and the length or value
    field, for every tag, element type and value. *)
From S2P Require Import Prelude Encoding TLVTypes TLVReader TLVReaderRefine TLVWriter.
Local Open Scope weave_scope.

(** A tag the writer keeps as it is: the special tags other than the context
    tags and the anonymous tag are written as the anonymous tag. *)
Definition plain_tag (tag : Z) : Prop :=
  is_tag tag /\ (tag_hi tag = 4294967295 -> tag_lo tag < 256 \/ tag = AnonymousTag).

Definition is_profile (p : Z) : Prop := 0 <= p <= 4294967295.

(** The value a field of the element type holds. *)
Definition field_value (elemType v : Z) : Z :=
  let size := GetTLVFieldSize elemType in
  if size =? kTLVFieldSize_0Byte then 0
  else v mod 256 ^ (TLVFieldSizeToBytes size).

(** ** The control byte *)

Definition tag_controls : list Z := [0; 32; 64; 96; 128; 160; 192; 224].

Lemma control_byte tc et : In tc tag_controls -> is_elem_type et ->
  let c := u8 (Z.lor tc et) in
  0 <= c < 256 /\ Z.land c kTLVTypeMask = et /\ Z.land c kTLVTagControlMask = tc /\ c <> kTLVControlByte_NotSpecified.
Proof.
  intros Htc Het.
  assert (forallb (fun tc => all_upto 25 (fun et => let c := u8 (Z.lor tc et) in
    (0 <=? c) && (c <? 256) && (Z.land c kTLVTypeMask =? et) && (Z.land c kTLVTagControlMask =? tc))) tag_controls = true)
    as H by by vm_compute.
  rewrite forallb_forall in H. specialize (H tc Htc).
  pose proof (all_upto_spec _ _ H et ltac:(unfold is_elem_type in Het; lia)) as H1. cbv beta zeta in H1.
  bool_prop. unfold kTLVControlByte_NotSpecified. repeat split; lia.
Qed.

(** ** The length or value field *)

Lemma field_size_cases et : is_elem_type et -> In (GetTLVFieldSize et) [-1; 0; 1; 2; 3].
Proof.
  intros Het.
  pose proof (all_upto_spec 25 (fun et => existsb (Z.eqb (GetTLVFieldSize et)) [-1; 0; 1; 2; 3])
    ltac:(by vm_compute) et ltac:(unfold is_elem_type in Het; lia)) as H.
  apply existsb_exists in H as (x & Hx & ->%Z.eqb_eq). done.
Qed.

Lemma pow256 : 256 ^ 1 = 256 /\ 256 ^ 2 = 65536 /\ 256 ^ 4 = 4294967296 /\ 256 ^ 8 = 18446744073709551616.
Proof. done. Qed.

Lemma value_field et v x : is_elem_type et ->
  Z.of_nat (length (ElementHeadValue et v)) = TLVFieldSizeToBytes (GetTLVFieldSize et) /\
  ReadLenOrVal (GetTLVFieldSize et) (ElementHeadValue et v ++ x) = field_value et v.
Proof.
  intros Het. unfold ElementHeadValue, ReadLenOrVal, field_value.
  pose proof (field_size_cases et Het) as Hs.
  destruct pow256 as (P1 & P2 & P4 & P8).
  destruct Hs as [<-|[<-|[<-|[<-|[<-|[]]]]]]; cbn -[Z.pow Z.modulo LittleEndian_Get16 LittleEndian_Get32 LittleEndian_Get64
    LittleEndian_Write16 LittleEndian_Write32 LittleEndian_Write64 Get8 Write8]; (split; [done|]).
  - done.
  - change (Get8 _) with (u8 (u8 v)). rewrite u8_id by apply u8_range. unfold u8. by rewrite <- P1.
  - rewrite LE_Get16_app, u16_id by apply u16_range. unfold u16. by rewrite <- P2.
  - rewrite LE_Get32_app, u32_id by apply u32_range. unfold u32. by rewrite <- P4.
  - rewrite LE_Get64_app. unfold u64. by rewrite <- P8.
Qed.

(** ** The tag field *)

(** The tag field [tb] after the control byte of control [tc] reads back as [tag]. *)
Definition tag_field (impl tc tag : Z) (tb : list Z) : Prop :=
  In tc tag_controls /\ Z.of_nat (length tb) = arr sTagSizes (Z.shiftr tc kTLVTagControlShift) /\
  forall x, ReadTag impl tc (tb ++ x) = (tag, x).

Lemma tag_field_context impl tag : plain_tag tag -> tag_hi tag = 4294967295 -> tag_lo tag < 256 ->
  tag_field impl kTLVTagControl_ContextSpecific tag (Write8 (u8 (tag_lo tag))).
Proof.
  intros Ht Hh Hl. pose proof (tag_lo_range tag). split; [simpl; auto 10|]. split; [done|]. intros x.
  change (ReadTag impl kTLVTagControl_ContextSpecific (Write8 (u8 (tag_lo tag)) ++ x))
    with (ContextTag (u8 (u8 (tag_lo tag))), x).
  rewrite !u8_id by (rewrite ?u8_id; lia). rewrite ContextTag_sum by lia. f_equal.
  rewrite (tag_split tag) at 2. rewrite Hh. lia.
Qed.

Lemma tag_field_anonymous impl : tag_field impl kTLVTagControl_Anonymous AnonymousTag [].
Proof. split; [simpl; auto 10|]. split; [done|]. by intros x. Qed.

Section Fields.
Context (impl tag : Z) (Ht : is_tag tag).

Lemma field_common2 : tag_hi tag = 0 -> tag_lo tag < 65536 ->
  tag_field impl kTLVTagControl_CommonProfile_2Bytes tag (LittleEndian_Write16 (u16 (tag_lo tag))).
Proof.
  intros Hh Hl. pose proof (tag_lo_range tag). split; [simpl; auto 10|]. split; [done|]. intros x.
  change (ReadTag impl kTLVTagControl_CommonProfile_2Bytes ?q) with
    (let '(n, p) := LittleEndian_Read16 q in (CommonTag n, p)).
  rewrite LE_Read16_app, !u16_id by (rewrite ?u16_id; lia). unfold CommonTag.
  rewrite ProfileTag_sum by lia. f_equal. rewrite (tag_split tag) at 2. rewrite Hh. done.
Qed.

Lemma field_common4 : tag_hi tag = 0 ->
  tag_field impl kTLVTagControl_CommonProfile_4Bytes tag (LittleEndian_Write32 (tag_lo tag)).
Proof.
  intros Hh. pose proof (tag_lo_range tag). split; [simpl; auto 10|]. split; [done|]. intros x.
  change (ReadTag impl kTLVTagControl_CommonProfile_4Bytes ?q) with
    (let '(n, p) := LittleEndian_Read32 q in (CommonTag n, p)).
  rewrite LE_Read32_app, !u32_id by lia. unfold CommonTag.
  rewrite ProfileTag_sum by lia. f_equal. rewrite (tag_split tag) at 2. rewrite Hh. done.
Qed.

Lemma field_implicit2 : tag_hi tag = impl -> impl <> 4294967295 -> tag_lo tag < 65536 ->
  tag_field impl kTLVTagControl_ImplicitProfile_2Bytes tag (LittleEndian_Write16 (u16 (tag_lo tag))).
Proof.
  intros Hh Hi Hl. pose proof (tag_lo_range tag). split; [simpl; auto 10|]. split; [done|]. intros x.
  change (ReadTag impl kTLVTagControl_ImplicitProfile_2Bytes ?q) with
    (if impl =? kProfileIdNotSpecified then (UnknownImplicitTag, q)
     else let '(n, p) := LittleEndian_Read16 q in (ProfileTag impl n, p)).
  destruct (Z.eqb_spec impl kProfileIdNotSpecified) as [|_]; [done|].
  rewrite LE_Read16_app, !u16_id by (rewrite ?u16_id; lia).
  rewrite ProfileTag_sum by lia. f_equal. rewrite (tag_split tag) at 2. by rewrite Hh.
Qed.

Lemma field_implicit4 : tag_hi tag = impl -> impl <> 4294967295 ->
  tag_field impl kTLVTagControl_ImplicitProfile_4Bytes tag (LittleEndian_Write32 (tag_lo tag)).
Proof.
  intros Hh Hi. pose proof (tag_lo_range tag). split; [simpl; auto 10|]. split; [done|]. intros x.
  change (ReadTag impl kTLVTagControl_ImplicitProfile_4Bytes ?q) with
    (if impl =? kProfileIdNotSpecified then (UnknownImplicitTag, q)
     else let '(n, p) := LittleEndian_Read32 q in (ProfileTag impl n, p)).
  destruct (Z.eqb_spec impl kProfileIdNotSpecified) as [|_]; [done|].
  rewrite LE_Read32_app, !u32_id by lia.
  rewrite ProfileTag_sum by lia. f_equal. rewrite (tag_split tag) at 2. by rewrite Hh.
Qed.

Lemma hi_parts : u16 (Z.shiftr (tag_hi tag) 16) * 65536 + u16 (tag_hi tag) = tag_hi tag.
Proof. pose proof (tag_hi_range tag Ht). rewrite shiftr_div by lia. change (2 ^ 16) with 65536. mlia. Qed.

Lemma field_full6 : tag_lo tag < 65536 ->
  tag_field impl kTLVTagControl_FullyQualified_6Bytes tag
    (LittleEndian_Write16 (u16 (Z.shiftr (tag_hi tag) 16)) ++ LittleEndian_Write16 (u16 (tag_hi tag)) ++
     LittleEndian_Write16 (u16 (tag_lo tag))).
Proof.
  intros Hl. pose proof (tag_lo_range tag). split; [simpl; auto 10|]. split; [done|]. intros x.
  change (ReadTag impl kTLVTagControl_FullyQualified_6Bytes ?q) with
    (let '(vendorId, p) := LittleEndian_Read16 q in
     let '(profileNum, p) := LittleEndian_Read16 p in
     let '(n, p) := LittleEndian_Read16 p in (ProfileTag3 vendorId profileNum n, p)).
  rewrite <- !app_assoc, !LE_Read16_app, !(u16_id (u16 _)) by apply u16_range.
  rewrite (u16_id (tag_lo tag)) by lia.
  rewrite ProfileTag3_sum by (apply u16_range || lia). f_equal.
  rewrite (tag_split tag) at 4. pose proof hi_parts. lia.
Qed.

Lemma field_full8 :
  tag_field impl kTLVTagControl_FullyQualified_8Bytes tag
    (LittleEndian_Write16 (u16 (Z.shiftr (tag_hi tag) 16)) ++ LittleEndian_Write16 (u16 (tag_hi tag)) ++
     LittleEndian_Write32 (tag_lo tag)).
Proof.
  pose proof (tag_lo_range tag). split; [simpl; auto 10|]. split; [done|]. intros x.
  change (ReadTag impl kTLVTagControl_FullyQualified_8Bytes ?q) with
    (let '(vendorId, p) := LittleEndian_Read16 q in
     let '(profileNum, p) := LittleEndian_Read16 p in
     let '(n, p) := LittleEndian_Read32 p in (ProfileTag3 vendorId profileNum n, p)).
  rewrite <- !app_assoc, !LE_Read16_app, !LE_Read32_app, !(u16_id (u16 _)) by apply u16_range.
  rewrite u32_id by lia.
  rewrite ProfileTag3_sum by (apply u16_range || lia). f_equal.
  rewrite (tag_split tag) at 4. pose proof hi_parts. lia.
Qed.
End Fields.

(** ** The whole head *)

Lemma ElementHeadTag_field ct impl et tag t :
  ElementHeadTag ct impl et tag = inr t -> plain_tag tag -> is_profile impl ->
  exists tc tb, t = Write8 (Z.lor tc et) ++ tb /\ tag_field impl tc tag tb.
Proof.
  intros H [Ht Hp] Hi. unfold ElementHeadTag in H.
  rewrite IsSpecialTag_hi, TagNum_lo, ProfileId_hi in H by done. pose proof (tag_lo_range tag) as Hl.
  destruct (Z.eqb_spec (tag_hi tag) 4294967295) as [Hh|Hh].
  - destruct (Z.ltb_spec (tag_lo tag) 256) as [Hlo|Hlo].
    + destruct (negb _ && negb _); [done|]. injection H as <-.
      eexists _, _. split; [reflexivity|]. by apply tag_field_context.
    + destruct (_ && _ && _); [done|]. injection H as <-. destruct (Hp Hh) as [|E]; [lia|].
      exists kTLVTagControl_Anonymous, []. rewrite app_nil_r. split; [done|].
      rewrite E. apply tag_field_anonymous.
  - destruct (_ && _ && _); [done|]. unfold kCommonProfileId in H.
    destruct (Z.eqb_spec (tag_hi tag) 0) as [H0|H0]; [|destruct (Z.eqb_spec (tag_hi tag) impl) as [H1|H1]];
      destruct (Z.ltb_spec (tag_lo tag) 65536); injection H as <-; eexists _, _;
      (split; [reflexivity|]); auto using field_common2, field_common4, field_full6, field_full8.
    + apply field_implicit2; [done|congruence|done].
    + apply field_implicit4; [done|congruence].
Qed.

(** The head written for an element, in the forms the reader uses. *)
Lemma head_shape ct impl et tag v t :
  ElementHeadTag ct impl et tag = inr t -> plain_tag tag -> is_profile impl -> is_elem_type et ->
  exists c tb, t ++ ElementHeadValue et v = c :: tb ++ ElementHeadValue et v /\
    Z.land c kTLVTypeMask = et /\ c <> kTLVControlByte_NotSpecified /\
    Z.of_nat (length (t ++ ElementHeadValue et v)) = elemHeadBytes c /\
    forall x, ReadTag impl (Z.land c kTLVTagControlMask) (tb ++ x) = (tag, x).
Proof.
  intros H Hp Hi Het. destruct (ElementHeadTag_field _ _ _ _ _ H Hp Hi) as (tc & tb & -> & Htc & Hlen & Hread).
  destruct (control_byte tc et Htc Het) as (Hc & Hty & Hct & Hns).
  exists (u8 (Z.lor tc et)), tb. split; [done|]. split; [done|]. split; [done|].
  destruct (value_field et v [] Het) as [Hv _].
  rewrite Hct. split; [|done].
  unfold elemHeadBytes. rewrite Hct, Hty, <- Hv, <- Hlen.
  rewrite !length_app. change (length (Write8 (Z.lor tc et))) with 1%nat. lia.
Qed.

Lemma head_length ct impl et tag v t :
  ElementHeadTag ct impl et tag = inr t -> plain_tag tag -> is_profile impl -> is_elem_type et ->
  1 <= Z.of_nat (length (t ++ ElementHeadValue et v)) <= 17.
Proof.
  intros H Hp Hi Het. destruct (head_shape ct impl et tag v t H Hp Hi Het) as (c & tb & _ & _ & _ & -> & _).
  apply head_bytes_bound.
Qed.

(** ** Reading a head *)

(** [r'] differs from [r] in the position and the current element only. *)
Definition same_context (r r' : TLVReader) : Prop :=
  ImplicitProfileId r' = ImplicitProfileId r /\ mMaxLen r' = mMaxLen r /\
  mContainerType r' = mContainerType r.

Lemma same_context_refl r : same_context r r.
Proof. done. Qed.

Lemma same_context_trans r s t : same_context r s -> same_context s t -> same_context r t.
Proof. unfold same_context. intuition congruence. Qed.

Lemma flatten_fields r s : flatten r = s ->
  ImplicitProfileId r = ImplicitProfileId s /\ mMaxLen r = mMaxLen s /\ mContainerType r = mContainerType s /\
  mLenRead r = mLenRead s /\ mElemTag r = mElemTag s /\ mElemLenOrVal r = mElemLenOrVal s /\
  mControlByte r = mControlByte s /\ flat r = flat s.
Proof. intros <-. by rewrite flat_flatten. Qed.

(** The bytes of a head are taken and interpreted; VerifyElement decides. *)
Lemma ReadElement_spec r h c tb rest :
  wf r -> flat r = h ++ rest -> h = c :: tb -> Z.of_nat (length h) = elemHeadBytes c ->
  IsValidTLVType (Z.land c kTLVTypeMask) = true -> c <> kTLVControlByte_NotSpecified ->
  exists r1,
    (let '(tag, p) := ReadTag (ImplicitProfileId r) (Z.land c kTLVTagControlMask) tb in
     ReadElement r = VerifyElement (set_element tag (ReadLenOrVal (GetTLVFieldSize (Z.land c kTLVTypeMask)) p) c r1)) /\
    wf r1 /\ flat r1 = rest /\ same_context r r1 /\ mLenRead r1 = mLenRead r + Z.of_nat (length h).
Proof.
  intros Hw Hf -> Hlen Hv Hc. rewrite ReadElement_unfold.
  destruct (EnsureData_spec WEAVE_END_OF_TLV r Hw) as [[F _]|(r1 & E1 & Hw1 & F1 & C1 & _)]; [by rewrite F in Hf|].
  rewrite (bind_ok _ _ _ _ _ E1). destruct (wf_current r1 Hw1) as (El & _). rewrite El.
  pose proof (flatten_fields _ _ F1) as (I1 & M1 & T1 & L1 & _ & _ & _ & Fl1). rewrite flat_flatten in Fl1. simpl in *.
  destruct (current r1) as [|c' l] eqn:Ec; [done|].
  destruct (current_flat r1 c' l Hw1 Ec) as [k Ek]. rewrite Fl1, Hf in Ek. injection Ek as <- _.
  unfold ReadElement_body.
  assert (ElementType (set_control c r1) = Z.land c kTLVTypeMask) as Ety.
  { unfold ElementType. simpl. by destruct (Z.eqb_spec c kTLVControlByte_NotSpecified). }
  rewrite Ety, Hv. cbn [negb].
  assert (Hw2 : wf (set_control c r1)) by (apply keeps_wf; [by intros ?|done]).
  assert (Fl2 : flat (set_control c r1) = flat r1) by done.
  pose proof (head_bytes_bound c).
  destruct (reads_ReadHead (elemHeadBytes c) ltac:(lia) _ Hw2) as [(_ & r3 & E3 & Hw3 & F3 & _)|(Hbad & _)].
  2:{ rewrite Fl2, Fl1, Hf in Hbad. cbn [app length] in Hbad, Hlen. rewrite length_app in Hbad. lia. }
  rewrite (bind_ok _ _ _ _ _ E3). rewrite Fl2, Fl1, Hf.
  pose proof (flatten_fields _ _ F3) as (I3 & M3 & T3 & L3 & _ & _ & _ & Fl3).
  rewrite flat_advance, flat_flatten, Fl2, Fl1, Hf in Fl3. simpl in I3, M3, T3, L3.
  assert (Hn : Z.to_nat (elemHeadBytes c) = length (c :: tb)) by (cbn [length] in *; lia).
  rewrite (take_app_exact _ (c :: tb) rest) by done. rewrite (drop_app_exact _ (c :: tb) rest) in Fl3 by done. cbn [drop].
  rewrite I3, I1. exists r3. unfold same_context. destruct (ReadTag _ _ _) as [tag p].
  repeat split; auto; (congruence || lia).
Qed.

(** The head of an element written with the reader's implicit profile reads
    back; what remains is the verdict of VerifyElement. *)
Lemma ReadElement_head ct r et tag v t rest :
  wf r -> ElementHeadTag ct (ImplicitProfileId r) et tag = inr t ->
  plain_tag tag -> is_profile (ImplicitProfileId r) -> is_elem_type et ->
  flat r = (t ++ ElementHeadValue et v) ++ rest ->
  exists r', ReadElement r = VerifyElement r' /\ wf r' /\ flat r' = rest /\ same_context r r' /\
    ElementType r' = et /\ mElemTag r' = tag /\ mElemLenOrVal r' = field_value et v /\
    mLenRead r' = mLenRead r + Z.of_nat (length (t ++ ElementHeadValue et v)).
Proof.
  intros Hw H Hp Hi Het Hf.
  destruct (head_shape ct _ et tag v t H Hp Hi Het) as (c & tb & Eh & Hty & Hns & Hlen & Hread).
  destruct (ReadElement_spec r (t ++ ElementHeadValue et v) c (tb ++ ElementHeadValue et v) rest Hw Hf Eh Hlen)
    as (r1 & E & Hw1 & Hf1 & Hs & Hl); [|done|].
  { rewrite Hty. unfold IsValidTLVType, is_elem_type, kTLVElementType_EndOfContainer in *. rewrite u8_id by lia. apply Z.leb_le. lia. }
  rewrite Hread, Hty in E.
  destruct (value_field et v [] Het) as [_ Hval]. rewrite app_nil_r in Hval. rewrite Hval in E.
  eexists. split; [exact E|]. split; [by apply keeps_wf; auto with weave|].
  split; [by rewrite keeps_flat by auto with weave|]. split; [done|].
  split; [|done]. unfold ElementType. simpl.
  by destruct (Z.eqb_spec c kTLVControlByte_NotSpecified).
Qed.
