(* ===== verification/TLVTree.v ===== *)
(** * Trees of TLV elements: writing and reading back

    [tlv] is an element as an application sees it.  [enc] is the specification of
    its encoding, [put] the program that writes it with the writer's operations
    and [get_list] the program that reads the elements of a container with the
    reader's.  The writer produces [enc] (when there is room for it), and the
    reader recovers the elements from [enc], over one buffer or a chain. *)
From S2P Require Import Prelude Encoding TLVTypes TLVReader TLVReaderRefine TLVWriter TLVHead.
Local Open Scope weave_scope.

(** ** Writers with room *)

(** Everything written so far, over all buffers. *)
Definition out (w : TLVWriter) : list Z := concat (wDone w) ++ wBufStart w ++ wCur w.

Definition sum (l : list Z) : Z := foldr Z.add 0 l.

(** The bytes the buffers can still take, and those the maximum length allows. *)
Definition phys (w : TLVWriter) : Z := wRemainingLen w + (if wGetNewBuffer w then sum (wPool w) else 0).
Definition logical (w : TLVWriter) : Z := wMaxLen w - wLenWritten w.

Definition size_ok (n : Z) : Prop := 0 < n < 4294967296.

Definition wwf (w : TLVWriter) : Prop :=
  0 <= wRemainingLen w < 4294967296 /\ 0 <= wLenWritten w /\ wLenWritten w <= wMaxLen w < 4294967296 /\
  Forall size_ok (wPool w) /\ wContainerOpen w = false /\ wCloseContainerReserved w = true.

(** Room for [n] bytes; a writer that takes new buffers is not cut by the
    maximum length, with [d] bytes to spare. *)
Definition room (w : TLVWriter) (n d : Z) : Prop :=
  n <= logical w /\ n <= phys w /\
  (wGetNewBuffer w = true -> wFinalizeBuffer w = true /\ phys w + d <= logical w).

(** [w'] is [w] after [data] was written. *)
Definition wrote (data : list Z) (w w' : TLVWriter) : Prop :=
  wwf w' /\ out w' = out w ++ data /\
  logical w' = logical w - Z.of_nat (length data) /\ phys w' = phys w - Z.of_nat (length data) /\
  wContainerType w' = wContainerType w /\ wImplicitProfileId w' = wImplicitProfileId w /\ wMaxLen w' = wMaxLen w /\
  wGetNewBuffer w' = wGetNewBuffer w /\ wFinalizeBuffer w' = wFinalizeBuffer w.

Lemma wrote_nil w : wwf w -> wrote [] w w.
Proof. intros. unfold wrote. rewrite app_nil_r. simpl. repeat split; try lia; apply H. Qed.

Lemma wrote_trans a b w1 w2 w3 : wrote a w1 w2 -> wrote b w2 w3 -> wrote (a ++ b) w1 w3.
Proof.
  unfold wrote. intros (A1 & A2 & A3 & A4 & A5 & A6 & A7 & A8 & A9) (B1 & B2 & B3 & B4 & B5 & B6 & B7 & B8 & B9).
  rewrite length_app. repeat split; try apply B1; try congruence; [|lia|lia].
  by rewrite B2, A2, app_assoc.
Qed.

Lemma room_wrote data w w' n d : wrote data w w' -> room w (Z.of_nat (length data) + n) d -> room w' n d.
Proof.
  unfold wrote, room. intros (A1 & A2 & A3 & A4 & A5 & A6 & A7 & A8 & A9) (R1 & R2 & R3).
  rewrite A3, A4, A8, A9. split; [lia|]. split; [lia|]. intros Hg. destruct (R3 Hg). split; [done|lia].
Qed.

Lemma room_le w n m d e : n <= m -> e <= d -> room w m d -> room w n e.
Proof. unfold room. intros ?? (R1 & R2 & R3). split; [lia|]. split; [lia|]. intros Hg. destruct (R3 Hg). split; [done|lia]. Qed.

(** ** WriteData *)

Lemma append_wrote data w : wwf w -> Z.of_nat (length data) <= wRemainingLen w ->
  Z.of_nat (length data) <= logical w -> wrote data w (append data w).
Proof.
  intros (H1 & H2 & H3 & H4 & H5 & H6) Hr Hl. unfold logical in Hl. unfold wrote, wwf, append, out, logical, phys. simpl.
  rewrite !u32_id by lia. rewrite !app_assoc. repeat split; auto; lia.
Qed.

Lemma NextBuffer_ok w n d : wwf w -> wRemainingLen w = 0 -> 0 < n -> room w n d -> 0 <= d ->
  exists w', NextBuffer w = (Ok tt, w') /\ wrote [] w w' /\ 0 < wRemainingLen w' /\
    (length (wPool w') < length (wPool w))%nat.
Proof.
  intros (H1 & H2 & H3 & H4 & H5 & H6) Hr Hn (R1 & R2 & R3) Hd. unfold NextBuffer.
  destruct (wGetNewBuffer w) eqn:Eg; [|unfold phys in R2; rewrite Eg in R2; lia].
  destruct (R3 eq_refl) as [Ef Hpl]. unfold phys in *. rewrite Eg, Hr in *. unfold logical in *.
  destruct (wPool w) as [|size rest] eqn:Ep; [simpl in R2; lia|]. inversion H4 as [|? ? Hs Hrest]; subst.
  assert (0 <= sum rest) as Hsum.
  { clear -Hrest. induction Hrest as [|x l Hx Hl IH]; simpl; [lia|]. unfold size_ok in Hx. lia. }
  unfold size_ok in Hs. simpl sum in *. cbn [negb].
  rewrite u32_id by lia. destruct (Z.ltb_spec (wMaxLen w - wLenWritten w) size); [lia|].
  eexists. split; [done|]. unfold wrote, wwf, out, logical, phys, finalized, FinalizePacketBuffer. simpl. rewrite Eg, Ef, Ep.
  split; [|split; [lia|simpl; lia]]. rewrite concat_app. simpl. rewrite !app_nil_r.
  repeat split; auto; simpl; lia.
Qed.

Lemma WriteData_loop_ok fuel : forall p w d, wwf w -> room w (Z.of_nat (length p)) d -> 0 <= d ->
  (length (wPool w) + (if (wRemainingLen w =? 0)%Z then 1 else 2) <= fuel)%nat ->
  exists w', WriteData_loop fuel p w = (Ok tt, w') /\ wrote p w w'.
Proof.
  induction fuel as [|k IH]; intros p w d Hw Hroom Hd Hfuel; [destruct (_ =? _); lia|].
  destruct p as [|x p']; [exists w; split; [done|by apply wrote_nil]|]. set (p := x :: p') in *.
  cbn [WriteData_loop]. subst p; cbv iota; set (p := x :: p') in *.
  assert (exists w1, (if wRemainingLen w =? 0 then NextBuffer w else (Ok tt, w)) = (Ok tt, w1) /\ wrote [] w w1 /\
    0 < wRemainingLen w1 /\ (length (wPool w1) + (if (wRemainingLen w =? 0)%Z then 1 else 0) <= length (wPool w))%nat)
    as (w1 & E1 & Hw1 & Hpos & Hpool).
  { destruct (Z.eqb_spec (wRemainingLen w) 0) as [E|E].
    - destruct (NextBuffer_ok w (Z.of_nat (length p)) d) as (w1 & E1 & Hw1 & Hp & Hl); try done.
      exists w1. split; [done|]. split; [done|]. split; [done|lia].
    - exists w. split; [done|]. split; [by apply wrote_nil|]. destruct Hw as (? & _). split; lia. }
  rewrite (bind_ok _ _ _ _ _ E1). cbv beta zeta.
  pose proof (room_wrote [] w w1 _ d Hw1 Hroom) as Hroom1.
  set (n := Z.to_nat (Z.min (Z.of_nat (length p)) (wRemainingLen w1))).
  assert ((0 < n <= length p)%nat /\ Z.of_nat n <= wRemainingLen w1 /\ ((n < length p)%nat -> Z.of_nat n = wRemainingLen w1))
    as (Hn & Hnr & Hnf) by (subst n p; simpl length; lia).
  assert (length (take n p) = n) as Elen by (rewrite length_take; lia).
  destruct Hroom1 as (R1 & R2 & R3).
  assert (wrote (take n p) w1 (append (take n p) w1)) as Hw2.
  { apply append_wrote; [apply Hw1|rewrite Elen; lia|rewrite Elen; lia]. }
  destruct (Nat.eq_dec n (length p)) as [Heq|Hneq].
  { exists (append (take n p) w1). rewrite (drop_ge p n), (take_ge p n) in * by lia. destruct k; (split; [done|]);
      by apply (wrote_trans [] p w w1). }
  destruct (IH (drop n p) (append (take n p) w1) d) as (w' & E' & Hw').
  - apply Hw2.
  - apply (room_wrote (take n p) w1); [done|]. rewrite Elen, length_drop.
    replace (Z.of_nat n + Z.of_nat (length p - n)) with (Z.of_nat (length p)) by lia. by split.
  - done.
  - change (wPool (append (take n p) w1)) with (wPool w1).
    destruct (Z.eqb_spec (wRemainingLen (append (take n p) w1)) 0) as [|E]; [destruct (wRemainingLen w =? 0); lia|].
    exfalso. apply E. unfold append. simpl. rewrite Elen. rewrite Hnf by lia. by rewrite Z.sub_diag.
  - exists w'. split; [done|]. rewrite <- (take_drop n p).
    apply (wrote_trans [] _ w w1 w'); [done|]. by apply (wrote_trans _ _ _ (append (take n p) w1)).
Qed.

Lemma WriteData_ok p w d : wwf w -> room w (Z.of_nat (length p)) d -> 0 <= d ->
  exists w', WriteData p w = (Ok tt, w') /\ wrote p w w'.
Proof.
  intros Hw Hr Hd. unfold WriteData. pose proof Hw as (H1 & H2 & H3 & _). pose proof Hr as (R1 & _). unfold logical in R1.
  rewrite u32_id by lia. destruct (Z.leb_spec (wLenWritten w + Z.of_nat (length p)) (wMaxLen w)); [|lia]. cbn [negb].
  apply (WriteData_loop_ok _ p w d); auto. destruct (_ =? _); lia.
Qed.

(** ** Heads *)

Definition head (ct impl et tag v : Z) : list Z :=
  match ElementHeadTag ct impl et tag with
  | inr t => t ++ ElementHeadValue et v
  | inl _ => []
  end.

Definition tag_allowed (ct impl et tag : Z) : Prop := exists t, ElementHeadTag ct impl et tag = inr t.

Lemma WriteElementHead_ok et tag v w d :
  wwf w -> plain_tag tag -> is_profile (wImplicitProfileId w) -> is_elem_type et ->
  tag_allowed (wContainerType w) (wImplicitProfileId w) et tag ->
  room w (Z.of_nat (length (head (wContainerType w) (wImplicitProfileId w) et tag v))) d -> 0 <= d ->
  exists w', WriteElementHead et tag v w = (Ok tt, w') /\
    wrote (head (wContainerType w) (wImplicitProfileId w) et tag v) w w'.
Proof.
  intros Hw Ht Hi Het (t & E) Hr Hd. unfold WriteElementHead, head in *. rewrite E in *.
  pose proof (head_length _ _ et tag v t E Ht Hi Het) as Hlen.
  pose proof Hw as (_ & _ & _ & _ & -> & _).
  destruct (Z.leb_spec 17 (wRemainingLen w)); simpl andb; cbv iota; [|by apply (WriteData_ok _ w d)].
  destruct (17 <=? wMaxLen w); [|by apply (WriteData_ok _ w d)].
  eexists. split; [done|]. destruct Hr as (R1 & _). apply append_wrote; [done|lia|done].
Qed.

(** ** Elements *)

Inductive tlv :=
  | TInt (tag v : Z)
  | TUInt (tag v : Z)
  | TBool (tag : Z) (b : bool)
  | TFloat (tag : Z) (v : float_bits)
  | TNull (tag : Z)
  | TUtf8 (tag : Z) (s : list Z)
  | TBytes (tag : Z) (s : list Z)
  | TContainer (tag ctype : Z) (elems : list tlv).

Section tlv_induction.
Context (P : tlv -> Prop).
Hypothesis HInt : forall tag v, P (TInt tag v).
Hypothesis HUInt : forall tag v, P (TUInt tag v).
Hypothesis HBool : forall tag b, P (TBool tag b).
Hypothesis HFloat : forall tag v, P (TFloat tag v).
Hypothesis HNull : forall tag, P (TNull tag).
Hypothesis HUtf8 : forall tag s, P (TUtf8 tag s).
Hypothesis HBytes : forall tag s, P (TBytes tag s).
Hypothesis HContainer : forall tag c ts, Forall P ts -> P (TContainer tag c ts).

Fixpoint tlv_nested_ind (t : tlv) : P t :=
  match t with
  | TInt tag v => HInt tag v
  | TUInt tag v => HUInt tag v
  | TBool tag b => HBool tag b
  | TFloat tag v => HFloat tag v
  | TNull tag => HNull tag
  | TUtf8 tag s => HUtf8 tag s
  | TBytes tag s => HBytes tag s
  | TContainer tag c ts =>
    HContainer tag c ts
      ((fix go (l : list tlv) : Forall P l :=
          match l with
          | [] => List.Forall_nil P
          | x :: l => List.Forall_cons P x l (tlv_nested_ind x) (go l)
          end) ts)
  end.
End tlv_induction.

(** ** Specification of the encoding *)

(** Element types by value, as the Put functions choose them. *)
Definition uint_type (v : Z) : Z :=
  if v <=? 255 then 4 else if v <=? 65535 then 5 else if v <=? 4294967295 then 6 else 7.
Definition int_type (v : Z) : Z :=
  if (-128 <=? v) && (v <=? 127) then 0 else if (-32768 <=? v) && (v <=? 32767) then 1
  else if (-2147483648 <=? v) && (v <=? 2147483647) then 2 else 3.
Definition len_size (n : Z) : Z := if n <=? 255 then 0 else if n <=? 65535 then 1 else 2.

Definition strlen (s : list Z) : Z := Z.of_nat (length s).

Fixpoint enc (ct impl : Z) (t : tlv) : list Z :=
  match t with
  | TInt tag v => head ct impl (int_type v) tag (u64 v)
  | TUInt tag v => head ct impl (uint_type v) tag v
  | TBool tag b => head ct impl (if b then 9 else 8) tag 0
  | TFloat tag (Single v) => head ct impl 10 tag v
  | TFloat tag (Double v) => head ct impl 11 tag v
  | TNull tag => head ct impl 20 tag 0
  | TUtf8 tag s => head ct impl (12 + len_size (strlen s)) tag (strlen s) ++ s
  | TBytes tag s => head ct impl (16 + len_size (strlen s)) tag (strlen s) ++ s
  | TContainer tag c ts => head ct impl c tag 0 ++ concat (map (enc c impl) ts) ++ [24]
  end.

Definition enc_list (ct impl : Z) (ts : list tlv) : list Z := concat (map (enc ct impl) ts).

Fixpoint depth (t : tlv) : Z :=
  match t with
  | TContainer _ _ ts => 1 + foldr Z.max 0 (map depth ts)
  | _ => 0
  end.

(** Where each kind of tag may stand. *)
Definition tag_ok (ct tag : Z) : Prop :=
  plain_tag tag /\
  (if tag_hi tag =? 4294967295
   then if tag_lo tag <? 256 then ct = 21 \/ ct = 23 else ct = -1 \/ ct = 22
   else ct = -1 \/ ct = 21 \/ ct = 23).

Fixpoint valid (ct : Z) (t : tlv) : Prop :=
  match t with
  | TInt tag v => tag_ok ct tag /\ -9223372036854775808 <= v <= 9223372036854775807
  | TUInt tag v => tag_ok ct tag /\ 0 <= v <= 18446744073709551615
  | TBool tag _ => tag_ok ct tag
  | TFloat tag (Single v) => tag_ok ct tag /\ 0 <= v <= 4294967295
  | TFloat tag (Double v) => tag_ok ct tag /\ 0 <= v <= 18446744073709551615
  | TNull tag => tag_ok ct tag
  | TUtf8 tag s => tag_ok ct tag /\ strlen s <= 4294967295
  | TBytes tag s => tag_ok ct tag /\ strlen s <= 4294967295
  | TContainer tag c ts => tag_ok ct tag /\ 21 <= c <= 23 /\ foldr (fun t P => valid c t /\ P) True ts
  end.

Definition valid_list (ct : Z) (ts : list tlv) : Prop := foldr (fun t P => valid ct t /\ P) True ts.

(** ** The programs *)

Definition Put_float_bits (tag : Z) (v : float_bits) : M TLVWriter unit :=
  match v with Single b => Put_float tag b | Double b => Put_double tag b end.

Fixpoint put (t : tlv) : M TLVWriter unit :=
  match t with
  | TInt tag v => Put_s64 tag v
  | TUInt tag v => Put_u64 tag v
  | TBool tag b => PutBoolean tag b
  | TFloat tag v => Put_float_bits tag v
  | TNull tag => PutNull tag
  | TUtf8 tag s => PutString tag s
  | TBytes tag s => PutBytes tag s
  | TContainer tag c ts =>
    let* outer := StartContainer tag c in
    do* foldr (fun t k => do* put t in k) (ret tt) ts in
    EndContainer outer
  end.

Definition put_list (ts : list tlv) : M TLVWriter unit := foldr (fun t k => do* put t in k) (ret tt) ts.

Definition lift {A} (f : TLVReader -> res A) : M TLVReader A := fun r => (f r, r).

(** Reading the current element, given a reader for the elements of a container. *)
Definition get_value (elems : M TLVReader (list tlv)) : M TLVReader tlv := fun r =>
  let tag := GetTag r in
  let ty := GetType r in
  if ty =? kTLVType_SignedInteger then lift (fun r => res_map (TInt tag) (Get_s64 r)) r
  else if ty =? kTLVType_UnsignedInteger then lift (fun r => res_map (TUInt tag) (Get_u64 r)) r
  else if ty =? kTLVType_Boolean then lift (fun r => res_map (TBool tag) (Get_bool r)) r
  else if ty =? kTLVType_FloatingPointNumber then lift (fun r => res_map (TFloat tag) (Get_double r)) r
  else if ty =? kTLVType_Null then (Ok (TNull tag), r)
  else if ty =? kTLVType_UTF8String then (let* s := GetBytes (GetLength r) in ret (TUtf8 tag s)) r
  else if ty =? kTLVType_ByteString then (let* s := GetBytes (GetLength r) in ret (TBytes tag s)) r
  else
    (let* outer := EnterContainer in
     let* ts := elems in
     do* ExitContainer outer in
     ret (TContainer tag ty ts)) r.

(** The elements of a container, until Next reports the end. *)
Fixpoint get_list (fuel : nat) : M TLVReader (list tlv) := fun r =>
  match fuel with
  | O => (Diverges, r)
  | S k =>
    match Next r with
    | (Ok _, r) => (let* t := get_value (get_list k) in let* ts := get_list k in ret (t :: ts)) r
    | (Err WEAVE_END_OF_TLV, r) => (Ok [], r)
    | (Err e, r) => (Err e, r)
    | (Undefined, r) => (Undefined, r)
    | (Diverges, r) => (Diverges, r)
    end
  end.

Definition example_tree : list tlv :=
  [TContainer AnonymousTag 21 [TBool (ContextTag 1) true; TInt (ContextTag 2) (-300);
     TContainer (ContextTag 3) 22 [TUtf8 AnonymousTag [104; 105]; TNull AnonymousTag];
     TUInt (ProfileTag3 9050 4 70000) 5000000000];
   TFloat (CommonTag 7) (Single 1065353216)].

Example put_get_example :
  let w := put_list example_tree (InitWriter 60) in
  fst w = Ok tt /\ wCur (snd w) = enc_list (-1) kProfileIdNotSpecified example_tree /\
  fst (get_list 60 (Init (wCur (snd w)))) = Ok example_tree.
Proof. vm_compute. repeat split. Qed.

(** ** The writer produces the encoding *)

Lemma tag_ok_plain ct tag : tag_ok ct tag -> plain_tag tag.
Proof. by intros [? _]. Qed.

Lemma tag_ok_allowed ct impl et tag : tag_ok ct tag -> tag_allowed ct impl et tag.
Proof.
  intros [[Ht Hp] Hc]. unfold tag_allowed, ElementHeadTag.
  rewrite IsSpecialTag_hi, TagNum_lo, ProfileId_hi by done.
  unfold kTLVType_Structure, kTLVType_Path, kTLVType_NotSpecified, kTLVType_Array in *.
  destruct (tag_hi tag =? 4294967295).
  - destruct (tag_lo tag <? 256).
    + destruct Hc as [-> | ->]; by eexists.
    + destruct Hc as [-> | ->]; rewrite ?andb_false_r; by eexists.
  - destruct Hc as [-> |[-> | ->]]; cbn [negb andb Z.eqb]; (destruct (tag_hi tag =? kCommonProfileId);
      [|destruct (tag_hi tag =? impl)]); destruct (tag_lo tag <? 65536); by eexists.
Qed.

Lemma end_head ct impl : head ct impl 24 AnonymousTag 0 = [24].
Proof. done. Qed.

Lemma anonymous_plain : plain_tag AnonymousTag.
Proof. split; [by vm_compute|by right]. Qed.

Lemma end_allowed ct impl : tag_allowed ct impl 24 AnonymousTag.
Proof. by eexists. Qed.

Lemma head_nonempty ct impl et tag v : tag_ok ct tag -> is_profile impl -> is_elem_type et ->
  1 <= Z.of_nat (length (head ct impl et tag v)) <= 17.
Proof.
  intros Ht Hi He. destruct (tag_ok_allowed ct impl et tag Ht) as [t E]. unfold head. rewrite E.
  apply (head_length _ _ _ _ v _ E (tag_ok_plain _ _ Ht) Hi He).
Qed.

Lemma field_value_id et v m : 0 <= v -> v <= m -> negb (GetTLVFieldSize et =? kTLVFieldSize_0Byte) = true ->
  m < 256 ^ TLVFieldSizeToBytes (GetTLVFieldSize et) -> field_value et v = v.
Proof.
  intros H0 Hm Hs Hb. unfold field_value. apply negb_true_iff in Hs. rewrite Hs. apply Z.mod_small. lia.
Qed.

Lemma uint_type_spec v : 0 <= v <= 18446744073709551615 ->
  is_elem_type (uint_type v) /\ field_value (uint_type v) v = v /\ uint_type v <> 24.
Proof.
  intros [Hv0 Hv]. unfold uint_type, is_elem_type.
  destruct (Z.leb_spec v 255); [|destruct (Z.leb_spec v 65535); [|destruct (Z.leb_spec v 4294967295)]];
    (split; [lia|]; split; [|done]); (eapply field_value_id; [lia| |done|]; [eassumption|done]).
Qed.

Lemma len_size_spec n (base : Z) : 0 <= n <= 4294967295 -> base = 12 \/ base = 16 ->
  is_elem_type (base + len_size n) /\ field_value (base + len_size n) n = n /\
  TLVTypeHasLength (base + len_size n) = true /\ base + len_size n <> 24 /\ 0 <= len_size n <= 2.
Proof.
  intros [Hn0 Hn] Hb. unfold len_size, is_elem_type.
  destruct (Z.leb_spec n 255); [|destruct (Z.leb_spec n 65535)]; destruct Hb as [-> | ->];
    (split; [lia|]; split; [|done]); (eapply field_value_id; [lia| |done|]; [eassumption|done]).
Qed.

Lemma WriteElementWithData_ok base tag data w d :
  wwf w -> tag_ok (wContainerType w) tag -> is_profile (wImplicitProfileId w) -> base = 12 \/ base = 16 ->
  strlen data <= 4294967295 -> 0 <= d ->
  let h := head (wContainerType w) (wImplicitProfileId w) (base + len_size (strlen data)) tag (strlen data) in
  room w (Z.of_nat (length (h ++ data))) d ->
  exists w', WriteElementWithData base tag data w = (Ok tt, w') /\ wrote (h ++ data) w w'.
Proof.
  intros Hw Ht Hi Hb Hl Hd h Hr. unfold WriteElementWithData.
  assert (0 <= strlen data) by (unfold strlen; lia).
  destruct (len_size_spec (strlen data) base ltac:(lia) Hb) as (He & _).
  assert (Z.lor base (if Z.of_nat (length data) <=? UINT8_MAX then kTLVFieldSize_1Byte
    else if Z.of_nat (length data) <=? UINT16_MAX then kTLVFieldSize_2Byte else kTLVFieldSize_4Byte)
    = base + len_size (strlen data)) as ->.
  { unfold len_size, strlen, UINT8_MAX, UINT16_MAX.
    destruct (Z.of_nat (length data) <=? 255), (Z.of_nat (length data) <=? 65535), Hb as [-> | ->]; done. }
  rewrite length_app in Hr.
  destruct (WriteElementHead_ok (base + len_size (strlen data)) tag (strlen data) w d) as (w1 & E1 & H1); auto.
  { apply (tag_ok_plain _ _ Ht). } { by apply tag_ok_allowed. } { eapply room_le; [| |exact Hr]; subst h; lia. }
  unfold strlen at 1 in E1. rewrite (bind_ok _ _ _ _ _ E1).
  destruct (WriteData_ok data w1 d) as (w2 & E2 & H2); [apply H1| |done|].
  { apply (room_wrote h w w1); [done|]. eapply room_le; [| |exact Hr]; lia. }
  exists w2. split; [done|]. by apply (wrote_trans _ _ w w1).
Qed.

(** ** Containers *)

(** What an operation that only moves the maximum length or the container type keeps. *)
Definition same_output (w w' : TLVWriter) : Prop :=
  phys w' = phys w /\ out w' = out w /\ wImplicitProfileId w' = wImplicitProfileId w /\
  wGetNewBuffer w' = wGetNewBuffer w /\ wFinalizeBuffer w' = wFinalizeBuffer w.

Lemma reserve_facts w : wwf w -> 1 <= logical w ->
  wwf (reserve w) /\ same_output w (reserve w) /\ wMaxLen (reserve w) = wMaxLen w - 1 /\
  wContainerType (reserve w) = wContainerType w /\ logical (reserve w) = logical w - 1.
Proof.
  unfold logical. intros (A1 & A2 & A3 & A4 & A5 & A6) Hl. unfold reserve, kEndOfContainerMarkerSize.
  rewrite A6, u32_id by lia. unfold wwf, same_output, logical. simpl. repeat split; auto; lia.
Qed.

Lemma unreserve_facts w : wwf w -> wMaxLen w + 1 < 4294967296 ->
  wwf (unreserve w) /\ same_output w (unreserve w) /\ wMaxLen (unreserve w) = wMaxLen w + 1 /\
  wContainerType (unreserve w) = wContainerType w /\ logical (unreserve w) = logical w + 1.
Proof.
  intros (A1 & A2 & A3 & A4 & A5 & A6) Hl. unfold unreserve, kEndOfContainerMarkerSize.
  rewrite A6, u32_id by lia. unfold wwf, same_output, logical. simpl. repeat split; auto; lia.
Qed.

Lemma container_type_ok c : 21 <= c <= 23 -> TLVTypeIsContainer c = true /\ is_elem_type c.
Proof.
  intros Hc. unfold is_elem_type. split; [|lia].
  assert (c = 21 \/ c = 22 \/ c = 23) as [-> |[-> | ->]] by lia; done.
Qed.

Lemma StartContainer_ok tag c w n d :
  wwf w -> tag_ok (wContainerType w) tag -> is_profile (wImplicitProfileId w) -> 21 <= c <= 23 ->
  let h := head (wContainerType w) (wImplicitProfileId w) c tag 0 in
  room w (Z.of_nat (length h) + n + 1) d -> 1 <= d -> 0 <= n ->
  exists w1, StartContainer tag c w = (Ok (wContainerType w), w1) /\ wwf w1 /\ wContainerType w1 = c /\
    wMaxLen w1 = wMaxLen w - 1 /\ out w1 = out w ++ h /\ phys w1 = phys w - Z.of_nat (length h) /\
    logical w1 = logical w - 1 - Z.of_nat (length h) /\ wImplicitProfileId w1 = wImplicitProfileId w /\
    wGetNewBuffer w1 = wGetNewBuffer w /\ wFinalizeBuffer w1 = wFinalizeBuffer w /\ room w1 n (d - 1).
Proof.
  intros Hw Ht Hi Hc h (R1 & R2 & R3) Hd Hn. destruct (container_type_ok c Hc) as [Hcc Het].
  pose proof (head_nonempty _ _ c tag 0 Ht Hi Het) as Hh. fold h in Hh.
  destruct (reserve_facts w Hw ltac:(lia)) as (Hw0 & (P1 & P2 & P3 & P4 & P5) & P6 & P7 & P8).
  destruct (WriteElementHead_ok c tag 0 (reserve w) (d - 1)) as (w1 & E1 & H1);
    rewrite ?P7, ?P3; auto using tag_ok_allowed; [by apply (tag_ok_plain (wContainerType w))| |lia|].
  { fold h. unfold room. rewrite P1, P4, P5, P8. split; [lia|]. split; [lia|]. intros Hg. destruct (R3 Hg). split; [done|lia]. }
  rewrite P7, P3 in H1. fold h in H1. destruct H1 as (B1 & B2 & B3 & B4 & B5 & B6 & B7 & B8 & B9).
  exists (set_wContainerOpen false (set_wContainerType c w1)). unfold StartContainer. rewrite Hcc, E1. cbn [negb].
  rewrite B5, P7. split; [done|]. split; [unfold wwf in *; simpl; tauto|].
  change (out (set_wContainerOpen false (set_wContainerType c w1))) with (out w1).
  change (room (set_wContainerOpen false (set_wContainerType c w1))) with (room w1).
  change (phys (set_wContainerOpen false (set_wContainerType c w1))) with (phys w1).
  change (logical (set_wContainerOpen false (set_wContainerType c w1))) with (logical w1). simpl.
  unfold room. rewrite B2, B3, B4, B6, B7, B8, B9, P1, P2, P3, P4, P5, P6, P8.
  do 8 (split; [done|]). split; [lia|]. split; [lia|]. intros Hg. destruct (R3 Hg). split; [done|lia].
Qed.

Lemma EndContainer_ok ct w :
  wwf w -> 21 <= wContainerType w <= 23 -> is_profile (wImplicitProfileId w) ->
  wMaxLen w + 1 < 4294967296 -> 1 <= phys w ->
  (wGetNewBuffer w = true -> wFinalizeBuffer w = true /\ phys w <= logical w) ->
  exists w', EndContainer ct w = (Ok tt, w') /\ wwf w' /\ wContainerType w' = ct /\ wMaxLen w' = wMaxLen w + 1 /\
    out w' = out w ++ [24] /\ phys w' = phys w - 1 /\ logical w' = logical w /\
    wImplicitProfileId w' = wImplicitProfileId w /\ wGetNewBuffer w' = wGetNewBuffer w /\ wFinalizeBuffer w' = wFinalizeBuffer w.
Proof.
  intros Hw Hc Hi Hm Hp Hg. destruct (container_type_ok _ Hc) as [Hcc _].
  assert (Hwt : wwf (set_wContainerType ct w)) by (unfold wwf in *; simpl; tauto).
  destruct (unreserve_facts _ Hwt Hm) as (Hw0 & (P1 & P2 & P3 & P4 & P5) & P6 & P7 & P8).
  change (phys (set_wContainerType ct w)) with (phys w) in P1. change (out (set_wContainerType ct w)) with (out w) in P2.
  change (logical (set_wContainerType ct w)) with (logical w) in P8. simpl in P3, P4, P5, P6, P7.
  assert (0 <= logical w) by (destruct Hw as (_ & ? & ? & _); unfold logical; lia).
  destruct (WriteElementHead_ok 24 AnonymousTag 0 (unreserve (set_wContainerType ct w)) 0)
    as (w' & E & B1 & B2 & B3 & B4 & B5 & B6 & B7 & B8 & B9);
    rewrite ?P3, ?P7; auto using anonymous_plain, end_allowed; [unfold is_elem_type; lia| |lia|].
  { rewrite end_head. simpl length. unfold room. rewrite P1, P4, P5, P8. split; [lia|]. split; [lia|].
    intros E. destruct (Hg E). split; [done|lia]. }
  rewrite end_head in *. simpl length in *. exists w'. unfold EndContainer. rewrite Hcc. cbn [negb].
  split; [done|]. rewrite B2, B3, B4, B5, B6, B7, B8, B9, P1, P2, P3, P4, P5, P6, P7, P8.
  repeat split; auto; (apply B1 || lia).
Qed.

(** Opening and closing a container around what [f] writes. *)
Lemma container_wrote tag c data (f : M TLVWriter unit) w d :
  wwf w -> tag_ok (wContainerType w) tag -> is_profile (wImplicitProfileId w) -> 21 <= c <= 23 ->
  let h := head (wContainerType w) (wImplicitProfileId w) c tag 0 in
  room w (Z.of_nat (length (h ++ data ++ [24]))) d -> 1 <= d ->
  (forall w1, wwf w1 -> wContainerType w1 = c -> wImplicitProfileId w1 = wImplicitProfileId w ->
     room w1 (Z.of_nat (length data)) (d - 1) -> exists w2, f w1 = (Ok tt, w2) /\ wrote data w1 w2) ->
  exists w', (let* outer := StartContainer tag c in do* f in EndContainer outer) w = (Ok tt, w') /\
    wrote (h ++ data ++ [24]) w w'.
Proof.
  intros Hw Ht Hi Hc h Hr Hd Hf. rewrite !length_app in Hr. cbn [length] in Hr.
  destruct (StartContainer_ok tag c w (Z.of_nat (length data)) d Hw Ht Hi Hc) as
    (w1 & E1 & Hw1 & A1 & A2 & A3 & A4 & A5 & A6 & A7 & A8 & A9); [|lia|lia|].
  { fold h. eapply room_le; [| |exact Hr]; lia. }
  fold h in A3, A4, A5. rewrite (bind_ok _ _ _ _ _ E1).
  destruct (Hf w1) as (w2 & E2 & C1 & C2 & C3 & C4 & C5 & C6 & C7 & C8 & C9); auto.
  rewrite (bind_ok _ _ _ _ _ E2). destruct Hr as (R1 & R2 & R3).
  destruct (EndContainer_ok (wContainerType w) w2) as (w3 & E3 & D1 & D2 & D3 & D4 & D5 & D6 & D7 & D8 & D9); auto.
  { by rewrite C5, A1. } { by rewrite C6, A6. } { rewrite C7, A2. destruct Hw as (_ & _ & ? & _). lia. } { lia. }
  { rewrite C8, C9, A7, A8. intros Hg. destruct (R3 Hg). split; [done|lia]. }
  exists w3. split; [done|]. unfold wrote. rewrite !length_app. cbn [length].
  rewrite D4, C2, A3, <- !app_assoc. repeat split; try apply D1; try congruence; lia.
Qed.

(** ** put *)

Definition put_spec (t : tlv) : Prop := forall w d,
  wwf w -> valid (wContainerType w) t -> is_profile (wImplicitProfileId w) -> depth t <= d ->
  room w (Z.of_nat (length (enc (wContainerType w) (wImplicitProfileId w) t))) d ->
  exists w', put t w = (Ok tt, w') /\ wrote (enc (wContainerType w) (wImplicitProfileId w) t) w w'.

Lemma depth_nonneg t : 0 <= depth t.
Proof.
  induction t using tlv_nested_ind; simpl; try lia.
  assert (0 <= foldr Z.max 0 (map depth ts)); [|lia]. induction H; simpl; lia.
Qed.

Lemma scalar_spec w d et tag v (Hw : wwf w) :
  tag_ok (wContainerType w) tag -> is_profile (wImplicitProfileId w) -> is_elem_type et ->
  room w (Z.of_nat (length (head (wContainerType w) (wImplicitProfileId w) et tag v))) d -> 0 <= d ->
  exists w', WriteElementHead et tag v w = (Ok tt, w') /\
    wrote (head (wContainerType w) (wImplicitProfileId w) et tag v) w w'.
Proof.
  intros Ht Hi He Hr Hd. apply (WriteElementHead_ok et tag v w d); auto using tag_ok_allowed.
  by apply (tag_ok_plain (wContainerType w)).
Qed.

Lemma put_list_ok ts : Forall put_spec ts -> forall w d,
  wwf w -> valid_list (wContainerType w) ts -> is_profile (wImplicitProfileId w) ->
  foldr Z.max 0 (map depth ts) <= d ->
  room w (Z.of_nat (length (enc_list (wContainerType w) (wImplicitProfileId w) ts))) d ->
  exists w', put_list ts w = (Ok tt, w') /\ wrote (enc_list (wContainerType w) (wImplicitProfileId w) ts) w w'.
Proof.
  unfold enc_list. induction 1 as [|t ts Ht Hts IH]; intros w d Hw Hv Hi Hd Hr.
  { exists w. split; [done|by apply wrote_nil]. }
  destruct Hv as [Hv Hvs]. simpl in Hd, Hr. rewrite length_app in Hr.
  destruct (Ht w d Hw Hv Hi ltac:(lia)) as (w1 & E1 & H1); [eapply room_le; [| |exact Hr]; lia|].
  change (put_list (t :: ts)) with (bind (put t) (fun _ => put_list ts)). rewrite (bind_ok _ _ _ _ _ E1).
  pose proof H1 as (C1 & _ & _ & _ & C5 & C6 & _).
  destruct (IH w1 d) as (w2 & E2 & H2); rewrite ?C5, ?C6; auto; [lia| |].
  { apply (room_wrote _ w w1 _ _ H1). eapply room_le; [| |exact Hr]; lia. }
  exists w2. split; [done|]. rewrite C5, C6 in H2. by apply (wrote_trans _ _ w w1).
Qed.

Lemma int_type_elem v : is_elem_type (int_type v).
Proof. unfold is_elem_type, int_type. repeat (destruct (_ && _); [lia|]). lia. Qed.

Lemma put_ok t : put_spec t.
Proof.
  induction t as [tag v|tag v|tag b|tag v|tag|tag s|tag s|tag c ts IH] using tlv_nested_ind;
    intros w d Hw Hv Hi Hd Hr; pose proof (depth_nonneg (TContainer 0 0 [])); cbn [valid put enc depth] in *.
  - destruct Hv as [Ht Hv]. apply (scalar_spec w d); auto.
    by apply int_type_elem.
  - destruct Hv as [Ht Hv]. apply (scalar_spec w d); auto. by apply uint_type_spec.
  - apply (scalar_spec w d); auto. unfold is_elem_type. destruct b; lia.
  - destruct v as [v|v]; destruct Hv as [Ht Hv]; (apply (scalar_spec w d); [done..|unfold is_elem_type; lia|done|done]).
  - apply (scalar_spec w d); auto. unfold is_elem_type. lia.
  - destruct Hv. by apply (WriteElementWithData_ok 12 tag s w d); auto.
  - destruct Hv. by apply (WriteElementWithData_ok 16 tag s w d); auto.
  - destruct Hv as (Ht & Hc & Hvs).
    assert (0 <= foldr Z.max 0 (map depth ts)) by (clear; induction ts; simpl; lia).
    apply (container_wrote tag c (enc_list c (wImplicitProfileId w) ts) (put_list ts) w d); auto; [lia|].
    intros w1 Hw1 Hc1 Hi1 Hr1. rewrite <- Hc1, <- Hi1 in *. apply (put_list_ok ts IH w1 (d - 1)); auto. lia.
Qed.

(** ** The reader recovers the elements *)

(** Nothing of the current element is left to skip. *)
Definition done_elem (r : TLVReader) : Prop :=
  ElementType r <> 24 /\ TLVTypeIsContainer (ElementType r) = false /\
  (TLVTypeHasLength (ElementType r) = true -> mElemLenOrVal r = 0).

Lemma Skip_done r : done_elem r -> Skip r = (Ok tt, ClearElementState r).
Proof.
  intros (H1 & H2 & H3). unfold Skip, kTLVElementType_EndOfContainer.
  destruct (Z.eqb_spec (ElementType r) 24); [done|]. rewrite H2. unfold bind, SkipData.
  destruct (TLVTypeHasLength (ElementType r)); [|done]. by rewrite H3.
Qed.

Lemma done_clear r : mControlByte r = kTLVControlByte_NotSpecified -> done_elem r.
Proof.
  intros E. assert (ElementType r = -1) as He by (unfold ElementType; by rewrite E).
  unfold done_elem. by rewrite He.
Qed.

Definition container_ok (ct : Z) : Prop := ct = -1 \/ ct = 21 \/ ct = 22 \/ ct = 23.

Lemma tag_ok_verify ct tag : tag_ok ct tag ->
  tag <> UnknownImplicitTag /\ (ct = -1 -> IsContextTag tag = false) /\
  (ct = 21 \/ ct = 23 -> tag <> AnonymousTag) /\ (ct = 22 -> tag = AnonymousTag) /\ container_ok ct.
Proof.
  intros [[Ht Hp] Hc]. rewrite IsContextTag_hi by done.
  assert (tag_hi UnknownImplicitTag = 4294967295 /\ tag_lo UnknownImplicitTag = 4294967294) as [U1 U2] by done.
  assert (tag_hi AnonymousTag = 4294967295 /\ tag_lo AnonymousTag = 4294967295) as [A1 A2] by done.
  unfold container_ok. destruct (Z.eqb_spec (tag_hi tag) 4294967295) as [E|E].
  - destruct (Z.ltb_spec (tag_lo tag) 256) as [El|El].
    + repeat split; try (intros ->; lia); intuition (subst; lia).
    + destruct (Hp E) as [|E']; [lia|]. subst tag. repeat split; intuition (try done; lia).
  - repeat split; try (intros ->; lia); intuition (subst; lia).
Qed.

Lemma VerifyElement_ok r : tag_ok (mContainerType r) (mElemTag r) -> ElementType r <> 24 ->
  (TLVTypeHasLength (ElementType r) = true -> u32 (mElemLenOrVal r) <= u32 (mMaxLen r - mLenRead r)) ->
  VerifyElement r = (Ok tt, r).
Proof.
  intros Ht He Hl. destruct (tag_ok_verify _ _ Ht) as (V1 & V2 & V3 & V4 & V5).
  unfold VerifyElement, VerifyElement_error, kTLVElementType_EndOfContainer, kTLVType_NotSpecified, kTLVType_Structure,
    kTLVType_Path, kTLVType_Array.
  destruct (Z.eqb_spec (ElementType r) 24); [done|]. destruct (Z.eqb_spec (mElemTag r) UnknownImplicitTag); [done|].
  assert (TLVTypeHasLength (ElementType r) && (u32 (mMaxLen r - mLenRead r) <? u32 (mElemLenOrVal r)) = false) as ->.
  { destruct (TLVTypeHasLength (ElementType r)); [|done]. apply Z.ltb_ge. auto. }
  destruct V5 as [E|[E|[E|E]]]; rewrite E in *; cbn [Z.eqb orb negb Pos.eqb].
  - by rewrite V2.
  - destruct (Z.eqb_spec (mElemTag r) AnonymousTag); [by exfalso; apply V3; auto|done].
  - destruct (Z.eqb_spec (mElemTag r) AnonymousTag); [done|by rewrite V4 in *].
  - destruct (Z.eqb_spec (mElemTag r) AnonymousTag); [by exfalso; apply V3; auto|done].
Qed.

(** The reader stands at an element: its head has been read. *)
Definition at_element (r r' : TLVReader) (et tag v : Z) (rest : list Z) : Prop :=
  wf r' /\ flat r' = rest /\ same_context r r' /\ ElementType r' = et /\ mElemTag r' = tag /\ mElemLenOrVal r' = v.

Lemma Clear_wf r : wf r -> wf (ClearElementState r).
Proof. intros. by apply keeps_wf; [intros ?|]. Qed.

Lemma Next_element r et tag v rest :
  wf r -> done_elem r -> tag_ok (mContainerType r) tag -> is_profile (ImplicitProfileId r) -> is_elem_type et -> et <> 24 ->
  flat r = head (mContainerType r) (ImplicitProfileId r) et tag v ++ rest ->
  (TLVTypeHasLength et = true -> 0 <= field_value et v <= Z.of_nat (length rest)) ->
  exists r', Next r = (Ok tt, r') /\ at_element r r' et tag (field_value et v) rest.
Proof.
  intros Hw Hd Ht Hi He Hne Hf Hl. unfold Next. rewrite (bind_ok _ _ _ _ _ (Skip_done r Hd)).
  destruct (tag_ok_allowed _ (ImplicitProfileId r) et tag Ht) as [t Et]. unfold head in Hf. rewrite Et in Hf.
  destruct (ReadElement_head (mContainerType r) (ClearElementState r) et tag v t rest (Clear_wf r Hw) Et
              (tag_ok_plain _ _ Ht) Hi He Hf) as (r1 & E1 & Hw1 & Hf1 & Hs & H1 & H2 & H3 & H4).
  destruct Hs as (S1 & S2 & S3). simpl in S1, S2, S3.
  assert (ReadElement (ClearElementState r) = (Ok tt, r1)) as E.
  { rewrite E1. apply VerifyElement_ok; rewrite ?S3, ?H1, ?H2, ?H3; auto. intros Hty. specialize (Hl Hty).
    pose proof (flat_length r1 Hw1) as Hb. rewrite Hf1 in Hb. destruct (wf_current r1 Hw1) as (_ & ? & ? & _).
    rewrite !u32_id by lia. lia. }
  rewrite (bind_ok _ _ _ _ _ E). rewrite H1. unfold kTLVElementType_EndOfContainer.
  destruct (Z.eqb_spec et 24); [done|]. exists r1. split; [done|]. by repeat split.
Qed.

Lemma Next_end r rest :
  wf r -> done_elem r -> is_profile (ImplicitProfileId r) -> mContainerType r <> -1 ->
  flat r = 24 :: rest ->
  exists r', Next r = (Err WEAVE_END_OF_TLV, r') /\ at_element r r' 24 AnonymousTag 0 rest.
Proof.
  intros Hw Hd Hi Hc Hf. unfold Next. rewrite (bind_ok _ _ _ _ _ (Skip_done r Hd)).
  destruct (ReadElement_head (mContainerType r) (ClearElementState r) 24 AnonymousTag 0 [24] rest (Clear_wf r Hw) eq_refl
              anonymous_plain Hi ltac:(done) Hf) as (r1 & E1 & Hw1 & Hf1 & (S1 & S2 & S3) & H1 & H2 & H3 & H4).
  simpl in S1, S2, S3.
  assert (ReadElement (ClearElementState r) = (Ok tt, r1)) as E.
  { rewrite E1. unfold VerifyElement, VerifyElement_error, kTLVType_NotSpecified. rewrite H1, H2, S3, !Z.eqb_refl.
    destruct (Z.eqb_spec (mContainerType r) (-1)); [done|]. done. }
  rewrite (bind_ok _ _ _ _ _ E). rewrite H1. exists r1. split; [done|]. by repeat split.
Qed.

Lemma Next_top_end r : wf r -> done_elem r -> flat r = [] -> fst (Next r) = Err WEAVE_END_OF_TLV.
Proof.
  intros Hw Hd Hf. unfold Next. rewrite (bind_ok _ _ _ _ _ (Skip_done r Hd)). unfold bind. rewrite ReadElement_unfold.
  destruct (EnsureData_spec WEAVE_END_OF_TLV _ (Clear_wf r Hw)) as [[_ E]|(r1 & _ & _ & F & C & _)].
  - unfold bind. by destruct (EnsureData WEAVE_END_OF_TLV (ClearElementState r)) as [[] ?]; simplify_eq/=.
  - exfalso. apply C. apply (f_equal flat) in F. rewrite !flat_flatten in F.
    change (flat (ClearElementState r)) with (flat r) in F. rewrite Hf in F. by destruct (app_eq_nil _ _ F).
Qed.

(** [r2] is where reading goes on after the value of the element at [r1]. *)
Definition after (r1 r2 : TLVReader) (rest : list Z) : Prop :=
  wf r2 /\ flat r2 = rest /\ same_context r1 r2 /\ done_elem r2.

Lemma after_scalar r et tag v rest : at_element r r et tag v rest ->
  et <> 24 -> TLVTypeIsContainer et = false -> TLVTypeHasLength et = false -> after r r rest.
Proof.
  intros (H1 & H2 & H3 & H4 & H5 & H6) Hn Hc Hl. repeat split; auto; rewrite ?H4; auto; congruence.
Qed.

Lemma at_here r r' et tag v rest : at_element r r' et tag v rest -> at_element r' r' et tag v rest.
Proof. intros (H1 & H2 & H3 & H4 & H5 & H6). by repeat split. Qed.

Lemma GetType_of r et : ElementType r = et -> GetType r =
  (if et =? 24 then -1 else if (et =? 10) || (et =? 11) then 10
   else if (et =? -1) || (20 <=? et) then et else Z.land et (-4)).
Proof. intros <-. done. Qed.

Lemma get_int r v : -9223372036854775808 <= v <= 9223372036854775807 ->
  ElementType r = int_type v -> mElemLenOrVal r = field_value (int_type v) (u64 v) ->
  GetType r = 0 /\ Get_s64 r = Ok v.
Proof.
  intros Hv He Hl. unfold Get_s64, Get_u64. rewrite (GetType_of r _ He), He, Hl. unfold int_type.
  destruct (Z.leb_spec (-128) v), (Z.leb_spec v 127); cbn [andb];
  destruct (Z.leb_spec (-32768) v), (Z.leb_spec v 32767); cbn [andb];
  destruct (Z.leb_spec (-2147483648) v), (Z.leb_spec v 2147483647); cbn [andb];
    try lia; (split; [done|]);
    match goal with |- context [field_value ?e ?x] =>
      let s := eval vm_compute in (256 ^ TLVFieldSizeToBytes (GetTLVFieldSize e)) in
      change (field_value e x) with (x mod s) end;
    cbn [Z.eqb Pos.eqb orb res_map kTLVElementType_Int8 kTLVElementType_Int16 kTLVElementType_Int32
         kTLVElementType_Int64 kTLVElementType_UInt8 kTLVElementType_UInt16 kTLVElementType_UInt32 kTLVElementType_UInt64];
    f_equal; mlia.
Qed.

Lemma get_uint r v : 0 <= v <= 18446744073709551615 ->
  ElementType r = uint_type v -> mElemLenOrVal r = field_value (uint_type v) v ->
  GetType r = 4 /\ Get_u64 r = Ok v.
Proof.
  intros Hv He Hl. destruct (uint_type_spec v Hv) as (_ & Hf & _). rewrite Hf in Hl. unfold Get_u64.
  rewrite (GetType_of r _ He), He, Hl. unfold uint_type.
  by destruct (v <=? 255); [|destruct (v <=? 65535); [|destruct (v <=? 4294967295)]].
Qed.

Lemma GetBytes_string r et tag s rest :
  at_element r r et tag (strlen s) (s ++ rest) -> strlen s <= 4294967295 ->
  TLVTypeHasLength et = true -> TLVTypeIsContainer et = false -> et <> 24 ->
  exists r2, GetBytes (GetLength r) r = (Ok s, r2) /\ after r r2 rest.
Proof.
  intros (Hw & Hf & _ & He & Ht & Hl) Hs Hty Hcn Hne. unfold GetBytes, GetLength.
  change (TLVTypeIsString (ElementType r)) with (TLVTypeHasLength (ElementType r)). rewrite He, Hty, Hl. cbn [negb].
  assert (0 <= strlen s) by (unfold strlen; lia). rewrite u32_id by lia. rewrite Z.ltb_irrefl.
  destruct (reads_ReadData (strlen s) ltac:(lia) r Hw) as [(_ & r1 & E & Hw1 & F & _)|(Hb & _)].
  2:{ rewrite Hf, length_app in Hb. unfold strlen in Hb. lia. }
  assert (Hn : length s = Z.to_nat (strlen s)) by (unfold strlen; lia).
  rewrite Hf in E. rewrite (take_app_exact _ s rest Hn) in E.
  destruct (flatten_fields _ _ F) as (S1 & S2 & S3 & _ & S5 & _ & S7 & S8). simpl in S1, S2, S3, S5, S7.
  rewrite flat_advance, flat_flatten, Hf, (drop_app_exact _ s rest Hn) in S8.
  rewrite (bind_ok _ _ _ _ _ E). exists (set_lenOrVal 0 r1). split; [done|].
  assert (ElementType (set_lenOrVal 0 r1) = et) as He1.
  { rewrite <- He. unfold ElementType. simpl. by rewrite S7. }
  split; [by apply keeps_wf; [intros ?|]|]. split; [done|]. split; [by repeat split|].
  unfold done_elem. rewrite He1. auto.
Qed.

Lemma ExitContainer_end r o rest ct :
  wf r -> flat r = rest -> ElementType r = 24 -> mContainerType r = ct ->
  exists r', ExitContainer o r = (Ok tt, r') /\ wf r' /\ flat r' = rest /\ done_elem r' /\
    ImplicitProfileId r' = ImplicitProfileId r /\ mMaxLen r' = mMaxLen r /\ mContainerType r' = o.
Proof.
  intros Hw Hf He Hc. unfold ExitContainer, SkipToEndOfContainer, bind. cbn [SkipToEndOfContainer_loop].
  change (ElementType (SetContainerOpen false r)) with (ElementType r). rewrite He.
  eexists. split; [done|]. split; [by apply keeps_wf; [intros ?|]|]. split; [done|]. split; [by apply done_clear|done].
Qed.

(** ** get_list *)

(** What [get_list k] does inside a container of type [ct]. *)
Definition reads_elems (k : nat) : Prop := forall ts ct r rest,
  wf r -> done_elem r -> mContainerType r = ct -> ct <> -1 -> is_profile (ImplicitProfileId r) -> valid_list ct ts ->
  flat r = enc_list ct (ImplicitProfileId r) ts ++ 24 :: rest ->
  (length (enc_list ct (ImplicitProfileId r) ts) < k)%nat ->
  exists r', get_list k r = (Ok ts, r') /\ wf r' /\ flat r' = rest /\ ElementType r' = 24 /\ same_context r r'.

(** The element type, the field value and the data of an element. *)
Definition elem_parts (t : tlv) : Z * Z * Z :=
  match t with
  | TInt tag v => (int_type v, tag, u64 v)
  | TUInt tag v => (uint_type v, tag, v)
  | TBool tag b => (if b then 9 else 8, tag, 0)
  | TFloat tag (Single v) => (10, tag, v)
  | TFloat tag (Double v) => (11, tag, v)
  | TNull tag => (20, tag, 0)
  | TUtf8 tag s => (12 + len_size (strlen s), tag, strlen s)
  | TBytes tag s => (16 + len_size (strlen s), tag, strlen s)
  | TContainer tag c _ => (c, tag, 0)
  end.

Definition elem_data (impl : Z) (t : tlv) : list Z :=
  match t with
  | TUtf8 _ s | TBytes _ s => s
  | TContainer _ c ts => enc_list c impl ts ++ [24]
  | _ => []
  end.

Lemma enc_parts ct impl t : enc ct impl t =
  (let '(et, tag, v) := elem_parts t in head ct impl et tag v) ++ elem_data impl t.
Proof. destruct t as [| | |? []| | | |]; simpl; by rewrite ?app_nil_r. Qed.


(** Reading one element leaves the reader after it. *)
Definition reads_one (k : nat) (t : tlv) (r : TLVReader) (rest : list Z) : Prop :=
  exists r1 r2, Next r = (Ok tt, r1) /\ get_value (get_list k) r1 = (Ok t, r2) /\ after r r2 rest.

Lemma after_trans r r1 r2 et tag v rest rest' :
  at_element r r1 et tag v rest -> after r1 r2 rest' -> after r r2 rest'.
Proof.
  intros (_ & _ & S & _) (A & B & C & D). split; [done|]. split; [done|]. split; [|done].
  by apply (same_context_trans r r1 r2).
Qed.

Section ReadOne.
Context (k : nat) (r : TLVReader) (rest : list Z).
Context (Hw : wf r) (Hd : done_elem r) (Hi : is_profile (ImplicitProfileId r)).
Abbreviation ct := (mContainerType r).
Abbreviation impl := (ImplicitProfileId r).

Lemma scalar_step et tag v t :
  tag_ok ct tag -> is_elem_type et -> et <> 24 -> TLVTypeIsContainer et = false -> TLVTypeHasLength et = false ->
  flat r = head ct impl et tag v ++ rest ->
  (forall r1, at_element r r1 et tag (field_value et v) rest -> get_value (get_list k) r1 = (Ok t, r1)) ->
  reads_one k t r rest.
Proof.
  intros Ht He Hne Hc Hl Hf Hg.
  destruct (Next_element r et tag v rest) as (r1 & E1 & H1); auto; [by rewrite Hl|].
  exists r1, r1. split; [done|]. split; [by apply Hg|].
  apply (after_trans r r1 r1 et tag (field_value et v) rest rest H1).
  apply (after_scalar r1 et tag (field_value et v)); auto. by apply (at_here r).
Qed.

Lemma string_step base tag s t :
  base = 12 \/ base = 16 -> t = (if base =? 12 then TUtf8 tag s else TBytes tag s) ->
  tag_ok ct tag -> strlen s <= 4294967295 ->
  flat r = head ct impl (base + len_size (strlen s)) tag (strlen s) ++ s ++ rest ->
  reads_one k t r rest.
Proof.
  intros Hb -> Ht Hs Hf. assert (0 <= strlen s) by (unfold strlen; lia).
  destruct (len_size_spec (strlen s) base ltac:(lia) Hb) as (He & Hv & Hl & Hne & Hz).
  destruct (Next_element r (base + len_size (strlen s)) tag (strlen s) (s ++ rest)) as (r1 & E1 & H1); auto.
  { intros _. rewrite Hv, length_app. unfold strlen in *. lia. }
  rewrite Hv in H1. pose proof (at_here _ _ _ _ _ _ H1) as H1'.
  assert (TLVTypeIsContainer (base + len_size (strlen s)) = false) as Hc.
  { unfold TLVTypeIsContainer, kTLVElementType_Structure. rewrite u8_id by lia.
    destruct (Z.leb_spec 21 (base + len_size (strlen s))); [lia|done]. }
  destruct (GetBytes_string r1 _ tag s rest H1' Hs Hl Hc Hne) as (r2 & E2 & H2).
  exists r1, r2. split; [done|]. split; [|by apply (after_trans _ _ _ _ _ _ _ _ H1)].
  destruct H1 as (_ & _ & _ & Hty & Htag & _). unfold get_value, GetTag. rewrite Htag, (GetType_of r1 _ Hty).
  assert (len_size (strlen s) = 0 \/ len_size (strlen s) = 1 \/ len_size (strlen s) = 2) as Hcases by lia.
  destruct Hb as [-> | ->], Hcases as [-> |[-> | ->]]; cbv -[GetBytes GetLength bind ret];
    by rewrite (bind_ok _ _ _ _ _ E2).
Qed.

Lemma container_step tag c ts :
  reads_elems k -> tag_ok ct tag -> 21 <= c <= 23 -> valid_list c ts ->
  flat r = head ct impl c tag 0 ++ enc_list c impl ts ++ 24 :: rest ->
  (length (enc_list c impl ts) < k)%nat ->
  reads_one k (TContainer tag c ts) r rest.
Proof.
  intros IH Ht Hc Hv Hf Hk. destruct (container_type_ok c Hc) as [Hcc He].
  assert (TLVTypeHasLength c = false) as Hl by (assert (c = 21 \/ c = 22 \/ c = 23) as [-> |[-> | ->]] by lia; done).
  destruct (Next_element r c tag 0 (enc_list c impl ts ++ 24 :: rest)) as (r1 & E1 & Hw1 & Hf1 & (S1 & S2 & S3) & T1 & T2 & T3); auto.
  { lia. } { by rewrite Hl. }
  set (r2 := SetContainerOpen false (ClearElementState (set_containerType c r1))).
  assert (EnterContainer r1 = (Ok ct, r2)) as E2 by (unfold EnterContainer; rewrite T1, Hcc, S3; done).
  destruct (IH ts c r2 rest) as (r3 & E3 & Hw3 & Hf3 & He3 & (Q1 & Q2 & Q3)).
  { by apply keeps_wf; [intros ?|]. } { by apply done_clear. } { done. } { lia. } { by change (is_profile (ImplicitProfileId r1)); rewrite S1. }
  { done. } { change (flat r1 = enc_list c (ImplicitProfileId r1) ts ++ 24 :: rest). by rewrite S1. }
  { change (ImplicitProfileId r2) with (ImplicitProfileId r1). by rewrite S1. }
  destruct (ExitContainer_end r3 ct rest c Hw3 Hf3 He3) as (r4 & E4 & Hw4 & Hf4 & Hd4 & I4 & M4 & C4); [by rewrite Q3|].
  exists r1, r4. split; [done|]. split.
  - unfold get_value, GetTag. rewrite T2, (GetType_of r1 _ T1).
    assert (c = 21 \/ c = 22 \/ c = 23) as Hcs by lia.
    destruct Hcs as [-> |[-> | ->]]; cbv -[EnterContainer get_list ExitContainer bind ret];
      by rewrite (bind_ok _ _ _ _ _ E2), (bind_ok _ _ _ _ _ E3), (bind_ok _ _ _ _ _ E4).
  - split; [done|]. split; [done|]. split; [|done]. unfold same_context.
    rewrite I4, M4, C4, Q1, Q2. simpl. by rewrite S1, S2.
Qed.
End ReadOne.

Lemma get_one_ok k t r rest :
  reads_elems k -> wf r -> done_elem r -> is_profile (ImplicitProfileId r) -> valid (mContainerType r) t ->
  flat r = enc (mContainerType r) (ImplicitProfileId r) t ++ rest ->
  (length (enc (mContainerType r) (ImplicitProfileId r) t) <= k)%nat -> reads_one k t r rest.
Proof.
  intros IH Hw Hd Hi Hv Hf Hk.
  destruct t as [tag v|tag v|tag b|tag [v|v]|tag|tag s|tag s|tag c ts]; cbn [valid enc] in *.
  - destruct Hv as [Ht Hv]. assert (In (int_type v) [0; 1; 2; 3]) as Hi4.
    { unfold int_type. repeat (destruct (_ && _); [simpl; auto|]). simpl; auto. }
    apply (scalar_step k r rest Hw Hd Hi (int_type v) tag (u64 v));
      try (assumption || (simpl in Hi4; unfold is_elem_type; intuition (try subst; try lia; by rewrite <- ?H, <- ?H0))).
    all: try (destruct Hi4 as [<-|[<-|[<-|[<-|[]]]]]; done).
    intros r1 (_ & _ & _ & T1 & T2 & T3). destruct (get_int r1 v Hv T1 T3) as [Eg Ev].
    unfold get_value, GetTag, lift. by rewrite Eg, T2, Ev.
  - destruct Hv as [Ht Hv]. destruct (uint_type_spec v Hv) as (He & _ & Hne).
    assert (uint_type v = 4 \/ uint_type v = 5 \/ uint_type v = 6 \/ uint_type v = 7) as Hcases
      by (unfold uint_type; repeat (destruct (_ <=? _); auto)).
    apply (scalar_step k r rest Hw Hd Hi (uint_type v) tag v); auto.
    1,2: by destruct Hcases as [-> |[-> |[-> | ->]]].
    intros r1 (_ & _ & _ & T1 & T2 & T3). destruct (get_uint r1 v Hv T1 T3) as [Eg Ev].
    unfold get_value, GetTag, lift. by rewrite Eg, T2, Ev.
  - apply (scalar_step k r rest Hw Hd Hi (if b then 9 else 8) tag 0); auto; try (by destruct b).
    intros r1 (_ & _ & _ & T1 & T2 & T3). unfold get_value, GetTag, lift, Get_bool.
    rewrite (GetType_of r1 _ T1), T1, T2. by destruct b.
  - destruct Hv as [Ht Hv]. apply (scalar_step k r rest Hw Hd Hi 10 tag v); auto; try done.
    intros r1 (_ & _ & _ & T1 & T2 & T3). unfold get_value, GetTag, lift, Get_double.
    rewrite (GetType_of r1 _ T1), T1, T2, T3. change (field_value 10 v) with (u32 v). cbn. do 2 f_equal. f_equal. f_equal. mlia.
  - destruct Hv as [Ht Hv]. apply (scalar_step k r rest Hw Hd Hi 11 tag v); auto; try done.
    intros r1 (_ & _ & _ & T1 & T2 & T3). unfold get_value, GetTag, lift, Get_double.
    rewrite (GetType_of r1 _ T1), T1, T2, T3. change (field_value 11 v) with (u64 v). cbn. do 2 f_equal. f_equal. f_equal. mlia.
  - apply (scalar_step k r rest Hw Hd Hi 20 tag 0); auto; try done.
    intros r1 (_ & _ & _ & T1 & T2 & T3). unfold get_value, GetTag. by rewrite (GetType_of r1 _ T1), T2.
  - destruct Hv. rewrite <- app_assoc in Hf. by apply (string_step k r rest Hw Hd Hi 12 tag s); auto.
  - destruct Hv. rewrite <- app_assoc in Hf. by apply (string_step k r rest Hw Hd Hi 16 tag s); auto.
  - destruct Hv as (Ht & Hc & Hvs). rewrite <- !app_assoc in Hf.
    apply (container_step k r rest Hw Hd Hi tag c ts IH Ht Hc Hvs Hf).
    pose proof (head_nonempty (mContainerType r) (ImplicitProfileId r) c tag 0 Ht Hi ltac:(unfold is_elem_type; lia)).
    rewrite !length_app in Hk. unfold enc_list. simpl in Hk. lia.
Qed.

Lemma enc_nonempty ct impl t : valid ct t -> is_profile impl -> (1 <= length (enc ct impl t))%nat.
Proof.
  intros Hv Hi.
  assert (forall et tag v, tag_ok ct tag -> is_elem_type et -> (1 <= length (head ct impl et tag v))%nat) as H.
  { intros et tag v Ht He. pose proof (head_nonempty ct impl et tag v Ht Hi He). lia. }
  destruct t as [tag v|tag v|tag b|tag [v|v]|tag|tag s|tag s|tag c ts]; cbn [valid enc] in *;
    rewrite ?length_app.
  - apply H; [tauto|apply int_type_elem].
  - apply H; [tauto|]. destruct Hv as [_ Hv]. by destruct (uint_type_spec v Hv).
  - apply H; [tauto|]. unfold is_elem_type. destruct b; lia.
  - apply H; [tauto|]. unfold is_elem_type. lia.
  - apply H; [tauto|]. unfold is_elem_type. lia.
  - apply H; [tauto|]. unfold is_elem_type. lia.
  - destruct Hv as [Ht Hs]. assert (0 <= strlen s) by (unfold strlen; lia).
    destruct (len_size_spec (strlen s) 12 ltac:(lia) ltac:(auto)) as (He & _).
    pose proof (H (12 + len_size (strlen s)) tag (strlen s) Ht He). lia.
  - destruct Hv as [Ht Hs]. assert (0 <= strlen s) by (unfold strlen; lia).
    destruct (len_size_spec (strlen s) 16 ltac:(lia) ltac:(auto)) as (He & _).
    pose proof (H (16 + len_size (strlen s)) tag (strlen s) Ht He). lia.
  - destruct Hv as (Ht & Hc & _). pose proof (H c tag 0 Ht ltac:(unfold is_elem_type; lia)). lia.
Qed.

Lemma reads_elems_all k : reads_elems k.
Proof.
  induction k as [|k IH]; intros ts ct r rest Hw Hd Hct Hne Hi Hv Hf Hk; [lia|]. cbn [get_list].
  destruct ts as [|t ts].
  - destruct (Next_end r rest Hw Hd Hi ltac:(by rewrite Hct) Hf) as (r' & E & Hw' & Hf' & Hs & He & _). rewrite E.
    exists r'. by repeat (split; [done|]).
  - destruct Hv as [Hv Hvs]. unfold enc_list in *. cbn [map concat] in *. rewrite length_app in Hk.
    pose proof (enc_nonempty ct _ t Hv Hi). subst ct.
    destruct (get_one_ok k t r (enc_list (mContainerType r) (ImplicitProfileId r) ts ++ 24 :: rest)) as (r1 & r2 & E1 & E2 & Hw2 & Hf2 & (S1 & S2 & S3) & Hd2);
      auto; [by rewrite Hf, <- app_assoc|lia|].
    rewrite E1, (bind_ok _ _ _ _ _ E2).
    destruct (IH ts (mContainerType r2) r2 rest) as (r3 & E3 & Hw3 & Hf3 & He3 & Hs3); auto;
      rewrite ?S3, ?S1; try done; [unfold enc_list; lia|].
    rewrite (bind_ok _ _ _ _ _ E3). exists r3. do 4 (split; [done|]). by apply (same_context_trans r r2); [repeat split|].
Qed.

(** The elements at top level: the reader stops at the end of the data. *)
Lemma get_list_top k : forall ts r, wf r -> done_elem r -> mContainerType r = -1 -> is_profile (ImplicitProfileId r) ->
  valid_list (-1) ts -> flat r = enc_list (-1) (ImplicitProfileId r) ts ->
  (length (enc_list (-1) (ImplicitProfileId r) ts) < k)%nat -> fst (get_list k r) = Ok ts.
Proof.
  induction k as [|k IH]; intros ts r Hw Hd Hct Hi Hv Hf Hk; [lia|]. cbn [get_list].
  destruct ts as [|t ts].
  - pose proof (Next_top_end r Hw Hd Hf). destruct (Next r) as [[] ?]; by simplify_eq/=.
  - destruct Hv as [Hv Hvs]. unfold enc_list in *. cbn [map concat] in *. rewrite length_app in Hk.
    pose proof (enc_nonempty (-1) _ t Hv Hi). rewrite <- Hct in *.
    destruct (get_one_ok k t r (enc_list (mContainerType r) (ImplicitProfileId r) ts)) as (r1 & r2 & E1 & E2 & Hw2 & Hf2 & (S1 & S2 & S3) & Hd2);
      auto; [apply reads_elems_all|lia|].
    rewrite E1, (bind_ok _ _ _ _ _ E2).
    pose proof (IH ts r2) as IH2. rewrite S3, S1 in IH2. unfold bind.
    specialize (IH2 Hw2 Hd2 eq_refl Hi Hvs Hf2 ltac:(lia)). destruct (get_list k r2) as [[] ?]; by simplify_eq/=.
Qed.
