(* ===== verification/TLVSkip.v ===== *)
(** * Skipping and copying encoded elements

    Skip over an encoded container ends after its end-of-container byte, whatever
    is nested in it; CopyElement reproduces the encoding of the element. *)
From S2P Require Import Prelude Encoding TLVTypes TLVReader TLVReaderRefine TLVWriter TLVHead TLVTree.
Local Open Scope weave_scope.

(** ** The loop of SkipToEndOfContainer over encoded elements *)

(** The loop from the point where it reads the next element. *)
Definition skip_from (outer : Z) (k : nat) (nest : Z) : M TLVReader unit :=
  do* ReadElement in SkipToEndOfContainer_loop k outer nest.

(** The container type the loop has at an element of a container of type [ct]. *)
Definition skip_type (ct t : Z) : Prop := t = ct \/ t = kTLVType_UnknownContainer.

Lemma VerifyElement_skip ct r : tag_ok ct (mElemTag r) -> skip_type ct (mContainerType r) -> ElementType r <> 24 ->
  (TLVTypeHasLength (ElementType r) = true -> u32 (mElemLenOrVal r) <= u32 (mMaxLen r - mLenRead r)) ->
  VerifyElement r = (Ok tt, r).
Proof.
  intros Ht [E|E] He Hl; [rewrite <- E in Ht; by apply VerifyElement_ok|].
  unfold VerifyElement, VerifyElement_error. rewrite E. unfold kTLVElementType_EndOfContainer.
  destruct (Z.eqb_spec (ElementType r) 24); [done|].
  destruct (tag_ok_verify _ _ Ht) as (V1 & _). destruct (Z.eqb_spec (mElemTag r) UnknownImplicitTag); [done|].
  cbn [Z.eqb orb kTLVType_NotSpecified kTLVType_Structure kTLVType_Path kTLVType_Array kTLVType_UnknownContainer Pos.eqb].
  destruct (TLVTypeHasLength (ElementType r)); [|done]. destruct (Z.ltb_spec (u32 (mMaxLen r - mLenRead r)) (u32 (mElemLenOrVal r))); [|done].
  specialize (Hl eq_refl). lia.
Qed.

(** Reading the head of an element in the loop. *)
Lemma ReadElement_skip ct r et tag v rest :
  wf r -> skip_type ct (mContainerType r) -> tag_ok ct tag -> is_profile (ImplicitProfileId r) -> is_elem_type et -> et <> 24 ->
  flat r = head ct (ImplicitProfileId r) et tag v ++ rest ->
  (TLVTypeHasLength et = true -> 0 <= field_value et v <= Z.of_nat (length rest)) ->
  exists r', ReadElement r = (Ok tt, r') /\ at_element r r' et tag (field_value et v) rest.
Proof.
  intros Hw Hc Ht Hi He Hne Hf Hl.
  destruct (tag_ok_allowed ct (ImplicitProfileId r) et tag Ht) as [t Et]. unfold head in Hf. rewrite Et in Hf.
  destruct (ReadElement_head ct r et tag v t rest Hw Et (tag_ok_plain _ _ Ht) Hi He Hf)
    as (r1 & E1 & Hw1 & Hf1 & (S1 & S2 & S3) & H1 & H2 & H3 & H4).
  exists r1. split; [|by repeat split]. rewrite E1.
  apply (VerifyElement_skip ct); rewrite ?H1, ?H2, ?H3, ?S3; auto. intros Hty. specialize (Hl Hty).
  pose proof (flat_length r1 Hw1) as Hb. rewrite Hf1 in Hb. destruct (wf_current r1 Hw1) as (_ & ? & ? & _).
  rewrite !u32_id by lia. lia.
Qed.

Lemma ReadElement_end r rest :
  wf r -> is_profile (ImplicitProfileId r) -> mContainerType r <> -1 -> flat r = 24 :: rest ->
  exists r', ReadElement r = (Ok tt, r') /\ at_element r r' 24 AnonymousTag 0 rest.
Proof.
  intros Hw Hi Hc Hf.
  destruct (ReadElement_head (mContainerType r) r 24 AnonymousTag 0 [24] rest Hw eq_refl
              anonymous_plain Hi ltac:(done) Hf) as (r1 & E1 & Hw1 & Hf1 & (S1 & S2 & S3) & H1 & H2 & H3 & H4).
  exists r1. split; [|by repeat split].
  rewrite E1. unfold VerifyElement, VerifyElement_error, kTLVType_NotSpecified. rewrite H1, H2, S3, !Z.eqb_refl.
  by destruct (Z.eqb_spec (mContainerType r) (-1)).
Qed.

(** Skipping the data of the current element. *)
Lemma SkipData_string r et tag s rest :
  at_element r r et tag (strlen s) (s ++ rest) -> strlen s <= 4294967295 -> TLVTypeHasLength et = true ->
  exists r2, SkipData r = (Ok tt, r2) /\ wf r2 /\ flat r2 = rest /\ same_context r r2.
Proof.
  intros (Hw & Hf & _ & He & _ & Hl) Hs Hty. unfold SkipData. rewrite He, Hty, Hl.
  assert (0 <= strlen s) by (unfold strlen; lia). rewrite u32_id by lia.
  destruct (reads_ReadData (strlen s) ltac:(lia) r Hw) as [(_ & r1 & E & Hw1 & F & _)|(Hb & _)].
  2:{ rewrite Hf, length_app in Hb. unfold strlen in Hb. lia. }
  assert (Hn : length s = Z.to_nat (strlen s)) by (unfold strlen; lia).
  destruct (flatten_fields _ _ F) as (S1 & S2 & S3 & _ & _ & _ & _ & S8). simpl in S1, S2, S3.
  rewrite flat_advance, flat_flatten, Hf, (drop_app_exact _ s rest Hn) in S8.
  rewrite (bind_ok _ _ _ _ _ E). exists r1. by repeat split.
Qed.

Lemma SkipData_none r : TLVTypeHasLength (ElementType r) = false -> SkipData r = (Ok tt, r).
Proof. intros E. unfold SkipData. by rewrite E. Qed.

(** One element is skipped in some number of rounds, at most its length. *)
Definition skips (outer : Z) (ct : Z) (data : list Z) (r : TLVReader) (nest : Z) (rest : list Z) : Prop :=
  exists n r', (n <= length data)%nat /\ wf r' /\ flat r' = rest /\
    ImplicitProfileId r' = ImplicitProfileId r /\ mMaxLen r' = mMaxLen r /\
    skip_type ct (mContainerType r') /\
    forall k, skip_from outer (n + k) nest r = skip_from outer k nest r'.

Section SkipScalar.
Context (outer ct nest : Z) (r : TLVReader) (rest : list Z).
Context (Hw : wf r) (Hc : skip_type ct (mContainerType r)) (Hi : is_profile (ImplicitProfileId r)).

(** An element that is no container: one round. *)
Lemma skip_simple et tag v s :
  tag_ok ct tag -> is_elem_type et -> et <> 24 -> TLVTypeIsContainer et = false ->
  (if TLVTypeHasLength et then field_value et v = strlen s /\ strlen s <= 4294967295 else s = []) ->
  flat r = (head ct (ImplicitProfileId r) et tag v ++ s) ++ rest ->
  skips outer ct (head ct (ImplicitProfileId r) et tag v ++ s) r nest rest.
Proof.
  intros Ht He Hne Hcn Hs Hf. rewrite <- app_assoc in Hf.
  pose proof (head_nonempty ct (ImplicitProfileId r) et tag v Ht Hi He) as Hh.
  destruct (ReadElement_skip ct r et tag v (s ++ rest)) as (r1 & E1 & H1); auto.
  { intros Hl. rewrite Hl in Hs. destruct Hs as [-> _]. rewrite length_app. unfold strlen. lia. }
  assert (exists r2, SkipData r1 = (Ok tt, r2) /\ wf r2 /\ flat r2 = rest /\ same_context r1 r2) as (r2 & E2 & Hw2 & Hf2 & Hs2).
  { destruct (TLVTypeHasLength et) eqn:Hl.
    - destruct Hs as [Hv Hs]. rewrite Hv in H1. apply at_here in H1. by apply (SkipData_string r1 et tag s).
    - subst s. destruct H1 as (Hw1 & Hf1 & _ & T1 & _). exists r1. split; [by apply SkipData_none; rewrite T1|].
      by repeat split. }
  destruct H1 as (_ & _ & (S1 & S2 & S3) & T1 & _). destruct Hs2 as (U1 & U2 & U3).
  exists 1%nat, r2. rewrite length_app. split; [lia|]. split; [done|]. split; [done|].
  split; [congruence|]. split; [congruence|]. split; [unfold skip_type in *; intuition congruence|].
  intros k. unfold skip_from. rewrite (bind_ok _ _ _ _ _ E1). cbn [Nat.add SkipToEndOfContainer_loop].
  rewrite T1, Hcn. unfold kTLVElementType_EndOfContainer. destruct (Z.eqb_spec et 24); [done|].
  by rewrite (bind_ok _ _ _ _ _ E2).
Qed.
End SkipScalar.

Definition skip_spec (t : tlv) : Prop := forall outer ct nest r rest,
  wf r -> skip_type ct (mContainerType r) -> is_profile (ImplicitProfileId r) -> valid ct t ->
  0 <= nest -> nest + depth t < 4294967296 -> (nest = 0 -> outer = ct) ->
  flat r = enc ct (ImplicitProfileId r) t ++ rest ->
  skips outer ct (enc ct (ImplicitProfileId r) t) r nest rest.

Lemma skips_trans outer ct a b r nest rest mid r' n :
  (n <= length a)%nat -> (forall k, skip_from outer (n + k) nest r = skip_from outer k nest r') ->
  flat r' = mid -> ImplicitProfileId r' = ImplicitProfileId r -> mMaxLen r' = mMaxLen r ->
  skips outer ct b r' nest rest -> skips outer ct (a ++ b) r nest rest.
Proof.
  intros Hn Hk Hf Hi Hm (n2 & r2 & Hn2 & Hw2 & Hf2 & Hi2 & Hm2 & Hc2 & Hk2).
  exists (n + n2)%nat, r2. rewrite length_app. split; [lia|]. split; [done|]. split; [done|].
  split; [congruence|]. split; [congruence|]. split; [done|]. intros k. by rewrite <- Nat.add_assoc, Hk, Hk2.
Qed.

Lemma skip_list ts : Forall skip_spec ts -> forall outer ct nest r rest,
  wf r -> skip_type ct (mContainerType r) -> is_profile (ImplicitProfileId r) -> valid_list ct ts ->
  0 <= nest -> nest + foldr Z.max 0 (map depth ts) < 4294967296 -> (nest = 0 -> outer = ct) ->
  flat r = enc_list ct (ImplicitProfileId r) ts ++ rest ->
  skips outer ct (enc_list ct (ImplicitProfileId r) ts) r nest rest.
Proof.
  unfold enc_list. induction 1 as [|t ts Ht Hts IH]; intros outer ct nest r rest Hw Hc Hi Hv Hn Hd Ho Hf.
  { exists 0%nat, r. simpl in Hf. by repeat (split; [done|]). }
  destruct Hv as [Hv Hvs]. cbn [map concat foldr] in *. rewrite <- app_assoc in Hf.
  destruct (Ht outer ct nest r _ Hw Hc Hi Hv Hn ltac:(lia) Ho Hf) as (n & r1 & Hn1 & Hw1 & Hf1 & Hi1 & Hm1 & Hc1 & Hk1).
  eapply skips_trans; try done. rewrite <- Hi1 in *. by apply (IH outer ct nest r1 rest Hw1 Hc1 Hi Hvs Hn ltac:(lia) Ho Hf1).
Qed.

Lemma depths_nonneg ts : 0 <= foldr Z.max 0 (map depth ts).
Proof. induction ts; simpl; lia. Qed.

Lemma skip_container tag c ts : Forall skip_spec ts -> skip_spec (TContainer tag c ts).
Proof.
  intros IH outer ct nest r rest Hw Hc Hi (Ht & Hcc & Hvs) Hn Hd Ho Hf. cbn [enc depth] in *.
  destruct (container_type_ok c Hcc) as [Hco He].
  assert (TLVTypeHasLength c = false) as Hl by (assert (c = 21 \/ c = 22 \/ c = 23) as [-> |[-> | ->]] by lia; done).
  rewrite <- !app_assoc in Hf. cbn [app] in Hf.
  destruct (ReadElement_skip ct r c tag 0 (enc_list c (ImplicitProfileId r) ts ++ 24 :: rest)) as
    (r1 & E1 & Hw1 & Hf1 & (S1 & S2 & S3) & T1 & T2 & T3); auto; [lia|by rewrite Hl|].
  set (r2 := set_containerType c r1).
  assert (wf r2) as Hw2 by (apply keeps_wf; [by intros ?|done]).
  assert (ImplicitProfileId r2 = ImplicitProfileId r) as I2 by (by rewrite <- S1).
  destruct (skip_list ts IH outer c (nest + 1) r2 (24 :: rest)) as (n & r3 & Hn3 & Hw3 & Hf3 & Hi3 & Hm3 & Hc3 & Hk3);
    [done|by left|by rewrite I2|done|lia|lia|lia|by rewrite I2|].
  destruct (ReadElement_end r3 rest Hw3) as (r4 & E4 & Hw4 & Hf4 & (U1 & U2 & U3) & V1 & _); auto.
  { by rewrite Hi3, I2. } { destruct Hc3 as [-> | ->]; [lia|done]. }
  set (r5 := set_containerType (if nest =? 0 then outer else kTLVType_UnknownContainer) r4).
  assert (wf r5) as Hw5 by (apply keeps_wf; [by intros ?|done]).
  pose proof (head_nonempty ct (ImplicitProfileId r) c tag 0 Ht Hi He) as Hh.
  exists (S (n + 1)), r5. rewrite !length_app. cbn [length]. rewrite I2 in Hn3. unfold enc_list in Hn3.
  split; [lia|]. split; [done|]. split; [done|].
  split; [simpl; congruence|]. split; [simpl; unfold r2 in Hm3; simpl in Hm3; congruence|]. split.
  { simpl. destruct (Z.eqb_spec nest 0); [left; auto|by right]. }
  intros k. unfold skip_from at 1. rewrite (bind_ok _ _ _ _ _ E1). cbn [Nat.add SkipToEndOfContainer_loop].
  rewrite T1, Hco. unfold kTLVElementType_EndOfContainer. destruct (Z.eqb_spec c 24); [lia|].
  fold r2. assert (ElementType r2 = c) as T2' by (by rewrite <- T1).
  rewrite (bind_ok _ _ _ _ _ (SkipData_none r2 ltac:(by rewrite T2'))).
  pose proof (depths_nonneg ts). rewrite u32_id by lia. rewrite <- Nat.add_assoc.
  change ((do* ReadElement in SkipToEndOfContainer_loop (n + (1 + k)) outer (nest + 1)) r2) with (skip_from outer (n + (1 + k)) (nest + 1) r2).
  rewrite Hk3. unfold skip_from at 1. rewrite (bind_ok _ _ _ _ _ E4). cbn [Nat.add SkipToEndOfContainer_loop].
  rewrite V1. cbn [Z.eqb Pos.eqb kTLVElementType_EndOfContainer].
  destruct (Z.eqb_spec (nest + 1) 0); [lia|]. replace (nest + 1 - 1) with nest by lia. fold r5.
  assert (ElementType r5 = 24) as V5 by (by rewrite <- V1).
  by rewrite (bind_ok _ _ _ _ _ (SkipData_none r5 ltac:(by rewrite V5))).
Qed.

(** The parts of an element that is no container. *)
Definition is_container (t : tlv) : bool := if t is TContainer _ _ _ then true else false.

Definition simple_shape (ct et tag v : Z) (s : list Z) : Prop :=
  tag_ok ct tag /\ is_elem_type et /\ et <> 24 /\ TLVTypeIsContainer et = false /\
  (if TLVTypeHasLength et then field_value et v = strlen s /\ strlen s <= 4294967295 else s = []).

Lemma int_type_cases v : In (int_type v) [0; 1; 2; 3].
Proof. unfold int_type. repeat (destruct (_ && _); [simpl; auto|]). simpl; auto. Qed.

Lemma uint_type_cases v : In (uint_type v) [4; 5; 6; 7].
Proof. unfold uint_type. repeat (destruct (_ <=? _); [simpl; auto|]). simpl; auto. Qed.

Lemma fixed_shape ct et tag v : tag_ok ct tag -> In et [0; 1; 2; 3; 4; 5; 6; 7; 8; 9; 10; 11; 20] ->
  simple_shape ct et tag v [].
Proof.
  intros Ht Hin. unfold simple_shape, is_elem_type.
  repeat (destruct Hin as [<-|Hin]; [repeat split; try done; apply Ht|]). destruct Hin.
Qed.

Lemma string_shape ct base tag s : tag_ok ct tag -> base = 12 \/ base = 16 -> strlen s <= 4294967295 ->
  simple_shape ct (base + len_size (strlen s)) tag (strlen s) s.
Proof.
  intros Ht Hb Hs. assert (0 <= strlen s) by (unfold strlen; lia).
  destruct (len_size_spec (strlen s) base ltac:(lia) Hb) as (H1 & H2 & H3 & H4 & H5).
  unfold simple_shape. rewrite H3. split; [done|]. split; [done|]. split; [done|]. split; [|by rewrite H2].
  unfold TLVTypeIsContainer, kTLVElementType_Structure. rewrite u8_id by lia.
  destruct (Z.leb_spec 21 (base + len_size (strlen s))); [lia|done].
Qed.

Lemma simple_parts ct t : is_container t = false -> valid ct t ->
  let '(et, tag, v) := elem_parts t in simple_shape ct et tag v (elem_data 0 t).
Proof.
  destruct t as [tag v|tag v|tag b|tag [v|v]|tag|tag s|tag s|tag c ts]; intros Hs Hv; [..|done];
    cbn [valid elem_parts elem_data] in *; try (apply string_shape; tauto); apply fixed_shape;
    try tauto; try (simpl; tauto).
  - pose proof (int_type_cases v) as H. simpl in *. tauto.
  - pose proof (uint_type_cases v) as H. simpl in *. tauto.
  - destruct b; simpl; tauto.
Qed.

Lemma skip_all t : skip_spec t.
Proof.
  induction t as [| | | | | | |tag c ts IH] using tlv_nested_ind; [..|by apply skip_container];
    intros outer ct nest r rest Hw Hc Hi Hv Hn Hd Ho Hf; rewrite enc_parts in *;
    match type of Hv with valid _ ?t => pose proof (simple_parts ct t eq_refl Hv) as Hp; destruct (elem_parts t) as [[et tag'] v'] end;
    destruct Hp as (P1 & P2 & P3 & P4 & P5); by apply skip_simple.
Qed.

(** The nesting is at most the length of the encoding. *)
Lemma depth_length t : forall ct impl, depth t <= Z.of_nat (length (enc ct impl t)).
Proof.
  induction t as [| | | | | | |tag c ts IH] using tlv_nested_ind; intros ct impl; cbn [depth]; try lia.
  cbn [enc]. rewrite !length_app. cbn [length].
  assert (foldr Z.max 0 (map depth ts) <= Z.of_nat (length (concat (map (enc c impl) ts)))); [|lia].
  induction IH as [|t ts Ht Hts IHts]; simpl; [lia|]. rewrite length_app. specialize (Ht c impl). lia.
Qed.

Lemma depths_length ct impl ts : foldr Z.max 0 (map depth ts) <= Z.of_nat (length (enc_list ct impl ts)).
Proof.
  unfold enc_list. induction ts as [|t ts IH]; simpl; [lia|]. rewrite length_app. pose proof (depth_length t ct impl). lia.
Qed.

(** ** Skip at an element *)

(** The reader at the element [t]: its head has been read. *)
Definition at_elem (t : tlv) (r : TLVReader) (rest : list Z) : Prop :=
  wf r /\ flat r = elem_data (ImplicitProfileId r) t ++ rest /\
  let '(et, tag, v) := elem_parts t in ElementType r = et /\ mElemTag r = tag /\ mElemLenOrVal r = field_value et v.

Lemma Skip_container tag c ts r rest :
  at_elem (TContainer tag c ts) r rest -> is_profile (ImplicitProfileId r) -> 21 <= c <= 23 -> valid_list c ts ->
  exists r', Skip r = (Ok tt, r') /\ wf r' /\ flat r' = rest /\ same_context r r' /\ done_elem r'.
Proof.
  intros (Hw & Hf & T1 & T2 & T3) Hi Hc Hvs. destruct (container_type_ok c Hc) as [Hco He].
  cbn [elem_data] in Hf. rewrite <- app_assoc in Hf. cbn [app] in Hf.
  unfold Skip. rewrite T1, Hco. unfold kTLVElementType_EndOfContainer. destruct (Z.eqb_spec c 24) as [|_]; [lia|].
  set (r2 := SetContainerOpen false (ClearElementState (set_containerType c r))).
  assert (EnterContainer r = (Ok (mContainerType r), r2)) as E2 by (unfold EnterContainer; rewrite T1, Hco; done).
  rewrite (bind_ok _ _ _ _ _ E2). assert (wf r2) as Hw2 by (by apply keeps_wf; [intros ?|]).
  assert (wf (SetContainerOpen false r2)) as Hw3 by (by apply keeps_wf; [intros ?|]).
  pose proof (flat_length r Hw) as Hlen. destruct (wf_current r Hw) as (_ & L1 & L2 & _).
  pose proof (depths_length c (ImplicitProfileId r) ts) as Hd.
  assert (length (enc_list c (ImplicitProfileId r) ts) < length (flat r))%nat as Hlf
    by (rewrite Hf, length_app; simpl; lia).
  assert (Forall skip_spec ts) as IH by (apply Forall_forall; intros t _; apply skip_all).
  destruct (skip_list ts IH c c 0 (SetContainerOpen false r2) (24 :: rest)) as (n & r3 & Hn3 & Hw3' & Hf3 & Hi3 & Hm3 & Hc3 & Hk3);
    [done|by left|done|done|lia|lia|done|done|].
  destruct (ReadElement_end r3 rest Hw3') as (r4 & E4 & Hw4 & Hf4 & (U1 & U2 & U3) & V1 & _); auto.
  { by rewrite Hi3. } { destruct Hc3 as [-> | ->]; [lia|done]. }
  assert (SkipToEndOfContainer r2 = (Ok tt, r4)) as E.
  { unfold SkipToEndOfContainer. change (mContainerType r2) with c. change (bytes_left r2) with (bytes_left r).
    pose proof (flat_bytes_left r Hw) as Hb. change (ImplicitProfileId (SetContainerOpen false r2)) with (ImplicitProfileId r) in Hn3.
    replace (S (S (bytes_left r))) with (S (n + S (bytes_left r - n)))%nat by lia. cbn [SkipToEndOfContainer_loop].
    change (ElementType (SetContainerOpen false r2)) with (-1). cbn [Z.eqb kTLVElementType_EndOfContainer].
    change (TLVTypeIsContainer (-1)) with false. cbv iota.
    rewrite (bind_ok _ _ _ _ _ (SkipData_none (SetContainerOpen false r2) eq_refl)).
    change ((do* ReadElement in SkipToEndOfContainer_loop (n + S (bytes_left r - n)) c 0) (SetContainerOpen false r2))
      with (skip_from c (n + S (bytes_left r - n)) 0 (SetContainerOpen false r2)).
    rewrite Hk3. unfold skip_from. rewrite (bind_ok _ _ _ _ _ E4). cbn [SkipToEndOfContainer_loop]. by rewrite V1. }
  unfold ExitContainer. rewrite (bind_ok _ _ _ _ _ E). eexists. split; [done|].
  split; [by apply keeps_wf; [intros ?|]|]. split; [done|]. split; [|by apply done_clear].
  unfold same_context. simpl. simpl in Hi3, Hm3. split; [congruence|]. split; [congruence|done].
Qed.

(** Skip at any element goes past its data. *)
Lemma Skip_elem t r rest :
  at_elem t r rest -> is_profile (ImplicitProfileId r) -> valid (mContainerType r) t ->
  exists r', Skip r = (Ok tt, r') /\ wf r' /\ flat r' = rest /\ same_context r r' /\ done_elem r'.
Proof.
  intros H Hi Hv. destruct (is_container t) eqn:Ec.
  { destruct t; try done. destruct Hv as (_ & Hc & Hvs). by apply (Skip_container tag ctype elems). }
  destruct H as (Hw & Hf & T). pose proof (simple_parts _ t Ec Hv) as Hp.
  assert (elem_data (ImplicitProfileId r) t = elem_data 0 t) as Ed by (by destruct t). rewrite Ed in Hf.
  destruct (elem_parts t) as [[et tag] v]. destruct T as (T1 & T2 & T3), Hp as (P1 & P2 & P3 & P4 & P5).
  assert (exists r2, SkipData r = (Ok tt, r2) /\ wf r2 /\ flat r2 = rest /\ same_context r r2) as (r2 & E2 & Hw2 & Hf2 & Hs2).
  { destruct (TLVTypeHasLength et) eqn:Hl.
    - destruct P5 as [Pv Ps]. rewrite Pv in T3. apply (SkipData_string r et tag (elem_data 0 t)); [by repeat split|done|done].
    - rewrite P5 in Hf. exists r. split; [by apply SkipData_none; rewrite T1|]. by repeat split. }
  unfold Skip. rewrite T1, P4. unfold kTLVElementType_EndOfContainer. destruct (Z.eqb_spec et 24); [done|].
  rewrite (bind_ok _ _ _ _ _ E2). eexists. split; [done|]. split; [by apply Clear_wf|]. split; [done|].
  split; [done|by apply done_clear].
Qed.

(** The first round of the loop, with no current element. *)
Lemma skip_start k outer nest r : ElementType r = -1 ->
  SkipToEndOfContainer_loop (S k) outer nest (SetContainerOpen false r) = skip_from outer k nest (SetContainerOpen false r).
Proof.
  intros He. cbn [SkipToEndOfContainer_loop]. change (ElementType (SetContainerOpen false r)) with (ElementType r).
  rewrite He. change (TLVTypeIsContainer (-1)) with false. cbn [Z.eqb kTLVElementType_EndOfContainer].
  by rewrite (bind_ok _ _ _ _ _ (SkipData_none (SetContainerOpen false r)
    (f_equal TLVTypeHasLength (He : ElementType (SetContainerOpen false r) = -1)))).
Qed.

(** ** The length read and the data left add up *)

Definition total (r : TLVReader) : Z := mLenRead r + Z.of_nat (length (flat r)).

Definition conserves {A} (m : M TLVReader A) : Prop :=
  forall r a r', wf r -> m r = (Ok a, r') -> wf r' /\ total r' = total r.

Lemma conserves_bind {A B} (m : M TLVReader A) (f : A -> M TLVReader B) :
  conserves m -> (forall a, conserves (f a)) -> conserves (bind m f).
Proof.
  intros Hm Hf r b r' Hw (a & r1 & E1 & E2)%bind_inv. destruct (Hm r a r1 Hw E1) as [Hw1 <-].
  by apply (Hf a r1 b r' Hw1).
Qed.

Lemma conserves_ret {A} (a : A) : conserves (ret a).
Proof. intros r b r' Hw E. by injection E as <- <-. Qed.

Lemma conserves_keeps {A} (f : TLVReader -> TLVReader) (g : TLVReader -> A) :
  keeps_position f -> conserves (fun r => (Ok (g r), f r)).
Proof.
  intros Hk r a r' Hw E. injection E as <- <-. split; [by apply keeps_wf|].
  unfold total. rewrite keeps_flat by done. by destruct (Hk r) as (_ & _ & -> & _).
Qed.

Lemma conserves_reads n m : 0 <= n -> reads n m -> conserves m.
Proof.
  intros Hn Hm r a r' Hw E. destruct (Hm r Hw) as [(Hl & r1 & E1 & Hw1 & F & _)|(_ & E1)];
    rewrite E in E1; [injection E1 as -> ->|done].
  split; [done|]. destruct (flatten_fields _ _ F) as (_ & _ & _ & L & _ & _ & _ & Fl).
  rewrite flat_advance, flat_flatten in Fl. simpl in L. unfold total. rewrite L, Fl, length_drop. lia.
Qed.

Lemma total_control c r : total (set_control c r) = total r.
Proof. done. Qed.

Lemma conserves_ReadElement : conserves ReadElement.
Proof.
  intros r a r' Hw. rewrite ReadElement_unfold. intros (u & r1 & E1 & H)%bind_inv.
  destruct (EnsureData_spec WEAVE_END_OF_TLV r Hw) as [[_ E]|(r1' & E & Hw1 & F1 & C1 & _)];
    rewrite E1 in E; [done|injection E as -> ->].
  destruct (flatten_fields _ _ F1) as (_ & _ & _ & L1 & _ & _ & _ & Fl1). rewrite flat_flatten in Fl1. simpl in L1.
  destruct (wf_current r1' Hw1) as (El & _). rewrite El in H. destruct (current r1') as [|c l] eqn:Ec; [done|].
  unfold ReadElement_body in H. destruct (negb _); [done|].
  apply bind_inv in H as (p & r2 & E2 & H). pose proof (head_bytes_bound c).
  destruct (conserves_reads (elemHeadBytes c) _ ltac:(lia) (reads_ReadHead (elemHeadBytes c) ltac:(lia)) (set_control c r1') p r2) as [Hw2 T2];
    [by apply keeps_wf; [intros ?|]|done|].
  rewrite total_control in T2. destruct (ReadTag _ _ _) as [tag p'].
  assert (r' = set_element tag (ReadLenOrVal (GetTLVFieldSize (ElementType (set_control c r1'))) p') c r2) as ->.
  { unfold VerifyElement in H. by destruct (VerifyElement_error _); simplify_eq. }
  split; [by apply keeps_wf; [intros ?|]|].
  change (total (set_element tag (ReadLenOrVal (GetTLVFieldSize (ElementType (set_control c r1'))) p') c r2)) with (total r2).
  rewrite T2. unfold total. by rewrite L1, Fl1.
Qed.

Lemma conserves_SkipData : conserves SkipData.
Proof.
  intros r a r' Hw. unfold SkipData. destruct (TLVTypeHasLength (ElementType r)); [|by intros [= <- <-]].
  apply (conserves_bind _ _ (conserves_reads (u32 (mElemLenOrVal r)) _ (proj1 (u32_bound _)) (reads_ReadData _ (u32_bound _))));
    [|done]. intros _. apply conserves_ret.
Qed.

Lemma conserves_SkipToEnd_loop k : forall outer nest, conserves (SkipToEndOfContainer_loop k outer nest).
Proof.
  induction k as [|k IH]; intros outer nest r a r' Hw; [done|]. cbn [SkipToEndOfContainer_loop].
  assert (forall nest t, conserves (fun r => (do* SkipData in do* ReadElement in SkipToEndOfContainer_loop k outer nest) (set_containerType t r))) as Hgo.
  { intros n t r0 a0 r0' Hw0 E. change (total r0) with (total (set_containerType t r0)).
    refine (conserves_bind SkipData _ conserves_SkipData _ (set_containerType t r0) a0 r0' _ E); [|by apply keeps_wf; [intros ?|]].
    intros _. apply conserves_bind; [apply conserves_ReadElement|intros _; apply IH]. }
  destruct (ElementType r =? kTLVElementType_EndOfContainer).
  - destruct (nest =? 0); [by intros [= <- <-]|]. by apply Hgo.
  - destruct (TLVTypeIsContainer (ElementType r)); [by apply Hgo|].
    intros E. apply (Hgo nest (mContainerType r) r a r' Hw). by destruct r.
Qed.

Lemma conserves_Skip : conserves Skip.
Proof.
  intros r a r' Hw. unfold Skip. destruct (_ =? _); [done|]. destruct (TLVTypeIsContainer _) eqn:Ec.
  - apply conserves_bind; [|intros o|done].
    + intros r0 a0 r0' Hw0. unfold EnterContainer. destruct (negb _); [done|]. intros [= <- <-].
      split; [by apply keeps_wf; [intros ?|]|done].
    + apply conserves_bind; [|intros _; by apply (conserves_keeps _ (fun _ => tt)); intros ?].
      intros r0 a0 r0' Hw0. unfold SkipToEndOfContainer. intros E. change (total r0) with (total (SetContainerOpen false r0)).
      refine (conserves_SkipToEnd_loop _ _ _ _ _ _ _ E). by apply keeps_wf; [intros ?|].
  - apply conserves_bind; [apply conserves_SkipData|intros _|done]. by apply (conserves_keeps _ (fun _ => tt)); intros ?.
Qed.

(** ** CopyElement *)

Lemma CopyData_ok fuel : forall data helper rest w d,
  wf helper -> flat helper = data ++ rest -> (length data < fuel)%nat ->
  wwf w -> room w (Z.of_nat (length data)) d -> 0 <= d ->
  exists w', CopyData fuel (Z.of_nat (length data)) helper w = (Ok tt, w') /\ wrote data w w'.
Proof.
  induction fuel as [|k IH]; intros data helper rest w d Hw Hf Hk Hww Hr Hd; [lia|]. cbn [CopyData].
  destruct (Z.ltb_spec 0 (Z.of_nat (length data))) as [Hpos|Hz]; cbn [negb].
  2:{ destruct data; [|simpl in Hz; lia]. exists w. split; [done|by apply wrote_nil]. }
  unfold kWeaveTLVCopyChunkSize. set (n := if _ <? _ then _ else _).
  assert (0 < n <= Z.of_nat (length data) /\ n <= 16) as [Hn Hn16] by (unfold n; destruct (Z.ltb_spec 16 (Z.of_nat (length data))); lia).
  destruct (reads_ReadData n ltac:(lia) helper Hw) as [(_ & h1 & E1 & Hw1 & F1 & _)|(Hb & _)].
  2:{ rewrite Hf, length_app in Hb. lia. }
  rewrite E1, Hf. rewrite take_app_le by lia. set (chunk := take (Z.to_nat n) data).
  assert (Z.of_nat (length chunk) = n) as Hc by (unfold chunk; rewrite length_take; lia).
  destruct (WriteData_ok chunk w d) as (w1 & E2 & H2); [done| |done|].
  { eapply room_le; [| |exact Hr]; lia. }
  rewrite (bind_ok _ _ _ _ _ E2).
  assert (Z.of_nat (length data) - n = Z.of_nat (length (drop (Z.to_nat n) data))) as -> by (rewrite length_drop; lia).
  destruct (flatten_fields _ _ F1) as (_ & _ & _ & _ & _ & _ & _ & Fl).
  rewrite flat_advance, flat_flatten, Hf, drop_app_le in Fl by lia.
  destruct (IH (drop (Z.to_nat n) data) h1 rest w1 d) as (w2 & E3 & H3); [done|done|rewrite length_drop; lia|apply H2| |done|].
  { apply (room_wrote chunk w w1 _ _ H2). rewrite length_drop. eapply room_le; [| |exact Hr]; lia. }
  exists w2. split; [done|]. rewrite <- (take_drop (Z.to_nat n) data). by apply (wrote_trans _ _ w w1).
Qed.

(** The element under another tag. *)
Definition retag (tag : Z) (t : tlv) : tlv :=
  match t with
  | TInt _ v => TInt tag v
  | TUInt _ v => TUInt tag v
  | TBool _ b => TBool tag b
  | TFloat _ v => TFloat tag v
  | TNull _ => TNull tag
  | TUtf8 _ s => TUtf8 tag s
  | TBytes _ s => TBytes tag s
  | TContainer _ c ts => TContainer tag c ts
  end.

Lemma retag_parts tag t : let '(et, _, v) := elem_parts t in elem_parts (retag tag t) = (et, tag, v).
Proof. by destruct t as [| | |? []| | | |]. Qed.

Lemma retag_data impl tag t : elem_data impl (retag tag t) = elem_data impl t.
Proof. by destruct t. Qed.

Lemma ElementHeadValue_field et v : is_elem_type et -> ElementHeadValue et (field_value et v) = ElementHeadValue et v.
Proof.
  intros He. unfold ElementHeadValue, field_value.
  destruct (field_size_cases et He) as [<-|[<-|[<-|[<-|[<-|[]]]]]]; [done|..];
    cbn [Z.eqb Pos.eqb kTLVFieldSize_0Byte kTLVFieldSize_1Byte kTLVFieldSize_2Byte kTLVFieldSize_4Byte kTLVFieldSize_8Byte].
  - change (256 ^ TLVFieldSizeToBytes 0) with 256. unfold u8. by rewrite Z.mod_mod.
  - change (256 ^ TLVFieldSizeToBytes 1) with 65536. unfold u16. by rewrite Z.mod_mod.
  - change (256 ^ TLVFieldSizeToBytes 2) with 4294967296. unfold u32. by rewrite Z.mod_mod.
  - change (256 ^ TLVFieldSizeToBytes 3) with (256 ^ Z.of_nat 8). by apply le_put_mod.
Qed.

Lemma elem_parts_type ct t : valid ct t -> let '(et, tag, v) := elem_parts t in is_elem_type et /\ et <> 24 /\ et <> -1.
Proof.
  intros Hv. destruct (is_container t) eqn:Ec.
  - destruct t; try done. destruct Hv as (_ & Hc & _). cbn [elem_parts]. unfold is_elem_type. lia.
  - pose proof (simple_parts ct t Ec Hv) as H. destruct (elem_parts t) as [[et tag] v].
    destruct H as (_ & H1 & H2 & _). unfold is_elem_type in *. lia.
Qed.

Lemma CopyElement_ok tag t r rest w d :
  at_elem t r rest -> is_profile (ImplicitProfileId r) -> valid (mContainerType r) t ->
  wwf w -> wImplicitProfileId w = ImplicitProfileId r -> tag_ok (wContainerType w) tag -> 0 <= d ->
  room w (Z.of_nat (length (enc (wContainerType w) (ImplicitProfileId r) (retag tag t)))) d ->
  exists r' w', CopyElement tag r w = (Ok tt, r', w') /\
    wrote (enc (wContainerType w) (ImplicitProfileId r) (retag tag t)) w w' /\ wf r' /\ flat r' = rest.
Proof.
  intros Ha Hi Hv Hww Hwi Ht Hd Hr. destruct (Skip_elem t r rest Ha Hi Hv) as (r' & E1 & Hw' & Hf' & _).
  destruct Ha as (Hw & Hf & T). pose proof (elem_parts_type _ t Hv) as Hty. pose proof (retag_parts tag t) as Hp.
  rewrite enc_parts, retag_data in *. destruct (elem_parts t) as [[et tag0] v]. rewrite Hp in *.
  destruct T as (T1 & T2 & T3), Hty as (He & H24 & Hm1).
  set (data := elem_data (ImplicitProfileId r) t) in *.
  pose proof (conserves_Skip r tt r' Hw E1) as [_ Htot]. unfold total in Htot. rewrite Hf, Hf', length_app in Htot.
  pose proof (flat_length r Hw) as Hl. rewrite Hf, length_app in Hl. destruct (wf_current r Hw) as (_ & L1 & L2 & _).
  unfold CopyElement. rewrite T1, T3. unfold kTLVElementType_NotSpecified, kTLVElementType_EndOfContainer, GetLengthRead.
  destruct (Z.eqb_spec et (-1)) as [|_]; [done|]. destruct (Z.eqb_spec et 24) as [|_]; [done|]. cbn [negb andb].
  rewrite E1. replace (mLenRead r' - mLenRead r) with (Z.of_nat (length data)) by lia. rewrite u32_id by lia.
  assert (head (wContainerType w) (wImplicitProfileId w) et tag (field_value et v) =
          head (wContainerType w) (ImplicitProfileId r) et tag v) as Eh.
  { unfold head. rewrite Hwi, ElementHeadValue_field by done. done. }
  rewrite length_app in Hr.
  destruct (WriteElementHead_ok et tag (field_value et v) w d) as (w1 & E2 & H2); rewrite ?Eh; auto.
  { apply (tag_ok_plain _ _ Ht). } { by rewrite Hwi. } { by apply tag_ok_allowed. } { eapply room_le; [| |exact Hr]; lia. }
  rewrite (bind_ok _ _ _ _ _ E2). rewrite Eh in H2.
  destruct (CopyData_ok (S (Z.to_nat (Z.of_nat (length data)))) data r rest w1 d) as (w2 & E3 & H3); auto; [lia|apply H2| |].
  { apply (room_wrote _ w w1 _ _ H2). eapply room_le; [| |exact Hr]; lia. }
  rewrite E3. exists r', w2. split; [done|]. split; [|done]. by apply (wrote_trans _ _ w w1).
Qed.
