(* ===== verification/TLV.v ===== *)
(** * Properties of the TLV reader and writer

    The theorems of the TLV component, from the lemmas of TLVReaderRefine,
    TLVHead, TLVTree and TLVSkip, each with a witness on concrete data. *)
From S2P Require Import Prelude Encoding TLVTypes TLVReader TLVReaderRefine TLVWriter TLVHead TLVTree TLVSkip.
Local Open Scope weave_scope.

(** ** Initial states *)

Lemma wwf_InitWriter impl maxLen : 0 <= maxLen < 4294967296 -> wwf (set_wImplicit impl (InitWriter maxLen)).
Proof. intros H. unfold wwf. simpl. repeat split; (constructor || lia). Qed.

Lemma wwf_InitWriterBuffers data avail maxLen allow pool :
  0 <= avail < 4294967296 -> 0 <= maxLen < 4294967296 -> Forall size_ok pool ->
  wwf (InitWriterBuffers data avail maxLen allow pool).
Proof.
  intros Ha Hm Hp. unfold wwf. cbn [InitWriterBuffers wRemainingLen wLenWritten wMaxLen wPool wContainerOpen wCloseContainerReserved].
  destruct (Z.ltb_spec maxLen avail); repeat split; (done || lia).
Qed.

Lemma room_InitWriter impl maxLen n d : n <= maxLen -> room (set_wImplicit impl (InitWriter maxLen)) n d.
Proof. intros H. unfold room, logical, phys. simpl. split; [lia|]. split; [lia|done]. Qed.

Lemma wf_InitBuffers impl b chain maxLen allow : Z.of_nat (length b) <= maxLen < 4294967296 ->
  Forall chunk_ok chain -> wf (set_implicit impl (InitBuffers b chain maxLen allow)).
Proof. intros H Hc. exists b. simpl. repeat split; (done || lia). Qed.

Lemma flat_InitBuffers impl b chain maxLen : Z.of_nat (length (b ++ concat chain)) <= maxLen ->
  flat (set_implicit impl (InitBuffers b chain maxLen true)) = b ++ concat chain.
Proof.
  intros H. rewrite length_app in H. unfold flat, current. simpl. f_equal. apply take_ge. lia.
Qed.

Lemma wf_Init impl data : Z.of_nat (length data) < 4294967296 -> wf (set_implicit impl (Init data)).
Proof. intros H. exists data. simpl. repeat split; (constructor || lia). Qed.

(** ** Writing and reading back *)

Lemma put_all_ok ts w d :
  wwf w -> valid_list (wContainerType w) ts -> is_profile (wImplicitProfileId w) ->
  foldr Z.max 0 (map depth ts) <= d ->
  room w (Z.of_nat (length (enc_list (wContainerType w) (wImplicitProfileId w) ts))) d ->
  exists w', put_list ts w = (Ok tt, w') /\ wrote (enc_list (wContainerType w) (wImplicitProfileId w) ts) w w'.
Proof. apply put_list_ok. apply Forall_forall. intros t _. apply put_ok. Qed.

(** C1: any list of elements that is legal at top level is written by the writer's
    operations (Put*, StartContainer, EndContainer) into a buffer of the size of
    its encoding, and the reader's operations (Next, Get*, GetBytes,
    EnterContainer, ExitContainer) give the same elements back from the bytes
    written, whether they are in one buffer or cut into any chain of non-empty
    packet buffers. *)
Theorem TLV_roundtrip ts impl maxLen :
  valid_list (-1) ts -> is_profile impl ->
  Z.of_nat (length (enc_list (-1) impl ts)) <= maxLen < 4294967296 ->
  exists w, put_list ts (set_wImplicit impl (InitWriter maxLen)) = (Ok tt, w) /\
    GetLengthWritten w = Z.of_nat (length (out w)) /\
    fst (get_list (S (length (out w))) (set_implicit impl (Init (out w)))) = Ok ts /\
    forall b chain, b ++ concat chain = out w -> Forall chunk_ok chain ->
      fst (get_list (S (length (out w))) (set_implicit impl (InitBuffers b chain (GetLengthWritten w) true))) = Ok ts.
Proof.
  intros Hv Hi Hm. set (w0 := set_wImplicit impl (InitWriter maxLen)).
  destruct (put_all_ok ts w0 (foldr Z.max 0 (map depth ts))) as (w & E & Hw); try done; [apply wwf_InitWriter; lia| |].
  { apply room_InitWriter. change (Z.of_nat (length (enc_list (-1) impl ts)) <= maxLen). lia. }
  change (wContainerType w0) with (-1) in Hw. change (wImplicitProfileId w0) with impl in Hw.
  set (data := enc_list (-1) impl ts) in *. destruct Hw as (_ & W2 & W3 & _ & _ & _ & W7 & _).
  change (out w = data) in W2. unfold logical in W3. simpl in W3, W7.
  assert (wLenWritten w = Z.of_nat (length data)) as Ew by lia.
  exists w. unfold GetLengthWritten. rewrite W2, Ew. split; [done|]. split; [done|].
  split; [|intros b chain Hb Hch].
  - apply get_list_top; try done; [apply wf_Init; lia| |by apply Nat.lt_succ_diag_r].
    unfold flat. by rewrite app_nil_r.
  - assert (Hl : Z.of_nat (length (b ++ concat chain)) = Z.of_nat (length data)) by (by rewrite Hb).
    apply get_list_top; try done; [|by rewrite flat_InitBuffers, Hb by lia|by apply Nat.lt_succ_diag_r].
    rewrite length_app in Hl. apply wf_InitBuffers; [lia|done].
Qed.

Theorem TLV_roundtrip_witness :
  exists w, put_list example_tree (set_wImplicit 591396868 (InitWriter 60)) = (Ok tt, w) /\
    fst (get_list (S (length (out w))) (set_implicit 591396868 (Init (out w)))) = Ok example_tree.
Proof.
  destruct (TLV_roundtrip example_tree 591396868 60) as (w & H1 & _ & H2 & _);
    [vm_compute; intuition (try discriminate; auto)|vm_compute; intuition discriminate|vm_compute; intuition discriminate|].
  exists w. split; assumption.
Defined.

(** C2: the writer refines the encoding: from any state with room, over one
    buffer or over buffers obtained while writing, the Put* and container
    operations succeed and append exactly the encoding [enc] of the elements,
    spending that many bytes of the buffers and of the maximum length, and leave
    the container type, the implicit profile and the maximum length as they were. *)
Theorem TLVWriter_refines_encoding ts w d :
  wwf w -> valid_list (wContainerType w) ts -> is_profile (wImplicitProfileId w) ->
  foldr Z.max 0 (map depth ts) <= d ->
  room w (Z.of_nat (length (enc_list (wContainerType w) (wImplicitProfileId w) ts))) d ->
  exists w', put_list ts w = (Ok tt, w') /\
    out w' = out w ++ enc_list (wContainerType w) (wImplicitProfileId w) ts /\
    logical w' = logical w - Z.of_nat (length (enc_list (wContainerType w) (wImplicitProfileId w) ts)) /\
    phys w' = phys w - Z.of_nat (length (enc_list (wContainerType w) (wImplicitProfileId w) ts)) /\
    wContainerType w' = wContainerType w /\ wImplicitProfileId w' = wImplicitProfileId w /\ wMaxLen w' = wMaxLen w.
Proof.
  intros H1 H2 H3 H4 H5. destruct (put_all_ok ts w d H1 H2 H3 H4 H5) as (w' & E & _ & W2 & W3 & W4 & W5 & W6 & W7 & _).
  exists w'. by repeat (split; [done|]).
Qed.

Theorem TLVWriter_refines_encoding_witness :
  let w := InitWriterBuffers [1; 2] 10 4294967295 true [8; 100] in
  exists w', put_list example_tree w = (Ok tt, w') /\
    out w' = out w ++ enc_list (wContainerType w) (wImplicitProfileId w) example_tree.
Proof.
  destruct (TLVWriter_refines_encoding example_tree (InitWriterBuffers [1; 2] 10 4294967295 true [8; 100]) 2)
    as (w' & H1 & H2 & _).
  - apply wwf_InitWriterBuffers; [lia|lia|]. repeat (constructor; [unfold size_ok; lia|]). constructor.
  - vm_compute; intuition (try discriminate; auto).
  - vm_compute; intuition discriminate.
  - vm_compute; discriminate.
  - vm_compute; intuition discriminate.
  - exists w'. split; [exact H1|exact H2].
Defined.

(** C3: a reader over a chain of packet buffers refines the reader over one
    buffer with the same data: for a well-formed reader (no empty buffer in the
    chain, the current one within the maximum length), each operation returns
    what it returns on the flattened reader, the same error included, never runs
    into undefined behaviour and always returns; when it succeeds, the next
    state is well-formed and flattens to the next state of the other. *)
Theorem TLVReader_chain_refines_flat r :
  wf r ->
  sim (Next r) (Next (flatten r)) /\
  (forall t g, sim (NextExpect t g r) (NextExpect t g (flatten r))) /\
  sim (Skip r) (Skip (flatten r)) /\
  sim (EnterContainer r) (EnterContainer (flatten r)) /\
  (forall o, sim (ExitContainer o r) (ExitContainer o (flatten r))) /\
  (forall n, sim (GetBytes n r) (GetBytes n (flatten r))) /\
  (forall n, sim (GetString n r) (GetString n (flatten r))) /\
  (forall malloc, sim (DupBytes malloc r) (DupBytes malloc (flatten r))).
Proof.
  intros Hw. split; [by apply refines_Next|]. split; [intros; by apply refines_NextExpect|].
  split; [by apply refines_Skip|]. split; [by apply refines_EnterContainer|].
  split; [intros; by apply refines_ExitContainer|]. split; [intros; by apply refines_GetBytes|].
  split; [intros; by apply refines_GetString|intros; by apply refines_DupBytes].
Qed.

Theorem TLVReader_chain_refines_flat_witness :
  let r := InitBuffers [21; 41] [[1; 44]; [2; 2; 97]; [98; 24]] 4294967295 true in
  flat r = [21; 41; 1; 44; 2; 2; 97; 98; 24] /\ sim (Next r) (Next (flatten r)).
Proof.
  split; [reflexivity|].
  destruct (TLVReader_chain_refines_flat (InitBuffers [21; 41] [[1; 44]; [2; 2; 97]; [98; 24]] 4294967295 true)) as [H _];
    [|exact H].
  apply (wf_InitBuffers kProfileIdNotSpecified [21; 41]); [simpl; lia|].
  repeat (constructor; [split; [discriminate|reflexivity]|]). constructor.
Defined.

(** Skip on a reader placed at an encoded element succeeds and leaves the
    reader immediately after it, however deep a container is nested, with the
    container type and the implicit profile it had: the loop of
    SkipToEndOfContainer finds the matching end-of-container byte. *)
Theorem TLVReader_Skip_element t r rest :
  at_elem t r rest -> is_profile (ImplicitProfileId r) -> valid (mContainerType r) t ->
  exists r', Skip r = (Ok tt, r') /\ flat r' = rest /\ mContainerType r' = mContainerType r /\
    ImplicitProfileId r' = ImplicitProfileId r /\
    mLenRead r' = mLenRead r + Z.of_nat (length (elem_data (ImplicitProfileId r) t)).
Proof.
  intros Ha Hi Hv. destruct (Skip_elem t r rest Ha Hi Hv) as (r' & E & Hw' & Hf' & (S1 & S2 & S3) & _).
  destruct Ha as (Hw & Hf & _). destruct (conserves_Skip r tt r' Hw E) as [_ Ht].
  unfold total in Ht. rewrite Hf, Hf', length_app in Ht.
  exists r'. split; [done|]. split; [done|]. split; [done|]. split; [done|]. lia.
Qed.

Theorem TLVReader_Skip_element_witness :
  exists r', Skip (snd (Next (Init [21; 54; 7; 20; 24; 24; 4; 9]))) = (Ok tt, r') /\ flat r' = [4; 9].
Proof.
  destruct (TLVReader_Skip_element (TContainer AnonymousTag 21 [TContainer (ContextTag 7) 22 [TNull AnonymousTag]])
              (snd (Next (Init [21; 54; 7; 20; 24; 24; 4; 9]))) [4; 9]) as (r' & E & Hf & _).
  - split; [|vm_compute; repeat split].
    exists [54; 7; 20; 24; 24; 4; 9]. split; [reflexivity|].
    split; [vm_compute; discriminate|]. split; [split; [vm_compute; discriminate|reflexivity]|constructor].
  - vm_compute; intuition discriminate.
  - vm_compute; intuition (try discriminate; auto).
  - exists r'. split; [exact E|exact Hf].
Defined.

(** CopyElement at any element of a reader with the writer's implicit profile
    appends the encoding of that element under the given tag, whole containers
    included, 16 bytes at a time, and leaves the reader after the element. *)
Theorem TLVWriter_CopyElement tag t r rest w d :
  at_elem t r rest -> is_profile (ImplicitProfileId r) -> valid (mContainerType r) t ->
  wwf w -> wImplicitProfileId w = ImplicitProfileId r -> tag_ok (wContainerType w) tag -> 0 <= d ->
  room w (Z.of_nat (length (enc (wContainerType w) (ImplicitProfileId r) (retag tag t)))) d ->
  exists r' w', CopyElement tag r w = (Ok tt, r', w') /\
    out w' = out w ++ enc (wContainerType w) (ImplicitProfileId r) (retag tag t) /\ flat r' = rest.
Proof.
  intros H1 H2 H3 H4 H5 H6 H7 H8.
  destruct (CopyElement_ok tag t r rest w d H1 H2 H3 H4 H5 H6 H7 H8) as (r' & w' & E & (_ & W & _) & _ & F).
  exists r', w'. by repeat (split; [done|]).
Qed.

Theorem TLVWriter_CopyElement_witness :
  let r := snd (Next (Init [21; 54; 7; 20; 24; 24; 4; 9])) in
  let w := InitWriter 100 in
  let t := TContainer AnonymousTag 21 [TContainer (ContextTag 7) 22 [TNull AnonymousTag]] in
  exists r' w', CopyElement (CommonTag 5) r w = (Ok tt, r', w') /\
    out w' = out w ++ enc (wContainerType w) (ImplicitProfileId r) (retag (CommonTag 5) t) /\ flat r' = [4; 9].
Proof.
  apply (TLVWriter_CopyElement (CommonTag 5) (TContainer AnonymousTag 21 [TContainer (ContextTag 7) 22 [TNull AnonymousTag]])
           (snd (Next (Init [21; 54; 7; 20; 24; 24; 4; 9]))) [4; 9] (InitWriter 100) 0).
  - split; [|vm_compute; repeat split]. exists [54; 7; 20; 24; 24; 4; 9]. split; [reflexivity|].
    split; [vm_compute; discriminate|]. split; [split; [vm_compute; discriminate|reflexivity]|constructor].
  - vm_compute; intuition discriminate.
  - vm_compute; intuition (try discriminate; auto).
  - apply (wwf_InitWriter kProfileIdNotSpecified). lia.
  - reflexivity.
  - vm_compute; intuition (try discriminate; auto).
  - lia.
  - apply (room_InitWriter kProfileIdNotSpecified). vm_compute. discriminate.
Defined.

(** ** Error paths *)

(** when a reader that takes further packet buffers has used the last of
    them before the maximum length, Next reports WEAVE_END_OF_TLV and leaves
    mReadPoint at NULL with mBufEnd at the end of the old buffer; EnsureData then
    takes the two for a non-empty range, and the following call of Next reads
    through the null pointer. *)
Theorem TLVReader_end_of_chain_stale r :
  mReadPoint r = Some [] -> mBufHandle r = [] -> GetNextBuffer r = true -> mLenRead r <> mMaxLen r ->
  mControlByte r = kTLVControlByte_NotSpecified ->
  fst (Next r) = Err WEAVE_END_OF_TLV /\ mReadPoint (snd (Next r)) = None /\
  fst (Next (snd (Next r))) = Undefined.
Proof.
  intros H1 H2 H3 H4 H5.
  assert (Next r = (Err WEAVE_END_OF_TLV, set_position [] None (mLenRead r) (ClearElementState r))) as E.
  { unfold Next. rewrite (bind_ok _ _ _ _ _ (Skip_done r (done_clear r H5))).
    unfold bind at 1, ReadElement, bind, EnsureData. simpl. rewrite H1, H2, H3.
    by destruct (Z.eqb_spec (mLenRead r) (mMaxLen r)). }
  rewrite E. split; [done|]. split; [done|].
  cbn [snd]. unfold Next. rewrite (bind_ok _ _ _ _ _ (Skip_done (set_position [] None (mLenRead r) (ClearElementState r)) (done_clear (set_position [] None (mLenRead r) (ClearElementState r)) eq_refl))). done.
Qed.

Theorem TLVReader_end_of_chain_stale_witness :
  let r := InitBuffers [] [] 4294967295 true in
  fst (Next r) = Err WEAVE_END_OF_TLV /\ mReadPoint (snd (Next r)) = None /\ fst (Next (snd (Next r))) = Undefined.
Proof.
  apply (TLVReader_end_of_chain_stale (InitBuffers [] [] 4294967295 true)); (reflexivity || discriminate).
Defined.

(** a container whose encoding ends at an element boundary, without its
    end-of-container byte, makes ExitContainer (and so Skip and Next) return
    WEAVE_END_OF_TLV and not WEAVE_ERROR_TLV_UNDERRUN. *)
Theorem TLVReader_truncated_container c ts r :
  wf r -> mControlByte r = kTLVControlByte_NotSpecified -> mContainerType r = c -> 21 <= c <= 23 ->
  is_profile (ImplicitProfileId r) -> valid_list c ts ->
  flat r = enc_list c (ImplicitProfileId r) ts ->
  forall o, fst (ExitContainer o r) = Err WEAVE_END_OF_TLV.
Proof.
  intros Hw Hcb Hct Hc Hi Hvs Hf o.
  assert (wf (SetContainerOpen false r)) as Hw0 by (by apply keeps_wf; [intros ?|]).
  pose proof (flat_length r Hw) as Hlen. destruct (wf_current r Hw) as (_ & L1 & L2 & _).
  pose proof (depths_length c (ImplicitProfileId r) ts) as Hd.
  assert (Forall skip_spec ts) as IH by (apply Forall_forall; intros t _; apply skip_all).
  destruct (skip_list ts IH c c 0 (SetContainerOpen false r) []) as (n & r3 & Hn3 & Hw3 & Hf3 & Hi3 & _ & _ & Hk3);
    [done|by left|done|done|lia|rewrite Hf in Hlen; lia|done|by rewrite app_nil_r|].
  assert (fst (SkipToEndOfContainer r) = Err WEAVE_END_OF_TLV) as E.
  { unfold SkipToEndOfContainer. rewrite Hct.
    pose proof (flat_bytes_left r Hw) as Hb. rewrite Hf in Hb.
    change (ImplicitProfileId (SetContainerOpen false r)) with (ImplicitProfileId r) in Hn3.
    replace (S (S (bytes_left r))) with (S (n + S (bytes_left r - n)))%nat by lia.
    rewrite (skip_start _ c 0) by (unfold ElementType; simpl; by rewrite Hcb).
    rewrite Hk3. unfold skip_from, bind. rewrite ReadElement_unfold.
    destruct (EnsureData_spec WEAVE_END_OF_TLV r3 Hw3) as [[_ E]|(r4 & _ & _ & F & C & _)].
    - unfold bind. by destruct (EnsureData WEAVE_END_OF_TLV r3) as [[] ?]; simplify_eq/=.
    - exfalso. apply C. apply (f_equal flat) in F. rewrite !flat_flatten, Hf3 in F. by destruct (app_eq_nil _ _ F). }
  unfold ExitContainer, bind. by destruct (SkipToEndOfContainer r) as [[] ?]; simplify_eq/=.
Qed.

Theorem TLVReader_truncated_container_witness :
  fst (ExitContainer (-1) (snd (EnterContainer (snd (Next (Init [21; 54; 7; 20; 24])))))) = Err WEAVE_END_OF_TLV.
Proof.
  apply (TLVReader_truncated_container 21 [TContainer (ContextTag 7) 22 [TNull AnonymousTag]]).
  - exists [54; 7; 20; 24]. split; [reflexivity|].
    split; [vm_compute; discriminate|]. split; [split; [vm_compute; discriminate|reflexivity]|constructor].
  - reflexivity.
  - reflexivity.
  - lia.
  - vm_compute; intuition discriminate.
  - vm_compute; intuition (try discriminate; auto).
  - reflexivity.
Defined.

(** the byte that StartContainer keeps for the end of the container can be
    taken by an element head: WriteElementHead writes in place whenever 17 bytes
    are left in the buffer, without comparing with the maximum length, so a
    17-byte head succeeds with 16 bytes left and EndContainer has no room.  A
    buffer one byte smaller takes the other path, which refuses the head and
    leaves the container closable. *)
Theorem TLVWriter_reserved_byte_lost :
  let tag := ProfileTag3 9050 4 70000 in
  let open n := snd (StartContainer AnonymousTag kTLVType_Structure (InitWriter n)) in
  let big := 5000000000 in
  fst (Put_u64 tag big (open 18)) = Ok tt /\
  wMaxLen (snd (Put_u64 tag big (open 18))) < wLenWritten (snd (Put_u64 tag big (open 18))) /\
  fst (EndContainer kTLVType_NotSpecified (snd (Put_u64 tag big (open 18)))) = Err WEAVE_ERROR_BUFFER_TOO_SMALL /\
  fst (Put_u64 tag big (open 17)) = Err WEAVE_ERROR_BUFFER_TOO_SMALL /\
  fst (EndContainer kTLVType_NotSpecified (snd (Put_u64 tag big (open 17)))) = Ok tt.
Proof. by vm_compute. Qed.
