(* ===== verification/KeyIds.v ===== *)
(** * Weave key identifiers (src/src/lib/core/WeaveKeyIds.h, WeaveKeyIds.cpp)

    A key id is a 32-bit number: four flag bits, sixteen bits of key type and
    twelve bits of key number, which application keys divide into root key,
    epoch key and group master key numbers. *)
From S2P Require Import Prelude.

Definition kMask_KeyFlags : Z := 4026531840.       (* 0xF0000000 *)
Definition kMask_KeyType : Z := 268431360.         (* 0x0FFFF000 *)
Definition kMask_KeyNumber : Z := 4095.            (* 0x00000FFF *)
Definition kMask_RootKeyNumber : Z := 3072.        (* 0x00000C00 *)
Definition kMask_EpochKeyNumber : Z := 896.        (* 0x00000380 *)
Definition kMask_GroupLocalNumber : Z := 127.      (* 0x0000007F *)
Definition kShift_RootKeyNumber : Z := 10.
Definition kShift_EpochKeyNumber : Z := 7.
Definition kShift_GroupLocalNumber : Z := 0.
Definition kFlag_UseCurrentEpochKey : Z := 2147483648.  (* 0x80000000 *)
Definition kTypeModifier_IncorporatesEpochKey : Z := 4096.

Definition kType_None : Z := 0.
Definition kType_General : Z := 4096.
Definition kType_Session : Z := 8192.
Definition kType_AppStaticKey : Z := 16384.
Definition kType_AppRotatingKey : Z := Z.lor kType_AppStaticKey kTypeModifier_IncorporatesEpochKey.
Definition kType_AppRootKey : Z := 65536.
Definition kType_AppEpochKey : Z := Z.lor 131072 kTypeModifier_IncorporatesEpochKey.
Definition kType_AppGroupMasterKey : Z := 196608.
Definition kType_AppIntermediateKey : Z := Z.lor kType_AppRootKey kTypeModifier_IncorporatesEpochKey.

Definition kNone : Z := 0.
Definition kFabricSecret : Z := Z.lor kType_General 1.
Definition kFabricRootKey : Z := Z.lor kType_AppRootKey (Z.shiftl 0 kShift_RootKeyNumber).
Definition kClientRootKey : Z := Z.lor kType_AppRootKey (Z.shiftl 1 kShift_RootKeyNumber).
Definition kServiceRootKey : Z := Z.lor kType_AppRootKey (Z.shiftl 2 kShift_RootKeyNumber).

(** ** Inspection *)

Definition GetType (keyId : Z) : Z := Z.land keyId kMask_KeyType.
Definition IsGeneralKey (keyId : Z) : bool := GetType keyId =? kType_General.
Definition IsSessionKey (keyId : Z) : bool := GetType keyId =? kType_Session.
Definition IsAppStaticKey (keyId : Z) : bool := GetType keyId =? kType_AppStaticKey.
Definition IsAppRotatingKey (keyId : Z) : bool := GetType keyId =? kType_AppRotatingKey.
Definition IsAppGroupKey (keyId : Z) : bool := IsAppStaticKey keyId || IsAppRotatingKey keyId.
Definition IsAppRootKey (keyId : Z) : bool := GetType keyId =? kType_AppRootKey.
Definition IsAppEpochKey (keyId : Z) : bool := GetType keyId =? kType_AppEpochKey.
Definition IsAppGroupMasterKey (keyId : Z) : bool := GetType keyId =? kType_AppGroupMasterKey.
Definition GetRootKeyId (keyId : Z) : Z := Z.lor kType_AppRootKey (Z.land keyId kMask_RootKeyNumber).
Definition GetEpochKeyId (keyId : Z) : Z := Z.lor kType_AppEpochKey (Z.land keyId kMask_EpochKeyNumber).
Definition GetAppGroupMasterKeyId (keyId : Z) : Z := Z.lor kType_AppGroupMasterKey (Z.land keyId kMask_GroupLocalNumber).
Definition GetRootKeyNumber (keyId : Z) : Z := u8 (Z.shiftr (Z.land keyId kMask_RootKeyNumber) kShift_RootKeyNumber).
Definition GetEpochKeyNumber (keyId : Z) : Z := u8 (Z.shiftr (Z.land keyId kMask_EpochKeyNumber) kShift_EpochKeyNumber).
Definition GetAppGroupLocalNumber (keyId : Z) : Z := u8 (Z.shiftr (Z.land keyId kMask_GroupLocalNumber) kShift_GroupLocalNumber).
Definition IncorporatesEpochKey (keyId : Z) : bool := negb (Z.land keyId kTypeModifier_IncorporatesEpochKey =? 0).
Definition UsesCurrentEpochKey (keyId : Z) : bool :=
  IncorporatesEpochKey keyId && negb (Z.land keyId kFlag_UseCurrentEpochKey =? 0).
Definition IncorporatesRootKey (keyId : Z) : bool :=
  let keyType := GetType keyId in
  (keyType =? kType_AppStaticKey) || (keyType =? kType_AppRotatingKey) ||
  (keyType =? kType_AppRootKey) || (keyType =? kType_AppIntermediateKey).
Definition IncorporatesAppGroupMasterKey (keyId : Z) : bool :=
  let keyType := GetType keyId in
  (keyType =? kType_AppStaticKey) || (keyType =? kType_AppRotatingKey) || (keyType =? kType_AppGroupMasterKey).

(** ** Construction *)

Definition MakeSessionKeyId (n : Z) : Z := u16 (Z.lor kType_Session (Z.land n kMask_KeyNumber)).
Definition MakeGeneralKeyId (n : Z) : Z := u16 (Z.lor kType_General (Z.land n kMask_KeyNumber)).
Definition MakeRootKeyId (n : Z) : Z := u32 (Z.lor kType_AppRootKey (Z.shiftl n kShift_RootKeyNumber)).
Definition MakeEpochKeyId (n : Z) : Z := u32 (Z.lor kType_AppEpochKey (Z.shiftl n kShift_EpochKeyNumber)).
Definition MakeAppGroupMasterKeyId (n : Z) : Z := u32 (Z.lor kType_AppGroupMasterKey (Z.shiftl n kShift_GroupLocalNumber)).
Definition ConvertToCurrentAppKeyId (keyId : Z) : Z :=
  Z.lor (Z.ldiff keyId kMask_EpochKeyNumber) kFlag_UseCurrentEpochKey.

Definition MakeAppKeyId (keyType rootKeyId epochKeyId appGroupMasterKeyId : Z) (useCurrentEpochKey : bool) : Z :=
  Z.lor (Z.lor (Z.lor keyType (Z.land rootKeyId kMask_RootKeyNumber)) (Z.land appGroupMasterKeyId kMask_GroupLocalNumber))
    (if useCurrentEpochKey then kFlag_UseCurrentEpochKey else Z.land epochKeyId kMask_EpochKeyNumber).
Definition MakeAppIntermediateKeyId (rootKeyId epochKeyId : Z) (useCurrentEpochKey : bool) : Z :=
  MakeAppKeyId kType_AppIntermediateKey rootKeyId epochKeyId kNone useCurrentEpochKey.
Definition MakeAppRotatingKeyId (rootKeyId epochKeyId appGroupMasterKeyId : Z) (useCurrentEpochKey : bool) : Z :=
  MakeAppKeyId kType_AppRotatingKey rootKeyId epochKeyId appGroupMasterKeyId useCurrentEpochKey.
Definition MakeAppStaticKeyId (rootKeyId appGroupMasterKeyId : Z) : Z :=
  MakeAppKeyId kType_AppStaticKey rootKeyId kNone appGroupMasterKeyId false.
Definition ConvertToStaticAppKeyId (keyId : Z) : Z :=
  MakeAppStaticKeyId (GetRootKeyId keyId) (GetAppGroupMasterKeyId keyId).
Definition UpdateEpochKeyId (keyId epochKeyId : Z) : Z :=
  Z.lor (Z.ldiff keyId (Z.lor kFlag_UseCurrentEpochKey kMask_EpochKeyNumber)) (Z.land epochKeyId kMask_EpochKeyNumber).

(** ** Validity *)

(** The bits a key id of each type may use: the switch of IsValidKeyId. *)
Definition usedBits (keyId : Z) : option Z :=
  let ty := GetType keyId in
  let epoch := if UsesCurrentEpochKey keyId then 0 else kMask_EpochKeyNumber in
  if ty =? kType_None then None
  else if (ty =? kType_General) || (ty =? kType_Session) then Some (Z.lor kMask_KeyType kMask_KeyNumber)
  else if ty =? kType_AppStaticKey then
    Some (Z.lor kMask_KeyType (Z.lor kMask_RootKeyNumber kMask_GroupLocalNumber))
  else if ty =? kType_AppRotatingKey then
    Some (Z.lor (Z.lor kMask_KeyType (Z.lor (Z.lor kFlag_UseCurrentEpochKey kMask_RootKeyNumber) kMask_GroupLocalNumber)) epoch)
  else if ty =? kType_AppRootKey then Some (Z.lor kMask_KeyType kMask_RootKeyNumber)
  else if ty =? kType_AppIntermediateKey then
    Some (Z.lor (Z.lor kMask_KeyType (Z.lor kFlag_UseCurrentEpochKey kMask_RootKeyNumber)) epoch)
  else if ty =? kType_AppEpochKey then
    Some (Z.lor (Z.lor kMask_KeyType kFlag_UseCurrentEpochKey) epoch)
  else if ty =? kType_AppGroupMasterKey then Some (Z.lor kMask_KeyType kMask_GroupLocalNumber)
  else None.

Definition IsValidKeyId (keyId : Z) : bool :=
  match usedBits keyId with
  | None => false
  | Some bits =>
    let rootKeyId := GetRootKeyId keyId in
    if IncorporatesRootKey keyId &&
       negb ((rootKeyId =? kFabricRootKey) || (rootKeyId =? kClientRootKey) || (rootKeyId =? kServiceRootKey))
    then false
    else Z.ldiff keyId bits =? 0
  end.

Definition IsMessageEncryptionKeyId (keyId : Z) (allowLogicalKeys : bool) : bool :=
  let ty := GetType keyId in
  if (ty =? kType_Session) || (ty =? kType_AppStaticKey) then true
  else if ty =? kType_AppRotatingKey then allowLogicalKeys || negb (UsesCurrentEpochKey keyId)
  else false.

Definition IsSameKeyOrGroup (keyId1 keyId2 : Z) : bool :=
  let ignore k := Z.ldiff k (Z.lor kMask_EpochKeyNumber kFlag_UseCurrentEpochKey) in
  if keyId1 =? keyId2 then true
  else IncorporatesEpochKey keyId1 && negb (IsAppEpochKey keyId1) && (ignore keyId1 =? ignore keyId2).

(** ** Properties *)

(** Application rotating key ids over all numbers of root, epoch and group. *)
Definition check_rotating (root epoch group : Z) (current : bool) : bool :=
  let k := MakeAppRotatingKeyId (MakeRootKeyId root) (MakeEpochKeyId epoch) (MakeAppGroupMasterKeyId group) current in
  IsValidKeyId k && IsAppGroupKey k && (GetRootKeyNumber k =? root) && (GetAppGroupLocalNumber k =? group) &&
  eqb (UsesCurrentEpochKey k) current && (GetEpochKeyNumber k =? if current then 0 else epoch) &&
  (ConvertToStaticAppKeyId k =? MakeAppStaticKeyId (MakeRootKeyId root) (MakeAppGroupMasterKeyId group)) &&
  IsValidKeyId (ConvertToStaticAppKeyId k) &&
  (ConvertToCurrentAppKeyId k =? MakeAppRotatingKeyId (MakeRootKeyId root) kNone (MakeAppGroupMasterKeyId group) true) &&
  (UpdateEpochKeyId (ConvertToCurrentAppKeyId k) (MakeEpochKeyId epoch) =?
     MakeAppRotatingKeyId (MakeRootKeyId root) (MakeEpochKeyId epoch) (MakeAppGroupMasterKeyId group) false) &&
  IsSameKeyOrGroup k (ConvertToCurrentAppKeyId k).

Lemma check_rotating_all :
  all_upto 3 (fun r => all_upto 8 (fun e => all_upto 128 (fun g => check_rotating r e g true && check_rotating r e g false))) = true.
Proof. by vm_compute. Qed.

(** for the three root keys, every epoch key number and every group number, the
    rotating key id made of them is valid and gives its parts back; converting it
    to the current-epoch id, putting an epoch key in again and converting it to a
    static id give the ids made of the same parts; and an id and its
    current-epoch form are the same key or group. *)
Theorem KeyId_rotating_parts root epoch group current :
  0 <= root < 3 -> 0 <= epoch < 8 -> 0 <= group < 128 ->
  let k := MakeAppRotatingKeyId (MakeRootKeyId root) (MakeEpochKeyId epoch) (MakeAppGroupMasterKeyId group) current in
  IsValidKeyId k = true /\ GetRootKeyNumber k = root /\ GetAppGroupLocalNumber k = group /\
  UsesCurrentEpochKey k = current /\ GetEpochKeyNumber k = (if current then 0 else epoch) /\
  ConvertToStaticAppKeyId k = MakeAppStaticKeyId (MakeRootKeyId root) (MakeAppGroupMasterKeyId group) /\
  ConvertToCurrentAppKeyId k = MakeAppRotatingKeyId (MakeRootKeyId root) kNone (MakeAppGroupMasterKeyId group) true /\
  UpdateEpochKeyId (ConvertToCurrentAppKeyId k) (MakeEpochKeyId epoch) =
    MakeAppRotatingKeyId (MakeRootKeyId root) (MakeEpochKeyId epoch) (MakeAppGroupMasterKeyId group) false /\
  IsSameKeyOrGroup k (ConvertToCurrentAppKeyId k) = true.
Proof.
  intros Hr He Hg.
  pose proof (all_upto_spec _ _ check_rotating_all root Hr) as H. cbv beta in H.
  pose proof (all_upto_spec _ _ H epoch He) as H1. cbv beta in H1.
  pose proof (all_upto_spec _ _ H1 group Hg) as H2. cbv beta in H2. clear H H1.
  assert (check_rotating root epoch group current = true) as H by (bool_prop; by destruct current).
  unfold check_rotating in H. bool_prop. repeat split; try assumption. by apply eqb_prop.
Qed.

Theorem KeyId_rotating_parts_witness :
  IsValidKeyId (MakeAppRotatingKeyId (MakeRootKeyId 2) (MakeEpochKeyId 5) (MakeAppGroupMasterKeyId 77) false) = true.
Proof. apply (KeyId_rotating_parts 2 5 77 false); lia. Defined.

Lemma ldiff_zero k bits : Z.ldiff k bits = 0 -> k = Z.land k bits.
Proof.
  intros H. rewrite <- (Z.lor_ldiff_and k bits) at 1. by rewrite H.
Qed.

(** the valid ids of application static and rotating keys are exactly those
    made from their own parts: an accepted id of such a type is rebuilt by
    MakeAppStaticKeyId or MakeAppRotatingKeyId from its root key id, epoch key id
    and group master key id. *)
Theorem KeyId_valid_app_group keyId :
  0 <= keyId < 4294967296 -> IsValidKeyId keyId = true ->
  (IsAppStaticKey keyId = true -> keyId = MakeAppStaticKeyId keyId keyId) /\
  (IsAppRotatingKey keyId = true -> UsesCurrentEpochKey keyId = false -> keyId = MakeAppRotatingKeyId keyId keyId keyId false).
Proof.
  intros Hk Hv. unfold IsValidKeyId, usedBits, IsAppStaticKey, IsAppRotatingKey in *.
  split; [intros E%Z.eqb_eq|intros E%Z.eqb_eq Hc; rewrite Hc in Hv]; rewrite E in Hv;
    cbn [Z.eqb kType_None kType_General kType_Session kType_AppStaticKey orb Pos.eqb] in Hv.
  - change (16384 =? kType_General) with false in Hv. change (16384 =? kType_Session) with false in Hv. cbv iota beta zeta in Hv.
    destruct (IncorporatesRootKey keyId && _); [done|]. apply Z.eqb_eq, ldiff_zero in Hv.
    rewrite !Z.land_lor_distr_r in Hv. unfold MakeAppStaticKeyId, MakeAppKeyId. unfold GetType in E.
    rewrite E in Hv. rewrite Hv at 1. change (Z.land kNone kMask_EpochKeyNumber) with 0. by rewrite Z.lor_0_r, Z.lor_assoc.
  - change (kType_AppRotatingKey =? kType_None) with false in Hv. change (kType_AppRotatingKey =? kType_General) with false in Hv.
    change (kType_AppRotatingKey =? kType_Session) with false in Hv. change (kType_AppRotatingKey =? kType_AppStaticKey) with false in Hv.
    change (kType_AppRotatingKey =? kType_AppRotatingKey) with true in Hv. cbv iota beta zeta in Hv. cbn [orb] in Hv.
    destruct (IncorporatesRootKey keyId && _); [done|]. apply Z.eqb_eq, ldiff_zero in Hv.
    rewrite !Z.land_lor_distr_r in Hv. unfold MakeAppRotatingKeyId, MakeAppKeyId. unfold GetType in E.
    rewrite E in Hv.
    assert (Z.land keyId kFlag_UseCurrentEpochKey = 0) as Hf.
    { unfold UsesCurrentEpochKey in Hc. apply andb_false_iff in Hc as [Hc|Hc].
      - exfalso. unfold IncorporatesEpochKey in Hc. apply negb_false_iff, Z.eqb_eq in Hc.
        apply (f_equal (fun x => Z.land x kTypeModifier_IncorporatesEpochKey)) in E. rewrite <- Z.land_assoc in E.
        change (Z.land kMask_KeyType kTypeModifier_IncorporatesEpochKey) with kTypeModifier_IncorporatesEpochKey in E.
        by rewrite Hc in E.
      - by apply negb_false_iff, Z.eqb_eq in Hc. }
    rewrite Hf in Hv. rewrite Hv at 1. rewrite Z.lor_0_l. by rewrite !Z.lor_assoc.
Qed.

Theorem KeyId_valid_app_group_witness :
  MakeAppRotatingKeyId 22605 22605 22605 false = 22605 /\ IsValidKeyId 22605 = true.
Proof.
  split; [|reflexivity].
  symmetry. apply (proj2 (KeyId_valid_app_group 22605 ltac:(lia) eq_refl)); reflexivity.
Defined.
