(* ===== verification/TimeUtils.v ===== *)
(** * Calendar dates and times (src/src/lib/support/TimeUtils.cpp, TimeUtils.h)

    Conversions between calendar dates, days since 1970 and seconds since 1970, with
    the integer widths of the code.  The reference is the calendar counted day by
    day from 1 January 1970 ([date_of]). *)
From S2P Require Import Prelude.
Local Open Scope Z_scope.

Definition kYearsPerCentury : Z := 100.
Definition kLeapYearInterval : Z := 4.
Definition kDaysPerWeek : Z := 7.
Definition kDaysPerStandardYear : Z := 365.
Definition kSecondsPerMinute : Z := 60.
Definition kSecondsPerHour : Z := 3600.
Definition kSecondsPerDay : Z := 86400.
Definition kJanuary : Z := 1.
Definition kFebruary : Z := 2.
Definition kDecember : Z := 12.
Definition kEpochYear : Z := 1970.
Definition kMaxYearInSecondsSinceEpoch32 : Z := 2105.
Definition kMaxYearInDaysSinceEpoch32 : Z := 28276.
Definition kDaysFromMarch1ToDecember31 : Z := 306.
Definition kYearsPerCycle : Z := 400.
Definition kDaysPerCycle : Z := 146097.
Definition kEpochOffsetDays : Z := 719468.

Definition IsLeapYear (year : Z) : bool :=
  (Z.rem year kLeapYearInterval =? 0) && (negb (Z.rem year kYearsPerCentury =? 0) || (Z.rem year kYearsPerCycle =? 0)).

Definition DaysToMarch1 (year : Z) : Z := if IsLeapYear year then 60 else 59.
Definition MarchBasedMonthToDayOfYear (month : Z) : Z := u16 (Z.quot (153 * month + 2) 5).
Definition MarchBasedDayOfYearToMonth (dayOfYear : Z) : Z := u8 (Z.quot (5 * dayOfYear + 2) 153).

Definition DaysInMonth (year month : Z) : Z :=
  if (month =? kFebruary) && IsLeapYear year then 29
  else if (kJanuary <=? month) && (month <=? kDecember) then arr [31; 28; 31; 30; 31; 30; 31; 31; 30; 31; 30; 31] (month - 1)
  else 0.

(** [year - 1] is an int, which is -1 for the year 0. *)
Definition FirstWeekdayOfYear (year : Z) : Z :=
  u8 (Z.rem (1 + 5 * Z.rem (year - 1) kLeapYearInterval + 4 * Z.rem (year - 1) kYearsPerCentury + 6 * Z.rem (year - 1) kYearsPerCycle) kDaysPerWeek).

(** The month and the day of the month. *)
Definition OrdinalDateToCalendarDate (year dayOfYear : Z) : Z * Z :=
  let daysToMarch1 := DaysToMarch1 year in
  let dayOfYear := u16 (dayOfYear - 1) in
  let dayOfYear := if dayOfYear <? daysToMarch1 then u16 (dayOfYear + kDaysFromMarch1ToDecember31) else u16 (dayOfYear - daysToMarch1) in
  let month := MarchBasedDayOfYearToMonth dayOfYear in
  let daysFromMarch1ToStartOfMonth := MarchBasedMonthToDayOfYear month in
  let dayOfMonth := u8 (dayOfYear - daysFromMarch1ToStartOfMonth + 1) in
  (u8 (month + (if month <? 10 then 3 else -9)), dayOfMonth).

Definition CalendarDateToOrdinalDate (year month dayOfMonth : Z) : Z :=
  let month := u8 (month + (if kFebruary <? month then -3 else 9)) in
  let dayOfYear := MarchBasedMonthToDayOfYear month in
  let dayOfYear := if dayOfYear <? kDaysFromMarch1ToDecember31 then u16 (dayOfYear + DaysToMarch1 year) else u16 (dayOfYear - kDaysFromMarch1ToDecember31) in
  u16 (dayOfYear + dayOfMonth).

(** The result and the value of [daysSinceEpoch]. *)
Definition CalendarDateToDaysSinceEpoch (year month dayOfMonth : Z) : bool * Z :=
  if (year <? kEpochYear) || (kMaxYearInDaysSinceEpoch32 <? year) then (false, UINT32_MAX)
  else
    let '(year, month) := if month <=? kFebruary then (u16 (year - 1), u8 (month + 9)) else (year, u8 (month - 3)) in
    let dayOfYear := u16 (MarchBasedMonthToDayOfYear month + (dayOfMonth - 1)) in
    let cycle := u16 (year / kYearsPerCycle) in
    let yearOfCycle := u32 (year - cycle * kYearsPerCycle) in
    let dayOfCycle := u32 (yearOfCycle * kDaysPerStandardYear + dayOfYear - yearOfCycle / kYearsPerCentury + yearOfCycle / kLeapYearInterval) in
    let daysSinceCalendarStart := u32 (cycle * kDaysPerCycle + dayOfCycle) in
    (true, u32 (daysSinceCalendarStart - kEpochOffsetDays)).

(** The year, the month and the day of the month. *)
Definition DaysSinceEpochToCalendarDate (daysSinceEpoch : Z) : Z * Z * Z :=
  let daysSinceEpoch := u32 (daysSinceEpoch + kEpochOffsetDays) in
  let cycle := daysSinceEpoch / kDaysPerCycle in
  let dayOfCycle := u32 (daysSinceEpoch - cycle * kDaysPerCycle) in
  let yearOfCycle := u16 (u32 (dayOfCycle - dayOfCycle / 1460 + dayOfCycle / 36524 - dayOfCycle / 146096) / kDaysPerStandardYear) in
  let dayOfYear := u16 (dayOfCycle - (yearOfCycle * kDaysPerStandardYear + yearOfCycle / kLeapYearInterval - yearOfCycle / kYearsPerCentury)) in
  let month := MarchBasedDayOfYearToMonth dayOfYear in
  let daysFromMarch1ToStartOfMonth := MarchBasedMonthToDayOfYear month in
  let dayOfMonth := u8 (dayOfYear - daysFromMarch1ToStartOfMonth + 1) in
  let month := u8 (month + (if month <? 10 then 3 else -9)) in
  let year := u16 (yearOfCycle + cycle * kYearsPerCycle) in
  (if month <=? kFebruary then u16 (year + 1) else year, month, dayOfMonth).

Definition AdjustCalendarDate (year month dayOfMonth relativeDays : Z) : Z * Z * Z :=
  let '(_, daysSinceEpoch) := CalendarDateToDaysSinceEpoch year month dayOfMonth in
  DaysSinceEpochToCalendarDate (u32 (daysSinceEpoch + relativeDays)).

Definition CalendarTimeToSecondsSinceEpoch (year month dayOfMonth hour minute second : Z) : bool * Z :=
  if (year <? kEpochYear) || (kMaxYearInSecondsSinceEpoch32 <? year) then (false, UINT32_MAX)
  else
    let '(_, daysSinceEpoch) := CalendarDateToDaysSinceEpoch year month dayOfMonth in
    (true, u32 (daysSinceEpoch * kSecondsPerDay + hour * kSecondsPerHour + minute * kSecondsPerMinute + second)).

Definition SecondsSinceEpochToCalendarTime (secondsSinceEpoch : Z) : Z * Z * Z * (Z * Z * Z) :=
  let daysSinceEpoch := secondsSinceEpoch / kSecondsPerDay in
  let timeOfDay := u32 (secondsSinceEpoch - daysSinceEpoch * kSecondsPerDay) in
  let date := DaysSinceEpochToCalendarDate daysSinceEpoch in
  let hour := u8 (timeOfDay / kSecondsPerHour) in
  let timeOfDay := u32 (timeOfDay - hour * kSecondsPerHour) in
  let minute := u8 (timeOfDay / kSecondsPerMinute) in
  let timeOfDay := u32 (timeOfDay - minute * kSecondsPerMinute) in
  (date, (hour, minute, u8 timeOfDay)).

(** ** The calendar *)

Definition leap (y : Z) : Z := if IsLeapYear y then 1 else 0.
Definition month_days (y m : Z) : Z := if m =? 2 then 28 + leap y else if (m =? 4) || (m =? 6) || (m =? 9) || (m =? 11) then 30 else 31.

(** The day after a date, and the date [n] days after 1 January 1970. *)
Definition next_day (date : Z * Z * Z) : Z * Z * Z :=
  let '(y, m, d) := date in
  if d <? month_days y m then (y, m, d + 1) else if m <? 12 then (y, m + 1, 1) else (y + 1, 1, 1).
Definition date_of (n : nat) : Z * Z * Z := Nat.iter n next_day (1970, 1, 1).

Definition valid_date (date : Z * Z * Z) : Prop :=
  let '(y, m, d) := date in 1970 <= y /\ 1 <= m <= 12 /\ 1 <= d <= month_days y m.

Lemma leap_arith y : 0 <= y -> leap y = y / 4 - (y - 1) / 4 - (y / 100 - (y - 1) / 100) + (y / 400 - (y - 1) / 400).
Proof.
  intros Hy. unfold leap, IsLeapYear, kLeapYearInterval, kYearsPerCentury, kYearsPerCycle. rewrite !Z.rem_mod_nonneg by lia.
  destruct (Z.eqb_spec (y mod 4) 0), (Z.eqb_spec (y mod 100) 0), (Z.eqb_spec (y mod 400) 0); cbn [andb orb negb]; Z.to_euclidean_division_equations; lia.
Qed.

Lemma leap_range y : 0 <= leap y <= 1.
Proof. unfold leap. destruct (IsLeapYear y); lia. Qed.

Lemma month_days_range y m : 28 <= month_days y m <= 31.
Proof. unfold month_days. pose proof (leap_range y). repeat case_match; lia. Qed.

Lemma DaysInMonth_spec y m : 1 <= m <= 12 -> DaysInMonth y m = month_days y m.
Proof.
  intros Hm. assert (m = 1 \/ m = 2 \/ m = 3 \/ m = 4 \/ m = 5 \/ m = 6 \/ m = 7 \/ m = 8 \/ m = 9 \/ m = 10 \/ m = 11 \/ m = 12) as Hc by lia.
  unfold DaysInMonth, month_days, leap. repeat destruct Hc as [->|Hc]; [..|subst m]; try done. cbn. by destruct (IsLeapYear y).
Qed.

(** Days from 1 March of the year 0 to 1 March of the year [Y]. *)
Definition march (Y : Z) : Z := 365 * Y + Y / 4 - Y / 100 + Y / 400.

Lemma march_next Y : 0 <= Y -> march (Y + 1) = march Y + 365 + leap (Y + 1).
Proof. intros HY. unfold march. rewrite leap_arith by lia. replace (Y + 1 - 1) with Y by lia. lia. Qed.

(** The year that starts in March, the month counted from March and the days of that
    year up to the date. *)
Definition march_year (y m : Z) : Z := if m <=? 2 then y - 1 else y.
Definition march_month (m : Z) : Z := if m <=? 2 then m + 9 else m - 3.
Definition march_day (m d : Z) : Z := (153 * march_month m + 2) / 5 + (d - 1).

Lemma march_year_range y m d : valid_date (y, m, d) -> y <= 28276 -> 1969 <= march_year y m <= 28276 /\ 0 <= march_month m <= 11 /\
  0 <= march_day m d /\ march_day m d <= 365 /\ march_day m d + 1 <= 365 + leap (march_year y m + 1).
Proof.
  intros (Hy & Hm & Hd) Hy2. pose proof (leap_range (y + 1)). pose proof (leap_range y).
  unfold march_day, march_year, march_month, month_days in *. destruct (Z.leb_spec m 2); [replace (y - 1 + 1) with y by lia|];
    destruct (Z.eqb_spec m 2), (Z.eqb_spec m 4), (Z.eqb_spec m 6), (Z.eqb_spec m 9), (Z.eqb_spec m 11); cbn [orb] in *; try lia; Z.to_euclidean_division_equations; lia.
Qed.

Definition day_number (date : Z * Z * Z) : Z := let '(y, m, d) := date in march (march_year y m) + march_day m d - 719468.

Lemma CalendarDate_day_number y m d : valid_date (y, m, d) -> y <= 28276 ->
  CalendarDateToDaysSinceEpoch y m d = (true, day_number (y, m, d)) /\ 0 <= day_number (y, m, d) < 4294967296.
Proof.
  intros HV Hy2. pose proof (march_year_range y m d HV Hy2) as (HY & HM & HD & HD2 & _). pose proof HV as (Hy & Hm & Hd). pose proof (month_days_range y m).
  unfold CalendarDateToDaysSinceEpoch, kEpochYear, kMaxYearInDaysSinceEpoch32, kFebruary. rewrite (proj2 (Z.ltb_ge y 1970)), (proj2 (Z.ltb_ge 28276 y)) by lia. cbn [orb].
  assert ((if m <=? 2 then (u16 (y - 1), u8 (m + 9)) else (y, u8 (m - 3))) = (march_year y m, march_month m)) as ->.
  { unfold march_year, march_month. destruct (Z.leb_spec m 2); rewrite ?u16_id, ?u8_id by lia; done. }
  unfold MarchBasedMonthToDayOfYear. rewrite Z.quot_div_nonneg by lia. set (Y := march_year y m) in *.
  unfold kYearsPerCycle, kDaysPerStandardYear, kYearsPerCentury, kLeapYearInterval, kDaysPerCycle, kEpochOffsetDays.
  assert (0 <= (153 * march_month m + 2) / 5 < 400) by (Z.to_euclidean_division_equations; lia).
  rewrite (u16_id ((153 * march_month m + 2) / 5)) by lia. change ((153 * march_month m + 2) / 5 + (d - 1)) with (march_day m d). rewrite (u16_id (march_day m d)) by lia.
  rewrite (u16_id (Y / 400)) by (Z.to_euclidean_division_equations; lia).
  assert (Y - Y / 400 * 400 = Y mod 400) as -> by (Z.to_euclidean_division_equations; lia).
  rewrite (u32_id (Y mod 400)) by (Z.to_euclidean_division_equations; lia).
  assert (Y mod 400 * 365 + march_day m d - Y mod 400 / 100 + Y mod 400 / 4 = march Y + march_day m d - 146097 * (Y / 400)) as ->
    by (unfold march; Z.to_euclidean_division_equations; lia).
  unfold day_number. fold Y. assert (719162 - 300 <= march Y < 14000000) by (unfold march; Z.to_euclidean_division_equations; lia).
  assert (0 <= march Y - 146097 * (Y / 400)) by (unfold march; Z.to_euclidean_division_equations; lia).
  assert (0 <= Y / 400) by (apply Z.div_pos; lia).
  rewrite (u32_id (march Y + march_day m d - 146097 * (Y / 400))) by lia.
  replace (Y / 400 * 146097 + (march Y + march_day m d - 146097 * (Y / 400))) with (march Y + march_day m d) by lia. rewrite (u32_id (march Y + march_day m d)) by lia.
  assert (719468 <= march Y + march_day m d).
  { unfold Y, march_day, march_year, march_month. destruct (Z.leb_spec m 2); unfold march; Z.to_euclidean_division_equations; lia. }
  rewrite u32_id by lia. split; [done|lia].
Qed.

Lemma next_day_number date : valid_date date -> valid_date (next_day date) /\ day_number (next_day date) = day_number date + 1.
Proof.
  destruct date as [[y m] d]. intros (Hy & Hm & Hd). unfold next_day. destruct (Z.ltb_spec d (month_days y m)).
  { split; [repeat split; lia|]. unfold day_number, march_day. lia. }
  assert (d = month_days y m) as -> by lia. destruct (Z.ltb_spec m 12).
  - pose proof (month_days_range y (m + 1)). split; [repeat split; lia|]. unfold day_number, march_day, march_year, march_month.
    assert (m = 2 \/ m <> 2) as [->|Hm2] by lia.
    + change (2 + 1 <=? 2) with false. change (2 <=? 2) with true. cbv iota. change (month_days y 2) with (28 + leap y).
      pose proof (march_next (y - 1) ltac:(lia)) as HN. replace (y - 1 + 1) with y in HN by lia. rewrite HN. Z.to_euclidean_division_equations; lia.
    + unfold month_days. destruct (Z.eqb_spec m 2), (Z.leb_spec m 2), (Z.leb_spec (m + 1) 2); try lia;
        destruct (Z.eqb_spec m 4), (Z.eqb_spec m 6), (Z.eqb_spec m 9), (Z.eqb_spec m 11); cbn [orb]; try lia; Z.to_euclidean_division_equations; lia.
  - assert (m = 12) as -> by lia. change (month_days y 12) with 31. split.
    + pose proof (month_days_range (y + 1) 1). unfold valid_date. lia.
    + unfold day_number, march_day, march_year, march_month. change (1 <=? 2) with true. change (12 <=? 2) with false. cbv iota.
      replace (y + 1 - 1) with y by lia. Z.to_euclidean_division_equations; lia.
Qed.

(** The year within a cycle, recovered from the day. *)
Definition year_of (t : Z) : Z := (t - t / 1460 + t / 36524 - t / 146096) / 365.

Lemma year_of_step t : 0 <= t -> year_of t <= year_of (t + 1).
Proof. intros Ht. apply Z.div_le_mono; [lia|]. Z.to_euclidean_division_equations; lia. Qed.

Lemma year_of_mono t t' : 0 <= t <= t' -> year_of t <= year_of t'.
Proof.
  intros [H0 Ht]. replace t' with (t + Z.of_nat (Z.to_nat (t' - t))) by lia. induction (Z.to_nat (t' - t)) as [|k IH]; [rewrite Z.add_0_r; lia|].
  etransitivity; [exact IH|]. replace (t + Z.of_nat (S k)) with (t + Z.of_nat k + 1) by lia. apply year_of_step. lia.
Qed.

Lemma year_of_ends : all_upto 400 (fun r => (year_of (march r) =? r) && (year_of (march r + 364 + leap (r + 1)) =? r) &&
  (0 <=? march r) && (march r + 364 + leap (r + 1) <? 146097)) = true.
Proof. vm_compute. reflexivity. Qed.

Lemma year_of_march r doy : 0 <= r < 400 -> 0 <= doy -> doy + 1 <= 365 + leap (r + 1) ->
  year_of (march r + doy) = r /\ 0 <= march r /\ march r + doy < 146097.
Proof.
  intros Hr H0 H1. pose proof (all_upto_spec _ _ year_of_ends r Hr) as HE. cbv beta in HE. bool_prop.
  pose proof (year_of_mono (march r) (march r + doy) ltac:(lia)). pose proof (year_of_mono (march r + doy) (march r + 364 + leap (r + 1)) ltac:(lia)). lia.
Qed.

Lemma leap_cycle y c : 0 <= y -> 0 <= c -> leap (y + 400 * c) = leap y.
Proof. intros Hy Hc. rewrite !leap_arith by lia. Z.to_euclidean_division_equations; lia. Qed.

Lemma march_cycle Y : 0 <= Y -> march Y = 146097 * (Y / 400) + march (Y mod 400).
Proof. intros HY. unfold march. Z.to_euclidean_division_equations; lia. Qed.

(** The month and its day, recovered from the day of the year that starts in March. *)
Lemma month_of_day y m d : 1 <= m <= 12 -> 1 <= d <= month_days y m ->
  (5 * march_day m d + 2) / 153 = march_month m /\ march_day m d - (153 * march_month m + 2) / 5 + 1 = d.
Proof.
  intros Hm Hd. pose proof (leap_range y). split; [|unfold march_day; lia]. unfold march_day, march_month, month_days in *.
  assert (m = 1 \/ m = 2 \/ m = 3 \/ m = 4 \/ m = 5 \/ m = 6 \/ m = 7 \/ m = 8 \/ m = 9 \/ m = 10 \/ m = 11 \/ m = 12) as Hc by lia.
  repeat destruct Hc as [->|Hc]; [..|subst m]; cbn in Hd |- *; Z.to_euclidean_division_equations; lia.
Qed.

Lemma DaysSinceEpoch_day_number y m d : valid_date (y, m, d) -> y <= 28276 -> DaysSinceEpochToCalendarDate (day_number (y, m, d)) = (y, m, d).
Proof.
  intros HV Hy2. pose proof (march_year_range y m d HV Hy2) as (HY & HM & HD & HD2 & HD3). pose proof HV as (Hy & Hm & Hd).
  destruct (CalendarDate_day_number y m d HV Hy2) as [_ HN]. destruct (month_of_day y m d Hm Hd) as [Hmo Hda].
  unfold DaysSinceEpochToCalendarDate, kEpochOffsetDays, kDaysPerCycle, kDaysPerStandardYear, kLeapYearInterval, kYearsPerCentury, kYearsPerCycle, kFebruary.
  unfold day_number in *. set (Y := march_year y m) in *. set (doy := march_day m d) in *. replace (march Y + doy - 719468 + 719468) with (march Y + doy) by lia.
  assert (0 <= Y mod 400 < 400) as Hr by (apply Z.mod_pos_bound; lia). assert (Y = 400 * (Y / 400) + Y mod 400) as HYr by (apply Z.div_mod; lia).
  assert (0 <= Y / 400 <= 70) as Hc by (Z.to_euclidean_division_equations; lia).
  assert (leap (Y + 1) = leap (Y mod 400 + 1)) as HL. { rewrite HYr at 1. replace (400 * (Y / 400) + Y mod 400 + 1) with (Y mod 400 + 1 + 400 * (Y / 400)) by lia. apply leap_cycle; lia. }
  destruct (year_of_march (Y mod 400) doy Hr HD ltac:(lia)) as (Hyo & Hm0 & Hm1).
  rewrite (march_cycle Y) in * by lia. set (r := Y mod 400) in *. set (c := Y / 400) in *. rewrite (u32_id (146097 * c + march r + doy)) by lia.
  replace (146097 * c + march r + doy) with ((march r + doy) + c * 146097) by lia. rewrite Z.div_add, (Z.div_small (march r + doy)) by lia. rewrite !Z.add_0_l.
  replace (march r + doy + c * 146097 - c * 146097) with (march r + doy) by lia. rewrite (u32_id (march r + doy)) by lia. set (t := march r + doy) in *.
  assert (0 <= t - t / 1460 + t / 36524 - t / 146096 < 4294967296) as Ht by (Z.to_euclidean_division_equations; lia).
  rewrite (u32_id (t - t / 1460 + t / 36524 - t / 146096)) by lia. fold (year_of t). rewrite Hyo, (u16_id r) by lia.
  assert (t - (r * 365 + r / 4 - r / 100) = doy) as -> by (unfold t, march; assert (r / 400 = 0) as -> by (apply Z.div_small; lia); lia).
  rewrite (u16_id doy) by lia. unfold MarchBasedDayOfYearToMonth, MarchBasedMonthToDayOfYear. rewrite Z.quot_div_nonneg, Hmo, (u8_id (march_month m)) by lia.
  rewrite Z.quot_div_nonneg by lia. assert (0 <= (153 * march_month m + 2) / 5 < 400) by (Z.to_euclidean_division_equations; lia).
  rewrite (u16_id ((153 * march_month m + 2) / 5)) by lia. rewrite Hda. pose proof (month_days_range y m). rewrite (u8_id d) by lia.
  assert (u8 (march_month m + (if march_month m <? 10 then 3 else -9)) = m) as ->
    by (destruct (Z.ltb_spec (march_month m) 10); unfold march_month in *; destruct (Z.leb_spec m 2); rewrite u8_id; lia).
  replace (r + c * 400) with Y by lia. rewrite (u16_id Y) by lia. unfold Y, march_year. destruct (Z.leb_spec m 2); [|done].
  replace (y - 1 + 1) with y by lia. by rewrite u16_id by lia.
Qed.

(** Counting from 1 January 1970. *)
Lemma date_of_S n : date_of (S n) = next_day (date_of n).
Proof. done. Qed.

Definition year (date : Z * Z * Z) : Z := fst (fst date).

Lemma date_of_number n : valid_date (date_of n) /\ day_number (date_of n) = Z.of_nat n.
Proof.
  induction n as [|n [HV HN]]; [split; [|done]; unfold valid_date; cbn; lia|]. rewrite date_of_S.
  destruct (next_day_number _ HV) as [HV' HN']. split; [done|]. rewrite HN', HN. lia.
Qed.

Lemma year_bound y m d k : valid_date (y, m, d) -> day_number (y, m, d) = k -> k <= 49710 -> y <= 2106.
Proof.
  intros (Hy & Hm & Hd) <-. pose proof (month_days_range y m). unfold day_number, march_day, march_month, march_year, march.
  destruct (Z.leb_spec m 2); Z.to_euclidean_division_equations; lia.
Qed.

(** The ordinal dates count the days of their year; the weekdays go on from
    Thursday, 1 January 1970. *)
Lemma Calendar_ordinal y m d : valid_date (y, m, d) -> y <= 28276 ->
  CalendarDateToOrdinalDate y m d = day_number (y, m, d) - day_number (y, 1, 1) + 1 /\
  OrdinalDateToCalendarDate y (CalendarDateToOrdinalDate y m d) = (m, d) /\
  FirstWeekdayOfYear y = (4 + day_number (y, 1, 1)) mod 7.
Proof.
  intros HV Hy2. pose proof HV as (Hy & Hm & Hd). pose proof (month_days_range y m). pose proof (leap_range y).
  destruct (march_year_range y m d HV Hy2) as (_ & HM & HD & HD2 & _). destruct (month_of_day y m d Hm Hd) as [Hmo Hda].
  pose proof (march_next (y - 1) ltac:(lia)) as HN. replace (y - 1 + 1) with y in HN by lia.
  assert (0 <= (153 * march_month m + 2) / 5 < 400) as Hmm by (Z.to_euclidean_division_equations; lia).
  assert (CalendarDateToOrdinalDate y m d = if m <=? 2 then march_day m d - 305 else march_day m d + 60 + leap y) as HO.
  { unfold CalendarDateToOrdinalDate, MarchBasedMonthToDayOfYear, kDaysFromMarch1ToDecember31, kFebruary, DaysToMarch1.
    assert (u8 (m + (if 2 <? m then -3 else 9)) = march_month m) as -> by (unfold march_month; destruct (Z.leb_spec m 2), (Z.ltb_spec 2 m); rewrite u8_id; lia).
    rewrite Z.quot_div_nonneg by lia. rewrite (u16_id ((153 * march_month m + 2) / 5)) by lia. unfold march_day, leap in *.
    destruct (Z.ltb_spec ((153 * march_month m + 2) / 5) 306), (Z.leb_spec m 2); [exfalso|..|exfalso]; unfold march_month in *; destruct (Z.leb_spec m 2); try lia;
      try (Z.to_euclidean_division_equations; lia).
    - destruct (IsLeapYear y); mlia.
    - mlia. }
  split; [|split].
  - rewrite HO. unfold day_number, march_day, march_year. destruct (Z.leb_spec m 2); change (1 <=? 2) with true; cbv iota;
      change (march_month 1) with 10; change ((153 * 10 + 2) / 5) with 306; lia.
  - rewrite HO. unfold OrdinalDateToCalendarDate, MarchBasedDayOfYearToMonth, MarchBasedMonthToDayOfYear, kDaysFromMarch1ToDecember31, DaysToMarch1.
    set (o := if m <=? 2 then _ else _). assert (0 < o < 400) as Ho by (unfold o, march_day, march_month in *; destruct (Z.leb_spec m 2); Z.to_euclidean_division_equations; lia).
    rewrite (u16_id (o - 1)) by lia.
    assert ((if o - 1 <? (if IsLeapYear y then 60 else 59) then u16 (o - 1 + 306) else u16 (o - 1 - (if IsLeapYear y then 60 else 59))) = march_day m d) as ->.
    { unfold o. destruct (Z.leb_spec m 2).
      - rewrite (proj2 (Z.ltb_lt _ _)); [rewrite u16_id; lia|]. unfold march_day, march_month, month_days, leap in *. destruct (Z.leb_spec m 2); [|lia].
        destruct (Z.eqb_spec m 2); [|destruct (IsLeapYear y); Z.to_euclidean_division_equations; lia]. destruct (IsLeapYear y); Z.to_euclidean_division_equations; lia.
      - unfold leap. destruct (IsLeapYear y); rewrite (proj2 (Z.ltb_ge _ _)) by lia; rewrite u16_id; lia. }
    rewrite Z.quot_div_nonneg, Hmo, (u8_id (march_month m)) by lia. rewrite Z.quot_div_nonneg by lia. rewrite (u16_id ((153 * march_month m + 2) / 5)) by lia.
    rewrite Hda, (u8_id d) by lia. f_equal. destruct (Z.ltb_spec (march_month m) 10); unfold march_month in *; destruct (Z.leb_spec m 2); rewrite u8_id; lia.
  - unfold FirstWeekdayOfYear, kLeapYearInterval, kYearsPerCentury, kYearsPerCycle, kDaysPerWeek. rewrite !Z.rem_mod_nonneg by (Z.to_euclidean_division_equations; lia).
    unfold day_number, march_day, march_year, march. change (1 <=? 2) with true. change (march_month 1) with 10. cbv iota.
    rewrite u8_id by (Z.to_euclidean_division_equations; lia). Z.to_euclidean_division_equations; lia.
Qed.

(** ** Properties *)

(** C18: the conversions count days.  Let the calendar be the one of the Gregorian rules
    for the lengths of months (DaysInMonth), counted day by day from 1 January 1970.
    For every n whose date is not after the year 28276, CalendarDateToDaysSinceEpoch
    takes the n-th date to n and DaysSinceEpochToCalendarDate takes n back to it, and
    the day after it has the number n + 1: no date is skipped, doubled or wrong by the
    code's 400-year, March-based formulas and their machine integers. *)
Theorem Calendar_counts_days n : year (date_of n) <= kMaxYearInDaysSinceEpoch32 ->
  let '(y, m, d) := date_of n in
  CalendarDateToDaysSinceEpoch y m d = (true, Z.of_nat n) /\ DaysSinceEpochToCalendarDate (Z.of_nat n) = (y, m, d) /\
  1 <= m <= 12 /\ 1 <= d <= DaysInMonth y m /\
  date_of (S n) = if d <? DaysInMonth y m then (y, m, d + 1) else if m <? kDecember then (y, m + 1, kJanuary) else (y + 1, kJanuary, kJanuary).
Proof.
  intros Hy. rewrite date_of_S. destruct (date_of_number n) as [HV HN]. destruct (date_of n) as [[y m] d]. unfold year, kMaxYearInDaysSinceEpoch32 in Hy. cbn in Hy.
  destruct (CalendarDate_day_number y m d HV Hy) as [-> _]. pose proof (DaysSinceEpoch_day_number y m d HV Hy) as HD. rewrite HN in HD |- *.
  destruct HV as (_ & Hm & Hd). rewrite HD, DaysInMonth_spec by done. done.
Qed.

Theorem Calendar_counts_days_witness : date_of 789 = (1972, 2, 29) /\ DaysSinceEpochToCalendarDate 789 = (1972, 2, 29).
Proof.
  assert (date_of 789 = (1972, 2, 29)) as E by (vm_compute; reflexivity). split; [exact E|].
  pose proof (Calendar_counts_days 789) as H. rewrite E in H. apply H. vm_compute. congruence.
Defined.

(** Times survive the conversion.  For every 32-bit number of seconds,
    SecondsSinceEpochToCalendarTime gives the date of that day and a time of day in
    range, and CalendarTimeToSecondsSinceEpoch takes them back to the same number up
    to the end of 2105; for the 37 days of 2106 that 32 bits still reach it fails. *)
Theorem CalendarTime_roundtrip s : 0 <= s < 4294967296 ->
  let '((y, m, d), (hour, minute, second)) := SecondsSinceEpochToCalendarTime s in
  date_of (Z.to_nat (s / kSecondsPerDay)) = (y, m, d) /\ 0 <= hour < 24 /\ 0 <= minute < 60 /\ 0 <= second < 60 /\ y <= 2106 /\
  CalendarTimeToSecondsSinceEpoch y m d hour minute second = if y <=? kMaxYearInSecondsSinceEpoch32 then (true, s) else (false, UINT32_MAX).
Proof.
  intros Hs. unfold SecondsSinceEpochToCalendarTime, kSecondsPerDay, kSecondsPerHour, kSecondsPerMinute.
  assert (0 <= s / 86400 <= 49710 /\ s / 86400 * 86400 <= s < s / 86400 * 86400 + 86400) as [Hq Hq2] by (Z.to_euclidean_division_equations; lia).
  destruct (date_of_number (Z.to_nat (s / 86400))) as [HV HN]. rewrite Z2Nat.id in HN by lia. destruct (date_of (Z.to_nat (s / 86400))) as [[y m] d] eqn:ED.
  pose proof (year_bound y m d _ HV HN ltac:(lia)) as Hy. pose proof (DaysSinceEpoch_day_number y m d HV ltac:(lia)) as HD. rewrite HN in HD. rewrite HD.
  set (t := s - s / 86400 * 86400). assert (0 <= t < 86400) as Ht by (unfold t; lia). rewrite (u32_id t) by lia.
  assert (0 <= t / 3600 < 24 /\ 0 <= t - t / 3600 * 3600 < 3600) as [H1 H2] by (Z.to_euclidean_division_equations; lia).
  rewrite (u8_id (t / 3600)) by lia. set (t2 := t - t / 3600 * 3600) in *. rewrite (u32_id t2) by lia.
  assert (0 <= t2 / 60 < 60 /\ 0 <= t2 - t2 / 60 * 60 < 60) as [H3 H4] by (Z.to_euclidean_division_equations; lia).
  rewrite (u8_id (t2 / 60)) by lia. rewrite (u32_id (t2 - t2 / 60 * 60)), (u8_id (t2 - t2 / 60 * 60)) by lia. do 5 (split; [done|]).
  unfold CalendarTimeToSecondsSinceEpoch, kEpochYear, kMaxYearInSecondsSinceEpoch32, kSecondsPerDay, kSecondsPerHour, kSecondsPerMinute.
  destruct HV as (Hy0 & HV). rewrite (proj2 (Z.ltb_ge y 1970)) by lia. cbn [orb]. rewrite Z.leb_antisym.
  destruct (Z.ltb_spec 2105 y); cbn [negb]; [done|]. destruct (CalendarDate_day_number y m d (conj Hy0 HV) ltac:(lia)) as [-> _]. rewrite HN. f_equal. rewrite u32_id; unfold t2, t; lia.
Qed.

Theorem CalendarTime_roundtrip_witness :
  SecondsSinceEpochToCalendarTime 1700000000 = ((2023, 11, 14), (22, 13, 20)) /\ CalendarTimeToSecondsSinceEpoch 2023 11 14 22 13 20 = (true, 1700000000).
Proof.
  assert (SecondsSinceEpochToCalendarTime 1700000000 = ((2023, 11, 14), (22, 13, 20))) as E by (vm_compute; reflexivity). split; [exact E|].
  pose proof (CalendarTime_roundtrip 1700000000 ltac:(lia)) as H. rewrite E in H. apply H.
Defined.
