(* ===== verification/Session.v ===== *)
(** * Message counters and replay detection (src/src/lib/core/WeaveFabricState.cpp,
      src/src/lib/support/WeaveCounter.cpp)

    [WeaveSessionState] points at the receive state of a session key or of a
    peer: the largest message id received and 15 flags for the ids just below it.
    IsDuplicateMessage is modelled with the integer conversions of the source;
    the contract it is compared with is the sliding window [window_step].  The
    application-group-key branch is compiled in (WEAVE_CONFIG_USE_APP_GROUP_KEYS_FOR_MSG_ENC). *)
From S2P Require Import Prelude KeyIds.
Local Open Scope weave_scope.

Definition kReceiveFlags_NumMessageIdFlags : Z := 15.
Definition kReceiveFlags_MessageIdSynchronized : Z := Z.shiftl 1 kReceiveFlags_NumMessageIdFlags.
(** [~kReceiveFlags_MessageIdSynchronized], an [int]. *)
Definition kReceiveFlags_MessageIdFlagsMask : Z := Z.lnot kReceiveFlags_MessageIdSynchronized.

(** The key id of the session's encryption key, [None] for a NULL MsgEncKey; the
    value of the monotonic counter NextMsgId points at; RcvFlags, [None] for NULL. *)
Record WeaveSessionState := mkSession {
  MsgEncKey : option Z;
  NextMsgId : Z;
  MaxMsgIdRcvd : Z;
  RcvFlags : option Z }.

Definition set_received (maxId flags : Z) (s : WeaveSessionState) : WeaveSessionState :=
  mkSession (MsgEncKey s) (NextMsgId s) maxId (Some flags).

(** MonotonicallyIncreasingCounter::Advance *)
Definition Counter_Advance (v : Z) : Z := u32 (v + 1).

Definition NewMessageId : M WeaveSessionState Z := fun s =>
  (Ok (NextMsgId s), mkSession (MsgEncKey s) (Counter_Advance (NextMsgId s)) (MaxMsgIdRcvd s) (RcvFlags s)).

Definition MessageIdNotSynchronized (s : WeaveSessionState) : bool :=
  match RcvFlags s with
  | None => true
  | Some f => (Z.land f kReceiveFlags_MessageIdSynchronized =? 0)
  end.

(** The assignments to [*RcvFlags] and [*MaxMsgIdRcvd] at the end of the window
    cases: [flags] is the old value of [*RcvFlags]. *)
Definition update_window (flags maxId msgIdFlags : Z) : M WeaveSessionState bool := fun s =>
  (Ok false, set_received maxId
     (u16 (Z.lor (Z.lor kReceiveFlags_MessageIdSynchronized msgIdFlags) (Z.land flags (Z.lnot kReceiveFlags_MessageIdFlagsMask)))) s).

Definition IsDuplicateMessage (msgId : Z) : M WeaveSessionState bool := fun s =>
  if MessageIdNotSynchronized s then
    match MsgEncKey s, RcvFlags s with
    | None, None => (Ok false, s)
    | k, f =>
      if (match k with Some keyId => IsAppGroupKey keyId | None => false end) then (Ok true, s)
      else match f with
        | None => (Undefined, s)
        | Some _ => (Ok false, set_received msgId kReceiveFlags_MessageIdSynchronized s)
        end
    end
  else
    match RcvFlags s with
    | None => (Undefined, s)
    | Some flags =>
      let msgIdFlags := u16 (Z.land flags kReceiveFlags_MessageIdFlagsMask) in
      let delta := s32 (u32 (msgId - MaxMsgIdRcvd s)) in
      if 0 <? delta then
        let msgIdFlags :=
          if delta <? kReceiveFlags_NumMessageIdFlags
          then u16 (Z.shiftl (Z.lor (Z.shiftl msgIdFlags 1) 1) (delta - 1))
          else 0 in
        update_window flags msgId msgIdFlags s
      else if delta =? 0 then (Ok true, s)
      else if delta =? -2147483648 then (Undefined, s)
      else
        let delta := - delta in
        if delta <=? kReceiveFlags_NumMessageIdFlags then
          let mask := u16 (Z.shiftl 1 (delta - 1)) in
          if Z.land msgIdFlags mask =? 0
          then update_window flags (MaxMsgIdRcvd s) (u16 (Z.lor msgIdFlags mask)) s
          else (Ok true, s)
        else
          match MsgEncKey s with
          | Some _ => (Ok true, s)
          | None => update_window flags msgId 0 s
          end
    end.

(** The verdicts on a sequence of messages ([true] for a duplicate). *)
Fixpoint receive (ids : list Z) (s : WeaveSessionState) : res (list bool) * WeaveSessionState :=
  match ids with
  | [] => (Ok [], s)
  | id :: ids =>
    match IsDuplicateMessage id s with
    | (Ok dup, s) =>
      match receive ids s with
      | (Ok dups, s) => (Ok (dup :: dups), s)
      | x => x
      end
    | (Err e, s) => (Err e, s)
    | (Undefined, s) => (Undefined, s)
    | (Diverges, s) => (Diverges, s)
    end
  end.

Definition session_key : Z := MakeSessionKeyId 1.
Definition fresh : WeaveSessionState := mkSession (Some session_key) 0 0 (Some 0).

Example receive_example : fst (receive [10; 12; 11; 11; 9; 10] fresh) = Ok [false; false; false; true; false; true].
Proof. reflexivity. Qed.

(** ** The sliding window *)

(** The contract for an encrypted session: [maxId] is the largest id accepted and
    [seen] the set of accepted ids; an id is accepted when it is larger, or when
    it is one of the 15 below [maxId] and was not accepted before. *)
Definition window_accepts (maxId : Z) (seen : Z -> bool) (id : Z) : bool :=
  (maxId <? id) || ((maxId - 15 <=? id) && (id <? maxId) && negb (seen id)).

Definition window_step (maxId : Z) (seen : Z -> bool) (id : Z) : Z * (Z -> bool) :=
  if window_accepts maxId seen id then (Z.max maxId id, fun x => (x =? id) || seen x) else (maxId, seen).

(** Ids are compared as 32-bit numbers: exact while they stay in one half. *)
Definition in_half (id : Z) : Prop := 0 <= id < 2147483648.

(** The session state and the window agree. *)
Definition agrees (s : WeaveSessionState) (maxId : Z) (seen : Z -> bool) : Prop :=
  (exists k, MsgEncKey s = Some k) /\ MaxMsgIdRcvd s = maxId /\ in_half maxId /\ seen maxId = true /\
  (forall x, maxId < x -> seen x = false) /\
  exists f, RcvFlags s = Some f /\ 32768 <= f < 65536 /\
    forall i, 0 <= i < 15 -> Z.testbit f i = seen (maxId - (i + 1)).

Lemma sync_bit f : 32768 <= f < 65536 -> (Z.land f kReceiveFlags_MessageIdSynchronized =? 0) = false.
Proof.
  intros Hf. apply Z.eqb_neq. intros E. apply (f_equal (fun x => Z.testbit x 15)) in E.
  rewrite Z.land_spec, Z.bits_0 in E. change (Z.testbit kReceiveFlags_MessageIdSynchronized 15) with true in E.
  rewrite andb_true_r in E.
  assert (Z.testbit f 15 = true) as Hb; [|congruence].
  apply Z.testbit_true; [lia|]. change (2 ^ 15) with 32768. mlia.
Qed.

Lemma s32_small x : -2147483648 <= x < 2147483648 -> s32 (u32 x) = x.
Proof. intros. mlia. Qed.

Lemma u16_low x i : 0 <= i < 16 -> Z.testbit (u16 x) i = Z.testbit x i.
Proof. intros Hi. unfold u16. change 65536 with (2 ^ 16). apply Z.mod_pow2_bits_low. lia. Qed.

Lemma low_flags f i : 0 <= f < 65536 -> 0 <= i < 15 ->
  Z.testbit (u16 (Z.land f kReceiveFlags_MessageIdFlagsMask)) i = Z.testbit f i.
Proof.
  intros Hf Hi. unfold u16. change 65536 with (2 ^ 16). rewrite Z.mod_pow2_bits_low by lia.
  rewrite Z.land_spec. unfold kReceiveFlags_MessageIdFlagsMask. rewrite Z.lnot_spec by lia.
  change kReceiveFlags_MessageIdSynchronized with (2 ^ 15). rewrite Z.pow2_bits_eqb by lia.
  destruct (Z.eqb_spec 15 i); [lia|]. apply andb_true_r.
Qed.

Lemma low_flags_high f i : 15 <= i -> Z.testbit (u16 (Z.land f kReceiveFlags_MessageIdFlagsMask)) i = false.
Proof.
  intros Hi. unfold u16. change 65536 with (2 ^ 16). destruct (Z.lt_ge_cases i 16).
  - assert (i = 15) as -> by lia. rewrite Z.mod_pow2_bits_low by lia. rewrite Z.land_spec.
    change (Z.testbit kReceiveFlags_MessageIdFlagsMask 15) with false. apply andb_false_r.
  - by rewrite Z.mod_pow2_bits_high by lia.
Qed.

(** The new value of the flags: the sync bit and the low bits of [w]. *)
Lemma updated_flags f w :
  let f' := u16 (Z.lor (Z.lor kReceiveFlags_MessageIdSynchronized w) (Z.land f (Z.lnot kReceiveFlags_MessageIdFlagsMask))) in
  32768 <= f' < 65536 /\ (forall i, 0 <= i < 15 -> Z.testbit f' i = Z.testbit w i).
Proof.
  intros f'.
  assert (forall i, 0 <= i < 16 -> Z.testbit f' i = (i =? 15) || Z.testbit w i) as Hb.
  { intros i Hi. unfold f', u16. change 65536 with (2 ^ 16). rewrite Z.mod_pow2_bits_low by lia.
    rewrite !Z.lor_spec, Z.land_spec. change kReceiveFlags_MessageIdSynchronized with (2 ^ 15).
    change (Z.lnot kReceiveFlags_MessageIdFlagsMask) with (2 ^ 15). rewrite Z.pow2_bits_eqb by lia.
    rewrite (Z.eqb_sym 15 i). by destruct (i =? 15), (Z.testbit w i), (Z.testbit f i). }
  split.
  - pose proof (u16_range (Z.lor (Z.lor kReceiveFlags_MessageIdSynchronized w) (Z.land f (Z.lnot kReceiveFlags_MessageIdFlagsMask)))) as Hr.
    fold f' in Hr. split; [|lia]. specialize (Hb 15 ltac:(lia)). rewrite Z.eqb_refl in Hb. cbn [orb] in Hb.
    apply Z.testbit_true in Hb; [|lia]. change (2 ^ 15) with 32768 in Hb. mlia.
  - intros i Hi. rewrite Hb by lia. by destruct (Z.eqb_spec i 15); [lia|].
Qed.

Lemma shifted_flags w d i : 0 < d < 15 -> 0 <= i < 15 -> (forall j, 15 <= j -> Z.testbit w j = false) ->
  Z.testbit (u16 (Z.shiftl (Z.lor (Z.shiftl w 1) 1) (d - 1))) i =
    if i <? d - 1 then false else if i =? d - 1 then true else Z.testbit w (i - d).
Proof.
  intros Hd Hi Hw. unfold u16. change 65536 with (2 ^ 16). rewrite Z.mod_pow2_bits_low by lia.
  destruct (Z.ltb_spec i (d - 1)); [by rewrite Z.shiftl_spec_low by lia|].
  rewrite Z.shiftl_spec, Z.lor_spec by lia.
  destruct (Z.eqb_spec i (d - 1)) as [->|].
  - rewrite Z.sub_diag. change (Z.testbit 1 0) with true. apply orb_true_r.
  - rewrite Z.shiftl_spec by lia. replace (i - (d - 1) - 1) with (i - d) by lia.
    change 1 with (2 ^ 0) at 1. rewrite (Z.pow2_bits_eqb 0) by lia. destruct (Z.eqb_spec 0 (i - (d - 1))); [lia|].
    apply orb_false_r.
Qed.

(** ** One message *)

Lemma agrees_update s maxId seen id w flags :
  (exists k, MsgEncKey s = Some k) -> in_half (Z.max maxId id) -> seen (Z.max maxId id) = true ->
  (forall x, Z.max maxId id < x -> seen x = false) ->
  (forall i, 0 <= i < 15 -> Z.testbit w i = seen (Z.max maxId id - (i + 1))) ->
  exists s', update_window flags (Z.max maxId id) w s = (Ok false, s') /\ agrees s' (Z.max maxId id) seen.
Proof.
  intros Hk Hh Hs Hx Hw. eexists. split; [reflexivity|]. destruct (updated_flags flags w) as [Hr Hb].
  split; [done|]. split; [done|]. split; [done|]. split; [done|]. split; [done|].
  eexists. split; [done|]. split; [done|]. intros i Hi. by rewrite Hb, Hw.
Qed.

Section Step.
Context (s : WeaveSessionState) (maxId id : Z) (seen : Z -> bool).
Context (Ha : agrees s maxId seen) (Hid : in_half id).
Abbreviation seen' := (fun x => (x =? id) || seen x).

Lemma step_newer : 0 < id - maxId -> id - maxId <> 15 ->
  exists s', IsDuplicateMessage id s = (Ok false, s') /\ agrees s' (Z.max maxId id) seen'.
Proof.
  intros Hd H15. destruct Ha as (Hk & Hm & Hh & Hs & Hx & f & Ef & Hf & Hb). unfold in_half in *.
  unfold IsDuplicateMessage, MessageIdNotSynchronized. rewrite Ef, sync_bit, Hm, s32_small by (done || lia).
  destruct (Z.ltb_spec 0 (id - maxId)); [|lia]. unfold kReceiveFlags_NumMessageIdFlags.
  set (w := if _ <? 15 then _ else _).
  destruct (agrees_update s maxId seen' id w f) as (s' & E & Hs'); auto; unfold in_half; try (rewrite Z.max_r by lia).
  - lia.
  - by rewrite Z.eqb_refl.
  - intros x Hxx. rewrite Hx by lia. destruct (Z.eqb_spec x id); [lia|done].
  - intros i Hi. unfold w. destruct (Z.ltb_spec (id - maxId) 15).
    + rewrite shifted_flags by (try lia; intros; apply low_flags_high; lia).
      destruct (Z.eqb_spec (id - (i + 1)) id); [lia|]. cbn [orb].
      destruct (Z.ltb_spec i (id - maxId - 1)); [by rewrite Hx by lia|].
      destruct (Z.eqb_spec i (id - maxId - 1)); [by replace (id - (i + 1)) with maxId by lia|].
      rewrite low_flags, Hb by lia. f_equal. lia.
    + rewrite Z.bits_0. destruct (Z.eqb_spec (id - (i + 1)) id); [lia|]. by rewrite Hx by lia.
  - exists s'. rewrite Z.max_r in E, Hs' by lia. by split.
Qed.

Lemma step_window : -15 <= id - maxId < 0 ->
  exists s', IsDuplicateMessage id s = (Ok (seen id), s') /\
    agrees s' maxId (if seen id then seen else seen').
Proof.
  intros Hd. pose proof Ha as (Hk & Hm & Hh & Hs & Hx & f & Ef & Hf & Hb). unfold in_half in *.
  unfold IsDuplicateMessage, MessageIdNotSynchronized. rewrite Ef, sync_bit, Hm, s32_small by (done || lia).
  destruct (Z.ltb_spec 0 (id - maxId)); [lia|]. destruct (Z.eqb_spec (id - maxId) 0); [lia|].
  destruct (Z.eqb_spec (id - maxId) (-2147483648)); [lia|]. unfold kReceiveFlags_NumMessageIdFlags.
  destruct (Z.leb_spec (- (id - maxId)) 15); [|lia]. set (i := - (id - maxId) - 1).
  assert (u16 (Z.shiftl 1 i) = 2 ^ i) as ->.
  { rewrite Z.shiftl_1_l. apply u16_id. split; [apply Z.pow_nonneg; lia|].
    change 65536 with (2 ^ 16). apply Z.pow_lt_mono_r; lia. }
  assert ((Z.land (u16 (Z.land f kReceiveFlags_MessageIdFlagsMask)) (2 ^ i) =? 0) = negb (seen id)) as ->.
  { assert (Hbit : Z.testbit (u16 (Z.land f kReceiveFlags_MessageIdFlagsMask)) i = seen id).
    { rewrite low_flags, Hb by lia. f_equal. lia. }
    rewrite <- Hbit. destruct (Z.testbit _ i) eqn:Eb; cbn [negb].
    - apply Z.eqb_neq. intros E. apply (f_equal (fun x => Z.testbit x i)) in E.
      rewrite Z.land_spec, Eb, Z.pow2_bits_true, Z.bits_0 in E by lia. done.
    - apply Z.eqb_eq, Z.bits_inj'. intros j Hj. rewrite Z.land_spec, Z.pow2_bits_eqb, Z.bits_0 by lia.
      destruct (Z.eqb_spec i j) as [<-|]; [by rewrite Eb|apply andb_false_r]. }
  destruct (seen id) eqn:Es; cbn [negb]; [by exists s|].
  set (w := u16 (Z.lor _ (2 ^ i))).
  destruct (agrees_update s maxId seen' id w f) as (s' & E & Hs'); auto; try (rewrite Z.max_l by lia).
  - done.
  - by rewrite Hs, orb_true_r.
  - intros x Hxx. rewrite Hx by lia. destruct (Z.eqb_spec x id); [lia|done].
  - intros j Hj. unfold w. rewrite u16_low, Z.lor_spec by lia.
    rewrite low_flags, Hb, Z.pow2_bits_eqb by lia. rewrite orb_comm. f_equal.
    destruct (Z.eqb_spec i j), (Z.eqb_spec (maxId - (j + 1)) id); (done || lia).
  - exists s'. rewrite Z.max_l in E, Hs' by lia. by split.
Qed.

Lemma step_old : id - maxId = 0 \/ id - maxId < -15 -> IsDuplicateMessage id s = (Ok true, s).
Proof.
  intros Hd. destruct Ha as ((k & Hk) & Hm & Hh & Hs & Hx & f & Ef & Hf & Hb). unfold in_half in *.
  unfold IsDuplicateMessage, MessageIdNotSynchronized. rewrite Ef, sync_bit, Hm, s32_small by (done || lia).
  destruct (Z.ltb_spec 0 (id - maxId)); [lia|]. destruct (Z.eqb_spec (id - maxId) 0); [done|].
  destruct (Z.eqb_spec (id - maxId) (-2147483648)); [lia|]. unfold kReceiveFlags_NumMessageIdFlags.
  destruct (Z.leb_spec (- (id - maxId)) 15); [lia|]. by rewrite Hk.
Qed.

Lemma agrees_step : id - maxId <> 15 ->
  exists s', IsDuplicateMessage id s = (Ok (negb (window_accepts maxId seen id)), s') /\
    agrees s' (fst (window_step maxId seen id)) (snd (window_step maxId seen id)).
Proof.
  intros H15. unfold window_step, window_accepts.
  destruct (Z.ltb_spec maxId id) as [Hn|Hn]; cbn [orb fst snd negb].
  { apply step_newer; lia. }
  destruct (Z.leb_spec (maxId - 15) id), (Z.ltb_spec id maxId); cbn [andb].
  - destruct (step_window ltac:(lia)) as (s' & E & Hs'). exists s'.
    destruct (seen id); cbn [negb fst snd] in *; [by split|]. rewrite Z.max_l by lia. by split.
  - exists s. rewrite step_old by lia. by split.
  - exists s. rewrite step_old by lia. by split.
  - exists s. rewrite step_old by lia. by split.
Qed.
End Step.

(** ** Sequences of messages *)

(** The verdicts of the window. *)
Fixpoint window_run (maxId : Z) (seen : Z -> bool) (ids : list Z) : list bool :=
  match ids with
  | [] => []
  | id :: ids =>
    negb (window_accepts maxId seen id) ::
    (let '(m, sn) := window_step maxId seen id in window_run m sn ids)
  end.

(** No message is exactly 15 ahead of the largest id before it. *)
Fixpoint no_jump15 (maxId : Z) (ids : list Z) : Prop :=
  match ids with
  | [] => True
  | id :: ids => id - maxId <> 15 /\ no_jump15 (Z.max maxId id) ids
  end.

Lemma window_max maxId seen id : fst (window_step maxId seen id) = Z.max maxId id.
Proof.
  unfold window_step, window_accepts. destruct (Z.ltb_spec maxId id); [done|].
  destruct (_ || _); simpl; lia.
Qed.

Lemma receive_agrees ids : forall s maxId seen,
  agrees s maxId seen -> Forall in_half ids -> no_jump15 maxId ids ->
  fst (receive ids s) = Ok (window_run maxId seen ids).
Proof.
  induction ids as [|id ids IH]; intros s maxId seen Ha Hf Hj; [done|].
  inversion_clear Hf as [|? ? Hid Hids]. destruct Hj as [H15 Hj].
  destruct (agrees_step s maxId id seen Ha Hid H15) as (s' & E & Hs'). cbn [receive window_run]. rewrite E.
  rewrite <- (window_max maxId seen id) in Hj. specialize (IH s' _ _ Hs' Hids Hj).
  destruct (window_step maxId seen id) as [m sn]. cbn [fst snd] in *.
  destruct (receive ids s') as [[] ?]; by simplify_eq/=.
Qed.

(** The ids with the verdict "no duplicate". *)
Fixpoint accepted (ids : list Z) (dups : list bool) : list Z :=
  match ids, dups with
  | id :: ids, dup :: dups => if dup then accepted ids dups else id :: accepted ids dups
  | _, _ => []
  end.

Lemma window_accepts_unseen maxId seen id : (forall x, maxId < x -> seen x = false) ->
  window_accepts maxId seen id = true -> seen id = false.
Proof.
  intros Hx H. unfold window_accepts in H. apply orb_prop in H as [H|H]; [apply Hx; by apply Z.ltb_lt|].
  bool_prop. done.
Qed.

Lemma window_seen_step maxId seen id : (forall x, maxId < x -> seen x = false) ->
  let '(m, sn) := window_step maxId seen id in
  (forall x, m < x -> sn x = false) /\ (forall x, seen x = true -> sn x = true).
Proof.
  intros Hx. unfold window_step. destruct (window_accepts maxId seen id); [|done].
  split.
  - intros x Hm. rewrite Hx by lia. destruct (Z.eqb_spec x id); [lia|done].
  - intros x ->. apply orb_true_r.
Qed.

Lemma accepted_window ids : forall maxId seen, (forall x, maxId < x -> seen x = false) ->
  NoDup (accepted ids (window_run maxId seen ids)) /\
  Forall (fun id => seen id = false) (accepted ids (window_run maxId seen ids)).
Proof.
  induction ids as [|id ids IH]; intros maxId seen Hx; [by repeat constructor|].
  cbn [window_run accepted]. pose proof (window_seen_step maxId seen id Hx) as Hst.
  destruct (window_accepts maxId seen id) eqn:Ea; unfold window_step in *; rewrite Ea in *; cbn [negb] in *.
  - destruct Hst as [Hx' Hmono]. destruct (IH _ _ Hx') as [Hnd Hall]. split.
    + constructor; [|done]. intros Hin%list_elem_of_In. rewrite Forall_forall in Hall. specialize (Hall id Hin). cbv beta in Hall.
      by rewrite Z.eqb_refl in Hall.
    + constructor; [by apply (window_accepts_unseen maxId)|]. revert Hall. apply Forall_impl.
      intros x Hxx. cbv beta in Hxx. apply orb_false_elim in Hxx. tauto.
  - by apply IH.
Qed.

Lemma agrees_first id k flags next old :
  in_half id -> IsAppGroupKey k = false -> Z.land flags kReceiveFlags_MessageIdSynchronized = 0 ->
  let s := mkSession (Some k) next old (Some flags) in
  exists s', IsDuplicateMessage id s = (Ok false, s') /\ agrees s' id (fun x => x =? id).
Proof.
  intros Hid Hk Hf s. unfold IsDuplicateMessage, MessageIdNotSynchronized. simpl. rewrite Hf, Hk. simpl.
  eexists. split; [done|]. split; [by eexists|]. split; [done|]. split; [done|]. split; [apply Z.eqb_refl|].
  split; [intros x Hx; apply Z.eqb_neq; lia|]. eexists. split; [done|].
  change kReceiveFlags_MessageIdSynchronized with 32768. split; [lia|]. intros i Hi.
  destruct (Z.eqb_spec (id - (i + 1)) id); [lia|]. change 32768 with (2 ^ 15). rewrite Z.pow2_bits_eqb by lia.
  destruct (Z.eqb_spec 15 i); [lia|done].
Qed.

(** An id accepted is refused when it comes again, for every encrypted session,
    whatever the state of its window. *)
Lemma duplicate_of_max id s k f : MsgEncKey s = Some k -> RcvFlags s = Some f -> 32768 <= f < 65536 -> MaxMsgIdRcvd s = id ->
  IsDuplicateMessage id s = (Ok true, s).
Proof.
  intros Hk Ef Hf Hm. unfold IsDuplicateMessage, MessageIdNotSynchronized. rewrite Ef, sync_bit, Hm, Z.sub_diag by done. done.
Qed.

Lemma land_pow2_bit x i : 0 <= i -> Z.testbit x i = true -> (Z.land x (2 ^ i) =? 0) = false.
Proof.
  intros Hi Eb. apply Z.eqb_neq. intros E. apply (f_equal (fun x => Z.testbit x i)) in E.
  by rewrite Z.land_spec, Eb, Z.pow2_bits_true, Z.bits_0 in E by lia.
Qed.

Lemma IsDuplicate_again id s s' k : MsgEncKey s = Some k ->
  IsDuplicateMessage id s = (Ok false, s') -> IsDuplicateMessage id s' = (Ok true, s').
Proof.
  intros Hk E. unfold IsDuplicateMessage in E. rewrite Hk in E.
  destruct (MessageIdNotSynchronized s) eqn:En.
  { destruct (IsAppGroupKey k); [done|]. destruct (RcvFlags s); [|done]. injection E as <-.
    by apply (duplicate_of_max id _ k 32768). }
  unfold MessageIdNotSynchronized in En. destruct (RcvFlags s) as [f|] eqn:Ef; [|done].
  destruct (Z.ltb_spec 0 (s32 (u32 (id - MaxMsgIdRcvd s)))) as [Hd|Hd].
  { unfold update_window in E. injection E as <-.
    match goal with |- IsDuplicateMessage id (set_received id (u16 (Z.lor (Z.lor _ ?w) _)) s) = _ => destruct (updated_flags f w) as [R _] end.
    by eapply duplicate_of_max. }
  destruct (Z.eqb_spec (s32 (u32 (id - MaxMsgIdRcvd s))) 0) as [|H0]; [done|].
  destruct (Z.eqb_spec (s32 (u32 (id - MaxMsgIdRcvd s))) (-2147483648)) as [|Hmin]; [done|].
  set (d := s32 (u32 (id - MaxMsgIdRcvd s))) in *. unfold kReceiveFlags_NumMessageIdFlags in E.
  destruct (Z.leb_spec (- d) 15) as [H15|H15]; [|done]. match type of E with (if ?b then _ else _) = _ => destruct b; [|done] end.
  set (i := - d - 1) in *. unfold update_window in E.
  assert (u16 (Z.shiftl 1 i) = 2 ^ i) as Hp.
  { rewrite Z.shiftl_1_l. apply u16_id. split; [apply Z.pow_nonneg; lia|].
    change 65536 with (2 ^ 16). apply Z.pow_lt_mono_r; lia. }
  rewrite Hp in E. set (w := u16 (Z.lor _ (2 ^ i))) in *. destruct (updated_flags f w) as [R Hbits]. cbv zeta in R, Hbits.
  set (f' := u16 (Z.lor (Z.lor kReceiveFlags_MessageIdSynchronized w) _)) in *. injection E as <-.
  unfold IsDuplicateMessage, MessageIdNotSynchronized. cbn [RcvFlags set_received MaxMsgIdRcvd MsgEncKey].
  rewrite sync_bit by done. fold d. rewrite (proj2 (Z.ltb_ge 0 d) Hd), (proj2 (Z.eqb_neq d 0) H0), (proj2 (Z.eqb_neq d (-2147483648)) Hmin).
  unfold kReceiveFlags_NumMessageIdFlags. rewrite (proj2 (Z.leb_le (- d) 15) H15). fold i. rewrite Hp, land_pow2_bit; [done|lia|].
  rewrite low_flags, Hbits by lia. unfold w. rewrite u16_low, Z.lor_spec, Z.pow2_bits_true by lia. apply orb_true_r.
Qed.

Lemma IsDuplicate_true id s s' : IsDuplicateMessage id s = (Ok true, s') -> s' = s.
Proof.
  unfold IsDuplicateMessage, update_window. intros E.
  repeat match type of E with
  | context [match ?x with _ => _ end] => destruct x; simplify_eq; try done
  end.
Qed.

(** Whatever the verdict was, the id is a duplicate from then on. *)
Lemma IsDuplicate_settles id s b s' k : MsgEncKey s = Some k ->
  IsDuplicateMessage id s = (Ok b, s') -> IsDuplicateMessage id s' = (Ok true, s').
Proof.
  intros Hk E. destruct b; [|by eapply IsDuplicate_again]. pose proof (IsDuplicate_true _ _ _ E) as ->. done.
Qed.

(** The members a receiver does not touch. *)
Lemma IsDuplicate_keeps id s r s' fl : IsDuplicateMessage id s = (r, s') -> RcvFlags s = Some fl ->
  MsgEncKey s' = MsgEncKey s /\ NextMsgId s' = NextMsgId s /\ exists fl', RcvFlags s' = Some fl'.
Proof.
  unfold IsDuplicateMessage, update_window. intros E Hf. rewrite Hf in E.
  repeat match type of E with
  | context [match ?x with _ => _ end] => destruct x eqn:?; simplify_eq
  end; (split; [done|]); (split; [done|]); eauto; by eexists.
Qed.

(** ** Properties *)

(** C5: an encrypted session implements a sliding window of 15 ids: after the
    first message, the verdict of IsDuplicateMessage on every message of a
    sequence is that of the window contract, and no id is accepted twice,
    provided the ids stay in one half of the 32-bit range and no message is
    exactly 15 ahead of the largest id before it. *)
Theorem Session_replay_window k next old flags id ids :
  IsAppGroupKey k = false -> Z.land flags kReceiveFlags_MessageIdSynchronized = 0 ->
  Forall in_half (id :: ids) -> no_jump15 id ids ->
  exists dups, fst (receive (id :: ids) (mkSession (Some k) next old (Some flags))) = Ok (false :: dups) /\
    dups = window_run id (fun x => x =? id) ids /\
    NoDup (accepted (id :: ids) (false :: dups)).
Proof.
  intros Hk Hf Hh Hj. inversion_clear Hh as [|? ? Hid Hids].
  destruct (agrees_first id k flags next old Hid Hk Hf) as (s' & E & Ha).
  pose proof (receive_agrees ids s' id _ Ha Hids Hj) as Hr.
  exists (window_run id (fun x => x =? id) ids). split; [|split; [done|]].
  - cbn [receive]. rewrite E. destruct (receive ids s') as [[] ?]; by simplify_eq/=.
  - destruct (accepted_window ids id (fun x => x =? id)) as [Hnd Hall].
    { intros x Hx. apply Z.eqb_neq. lia. }
    cbn [accepted]. constructor; [|done]. intros Hin%list_elem_of_In. rewrite Forall_forall in Hall. specialize (Hall id Hin).
    cbv beta in Hall. by rewrite Z.eqb_refl in Hall.
Qed.

Theorem Session_replay_window_witness :
  exists dups, fst (receive [10; 12; 11; 11; 9; 10; 40; 26] fresh) = Ok (false :: dups) /\
    NoDup (accepted [10; 12; 11; 11; 9; 10; 40; 26] (false :: dups)).
Proof.
  destruct (Session_replay_window session_key 0 0 0 10 [12; 11; 11; 9; 10; 40; 26]) as (dups & E & _ & H).
  - reflexivity.
  - reflexivity.
  - repeat constructor; lia.
  - cbn [no_jump15]. lia.
  - exists dups. split; assumption.
Defined.

(** The window forgets the largest id when a message is exactly 15 ahead of
    it: the test [delta < kReceiveFlags_NumMessageIdFlags] clears the flags there,
    although an id 15 below the new one is still in the window, so that the
    message with the old largest id is accepted a second time. *)
Theorem Session_replay_jump15 s maxId seen :
  agrees s maxId seen -> in_half (maxId + 15) ->
  fst (receive [maxId; maxId + 15; maxId] s) = Ok [true; false; false].
Proof.
  intros Ha Hh. cbn [receive].
  rewrite (step_old s maxId maxId seen Ha) by (destruct Ha as (_ & _ & ? & _); (done || lia)).
  destruct Ha as ((k & Hk) & Hm & Hhm & Hs & Hx & f & Ef & Hf & Hb). unfold in_half in *.
  unfold IsDuplicateMessage at 1, MessageIdNotSynchronized. rewrite Ef, sync_bit, Hm, s32_small by (done || lia).
  destruct (Z.ltb_spec 0 (maxId + 15 - maxId)); [|lia]. unfold kReceiveFlags_NumMessageIdFlags.
  destruct (Z.ltb_spec (maxId + 15 - maxId) 15); [lia|]. unfold update_window.
  destruct (updated_flags f 0) as [Hr Hz]. set (f' := u16 _) in *.
  unfold IsDuplicateMessage, MessageIdNotSynchronized. cbn [RcvFlags set_received MaxMsgIdRcvd].
  rewrite sync_bit, s32_small by (done || lia).
  destruct (Z.ltb_spec 0 (maxId - (maxId + 15))); [lia|]. destruct (Z.eqb_spec (maxId - (maxId + 15)) 0); [lia|].
  destruct (Z.eqb_spec (maxId - (maxId + 15)) (-2147483648)); [lia|]. unfold kReceiveFlags_NumMessageIdFlags.
  destruct (Z.leb_spec (- (maxId - (maxId + 15))) 15); [|lia].
  replace (- (maxId - (maxId + 15)) - 1) with 14 by lia. change (u16 (Z.shiftl 1 14)) with (2 ^ 14).
  assert ((Z.land (u16 (Z.land f' kReceiveFlags_MessageIdFlagsMask)) (2 ^ 14) =? 0) = true) as ->; [|done].
  apply Z.eqb_eq, Z.bits_inj'. intros j Hj. rewrite Z.land_spec, Z.pow2_bits_eqb, Z.bits_0 by lia.
  destruct (Z.eqb_spec 14 j) as [<-|]; [|apply andb_false_r].
  rewrite low_flags by lia. by rewrite Hz, Z.bits_0 by lia.
Qed.

Theorem Session_replay_jump15_witness :
  fst (receive [1000; 1015; 1000] (snd (IsDuplicateMessage 1000 fresh))) = Ok [true; false; false].
Proof.
  apply (Session_replay_jump15 _ 1000 (fun x => x =? 1000)); [|split; [discriminate|reflexivity]].
  split; [by eexists|]. split; [reflexivity|]. split; [split; [discriminate|reflexivity]|]. split; [reflexivity|].
  split; [intros x Hx; apply Z.eqb_neq; lia|]. exists 32768. split; [reflexivity|]. split; [lia|].
  intros i Hi. assert (In i [0;1;2;3;4;5;6;7;8;9;10;11;12;13;14]) as H by (simpl; lia).
  repeat (destruct H as [<-|H]; [reflexivity|]). destruct H.
Defined.
