(* ===== verification/Counter.v ===== *)
(** * Counters (src/src/lib/support/WeaveCounter.cpp, PersistedCounter.cpp)

    PersistedCounter keeps in persistent storage the value from which the next
    boot starts, one epoch ahead of the values in use.  The storage is platform
    code: the class [PersistedStorage] is what the counter relies on, and
    [map_storage] an instance. *)
From S2P Require Import Prelude.
From stdpp Require Import gmap strings.
Local Open Scope weave_scope.
Local Open Scope Z_scope.

(** ** The platform's persistent storage *)

Class PersistedStorage (St : Type) := {
  Read : string -> St -> res Z;
  Write : string -> Z -> St -> res unit * St }.

(** A value written can be read back until the key is written again. *)
Class PersistedStorageLaws (St : Type) `{PersistedStorage St} : Prop := {
  read_write : forall k v st st', Write k v st = (Ok tt, st') -> Read k st' = Ok v;
  read_write_fail : forall k v st e st', Write k v st = (Err e, st') -> Read k st' = Read k st }.

(** A storage whose writes succeed or fail as its second part says (and succeed
    once that is used up). *)
#[export] Instance map_storage : PersistedStorage (gmap string Z * list bool) := {
  Read k st := match st.1 !! k with Some v => Ok v | None => Err WEAVE_ERROR_PERSISTED_STORAGE_VALUE_NOT_FOUND end;
  Write k v st := match st.2 with
    | false :: l => (Err WEAVE_ERROR_PERSISTED_STORAGE_FAIL, (st.1, l))
    | l => (Ok tt, (<[k := v]> st.1, tail l))
    end }.

#[export] Instance map_storage_laws : PersistedStorageLaws (gmap string Z * list bool).
Proof.
  split.
  - intros k v [m [|[] l]] st' E; simpl in *; try done; injection E as <-; simpl; by rewrite lookup_insert_eq.
  - intros k v [m [|[] l]] e st' E; simpl in *; try done; by injection E as _ <-.
Qed.

Section Counter.
Context {St : Type} `{PersistedStorage St}.

(** The counter and the storage it works on. *)
Record PersistedCounter := mkCounter {
  mCounterValue : Z;
  mStartingCounterValue : Z;
  mEpoch : Z;
  mId : string;
  store : St }.

Definition set_counter (v start : Z) (c : PersistedCounter) : PersistedCounter :=
  mkCounter v start (mEpoch c) (mId c) (store c).

Definition WriteStartValue (aStartValue : Z) : M PersistedCounter unit := fun c =>
  let '(e, st) := Write (mId c) aStartValue (store c) in
  (e, mkCounter (mCounterValue c) (mStartingCounterValue c) (mEpoch c) (mId c) st).

(** ReadStartValue: a missing value is 0. *)
Definition ReadStartValue (c : PersistedCounter) : res Z :=
  match Read (mId c) (store c) with
  | Err WEAVE_ERROR_PERSISTED_STORAGE_VALUE_NOT_FOUND => Ok 0
  | x => x
  end.

(** Init(aId, aEpoch) *)
Definition Init (aId : string) (aEpoch : Z) : M PersistedCounter unit := fun c =>
  let c := mkCounter (mCounterValue c) (mStartingCounterValue c) (mEpoch c) aId (store c) in
  if negb (0 <? aEpoch) then (Err WEAVE_ERROR_INVALID_INTEGER_VALUE, c)
  else
    let c := mkCounter (mCounterValue c) (mStartingCounterValue c) aEpoch aId (store c) in
    match ReadStartValue c with
    | Ok start =>
      let c := mkCounter (mCounterValue c) start aEpoch aId (store c) in
      (do* WriteStartValue (u32 (start + aEpoch)) in
       modify (fun c => set_counter start (mStartingCounterValue c) c)) c
    | Err e => (Err e, mkCounter (mCounterValue c) 0 aEpoch aId (store c))
    | Undefined => (Undefined, c)
    | Diverges => (Diverges, c)
    end.

Definition GetValue (c : PersistedCounter) : Z := mCounterValue c.

(** GetNextValue(aValue): the new value and whether a new epoch starts. *)
Definition GetNextValue (aValue : Z) (c : PersistedCounter) : Z * bool :=
  let aValue := u32 (aValue + 1) in
  if mEpoch c <=? u32 (aValue - mStartingCounterValue c)
  then (u32 (mStartingCounterValue c + mEpoch c), true)
  else (aValue, false).

Definition IncrementCount : M PersistedCounter unit := fun c =>
  let '(v, startNewEpoch) := GetNextValue (mCounterValue c) c in
  let c := set_counter v (mStartingCounterValue c) c in
  if startNewEpoch then
    (do* WriteStartValue (u32 (mCounterValue c + mEpoch c)) in
     modify (fun c => set_counter (mCounterValue c) (mCounterValue c) c)) c
  else (Ok tt, c).

Definition Advance : M PersistedCounter unit := IncrementCount.

(** ** Running the counter *)

(** [n] calls of Advance, with the value after each. *)
Fixpoint advances (n : nat) : M PersistedCounter (list Z) :=
  match n with
  | O => ret []
  | S n => do* Advance in let* v := gets GetValue in let* vs := advances n in ret (v :: vs)
  end.

(** A boot: a new counter object over the storage, Init, then [n] advances. *)
Definition boot (id : string) (epoch : Z) (n : nat) (st : St) : res (list Z) * St :=
  let '(r, c) := (do* Init id epoch in let* v := gets GetValue in let* vs := advances n in ret (v :: vs))
                   (mkCounter 0 0 0 "" st) in
  (r, store c).

(** Boots one after the other. *)
Fixpoint boots (id : string) (l : list (Z * nat)) (st : St) : res (list Z) * St :=
  match l with
  | [] => (Ok [], st)
  | (epoch, n) :: l =>
    match boot id epoch n st with
    | (Ok vs, st) => match boots id l st with (Ok ws, st) => (Ok (vs ++ ws), st) | x => x end
    | x => x
    end
  end.

(** ** Values are fresh *)

(** Where the next boot would start. *)
Definition next_start (id : string) (st : St) : Z :=
  match Read id st with Ok v => v | _ => 0 end.

(** The counter is within its epoch and the storage holds the end of it. *)
Definition counter_inv (c : PersistedCounter) : Prop :=
  0 < mEpoch c /\ 0 <= mStartingCounterValue c /\
  mStartingCounterValue c <= mCounterValue c < mStartingCounterValue c + mEpoch c /\
  Read (mId c) (store c) = Ok (mStartingCounterValue c + mEpoch c) /\
  mStartingCounterValue c + mEpoch c < 4294967296.

(** The values of a list go up from [lo] and stay below [hi]. *)
Fixpoint increasing (lo : Z) (l : list Z) : Prop :=
  match l with [] => True | x :: l => lo < x /\ increasing x l end.

Lemma increasing_weaken lo lo' l : lo' <= lo -> increasing lo l -> increasing lo' l.
Proof. intros Hle. destruct l; simpl; [done|]. intros [??]. split; [lia|done]. Qed.

Lemma increasing_app lo l1 l2 mid : increasing lo l1 -> Forall (fun x => x <= mid) l1 -> lo <= mid ->
  increasing mid l2 -> increasing lo (l1 ++ l2).
Proof.
  revert lo. induction l1 as [|x l1 IH]; intros lo H1 H2 Hm H3; [by apply (increasing_weaken mid)|].
  destruct H1 as [Hx H1]. inversion_clear H2. split; [done|]. by apply IH.
Qed.

Context `{!PersistedStorageLaws St}.

Lemma Advance_ok c c' : counter_inv c -> Advance c = (Ok tt, c') ->
  mStartingCounterValue c + 2 * mEpoch c < 4294967296 ->
  counter_inv c' /\ mCounterValue c < mCounterValue c' /\ mEpoch c' = mEpoch c /\ mId c' = mId c /\
  mStartingCounterValue c' <= mStartingCounterValue c + mEpoch c.
Proof.
  intros (I1 & I2 & I3 & I4 & I5) E Hb. unfold Advance, IncrementCount, GetNextValue in E.
  rewrite (u32_id (mCounterValue c + 1)), (u32_id (mCounterValue c + 1 - mStartingCounterValue c)) in E by lia.
  destruct (Z.leb_spec (mEpoch c) (mCounterValue c + 1 - mStartingCounterValue c)).
  - apply bind_inv in E as ([] & c1 & E1 & E2). injection E2 as <-. unfold WriteStartValue in E1. simpl in E1.
    rewrite !u32_id in E1 by (rewrite ?u32_id; lia).
    destruct (Write _ _ _) as [e st] eqn:Ew. injection E1 as -> <-. apply read_write in Ew.
    unfold counter_inv. simpl. repeat split; auto; lia.
  - injection E as <-. unfold counter_inv. simpl. repeat split; auto; lia.
Qed.

Lemma advances_ok n : forall c vs c', counter_inv c -> advances n c = (Ok vs, c') ->
  mStartingCounterValue c + (Z.of_nat n + 1) * mEpoch c < 4294967296 ->
  counter_inv c' /\ increasing (mCounterValue c) vs /\ Forall (fun x => x <= mCounterValue c') vs /\
  mCounterValue c <= mCounterValue c' /\ mEpoch c' = mEpoch c /\ mId c' = mId c /\
  mStartingCounterValue c' <= mStartingCounterValue c + Z.of_nat n * mEpoch c.
Proof.
  induction n as [|n IH]; intros c vs c' Hi E Hb.
  { injection E as <- <-. split; [done|]. repeat split; try done; lia. }
  apply bind_inv in E as ([] & c1 & E1 & E). pose proof Hi as (I1 & I2 & _).
  destruct (Advance_ok c c1 Hi E1) as (Hi1 & Hv & He & Hid & Hs); [nia|].
  apply bind_inv in E as (v & c2 & [= <- <-] & E). apply bind_inv in E as (ws & c3 & E2 & [= <- <-]).
  destruct (IH c1 ws c3 Hi1 E2) as (A1 & A2 & A3 & A4 & A5 & A6 & A7); [rewrite He; nia|].
  rewrite He in *. unfold GetValue. split; [done|]. split; [by split|]. split; [by constructor|].
  repeat split; try congruence; nia.
Qed.

Lemma Init_ok id epoch c c' : Init id epoch c = (Ok tt, c') ->
  0 <= next_start id (store c) -> next_start id (store c) + epoch < 4294967296 ->
  counter_inv c' /\ mCounterValue c' = next_start id (store c) /\ mStartingCounterValue c' = next_start id (store c) /\
  mEpoch c' = epoch /\ mId c' = id.
Proof.
  intros E H0 Hb. unfold Init in E. destruct (Z.ltb_spec 0 epoch); [|done]. cbn [negb] in E.
  unfold ReadStartValue in E. simpl in E. unfold next_start in *.
  destruct (Read id (store c)) as [start|e| |] eqn:Er; try done.
  - apply bind_inv in E as ([] & c1 & E1 & E2). injection E2 as <-. unfold WriteStartValue in E1. simpl in E1.
    rewrite u32_id in E1 by lia. destruct (Write _ _ _) as [e st] eqn:Ew. injection E1 as -> <-. apply read_write in Ew.
    unfold counter_inv. simpl. repeat split; auto; lia.
  - destruct e; try done. apply bind_inv in E as ([] & c1 & E1 & E2). injection E2 as <-. unfold WriteStartValue in E1. simpl in E1.
    rewrite u32_id in E1 by lia. destruct (Write _ _ _) as [e st] eqn:Ew. injection E1 as -> <-. apply read_write in Ew.
    unfold counter_inv. simpl. repeat split; auto; lia.
Qed.

Lemma boot_ok id epoch n st vs st' : boot id epoch n st = (Ok vs, st') -> 0 <= next_start id st -> 0 < epoch ->
  next_start id st + (Z.of_nat n + 1) * epoch < 4294967296 ->
  increasing (next_start id st - 1) vs /\ Forall (fun x => x < next_start id st') vs /\
  next_start id st <= next_start id st' <= next_start id st + (Z.of_nat n + 1) * epoch.
Proof.
  intros E H0 He Hb. unfold boot in E.
  destruct ((do* Init id epoch in let* v := gets GetValue in let* vs := advances n in ret (v :: vs)) (mkCounter 0 0 0 "" st))
    as [r c] eqn:Er. injection E as -> <-.
  apply bind_inv in Er as ([] & c1 & E1 & E). destruct (Init_ok id epoch _ c1 E1) as (I & V & S1 & Ep & Id); simpl; [done|nia|].
  simpl in V, S1. apply bind_inv in E as (v & c2 & [= <- <-] & E). apply bind_inv in E as (ws & c3 & E2 & [= <- <-]).
  destruct (advances_ok n c1 ws c3 I E2) as ((J1 & J2 & J3 & J4 & J5) & A2 & A3 & A4 & A5 & A6 & A7); [rewrite S1, Ep; nia|].
  assert (N : next_start id (store c3) = mStartingCounterValue c3 + mEpoch c3) by (unfold next_start; by rewrite <- Id, <- A6, J4).
  rewrite N. unfold GetValue. rewrite V, S1, Ep, A5 in *.
  split; [split; [lia|done]|]. split; [|nia].
  constructor; [lia|]. apply (Forall_impl _ _ _ A3). intros x Hx. lia.
Qed.

(** The space the boots can use up. *)
Definition demand (l : list (Z * nat)) : Z := foldr (fun p d => (Z.of_nat (p.2) + 1) * p.1 + d) 0 l.

Lemma demand_nonneg l : Forall (fun p => 0 < p.1) l -> 0 <= demand l.
Proof. induction 1 as [|[e n] l He Hl IH]; simpl in *; [lia|nia]. Qed.

Lemma boots_increasing id l : forall st vs st', boots id l st = (Ok vs, st') ->
  Forall (fun p => 0 < p.1) l -> 0 <= next_start id st -> next_start id st + demand l < 4294967296 ->
  increasing (next_start id st - 1) vs.
Proof.
  induction l as [|[epoch n] l IH]; intros st vs st' E Hl H0 Hb; [by injection E as <- <-|].
  inversion_clear Hl as [|? ? He Hl']. pose proof (demand_nonneg l Hl'). simpl in He, Hb. cbn [boots] in E.
  destruct (boot id epoch n st) as [[vs1| | |] st1] eqn:E1; try done.
  destruct (boots id l st1) as [[ws| | |] st2] eqn:E2; try done. injection E as <- <-.
  destruct (boot_ok id epoch n st vs1 st1 E1 H0 He ltac:(lia)) as (A1 & A2 & A3).
  apply (increasing_app _ _ _ (next_start id st1 - 1)); [done| |lia|].
  - apply (Forall_impl _ _ _ A2). intros x Hx. lia.
  - apply (IH st1 ws st2 E2 Hl'); lia.
Qed.

(** A write that fails at the end of an epoch leaves the counter on a value the
    storage hands out again. *)
Lemma Advance_fail c e c' : counter_inv c -> Advance c = (Err e, c') ->
  mCounterValue c' = mStartingCounterValue c + mEpoch c /\ next_start (mId c) (store c') = mCounterValue c' /\
  mStartingCounterValue c' = mStartingCounterValue c.
Proof.
  intros (I1 & I2 & I3 & I4 & I5) E. unfold Advance, IncrementCount, GetNextValue in E.
  rewrite (u32_id (mCounterValue c + 1)), (u32_id (mCounterValue c + 1 - mStartingCounterValue c)) in E by lia.
  destruct (Z.leb_spec (mEpoch c) (mCounterValue c + 1 - mStartingCounterValue c)); [|done].
  unfold bind, WriteStartValue in E. simpl in E. rewrite (u32_id (mStartingCounterValue c + mEpoch c)) in E by lia.
  destruct (Write _ _ _) as [[]] eqn:Ew; try done. injection E as -> <-. simpl.
  apply read_write_fail in Ew. unfold next_start. by rewrite Ew, I4.
Qed.
End Counter.

Arguments PersistedCounter St : clear implicits.

(** ** Properties *)

(** C6: over any number of reboots, each followed by any number of advances, with
    every storage access succeeding, the values the counter hands out are
    strictly increasing: no value is used twice, however many of an epoch's
    values a crash leaves unused.  (The space of 32-bit values must suffice.) *)
Theorem PersistedCounter_never_repeats {St} `{PersistedStorageLaws St} id l (st st' : St) vs :
  boots id l st = (Ok vs, st') -> Forall (fun p => 0 < p.1) l -> 0 <= next_start id st ->
  next_start id st + demand l < 4294967296 ->
  increasing (next_start id st - 1) vs.
Proof. apply boots_increasing. Qed.

Theorem PersistedCounter_never_repeats_witness :
  let st := ((∅ : gmap string Z), @nil bool) in
  let l := [(3, 4%nat); (5, 0%nat); (2, 3%nat)] in
  fst (boots "counter" l st) = Ok [0; 1; 2; 3; 4; 6; 11; 12; 13; 14] /\
  increasing (next_start "counter" st - 1) [0; 1; 2; 3; 4; 6; 11; 12; 13; 14].
Proof.
  intros st l. split; [reflexivity|].
  apply (PersistedCounter_never_repeats "counter" l st (snd (boots "counter" l st))).
  - reflexivity.
  - repeat constructor.
  - discriminate.
  - reflexivity.
Defined.

(** when the write at the end of an epoch fails, Advance reports the error but
    has already moved the counter to the first value of the next epoch, which
    the storage does not cover: the next boot starts with that same value. *)
Theorem PersistedCounter_failed_write_repeats {St} `{PersistedStorageLaws St} (c c' c'' c0 : PersistedCounter St) e epoch :
  counter_inv c -> Advance c = (Err e, c') -> store c0 = store c' ->
  Init (mId c) epoch c0 = (Ok tt, c'') -> mStartingCounterValue c + mEpoch c + epoch < 4294967296 ->
  GetValue c < GetValue c' /\ GetValue c'' = GetValue c'.
Proof.
  intros Hi E Hst Ei Hb. destruct (Advance_fail c e c' Hi E) as (V & N & _). pose proof Hi as (I1 & I2 & I3 & _).
  destruct (Init_ok (mId c) epoch c0 c'' Ei) as (_ & V' & _); rewrite Hst, N, V in *; [lia|lia|].
  unfold GetValue. rewrite V, V'. lia.
Qed.

Theorem PersistedCounter_failed_write_repeats_witness :
  let c := snd (Init "counter" 1 (mkCounter 0 0 0 "" ((∅ : gmap string Z), [true; false]))) in
  let c' := snd (Advance c) in
  fst (Advance c) = Err WEAVE_ERROR_PERSISTED_STORAGE_FAIL /\
  GetValue c < GetValue c' /\ GetValue (snd (Init "counter" 1 (mkCounter 0 0 0 "" (store c')))) = GetValue c'.
Proof.
  set (c := snd (Init "counter" 1 (mkCounter 0 0 0 "" ((∅ : gmap string Z), [true; false])))).
  split; [reflexivity|].
  apply (PersistedCounter_failed_write_repeats c (snd (Advance c))
    (snd (Init "counter" 1 (mkCounter 0 0 0 "" (store (snd (Advance c))))))
    (mkCounter 0 0 0 "" (store (snd (Advance c)))) WEAVE_ERROR_PERSISTED_STORAGE_FAIL 1).
  - vm_compute. repeat split; congruence.
  - reflexivity.
  - reflexivity.
  - reflexivity.
  - reflexivity.
Defined.
