(* ===== verification/Crypto.v ===== *)
(** * Message cryptography (src/src/lib/support/crypto)

    Counter mode encryption (CTRMode.cpp), HMAC (HMAC.cpp), HKDF (HKDF.cpp) and
    the constant-time comparison (WeaveCrypto.cpp).  The block cipher and the
    hash are code of OpenSSL, mincrypt or the platform: the classes
    [BlockCipher] and [HashAlgo] hold their operations, [BlockCipherLaws] and
    [HashLaws] what their documentation says. *)
From S2P Require Import Prelude.

(** ** The primitives *)

(** AES128BlockCipherEnc and AES256BlockCipherEnc. *)
Class BlockCipher := {
  bc_state : Type;
  bc_new : bc_state;
  bc_SetKey : list Z -> bc_state -> bc_state;
  bc_EncryptBlock : bc_state -> list Z -> list Z;
  bc_Reset : bc_state -> bc_state }.

(** A keyed function from blocks to blocks. *)
Class BlockCipherLaws (B : BlockCipher) := {
  block_fn : list Z -> list Z -> list Z;
  bc_keyed : forall key s x, bc_EncryptBlock (bc_SetKey key s) x = block_fn key x;
  block_fn_length : forall key x, length (block_fn key x) = 16%nat;
  block_fn_bytes : forall key x, is_bytes (block_fn key x) }.

(** SHA1 and SHA256. *)
Class HashAlgo := {
  hash_state : Type;
  hash_new : hash_state;
  kHashLength : nat;
  kBlockLength : nat;
  hash_Begin : hash_state -> hash_state;
  hash_AddData : list Z -> hash_state -> hash_state;
  hash_Finish : hash_state -> list Z * hash_state;
  hash_Reset : hash_state -> hash_state }.

(** Finish gives the digest of what was added since Begin. *)
Class HashLaws (H : HashAlgo) := {
  digest : list Z -> list Z;
  fed : hash_state -> list Z -> Prop;
  fed_Begin : forall s, fed (hash_Begin s) [];
  fed_AddData : forall s m d, fed s m -> fed (hash_AddData d s) (m ++ d);
  fed_Finish : forall s m, fed s m -> fst (hash_Finish s) = digest m;
  digest_length : forall m, length (digest m) = kHashLength;
  digest_bytes : forall m, is_bytes (digest m);
  hash_lengths : (0 < kHashLength <= kBlockLength)%nat;
  hash_length_256 : (kHashLength <= 64)%nat }.

(** Functions to evaluate the model with: they mix their input, nothing more. *)
#[export] Instance toy_cipher : BlockCipher := {|
  bc_state := list Z;
  bc_new := [];
  bc_SetKey key _ := key;
  bc_EncryptBlock key x := map (fun i => u8 (nth i x 0 * 5 + nth i key 0 + foldr Z.add 0 x + Z.of_nat i)) (seq 0 16);
  bc_Reset _ := [] |}.

#[export] Instance toy_cipher_laws : BlockCipherLaws toy_cipher.
Proof.
  refine {| block_fn key x := map (fun i => u8 (nth i x 0 * 5 + nth i key 0 + foldr Z.add 0 x + Z.of_nat i)) (seq 0 16) |}.
  - done.
  - done.
  - intros key x. apply Forall_map, Forall_true. intros i. apply u8_range.
Defined.

Definition toy_digest (n : nat) (m : list Z) : list Z :=
  map (fun i => u8 (foldl (fun a b => a * 31 + b + Z.of_nat i) 7 m)) (seq 0 n).

Definition toy_hash (n b : nat) : HashAlgo := {|
  hash_state := list Z; hash_new := []; kHashLength := n; kBlockLength := b;
  hash_Begin _ := []; hash_AddData d m := m ++ d; hash_Finish m := (toy_digest n m, []); hash_Reset _ := [] |}.

Definition toy_hash_laws (n b : nat) : (0 < n <= b)%nat -> (n <= 64)%nat -> HashLaws (toy_hash n b).
Proof.
  intros Hn Hn'. refine (@Build_HashLaws (toy_hash n b) (toy_digest n) (fun s m => s = m) _ _ _ _ _ _ _); simpl; try done.
  - by intros s m d ->.
  - by intros s m ->.
  - intros m. unfold toy_digest. by rewrite length_map, length_seq.
  - intros m. apply Forall_map, Forall_true. intros i. apply u8_range.
Defined.

Definition toy_sha1 : HashAlgo := toy_hash 20 64.
Definition toy_sha1_laws : HashLaws toy_sha1 := toy_hash_laws 20 64 ltac:(lia) ltac:(lia).
#[export] Existing Instance toy_sha1_laws.

(** ** ConstantTimeCompare *)

Fixpoint compare_loop (c : Z) (buf1 buf2 : list Z) : Z :=
  match buf1, buf2 with
  | a :: buf1, b :: buf2 => compare_loop (u8 (Z.lor c (Z.lxor a b))) buf1 buf2
  | _, _ => c
  end.

(** ConstantTimeCompare(buf1, buf2, len), the buffers given as their first [len] bytes. *)
Definition ConstantTimeCompare (buf1 buf2 : list Z) : bool := compare_loop 0 buf1 buf2 =? 0.

Lemma lxor_byte a b : is_byte a -> is_byte b -> is_byte (Z.lxor a b).
Proof.
  intros Ha Hb. unfold is_byte in *. assert (0 <= Z.lxor a b) by (apply Z.lxor_nonneg; lia). split; [done|].
  assert (Z.lxor a b = 0 \/ 0 < Z.lxor a b) as [->|Hp] by lia; [lia|].
  change 256 with (2 ^ 8). apply Z.log2_lt_pow2; [done|]. pose proof (Z.log2_lxor a b ltac:(lia) ltac:(lia)) as L.
  assert (forall x, 0 <= x < 256 -> Z.log2 x < 8) as L8.
  { intros x Hx'. destruct (Z.eq_dec x 0) as [->|]; [done|]. apply Z.log2_lt_pow2; lia. }
  pose proof (L8 a Ha). pose proof (L8 b Hb). lia.
Qed.

Lemma compare_loop_zero buf1 : forall c buf2, is_byte c -> is_bytes buf1 -> is_bytes buf2 -> length buf1 = length buf2 ->
  compare_loop c buf1 buf2 = 0 <-> c = 0 /\ buf1 = buf2.
Proof.
  induction buf1 as [|a buf1 IH]; intros c [|b buf2] Hc H1 H2 Hl; simplify_eq/=; [split; [by intros ->|by intros [-> _]]|].
  inversion_clear H1 as [|? ? Ha H1']. inversion_clear H2 as [|? ? Hb H2']. unfold is_byte in *.
  pose proof (lxor_byte a b Ha Hb) as Hx. unfold is_byte in Hx.
  pose proof (lor_range c (Z.lxor a b) 8 ltac:(lia) Hc Hx) as R.
  rewrite u8_id by (apply R). rewrite IH; [|apply R|done|done|done].
  rewrite Z.lor_eq_0_iff, Z.lxor_eq_0_iff. split; [intros [[-> ->] ->]|intros [-> [= -> ->]]]; done.
Qed.

Lemma ConstantTimeCompare_spec buf1 buf2 : is_bytes buf1 -> is_bytes buf2 -> length buf1 = length buf2 ->
  ConstantTimeCompare buf1 buf2 = bool_decide (buf1 = buf2).
Proof.
  intros H1 H2 Hl. apply eq_bool_prop_intro. rewrite bool_decide_spec. unfold ConstantTimeCompare.
  rewrite Is_true_true, Z.eqb_eq, (compare_loop_zero buf1 0 buf2); [split; [by intros [_ ->]|by intros ->]|done|done|done|done].
Qed.

(** ** Counter mode *)

Section CTR.
Context {B : BlockCipher}.

Definition kCounterLength : nat := 16.

Record CTRMode := mkCTR {
  mBlockCipher : bc_state;
  Counter : list Z;
  mMsgIndex : Z;
  mEncryptedCounter : list Z }.

Definition CTRMode_SetKey (key : list Z) (c : CTRMode) : CTRMode :=
  mkCTR (bc_SetKey key (mBlockCipher c)) (Counter c) (mMsgIndex c) (mEncryptedCounter c).

Definition SetCounter (counter : list Z) (c : CTRMode) : CTRMode :=
  mkCTR (mBlockCipher c) (take kCounterLength counter) (mMsgIndex c) (mEncryptedCounter c).

Definition SetWeaveMessageCounter (sendingNodeId msgId : Z) (c : CTRMode) : CTRMode :=
  mkCTR (mBlockCipher c)
    [u8 (Z.shiftr sendingNodeId (7 * 8)); u8 (Z.shiftr sendingNodeId (6 * 8));
     u8 (Z.shiftr sendingNodeId (5 * 8)); u8 (Z.shiftr sendingNodeId (4 * 8));
     u8 (Z.shiftr sendingNodeId (3 * 8)); u8 (Z.shiftr sendingNodeId (2 * 8));
     u8 (Z.shiftr sendingNodeId (1 * 8)); u8 sendingNodeId;
     u8 (Z.shiftr msgId (3 * 8)); u8 (Z.shiftr msgId (2 * 8)); u8 (Z.shiftr msgId (1 * 8)); u8 msgId;
     0; 0; 0; 0]
    (mMsgIndex c) (mEncryptedCounter c).

(** [Counter[i]++] *)
Definition increment_byte (i : nat) (counter : list Z) : list Z := <[i := u8 (arr counter (Z.of_nat i) + 1)]> counter.

(** The carry through the last four bytes of the counter. *)
Definition increment_counter (counter : list Z) : list Z :=
  let counter := increment_byte (kCounterLength - 1) counter in
  if arr counter 15 =? 0 then
    let counter := increment_byte (kCounterLength - 2) counter in
    if arr counter 14 =? 0 then
      let counter := increment_byte (kCounterLength - 3) counter in
      if arr counter 13 =? 0 then increment_byte (kCounterLength - 4) counter
      else counter
    else counter
  else counter.

(** The loop of EncryptData: the bytes stored through [outData], with
    [encryptedCounterIndex]. *)
Fixpoint EncryptData_loop (inData : list Z) (encryptedCounterIndex : Z) (c : CTRMode) : list Z * CTRMode :=
  match inData with
  | [] => ([], c)
  | b :: inData =>
    if negb (mMsgIndex c <? UINT32_MAX) then ([], c)
    else
      let c := if encryptedCounterIndex =? 0
               then mkCTR (mBlockCipher c) (increment_counter (Counter c)) (mMsgIndex c)
                          (bc_EncryptBlock (mBlockCipher c) (Counter c))
               else c in
      let o := Z.lxor b (arr (mEncryptedCounter c) encryptedCounterIndex) in
      let i := encryptedCounterIndex + 1 in
      let i := if i =? Z.of_nat kCounterLength then 0 else i in
      let '(out, c) := EncryptData_loop inData i
                         (mkCTR (mBlockCipher c) (Counter c) (mMsgIndex c + 1) (mEncryptedCounter c)) in
      (o :: out, c)
  end.

(** EncryptData(inData, dataLen, outData): [dataLen] is a uint16_t, so that a call
    sees the length modulo 2^16; the uint16_t [dataIndex] stays below it and does
    not wrap.  [outData] is the content of the output buffer (the input itself
    when the caller works in place); the bytes past those stored keep it. *)
Definition EncryptData (inData : list Z) (dataLen : Z) (outData : list Z) (c : CTRMode) : list Z * CTRMode :=
  let dataLen := u16 dataLen in
  let '(out, c) := EncryptData_loop (take (Z.to_nat dataLen) inData) (mMsgIndex c mod Z.of_nat kCounterLength) c in
  (out ++ drop (length out) outData, c).

(** Calls of EncryptData one after the other, each on the whole of its input: all
    that they store. *)
Fixpoint EncryptData_calls (calls : list (list Z * list Z)) (c : CTRMode) : list Z * CTRMode :=
  match calls with
  | [] => ([], c)
  | (inData, outData) :: calls =>
    let '(out, c) := EncryptData inData (Z.of_nat (length inData)) outData c in
    let '(rest, c) := EncryptData_calls calls c in (out ++ rest, c)
  end.

Definition CTRMode_Reset (c : CTRMode) : CTRMode :=
  mkCTR (bc_Reset (mBlockCipher c)) (replicate kCounterLength 0) 0 (replicate kCounterLength 0).

(** The constructor: memset over the object. *)
Definition CTRMode_new : CTRMode := mkCTR bc_new (replicate 16 0) 0 (replicate 16 0).

(** *** The key stream *)

(** The counter block [n] steps after [counter]: its last four bytes are a
    big-endian 32-bit number. *)
Definition counter_low (counter : list Z) : Z :=
  arr counter 12 * 16777216 + arr counter 13 * 65536 + arr counter 14 * 256 + arr counter 15.
Definition counter_add (counter : list Z) (n : Z) : list Z :=
  let v := u32 (counter_low counter + n) in
  take 12 counter ++ [v / 16777216; v / 65536 mod 256; v / 256 mod 256; v mod 256].

Context {L : BlockCipherLaws B}.

(** Byte [n] of the stream for a key and a first counter block. *)
Definition stream_byte (key counter : list Z) (n : Z) : Z :=
  arr (block_fn key (counter_add counter (n / 16))) (n mod 16).

(** The data from position [n] of the stream on, combined with it. *)
Fixpoint xor_stream (key counter : list Z) (n : Z) (data : list Z) : list Z :=
  match data with
  | [] => []
  | b :: data => Z.lxor b (stream_byte key counter n) :: xor_stream key counter (n + 1) data
  end.

Lemma EncryptData_loop_length data : forall i c, (length (EncryptData_loop data i c).1 <= length data)%nat.
Proof.
  induction data as [|b data IH]; intros i c; [done|]. cbn [EncryptData_loop].
  destruct (negb _); [cbn; lia|]. set (i' := if _ =? Z.of_nat kCounterLength then _ else _). set (c' := mkCTR _ _ _ _).
  specialize (IH i' c'). destruct (EncryptData_loop data i' c') as [out c'']. cbn in IH |- *. lia.
Qed.

(** In place, a call keeps the length of the buffer. *)
Lemma EncryptData_length data dataLen c : length (EncryptData data dataLen data c).1 = length data.
Proof.
  unfold EncryptData. set (d := take _ data). pose proof (EncryptData_loop_length d (mMsgIndex c mod Z.of_nat kCounterLength) c) as H.
  destruct (EncryptData_loop d _ c) as [out c']. cbn [fst] in *. rewrite length_app, length_drop.
  assert (length d <= length data)%nat by (unfold d; rewrite length_take; lia). lia.
Qed.

Lemma xor_stream_length key counter data : forall n, length (xor_stream key counter n data) = length data.
Proof. induction data as [|b data IH]; intros n; simpl; [done|]. by rewrite IH. Qed.

Lemma xor_stream_app key counter d1 d2 : forall n,
  xor_stream key counter n (d1 ++ d2) = xor_stream key counter n d1 ++ xor_stream key counter (n + Z.of_nat (length d1)) d2.
Proof.
  induction d1 as [|b d1 IH]; intros n; [cbn [length app xor_stream]; by rewrite Z.add_0_r|]. cbn [xor_stream length app]. rewrite IH.
  do 3 f_equal. lia.
Qed.

Lemma xor_stream_twice key counter data : forall n, xor_stream key counter n (xor_stream key counter n data) = data.
Proof.
  induction data as [|b data IH]; intros n; [done|]. cbn [xor_stream].
  by rewrite IH, Z.lxor_assoc, Z.lxor_nilpotent, Z.lxor_0_r.
Qed.

Lemma stream_byte_byte key counter n : 0 <= n -> is_byte (stream_byte key counter n).
Proof.
  intros Hn. unfold stream_byte. pose proof (block_fn_length key (counter_add counter (n / 16))) as L1.
  pose proof (block_fn_bytes key (counter_add counter (n / 16))) as L2. unfold arr.
  rewrite Forall_forall in L2. apply L2, nth_In. rewrite L1. mlia.
Qed.

Lemma xor_stream_bytes key counter data : is_bytes data -> forall n, 0 <= n -> is_bytes (xor_stream key counter n data).
Proof.
  induction 1 as [|b data Hb Hd IH]; intros n Hn; [constructor|]. cbn [xor_stream].
  constructor; [apply lxor_byte; [done|by apply stream_byte_byte]|apply IH; lia].
Qed.

Lemma counter_split (counter : list Z) : length counter = 16%nat ->
  exists (p : list Z) a b c d, counter = p ++ [a; b; c; d] /\ length p = 12%nat.
Proof.
  intros Hl. exists (take 12 counter).
  assert (length (drop 12 counter) = 4%nat) as Hd by (rewrite length_drop; lia).
  destruct (drop 12 counter) as [|a [|b [|c [|d [|]]]]] eqn:E; try done.
  exists a, b, c, d. split; [by rewrite <- E, take_drop|]. rewrite length_take. lia.
Qed.

Lemma arr_app_r (p l : list Z) i : (length p <= i)%nat -> arr (p ++ l) (Z.of_nat i) = arr l (Z.of_nat (i - length p)).
Proof. intros Hi. unfold arr. rewrite !Nat2Z.id. by rewrite app_nth2 by lia. Qed.

Lemma increment_byte_app (p l : list Z) i : (length p <= i)%nat ->
  increment_byte i (p ++ l) = p ++ increment_byte (i - length p) l.
Proof. intros Hi. unfold increment_byte. by rewrite insert_app_r_alt, arr_app_r by lia. Qed.

Lemma counter_low_app p a b c d : length p = 12%nat ->
  counter_low (p ++ [a; b; c; d]) = a * 16777216 + b * 65536 + c * 256 + d.
Proof.
  intros Hp. unfold counter_low.
  rewrite (arr_app_r p _ 12), (arr_app_r p _ 13), (arr_app_r p _ 14), (arr_app_r p _ 15) by lia. by rewrite Hp.
Qed.

Lemma counter_add_app p a b c d n : length p = 12%nat ->
  counter_add (p ++ [a; b; c; d]) n =
  let v := u32 (a * 16777216 + b * 65536 + c * 256 + d + n) in
  p ++ [v / 16777216; v / 65536 mod 256; v / 256 mod 256; v mod 256].
Proof. intros Hp. unfold counter_add. rewrite counter_low_app by done. by rewrite <- Hp, take_app_length. Qed.


Lemma increment_counter_add (counter : list Z) : length counter = 16%nat -> is_bytes counter ->
  increment_counter counter = counter_add counter 1.
Proof.
  intros Hl Hb. destruct (counter_split counter Hl) as (p & a & b & c & d & -> & Hp).
  apply Forall_app in Hb as [_ Hb].
  inversion_clear Hb as [|? ? Ha Hb0]. inversion_clear Hb0 as [|? ? Hb Hb1]. inversion_clear Hb1 as [|? ? Hc Hb2].
  inversion_clear Hb2 as [|? ? Hd _]. unfold is_byte in *.
  rewrite counter_add_app by done. unfold increment_counter, kCounterLength. cbn [Nat.sub].
  assert (forall l i, (12 <= i)%nat -> arr (p ++ l) (Z.of_nat i) = arr l (Z.of_nat (i - 12))) as HA by (intros; rewrite <- Hp; apply arr_app_r; lia).
  assert (forall l i, (12 <= i)%nat -> increment_byte i (p ++ l) = p ++ increment_byte (i - 12) l) as HI by (intros; rewrite <- Hp; apply increment_byte_app; lia).
  rewrite !HI by lia. rewrite (HA _ 15%nat), (HA _ 14%nat), (HA _ 13%nat) by lia. clear HA HI Hl.
  change (increment_byte (15 - 12) [a; b; c; d]) with [a; b; c; u8 (d + 1)].
  change (increment_byte (14 - 12) [a; b; c; u8 (d + 1)]) with [a; b; u8 (c + 1); u8 (d + 1)].
  change (increment_byte (13 - 12) [a; b; u8 (c + 1); u8 (d + 1)]) with [a; u8 (b + 1); u8 (c + 1); u8 (d + 1)].
  change (increment_byte (12 - 12) [a; u8 (b + 1); u8 (c + 1); u8 (d + 1)]) with [u8 (a + 1); u8 (b + 1); u8 (c + 1); u8 (d + 1)].
  change (arr [a; b; c; u8 (d + 1)] (Z.of_nat (15 - 12))) with (u8 (d + 1)).
  change (arr [a; b; u8 (c + 1); u8 (d + 1)] (Z.of_nat (14 - 12))) with (u8 (c + 1)).
  change (arr [a; u8 (b + 1); u8 (c + 1); u8 (d + 1)] (Z.of_nat (13 - 12))) with (u8 (b + 1)).
  destruct (Z.eqb_spec (u8 (d + 1)) 0), (Z.eqb_spec (u8 (c + 1)) 0), (Z.eqb_spec (u8 (b + 1)) 0);
    f_equal; repeat f_equal; mlia.
Qed.

Lemma counter_add_length (counter : list Z) n : length counter = 16%nat -> length (counter_add counter n) = 16%nat.
Proof. intros Hl. unfold counter_add. rewrite length_app, length_take, Hl. done. Qed.

Lemma counter_add_bytes (counter : list Z) n : is_bytes counter -> is_bytes (counter_add counter n).
Proof.
  intros Hb. unfold counter_add. apply Forall_app. split; [by apply Forall_take|].
  pose proof (u32_range (counter_low counter + n)) as R. repeat constructor; unfold is_byte; mlia.
Qed.

Lemma counter_add_add (counter : list Z) n m : length counter = 16%nat ->
  counter_add (counter_add counter n) m = counter_add counter (n + m).
Proof.
  intros Hl. destruct (counter_split counter Hl) as (p & a & b & c & d & -> & Hp).
  rewrite !(counter_add_app p a b c d) by done. cbv zeta. rewrite counter_add_app by done. cbv zeta.
  match goal with |- p ++ [u32 ?x / _; _; _; _] = p ++ [u32 ?y / _; _; _; _] => assert (u32 x = u32 y) as -> by mlia end.
  done.
Qed.

Lemma counter_add_0 (counter : list Z) : length counter = 16%nat -> is_bytes counter -> counter_add counter 0 = counter.
Proof.
  intros Hl Hb. destruct (counter_split counter Hl) as (p & a & b & c & d & -> & Hp).
  apply Forall_app in Hb as [_ Hb].
  inversion_clear Hb as [|? ? Ha Hb0]. inversion_clear Hb0 as [|? ? Hb Hb1]. inversion_clear Hb1 as [|? ? Hc Hb2].
  inversion_clear Hb2 as [|? ? Hd _]. unfold is_byte in *.
  rewrite counter_add_app by done. cbv zeta. rewrite u32_id by lia. f_equal. repeat f_equal; mlia.
Qed.

(** Counter mode standing at position [n] of the stream. *)
Definition ctr_at (key counter : list Z) (n : Z) (c : CTRMode) : Prop :=
  (forall x, bc_EncryptBlock (mBlockCipher c) x = block_fn key x) /\
  mMsgIndex c = n /\ Counter c = counter_add counter ((n + 15) / 16) /\
  (n mod 16 <> 0 -> mEncryptedCounter c = block_fn key (counter_add counter (n / 16))).

Lemma ctr_step key counter n c b data : length counter = 16%nat -> is_bytes counter ->
  ctr_at key counter n c -> 0 <= n < UINT32_MAX ->
  exists c', ctr_at key counter (n + 1) c' /\
    EncryptData_loop (b :: data) (n mod 16) c =
      let '(out, c'') := EncryptData_loop data ((n + 1) mod 16) c' in (Z.lxor b (stream_byte key counter n) :: out, c'').
Proof.
  intros Hl Hb (HE & Hn & HC & Hk) Hr. unfold UINT32_MAX in Hr. cbn [EncryptData_loop].
  rewrite Hn. replace (n <? UINT32_MAX) with true by (symmetry; apply Z.ltb_lt; unfold UINT32_MAX; lia). cbn [negb].
  change (Z.of_nat kCounterLength) with 16.
  assert ((if n mod 16 + 1 =? 16 then 0 else n mod 16 + 1) = (n + 1) mod 16) as ->
    by (destruct (Z.eqb_spec (n mod 16 + 1) 16); mlia).
  destruct (Z.eqb_spec (n mod 16) 0) as [E|E]; cbn [mBlockCipher Counter mMsgIndex mEncryptedCounter].
  - eexists. split; cycle 1.
    { rewrite HE, HC. unfold stream_byte. replace ((n + 15) / 16) with (n / 16) by mlia. reflexivity. }
    split; [done|]. cbn [mMsgIndex Counter mEncryptedCounter]. rewrite ?Hn, ?HE.
    split; [done|]. split; [|intros _; by replace ((n + 1) / 16) with (n / 16) by mlia].
    rewrite increment_counter_add by (by apply counter_add_length || by apply counter_add_bytes).
    rewrite counter_add_add by done. f_equal. mlia.
  - eexists. split; cycle 1.
    { unfold stream_byte. rewrite (Hk E). reflexivity. }
    split; [done|]. cbn [mMsgIndex Counter mEncryptedCounter]. rewrite ?Hn, HC.
    split; [done|]. split; [f_equal; mlia|]. intros E'. rewrite ?(Hk E). do 2 f_equal. mlia.
Qed.

Lemma ctr_loop key counter data : length counter = 16%nat -> is_bytes counter -> forall n c,
  ctr_at key counter n c -> 0 <= n -> n + Z.of_nat (length data) <= UINT32_MAX ->
  exists c', EncryptData_loop data (n mod 16) c = (xor_stream key counter n data, c') /\
    ctr_at key counter (n + Z.of_nat (length data)) c'.
Proof.
  intros Hl Hb. induction data as [|b data IH]; intros n c Hc H0 Hn.
  { exists c. split; [done|]. by rewrite Z.add_0_r. }
  cbn [length] in Hn |- *. unfold UINT32_MAX in *.
  destruct (ctr_step key counter n c b data Hl Hb Hc) as (c1 & H1 & E1); [unfold UINT32_MAX; lia|].
  destruct (IH (n + 1) c1 H1) as (c2 & E2 & H2); [lia|lia|].
  exists c2. rewrite E1, E2. split; [done|]. by replace (n + Z.of_nat (S (length data))) with (n + 1 + Z.of_nat (length data)) by lia.
Qed.

(** A call for [dataLen] bytes: those of its length modulo 2^16 are encrypted. *)
Lemma EncryptData_stream_u16 key counter n c data dataLen old : length counter = 16%nat -> is_bytes counter ->
  ctr_at key counter n c -> 0 <= n -> n + u16 dataLen <= UINT32_MAX -> (Z.to_nat (u16 dataLen) <= length data)%nat ->
  exists c', EncryptData data dataLen old c =
      (xor_stream key counter n (take (Z.to_nat (u16 dataLen)) data) ++ drop (Z.to_nat (u16 dataLen)) old, c') /\
    ctr_at key counter (n + u16 dataLen) c'.
Proof.
  intros Hl Hb Hc H0 Hn Ho. pose proof (u16_range dataLen) as R.
  assert (length (take (Z.to_nat (u16 dataLen)) data) = Z.to_nat (u16 dataLen)) as HT by (rewrite length_take; lia).
  destruct (ctr_loop key counter (take (Z.to_nat (u16 dataLen)) data) Hl Hb n c Hc H0) as (c' & E & H'); [rewrite HT; lia|].
  exists c'. unfold EncryptData. pose proof Hc as (_ & -> & _). change (Z.of_nat kCounterLength) with 16. rewrite E.
  rewrite xor_stream_length, HT. split; [done|]. rewrite HT in H'. by rewrite Z2Nat.id in H' by lia.
Qed.

Lemma EncryptData_stream key counter n c data old : length counter = 16%nat -> is_bytes counter ->
  ctr_at key counter n c -> 0 <= n -> n + Z.of_nat (length data) <= UINT32_MAX ->
  Z.of_nat (length data) < 65536 -> length old = length data ->
  exists c', EncryptData data (Z.of_nat (length data)) old c = (xor_stream key counter n data, c') /\
    ctr_at key counter (n + Z.of_nat (length data)) c'.
Proof.
  intros Hl Hb Hc H0 Hn Hd Ho. assert (u16 (Z.of_nat (length data)) = Z.of_nat (length data)) as E by (apply u16_id; lia).
  destruct (EncryptData_stream_u16 key counter n c data (Z.of_nat (length data)) old Hl Hb Hc H0) as (c' & E' & H'); rewrite ?E; [lia|lia|].
  rewrite E in E', H'. exists c'. split; [|done]. rewrite E', Nat2Z.id, firstn_all. by rewrite <- Ho, drop_all, app_nil_r.
Qed.

(** Calls as the code can make them: at most 65535 bytes, and room for what is stored. *)
Definition call_fits (x : list Z * list Z) : Prop := Z.of_nat (length x.1) < 65536 /\ length x.2 = length x.1.

Lemma EncryptData_calls_stream key counter calls : length counter = 16%nat -> is_bytes counter -> Forall call_fits calls ->
  forall n c, ctr_at key counter n c -> 0 <= n -> n + Z.of_nat (length (concat (map fst calls))) <= UINT32_MAX ->
  fst (EncryptData_calls calls c) = xor_stream key counter n (concat (map fst calls)).
Proof.
  intros Hl Hb Hf. induction Hf as [|[d o] calls [Hd Ho] Hf IH]; intros n c Hc H0 Hn; [done|].
  cbn [fst snd map concat EncryptData_calls] in *. rewrite length_app in Hn.
  destruct (EncryptData_stream key counter n c d o Hl Hb Hc H0) as (c1 & -> & H1); [lia|done|done|].
  specialize (IH _ c1 H1 ltac:(lia) ltac:(lia)). destruct (EncryptData_calls calls c1) as [rest c2]. cbn [fst] in IH |- *.
  by rewrite IH, xor_stream_app.
Qed.

Lemma ctr_at_start key sendingNodeId msgId :
  let c := SetWeaveMessageCounter sendingNodeId msgId (CTRMode_SetKey key CTRMode_new) in
  length (Counter c) = 16%nat /\ is_bytes (Counter c) /\ ctr_at key (Counter c) 0 c.
Proof.
  intros c. assert (length (Counter c) = 16%nat) as Hl by done.
  assert (is_bytes (Counter c)) as Hb by (repeat constructor; apply u8_range || (unfold is_byte; lia)).
  split; [done|]. split; [done|]. split; [intros x; apply bc_keyed|]. split; [done|].
  split; [|done]. symmetry. by apply counter_add_0.
Qed.
End CTR.

(** ** HMAC *)

Section HMAC.
Context {H : HashAlgo}.

Record HMAC := mkHMAC {
  mHash : hash_state;
  mKey : list Z;        (* uint8_t mKey[kBlockLength] *)
  mKeyLen : Z }.

Definition HMAC_Reset (h : HMAC) : HMAC :=
  mkHMAC (hash_Reset (mHash h)) (replicate kBlockLength 0) 0.

(** The constructor. *)
Definition HMAC_new : HMAC := HMAC_Reset (mkHMAC hash_new (replicate kBlockLength 0) 0).

(** The key padded to a block, combined with a constant: the [pad] of Begin and
    of Finish. *)
Definition padded_key (key : list Z) (keyLen : Z) (x : Z) : list Z :=
  map (fun b => Z.lxor b x)
    (take (Z.to_nat keyLen) key ++
     (if keyLen <? Z.of_nat kBlockLength then replicate (kBlockLength - Z.to_nat keyLen) 0 else [])).

(** Begin(keyData, keyLen), [key] the [keyLen] bytes at [keyData]: at most 65535,
    the range of the uint16_t. *)
Definition HMAC_Begin (key : list Z) (h : HMAC) : HMAC :=
  let keyLen := Z.of_nat (length key) in
  let h := HMAC_Reset h in
  let '(h, keyLen) :=
    if Z.of_nat kBlockLength <? keyLen then
      let '(hash, s) := hash_Finish (hash_AddData key (hash_Begin (mHash h))) in
      (mkHMAC s (hash ++ drop (length hash) (mKey h)) (Z.of_nat kHashLength), Z.of_nat kHashLength)
    else (mkHMAC (mHash h) (key ++ drop (length key) (mKey h)) keyLen, keyLen) in
  mkHMAC (hash_AddData (padded_key (mKey h) keyLen 54) (hash_Begin (mHash h))) (mKey h) (mKeyLen h).

Definition HMAC_AddData (msgData : list Z) (h : HMAC) : HMAC :=
  mkHMAC (hash_AddData msgData (mHash h)) (mKey h) (mKeyLen h).

Definition HMAC_Finish (h : HMAC) : list Z * HMAC :=
  let '(innerHash, s) := hash_Finish (mHash h) in
  let s := hash_AddData (padded_key (mKey h) (mKeyLen h) 92) (hash_Begin s) in
  let '(hashBuf, s) := hash_Finish (hash_AddData innerHash s) in
  (hashBuf, HMAC_Reset (mkHMAC s (mKey h) (mKeyLen h))).

Context {L : HashLaws H}.

(** RFC 2104. *)
Definition hmac_key (key : list Z) : list Z :=
  let k := if (kBlockLength <? length key)%nat then digest key else key in
  k ++ replicate (kBlockLength - length k) 0.
Definition hmac (key msg : list Z) : list Z :=
  digest (map (fun b => Z.lxor b 92) (hmac_key key) ++ digest (map (fun b => Z.lxor b 54) (hmac_key key) ++ msg)).

(** An HMAC object begun with [key] and given [msg]. *)
Definition hmac_fed (key msg : list Z) (h : HMAC) : Prop :=
  fed (mHash h) (map (fun b => Z.lxor b 54) (hmac_key key) ++ msg) /\
  padded_key (mKey h) (mKeyLen h) 92 = map (fun b => Z.lxor b 92) (hmac_key key).

Lemma padded_key_full key rest x : (length key <= kBlockLength)%nat ->
  padded_key (key ++ rest) (Z.of_nat (length key)) x =
  map (fun b => Z.lxor b x) (key ++ replicate (kBlockLength - length key) 0).
Proof.
  intros Hl. unfold padded_key. rewrite Nat2Z.id, take_app_length. do 2 f_equal.
  destruct (Z.ltb_spec (Z.of_nat (length key)) (Z.of_nat kBlockLength)) as [|Hge]; [done|].
  by replace (kBlockLength - length key)%nat with 0%nat by lia.
Qed.

Lemma hmac_fed_Begin key h : hmac_fed key [] (HMAC_Begin key h).
Proof.
  pose proof hash_lengths as HL. unfold hmac_fed, HMAC_Begin, hmac_key.
  destruct (Z.ltb_spec (Z.of_nat kBlockLength) (Z.of_nat (length key))) as [Hlt|Hge].
  - replace (kBlockLength <? length key)%nat with true by (symmetry; apply Nat.ltb_lt; lia).
    pose proof (fed_AddData _ _ key (fed_Begin (mHash (HMAC_Reset h)))) as F. apply fed_Finish in F.
    destruct (hash_Finish _) as [hash s]. cbn [fst app] in F. subst hash. cbn [mHash mKey mKeyLen].
    rewrite <- (digest_length key), !padded_key_full by (rewrite digest_length; lia). split; [|done].
    rewrite app_nil_r. apply (fed_AddData _ []), fed_Begin.
  - replace (kBlockLength <? length key)%nat with false by (symmetry; apply Nat.ltb_ge; lia).
    cbn [mHash mKey mKeyLen]. rewrite !padded_key_full by lia. split; [|done].
    rewrite app_nil_r. apply (fed_AddData _ []), fed_Begin.
Qed.

Lemma hmac_fed_AddData key msg d h : hmac_fed key msg h -> hmac_fed key (msg ++ d) (HMAC_AddData d h).
Proof. intros [HF HK]. split; [|done]. cbn. rewrite app_assoc. by apply fed_AddData. Qed.

Lemma hmac_fed_Finish key msg h : hmac_fed key msg h -> fst (HMAC_Finish h) = hmac key msg.
Proof.
  intros [HF HK]. unfold HMAC_Finish. apply fed_Finish in HF. destruct (hash_Finish (mHash h)) as [inner s]. cbn [fst] in HF.
  subst inner. rewrite HK. unfold hmac.
  pose proof (fed_AddData _ _ (digest (map (fun b => Z.lxor b 54) (hmac_key key) ++ msg))
    (fed_AddData _ _ (map (fun b => Z.lxor b 92) (hmac_key key)) (fed_Begin s))) as F.
  apply fed_Finish in F. destruct (hash_Finish _) as [out s']. exact F.
Qed.

Lemma hmac_fed_chunks key chunks : forall msg h, hmac_fed key msg h ->
  hmac_fed key (msg ++ concat chunks) (foldl (fun h d => HMAC_AddData d h) h chunks).
Proof.
  induction chunks as [|d chunks IH]; intros msg h F; simpl; [by rewrite app_nil_r|].
  rewrite app_assoc. by apply IH, hmac_fed_AddData.
Qed.

Lemma hmac_length key msg : length (hmac key msg) = kHashLength.
Proof. apply digest_length. Qed.
End HMAC.

Arguments HMAC H : clear implicits.

(** ** HKDF *)

Section HKDF.
Context {H : HashAlgo}.

Record HKDF := mkHKDF { PseudoRandomKey : list Z; mHMAC : HMAC H }.

Definition BeginExtractKey (salt : list Z) (k : HKDF) : HKDF := mkHKDF (PseudoRandomKey k) (HMAC_Begin salt (mHMAC k)).
Definition AddKeyMaterial (keyData : list Z) (k : HKDF) : HKDF := mkHKDF (PseudoRandomKey k) (HMAC_AddData keyData (mHMAC k)).
Definition FinishExtractKey (k : HKDF) : HKDF := let '(prk, h) := HMAC_Finish (mHMAC k) in mkHKDF prk h.

(** The loop of ExpandKey: [prev] is the block stored before [outKey]; the result
    is what is stored from [outKey] on. *)
Fixpoint ExpandKey_loop (fuel : nat) (prk info prev : list Z) (hashNum keyLen : Z) (h : HMAC H) : res (list Z) * HMAC H :=
  match fuel with
  | O => (Diverges, h)
  | S fuel =>
    let h := HMAC_Begin prk (HMAC_Reset h) in
    let h := if 1 <? hashNum then HMAC_AddData prev h else h in
    let h := if 0 <? Z.of_nat (length info) then HMAC_AddData info h else h in
    let h := HMAC_AddData [hashNum] h in
    let '(hash, h) := HMAC_Finish h in
    if keyLen <? Z.of_nat kHashLength then (Ok (take (Z.to_nat keyLen) hash), h)
    else
      match ExpandKey_loop fuel prk info hash (u8 (hashNum + 1)) (u16 (keyLen - Z.of_nat kHashLength)) h with
      | (Ok out, h) => (Ok (hash ++ out), h)
      | x => x
      end
  end.

(** ExpandKey(info, infoLen, keyLen, outKey) ([info] is empty for a NULL pointer). *)
Definition ExpandKey (info : list Z) (keyLen : Z) (k : HKDF) : res (list Z) * HKDF :=
  if (keyLen <? 1) || (255 * Z.of_nat kHashLength <? keyLen) then (Err WEAVE_ERROR_INVALID_ARGUMENT, k)
  else let '(r, h) := ExpandKey_loop 257 (PseudoRandomKey k) info [] 1 keyLen (mHMAC k) in
       (r, mkHKDF (PseudoRandomKey k) h).

Definition HKDF_Reset (k : HKDF) : HKDF := mkHKDF (replicate kHashLength 0) (HMAC_Reset (mHMAC k)).

(** DeriveKey, on the HKDF object it creates.  The salt, the pieces of key material
    and the info are given as the bytes their uint16_t lengths delimit: at most
    65535 each. *)
Definition DeriveKey (salt keyMaterial1 keyMaterial2 info : list Z) (outKeyBufSize outKeyLen : Z) (hkdf : HKDF) : res (list Z) * HKDF :=
  if negb (outKeyLen <=? outKeyBufSize) then (Err WEAVE_ERROR_BUFFER_TOO_SMALL, HKDF_Reset hkdf)
  else
    let hkdf := BeginExtractKey salt hkdf in
    let hkdf := AddKeyMaterial keyMaterial1 hkdf in
    let hkdf := AddKeyMaterial keyMaterial2 hkdf in
    let hkdf := FinishExtractKey hkdf in
    let '(r, hkdf) := ExpandKey info outKeyLen hkdf in
    (r, HKDF_Reset hkdf).

Context {L : HashLaws H}.

(** RFC 5869: T(n), T(n+1), ... for [n] from [i] on, [m] of them, after T(i-1). *)
Fixpoint hkdf_blocks (prk info prev : list Z) (i : Z) (m : nat) : list Z :=
  match m with
  | O => []
  | S m => let t := hmac prk (prev ++ info ++ [i]) in t ++ hkdf_blocks prk info t (i + 1) m
  end.

(** The first [len] bytes of T(1) | T(2) | ... T(255) *)
Definition hkdf_expand (prk info : list Z) (len : nat) : list Z := take len (hkdf_blocks prk info [] 1 255).

Lemma hkdf_blocks_length prk info m : forall prev i, length (hkdf_blocks prk info prev i m) = (m * kHashLength)%nat.
Proof. induction m as [|m IH]; intros prev i; simpl; [done|]. by rewrite length_app, hmac_length, IH. Qed.

(** One round computes one block. *)
Lemma expand_round prk info prev hashNum h : (hashNum = 1 -> prev = []) -> 1 <= hashNum ->
  fst (HMAC_Finish (HMAC_AddData [hashNum]
    (let h := HMAC_Begin prk (HMAC_Reset h) in
     let h := if 1 <? hashNum then HMAC_AddData prev h else h in
     if 0 <? Z.of_nat (length info) then HMAC_AddData info h else h))) = hmac prk (prev ++ info ++ [hashNum]).
Proof.
  intros Hp H1. apply hmac_fed_Finish. rewrite app_assoc. apply hmac_fed_AddData.
  assert (hmac_fed prk prev (if 1 <? hashNum then HMAC_AddData prev (HMAC_Begin prk (HMAC_Reset h)) else HMAC_Begin prk (HMAC_Reset h))) as F.
  { destruct (Z.ltb_spec 1 hashNum); [apply (hmac_fed_AddData _ []), hmac_fed_Begin|].
    rewrite Hp by lia. apply hmac_fed_Begin. }
  destruct info as [|b info]; [by rewrite app_nil_r|]. by apply hmac_fed_AddData.
Qed.

Lemma expand_loop_ok prk info m : forall fuel prev hashNum keyLen h,
  m = 0%nat \/ ((hashNum = 1 -> prev = []) /\ 1 <= hashNum /\ hashNum + Z.of_nat m <= 256) ->
  0 <= keyLen <= Z.of_nat m * Z.of_nat kHashLength -> keyLen < 65536 -> (m < fuel)%nat ->
  fst (ExpandKey_loop fuel prk info prev hashNum keyLen h) = Ok (take (Z.to_nat keyLen) (hkdf_blocks prk info prev hashNum m)).
Proof.
  pose proof hash_lengths as HL.
  induction m as [|m IH]; intros fuel prev hashNum keyLen h Hc Hk Hk' Hf.
  { destruct fuel as [|fuel]; [lia|]. cbn [ExpandKey_loop]. destruct (HMAC_Finish _) as [t h'].
    replace keyLen with 0 by lia. rewrite (proj2 (Z.ltb_lt _ _)) by lia. done. }
  destruct Hc as [?|(Hp & H1 & Hn)]; [done|].
  destruct fuel as [|fuel]; [lia|]. cbn [ExpandKey_loop hkdf_blocks].
  pose proof (expand_round prk info prev hashNum h Hp H1) as R. cbv zeta in R. revert R.
  destruct (HMAC_Finish _) as [t h']. cbn [fst]. intros ->.
  pose proof (hmac_length prk (prev ++ info ++ [hashNum])) as HT. revert HT.
  generalize (hmac prk (prev ++ info ++ [hashNum])). intros t HT.
  destruct (Z.ltb_spec keyLen (Z.of_nat kHashLength)).
  { cbn [fst]. by rewrite take_app_le by lia. }
  rewrite u16_id by lia.
  assert (fst (ExpandKey_loop fuel prk info t (u8 (hashNum + 1)) (keyLen - Z.of_nat kHashLength) h') =
    Ok (take (Z.to_nat (keyLen - Z.of_nat kHashLength)) (hkdf_blocks prk info t (hashNum + 1) m))) as E.
  { destruct m as [|m]; [rewrite IH by (by left || lia); done|]. rewrite u8_id by lia. apply IH; [right|lia..].
    split; [lia|]. lia. }
  destruct (ExpandKey_loop _ _ _ _ _ _ _) as [r k]. cbn [fst] in E. subst r. cbn [fst].
  rewrite take_app_ge by lia. do 3 f_equal. lia.
Qed.

Lemma ExpandKey_ok info keyLen k : 1 <= keyLen <= 255 * Z.of_nat kHashLength ->
  fst (ExpandKey info keyLen k) = Ok (hkdf_expand (PseudoRandomKey k) info (Z.to_nat keyLen)).
Proof.
  intros Hk. unfold ExpandKey. pose proof hash_length_256.
  rewrite (proj2 (Z.ltb_ge keyLen 1)), (proj2 (Z.ltb_ge (255 * Z.of_nat kHashLength) keyLen)) by lia. cbn [orb].
  pose proof (expand_loop_ok (PseudoRandomKey k) info 255 257 [] 1 keyLen (mHMAC k)) as E.
  destruct (ExpandKey_loop _ _ _ _ _ _ _) as [r h]. cbn [fst] in E |- *. apply E; [|lia..]. right. split; [done|lia].
Qed.

Lemma extract_ok salt keyMaterial1 keyMaterial2 k :
  PseudoRandomKey (FinishExtractKey (AddKeyMaterial keyMaterial2 (AddKeyMaterial keyMaterial1 (BeginExtractKey salt k)))) =
  hmac salt (keyMaterial1 ++ keyMaterial2).
Proof.
  unfold FinishExtractKey. cbn [AddKeyMaterial BeginExtractKey mHMAC].
  pose proof (hmac_fed_AddData salt _ keyMaterial2 _ (hmac_fed_AddData salt [] keyMaterial1 _ (hmac_fed_Begin salt (mHMAC k)))) as F.
  apply hmac_fed_Finish in F. by destruct (HMAC_Finish _) as [prk h].
Qed.
End HKDF.

Arguments HKDF H : clear implicits.

(** DeriveKey computes HKDF. *)
Lemma DeriveKey_spec {H : HashAlgo} {L : HashLaws H} salt km1 km2 info outKeyBufSize outKeyLen k :
  0 <= outKeyLen < 65536 ->
  fst (DeriveKey salt km1 km2 info outKeyBufSize outKeyLen k) =
  if outKeyBufSize <? outKeyLen then Err WEAVE_ERROR_BUFFER_TOO_SMALL
  else if (outKeyLen <? 1) || (255 * Z.of_nat kHashLength <? outKeyLen) then Err WEAVE_ERROR_INVALID_ARGUMENT
  else Ok (hkdf_expand (hmac salt (km1 ++ km2)) info (Z.to_nat outKeyLen)).
Proof.
  intros Hr. unfold DeriveKey. rewrite Z.leb_antisym, negb_involutive. destruct (outKeyBufSize <? outKeyLen); [done|].
  set (k' := FinishExtractKey _). rewrite <- (extract_ok salt km1 km2 k). fold k'.
  destruct ((outKeyLen <? 1) || (255 * Z.of_nat kHashLength <? outKeyLen)) eqn:E.
  - unfold ExpandKey. by rewrite E.
  - bool_prop. pose proof (ExpandKey_ok info outKeyLen k') as X. destruct (ExpandKey _ _ _) as [r k2]. apply X. lia.
Qed.

(** ** Properties *)

(** C7: EncryptData combines the data with the key stream of the block cipher at
    consecutive counter blocks, wherever a call stands in the stream: cut in any
    way into calls of at most 65535 bytes (the range of its 16-bit length), data
    of fewer than 2^32 bytes under one counter comes out combined with the one key
    stream, whatever the output buffers held; and calls that cut this output in
    any other way, from the same counter, give the data back. *)
Theorem CTR_key_stream {B : BlockCipher} {L : BlockCipherLaws B} key sendingNodeId msgId calls calls' :
  Forall call_fits calls -> Forall call_fits calls' -> Z.of_nat (length (concat (map fst calls))) <= UINT32_MAX ->
  let c := SetWeaveMessageCounter sendingNodeId msgId (CTRMode_SetKey key CTRMode_new) in
  let out := fst (EncryptData_calls calls c) in
  out = xor_stream key (Counter c) 0 (concat (map fst calls)) /\
  (concat (map fst calls') = out -> fst (EncryptData_calls calls' c) = concat (map fst calls)).
Proof.
  intros Hf Hf' Hn c. destruct (ctr_at_start key sendingNodeId msgId) as (Hl & Hb & H0). fold c in Hl, Hb, H0. cbv zeta.
  rewrite (EncryptData_calls_stream key (Counter c) calls Hl Hb Hf 0 c H0) by lia. split; [done|]. intros E.
  rewrite (EncryptData_calls_stream key (Counter c) calls' Hl Hb Hf' 0 c H0); rewrite ?E, ?xor_stream_length; [apply xor_stream_twice|lia|lia].
Qed.

Theorem CTR_key_stream_witness : let B := toy_cipher in
  let key := [1; 2; 3] in
  let calls := [(seqZ 0 20, replicate 20 0); (seqZ 20 15, replicate 15 0)] in
  let c := SetWeaveMessageCounter 1234605616436508552 305419896 (CTRMode_SetKey key CTRMode_new) in
  let out := fst (EncryptData_calls calls c) in
  out = xor_stream key (Counter c) 0 (seqZ 0 35) /\
  fst (EncryptData_calls [(take 7 out, take 7 out); ([], []); (drop 7 out, replicate 28 255)] c) = seqZ 0 35.
Proof.
  intros B key calls c out.
  destruct (CTR_key_stream (B := toy_cipher) key 1234605616436508552 305419896 calls
    [(take 7 out, take 7 out); ([], []); (drop 7 out, replicate 28 255)]) as [H1 H2];
    [repeat constructor; vm_compute; lia|repeat constructor; vm_compute; lia|discriminate|].
  split; [exact H1|]. change (seqZ 0 35) with (concat (map fst calls)). apply H2. vm_compute. reflexivity.
Defined.

(** C8: DeriveKey computes HKDF (RFC 5869) of the salt, the concatenation of the two
    pieces of key material and the info, for every output length from 1 to 255
    blocks that fits the output buffer, and every other length is an error: its
    loop ends, and the HMAC it runs is that of RFC 2104 for keys of any length. *)
Theorem HKDF_DeriveKey_rfc5869 {H : HashAlgo} {L : HashLaws H} salt km1 km2 info outKeyBufSize outKeyLen k :
  0 <= outKeyLen < 65536 ->
  fst (DeriveKey salt km1 km2 info outKeyBufSize outKeyLen k) =
  if outKeyBufSize <? outKeyLen then Err WEAVE_ERROR_BUFFER_TOO_SMALL
  else if (outKeyLen <? 1) || (255 * Z.of_nat kHashLength <? outKeyLen) then Err WEAVE_ERROR_INVALID_ARGUMENT
  else Ok (hkdf_expand (hmac salt (km1 ++ km2)) info (Z.to_nat outKeyLen)).
Proof. apply DeriveKey_spec. Qed.

Theorem HKDF_DeriveKey_rfc5869_witness :
  let h : HMAC toy_sha1 := mkHMAC (H := toy_sha1) (@nil Z) (replicate 64 0) 0 in
  fst (DeriveKey [9] [1; 2] [3] [4; 5] 64 43 (mkHKDF (replicate 20 0) h)) =
  Ok (hkdf_expand (H := toy_sha1) (hmac (H := toy_sha1) [9] ([1; 2] ++ [3])) [4; 5] 43).
Proof.
  intros h. rewrite (HKDF_DeriveKey_rfc5869 (H := toy_sha1) [9] [1; 2] [3] [4; 5] 64 43 (mkHKDF (replicate 20 0) h)); [reflexivity|lia].
Defined.
