(* ===== verification/PacketBuffer.v ===== *)
(** * Packet buffers (src/src/system/SystemPacketBuffer.cpp, SystemPacketBuffer.h)

    The build without LwIP.  A [PacketBuffer] is its header fields and the block of
    memory that follows them; a pointer into the block is its offset from the
    block's start ([kStart] of the code).  This file holds the operations on one
    buffer; chains and the pool are in PacketBufferChain. *)
From S2P Require Import Prelude.

(** struct pbuf: [next] is the index of a buffer of the pool, [None] for NULL;
    the members next, payload, tot_len, len and ref carry a prefix. *)
Record PacketBuffer := mkPbuf {
  pb_next : option nat;
  pb_payload : Z;
  pb_tot_len : Z;
  pb_len : Z;
  pb_ref : Z;
  pb_block : list Z }.

Definition AllocSize (p : PacketBuffer) : Z := Z.of_nat (length (pb_block p)).

Definition Start (p : PacketBuffer) : Z := pb_payload p.

Definition SetStart (aNewStart : Z) (p : PacketBuffer) : PacketBuffer :=
  let kEnd := AllocSize p in
  let aNewStart := if aNewStart <? 0 then 0 else if kEnd <? aNewStart then kEnd else aNewStart in
  let lDelta := aNewStart - pb_payload p in
  let lDelta := if pb_len p <? lDelta then pb_len p else lDelta in
  mkPbuf (pb_next p) aNewStart (u16 (pb_tot_len p - lDelta)) (u16 (pb_len p - lDelta)) (pb_ref p) (pb_block p).

Definition DataLength (p : PacketBuffer) : Z := pb_len p.
Definition TotalLength (p : PacketBuffer) : Z := pb_tot_len p.
Definition MaxDataLength (p : PacketBuffer) : Z := u16 (AllocSize p - pb_payload p).
Definition AvailableDataLength (p : PacketBuffer) : Z := u16 (MaxDataLength p - pb_len p).
Definition ReservedSize (p : PacketBuffer) : Z := u16 (pb_payload p).

(** SetDataLength(aNewLen) with no chain head. *)
Definition SetDataLength (aNewLen : Z) (p : PacketBuffer) : PacketBuffer :=
  let kMaxDataLen := MaxDataLength p in
  let aNewLen := if kMaxDataLen <? aNewLen then kMaxDataLen else aNewLen in
  let lDelta := aNewLen - pb_len p in
  mkPbuf (pb_next p) (pb_payload p) (u16 (pb_tot_len p + lDelta)) aNewLen (pb_ref p) (pb_block p).

Definition ConsumeHead (aConsumeLength : Z) (p : PacketBuffer) : PacketBuffer :=
  let aConsumeLength := if pb_len p <? aConsumeLength then pb_len p else aConsumeLength in
  mkPbuf (pb_next p) (pb_payload p + aConsumeLength) (u16 (pb_tot_len p - aConsumeLength)) (u16 (pb_len p - aConsumeLength))
         (pb_ref p) (pb_block p).

(** Writing [l] at offset [off] of the block (memcpy, and memmove of bytes read
    before), inside its bounds. *)
Definition block_write (off : Z) (l block : list Z) : list Z :=
  take (Z.to_nat off) block ++ l ++ drop (Z.to_nat off + length l) block.
Definition block_read (off len : Z) (block : list Z) : list Z :=
  take (Z.to_nat len) (drop (Z.to_nat off) block).

Definition EnsureReservedSize (aReservedSize : Z) (p : PacketBuffer) : bool * PacketBuffer :=
  let kCurrentReservedSize := ReservedSize p in
  if aReservedSize <=? kCurrentReservedSize then (true, p)
  else if AllocSize p <? aReservedSize + pb_len p then (false, p)
  else
    let kMoveLength := u16 (aReservedSize - kCurrentReservedSize) in
    (true, mkPbuf (pb_next p) (pb_payload p + kMoveLength) (pb_tot_len p) (pb_len p) (pb_ref p)
             (block_write (pb_payload p + kMoveLength) (block_read (pb_payload p) (pb_len p) (pb_block p)) (pb_block p))).

(** AlignPayload(aAlignBytes), for a block that starts at the address [base]. *)
Definition AlignPayload (base aAlignBytes : Z) (p : PacketBuffer) : bool * PacketBuffer :=
  if aAlignBytes =? 0 then (false, p)
  else
    let kPayloadOffset := u16 ((base + pb_payload p) mod aAlignBytes) in
    if kPayloadOffset =? 0 then (true, p)
    else
      let kPayloadShift := u16 (aAlignBytes - kPayloadOffset) in
      EnsureReservedSize (u16 (ReservedSize p + kPayloadShift)) p.

(** A new buffer over a block: what NewWithAvailableSize sets up. *)
Definition init_pbuf (aReservedSize : Z) (block : list Z) : PacketBuffer := mkPbuf None aReservedSize 0 0 1 block.

(** ** Well-formed buffers and their data *)

Record wf_pbuf (p : PacketBuffer) : Prop := {
  wf_payload : 0 <= pb_payload p;
  wf_len : 0 <= pb_len p;
  wf_end : pb_payload p + pb_len p <= AllocSize p;
  wf_alloc : AllocSize p < 65536;
  wf_tot : pb_len p <= pb_tot_len p < 65536;
  wf_block : is_bytes (pb_block p) }.

(** The bytes of the buffer. *)
Definition pb_data (p : PacketBuffer) : list Z := block_read (pb_payload p) (pb_len p) (pb_block p).

Lemma block_write_length off l block : 0 <= off -> off + Z.of_nat (length l) <= Z.of_nat (length block) ->
  length (block_write off l block) = length block.
Proof. intros H0 Hl. unfold block_write. rewrite !length_app, length_take, length_drop. lia. Qed.

Lemma block_read_length off len block : 0 <= off -> 0 <= len -> off + len <= Z.of_nat (length block) ->
  Z.of_nat (length (block_read off len block)) = len.
Proof. intros H0 Hl He. unfold block_read. rewrite length_take, length_drop. lia. Qed.

Lemma block_read_write off l block : 0 <= off -> off + Z.of_nat (length l) <= Z.of_nat (length block) ->
  block_read off (Z.of_nat (length l)) (block_write off l block) = l.
Proof.
  intros H0 Hl. unfold block_read, block_write. rewrite Nat2Z.id.
  rewrite drop_app_ge by (rewrite length_take; lia). rewrite length_take.
  replace (Z.to_nat off - _)%nat with 0%nat by lia. by rewrite drop_0, take_app_length.
Qed.

Lemma block_write_bytes off l block : is_bytes l -> is_bytes block -> is_bytes (block_write off l block).
Proof. intros Hl Hb. repeat apply Forall_app_2; [by apply Forall_take|done|by apply Forall_drop]. Qed.

Lemma block_read_bytes off len block : is_bytes block -> is_bytes (block_read off len block).
Proof. intros Hb. by apply Forall_take, Forall_drop. Qed.

(** Reading over the end of what was written, and before it. *)
Lemma block_read_split off n m block : 0 <= off -> 0 <= n -> 0 <= m ->
  block_read off (n + m) block = block_read off n block ++ block_read (off + n) m block.
Proof.
  intros H0 Hn Hm. unfold block_read. rewrite !Z2Nat.inj_add by lia.
  rewrite <- (drop_drop _ (Z.to_nat n) (Z.to_nat off)). by rewrite <- take_take_drop.
Qed.

Lemma block_read_write_before off len o l block : 0 <= off -> 0 <= len -> off + len <= o -> o <= Z.of_nat (length block) ->
  block_read off len (block_write o l block) = block_read off len block.
Proof.
  intros H0 Hl Ho He. unfold block_read, block_write. rewrite drop_app_le by (rewrite length_take; lia).
  rewrite take_app_le by (rewrite length_drop, length_take; lia).
  rewrite skipn_firstn_comm, take_take. f_equal. lia.
Qed.

Lemma block_read_write_after off len o l block : 0 <= o -> o + Z.of_nat (length l) <= off -> o + Z.of_nat (length l) <= Z.of_nat (length block) ->
  block_read off len (block_write o l block) = block_read off len block.
Proof.
  intros H0 Ho He. unfold block_read, block_write. f_equal.
  rewrite drop_app_ge by (rewrite length_take; lia). rewrite drop_app_ge by (rewrite length_take; lia).
  rewrite length_take, drop_drop. f_equal. lia.
Qed.

Lemma block_read_take off k n block : 0 <= k <= n -> take (Z.to_nat k) (block_read off n block) = block_read off k block.
Proof. intros Hk. unfold block_read. rewrite take_take. f_equal. lia. Qed.

Lemma block_read_drop off k n block : 0 <= off -> 0 <= k <= n -> drop (Z.to_nat k) (block_read off n block) = block_read (off + k) (n - k) block.
Proof. intros H0 Hk. unfold block_read. rewrite skipn_firstn_comm, drop_drop. f_equal; [lia|]. f_equal. lia. Qed.

Lemma pb_data_length p : wf_pbuf p -> Z.of_nat (length (pb_data p)) = pb_len p.
Proof. intros []. apply block_read_length; unfold AllocSize in *; lia. Qed.

Lemma pb_data_bytes p : wf_pbuf p -> is_bytes (pb_data p).
Proof. intros []. by apply block_read_bytes. Qed.

(** ** The operations on the data *)

Lemma MaxDataLength_eq p : wf_pbuf p -> MaxDataLength p = AllocSize p - pb_payload p.
Proof. intros []. apply u16_id. lia. Qed.

Lemma ReservedSize_eq p : wf_pbuf p -> ReservedSize p = pb_payload p.
Proof. intros []. apply u16_id. lia. Qed.

Lemma EnsureReservedSize_true n p p' : wf_pbuf p -> 0 <= n < 65536 -> EnsureReservedSize n p = (true, p') ->
  wf_pbuf p' /\ pb_data p' = pb_data p /\ n <= pb_payload p' /\ pb_len p' = pb_len p /\ AllocSize p' = AllocSize p /\
  pb_payload p <= pb_payload p' /\ pb_next p' = pb_next p /\ pb_tot_len p' = pb_tot_len p /\ pb_ref p' = pb_ref p.
Proof.
  intros Hw Hn E. pose proof Hw as []. unfold EnsureReservedSize in E. rewrite ReservedSize_eq in E by done.
  destruct (Z.leb_spec n (pb_payload p)) as [|Hlt]; [injection E as <-; repeat split; try done; lia|].
  destruct (Z.ltb_spec (AllocSize p) (n + pb_len p)) as [|Hge]; [done|]. injection E as <-.
  rewrite u16_id by lia. replace (pb_payload p + (n - pb_payload p)) with n by lia.
  assert (Z.of_nat (length (block_read (pb_payload p) (pb_len p) (pb_block p))) = pb_len p) as HL by (by apply pb_data_length).
  assert (length (block_write n (block_read (pb_payload p) (pb_len p) (pb_block p)) (pb_block p)) = length (pb_block p)) as HB
    by (apply block_write_length; unfold AllocSize in *; lia).
  split; [|split].
  - split; unfold AllocSize in *; cbn; rewrite ?HB; try lia.
    apply block_write_bytes; [by apply block_read_bytes|done].
  - unfold pb_data at 1. cbn [pb_payload pb_len pb_block]. rewrite <- HL at 1.
    rewrite block_read_write; unfold AllocSize in *; [done|lia|lia].
  - unfold AllocSize. cbn. rewrite HB. repeat split; lia.
Qed.

Lemma EnsureReservedSize_false n p p' : EnsureReservedSize n p = (false, p') -> p' = p /\ AllocSize p < n + pb_len p.
Proof.
  unfold EnsureReservedSize. intros E. destruct (_ <=? _); [done|]. destruct (Z.ltb_spec (AllocSize p) (n + pb_len p)); [|done].
  by injection E as <-.
Qed.

(** Moving the start into the data drops a prefix of it. *)
Lemma SetStart_forward s p : wf_pbuf p -> pb_payload p <= s <= pb_payload p + pb_len p ->
  wf_pbuf (SetStart s p) /\ pb_data (SetStart s p) = drop (Z.to_nat (s - pb_payload p)) (pb_data p) /\
  pb_payload (SetStart s p) = s /\ pb_len (SetStart s p) = pb_len p - (s - pb_payload p) /\ pb_block (SetStart s p) = pb_block p.
Proof.
  intros Hw Hs. pose proof Hw as []. unfold SetStart.
  rewrite (proj2 (Z.ltb_ge s 0)), (proj2 (Z.ltb_ge (AllocSize p) s)), (proj2 (Z.ltb_ge (pb_len p) (s - pb_payload p))) by lia.
  rewrite !u16_id by lia. split; [split; cbn; unfold AllocSize in *; cbn; try done; lia|].
  split; [|done]. unfold pb_data, block_read. cbn.
  rewrite skipn_firstn_comm, drop_drop. f_equal; [lia|]. f_equal. lia.
Qed.

(** Moving the start back makes the bytes before the data part of it. *)
Lemma SetStart_back s p : wf_pbuf p -> 0 <= s <= pb_payload p -> pb_tot_len p + (pb_payload p - s) < 65536 ->
  wf_pbuf (SetStart s p) /\ pb_data (SetStart s p) = block_read s (pb_payload p - s) (pb_block p) ++ pb_data p /\
  pb_payload (SetStart s p) = s /\ pb_len (SetStart s p) = pb_len p + (pb_payload p - s) /\ pb_block (SetStart s p) = pb_block p.
Proof.
  intros Hw Hs Ht. pose proof Hw as []. unfold SetStart.
  rewrite (proj2 (Z.ltb_ge s 0)), (proj2 (Z.ltb_ge (AllocSize p) s)), (proj2 (Z.ltb_ge (pb_len p) (s - pb_payload p))) by lia.
  rewrite !u16_id by lia. split; [split; cbn; unfold AllocSize in *; cbn; try done; lia|].
  split; [|repeat split; cbn; lia]. unfold pb_data. cbn [pb_payload pb_len pb_block].
  replace (pb_len p - (s - pb_payload p)) with ((pb_payload p - s) + pb_len p) by lia.
  rewrite block_read_split by lia. do 2 f_equal. lia.
Qed.

Lemma SetDataLength_ok n p : wf_pbuf p -> 0 <= n <= AllocSize p - pb_payload p -> pb_tot_len p = pb_len p ->
  wf_pbuf (SetDataLength n p) /\ pb_data (SetDataLength n p) = block_read (pb_payload p) n (pb_block p) /\
  pb_payload (SetDataLength n p) = pb_payload p /\ pb_len (SetDataLength n p) = n /\ pb_block (SetDataLength n p) = pb_block p.
Proof.
  intros Hw Hn Ht. pose proof Hw as []. unfold SetDataLength. rewrite MaxDataLength_eq by done.
  rewrite (proj2 (Z.ltb_ge (AllocSize p - pb_payload p) n)) by lia.
  split; [split; cbn; unfold AllocSize in *; cbn; rewrite ?u16_id; try done; lia|done].
Qed.

Lemma ConsumeHead_ok n p : wf_pbuf p -> 0 <= n ->
  wf_pbuf (ConsumeHead n p) /\ pb_data (ConsumeHead n p) = drop (Z.to_nat n) (pb_data p) /\
  pb_len (ConsumeHead n p) = Z.max 0 (pb_len p - n) /\ pb_tot_len p - pb_tot_len (ConsumeHead n p) = Z.min n (pb_len p).
Proof.
  intros Hw Hn. pose proof Hw as []. pose proof (pb_data_length p Hw) as HL. unfold ConsumeHead.
  set (m := if pb_len p <? n then pb_len p else n).
  assert (0 <= m <= pb_len p /\ m = Z.min n (pb_len p)) as [Hm Hm'] by (unfold m; destruct (Z.ltb_spec (pb_len p) n); lia).
  rewrite !u16_id by lia. cbn. split; [split; cbn; unfold AllocSize in *; cbn; try done; lia|].
  split; [|lia]. unfold pb_data at 1. cbn.
  transitivity (drop (Z.to_nat m) (pb_data p)).
  - unfold pb_data, block_read. rewrite skipn_firstn_comm, drop_drop. f_equal; [lia|]. f_equal. lia.
  - destruct (Z.ltb_spec (pb_len p) n); [|f_equal; lia]. rewrite !drop_ge by lia. done.
Qed.
