(* ===== verification/PacketBufferChain.v ===== *)
(** * Packet buffer chains and the buffer pool (src/src/system/SystemPacketBuffer.cpp)

    The pool build without LwIP: [bufs] is the array sBufferPool, a PacketBuffer
    pointer the index of an element, NULL is [None].  A loop over a chain has one
    unit of fuel more than the pool has buffers, which a chain without a cycle
    does not use up.  The mutex around the pool is not modelled: the operations
    run one after the other. *)
From S2P Require Import Prelude PacketBuffer.
Local Open Scope Z_scope.

Definition WEAVE_SYSTEM_PACKETBUFFER_SIZE : Z := 1700.
(** The size of the header on a 64-bit platform. *)
Definition WEAVE_SYSTEM_PACKETBUFFER_HEADER_SIZE : Z := 24.
Definition WEAVE_SYSTEM_PACKETBUFFER_ALLOCSIZE_MAX : Z := WEAVE_SYSTEM_PACKETBUFFER_SIZE - WEAVE_SYSTEM_PACKETBUFFER_HEADER_SIZE.
Definition WEAVE_SYSTEM_CONFIG_PACKETBUFFER_MAXALLOC : nat := 15.
Definition WEAVE_SYSTEM_CONFIG_HEADER_RESERVE_SIZE : Z := 38.

Record Pool := mkPool { bufs : list PacketBuffer; sFreeList : option nat }.

Definition put (i : nat) (p : PacketBuffer) (h : Pool) : Pool := mkPool (<[i := p]> (bufs h)) (sFreeList h).
Definition set_next (n : option nat) (p : PacketBuffer) : PacketBuffer :=
  mkPbuf n (pb_payload p) (pb_tot_len p) (pb_len p) (pb_ref p) (pb_block p).
Definition set_tot_len (t : Z) (p : PacketBuffer) : PacketBuffer :=
  mkPbuf (pb_next p) (pb_payload p) t (pb_len p) (pb_ref p) (pb_block p).
Definition set_ref (r : Z) (p : PacketBuffer) : PacketBuffer :=
  mkPbuf (pb_next p) (pb_payload p) (pb_tot_len p) (pb_len p) r (pb_block p).

Definition fuel_of (h : Pool) : nat := S (length (bufs h)).

(** BuildFreeList, for a pool whose memory is [blocks]; the loop from element [i]. *)
Fixpoint BuildFreeList_loop (blocks : list (list Z)) (i : nat) (lHead : option nat) (h : Pool) : Pool :=
  match blocks with
  | [] => mkPool (bufs h) lHead
  | block :: blocks => BuildFreeList_loop blocks (S i) (Some i) (mkPool (bufs h ++ [mkPbuf lHead 0 0 0 0 block]) (sFreeList h))
  end.
Definition BuildFreeList (blocks : list (list Z)) : Pool := BuildFreeList_loop blocks 0 None (mkPool [] None).

Definition NewWithAvailableSize (aReservedSize aAvailableSize : Z) (h : Pool) : option nat * Pool :=
  if WEAVE_SYSTEM_PACKETBUFFER_ALLOCSIZE_MAX <? aReservedSize + aAvailableSize then (None, h)
  else
    match sFreeList h with
    | None => (None, h)
    | Some i =>
      match bufs h !! i with
      | Some p => (Some i, put i (init_pbuf aReservedSize (pb_block p)) (mkPool (bufs h) (pb_next p)))
      | None => (None, h)
      end
    end.

Definition New (aReservedSize : Z) (h : Pool) : option nat * Pool :=
  NewWithAvailableSize aReservedSize
    (if aReservedSize <? WEAVE_SYSTEM_PACKETBUFFER_ALLOCSIZE_MAX then WEAVE_SYSTEM_PACKETBUFFER_ALLOCSIZE_MAX - aReservedSize else 0) h.

Fixpoint AddToEnd_loop (fuel : nat) (lCursor aPacket : nat) : M Pool unit := fun h =>
  match fuel with
  | O => (Diverges, h)
  | S fuel =>
    match bufs h !! lCursor, bufs h !! aPacket with
    | Some p, Some q =>
      let p := set_tot_len (u16 (pb_tot_len p + pb_tot_len q)) p in
      match pb_next p with
      | None => (Ok tt, put lCursor (set_next (Some aPacket) p) h)
      | Some n => AddToEnd_loop fuel n aPacket (put lCursor p h)
      end
    | _, _ => (Undefined, h)
    end
  end.
Definition AddToEnd (this aPacket : nat) : M Pool unit := fun h => AddToEnd_loop (fuel_of h) this aPacket h.

(** DetachTail binds a reference to *next, which there has to be. *)
Definition DetachTail (this : nat) : M Pool nat := fun h =>
  match bufs h !! this with
  | Some p =>
    match pb_next p with
    | Some n => (Ok n, put this (set_tot_len (pb_len p) (set_next None p)) h)
    | None => (Undefined, h)
    end
  | None => (Undefined, h)
  end.

Definition AddRef (this : nat) : M Pool unit := fun h =>
  match bufs h !! this with
  | Some p => (Ok tt, put this (set_ref (u16 (pb_ref p + 1)) p) h)
  | None => (Undefined, h)
  end.

Fixpoint Free_loop (fuel : nat) (aPacket : option nat) : M Pool unit := fun h =>
  match aPacket with
  | None => (Ok tt, h)
  | Some i =>
    match fuel with
    | O => (Diverges, h)
    | S fuel =>
      match bufs h !! i with
      | None => (Undefined, h)
      | Some p =>
        let lNextPacket := pb_next p in
        let p := set_ref (u16 (pb_ref p - 1)) p in
        if pb_ref p =? 0
        then Free_loop fuel lNextPacket (mkPool (<[i := set_next (sFreeList h) p]> (bufs h)) (Some i))
        else (Ok tt, put i p h)
      end
    end
  end.
Definition Free (aPacket : option nat) : M Pool unit := fun h => Free_loop (fuel_of h) aPacket h.

Definition FreeHead (aPacket : nat) : M Pool (option nat) := fun h =>
  match bufs h !! aPacket with
  | None => (Undefined, h)
  | Some p =>
    match Free (Some aPacket) (put aPacket (set_next None p) h) with
    | (Ok _, h) => (Ok (pb_next p), h)
    | (Err e, h) => (Err e, h)
    | (Undefined, h) => (Undefined, h)
    | (Diverges, h) => (Diverges, h)
    end
  end.

Fixpoint Consume_loop (fuel : nat) (lPacket : option nat) (aConsumeLength : Z) : M Pool (option nat) := fun h =>
  match lPacket with
  | None => (Ok None, h)
  | Some i =>
    if aConsumeLength <=? 0 then (Ok (Some i), h)
    else
      match fuel with
      | O => (Diverges, h)
      | S fuel =>
        match bufs h !! i with
        | None => (Undefined, h)
        | Some p =>
          let kLength := DataLength p in
          if kLength <=? aConsumeLength then
            match FreeHead i h with
            | (Ok n, h) => Consume_loop fuel n (u16 (aConsumeLength - kLength)) h
            | (Err e, h) => (Err e, h)
            | (Undefined, h) => (Undefined, h)
            | (Diverges, h) => (Diverges, h)
            end
          else (Ok (Some i), put i (ConsumeHead aConsumeLength p) h)
        end
      end
  end.
Definition Consume (this : nat) (aConsumeLength : Z) : M Pool (option nat) := fun h =>
  Consume_loop (fuel_of h) (Some this) aConsumeLength h.

(** The assignments of CompactHead that move bytes from the next buffer [q] to the
    end of the first, [p]. *)
Definition move_in (lMoveLength : Z) (p q : PacketBuffer) : PacketBuffer :=
  mkPbuf (pb_next p) (pb_payload p) (pb_tot_len p) (u16 (pb_len p + lMoveLength)) (pb_ref p)
    (block_write (pb_payload p + pb_len p) (block_read (pb_payload q) lMoveLength (pb_block q)) (pb_block p)).
Definition move_out (lMoveLength : Z) (q : PacketBuffer) : PacketBuffer :=
  mkPbuf (pb_next q) (pb_payload q + lMoveLength) (u16 (pb_tot_len q - lMoveLength)) (u16 (pb_len q - lMoveLength)) (pb_ref q) (pb_block q).

(** The loop of CompactHead; the VerifyOrDie of an exclusive next buffer does not
    return when it fails. *)
Fixpoint CompactHead_loop (fuel : nat) (this : nat) (lAvailLength : Z) : M Pool unit := fun h =>
  match bufs h !! this with
  | None => (Undefined, h)
  | Some p =>
    if (0 <? lAvailLength) && negb (bool_decide (pb_next p = None)) then
      match fuel, pb_next p with
      | S fuel, Some n =>
        match bufs h !! n with
        | None => (Undefined, h)
        | Some q =>
          if negb (pb_ref q =? 1) then (Diverges, h)
          else
            let lMoveLength := if lAvailLength <? pb_len q then lAvailLength else pb_len q in
            let p := move_in lMoveLength p q in
            let q := move_out lMoveLength q in
            let lAvailLength := u16 (lAvailLength - lMoveLength) in
            let h := put n q (put this p h) in
            if pb_len q =? 0 then
              match FreeHead n h with
              | (Ok next, h) => CompactHead_loop fuel this lAvailLength (put this (set_next next p) h)
              | (Err e, h) => (Err e, h)
              | (Undefined, h) => (Undefined, h)
              | (Diverges, h) => (Diverges, h)
              end
            else CompactHead_loop fuel this lAvailLength h
        end
      | _, _ => (Diverges, h)
      end
    else (Ok tt, h)
  end.
Definition CompactHead (this : nat) : M Pool unit := fun h =>
  match bufs h !! this with
  | None => (Undefined, h)
  | Some p =>
    let p := if pb_payload p =? 0 then p
             else mkPbuf (pb_next p) 0 (pb_tot_len p) (pb_len p) (pb_ref p)
                    (block_write 0 (block_read (pb_payload p) (pb_len p) (pb_block p)) (pb_block p)) in
    CompactHead_loop (S (fuel_of h)) this (AvailableDataLength p) (put this p h)
  end.

(** SetDataLength(aNewLen, aChainHead): the buffers from the chain's head up to
    this one get the difference too. *)
Fixpoint add_tot_len (fuel : nat) (aChainHead : option nat) (this : nat) (lDelta : Z) : M Pool unit := fun h =>
  match aChainHead with
  | None => (Ok tt, h)
  | Some i =>
    if Nat.eqb i this then (Ok tt, h)
    else
      match fuel with
      | O => (Diverges, h)
      | S fuel =>
        match bufs h !! i with
        | None => (Undefined, h)
        | Some p => add_tot_len fuel (pb_next p) this lDelta (put i (set_tot_len (u16 (pb_tot_len p + lDelta)) p) h)
        end
      end
  end.
Definition SetDataLength_chain (this : nat) (aNewLen : Z) (aChainHead : option nat) : M Pool unit := fun h =>
  match bufs h !! this with
  | None => (Undefined, h)
  | Some p =>
    let p' := SetDataLength aNewLen p in
    add_tot_len (fuel_of h) aChainHead this (pb_len p' - pb_len p) (put this p' h)
  end.

(** ** Chains *)

(** The data bytes from buffer to buffer. *)
Definition len_at (b : list PacketBuffer) (i : nat) : Z := match b !! i with Some p => pb_len p | None => 0 end.
Definition data_at (b : list PacketBuffer) (i : nat) : list Z := match b !! i with Some p => pb_data p | None => [] end.
Definition total (b : list PacketBuffer) (l : list nat) : Z := foldr (fun i n => len_at b i + n) 0 l.
Definition chain_data (b : list PacketBuffer) (l : list nat) : list Z := concat (map (data_at b) l).

(** A chain through the buffers [l]: the first is referenced [r] times, the
    others are exclusive; [tot_len] counts the bytes from its buffer on. *)
Fixpoint chain (b : list PacketBuffer) (r : Z) (o : option nat) (l : list nat) : Prop :=
  match l with
  | [] => o = None
  | i :: l' => o = Some i /\ exists p, b !! i = Some p /\ wf_pbuf p /\ pb_tot_len p = total b l /\ pb_ref p = r /\ chain b 1 (pb_next p) l'
  end.

(** A free list through [l]. *)
Fixpoint free_list (b : list PacketBuffer) (o : option nat) (l : list nat) : Prop :=
  match l with
  | [] => o = None
  | i :: l' => o = Some i /\ exists p, b !! i = Some p /\ pb_ref p = 0 /\ free_list b (pb_next p) l'
  end.

(** Every element of the pool has its block. *)
Definition block_ok (p : PacketBuffer) : Prop :=
  AllocSize p = WEAVE_SYSTEM_PACKETBUFFER_ALLOCSIZE_MAX /\ is_bytes (pb_block p).
Definition blocks_ok (b : list PacketBuffer) : Prop := Forall block_ok b.

Lemma total_cons b i l : total b (i :: l) = len_at b i + total b l.
Proof. done. Qed.

Lemma total_app b l l' : total b (l ++ l') = total b l + total b l'.
Proof. induction l as [|i l IH]; [done|]. cbn [app]. rewrite !total_cons, IH. lia. Qed.

Lemma chain_data_app b l l' : chain_data b (l ++ l') = chain_data b l ++ chain_data b l'.
Proof. unfold chain_data. by rewrite map_app, concat_app. Qed.

Lemma total_frame b b' l : (forall k, In k l -> len_at b' k = len_at b k) -> total b' l = total b l.
Proof.
  induction l as [|i l IH]; intros Hf; [done|]. rewrite !total_cons, IH by (intros k Hk; apply Hf; by right).
  by rewrite Hf by (by left).
Qed.

Lemma chain_data_frame b b' l : (forall k, In k l -> data_at b' k = data_at b k) -> chain_data b' l = chain_data b l.
Proof. intros Hf. unfold chain_data. f_equal. by apply map_ext_in. Qed.

Lemma chain_frame b b' l : forall r o, (forall k, In k l -> b' !! k = b !! k) -> chain b r o l -> chain b' r o l.
Proof.
  induction l as [|i l IH]; intros r o Hf; [done|]. intros [-> (p & Hp & Hw & Ht & Hr & Hc)]. split; [done|]. exists p.
  rewrite Hf by (by left). rewrite Ht. split; [done|]. split; [exact Hw|]. split; [|split; [done|]].
  - symmetry. apply total_frame. intros k Hk. unfold len_at. by rewrite Hf.
  - apply IH; [|done]. intros k Hk. apply Hf. by right.
Qed.

Lemma free_list_frame b b' l : forall o, (forall k, In k l -> b' !! k = b !! k) -> free_list b o l -> free_list b' o l.
Proof.
  induction l as [|i l IH]; intros o Hf; [done|]. intros [-> (p & Hp & Hr & Hc)]. split; [done|]. exists p.
  rewrite Hf by (by left). repeat split; [done|done|]. apply IH; [|done]. intros k Hk. apply Hf. by right.
Qed.

Lemma chain_bound b l : forall r o, chain b r o l -> forall k, In k l -> (k < length b)%nat.
Proof.
  induction l as [|i l IH]; intros r o; [done|]. intros [-> (p & Hp & _ & _ & _ & Hc)] k [<-|Hk]; [by apply lookup_lt_Some in Hp|].
  by apply (IH _ _ Hc).
Qed.

Lemma chain_total b r o l : chain b r o l -> 0 <= total b l < 65536.
Proof.
  destruct l as [|i l]; [done|]. intros [-> (p & Hp & Hw & Ht & _)]. rewrite <- Ht. destruct Hw. lia.
Qed.

Lemma chain_data_length b r o l : chain b r o l -> Z.of_nat (length (chain_data b l)) = total b l.
Proof.
  revert r o. induction l as [|i l IH]; intros r o; [done|]. intros [-> (p & Hp & Hw & _ & _ & Hc)].
  unfold chain_data in *. cbn [map concat]. rewrite length_app, Nat2Z.inj_add, (IH _ _ Hc), total_cons.
  unfold data_at, len_at. rewrite Hp. by rewrite pb_data_length.
Qed.

(** A change that keeps what chains are made of. *)
Lemma wf_set_next n p : wf_pbuf p -> wf_pbuf (set_next n p).
Proof. intros []. by split. Qed.
Lemma wf_set_ref r p : wf_pbuf p -> wf_pbuf (set_ref r p).
Proof. intros []. by split. Qed.
Lemma wf_set_tot t p : wf_pbuf p -> pb_len p <= t < 65536 -> wf_pbuf (set_tot_len t p).
Proof. intros [] Ht. by split. Qed.

Lemma blocks_ok_insert b i p q : blocks_ok b -> b !! i = Some p -> length (pb_block q) = length (pb_block p) -> is_bytes (pb_block q) ->
  blocks_ok (<[i := q]> b).
Proof.
  intros Hb Hp Hl Hq. apply Forall_insert; [done|]. split; [|done]. pose proof (Forall_lookup_1 _ _ _ _ Hb Hp) as [Ha _].
  unfold AllocSize in *. by rewrite Hl.
Qed.

Lemma blocks_ok_same b i p q : blocks_ok b -> b !! i = Some p -> pb_block q = pb_block p -> blocks_ok (<[i := q]> b).
Proof.
  intros Hb Hp Hq. apply (blocks_ok_insert b i p q Hb Hp); rewrite Hq; [done|]. by apply (Forall_lookup_1 _ _ _ _ Hb Hp).
Qed.

(** ** The operations on chains *)

Lemma AddToEnd_ok j q l : forall fuel i r h, (length l < fuel)%nat -> chain (bufs h) r (Some i) (i :: l) -> NoDup (i :: l) ->
  ~ In j (i :: l) -> bufs h !! j = Some q -> blocks_ok (bufs h) -> 0 <= pb_tot_len q -> total (bufs h) (i :: l) + pb_tot_len q < 65536 ->
  exists b', AddToEnd_loop fuel i j h = (Ok tt, mkPool b' (sFreeList h)) /\ length b' = length (bufs h) /\ blocks_ok b' /\
    (forall k, ~ In k (i :: l) -> b' !! k = bufs h !! k) /\
    (forall k, len_at b' k = len_at (bufs h) k /\ data_at b' k = data_at (bufs h) k) /\
    (forall l2, pb_tot_len q = total (bufs h) l2 -> chain b' 1 (Some j) l2 -> chain b' r (Some i) (i :: l ++ l2)).
Proof.
  induction l as [|i2 l IH]; intros fuel i r h Hfu Hc Hnd Hj Hq Hok Hq0 Ht; (destruct fuel as [|fuel]; [cbn in Hfu; lia|]);
    cbn [AddToEnd_loop]; destruct Hc as [_ (p & Hp & Hw & Htp & Hr & Hc)]; rewrite Hp, Hq; cbv zeta; rewrite Htp;
    rewrite (u16_id (total _ _ + _)) by (destruct (Hw); lia).
  - cbn in Hc. change (pb_next (set_tot_len ?t p)) with (pb_next p). rewrite Hc. eexists. split; [reflexivity|]. cbn [put bufs sFreeList].
    rewrite length_insert. split; [done|]. split; [by apply (blocks_ok_same _ i p)|].
    split; [intros k Hk; rewrite list_lookup_insert_ne; [done|intros ->; apply Hk; by left]|].
    assert (forall k, len_at (<[i := set_next (Some j) (set_tot_len (total (bufs h) [i] + pb_tot_len q) p)]> (bufs h)) k = len_at (bufs h) k /\
                      data_at (<[i := set_next (Some j) (set_tot_len (total (bufs h) [i] + pb_tot_len q) p)]> (bufs h)) k = data_at (bufs h) k) as Hsame.
    { intros k. unfold len_at, data_at. destruct (decide (k = i)) as [->|Hne]; [|by rewrite list_lookup_insert_ne].
      rewrite list_lookup_insert_eq by (by apply lookup_lt_Some in Hp). by rewrite Hp. }
    split; [exact Hsame|]. intros l2 Hl2 Hc2. split; [done|]. eexists.
    split; [apply list_lookup_insert_eq; by apply lookup_lt_Some in Hp|].
    split; [apply wf_set_next, wf_set_tot; [done|destruct Hw; rewrite <- Htp; lia]|]. split; [|by split].
    cbn [set_next set_tot_len pb_tot_len app]. symmetry.
    etransitivity; [apply (total_frame (bufs h)); intros; apply Hsame|]. rewrite Hl2. change (i :: l2) with ([i] ++ l2). apply total_app.
  - pose proof Hc as [Hn _]. change (pb_next (set_tot_len ?t p)) with (pb_next p). rewrite Hn.
    set (p' := set_tot_len _ p). set (h1 := put i p' h).
    assert (forall k, k <> i -> bufs h1 !! k = bufs h !! k) as Hf1 by (intros k Hk; cbn; by rewrite list_lookup_insert_ne).
    assert (bufs h1 !! i = Some p') as Hi1 by (cbn; apply list_lookup_insert_eq; by apply lookup_lt_Some in Hp).
    assert (forall k, len_at (bufs h1) k = len_at (bufs h) k /\ data_at (bufs h1) k = data_at (bufs h) k) as Hs1.
    { intros k. unfold len_at, data_at. destruct (decide (k = i)) as [->|Hne]; [|by rewrite Hf1]. by rewrite Hi1, Hp. }
    pose proof (NoDup_cons_1_1 _ _ Hnd) as Hni. apply NoDup_cons_1_2 in Hnd. rewrite list_elem_of_In in Hni.
    assert (total (bufs h1) (i2 :: l) = total (bufs h) (i2 :: l)) as Htot by (apply total_frame; intros; apply Hs1).
    assert (0 <= len_at (bufs h) i) as Hle by (unfold len_at; rewrite Hp; by destruct Hw).
    destruct (IH fuel i2 1 h1) as (b' & E & Hl & Hok' & Hf & Hs & Hc'); try done.
    + cbn in Hfu. lia.
    + rewrite Hn in Hc. apply (chain_frame (bufs h)); [|done]. intros k Hk. apply Hf1. congruence.
    + intros Hin. apply Hj. by right.
    + rewrite Hf1; [done|]. intros ->. apply Hj. by left.
    + by apply (blocks_ok_same _ i p).
    + rewrite Htot. rewrite total_cons in Ht. lia.
    + exists b'. split; [exact E|]. split; [rewrite Hl; cbn; by rewrite length_insert|]. split; [done|].
      split. { intros k Hk. rewrite Hf by (intros Hin; apply Hk; by right). apply Hf1. intros ->. apply Hk. by left. }
      split. { intros k. destruct (Hs k) as [-> ->]. apply Hs1. }
      intros l2 Hl2 Hc2. split; [done|]. exists p'. split; [rewrite Hf by done; done|].
      assert (forall k, len_at b' k = len_at (bufs h) k) as Hlen by (intros k; destruct (Hs k) as [-> _]; apply Hs1).
      split; [apply (wf_set_tot _ p Hw); destruct Hw; rewrite <- Htp; lia|]. split; [|split; [done|]].
      * unfold p'. cbn [set_tot_len pb_tot_len app]. change ((i2 :: l) ++ l2) with (i2 :: l ++ l2). rewrite (total_frame (bufs h) b') by (intros; apply Hlen).
        change (i :: i2 :: l ++ l2) with ((i :: i2 :: l) ++ l2). rewrite total_app. lia.
      * change (pb_next p') with (pb_next p); rewrite Hn. apply Hc'; [|done]. rewrite Hl2. symmetry. apply total_frame. intros; apply Hs1.
Qed.

Lemma lookup_put_eq i p q h : bufs h !! i = Some q -> bufs (put i p h) !! i = Some p.
Proof. intros Hq. cbn. apply list_lookup_insert_eq. by apply lookup_lt_Some in Hq. Qed.
Lemma lookup_put_ne i k p h : k <> i -> bufs (put i p h) !! k = bufs h !! k.
Proof. intros Hk. cbn. by rewrite list_lookup_insert_ne. Qed.

(** Disjoint lists of buffers. *)
Lemma NoDup_head {A} (i : A) l : NoDup (i :: l) -> (forall k, In k l -> k <> i) /\ NoDup l.
Proof.
  intros Hnd. split; [|by apply NoDup_cons_1_2 in Hnd]. intros k Hk ->. apply NoDup_cons_1_1 in Hnd. apply Hnd. by apply list_elem_of_In.
Qed.

(** Freeing an exclusive chain puts its buffers on the free list. *)
Lemma Free_ok l : forall fuel o h fl, (length l <= fuel)%nat -> chain (bufs h) 1 o l -> NoDup (l ++ fl) ->
  free_list (bufs h) (sFreeList h) fl -> blocks_ok (bufs h) ->
  exists b' o', Free_loop fuel o h = (Ok tt, mkPool b' o') /\ length b' = length (bufs h) /\ blocks_ok b' /\
    (forall k, ~ In k l -> b' !! k = bufs h !! k) /\ free_list b' o' (rev l ++ fl).
Proof.
  induction l as [|i l IH]; intros fuel o h fl Hfu Hc Hnd Hfl Hok.
  - cbn in Hc. subst o. exists (bufs h), (sFreeList h). destruct fuel, h; done.
  - destruct Hc as [-> (p & Hp & Hw & Htp & Hr & Hc)]. destruct fuel as [|fuel]; [cbn in Hfu; lia|]. cbn [Free_loop]. rewrite Hp. cbv zeta.
    change (pb_ref (set_ref ?r p)) with r. rewrite Hr. change (u16 (1 - 1) =? 0) with true. cbv iota.
    destruct (NoDup_head _ _ Hnd) as [Hni Hnd']. set (p' := set_next _ _).
    assert (bufs h !! i = Some p) as Hp2 by done.
    destruct (IH fuel (pb_next p) (mkPool (<[i:=p']> (bufs h)) (Some i)) (i :: fl)) as (b' & o' & E & Hl & Hok' & Hf & Hfl').
    + cbn in Hfu. lia.
    + apply (chain_frame (bufs h)); [|done]. intros k Hk. cbn. rewrite list_lookup_insert_ne; [done|]. intros ->. by apply (Hni k); [apply in_or_app; left|].
    + apply (NoDup_Permutation_proper (i :: l ++ fl)); [|done]. apply Permutation_middle.
    + split; [done|]. exists p'. split; [apply (lookup_put_eq i p' p h Hp)|]. split; [done|]. cbn [p' set_next pb_next].
      apply (free_list_frame (bufs h)); [|done]. intros k Hk. apply (lookup_put_ne i k p' h). apply Hni. apply in_or_app; by right.
    + by apply (blocks_ok_same _ i p).
    + exists b', o'. split; [exact E|]. split; [rewrite Hl; cbn; by rewrite length_insert|]. split; [done|]. split.
      * intros k Hk. rewrite Hf by (intros Hin; apply Hk; by right). apply (lookup_put_ne i k p' h). intros ->. apply Hk. by left.
      * cbn [rev]. rewrite <- app_assoc. exact Hfl'.
Qed.

Lemma FreeHead_ok i l h fl : chain (bufs h) 1 (Some i) (i :: l) -> NoDup ((i :: l) ++ fl) -> free_list (bufs h) (sFreeList h) fl -> blocks_ok (bufs h) ->
  exists b' o, FreeHead i h = (Ok o, mkPool b' (Some i)) /\ length b' = length (bufs h) /\ blocks_ok b' /\
    (forall k, k <> i -> b' !! k = bufs h !! k) /\ free_list b' (Some i) (i :: fl) /\ chain b' 1 o l /\
    (exists p, bufs h !! i = Some p /\ o = pb_next p).
Proof.
  intros [_ (p & Hp & Hw & Htp & Hr & Hc)] Hnd Hfl Hok. unfold FreeHead. rewrite Hp.
  destruct (NoDup_head _ _ Hnd) as [Hni _]. set (h1 := put i (set_next None p) h).
  assert (bufs h1 !! i = Some (set_next None p)) as Hi1 by (by apply (lookup_put_eq i _ p)).
  unfold Free, fuel_of. cbn [Free_loop]. rewrite Hi1. cbv zeta. change (pb_ref (set_ref ?r _)) with r. change (pb_ref (set_next None p)) with (pb_ref p).
  rewrite Hr. change (u16 (1 - 1) =? 0) with true. cbv iota. change (pb_next (set_next None p)) with (@None nat).
  set (b' := <[i := _]> (bufs h1)).
  assert (forall k, k <> i -> b' !! k = bufs h !! k) as Hf.
  { intros k Hk. unfold b'. rewrite list_lookup_insert_ne by done. by apply lookup_put_ne. }
  exists b', (pb_next p). unfold fuel_of. destruct (length (bufs h1)); (split; [reflexivity|]);
    (split; [unfold b', h1; cbn; by rewrite !length_insert|]);
    (split; [apply (blocks_ok_same _ i (set_next None p)); [by apply (blocks_ok_same _ i p)|done|done]|]); (split; [done|]);
    (split; [split; [done|]; eexists; split; [apply list_lookup_insert_eq; by apply lookup_lt_Some in Hi1|]; split; [done|];
       apply (free_list_frame (bufs h)); [|done]; intros k Hk; apply Hf, Hni; apply in_or_app; by right|]);
    (split; [|by exists p]); apply (chain_frame (bufs h)); try done; intros k Hk; apply Hf, Hni; apply in_or_app; by left.
Qed.

(** Consume drops a prefix of the data and frees the buffers that held it. *)
Lemma Consume_ok l : forall fuel o n h fl, (length l <= fuel)%nat -> 0 <= n < 65536 -> chain (bufs h) 1 o l -> NoDup (l ++ fl) ->
  free_list (bufs h) (sFreeList h) fl -> blocks_ok (bufs h) ->
  exists d l' o' h', Consume_loop fuel o n h = (Ok o', h') /\ l = d ++ l' /\ chain (bufs h') 1 o' l' /\
    chain_data (bufs h') l' = drop (Z.to_nat n) (chain_data (bufs h) l) /\
    length (bufs h') = length (bufs h) /\ blocks_ok (bufs h') /\ (forall k, ~ In k l -> bufs h' !! k = bufs h !! k) /\
    free_list (bufs h') (sFreeList h') (rev d ++ fl).
Proof.
  induction l as [|i l IH]; intros fuel o n h fl Hfu Hn Hc Hnd Hfl Hok.
  - cbn in Hc. subst o. exists [], [], None, h. destruct fuel; cbn [Consume_loop]; repeat split; done || (unfold chain_data; cbn [map concat]; by rewrite drop_nil).
  - pose proof Hc as [-> (p & Hp & Hw & Htp & Hr & Hc')]. destruct fuel as [|fuel]; [cbn in Hfu; lia|]. cbn [Consume_loop].
    destruct (Z.leb_spec n 0) as [Hz|Hz].
    { exists [], (i :: l), (Some i), h. replace n with 0 by lia. rewrite drop_0. do 7 (split; [done|]); done. }
    rewrite Hp. cbv zeta. unfold DataLength.
    assert (chain_data (bufs h) (i :: l) = pb_data p ++ chain_data (bufs h) l) as Hcd by (unfold chain_data; cbn [map concat]; unfold data_at at 1; by rewrite Hp).
    pose proof (pb_data_length p Hw) as HLp. destruct (Z.leb_spec (pb_len p) n) as [Hle|Hgt].
    + destruct (FreeHead_ok i l h fl Hc Hnd Hfl Hok) as (b1 & o1 & -> & Hl1 & Hok1 & Hf1 & Hfl1 & Hc1 & _).
      destruct (NoDup_head _ _ Hnd) as [Hni Hnd'].
      destruct (IH fuel o1 (u16 (n - pb_len p)) (mkPool b1 (Some i)) (i :: fl)) as (d & l' & o' & h' & E & -> & Hc2 & Hd2 & Hl2 & Hok2 & Hf2 & Hfl2); try done.
      * cbn in Hfu. lia.
      * apply u16_range.
      * apply (NoDup_Permutation_proper (i :: l ++ fl)); [|done]. apply Permutation_middle.
      * exists (i :: d), l', o', h'. split; [exact E|]. split; [done|]. split; [done|]. split; [|split; [by rewrite Hl2|split; [done|split]]].
        { rewrite Hd2, Hcd. cbn [bufs]. rewrite u16_id by (destruct Hw; lia).
          rewrite drop_app_ge by lia. rewrite (chain_data_frame (bufs h) b1).
          - f_equal. lia.
          - intros k Hk. unfold data_at. rewrite Hf1; [done|]. apply Hni. apply in_or_app. by left. }
        { intros k Hk. rewrite Hf2 by (intros Hin; apply Hk; by right). apply Hf1. intros ->. apply Hk. by left. }
        { cbn [rev]. rewrite <- app_assoc. exact Hfl2. }
    + destruct (ConsumeHead_ok n p Hw ltac:(lia)) as (Hw' & Hd' & Hlen' & Ht').
      destruct (NoDup_head _ _ Hnd) as [Hni Hnd'].
      assert (forall k, k <> i -> bufs (put i (ConsumeHead n p) h) !! k = bufs h !! k) as Hf by (intros; by apply lookup_put_ne).
      assert (bufs (put i (ConsumeHead n p) h) !! i = Some (ConsumeHead n p)) as Hi by (by apply (lookup_put_eq i _ p)).
      exists [], (i :: l), (Some i), (put i (ConsumeHead n p) h). split; [done|]. split; [done|].
      assert (forall k, In k l -> k <> i) as Hni' by (intros k Hk; apply Hni; apply in_or_app; by left).
      split; [split; [done|]; exists (ConsumeHead n p); split; [done|]; split; [done|]; split; [|split; [done|]]|].
      * rewrite total_cons. unfold len_at at 1. rewrite Hi, Hlen'. rewrite (total_frame (bufs h)) by (intros k Hk; unfold len_at; rewrite Hf by auto; done).
        rewrite total_cons in Htp. unfold len_at at 1 in Htp. rewrite Hp in Htp. lia.
      * apply (chain_frame (bufs h)); [|done]. intros k Hk. apply Hf. auto.
      * split. { rewrite Hcd. unfold chain_data at 1. cbn [map concat]. unfold data_at at 1. rewrite Hi, Hd'.
          rewrite (drop_app_le (pb_data p)) by lia. f_equal. apply (chain_data_frame (bufs h)). intros k Hk. unfold data_at. rewrite Hf by auto. done. }
        split; [cbn; by rewrite length_insert|]. split; [by apply (blocks_ok_same _ i p)|].
        split; [intros k Hk; apply Hf; intros ->; apply Hk; by left|]. cbn [rev app sFreeList put].
        apply (free_list_frame (bufs h)); [|done]. intros k Hk. apply Hf, Hni. apply in_or_app. by right.
Qed.

(** Appending bytes behind the data of a buffer. *)
Lemma append_data p l : wf_pbuf p -> is_bytes l -> pb_payload p + pb_len p + Z.of_nat (length l) <= AllocSize p ->
  pb_len p + Z.of_nat (length l) <= pb_tot_len p ->
  let p' := mkPbuf (pb_next p) (pb_payload p) (pb_tot_len p) (u16 (pb_len p + Z.of_nat (length l))) (pb_ref p)
              (block_write (pb_payload p + pb_len p) l (pb_block p)) in
  wf_pbuf p' /\ pb_data p' = pb_data p ++ l /\ pb_len p' = pb_len p + Z.of_nat (length l) /\ length (pb_block p') = length (pb_block p).
Proof.
  intros Hw Hl Hs Ht p'. pose proof Hw as []. assert (length (pb_block p') = length (pb_block p)) as HL.
  { cbn [p' pb_block]. apply block_write_length; unfold AllocSize in *; lia. }
  assert (pb_len p' = pb_len p + Z.of_nat (length l)) as HN by (cbn [p' pb_len]; apply u16_id; lia).
  split; [|split; [|done]].
  - split; unfold AllocSize in *; rewrite ?HL, ?HN; cbn [p' pb_payload pb_tot_len pb_block]; try lia. by apply block_write_bytes.
  - unfold pb_data at 1. rewrite HN. cbn [p' pb_payload pb_block]. rewrite block_read_split by lia. f_equal.
    + rewrite block_read_write_before by (unfold AllocSize in *; lia). done.
    + apply block_read_write; unfold AllocSize in *; lia.
Qed.

(** Moving bytes from the second buffer of a chain to the first. *)
Lemma move_ok i n l r h p q mv : bufs h !! i = Some p -> bufs h !! n = Some q -> pb_next p = Some n -> chain (bufs h) r (Some i) (i :: n :: l) ->
  NoDup (i :: n :: l) -> blocks_ok (bufs h) -> 0 <= mv <= pb_len q -> pb_payload p + pb_len p + mv <= AllocSize p ->
  let h1 := put n (move_out mv q) (put i (move_in mv p q) h) in
  bufs h1 !! i = Some (move_in mv p q) /\ bufs h1 !! n = Some (move_out mv q) /\ pb_len (move_in mv p q) = pb_len p + mv /\
  pb_len (move_out mv q) = pb_len q - mv /\ AllocSize (move_in mv p q) = AllocSize p /\
  chain (bufs h1) r (Some i) (i :: n :: l) /\ chain_data (bufs h1) (i :: n :: l) = chain_data (bufs h) (i :: n :: l) /\
  length (bufs h1) = length (bufs h) /\ blocks_ok (bufs h1) /\ (forall k, k <> i -> k <> n -> bufs h1 !! k = bufs h !! k).
Proof.
  intros Hp Hq Hn (_ & p0 & Hp0 & Hw & Htp & Hr & Hc) Hnd Hok Hm Hs h1. assert (p0 = p) as -> by congruence.
  destruct Hc as (_ & q0 & Hq0 & Hwq & Htq & Hrq & Hcq). assert (q0 = q) as -> by congruence.
  destruct (NoDup_head _ _ Hnd) as [Hni Hnd']. destruct (NoDup_head _ _ Hnd') as [Hnn _].
  assert (n <> i) as Hne by (apply Hni; by left). pose proof (proj1 (chain_total _ _ _ _ Hcq)) as Hl0.
  destruct (ConsumeHead_ok mv q Hwq ltac:(lia)) as (Hwq1 & Hdq1 & Hlq1 & Htq1).
  assert (move_out mv q = ConsumeHead mv q) as Eq1 by (unfold ConsumeHead; by rewrite (proj2 (Z.ltb_ge (pb_len q) mv)) by lia).
  rewrite <- Eq1 in Hwq1, Hdq1, Hlq1, Htq1. clear Eq1. set (l1 := block_read (pb_payload q) mv (pb_block q)).
  assert (Z.of_nat (length l1) = mv) as Hl1 by (destruct Hwq; apply block_read_length; unfold AllocSize in *; lia).
  assert (pb_data q = l1 ++ pb_data (move_out mv q)) as Edq.
  { rewrite Hdq1. rewrite <- (take_drop (Z.to_nat mv) (pb_data q)) at 1. f_equal. unfold pb_data, l1, block_read. rewrite take_take. f_equal. lia. }
  rewrite !total_cons in Htp. rewrite total_cons in Htq. unfold len_at at 1 2 in Htp. unfold len_at at 1 in Htq. rewrite Hp, Hq in Htp. rewrite Hq in Htq.
  destruct (append_data p l1 Hw ltac:(destruct Hwq; by apply block_read_bytes) ltac:(lia) ltac:(lia)) as (Hwp1 & Hdp1 & Hlp1 & Hbp1).
  rewrite Hl1 in Hwp1, Hdp1, Hlp1, Hbp1. change (mkPbuf _ _ _ _ _ _) with (move_in mv p q) in Hwp1, Hdp1, Hlp1, Hbp1.
  assert (bufs h1 !! i = Some (move_in mv p q)) as Hi1 by (unfold h1; rewrite lookup_put_ne by done; by apply (lookup_put_eq i _ p)).
  assert (bufs h1 !! n = Some (move_out mv q)) as Hn1 by (apply (lookup_put_eq n _ q); by rewrite lookup_put_ne).
  assert (forall k, k <> i -> k <> n -> bufs h1 !! k = bufs h !! k) as Hf1 by (intros k Hki Hkn; unfold h1; by rewrite !lookup_put_ne).
  assert (forall k, In k l -> bufs h1 !! k = bufs h !! k) as Hfl1 by (intros k Hk; apply Hf1; [apply Hni; by right|by apply Hnn]).
  assert (total (bufs h1) l = total (bufs h) l) as Etl by (apply total_frame; intros k Hk; unfold len_at; by rewrite Hfl1).
  split; [done|]. split; [done|]. split; [done|]. split; [lia|]. split; [unfold AllocSize; by rewrite Hbp1|]. split; [|split; [|split; [|split; [|done]]]].
  - split; [done|]. exists (move_in mv p q). split; [done|]. split; [done|].
    split; [|split; [done|change (pb_next (move_in mv p q)) with (pb_next p); rewrite Hn; split; [done|]]].
    + rewrite !total_cons, Etl. unfold len_at. rewrite Hi1, Hn1, Hlp1, Hlq1. cbn [move_in pb_tot_len]. lia.
    + exists (move_out mv q). split; [done|]. split; [done|]. split; [|split; [done|by apply (chain_frame (bufs h))]].
      rewrite total_cons, Etl. unfold len_at. rewrite Hn1. lia.
  - unfold chain_data. cbn [map concat]. unfold data_at at 1 2 4 5. rewrite Hi1, Hn1, Hp, Hq, Hdp1, Edq.
    fold (chain_data (bufs h1) l) (chain_data (bufs h) l). rewrite <- !app_assoc. do 3 f_equal.
    apply chain_data_frame. intros k Hk. unfold data_at. by rewrite Hfl1.
  - unfold h1. cbn. by rewrite !length_insert.
  - apply (blocks_ok_same _ n q); [|by rewrite lookup_put_ne|done]. apply (blocks_ok_insert _ i p); [done|done|done|by destruct Hwp1].
Qed.

(** Unlinking the second buffer of a chain once it is empty. *)
Lemma unlink_ok i n l r h fl p : bufs h !! i = Some p -> chain (bufs h) r (Some i) (i :: n :: l) -> NoDup ((i :: n :: l) ++ fl) ->
  free_list (bufs h) (sFreeList h) fl -> blocks_ok (bufs h) -> len_at (bufs h) n = 0 ->
  exists o h1, FreeHead n h = (Ok o, h1) /\ let h2 := put i (set_next o p) h1 in
    bufs h2 !! i = Some (set_next o p) /\ chain (bufs h2) r (Some i) (i :: l) /\ chain_data (bufs h2) (i :: l) = chain_data (bufs h) (i :: n :: l) /\
    length (bufs h2) = length (bufs h) /\ blocks_ok (bufs h2) /\ (forall k, k <> i -> k <> n -> bufs h2 !! k = bufs h !! k) /\
    free_list (bufs h2) (sFreeList h2) (n :: fl).
Proof.
  intros Hp (_ & p0 & Hp0 & Hw & Htp & Hr & Hc) Hnd Hfl Hok Hz. assert (p0 = p) as -> by congruence.
  destruct (NoDup_head _ _ Hnd) as [Hni Hnd']. destruct (NoDup_head _ _ Hnd') as [Hnn _].
  assert (n <> i) as Hne by (apply Hni; by left). pose proof Hc as [Hn _]. rewrite Hn in Hc.
  destruct (FreeHead_ok n l h fl Hc ltac:(done) Hfl Hok) as (b2 & o & -> & Hl2 & Hok2 & Hf2 & Hfl2 & Hc2 & _).
  exists o, (mkPool b2 (Some n)). split; [done|]. intros h2.
  assert (bufs h2 !! i = Some (set_next o p)) as Hi by (apply (lookup_put_eq i _ p); cbn; by rewrite Hf2).
  assert (forall k, k <> i -> bufs h2 !! k = b2 !! k) as Hf3 by (intros k Hk; by apply (lookup_put_ne i k _ (mkPool b2 (Some n)))).
  assert (forall k, In k l -> bufs h2 !! k = bufs h !! k) as Hfl3.
  { intros k Hk. rewrite Hf3 by (apply Hni; right; apply in_or_app; by left). apply Hf2, Hnn. apply in_or_app; by left. }
  assert (total (bufs h2) l = total (bufs h) l) as Etl by (apply total_frame; intros k Hk; unfold len_at; by rewrite Hfl3).
  rewrite !total_cons in Htp. rewrite Hz in Htp.
  split; [done|]. split; [|split; [|split; [|split; [|split]]]].
  - split; [done|]. exists (set_next o p). split; [done|]. split; [by apply wf_set_next|]. split; [|split; [done|]].
    + rewrite total_cons, Etl. unfold len_at at 1. rewrite Hi. unfold len_at at 1 in Htp. rewrite Hp in Htp. cbn [set_next pb_tot_len pb_len]. lia.
    + apply (chain_frame b2); [|done]. intros k Hk. apply Hf3. apply Hni. right. apply in_or_app. by left.
  - unfold chain_data. cbn [map concat]. assert (data_at (bufs h) n = []) as ->.
    { destruct Hc as (_ & q & Hq & Hwq & _). unfold data_at, len_at in *. rewrite Hq in *. apply length_zero_iff_nil.
      pose proof (pb_data_length q Hwq). lia. }
    unfold data_at at 1 3. rewrite Hi, Hp. change (pb_data (set_next o p)) with (pb_data p). f_equal.
    apply chain_data_frame. intros k Hk. unfold data_at. by rewrite Hfl3.
  - unfold h2. cbn. by rewrite length_insert.
  - apply (blocks_ok_same _ i p); [done|by rewrite Hf2|done].
  - intros k Hki Hkn. rewrite Hf3 by done. by apply Hf2.
  - apply (free_list_frame b2); [|done]. intros k [<-|Hk]; [by apply Hf3|]. apply Hf3, Hni. right. apply in_or_app. by right.
Qed.

(** The first buffer is full or alone; alone, if there was one more and it fits. *)
Definition compacted (h : Pool) (i : nat) (l : list nat) (h' : Pool) (l' : list nat) : Prop :=
  (l' = [] \/ len_at (bufs h') i = WEAVE_SYSTEM_PACKETBUFFER_ALLOCSIZE_MAX) /\
  (length l = 1%nat -> len_at (bufs h) i < WEAVE_SYSTEM_PACKETBUFFER_ALLOCSIZE_MAX ->
   total (bufs h) (i :: l) <= WEAVE_SYSTEM_PACKETBUFFER_ALLOCSIZE_MAX -> l' = []).

(** CompactHead moves data to the front until the first buffer is full or alone. *)
Lemma CompactHead_loop_ok l : forall fuel i r h fl p, (length l < fuel)%nat -> bufs h !! i = Some p -> pb_payload p = 0 ->
  chain (bufs h) r (Some i) (i :: l) -> NoDup ((i :: l) ++ fl) -> free_list (bufs h) (sFreeList h) fl -> blocks_ok (bufs h) ->
  exists d l' h', CompactHead_loop fuel i (AllocSize p - pb_len p) h = (Ok tt, h') /\ l = d ++ l' /\ chain (bufs h') r (Some i) (i :: l') /\
    chain_data (bufs h') (i :: l') = chain_data (bufs h) (i :: l) /\ compacted h i l h' l' /\
    length (bufs h') = length (bufs h) /\ blocks_ok (bufs h') /\ (forall k, ~ In k (i :: l) -> bufs h' !! k = bufs h !! k) /\
    free_list (bufs h') (sFreeList h') (rev d ++ fl).
Proof.
  induction l as [|n l IH]; intros fuel i r h fl p Hfu Hp Hpay Hch Hnd Hfl Hok; pose proof (Forall_lookup_1 _ _ _ _ Hok Hp) as [Hal _];
    (destruct fuel as [|fuel]; [cbn in Hfu; lia|]); cbn [CompactHead_loop]; rewrite Hp;
    pose proof Hch as (_ & p0 & Hp0 & Hw & Htp & Hr & Hc); assert (p0 = p) as -> by congruence.
  - cbn in Hc. rewrite Hc, andb_false_r. exists [], [], h. do 4 (split; [done|]). split; [by split; [left|]|]. by repeat split.
  - destruct (Z.ltb_spec 0 (AllocSize p - pb_len p)) as [Hav|Hav].
    2:{ cbn [andb]. exists [], (n :: l), h. do 4 (split; [done|]). split; [|done].
        assert (len_at (bufs h) i = WEAVE_SYSTEM_PACKETBUFFER_ALLOCSIZE_MAX) as Hf by (unfold len_at; rewrite Hp; destruct Hw; lia).
        split; [by right|lia]. }
    pose proof Hc as [Hn (q & Hq & Hwq & _ & Hrq & _)]. rewrite Hn, bool_decide_eq_false_2 by done. cbn [andb negb]. rewrite Hq, Hrq.
    cbn [Z.eqb Pos.eqb negb]. set (mv := if AllocSize p - pb_len p <? pb_len q then AllocSize p - pb_len p else pb_len q).
    assert (0 <= mv <= pb_len q /\ mv <= AllocSize p - pb_len p /\ (mv = pb_len q \/ mv = AllocSize p - pb_len p)) as (Hm1 & Hm2 & Hm3)
      by (unfold mv; destruct (Z.ltb_spec (AllocSize p - pb_len p) (pb_len q)); destruct Hw, Hwq; lia). clearbody mv. cbv zeta.
    assert (NoDup (i :: n :: l)) as Hnd1 by (by apply (list.NoDup_app (i :: n :: l) fl) in Hnd as [? _]).
    destruct (move_ok i n l r h p q mv Hp Hq Hn Hch Hnd1 Hok Hm1 ltac:(lia)) as (Hi1 & Hn1 & Lp & Lq & Ea & Hc1 & Hd1 & Hl1 & Hok1 & Hf1).
    set (h1 := put n (move_out mv q) (put i (move_in mv p q) h)) in *.
    assert (free_list (bufs h1) (sFreeList h1) fl) as Hfl1.
    { apply (free_list_frame (bufs h)); [|done]. destruct (NoDup_head _ _ Hnd) as [Hni Hnd']. destruct (NoDup_head _ _ Hnd') as [Hnn _].
      intros k Hk. apply Hf1; [apply Hni; right|apply Hnn]; apply in_or_app; by right. }
    assert (u16 (AllocSize p - pb_len p - mv) = AllocSize p - (pb_len p + mv)) as -> by (rewrite u16_id by (destruct Hw; lia); lia).
    rewrite Lq. destruct (Z.eqb_spec (pb_len q - mv) 0) as [Hz|Hz].
    + destruct (unlink_ok i n l r h1 fl _ Hi1 Hc1 Hnd Hfl1 Hok1 ltac:(unfold len_at; rewrite Hn1; lia))
        as (o & h2 & -> & Hi2 & Hc2 & Hd2 & Hl2 & Hok2 & Hf2 & Hfl2).
      destruct (IH fuel i r (put i (set_next o (move_in mv p q)) h2) (n :: fl) (set_next o (move_in mv p q)) ltac:(cbn in Hfu; lia) Hi2 Hpay Hc2)
        as (d & l' & h' & E & -> & Hc' & Hd' & Hfull & Hl' & Hok' & Hf' & Hfl'); [|done|done|].
      { apply (NoDup_Permutation_proper (i :: n :: l ++ fl)); [|done]. cbn [app]. apply perm_skip, Permutation_middle. }
      exists (n :: d), l', h'. change (AllocSize (set_next o (move_in mv p q))) with (AllocSize (move_in mv p q)) in E.
      change (pb_len (set_next o (move_in mv p q))) with (pb_len (move_in mv p q)) in E. rewrite Ea, Lp in E.
      split; [exact E|]. do 2 (split; [done|]). split; [by rewrite Hd', Hd2, Hd1|].
      split; [split; [apply Hfull|intros H1 _ _; cbn in H1; destruct d, l'; cbn in H1; (done || lia)]|]. split; [by rewrite Hl', Hl2, Hl1|]. split; [done|].
      split; [|cbn [rev]; rewrite <- app_assoc; exact Hfl'].
      intros k Hk. rewrite Hf' by (intros [?|?]; apply Hk; [by left|by right; right]).
      rewrite Hf2, Hf1; try done; intros ->; apply Hk; first [by left | right; by left].
    + assert (CompactHead_loop fuel i (AllocSize p - (pb_len p + mv)) h1 = (Ok tt, h1)) as ->.
      { destruct fuel; cbn [CompactHead_loop]; rewrite Hi1; rewrite (proj2 (Z.ltb_ge 0 _)) by lia; done. }
      exists [], (n :: l), h1. do 4 (split; [done|]).
      split; [split; [right; unfold len_at; rewrite Hi1, Lp; lia|]|].
      { intros H1 _ Htl. exfalso. destruct l; [|cbn in H1; lia]. cbn in Htl. unfold len_at in Htl. rewrite Hp, Hq in Htl. lia. }
      split; [done|]. split; [done|]. split; [|done]. intros k Hk. apply Hf1; intros ->; apply Hk; [by left|right; by left].
Qed.

Lemma CompactHead_ok i l r h fl : chain (bufs h) r (Some i) (i :: l) -> NoDup ((i :: l) ++ fl) -> free_list (bufs h) (sFreeList h) fl ->
  blocks_ok (bufs h) -> (length l < length (bufs h))%nat ->
  exists d l' h', CompactHead i h = (Ok tt, h') /\ l = d ++ l' /\ chain (bufs h') r (Some i) (i :: l') /\
    chain_data (bufs h') (i :: l') = chain_data (bufs h) (i :: l) /\ compacted h i l h' l' /\
    length (bufs h') = length (bufs h) /\ blocks_ok (bufs h') /\ (forall k, ~ In k (i :: l) -> bufs h' !! k = bufs h !! k) /\
    free_list (bufs h') (sFreeList h') (rev d ++ fl).
Proof.
  intros (_ & p & Hp & Hw & Htp & Hr & Hc) Hnd Hfl Hok Hfu. unfold CompactHead. rewrite Hp.
  set (p0 := if pb_payload p =? 0 then p else _).
  assert (pb_payload p0 = 0 /\ pb_len p0 = pb_len p /\ pb_tot_len p0 = pb_tot_len p /\ pb_next p0 = pb_next p /\ pb_ref p0 = pb_ref p /\
          wf_pbuf p0 /\ pb_data p0 = pb_data p /\ length (pb_block p0) = length (pb_block p)) as (E1 & E2 & E3 & E4 & E5 & Hw0 & E6 & E7).
  { unfold p0. destruct (Z.eqb_spec (pb_payload p) 0) as [|Hne]; [do 7 (split; [done|]); done|]. cbn [pb_payload pb_len pb_tot_len pb_next pb_ref pb_block].
    pose proof Hw as []. pose proof (pb_data_length p Hw) as HL. unfold pb_data in HL. unfold AllocSize in *.
    assert (length (block_write 0 (block_read (pb_payload p) (pb_len p) (pb_block p)) (pb_block p)) = length (pb_block p)) as HB by (apply block_write_length; lia).
    do 5 (split; [done|]). split; [|split; [|done]].
    - split; unfold AllocSize; cbn; rewrite ?HB; try lia. by apply block_write_bytes; [apply block_read_bytes|].
    - unfold pb_data. cbn [pb_payload pb_len pb_block]. rewrite <- HL at 1. by apply block_read_write; lia. }
  clearbody p0. set (h0 := put i p0 h). destruct (NoDup_head _ _ Hnd) as [Hni Hnd'].
  assert (bufs h0 !! i = Some p0) as Hi by (by apply (lookup_put_eq i _ p)).
  assert (forall k, k <> i -> bufs h0 !! k = bufs h !! k) as Hf by (intros; by apply lookup_put_ne).
  assert (forall k, len_at (bufs h0) k = len_at (bufs h) k /\ data_at (bufs h0) k = data_at (bufs h) k) as Hs.
  { intros k. unfold len_at, data_at. destruct (decide (k = i)) as [->|Hk]; [rewrite Hi, Hp; done|by rewrite Hf]. }
  assert (AvailableDataLength p0 = AllocSize p0 - pb_len p0) as -> by (unfold AvailableDataLength; rewrite MaxDataLength_eq, E1 by done; rewrite u16_id; destruct Hw0; lia).
  destruct (CompactHead_loop_ok l (S (fuel_of h)) i r h0 fl p0) as (d & l' & h' & E & HE & Hc' & Hd' & Hfull & Hl' & Hok' & Hf' & Hfl'); try done.
  - unfold fuel_of. lia.
  - split; [done|]. exists p0. split; [done|]. split; [done|]. split; [|split; [by rewrite E5|]].
    + rewrite E3, Htp. symmetry. apply total_frame. intros; apply Hs.
    + rewrite E4. apply (chain_frame (bufs h)); [|done]. intros k Hk. apply Hf, Hni. apply in_or_app; by left.
  - apply (free_list_frame (bufs h)); [|done]. intros k Hk. apply Hf, Hni. apply in_or_app; by right.
  - apply (blocks_ok_insert _ i p); [done|done|done|by destruct Hw0].
  - exists d, l', h'. split; [exact E|]. do 2 (split; [done|]). split; [rewrite Hd'; apply chain_data_frame; intros; apply Hs|].
    split; [destruct Hfull as [F1 F2]; split; [done|]; intros H1 H2 H3; apply F2; [done|by rewrite (proj1 (Hs i))|]|].
    { rewrite (total_frame (bufs h)); [done|]. intros; apply Hs. }
    split; [rewrite Hl'; cbn; by rewrite length_insert|]. split; [done|]. split; [|done].
    intros k Hk. rewrite Hf' by done. apply Hf. intros ->. apply Hk. by left.
Qed.

(** ** A client of the pool

    A client holds buffers by their handles, one entry per reference it owns, and
    keeps to the rules of the interface: it uses handles it holds, gives away
    what it adds to a chain, and consumes chains that nobody else holds. *)
Inductive PoolOp :=
  | OpNew (aReservedSize aAvailableSize : Z)
  | OpFill (i : nat) (bytes : list Z)      (* memcpy behind the data, and SetDataLength *)
  | OpAddRef (i : nat)
  | OpFree (i : nat)
  | OpAddToEnd (i j : nat)
  | OpDetachTail (i : nat)
  | OpConsume (i : nat) (n : Z)
  | OpCompactHead (i : nat).

Definition refs (own : list nat) (i : nat) : Z := Z.of_nat (count_occ Nat.eq_dec own i).
Fixpoint release (i : nat) (own : list nat) : list nat :=
  match own with [] => [] | k :: own => if Nat.eqb k i then own else k :: release i own end.

Definition next_of (h : Pool) (i : nat) : option nat := match bufs h !! i with Some p => pb_next p | None => None end.
Definition tot_of (h : Pool) (i : nat) : Z := match bufs h !! i with Some p => pb_tot_len p | None => 0 end.
Definition room_of (h : Pool) (i : nat) : Z := match bufs h !! i with Some p => MaxDataLength p - DataLength p | None => 0 end.

(** The client's rules. *)
Definition op_allowed (op : PoolOp) (h : Pool) (own : list nat) : bool :=
  match op with
  | OpNew r a => (0 <=? r) && (r <? 65536) && (0 <=? a)
  | OpFill i bytes => (0 <? refs own i) && bool_decide (next_of h i = None) && forallb byte_ok bytes && (Z.of_nat (length bytes) <=? room_of h i)
  | OpAddRef i => (0 <? refs own i) && (refs own i <? 65535)
  | OpFree i | OpCompactHead i => 0 <? refs own i
  | OpAddToEnd i j => (0 <? refs own i) && (refs own j =? 1) && negb (Nat.eqb i j) && (tot_of h i + tot_of h j <? 65536)
  | OpDetachTail i => (0 <? refs own i) && negb (bool_decide (next_of h i = None))
  | OpConsume i n => (refs own i =? 1) && (0 <=? n) && (n <? 65536)
  end.

Definition fill (i : nat) (bytes : list Z) (h : Pool) : Pool :=
  match bufs h !! i with
  | None => h
  | Some p =>
    let p' := mkPbuf (pb_next p) (pb_payload p) (pb_tot_len p) (pb_len p) (pb_ref p) (block_write (pb_payload p + pb_len p) bytes (pb_block p)) in
    put i (SetDataLength (pb_len p + Z.of_nat (length bytes)) p') h
  end.

(** The operation on the pool, and what the client then holds. *)
Definition pool_step (op : PoolOp) (h : Pool) (own : list nat) : res (list nat) * Pool :=
  match op with
  | OpNew r a => match NewWithAvailableSize r a h with (Some i, h) => (Ok (i :: own), h) | (None, h) => (Ok own, h) end
  | OpFill i bytes => (Ok own, fill i bytes h)
  | OpAddRef i => bind (AddRef i) (fun _ => ret (i :: own)) h
  | OpFree i => bind (Free (Some i)) (fun _ => ret (release i own)) h
  | OpAddToEnd i j => bind (AddToEnd i j) (fun _ => ret (release j own)) h
  | OpDetachTail i => bind (DetachTail i) (fun n => ret (n :: own)) h
  | OpConsume i n => bind (Consume i n) (fun o => ret (match o with Some k => k :: release i own | None => release i own end)) h
  | OpCompactHead i => bind (CompactHead i) (fun _ => ret own) h
  end.

Definition upd (i : nat) (d : list Z) (m : nat -> list Z) : nat -> list Z := fun k => if Nat.eqb k i then d else m k.

(** What the operations mean for the byte strings [m] behind the handles. *)
Inductive string_step (own own' : list nat) (m : nat -> list Z) : PoolOp -> (nat -> list Z) -> Prop :=
  | SNew r a i : ~ In i own -> own' = i :: own -> string_step own own' m (OpNew r a) (upd i [] m)
  | SNewFails r a : own' = own -> string_step own own' m (OpNew r a) m
  | SFill i bytes : own' = own -> string_step own own' m (OpFill i bytes) (upd i (m i ++ bytes) m)
  | SAddRef i : own' = i :: own -> string_step own own' m (OpAddRef i) m
  | SFree i : own' = release i own -> string_step own own' m (OpFree i) m
  | SAddToEnd i j : own' = release j own -> string_step own own' m (OpAddToEnd i j) (upd i (m i ++ m j) m)
  | SDetachTail i n d1 d2 : own' = n :: own -> ~ In n own -> m i = d1 ++ d2 -> string_step own own' m (OpDetachTail i) (upd n d2 (upd i d1 m))
  | SConsume i n k : own' = k :: release i own -> ~ In k (release i own) ->
      string_step own own' m (OpConsume i n) (upd k (drop (Z.to_nat n) (m i)) m)
  | SConsumeAll i n : own' = release i own -> Z.of_nat (length (m i)) <= n -> string_step own own' m (OpConsume i n) m
  | SCompactHead i : own' = own -> string_step own own' m (OpCompactHead i) m.

(** The ownership of the pool: every buffer is free or in one chain; the client
    holds the head of every chain, as often as it is referenced; [m] is the data. *)
Definition chain_held (h : Pool) (own : list nat) (m : nat -> list Z) (c : list nat) : Prop :=
  exists i l, c = i :: l /\ chain (bufs h) (refs own i) (Some i) c /\ 1 <= refs own i < 65536 /\ m i = chain_data (bufs h) c.

Record pool_rep (h : Pool) (own : list nat) (m : nat -> list Z) (fl : list nat) (cs : list (list nat)) : Prop := {
  rep_free : free_list (bufs h) (sFreeList h) fl;
  rep_blocks : blocks_ok (bufs h);
  rep_parts : Permutation (fl ++ concat cs) (seq 0 (length (bufs h)));
  rep_chains : Forall (chain_held h own m) cs;
  rep_own : forall i, In i own -> exists l, In (i :: l) cs }.

Lemma rep_NoDup h own m fl cs : pool_rep h own m fl cs -> NoDup (fl ++ concat cs).
Proof. intros []. rewrite rep_parts0. apply NoDup_ListNoDup, seq_NoDup. Qed.

Lemma refs_In own i : In i own <-> 0 < refs own i.
Proof. unfold refs. rewrite (count_occ_In Nat.eq_dec). lia. Qed.

Lemma refs_cons own i k : refs (i :: own) k = (if Nat.eq_dec i k then 1 else 0) + refs own k.
Proof. unfold refs. cbn [count_occ]. destruct (Nat.eq_dec i k); lia. Qed.

Lemma refs_release own i k : In i own -> refs (release i own) k = refs own k - (if Nat.eq_dec i k then 1 else 0).
Proof.
  induction own as [|x own IH]; intros Hi; [done|]. cbn [release]. destruct (Nat.eqb_spec x i) as [->|Hne].
  - rewrite refs_cons. destruct (Nat.eq_dec i k); lia.
  - destruct Hi as [->|Hi]; [done|]. rewrite !refs_cons, IH by done. lia.
Qed.

Lemma In_release own i k : In k (release i own) -> In k own.
Proof. induction own as [|x own IH]; [done|]. cbn [release]. destruct (Nat.eqb x i); [by right|]. intros [->|Hk]; [by left|right; auto]. Qed.

(** The order of the chains does not matter. *)
Lemma rep_permute h own m fl cs cs' : Permutation cs cs' -> pool_rep h own m fl cs -> pool_rep h own m fl cs'.
Proof.
  intros HP []. split; [done|done| |by rewrite <- HP|].
  - rewrite <- rep_parts0. apply Permutation_app_head. clear -HP. induction HP; cbn; auto.
    + by apply Permutation_app_head.
    + rewrite !app_assoc. apply Permutation_app_tail, Permutation_app_comm.
    + by etransitivity.
  - intros i Hi. destruct (rep_own0 i Hi) as (l & Hl). exists l. by apply (Permutation_in _ HP).
Qed.

(** Picking the chain of a handle. *)
Lemma rep_pick h own m fl cs i : pool_rep h own m fl cs -> In i own ->
  exists l cs', pool_rep h own m fl ((i :: l) :: cs') /\ Permutation cs ((i :: l) :: cs').
Proof.
  intros HR Hi. destruct (rep_own _ _ _ _ _ HR i Hi) as (l & Hl). apply in_split in Hl as (c1 & c2 & ->).
  exists l, (c1 ++ c2). assert (Permutation (c1 ++ (i :: l) :: c2) ((i :: l) :: c1 ++ c2)) as HP by (symmetry; apply Permutation_middle).
  split; [|done]. by apply (rep_permute _ _ _ _ _ _ HP).
Qed.

(** The rest of the pool is left alone when an operation works on the free
    buffers and the chains [cs0] only. *)
Lemma rep_replace h own m fl cs0 cs h' own' m' fl' cs1 : pool_rep h own m fl (cs0 ++ cs) ->
  length (bufs h') = length (bufs h) -> blocks_ok (bufs h') -> free_list (bufs h') (sFreeList h') fl' ->
  Permutation (fl' ++ concat cs1) (fl ++ concat cs0) ->
  (forall k, ~ In k (fl ++ concat cs0) -> bufs h' !! k = bufs h !! k /\ refs own' k = refs own k /\ m' k = m k) ->
  Forall (chain_held h' own' m') cs1 -> (forall i, In i own' -> In i (fl ++ concat cs0) -> exists l, In (i :: l) cs1) ->
  pool_rep h' own' m' fl' (cs1 ++ cs).
Proof.
  intros HR Hl Hok Hfl HP Hf Hc1 Ho. pose proof (rep_NoDup _ _ _ _ _ HR) as Hnd. destruct HR.
  rewrite concat_app, app_assoc in Hnd, rep_parts0. apply list.NoDup_app in Hnd as (_ & Hdis & _).
  split; [done|done| | |].
  - by rewrite concat_app, app_assoc, HP, Hl.
  - apply Forall_app_2; [done|]. apply Forall_app in rep_chains0 as [_ Hc]. apply List.Forall_forall. intros c Hin.
    rewrite List.Forall_forall in Hc. destruct (Hc c Hin) as (i & l & -> & Hch & Hr & Hm).
    assert (forall k, In k (i :: l) -> ~ In k (fl ++ concat cs0)) as Hk.
    { intros k Hk Hk'. apply (Hdis k); apply list_elem_of_In; [done|]. apply in_concat. by exists (i :: l). }
    assert (refs own' i = refs own i /\ m' i = m i) as [Er Em] by (by apply Hf, Hk; left).
    exists i, l. split; [done|]. rewrite Er. split; [|split; [done|]].
    + apply (chain_frame (bufs h)); [|done]. intros k Hin'. by apply Hf, Hk.
    + rewrite Em, Hm. symmetry. apply chain_data_frame. intros k Hin'. unfold data_at. by rewrite (proj1 (Hf k (Hk k Hin'))).
  - intros i Hi. destruct (in_dec Nat.eq_dec i (fl ++ concat cs0)) as [Hin|Hin].
    + destruct (Ho i Hi Hin) as (l & Hl'). exists l. apply in_or_app. by left.
    + destruct (Hf i Hin) as (_ & Er & _). rewrite refs_In, Er, <- refs_In in Hi. destruct (rep_own0 i Hi) as (l & Hl').
      exists l. apply in_or_app. right. apply in_app_or in Hl' as [Hl'|]; [|done]. exfalso. apply Hin. apply in_or_app. right.
      apply in_concat. exists (i :: l). by split; [|left].
Qed.

(** A change of the first buffer of a chain that keeps its link. *)
Lemma chain_head b r i l p p' : b !! i = Some p -> chain b r (Some i) (i :: l) -> NoDup (i :: l) -> wf_pbuf p' -> pb_next p' = pb_next p ->
  pb_tot_len p' - pb_len p' = pb_tot_len p - pb_len p ->
  chain (<[i := p']> b) (pb_ref p') (Some i) (i :: l) /\ chain_data (<[i := p']> b) (i :: l) = pb_data p' ++ chain_data b l.
Proof.
  intros Hp (_ & q & Hq & Hw & Ht & Hr & Hc) Hnd Hw' Hn Hd. assert (q = p) as -> by congruence.
  destruct (NoDup_head _ _ Hnd) as [Hni _]. assert (<[i := p']> b !! i = Some p') as Hi by (apply list_lookup_insert_eq; by apply lookup_lt_Some in Hp).
  assert (forall k, In k l -> <[i := p']> b !! k = b !! k) as Hf by (intros k Hk; rewrite list_lookup_insert_ne; [done|by apply not_eq_sym, Hni]).
  split.
  - split; [done|]. exists p'. split; [done|]. split; [done|]. split; [|split; [done|rewrite Hn; by apply (chain_frame b)]].
    rewrite total_cons in Ht |- *. unfold len_at at 1 in Ht. unfold len_at at 1. rewrite Hp in Ht. rewrite Hi.
    rewrite (total_frame b (<[i := p']> b)) by (intros k Hk; unfold len_at; by rewrite Hf). lia.
  - unfold chain_data. cbn [map concat]. unfold data_at at 1. rewrite Hi. f_equal. apply chain_data_frame. intros k Hk. unfold data_at. by rewrite Hf.
Qed.

Lemma NoDup_single_chain fl (c : list nat) cs : NoDup (fl ++ concat (c :: cs)) -> NoDup (c ++ fl) /\ NoDup c.
Proof.
  cbn [concat]. rewrite app_assoc. intros Hnd. apply list.NoDup_app in Hnd as (Hnd & _ & _). split.
  - by rewrite (Permutation_app_comm c fl).
  - by apply list.NoDup_app in Hnd as (_ & _ & Hnd).
Qed.

(** Operations on one chain, which they may shorten. *)
Section OneChain.
Context (h : Pool) (own : list nat) (m : nat -> list Z) (fl : list nat) (cs : list (list nat)) (i : nat) (l : list nat).
Context (HR : pool_rep h own m fl ((i :: l) :: cs)).

Lemma one_chain : chain (bufs h) (refs own i) (Some i) (i :: l) /\ 1 <= refs own i < 65536 /\ m i = chain_data (bufs h) (i :: l) /\
  NoDup ((i :: l) ++ fl) /\ NoDup (i :: l) /\ (length l < length (bufs h))%nat.
Proof.
  pose proof (rep_NoDup _ _ _ _ _ HR) as Hnd. destruct (NoDup_single_chain _ _ _ Hnd) as [Hnd1 Hnd2].
  pose proof (rep_chains _ _ _ _ _ HR) as HC. apply list.Forall_cons_1 in HC as [(i' & l' & [= <- <-] & Hc & Hr & Hm) _].
  do 3 (split; [done|]). split; [done|]. split; [done|].
  assert (length (i :: l) <= length (seq 0 (length (bufs h))))%nat as HL; [|rewrite length_seq in HL; cbn in HL; lia].
  apply NoDup_incl_length; [by apply NoDup_ListNoDup|]. intros k Hk. apply in_seq. pose proof (chain_bound _ _ _ _ Hc k Hk). lia.
Qed.

Lemma keep_one h' own' m' fl' l' d : l = d ++ l' -> length (bufs h') = length (bufs h) -> blocks_ok (bufs h') ->
  free_list (bufs h') (sFreeList h') fl' -> Permutation fl' (rev d ++ fl) -> (forall k, ~ In k (i :: l) -> ~ In k fl -> bufs h' !! k = bufs h !! k) ->
  chain (bufs h') (refs own' i) (Some i) (i :: l') -> 1 <= refs own' i < 65536 -> m' i = chain_data (bufs h') (i :: l') ->
  (forall k, k <> i -> refs own' k = refs own k /\ m' k = m k) -> pool_rep h' own' m' fl' ((i :: l') :: cs).
Proof.
  intros Hl HL Hok Hfl HP Hf Hc Hr Hm Ho. destruct one_chain as (_ & _ & _ & Hnd & _ & _).
  assert (Permutation (fl' ++ i :: l') (fl ++ i :: l)) as HPall.
  { rewrite HP, Hl, <- (Permutation_rev d). rewrite (Permutation_app_comm d fl), <- app_assoc. apply Permutation_app_head.
    rewrite <- Permutation_middle. done. }
  apply (rep_replace h own m fl [i :: l] cs h' own' m' fl' [i :: l'] HR HL Hok Hfl).
  - cbn. by rewrite !app_nil_r.
  - cbn. rewrite app_nil_r. intros k Hk. assert (k <> i) as Hki by (intros ->; apply Hk; apply in_or_app; right; by left).
    split; [|by apply Ho]. apply Hf; intros Hin; apply Hk; apply in_or_app; [by right|by left].
  - constructor; [|constructor]. exists i, l'. done.
  - cbn. rewrite app_nil_r. intros k Hk Hin. destruct (Nat.eq_dec k i) as [->|Hne]; [by exists l'; left|]. exfalso.
    destruct (Ho k Hne) as [Er _]. rewrite refs_In, Er, <- refs_In in Hk. destruct (rep_own _ _ _ _ _ HR k Hk) as (l2 & [[= -> ->]|Hl2]); [done|].
    pose proof (rep_NoDup _ _ _ _ _ HR) as Hnd2. cbn [concat] in Hnd2. rewrite app_assoc in Hnd2. apply list.NoDup_app in Hnd2 as (_ & Hd & _).
    apply (Hd k); apply list_elem_of_In; [done|]. apply in_concat. exists (k :: l2). by split; [|left].
Qed.
End OneChain.

(** ** Every operation does what it means *)

Definition step_ok (op : PoolOp) (h : Pool) (own : list nat) (m : nat -> list Z) : Prop :=
  exists own' h' m' fl' cs', pool_step op h own = (Ok own', h') /\ string_step own own' m op m' /\ pool_rep h' own' m' fl' cs'.

Lemma upd_eq i d m : upd i d m i = d.
Proof. unfold upd. by rewrite Nat.eqb_refl. Qed.
Lemma upd_ne i d m k : k <> i -> upd i d m k = m k.
Proof. intros Hk. unfold upd. by rewrite (proj2 (Nat.eqb_neq k i) Hk). Qed.

Lemma refs_other i own k : k <> i -> refs (i :: own) k = refs own k.
Proof. intros Hk. rewrite refs_cons. destruct (Nat.eq_dec i k); [congruence|lia]. Qed.
Lemma refs_same i own : refs (i :: own) i = 1 + refs own i.
Proof. rewrite refs_cons. by destruct (Nat.eq_dec i i). Qed.
Lemma release_other i own k : In i own -> k <> i -> refs (release i own) k = refs own k.
Proof. intros Hi Hk. rewrite refs_release by done. destruct (Nat.eq_dec i k); [congruence|lia]. Qed.
Lemma release_same i own : In i own -> refs (release i own) i = refs own i - 1.
Proof. intros Hi. rewrite refs_release by done. by destruct (Nat.eq_dec i i). Qed.

Section Steps.
Context (h : Pool) (own : list nat) (m : nat -> list Z) (fl : list nat).

(** Rewriting a buffer that is a chain of its own. *)
Lemma update_rep cs i p p' : pool_rep h own m fl ([i] :: cs) -> bufs h !! i = Some p -> wf_pbuf p' -> pb_next p' = pb_next p -> pb_ref p' = pb_ref p ->
  pb_tot_len p' = pb_len p' -> length (pb_block p') = length (pb_block p) -> pool_rep (put i p' h) own (upd i (pb_data p') m) fl ([i] :: cs).
Proof.
  intros HR Hp Hw' En Er Et Hb. destruct (one_chain _ _ _ _ _ _ _ HR) as (Hc & Hr & Hm & Hnd & Hnd1 & _).
  pose proof Hc as (_ & p0 & Hp0 & Hw & Ht & Hrp & Hcl). assert (p0 = p) as -> by congruence. cbn in Ht. unfold len_at in Ht. rewrite Hp in Ht.
  destruct (chain_head _ _ _ _ p p' Hp Hc Hnd1 Hw' En ltac:(lia)) as [Hc2 Hcd2].
  apply (keep_one _ _ _ _ _ _ _ HR (put i p' h) own _ fl [] []); try done.
  - cbn. by rewrite length_insert.
  - apply (blocks_ok_insert _ i p); [apply HR|done|done|by destruct Hw'].
  - apply (free_list_frame (bufs h)); [|apply HR]. intros k Hk. apply lookup_put_ne. destruct (NoDup_head _ _ Hnd) as [Hni _]. by apply Hni.
  - intros k Hk _. apply lookup_put_ne. intros ->. apply Hk. by left.
  - rewrite <- Hrp, <- Er. exact Hc2.
  - rewrite upd_eq. cbn [put bufs]. rewrite Hcd2. unfold chain_data. cbn. by rewrite app_nil_r.
  - intros k Hk. by rewrite upd_ne.
Qed.

(** A buffer that is a chain of its own. *)
Lemma single_buffer cs i : pool_rep h own m fl ([i] :: cs) ->
  exists p, bufs h !! i = Some p /\ wf_pbuf p /\ pb_tot_len p = pb_len p /\ pb_next p = None /\ pb_ref p = refs own i /\ m i = pb_data p /\
    AllocSize p = WEAVE_SYSTEM_PACKETBUFFER_ALLOCSIZE_MAX.
Proof.
  intros HR. destruct (one_chain _ _ _ _ _ _ _ HR) as (Hc & Hr & Hm & _). destruct Hc as (_ & p & Hp & Hw & Ht & Hrp & Hcl).
  exists p. cbn in Ht. unfold len_at in Ht. rewrite Hp in Ht. do 2 (split; [done|]). split; [lia|]. split; [done|]. split; [done|]. split.
  - rewrite Hm. unfold chain_data. cbn. unfold data_at. by rewrite Hp, app_nil_r.
  - by apply (Forall_lookup_1 _ _ _ _ (rep_blocks _ _ _ _ _ HR) Hp).
Qed.

Lemma Fill_rep cs i bytes : pool_rep h own m fl ([i] :: cs) -> is_bytes bytes -> Z.of_nat (length bytes) <= room_of h i ->
  pool_rep (fill i bytes h) own (upd i (m i ++ bytes) m) fl ([i] :: cs).
Proof.
  intros HR Hb Hr. destruct (single_buffer _ _ HR) as (p & Hp & Hw & Ht & Hn & Href & Hm & HA). unfold room_of, fill in *. rewrite Hp in *.
  rewrite MaxDataLength_eq in Hr by done. unfold DataLength in *. pose proof Hw as [].
  set (p1 := mkPbuf (pb_next p) (pb_payload p) (pb_tot_len p) (pb_len p) (pb_ref p) (block_write (pb_payload p + pb_len p) bytes (pb_block p))).
  assert (length (pb_block p1) = length (pb_block p)) as HL by (apply block_write_length; unfold AllocSize in *; lia).
  assert (AllocSize p1 = AllocSize p) as HA1 by (unfold AllocSize; by rewrite HL).
  assert (wf_pbuf p1) as Hw1 by (split; rewrite ?HA1; cbn [p1 pb_payload pb_len pb_tot_len pb_block]; try done; try lia; by apply block_write_bytes).
  destruct (SetDataLength_ok (pb_len p + Z.of_nat (length bytes)) p1 Hw1 ltac:(rewrite HA1; cbn [p1 pb_payload]; lia) ltac:(cbn [p1 pb_tot_len pb_len]; lia))
    as (Hw2 & Hd2 & Hp2 & Hl2 & Hb2). set (p2 := SetDataLength _ p1) in *. cbv zeta.
  assert (m i ++ bytes = pb_data p2) as ->.
  { rewrite Hd2, Hm. cbn [p1 pb_payload pb_block]. rewrite block_read_split by lia. f_equal.
    - rewrite block_read_write_before by (unfold AllocSize in *; lia). done.
    - symmetry. apply block_read_write; unfold AllocSize in *; lia. }
  apply (update_rep cs i p p2); try done.
  rewrite Hl2. unfold p2, SetDataLength. cbn [pb_tot_len]. rewrite MaxDataLength_eq, HA1 by done. cbn [p1 pb_payload pb_tot_len pb_len].
  rewrite (proj2 (Z.ltb_ge _ _)) by lia. rewrite u16_id by lia. lia.
Qed.

Lemma Fill_step cs i bytes : pool_rep h own m fl cs -> op_allowed (OpFill i bytes) h own = true -> step_ok (OpFill i bytes) h own m.
Proof.
  intros HR Ha. cbn [op_allowed] in Ha. bool_prop. match goal with H : bool_decide _ = true |- _ => apply bool_decide_eq_true_1 in H as Hn end.
  assert (In i own) as Hin by (by apply refs_In). destruct (rep_pick _ _ _ _ _ i HR Hin) as (l & cs' & HR' & _).
  destruct (one_chain _ _ _ _ _ _ _ HR') as ((_ & p & Hp & _ & _ & _ & Hcl) & _).
  assert (l = []) as -> by (unfold next_of in Hn; rewrite Hp in Hn; destruct l; [done|]; destruct Hcl as [E _]; congruence).
  exists own, (fill i bytes h), (upd i (m i ++ bytes) m), fl, ([i] :: cs'). split; [done|]. split; [by apply SFill|].
  apply Fill_rep; [done|by apply byte_ok_spec|done].
Qed.

Lemma AddRef_step cs i : pool_rep h own m fl cs -> op_allowed (OpAddRef i) h own = true -> step_ok (OpAddRef i) h own m.
Proof.
  intros HR Ha. cbn [op_allowed] in Ha. bool_prop. assert (In i own) as Hin by (by apply refs_In).
  destruct (rep_pick _ _ _ _ _ i HR Hin) as (l & cs' & HR' & _).
  destruct (one_chain _ _ _ _ _ _ _ HR') as (Hc & Hr & Hm & Hnd & Hnd1 & _). pose proof Hc as (_ & p & Hp & Hw & Ht & Hrp & Hcl).
  destruct (chain_head _ _ _ _ p (set_ref (u16 (pb_ref p + 1)) p) Hp Hc Hnd1 (wf_set_ref _ _ Hw) eq_refl eq_refl) as [Hc2 Hcd2].
  exists (i :: own), (put i (set_ref (u16 (pb_ref p + 1)) p) h), m, fl, ((i :: l) :: cs').
  cbn [pool_step]. unfold bind, AddRef. rewrite Hp. split; [done|]. split; [by apply SAddRef|].
  apply (keep_one _ _ _ _ _ _ _ HR' _ _ m fl l []); try done.
  - cbn. by rewrite length_insert.
  - by apply (blocks_ok_same _ i p); [apply HR'| |].
  - apply (free_list_frame (bufs h)); [|apply HR']. intros k Hk. apply lookup_put_ne. destruct (NoDup_head _ _ Hnd) as [Hni _].
    apply Hni. apply in_or_app. by right.
  - intros k Hk _. apply lookup_put_ne. intros ->. apply Hk. by left.
  - rewrite refs_same. replace (1 + refs own i) with (pb_ref (set_ref (u16 (pb_ref p + 1)) p)) by (cbn; rewrite Hrp, u16_id; lia). exact Hc2.
  - rewrite refs_same. lia.
  - cbn [put bufs]. rewrite Hcd2, Hm. unfold chain_data. cbn [map concat]. unfold data_at at 1. by rewrite Hp.
  - intros k Hk. by rewrite refs_other.
Qed.

Lemma CompactHead_rep cs i l : pool_rep h own m fl ((i :: l) :: cs) ->
  exists d l' h', CompactHead i h = (Ok tt, h') /\ l = d ++ l' /\ compacted h i l h' l' /\ pool_rep h' own m (rev d ++ fl) ((i :: l') :: cs).
Proof.
  intros HR'. destruct (one_chain _ _ _ _ _ _ _ HR') as (Hc & Hr & Hm & Hnd & Hnd1 & HL).
  destruct (CompactHead_ok i l _ h fl Hc Hnd (rep_free _ _ _ _ _ HR') (rep_blocks _ _ _ _ _ HR') HL)
    as (d & l' & h' & E & Hl & Hc' & Hd' & Hcp & HL' & Hok' & Hf' & Hfl').
  exists d, l', h'. do 3 (split; [done|]). apply (keep_one _ _ _ _ _ _ _ HR' h' own m (rev d ++ fl) l' d); try done.
  - intros k Hk _. by apply Hf'.
  - by rewrite Hd', Hm.
Qed.

Lemma CompactHead_step cs i : pool_rep h own m fl cs -> op_allowed (OpCompactHead i) h own = true -> step_ok (OpCompactHead i) h own m.
Proof.
  intros HR Ha. cbn [op_allowed] in Ha. bool_prop. assert (In i own) as Hin by (by apply refs_In).
  destruct (rep_pick _ _ _ _ _ i HR Hin) as (l & cs' & HR' & _). destruct (CompactHead_rep _ _ _ HR') as (d & l' & h' & E & _ & _ & HR2).
  exists own, h', m, (rev d ++ fl), ((i :: l') :: cs'). cbn [pool_step]. unfold bind. rewrite E. split; [done|]. split; [by apply SCompactHead|done].
Qed.
End Steps.

(** A handle is the head of its chain. *)
Lemma held_not_free h own m fl cs k : pool_rep h own m fl cs -> In k own -> ~ In k fl.
Proof.
  intros HR Hk Hin. destruct (rep_own _ _ _ _ _ HR k Hk) as (l2 & Hl2). pose proof (rep_NoDup _ _ _ _ _ HR) as Hnd.
  apply list.NoDup_app in Hnd as (_ & Hd & _). apply (Hd k); apply list_elem_of_In; [done|]. apply in_concat. exists (k :: l2). by split; [|left].
Qed.
Lemma held_head h own m fl cs i l k : pool_rep h own m fl ((i :: l) :: cs) -> In k own -> In k (i :: l) -> k = i.
Proof.
  intros HR Hk Hin. destruct (rep_own _ _ _ _ _ HR k Hk) as (l2 & [[= -> ->]|Hl2]); [done|]. exfalso.
  pose proof (rep_NoDup _ _ _ _ _ HR) as Hnd. cbn [concat] in Hnd. apply list.NoDup_app in Hnd as (_ & _ & Hnd).
  apply list.NoDup_app in Hnd as (_ & Hd & _). apply (Hd k); apply list_elem_of_In; [done|]. apply in_concat. exists (k :: l2). by split; [|left].
Qed.

Section MoreSteps.
Context (h : Pool) (own : list nat) (m : nat -> list Z) (fl : list nat).

(** A chain nobody holds any more goes to the free list. *)
Lemma drop_one cs i l h' own' m' fl' : pool_rep h own m fl ((i :: l) :: cs) -> length (bufs h') = length (bufs h) -> blocks_ok (bufs h') ->
  free_list (bufs h') (sFreeList h') fl' -> Permutation fl' (rev (i :: l) ++ fl) ->
  (forall k, ~ In k (i :: l) -> ~ In k fl -> bufs h' !! k = bufs h !! k) -> refs own' i = 0 ->
  (forall k, k <> i -> refs own' k = refs own k /\ m' k = m k) -> pool_rep h' own' m' fl' cs.
Proof.
  intros HR HL Hok Hfl HP Hf Hz Ho. apply (rep_replace h own m fl [i :: l] cs h' own' m' fl' [] HR HL Hok Hfl).
  - cbn [concat]. rewrite !app_nil_r, HP, <- (Permutation_rev (i :: l)). apply Permutation_app_comm.
  - cbn. rewrite app_nil_r. intros k Hk. assert (k <> i) as Hki by (intros ->; apply Hk; apply in_or_app; right; by left).
    split; [|by apply Ho]. apply Hf; intros Hin; apply Hk; apply in_or_app; [by right|by left].
  - constructor.
  - cbn. rewrite app_nil_r. intros k Hk Hin. exfalso. destruct (Nat.eq_dec k i) as [->|Hne]; [apply refs_In in Hk; lia|].
    destruct (Ho k Hne) as [Er _]. rewrite refs_In, Er, <- refs_In in Hk.
    apply in_app_or in Hin as [Hin|Hin]; [by apply (held_not_free _ _ _ _ _ k HR)|]. apply Hne. by apply (held_head _ _ _ _ _ _ _ _ HR).
Qed.

Lemma Free_step cs i : pool_rep h own m fl cs -> op_allowed (OpFree i) h own = true -> step_ok (OpFree i) h own m.
Proof.
  intros HR Ha. cbn [op_allowed] in Ha. bool_prop. assert (In i own) as Hin by (by apply refs_In).
  destruct (rep_pick _ _ _ _ _ i HR Hin) as (l & cs' & HR' & _).
  destruct (one_chain _ _ _ _ _ _ _ HR') as (Hc & Hr & Hm & Hnd & Hnd1 & HL). pose proof HR' as [HRf HRb _ _ _].
  unfold step_ok. cbn [pool_step]. unfold bind, Free. destruct (Z.eq_dec (refs own i) 1) as [H1|H1].
  - rewrite H1 in Hc. destruct (Free_ok (i :: l) (fuel_of h) (Some i) h fl ltac:(unfold fuel_of; cbn; lia) Hc Hnd HRf HRb)
      as (b' & o' & -> & HL' & Hok' & Hf' & Hfl').
    exists (release i own), (mkPool b' o'), m, (rev (i :: l) ++ fl), cs'. split; [done|]. split; [by apply SFree|].
    apply (drop_one _ _ _ _ _ _ _ HR'); try done.
    + intros k Hk _. by apply Hf'.
    + rewrite release_same by done. lia.
    + intros k Hk. by rewrite release_other.
  - pose proof Hc as (_ & p & Hp & Hw & Ht & Hrp & Hcl). unfold fuel_of. cbn [Free_loop]. rewrite Hp. cbv zeta.
    change (pb_ref (set_ref ?r p)) with r. rewrite Hrp, u16_id by lia. rewrite (proj2 (Z.eqb_neq _ 0)) by lia.
    destruct (chain_head _ _ _ _ p (set_ref (refs own i - 1) p) Hp Hc Hnd1 (wf_set_ref _ _ Hw) eq_refl eq_refl) as [Hc2 Hcd2].
    exists (release i own), (put i (set_ref (refs own i - 1) p) h), m, fl, ((i :: l) :: cs'). split; [done|]. split; [by apply SFree|].
    apply (keep_one _ _ _ _ _ _ _ HR' _ _ m fl l []); try done.
    + cbn. by rewrite length_insert.
    + by apply (blocks_ok_same _ i p).
    + apply (free_list_frame (bufs h)); [|done]. intros k Hk. apply lookup_put_ne. destruct (NoDup_head _ _ Hnd) as [Hni _].
      apply Hni. apply in_or_app. by right.
    + intros k Hk _. apply lookup_put_ne. intros ->. apply Hk. by left.
    + rewrite release_same by done. exact Hc2.
    + rewrite release_same by done. lia.
    + cbn [put bufs]. rewrite Hcd2, Hm. unfold chain_data. cbn [map concat]. unfold data_at at 1. by rewrite Hp.
    + intros k Hk. by rewrite release_other.
Qed.

Lemma Consume_step cs i n : pool_rep h own m fl cs -> op_allowed (OpConsume i n) h own = true -> step_ok (OpConsume i n) h own m.
Proof.
  intros HR Ha. cbn [op_allowed] in Ha. bool_prop. assert (In i own) as Hin by (apply refs_In; lia).
  destruct (rep_pick _ _ _ _ _ i HR Hin) as (l & cs' & HR' & _).
  destruct (one_chain _ _ _ _ _ _ _ HR') as (Hc & Hr & Hm & Hnd & Hnd1 & HL). pose proof HR' as [HRf HRb _ _ _].
  assert (refs own i = 1) as Hone by done. rewrite Hone in Hc.
  destruct (Consume_ok (i :: l) (fuel_of h) (Some i) n h fl ltac:(unfold fuel_of; cbn; lia) ltac:(lia) Hc Hnd HRf HRb)
    as (d & l' & o' & h' & E & Hl & Hc' & Hd' & HL' & Hok' & Hf' & Hfl').
  assert (forall k, k <> i -> In k (i :: l) -> ~ In k own) as Hno by (intros k Hne Hk Hko; apply Hne; by apply (held_head _ _ _ _ _ _ _ _ HR')).
  assert (refs (release i own) i = 0) as Hz by (rewrite release_same by done; lia).
  unfold step_ok. cbn [pool_step]. unfold bind, Consume. rewrite E. destruct l' as [|k l'].
  - cbn in Hc'. subst o'. rewrite app_nil_r in Hl. subst d.
    exists (release i own), h', m, (rev (i :: l) ++ fl), cs'. split; [done|]. split.
    + apply SConsumeAll; [done|]. rewrite Hm. apply (f_equal length) in Hd'. rewrite length_drop in Hd'. change (length (chain_data _ [])) with 0%nat in Hd'. lia.
    + apply (drop_one _ _ _ _ _ _ _ HR'); try done; [intros k Hk _; by apply Hf'|]. intros k Hk. by rewrite release_other.
  - pose proof Hc' as [-> _].
    assert (In k (i :: l)) as Hk by (rewrite Hl; apply in_or_app; right; by left).
    assert (refs (release i own) k = 0) as Hzk.
    { destruct (Nat.eq_dec k i) as [->|Hne]; [done|]. rewrite release_other by done. pose proof (Hno k Hne Hk) as Hn. rewrite refs_In in Hn. unfold refs in *. lia. }
    set (m' := upd k (drop (Z.to_nat n) (m i)) m). assert (refs (k :: release i own) k = 1) as H1k by (rewrite refs_same; lia).
    exists (k :: release i own), h', m', (rev d ++ fl), ((k :: l') :: cs'). split; [done|]. split; [apply SConsume; [done|rewrite refs_In; lia]|].
    apply (rep_replace h own m fl [i :: l] cs' h' _ m' (rev d ++ fl) [k :: l'] HR' HL' Hok' Hfl').
    + cbn [concat]. rewrite !app_nil_r, <- (Permutation_rev d), Hl. rewrite (Permutation_app_comm d fl), <- app_assoc. done.
    + cbn. rewrite app_nil_r. intros x Hx. assert (~ In x (i :: l)) as Hx1 by (intros Hin'; apply Hx; apply in_or_app; by right).
      split; [by apply Hf'|]. assert (x <> k) as Hxk by congruence. assert (x <> i) as Hxi by (intros ->; apply Hx1; by left).
      unfold m'. rewrite upd_ne, refs_other by done. by rewrite release_other.
    + constructor; [|constructor]. exists k, l'. split; [done|]. rewrite H1k. split; [done|]. split; [lia|].
      unfold m'. by rewrite upd_eq, Hm, Hd'.
    + cbn. rewrite app_nil_r. intros x Hx Hin'. destruct (Nat.eq_dec x k) as [->|Hne]; [by exists l'; left|]. exfalso.
      destruct Hx as [->|Hx]; [done|]. assert (x <> i) as Hxi by (intros ->; apply refs_In in Hx; lia).
      apply (In_release own i) in Hx. apply in_app_or in Hin' as [Hin'|Hin']; [by apply (held_not_free _ _ _ _ _ x HR')|by apply (Hno x Hxi Hin')].
Qed.

Lemma New_rep cs r a i fl' : fl = i :: fl' -> pool_rep h own m fl cs -> 0 <= r < 65536 -> 0 <= a -> r + a <= WEAVE_SYSTEM_PACKETBUFFER_ALLOCSIZE_MAX ->
  exists h', NewWithAvailableSize r a h = (Some i, h') /\ pool_rep h' (i :: own) (upd i [] m) fl' ([i] :: cs) /\ ~ In i own /\
    exists p, bufs h' !! i = Some p /\ pb_payload p = r /\ pb_len p = 0.
Proof.
  intros -> HR Hr0 Ha0 Hs. pose proof HR as [HRf HRb HRp _ _]. unfold NewWithAvailableSize. rewrite (proj2 (Z.ltb_ge _ _)) by lia.
  destruct HRf as [-> (p & Hp & Hrp & HRf)]. rewrite Hp. set (p' := init_pbuf r (pb_block p)). set (h' := put i p' _).
  pose proof (rep_NoDup _ _ _ _ _ HR) as Hnd. cbn [app] in Hnd. destruct (NoDup_head _ _ Hnd) as [Hni Hnd'].
  assert (refs own i = 0) as Hz.
  { destruct (Z.eq_dec (refs own i) 0) as [|Hne]; [done|]. exfalso. assert (In i own) as Hin by (apply refs_In; unfold refs in *; lia).
apply (held_not_free _ _ _ _ _ i HR Hin). by left. }
  assert (forall k, k <> i -> bufs h' !! k = bufs h !! k) as Hf by (intros k Hk; unfold h'; cbn; by rewrite list_lookup_insert_ne).
  assert (bufs h' !! i = Some p') as Hi by (apply (lookup_put_eq i p' p); done).
  pose proof (Forall_lookup_1 _ _ _ _ HRb Hp) as [HA HB]. unfold WEAVE_SYSTEM_PACKETBUFFER_ALLOCSIZE_MAX, WEAVE_SYSTEM_PACKETBUFFER_SIZE, WEAVE_SYSTEM_PACKETBUFFER_HEADER_SIZE in *.
  assert (wf_pbuf p') as Hw' by (split; unfold AllocSize in *; cbn; try lia; done).
  exists h'. split; [done|]. split; [|split; [rewrite refs_In; lia|by exists p']].
  apply (rep_replace h own m (i :: fl') [] cs h' _ _ fl' [[i]] HR).
  - unfold h'. cbn. by rewrite length_insert.
  - by apply (blocks_ok_same _ i p).
  - cbn. apply (free_list_frame (bufs h)); [|done]. intros k Hk. apply Hf, Hni. apply in_or_app. by left.
  - cbn [concat app]. rewrite !app_nil_r. symmetry. apply Permutation_cons_append.
  - cbn. rewrite app_nil_r. intros k Hk. assert (k <> i) as Hki by (intros ->; apply Hk; by left). rewrite upd_ne, refs_other by done. by rewrite Hf.
  - constructor; [|constructor]. exists i, []. split; [done|]. rewrite refs_same, Hz, upd_eq. split; [|split; [lia|]].
    + split; [done|]. exists p'. split; [done|]. split; [done|]. split; [|by split].
      rewrite total_cons. unfold len_at. by rewrite Hi.
    + unfold chain_data. cbn [map concat]. unfold data_at. by rewrite Hi, app_nil_r.
  - cbn. rewrite app_nil_r. intros k Hk Hin. destruct (Nat.eq_dec k i) as [->|Hne]; [by exists []; left|]. exfalso.
    destruct Hk as [->|Hk]; [done|]. destruct Hin as [->|Hin]; [done|].
    apply (held_not_free _ _ _ _ _ k HR Hk). by right.
Qed.

Lemma New_step cs r a : pool_rep h own m fl cs -> op_allowed (OpNew r a) h own = true -> step_ok (OpNew r a) h own m.
Proof.
  intros HR Ha. cbn [op_allowed] in Ha. bool_prop. unfold step_ok, pool_step.
  destruct (Z.le_gt_cases (r + a) WEAVE_SYSTEM_PACKETBUFFER_ALLOCSIZE_MAX) as [Hs|Hs].
  2:{ exists own, h, m, fl, cs. unfold NewWithAvailableSize. rewrite (proj2 (Z.ltb_lt _ _)) by lia. split; [done|]. by split; [apply SNewFails|]. }
  destruct fl as [|i fl'] eqn:Efl.
  - exists own, h, m, [], cs. unfold NewWithAvailableSize. pose proof (rep_free _ _ _ _ _ HR) as Hf. cbn in Hf. rewrite Hf.
    destruct (_ <? _); (split; [done|]; by split; [apply SNewFails|]).
  - rewrite <- Efl in HR. destruct (New_rep cs r a i fl' Efl HR) as (h' & E & HR' & Hn & _); [lia..|].
    exists (i :: own), h', (upd i [] m), fl', ([i] :: cs). rewrite E. split; [done|]. by split; [apply SNew|].
Qed.
End MoreSteps.

Section TwoChains.
Context (h : Pool) (own : list nat) (m : nat -> list Z) (fl : list nat).

Lemma AddToEnd_rep cs i l j l2 : pool_rep h own m fl ((i :: l) :: (j :: l2) :: cs) -> In i own -> In j own -> refs own j = 1 ->
  tot_of h i + tot_of h j < 65536 ->
  exists h', AddToEnd i j h = (Ok tt, h') /\ pool_rep h' (release j own) (upd i (m i ++ m j) m) fl ((i :: l ++ j :: l2) :: cs) /\
    (forall k, len_at (bufs h') k = len_at (bufs h) k).
Proof.
  intros HR2 Hin Hjn Hone Htot. pose proof (rep_permute _ _ _ _ _ _ (perm_swap (j :: l2) (i :: l) cs) HR2) as HR1.
  destruct (one_chain _ _ _ _ _ _ _ HR2) as (Hc & Hr & Hm & Hnd & Hnd1 & HL). destruct (one_chain _ _ _ _ _ _ _ HR1) as (Hcj & Hrj & Hmj & Hndj & Hndj1 & HLj).
  rewrite Hone in Hcj. pose proof Hcj as (_ & q & Hq & Hwq & Htq & _ & _). pose proof Hc as (_ & p & Hp & Hw & Ht & _ & _).
  unfold tot_of in *. rewrite Hp, Hq in *.
  pose proof (rep_NoDup _ _ _ _ _ HR2) as Hnd2. cbn [concat app] in Hnd2. apply list.NoDup_app in Hnd2 as (_ & _ & Hnd2).
  assert (forall k, In k (i :: l) -> ~ In k (j :: l2)) as Hdis.
  { change (NoDup ((i :: l) ++ (j :: l2) ++ concat cs)) in Hnd2. apply list.NoDup_app in Hnd2 as (_ & Hd & _).
    intros k Hk Hk2. apply (Hd k); apply list_elem_of_In; [done|]. apply in_or_app. by left. }
  assert (i <> j) as Hij by (intros ->; apply (Hdis j); by left).
  destruct (AddToEnd_ok j q l (fuel_of h) i (refs own i) h ltac:(unfold fuel_of; lia) Hc Hnd1 ltac:(intros Hk; apply (Hdis j Hk); by left) Hq
    (rep_blocks _ _ _ _ _ HR2) ltac:(destruct Hwq; lia) ltac:(lia)) as (b' & E & HL' & Hok' & Hf' & Hs' & Hc').
  assert (forall k, In k (j :: l2) -> b' !! k = bufs h !! k) as Hfj by (intros k Hk; apply Hf'; intros Hk2; by apply (Hdis k)).
  exists (mkPool b' (sFreeList h)). split; [exact E|]. split; [|intros k; apply Hs'].
  apply (rep_replace h own m fl [i :: l; j :: l2] cs (mkPool b' (sFreeList h)) _ _ fl [i :: l ++ j :: l2] HR2 HL' Hok').
  - apply (free_list_frame (bufs h)); [|apply HR2]. intros k Hk. apply Hf'. intros Hk2. destruct (NoDup_single_chain fl (i :: l) ((j :: l2) :: cs)) as [Hn _];
      [by apply (rep_NoDup _ _ _ _ _ HR2)|]. apply list.NoDup_app in Hn as (_ & Hd & _). by apply (Hd k); apply list_elem_of_In.
  - cbn [concat]. by rewrite !app_nil_r.
  - cbn [concat]. rewrite app_nil_r. intros k Hk. assert (~ In k (i :: l) /\ ~ In k (j :: l2)) as [Hk1 Hk2].
    { split; intros Hx; apply Hk; apply in_or_app; right; apply in_or_app; [by left|by right]. }
    split; [by apply Hf'|]. rewrite upd_ne by (intros ->; apply Hk1; by left). rewrite release_other; [done|done|intros ->; apply Hk2; by left].
  - constructor; [|constructor]. exists i, (l ++ j :: l2). split; [done|]. rewrite release_other by done. split; [|split; [done|]].
    + apply Hc'; [done|]. by apply (chain_frame (bufs h)).
    + rewrite upd_eq, Hm, Hmj. cbn [bufs]. change (i :: l ++ j :: l2) with ((i :: l) ++ (j :: l2)). rewrite chain_data_app.
      f_equal; symmetry; apply chain_data_frame; intros; apply Hs'.
  - cbn [concat]. rewrite app_nil_r. intros k Hk Hx. destruct (Nat.eq_dec k i) as [->|Hne]; [by eexists; left|]. exfalso.
    assert (k <> j) as Hkj by (intros ->; apply refs_In in Hk; rewrite release_same in Hk by done; lia).
    apply In_release in Hk. apply in_app_or in Hx as [Hx|Hx]; [by apply (held_not_free _ _ _ _ _ k HR2)|].
    apply in_app_or in Hx as [Hx|Hx]; [by apply Hne, (held_head _ _ _ _ _ _ _ _ HR2)|by apply Hkj, (held_head _ _ _ _ _ _ _ _ HR1)].
Qed.

Lemma AddToEnd_step cs i j : pool_rep h own m fl cs -> op_allowed (OpAddToEnd i j) h own = true -> step_ok (OpAddToEnd i j) h own m.
Proof.
  intros HR Ha. cbn [op_allowed] in Ha. bool_prop. match goal with H : Nat.eqb i j = false |- _ => apply Nat.eqb_neq in H as Hij end.
  assert (In i own) as Hin by (by apply refs_In). assert (In j own) as Hjn by (apply refs_In; lia).
  destruct (rep_pick _ _ _ _ _ j HR Hjn) as (l2 & cs1 & HR1 & _).
  destruct (rep_own _ _ _ _ _ HR1 i Hin) as (l & [[= <- <-]|Hl]); [done|]. apply in_split in Hl as (ca & cb & ->).
  assert (pool_rep h own m fl ([i :: l; j :: l2] ++ (ca ++ cb))) as HR2.
  { apply (rep_permute _ _ _ _ _ _ (Permutation_trans (perm_skip (j :: l2) (Permutation_sym (Permutation_middle ca cb (i :: l)))) (perm_swap _ _ _)) HR1). }
  destruct (AddToEnd_rep _ _ _ _ _ HR2 Hin Hjn) as (h' & E & HR3 & _); [done|done|].
  exists (release j own), h', (upd i (m i ++ m j) m), fl, ((i :: l ++ j :: l2) :: ca ++ cb).
  cbn [pool_step]. unfold bind. rewrite E. split; [done|]. by split; [apply SAddToEnd|].
Qed.

Lemma DetachTail_step cs i : pool_rep h own m fl cs -> op_allowed (OpDetachTail i) h own = true -> step_ok (OpDetachTail i) h own m.
Proof.
  intros HR Ha. cbn [op_allowed] in Ha. bool_prop. match goal with H : bool_decide _ = false |- _ => apply bool_decide_eq_false_1 in H as Hn end.
  assert (In i own) as Hin by (by apply refs_In). destruct (rep_pick _ _ _ _ _ i HR Hin) as (l & cs' & HR' & _).
  destruct (one_chain _ _ _ _ _ _ _ HR') as (Hc & Hr & Hm & Hnd & Hnd1 & HL). pose proof Hc as (_ & p & Hp & Hw & Ht & Hrp & Hcl).
  unfold next_of in Hn. rewrite Hp in Hn. destruct l as [|n l]; [done|]. destruct (NoDup_head _ _ Hnd1) as [Hni _].
  pose proof Hcl as [En _]. rewrite En in Hcl. set (p' := set_tot_len (pb_len p) (set_next None p)).
  assert (forall k, k <> i -> bufs (put i p' h) !! k = bufs h !! k) as Hf by (intros; by apply lookup_put_ne).
  assert (bufs (put i p' h) !! i = Some p') as Hi by (by apply (lookup_put_eq i p' p)).
  assert (refs own n = 0) as Hz.
  { destruct (Z.eq_dec (refs own n) 0) as [|Hne]; [done|]. exfalso. assert (In n own) as Hno by (apply refs_In; unfold refs in *; lia).
    apply (Hni n); [by left|]. apply (held_head _ _ _ _ _ _ _ _ HR' Hno). right. by left. }
  assert (n <> i) as Hne by (apply Hni; by left).
  exists (n :: own), (put i p' h), (upd n (chain_data (bufs h) (n :: l)) (upd i (pb_data p) m)), fl, ([[i]; n :: l] ++ cs').
  cbn [pool_step]. unfold bind, DetachTail. rewrite Hp, En. split; [done|].
  split. { apply SDetachTail; [done|rewrite refs_In; lia|]. rewrite Hm. unfold chain_data. cbn [map concat]. unfold data_at at 1. by rewrite Hp. }
  apply (rep_replace h own m fl [i :: n :: l] cs' (put i p' h) _ _ fl [[i]; n :: l] HR').
  - cbn. by rewrite length_insert.
  - by apply (blocks_ok_same _ i p); [apply HR| |].
  - apply (free_list_frame (bufs h)); [|apply HR]. intros k Hk. apply Hf. intros ->. by apply (held_not_free _ _ _ _ _ i HR).
  - done.
  - cbn [concat]. rewrite app_nil_r. intros k Hk. assert (k <> i /\ k <> n) as [Hk1 Hk2].
    { split; intros ->; apply Hk; apply in_or_app; right; [by left|right; by left]. }
    rewrite Hf, !upd_ne, refs_other by done. done.
  - constructor; [|constructor; [|constructor]].
    + exists i, []. split; [done|]. rewrite refs_other by done. rewrite upd_ne by done. rewrite upd_eq. split; [|split; [done|]].
      * split; [done|]. exists p'. split; [done|]. split; [apply wf_set_tot; [by apply wf_set_next|destruct Hw; cbn; lia]|].
        split; [rewrite total_cons; unfold len_at; rewrite Hi; cbn; lia|by split].
      * unfold chain_data. cbn [map concat]. unfold data_at. by rewrite Hi, app_nil_r.
    + exists n, l. split; [done|]. rewrite refs_same, Hz, upd_eq. split; [|split; [lia|]].
      * apply (chain_frame (bufs h)); [|done]. intros k Hk. by apply Hf, Hni.
      * symmetry. apply chain_data_frame. intros k Hk. unfold data_at. by rewrite Hf by (by apply Hni).
  - cbn [concat]. rewrite app_nil_r. intros k Hk Hx. destruct (Nat.eq_dec k n) as [->|Hkn]; [by exists l; right; left|].
    destruct Hk as [->|Hk]; [done|]. apply in_app_or in Hx as [Hx|Hx]; [by destruct (held_not_free _ _ _ _ _ k HR Hk)|].
    rewrite (held_head _ _ _ _ _ _ _ _ HR' Hk Hx). by exists []; left.
Qed.

Lemma pool_step_ok cs op : pool_rep h own m fl cs -> op_allowed op h own = true -> step_ok op h own m.
Proof.
  destruct op; [apply New_step|apply Fill_step|apply AddRef_step|apply Free_step|apply AddToEnd_step|apply DetachTail_step|apply Consume_step|apply CompactHead_step].
Qed.
End TwoChains.

(** ** The pool at the start *)

Lemma BuildFreeList_spec blocks : forall i o h fl, i = length (bufs h) -> free_list (bufs h) o fl -> blocks_ok (bufs h) ->
  Permutation fl (seq 0 i) ->
  Forall (fun block => Z.of_nat (length block) = WEAVE_SYSTEM_PACKETBUFFER_ALLOCSIZE_MAX /\ is_bytes block) blocks ->
  exists fl', let h' := BuildFreeList_loop blocks i o h in
    free_list (bufs h') (sFreeList h') fl' /\ blocks_ok (bufs h') /\ Permutation fl' (seq 0 (length (bufs h'))) /\
    length (bufs h') = (i + length blocks)%nat.
Proof.
  induction blocks as [|block blocks IH]; intros i o h fl Hi Hfl Hok HP Hb.
  - exists fl. cbn. rewrite <- Hi. repeat split; done || lia.
  - apply list.Forall_cons_1 in Hb as [[HL HB] Hb]. cbn [BuildFreeList_loop].
    assert (forall k, In k fl -> (k < i)%nat) as Hlt by (intros k Hk; apply (Permutation_in _ HP), in_seq in Hk; lia).
    destruct (IH (S i) (Some i) (mkPool (bufs h ++ [mkPbuf o 0 0 0 0 block]) (sFreeList h)) (i :: fl)) as (fl' & H1 & H2 & H3 & H4); try done.
    + cbn. rewrite length_app. cbn. lia.
    + split; [done|]. eexists. split; [cbn; rewrite lookup_app_r by lia; by rewrite Hi, Nat.sub_diag|]. split; [done|].
      apply (free_list_frame (bufs h)); [|done]. intros k Hk. cbn. apply lookup_app_l. specialize (Hlt k Hk). lia.
    + apply Forall_app_2; [done|]. constructor; [|constructor]. by split.
    + rewrite seq_S. cbn. rewrite <- Permutation_cons_append. by apply perm_skip.
    + exists fl'. split; [done|]. split; [done|]. split; [done|]. rewrite H4. cbn [length]. lia.
Qed.

(** A run of the client; it stops, with what it has, before an operation its rules forbid. *)
Fixpoint pool_run (ops : list PoolOp) (h : Pool) (own : list nat) : res (list nat) * Pool :=
  match ops with
  | [] => (Ok own, h)
  | op :: ops =>
    if op_allowed op h own then
      match pool_step op h own with
      | (Ok own, h) => pool_run ops h own
      | x => x
      end
    else (Ok own, h)
  end.

Lemma pool_run_ok ops : forall h own m fl cs, pool_rep h own m fl cs ->
  exists own' h' m' fl' cs', pool_run ops h own = (Ok own', h') /\ pool_rep h' own' m' fl' cs'.
Proof.
  induction ops as [|op ops IH]; intros h own m fl cs HR; [by exists own, h, m, fl, cs|]. cbn [pool_run].
  destruct (op_allowed op h own) eqn:Ea; [|by exists own, h, m, fl, cs].
  destruct (pool_step_ok h own m fl cs op HR Ea) as (own1 & h1 & m1 & fl1 & cs1 & -> & _ & HR1). by apply (IH h1 own1 m1 fl1 cs1).
Qed.

(** Reading a chain through its pointers. *)
Fixpoint chain_bytes (fuel : nat) (o : option nat) (h : Pool) : list Z :=
  match fuel, o with
  | S fuel, Some i => match bufs h !! i with Some p => pb_data p ++ chain_bytes fuel (pb_next p) h | None => [] end
  | _, _ => []
  end.
Definition contents (h : Pool) (i : nat) : list Z := chain_bytes (fuel_of h) (Some i) h.

Lemma chain_bytes_chain h l : forall fuel r o, (length l <= fuel)%nat -> chain (bufs h) r o l -> chain_bytes fuel o h = chain_data (bufs h) l.
Proof.
  induction l as [|i l IH]; intros fuel r o Hfu Hc; [cbn in Hc; subst o; by destruct fuel|].
  destruct Hc as [-> (p & Hp & _ & _ & _ & Hc)]. destruct fuel as [|fuel]; [cbn in Hfu; lia|]. cbn [chain_bytes]. rewrite Hp.
  unfold chain_data. cbn [map concat]. unfold data_at at 1. rewrite Hp. f_equal. apply (IH fuel _ _ ltac:(cbn in Hfu; lia) Hc).
Qed.

Lemma held_contents h own m fl cs i : pool_rep h own m fl cs -> In i own -> m i = contents h i /\ tot_of h i = Z.of_nat (length (contents h i)).
Proof.
  intros HR Hi. destruct (rep_pick _ _ _ _ _ i HR Hi) as (l & cs' & HR' & _).
  destruct (one_chain _ _ _ _ _ _ _ HR') as (Hc & _ & Hm & _ & _ & HL). unfold contents.
  assert (length (i :: l) <= fuel_of h)%nat as HLf by (unfold fuel_of; cbn [length]; lia).
  rewrite (chain_bytes_chain h (i :: l) (fuel_of h) (refs own i) _ HLf Hc).
  split; [done|]. rewrite (chain_data_length _ _ _ _ Hc). destruct Hc as (_ & p & Hp & _ & Ht & _). unfold tot_of. by rewrite Hp.
Qed.

Lemma rep_contents h own m fl cs : pool_rep h own m fl cs -> pool_rep h own (contents h) fl cs.
Proof.
  intros HR. pose proof HR as []. split; try done. apply List.Forall_forall. intros c Hin. rewrite List.Forall_forall in rep_chains0.
  destruct (rep_chains0 c Hin) as (i & l & -> & Hc & Hr & Hm). exists i, l. do 3 (split; [done|]).
  rewrite <- Hm. symmetry. apply (held_contents _ _ _ _ _ i HR). apply refs_In. lia.
Qed.

(** The memory of a pool: any number of blocks of the fixed size. *)
Definition pool_memory (blocks : list (list Z)) : Prop :=
  Forall (fun block => Z.of_nat (length block) = WEAVE_SYSTEM_PACKETBUFFER_ALLOCSIZE_MAX /\ is_bytes block) blocks.

Lemma zero_memory n : pool_memory (replicate n (replicate 1676 0)).
Proof.
  apply Forall_replicate. split; [by rewrite length_replicate|]. apply Forall_replicate. by unfold is_byte.
Qed.

Lemma BuildFreeList_rep blocks : pool_memory blocks ->
  exists fl, pool_rep (BuildFreeList blocks) [] (fun _ => []) fl [] /\ length (bufs (BuildFreeList blocks)) = length blocks.
Proof.
  intros Hb. destruct (BuildFreeList_spec blocks 0 None (mkPool [] None) []) as (fl & H1 & H2 & H3 & H4); try done; try constructor.
  exists fl. split; [|done]. split; try done. cbn [concat]. by rewrite app_nil_r.
Qed.

(** ** Properties *)

(** C14: the pool loses nothing.  Whatever a client that keeps to the interface's
    rules does with the pool, no operation fails, runs into undefined behaviour or
    loops; every buffer is then on the free list or in exactly one chain; the
    client holds the first buffer of every chain, as often as it is counted; the
    other buffers of a chain are exclusive to it; and the total length of each
    buffer of a chain is that of the data from it on.  A client that has released
    everything finds all buffers free again. *)
Theorem Pool_invariant blocks ops : pool_memory blocks ->
  exists own h fl cs, pool_run ops (BuildFreeList blocks) [] = (Ok own, h) /\
    free_list (bufs h) (sFreeList h) fl /\ Permutation (fl ++ concat cs) (seq 0 (length (bufs h))) /\
    (forall c, In c cs -> exists i l, c = i :: l /\ chain (bufs h) (refs own i) (Some i) c /\ 1 <= refs own i) /\
    (forall i, In i own -> exists l, In (i :: l) cs) /\
    (own = [] -> Permutation fl (seq 0 (length (bufs h)))).
Proof.
  intros Hb. destruct (BuildFreeList_rep blocks Hb) as (fl0 & HR0 & _).
  destruct (pool_run_ok ops _ _ _ _ _ HR0) as (own & h & m & fl & cs & E & HR). pose proof HR as [HRf _ HRp HRc HRo].
  exists own, h, fl, cs. rewrite List.Forall_forall in HRc. do 3 (split; [done|]). split; [|split; [done|]].
  - intros c Hc. destruct (HRc c Hc) as (i & l & -> & Hch & Hr & _). exists i, l. split; [done|]. split; [done|lia].
  - intros ->. destruct cs as [|c cs]; [by rewrite app_nil_r in HRp|]. destruct (HRc c ltac:(by left)) as (i & l & _ & _ & Hr & _). by destruct Hr.
Qed.

Theorem Pool_invariant_witness :
  exists own h fl cs, pool_run [OpNew 40 100; OpNew 0 500; OpFill 1 [1; 2]; OpAddToEnd 2 1; OpFree 2] (BuildFreeList (replicate 3 (replicate 1676 0))) [] = (Ok own, h) /\
    free_list (bufs h) (sFreeList h) fl /\ Permutation (fl ++ concat cs) (seq 0 3) /\
    (own = [] -> Permutation fl (seq 0 3)).
Proof.
  destruct (Pool_invariant (replicate 3 (replicate 1676 0)) [OpNew 40 100; OpNew 0 500; OpFill 1 [1; 2]; OpAddToEnd 2 1; OpFree 2])
    as (own & h & fl & cs & E & H1 & H2 & _ & _ & H5).
  - apply zero_memory.
  - exists own, h, fl, cs. split; [exact E|]. split; [exact H1|]. apply (f_equal (fun x => length (bufs (snd x)))) in E. cbn [snd] in E.
    assert (length (bufs h) = 3%nat) as HL by (rewrite <- E; vm_compute; reflexivity). rewrite HL in H2, H5. split; [exact H2|exact H5].
Defined.

(** C15: the operations on chains are operations on byte strings.  In every state a
    client can reach, an operation its rules allow succeeds, and the data found
    through the pointers of the chains it then holds is what the operation means
    for the strings: AddToEnd concatenates, DetachTail splits, Consume drops
    bytes, CompactHead and AddRef change nothing; the total length of a chain is
    the length of its string. *)
Theorem Pool_chains_are_strings blocks ops own h op : pool_memory blocks -> pool_run ops (BuildFreeList blocks) [] = (Ok own, h) ->
  op_allowed op h own = true ->
  exists own' h' m', pool_step op h own = (Ok own', h') /\ string_step own own' (contents h) op m' /\
    forall i, In i own' -> contents h' i = m' i /\ tot_of h' i = Z.of_nat (length (contents h' i)).
Proof.
  intros Hb E Ha. destruct (BuildFreeList_rep blocks Hb) as (fl0 & HR0 & _).
  destruct (pool_run_ok ops _ _ _ _ _ HR0) as (own1 & h1 & m & fl & cs & E1 & HR). rewrite E in E1. injection E1 as <- <-.
  destruct (pool_step_ok _ _ _ _ _ op (rep_contents _ _ _ _ _ HR) Ha) as (own' & h' & m' & fl' & cs' & Es & Hs & HR').
  exists own', h', m'. split; [done|]. split; [done|]. intros i Hi. destruct (held_contents _ _ _ _ _ i HR' Hi) as [-> ->]. done.
Qed.

Theorem Pool_chains_are_strings_witness :
  let r := pool_run [OpNew 40 100; OpFill 2 [1; 2]; OpNew 0 500; OpFill 1 [3; 4; 5]; OpAddToEnd 2 1] (BuildFreeList (replicate 3 (replicate 1676 0))) [] in
  fst r = Ok [2%nat] /\ contents (snd r) 2 = [1; 2; 3; 4; 5] /\
  exists own' h' m', pool_step (OpConsume 2 3) (snd r) [2%nat] = (Ok own', h') /\
    string_step [2%nat] own' (contents (snd r)) (OpConsume 2 3) m' /\ (forall i, In i own' -> contents h' i = m' i).
Proof.
  intros r. assert (fst r = Ok [2%nat]) as E by (vm_compute; reflexivity). split; [exact E|]. split; [vm_compute; reflexivity|].
  destruct (Pool_chains_are_strings (replicate 3 (replicate 1676 0))
    [OpNew 40 100; OpFill 2 [1; 2]; OpNew 0 500; OpFill 1 [3; 4; 5]; OpAddToEnd 2 1] [2%nat] (snd r) (OpConsume 2 3))
    as (own' & h' & m' & E1 & E2 & E3).
  - apply zero_memory.
  - rewrite <- E. apply surjective_pairing.
  - vm_compute. reflexivity.
  - exists own', h', m'. split; [exact E1|]. split; [exact E2|]. intros i Hi. apply (E3 i Hi).
Defined.
