(* ===== verification/WoBle.v ===== *)
(** * The BLE transfer protocol engine (src/src/ble/WoBle.cpp, WoBle.h)

    [WoBle] cuts a message into fragments that fit a BLE characteristic, numbers
    and acknowledges them, and reassembles the fragments it receives.  It works on
    buffers of the pool (PacketBufferChain); the state of an operation is the
    engine and the pool.  The build without WEAVE_ENABLE_WOBLE_TEST; the logging
    is left out.  Timers, the send window and the GATT operations belong to
    BLEEndPoint, which is not modelled. *)
From S2P Require Import Prelude Encoding PacketBuffer PacketBufferChain.
Local Open Scope weave_scope.
Local Open Scope Z_scope.

Inductive BtpState := kState_Idle | kState_InProgress | kState_Complete | kState_Error.
#[export] Instance BtpState_eq_dec : EqDecision BtpState.
Proof. solve_decision. Defined.

Definition kHeaderFlag_StartMessage : Z := 1.
Definition kHeaderFlag_ContinueMessage : Z := 2.
Definition kHeaderFlag_EndMessage : Z := 4.
Definition kHeaderFlag_FragmentAck : Z := 8.
Definition NL_BLE_TRANSFER_PROTOCOL_ACK_SIZE : Z := 1.
Definition NL_BLE_TRANSFER_PROTOCOL_MAX_HEADER_SIZE : Z := 5.
Definition NL_BLE_TRANSFER_PROTOCOL_MID_FRAGMENT_MAX_HEADER_SIZE : Z := 3.
Definition NL_BLE_TRANSFER_PROTOCOL_STANDALONE_ACK_HEADER_SIZE : Z := 3.
Definition WEAVE_CONFIG_BLE_PKT_RESERVED_SIZE : Z := 0.
Definition sDefaultFragmentSize : Z := 20.

(** The members of WoBle, without mAppState. *)
Record WoBle := mkWoBle {
  mRxState : BtpState;
  mRxLength : Z;
  mRxBuf : option nat;
  mRxNextSeqNum : Z;
  mRxNewestUnackedSeqNum : Z;
  mRxOldestUnackedSeqNum : Z;
  mRxFragmentSize : Z;
  mTxState : BtpState;
  mTxLength : Z;
  mTxBuf : option nat;
  mTxNextSeqNum : Z;
  mTxNewestUnackedSeqNum : Z;
  mTxOldestUnackedSeqNum : Z;
  mExpectingAck : bool;
  mTxFragmentSize : Z;
  mRxCharCount : Z;
  mRxPacketCount : Z;
  mTxCharCount : Z;
  mTxPacketCount : Z }.

(** Assignments to members. *)
Definition set_mRxState (x : BtpState) (w : WoBle) : WoBle := mkWoBle x (mRxLength w) (mRxBuf w) (mRxNextSeqNum w) (mRxNewestUnackedSeqNum w) (mRxOldestUnackedSeqNum w) (mRxFragmentSize w) (mTxState w) (mTxLength w) (mTxBuf w) (mTxNextSeqNum w) (mTxNewestUnackedSeqNum w) (mTxOldestUnackedSeqNum w) (mExpectingAck w) (mTxFragmentSize w) (mRxCharCount w) (mRxPacketCount w) (mTxCharCount w) (mTxPacketCount w).
Definition set_mRxLength (x : Z) (w : WoBle) : WoBle := mkWoBle (mRxState w) x (mRxBuf w) (mRxNextSeqNum w) (mRxNewestUnackedSeqNum w) (mRxOldestUnackedSeqNum w) (mRxFragmentSize w) (mTxState w) (mTxLength w) (mTxBuf w) (mTxNextSeqNum w) (mTxNewestUnackedSeqNum w) (mTxOldestUnackedSeqNum w) (mExpectingAck w) (mTxFragmentSize w) (mRxCharCount w) (mRxPacketCount w) (mTxCharCount w) (mTxPacketCount w).
Definition set_mRxBuf (x : option nat) (w : WoBle) : WoBle := mkWoBle (mRxState w) (mRxLength w) x (mRxNextSeqNum w) (mRxNewestUnackedSeqNum w) (mRxOldestUnackedSeqNum w) (mRxFragmentSize w) (mTxState w) (mTxLength w) (mTxBuf w) (mTxNextSeqNum w) (mTxNewestUnackedSeqNum w) (mTxOldestUnackedSeqNum w) (mExpectingAck w) (mTxFragmentSize w) (mRxCharCount w) (mRxPacketCount w) (mTxCharCount w) (mTxPacketCount w).
Definition set_mRxNextSeqNum (x : Z) (w : WoBle) : WoBle := mkWoBle (mRxState w) (mRxLength w) (mRxBuf w) x (mRxNewestUnackedSeqNum w) (mRxOldestUnackedSeqNum w) (mRxFragmentSize w) (mTxState w) (mTxLength w) (mTxBuf w) (mTxNextSeqNum w) (mTxNewestUnackedSeqNum w) (mTxOldestUnackedSeqNum w) (mExpectingAck w) (mTxFragmentSize w) (mRxCharCount w) (mRxPacketCount w) (mTxCharCount w) (mTxPacketCount w).
Definition set_mRxNewestUnackedSeqNum (x : Z) (w : WoBle) : WoBle := mkWoBle (mRxState w) (mRxLength w) (mRxBuf w) (mRxNextSeqNum w) x (mRxOldestUnackedSeqNum w) (mRxFragmentSize w) (mTxState w) (mTxLength w) (mTxBuf w) (mTxNextSeqNum w) (mTxNewestUnackedSeqNum w) (mTxOldestUnackedSeqNum w) (mExpectingAck w) (mTxFragmentSize w) (mRxCharCount w) (mRxPacketCount w) (mTxCharCount w) (mTxPacketCount w).
Definition set_mRxOldestUnackedSeqNum (x : Z) (w : WoBle) : WoBle := mkWoBle (mRxState w) (mRxLength w) (mRxBuf w) (mRxNextSeqNum w) (mRxNewestUnackedSeqNum w) x (mRxFragmentSize w) (mTxState w) (mTxLength w) (mTxBuf w) (mTxNextSeqNum w) (mTxNewestUnackedSeqNum w) (mTxOldestUnackedSeqNum w) (mExpectingAck w) (mTxFragmentSize w) (mRxCharCount w) (mRxPacketCount w) (mTxCharCount w) (mTxPacketCount w).
Definition set_mRxFragmentSize (x : Z) (w : WoBle) : WoBle := mkWoBle (mRxState w) (mRxLength w) (mRxBuf w) (mRxNextSeqNum w) (mRxNewestUnackedSeqNum w) (mRxOldestUnackedSeqNum w) x (mTxState w) (mTxLength w) (mTxBuf w) (mTxNextSeqNum w) (mTxNewestUnackedSeqNum w) (mTxOldestUnackedSeqNum w) (mExpectingAck w) (mTxFragmentSize w) (mRxCharCount w) (mRxPacketCount w) (mTxCharCount w) (mTxPacketCount w).
Definition set_mTxState (x : BtpState) (w : WoBle) : WoBle := mkWoBle (mRxState w) (mRxLength w) (mRxBuf w) (mRxNextSeqNum w) (mRxNewestUnackedSeqNum w) (mRxOldestUnackedSeqNum w) (mRxFragmentSize w) x (mTxLength w) (mTxBuf w) (mTxNextSeqNum w) (mTxNewestUnackedSeqNum w) (mTxOldestUnackedSeqNum w) (mExpectingAck w) (mTxFragmentSize w) (mRxCharCount w) (mRxPacketCount w) (mTxCharCount w) (mTxPacketCount w).
Definition set_mTxLength (x : Z) (w : WoBle) : WoBle := mkWoBle (mRxState w) (mRxLength w) (mRxBuf w) (mRxNextSeqNum w) (mRxNewestUnackedSeqNum w) (mRxOldestUnackedSeqNum w) (mRxFragmentSize w) (mTxState w) x (mTxBuf w) (mTxNextSeqNum w) (mTxNewestUnackedSeqNum w) (mTxOldestUnackedSeqNum w) (mExpectingAck w) (mTxFragmentSize w) (mRxCharCount w) (mRxPacketCount w) (mTxCharCount w) (mTxPacketCount w).
Definition set_mTxBuf (x : option nat) (w : WoBle) : WoBle := mkWoBle (mRxState w) (mRxLength w) (mRxBuf w) (mRxNextSeqNum w) (mRxNewestUnackedSeqNum w) (mRxOldestUnackedSeqNum w) (mRxFragmentSize w) (mTxState w) (mTxLength w) x (mTxNextSeqNum w) (mTxNewestUnackedSeqNum w) (mTxOldestUnackedSeqNum w) (mExpectingAck w) (mTxFragmentSize w) (mRxCharCount w) (mRxPacketCount w) (mTxCharCount w) (mTxPacketCount w).
Definition set_mTxNextSeqNum (x : Z) (w : WoBle) : WoBle := mkWoBle (mRxState w) (mRxLength w) (mRxBuf w) (mRxNextSeqNum w) (mRxNewestUnackedSeqNum w) (mRxOldestUnackedSeqNum w) (mRxFragmentSize w) (mTxState w) (mTxLength w) (mTxBuf w) x (mTxNewestUnackedSeqNum w) (mTxOldestUnackedSeqNum w) (mExpectingAck w) (mTxFragmentSize w) (mRxCharCount w) (mRxPacketCount w) (mTxCharCount w) (mTxPacketCount w).
Definition set_mTxNewestUnackedSeqNum (x : Z) (w : WoBle) : WoBle := mkWoBle (mRxState w) (mRxLength w) (mRxBuf w) (mRxNextSeqNum w) (mRxNewestUnackedSeqNum w) (mRxOldestUnackedSeqNum w) (mRxFragmentSize w) (mTxState w) (mTxLength w) (mTxBuf w) (mTxNextSeqNum w) x (mTxOldestUnackedSeqNum w) (mExpectingAck w) (mTxFragmentSize w) (mRxCharCount w) (mRxPacketCount w) (mTxCharCount w) (mTxPacketCount w).
Definition set_mTxOldestUnackedSeqNum (x : Z) (w : WoBle) : WoBle := mkWoBle (mRxState w) (mRxLength w) (mRxBuf w) (mRxNextSeqNum w) (mRxNewestUnackedSeqNum w) (mRxOldestUnackedSeqNum w) (mRxFragmentSize w) (mTxState w) (mTxLength w) (mTxBuf w) (mTxNextSeqNum w) (mTxNewestUnackedSeqNum w) x (mExpectingAck w) (mTxFragmentSize w) (mRxCharCount w) (mRxPacketCount w) (mTxCharCount w) (mTxPacketCount w).
Definition set_mExpectingAck (x : bool) (w : WoBle) : WoBle := mkWoBle (mRxState w) (mRxLength w) (mRxBuf w) (mRxNextSeqNum w) (mRxNewestUnackedSeqNum w) (mRxOldestUnackedSeqNum w) (mRxFragmentSize w) (mTxState w) (mTxLength w) (mTxBuf w) (mTxNextSeqNum w) (mTxNewestUnackedSeqNum w) (mTxOldestUnackedSeqNum w) x (mTxFragmentSize w) (mRxCharCount w) (mRxPacketCount w) (mTxCharCount w) (mTxPacketCount w).
Definition set_mTxFragmentSize (x : Z) (w : WoBle) : WoBle := mkWoBle (mRxState w) (mRxLength w) (mRxBuf w) (mRxNextSeqNum w) (mRxNewestUnackedSeqNum w) (mRxOldestUnackedSeqNum w) (mRxFragmentSize w) (mTxState w) (mTxLength w) (mTxBuf w) (mTxNextSeqNum w) (mTxNewestUnackedSeqNum w) (mTxOldestUnackedSeqNum w) (mExpectingAck w) x (mRxCharCount w) (mRxPacketCount w) (mTxCharCount w) (mTxPacketCount w).
Definition set_mRxCharCount (x : Z) (w : WoBle) : WoBle := mkWoBle (mRxState w) (mRxLength w) (mRxBuf w) (mRxNextSeqNum w) (mRxNewestUnackedSeqNum w) (mRxOldestUnackedSeqNum w) (mRxFragmentSize w) (mTxState w) (mTxLength w) (mTxBuf w) (mTxNextSeqNum w) (mTxNewestUnackedSeqNum w) (mTxOldestUnackedSeqNum w) (mExpectingAck w) (mTxFragmentSize w) x (mRxPacketCount w) (mTxCharCount w) (mTxPacketCount w).
Definition set_mRxPacketCount (x : Z) (w : WoBle) : WoBle := mkWoBle (mRxState w) (mRxLength w) (mRxBuf w) (mRxNextSeqNum w) (mRxNewestUnackedSeqNum w) (mRxOldestUnackedSeqNum w) (mRxFragmentSize w) (mTxState w) (mTxLength w) (mTxBuf w) (mTxNextSeqNum w) (mTxNewestUnackedSeqNum w) (mTxOldestUnackedSeqNum w) (mExpectingAck w) (mTxFragmentSize w) (mRxCharCount w) x (mTxCharCount w) (mTxPacketCount w).
Definition set_mTxCharCount (x : Z) (w : WoBle) : WoBle := mkWoBle (mRxState w) (mRxLength w) (mRxBuf w) (mRxNextSeqNum w) (mRxNewestUnackedSeqNum w) (mRxOldestUnackedSeqNum w) (mRxFragmentSize w) (mTxState w) (mTxLength w) (mTxBuf w) (mTxNextSeqNum w) (mTxNewestUnackedSeqNum w) (mTxOldestUnackedSeqNum w) (mExpectingAck w) (mTxFragmentSize w) (mRxCharCount w) (mRxPacketCount w) x (mTxPacketCount w).
Definition set_mTxPacketCount (x : Z) (w : WoBle) : WoBle := mkWoBle (mRxState w) (mRxLength w) (mRxBuf w) (mRxNextSeqNum w) (mRxNewestUnackedSeqNum w) (mRxOldestUnackedSeqNum w) (mRxFragmentSize w) (mTxState w) (mTxLength w) (mTxBuf w) (mTxNextSeqNum w) (mTxNewestUnackedSeqNum w) (mTxOldestUnackedSeqNum w) (mExpectingAck w) (mTxFragmentSize w) (mRxCharCount w) (mRxPacketCount w) (mTxCharCount w) x.

(** GetFlag(flags, flag) *)
Definition GetFlag (inFlags inFlag : Z) : bool := Z.land inFlags inFlag =? inFlag.
(** The condition [flags & flag]. *)
Definition test_flag (flags flag : Z) : bool := negb (Z.land flags flag =? 0).

Definition IncSeqNum (a_seq_num : Z) : Z := Z.land 255 (a_seq_num + 1).

Definition DidReceiveData (rx_flags : Z) : bool :=
  GetFlag rx_flags kHeaderFlag_StartMessage || GetFlag rx_flags kHeaderFlag_ContinueMessage || GetFlag rx_flags kHeaderFlag_EndMessage.

(** Init(expect_first_ack); [w] is the engine before, which keeps mRxLength and
    mTxLength. *)
Definition WoBle_Init (expect_first_ack : bool) (w : WoBle) : WoBle :=
  mkWoBle kState_Idle (mRxLength w) None (if expect_first_ack then 0 else 1) 0 0 sDefaultFragmentSize
    kState_Idle (mTxLength w) None (if expect_first_ack then 1 else 0) 0 0 expect_first_ack sDefaultFragmentSize 0 0 0 0.

Definition GetAndIncrementNextTxSeqNum (w : WoBle) : Z * WoBle :=
  let ret := mTxNextSeqNum w in
  let w := if mExpectingAck w then w else set_mTxOldestUnackedSeqNum (mTxNextSeqNum w) (set_mExpectingAck true w) in
  let w := set_mTxNewestUnackedSeqNum (mTxNextSeqNum w) w in
  (ret, set_mTxNextSeqNum (IncSeqNum (mTxNextSeqNum w)) w).

Definition GetAndRecordRxAckSeqNum (w : WoBle) : Z * WoBle :=
  (mRxNewestUnackedSeqNum w, set_mRxOldestUnackedSeqNum (mRxNextSeqNum w) (set_mRxNewestUnackedSeqNum (mRxNextSeqNum w) w)).

Definition HasUnackedData (w : WoBle) : bool := negb (mRxOldestUnackedSeqNum w =? mRxNextSeqNum w).

Definition IsValidAck (ack_num : Z) (w : WoBle) : bool :=
  if negb (mExpectingAck w) then false
  else if mTxOldestUnackedSeqNum w <=? mTxNewestUnackedSeqNum w
  then (ack_num <=? mTxNewestUnackedSeqNum w) && (mTxOldestUnackedSeqNum w <=? ack_num)
  else (ack_num <=? mTxNewestUnackedSeqNum w) || (mTxOldestUnackedSeqNum w <=? ack_num).

Definition HandleAckReceived (ack_num : Z) : M WoBle unit := fun w =>
  if negb (IsValidAck ack_num w) then (Err BLE_ERROR_INVALID_ACK, w)
  else if mTxNewestUnackedSeqNum w =? ack_num
  then (Ok tt, set_mExpectingAck false (set_mTxOldestUnackedSeqNum ack_num w))
  else (Ok tt, set_mTxOldestUnackedSeqNum (IncSeqNum ack_num) w).

(** Storing the bytes of a fragment header at an offset of a buffer's block. *)
Definition write_at (off : Z) (l : list Z) (p : PacketBuffer) : PacketBuffer :=
  mkPbuf (pb_next p) (pb_payload p) (pb_tot_len p) (pb_len p) (pb_ref p) (block_write off l (pb_block p)).

Definition EncodeStandAloneAck (data : nat) : M (WoBle * Pool) unit := fun '(w, h) =>
  match bufs h !! data with
  | None => (Undefined, (w, h))
  | Some p =>
    match EnsureReservedSize WEAVE_CONFIG_BLE_PKT_RESERVED_SIZE p with
    | (false, p) => (Err BLE_ERROR_NO_MEMORY, (w, put data p h))
    | (true, p) =>
      if MaxDataLength p <? NL_BLE_TRANSFER_PROTOCOL_STANDALONE_ACK_HEADER_SIZE then (Err BLE_ERROR_NO_MEMORY, (w, put data p h))
      else
        let '(ack, w) := GetAndRecordRxAckSeqNum w in
        let '(seq, w) := GetAndIncrementNextTxSeqNum w in
        let p := write_at (Start p) [kHeaderFlag_FragmentAck; ack; seq] p in
        (Ok tt, (w, put data (SetDataLength NL_BLE_TRANSFER_PROTOCOL_STANDALONE_ACK_HEADER_SIZE p) h))
    end
  end.

(** ** Sending *)

(** The header bytes after the flags: the acknowledgement, the sequence number
    and, in a first fragment, the length [len]. *)
Definition fragment_header (send_ack : bool) (len : option Z) (w : WoBle) : list Z * WoBle :=
  let '(acks, w) := if send_ack then let '(a, w) := GetAndRecordRxAckSeqNum w in ([a], w) else ([], w) in
  let '(seq, w) := GetAndIncrementNextTxSeqNum w in
  (acks ++ [seq] ++ match len with Some n => [Z.land n 255; Z.shiftr n 8] | None => [] end, w).

(** The end of both branches: the header [flags :: header] is stored at the start
    of the buffer and the data length set to that of the fragment. *)
Definition finish_fragment (flags : Z) (header : list Z) (p : PacketBuffer) (w : WoBle) : PacketBuffer * WoBle :=
  let cursor := 1 + Z.of_nat (length header) in
  let last := mTxLength w + cursor <=? mTxFragmentSize w in
  let p := write_at (Start p) ((if last then Z.lor flags kHeaderFlag_EndMessage else flags) :: header) p in
  if last
  then (SetDataLength (u16 (mTxLength w + cursor)) p,
        set_mTxPacketCount (u16 (mTxPacketCount w + 1)) (set_mTxState kState_Complete (set_mTxLength 0 w)))
  else (SetDataLength (mTxFragmentSize w) p, set_mTxLength (u16 (mTxLength w - (mTxFragmentSize w - cursor))) w).

(** HandleCharacteristicSend(data, send_ack) *)
Definition HandleCharacteristicSend (data : option nat) (send_ack : bool) : M (WoBle * Pool) bool := fun '(w, h) =>
  let w := set_mTxCharCount (u16 (mTxCharCount w + 1)) w in
  let ack_flag := if send_ack then kHeaderFlag_FragmentAck else 0 in
  if send_ack && negb (HasUnackedData w) then (Ok false, (w, h))
  else
    match mTxState w, data with
    | kState_Idle, None => (Ok false, (w, h))
    | kState_Idle, Some d =>
      match bufs h !! d with
      | None => (Undefined, (w, h))
      | Some p =>
        let w := set_mTxLength (DataLength p) (set_mTxState kState_InProgress (set_mTxBuf (Some d) w)) in
        let header_size := if send_ack then NL_BLE_TRANSFER_PROTOCOL_MAX_HEADER_SIZE
                           else NL_BLE_TRANSFER_PROTOCOL_MAX_HEADER_SIZE - NL_BLE_TRANSFER_PROTOCOL_ACK_SIZE in
        match EnsureReservedSize (header_size + WEAVE_CONFIG_BLE_PKT_RESERVED_SIZE) p with
        | (false, p) => (Ok false, (set_mTxBuf None (set_mTxState kState_Error w), put d p h))
        | (true, p) =>
          let p := SetStart (Start p - header_size) p in
          let '(header, w) := fragment_header send_ack (Some (mTxLength w)) w in
          let '(p, w) := finish_fragment (Z.lor kHeaderFlag_StartMessage ack_flag) header p w in
          (Ok true, (w, put d p h))
        end
      end
    | kState_InProgress, Some _ => (Ok false, (w, h))
    | kState_InProgress, None =>
      match mTxBuf w with
      | None => (Undefined, (w, h))
      | Some d =>
        match bufs h !! d with
        | None => (Undefined, (w, h))
        | Some p =>
          let header_size := if send_ack then NL_BLE_TRANSFER_PROTOCOL_MID_FRAGMENT_MAX_HEADER_SIZE
                             else NL_BLE_TRANSFER_PROTOCOL_MID_FRAGMENT_MAX_HEADER_SIZE - NL_BLE_TRANSFER_PROTOCOL_ACK_SIZE in
          let p := SetStart (Start p + mTxFragmentSize w - header_size) p in
          let '(header, w) := fragment_header send_ack None w in
          let '(p, w) := finish_fragment (Z.lor kHeaderFlag_ContinueMessage ack_flag) header p w in
          (Ok true, (w, put d p h))
        end
      end
    | _, _ => (Ok false, (w, h))
    end.

Definition ClearTxPacket (w : WoBle) : bool * WoBle :=
  if bool_decide (mTxState w = kState_Complete) then (true, set_mTxBuf None (set_mTxState kState_Idle w)) else (false, w).

(** ** Receiving *)

(** The engine, the pool and the local variable [data] of HandleCharacteristicReceived. *)
Record RxCtx := mkRx { rx_w : WoBle; rx_h : Pool; rx_data : option nat }.

(** [characteristic[k]]: a byte of the block, received or not. *)
Definition read_char (data : nat) (k : Z) : M RxCtx Z := fun s =>
  match bufs (rx_h s) !! data with
  | None => (Undefined, s)
  | Some p => match pb_block p !! Z.to_nat (pb_payload p + k) with Some b => (Ok b, s) | None => (Undefined, s) end
  end.

Definition on_w (f : WoBle -> WoBle) : M RxCtx unit := fun s => (Ok tt, mkRx (f (rx_w s)) (rx_h s) (rx_data s)).
Definition on_buf (i : nat) (f : PacketBuffer -> PacketBuffer) : M RxCtx unit := fun s =>
  match bufs (rx_h s) !! i with
  | None => (Undefined, s)
  | Some p => (Ok tt, mkRx (rx_w s) (put i (f p) (rx_h s)) (rx_data s))
  end.
Definition on_pool {A} (f : M Pool A) : M RxCtx A := fun s =>
  let '(r, h) := f (rx_h s) in (r, mkRx (rx_w s) h (rx_data s)).
Definition clear_data : M RxCtx unit := fun s => (Ok tt, mkRx (rx_w s) (rx_h s) None).

(** Up to the sequence number: the flags, the cursor and the acknowledgement. *)
Definition receive_header (data : nat) : M RxCtx (Z * Z * option Z) :=
  do* on_w (fun w => set_mRxCharCount (u16 (mRxCharCount w + 1)) w) in
  let* rx_flags := read_char data 0 in
  let* acked :=
    (if GetFlag rx_flags kHeaderFlag_FragmentAck then
       let* receivedAck := read_char data 1 in
       fun s => let '(r, w) := HandleAckReceived receivedAck (rx_w s) in
                (match r with Ok _ => Ok (2, Some receivedAck) | Err e => Err e | Undefined => Undefined | Diverges => Diverges end,
                 mkRx w (rx_h s) (rx_data s))
     else ret (1, None)) in
  let '(cursor, ack) := acked in
  let* seq := read_char data cursor in
  do* on_w (set_mRxNewestUnackedSeqNum seq) in
  let* next := gets (fun s => mRxNextSeqNum (rx_w s)) in
  do* verify (seq =? next) BLE_ERROR_INVALID_BTP_SEQUENCE_NUMBER in
  do* on_w (fun w => set_mRxNextSeqNum (IncSeqNum (mRxNextSeqNum w)) w) in
  ret (rx_flags, cursor + 1, ack).

(** mRxBuf->AddToEnd(data); mRxBuf->CompactHead(); data = NULL *)
Definition append_fragment (data : nat) : M RxCtx unit :=
  let* rxBuf := gets (fun s => mRxBuf (rx_w s)) in
  match rxBuf with
  | None => undefined
  | Some b =>
    do* on_pool (AddToEnd b data) in
    do* on_pool (CompactHead b) in
    clear_data
  end.

Definition rx_buffer (s : RxCtx) : option PacketBuffer := match mRxBuf (rx_w s) with Some b => bufs (rx_h s) !! b | None => None end.

(** The first fragment of a message, whose header ends with the length. *)
Definition receive_first (data : nat) (rx_flags cursor : Z) : M RxCtx unit :=
  do* verify (test_flag rx_flags kHeaderFlag_StartMessage) BLE_ERROR_INVALID_BTP_HEADER_FLAGS in
  let* hi := read_char data (cursor + 1) in
  let* lo := read_char data cursor in
  do* on_w (fun w => set_mRxState kState_InProgress (set_mRxLength (Z.lor (Z.shiftl hi 8) lo) w)) in
  do* on_buf data (fun p => SetStart (Start p + (cursor + 2)) p) in
  let* new := on_pool (fun h => let '(b, h) := New WEAVE_SYSTEM_CONFIG_HEADER_RESERVE_SIZE h in (Ok b, h)) in
  do* on_w (set_mRxBuf new) in
  do* verify (negb (bool_decide (new = None))) BLE_ERROR_NO_MEMORY in
  append_fragment data.

Definition receive_next (data : nat) (rx_flags cursor : Z) : M RxCtx unit :=
  do* verify (Z.land rx_flags kHeaderFlag_StartMessage =? 0) BLE_ERROR_INVALID_BTP_HEADER_FLAGS in
  do* verify (test_flag rx_flags kHeaderFlag_ContinueMessage || test_flag rx_flags kHeaderFlag_EndMessage) BLE_ERROR_INVALID_BTP_HEADER_FLAGS in
  do* on_buf data (fun p => SetStart (Start p + cursor) p) in
  do* append_fragment data in
  let* buf := gets rx_buffer in
  match buf with
  | None => undefined
  | Some b => verify (bool_decide (pb_next b = None)) BLE_ERROR_RECEIVED_MESSAGE_TOO_BIG
  end.

(** The end of the message: its data is cut to the length announced. *)
Definition receive_end : M RxCtx unit :=
  let* buf := gets rx_buffer in
  let* b := gets (fun s => mRxBuf (rx_w s)) in
  match buf, b with
  | Some p, Some b =>
    let* mRxLen := gets (fun s => mRxLength (rx_w s)) in
    let p' := if 0 <? DataLength p - mRxLen then SetDataLength mRxLen p else p in
    do* on_buf b (fun _ => p') in
    do* verify (DataLength p' =? mRxLen) BLE_ERROR_REASSEMBLER_MISSING_DATA in
    on_w (fun w => set_mRxPacketCount (u16 (mRxPacketCount w + 1)) (set_mRxState kState_Complete w))
  | _, _ => undefined
  end.

(** The reassembly of a data fragment whose header ends at [cursor]. *)
Definition receive_data (data : nat) (rx_flags cursor : Z) : M RxCtx unit :=
  let* limit := gets (fun s => mRxFragmentSize (rx_w s)) in
  do* on_buf data (fun p => SetDataLength (Z.min (DataLength p) limit) p) in
  let* state := gets (fun s => mRxState (rx_w s)) in
  do*
    match state with
    | kState_Idle => receive_first data rx_flags cursor
    | kState_InProgress => receive_next data rx_flags cursor
    | _ => fail BLE_ERROR_REASSEMBLER_INCORRECT_STATE
    end in
  if test_flag rx_flags kHeaderFlag_EndMessage then receive_end else ret tt.

Definition receive_fragment (data : nat) : M RxCtx (option Z) :=
  let* header := receive_header data in
  let '(rx_flags, cursor, ack) := header in
  do* (if DidReceiveData rx_flags then receive_data data rx_flags cursor
       else do* on_pool (Free (Some data)) in clear_data) in
  ret ack.

(** HandleCharacteristicReceived(data, receivedAck, didReceiveAck): the
    acknowledgement received.  On an error the data not yet freed is left to the
    engine. *)
Definition HandleCharacteristicReceived (data : nat) : M (WoBle * Pool) (option Z) := fun '(w, h) =>
  match receive_fragment data (mkRx w h (Some data)) with
  | (Err e, s) =>
    let w := set_mRxState kState_Error (rx_w s) in
    match rx_data s, mRxBuf w with
    | Some d, Some b =>
      match AddToEnd b d (rx_h s) with
      | (Ok _, h) => (Err e, (w, h))
      | (Err e', h) => (Err e', (w, h))
      | (Undefined, h) => (Undefined, (w, h))
      | (Diverges, h) => (Diverges, (w, h))
      end
    | Some d, None => (Err e, (set_mRxBuf (Some d) w, rx_h s))
    | None, _ => (Err e, (w, rx_h s))
    end
  | (r, s) => (r, (rx_w s, rx_h s))
  end.

Definition ClearRxPacket (w : WoBle) : bool * WoBle :=
  if bool_decide (mRxState w = kState_Complete) then (true, set_mRxBuf None (set_mRxState kState_Idle w)) else (false, w).

(** ** Acknowledgements *)

(** The distance from the oldest unacknowledged fragment, counted around the
    circle of 256 numbers. *)
Definition ack_distance (w : WoBle) (n : Z) : Z := (n - mTxOldestUnackedSeqNum w) mod 256.

Lemma IncSeqNum_mod n : IncSeqNum n = (n + 1) mod 256.
Proof. unfold IncSeqNum. rewrite Z.land_comm. change 255 with (Z.ones 8). by rewrite Z.land_ones. Qed.

Lemma IsValidAck_distance ack w : is_byte ack -> is_byte (mTxOldestUnackedSeqNum w) -> is_byte (mTxNewestUnackedSeqNum w) ->
  mExpectingAck w = true -> IsValidAck ack w = (ack_distance w ack <=? ack_distance w (mTxNewestUnackedSeqNum w)).
Proof.
  unfold is_byte, IsValidAck, ack_distance. intros Ha Ho Hn ->. cbn [negb].
  set (o := mTxOldestUnackedSeqNum w) in *. set (n := mTxNewestUnackedSeqNum w) in *.
  destruct (Z.leb_spec o n).
  - assert ((n - o) mod 256 = n - o) as -> by (apply Z.mod_small; lia).
    destruct (Z.leb_spec ack n), (Z.leb_spec o ack); cbn [andb]; symmetry; first [apply Z.leb_le | apply Z.leb_gt]; mlia.
  - assert ((n - o) mod 256 = n - o + 256) as -> by mlia.
    destruct (Z.leb_spec ack n), (Z.leb_spec o ack); cbn [orb]; symmetry; first [apply Z.leb_le | apply Z.leb_gt]; mlia.
Qed.

(** The numbers of the fragments sent and not acknowledged, oldest first. *)
Fixpoint window (o : Z) (n : nat) : list Z := match n with O => [] | S n => o :: window ((o + 1) mod 256) n end.
Definition unacked (w : WoBle) : list Z :=
  if mExpectingAck w then window (mTxOldestUnackedSeqNum w) (S (Z.to_nat (ack_distance w (mTxNewestUnackedSeqNum w)))) else [].

(** What an acknowledgement does to a queue: everything up to it is acknowledged. *)
Fixpoint acknowledge (a : Z) (q : list Z) : option (list Z) :=
  match q with [] => None | x :: q => if x =? a then Some q else acknowledge a q end.

Lemma acknowledge_window a n : forall o, is_byte a -> is_byte o -> (n <= 256)%nat ->
  acknowledge a (window o n) = let d := (a - o) mod 256 in
    if d <? Z.of_nat n then Some (window ((a + 1) mod 256) (n - Z.to_nat d - 1)) else None.
Proof.
  unfold is_byte. induction n as [|n IH]; intros o Ha Ho Hn; cbn [window acknowledge].
  - cbv zeta. rewrite (proj2 (Z.ltb_ge _ _)); [done|]. mlia.
  - destruct (Z.eqb_spec o a) as [->|Hne].
    + rewrite Z.sub_diag. cbv zeta. rewrite (proj2 (Z.ltb_lt _ _)) by (change (0 mod 256) with 0; lia).
      change (Z.to_nat (0 mod 256)) with 0%nat. by replace (S n - 0 - 1)%nat with n by lia.
    + rewrite IH by mlia. cbv zeta. assert ((a - (o + 1) mod 256) mod 256 = (a - o) mod 256 - 1) as -> by mlia.
      assert (0 < (a - o) mod 256 < 256) as Hd by mlia.
      destruct (Z.ltb_spec ((a - o) mod 256) (Z.of_nat (S n))), (Z.ltb_spec ((a - o) mod 256 - 1) (Z.of_nat n)); try lia; [|done].
      do 2 f_equal. lia.
Qed.

Lemma window_snoc n : forall o, window o n ++ [(o + Z.of_nat n) mod 256] = match n with O => [o mod 256] | S _ => window o (S n) end.
Proof.
  induction n as [|n IH]; intros o; [cbn; by rewrite Z.add_0_r|]. cbn [window app]. f_equal.
  replace (o + Z.of_nat (S n)) with ((o + 1) + Z.of_nat n) by lia. rewrite <- (Zplus_mod_idemp_l (o + 1)), IH.
  destruct n; [cbn; by rewrite Zmod_mod|done].
Qed.

Lemma window_length o n : length (window o n) = n.
Proof. revert o. induction n as [|n IH]; intros o; [done|]. cbn. by rewrite IH. Qed.

(** The sending side between two operations. *)
Record tx_ok (w : WoBle) : Prop := {
  tx_next : is_byte (mTxNextSeqNum w);
  tx_oldest : is_byte (mTxOldestUnackedSeqNum w);
  tx_newest : mExpectingAck w = true -> is_byte (mTxNewestUnackedSeqNum w) /\ mTxNextSeqNum w = (mTxNewestUnackedSeqNum w + 1) mod 256 }.

(** The sending side: numbering a fragment, and an acknowledgement received. *)
Inductive TxEvent := TxSend | TxAck (n : Z).
Definition tx_step (e : TxEvent) : M WoBle (option Z) := fun w =>
  match e with
  | TxSend => let '(seq, w) := GetAndIncrementNextTxSeqNum w in (Ok (Some seq), w)
  | TxAck n => bind (HandleAckReceived n) (fun _ => ret None) w
  end.

(** A queue of numbers, and the next number. *)
Definition queue_step (e : TxEvent) (s : list Z * Z) : res (option Z) * (list Z * Z) :=
  let '(q, next) := s in
  match e with
  | TxSend => (Ok (Some next), (q ++ [next], (next + 1) mod 256))
  | TxAck n => match acknowledge n q with Some q => (Ok None, (q, next)) | None => (Err BLE_ERROR_INVALID_ACK, s) end
  end.

Definition event_ok (e : TxEvent) (q : list Z) : bool :=
  match e with TxSend => (length q <? 256)%nat | TxAck n => byte_ok n end.

Lemma tx_step_queue e w : tx_ok w -> event_ok e (unacked w) = true ->
  let '(r, w') := tx_step e w in queue_step e (unacked w, mTxNextSeqNum w) = (r, (unacked w', mTxNextSeqNum w')) /\ tx_ok w'.
Proof.
  intros Hw He. pose proof Hw as [Hx Ho Hn]. unfold is_byte in Hx, Ho, Hn. destruct e as [|n]; cbn [tx_step queue_step event_ok] in *; unfold event_ok, byte_ok in He.
  - unfold GetAndIncrementNextTxSeqNum. destruct (mExpectingAck w) eqn:Ee; cbn -[window]; rewrite ?IncSeqNum_mod.
    + destruct (Hn eq_refl) as [Hb En]. unfold unacked, ack_distance in *. cbn -[window]. rewrite Ee in *. rewrite window_length in He. apply Nat.ltb_lt in He. split.
      * rewrite En.
        set (d := (mTxNewestUnackedSeqNum w - mTxOldestUnackedSeqNum w) mod 256) in *.
        assert (((mTxNewestUnackedSeqNum w + 1) mod 256 - mTxOldestUnackedSeqNum w) mod 256 = d + 1) as -> by (unfold d in *; mlia).
        assert ((mTxNewestUnackedSeqNum w + 1) mod 256 = (mTxOldestUnackedSeqNum w + Z.of_nat (S (Z.to_nat d))) mod 256) as -> by (unfold d in *; mlia).
        rewrite window_snoc. replace (Z.to_nat (d + 1)) with (S (Z.to_nat d)) by (unfold d in *; mlia). done.
      * split; cbn; unfold is_byte; [mlia|done|]. intros _. by split.
    + unfold unacked, ack_distance. cbn. rewrite Ee, Z.sub_diag. split; [done|]. split; cbn; unfold is_byte; [mlia|done|]. intros _. by split.
  - bool_prop. unfold bind, HandleAckReceived. unfold unacked at 1. destruct (mExpectingAck w) eqn:Ee.
    + destruct (Hn eq_refl) as [Hb En]. rewrite IsValidAck_distance by (done || by unfold is_byte; lia). rewrite acknowledge_window; [|unfold is_byte; lia|done|unfold ack_distance; mlia].
      unfold ack_distance at 1 2. cbv zeta. set (d := (n - _) mod 256). set (dn := (mTxNewestUnackedSeqNum w - _) mod 256). rewrite Z.leb_antisym.
      assert (0 <= d < 256 /\ 0 <= dn < 256) as [Hd Hdn] by (unfold d, dn; mlia).
      unfold ack_distance. fold dn. destruct (Z.ltb_spec dn d) as [Hlt|Hge]; cbn [negb].
      * rewrite (proj2 (Z.ltb_ge _ _)) by lia. unfold unacked, ack_distance. rewrite Ee. fold dn. split; [done|exact Hw].
      * rewrite (proj2 (Z.ltb_lt _ _)) by lia. destruct (Z.eqb_spec (mTxNewestUnackedSeqNum w) n) as [<-|Hne]; cbn.
        -- replace (S (Z.to_nat dn) - Z.to_nat d - 1)%nat with 0%nat by (unfold d, dn; lia). unfold unacked. cbn. split; [done|]. by split; cbn.
        -- unfold unacked, ack_distance. cbn. rewrite Ee, IncSeqNum_mod. split; [|split; cbn; rewrite ?IncSeqNum_mod; unfold is_byte; try done; mlia].
           replace (S (Z.to_nat dn) - Z.to_nat d - 1)%nat with (S (Z.to_nat ((mTxNewestUnackedSeqNum w - (n + 1) mod 256) mod 256))); [done|].
           assert ((mTxNewestUnackedSeqNum w - (n + 1) mod 256) mod 256 = dn - d - 1) as -> by (unfold d, dn in *; mlia).
           assert (d <> dn) by (unfold d, dn; mlia). lia.
    + unfold IsValidAck. rewrite Ee. cbn. unfold unacked. rewrite Ee. split; [done|exact Hw].
Qed.

Fixpoint tx_run (evs : list TxEvent) (w : WoBle) : list (res (option Z)) :=
  match evs with [] => [] | e :: evs => let '(r, w) := tx_step e w in r :: tx_run evs w end.

(** The queue's answers, as long as no more than 256 numbers are outstanding. *)
Fixpoint queue_run (evs : list TxEvent) (s : list Z * Z) : option (list (res (option Z))) :=
  match evs with
  | [] => Some []
  | e :: evs => if event_ok e (fst s) then let '(r, s) := queue_step e s in option_map (cons r) (queue_run evs s) else None
  end.

Lemma tx_run_queue evs : forall w rs, tx_ok w -> queue_run evs (unacked w, mTxNextSeqNum w) = Some rs -> tx_run evs w = rs.
Proof.
  induction evs as [|e evs IH]; intros w rs Hw Hr; cbn [queue_run tx_run fst] in Hr |- *; [by injection Hr|].
  destruct (event_ok e (unacked w)) eqn:Ee; [|done]. pose proof (tx_step_queue e w Hw Ee) as HS.
  destruct (tx_step e w) as [r w'] eqn:Es. destruct HS as [HS Hw']. rewrite HS in Hr.
  destruct (queue_run evs _) as [rs'|] eqn:Eq; cbn [option_map] in Hr; [|done]. injection Hr as <-. f_equal. by apply IH.
Qed.

(** ** One fragment on the way out *)

(** A buffer of its own in which the bytes [R] are stored from offset [off] of the
    block on. *)
Record holds (p : PacketBuffer) (off : Z) (R : list Z) : Prop := {
  hold_wf : wf_pbuf p;
  hold_tot : pb_tot_len p = pb_len p;
  hold_off : pb_payload p <= off;
  hold_end : off + Z.of_nat (length R) <= AllocSize p;
  hold_read : block_read off (Z.of_nat (length R)) (pb_block p) = R }.

Definition end_flag (flags : Z) (last : bool) : Z := if last then Z.lor flags kHeaderFlag_EndMessage else flags.

Lemma finish_fragment_ok flags header p w R : let c := 1 + Z.of_nat (length header) in
  holds p (pb_payload p + c) R -> is_byte flags -> is_byte (Z.lor flags kHeaderFlag_EndMessage) -> is_bytes header ->
  mTxLength w = Z.of_nat (length R) -> c < mTxFragmentSize w < 65536 ->
  let n := mTxFragmentSize w in let last := Z.of_nat (length R) + c <=? n in
  let '(p', w') := finish_fragment flags header p w in
  pb_data p' = end_flag flags last :: header ++ take (Z.to_nat (n - c)) R /\ wf_pbuf p' /\ pb_next p' = pb_next p /\ pb_ref p' = pb_ref p /\
  length (pb_block p') = length (pb_block p) /\
  (if last then w' = set_mTxPacketCount (u16 (mTxPacketCount w + 1)) (set_mTxState kState_Complete (set_mTxLength 0 w))
   else w' = set_mTxLength (Z.of_nat (length R) - (n - c)) w /\ pb_len p' = n /\
        holds p' (pb_payload p' + n) (drop (Z.to_nat (n - c)) R)).
Proof.
  intros c HH Hf1 Hf2 Hb HT Hn n last. destruct HH as [Hw Ht Ho He Hr]. pose proof Hw as []. unfold finish_fragment. fold c. rewrite HT. fold n last.
  set (hd := (if last then Z.lor flags kHeaderFlag_EndMessage else flags) :: header).
  assert (Z.of_nat (length hd) = c) as Hhd by (unfold hd, c; cbn [length]; lia).
  assert (is_bytes hd) as Hbh by (unfold hd; constructor; [by destruct last|done]).
  set (q := write_at (Start p) hd p). unfold AllocSize, Start in *.
  assert (length (pb_block q) = length (pb_block p)) as HL by (apply block_write_length; unfold c in *; lia).
  assert (wf_pbuf q) as Hwq by (split; unfold AllocSize; rewrite ?HL; cbn [q write_at pb_payload pb_len pb_tot_len pb_block]; try done; try lia; by apply block_write_bytes).
  assert (forall L, c <= L <= c + Z.of_nat (length R) -> let p' := SetDataLength L q in
    pb_data p' = hd ++ take (Z.to_nat (L - c)) R /\ wf_pbuf p' /\ pb_len p' = L /\ pb_payload p' = pb_payload p /\ pb_block p' = pb_block q /\ pb_tot_len p' = L) as HS.
  { intros L HLr p'. destruct (SetDataLength_ok L q Hwq ltac:(unfold AllocSize; rewrite HL; cbn [q write_at pb_payload]; unfold c in *; lia) Ht) as (Hw' & Hd & Hp & Hl & Hbk).
    fold p' in Hw', Hd, Hp, Hl, Hbk. split; [|split; [exact Hw'|split; [exact Hl|split; [exact Hp|split; [exact Hbk|]]]]].
    - rewrite Hd. cbn [q write_at pb_payload pb_block]. replace L with (c + (L - c)) at 1 by lia. rewrite block_read_split by (unfold c in *; lia). f_equal.
      + rewrite <- Hhd. apply block_read_write; unfold c in *; lia.
      + rewrite block_read_write_after by (unfold c in *; lia). rewrite <- (block_read_take _ _ (Z.of_nat (length R))) by lia. by rewrite Hr.
    - unfold p', SetDataLength. cbn [pb_tot_len]. rewrite MaxDataLength_eq by done. unfold AllocSize. rewrite HL.
      rewrite (proj2 (Z.ltb_ge _ _)) by (cbn [q write_at pb_payload]; unfold c in *; lia). cbn [q write_at pb_tot_len pb_len]. rewrite u16_id by (unfold c in *; lia). lia. }
  unfold end_flag. destruct last eqn:El; unfold last in El; bool_prop.
  - rewrite u16_id by (unfold c in *; lia). destruct (HS (Z.of_nat (length R) + c) ltac:(lia)) as (H1 & H2 & H3 & H4 & H5 & H6).
    split; [|split; [done|split; [done|split; [done|split; [by rewrite H5|done]]]]].
    rewrite H1. unfold hd. cbn [app]. do 2 f_equal. rewrite !take_ge by lia. done.
  - destruct (HS n ltac:(lia)) as (H1 & H2 & H3 & H4 & H5 & H6).
    split; [by rewrite H1|split; [done|split; [done|split; [done|split; [by rewrite H5|]]]]].
    rewrite u16_id by (unfold n in *; lia). do 2 (split; [done|]). rewrite H4. split; rewrite ?length_drop; unfold AllocSize; rewrite ?H5, ?HL; try done; try lia.
    cbn [q write_at pb_block]. rewrite block_read_write_after by lia.
    replace (pb_payload p + n) with (pb_payload p + c + (n - c)) by lia.
    replace (Z.of_nat (length R - Z.to_nat (n - c))) with (Z.of_nat (length R) - (n - c)) by lia.
    rewrite <- block_read_drop by (unfold c in *; lia). by rewrite Hr.
Qed.


(** ** Properties *)

(** C16: the numbers of the fragments sent form a queue.  However sending and
    acknowledgements alternate after Init, the engine answers as a queue of the
    numbers sent does: the numbers follow each other around the circle of 256; an
    acknowledgement is accepted exactly if its number is in the queue, and then
    takes off everything up to it; any other is an error and changes nothing.
    This holds as long as no more than 256 fragments are outstanding. *)
Theorem WoBle_ack_window (expect_first_ack : bool) w evs rs :
  queue_run evs (if expect_first_ack then ([0], 1) else ([], 0)) = Some rs ->
  tx_run evs (WoBle_Init expect_first_ack w) = rs.
Proof.
  intros HR. apply tx_run_queue; [destruct expect_first_ack; split; cbn; try done; intros; split; unfold is_byte; done|by destruct expect_first_ack].
Qed.

Theorem WoBle_ack_window_witness :
  tx_run [TxSend; TxSend; TxAck 5; TxAck 1; TxAck 0; TxSend; TxAck 3] (WoBle_Init true (mkWoBle kState_Idle 0 None 0 0 0 0 kState_Idle 0 None 0 0 0 false 0 0 0 0 0)) =
  [Ok (Some 1); Ok (Some 2); Err BLE_ERROR_INVALID_ACK; Ok None; Err BLE_ERROR_INVALID_ACK; Ok (Some 3); Ok None].
Proof. apply WoBle_ack_window. vm_compute. reflexivity. Defined.
