(* ===== verification/BtpTransfer.v ===== *)
(** * A message across a BLE connection (src/src/ble/WoBle.cpp)

    The sending engine cuts a message into fragments, the receiving engine puts it
    together again: the two sides of WoBle composed, with the pool of the receiver. *)
From S2P Require Import Prelude Encoding PacketBuffer PacketBufferChain WoBle.
Local Open Scope weave_scope.
Local Open Scope Z_scope.

(** ** The sending side *)

(** A message of which the bytes [R] are still to be sent, in fragments of [n] bytes. *)
Record sending (w : WoBle) (h : Pool) (d : nat) (n : Z) (R : list Z) : Prop := {
  snd_state : mTxState w = kState_InProgress;
  snd_buf : mTxBuf w = Some d;
  snd_length : mTxLength w = Z.of_nat (length R);
  snd_size : mTxFragmentSize w = n;
  snd_held : exists p, bufs h !! d = Some p /\ pb_len p = n /\ holds p (pb_payload p + n) R }.

(** What a call of HandleCharacteristicSend leaves: a fragment of [header] and the
    next bytes of [R]. *)
Definition fragment_sent (w : WoBle) (d : nat) (n flags : Z) (header R : list Z) (w' : WoBle) (h' : Pool) : Prop :=
  let c := 1 + Z.of_nat (length header) in
  let last := Z.of_nat (length R) + c <=? n in
  (exists p', bufs h' !! d = Some p' /\ pb_data p' = end_flag flags last :: header ++ take (Z.to_nat (n - c)) R) /\
  mTxBuf w' = Some d /\ mTxNextSeqNum w' = (mTxNextSeqNum w + 1) mod 256 /\
  (if last then mTxState w' = kState_Complete else sending w' h' d n (drop (Z.to_nat (n - c)) R)).

Lemma SetStart_alone s p : pb_tot_len p = pb_len p -> pb_tot_len (SetStart s p) = pb_len (SetStart s p).
Proof. intros Ht. unfold SetStart. cbn. by rewrite Ht. Qed.

Lemma fragment_header_spec len w : exists w1,
  fragment_header false len w = (mTxNextSeqNum w :: match len with Some n => [Z.land n 255; Z.shiftr n 8] | None => [] end, w1) /\
  mTxLength w1 = mTxLength w /\ mTxFragmentSize w1 = mTxFragmentSize w /\ mTxState w1 = mTxState w /\ mTxBuf w1 = mTxBuf w /\
  mTxNextSeqNum w1 = (mTxNextSeqNum w + 1) mod 256.
Proof.
  unfold fragment_header, GetAndIncrementNextTxSeqNum. destruct (mExpectingAck w); eexists; (split; [reflexivity|]); cbn;
    rewrite IncSeqNum_mod; done.
Qed.

(** The common end of the first fragment and the others. *)
Lemma fragment_sent_ok len flags p w h d n R : let header := mTxNextSeqNum w :: match len with Some k => [Z.land k 255; Z.shiftr k 8] | None => [] end in
  let c := 1 + Z.of_nat (length header) in
  holds p (pb_payload p + c) R -> (d < length (bufs h))%nat -> is_byte flags -> is_byte (Z.lor flags kHeaderFlag_EndMessage) -> is_bytes header ->
  mTxState w = kState_InProgress -> mTxBuf w = Some d -> mTxLength w = Z.of_nat (length R) -> mTxFragmentSize w = n -> c < n < 65536 ->
  let '(header, w1) := fragment_header false len w in
  let '(p', w') := finish_fragment flags header p w1 in
  fragment_sent w d n flags header R w' (put d p' h).
Proof.
  intros header c HH Hd Hf1 Hf2 Hb HS HB HL Hn Hcn. destruct (fragment_header_spec len w) as (w1 & -> & E1 & E2 & E3 & E4 & E5).
  fold header. assert (mTxLength w1 = Z.of_nat (length R)) as HL1 by (by rewrite E1). assert (c < mTxFragmentSize w1 < 65536) as Hc1 by (by rewrite E2, Hn).
  pose proof (finish_fragment_ok flags header p w1 R HH Hf1 Hf2 Hb HL1 Hc1) as HF.
  destruct (finish_fragment flags header p w1) as [p' w'] eqn:EF. rewrite E2, Hn in HF. fold c in HF. destruct HF as (Hdata & Hw & _ & _ & _ & Hend).
  unfold fragment_sent. fold c. assert (bufs (put d p' h) !! d = Some p') as Hp' by (cbn; by apply list_lookup_insert_eq).
  split; [by exists p'|]. destruct (Z.of_nat (length R) + c <=? n) eqn:El.
  - subst w'. cbn. by rewrite E4, E5.
  - destruct Hend as (-> & Hpl & Hh). cbn. rewrite E4, E5. do 2 (split; [done|]). split; cbn; try congruence.
    + rewrite length_drop. bool_prop. unfold c in *. lia.
    + exists p'. by split.
Qed.

Lemma send_next w h d n R : sending w h d n R -> 2 < n < 65536 -> is_byte (mTxNextSeqNum w) ->
  exists w' h', HandleCharacteristicSend None false (w, h) = (Ok true, (w', h')) /\ fragment_sent w d n 2 [mTxNextSeqNum w] R w' h'.
Proof.
  intros [HS HB HL Hn (p & Hp & Hpl & [Hw Ht Ho He Hr])] Hn2 Hb. unfold HandleCharacteristicSend. cbv zeta. cbn [andb negb].
  set (w0 := set_mTxCharCount _ w). change (mTxState w0) with (mTxState w). change (mTxBuf w0) with (mTxBuf w). rewrite HS, HB, Hp.
  change (mTxFragmentSize w0) with (mTxFragmentSize w). rewrite Hn.
  change (NL_BLE_TRANSFER_PROTOCOL_MID_FRAGMENT_MAX_HEADER_SIZE - NL_BLE_TRANSFER_PROTOCOL_ACK_SIZE) with 2.
  destruct (SetStart_forward (Start p + n - 2) p Hw ltac:(unfold Start; lia)) as (Hw1 & _ & Hp1 & _ & Hb1).
  pose proof (SetStart_alone (Start p + n - 2) p Ht) as Ht1. set (p1 := SetStart (Start p + n - 2) p) in *. unfold Start in Hp1.
  assert (holds p1 (pb_payload p1 + 2) R) as HH.
  { split; [done|done|lia| |]; [unfold AllocSize in *; rewrite Hb1; lia|]. rewrite Hb1, Hp1. by replace (pb_payload p + n - 2 + 2) with (pb_payload p + n) by lia. }
  pose proof (fragment_sent_ok None 2 p1 w0 h d n R HH (lookup_lt_Some _ _ _ Hp)) as HF.
  change (mTxNextSeqNum w0) with (mTxNextSeqNum w) in HF. change (Z.lor kHeaderFlag_ContinueMessage 0) with 2.
  destruct (fragment_header_spec None w0) as (w1 & E & _). rewrite E in HF |- *.
  destruct (finish_fragment 2 _ p1 w1) as [p' w']. exists w', (put d p' h). split; [done|]. cbn in HF |- *.
  apply HF; try done; try (by constructor); cbn; lia.
Qed.

Lemma send_first w h d n p M : mTxState w = kState_Idle -> mTxFragmentSize w = n -> bufs h !! d = Some p -> wf_pbuf p -> pb_tot_len p = pb_len p ->
  pb_data p = M -> Z.of_nat (length M) + 4 <= AllocSize p -> 4 < n < 65536 -> is_byte (mTxNextSeqNum w) ->
  exists w' h', HandleCharacteristicSend (Some d) false (w, h) = (Ok true, (w', h')) /\
    fragment_sent w d n 1 [mTxNextSeqNum w; Z.land (Z.of_nat (length M)) 255; Z.shiftr (Z.of_nat (length M)) 8] M w' h'.
Proof.
  intros HS Hn Hp Hw Ht Hm HL Hn2 Hb. unfold HandleCharacteristicSend. cbv zeta. cbn [andb negb].
  set (w0 := set_mTxCharCount _ w). change (mTxState w0) with (mTxState w). rewrite HS, Hp.
  change (NL_BLE_TRANSFER_PROTOCOL_MAX_HEADER_SIZE - NL_BLE_TRANSFER_PROTOCOL_ACK_SIZE + WEAVE_CONFIG_BLE_PKT_RESERVED_SIZE) with 4.
  change (NL_BLE_TRANSFER_PROTOCOL_MAX_HEADER_SIZE - NL_BLE_TRANSFER_PROTOCOL_ACK_SIZE) with 4.
  assert (pb_len p = Z.of_nat (length M)) as Hlen by (rewrite <- Hm; symmetry; by apply pb_data_length). pose proof (wf_alloc _ Hw) as HA.
  destruct (EnsureReservedSize 4 p) as [[] p0] eqn:EE; [|apply EnsureReservedSize_false in EE as [_ EE]; lia].
  apply EnsureReservedSize_true in EE as (Hw0 & Hd0 & Hr0 & Hl0 & HA0 & _ & _ & Ht0 & _); [|done|lia]. unfold Start, DataLength.
  pose proof Hw0 as []. destruct (SetStart_back (pb_payload p0 - 4) p0 Hw0 ltac:(lia) ltac:(lia)) as (Hw1 & Hd1 & Hp1 & Hl1 & Hb1).
  pose proof (SetStart_alone (pb_payload p0 - 4) p0 ltac:(lia)) as Ht1. set (p1 := SetStart (pb_payload p0 - 4) p0) in *.
  assert (holds p1 (pb_payload p1 + 4) M) as HH.
  { split; [done|done|lia| |]; [unfold AllocSize in *; rewrite Hb1; lia|]. rewrite Hb1, Hp1. replace (pb_payload p0 - 4 + 4) with (pb_payload p0) by lia.
    rewrite <- Hlen, <- Hl0. change (pb_data p0 = M). by rewrite Hd0. }
  set (w2 := set_mTxLength _ _). change (mTxLength w2) with (pb_len p). rewrite Hlen.
  pose proof (fragment_sent_ok (Some (Z.of_nat (length M))) 1 p1 w2 h d n M HH (lookup_lt_Some _ _ _ Hp)) as HF.
  change (mTxNextSeqNum w2) with (mTxNextSeqNum w) in HF. change (Z.lor kHeaderFlag_StartMessage 0) with 1.
  destruct (fragment_header_spec (Some (Z.of_nat (length M))) w2) as (w1 & E & _). rewrite E in HF |- *.
  destruct (finish_fragment 1 _ p1 w1) as [p' w']. exists w', (put d p' h). split; [done|]. apply HF; try done; try (cbn; lia).
  constructor; [done|]. constructor; [|constructor; [|constructor]]; unfold is_byte.
  - change 255 with (Z.ones 8). rewrite Z.land_ones by lia. change (2 ^ 8) with 256. mlia.
  - rewrite shiftr_div by lia. change (2 ^ 8) with 256. unfold AllocSize in *. mlia.
Qed.

(** ** The receiving side *)

Lemma read_char_ok i k b p s : bufs (rx_h s) !! i = Some p -> wf_pbuf p -> 0 <= k -> pb_data p !! Z.to_nat k = Some b -> read_char i k s = (Ok b, s).
Proof.
  intros Hp Hw Hk Hb. unfold read_char. rewrite Hp. unfold pb_data, block_read in Hb. apply lookup_take_Some in Hb as [Hb _].
  rewrite lookup_drop in Hb. destruct Hw. replace (Z.to_nat (pb_payload p + k)) with (Z.to_nat (pb_payload p) + Z.to_nat k)%nat by lia. by rewrite Hb.
Qed.

(** The engine after the header of the fragment [seq] without acknowledgement. *)
Definition header_received (seq : Z) (w : WoBle) : WoBle :=
  set_mRxNextSeqNum (IncSeqNum seq) (set_mRxNewestUnackedSeqNum seq (set_mRxCharCount (u16 (mRxCharCount w + 1)) w)).

Lemma receive_header_ok i flags seq rest p s : bufs (rx_h s) !! i = Some p -> wf_pbuf p -> pb_data p = flags :: seq :: rest ->
  GetFlag flags kHeaderFlag_FragmentAck = false -> mRxNextSeqNum (rx_w s) = seq ->
  receive_header i s = (Ok (flags, 2, None), mkRx (header_received seq (rx_w s)) (rx_h s) (rx_data s)).
Proof.
  intros Hp Hw Hd Hf Hs. destruct s as [w h dt]. cbn [rx_w rx_h rx_data] in *. unfold receive_header, on_w.
  erewrite bind_ok by reflexivity. cbn [rx_w rx_h rx_data].
  rewrite (bind_ok _ _ _ flags _ (read_char_ok i 0 flags p (mkRx _ h dt) Hp Hw (Z.le_refl 0) ltac:(by rewrite Hd))). rewrite Hf.
  erewrite bind_ok by reflexivity. cbv beta iota.
  rewrite (bind_ok _ _ _ seq _ (read_char_ok i 1 seq p (mkRx _ h dt) Hp Hw ltac:(lia) ltac:(by rewrite Hd))).
  erewrite bind_ok by reflexivity. cbn [rx_w rx_h rx_data]. unfold gets. erewrite bind_ok by reflexivity. cbn [rx_w].
  change (mRxNextSeqNum (set_mRxNewestUnackedSeqNum seq ?x)) with (mRxNextSeqNum x). change (mRxNextSeqNum (set_mRxCharCount ?n w)) with (mRxNextSeqNum w).
  rewrite Hs, Z.eqb_refl. unfold verify. rewrite bind_ret. erewrite bind_ok by reflexivity. cbn [rx_w rx_h rx_data].
  unfold ret, header_received. cbn. by rewrite Hs.
Qed.

(** Appending the buffer [i] to the buffer [b], where it fits. *)
Lemma append_fragment_ok own m fl b i cs s : pool_rep (rx_h s) own m fl ([b] :: [i] :: cs) -> In b own -> refs own i = 1 -> mRxBuf (rx_w s) = Some b ->
  Z.of_nat (length (m b)) < WEAVE_SYSTEM_PACKETBUFFER_ALLOCSIZE_MAX -> Z.of_nat (length (m b ++ m i)) <= WEAVE_SYSTEM_PACKETBUFFER_ALLOCSIZE_MAX ->
  exists h', append_fragment i s = (Ok tt, mkRx (rx_w s) h' None) /\
    pool_rep h' (release i own) (upd b (m b ++ m i) m) (i :: fl) ([b] :: cs).
Proof.
  intros HR Hb Hi HB H1 H2. destruct s as [w h dt]. cbn [rx_w rx_h] in *.
  destruct (single_buffer _ _ _ _ _ _ HR) as (p & Hp & Hw & Ht & _ & _ & Hm & _).
  pose proof (rep_permute _ _ _ _ _ _ (perm_swap [i] [b] cs) HR) as HR1.
  destruct (single_buffer _ _ _ _ _ _ HR1) as (q & Hq & Hwq & Htq & _ & _ & Hmi & _).
  pose proof (pb_data_length _ Hw) as Hlp. pose proof (pb_data_length _ Hwq) as Hlq. rewrite length_app, Nat2Z.inj_add, Hmi in H2. rewrite Hm in H1, H2.
  unfold WEAVE_SYSTEM_PACKETBUFFER_ALLOCSIZE_MAX, WEAVE_SYSTEM_PACKETBUFFER_SIZE, WEAVE_SYSTEM_PACKETBUFFER_HEADER_SIZE in *.
  assert (In i own) as Hio by (apply refs_In; lia).
  assert (tot_of h b = pb_len p /\ tot_of h i = pb_len q) as [Htb Hti] by (unfold tot_of; by rewrite Hp, Hq, Ht, Htq).
  destruct (AddToEnd_rep h own m fl cs b [] i [] HR Hb Hio Hi ltac:(rewrite Htb, Hti; lia)) as (h1 & E1 & HR2 & Hsame).
  destruct (CompactHead_rep _ _ _ _ _ _ _ HR2) as (d & l' & h2 & E2 & Hdl & [_ Hc] & HR3). cbn [app] in *.
  destruct (one_chain _ _ _ _ _ _ _ HR2) as (Hch & _ & Hm2 & _). pose proof (chain_data_length _ _ _ _ Hch) as Htot.
  rewrite <- Hm2, upd_eq in Htot. rewrite length_app, Nat2Z.inj_add, Hm, Hmi, Hlp, Hlq in Htot.
  assert (l' = []) as ->.
  { apply Hc; [done| |unfold WEAVE_SYSTEM_PACKETBUFFER_ALLOCSIZE_MAX, WEAVE_SYSTEM_PACKETBUFFER_SIZE, WEAVE_SYSTEM_PACKETBUFFER_HEADER_SIZE; lia].
    unfold WEAVE_SYSTEM_PACKETBUFFER_ALLOCSIZE_MAX, WEAVE_SYSTEM_PACKETBUFFER_SIZE, WEAVE_SYSTEM_PACKETBUFFER_HEADER_SIZE.
    rewrite Hsame. unfold len_at. rewrite Hp. lia. }
  exists h2. unfold append_fragment, gets. erewrite bind_ok by reflexivity. cbn [rx_w]. rewrite HB. unfold on_pool at 1.
  erewrite bind_ok; [|cbn [rx_w rx_h rx_data]; rewrite E1; reflexivity]. unfold on_pool.
  erewrite bind_ok; [|cbn [rx_w rx_h rx_data]; rewrite E2; reflexivity]. split; [done|].
  rewrite app_nil_r in Hdl. by rewrite <- Hdl in HR3.
Qed.

Lemma put_same i p h : bufs h !! i = Some p -> put i p h = h.
Proof. intros Hp. unfold put. rewrite list_insert_id by done. by destruct h. Qed.

Lemma SetDataLength_same n p : wf_pbuf p -> pb_tot_len p = pb_len p -> n = pb_len p -> SetDataLength n p = p.
Proof.
  intros Hw Ht ->. unfold SetDataLength. rewrite MaxDataLength_eq by done. destruct Hw. rewrite (proj2 (Z.ltb_ge _ _)) by lia.
  rewrite Z.sub_diag, Z.add_0_r, u16_id by lia. by destruct p.
Qed.

Lemma on_buf_ok i f p s : bufs (rx_h s) !! i = Some p -> on_buf i f s = (Ok tt, mkRx (rx_w s) (put i (f p) (rx_h s)) (rx_data s)).
Proof. intros Hp. unfold on_buf. by rewrite Hp. Qed.

(** Dropping the header of the fragment in the buffer [i]. *)
Lemma drop_header_rep h own m fl i cs c p : pool_rep h own m fl ([i] :: cs) -> bufs h !! i = Some p -> 0 <= c <= Z.of_nat (length (m i)) ->
  pool_rep (put i (SetStart (Start p + c) p) h) own (upd i (drop (Z.to_nat c) (m i)) m) fl ([i] :: cs).
Proof.
  intros HR Hp Hc. destruct (single_buffer _ _ _ _ _ _ HR) as (p0 & Hp0 & Hw & Ht & _ & _ & Hm & _). assert (p0 = p) as -> by congruence.
  rewrite Hm, pb_data_length in Hc by done. unfold Start. destruct (SetStart_forward (pb_payload p + c) p Hw ltac:(lia)) as (Hw' & Hd & _ & _ & Hb).
  rewrite Hm. replace (drop (Z.to_nat c) (pb_data p)) with (pb_data (SetStart (pb_payload p + c) p)) by (rewrite Hd; do 2 f_equal; lia).
  apply (update_rep h own m fl cs i p); try done; by rewrite ?Hb, ?SetStart_alone.
Qed.

Lemma receive_first_ok own m fl b i cs w h flags a1 a2 lo hi chunk : pool_rep h own m (b :: fl) ([i] :: cs) -> refs own i = 1 ->
  m i = a1 :: a2 :: lo :: hi :: chunk -> test_flag flags kHeaderFlag_StartMessage = true ->
  exists h' m', receive_first i flags 2 (mkRx w h (Some i)) =
      (Ok tt, mkRx (set_mRxBuf (Some b) (set_mRxState kState_InProgress (set_mRxLength (Z.lor (Z.shiftl hi 8) lo) w))) h' None) /\
    pool_rep h' (b :: release i own) m' (i :: fl) ([b] :: cs) /\ m' b = chunk /\ ~ In b own /\ (forall k, k <> b -> k <> i -> m' k = m k).
Proof.
  intros HR Hi Hm Hf. destruct (single_buffer _ _ _ _ _ _ HR) as (p & Hp & Hw & Ht & _ & _ & Hmp & HA). rewrite Hm in Hmp.
  unfold receive_first, verify. rewrite Hf, bind_ret. change (2 + 1) with 3.
  rewrite (bind_ok _ _ _ hi _ (read_char_ok i 3 hi p (mkRx w h (Some i)) Hp Hw ltac:(lia) ltac:(by rewrite <- Hmp))).
  rewrite (bind_ok _ _ _ lo _ (read_char_ok i 2 lo p (mkRx w h (Some i)) Hp Hw ltac:(lia) ltac:(by rewrite <- Hmp))).
  unfold on_w at 1. erewrite bind_ok by reflexivity. cbn [rx_w rx_h rx_data]. change (2 + 2) with 4.
  erewrite bind_ok by (apply on_buf_ok; cbn; exact Hp). cbn [rx_w rx_h rx_data].
  pose proof (drop_header_rep _ _ _ _ _ _ 4 p HR Hp ltac:(rewrite Hm; cbn [length]; lia)) as HR1. set (h1 := put i _ h) in *.
  rewrite Hm in HR1. change (drop (Z.to_nat 4) (a1 :: a2 :: lo :: hi :: chunk)) with chunk in HR1.
  destruct (New_rep h1 own _ (b :: fl) _ 38 (1676 - 38) b fl eq_refl HR1) as (h2 & E2 & HR2 & Hbo & _); [lia|lia|done|].
  erewrite (bind_ok (on_pool _)); [|unfold on_pool, New; cbn [rx_w rx_h rx_data]; change (NewWithAvailableSize _ _ h1) with (NewWithAvailableSize 38 (1676 - 38) h1); rewrite E2; reflexivity].
  unfold on_w. erewrite bind_ok by reflexivity. cbn [rx_w rx_h rx_data]. rewrite bool_decide_eq_false_2 by done. cbn [negb]. rewrite bind_ret.
  assert (i <> b) as Hib by (intros ->; apply Hbo, refs_In; lia).
  pose proof (single_buffer _ _ _ _ _ _ HR1) as (p1 & Hp1 & Hw1 & _ & _ & _ & Hm1 & HA1). rewrite upd_eq in Hm1.
  pose proof (pb_data_length _ Hw1) as HL1. rewrite <- Hm1 in HL1. destruct Hw1.
  destruct (append_fragment_ok (b :: own) _ fl b i cs (mkRx (set_mRxBuf (Some b) (set_mRxState kState_InProgress (set_mRxLength (Z.lor (Z.shiftl hi 8) lo) w))) h2 (Some i)) HR2) as (h3 & E3 & HR3).
  - by left.
  - rewrite refs_cons. by destruct (Nat.eq_dec b i).
  - done.
  - by rewrite upd_eq.
  - rewrite upd_eq, upd_ne, upd_eq by done. cbn [app]. lia.
  - eexists h3, _. rewrite E3. split; [done|]. cbn [release] in HR3. rewrite (proj2 (Nat.eqb_neq b i)) in HR3 by done.
    split; [exact HR3|]. rewrite !upd_eq, (upd_ne b), upd_eq by done. split; [done|]. split; [done|]. intros k H1 H2. by rewrite !upd_ne.
Qed.

Lemma receive_next_ok own m fl b i cs w h flags a1 a2 chunk : pool_rep h own m fl ([b] :: [i] :: cs) -> In b own -> refs own i = 1 -> mRxBuf w = Some b ->
  m i = a1 :: a2 :: chunk -> Z.land flags kHeaderFlag_StartMessage = 0 -> test_flag flags kHeaderFlag_ContinueMessage = true ->
  chunk <> [] -> Z.of_nat (length (m b ++ chunk)) <= WEAVE_SYSTEM_PACKETBUFFER_ALLOCSIZE_MAX ->
  exists h' m', receive_next i flags 2 (mkRx w h (Some i)) = (Ok tt, mkRx w h' None) /\
    pool_rep h' (release i own) m' (i :: fl) ([b] :: cs) /\ m' b = m b ++ chunk /\ (forall k, k <> b -> k <> i -> m' k = m k).
Proof.
  intros HR Hb Hi HB Hm Hf1 Hf2 Hne HL. pose proof (rep_permute _ _ _ _ _ _ (perm_swap [i] [b] cs) HR) as HR1.
  destruct (single_buffer _ _ _ _ _ _ HR1) as (p & Hp & Hw & Ht & _ & _ & Hmp & HA). rewrite Hm in Hmp.
  unfold receive_next, verify. rewrite Hf1, Hf2. cbn [Z.eqb orb]. rewrite !bind_ret.
  erewrite bind_ok by (apply on_buf_ok; cbn; exact Hp). cbn [rx_w rx_h rx_data].
  pose proof (drop_header_rep _ _ _ _ _ _ 2 p HR1 Hp ltac:(rewrite Hm; cbn [length]; lia)) as HR2. set (h1 := put i _ h) in *.
  rewrite Hm in HR2. change (drop (Z.to_nat 2) (a1 :: a2 :: chunk)) with chunk in HR2.
  assert (b <> i) as Hbi. { intros ->. pose proof (rep_NoDup _ _ _ _ _ HR) as Hnd. apply list.NoDup_app in Hnd as (_ & _ & Hnd). cbn in Hnd.
    destruct (NoDup_head _ _ Hnd) as [Hx _]. by apply (Hx i); [left|]. }
  destruct (append_fragment_ok own _ fl b i cs (mkRx w h1 (Some i)) (rep_permute _ _ _ _ _ _ (perm_swap [b] [i] cs) HR2) Hb Hi HB) as (h3 & E3 & HR3).
  - rewrite upd_ne by done. destruct chunk; [done|]. rewrite length_app in HL. cbn [length] in HL. lia.
  - by rewrite upd_ne, upd_eq by done.
  - rewrite (bind_ok _ _ _ _ _ E3). unfold gets. erewrite bind_ok by reflexivity. unfold rx_buffer. cbn [rx_w rx_h]. rewrite HB.
    destruct (single_buffer _ _ _ _ _ _ HR3) as (q & Hq & _ & _ & Hn & _). rewrite Hq, Hn. rewrite bool_decide_eq_true_2 by done.
    eexists h3, _. split; [done|]. split; [exact HR3|]. rewrite upd_eq, upd_ne, upd_eq by done. split; [done|]. intros k H1 H2. by rewrite !upd_ne.
Qed.

Lemma receive_end_ok own m fl b cs w h dt : pool_rep h own m fl ([b] :: cs) -> mRxBuf w = Some b -> mRxLength w = Z.of_nat (length (m b)) ->
  receive_end (mkRx w h dt) = (Ok tt, mkRx (set_mRxPacketCount (u16 (mRxPacketCount w + 1)) (set_mRxState kState_Complete w)) h dt).
Proof.
  intros HR HB HL. destruct (single_buffer _ _ _ _ _ _ HR) as (p & Hp & Hw & Ht & _ & _ & Hm & _). rewrite Hm, pb_data_length in HL by done.
  unfold receive_end, gets. erewrite bind_ok by reflexivity. erewrite bind_ok by reflexivity. unfold rx_buffer. cbn [rx_w rx_h]. rewrite HB, Hp.
  erewrite bind_ok by reflexivity. cbn [rx_w]. unfold DataLength. rewrite HL, Z.sub_diag. cbn [Z.ltb]. rewrite Z.ltb_irrefl.
  erewrite bind_ok by (apply on_buf_ok; exact Hp). cbn [rx_w rx_h rx_data]. rewrite put_same by done. rewrite Z.eqb_refl. unfold verify. by rewrite bind_ret.
Qed.

Lemma receive_data_start i flags c w h p : bufs h !! i = Some p -> wf_pbuf p -> pb_tot_len p = pb_len p -> pb_len p <= mRxFragmentSize w ->
  receive_data i flags c (mkRx w h (Some i)) =
  bind match mRxState w with
       | kState_Idle => receive_first i flags c
       | kState_InProgress => receive_next i flags c
       | _ => fail BLE_ERROR_REASSEMBLER_INCORRECT_STATE
       end (fun _ => if test_flag flags kHeaderFlag_EndMessage then receive_end else ret tt) (mkRx w h (Some i)).
Proof.
  intros Hp Hw Ht Hl. unfold receive_data, gets. erewrite bind_ok by reflexivity. erewrite bind_ok by (apply on_buf_ok; exact Hp). cbn [rx_w rx_h rx_data].
  rewrite SetDataLength_same, put_same by (done || unfold DataLength; lia). by erewrite bind_ok by reflexivity.
Qed.

(** The engine and the pool when the bytes [D] of a message of length [L] have come
    in; [fin] after the last fragment. *)
Record received (w : WoBle) (h : Pool) (own : list nat) (m : nat -> list Z) (fl : list nat) (cs : list (list nat)) (b : nat)
    (D : list Z) (seq n : Z) (L : Z) (fin : bool) : Prop := {
  rcv_state : mRxState w = if fin then kState_Complete else kState_InProgress;
  rcv_buf : mRxBuf w = Some b;
  rcv_length : mRxLength w = L;
  rcv_seq : mRxNextSeqNum w = seq;
  rcv_size : mRxFragmentSize w = n;
  rcv_rep : pool_rep h own m fl ([b] :: cs);
  rcv_data : m b = D }.

Lemma received_first own m fl b i cs w h last lo hi chunk seq : pool_rep h own m (b :: fl) ([i] :: cs) -> refs own i = 1 ->
  m i = end_flag 1 last :: seq :: lo :: hi :: chunk -> mRxState w = kState_Idle -> mRxNextSeqNum w = seq ->
  Z.of_nat (length (m i)) <= mRxFragmentSize w -> (last = true -> Z.lor (Z.shiftl hi 8) lo = Z.of_nat (length chunk)) ->
  exists w' h' m', HandleCharacteristicReceived i (w, h) = (Ok None, (w', h')) /\ ~ In b own /\ (forall k, k <> b -> k <> i -> m' k = m k) /\
    received w' h' (b :: release i own) m' (i :: fl) cs b chunk ((seq + 1) mod 256) (mRxFragmentSize w) (Z.lor (Z.shiftl hi 8) lo) last.
Proof.
  intros HR Hi Hm HS Hq Hn HL. destruct (single_buffer _ _ _ _ _ _ HR) as (p & Hp & Hw & Ht & _ & _ & Hmp & HA).
  unfold HandleCharacteristicReceived, receive_fragment.
  rewrite (bind_ok _ _ _ _ _ (receive_header_ok i (end_flag 1 last) seq _ p (mkRx w h (Some i)) Hp Hw ltac:(rewrite <- Hmp; exact Hm) ltac:(by destruct last) Hq)).
  cbn [rx_w rx_h rx_data]. assert (DidReceiveData (end_flag 1 last) = true) as -> by (by destruct last). set (w1 := header_received seq w).
  assert (pb_len p <= mRxFragmentSize w1) as Hn1 by (rewrite Hmp, pb_data_length in Hn by done; exact Hn).
  pose proof (receive_data_start i (end_flag 1 last) 2 w1 h p Hp Hw Ht Hn1) as HD. change (mRxState w1) with (mRxState w) in HD. rewrite HS in HD.
  destruct (receive_first_ok own m fl b i cs w1 h (end_flag 1 last) _ _ lo hi chunk HR Hi Hm ltac:(by destruct last)) as (h' & m' & E & HR' & Hmb & Hb & Hf).
  rewrite (bind_ok _ _ _ _ _ E) in HD. destruct last.
  - change (test_flag (end_flag 1 true) kHeaderFlag_EndMessage) with true in HD. cbv iota in HD.
    rewrite (receive_end_ok _ _ _ b _ _ _ _ HR') in HD by first [reflexivity | cbn; rewrite Hmb; by apply HL]. rewrite (bind_ok _ _ _ _ _ HD).
    cbn. eexists _, h', m'. split; [reflexivity|]. split; [done|]. split; [done|]. split; try done. cbn. by rewrite IncSeqNum_mod.
  - change (test_flag (end_flag 1 false) kHeaderFlag_EndMessage) with false in HD. cbv iota in HD. rewrite (bind_ok _ _ _ _ _ HD).
    cbn. eexists _, h', m'. split; [reflexivity|]. split; [done|]. split; [done|]. split; try done. cbn. by rewrite IncSeqNum_mod.
Qed.

Lemma received_next own m fl b i cs w h last chunk D seq n L : pool_rep h own m fl ([i] :: [b] :: cs) -> In b own -> refs own i = 1 ->
  received w h own m fl ([i] :: cs) b D seq n L false ->
  m i = end_flag 2 last :: seq :: chunk -> Z.of_nat (length (m i)) <= n -> chunk <> [] ->
  Z.of_nat (length (D ++ chunk)) <= WEAVE_SYSTEM_PACKETBUFFER_ALLOCSIZE_MAX -> (last = true -> L = Z.of_nat (length (D ++ chunk))) ->
  exists w' h' m', HandleCharacteristicReceived i (w, h) = (Ok None, (w', h')) /\ (forall k, k <> b -> k <> i -> m' k = m k) /\
    received w' h' (release i own) m' (i :: fl) cs b (D ++ chunk) ((seq + 1) mod 256) n L last.
Proof.
  intros HR Hb Hi [HS HB HL Hq Hn1 HR2 HD0] Hm Hn Hne Hle HLL. destruct (single_buffer _ _ _ _ _ _ HR) as (p & Hp & Hw & Ht & _ & _ & Hmp & HA).
  unfold HandleCharacteristicReceived, receive_fragment.
  rewrite (bind_ok _ _ _ _ _ (receive_header_ok i (end_flag 2 last) seq _ p (mkRx w h (Some i)) Hp Hw ltac:(rewrite <- Hmp; exact Hm) ltac:(by destruct last) Hq)).
  cbn [rx_w rx_h rx_data]. assert (DidReceiveData (end_flag 2 last) = true) as -> by (by destruct last). set (w1 := header_received seq w).
  assert (pb_len p <= mRxFragmentSize w1) as Hn2 by (rewrite Hmp, pb_data_length in Hn by done; change (pb_len p <= mRxFragmentSize w); lia).
  pose proof (receive_data_start i (end_flag 2 last) 2 w1 h p Hp Hw Ht Hn2) as HD. change (mRxState w1) with (mRxState w) in HD. rewrite HS in HD.
  destruct (receive_next_ok own m fl b i cs w1 h (end_flag 2 last) _ _ chunk HR2 Hb Hi HB Hm ltac:(by destruct last) ltac:(by destruct last) Hne ltac:(by rewrite HD0))
    as (h' & m' & E & HR' & Hmb & Hf).
  rewrite HD0 in Hmb. rewrite (bind_ok _ _ _ _ _ E) in HD. destruct last.
  - change (test_flag (end_flag 2 true) kHeaderFlag_EndMessage) with true in HD. cbv iota in HD.
    rewrite (receive_end_ok _ _ _ b _ _ _ _ HR') in HD by first [exact HB | cbn; rewrite Hmb, HL; by apply HLL]. rewrite (bind_ok _ _ _ _ _ HD).
    cbn. eexists _, h', m'. split; [reflexivity|]. split; [done|]. split; try done. cbn. by rewrite IncSeqNum_mod.
  - change (test_flag (end_flag 2 false) kHeaderFlag_EndMessage) with false in HD. cbv iota in HD. rewrite (bind_ok _ _ _ _ _ HD).
    cbn. eexists _, h', m'. split; [reflexivity|]. split; [done|]. split; try done. cbn. by rewrite IncSeqNum_mod.
Qed.

(** ** The transfer *)

(** The bytes of a characteristic in a buffer of the receiver's pool. *)
Definition deliver (fragment : list Z) (h : Pool) : option nat * Pool :=
  let '(o, h) := New 0 h in (o, match o with Some i => fill i fragment h | None => h end).

Lemma deliver_ok h own m fl cs i fragment : pool_rep h own m (i :: fl) cs -> is_bytes fragment ->
  Z.of_nat (length fragment) <= WEAVE_SYSTEM_PACKETBUFFER_ALLOCSIZE_MAX ->
  exists h' m', deliver fragment h = (Some i, h') /\ pool_rep h' (i :: own) m' fl ([i] :: cs) /\ m' i = fragment /\ ~ In i own /\ (forall k, k <> i -> m' k = m k).
Proof.
  intros HR Hb Hl. unfold WEAVE_SYSTEM_PACKETBUFFER_ALLOCSIZE_MAX, WEAVE_SYSTEM_PACKETBUFFER_SIZE, WEAVE_SYSTEM_PACKETBUFFER_HEADER_SIZE in Hl.
  destruct (New_rep h own m (i :: fl) cs 0 1676 i fl eq_refl HR) as (h1 & E & HR1 & Hi & p & Hp & Hpp & Hpl); [lia|lia|done|].
  destruct (single_buffer _ _ _ _ _ _ HR1) as (p0 & Hp0 & Hw & _ & _ & _ & Hmp & HA). assert (p0 = p) as -> by congruence.
  pose proof (Fill_rep h1 _ _ _ cs i fragment HR1 Hb) as HF. rewrite upd_eq in HF. cbn [app] in HF.
  exists (fill i fragment h1), (upd i fragment (upd i [] m)). unfold deliver, New. change (NewWithAvailableSize 0 _ h) with (NewWithAvailableSize 0 1676 h). rewrite E.
  split; [done|]. split; [apply HF; unfold room_of, DataLength; rewrite Hp, MaxDataLength_eq, HA, Hpp, Hpl by done; exact Hl|].
  rewrite upd_eq. split; [done|]. split; [done|]. intros k Hk. by rewrite !upd_ne.
Qed.

(** The fragment that waits in the sender's buffer. *)
Definition tx_bytes (tx : WoBle * Pool) : list Z :=
  match mTxBuf (fst tx) with Some d => data_at (bufs (snd tx)) d | None => [] end.

(** The connection: the sender's engine makes a fragment, the receiver's engine
    gets it, until the sender has sent all. *)
Fixpoint transfer (fuel : nat) (data : option nat) (tx rx : WoBle * Pool) : res unit * ((WoBle * Pool) * (WoBle * Pool)) :=
  match fuel with
  | O => (Diverges, (tx, rx))
  | S fuel =>
    match HandleCharacteristicSend data false tx with
    | (Ok true, tx) =>
      match deliver (tx_bytes tx) (snd rx) with
      | (None, h) => (Err WEAVE_ERROR_NO_MEMORY, (tx, (fst rx, h)))
      | (Some i, h) =>
        match HandleCharacteristicReceived i (fst rx, h) with
        | (Ok _, rx) => if bool_decide (mTxState (fst tx) = kState_Complete) then (Ok tt, (tx, rx)) else transfer fuel None tx rx
        | (Err e, rx) => (Err e, (tx, rx))
        | (Undefined, rx) => (Undefined, (tx, rx))
        | (Diverges, rx) => (Diverges, (tx, rx))
        end
      end
    | (Ok false, tx) => (Err WEAVE_ERROR_INCORRECT_STATE, (tx, rx))
    | (Err e, tx) => (Err e, (tx, rx))
    | (Undefined, tx) => (Undefined, (tx, rx))
    | (Diverges, tx) => (Diverges, (tx, rx))
    end
  end.

Lemma fragment_sent_bytes w d n flags header R w' h' : fragment_sent w d n flags header R w' h' ->
  is_byte flags -> is_byte (Z.lor flags kHeaderFlag_EndMessage) -> is_bytes header -> is_bytes R -> 1 + Z.of_nat (length header) < n ->
  tx_bytes (w', h') = end_flag flags (Z.of_nat (length R) + (1 + Z.of_nat (length header)) <=? n) :: header ++ take (Z.to_nat (n - (1 + Z.of_nat (length header)))) R /\
  is_bytes (tx_bytes (w', h')) /\ Z.of_nat (length (tx_bytes (w', h'))) <= n.
Proof.
  intros ((p' & Hp & Hd) & HB & _) H1 H2 H3 H4 Hn. unfold tx_bytes. cbn [fst snd]. rewrite HB. unfold data_at. rewrite Hp, Hd. split; [done|]. split.
  - constructor; [by unfold end_flag; destruct (_ <=? _)|]. apply Forall_app_2; [done|by apply Forall_take].
  - cbn [length]. rewrite length_app, length_take. lia.
Qed.

Definition transferred (r : res unit * ((WoBle * Pool) * (WoBle * Pool))) (own : list nat) (m : nat -> list Z) (k : nat) (cs : list (list nat)) (b : nat) (D : list Z) : Prop :=
  exists wt ht wr hr m' fl n seq, r = (Ok tt, ((wt, ht), (wr, hr))) /\ mTxState wt = kState_Complete /\ mTxNextSeqNum wt = seq /\ length fl = k /\
    received wr hr own m' fl cs b D seq n (Z.of_nat (length D)) true /\ (forall k, In k own -> k <> b -> m' k = m k).

Lemma transfer_next fuel : forall wt ht d n R wr hr own m i fl cs b D nr,
  (length R <= fuel)%nat -> sending wt ht d n R -> 2 < n < 65536 -> n <= nr -> n <= WEAVE_SYSTEM_PACKETBUFFER_ALLOCSIZE_MAX -> is_byte (mTxNextSeqNum wt) ->
  is_bytes R -> R <> [] -> ~ In i (b :: own) -> received wr hr (b :: own) m (i :: fl) cs b D (mTxNextSeqNum wt) nr (Z.of_nat (length (D ++ R))) false ->
  Z.of_nat (length (D ++ R)) <= WEAVE_SYSTEM_PACKETBUFFER_ALLOCSIZE_MAX ->
  transferred (transfer fuel None (wt, ht) (wr, hr)) (b :: own) m (S (length fl)) cs b (D ++ R).
Proof.
  induction fuel as [|fuel IH]; intros wt ht d n R wr hr own m i fl cs b D nr Hfu HS Hn Hnr Hna Hb HR Hne Hi Hrc Hle; [by destruct R; cbn in Hfu; [|lia]|].
  cbn [transfer]. destruct (send_next wt ht d n R HS Hn Hb) as (wt' & ht' & -> & HF).
  destruct (fragment_sent_bytes _ _ _ _ _ _ _ _ HF) as (HT & HTb & HTl); [done..|by constructor|done|cbn; lia|].
  destruct HF as (_ & HB & Hseq & Hend). cbn [length] in *. change (1 + Z.of_nat 1) with 2 in *. set (last := Z.of_nat (length R) + 2 <=? n) in *.
  set (frag := tx_bytes (wt', ht')) in *. cbn [fst snd].
  destruct (deliver_ok hr (b :: own) m fl ([b] :: cs) i frag (rcv_rep _ _ _ _ _ _ _ _ _ _ _ _ Hrc) HTb ltac:(lia)) as (h1 & m1 & -> & HR1 & Hm1 & _ & Hf1).
  set (chunk := take (Z.to_nat (n - 2)) R) in *.
  assert (length chunk = Nat.min (Z.to_nat (n - 2)) (length R)) as Hcl by (by unfold chunk; rewrite length_take).
  assert (chunk <> []) as Hcn by (intros Hc; rewrite Hc in Hcl; destruct R; [done|]; cbn [length] in Hcl; lia).
  assert (b <> i) as Hbi by (intros ->; apply Hi; by left).
  assert (received wr h1 (i :: b :: own) m1 fl ([i] :: cs) b D (mTxNextSeqNum wt) nr (Z.of_nat (length (D ++ R))) false) as Hrc1.
  { destruct Hrc. split; try done; [|by rewrite Hf1]. by apply (rep_permute _ _ _ _ _ _ (perm_swap [b] [i] cs)). }
  assert (refs (i :: b :: own) i = 1) as Href.
  { rewrite refs_same. assert (~ 0 < refs (b :: own) i) by (by rewrite <- refs_In). unfold refs in *. lia. }
  destruct (received_next (i :: b :: own) m1 fl b i cs wr h1 last chunk D (mTxNextSeqNum wt) nr _ HR1 ltac:(right; by left) Href Hrc1 ltac:(by rewrite Hm1) ltac:(rewrite Hm1; lia) Hcn)
    as (wr' & h2 & m2 & -> & Hf2 & Hrc2).
  { rewrite length_app in *. lia. }
  { intros Hl. unfold last in Hl. bool_prop. rewrite !length_app, Hcl. lia. }
  cbn [release] in Hrc2. rewrite Nat.eqb_refl in Hrc2. destruct last eqn:El; unfold last in El; bool_prop.
  - rewrite bool_decide_eq_true_2 by done. assert (chunk = R) as HcR by (unfold chunk; rewrite take_ge; [done|lia]). rewrite HcR in Hrc2.
    exists wt', ht', wr', h2, m2, (i :: fl), nr, (mTxNextSeqNum wt'). split; [done|]. split; [done|]. split; [done|]. split; [done|]. rewrite Hseq. split; [done|].
    intros k Hk Hkb. assert (k <> i) by (intros ->; by apply Hi). rewrite Hf2, Hf1 by done. done.
  - pose proof (snd_state _ _ _ _ _ Hend) as HSt. rewrite bool_decide_eq_false_2 by (cbn [fst]; by rewrite HSt).
    assert (chunk ++ drop (Z.to_nat (n - 2)) R = R) as Hcat by apply take_drop.
    destruct (IH wt' ht' d n (drop (Z.to_nat (n - 2)) R) wr' h2 own m2 i fl cs b (D ++ chunk) nr) as (wt2 & ht2 & wr2 & h3 & m3 & fl3 & n3 & seq3 & E & H1 & H2 & H3 & H4 & H5);
      try done; rewrite ?length_drop; try lia; rewrite <- ?app_assoc, ?Hcat; try done.
    + rewrite Hseq. unfold is_byte. mlia.
    + by apply Forall_drop.
    + intros Hx. apply (f_equal length) in Hx. rewrite length_drop in Hx. cbn in Hx. lia.
    + by rewrite Hseq.
    + exists wt2, ht2, wr2, h3, m3, fl3, n3, seq3. split; [done|]. do 3 (split; [done|]). rewrite <- app_assoc, Hcat in H4. split; [done|].
      intros k Hk Hkb. rewrite H5 by done. assert (k <> i) by (intros ->; by apply Hi). rewrite Hf2, Hf1 by done. done.
Qed.

(** ** Property *)

Lemma length_bytes L : 0 <= L -> Z.lor (Z.shiftl (Z.shiftr L 8) 8) (Z.land L 255) = L.
Proof.
  intros HL. rewrite shiftl_mul, shiftr_div by lia. change 255 with (Z.ones 8). rewrite Z.land_ones by lia. change (2 ^ 8) with 256.
  rewrite (lor_add_disjoint _ _ 8) by mlia. mlia.
Qed.

Lemma transfer_first ws hs d n p M wr hr own m i b fl cs : mTxState ws = kState_Idle -> mTxFragmentSize ws = n -> bufs hs !! d = Some p -> wf_pbuf p ->
  pb_tot_len p = pb_len p -> pb_data p = M -> Z.of_nat (length M) + 4 <= AllocSize p -> Z.of_nat (length M) <= WEAVE_SYSTEM_PACKETBUFFER_ALLOCSIZE_MAX ->
  4 < n < 65536 -> n <= mRxFragmentSize wr -> n <= WEAVE_SYSTEM_PACKETBUFFER_ALLOCSIZE_MAX -> is_byte (mTxNextSeqNum ws) ->
  mRxState wr = kState_Idle -> mRxNextSeqNum wr = mTxNextSeqNum ws -> pool_rep hr own m (i :: b :: fl) cs ->
  transferred (transfer (S (length M)) (Some d) (ws, hs) (wr, hr)) (b :: own) m (S (length fl)) cs b M /\ ~ In b own.
Proof.
  intros HS Hsz Hp Hw Ht HM HA Hle Hn Hnr Hna Hb HSr Hq HR. cbn [transfer].
  destruct (send_first ws hs d n p M HS Hsz Hp Hw Ht HM HA Hn Hb) as (wt' & ht' & -> & HF).
  assert (is_bytes M) as HMb by (rewrite <- HM; by apply pb_data_bytes).
  pose proof (wf_alloc _ Hw) as HAl. set (hd := [mTxNextSeqNum ws; Z.land (Z.of_nat (length M)) 255; Z.shiftr (Z.of_nat (length M)) 8]) in *.
  assert (is_bytes hd) as Hhd.
  { constructor; [done|]. constructor; [|constructor; [|constructor]]; unfold is_byte.
    - change 255 with (Z.ones 8). rewrite Z.land_ones by lia. change (2 ^ 8) with 256. mlia.
    - rewrite shiftr_div by lia. change (2 ^ 8) with 256. unfold AllocSize in *. mlia. }
  destruct (fragment_sent_bytes _ _ _ _ _ _ _ _ HF) as (HT & HTb & HTl); [done..|cbn [length hd]; lia|].
  destruct HF as (_ & HB & Hseq & Hend). change (1 + Z.of_nat (length hd)) with 4 in *. set (last := Z.of_nat (length M) + 4 <=? n) in *.
  set (frag := tx_bytes (wt', ht')) in *. cbn [fst snd].
  destruct (deliver_ok hr own m (b :: fl) cs i frag HR HTb ltac:(lia)) as (h1 & m1 & -> & HR1 & Hm1 & Hi & Hf1).
  set (chunk := take (Z.to_nat (n - 4)) M) in *.
  assert (length chunk = Nat.min (Z.to_nat (n - 4)) (length M)) as Hcl by (by unfold chunk; rewrite length_take).
  assert (refs (i :: own) i = 1) as Href by (rewrite refs_same; rewrite refs_In in Hi; unfold refs in *; lia).
  destruct (received_first (i :: own) m1 fl b i cs wr h1 last (Z.land (Z.of_nat (length M)) 255) (Z.shiftr (Z.of_nat (length M)) 8) chunk (mTxNextSeqNum ws) HR1 Href ltac:(by rewrite Hm1) HSr Hq ltac:(rewrite Hm1; lia))
    as (wr' & h2 & m2 & -> & Hbo & Hf2 & Hrc).
  { intros El. unfold last in El. bool_prop. rewrite length_bytes by lia. rewrite Hcl. lia. }
  rewrite length_bytes in Hrc by lia. cbn [release] in Hrc. rewrite Nat.eqb_refl in Hrc.
  assert (b <> i /\ ~ In b own) as [Hbi Hbo'] by (split; [intros ->; apply Hbo; by left|intros Hx; apply Hbo; by right]). split; [|done].
  destruct last eqn:El; unfold last in El; bool_prop.
  - rewrite bool_decide_eq_true_2 by done. assert (chunk = M) as HcR by (unfold chunk; rewrite take_ge; [done|lia]). rewrite HcR in Hrc.
    exists wt', ht', wr', h2, m2, (i :: fl), (mRxFragmentSize wr), (mTxNextSeqNum wt'). do 4 (split; [done|]). rewrite Hseq. split; [done|].
    intros k [->|Hk] Hkb; [done|]. assert (k <> i) by (intros ->; by apply Hi). rewrite Hf2, Hf1 by done. done.
  - pose proof (snd_state _ _ _ _ _ Hend) as HSt. rewrite bool_decide_eq_false_2 by (cbn [fst]; by rewrite HSt).
    assert (chunk ++ drop (Z.to_nat (n - 4)) M = M) as Hcat by apply take_drop.
    destruct (transfer_next (length M) wt' ht' d n (drop (Z.to_nat (n - 4)) M) wr' h2 own m2 i fl cs b chunk (mRxFragmentSize wr))
      as (wt2 & ht2 & wr2 & h3 & m3 & fl3 & n3 & seq3 & E & H1 & H2 & H3 & H4 & H5); try done; rewrite ?length_drop; try lia; rewrite ?Hcat; try done.
    + rewrite Hseq. unfold is_byte. mlia.
    + by apply Forall_drop.
    + intros Hx. apply (f_equal length) in Hx. rewrite length_drop in Hx. cbn in Hx. lia.
    + intros [->|Hx]; [done|by apply Hi].
    + by rewrite Hseq.
    + exists wt2, ht2, wr2, h3, m3, fl3, n3, seq3. do 4 (split; [done|]). rewrite Hcat in H4. split; [done|].
      intros k Hk Hkb. rewrite H5 by done. assert (k <> i) by (intros ->; destruct Hk; [done|by apply Hi]). rewrite Hf2, Hf1 by done. done.
Qed.

(** C17: a message gets across.  The sending engine holds a message that fits a
    buffer with the header; both engines are idle, the receiver expects the
    sender's next sequence number, accepts fragments of the sender's size and has
    two buffers to spare.  Then sending fragment after fragment ends: after at most
    one call per byte and one more, both engines are in the state Complete, the
    buffer RxPacket returns holds the message's bytes, their sequence numbers
    agree, the other data in the receiver's pool is as it was and only that
    buffer has been taken from the free ones. *)
Theorem WoBle_transfer ws hs d p M wr hr own fl cs :
  mTxState ws = kState_Idle -> bufs hs !! d = Some p -> wf_pbuf p -> pb_tot_len p = pb_len p -> pb_data p = M ->
  Z.of_nat (length M) + 4 <= AllocSize p -> Z.of_nat (length M) <= WEAVE_SYSTEM_PACKETBUFFER_ALLOCSIZE_MAX ->
  4 < mTxFragmentSize ws <= mRxFragmentSize wr -> mTxFragmentSize ws <= WEAVE_SYSTEM_PACKETBUFFER_ALLOCSIZE_MAX -> is_byte (mTxNextSeqNum ws) ->
  mRxState wr = kState_Idle -> mRxNextSeqNum wr = mTxNextSeqNum ws -> pool_rep hr own (contents hr) fl cs -> (2 <= length fl)%nat ->
  exists ws' hs' wr' hr' b, transfer (S (length M)) (Some d) (ws, hs) (wr, hr) = (Ok tt, ((ws', hs'), (wr', hr'))) /\
    mTxState ws' = kState_Complete /\ mRxState wr' = kState_Complete /\ mRxBuf wr' = Some b /\ contents hr' b = M /\
    mRxNextSeqNum wr' = mTxNextSeqNum ws' /\ ~ In b own /\ (forall k, In k own -> contents hr' k = contents hr k) /\
    exists fl', pool_rep hr' (b :: own) (contents hr') fl' ([b] :: cs) /\ length fl = S (length fl').
Proof.
  intros HS Hp Hw Ht HM HA Hle Hn Hna Hb HSr Hq HR Hfl. destruct fl as [|i [|b fl]]; [cbn in Hfl; lia..|].
  assert (4 < mTxFragmentSize ws < 65536) as Hn' by (split; [lia|]; unfold WEAVE_SYSTEM_PACKETBUFFER_ALLOCSIZE_MAX, WEAVE_SYSTEM_PACKETBUFFER_SIZE, WEAVE_SYSTEM_PACKETBUFFER_HEADER_SIZE in *; lia).
  destruct (transfer_first ws hs d _ p M wr hr own (contents hr) i b fl cs HS eq_refl Hp Hw Ht HM HA Hle Hn' ltac:(lia) Hna Hb HSr Hq HR)
    as ((wt & ht & wr' & hr' & m' & fl' & n' & seq & E & H1 & H2 & H3 & Hrc & H5) & Hbo).
  destruct Hrc as [R1 R2 R3 R4 R5 R6 R7]. exists wt, ht, wr', hr', b. split; [done|]. do 3 (split; [done|]).
  assert (forall k, In k (b :: own) -> m' k = contents hr' k) as Hc by (intros k Hk; by destruct (held_contents _ _ _ _ _ k R6 Hk)).
  split; [rewrite <- Hc; [done|by left]|]. split; [by rewrite R4|]. split; [done|]. split.
  - intros k Hk. rewrite <- Hc by (by right). apply H5; [by right|]. by intros ->.
  - exists fl'. split; [by apply (rep_contents _ _ _ _ _ R6)|]. cbn. by rewrite H3.
Qed.

Theorem WoBle_transfer_witness :
  let blank := mkWoBle kState_Idle 0 None 0 0 0 0 kState_Idle 0 None 0 0 0 false 0 0 0 0 0 in
  let ws := set_mTxFragmentSize 6 (WoBle_Init false blank) in
  let wr := set_mRxFragmentSize 20 (WoBle_Init true blank) in
  let hs := snd (pool_run [OpNew 40 100; OpFill 1 [10; 20; 30; 40; 50; 60; 70; 80; 90]] (BuildFreeList (replicate 2 (replicate 1676 0))) []) in
  let hr := BuildFreeList (replicate 3 (replicate 1676 0)) in
  exists ws' hs' wr' hr' b, transfer 10 (Some 1%nat) (ws, hs) (wr, hr) = (Ok tt, ((ws', hs'), (wr', hr'))) /\
    mRxBuf wr' = Some b /\ contents hr' b = [10; 20; 30; 40; 50; 60; 70; 80; 90].
Proof.
  intros blank ws wr hs hr. destruct (BuildFreeList_rep (replicate 3 (replicate 1676 0)) (zero_memory 3)) as (fl & HR & HL).
  destruct (WoBle_transfer ws hs 1 (nth 1 (bufs hs) (init_pbuf 0 [])) [10; 20; 30; 40; 50; 60; 70; 80; 90] wr hr [] fl [])
    as (ws' & hs' & wr' & hr' & b & E & _ & _ & HB & HC & _).
  - reflexivity.
  - vm_compute. reflexivity.
  - split; [vm_compute; congruence|vm_compute; congruence|vm_compute; congruence|vm_compute; congruence|split; vm_compute; congruence|].
    apply byte_ok_spec. vm_compute. reflexivity.
  - vm_compute. reflexivity.
  - vm_compute. reflexivity.
  - vm_compute. congruence.
  - vm_compute. congruence.
  - split; vm_compute; congruence.
  - vm_compute. congruence.
  - split; vm_compute; congruence.
  - reflexivity.
  - vm_compute. reflexivity.
  - exact (rep_contents _ _ _ _ _ HR).
  - rewrite <- (Nat.add_0_r (length fl)). change 0%nat with (length (concat (@nil (list nat)))). rewrite <- length_app.
    rewrite (Permutation_length (rep_parts _ _ _ _ _ HR)), length_seq, HL. vm_compute. lia.
  - exists ws', hs', wr', hr', b. split; [exact E|]. split; [exact HB|exact HC].
Defined.
