(* ===== verification/PeerTable.v ===== *)
(** * The peer table and the key cache of the fabric state
      (src/src/lib/core/WeaveFabricState.cpp)

    Both are fixed arrays with a most-recently-used list of indexes.  The peer
    table is proved to refine a list of peers in order of use; the key cache has
    an index list that starts as zeros, which the last section is about. *)
From S2P Require Import Prelude KeyIds Session.
Local Open Scope weave_scope.

Definition WEAVE_CONFIG_MAX_PEER_NODES : Z := 128.
Definition WEAVE_CONFIG_MAX_APPLICATION_GROUPS : Z := 8.
Definition WEAVE_CONFIG_MAX_CACHED_MSG_ENC_APP_KEYS : Z := WEAVE_CONFIG_MAX_APPLICATION_GROUPS + 1.

(** [l[i] = v] on an array of the code. *)
Definition arr_set (l : list Z) (i v : Z) : list Z := <[Z.to_nat i := v]> l.

(** memmove(&l[1], &l[0], i * sizeof( *l )); l[0] = v; for i + 1 elements inside [l]. *)
Definition move_to_top (l : list Z) (i v : Z) : list Z := v :: take (Z.to_nat i) l ++ drop (S (Z.to_nat i)) l.

(** ** The peer state table *)

(** PeerCount and the arrays of PeerStates. *)
Record PeerTable := mkPeers {
  PeerCount : Z;
  PeerNodeId : list Z;
  MaxUnencUDPMsgIdRcvd : list Z;
  MaxGroupKeyMsgIdRcvd : list Z;
  GroupKeyRcvFlags : list Z;
  UnencRcvFlags : list Z;
  MostRecentlyUsedIndexes : list Z }.

(** memset(&PeerStates, 0, sizeof(PeerStates)), with PeerCount = 0. *)
Definition PeerTable_init : PeerTable :=
  let z := replicate (Z.to_nat WEAVE_CONFIG_MAX_PEER_NODES) 0 in mkPeers 0 z z z z z z.

(** The search: the loop from [i] on, [n] turns left; the position and the index
    of the entry. *)
Fixpoint find_peer (n : nat) (i : Z) (peerNodeId : Z) (t : PeerTable) : option (Z * Z) :=
  match n with
  | O => None
  | S n =>
    let retPeerIndex := arr (MostRecentlyUsedIndexes t) i in
    if arr (PeerNodeId t) retPeerIndex =? peerNodeId then Some (i, retPeerIndex)
    else find_peer n (i + 1) peerNodeId t
  end.

(** The replacement search: position [j], going down. *)
Fixpoint find_unsynchronized (n : nat) (t : PeerTable) : option Z :=
  match n with
  | O => None
  | S n =>
    let peerInd := arr (MostRecentlyUsedIndexes t) (Z.of_nat n) in
    if Z.land (arr (GroupKeyRcvFlags t) peerInd) kReceiveFlags_MessageIdSynchronized =? 0 then Some (Z.of_nat n)
    else find_unsynchronized n t
  end.

(** The assignments that make entry [ind] a fresh one for a node. *)
Definition reset_peer (ind peerNodeId count : Z) (t : PeerTable) : PeerTable :=
  mkPeers count (arr_set (PeerNodeId t) ind peerNodeId) (arr_set (MaxUnencUDPMsgIdRcvd t) ind 0)
    (arr_set (MaxGroupKeyMsgIdRcvd t) ind 0) (arr_set (GroupKeyRcvFlags t) ind 0) (arr_set (UnencRcvFlags t) ind 0)
    (MostRecentlyUsedIndexes t).

(** Moving an entry to the top of the list. *)
Definition use_peer (i ind : Z) (t : PeerTable) : PeerTable :=
  mkPeers (PeerCount t) (PeerNodeId t) (MaxUnencUDPMsgIdRcvd t) (MaxGroupKeyMsgIdRcvd t) (GroupKeyRcvFlags t) (UnencRcvFlags t)
    (move_to_top (MostRecentlyUsedIndexes t) i ind).

(** FindOrAllocPeerEntry(peerNodeId, allocEntry, retPeerIndex): [None] for false. *)
Definition FindOrAllocPeerEntry (peerNodeId : Z) (allocEntry : bool) (t : PeerTable) : option Z * PeerTable :=
  match find_peer (Z.to_nat (PeerCount t)) 0 peerNodeId t with
  | Some (i, ind) => (Some ind, use_peer i ind t)
  | None =>
    if allocEntry then
      if PeerCount t =? WEAVE_CONFIG_MAX_PEER_NODES then
        let i := match find_unsynchronized (Z.to_nat WEAVE_CONFIG_MAX_PEER_NODES) t with
                 | Some j => j
                 | None => WEAVE_CONFIG_MAX_PEER_NODES - 1
                 end in
        let ind := arr (MostRecentlyUsedIndexes t) i in
        (Some ind, use_peer i ind (reset_peer ind peerNodeId (PeerCount t) t))
      else
        let ind := PeerCount t in
        (Some ind, use_peer (PeerCount t) ind (reset_peer ind peerNodeId (PeerCount t + 1) t))
    else (None, t)
  end.

(** ** Peers in order of use *)

Record Peer := mkPeer { p_node : Z; p_udp : Z; p_group : Z; p_gflags : Z; p_uflags : Z }.
#[export] Instance Peer_eq_dec : EqDecision Peer.
Proof. solve_decision. Defined.

Definition fresh_peer (node : Z) : Peer := mkPeer node 0 0 0 0.
Definition group_synchronized (p : Peer) : bool := negb (Z.land (p_gflags p) kReceiveFlags_MessageIdSynchronized =? 0).

(** The first position where [f] holds, and the last. *)
Fixpoint first_pos {A} (f : A -> bool) (l : list A) : option nat :=
  match l with
  | [] => None
  | x :: l => if f x then Some O else option_map S (first_pos f l)
  end.
Fixpoint last_pos {A} (f : A -> bool) (l : list A) : option nat :=
  match l with
  | [] => None
  | x :: l => match last_pos f l with Some i => Some (S i) | None => if f x then Some O else None end
  end.

Definition remove_pos {A} (i : nat) (l : list A) : list A := take i l ++ drop (S i) l.

(** What the table promises: a peer found comes first; a new one is added first,
    in place of the last peer with no synchronized group counter when there is
    no room, or of the last peer of all. *)
Definition peers_find (node : Z) (alloc : bool) (l : list Peer) : option (list Peer) :=
  match first_pos (fun p => p_node p =? node) l with
  | Some i => match l !! i with Some p => Some (p :: remove_pos i l) | None => None end
  | None =>
    if alloc then
      if Z.of_nat (length l) =? WEAVE_CONFIG_MAX_PEER_NODES then
        let i := match last_pos (fun p => negb (group_synchronized p)) l with Some i => i | None => (length l - 1)%nat end in
        Some (fresh_peer node :: remove_pos i l)
      else Some (fresh_peer node :: l)
    else None
  end.

(** The peer an index stands for, and the table as a list of peers. *)
Definition peer_at (t : PeerTable) (i : Z) : Peer :=
  mkPeer (arr (PeerNodeId t) i) (arr (MaxUnencUDPMsgIdRcvd t) i) (arr (MaxGroupKeyMsgIdRcvd t) i) (arr (GroupKeyRcvFlags t) i)
    (arr (UnencRcvFlags t) i).
Definition used (t : PeerTable) : list Z := take (Z.to_nat (PeerCount t)) (MostRecentlyUsedIndexes t).
Definition peers (t : PeerTable) : list Peer := map (peer_at t) (used t).

Record wf_peers (t : PeerTable) : Prop := {
  wf_count : 0 <= PeerCount t <= WEAVE_CONFIG_MAX_PEER_NODES;
  wf_arrays : Forall (fun a => length a = Z.to_nat WEAVE_CONFIG_MAX_PEER_NODES)
    [PeerNodeId t; MaxUnencUDPMsgIdRcvd t; MaxGroupKeyMsgIdRcvd t; GroupKeyRcvFlags t; UnencRcvFlags t; MostRecentlyUsedIndexes t];
  wf_used : Permutation (used t) (seqZ 0 (PeerCount t));
  wf_nodes : NoDup (map p_node (peers t)) }.

Lemma wf_PeerTable_init : wf_peers PeerTable_init.
Proof.
  split; [unfold WEAVE_CONFIG_MAX_PEER_NODES; simpl; lia| |done|constructor].
  repeat constructor.
Qed.

(** ** Lemmas *)

Lemma arr_lookup (l : list Z) i : 0 <= i < Z.of_nat (length l) -> l !! Z.to_nat i = Some (arr l i).
Proof.
  intros Hi. unfold arr. destruct (lookup_lt_is_Some_2 l (Z.to_nat i)) as [x E]; [lia|].
  rewrite E. f_equal. symmetry. apply nth_lookup_Some. done.
Qed.

Lemma arr_set_eq l i v : 0 <= i < Z.of_nat (length l) -> arr (arr_set l i v) i = v.
Proof. intros Hi. unfold arr, arr_set. apply nth_lookup_Some. apply list_lookup_insert_eq. lia. Qed.

Lemma arr_set_ne l i j v : 0 <= i -> 0 <= j -> i <> j -> arr (arr_set l i v) j = arr l j.
Proof. intros Hi Hj Hn. unfold arr, arr_set. rewrite !nth_lookup. rewrite list_lookup_insert_ne by lia. done. Qed.

Lemma length_arr_set l i v : length (arr_set l i v) = length l.
Proof. apply length_insert. Qed.

Lemma first_pos_Some {A} (f : A -> bool) l i : first_pos f l = Some i -> exists x, l !! i = Some x /\ f x = true.
Proof.
  revert i. induction l as [|x l IH]; intros i E; [done|]. simpl in E. destruct (f x) eqn:Ef.
  - injection E as <-. by exists x.
  - destruct (first_pos f l) as [k|] eqn:Ek; [|done]. injection E as <-. destruct (IH k eq_refl) as (y & ? & ?). by exists y.
Qed.

Lemma first_pos_None {A} (f : A -> bool) l : first_pos f l = None -> forall x, In x l -> f x = false.
Proof.
  induction l as [|x l IH]; intros E y Hy; [done|]. simpl in E. destruct (f x) eqn:Ef; [done|].
  destruct (first_pos f l) eqn:Ek; [done|]. destruct Hy as [<-|Hy]; [done|]. by apply IH.
Qed.

Lemma last_pos_lt {A} (f : A -> bool) l i : last_pos f l = Some i -> (i < length l)%nat.
Proof.
  revert i. induction l as [|x l IH]; intros i E; [done|]. simpl in *. destruct (last_pos f l) as [k|].
  - injection E as <-. specialize (IH k eq_refl). lia.
  - destruct (f x); [|done]. injection E as <-. lia.
Qed.

Lemma last_pos_snoc {A} (f : A -> bool) l x : last_pos f (l ++ [x]) = if f x then Some (length l) else last_pos f l.
Proof. induction l as [|y l IH]; simpl; [done|]. rewrite IH. by destruct (f x). Qed.

Lemma remove_pos_perm {A} i (l : list A) x : l !! i = Some x -> Permutation (x :: remove_pos i l) l.
Proof.
  intros E. unfold remove_pos. rewrite <- (take_drop_middle l i x E) at 3. apply Permutation_middle.
Qed.

Lemma map_remove_pos {A B} (f : A -> B) i l : map f (remove_pos i l) = remove_pos i (map f l).
Proof. unfold remove_pos. by rewrite map_app, firstn_map, skipn_map. Qed.

Lemma remove_pos_In {A} i (l : list A) x : In x (remove_pos i l) -> In x l.
Proof.
  unfold remove_pos. rewrite <- (take_drop i l) at 3. rewrite !in_app_iff. intros [H|H]; [by left|right].
  replace (S i) with (1 + i)%nat in H by lia. rewrite Nat.add_comm, <- drop_drop in H.
  destruct (drop i l); simpl in *; [done|by right].
Qed.

Lemma take_move_to_top l i v c : (i < c)%nat -> take c (move_to_top l (Z.of_nat i) v) = v :: remove_pos i (take c l).
Proof.
  intros Hi. unfold move_to_top, remove_pos. rewrite Nat2Z.id. destruct c as [|c]; [lia|]. rewrite firstn_cons. f_equal.
  rewrite take_take, (Nat.min_l i (S c)) by lia. destruct (le_lt_dec (length l) i) as [Hl|Hl].
  - rewrite !(drop_ge _ (S i)) by (rewrite ?length_take; lia). rewrite !app_nil_r. rewrite take_take. f_equal. lia.
  - rewrite take_app_ge by (rewrite length_take; lia). f_equal. rewrite length_take, (Nat.min_l i (length l)) by lia.
    rewrite skipn_firstn_comm. f_equal; lia.
Qed.

Lemma take_move_to_top_new l i v : (i <= length l)%nat -> take (S i) (move_to_top l (Z.of_nat i) v) = v :: take i l.
Proof.
  intros Hl. unfold move_to_top. rewrite Nat2Z.id, firstn_cons. f_equal. rewrite take_app_le by (rewrite length_take; lia).
  rewrite take_take. f_equal. lia.
Qed.

Lemma length_move_to_top l i v : 0 <= i < Z.of_nat (length l) -> length (move_to_top l i v) = length l.
Proof. intros Hi. unfold move_to_top. cbn [length]. rewrite length_app, length_take, length_drop. lia. Qed.

Lemma find_peer_pos node t n : forall i, 0 <= i -> i + Z.of_nat n <= Z.of_nat (length (MostRecentlyUsedIndexes t)) ->
  find_peer n i node t =
  match first_pos (fun p => p_node p =? node) (map (peer_at t) (take n (drop (Z.to_nat i) (MostRecentlyUsedIndexes t)))) with
  | Some k => Some (i + Z.of_nat k, arr (MostRecentlyUsedIndexes t) (i + Z.of_nat k))
  | None => None
  end.
Proof.
  induction n as [|n IH]; intros i H0 Hn; [done|]. cbn [find_peer].
  rewrite (drop_S _ (arr (MostRecentlyUsedIndexes t) i) (Z.to_nat i)) by (apply arr_lookup; lia).
  cbn [firstn map first_pos peer_at p_node]. destruct (_ =? node); [by rewrite Z.add_0_r|].
  rewrite IH by lia. replace (Z.to_nat (i + 1)) with (S (Z.to_nat i)) by lia.
  destruct (first_pos _ _) as [k|]; [|done]. cbn [option_map].
  by replace (i + 1 + Z.of_nat k) with (i + Z.of_nat (S k)) by lia.
Qed.

Lemma find_unsynchronized_pos t n : (n <= length (MostRecentlyUsedIndexes t))%nat ->
  find_unsynchronized n t =
  match last_pos (fun p => negb (group_synchronized p)) (map (peer_at t) (take n (MostRecentlyUsedIndexes t))) with
  | Some k => Some (Z.of_nat k)
  | None => None
  end.
Proof.
  induction n as [|n IH]; intros Hn; [done|]. cbn [find_unsynchronized].
  pose proof (arr_lookup (MostRecentlyUsedIndexes t) (Z.of_nat n) ltac:(lia)) as E. rewrite Nat2Z.id in E.
  rewrite (take_S_r _ _ _ E), map_app; cbn [map]; rewrite last_pos_snoc. unfold group_synchronized at 1. rewrite negb_involutive.
  cbn [peer_at p_gflags]. destruct (_ =? 0); [|apply IH; lia].
  rewrite length_map, length_take. do 2 f_equal. lia.
Qed.

Section Wf.
Variable t : PeerTable.
Hypothesis W : wf_peers t.

Lemma len_arrays :
  length (PeerNodeId t) = 128%nat /\ length (MaxUnencUDPMsgIdRcvd t) = 128%nat /\ length (MaxGroupKeyMsgIdRcvd t) = 128%nat /\
  length (GroupKeyRcvFlags t) = 128%nat /\ length (UnencRcvFlags t) = 128%nat /\ length (MostRecentlyUsedIndexes t) = 128%nat.
Proof.
  destruct W as [_ A _ _]. change (Z.to_nat WEAVE_CONFIG_MAX_PEER_NODES) with 128%nat in A.
  repeat match goal with H : Forall _ (_ :: _) |- _ => apply Forall_cons_1 in H as [? H] end. done.
Qed.

Lemma count_range : 0 <= PeerCount t <= 128.
Proof. destruct W as [C _ _ _]. exact C. Qed.

Lemma length_used : length (used t) = Z.to_nat (PeerCount t).
Proof. unfold used. rewrite length_take. destruct len_arrays as (_ & _ & _ & _ & _ & ->). pose proof count_range. lia. Qed.

Lemma used_range i : In i (used t) -> 0 <= i < PeerCount t.
Proof.
  intros Hi. destruct W as [_ _ P _]. apply (Permutation_in _ P), list_elem_of_In, elem_of_seqZ in Hi. lia.
Qed.

Lemma used_lookup i : 0 <= i < PeerCount t -> used t !! Z.to_nat i = Some (arr (MostRecentlyUsedIndexes t) i).
Proof.
  intros Hi. unfold used. rewrite lookup_take_lt by lia. apply arr_lookup.
  destruct len_arrays as (_ & _ & _ & _ & _ & ->). pose proof count_range. lia.
Qed.

Lemma find_peer_used node :
  find_peer (Z.to_nat (PeerCount t)) 0 node t =
  match first_pos (fun p => p_node p =? node) (peers t) with
  | Some k => Some (Z.of_nat k, arr (MostRecentlyUsedIndexes t) (Z.of_nat k))
  | None => None
  end.
Proof.
  destruct len_arrays as (_ & _ & _ & _ & _ & L). pose proof count_range.
  by rewrite find_peer_pos by lia.
Qed.

Lemma peer_at_reset ind node c i : 0 <= ind < 128 -> 0 <= i ->
  peer_at (reset_peer ind node c t) i = if i =? ind then fresh_peer node else peer_at t i.
Proof.
  intros Hi Hj. destruct len_arrays as (L1 & L2 & L3 & L4 & L5 & L6). unfold peer_at, reset_peer.
  cbn [PeerNodeId MaxUnencUDPMsgIdRcvd MaxGroupKeyMsgIdRcvd GroupKeyRcvFlags UnencRcvFlags].
  destruct (Z.eqb_spec i ind) as [->|Hne]; [by rewrite !arr_set_eq by lia|by rewrite !arr_set_ne by lia].
Qed.

(** Resetting an entry outside a list of indexes leaves their peers. *)
Lemma map_peer_at_reset ind node c l : 0 <= ind < 128 -> Forall (fun i => 0 <= i /\ i <> ind) l ->
  map (peer_at (reset_peer ind node c t)) l = map (peer_at t) l.
Proof.
  intros Hi Hl. apply map_ext_Forall. revert Hl. apply Forall_impl. intros i [H0 Hne].
  rewrite peer_at_reset by lia. by rewrite (proj2 (Z.eqb_neq i ind) Hne).
Qed.

Lemma wf_reset_arrays ind node c : Forall (fun a => length a = 128%nat)
  [PeerNodeId (reset_peer ind node c t); MaxUnencUDPMsgIdRcvd (reset_peer ind node c t); MaxGroupKeyMsgIdRcvd (reset_peer ind node c t);
   GroupKeyRcvFlags (reset_peer ind node c t); UnencRcvFlags (reset_peer ind node c t); MostRecentlyUsedIndexes (reset_peer ind node c t)].
Proof.
  destruct len_arrays as (L1 & L2 & L3 & L4 & L5 & L6). cbn. repeat constructor; by rewrite ?length_arr_set.
Qed.
End Wf.

Lemma used_use_peer t i ind : 0 <= i < PeerCount t ->
  used (use_peer i ind t) = ind :: remove_pos (Z.to_nat i) (used t).
Proof.
  intros Hi. unfold used. cbn. rewrite <- (Z2Nat.id i) at 1 by lia. apply take_move_to_top. lia.
Qed.

Lemma peers_use_peer t i ind : 0 <= i < PeerCount t ->
  peers (use_peer i ind t) = peer_at t ind :: remove_pos (Z.to_nat i) (peers t).
Proof. intros Hi. unfold peers. rewrite used_use_peer by done. cbn [map]. by rewrite map_remove_pos. Qed.

Definition arrays (t : PeerTable) : list (list Z) :=
  [PeerNodeId t; MaxUnencUDPMsgIdRcvd t; MaxGroupKeyMsgIdRcvd t; GroupKeyRcvFlags t; UnencRcvFlags t; MostRecentlyUsedIndexes t].

Lemma use_arrays t i ind : 0 <= i < 128 -> Forall (fun a => length a = 128%nat) (arrays t) ->
  Forall (fun a => length a = 128%nat) (arrays (use_peer i ind t)).
Proof.
  intros Hi A. unfold arrays, use_peer in *.
  cbn [PeerNodeId MaxUnencUDPMsgIdRcvd MaxGroupKeyMsgIdRcvd GroupKeyRcvFlags UnencRcvFlags MostRecentlyUsedIndexes].
  repeat match goal with H : Forall _ (_ :: _) |- _ => apply Forall_cons_1 in H as [? H] end.
  repeat (apply Forall_cons_2; [done|]). apply Forall_cons_2; [|constructor]. rewrite length_move_to_top; [done|lia].
Qed.

(** *** The three cases *)

Lemma found_case t k p : wf_peers t -> peers t !! k = Some p ->
  let ind := arr (MostRecentlyUsedIndexes t) (Z.of_nat k) in
  let t' := use_peer (Z.of_nat k) ind t in
  peers t' = p :: remove_pos k (peers t) /\ wf_peers t' /\ arr (PeerNodeId t') ind = p_node p /\
  arr (MostRecentlyUsedIndexes t') 0 = ind.
Proof.
  intros W Ep ind t'. pose proof (count_range t W) as C.
  assert (k < Z.to_nat (PeerCount t))%nat as Hk.
  { rewrite <- (length_used t W). apply lookup_lt_Some in Ep. unfold peers in Ep. by rewrite length_map in Ep. }
  pose proof (used_lookup t W (Z.of_nat k) ltac:(lia)) as Eu. rewrite Nat2Z.id in Eu. fold ind in Eu.
  assert (peer_at t ind = p) as Hp.
  { unfold peers in Ep. rewrite list_lookup_fmap, Eu in Ep. by injection Ep. }
  assert (peers t' = p :: remove_pos k (peers t)) as Hps.
  { unfold t'. rewrite peers_use_peer by lia. by rewrite Hp, Nat2Z.id. }
  split; [done|]. split; [|split; [by rewrite <- Hp|done]].
  destruct W as [W1 W2 W3 W4]. split; [done| | |].
  - apply (use_arrays t (Z.of_nat k) ind); [lia|exact W2].
  - unfold t'. rewrite used_use_peer by lia. rewrite Nat2Z.id. by rewrite remove_pos_perm.
  - rewrite Hps. cbn [map]. rewrite map_remove_pos.
    rewrite remove_pos_perm; [exact W4|]. by rewrite list_lookup_fmap, Ep.
Qed.

Lemma first_pos_absent t node : first_pos (fun p => p_node p =? node) (peers t) = None -> node ∉ map p_node (peers t).
Proof.
  intros E Hin. apply list_elem_of_In, in_map_iff in Hin as (p & <- & Hp).
  pose proof (first_pos_None _ _ E p Hp) as Hf. cbv beta in Hf. by rewrite Z.eqb_refl in Hf.
Qed.

Lemma remove_pos_nodes i (l : list Peer) node : node ∉ map p_node l -> node ∉ map p_node (remove_pos i l).
Proof.
  intros Hn Hin. apply Hn. apply list_elem_of_In in Hin. apply list_elem_of_In. rewrite map_remove_pos in Hin.
  by apply remove_pos_In in Hin.
Qed.

Lemma NoDup_remove_pos {A} i (l : list A) : NoDup l -> NoDup (remove_pos i l).
Proof.
  intros Hl. destruct (l !! i) as [x|] eqn:E.
  - rewrite <- (remove_pos_perm i l x E) in Hl. by apply NoDup_cons_1_2 in Hl.
  - unfold remove_pos. apply lookup_ge_None_1 in E. rewrite drop_ge by lia. rewrite app_nil_r. by rewrite take_ge.
Qed.

Lemma replace_case t node k : wf_peers t -> (k < Z.to_nat (PeerCount t))%nat ->
  first_pos (fun p => p_node p =? node) (peers t) = None ->
  let ind := arr (MostRecentlyUsedIndexes t) (Z.of_nat k) in
  let t' := use_peer (Z.of_nat k) ind (reset_peer ind node (PeerCount t) t) in
  peers t' = fresh_peer node :: remove_pos k (peers t) /\ wf_peers t' /\ arr (PeerNodeId t') ind = node /\
  arr (MostRecentlyUsedIndexes t') 0 = ind.
Proof.
  intros W Hk Ef ind t'. pose proof (count_range t W) as C. apply first_pos_absent in Ef.
  pose proof (used_lookup t W (Z.of_nat k) ltac:(lia)) as Eu. rewrite Nat2Z.id in Eu. fold ind in Eu.
  assert (0 <= ind < PeerCount t) as Hi.
  { apply (used_range t W). apply list_elem_of_In. by apply list_elem_of_lookup_2 in Eu. }
  assert (used t' = ind :: remove_pos k (used t)) as Hu.
  { unfold t'. rewrite used_use_peer by (cbn; lia). by rewrite Nat2Z.id. }
  assert (Permutation (used t') (seqZ 0 (PeerCount t))) as HP.
  { rewrite Hu, remove_pos_perm by exact Eu. apply W. }
  assert (NoDup (used t')) as HN by (rewrite HP; apply NoDup_seqZ).
  assert (peers t' = fresh_peer node :: remove_pos k (peers t)) as Hps.
  { unfold peers at 1. rewrite Hu. cbn [map]. f_equal.
    - change (peer_at t' ind) with (peer_at (reset_peer ind node (PeerCount t) t) ind).
      rewrite (peer_at_reset t W) by lia. by rewrite Z.eqb_refl.
    - change (peer_at t') with (peer_at (reset_peer ind node (PeerCount t) t)).
      rewrite (map_peer_at_reset t W); [by rewrite map_remove_pos|lia|].
      apply Forall_forall. intros i Hin. pose proof (used_range t W i (remove_pos_In _ _ _ Hin)).
      split; [lia|]. intros ->. rewrite Hu in HN. apply NoDup_cons_1_1 in HN. apply HN. by apply list_elem_of_In. }
  split; [done|]. split; [|split; [|done]].
  - split; [exact C| |exact HP|].
    + apply (use_arrays _ (Z.of_nat k) ind); [lia|]. apply (wf_reset_arrays t W).
    + rewrite Hps. cbn [map]. apply NoDup_cons_2; [by apply remove_pos_nodes|].
      rewrite map_remove_pos. apply NoDup_remove_pos, W.
  - change (PeerNodeId t') with (arr_set (PeerNodeId t) ind node). apply arr_set_eq.
    destruct (len_arrays t W) as (-> & _). lia.
Qed.

Lemma add_case t node : wf_peers t -> PeerCount t < 128 ->
  first_pos (fun p => p_node p =? node) (peers t) = None ->
  let ind := PeerCount t in
  let t' := use_peer (PeerCount t) ind (reset_peer ind node (PeerCount t + 1) t) in
  peers t' = fresh_peer node :: peers t /\ wf_peers t' /\ arr (PeerNodeId t') ind = node /\
  arr (MostRecentlyUsedIndexes t') 0 = ind.
Proof.
  intros W Hc Ef ind t'. pose proof (count_range t W) as C. apply first_pos_absent in Ef.
  destruct (len_arrays t W) as (L1 & L2 & L3 & L4 & L5 & L6).
  assert (used t' = ind :: used t) as Hu.
  { unfold used at 1. change (PeerCount t') with (PeerCount t + 1).
    change (MostRecentlyUsedIndexes t') with (move_to_top (MostRecentlyUsedIndexes t) (PeerCount t) ind).
    rewrite <- (Z2Nat.id (PeerCount t)) at 2 by lia. replace (Z.to_nat (PeerCount t + 1)) with (S (Z.to_nat (PeerCount t))) by lia.
    by rewrite take_move_to_top_new by lia. }
  assert (peers t' = fresh_peer node :: peers t) as Hps.
  { unfold peers at 1. rewrite Hu. cbn [map]. f_equal.
    - change (peer_at t' ind) with (peer_at (reset_peer ind node (PeerCount t + 1) t) ind).
      rewrite (peer_at_reset t W) by lia. by rewrite Z.eqb_refl.
    - change (peer_at t') with (peer_at (reset_peer ind node (PeerCount t + 1) t)).
      rewrite (map_peer_at_reset t W); [done|lia|].
      apply Forall_forall. intros i Hin. pose proof (used_range t W i Hin). lia. }
  split; [done|]. split; [|split; [|done]].
  - split.
    + change (PeerCount t') with (PeerCount t + 1). change WEAVE_CONFIG_MAX_PEER_NODES with 128. lia.
    + apply (use_arrays _ (PeerCount t) ind); [lia|]. apply (wf_reset_arrays t W).
    + rewrite Hu. change (PeerCount t') with (PeerCount t + 1). rewrite (wf_used t W).
      replace (PeerCount t + 1) with (Z.of_nat (S (Z.to_nat (PeerCount t)))) by lia. rewrite seqZ_S, Z2Nat.id by lia.
      rewrite <- Permutation_cons_append. done.
    + rewrite Hps. cbn [map]. apply NoDup_cons_2; [done|apply W].
  - change (PeerNodeId t') with (arr_set (PeerNodeId t) ind node). apply arr_set_eq. lia.
Qed.

(** *** The refinement *)

Lemma FindOrAllocPeerEntry_refines t node alloc : wf_peers t ->
  let '(r, t') := FindOrAllocPeerEntry node alloc t in
  wf_peers t' /\
  match peers_find node alloc (peers t) with
  | Some l => exists ind, r = Some ind /\ peers t' = l /\ arr (PeerNodeId t') ind = node /\ arr (MostRecentlyUsedIndexes t') 0 = ind
  | None => r = None /\ t' = t
  end.
Proof.
  intros W. unfold FindOrAllocPeerEntry, peers_find. rewrite (find_peer_used t W).
  destruct (first_pos _ (peers t)) as [k|] eqn:Ef.
  - destruct (first_pos_Some _ _ _ Ef) as (p & Ep & Hn). apply Z.eqb_eq in Hn. rewrite Ep.
    destruct (found_case t k p W Ep) as (A & B & C & D). split; [done|]. eexists. by rewrite A, C.
  - destruct alloc; [|done]. unfold peers at 1. rewrite length_map, (length_used t W).
    pose proof (count_range t W) as C. rewrite Z2Nat.id by lia.
    change WEAVE_CONFIG_MAX_PEER_NODES with 128. destruct (Z.eqb_spec (PeerCount t) 128) as [E|E].
    + destruct (len_arrays t W) as (_ & _ & _ & _ & _ & L6). change (Z.to_nat 128) with 128%nat.
      rewrite find_unsynchronized_pos by lia.
      replace (map (peer_at t) (take 128 (MostRecentlyUsedIndexes t))) with (peers t) by (unfold peers, used; by rewrite E).
      assert (length (peers t) = 128%nat) as Lp by (unfold peers; rewrite length_map, (length_used t W), E; done).
      destruct (last_pos _ (peers t)) as [k|] eqn:El.
      * pose proof (last_pos_lt _ _ _ El). destruct (replace_case t node k W) as (A & B & D & F); [lia|done|].
        split; [done|]. eexists. by rewrite A.
      * rewrite Lp. change (128 - 1) with (Z.of_nat 127). destruct (replace_case t node 127 W) as (A & B & D & F); [lia|done|].
        split; [done|]. eexists. by rewrite A.
    + destruct (add_case t node W) as (A & B & D & F); [lia|done|]. split; [done|]. eexists. by rewrite A.
Qed.

(** ** The application key cache *)

(** class WeaveMsgEncryptionKey; the union EncKey has one member. *)
Record WeaveMsgEncryptionKey := mkMsgEncKey { KeyId : Z; EncType : Z; DataKey : list Z; IntegrityKey : list Z }.

Definition kWeaveEncryptionType_None : Z := 0.
Definition kWeaveEncryptionType_AES128CTRSHA1 : Z := 1.
Definition DataKeySize : Z := 16.
Definition IntegrityKeySize : Z := 20.

(** memset(&key, 0, sizeof(key)) *)
Definition zero_key : WeaveMsgEncryptionKey :=
  mkMsgEncKey kNone kWeaveEncryptionType_None (replicate (Z.to_nat DataKeySize) 0) (replicate (Z.to_nat IntegrityKeySize) 0).

Record WeaveMsgEncryptionKeyCache := mkCache {
  mKeyCache : list WeaveMsgEncryptionKey;
  mMostRecentlyUsedKeyEntries : list Z }.

Definition Cache_Clear (keyEntryIndex : Z) (c : WeaveMsgEncryptionKeyCache) : WeaveMsgEncryptionKeyCache :=
  mkCache (<[Z.to_nat keyEntryIndex := zero_key]> (mKeyCache c)) (mMostRecentlyUsedKeyEntries c).

(** Reset: every entry cleared, the index list filled with zeros. *)
Definition Cache_Reset (c : WeaveMsgEncryptionKeyCache) : WeaveMsgEncryptionKeyCache :=
  let n := Z.to_nat WEAVE_CONFIG_MAX_CACHED_MSG_ENC_APP_KEYS in
  mkCache (mKeyCache (foldl (fun c i => Cache_Clear i c) c (upto WEAVE_CONFIG_MAX_CACHED_MSG_ENC_APP_KEYS))) (replicate n 0).

(** The search loop from entry [i] on, with retKeyEntryIndex. *)
Fixpoint find_key (l : list WeaveMsgEncryptionKey) (i keyId encType retKeyEntryIndex : Z) : Z :=
  match l with
  | [] => retKeyEntryIndex
  | e :: l =>
    if (KeyId e =? keyId) && (EncType e =? encType) then i
    else if (retKeyEntryIndex =? WEAVE_CONFIG_MAX_CACHED_MSG_ENC_APP_KEYS) && (KeyId e =? kNone) then find_key l (i + 1) keyId encType i
    else find_key l (i + 1) keyId encType retKeyEntryIndex
  end.

(** The position of an index in the most-recently-used list, or its length. *)
Fixpoint mru_position (l : list Z) (ind : Z) : Z :=
  match l with
  | [] => 0
  | x :: l => if x =? ind then 0 else 1 + mru_position l ind
  end.

(** FindOrAllocateKeyEntry: the index of the entry, and how many bytes the memmove
    stores past the end of mMostRecentlyUsedKeyEntries. *)
Definition FindOrAllocateKeyEntry (keyId encType : Z) (c : WeaveMsgEncryptionKeyCache) : Z * Z * WeaveMsgEncryptionKeyCache :=
  let n := WEAVE_CONFIG_MAX_CACHED_MSG_ENC_APP_KEYS in
  let ret := find_key (mKeyCache c) 0 keyId encType n in
  let '(ret, c) := if ret =? n then let ret := arr (mMostRecentlyUsedKeyEntries c) (n - 1) in (ret, Cache_Clear ret c) else (ret, c) in
  let i := mru_position (mMostRecentlyUsedKeyEntries c) ret in
  (ret, Z.max 0 (i + 1 - n), mkCache (mKeyCache c) (take (Z.to_nat n) (move_to_top (mMostRecentlyUsedKeyEntries c) i ret))).

(** The caller stores the derived key in the entry. *)
Definition store_key (ind : Z) (k : WeaveMsgEncryptionKey) (c : WeaveMsgEncryptionKeyCache) : WeaveMsgEncryptionKeyCache :=
  mkCache (<[Z.to_nat ind := k]> (mKeyCache c)) (mMostRecentlyUsedKeyEntries c).

Definition empty_cache : WeaveMsgEncryptionKeyCache :=
  Cache_Reset (mkCache (replicate (Z.to_nat WEAVE_CONFIG_MAX_CACHED_MSG_ENC_APP_KEYS) zero_key) []).

(** ** Properties *)

(** C9: FindOrAllocPeerEntry refines a list of peers in order of last use: a known
    peer moves to the front with its state, an unknown one is left out or added
    in front with fresh counters, and only a full table drops a peer: the least
    recently used one whose group counter is not synchronized, or the least
    recently used one.  The index handed back is the entry of the node asked
    for, and the table stays well formed (no node twice, the index list a
    permutation of the entries in use). *)
Theorem PeerTable_refines_lru t node alloc : wf_peers t ->
  let '(r, t') := FindOrAllocPeerEntry node alloc t in
  wf_peers t' /\
  match peers_find node alloc (peers t) with
  | Some l => exists ind, r = Some ind /\ peers t' = l /\ arr (PeerNodeId t') ind = node /\ arr (MostRecentlyUsedIndexes t') 0 = ind
  | None => r = None /\ t' = t
  end.
Proof. apply FindOrAllocPeerEntry_refines. Qed.

Theorem PeerTable_refines_lru_witness :
  let t := snd (FindOrAllocPeerEntry 7 true (snd (FindOrAllocPeerEntry 5 true PeerTable_init))) in
  let '(r, t') := FindOrAllocPeerEntry 5 false t in
  wf_peers t' /\ exists ind, r = Some ind /\ peers t' = [fresh_peer 5; fresh_peer 7] /\ arr (PeerNodeId t') ind = 5 /\
    arr (MostRecentlyUsedIndexes t') 0 = ind.
Proof.
  set (t1 := snd (FindOrAllocPeerEntry 5 true PeerTable_init)).
  assert (wf_peers t1) as W1.
  { pose proof (FindOrAllocPeerEntry_refines PeerTable_init 5 true wf_PeerTable_init) as H. unfold t1.
    destruct (FindOrAllocPeerEntry 5 true PeerTable_init) as [r t']. apply H. }
  set (t2 := snd (FindOrAllocPeerEntry 7 true t1)). cbv zeta.
  assert (wf_peers t2) as W2.
  { pose proof (FindOrAllocPeerEntry_refines t1 7 true W1) as H. unfold t2.
    destruct (FindOrAllocPeerEntry 7 true t1) as [r t']. apply H. }
  pose proof (PeerTable_refines_lru t2 5 false W2) as H.
  assert (peers_find 5 false (peers t2) = Some [fresh_peer 5; fresh_peer 7]) as E by (vm_compute; reflexivity).
  rewrite E in H. exact H.
Defined.

(** The index list of the key cache starts as all zeros, which is not a
    permutation of the entries: the second key that is cached selects an entry
    that the list does not contain, and the memmove that should move it to the
    top stores one byte past the end of the list. *)
Theorem KeyCache_second_key_overruns key1 id2 enc2 : KeyId key1 <> kNone -> id2 <> kNone -> KeyId key1 <> id2 ->
  let '(i1, over1, c1) := FindOrAllocateKeyEntry (KeyId key1) (EncType key1) empty_cache in
  let '(i2, over2, c2) := FindOrAllocateKeyEntry id2 enc2 (store_key i1 key1 c1) in
  i1 = 0 /\ over1 = 0 /\ i2 = 1 /\ over2 = 1.
Proof.
  intros H1 H2 Hne. unfold kNone in *.
  assert (FindOrAllocateKeyEntry (KeyId key1) (EncType key1) empty_cache = (0, 0, empty_cache)) as ->.
  { unfold FindOrAllocateKeyEntry.
    replace (find_key _ _ _ _ _) with 0 by (change (mKeyCache empty_cache) with (replicate 9 zero_key); by destruct (KeyId key1)).
    reflexivity. }
  unfold FindOrAllocateKeyEntry.
  replace (find_key _ _ _ _ _) with 1; [repeat split|].
  change (mKeyCache (store_key 0 key1 empty_cache)) with (key1 :: replicate 8 zero_key). cbn [find_key].
  rewrite (proj2 (Z.eqb_neq (KeyId key1) id2) Hne), (proj2 (Z.eqb_neq (KeyId key1) kNone) H1), andb_false_l, andb_false_r.
  by destruct id2.
Qed.

Theorem KeyCache_second_key_overruns_witness :
  let key1 := mkMsgEncKey 16385 1 [] [] in
  let '(i1, over1, c1) := FindOrAllocateKeyEntry 16385 1 empty_cache in
  let '(i2, over2, c2) := FindOrAllocateKeyEntry 16386 1 (store_key i1 key1 c1) in
  i1 = 0 /\ over1 = 0 /\ i2 = 1 /\ over2 = 1.
Proof. apply (KeyCache_second_key_overruns (mkMsgEncKey 16385 1 [] []) 16386 1); discriminate. Defined.
