(* ===== verification/FabricState.v ===== *)
(** * Fabric state: session keys, shared sessions, counter synchronization
      (src/src/lib/core/WeaveFabricState.cpp, WeaveFabricState.h)

    [WeaveFabricState] owns the session keys, the peer table, the key cache and
    the message counters.  GetSessionState hands out pointers into it: a
    [session_ref] names what they point at, and the members of WeaveSessionState
    (see Session) are run on the values behind the reference.  The platform's
    storage and the group key store are the classes [PersistedStorage] and
    [GroupKeyStore].  Joining a fabric and IP addresses are not part of it. *)
From S2P Require Import Prelude KeyIds Session Counter PeerTable.
From stdpp Require Import gmap strings.
Local Open Scope weave_scope.
Local Open Scope Z_scope.

Definition WEAVE_CONFIG_MAX_SESSION_KEYS : Z := 64.
Definition WEAVE_CONFIG_MAX_SHARED_SESSIONS_END_NODES : Z := 10.
Definition WEAVE_CONFIG_MAX_END_NODES_PER_SHARED_SESSION : Z := 10.
Definition kNodeIdNotSpecified : Z := 0.
Definition kAnyNodeId : Z := 18446744073709551615.
Definition kFabricIdNotSpecified : Z := 0.
Definition kWeaveSubnetId_PrimaryWiFi : Z := 1.
Definition kWeaveAuthMode_NotSpecified : Z := 0.
Definition kWeaveAuthMode_Unauthenticated : Z := 1.
Definition kWeaveAuthModeCategory_GroupKey : Z := 16384.
Definition kState_NotInitialized : Z := 0.
Definition kState_Initialized : Z := 1.

Definition GroupKeyAuthMode (keyId : Z) : Z := Z.lor kWeaveAuthModeCategory_GroupKey (GetAppGroupLocalNumber keyId).

(** class WeaveSessionKey; a connection is a number. *)
Record WeaveSessionKey := mkSessionKey {
  NodeId : Z;
  SK_NextMsgId : Z;
  MaxRcvdMsgId : Z;
  BoundCon : option nat;
  SK_RcvFlags : Z;
  SK_AuthMode : Z;
  SK_MsgEncKey : WeaveMsgEncryptionKey;
  SharedSession : bool }.

(** WeaveSessionKey::Init; Clear also clears the key, which Init has zeroed. *)
Definition SessionKey_Init : WeaveSessionKey :=
  mkSessionKey kNodeIdNotSpecified 0 0 None 0 kWeaveAuthMode_NotSpecified zero_key false.
Definition SessionKey_Clear (k : WeaveSessionKey) : WeaveSessionKey := SessionKey_Init.

(** The pointer SessionKey is the number of the slot it points at. *)
Record SharedSessionEndNode := mkEndNode { EndNodeId : Z; SessionKey : option nat }.
Definition zero_end_node : SharedSessionEndNode := mkEndNode 0 None.

(** Calls out of the fabric state: the timer, and the message and exchange layers. *)
Inductive FabricAction :=
  | StartMsgCounterSyncTimer
  | SignalMessageLayerActivityChanged
  | ClearMsgCounterSyncReq (peerNodeId : Z).

(** GroupKeyStoreBase as the fabric state uses it: DeriveApplicationKey(keyId, salt,
    diversifier, keyBufSize, keyLen) gives the key, the key id it stands for and
    the group's global id. *)
Class GroupKeyStore (G : Type) := {
  DeriveApplicationKey : Z -> list Z -> list Z -> Z -> Z -> G -> res (list Z * Z * Z) * G }.

Section Fabric.
Context {St : Type} `{PersistedStorage St} {G : Type} `{GroupKeyStore G}.

Record WeaveFabricState := mkFabric {
  FState : Z;
  FabricId : Z;
  LocalNodeId : Z;
  DefaultSubnet : Z;
  NextUnencUDPMsgId : Z;
  NextUnencTCPMsgId : Z;
  SessionKeys : list WeaveSessionKey;
  NextGroupKeyMsgId : PersistedCounter St;
  GroupKeyMsgIdFreshWindowStart : Z;
  MsgCounterSyncStatus : Z;
  AppKeyCache : WeaveMsgEncryptionKeyCache;
  PeerStates : PeerTable;
  SharedSessionsNodes : list SharedSessionEndNode;
  KeyStore : G;
  Actions : list FabricAction }.

Definition set_SessionKeys (x : list WeaveSessionKey) (f : WeaveFabricState) : WeaveFabricState :=
  mkFabric (FState f) (FabricId f) (LocalNodeId f) (DefaultSubnet f) (NextUnencUDPMsgId f) (NextUnencTCPMsgId f) x
    (NextGroupKeyMsgId f) (GroupKeyMsgIdFreshWindowStart f) (MsgCounterSyncStatus f) (AppKeyCache f) (PeerStates f)
    (SharedSessionsNodes f) (KeyStore f) (Actions f).
Definition set_counters (udp tcp : Z) (group : PersistedCounter St) (f : WeaveFabricState) : WeaveFabricState :=
  mkFabric (FState f) (FabricId f) (LocalNodeId f) (DefaultSubnet f) udp tcp (SessionKeys f)
    group (GroupKeyMsgIdFreshWindowStart f) (MsgCounterSyncStatus f) (AppKeyCache f) (PeerStates f)
    (SharedSessionsNodes f) (KeyStore f) (Actions f).
Definition set_sync (start status : Z) (acts : list FabricAction) (f : WeaveFabricState) : WeaveFabricState :=
  mkFabric (FState f) (FabricId f) (LocalNodeId f) (DefaultSubnet f) (NextUnencUDPMsgId f) (NextUnencTCPMsgId f) (SessionKeys f)
    (NextGroupKeyMsgId f) start status (AppKeyCache f) (PeerStates f)
    (SharedSessionsNodes f) (KeyStore f) (Actions f ++ acts).
Definition set_AppKeyCache (x : WeaveMsgEncryptionKeyCache) (g : G) (f : WeaveFabricState) : WeaveFabricState :=
  mkFabric (FState f) (FabricId f) (LocalNodeId f) (DefaultSubnet f) (NextUnencUDPMsgId f) (NextUnencTCPMsgId f) (SessionKeys f)
    (NextGroupKeyMsgId f) (GroupKeyMsgIdFreshWindowStart f) (MsgCounterSyncStatus f) x (PeerStates f)
    (SharedSessionsNodes f) g (Actions f).
Definition set_PeerStates (x : PeerTable) (f : WeaveFabricState) : WeaveFabricState :=
  mkFabric (FState f) (FabricId f) (LocalNodeId f) (DefaultSubnet f) (NextUnencUDPMsgId f) (NextUnencTCPMsgId f) (SessionKeys f)
    (NextGroupKeyMsgId f) (GroupKeyMsgIdFreshWindowStart f) (MsgCounterSyncStatus f) (AppKeyCache f) x
    (SharedSessionsNodes f) (KeyStore f) (Actions f).
Definition set_SharedSessionsNodes (x : list SharedSessionEndNode) (f : WeaveFabricState) : WeaveFabricState :=
  mkFabric (FState f) (FabricId f) (LocalNodeId f) (DefaultSubnet f) (NextUnencUDPMsgId f) (NextUnencTCPMsgId f) (SessionKeys f)
    (NextGroupKeyMsgId f) (GroupKeyMsgIdFreshWindowStart f) (MsgCounterSyncStatus f) (AppKeyCache f) (PeerStates f)
    x (KeyStore f) (Actions f).

(** *** Init and Shutdown *)

(** Init(groupKeyStore): [rnd] is what GetRandU32 returns, [epoch] and [id] the
    configuration of the persisted counter. *)
Definition Fabric_Init (groupKeyStore : option G) (rnd : Z) (id : string) (epoch : Z) : M WeaveFabricState unit := fun f =>
  if negb (FState f =? kState_NotInitialized) then (Err WEAVE_ERROR_INCORRECT_STATE, f)
  else match groupKeyStore with
  | None => (Err WEAVE_ERROR_INVALID_ARGUMENT, f)
  | Some g =>
    let keys := replicate (Z.to_nat WEAVE_CONFIG_MAX_SESSION_KEYS) SessionKey_Init in
    let '(r, c) := Counter.Init id epoch (NextGroupKeyMsgId f) in
    let g1 := mkFabric (FState f) kFabricIdNotSpecified 1 kWeaveSubnetId_PrimaryWiFi (u32 rnd) 0 keys c
                (GroupKeyMsgIdFreshWindowStart f) (MsgCounterSyncStatus f) (AppKeyCache f)
                (mkPeers 0 (PeerNodeId (PeerStates f)) (MaxUnencUDPMsgIdRcvd (PeerStates f)) (MaxGroupKeyMsgIdRcvd (PeerStates f))
                  (GroupKeyRcvFlags (PeerStates f)) (UnencRcvFlags (PeerStates f)) (MostRecentlyUsedIndexes (PeerStates f)))
                (SharedSessionsNodes f) g (Actions f) in
    match r with
    | Ok _ =>
      (Ok tt, mkFabric kState_Initialized kFabricIdNotSpecified 1 kWeaveSubnetId_PrimaryWiFi (u32 rnd) 0 keys c
                0 0 (Cache_Reset (AppKeyCache f)) PeerTable_init
                (replicate (Z.to_nat WEAVE_CONFIG_MAX_SHARED_SESSIONS_END_NODES) zero_end_node) g (Actions f))
    | x => (x, g1)
    end
  end.

Definition Fabric_Shutdown : M WeaveFabricState unit := fun f =>
  (Ok tt, mkFabric kState_NotInitialized (FabricId f) (LocalNodeId f) (DefaultSubnet f) (NextUnencUDPMsgId f) (NextUnencTCPMsgId f)
     (SessionKeys f) (NextGroupKeyMsgId f) (GroupKeyMsgIdFreshWindowStart f) (MsgCounterSyncStatus f) (Cache_Reset (AppKeyCache f))
     (PeerStates f) (SharedSessionsNodes f) (KeyStore f) (Actions f)).

(** *** Session keys *)

Definition FindSharedSessionEndNode (endNodeId : Z) (slot : nat) (f : WeaveFabricState) : bool :=
  existsb (fun n => bool_decide (SessionKey n = Some slot) && (EndNodeId n =? endNodeId)) (SharedSessionsNodes f).

(** The test of FindSessionKey on slot [slot]. *)
Definition session_key_matches (keyId peerNodeId : Z) (f : WeaveFabricState) (slot : nat) (k : WeaveSessionKey) : bool :=
  (KeyId (SK_MsgEncKey k) =? keyId) &&
  ((NodeId k =? peerNodeId) || (SharedSession k && FindSharedSessionEndNode peerNodeId slot f)).

(** The loop: the slot found, or the first free slot. *)
Fixpoint find_session_key (l : list WeaveSessionKey) (slot : nat) (freeRec : option nat) (keyId peerNodeId : Z) (f : WeaveFabricState)
  : option nat * option nat :=
  match l with
  | [] => (None, freeRec)
  | k :: l =>
    let freeRec := if (KeyId (SK_MsgEncKey k) =? kNone) && bool_decide (freeRec = None) then Some slot else freeRec in
    if session_key_matches keyId peerNodeId f slot k then (Some slot, freeRec)
    else find_session_key l (S slot) freeRec keyId peerNodeId f
  end.

Definition FindSessionKey (keyId peerNodeId : Z) (create : bool) (f : WeaveFabricState) : res nat :=
  if negb (IsSessionKey keyId) then Err WEAVE_ERROR_WRONG_KEY_TYPE
  else if (peerNodeId =? kNodeIdNotSpecified) || (peerNodeId =? kAnyNodeId) then Err WEAVE_ERROR_INVALID_ARGUMENT
  else
    match find_session_key (SessionKeys f) 0 None keyId peerNodeId f with
    | (Some slot, _) => Ok slot
    | (None, freeRec) =>
      if negb create then Err WEAVE_ERROR_KEY_NOT_FOUND
      else match freeRec with
        | None => Err WEAVE_ERROR_TOO_MANY_KEYS
        | Some slot => Ok slot
        end
    end.

(** The record a slot number stands for. *)
Definition session_key (slot : nat) (f : WeaveFabricState) : WeaveSessionKey := nth slot (SessionKeys f) SessionKey_Init.
Definition update_session_key (slot : nat) (k : WeaveSessionKey) (f : WeaveFabricState) : WeaveFabricState :=
  set_SessionKeys (<[slot := k]> (SessionKeys f)) f.

(** The loop of AllocSessionKey, with the values GetRandU16 returns: the slot and
    the key id. *)
Fixpoint alloc_key_slot (rnd : list Z) (keyId peerNodeId : Z) (f : WeaveFabricState) : res (nat * Z) :=
  match rnd with
  | [] => Diverges
  | r :: rnd =>
    let keyId := MakeSessionKeyId (u16 r) in
    match FindSessionKey keyId peerNodeId true f with
    | Ok slot =>
      if KeyId (SK_MsgEncKey (session_key slot f)) =? kNone then Ok (slot, keyId)
      else alloc_key_slot rnd keyId peerNodeId f
    | Err e => Err e
    | Undefined => Undefined
    | Diverges => Diverges
    end
  end.

(** AllocSessionKey(peerNodeId, boundCon, keyId, sharedSession): the key id. *)
Definition AllocSessionKey (rnd : list Z) (peerNodeId : Z) (boundCon : option nat) (keyId : Z) (sharedSession : bool)
  : M WeaveFabricState Z := fun f =>
  let r :=
    if keyId =? kNone then alloc_key_slot rnd keyId peerNodeId f
    else match FindSessionKey keyId peerNodeId true f with
      | Ok slot => if KeyId (SK_MsgEncKey (session_key slot f)) =? kNone then Ok (slot, keyId) else Err WEAVE_ERROR_DUPLICATE_KEY_ID
      | Err e => Err e
      | Undefined => Undefined
      | Diverges => Diverges
      end in
  match r with
  | Ok (slot, keyId) =>
    let k := session_key slot f in
    (Ok keyId, update_session_key slot
       (mkSessionKey peerNodeId UINT32_MAX UINT32_MAX boundCon 0 (SK_AuthMode k)
          (mkMsgEncKey keyId kWeaveEncryptionType_None (DataKey (SK_MsgEncKey k)) (IntegrityKey (SK_MsgEncKey k))) sharedSession) f)
  | Err e => (Err e, f)
  | Undefined => (Undefined, f)
  | Diverges => (Diverges, f)
  end.

Definition SetSessionKey (keyId peerNodeId encType authMode : Z) (dataKey integrityKey : list Z) : M WeaveFabricState unit := fun f =>
  match FindSessionKey keyId peerNodeId false f with
  | Ok slot =>
    let k := session_key slot f in
    (Ok tt, update_session_key slot
       (mkSessionKey (NodeId k) 0 0 (BoundCon k) 0 authMode (mkMsgEncKey (KeyId (SK_MsgEncKey k)) encType dataKey integrityKey) (SharedSession k)) f)
  | Err e => (Err e, f)
  | Undefined => (Undefined, f)
  | Diverges => (Diverges, f)
  end.

Definition RemoveSessionKey (keyId peerNodeId : Z) : M WeaveFabricState unit := fun f =>
  match FindSessionKey keyId peerNodeId false f with
  | Ok slot =>
    let f := if SharedSession (session_key slot f)
             then set_SharedSessionsNodes (map (fun n => if bool_decide (SessionKey n = Some slot) then zero_end_node else n) (SharedSessionsNodes f)) f
             else f in
    (Ok tt, update_session_key slot (SessionKey_Clear (session_key slot f)) f)
  | Err e => (Err e, f)
  | Undefined => (Undefined, f)
  | Diverges => (Diverges, f)
  end.

Definition GetSessionKey (keyId peerNodeId : Z) (f : WeaveFabricState) : res nat := FindSessionKey keyId peerNodeId false f.

(** HasSharedSession: the key id of the first session that fits. *)
Fixpoint HasSharedSession_loop (l : list WeaveSessionKey) (terminatingNodeId authMode encType : Z) : option Z :=
  match l with
  | [] => None
  | k :: l =>
    if (NodeId k =? terminatingNodeId) && (SK_AuthMode k =? authMode) && (EncType (SK_MsgEncKey k) =? encType) && SharedSession k
    then Some (KeyId (SK_MsgEncKey k))
    else HasSharedSession_loop l terminatingNodeId authMode encType
  end.
Definition HasSharedSession (terminatingNodeId authMode encType : Z) (f : WeaveFabricState) : option Z :=
  HasSharedSession_loop (SessionKeys f) terminatingNodeId authMode encType.

Definition IsSharedSession (keyId peerNodeId : Z) (f : WeaveFabricState) : bool :=
  match FindSessionKey keyId peerNodeId false f with Ok slot => SharedSession (session_key slot f) | _ => false end.

(** The loop of AddSharedSessionEndNode: whether the node is there already, the
    number of other end nodes of the session and the first free entry. *)
Fixpoint scan_end_nodes (l : list SharedSessionEndNode) (i : nat) (slot : nat) (endNodeId : Z) (freeEndNode : option nat) (endNodeCount : Z)
  : bool * option nat * Z :=
  match l with
  | [] => (false, freeEndNode, endNodeCount)
  | n :: l =>
    if bool_decide (SessionKey n = Some slot) then
      if EndNodeId n =? endNodeId then (true, freeEndNode, endNodeCount)
      else scan_end_nodes l (S i) slot endNodeId freeEndNode (u8 (endNodeCount + 1))
    else
      let freeEndNode := if (EndNodeId n =? kNodeIdNotSpecified) && bool_decide (freeEndNode = None) then Some i else freeEndNode in
      scan_end_nodes l (S i) slot endNodeId freeEndNode endNodeCount
  end.

Definition AddSharedSessionEndNode (endNodeId terminatingNodeId keyId : Z) : M WeaveFabricState unit := fun f =>
  match FindSessionKey keyId terminatingNodeId false f with
  | Ok slot =>
    if endNodeId =? terminatingNodeId then (Ok tt, f)
    else
      match scan_end_nodes (SharedSessionsNodes f) 0 slot endNodeId None 0 with
      | (true, _, _) => (Ok tt, f)
      | (false, Some i, endNodeCount) =>
        if endNodeCount <=? WEAVE_CONFIG_MAX_END_NODES_PER_SHARED_SESSION
        then (Ok tt, set_SharedSessionsNodes (<[i := mkEndNode endNodeId (Some slot)]> (SharedSessionsNodes f)) f)
        else (Err WEAVE_ERROR_TOO_MANY_SHARED_SESSION_END_NODES, f)
      | (false, None, _) => (Err WEAVE_ERROR_TOO_MANY_SHARED_SESSION_END_NODES, f)
      end
  | Err e => (Err e, f)
  | Undefined => (Undefined, f)
  | Diverges => (Diverges, f)
  end.

(** GetSharedSessionEndNodeIds: the ids stored in the buffer. *)
Fixpoint end_node_ids (l : list SharedSessionEndNode) (slot : nat) (endNodeIdsMaxCount endNodeIdsCount : Z) : res (list Z) :=
  match l with
  | [] => Ok []
  | n :: l =>
    if bool_decide (SessionKey n = Some slot) then
      if negb (endNodeIdsCount <? endNodeIdsMaxCount) then Err WEAVE_ERROR_BUFFER_TOO_SMALL
      else match end_node_ids l slot endNodeIdsMaxCount (u8 (endNodeIdsCount + 1)) with
        | Ok ids => Ok (EndNodeId n :: ids)
        | x => x
        end
    else end_node_ids l slot endNodeIdsMaxCount endNodeIdsCount
  end.
Definition GetSharedSessionEndNodeIds (slot : nat) (endNodeIdsMaxCount : Z) (f : WeaveFabricState) : res (list Z) :=
  end_node_ids (SharedSessionsNodes f) slot endNodeIdsMaxCount 0.

Fixpoint close_keys (l : list WeaveSessionKey) (con : option nat) : list WeaveSessionKey :=
  match l with
  | [] => []
  | k :: l =>
    (if negb (KeyId (SK_MsgEncKey k) =? kNone) && bool_decide (BoundCon k = con) then SessionKey_Clear k else k) :: close_keys l con
  end.
Definition HandleConnectionClosed (con : option nat) (f : WeaveFabricState) : WeaveFabricState :=
  set_SessionKeys (close_keys (SessionKeys f) con) f.

(** *** Session state *)

(** What the pointers of a WeaveSessionState point at. *)
Inductive session_ref :=
  | UnencryptedUDP (peerIndex : Z)
  | UnencryptedTCP
  | SessionKeyRef (slot : nat)
  | GroupKeyRef (entry : Z) (peerIndex : option Z).

(** The reference and the member AuthMode. *)
Record session_handle := mkHandle { sh_ref : session_ref; sh_AuthMode : Z }.

Definition cached_key (entry : Z) (f : WeaveFabricState) : WeaveMsgEncryptionKey :=
  nth (Z.to_nat entry) (mKeyCache (AppKeyCache f)) zero_key.

(** *MsgEncKey, NULL for an unencrypted session. *)
Definition session_enc_key (r : session_ref) (f : WeaveFabricState) : option WeaveMsgEncryptionKey :=
  match r with
  | UnencryptedUDP _ | UnencryptedTCP => None
  | SessionKeyRef slot => Some (SK_MsgEncKey (session_key slot f))
  | GroupKeyRef entry _ => Some (cached_key entry f)
  end.

(** The values behind the pointers, and writing them back. *)
Definition load_session (r : session_ref) (f : WeaveFabricState) : WeaveSessionState :=
  let keyId := option_map KeyId (session_enc_key r f) in
  match r with
  | UnencryptedUDP p => mkSession keyId (NextUnencUDPMsgId f) (arr (MaxUnencUDPMsgIdRcvd (PeerStates f)) p) (Some (arr (UnencRcvFlags (PeerStates f)) p))
  | UnencryptedTCP => mkSession keyId (NextUnencTCPMsgId f) 0 None
  | SessionKeyRef slot =>
    let k := session_key slot f in mkSession keyId (SK_NextMsgId k) (MaxRcvdMsgId k) (Some (SK_RcvFlags k))
  | GroupKeyRef _ (Some p) =>
    mkSession keyId (GetValue (NextGroupKeyMsgId f)) (arr (MaxGroupKeyMsgIdRcvd (PeerStates f)) p) (Some (arr (GroupKeyRcvFlags (PeerStates f)) p))
  | GroupKeyRef _ None => mkSession keyId (GetValue (NextGroupKeyMsgId f)) 0 None
  end.

Definition store_received (r : session_ref) (s : WeaveSessionState) (f : WeaveFabricState) : WeaveFabricState :=
  let t := PeerStates f in
  match r, RcvFlags s with
  | UnencryptedUDP p, Some flags =>
    set_PeerStates (mkPeers (PeerCount t) (PeerNodeId t) (arr_set (MaxUnencUDPMsgIdRcvd t) p (MaxMsgIdRcvd s)) (MaxGroupKeyMsgIdRcvd t)
      (GroupKeyRcvFlags t) (arr_set (UnencRcvFlags t) p flags) (MostRecentlyUsedIndexes t)) f
  | SessionKeyRef slot, Some flags =>
    let k := session_key slot f in
    update_session_key slot (mkSessionKey (NodeId k) (SK_NextMsgId k) (MaxMsgIdRcvd s) (BoundCon k) flags (SK_AuthMode k) (SK_MsgEncKey k) (SharedSession k)) f
  | GroupKeyRef _ (Some p), Some flags =>
    set_PeerStates (mkPeers (PeerCount t) (PeerNodeId t) (MaxUnencUDPMsgIdRcvd t) (arr_set (MaxGroupKeyMsgIdRcvd t) p (MaxMsgIdRcvd s))
      (arr_set (GroupKeyRcvFlags t) p flags) (UnencRcvFlags t) (MostRecentlyUsedIndexes t)) f
  | _, _ => f
  end.

(** sessionState.NewMessageId(): the persisted counter's Advance may fail, and the
    code ignores that. *)
Definition session_NewMessageId (r : session_ref) (f : WeaveFabricState) : Z * WeaveFabricState :=
  match r with
  | UnencryptedUDP _ => (NextUnencUDPMsgId f, set_counters (Counter_Advance (NextUnencUDPMsgId f)) (NextUnencTCPMsgId f) (NextGroupKeyMsgId f) f)
  | UnencryptedTCP => (NextUnencTCPMsgId f, set_counters (NextUnencUDPMsgId f) (Counter_Advance (NextUnencTCPMsgId f)) (NextGroupKeyMsgId f) f)
  | SessionKeyRef slot =>
    let k := session_key slot f in
    (SK_NextMsgId k, update_session_key slot (mkSessionKey (NodeId k) (Counter_Advance (SK_NextMsgId k)) (MaxRcvdMsgId k) (BoundCon k) (SK_RcvFlags k)
       (SK_AuthMode k) (SK_MsgEncKey k) (SharedSession k)) f)
  | GroupKeyRef _ _ =>
    let '(_, c) := Advance (NextGroupKeyMsgId f) in
    (GetValue (NextGroupKeyMsgId f), set_counters (NextUnencUDPMsgId f) (NextUnencTCPMsgId f) c f)
  end.

Definition session_MessageIdNotSynchronized (r : session_ref) (f : WeaveFabricState) : bool := MessageIdNotSynchronized (load_session r f).

Definition session_IsDuplicateMessage (r : session_ref) (msgId : Z) : M WeaveFabricState bool := fun f =>
  let '(b, s) := IsDuplicateMessage msgId (load_session r f) in (b, store_received r s f).

(** *** Application keys *)

Definition kWeaveMsgEncAppKeyDiversifier : list Z := [177; 29; 174; 91].   (* 0xB1, 0x1D, 0xAE, 0x5B *)

Definition DeriveMsgEncAppKey (keyId encType : Z) (g : G) : res (WeaveMsgEncryptionKey * Z) * G :=
  if negb (encType =? kWeaveEncryptionType_AES128CTRSHA1) then (Err WEAVE_ERROR_UNSUPPORTED_ENCRYPTION_TYPE, g)
  else
    let keySize := DataKeySize + IntegrityKeySize in
    match DeriveApplicationKey keyId [] (kWeaveMsgEncAppKeyDiversifier ++ [encType]) keySize keySize g with
    | (Ok (keyData, keyId, appGroupGlobalId), g) =>
      (Ok (mkMsgEncKey (u16 keyId) encType (take (Z.to_nat DataKeySize) keyData)
             (take (Z.to_nat IntegrityKeySize) (drop (Z.to_nat DataKeySize) keyData)), appGroupGlobalId), g)
    | (Err e, g) => (Err e, g)
    | (Undefined, g) => (Undefined, g)
    | (Diverges, g) => (Diverges, g)
    end.

(** FindMsgEncAppKey(keyId, encType, retRec): the cache entry.  (A memmove past the
    end of the index list lands in the padding of the cache object.) *)
Definition FindMsgEncAppKey (keyId encType : Z) : M WeaveFabricState Z := fun f =>
  let '(entry, _, c) := FindOrAllocateKeyEntry keyId encType (AppKeyCache f) in
  let f := set_AppKeyCache c (KeyStore f) f in
  if KeyId (cached_key entry f) =? kNone then
    match DeriveMsgEncAppKey keyId encType (KeyStore f) with
    | (Ok (k, _), g) => (Ok entry, set_AppKeyCache (store_key entry k c) g f)
    | (Err e, g) => (Err e, set_AppKeyCache c g f)
    | (Undefined, g) => (Undefined, set_AppKeyCache c g f)
    | (Diverges, g) => (Diverges, set_AppKeyCache c g f)
    end
  else (Ok entry, f).

(** GetSessionState(remoteNodeId, keyId, encType, con, outSessionState) *)
Definition GetSessionState (remoteNodeId keyId encType : Z) (con : option nat) : M WeaveFabricState session_handle := fun f =>
  let keyType := GetType keyId in
  if keyType =? kType_None then
    if negb (keyId =? kNone) then (Err WEAVE_ERROR_INVALID_KEY_ID, f)
    else if negb (encType =? kWeaveEncryptionType_None) then (Err WEAVE_ERROR_WRONG_ENCRYPTION_TYPE, f)
    else match con with
    | None =>
      match FindOrAllocPeerEntry remoteNodeId true (PeerStates f) with
      | (Some peerIndex, t) => (Ok (mkHandle (UnencryptedUDP peerIndex) kWeaveAuthMode_Unauthenticated), set_PeerStates t f)
      | (None, t) => (Undefined, set_PeerStates t f)
      end
    | Some _ => (Ok (mkHandle UnencryptedTCP kWeaveAuthMode_Unauthenticated), f)
    end
  else if keyType =? kType_Session then
    match FindSessionKey keyId remoteNodeId false f with
    | Ok slot =>
      let k := session_key slot f in
      if negb (EncType (SK_MsgEncKey k) =? encType) then
        (Err (if EncType (SK_MsgEncKey k) =? kWeaveEncryptionType_None then WEAVE_ERROR_KEY_NOT_FOUND else WEAVE_ERROR_WRONG_ENCRYPTION_TYPE), f)
      else if negb (bool_decide (BoundCon k = None)) && negb (bool_decide (BoundCon k = con)) then (Err WEAVE_ERROR_INVALID_USE_OF_SESSION_KEY, f)
      else (Ok (mkHandle (SessionKeyRef slot) (SK_AuthMode k)), f)
    | Err e => (Err e, f)
    | Undefined => (Undefined, f)
    | Diverges => (Diverges, f)
    end
  else if (keyType =? kType_AppStaticKey) || (keyType =? kType_AppRotatingKey) then
    match FindMsgEncAppKey keyId encType f with
    | (Ok entry, f) =>
      let authMode := GroupKeyAuthMode keyId in
      match FindOrAllocPeerEntry remoteNodeId false (PeerStates f) with
      | (Some peerIndex, t) => (Ok (mkHandle (GroupKeyRef entry (Some peerIndex)) authMode), set_PeerStates t f)
      | (None, t) => (Ok (mkHandle (GroupKeyRef entry None) authMode), set_PeerStates t f)
      end
    | (Err e, f) => (Err e, f)
    | (Undefined, f) => (Undefined, f)
    | (Diverges, f) => (Diverges, f)
    end
  else (Err WEAVE_ERROR_UNKNOWN_KEY_TYPE, f).

(** *** Message counter synchronization *)

Definition kFlag_ReqInProgress : Z := 32768.
Definition kFlag_ReqSentThisPeriod : Z := 16384.
Definition kMask_GroupKeyMsgIdFreshWindowWidth : Z := 16383.

Definition IsMsgCounterSyncReqInProgress (f : WeaveFabricState) : bool := negb (Z.land (MsgCounterSyncStatus f) kFlag_ReqInProgress =? 0).

Definition OnMsgCounterSyncReqSent (messageId : Z) (f : WeaveFabricState) : WeaveFabricState :=
  let status := Z.lor (MsgCounterSyncStatus f) kFlag_ReqSentThisPeriod in
  let f := set_sync (GroupKeyMsgIdFreshWindowStart f) status [] f in
  if negb (IsMsgCounterSyncReqInProgress f)
  then set_sync messageId (Z.lor status kFlag_ReqInProgress) [StartMsgCounterSyncTimer; SignalMessageLayerActivityChanged] f
  else f.

Definition OnMsgCounterSyncRespRcvd (peerNodeId peerMsgId requestorMsgCounter : Z) : M WeaveFabricState unit := fun f =>
  if IsMsgCounterSyncReqInProgress f && (GroupKeyMsgIdFreshWindowStart f <=? requestorMsgCounter) &&
     (requestorMsgCounter <? GetValue (NextGroupKeyMsgId f)) then
    match FindOrAllocPeerEntry peerNodeId true (PeerStates f) with
    | (Some p, t) =>
      if Z.land (arr (GroupKeyRcvFlags t) p) kReceiveFlags_MessageIdSynchronized =? 0 then
        (Ok tt, set_sync (GroupKeyMsgIdFreshWindowStart f) (MsgCounterSyncStatus f) [ClearMsgCounterSyncReq peerNodeId]
          (set_PeerStates (mkPeers (PeerCount t) (PeerNodeId t) (MaxUnencUDPMsgIdRcvd t) (arr_set (MaxGroupKeyMsgIdRcvd t) p peerMsgId)
             (arr_set (GroupKeyRcvFlags t) p kReceiveFlags_MessageIdSynchronized) (UnencRcvFlags t) (MostRecentlyUsedIndexes t)) f))
      else (Ok tt, set_PeerStates t f)
    | (None, t) => (Undefined, set_PeerStates t f)
    end
  else (Ok tt, f).

Definition OnMsgCounterSyncRespTimeout (f : WeaveFabricState) : WeaveFabricState :=
  if negb (Z.land (MsgCounterSyncStatus f) kFlag_ReqSentThisPeriod =? 0) then
    let start := u32 (GroupKeyMsgIdFreshWindowStart f + Z.land (MsgCounterSyncStatus f) kMask_GroupKeyMsgIdFreshWindowWidth) in
    let freshWindoWidth := u32 (GetValue (NextGroupKeyMsgId f) - start) in
    let '(start, freshWindoWidth) :=
      if kMask_GroupKeyMsgIdFreshWindowWidth <? freshWindoWidth
      then (u32 (start + (freshWindoWidth - kMask_GroupKeyMsgIdFreshWindowWidth)), kMask_GroupKeyMsgIdFreshWindowWidth)
      else (start, freshWindoWidth) in
    let status := u16 (Z.lor (MsgCounterSyncStatus f) (Z.land freshWindoWidth kMask_GroupKeyMsgIdFreshWindowWidth)) in
    let status := u16 (Z.land status (Z.lnot kFlag_ReqSentThisPeriod)) in
    set_sync start status [StartMsgCounterSyncTimer] f
  else set_sync (GroupKeyMsgIdFreshWindowStart f) 0 [SignalMessageLayerActivityChanged] f.
End Fabric.

Arguments WeaveFabricState St G : clear implicits.

(** ** The session key table *)

Section Keys.
Context {St : Type} `{PersistedStorage St} {G : Type} `{GroupKeyStore G}.
Implicit Types f : WeaveFabricState St G.

Lemma find_key_found l f k p : forall i s free r, (forall j r', (j < i)%nat -> l !! j = Some r' -> session_key_matches k p f (s + j)%nat r' = false) ->
  l !! i = Some r -> session_key_matches k p f (s + i)%nat r = true -> fst (find_session_key l s free k p f) = Some (s + i)%nat.
Proof.
  induction l as [|r0 l IH]; intros i s free r Hj Hi Hm; [done|]. cbn [find_session_key].
  destruct i as [|i].
  - injection Hi as ->. rewrite Nat.add_0_r in Hm |- *. by rewrite Hm.
  - pose proof (Hj 0%nat r0 ltac:(lia) eq_refl) as E0. rewrite Nat.add_0_r in E0. rewrite E0.
    rewrite Nat.add_succ_r. apply (IH i (S s) _ r); [|done|by rewrite Nat.add_succ_l, <- Nat.add_succ_r].
    intros j r' Hlt Hl. rewrite Nat.add_succ_l, <- Nat.add_succ_r. apply Hj; [lia|done].
Qed.

Lemma find_key_absent l f k p : forall s free, fst (find_session_key l s free k p f) = None <->
  (forall j r, l !! j = Some r -> session_key_matches k p f (s + j)%nat r = false).
Proof.
  induction l as [|r0 l IH]; intros s free; [done|]. cbn [find_session_key].
  destruct (session_key_matches k p f s r0) eqn:E.
  - split; [done|]. intros Hn. specialize (Hn 0%nat r0 eq_refl). rewrite Nat.add_0_r in Hn. congruence.
  - rewrite IH. split.
    + intros Hn [|j] r Hl; [injection Hl as <-; by rewrite Nat.add_0_r|]. rewrite Nat.add_succ_r. by apply (Hn j).
    + intros Hn j r Hl. rewrite Nat.add_succ_l, <- Nat.add_succ_r. by apply (Hn (S j)).
Qed.

Lemma find_key_free l f k p : forall s free slot, find_session_key l s free k p f = (None, Some slot) ->
  free = Some slot \/ exists i r, slot = (s + i)%nat /\ l !! i = Some r /\ KeyId (SK_MsgEncKey r) = kNone.
Proof.
  induction l as [|r0 l IH]; intros s free slot E; [injection E as ->; by left|]. cbn [find_session_key] in E.
  destruct (session_key_matches k p f s r0); [done|].
  apply IH in E as [E|(i & r & -> & Hl & Hk)].
  - destruct ((KeyId (SK_MsgEncKey r0) =? kNone) && bool_decide (free = None)) eqn:Eb; [|by left].
    injection E as <-. apply andb_prop in Eb as [Eb _]. right. exists 0%nat, r0. apply Z.eqb_eq in Eb. by rewrite Nat.add_0_r.
  - right. exists (S i), r. by rewrite Nat.add_succ_r.
Qed.

Lemma find_key_sound l f k p : forall s free slot, fst (find_session_key l s free k p f) = Some slot ->
  exists i r, slot = (s + i)%nat /\ l !! i = Some r /\ session_key_matches k p f slot r = true.
Proof.
  induction l as [|r0 l IH]; intros s free slot E; [done|]. cbn [find_session_key] in E.
  destruct (session_key_matches k p f s r0) eqn:Em.
  - injection E as <-. exists 0%nat, r0. by rewrite Nat.add_0_r.
  - apply IH in E as (i & r & -> & Hl & Hm). exists (S i), r. rewrite Nat.add_succ_r. done.
Qed.

(** The lookups depend on the keys and the end nodes alone. *)
Lemma matches_nodes k p f f' slot r : SharedSessionsNodes f' = SharedSessionsNodes f ->
  session_key_matches k p f' slot r = session_key_matches k p f slot r.
Proof. intros E. unfold session_key_matches, FindSharedSessionEndNode. by rewrite E. Qed.

(** The arguments FindSessionKey accepts. *)
Definition valid_session_args (k p : Z) : Prop := IsSessionKey k = true /\ p <> kNodeIdNotSpecified /\ p <> kAnyNodeId.

Lemma FindSessionKey_args k p create f slot : FindSessionKey k p create f = Ok slot -> valid_session_args k p.
Proof.
  unfold FindSessionKey. destruct (IsSessionKey k) eqn:E; [|done]. cbn [negb].
  destruct ((p =? kNodeIdNotSpecified) || (p =? kAnyNodeId)) eqn:E2; [done|]. intros _. bool_prop. done.
Qed.

Lemma session_key_id_nonzero k p : valid_session_args k p -> k <> kNone.
Proof. intros [Hk _] ->. done. Qed.

(** The key table has the slot of a lookup. *)
Lemma session_key_lookup f slot r : SessionKeys f !! slot = Some r -> session_key slot f = r.
Proof. intros E. unfold session_key. by apply nth_lookup_Some. Qed.

(** A slot handed out for a new key: it is free and no slot matches. *)
Lemma FindSessionKey_free k p f slot : FindSessionKey k p true f = Ok slot -> KeyId (SK_MsgEncKey (session_key slot f)) = kNone ->
  exists r, SessionKeys f !! slot = Some r /\
    forall j r', SessionKeys f !! j = Some r' -> session_key_matches k p f j r' = false.
Proof.
  intros E Hk. pose proof (FindSessionKey_args _ _ _ _ _ E) as Ha. pose proof (session_key_id_nonzero _ _ Ha) as Hn.
  unfold FindSessionKey in E. destruct Ha as (Hs & Hp1 & Hp2). rewrite Hs in E. cbn [negb] in E.
  rewrite (proj2 (Z.eqb_neq p kNodeIdNotSpecified) Hp1), (proj2 (Z.eqb_neq p kAnyNodeId) Hp2) in E. cbn [orb] in E.
  pose proof (find_key_absent (SessionKeys f) f k p 0 None) as HA. pose proof (find_key_sound (SessionKeys f) f k p 0 None) as HS.
  destruct (find_session_key (SessionKeys f) 0 None k p f) as [[s|] fr] eqn:Ef.
  - injection E as ->. destruct (HS slot eq_refl) as (i & r & -> & Hl & Hm). exfalso. cbn [Nat.add] in Hk.
    rewrite (session_key_lookup f i r Hl) in Hk. unfold session_key_matches in Hm. rewrite Hk in Hm.
    apply andb_prop in Hm as [Hm _]. apply Z.eqb_eq in Hm. congruence.
  - destruct fr as [s|]; [|done]. injection E as ->. apply find_key_free in Ef as [|(i & r & -> & Hl & _)]; [done|].
    exists r. split; [done|]. by apply HA.
Qed.

(** FindSessionKey, for arguments it accepts, by the search result. *)
Lemma FindSessionKey_search k p f : valid_session_args k p ->
  FindSessionKey k p false f =
  match fst (find_session_key (SessionKeys f) 0 None k p f) with Some slot => Ok slot | None => Err WEAVE_ERROR_KEY_NOT_FOUND end.
Proof.
  intros (Hs & Hp1 & Hp2). unfold FindSessionKey. rewrite Hs. cbn [negb].
  rewrite (proj2 (Z.eqb_neq p kNodeIdNotSpecified) Hp1), (proj2 (Z.eqb_neq p kAnyNodeId) Hp2). cbn [orb].
  by destruct (find_session_key _ _ _ _ _ _) as [[s|] fr].
Qed.

Lemma FindSessionKey_absent k p f : valid_session_args k p ->
  (forall j r, SessionKeys f !! j = Some r -> session_key_matches k p f j r = false) ->
  FindSessionKey k p false f = Err WEAVE_ERROR_KEY_NOT_FOUND.
Proof. intros Ha Hn. rewrite FindSessionKey_search by done. by rewrite (proj2 (find_key_absent (SessionKeys f) f k p 0 None)). Qed.

Lemma FindSessionKey_update k p slot r r' f : valid_session_args k p -> SessionKeys f !! slot = Some r' ->
  (forall j r0, SessionKeys f !! j = Some r0 -> session_key_matches k p f j r0 = false) ->
  KeyId (SK_MsgEncKey r) = k -> NodeId r = p -> FindSessionKey k p false (update_session_key slot r f) = Ok slot.
Proof.
  intros Ha Hl Hn Hk Hp. rewrite FindSessionKey_search by done.
  rewrite (find_key_found _ _ k p slot 0 None r); [done| | |].
  - intros j r0 Hj Hl0. cbn [Nat.add]. rewrite (matches_nodes k p f) by done. apply Hn.
    cbn in Hl0. by rewrite list_lookup_insert_ne in Hl0 by lia.
  - cbn. apply list_lookup_insert_eq. by apply lookup_lt_Some in Hl.
  - unfold session_key_matches. by rewrite Hk, Hp, !Z.eqb_refl.
Qed.

(** Two states whose slots match alike find the same. *)
Lemma find_key_agree k p f f' l : forall l' s free free', length l = length l' ->
  (forall j r r', l !! j = Some r -> l' !! j = Some r' -> session_key_matches k p f (s + j)%nat r = session_key_matches k p f' (s + j)%nat r') ->
  fst (find_session_key l s free k p f) = fst (find_session_key l' s free' k p f').
Proof.
  induction l as [|r l IH]; intros [|r' l'] s free free' Hl Hm; try done. cbn [find_session_key].
  pose proof (Hm 0%nat r r' eq_refl eq_refl) as E. rewrite Nat.add_0_r in E. rewrite E.
  destruct (session_key_matches k p f' s r'); [done|]. apply IH; [by injection Hl|].
  intros j r0 r0' H1 H2. rewrite Nat.add_succ_l, <- Nat.add_succ_r. by apply (Hm (S j)).
Qed.

Lemma FindSessionKey_agree k p f f' : length (SessionKeys f) = length (SessionKeys f') ->
  (forall j r r', SessionKeys f !! j = Some r -> SessionKeys f' !! j = Some r' -> k <> kNone ->
    session_key_matches k p f j r = session_key_matches k p f' j r') ->
  FindSessionKey k p false f = FindSessionKey k p false f'.
Proof.
  intros Hl Hm. unfold FindSessionKey. destruct (IsSessionKey k) eqn:Ek; [|done]. cbn [negb].
  assert (k <> kNone) as Hk by (intros ->; done).
  pose proof (find_key_agree k p f f' (SessionKeys f) (SessionKeys f') 0 None None Hl ltac:(intros; by apply Hm)) as E.
  destruct (find_session_key (SessionKeys f) _ _ _ _ _) as [a b]. destruct (find_session_key (SessionKeys f') _ _ _ _ _) as [a' b'].
  cbn in E. subst a'. done.
Qed.

(** What AllocSessionKey does when it succeeds. *)
Definition new_session_key (k p : Z) (con : option nat) (shared : bool) (r : WeaveSessionKey) : WeaveSessionKey :=
  mkSessionKey p UINT32_MAX UINT32_MAX con 0 (SK_AuthMode r)
    (mkMsgEncKey k kWeaveEncryptionType_None (DataKey (SK_MsgEncKey r)) (IntegrityKey (SK_MsgEncKey r))) shared.

Lemma AllocSessionKey_spec rnd p con k0 shared f k f1 : AllocSessionKey rnd p con k0 shared f = (Ok k, f1) ->
  exists slot r, SessionKeys f !! slot = Some r /\ KeyId (SK_MsgEncKey r) = kNone /\ valid_session_args k p /\
    (forall j r', SessionKeys f !! j = Some r' -> session_key_matches k p f j r' = false) /\
    f1 = update_session_key slot (new_session_key k p con shared r) f.
Proof.
  intros E. unfold AllocSessionKey in E.
  assert (exists slot, FindSessionKey k p true f = Ok slot /\ KeyId (SK_MsgEncKey (session_key slot f)) = kNone /\
    f1 = update_session_key slot (new_session_key k p con shared (session_key slot f)) f) as (slot & E1 & E2 & E3).
  { destruct (k0 =? kNone).
    - assert (forall slot k', alloc_key_slot rnd k0 p f = Ok (slot, k') ->
        FindSessionKey k' p true f = Ok slot /\ KeyId (SK_MsgEncKey (session_key slot f)) = kNone) as HA.
      { clear E. intros slot k'. generalize k0. induction rnd as [|x rnd IH]; intros k1 E; [done|]. cbn [alloc_key_slot] in E.
        destruct (FindSessionKey (MakeSessionKeyId (u16 x)) p true f) as [s| | |] eqn:Ef; try done.
        destruct (Z.eqb_spec (KeyId (SK_MsgEncKey (session_key s f))) kNone); [injection E as <- <-; by split|by eapply IH]. }
      destruct (alloc_key_slot rnd k0 p f) as [[slot k']| | |]; try done.
      destruct (HA slot k' eq_refl) as [H1 H2]. injection E as <- <-. by exists slot.
    - destruct (FindSessionKey k0 p true f) as [slot| | |] eqn:Ef; try done.
      destruct (Z.eqb_spec (KeyId (SK_MsgEncKey (session_key slot f))) kNone); [|done]. injection E as <- <-. by exists slot. }
  destruct (FindSessionKey_free k p f slot E1 E2) as (r & Hl & Hn). exists slot, r.
  rewrite (session_key_lookup f slot r Hl) in E2, E3. split; [done|]. split; [done|].
  split; [by eapply FindSessionKey_args|done].
Qed.

(** An end node entry of another slot survives the removal. *)
Lemma FindSharedSessionEndNode_removed p slot j nodes : j <> slot ->
  existsb (fun n => bool_decide (SessionKey n = Some j) && (EndNodeId n =? p))
    (map (fun n => if bool_decide (SessionKey n = Some slot) then zero_end_node else n) nodes) =
  existsb (fun n => bool_decide (SessionKey n = Some j) && (EndNodeId n =? p)) nodes.
Proof.
  intros Hj. induction nodes as [|n nodes IH]; [done|]. cbn [map existsb]. rewrite IH. f_equal.
  destruct (bool_decide_reflect (SessionKey n = Some slot)) as [E|E]; [|done].
  rewrite (bool_decide_eq_false_2 (SessionKey n = Some j)); [done|]. rewrite E. by intros [= ->].
Qed.

Lemma GetSessionState_session k p enc con f slot : valid_session_args k p -> FindSessionKey k p false f = Ok slot ->
  GetSessionState p k enc con f =
  let x := session_key slot f in
  if negb (EncType (SK_MsgEncKey x) =? enc) then
    (Err (if EncType (SK_MsgEncKey x) =? kWeaveEncryptionType_None then WEAVE_ERROR_KEY_NOT_FOUND else WEAVE_ERROR_WRONG_ENCRYPTION_TYPE), f)
  else if negb (bool_decide (BoundCon x = None)) && negb (bool_decide (BoundCon x = con)) then (Err WEAVE_ERROR_INVALID_USE_OF_SESSION_KEY, f)
  else (Ok (mkHandle (SessionKeyRef slot) (SK_AuthMode x)), f).
Proof.
  intros (Hs & _) E. apply Z.eqb_eq in Hs. unfold GetSessionState. rewrite Hs, E. reflexivity.
Qed.

Section Lifecycle.
Context (k p : Z) (slot : nat) (r : WeaveSessionKey) (f : WeaveFabricState St G).
Hypothesis Ha : valid_session_args k p.
Hypothesis Hl : SessionKeys f !! slot = Some r.
Hypothesis Hz : KeyId (SK_MsgEncKey r) = kNone.
Hypothesis Hn : forall j r', SessionKeys f !! j = Some r' -> session_key_matches k p f j r' = false.

Lemma slot_bound : (slot < length (SessionKeys f))%nat.
Proof. by apply lookup_lt_Some in Hl. Qed.

Lemma session_key_update x : session_key slot (update_session_key slot x f) = x.
Proof. apply session_key_lookup. cbn. apply list_lookup_insert_eq, slot_bound. Qed.

Lemma update_update x y : update_session_key slot y (update_session_key slot x f) = update_session_key slot y f.
Proof. unfold update_session_key. cbn. by rewrite list_insert_insert_eq. Qed.

(** Writing the slot does not disturb the keys with other ids. *)
Lemma update_other x k' p' : KeyId (SK_MsgEncKey x) = kNone \/ k' <> KeyId (SK_MsgEncKey x) ->
  FindSessionKey k' p' false (update_session_key slot x f) = FindSessionKey k' p' false f.
Proof.
  intros Hx. apply FindSessionKey_agree; [cbn; apply length_insert|]. intros j r1 r2 H1 H2 Hk. cbn in H1.
  rewrite (matches_nodes k' p' f) by done. destruct (decide (j = slot)) as [->|Hj].
  - rewrite list_lookup_insert_eq in H1 by apply slot_bound. injection H1 as <-. rewrite Hl in H2. injection H2 as <-.
    unfold session_key_matches. rewrite Hz.
    rewrite (proj2 (Z.eqb_neq kNone k')) by congruence. cbn [andb].
    rewrite (proj2 (Z.eqb_neq (KeyId (SK_MsgEncKey x)) k')) by (destruct Hx; congruence). done.
  - rewrite list_lookup_insert_ne in H1 by done. congruence.
Qed.

(** Removing the key that the slot holds. *)
Lemma Remove_found x : KeyId (SK_MsgEncKey x) = k -> NodeId x = p ->
  exists f', RemoveSessionKey k p (update_session_key slot x f) = (Ok tt, f') /\
    FindSessionKey k p false f' = Err WEAVE_ERROR_KEY_NOT_FOUND /\
    (forall k' p', k' <> k -> FindSessionKey k' p' false f' = FindSessionKey k' p' false f).
Proof.
  intros Hk Hp. unfold RemoveSessionKey. rewrite (FindSessionKey_update k p slot x r f Ha Hl Hn Hk Hp).
  rewrite session_key_update. eexists. split; [reflexivity|].
  assert (forall g : WeaveFabricState St G, SessionKeys g = SessionKeys (update_session_key slot x f) ->
    (forall k' p' j r', j <> slot -> session_key_matches k' p' g j r' = session_key_matches k' p' f j r') ->
    let g' := update_session_key slot (SessionKey_Clear x) g in
    FindSessionKey k p false g' = Err WEAVE_ERROR_KEY_NOT_FOUND /\
    (forall k' p', k' <> k -> FindSessionKey k' p' false g' = FindSessionKey k' p' false f)) as HG.
  { intros g Hg Hm g'. assert (SessionKeys g' = <[slot := SessionKey_Init]> (SessionKeys f)) as Hg'.
    { cbn. rewrite Hg. cbn. by rewrite list_insert_insert_eq. }
    assert (forall k' p' j r', session_key_matches k' p' g' j r' = session_key_matches k' p' g j r') as Hmn by (intros; by apply matches_nodes).
    split.
    - apply FindSessionKey_absent; [done|]. intros j r' Hj. rewrite Hg' in Hj. rewrite Hmn. destruct (decide (j = slot)) as [->|Hne].
      + rewrite list_lookup_insert_eq in Hj by apply slot_bound. injection Hj as <-. unfold session_key_matches. change (KeyId (SK_MsgEncKey SessionKey_Init)) with kNone.
        pose proof (session_key_id_nonzero k p Ha). rewrite (proj2 (Z.eqb_neq kNone k)) by congruence. done.
      + rewrite list_lookup_insert_ne in Hj by done. rewrite Hm by done. by apply Hn.
    - intros k' p' Hk'. apply FindSessionKey_agree; [rewrite Hg'; apply length_insert|]. intros j r1 r2 H1 H2 Hz'.
      rewrite Hg' in H1. rewrite Hmn. destruct (decide (j = slot)) as [->|Hne].
      + rewrite list_lookup_insert_eq in H1 by apply slot_bound. injection H1 as <-. rewrite Hl in H2. injection H2 as <-.
        unfold session_key_matches. rewrite Hz. change (KeyId (SK_MsgEncKey SessionKey_Init)) with kNone.
        by rewrite (proj2 (Z.eqb_neq kNone k')) by congruence.
      + rewrite list_lookup_insert_ne in H1 by done. rewrite Hm by done. congruence. }
  destruct (SharedSession x).
  - apply HG; [done|]. intros k' p' j r' Hj. unfold session_key_matches, FindSharedSessionEndNode. cbn.
    by rewrite FindSharedSessionEndNode_removed.
  - apply HG; [done|]. intros k' p' j r' Hj. by apply matches_nodes.
Qed.
End Lifecycle.

(** Receiving on a session key: the reference stays good. *)
Section Receive.
Context (slot : nat) (f : WeaveFabricState St G).
Hypothesis Hslot : (slot < length (SessionKeys f))%nat.

Lemma session_key_updated x : session_key slot (update_session_key slot x f) = x.
Proof. apply session_key_lookup. cbn. by apply list_lookup_insert_eq. Qed.

Lemma load_stored_key s fl : RcvFlags s = Some fl -> MsgEncKey s = MsgEncKey (load_session (SessionKeyRef slot) f) ->
  NextMsgId s = NextMsgId (load_session (SessionKeyRef slot) f) -> load_session (SessionKeyRef slot) (store_received (SessionKeyRef slot) s f) = s.
Proof.
  intros Hf Hk Hn. destruct s as [k n m r]. cbn in Hf, Hk, Hn. subst. unfold store_received. cbn [RcvFlags MaxMsgIdRcvd].
  unfold load_session, session_enc_key. by rewrite session_key_updated.
Qed.

Lemma FindSessionKey_stored k p s : FindSessionKey k p false (store_received (SessionKeyRef slot) s f) = FindSessionKey k p false f.
Proof.
  unfold store_received. destruct (RcvFlags s) as [fl|]; [|done].
  apply FindSessionKey_agree; [cbn; apply length_insert|]. intros j r r' H1 H2 _. cbn in H1.
  rewrite (matches_nodes k p f) by done. destruct (decide (j = slot)) as [->|Hj].
  - rewrite list_lookup_insert_eq in H1 by done. injection H1 as <-. by rewrite (session_key_lookup f slot r' H2).
  - rewrite list_lookup_insert_ne in H1 by done. congruence.
Qed.

(** A message id a session has seen, whatever the verdict, is a duplicate. *)
Lemma session_IsDuplicate_settles id b f' : session_IsDuplicateMessage (SessionKeyRef slot) id f = (Ok b, f') ->
  session_IsDuplicateMessage (SessionKeyRef slot) id f' = (Ok true, f') /\ exists s, f' = store_received (SessionKeyRef slot) s f.
Proof.
  unfold session_IsDuplicateMessage at 1. destruct (IsDuplicateMessage id (load_session (SessionKeyRef slot) f)) as [r s] eqn:E.
  intros Ep. pose proof (f_equal fst Ep) as Er. pose proof (f_equal snd Ep) as Ef. cbn [fst snd] in Er, Ef. subst r f'. clear Ep.
  split; [|by eexists].
  destruct (IsDuplicate_keeps _ _ _ _ _ E eq_refl) as (Hk & Hn & fl & Hf).
  unfold session_IsDuplicateMessage. rewrite (load_stored_key s fl Hf Hk Hn).
  rewrite (IsDuplicate_settles id (load_session (SessionKeyRef slot) f) b s (KeyId (SK_MsgEncKey (session_key slot f))) eq_refl E). f_equal.
  unfold store_received. rewrite Hf. rewrite session_key_updated. cbn. unfold update_session_key. cbn. by rewrite list_insert_insert_eq.
Qed.
End Receive.

Lemma FindSessionKey_bound k p f slot : FindSessionKey k p false f = Ok slot -> (slot < length (SessionKeys f))%nat.
Proof.
  intros E. pose proof (FindSessionKey_args _ _ _ _ _ E) as Ha. rewrite FindSessionKey_search in E by done.
  pose proof (find_key_sound (SessionKeys f) f k p 0 None) as HS. destruct (fst _) as [s|]; [|done]. injection E as <-.
  destruct (HS s eq_refl) as (i & r & -> & Hl & _). by apply lookup_lt_Some in Hl.
Qed.

(** Looking a session key up changes nothing and names its slot. *)
Lemma GetSessionState_key p k enc con f h f' : IsSessionKey k = true -> GetSessionState p k enc con f = (Ok h, f') ->
  f' = f /\ exists slot, FindSessionKey k p false f = Ok slot /\ sh_ref h = SessionKeyRef slot /\
    forall s, GetSessionState p k enc con (store_received (SessionKeyRef slot) s f) = (Ok h, store_received (SessionKeyRef slot) s f).
Proof.
  intros Hk E. assert (exists slot, FindSessionKey k p false f = Ok slot) as (slot & Es).
  { unfold GetSessionState in E. unfold IsSessionKey in Hk. apply Z.eqb_eq in Hk. rewrite Hk in E.
    cbn [Z.eqb kType_Session kType_None Pos.eqb] in E. destruct (FindSessionKey k p false f); try done. by eexists. }
  pose proof (FindSessionKey_args _ _ _ _ _ Es) as Ha. pose proof (FindSessionKey_bound _ _ _ _ Es) as Hb.
  rewrite (GetSessionState_session k p enc con f slot Ha Es) in E.
  assert (forall s, GetSessionState p k enc con (store_received (SessionKeyRef slot) s f) =
    (fst (GetSessionState p k enc con f), store_received (SessionKeyRef slot) s f)) as HG.
  { intros s. pose proof (FindSessionKey_stored slot f Hb k p s) as E2. rewrite Es in E2.
    rewrite (GetSessionState_session k p enc con f slot Ha Es), (GetSessionState_session k p enc con _ slot Ha E2).
    unfold store_received. destruct (RcvFlags s) as [fl|]; [rewrite session_key_updated by done|]; cbn zeta;
      cbn [EncType SK_MsgEncKey BoundCon SK_AuthMode]; repeat match goal with |- context [if ?b then _ else _] => destruct b end; done. }
  rewrite (GetSessionState_session k p enc con f slot Ha Es) in HG. cbv zeta in E, HG.
  destruct (negb (EncType (SK_MsgEncKey (session_key slot f)) =? enc)); [done|]. destruct (_ && _); [done|].
  injection E as <- <-. split; [done|]. exists slot. split; [done|]. split; [done|]. intros s. by rewrite HG.
Qed.
End Keys.

(** ** Counter synchronization *)

(** Status words by the value [x] of the window width field. *)
Definition status_bits_ok (x : Z) : bool :=
  (Z.land (49152 + x) (Z.lnot kFlag_ReqSentThisPeriod) =? 32768 + x) &&
  (Z.lor (32768 + x) kFlag_ReqSentThisPeriod =? 49152 + x) &&
  negb (Z.land (49152 + x) kFlag_ReqSentThisPeriod =? 0) && negb (Z.land (49152 + x) kFlag_ReqInProgress =? 0) &&
  (Z.land (49152 + x) kMask_GroupKeyMsgIdFreshWindowWidth =? x) && (Z.land x kMask_GroupKeyMsgIdFreshWindowWidth =? x).

Lemma status_bits_all : all_upto 16384 status_bits_ok = true.
Proof. vm_compute. reflexivity. Qed.

Lemma status_bits x : 0 <= x < 16384 ->
  Z.land (49152 + x) (Z.lnot kFlag_ReqSentThisPeriod) = 32768 + x /\ Z.lor (32768 + x) kFlag_ReqSentThisPeriod = 49152 + x /\
  (Z.land (49152 + x) kFlag_ReqSentThisPeriod =? 0) = false /\ (Z.land (49152 + x) kFlag_ReqInProgress =? 0) = false /\
  Z.land (49152 + x) kMask_GroupKeyMsgIdFreshWindowWidth = x /\ Z.land x kMask_GroupKeyMsgIdFreshWindowWidth = x.
Proof.
  intros Hx. pose proof (all_upto_spec 16384 status_bits_ok status_bits_all x Hx) as E. unfold status_bits_ok in E.
  bool_prop. repeat split; try done; by apply Z.eqb_neq.
Qed.

Lemma status_lor w d : 0 <= w < 16384 -> 0 <= d < 16384 -> Z.lor (49152 + w) d = 49152 + Z.lor w d.
Proof.
  intros Hw Hd. pose proof (lor_range w d 14 ltac:(lia) Hw Hd) as R.
  change 49152 with (3 * 2 ^ 14). rewrite <- (lor_add_disjoint 3 w 14), <- (lor_add_disjoint 3 (Z.lor w d) 14) by lia.
  by rewrite Z.lor_assoc.
Qed.

Section Sync.
Context {St : Type} `{PersistedStorage St} {G : Type} `{GroupKeyStore G}.
Implicit Types f : WeaveFabricState St G.

(** A timeout at the end of a period in which a request was sent, the window in
    range: the width field becomes the bit-or of the old and the new width. *)
Lemma timeout_in_range f w d : MsgCounterSyncStatus f = 49152 + w -> 0 <= w < 16384 -> 0 <= d < 16384 ->
  0 <= GroupKeyMsgIdFreshWindowStart f -> GetValue (NextGroupKeyMsgId f) = GroupKeyMsgIdFreshWindowStart f + w + d ->
  GetValue (NextGroupKeyMsgId f) < 4294967296 ->
  OnMsgCounterSyncRespTimeout f = set_sync (GroupKeyMsgIdFreshWindowStart f + w) (32768 + Z.lor w d) [StartMsgCounterSyncTimer] f.
Proof.
  intros Hs Hw Hd Hlo Hc Hb. unfold OnMsgCounterSyncRespTimeout. rewrite Hs.
  destruct (status_bits w Hw) as (_ & _ & -> & _ & -> & _). cbn [negb].
  rewrite (u32_id (GroupKeyMsgIdFreshWindowStart f + w)) by lia. rewrite Hc.
  replace (GroupKeyMsgIdFreshWindowStart f + w + d - (GroupKeyMsgIdFreshWindowStart f + w)) with d by lia.
  rewrite (u32_id d) by lia. change kMask_GroupKeyMsgIdFreshWindowWidth with 16383. rewrite (proj2 (Z.ltb_ge 16383 d)) by lia.
  change 16383 with kMask_GroupKeyMsgIdFreshWindowWidth. destruct (status_bits d Hd) as (_ & _ & _ & _ & _ & ->).
  rewrite (status_lor w d) by done. pose proof (lor_range w d 14 ltac:(lia) Hw Hd) as R. change (2 ^ 14) with 16384 in R.
  rewrite (u16_id (49152 + Z.lor w d)) by lia. destruct (status_bits (Z.lor w d) R) as (-> & _).
  by rewrite (u16_id (32768 + Z.lor w d)) by lia.
Qed.

(** A timeout whose width field is too large steps over the counter. *)
Lemma timeout_overrun f v : MsgCounterSyncStatus f = 49152 + v -> 0 <= v < 16384 ->
  0 <= GroupKeyMsgIdFreshWindowStart f -> GroupKeyMsgIdFreshWindowStart f + v < 4294967296 ->
  GroupKeyMsgIdFreshWindowStart f <= GetValue (NextGroupKeyMsgId f) < GroupKeyMsgIdFreshWindowStart f + v ->
  GroupKeyMsgIdFreshWindowStart (OnMsgCounterSyncRespTimeout f) = u32 (GetValue (NextGroupKeyMsgId f) - kMask_GroupKeyMsgIdFreshWindowWidth).
Proof.
  intros Hs Hv Hlo Hb Hc. unfold OnMsgCounterSyncRespTimeout. rewrite Hs.
  destruct (status_bits v Hv) as (_ & _ & -> & _ & -> & _). cbn [negb].
  rewrite (u32_id (GroupKeyMsgIdFreshWindowStart f + v)) by lia.
  set (c := GetValue (NextGroupKeyMsgId f)) in *. set (s := GroupKeyMsgIdFreshWindowStart f) in *.
  assert (u32 (c - (s + v)) = 4294967296 + (c - (s + v))) as -> by mlia.
  change kMask_GroupKeyMsgIdFreshWindowWidth with 16383.
  rewrite (proj2 (Z.ltb_lt 16383 _)) by lia. cbn [set_sync GroupKeyMsgIdFreshWindowStart]. mlia.
Qed.
End Sync.

(** An instance of the key store and an initialized fabric state, to evaluate the
    model with. *)
#[export] Instance test_key_store : GroupKeyStore unit := {
  DeriveApplicationKey keyId salt diversifier bufSize keyLen g :=
    (Ok (map (fun i => u8 (keyId + i)) (upto keyLen), keyId, 1), g) }.

Definition test_counter : PersistedCounter (gmap string Z * list bool) := mkCounter 0 0 0 "" (∅, []).
Definition test_blank : WeaveFabricState (gmap string Z * list bool) unit :=
  mkFabric kState_NotInitialized 0 0 0 0 0 [] test_counter 0 0
    (mkCache (replicate (Z.to_nat WEAVE_CONFIG_MAX_CACHED_MSG_ENC_APP_KEYS) zero_key) []) PeerTable_init [] tt [].
Definition test_fabric (node : Z) : WeaveFabricState (gmap string Z * list bool) unit :=
  let f := snd (Fabric_Init (Some tt) 77 "EncMsgCntr" 1000 test_blank) in
  mkFabric (FState f) (FabricId f) node (DefaultSubnet f) (NextUnencUDPMsgId f) (NextUnencTCPMsgId f) (SessionKeys f)
    (NextGroupKeyMsgId f) (GroupKeyMsgIdFreshWindowStart f) (MsgCounterSyncStatus f) (AppKeyCache f) (PeerStates f)
    (SharedSessionsNodes f) (KeyStore f) (Actions f).

Example test_fabric_init : fst (Fabric_Init (Some tt) 77 "EncMsgCntr" 1000 test_blank) = Ok tt.
Proof. reflexivity. Qed.

(** ** Properties *)

(** The life of a session key.  A key id that AllocSessionKey hands out for a
    peer cannot be used until SetSessionKey gives it a key; then GetSessionState
    finds exactly that key, with the counters reset and the authentication mode
    given, unless the key is bound to another connection; RemoveSessionKey makes
    it unknown again; and none of this changes what is found under other key
    ids. *)
Theorem SessionKey_lifecycle {St} `{PersistedStorage St} {G} `{GroupKeyStore G} rnd p con k0 shared (f f1 : WeaveFabricState St G) k
    encType authMode dataKey integrityKey con' :
  AllocSessionKey rnd p con k0 shared f = (Ok k, f1) -> encType <> kWeaveEncryptionType_None ->
  let '(r2, f2) := SetSessionKey k p encType authMode dataKey integrityKey f1 in
  let '(r3, f3) := RemoveSessionKey k p f2 in
  fst (GetSessionState p k encType con' f1) = Err WEAVE_ERROR_KEY_NOT_FOUND /\
  r2 = Ok tt /\
  (con = None \/ con = con' -> exists slot,
    GetSessionState p k encType con' f2 = (Ok (mkHandle (SessionKeyRef slot) authMode), f2) /\
    session_enc_key (SessionKeyRef slot) f2 = Some (mkMsgEncKey k encType dataKey integrityKey) /\
    load_session (SessionKeyRef slot) f2 = mkSession (Some k) 0 0 (Some 0)) /\
  (con <> None -> con <> con' -> fst (GetSessionState p k encType con' f2) = Err WEAVE_ERROR_INVALID_USE_OF_SESSION_KEY) /\
  r3 = Ok tt /\ FindSessionKey k p false f3 = Err WEAVE_ERROR_KEY_NOT_FOUND /\
  (forall k' p', k' <> k -> FindSessionKey k' p' false f2 = FindSessionKey k' p' false f /\
                            FindSessionKey k' p' false f3 = FindSessionKey k' p' false f).
Proof.
  intros E He. destruct (AllocSessionKey_spec rnd p con k0 shared f k f1 E) as (slot & r & Hl & Hz & Ha & Hn & ->).
  assert (FindSessionKey k p false (update_session_key slot (new_session_key k p con shared r) f) = Ok slot) as F1
    by (by apply (FindSessionKey_update k p slot _ r)).
  unfold SetSessionKey. rewrite F1, (session_key_update slot r f Hl), update_update.
  set (x := mkSessionKey _ _ _ _ _ _ _ _).
  assert (FindSessionKey k p false (update_session_key slot x f) = Ok slot) as F2 by (by apply (FindSessionKey_update k p slot _ r)).
  destruct (Remove_found k p slot r f Ha Hl Hz Hn x) as (f3 & -> & R1 & R2); [done|done|].
  split.
  { rewrite (GetSessionState_session k p encType con' _ slot Ha F1), (session_key_update slot r f Hl).
    cbn [new_session_key SK_MsgEncKey EncType]. by rewrite (proj2 (Z.eqb_neq kWeaveEncryptionType_None encType)) by congruence. }
  split; [done|]. split; [|split; [|split; [done|split; [done|]]]].
  - intros Hc. exists slot. rewrite (GetSessionState_session k p encType con' _ slot Ha F2).
    unfold load_session, session_enc_key. rewrite (session_key_update slot r f Hl).
    unfold x. cbn [SK_MsgEncKey EncType BoundCon SK_AuthMode]. rewrite Z.eqb_refl. cbn [negb].
    destruct Hc as [-> | ->]; [done|]. rewrite (bool_decide_eq_true_2 (con' = con')) by done. by rewrite andb_false_r.
  - intros Hc Hc'. rewrite (GetSessionState_session k p encType con' _ slot Ha F2), (session_key_update slot r f Hl).
    unfold x. cbn [SK_MsgEncKey EncType BoundCon SK_AuthMode]. rewrite Z.eqb_refl. cbn [negb]. by rewrite !bool_decide_eq_false_2.
  - intros k' p' Hk'. split; [|by apply R2]. apply (update_other slot r f Hl Hz). by right.
Qed.

Theorem SessionKey_lifecycle_witness :
  let '(r1, f1) := AllocSessionKey [5; 6] 42 (Some 3%nat) kNone false (test_fabric 1) in
  let '(r2, f2) := SetSessionKey 8197 42 1 4097 (replicate 16 1) (replicate 20 2) f1 in
  let '(r3, f3) := RemoveSessionKey 8197 42 f2 in
  r1 = Ok 8197 /\ r2 = Ok tt /\
  fst (GetSessionState 42 8197 1 (Some 4%nat) f2) = Err WEAVE_ERROR_INVALID_USE_OF_SESSION_KEY /\
  FindSessionKey 8197 42 false f3 = Err WEAVE_ERROR_KEY_NOT_FOUND.
Proof.
  destruct (AllocSessionKey [5; 6] 42 (Some 3%nat) kNone false (test_fabric 1)) as [r1 f1] eqn:E.
  assert (r1 = Ok 8197) as -> by (change r1 with (fst (r1, f1)); rewrite <- E; reflexivity).
  pose proof (SessionKey_lifecycle [5; 6] 42 (Some 3%nat) kNone false (test_fabric 1) f1 8197 1 4097 (replicate 16 1) (replicate 20 2)
    (Some 4%nat) E ltac:(discriminate)) as T.
  destruct (SetSessionKey 8197 42 1 4097 (replicate 16 1) (replicate 20 2) f1) as [r2 f2].
  destruct (RemoveSessionKey 8197 42 f2) as [r3 f3]. destruct T as (_ & T2 & _ & T4 & _ & T6 & _).
  split; [done|]. split; [done|]. split; [|done]. by apply T4.
Defined.

(** HandleConnectionClosed clears the session keys bound to the connection but
    not the end nodes recorded for them.  When a shared session is later
    allocated in the same slot, the end nodes of the old session share the new
    session's key: looking the new key id up for such a node succeeds. *)
Theorem SharedSession_stale_end_node {St} `{PersistedStorage St} {G} `{GroupKeyStore G} (f f2 : WeaveFabricState St G)
    con slot e rnd t con2 k0 k x :
  In (mkEndNode e (Some slot)) (SharedSessionsNodes f) -> e <> kNodeIdNotSpecified -> e <> kAnyNodeId ->
  AllocSessionKey rnd t con2 k0 true (HandleConnectionClosed con f) = (Ok k, f2) ->
  SessionKeys f2 !! slot = Some x -> KeyId (SK_MsgEncKey x) = k -> SharedSession x = true ->
  exists s, FindSessionKey k e false f2 = Ok s.
Proof.
  intros Hin He1 He2 E Hx Hk Hsh. destruct (AllocSessionKey_spec _ _ _ _ _ _ _ _ E) as (s & r & Hl & Hz & (Ha & _) & Hn & ->).
  assert (session_key_matches k e (update_session_key s (new_session_key k t con2 true r) (HandleConnectionClosed con f)) slot x = true) as Hm.
  { unfold session_key_matches. rewrite Hk, Z.eqb_refl, Hsh. cbn [andb]. apply orb_true_iff. right. unfold FindSharedSessionEndNode.
    apply existsb_exists. exists (mkEndNode e (Some slot)). split; [exact Hin|]. cbn. rewrite Z.eqb_refl. by rewrite bool_decide_eq_true_2. }
  rewrite FindSessionKey_search by done.
  destruct (fst (find_session_key _ _ _ _ _ _)) as [i|] eqn:Ef; [by exists i|]. exfalso.
  apply (proj1 (find_key_absent _ _ _ _ 0 None)) with (j := slot) (r := x) in Ef; [|done]. cbn [Nat.add] in Ef. congruence.
Qed.

Theorem SharedSession_stale_end_node_witness :
  let f := snd (AddSharedSessionEndNode 200 100 8193 (snd (AllocSessionKey [] 100 (Some 1%nat) 8193 true (test_fabric 1)))) in
  let f2 := snd (AllocSessionKey [] 300 (Some 2%nat) 8194 true (HandleConnectionClosed (Some 1%nat) f)) in
  exists s, FindSessionKey 8194 200 false f2 = Ok s.
Proof.
  intros f f2.
  assert (fst (AllocSessionKey [] 300 (Some 2%nat) 8194 true (HandleConnectionClosed (Some 1%nat) f)) = Ok 8194) as E by (vm_compute; reflexivity).
  apply (SharedSession_stale_end_node f f2 (Some 1%nat) 0%nat 200 [] 300 (Some 2%nat) 8194 8194
    (mkSessionKey 300 UINT32_MAX UINT32_MAX (Some 2%nat) 0 0 (mkMsgEncKey 8194 0 (replicate 16 0) (replicate 20 0)) true)).
  - vm_compute. by left.
  - discriminate.
  - discriminate.
  - rewrite <- E. apply surjective_pairing.
  - vm_compute. reflexivity.
  - reflexivity.
  - reflexivity.
Defined.

(** OnMsgCounterSyncRespTimeout ors the new width of the fresh window into the
    field that still holds the old one.  When the result exceeds the distance to
    the message counter at the next timeout, the window's start is set 16383
    behind the counter (modulo 2^32), whatever was sent: long past counters count
    as fresh, or, for a counter below 16383, no response is accepted any more. *)
Theorem MsgCounterSync_window_drift {St} `{PersistedStorage St} {G} `{GroupKeyStore G} (f : WeaveFabricState St G) w d c2 id :
  MsgCounterSyncStatus f = 49152 + w -> 0 <= w < 16384 -> 0 <= d < 16384 -> 0 <= GroupKeyMsgIdFreshWindowStart f ->
  GetValue (NextGroupKeyMsgId f) = GroupKeyMsgIdFreshWindowStart f + w + d ->
  GetValue (NextGroupKeyMsgId f) <= GetValue c2 < GroupKeyMsgIdFreshWindowStart f + w + Z.lor w d ->
  GroupKeyMsgIdFreshWindowStart f + w + Z.lor w d < 4294967296 ->
  let f1 := OnMsgCounterSyncRespTimeout f in
  let f2 := OnMsgCounterSyncRespTimeout (OnMsgCounterSyncReqSent id (set_counters (NextUnencUDPMsgId f1) (NextUnencTCPMsgId f1) c2 f1)) in
  GroupKeyMsgIdFreshWindowStart f1 = GroupKeyMsgIdFreshWindowStart f + w /\
  GroupKeyMsgIdFreshWindowStart f2 = u32 (GetValue c2 - kMask_GroupKeyMsgIdFreshWindowWidth).
Proof.
  intros Hs Hw Hd Hlo Hc Hc2 Hb f1 f2. unfold f2, f1. rewrite (timeout_in_range f w d) by (done || lia). split; [done|].
  pose proof (lor_range w d 14 ltac:(lia) Hw Hd) as R. change (2 ^ 14) with 16384 in R.
  set (g := set_counters _ _ _ _).
  assert (OnMsgCounterSyncReqSent id g = set_sync (GroupKeyMsgIdFreshWindowStart f + w) (49152 + Z.lor w d) [] g) as ->.
  { unfold OnMsgCounterSyncReqSent. change (MsgCounterSyncStatus g) with (32768 + Z.lor w d).
    destruct (status_bits (Z.lor w d) R) as (_ & -> & _ & E & _). unfold IsMsgCounterSyncReqInProgress. cbn [set_sync MsgCounterSyncStatus].
    rewrite E. done. }
  rewrite (timeout_overrun _ (Z.lor w d)); [done|done|done|cbn; lia|cbn; lia|cbn in *; lia].
Qed.

(** A fabric state in the second period of a synchronization, in which a request
    was sent, with the counter at [ctr]. *)
Definition test_sync (start width ctr : Z) : WeaveFabricState (gmap string Z * list bool) unit :=
  set_counters 0 0 (mkCounter ctr 0 100000 "EncMsgCntr" (∅, [])) (set_sync start (49152 + width) [] (test_fabric 1)).

Theorem MsgCounterSync_window_drift_witness :
  let f1 := OnMsgCounterSyncRespTimeout (test_sync 20000 10 20015) in
  let f2 := OnMsgCounterSyncRespTimeout (OnMsgCounterSyncReqSent 20018 (set_counters 0 0 (mkCounter 20020 0 100000 "EncMsgCntr" (∅, [])) f1)) in
  GroupKeyMsgIdFreshWindowStart f1 = 20010 /\ GroupKeyMsgIdFreshWindowStart f2 = 3637.
Proof.
  apply (MsgCounterSync_window_drift (test_sync 20000 10 20015) 10 5 (mkCounter 20020 0 100000 "EncMsgCntr" (∅, [])) 20018);
    (reflexivity || (vm_compute; congruence) || (split; vm_compute; congruence)).
Defined.
