(* ===== verification/AppKeys.v ===== *)
(** * Application group keys (src/src/lib/profiles/security/WeaveApplicationKeys.cpp)

    [GroupKeyStoreBase] selects the current epoch key and derives the root,
    intermediate and application keys from the keys of a platform's store
    ([PlatformKeyStore], the pure virtual functions).  It implements the interface
    [GroupKeyStore] of the fabric state. *)
From S2P Require Import Prelude KeyIds Crypto PeerTable FabricState.
Local Open Scope weave_scope.
Local Open Scope Z_scope.

Definition kWeaveAppFabricRootKeyDiversifier : list Z := [33; 250; 143; 106].    (* 0x21, 0xFA, 0x8F, 0x6A *)
Definition kWeaveAppClientRootKeyDiversifier : list Z := [83; 227; 255; 229].    (* 0x53, 0xE3, 0xFF, 0xE5 *)
Definition kWeaveAppIntermediateKeyDiversifier : list Z := [188; 170; 149; 173]. (* 0xBC, 0xAA, 0x95, 0xAD *)
Definition kWeaveAppGroupKeySize : Z := 32.
Definition kWeaveAppRootKeySize : Z := kWeaveAppGroupKeySize.
Definition kWeaveAppEpochKeySize : Z := kWeaveAppGroupKeySize.
Definition kWeaveAppGroupMasterKeySize : Z := kWeaveAppGroupKeySize.
Definition kWeaveAppIntermediateKeySize : Z := kWeaveAppGroupKeySize.
Definition kWeaveFabricSecretSize : Z := 36.
Definition MaxKeySize : Z := kWeaveFabricSecretSize.
Definition WEAVE_CONFIG_MAX_APPLICATION_EPOCH_KEYS : Z := 4.

(** [gk_Value] is the union of StartTime and GlobalId (which derived keys leave unset,
    here 0); of [gk_Key] only the first KeyLen bytes are used. *)
Record WeaveGroupKey := mkGroupKey { gk_KeyId : Z; gk_KeyLen : Z; gk_Key : list Z; gk_Value : Z }.

(** The platform's key store, persistent storage and clock.  EnumerateGroupKeys gets
    the size of the caller's array. *)
Class PlatformKeyStore (P : Type) := {
  RetrieveGroupKey : Z -> P -> res WeaveGroupKey;
  EnumerateGroupKeys : Z -> Z -> P -> res (list Z);
  GetCurrentUTCTime : P -> res Z;
  RetrieveLastUsedEpochKeyId : P -> res Z;
  StoreLastUsedEpochKeyId : Z -> P -> res unit * P }.

Record GroupKeyStoreBase (P : Type) := mkKeyStore { LastUsedEpochKeyId : Z; NextEpochKeyStartTime : Z; platform : P }.
Arguments mkKeyStore {P}.
Arguments LastUsedEpochKeyId {P}.
Arguments NextEpochKeyStartTime {P}.
Arguments platform {P}.

Section Store.
Context {P : Type} `{PlatformKeyStore P} {SHA1 : HashAlgo}.

Abbreviation Store := (GroupKeyStoreBase P).

Definition of_platform {A} (f : P -> res A) : M Store A := fun s => (f (platform s), s).
Definition set_LastUsed (k : Z) (s : Store) : Store := mkKeyStore k (NextEpochKeyStartTime s) (platform s).
Definition set_NextStart (t : Z) (s : Store) : Store := mkKeyStore (LastUsedEpochKeyId s) t (platform s).

(** EnumerateGroupKeys into an array of [size]; a store that reports more keys than
    fit has written behind it. *)
Definition enumerate (keyType size : Z) : M Store (list Z) :=
  let* ids := of_platform (EnumerateGroupKeys keyType size) in
  if Z.of_nat (length ids) <=? size then ret ids else undefined.

Fixpoint find_group (groupMasterKeyIds : list Z) (groupGlobalId : Z) : M Store Z :=
  match groupMasterKeyIds with
  | [] => fail WEAVE_ERROR_KEY_NOT_FOUND
  | id :: rest =>
    let* groupMasterKey := of_platform (RetrieveGroupKey id) in
    if gk_Value groupMasterKey =? groupGlobalId then ret (gk_KeyId groupMasterKey) else find_group rest groupGlobalId
  end.
(** GetAppGroupMasterKeyId(groupGlobalId, groupKeyStore, groupMasterKeyId) *)
Definition find_AppGroupMasterKeyId (groupGlobalId : Z) : M Store Z :=
  let* ids := enumerate kType_AppGroupMasterKey WEAVE_CONFIG_MAX_APPLICATION_GROUPS in find_group ids groupGlobalId.

Definition KeyStore_Init (s : Store) : Store := set_NextStart UINT32_MAX (set_LastUsed kNone s).
Definition OnEpochKeysChange (s : Store) : Store := set_NextStart UINT32_MAX (set_LastUsed kNone s).

Fixpoint start_times (epochKeyIds : list Z) : M Store (list Z) :=
  match epochKeyIds with
  | [] => ret []
  | id :: rest => let* epochKey := of_platform (RetrieveGroupKey id) in let* times := start_times rest in ret (gk_Value epochKey :: times)
  end.

(** The search for the current key among the start times from index [i] on. *)
Fixpoint select_current (times : list Z) (curUTCTime i cur curStart : Z) : Z * Z :=
  match times with
  | [] => (cur, curStart)
  | t :: times =>
    if ((curStart <? t) && (t <=? curUTCTime)) || ((t <? curStart) && (curUTCTime <? curStart))
    then select_current times curUTCTime (i + 1) i t
    else select_current times curUTCTime (i + 1) cur curStart
  end.
(** The start time of the key after the current one. *)
Fixpoint next_start (times : list Z) (curStart next : Z) : Z :=
  match times with
  | [] => next
  | t :: times => next_start times curStart (if (curStart <? t) && (t <? next) then t else next)
  end.

Definition recall_last_used : M Store unit := fun s =>
  if LastUsedEpochKeyId s =? kNone then
    match RetrieveLastUsedEpochKeyId (platform s) with
    | Ok k => (Ok tt, set_LastUsed k s)
    | _ => (Ok tt, set_LastUsed kNone s)
    end
  else (Ok tt, s).

Definition current_time : M Store Z := fun s =>
  match GetCurrentUTCTime (platform s) with
  | Ok t => (Ok t, s)
  | Err WEAVE_ERROR_UNSUPPORTED_CLOCK | Err WEAVE_ERROR_TIME_NOT_SYNCED_YET => (Ok 0, s)
  | Err e => (Err e, s)
  | Undefined => (Undefined, s)
  | Diverges => (Diverges, s)
  end.

Definition update_epoch (curUTCTime : Z) : M Store unit :=
  let* ids := enumerate kType_AppEpochKey WEAVE_CONFIG_MAX_APPLICATION_EPOCH_KEYS in
  do* verify (0 <? Z.of_nat (length ids)) WEAVE_ERROR_KEY_NOT_FOUND in
  let* times := start_times ids in
  let '(cur, curStart) := select_current (tl times) curUTCTime 1 0 (arr times 0) in
  do* modify (fun s => set_NextStart (next_start times curStart (NextEpochKeyStartTime s)) s) in
  do* modify (set_LastUsed (arr ids cur)) in
  fun s => let '(r, p) := StoreLastUsedEpochKeyId (LastUsedEpochKeyId s) (platform s) in (r, mkKeyStore (LastUsedEpochKeyId s) (NextEpochKeyStartTime s) p).

Definition GetCurrentAppKeyId (keyId : Z) : M Store Z :=
  if negb (UsesCurrentEpochKey keyId) then ret keyId
  else
    do* recall_last_used in
    let* curUTCTime := current_time in
    let* stale := gets (fun s => (LastUsedEpochKeyId s =? kNone) || (NextEpochKeyStartTime s <? curUTCTime)) in
    do* (if stale : bool then update_epoch curUTCTime else ret tt) in
    gets (fun s => UpdateEpochKeyId keyId (LastUsedEpochKeyId s)).

(** HKDFSHA1::DeriveKey, with an object of its own. *)
Definition derive (salt km1 km2 info : list Z) (bufSize keyLen : Z) : M Store (list Z) := fun s =>
  (fst (DeriveKey salt km1 km2 info bufSize keyLen (mkHKDF (replicate kHashLength 0) HMAC_new)), s).

Definition key_bytes (k : WeaveGroupKey) : list Z := take (Z.to_nat (gk_KeyLen k)) (gk_Key k).

Definition DeriveFabricOrClientRootKey (rootKeyId : Z) : M Store WeaveGroupKey :=
  let rootKeyDiversifier := if rootKeyId =? kFabricRootKey then kWeaveAppFabricRootKeyDiversifier else kWeaveAppClientRootKeyDiversifier in
  let* fabricSecret := of_platform (RetrieveGroupKey kFabricSecret) in
  do* verify (gk_KeyLen fabricSecret =? kWeaveFabricSecretSize) WEAVE_ERROR_INVALID_ARGUMENT in
  let* key := derive [] (key_bytes fabricSecret) [] rootKeyDiversifier MaxKeySize kWeaveAppRootKeySize in
  ret (mkGroupKey rootKeyId kWeaveAppRootKeySize key 0).

(** GetGroupKey and DeriveIntermediateKey call each other; [fuel] bounds the calls of
    GetGroupKey. *)
Definition DeriveIntermediateKey (GetGroupKey : Z -> M Store WeaveGroupKey) (keyId : Z) : M Store WeaveGroupKey :=
  let* rootKey := GetGroupKey (GetRootKeyId keyId) in
  let* epochKey := of_platform (RetrieveGroupKey (GetEpochKeyId keyId)) in
  do* verify (gk_KeyLen epochKey =? kWeaveAppEpochKeySize) WEAVE_ERROR_INVALID_ARGUMENT in
  let* key := derive [] (key_bytes rootKey) (key_bytes epochKey) kWeaveAppIntermediateKeyDiversifier MaxKeySize kWeaveAppIntermediateKeySize in
  ret (mkGroupKey keyId kWeaveAppIntermediateKeySize key 0).

Fixpoint GetGroupKey (fuel : nat) (keyId : Z) : M Store WeaveGroupKey :=
  match fuel with
  | O => fun s => (Diverges, s)
  | S fuel =>
    let* keyId := GetCurrentAppKeyId keyId in
    let ty := GetType keyId in
    let rootKeyId := GetRootKeyId keyId in
    let* groupKey :=
      (if (ty =? kType_AppRootKey) && ((rootKeyId =? kFabricRootKey) || (rootKeyId =? kClientRootKey)) then DeriveFabricOrClientRootKey rootKeyId
       else if (ty =? kType_AppRootKey) || (ty =? kType_General) || (ty =? kType_AppEpochKey) || (ty =? kType_AppGroupMasterKey)
       then of_platform (RetrieveGroupKey keyId)
       else if ty =? kType_AppIntermediateKey then DeriveIntermediateKey (GetGroupKey fuel) keyId
       else fail WEAVE_ERROR_INVALID_KEY_ID) in
    let expectedKeyLen := if keyId =? kFabricSecret then kWeaveFabricSecretSize else kWeaveAppGroupKeySize in
    do* verify ((gk_KeyLen groupKey =? expectedKeyLen) && (gk_KeyId groupKey =? keyId)) WEAVE_ERROR_INVALID_ARGUMENT in
    ret groupKey
  end.

(** The application key, the key id it stands for and the group's global id. *)
Definition KeyStore_DeriveApplicationKey (keyId : Z) (keySalt keyDiversifier : list Z) (keyBufSize keyLen : Z) : M Store (list Z * Z * Z) :=
  do* verify (IsAppGroupKey keyId) WEAVE_ERROR_INVALID_ARGUMENT in
  let* keyId := GetCurrentAppKeyId keyId in
  let localKeyId := GetRootKeyId keyId in
  let localKeyId := if IsAppRotatingKey keyId then MakeAppIntermediateKeyId localKeyId (GetEpochKeyId keyId) false else localKeyId in
  let* intermediateKey := GetGroupKey 2 localKeyId in
  let* groupMasterKey := of_platform (RetrieveGroupKey (GetAppGroupMasterKeyId keyId)) in
  do* verify (gk_KeyLen groupMasterKey =? kWeaveAppGroupMasterKeySize) WEAVE_ERROR_INVALID_ARGUMENT in
  let* appKey := derive keySalt (key_bytes intermediateKey) (key_bytes groupMasterKey) keyDiversifier keyBufSize keyLen in
  ret (appKey, keyId, gk_Value groupMasterKey).

#[export] Instance AppKeys_GroupKeyStore : GroupKeyStore Store := {
  DeriveApplicationKey keyId salt diversifier bufSize keyLen s := KeyStore_DeriveApplicationKey keyId salt diversifier bufSize keyLen s }.
End Store.

(** ** The current epoch key *)

(** Of the epoch keys [keys] (id and start time) the current one at [now]: the last to
    have started, or the first to start if none has. *)
Definition current_at (now : Z) (keys : list (Z * Z)) (id : Z) : Prop :=
  exists start, In (id, start) keys /\
    ((start <= now /\ forall id' s', In (id', s') keys -> s' <= now -> s' <= start) \/
     (now < start /\ forall id' s', In (id', s') keys -> start <= s')).

Lemma select_current_spec times now : forall i cur curStart cur' s', select_current times now i cur curStart = (cur', s') ->
  ((cur', s') = (cur, curStart) \/ exists k, (k < length times)%nat /\ cur' = i + Z.of_nat k /\ nth k times 0 = s') /\
  ((s' <= now /\ forall x, x = curStart \/ In x times -> x <= now -> x <= s') \/ (now < s' /\ forall x, x = curStart \/ In x times -> s' <= x)).
Proof.
  induction times as [|t times IH]; intros i cur curStart cur' s' E; cbn [select_current] in E.
  - injection E as <- <-. split; [by left|]. destruct (Z.le_gt_cases curStart now); [left|right]; (split; [done|]); intros x [->|[]]; lia.
  - destruct (((curStart <? t) && (t <=? now)) || ((t <? curStart) && (now <? curStart))) eqn:Et; apply IH in E as [Hpos Hs]; split.
    + right. destruct Hpos as [[= -> ->]|(k & Hk & -> & Hn)]; [exists 0%nat|exists (S k)]; cbn; repeat split; try done; lia.
    + apply orb_true_iff in Et. destruct Hs as [[H1 H2]|[H1 H2]]; [left|right]; (split; [done|]).
      * intros x [->|[->|Hx]] Hxn; [|by apply H2; [left|]|by apply H2; [right|]].
        destruct Et as [Et|Et]; bool_prop; [|lia]. assert (t <= s') by (apply H2; [by left|lia]). lia.
      * intros x [->|[->|Hx]]; [|by apply H2; left|by apply H2; right]. pose proof (H2 t ltac:(by left)). destruct Et as [Et|Et]; bool_prop; lia.
    + destruct Hpos as [?|(k & Hk & -> & Hn)]; [by left|right]. exists (S k). cbn. repeat split; try done; lia.
    + apply orb_false_iff in Et as [Et1 Et2]. apply andb_false_iff in Et1, Et2. destruct Hs as [[H1 H2]|[H1 H2]]; [left|right]; (split; [done|]).
      * intros x [->|[->|Hx]] Hxn; [by apply H2; [left|]| |by apply H2; [right|]].
        destruct (Z.le_gt_cases curStart now); [assert (curStart <= s') by (apply H2; [by left|done])|]; destruct Et1, Et2; bool_prop; try lia.
      * intros x [->|[->|Hx]]; [by apply H2; left| |by apply H2; right]. pose proof (H2 curStart ltac:(by left)). destruct Et1, Et2; bool_prop; lia.
Qed.

Lemma next_start_spec times curStart : forall next, next_start times curStart next <= next /\
  forall x, In x times -> curStart < x -> next_start times curStart next <= x.
Proof.
  induction times as [|t times IH]; intros next; cbn [next_start]; [split; [lia|done]|].
  destruct (IH (if (curStart <? t) && (t <? next) then t else next)) as [H1 H2].
  destruct ((curStart <? t) && (t <? next)) eqn:E; bool_prop; (split; [lia|]); intros x [->|Hx] Hc; try by apply H2.
  - lia.
  - apply andb_false_iff in E. destruct E; bool_prop; lia.
Qed.

Section Epochs.
Context {P : Type} `{PlatformKeyStore P} {SHA1 : HashAlgo}.
Context (keys : list (Z * Z)).

(** The platform has the epoch keys [keys]; storing the last used key id works. *)
Record epoch_store (p : P) : Prop := {
  es_enumerate : EnumerateGroupKeys kType_AppEpochKey WEAVE_CONFIG_MAX_APPLICATION_EPOCH_KEYS p = Ok (map fst keys);
  es_count : 0 < Z.of_nat (length keys) <= WEAVE_CONFIG_MAX_APPLICATION_EPOCH_KEYS;
  es_retrieve : Forall (fun k => exists key, RetrieveGroupKey (fst k) p = Ok key /\ gk_Value key = snd k) keys;
  es_ids : Forall (fun k => fst k <> kNone) keys }.
Definition forgets (p : P) : Prop := forall k, RetrieveLastUsedEpochKeyId p = Ok k -> k = kNone.
Context (stores : forall k p, epoch_store p -> exists p', StoreLastUsedEpochKeyId k p = (Ok tt, p') /\ epoch_store p').

Lemma start_times_ok (s : GroupKeyStoreBase P) ks : Forall (fun k => exists key, RetrieveGroupKey (fst k) (platform s) = Ok key /\ gk_Value key = snd k) ks ->
  start_times (map fst ks) s = (Ok (map snd ks), s).
Proof.
  induction ks as [|k ks IH]; intros HF; [done|]. apply list.Forall_cons_1 in HF as [(key & E & Ek) HF]. cbn [map start_times].
  rewrite (bind_ok _ _ _ key s) by (unfold of_platform; by rewrite E). rewrite (bind_ok _ _ _ _ _ (IH HF)). by rewrite Ek.
Qed.

(** The selection among the keys. *)
Lemma update_epoch_ok s now : epoch_store (platform s) ->
  exists id start s', update_epoch now s = (Ok tt, s') /\ epoch_store (platform s') /\ LastUsedEpochKeyId s' = id /\ In (id, start) keys /\
    ((start <= now /\ forall id' x, In (id', x) keys -> x <= now -> x <= start) \/ (now < start /\ forall id' x, In (id', x) keys -> start <= x)) /\
    (forall id' x, In (id', x) keys -> start < x -> NextEpochKeyStartTime s' <= x).
Proof.
  intros HE. pose proof HE as [E1 E2 E3 E4]. unfold update_epoch, enumerate.
  rewrite (bind_ok _ _ s (map fst keys) s).
  2:{ rewrite (bind_ok _ _ s (map fst keys) s) by (unfold of_platform; by rewrite E1). rewrite length_map. by rewrite (proj2 (Z.leb_le _ _)) by lia. }
  rewrite length_map, (proj2 (Z.ltb_lt _ _)) by lia. unfold verify. rewrite bind_ret, (bind_ok _ _ _ _ _ (start_times_ok s keys E3)).
  destruct keys as [|[id0 t0] ks] eqn:Eks; [cbn in E2; lia|]. cbn [map tl fst snd]. change (arr (t0 :: map snd ks) 0) with t0.
  destruct (select_current (map snd ks) now 1 0 t0) as [cur curStart] eqn:Es. apply select_current_spec in Es as [Hpos Hs].
  assert (In (arr (id0 :: map fst ks) cur, curStart) ((id0, t0) :: ks)) as Hin.
  { destruct Hpos as [[= -> ->]|(k & Hk & -> & Hn)]; [by left|]. right. rewrite length_map in Hk. unfold arr. replace (Z.to_nat (1 + Z.of_nat k)) with (S k) by lia. cbn [nth].
    pose proof (map_nth fst ks (0, 0) k) as E5. pose proof (map_nth snd ks (0, 0) k) as E6. cbn [fst snd] in E5, E6.
    rewrite <- Hn, E5, E6, <- surjective_pairing. by apply nth_In. }
  assert (forall id' x, In (id', x) ((id0, t0) :: ks) -> x = t0 \/ In x (map snd ks)) as Hval.
  { intros id' x [[= <- <-]|Hx]; [by left|right]. by apply (in_map snd) in Hx. }
  unfold modify. erewrite bind_ok by reflexivity. erewrite bind_ok by reflexivity. cbn [set_LastUsed set_NextStart LastUsedEpochKeyId NextEpochKeyStartTime platform].
  destruct (stores (arr (id0 :: map fst ks) cur) (platform s) HE) as (p' & Ep & HE'). rewrite Ep.
  eexists _, curStart, _. split; [reflexivity|]. split; [done|]. split; [done|]. split; [exact Hin|]. cbn [NextEpochKeyStartTime].
  destruct (next_start_spec (t0 :: map snd ks) curStart (NextEpochKeyStartTime s)) as [_ Hnx]. split.
  - destruct Hs as [[H1 H2]|[H1 H2]]; [left|right]; (split; [done|]); intros id' x Hx; apply H2; by apply (Hval id').
  - intros id' x Hx Hlt. apply Hnx; [|done]. destruct (Hval _ _ Hx) as [->|Hx']; [by left|by right].
Qed.

(** The selections a device can make: after a change of the epoch keys, with nothing
    stored, calls of GetCurrentAppKeyId in any order while time does not go back ([t] is
    the last time seen) and the platform changes between them otherwise. *)
Inductive epoch_reach : Z -> GroupKeyStoreBase P -> Prop :=
  | ER_change t s : 0 <= t -> epoch_store (platform s) -> forgets (platform s) -> epoch_reach t (OnEpochKeysChange s)
  | ER_call t s keyId r s' : epoch_reach t s -> (forall now, GetCurrentUTCTime (platform s) = Ok now -> t <= now) ->
      GetCurrentAppKeyId keyId s = (r, s') -> epoch_reach (match GetCurrentUTCTime (platform s) with Ok now => now | _ => t end) s'
  | ER_platform t s p : epoch_reach t s -> epoch_store p -> (LastUsedEpochKeyId s = kNone -> forgets p) ->
      epoch_reach t (mkKeyStore (LastUsedEpochKeyId s) (NextEpochKeyStartTime s) p).

(** Either nothing is selected, or the selected key was current at some time and no key
    starts between it and NextEpochKeyStartTime. *)
Definition epoch_inv (t : Z) (s : GroupKeyStoreBase P) : Prop :=
  0 <= t /\ epoch_store (platform s) /\
  ((LastUsedEpochKeyId s = kNone /\ forgets (platform s)) \/
   exists start t0, t0 <= t /\ In (LastUsedEpochKeyId s, start) keys /\ LastUsedEpochKeyId s <> kNone /\
     ((start <= t0 /\ forall id' x, In (id', x) keys -> x <= t0 -> x <= start) \/ (t0 < start /\ forall id' x, In (id', x) keys -> start <= x)) /\
     (forall id' x, In (id', x) keys -> start < x -> NextEpochKeyStartTime s <= x)).

Lemma recall_ok t s : epoch_inv t s -> recall_last_used s = (Ok tt, s).
Proof.
  intros (_ & _ & HI). unfold recall_last_used. destruct (Z.eqb_spec (LastUsedEpochKeyId s) kNone) as [E|]; [|done].
  destruct HI as [[_ HF]|(start & t0 & _ & _ & Hne & _)]; [|done]. destruct s as [l n p]. cbn [LastUsedEpochKeyId platform] in *. subst l.
  destruct (RetrieveLastUsedEpochKeyId p) as [k|e| |] eqn:ER; try done. by rewrite (HF k ER).
Qed.

Lemma call_ok t s keyId now : epoch_inv t s -> UsesCurrentEpochKey keyId = true -> current_time s = (Ok now, s) -> t <= now \/ now = 0 ->
  exists id s', GetCurrentAppKeyId keyId s = (Ok (UpdateEpochKeyId keyId id), s') /\ epoch_inv (Z.max t now) s' /\
    (t <= now -> current_at now keys id \/ (exists id', In (id', now) keys) /\ current_at (now - 1) keys id).
Proof.
  intros HI Hk Hc Ht. pose proof HI as (H0 & HE & HD). unfold GetCurrentAppKeyId. rewrite Hk. cbn [negb].
  rewrite (bind_ok _ _ _ _ _ (recall_ok t s HI)), (bind_ok _ _ _ _ _ Hc). unfold gets. erewrite bind_ok by reflexivity.
  destruct ((LastUsedEpochKeyId s =? kNone) || (NextEpochKeyStartTime s <? now)) eqn:Es.
  - destruct (update_epoch_ok s now HE) as (id & start & s' & E & HE' & Hid & Hin & Hcur & Hlater). rewrite (bind_ok _ _ _ _ _ E). exists id, s'. rewrite Hid.
    split; [done|]. split.
    + split; [lia|]. split; [done|]. right. exists start, now. rewrite Hid. do 2 (split; [lia || done|]). split; [|by split].
      pose proof (es_ids _ HE) as HF. rewrite List.Forall_forall in HF. apply (HF _ Hin).
    + intros _. left. by exists start.
  - bool_prop. rewrite (bind_ret tt). destruct HD as [[HN _]|(start & t0 & Ht0 & Hin & Hne & Hcur & Hlater)]; [by rewrite HN in *|].
    exists (LastUsedEpochKeyId s), s. split; [done|]. split; [split; [lia|]; split; [done|]; right; exists start, t0; repeat (split; [lia || done|]); done|].
    intros Hle. assert (forall id' x, In (id', x) keys -> x <= now - 1 -> x <= start) as Hbefore.
    { intros id' x Hx Hx1. destruct (Z.le_gt_cases x start) as [|Hgt]; [done|]. pose proof (Hlater id' x Hx ltac:(lia)). lia. }
    destruct (existsb (fun k => snd k =? now) keys) eqn:Ex.
    + destruct (Z.le_gt_cases now start) as [Hsn|Hsn].
      * left. exists start. split; [done|]. destruct (Z.le_gt_cases start now); [left|right]; (split; [lia|]); intros id' x Hx.
        -- intros Hxn. destruct (Z.eq_dec x now); [lia|]. pose proof (Hbefore id' x Hx ltac:(lia)). lia.
        -- destruct Hcur as [[Hc1 _]|[_ Hc2]]; [lia|by apply (Hc2 id')].
      * right. split; [|exists start; split; [done|left; split; [lia|done]]].
        apply existsb_exists in Ex as ([id' x] & Hx & Ex). bool_prop. cbn in Ex. subst x. by exists id'.
    + left. assert (forall id' x, In (id', x) keys -> x <> now) as Hno.
      { intros id' x Hx ->. assert (existsb (fun k => snd k =? now) keys = true); [|congruence]. apply existsb_exists. exists (id', now). split; [done|apply Z.eqb_refl]. }
      exists start. split; [done|]. destruct (Z.le_gt_cases start now); [left|right]; (split; [done|]); intros id' x Hx.
      * intros Hxn. apply (Hbefore id' x Hx). pose proof (Hno _ _ Hx). lia.
      * destruct Hcur as [[Hc1 _]|[_ Hc2]]; [lia|by apply (Hc2 id')].
Qed.

Lemma current_time_cases s : (exists now, GetCurrentUTCTime (platform s) = Ok now /\ current_time s = (Ok now, s)) \/
  ((forall now, GetCurrentUTCTime (platform s) <> Ok now) /\ (current_time s = (Ok 0, s) \/ forall now, fst (current_time s) <> Ok now /\ snd (current_time s) = s)).
Proof.
  unfold current_time. destruct (GetCurrentUTCTime (platform s)) as [now|e| |]; [left; by exists now|right..]; (split; [done|]); [|by right..].
  destruct e; try (by right); by left.
Qed.

Lemma reach_inv t s : epoch_reach t s -> epoch_inv t s.
Proof.
  induction 1 as [t s H0 HE HF|t s keyId r s' _ IH Ht Ec|t s p _ (H0 & _ & IH) HE HF].
  - split; [done|]. split; [done|]. by left.
  - unfold GetCurrentAppKeyId in Ec. destruct (UsesCurrentEpochKey keyId) eqn:Ek.
    2:{ injection Ec as <- <-. destruct IH as (H0 & HE & IH). destruct (GetCurrentUTCTime (platform s)) as [now| | |] eqn:EC; [|by split..].
        pose proof (Ht now eq_refl). split; [lia|]. split; [done|]. destruct IH as [?|(start & t0 & Ht0 & IH)]; [by left|right]. exists start, t0. split; [lia|done]. }
    destruct (current_time_cases s) as [(now & Hc & Et)|[Hc [Et|Et]]].
    + destruct (call_ok t s keyId now IH Ek Et ltac:(left; by apply Ht)) as (id & s2 & E & HI & _). unfold GetCurrentAppKeyId in E. rewrite Ek in E.
      rewrite E in Ec. injection Ec as <- <-. rewrite Hc. rewrite Z.max_r in HI by (by apply Ht). done.
    + destruct (call_ok t s keyId 0 IH Ek Et ltac:(by right)) as (id & s2 & E & HI & _). unfold GetCurrentAppKeyId in E. rewrite Ek in E.
      rewrite E in Ec. injection Ec as <- <-. rewrite Z.max_l in HI by (by destruct IH). destruct (GetCurrentUTCTime (platform s)); try done. by destruct (Hc a).
    + cbn [negb] in Ec. rewrite (bind_ok _ _ _ _ _ (recall_ok t s IH)) in Ec. assert (s' = s) as ->.
      { unfold bind in Ec. destruct (current_time s) as [[now|e| |] s2] eqn:E2; [by destruct (Et now) as [[] _]|..]; destruct (Et 0) as [_ E3]; cbn in E3; congruence. }
      destruct (GetCurrentUTCTime (platform s)); try done. by destruct (Hc a).
  - split; [done|]. split; [done|]. destruct IH as [[HN HF2]|IH]; [left; split; [done|by apply HF]|by right].
Qed.
End Epochs.

(** ** Derivation *)

(** The ids of the root and the intermediate key that a key id refers to. *)
Definition check_ids (k : Z) : bool :=
  let r := GetRootKeyId k in
  let i := MakeAppIntermediateKeyId r (GetEpochKeyId k) false in
  (GetType r =? kType_AppRootKey) && negb (UsesCurrentEpochKey r) && (GetRootKeyId r =? r) && negb (r =? kFabricSecret) &&
  (GetType i =? kType_AppIntermediateKey) && negb (UsesCurrentEpochKey i) && (GetRootKeyId i =? r) && (GetEpochKeyId i =? GetEpochKeyId k) && negb (i =? kFabricSecret).

Lemma check_ids_all : all_upto 4096 check_ids = true.
Proof. vm_compute. reflexivity. Qed.

Lemma key_number_bits k m : Z.land 4095 m = m -> Z.land (k mod 4096) m = Z.land k m.
Proof. intros <-. change 4096 with (2 ^ 12). rewrite <- Z.land_ones by lia. by rewrite <- Z.land_assoc, (Z.land_assoc (Z.ones 12)). Qed.

Lemma ids_of k : check_ids k = true.
Proof.
  rewrite <- (all_upto_spec _ _ check_ids_all (k mod 4096)) by (apply Z.mod_pos_bound; lia).
  unfold check_ids, GetRootKeyId, GetEpochKeyId. by rewrite !key_number_bits.
Qed.

Section Derivation.
Context {P : Type} `{PlatformKeyStore P} {SHA1 : HashAlgo} {L : HashLaws SHA1}.

Definition hkdf (salt km info : list Z) (len : Z) : list Z := hkdf_expand (hmac salt km) info (Z.to_nat len).

Definition key32 (p : P) (id : Z) : option WeaveGroupKey :=
  match RetrieveGroupKey id p with Ok k => if gk_KeyLen k =? kWeaveAppGroupKeySize then Some k else None | _ => None end.

(** The key a root key id stands for: derived from the fabric secret, or stored. *)
Definition root_key (p : P) (rootId : Z) : option (list Z) :=
  if (rootId =? kFabricRootKey) || (rootId =? kClientRootKey) then
    match RetrieveGroupKey kFabricSecret p with
    | Ok fs =>
      if gk_KeyLen fs =? kWeaveFabricSecretSize
      then Some (hkdf [] (key_bytes fs) (if rootId =? kFabricRootKey then kWeaveAppFabricRootKeyDiversifier else kWeaveAppClientRootKeyDiversifier) kWeaveAppRootKeySize)
      else None
    | _ => None
    end
  else match key32 p rootId with Some k => if gk_KeyId k =? rootId then Some (key_bytes k) else None | None => None end.

(** The key material of an application key: the root key, or the intermediate key
    derived from it and the epoch key. *)
Definition base_key (p : P) (keyId : Z) : option (list Z) :=
  match root_key p (GetRootKeyId keyId) with
  | Some root =>
    if IsAppRotatingKey keyId then
      match key32 p (GetEpochKeyId keyId) with
      | Some epoch => Some (hkdf [] (root ++ key_bytes epoch) kWeaveAppIntermediateKeyDiversifier kWeaveAppIntermediateKeySize)
      | None => None
      end
    else Some root
  | None => None
  end.

Definition app_key (p : P) (keyId : Z) (salt diversifier : list Z) (keyLen : Z) : option (list Z * Z * Z) :=
  match base_key p keyId, key32 p (GetAppGroupMasterKeyId keyId) with
  | Some base, Some master => Some (hkdf salt (base ++ key_bytes master) diversifier keyLen, keyId, gk_Value master)
  | _, _ => None
  end.

Lemma derive_ok salt km1 km2 info bufSize keyLen (s : GroupKeyStoreBase P) : 1 <= keyLen <= bufSize -> keyLen <= 255 ->
  derive salt km1 km2 info bufSize keyLen s = (Ok (hkdf salt (km1 ++ km2) info keyLen), s).
Proof.
  intros H1 H2. pose proof hash_lengths. unfold derive. rewrite DeriveKey_spec by lia. rewrite (proj2 (Z.ltb_ge bufSize keyLen)) by lia.
  rewrite (proj2 (Z.ltb_ge keyLen 1)) by lia. rewrite (proj2 (Z.ltb_ge _ keyLen)) by lia. done.
Qed.

Lemma hkdf_length salt km info keyLen : 0 <= keyLen <= 255 -> length (hkdf salt km info keyLen) = Z.to_nat keyLen.
Proof.
  intros Hk. pose proof hash_lengths. unfold hkdf, hkdf_expand. rewrite length_take, hkdf_blocks_length. lia.
Qed.

Lemma key_bytes_derived id key v : length key = 32%nat -> key_bytes (mkGroupKey id 32 key v) = key.
Proof. intros Hl. unfold key_bytes. cbn [gk_KeyLen gk_Key]. apply take_ge. lia. Qed.

(** What an operation is to compute: [Some] value, or [None] for an error. *)
Definition computes {A B} (f : M (GroupKeyStoreBase P) A) (s : GroupKeyStoreBase P) (g : A -> B) (spec : option B) : Prop :=
  snd (f s) = s /\ match spec with Some b => exists a, fst (f s) = Ok a /\ g a = b | None => forall a, fst (f s) <> Ok a end.

Lemma retrieve_computes id s : computes (of_platform (RetrieveGroupKey id)) s (fun k => k) (match RetrieveGroupKey id (platform s) with Ok k => Some k | _ => None end).
Proof. unfold computes, of_platform. cbn. destruct (RetrieveGroupKey id (platform s)); split; try done. by eexists. Qed.

Lemma computes_bind {A B C D} (f : M (GroupKeyStoreBase P) A) (k : A -> M (GroupKeyStoreBase P) C) s (g : A -> B) (g2 : C -> D) spec spec2 :
  computes f s g spec -> (forall a b, spec = Some b -> g a = b -> computes (k a) s g2 (spec2 b)) ->
  computes (bind f k) s g2 (match spec with Some b => spec2 b | None => None end).
Proof.
  unfold computes, bind. destruct (f s) as [r s1]. cbn [fst snd]. intros [-> Hf] Hk. destruct spec as [b|].
  - destruct Hf as (a & -> & Ha). by apply (Hk a b).
  - destruct r as [a|e| |]; try done. by destruct (Hf a).
Qed.

Lemma computes_verify {A B} (c : bool) e (f : M (GroupKeyStoreBase P) A) s (g : A -> B) spec :
  (c = true -> computes f s g spec) -> computes (do* verify c e in f) s g (if c then spec else None).
Proof. intros Hf. destruct c; [by apply Hf|]. by split. Qed.

Lemma computes_ret {A B} (a : A) s (g : A -> B) : computes (ret a) s g (Some (g a)).
Proof. split; [done|]. by exists a. Qed.

Lemma computes_current keyId s : UsesCurrentEpochKey keyId = false -> GetCurrentAppKeyId keyId s = (Ok keyId, s).
Proof. intros Hk. unfold GetCurrentAppKeyId. by rewrite Hk. Qed.

Lemma computes_step {A B C} (m : M (GroupKeyStoreBase P) A) (k : A -> M (GroupKeyStoreBase P) C) s a (g : C -> B) spec :
  m s = (Ok a, s) -> computes (k a) s g spec -> computes (bind m k) s g spec.
Proof. intros Hm. unfold computes. by rewrite (bind_ok _ _ _ _ _ Hm). Qed.

Lemma computes_key {B} (f : M (GroupKeyStoreBase P) B) s (spec spec' : option B) : computes f s (fun k => k) spec -> spec = spec' -> computes f s (fun k => k) spec'.
Proof. by intros Hf <-. Qed.

(** The check at the end of GetGroupKey. *)
Lemma computes_group_key (f : M (GroupKeyStoreBase P) WeaveGroupKey) s keyId spec : keyId <> kFabricSecret -> computes f s (fun k => k) spec ->
  computes (let* groupKey := f in
            do* verify ((gk_KeyLen groupKey =? (if keyId =? kFabricSecret then kWeaveFabricSecretSize else kWeaveAppGroupKeySize)) && (gk_KeyId groupKey =? keyId)) WEAVE_ERROR_INVALID_ARGUMENT in
            ret groupKey) s key_bytes
    (match spec with Some k => if (gk_KeyLen k =? kWeaveAppGroupKeySize) && (gk_KeyId k =? keyId) then Some (key_bytes k) else None | None => None end).
Proof.
  intros Hne Hf. rewrite (proj2 (Z.eqb_neq keyId kFabricSecret) Hne). apply (computes_bind _ _ _ _ _ _ (fun k => if (gk_KeyLen k =? kWeaveAppGroupKeySize) && (gk_KeyId k =? keyId) then Some (key_bytes k) else None) Hf).
  intros a b _ ->. apply computes_verify. intros _. apply computes_ret.
Qed.

Lemma root_computes fuel k s : computes (GetGroupKey (S fuel) (GetRootKeyId k)) s key_bytes (root_key (platform s) (GetRootKeyId k)).
Proof.
  pose proof (ids_of k) as HI. unfold check_ids in HI. bool_prop. set (r := GetRootKeyId k) in *. cbn [GetGroupKey].
  apply (computes_step _ _ _ r); [by apply computes_current|]. cbv zeta.
  match goal with E1 : GetType r = _, E2 : GetRootKeyId r = r |- _ => rewrite E1, E2, Z.eqb_refl end. cbn [andb orb].
  unfold root_key. destruct ((r =? kFabricRootKey) || (r =? kClientRootKey)).
  - set (div := if r =? kFabricRootKey then kWeaveAppFabricRootKeyDiversifier else kWeaveAppClientRootKeyDiversifier).
    eassert (computes (DeriveFabricOrClientRootKey r) s (fun k => k) _) as HD.
    { apply (computes_bind _ _ _ _ _ _ (fun fs => if gk_KeyLen fs =? kWeaveFabricSecretSize then Some (mkGroupKey r kWeaveAppRootKeySize (hkdf [] (key_bytes fs ++ []) div kWeaveAppRootKeySize) 0) else None) (retrieve_computes _ s)).
      intros a b _ ->. apply computes_verify. intros _. eapply computes_step; [by apply derive_ok|]. exact (computes_ret _ s (fun k => k)). }
    apply (computes_group_key _ s r _) in HD; [|done]. destruct (RetrieveGroupKey kFabricSecret (platform s)) as [fs|e| |]; try exact HD.
    destruct (gk_KeyLen fs =? kWeaveFabricSecretSize); [|exact HD]. cbn [gk_KeyLen gk_KeyId] in HD. rewrite !Z.eqb_refl in HD. cbn [andb] in HD.
    rewrite app_nil_r, key_bytes_derived in HD by (by rewrite hkdf_length). exact HD.
  - pose proof (computes_group_key _ s r _ ltac:(done) (retrieve_computes r s)) as HD. unfold key32.
    destruct (RetrieveGroupKey r (platform s)) as [key|e| |]; try exact HD. destruct (gk_KeyLen key =? kWeaveAppGroupKeySize); exact HD.
Qed.

Lemma base_computes keyId s : computes
  (GetGroupKey 2 (if IsAppRotatingKey keyId then MakeAppIntermediateKeyId (GetRootKeyId keyId) (GetEpochKeyId keyId) false else GetRootKeyId keyId))
  s key_bytes (base_key (platform s) keyId).
Proof.
  unfold base_key. destruct (IsAppRotatingKey keyId).
  2:{ pose proof (root_computes 1 keyId s) as HR. by destruct (root_key (platform s) (GetRootKeyId keyId)). }
  pose proof (ids_of keyId) as HI. unfold check_ids in HI. bool_prop. set (r := GetRootKeyId keyId) in *. set (i := MakeAppIntermediateKeyId r (GetEpochKeyId keyId) false) in *.
  cbn [GetGroupKey]. apply (computes_step _ _ _ i); [by apply computes_current|]. cbv zeta. change (GetGroupKey 1) with (@GetGroupKey P _ SHA1 1).
  match goal with E1 : GetType i = _, E2 : GetRootKeyId i = r |- _ => rewrite E1, E2 end.
  change (kType_AppIntermediateKey =? kType_AppRootKey) with false. change (kType_AppIntermediateKey =? kType_General) with false.
  change (kType_AppIntermediateKey =? kType_AppEpochKey) with false. change (kType_AppIntermediateKey =? kType_AppGroupMasterKey) with false. rewrite Z.eqb_refl. cbn [andb orb].
  assert (computes (DeriveIntermediateKey (GetGroupKey 1) i) s (fun k => k)
    (match root_key (platform s) r with
     | Some root => match key32 (platform s) (GetEpochKeyId keyId) with
                    | Some epoch => Some (mkGroupKey i 32 (hkdf [] (root ++ key_bytes epoch) kWeaveAppIntermediateKeyDiversifier kWeaveAppIntermediateKeySize) 0)
                    | None => None end
     | None => None end)) as HD.
  { unfold DeriveIntermediateKey. match goal with E1 : GetRootKeyId i = r, E2 : GetEpochKeyId i = _ |- _ => rewrite E1, E2 end.
    apply (computes_bind _ _ _ _ _ _ _ (root_computes 0 keyId s)). intros a root _ Ha.
    eapply computes_key; [apply (computes_bind _ _ _ _ _ _ (fun epoch => if gk_KeyLen epoch =? kWeaveAppEpochKeySize then Some (mkGroupKey i 32 (hkdf [] (root ++ key_bytes epoch) kWeaveAppIntermediateKeyDiversifier kWeaveAppIntermediateKeySize) 0) else None) (retrieve_computes _ s))|].
    - intros epoch epoch' _ ->. apply computes_verify. intros _. rewrite Ha. eapply computes_step; [by apply derive_ok|]. exact (computes_ret _ s (fun k => k)).
    - unfold key32. destruct (RetrieveGroupKey (GetEpochKeyId keyId) (platform s)) as [key|e| |]; try done. by destruct (gk_KeyLen key =? _). }
  apply (computes_group_key _ s i _) in HD; [|done]. destruct (root_key (platform s) r) as [root|]; [|exact HD].
  destruct (key32 (platform s) (GetEpochKeyId keyId)) as [epoch|]; [|exact HD]. cbn [gk_KeyLen gk_KeyId] in HD. rewrite !Z.eqb_refl in HD. cbn [andb] in HD.
  rewrite key_bytes_derived in HD by (by rewrite hkdf_length). exact HD.
Qed.

(** The derivation once the current key id is known. *)
Lemma DeriveApplicationKey_computes keyId keyId' salt diversifier bufSize keyLen s s' : IsAppGroupKey keyId = true ->
  GetCurrentAppKeyId keyId s = (Ok keyId', s') -> 1 <= keyLen <= bufSize -> keyLen <= 255 ->
  match app_key (platform s') keyId' salt diversifier keyLen with
  | Some x => KeyStore_DeriveApplicationKey keyId salt diversifier bufSize keyLen s = (Ok x, s')
  | None => forall x, fst (KeyStore_DeriveApplicationKey keyId salt diversifier bufSize keyLen s) <> Ok x
  end.
Proof.
  intros Hg Hc Hl Hl2. unfold KeyStore_DeriveApplicationKey, verify. rewrite Hg, bind_ret, (bind_ok _ _ _ _ _ Hc). cbv zeta. unfold app_key.
  match goal with |- context [bind (GetGroupKey 2 ?id) ?k s'] =>
    assert (computes (bind (GetGroupKey 2 id) k) s' (fun x => x)
      (match base_key (platform s') keyId' with
       | Some base => match key32 (platform s') (GetAppGroupMasterKeyId keyId') with
                      | Some master => Some (hkdf salt (base ++ key_bytes master) diversifier keyLen, keyId', gk_Value master)
                      | None => None end
       | None => None end)) as HD end.
  { apply (computes_bind _ _ _ _ _ _ _ (base_computes keyId' s')). intros a base _ Ha.
    eapply computes_key; [apply (computes_bind _ _ _ _ _ _ (fun master => if gk_KeyLen master =? kWeaveAppGroupMasterKeySize then Some (hkdf salt (base ++ key_bytes master) diversifier keyLen, keyId', gk_Value master) else None) (retrieve_computes _ s'))|].
    - intros master master' _ ->. apply computes_verify. intros _. rewrite Ha. eapply computes_step; [by apply derive_ok|]. exact (computes_ret _ s' (fun k => k)).
    - unfold key32. destruct (RetrieveGroupKey (GetAppGroupMasterKeyId keyId') (platform s')) as [key|e| |]; try done. by destruct (gk_KeyLen key =? _). }
  destruct HD as [HS HD]. destruct (base_key (platform s') keyId') as [base|]; [|exact HD].
  destruct (key32 (platform s') (GetAppGroupMasterKeyId keyId')) as [master|]; [|exact HD]. destruct HD as (a & E & ->).
  match type of E with fst ?t = _ => destruct t as [r0 s0] end. cbn [fst snd] in E, HS. by subst.
Qed.
End Derivation.

(** ** After a restart *)

(** Calls of GetCurrentAppKeyId, each with the platform as it is by then. *)
Fixpoint calls {P} `{PlatformKeyStore P} (keyId : Z) (ps : list P) (s : GroupKeyStoreBase P) : list (res Z) :=
  match ps with
  | [] => []
  | p :: ps =>
    let '(r, s) := GetCurrentAppKeyId keyId (mkKeyStore (LastUsedEpochKeyId s) (NextEpochKeyStartTime s) p) in
    r :: calls keyId ps s
  end.

(** A platform to evaluate the model with: its keys, its clock (0 for none) and the
    epoch key id it has stored. *)
Record TestPlatform := mkTest { tp_keys : list WeaveGroupKey; tp_time : Z; tp_last : Z }.
#[export] Instance test_platform : PlatformKeyStore TestPlatform := {
  RetrieveGroupKey id p := match List.find (fun k => gk_KeyId k =? id) (tp_keys p) with Some k => Ok k | None => Err WEAVE_ERROR_KEY_NOT_FOUND end;
  EnumerateGroupKeys ty size p := Ok (map gk_KeyId (List.filter (fun k => GetType (gk_KeyId k) =? ty) (tp_keys p)));
  GetCurrentUTCTime p := if tp_time p =? 0 then Err WEAVE_ERROR_TIME_NOT_SYNCED_YET else Ok (tp_time p);
  RetrieveLastUsedEpochKeyId p := Ok (tp_last p);
  StoreLastUsedEpochKeyId k p := (Ok tt, mkTest (tp_keys p) (tp_time p) k) }.

Definition test_keys : list WeaveGroupKey :=
  [mkGroupKey kFabricSecret 36 (map (fun i => i) (upto 36)) 0; mkGroupKey (MakeEpochKeyId 0) 32 (upto 32) 100;
   mkGroupKey (MakeEpochKeyId 1) 32 (map (fun i => i + 1) (upto 32)) 200; mkGroupKey (MakeAppGroupMasterKeyId 5) 32 (map (fun i => 2 * i) (upto 32)) 77].
Definition test_epochs : list (Z * Z) := [(MakeEpochKeyId 0, 100); (MakeEpochKeyId 1, 200)].
Definition test_key_id : Z := MakeAppRotatingKeyId kFabricRootKey kNone (MakeAppGroupMasterKeyId 5) true.

Lemma test_epoch_store time last : epoch_store test_epochs (mkTest test_keys time last).
Proof.
  split; [reflexivity|split; vm_compute; congruence| |].
  - repeat (constructor; [eexists; split; [reflexivity|reflexivity]|]). constructor.
  - repeat (constructor; [vm_compute; congruence|]). constructor.
Qed.

(** ** Properties *)

(** GetCurrentAppKeyId uses the current epoch key.  Take any platform store that
    has the epoch keys [keys]; after they changed, in any order of calls and changes
    of the platform during which time does not go back, a call at time [now] answers
    the key id with the epoch key that has started last (or will start first, if none
    has); only in the very second in which a key starts the answer can still be the
    key before it. *)
Theorem EpochKey_current {P} `{PlatformKeyStore P} keys t s keyId now :
  (forall k p, epoch_store keys p -> exists p', StoreLastUsedEpochKeyId k p = (Ok tt, p') /\ epoch_store keys p') ->
  epoch_reach keys t s -> GetCurrentUTCTime (platform s) = Ok now -> t <= now -> UsesCurrentEpochKey keyId = true ->
  exists id s', GetCurrentAppKeyId keyId s = (Ok (UpdateEpochKeyId keyId id), s') /\
    (current_at now keys id \/ (exists id', In (id', now) keys) /\ current_at (now - 1) keys id).
Proof.
  intros HS HR Hc Ht Hk. assert (current_time s = (Ok now, s)) as Et by (unfold current_time; by rewrite Hc).
  destruct (call_ok keys HS t s keyId now (reach_inv keys HS t s HR) Hk Et ltac:(by left)) as (id & s' & E & _ & Hcur).
  exists id, s'. split; [done|by apply Hcur].
Qed.

Theorem EpochKey_current_witness :
  let s0 := OnEpochKeysChange (mkKeyStore 0 0 (mkTest test_keys 150 kNone)) in
  let s1 := snd (GetCurrentAppKeyId test_key_id s0) in
  let s2 := mkKeyStore (LastUsedEpochKeyId s1) (NextEpochKeyStartTime s1) (mkTest test_keys 250 kNone) in
  LastUsedEpochKeyId s1 = MakeEpochKeyId 0 /\
  exists id s', GetCurrentAppKeyId test_key_id s2 = (Ok (UpdateEpochKeyId test_key_id id), s') /\
    (current_at 250 test_epochs id \/ (exists id', In (id', 250) test_epochs) /\ current_at 249 test_epochs id).
Proof.
  intros s0 s1 s2. split; [vm_compute; reflexivity|]. apply (EpochKey_current test_epochs 150 s2 test_key_id 250).
  - intros k [ks ti la] HE. exists (mkTest ks ti k). split; [reflexivity|]. destruct HE. by split.
  - apply ER_platform.
    + change 150 with (match GetCurrentUTCTime (platform s0) with Ok now => now | _ => 100 end). apply (ER_call test_epochs 100 s0 test_key_id (fst (GetCurrentAppKeyId test_key_id s0)) s1).
      * apply ER_change; [lia|apply test_epoch_store|]. intros k [= <-]. reflexivity.
      * intros now [= <-]. lia.
      * apply surjective_pairing.
    + apply test_epoch_store.
    + intros E. vm_compute in E. discriminate E.
  - reflexivity.
  - lia.
  - vm_compute. reflexivity.
Defined.

(** DeriveApplicationKey derives along the key hierarchy.  With [keyId'] the id after
    the choice of the epoch key: the root key is HKDF-SHA1 of the fabric secret for
    the fabric and the client root and the stored key for the service root; a
    rotating key goes through the intermediate key, HKDF of root key and epoch key; the
    application key is HKDF, with the caller's salt and diversifier, of that key and
    the group master key.  When a key of this chain is missing or has the wrong
    length, no key is derived. *)
Theorem DeriveApplicationKey_hierarchy {P} `{PlatformKeyStore P} {SHA1 : HashAlgo} {L : HashLaws SHA1} keyId keyId' salt diversifier bufSize keyLen
    (s s' : GroupKeyStoreBase P) :
  IsAppGroupKey keyId = true -> GetCurrentAppKeyId keyId s = (Ok keyId', s') -> 1 <= keyLen <= bufSize -> keyLen <= 255 ->
  match app_key (platform s') keyId' salt diversifier keyLen with
  | Some x => DeriveApplicationKey keyId salt diversifier bufSize keyLen s = (Ok x, s')
  | None => forall x, fst (DeriveApplicationKey keyId salt diversifier bufSize keyLen s) <> Ok x
  end.
Proof. apply DeriveApplicationKey_computes. Qed.

Theorem DeriveApplicationKey_hierarchy_witness : let SHA1 := toy_sha1 in
  let s := OnEpochKeysChange (mkKeyStore 0 0 (mkTest test_keys 250 kNone)) in
  let keyId' := MakeAppRotatingKeyId kFabricRootKey (MakeEpochKeyId 1) (MakeAppGroupMasterKeyId 5) false in
  let root := hkdf (L := toy_sha1_laws) [] (upto 36) kWeaveAppFabricRootKeyDiversifier 32 in
  let inter := hkdf (L := toy_sha1_laws) [] (root ++ map (fun i => i + 1) (upto 32)) kWeaveAppIntermediateKeyDiversifier 32 in
  fst (DeriveApplicationKey test_key_id [1; 2] [3] 36 36 s) = Ok (hkdf (L := toy_sha1_laws) [1; 2] (inter ++ map (fun i => 2 * i) (upto 32)) [3] 36, keyId', 77).
Proof.
  intros SHA1 s keyId' root inter. subst SHA1.
  assert (IsAppGroupKey test_key_id = true) as E1 by (vm_compute; reflexivity).
  assert (GetCurrentAppKeyId test_key_id s = (Ok keyId', snd (GetCurrentAppKeyId test_key_id s))) as E2 by (vm_compute; reflexivity).
  pose proof (DeriveApplicationKey_hierarchy (L := toy_sha1_laws) test_key_id keyId' [1; 2] [3] 36 36 s _ E1 E2 ltac:(clear; lia) ltac:(clear; lia)) as X.
  assert (app_key (L := toy_sha1_laws) (platform (snd (GetCurrentAppKeyId test_key_id s))) keyId' [1; 2] [3] 36 =
    Some (hkdf (L := toy_sha1_laws) [1; 2] (inter ++ map (fun i => 2 * i) (upto 32)) [3] 36, keyId', 77)) as E.
  { unfold inter, root, app_key, base_key, root_key. generalize (@hkdf toy_sha1 toy_sha1_laws). intros f. vm_compute. reflexivity. }
  rewrite E in X. rewrite X. reflexivity.
Defined.

(** A stored epoch key id is never replaced.  When the store has kept the id of the
    last used epoch key, then after Init (a restart) every call answers with that
    key, whatever the clock and the epoch keys say: NextEpochKeyStartTime stays at
    its maximum until OnEpochKeysChange. *)
Theorem EpochKey_stuck_after_restart {P} `{PlatformKeyStore P} s k keyId ps : k <> kNone -> UsesCurrentEpochKey keyId = true ->
  Forall (fun p => RetrieveLastUsedEpochKeyId p = Ok k /\
    (GetCurrentUTCTime p = Err WEAVE_ERROR_TIME_NOT_SYNCED_YET \/ exists now, GetCurrentUTCTime p = Ok now /\ 0 <= now <= UINT32_MAX)) ps ->
  calls keyId ps (KeyStore_Init s) = map (fun _ => Ok (UpdateEpochKeyId keyId k)) ps.
Proof.
  intros Hk Hu. assert (forall l, l = kNone \/ l = k -> forall p0, Forall (fun p => RetrieveLastUsedEpochKeyId p = Ok k /\
    (GetCurrentUTCTime p = Err WEAVE_ERROR_TIME_NOT_SYNCED_YET \/ exists now, GetCurrentUTCTime p = Ok now /\ 0 <= now <= UINT32_MAX)) ps ->
    calls keyId ps (mkKeyStore l UINT32_MAX p0) = map (fun _ => Ok (UpdateEpochKeyId keyId k)) ps) as HC; [|intros HF; apply HC; [by left|done]].
  induction ps as [|p ps IH]; intros l Hl p0 HF; [done|]. apply list.Forall_cons_1 in HF as [[HR Ht] HF]. cbn [calls map LastUsedEpochKeyId NextEpochKeyStartTime].
  assert (GetCurrentAppKeyId keyId (mkKeyStore l UINT32_MAX p) = (Ok (UpdateEpochKeyId keyId k), mkKeyStore k UINT32_MAX p)) as ->.
  { unfold GetCurrentAppKeyId. rewrite Hu. cbn [negb]. rewrite (bind_ok _ _ _ tt (mkKeyStore k UINT32_MAX p)).
    2:{ unfold recall_last_used. cbn [LastUsedEpochKeyId platform]. rewrite HR. destruct Hl as [->| ->]; [done|]. by destruct (Z.eqb_spec k kNone). }
    destruct Ht as [Ht|(now & Ht & Hn)]; (erewrite bind_ok by (unfold current_time; cbn [platform]; rewrite Ht; reflexivity)); unfold gets;
      (erewrite bind_ok by reflexivity); cbn [LastUsedEpochKeyId NextEpochKeyStartTime]; rewrite (proj2 (Z.eqb_neq k kNone) Hk); cbn [orb];
      rewrite (proj2 (Z.ltb_ge _ _)) by (unfold UINT32_MAX in *; lia); done. }
  f_equal. apply IH; [by right|done].
Qed.

Theorem EpochKey_stuck_after_restart_witness :
  calls test_key_id [mkTest test_keys 150 (MakeEpochKeyId 0); mkTest test_keys 100000 (MakeEpochKeyId 0)]
    (KeyStore_Init (mkKeyStore 0 0 (mkTest test_keys 0 kNone))) =
  map (fun _ => Ok (UpdateEpochKeyId test_key_id (MakeEpochKeyId 0))) [tt; tt].
Proof.
  apply (EpochKey_stuck_after_restart (mkKeyStore 0 0 (mkTest test_keys 0 kNone)) (MakeEpochKeyId 0) test_key_id
    [mkTest test_keys 150 (MakeEpochKeyId 0); mkTest test_keys 100000 (MakeEpochKeyId 0)]).
  - vm_compute. congruence.
  - vm_compute. reflexivity.
  - constructor; [split; [reflexivity|right; exists 150; split; [reflexivity|vm_compute; split; congruence]]|].
    constructor; [split; [reflexivity|right; exists 100000; split; [reflexivity|vm_compute; split; congruence]]|]. constructor.
Defined.
