(* ===== verification/MessageLayer.v ===== *)
(** * Message encoding and decoding (src/src/lib/core/WeaveMessageLayer.cpp)

    The header codec, EncodeMessage and DecodeMessage with their framed versions,
    and ReEncodeMessage.  They run on the message's packet buffer, its
    WeaveMessageInfo and the fabric state.  The block cipher and the hash are the
    classes of Crypto; connections are numbers, 0 being nobody's. *)
From S2P Require Import Prelude Encoding KeyIds Session Counter PeerTable FabricState Crypto PacketBuffer.
From stdpp Require Import gmap strings.
Local Open Scope weave_scope.
Local Open Scope Z_scope.

Definition kMsgHeaderField_FlagsMask : Z := 3855.              (* 0x0F0F *)
Definition kMsgHeaderField_FlagsShift : Z := 0.
Definition kMsgHeaderField_EncryptionTypeMask : Z := 240.      (* 0x00F0 *)
Definition kMsgHeaderField_EncryptionTypeShift : Z := 4.
Definition kMsgHeaderField_MessageVersionMask : Z := 61440.    (* 0xF000 *)
Definition kMsgHeaderField_MessageVersionShift : Z := 12.
Definition kWeaveMessageFlag_DestNodeId : Z := 256.
Definition kWeaveMessageFlag_SourceNodeId : Z := 512.
Definition kWeaveMessageFlag_TunneledData : Z := 1024.
Definition kWeaveMessageFlag_MsgCounterSyncReq : Z := 2048.
Definition kMsgHeaderField_ReservedFlagsMask : Z :=
  Z.land kMsgHeaderField_FlagsMask
    (Z.lnot (Z.lor (Z.lor kWeaveMessageFlag_DestNodeId kWeaveMessageFlag_SourceNodeId)
                   (Z.lor kWeaveMessageFlag_TunneledData kWeaveMessageFlag_MsgCounterSyncReq))).
Definition kMsgHeaderField_MessageHMACMask : Z :=
  Z.lnot (Z.shiftl (Z.lor (Z.lor kWeaveMessageFlag_DestNodeId kWeaveMessageFlag_SourceNodeId) kWeaveMessageFlag_MsgCounterSyncReq)
            kMsgHeaderField_FlagsShift).
Definition kWeaveMessageFlag_ReuseMessageId : Z := 16.
Definition kWeaveMessageFlag_MessageEncoded : Z := 4096.
Definition kWeaveMessageFlag_DuplicateMessage : Z := 32768.
Definition kWeaveMessageFlag_PeerGroupMsgIdNotSynchronized : Z := 65536.
Definition kWeaveMessageVersion_V1 : Z := 1.
Definition kWeaveMessageVersion_V2 : Z := 2.
Definition kKeyIdLen : Z := 2.
Definition kMinPayloadLen : Z := 1.
Definition kDigestLength : Z := 20.     (* HMACSHA1::kDigestLength *)

(** WeaveMessageInfo, without the connection and packet pointers, which the codec
    does not touch; the members are the source's with a prefix. *)
Record WeaveMessageInfo := mkInfo {
  mi_SourceNodeId : Z;
  mi_DestNodeId : Z;
  mi_MessageId : Z;
  mi_Flags : Z;
  mi_KeyId : Z;
  mi_MessageVersion : Z;
  mi_EncryptionType : Z;
  mi_PeerAuthMode : Z }.

Definition Info_Clear : WeaveMessageInfo := mkInfo 0 0 0 0 0 0 0 0.

Definition has_flag (flag : Z) (i : WeaveMessageInfo) : bool := negb (Z.land (mi_Flags i) flag =? 0).

(** Assignments to a member. *)
Definition set_SourceNodeId (x : Z) (i : WeaveMessageInfo) : WeaveMessageInfo :=
  mkInfo x (mi_DestNodeId i) (mi_MessageId i) (mi_Flags i) (mi_KeyId i) (mi_MessageVersion i) (mi_EncryptionType i) (mi_PeerAuthMode i).
Definition set_DestNodeId (x : Z) (i : WeaveMessageInfo) : WeaveMessageInfo :=
  mkInfo (mi_SourceNodeId i) x (mi_MessageId i) (mi_Flags i) (mi_KeyId i) (mi_MessageVersion i) (mi_EncryptionType i) (mi_PeerAuthMode i).
Definition set_MessageId (x : Z) (i : WeaveMessageInfo) : WeaveMessageInfo :=
  mkInfo (mi_SourceNodeId i) (mi_DestNodeId i) x (mi_Flags i) (mi_KeyId i) (mi_MessageVersion i) (mi_EncryptionType i) (mi_PeerAuthMode i).
Definition set_Flags (x : Z) (i : WeaveMessageInfo) : WeaveMessageInfo :=
  mkInfo (mi_SourceNodeId i) (mi_DestNodeId i) (mi_MessageId i) x (mi_KeyId i) (mi_MessageVersion i) (mi_EncryptionType i) (mi_PeerAuthMode i).
Definition set_KeyId (x : Z) (i : WeaveMessageInfo) : WeaveMessageInfo :=
  mkInfo (mi_SourceNodeId i) (mi_DestNodeId i) (mi_MessageId i) (mi_Flags i) x (mi_MessageVersion i) (mi_EncryptionType i) (mi_PeerAuthMode i).
Definition set_PeerAuthMode (x : Z) (i : WeaveMessageInfo) : WeaveMessageInfo :=
  mkInfo (mi_SourceNodeId i) (mi_DestNodeId i) (mi_MessageId i) (mi_Flags i) (mi_KeyId i) (mi_MessageVersion i) (mi_EncryptionType i) x.

(** ** The header *)

Definition EncodeHeaderField (i : WeaveMessageInfo) : Z :=
  u16 (Z.lor (Z.lor (Z.land (Z.shiftl (u16 (mi_Flags i)) kMsgHeaderField_FlagsShift) kMsgHeaderField_FlagsMask)
                    (Z.land (Z.shiftl (u16 (mi_EncryptionType i)) kMsgHeaderField_EncryptionTypeShift) kMsgHeaderField_EncryptionTypeMask))
             (Z.land (Z.shiftl (u16 (mi_MessageVersion i)) kMsgHeaderField_MessageVersionShift) kMsgHeaderField_MessageVersionMask)).

Definition DecodeHeaderField (headerField : Z) (i : WeaveMessageInfo) : WeaveMessageInfo :=
  mkInfo (mi_SourceNodeId i) (mi_DestNodeId i) (mi_MessageId i)
    (u16 (Z.shiftr (Z.land headerField kMsgHeaderField_FlagsMask) kMsgHeaderField_FlagsShift))
    (mi_KeyId i)
    (u8 (Z.shiftr (Z.land headerField kMsgHeaderField_MessageVersionMask) kMsgHeaderField_MessageVersionShift))
    (u8 (Z.shiftr (Z.land headerField kMsgHeaderField_EncryptionTypeMask) kMsgHeaderField_EncryptionTypeShift))
    (mi_PeerAuthMode i).

(** [(p + n) > msgEnd] for a pointer [p] given by the bytes from it to [msgEnd]. *)
Definition past_end (n : Z) (p : list Z) : bool := Z.of_nat (length p) <? n.

(** DecodeHeader(msgBuf, msgInfo, payloadStart): [data] is the data of the buffer;
    the result is the data from the payload's start on. *)
Definition DecodeHeader (localNodeId : Z) (data : list Z) : M WeaveMessageInfo (list Z) := fun i =>
  if Z.of_nat (length data) <? 6 then (Err WEAVE_ERROR_INVALID_MESSAGE_LENGTH, i)
  else
    let '(headerField, p) := LittleEndian_Read16 data in
    if negb (Z.land headerField kMsgHeaderField_ReservedFlagsMask =? 0) then (Err WEAVE_ERROR_INVALID_MESSAGE_FLAG, i)
    else
      let i := DecodeHeaderField headerField i in
      if negb (mi_MessageVersion i =? kWeaveMessageVersion_V1) && negb (mi_MessageVersion i =? kWeaveMessageVersion_V2)
      then (Err WEAVE_ERROR_UNSUPPORTED_MESSAGE_VERSION, i)
      else
        let '(id, p) := LittleEndian_Read32 p in
        let i := set_MessageId id i in
        if has_flag kWeaveMessageFlag_SourceNodeId i && past_end 8 p then (Err WEAVE_ERROR_INVALID_MESSAGE_LENGTH, i)
        else
          let '(i, p) := if has_flag kWeaveMessageFlag_SourceNodeId i
                         then let '(x, p) := LittleEndian_Read64 p in (set_SourceNodeId x i, p) else (i, p) in
          if has_flag kWeaveMessageFlag_DestNodeId i && past_end 8 p then (Err WEAVE_ERROR_INVALID_MESSAGE_LENGTH, i)
          else
            let '(i, p) := if has_flag kWeaveMessageFlag_DestNodeId i
                           then let '(x, p) := LittleEndian_Read64 p in (set_DestNodeId x i, p) else (set_DestNodeId localNodeId i, p) in
            if negb (mi_EncryptionType i =? kWeaveEncryptionType_None) then
              if past_end kKeyIdLen p then (Err WEAVE_ERROR_INVALID_MESSAGE_LENGTH, i)
              else let '(x, p) := LittleEndian_Read16 p in (Ok p, set_KeyId x i)
            else
              let i := set_Flags (Z.land (mi_Flags i) (Z.lnot kWeaveMessageFlag_MsgCounterSyncReq)) i in
              (Ok p, set_KeyId kNone i).

(** The bytes EncodeMessage writes before the payload. *)
Definition encode_header (i : WeaveMessageInfo) : list Z :=
  LittleEndian_Write16 (EncodeHeaderField i) ++ LittleEndian_Write32 (mi_MessageId i) ++
  (if has_flag kWeaveMessageFlag_SourceNodeId i then LittleEndian_Write64 (mi_SourceNodeId i) else []) ++
  (if has_flag kWeaveMessageFlag_DestNodeId i then LittleEndian_Write64 (mi_DestNodeId i) else []) ++
  (if mi_EncryptionType i =? kWeaveEncryptionType_AES128CTRSHA1 then LittleEndian_Write16 (mi_KeyId i) else []).

Section Codec.
Context {B : BlockCipher} {SHA1 : HashAlgo}.

(** Encrypt_AES128CTRSHA1(msgInfo, key, data, len, data), in place, [inData] the
    [len] bytes at [data]; EncryptData takes the length modulo 2^16. *)
Definition Encrypt_AES128CTRSHA1 (i : WeaveMessageInfo) (key inData : list Z) : list Z :=
  fst (EncryptData inData (Z.of_nat (length inData)) inData (SetWeaveMessageCounter (mi_SourceNodeId i) (mi_MessageId i) (CTRMode_SetKey key CTRMode_new))).

(** The header fields under the message authentication code. *)
Definition hmac_header (i : WeaveMessageInfo) : list Z :=
  LittleEndian_Write64 (mi_SourceNodeId i) ++ LittleEndian_Write64 (mi_DestNodeId i) ++
  (if mi_MessageVersion i =? kWeaveMessageVersion_V2
   then LittleEndian_Write16 (Z.land (EncodeHeaderField i) kMsgHeaderField_MessageHMACMask) ++ LittleEndian_Write32 (mi_MessageId i)
   else []).

Definition ComputeIntegrityCheck_AES128CTRSHA1 (i : WeaveMessageInfo) (key inData : list Z) : list Z :=
  let h := HMAC_Begin (take (Z.to_nat IntegrityKeySize) key) HMAC_new in
  let h := HMAC_AddData (hmac_header i) h in
  let h := HMAC_AddData inData h in
  fst (HMAC_Finish h).

Context {St : Type} `{PersistedStorage St} {G : Type} `{GroupKeyStore G}.

(** The arguments an encoding or decoding works on. *)
Record MsgState := mkMsg {
  ms_info : WeaveMessageInfo;
  ms_buf : PacketBuffer;
  ms_fabric : WeaveFabricState St G }.

(** Storing bytes at an offset of the buffer's block. *)
Definition buf_write (off : Z) (l : list Z) (p : PacketBuffer) : PacketBuffer :=
  mkPbuf (pb_next p) (pb_payload p) (pb_tot_len p) (pb_len p) (pb_ref p) (block_write off l (pb_block p)).

(** The lengths before and after the payload, by the encryption type. *)
Definition message_lengths (i : WeaveMessageInfo) (payloadLen : Z) : res (Z * Z) :=
  let headLen := 6 in
  let headLen := if has_flag kWeaveMessageFlag_SourceNodeId i then headLen + 8 else headLen in
  let headLen := if has_flag kWeaveMessageFlag_DestNodeId i then headLen + 8 else headLen in
  if mi_EncryptionType i =? kWeaveEncryptionType_None then Ok (headLen, 0)
  else if mi_EncryptionType i =? kWeaveEncryptionType_AES128CTRSHA1 then
    if payloadLen =? 0 then Err WEAVE_ERROR_INVALID_MESSAGE_LENGTH else Ok (headLen + 2, kDigestLength)
  else Err WEAVE_ERROR_UNSUPPORTED_ENCRYPTION_TYPE.

(** EncodeMessage, from the session state on; [buf] has room for the header. *)
Definition encode_with_session (h : session_handle) (headLen tailLen payloadLen : Z) : M MsgState unit := fun s =>
  let i := ms_info s in
  let buf := ms_buf s in
  let f := ms_fabric s in
  let payloadStart := Start buf in
  let p := payloadStart - headLen in
  let '(i, f) := if Z.land (mi_Flags i) kWeaveMessageFlag_ReuseMessageId =? 0
                 then let '(id, f) := session_NewMessageId (sh_ref h) f in (set_MessageId id i, f) else (i, f) in
  let '(i, f) := if session_MessageIdNotSynchronized (sh_ref h) f && IsAppGroupKey (mi_KeyId i)
                 then (set_Flags (Z.lor (mi_Flags i) kWeaveMessageFlag_MsgCounterSyncReq) i, OnMsgCounterSyncReqSent (mi_MessageId i) f)
                 else (i, f) in
  let buf := SetStart p buf in
  if negb (Z.land (EncodeHeaderField i) kMsgHeaderField_ReservedFlagsMask =? 0) then (Err WEAVE_ERROR_INVALID_ARGUMENT, mkMsg i buf f)
  else
    let '(r, f) := if mi_DestNodeId i =? kAnyNodeId then session_IsDuplicateMessage (sh_ref h) (mi_MessageId i) f else (Ok false, f) in
    match r with
    | Ok _ =>
      let buf := buf_write p (encode_header i) buf in
      let finish buf :=
        (Ok tt, mkMsg (set_Flags (Z.lor (mi_Flags i) kWeaveMessageFlag_MessageEncoded) i) (SetDataLength (u16 (headLen + payloadLen + tailLen)) buf) f) in
      if mi_EncryptionType i =? kWeaveEncryptionType_None then finish buf
      else
        match session_enc_key (sh_ref h) f with
        | None => (Undefined, mkMsg i buf f)
        | Some k =>
          let payload := block_read payloadStart payloadLen (pb_block buf) in
          let buf := buf_write (payloadStart + payloadLen) (ComputeIntegrityCheck_AES128CTRSHA1 i (IntegrityKey k) payload) buf in
          finish (buf_write payloadStart
                   (Encrypt_AES128CTRSHA1 i (DataKey k) (block_read payloadStart (payloadLen + kDigestLength) (pb_block buf))) buf)
        end
    | Err e => (Err e, mkMsg i buf f)
    | Undefined => (Undefined, mkMsg i buf f)
    | Diverges => (Diverges, mkMsg i buf f)
    end.

(** EncodeMessage(msgInfo, msgBuf, con, maxLen, reserve) *)
Definition EncodeMessage (con : option nat) (maxLen reserve : Z) : M MsgState unit := fun s =>
  let i := ms_info s in
  let buf := ms_buf s in
  if negb (mi_MessageVersion i =? kWeaveMessageVersion_V1) && negb (mi_MessageVersion i =? kWeaveMessageVersion_V2)
  then (Err WEAVE_ERROR_UNSUPPORTED_MESSAGE_VERSION, s)
  else if has_flag kWeaveMessageFlag_MessageEncoded i then
    match DecodeHeader (LocalNodeId (ms_fabric s)) (pb_data buf) Info_Clear with
    | (Ok _, existing) => (Ok tt, mkMsg (set_DestNodeId (mi_DestNodeId existing) i) buf (ms_fabric s))
    | (Err e, _) => (Err e, s)
    | (Undefined, _) => (Undefined, s)
    | (Diverges, _) => (Diverges, s)
    end
  else
    let payloadLen := DataLength buf in
    match message_lengths i payloadLen with
    | Ok (headLen, tailLen) =>
      if maxLen <? headLen + DataLength buf + tailLen then (Err WEAVE_ERROR_MESSAGE_TOO_LONG, s)
      else
        match EnsureReservedSize (u16 (headLen + reserve)) buf with
        | (false, buf) => (Err WEAVE_ERROR_BUFFER_TOO_SMALL, mkMsg i buf (ms_fabric s))
        | (true, buf) =>
          if MaxDataLength buf <? DataLength buf + tailLen then (Err WEAVE_ERROR_BUFFER_TOO_SMALL, mkMsg i buf (ms_fabric s))
          else
            let node := if mi_DestNodeId i =? kAnyNodeId then mi_SourceNodeId i else mi_DestNodeId i in
            match GetSessionState node (mi_KeyId i) (mi_EncryptionType i) con (ms_fabric s) with
            | (Ok h, f) => encode_with_session h headLen tailLen payloadLen (mkMsg i buf f)
            | (Err e, f) => (Err e, mkMsg i buf f)
            | (Undefined, f) => (Undefined, mkMsg i buf f)
            | (Diverges, f) => (Diverges, mkMsg i buf f)
            end
        end
    | Err e => (Err e, s)
    | Undefined => (Undefined, s)
    | Diverges => (Diverges, s)
    end.

(** The end of DecodeMessage: the flags about duplicates and the peer's mode. *)
Definition decode_finish (h : session_handle) (payload : list Z) : M MsgState (list Z) := fun s =>
  let i := ms_info s in
  match session_IsDuplicateMessage (sh_ref h) (mi_MessageId i) (ms_fabric s) with
  | (Ok dup, f) =>
    let i := if dup then set_Flags (Z.lor (mi_Flags i) kWeaveMessageFlag_DuplicateMessage) i else i in
    let i := if session_MessageIdNotSynchronized (sh_ref h) f && IsAppGroupKey (mi_KeyId i)
             then set_Flags (Z.lor (mi_Flags i) kWeaveMessageFlag_PeerGroupMsgIdNotSynchronized) i else i in
    (Ok payload, mkMsg (set_PeerAuthMode (sh_AuthMode h) i) (ms_buf s) f)
  | (Err e, f) => (Err e, mkMsg i (ms_buf s) f)
  | (Undefined, f) => (Undefined, mkMsg i (ms_buf s) f)
  | (Diverges, f) => (Diverges, mkMsg i (ms_buf s) f)
  end.

(** DecodeMessage(msgBuf, sourceNodeId, con, msgInfo, rPayload, rPayloadLen): the
    payload. *)
Definition DecodeMessage (sourceNodeId : Z) (con : option nat) : M MsgState (list Z) := fun s =>
  let buf := ms_buf s in
  let data := pb_data buf in
  match DecodeHeader (LocalNodeId (ms_fabric s)) data (set_SourceNodeId sourceNodeId (ms_info s)) with
  | (Ok p, i) =>
    match GetSessionState (mi_SourceNodeId i) (mi_KeyId i) (mi_EncryptionType i) con (ms_fabric s) with
    | (Ok h, f) =>
      if mi_EncryptionType i =? kWeaveEncryptionType_None then decode_finish h p (mkMsg i buf f)
      else if mi_EncryptionType i =? kWeaveEncryptionType_AES128CTRSHA1 then
        if past_end (kMinPayloadLen + kDigestLength) p then (Err WEAVE_ERROR_INVALID_MESSAGE_LENGTH, mkMsg i buf f)
        else
          match session_enc_key (sh_ref h) f with
          | None => (Undefined, mkMsg i buf f)
          | Some k =>
            let off := Start buf + (Z.of_nat (length data) - Z.of_nat (length p)) in
            let payloadLen := Z.of_nat (length p) - kDigestLength in
            let plain := Encrypt_AES128CTRSHA1 i (DataKey k) p in
            let buf := buf_write off plain buf in
            let payload := take (Z.to_nat payloadLen) plain in
            let expectedIntegrityCheck := ComputeIntegrityCheck_AES128CTRSHA1 i (IntegrityKey k) payload in
            if negb (ConstantTimeCompare (take (Z.to_nat kDigestLength) (drop (Z.to_nat payloadLen) plain)) (take (Z.to_nat kDigestLength) expectedIntegrityCheck))
            then (Err WEAVE_ERROR_INTEGRITY_CHECK_FAILED, mkMsg i buf f)
            else decode_finish h payload (mkMsg i buf f)
          end
      else (Err WEAVE_ERROR_UNSUPPORTED_ENCRYPTION_TYPE, mkMsg i buf f)
    | (Err e, f) => (Err e, mkMsg i buf f)
    | (Undefined, f) => (Undefined, mkMsg i buf f)
    | (Diverges, f) => (Diverges, mkMsg i buf f)
    end
  | (Err e, i) => (Err e, mkMsg i buf (ms_fabric s))
  | (Undefined, i) => (Undefined, mkMsg i buf (ms_fabric s))
  | (Diverges, i) => (Diverges, mkMsg i buf (ms_fabric s))
  end.

(** EncodeMessageWithLength(msgInfo, msgBuf, con, maxLen) *)
Definition EncodeMessageWithLength (con : option nat) (maxLen : Z) : M MsgState unit := fun s =>
  match EncodeMessage con (u16 (maxLen - 2)) 2 s with
  | (Ok _, s) =>
    let newMsgStart := Start (ms_buf s) - 2 in
    let msgLen := DataLength (ms_buf s) in
    (Ok tt, mkMsg (ms_info s) (buf_write newMsgStart (LittleEndian_Write16 msgLen) (SetStart newMsgStart (ms_buf s))) (ms_fabric s))
  | x => x
  end.

(** DecodeMessageWithLength: the frame length is stored on every path; the
    payload when there is one. *)
Definition DecodeMessageWithLength (sourceNodeId : Z) (con : option nat) (s : MsgState) : res (list Z) * Z * MsgState :=
  let buf := ms_buf s in
  let dataStart := Start buf in
  let dataLen := DataLength buf in
  if dataLen <? 2 then (Err WEAVE_ERROR_MESSAGE_INCOMPLETE, 8, s)
  else
    let msgLen := LittleEndian_Get16 (pb_data buf) in
    let rFrameLen := u16 (msgLen + 2) in
    if dataLen <? rFrameLen then
      if MaxDataLength buf + ReservedSize buf <? rFrameLen then (Err WEAVE_ERROR_MESSAGE_TOO_LONG, rFrameLen, s)
      else (Err WEAVE_ERROR_MESSAGE_INCOMPLETE, rFrameLen, s)
    else
      let buf := SetDataLength msgLen (SetStart (dataStart + 2) buf) in
      match DecodeMessage sourceNodeId con (mkMsg (ms_info s) buf (ms_fabric s)) with
      | (Ok payload, s) =>
        (Ok payload, rFrameLen, mkMsg (ms_info s) (SetDataLength (u16 (dataLen - (msgLen + 2))) (SetStart (dataStart + msgLen + 2) (ms_buf s))) (ms_fabric s))
      | (r, s) => (r, rFrameLen, mkMsg (ms_info s) (SetDataLength dataLen (SetStart dataStart (ms_buf s))) (ms_fabric s))
      end.

(** ReEncodeMessage(msgBuf) *)
Definition ReEncodeMessage (buf : PacketBuffer) (f : WeaveFabricState St G) : res unit * (PacketBuffer * WeaveFabricState St G) :=
  let data := pb_data buf in
  match DecodeHeader (LocalNodeId f) data Info_Clear with
  | (Ok p, i) =>
    match GetSessionState (mi_SourceNodeId i) (mi_KeyId i) (mi_EncryptionType i) None f with
    | (Ok h, f) =>
      if mi_EncryptionType i =? kWeaveEncryptionType_None then (Ok tt, (buf, f))
      else if mi_EncryptionType i =? kWeaveEncryptionType_AES128CTRSHA1 then
        match session_enc_key (sh_ref h) f with
        | None => (Undefined, (buf, f))
        | Some k =>
          (Ok tt, (buf_write (Start buf + (Z.of_nat (length data) - Z.of_nat (length p))) (Encrypt_AES128CTRSHA1 i (DataKey k) p) buf, f))
        end
      else (Err WEAVE_ERROR_UNSUPPORTED_ENCRYPTION_TYPE, (buf, f))
    | (Err e, f) => (Err e, (buf, f))
    | (Undefined, f) => (Undefined, (buf, f))
    | (Diverges, f) => (Diverges, (buf, f))
    end
  | (Err e, _) => (Err e, (buf, f))
  | (Undefined, _) => (Undefined, (buf, f))
  | (Diverges, _) => (Diverges, (buf, f))
  end.
End Codec.

Arguments MsgState St G : clear implicits.

(** ** The header codec *)

(** The fields of a header that can be encoded. *)
Definition wf_info (i : WeaveMessageInfo) : Prop :=
  (mi_EncryptionType i = kWeaveEncryptionType_None \/ mi_EncryptionType i = kWeaveEncryptionType_AES128CTRSHA1) /\
  (mi_MessageVersion i = kWeaveMessageVersion_V1 \/ mi_MessageVersion i = kWeaveMessageVersion_V2) /\
  0 <= mi_SourceNodeId i < 18446744073709551616 /\ 0 <= mi_DestNodeId i < 18446744073709551616 /\
  0 <= mi_MessageId i < 4294967296 /\ 0 <= mi_KeyId i < 65536.

(** The header field for flags [x], encryption type [e] and version [v]. *)
Definition field (x e v : Z) : Z := EncodeHeaderField (mkInfo 0 0 0 x 0 v e 0).

(** What is needed of the field, for flags whose bits are those of the header. *)
Definition field_ok (x e v : Z) : bool :=
  let h := field x e v in
  let d := DecodeHeaderField h Info_Clear in
  (0 <=? h) && (h <? 65536) && (Z.land h kMsgHeaderField_ReservedFlagsMask =? Z.land x 15) &&
  (mi_Flags d =? x) && (mi_EncryptionType d =? e) && (mi_MessageVersion d =? v).

Lemma field_all : all_upto 16 (fun hi => all_upto 16 (fun lo =>
  let x := hi * 256 + lo in field_ok x 0 1 && field_ok x 0 2 && field_ok x 1 1 && field_ok x 1 2)) = true.
Proof. vm_compute. reflexivity. Qed.

Lemma header_flags x : Z.land x kMsgHeaderField_FlagsMask = (x / 256) mod 16 * 256 + x mod 16.
Proof.
  change kMsgHeaderField_FlagsMask with (Z.lor (Z.shiftl 15 8) 15). rewrite Z.land_lor_distr_r.
  rewrite (land_ones_mod x 4 ltac:(lia) : Z.land x 15 = x mod 16).
  assert (Z.land x (Z.shiftl 15 8) = (x / 256) mod 16 * 2 ^ 8) as ->.
  { transitivity (Z.shiftl (Z.land (Z.shiftr x 8) 15) 8).
    - apply Z.bits_inj'. intros n Hn. rewrite Z.land_spec. destruct (Z.lt_ge_cases n 8) as [Hl|Hg].
      + rewrite !Z.shiftl_spec_low by lia. apply andb_false_r.
      + rewrite !Z.shiftl_spec by lia. rewrite Z.land_spec, Z.shiftr_spec by lia. by replace (n - 8 + 8) with n by lia.
    - rewrite Z.shiftl_mul_pow2 by lia. rewrite (land_ones_mod (Z.shiftr x 8) 4 ltac:(lia) : Z.land (Z.shiftr x 8) 15 = _).
      by rewrite Z.shiftr_div_pow2 by lia. }
  rewrite (lor_add_disjoint _ (x mod 16) 8); [lia|lia|]. pose proof (Z.mod_pos_bound x 16). lia.
Qed.

Lemma field_header_flags x e v : field x e v = field (Z.land x kMsgHeaderField_FlagsMask) e v.
Proof.
  unfold field, EncodeHeaderField. cbn [mi_Flags mi_EncryptionType mi_MessageVersion]. do 3 f_equal.
  change kMsgHeaderField_FlagsShift with 0. rewrite !Z.shiftl_0_r. unfold u16. change 65536 with (2 ^ 16).
  rewrite <- !Z.land_ones by lia. change (Z.ones 16) with 65535. rewrite <- !Z.land_assoc. done.
Qed.

Lemma field_spec x e v : e = 0 \/ e = 1 -> v = 1 \/ v = 2 -> field_ok (Z.land x kMsgHeaderField_FlagsMask) e v = true.
Proof.
  intros He Hv. rewrite header_flags.
  pose proof (all_upto_spec 16 _ field_all ((x / 256) mod 16) ltac:(mlia)) as E1. cbv beta in E1.
  pose proof (all_upto_spec 16 _ E1 (x mod 16) ltac:(mlia)) as E2. cbv zeta beta in E2. bool_prop.
  by destruct He as [-> | ->], Hv as [-> | ->].
Qed.

Lemma EncodeHeaderField_field i : EncodeHeaderField i = field (mi_Flags i) (mi_EncryptionType i) (mi_MessageVersion i).
Proof. done. Qed.

Lemma has_flag_header flag i : Z.land kMsgHeaderField_FlagsMask flag = flag ->
  negb (Z.land (Z.land (mi_Flags i) kMsgHeaderField_FlagsMask) flag =? 0) = has_flag flag i.
Proof. intros E. unfold has_flag. by rewrite <- Z.land_assoc, E. Qed.

(** What a decoder finds in the header that [i] was encoded to; [src] and [local]
    stand for the node ids a header may leave out. *)
Definition decoded_info (src local : Z) (i i0 : WeaveMessageInfo) : WeaveMessageInfo :=
  let enc := negb (mi_EncryptionType i =? kWeaveEncryptionType_None) in
  let flags := Z.land (mi_Flags i) kMsgHeaderField_FlagsMask in
  mkInfo (if has_flag kWeaveMessageFlag_SourceNodeId i then mi_SourceNodeId i else src)
    (if has_flag kWeaveMessageFlag_DestNodeId i then mi_DestNodeId i else local)
    (mi_MessageId i) (if enc then flags else Z.land flags (Z.lnot kWeaveMessageFlag_MsgCounterSyncReq))
    (if enc then mi_KeyId i else kNone) (mi_MessageVersion i) (mi_EncryptionType i) (mi_PeerAuthMode i0).

Lemma past_end_app n l k : n <= Z.of_nat (length l) -> past_end n (l ++ k) = false.
Proof. intros Hn. unfold past_end. rewrite length_app. apply Z.ltb_ge. lia. Qed.

Lemma DecodeHeader_encoded local i i0 rest : wf_info i ->
  Z.land (EncodeHeaderField i) kMsgHeaderField_ReservedFlagsMask = 0 ->
  DecodeHeader local (encode_header i ++ rest) i0 = (Ok rest, decoded_info (mi_SourceNodeId i0) local i i0).
Proof.
  intros (He & Hv & Hs & Hd & Hm & Hk) Hr. unfold DecodeHeader, encode_header. rewrite <- !app_assoc.
  rewrite (proj2 (Z.ltb_ge _ 6)) by (rewrite !length_app; cbn; lia).
  rewrite LE_Read16_app. pose proof (field_spec (mi_Flags i) _ _ He Hv) as F. rewrite EncodeHeaderField_field, field_header_flags in *.
  set (h := field _ _ _) in *. unfold field_ok in F. fold h in F. bool_prop. rewrite u16_id by lia. rewrite Hr. cbn [Z.eqb negb].
  assert (DecodeHeaderField h i0 = mkInfo (mi_SourceNodeId i0) (mi_DestNodeId i0) (mi_MessageId i0) (Z.land (mi_Flags i) kMsgHeaderField_FlagsMask)
    (mi_KeyId i0) (mi_MessageVersion i) (mi_EncryptionType i) (mi_PeerAuthMode i0)) as ->.
  { unfold DecodeHeaderField in *. cbn [mi_Flags mi_EncryptionType mi_MessageVersion] in *. congruence. }
  cbn [mi_MessageVersion].
  replace (negb (mi_MessageVersion i =? kWeaveMessageVersion_V1) && negb (mi_MessageVersion i =? kWeaveMessageVersion_V2)) with false
    by (by destruct Hv as [-> | ->]).
  rewrite LE_Read32_app, (u32_id (mi_MessageId i)) by lia. unfold set_MessageId, has_flag.
  cbn [mi_SourceNodeId mi_DestNodeId mi_MessageId mi_Flags mi_KeyId mi_MessageVersion mi_EncryptionType mi_PeerAuthMode].
  rewrite !(has_flag_header kWeaveMessageFlag_SourceNodeId) by done.
  fold (has_flag kWeaveMessageFlag_SourceNodeId i) (has_flag kWeaveMessageFlag_DestNodeId i). unfold decoded_info.
  destruct (has_flag kWeaveMessageFlag_SourceNodeId i); cbn [andb app];
    [rewrite past_end_app by done; rewrite LE_Read64_app, u64_id by lia|]; unfold set_SourceNodeId;
    cbn [mi_SourceNodeId mi_DestNodeId mi_MessageId mi_Flags mi_KeyId mi_MessageVersion mi_EncryptionType mi_PeerAuthMode];
    rewrite !(has_flag_header kWeaveMessageFlag_DestNodeId) by done;
    destruct (has_flag kWeaveMessageFlag_DestNodeId i); cbn [andb app];
    [rewrite past_end_app by done; rewrite LE_Read64_app, u64_id by lia| |rewrite past_end_app by done; rewrite LE_Read64_app, u64_id by lia| ];
    unfold set_DestNodeId;
    cbn [mi_SourceNodeId mi_DestNodeId mi_MessageId mi_Flags mi_KeyId mi_MessageVersion mi_EncryptionType mi_PeerAuthMode].
  all: destruct He as [-> | ->]; cbn [Z.eqb negb kWeaveEncryptionType_None kWeaveEncryptionType_AES128CTRSHA1 Pos.eqb app]; [done|].
  all: rewrite past_end_app by done; rewrite LE_Read16_app, u16_id by lia; done.
Qed.

Lemma encode_header_length i headLen tailLen n : message_lengths i n = Ok (headLen, tailLen) ->
  Z.of_nat (length (encode_header i)) = headLen /\ 6 <= headLen <= 24 /\ 0 <= tailLen <= 20 /\
  tailLen = (if mi_EncryptionType i =? kWeaveEncryptionType_None then 0 else kDigestLength).
Proof.
  unfold message_lengths, encode_header. rewrite !length_app.
  change (length (LittleEndian_Write16 (EncodeHeaderField i))) with 2%nat. change (length (LittleEndian_Write32 (mi_MessageId i))) with 4%nat.
  destruct (has_flag kWeaveMessageFlag_SourceNodeId i), (has_flag kWeaveMessageFlag_DestNodeId i);
    (destruct (Z.eqb_spec (mi_EncryptionType i) kWeaveEncryptionType_None) as [->|Hne]; [intros [= <- <-]; cbn; repeat split; lia|]);
    (destruct (mi_EncryptionType i =? kWeaveEncryptionType_AES128CTRSHA1); [|done]); (destruct (n =? 0); [done|]); intros [= <- <-];
    unfold kDigestLength; cbn; repeat split; lia.
Qed.

Lemma encode_header_bytes i : is_bytes (encode_header i).
Proof.
  unfold encode_header. repeat (apply Forall_app; split); try apply le_put_bytes.
  - destruct (has_flag _ i); [apply le_put_bytes|constructor].
  - destruct (has_flag _ i); [apply le_put_bytes|constructor].
  - destruct (_ =? _); [apply le_put_bytes|constructor].
Qed.

(** ** The cryptographic parts *)

Section Laws.
Context {B : BlockCipher} {BL : BlockCipherLaws B} {SHA1 : HashAlgo} {HL : HashLaws SHA1}.

(** The first counter block of a message. *)
Definition message_counter (i : WeaveMessageInfo) : list Z :=
  Counter (SetWeaveMessageCounter (mi_SourceNodeId i) (mi_MessageId i) (CTRMode_SetKey [] CTRMode_new)).

Lemma Encrypt_stream i key data : Z.of_nat (length data) < 65536 ->
  Encrypt_AES128CTRSHA1 i key data = xor_stream key (message_counter i) 0 data.
Proof.
  intros Hn. unfold Encrypt_AES128CTRSHA1. destruct (ctr_at_start key (mi_SourceNodeId i) (mi_MessageId i)) as (Hl & Hb & Hc).
  destruct (EncryptData_stream key _ 0 _ data data Hl Hb Hc) as (c & -> & _); [lia|unfold UINT32_MAX; lia|done|done|]. done.
Qed.

Lemma Encrypt_length i key data : length (Encrypt_AES128CTRSHA1 i key data) = length data.
Proof. apply EncryptData_length. Qed.

Lemma Encrypt_bytes i key data : Z.of_nat (length data) < 65536 -> is_bytes data -> is_bytes (Encrypt_AES128CTRSHA1 i key data).
Proof. intros Hn Hb. rewrite Encrypt_stream by done. by apply xor_stream_bytes. Qed.

(** Decrypting what was encrypted for the same source and message id. *)
Lemma Encrypt_twice i i' key data : Z.of_nat (length data) < 65536 ->
  mi_SourceNodeId i' = mi_SourceNodeId i -> mi_MessageId i' = mi_MessageId i ->
  Encrypt_AES128CTRSHA1 i' key (Encrypt_AES128CTRSHA1 i key data) = data.
Proof.
  intros Hn Hs Hm. rewrite (Encrypt_stream i) by done. rewrite Encrypt_stream by (by rewrite xor_stream_length).
  assert (message_counter i' = message_counter i) as -> by (unfold message_counter; by rewrite Hs, Hm). apply xor_stream_twice.
Qed.

Lemma IntegrityCheck_hmac i key data :
  ComputeIntegrityCheck_AES128CTRSHA1 i key data = hmac (take (Z.to_nat IntegrityKeySize) key) (hmac_header i ++ data).
Proof.
  unfold ComputeIntegrityCheck_AES128CTRSHA1. apply hmac_fed_Finish, hmac_fed_AddData.
  apply (hmac_fed_AddData _ []), hmac_fed_Begin.
Qed.

Lemma IntegrityCheck_length i key data : length (ComputeIntegrityCheck_AES128CTRSHA1 i key data) = kHashLength.
Proof. rewrite IntegrityCheck_hmac. apply hmac_length. Qed.

Lemma IntegrityCheck_bytes i key data : is_bytes (ComputeIntegrityCheck_AES128CTRSHA1 i key data).
Proof. rewrite IntegrityCheck_hmac. apply digest_bytes. Qed.

(** The code over a header is the same on both sides. *)
Lemma hmac_header_decoded i src local i0 : mi_EncryptionType i = kWeaveEncryptionType_AES128CTRSHA1 ->
  (has_flag kWeaveMessageFlag_SourceNodeId i = false -> src = mi_SourceNodeId i) ->
  (has_flag kWeaveMessageFlag_DestNodeId i = false -> local = mi_DestNodeId i) ->
  hmac_header (decoded_info src local i i0) = hmac_header i.
Proof.
  intros He Hs Hd. unfold hmac_header, decoded_info. rewrite He. cbn [mi_SourceNodeId mi_DestNodeId mi_MessageVersion mi_MessageId].
  assert ((if has_flag kWeaveMessageFlag_SourceNodeId i then mi_SourceNodeId i else src) = mi_SourceNodeId i) as ->
    by (destruct (has_flag kWeaveMessageFlag_SourceNodeId i); auto).
  assert ((if has_flag kWeaveMessageFlag_DestNodeId i then mi_DestNodeId i else local) = mi_DestNodeId i) as ->
    by (destruct (has_flag kWeaveMessageFlag_DestNodeId i); auto).
  rewrite !EncodeHeaderField_field. cbn [mi_Flags mi_EncryptionType mi_MessageVersion]. rewrite He.
  change (kWeaveEncryptionType_AES128CTRSHA1 =? kWeaveEncryptionType_None) with false. cbn [negb].
  by rewrite <- field_header_flags.
Qed.
End Laws.

(** ** The fabric state under an encoding *)

Section Stable.
Context {St : Type} `{PersistedStorage St} {G : Type} `{GroupKeyStore G}.
Implicit Types f : WeaveFabricState St G.

Lemma session_key_set_same slot k f : SK_MsgEncKey k = SK_MsgEncKey (session_key slot f) ->
  SK_MsgEncKey (session_key slot (update_session_key slot k f)) = SK_MsgEncKey (session_key slot f).
Proof.
  intros E. unfold session_key, update_session_key. cbn. rewrite !nth_lookup.
  destruct (decide (slot < length (SessionKeys f))%nat) as [Hl|Hl].
  - rewrite list_lookup_insert_eq by done. cbn. rewrite E. unfold session_key. by rewrite nth_lookup.
  - by rewrite list_insert_ge by lia.
Qed.

Lemma enc_key_NewMessageId r f : session_enc_key r (snd (session_NewMessageId r f)) = session_enc_key r f.
Proof.
  destruct r; try done.
  - cbn [session_NewMessageId snd session_enc_key]. by rewrite session_key_set_same.
  - cbn [session_NewMessageId]. by destruct (Advance _).
Qed.

Lemma enc_key_store r s f : session_enc_key r (store_received r s f) = session_enc_key r f.
Proof.
  destruct r; cbn [store_received]; try done; try (by destruct (RcvFlags s)).
  - destruct (RcvFlags s); [|done]. cbn [session_enc_key]. by rewrite session_key_set_same.
  - by destruct peerIndex, (RcvFlags s).
Qed.

Lemma enc_key_IsDuplicate r id f : session_enc_key r (snd (session_IsDuplicateMessage r id f)) = session_enc_key r f.
Proof. unfold session_IsDuplicateMessage. destruct (IsDuplicateMessage _ _) as [b s]. apply enc_key_store. Qed.

Lemma enc_key_SyncReqSent r id f : session_enc_key r (OnMsgCounterSyncReqSent id f) = session_enc_key r f.
Proof. unfold OnMsgCounterSyncReqSent. by destruct (negb _), r. Qed.
End Stable.

(** ** What EncodeMessage leaves behind *)

Lemma has_flag_lor flag x i : Z.land x flag = 0 -> has_flag flag (set_Flags (Z.lor (mi_Flags i) x) i) = has_flag flag i.
Proof. intros E. unfold has_flag, set_Flags. cbn [mi_Flags]. by rewrite Z.land_lor_distr_l, E, Z.lor_0_r. Qed.

Lemma message_lengths_ext i i1 n : mi_EncryptionType i1 = mi_EncryptionType i ->
  has_flag kWeaveMessageFlag_SourceNodeId i1 = has_flag kWeaveMessageFlag_SourceNodeId i ->
  has_flag kWeaveMessageFlag_DestNodeId i1 = has_flag kWeaveMessageFlag_DestNodeId i -> message_lengths i1 n = message_lengths i n.
Proof. intros He Hs Hd. unfold message_lengths. by rewrite He, Hs, Hd. Qed.

(** The buffer whose data is [hdr], stored in front of the data of [p], and
    [body], stored in the place of it: whatever bytes the block has there. *)
Lemma framed_data p hdr body block : wf_pbuf p -> pb_tot_len p = pb_len p ->
  Z.of_nat (length hdr) <= pb_payload p -> length block = length (pb_block p) -> is_bytes block ->
  pb_payload p + Z.of_nat (length body) <= AllocSize p ->
  let s := pb_payload p - Z.of_nat (length hdr) in let q := SetStart s p in
  block_read s (Z.of_nat (length hdr)) block = hdr -> block_read (pb_payload p) (Z.of_nat (length body)) block = body ->
  let r := SetDataLength (u16 (Z.of_nat (length hdr) + pb_len p + (Z.of_nat (length body) - pb_len p)))
             (mkPbuf (pb_next q) (pb_payload q) (pb_tot_len q) (pb_len q) (pb_ref q) block) in
  wf_pbuf r /\ pb_data r = hdr ++ body /\ pb_payload r = s.
Proof.
  intros Hw Ht Hh Hl Hb Hn s q H1 H2 r. pose proof Hw as [].
  destruct (SetStart_back s p Hw ltac:(lia) ltac:(lia)) as (Hwq & _ & Hpq & Hlq & Hbq). fold q in Hwq, Hpq, Hlq, Hbq.
  assert (pb_tot_len q = pb_len q) as Htq by (unfold q, SetStart; cbn [pb_tot_len pb_len]; congruence).
  set (q' := mkPbuf _ _ _ _ _ _) in *.
  assert (AllocSize q' = AllocSize p) as HA by (unfold AllocSize; cbn [q' pb_block]; by rewrite Hl).
  assert (wf_pbuf q') as Hwq'.
  { destruct Hwq. split; rewrite ?HA; cbn [q' pb_payload pb_len pb_tot_len pb_block]; try done; unfold AllocSize in *; rewrite Hbq in *; lia. }
  assert (pb_payload q' = s) as Hps by done.
  destruct (SetDataLength_ok (Z.of_nat (length hdr) + Z.of_nat (length body)) q' Hwq' ltac:(rewrite HA, Hps; lia) Htq) as (Hwr & Hd & Hp & _).
  assert (r = SetDataLength (Z.of_nat (length hdr) + Z.of_nat (length body)) q') as -> by (unfold r; f_equal; rewrite u16_id by lia; lia).
  split; [done|]. split; [|by rewrite Hp]. rewrite Hd, Hps. cbn [q' pb_block].
  rewrite block_read_split, H1 by lia. f_equal. rewrite <- H2 at 2. f_equal. lia.
Qed.

(** The pair a step of an operation computes. *)
Ltac split_pair H a b E := match type of H with (match ?x with (_, _) => _ end) = _ => destruct x as [a b] eqn:E end.

Section Encoding.
Context {B : BlockCipher} {BL : BlockCipherLaws B} {SHA1 : HashAlgo} {HL : HashLaws SHA1}.
Context {St : Type} `{PersistedStorage St} {G : Type} `{GroupKeyStore G}.
Context (digest20 : kHashLength = Z.to_nat kDigestLength).
Implicit Types f : WeaveFabricState St G.

(** The body of a message: the payload, sealed under the key of the session. *)
Definition sealed (i : WeaveMessageInfo) (k : WeaveMsgEncryptionKey) (payload : list Z) : list Z :=
  Encrypt_AES128CTRSHA1 i (DataKey k) (payload ++ ComputeIntegrityCheck_AES128CTRSHA1 i (IntegrityKey k) payload).
Definition message_body (i : WeaveMessageInfo) (key : option WeaveMsgEncryptionKey) (payload : list Z) : option (list Z) :=
  if mi_EncryptionType i =? kWeaveEncryptionType_None then Some payload else option_map (fun k => sealed i k payload) key.

Lemma sealed_length i k payload : Z.of_nat (length (sealed i k payload)) = Z.of_nat (length payload) + kDigestLength.
Proof. unfold sealed. rewrite Encrypt_length, length_app, IntegrityCheck_length, digest20. unfold kDigestLength. mlia. Qed.

Lemma sealed_bytes i k payload : is_bytes payload -> Z.of_nat (length payload) + kDigestLength < 65536 -> is_bytes (sealed i k payload).
Proof.
  intros Hb Hn. apply Encrypt_bytes; [rewrite length_app, IntegrityCheck_length, digest20; unfold kDigestLength in *; mlia|].
  apply Forall_app_2; [done|apply IntegrityCheck_bytes].
Qed.

(** Header, then the tag behind the payload, then the encryption in place. *)
Lemma sealed_in_place p hdr i k : wf_pbuf p -> Z.of_nat (length hdr) <= pb_payload p -> is_bytes hdr ->
  pb_payload p + pb_len p + kDigestLength <= AllocSize p ->
  let s := pb_payload p - Z.of_nat (length hdr) in
  let b1 := block_write s hdr (pb_block p) in
  let payload := block_read (pb_payload p) (pb_len p) b1 in
  let b2 := block_write (pb_payload p + pb_len p) (ComputeIntegrityCheck_AES128CTRSHA1 i (IntegrityKey k) payload) b1 in
  let b3 := block_write (pb_payload p) (Encrypt_AES128CTRSHA1 i (DataKey k) (block_read (pb_payload p) (pb_len p + kDigestLength) b2)) b2 in
  length b3 = length (pb_block p) /\ is_bytes b3 /\ block_read s (Z.of_nat (length hdr)) b3 = hdr /\
  block_read (pb_payload p) (Z.of_nat (length (sealed i k (pb_data p)))) b3 = sealed i k (pb_data p).
Proof.
  intros Hw Hh Hbh Hn s b1 payload b2 b3. pose proof Hw as []. pose proof (pb_data_length p Hw) as HL0. unfold AllocSize in *.
  pose proof (block_write_length s hdr (pb_block p) ltac:(lia) ltac:(lia)) as L1. fold b1 in L1.
  assert (payload = pb_data p) as Hp by (apply block_read_write_after; lia).
  set (tag := ComputeIntegrityCheck_AES128CTRSHA1 i (IntegrityKey k) payload) in *.
  assert (Z.of_nat (length tag) = kDigestLength) as Lt by (unfold tag; rewrite IntegrityCheck_length, digest20; done).
  pose proof (block_write_length (pb_payload p + pb_len p) tag b1 ltac:(lia) ltac:(lia)) as L2. fold b2 in L2.
  assert (block_read (pb_payload p) (pb_len p + kDigestLength) b2 = pb_data p ++ tag) as R2.
  { rewrite block_read_split by (unfold kDigestLength; lia). f_equal.
    - unfold b2. rewrite block_read_write_before by lia. done.
    - rewrite <- Lt. apply block_read_write; lia. }
  assert (b3 = block_write (pb_payload p) (sealed i k (pb_data p)) b2) as E3 by (unfold b3, sealed; rewrite R2; unfold tag; by rewrite Hp).
  pose proof (sealed_length i k (pb_data p)) as Ls.
  rewrite E3. split; [rewrite block_write_length; lia|]. split; [|split].
  - apply block_write_bytes; [apply sealed_bytes; [by apply pb_data_bytes|lia]|].
    apply block_write_bytes; [apply IntegrityCheck_bytes|]. by apply block_write_bytes.
  - rewrite block_read_write_before by lia. unfold b2. rewrite block_read_write_before by lia. apply block_read_write; lia.
  - apply block_read_write; lia.
Qed.

(** What an info keeps while a message is encoded. *)
Definition same_fields (i1 i : WeaveMessageInfo) : Prop :=
  mi_SourceNodeId i1 = mi_SourceNodeId i /\ mi_DestNodeId i1 = mi_DestNodeId i /\ mi_KeyId i1 = mi_KeyId i /\
  mi_MessageVersion i1 = mi_MessageVersion i /\ mi_EncryptionType i1 = mi_EncryptionType i /\
  has_flag kWeaveMessageFlag_SourceNodeId i1 = has_flag kWeaveMessageFlag_SourceNodeId i /\
  has_flag kWeaveMessageFlag_DestNodeId i1 = has_flag kWeaveMessageFlag_DestNodeId i /\
  (has_flag kWeaveMessageFlag_ReuseMessageId i = true -> mi_MessageId i1 = mi_MessageId i).

Lemma encode_with_session_ok hs headLen tailLen i buf f s' :
  encode_with_session hs headLen tailLen (pb_len buf) (mkMsg i buf f) = (Ok tt, s') ->
  wf_pbuf buf -> pb_tot_len buf = pb_len buf -> message_lengths i (pb_len buf) = Ok (headLen, tailLen) ->
  headLen <= pb_payload buf -> pb_payload buf + pb_len buf + tailLen <= AllocSize buf ->
  exists i1 body, same_fields i1 i /\ ms_info s' = set_Flags (Z.lor (mi_Flags i1) kWeaveMessageFlag_MessageEncoded) i1 /\
    Z.land (EncodeHeaderField i1) kMsgHeaderField_ReservedFlagsMask = 0 /\
    message_body i1 (session_enc_key (sh_ref hs) f) (pb_data buf) = Some body /\ Z.of_nat (length body) = pb_len buf + tailLen /\
    wf_pbuf (ms_buf s') /\ pb_data (ms_buf s') = encode_header i1 ++ body /\ pb_payload (ms_buf s') = pb_payload buf - headLen.
Proof.
  intros E Hw Ht Hm Hh Hn. unfold encode_with_session in E. cbn [ms_info ms_buf ms_fabric] in E.
  split_pair E i0 f0 E0.
  assert (session_enc_key (sh_ref hs) f0 = session_enc_key (sh_ref hs) f /\ mi_Flags i0 = mi_Flags i /\ same_fields i0 i) as (K0 & F0 & S0).
  { destruct (Z.land (mi_Flags i) kWeaveMessageFlag_ReuseMessageId =? 0) eqn:Er; [|injection E0 as <- <-; repeat split].
    pose proof (enc_key_NewMessageId (sh_ref hs) f) as K. destruct (session_NewMessageId (sh_ref hs) f) as [id g].
    injection E0 as <- <-. repeat split; [done|]. unfold has_flag. by rewrite Er. }
  split_pair E i1 f1 E1.
  assert (session_enc_key (sh_ref hs) f1 = session_enc_key (sh_ref hs) f /\ same_fields i1 i) as (K1 & S1).
  { destruct (_ && _); injection E1 as <- <-; [|by rewrite K0]. rewrite enc_key_SyncReqSent, K0. split; [done|].
    destruct S0 as (? & ? & ? & ? & ? & ? & ? & ?). repeat split; try done; (etransitivity; [by apply has_flag_lor|done]). }
  clear E0 E1. destruct (Z.land (EncodeHeaderField i1) kMsgHeaderField_ReservedFlagsMask =? 0) eqn:Er; cbn [negb] in E; [|done].
  apply Z.eqb_eq in Er. exists i1.
  split_pair E r f2 E2.
  assert (session_enc_key (sh_ref hs) f2 = session_enc_key (sh_ref hs) f) as K2.
  { destruct (mi_DestNodeId i1 =? kAnyNodeId); [|by injection E2 as <- <-].
    pose proof (enc_key_IsDuplicate (sh_ref hs) (mi_MessageId i1) f1) as K. rewrite E2 in K. cbn [snd] in K. congruence. }
  destruct r; try done. pose proof S1 as (_ & _ & _ & _ & He & Hs & Hd & _).
  pose proof (encode_header_length i1 headLen tailLen (pb_len buf) ltac:(by rewrite (message_lengths_ext i i1))) as (HL1 & Hrange & _ & Htail).
  unfold message_body. unfold Start, buf_write in E. rewrite <- HL1 in E. pose proof (pb_data_length buf Hw) as HD. pose proof Hw as [].
  assert (pb_block (SetStart (pb_payload buf - Z.of_nat (length (encode_header i1))) buf) = pb_block buf) as Hblk by done.
  cbn [pb_next pb_payload pb_tot_len pb_len pb_ref pb_block] in E. rewrite Hblk in E.
  destruct (mi_EncryptionType i1 =? kWeaveEncryptionType_None).
  - injection E as <-. cbn [ms_info ms_buf]. exists (pb_data buf). rewrite HD.
    pose proof (framed_data buf (encode_header i1) (pb_data buf)
      (block_write (pb_payload buf - Z.of_nat (length (encode_header i1))) (encode_header i1) (pb_block buf)) Hw Ht ltac:(lia)) as FD.
    rewrite HD in FD. rewrite Htail. rewrite Z.sub_diag in FD. unfold AllocSize in *. rewrite <- HL1.
    do 4 (split; [done|]). split; [lia|].
    apply FD; [rewrite block_write_length by lia; done|apply block_write_bytes; [apply encode_header_bytes|done]|lia|apply block_read_write; lia|].
    rewrite block_read_write_after by lia. done.
  - rewrite K2 in E. destruct (session_enc_key (sh_ref hs) f) as [k|]; [|done]. injection E as <-. cbn [ms_info ms_buf option_map].
    exists (sealed i1 k (pb_data buf)). pose proof (sealed_length i1 k (pb_data buf)) as LS.
    destruct (sealed_in_place buf (encode_header i1) i1 k Hw ltac:(lia) (encode_header_bytes i1) ltac:(lia)) as (B1 & B2 & B3 & B4).
    pose proof (framed_data buf (encode_header i1) (sealed i1 k (pb_data buf)) _ Hw Ht ltac:(lia) B1 B2 ltac:(lia) B3 B4) as FD.
    replace (Z.of_nat (length (sealed i1 k (pb_data buf))) - pb_len buf) with tailLen in FD by lia. rewrite <- HL1.
    do 4 (split; [done|]). split; [lia|]. exact FD.
Qed.

(** EncodeMessage, when it succeeds on a message that is not encoded yet. *)
Lemma EncodeMessage_ok con maxLen reserve i buf f s' :
  EncodeMessage con maxLen reserve (mkMsg i buf f) = (Ok tt, s') -> has_flag kWeaveMessageFlag_MessageEncoded i = false ->
  wf_pbuf buf -> pb_tot_len buf = pb_len buf -> 0 <= reserve <= 1000 ->
  let node := if mi_DestNodeId i =? kAnyNodeId then mi_SourceNodeId i else mi_DestNodeId i in
  exists h f1 i1 body, GetSessionState node (mi_KeyId i) (mi_EncryptionType i) con f = (Ok h, f1) /\ same_fields i1 i /\
    (mi_EncryptionType i = kWeaveEncryptionType_None \/ mi_EncryptionType i = kWeaveEncryptionType_AES128CTRSHA1) /\
    (mi_MessageVersion i = kWeaveMessageVersion_V1 \/ mi_MessageVersion i = kWeaveMessageVersion_V2) /\
    (mi_EncryptionType i <> kWeaveEncryptionType_None -> 0 < pb_len buf) /\
    ms_info s' = set_Flags (Z.lor (mi_Flags i1) kWeaveMessageFlag_MessageEncoded) i1 /\
    Z.land (EncodeHeaderField i1) kMsgHeaderField_ReservedFlagsMask = 0 /\
    message_body i1 (session_enc_key (sh_ref h) f1) (pb_data buf) = Some body /\
    wf_pbuf (ms_buf s') /\ pb_data (ms_buf s') = encode_header i1 ++ body /\
    pb_len (ms_buf s') <= maxLen /\ reserve <= pb_payload (ms_buf s').
Proof.
  intros E Hf Hw Ht Hr node. unfold EncodeMessage in E. cbn [ms_info ms_buf ms_fabric] in E. rewrite Hf in E. pose proof Hw as [].
  destruct (negb (mi_MessageVersion i =? kWeaveMessageVersion_V1) && negb (mi_MessageVersion i =? kWeaveMessageVersion_V2)) eqn:Ev; [done|].
  destruct (message_lengths i (DataLength buf)) as [[headLen tailLen]| | |] eqn:Em; try done.
  destruct (encode_header_length i headLen tailLen _ Em) as (_ & Hh & Htl & Etl).
  assert ((mi_EncryptionType i = kWeaveEncryptionType_None \/ mi_EncryptionType i = kWeaveEncryptionType_AES128CTRSHA1) /\
          (mi_EncryptionType i <> kWeaveEncryptionType_None -> 0 < pb_len buf)) as [He Hpos].
  { unfold message_lengths in Em. unfold DataLength in Em. destruct (Z.eqb_spec (mi_EncryptionType i) kWeaveEncryptionType_None) as [|Hne]; [by split; [left|]|].
    destruct (Z.eqb_spec (mi_EncryptionType i) kWeaveEncryptionType_AES128CTRSHA1); [|done].
    destruct (Z.eqb_spec (pb_len buf) 0); [done|]. split; [by right|lia]. }
  unfold DataLength in *. destruct (Z.ltb_spec maxLen (headLen + pb_len buf + tailLen)) as [|Hmax]; [done|].
  destruct (EnsureReservedSize (u16 (headLen + reserve)) buf) as [[] buf1] eqn:Eb; [|done]. rewrite u16_id in Eb by lia.
  destruct (EnsureReservedSize_true (headLen + reserve) buf buf1 Hw ltac:(lia) Eb) as (Hw1 & Hd1 & Hp1 & Hl1 & Ha1 & _ & _ & Ht1 & _).
  rewrite MaxDataLength_eq, Hl1 in E by done. destruct (Z.ltb_spec (AllocSize buf1 - pb_payload buf1) (pb_len buf + tailLen)); [done|].
  fold node in E. destruct (GetSessionState node (mi_KeyId i) (mi_EncryptionType i) con f) as [[h| | |] f1]; try done.
  rewrite <- Hl1 in E. rewrite <- Hl1 in Em.
  destruct (encode_with_session_ok h headLen tailLen i buf1 f1 s' E Hw1 ltac:(lia) Em ltac:(lia) ltac:(lia))
    as (i1 & body & Hs & Hi & Hz & Hb & Hlb & Hws & Hds & Hps). rewrite Hd1 in Hb.
  exists h, f1, i1, body. pose proof (pb_data_length _ Hws) as HLs. rewrite Hds, length_app, Nat2Z.inj_add, Hlb in HLs.
  pose proof Hs as (_ & _ & _ & _ & S5 & S6 & S7 & _).
  destruct (encode_header_length i1 headLen tailLen (pb_len buf1) ltac:(by rewrite (message_lengths_ext i i1))) as (HLh & _).
  do 3 (split; [done|]). split; [|do 4 (split; [done|]); split; [exact Hws|split; [exact Hds|lia]]].
  destruct (Z.eqb_spec (mi_MessageVersion i) kWeaveMessageVersion_V1); [by left|].
  destruct (Z.eqb_spec (mi_MessageVersion i) kWeaveMessageVersion_V2); [by right|done].
Qed.

(** The other side, given the data of the message. *)
Lemma sealed_open i1 i2 k payload : hmac_header i2 = hmac_header i1 -> mi_SourceNodeId i2 = mi_SourceNodeId i1 ->
  mi_MessageId i2 = mi_MessageId i1 -> Z.of_nat (length payload) + kDigestLength < 65536 ->
  Encrypt_AES128CTRSHA1 i2 (DataKey k) (sealed i1 k payload) = payload ++ ComputeIntegrityCheck_AES128CTRSHA1 i2 (IntegrityKey k) payload.
Proof.
  intros Eh Es Em Hn. unfold sealed. rewrite Encrypt_twice; [|rewrite length_app, IntegrityCheck_length, digest20; unfold kDigestLength in *; mlia|done..].
  f_equal. rewrite !IntegrityCheck_hmac. by rewrite Eh.
Qed.

Lemma DecodeMessage_ok src con i0 rb (g : WeaveFabricState St G) i1 key payload body h g1 :
  pb_data rb = encode_header i1 ++ body -> wf_pbuf rb -> wf_info i1 ->
  Z.land (EncodeHeaderField i1) kMsgHeaderField_ReservedFlagsMask = 0 ->
  is_bytes payload -> (mi_EncryptionType i1 <> kWeaveEncryptionType_None -> 0 < Z.of_nat (length payload)) ->
  message_body i1 key payload = Some body ->
  (has_flag kWeaveMessageFlag_SourceNodeId i1 = false -> src = mi_SourceNodeId i1) ->
  (has_flag kWeaveMessageFlag_DestNodeId i1 = false -> LocalNodeId g = mi_DestNodeId i1) ->
  let i2 := decoded_info src (LocalNodeId g) i1 (set_SourceNodeId src i0) in
  GetSessionState (mi_SourceNodeId i1) (mi_KeyId i2) (mi_EncryptionType i1) con g = (Ok h, g1) ->
  session_enc_key (sh_ref h) g1 = key ->
  exists rb', DecodeMessage src con (mkMsg i0 rb g) = decode_finish h payload (mkMsg i2 rb' g1).
Proof.
  intros Hd Hw Hi Hz Hpb Hpos Hb Hs Hl i2 EG Hk. unfold DecodeMessage. cbn [ms_buf ms_info ms_fabric]. rewrite Hd.
  rewrite DecodeHeader_encoded by done. change (mi_SourceNodeId (set_SourceNodeId src i0)) with src. fold i2.
  assert (mi_SourceNodeId i2 = mi_SourceNodeId i1) as Es.
  { unfold i2, decoded_info. cbn [mi_SourceNodeId]. destruct (has_flag kWeaveMessageFlag_SourceNodeId i1); auto. }
  change (mi_EncryptionType i2) with (mi_EncryptionType i1). rewrite Es, EG.
  unfold message_body in Hb. destruct Hi as ([He|He] & _); rewrite He in Hb |- *; cbn [Z.eqb kWeaveEncryptionType_None kWeaveEncryptionType_AES128CTRSHA1] in Hb |- *.
  { injection Hb as <-. by eexists. }
  destruct key as [k|]; [|done]. cbn [option_map] in Hb. injection Hb as <-. rewrite Hk.
  pose proof (sealed_length i1 k payload) as LS.
  assert (Z.of_nat (length payload) + kDigestLength < 65536) as Hpl.
  { pose proof (pb_data_length rb Hw) as HL0. rewrite Hd, length_app, Nat2Z.inj_add, LS in HL0. pose proof Hw as []. lia. }
  unfold past_end. rewrite LS.
  rewrite (proj2 (Z.ltb_ge _ _)) by (rewrite He in Hpos; unfold kMinPayloadLen; specialize (Hpos ltac:(done)); lia).
  replace (Z.of_nat (length payload) + kDigestLength - kDigestLength) with (Z.of_nat (length payload)) by lia. rewrite Nat2Z.id.
  rewrite (sealed_open i1 i2) by (done || lia || by apply hmac_header_decoded).
  rewrite take_app_length, drop_app_length.
  assert (length (ComputeIntegrityCheck_AES128CTRSHA1 i2 (IntegrityKey k) payload) = Z.to_nat kDigestLength) as LT by (by rewrite IntegrityCheck_length).
  rewrite take_ge by (rewrite LT; done).
  rewrite ConstantTimeCompare_spec by (done || apply IntegrityCheck_bytes). rewrite bool_decide_eq_true_2 by done. cbn [negb]. by eexists.
Qed.
End Encoding.

(** A frame length that wraps: the buffer as DecodeMessage gets it. *)
Lemma overlong_frame p msgLen : wf_pbuf p -> 2 <= pb_len p -> pb_tot_len p = pb_len p -> 65534 <= msgLen < 65536 ->
  let q := SetDataLength msgLen (SetStart (Start p + 2) p) in
  pb_data q = block_read (pb_payload p + 2) (AllocSize p - (pb_payload p + 2)) (pb_block p) /\ pb_block q = pb_block p.
Proof.
  intros Hw Hn Ht Hm q. pose proof Hw as [].
  destruct (SetStart_forward (Start p + 2) p Hw ltac:(unfold Start; lia)) as (Hw1 & _ & Hp & Hl & Hb).
  assert (AllocSize (SetStart (Start p + 2) p) = AllocSize p) as HA by (unfold AllocSize; by rewrite Hb).
  pose proof (MaxDataLength_eq _ Hw1) as HM. rewrite Hp, HA in HM. unfold q, SetDataLength. rewrite HM. unfold Start in *.
  destruct (Z.ltb_spec (AllocSize p - (pb_payload p + 2)) msgLen) as [_|Hge].
  - split; [|done]. unfold pb_data. cbn [pb_payload pb_len pb_block]. by rewrite Hp, Hb.
  - lia.
Qed.

(** What a receiver's context does with one message. *)
Section Receiving.
Context {B : BlockCipher} {BL : BlockCipherLaws B} {SHA1 : HashAlgo} {HL : HashLaws SHA1}.
Context {St : Type} `{PersistedStorage St} {G : Type} `{GroupKeyStore G}.
Implicit Types f : WeaveFabricState St G.

(** The shape of a successful DecodeMessage. *)
Lemma DecodeMessage_inv src con i0 buf f payload s' : DecodeMessage src con (mkMsg i0 buf f) = (Ok payload, s') ->
  exists p i h f1 buf1, DecodeHeader (LocalNodeId f) (pb_data buf) (set_SourceNodeId src i0) = (Ok p, i) /\
    GetSessionState (mi_SourceNodeId i) (mi_KeyId i) (mi_EncryptionType i) con f = (Ok h, f1) /\
    decode_finish h payload (mkMsg i buf1 f1) = (Ok payload, s') /\
    (forall f2, session_enc_key (sh_ref h) f2 = session_enc_key (sh_ref h) f1 -> LocalNodeId f2 = LocalNodeId f -> forall buf' f3, pb_data buf' = pb_data buf ->
      GetSessionState (mi_SourceNodeId i) (mi_KeyId i) (mi_EncryptionType i) con f3 = (Ok h, f2) -> LocalNodeId f3 = LocalNodeId f ->
      exists buf2, DecodeMessage src con (mkMsg i0 buf' f3) = decode_finish h payload (mkMsg i buf2 f2)).
Proof.
  intros E. unfold DecodeMessage in E. cbn [ms_info ms_buf ms_fabric] in E.
  destruct (DecodeHeader (LocalNodeId f) (pb_data buf) (set_SourceNodeId src i0)) as [[p| | |] i] eqn:EH; try done.
  destruct (GetSessionState (mi_SourceNodeId i) (mi_KeyId i) (mi_EncryptionType i) con f) as [[h| | |] f1] eqn:EG; try done.
  exists p, i, h, f1.
  destruct (mi_EncryptionType i =? kWeaveEncryptionType_None) eqn:Ee.
  { pose proof E as E2. unfold decode_finish in E2. destruct (session_IsDuplicateMessage _ _ _) as [[d| | |] g]; try done.
    assert (payload = p) as -> by congruence. exists buf. do 3 (split; [done|]). intros f2 Hk Hl buf' f3 Hd EG2 Hl3.
    unfold DecodeMessage. cbn [ms_info ms_buf ms_fabric]. rewrite Hd, Hl3, EH, EG2, Ee. by eexists. }
  destruct (mi_EncryptionType i =? kWeaveEncryptionType_AES128CTRSHA1) eqn:Ea; [|done]. destruct (past_end _ p) eqn:Ep; [done|].
  destruct (session_enc_key (sh_ref h) f1) as [k|] eqn:Ek; [|done]. set (plain := Encrypt_AES128CTRSHA1 i (DataKey k) p) in *.
  match type of E with (if negb ?c then _ else _) = _ => destruct c eqn:Ec; cbn [negb] in E; [|done] end.
  pose proof E as E2. unfold decode_finish in E2. destruct (session_IsDuplicateMessage _ _ _) as [[d| | |] g]; try done.
  assert (payload = take (Z.to_nat (Z.of_nat (length p) - kDigestLength)) plain) as -> by congruence.
  eexists. do 3 (split; [done|]). intros f2 Hk Hl buf' f3 Hd EG2 Hl3.
  unfold DecodeMessage. cbn [ms_info ms_buf ms_fabric]. rewrite Hd, Hl3, EH, EG2, Ee, Ea, Ep, Hk. fold plain. rewrite Ec. cbn [negb]. by eexists.
Qed.

Lemma decode_finish_info h payload i buf f s' : decode_finish h payload (mkMsg i buf f) = (Ok payload, s') ->
  exists dup f', session_IsDuplicateMessage (sh_ref h) (mi_MessageId i) f = (Ok dup, f') /\ ms_fabric s' = f' /\ ms_buf s' = buf /\
    mi_SourceNodeId (ms_info s') = mi_SourceNodeId i /\ mi_DestNodeId (ms_info s') = mi_DestNodeId i /\
    mi_MessageId (ms_info s') = mi_MessageId i /\ mi_KeyId (ms_info s') = mi_KeyId i /\ mi_MessageVersion (ms_info s') = mi_MessageVersion i /\
    mi_EncryptionType (ms_info s') = mi_EncryptionType i /\ mi_PeerAuthMode (ms_info s') = sh_AuthMode h /\
    mi_Flags (ms_info s') = Z.lor (Z.lor (mi_Flags i) (if dup then kWeaveMessageFlag_DuplicateMessage else 0))
      (if session_MessageIdNotSynchronized (sh_ref h) f' && IsAppGroupKey (mi_KeyId i) then kWeaveMessageFlag_PeerGroupMsgIdNotSynchronized else 0).
Proof.
  unfold decode_finish. cbn [ms_info ms_buf ms_fabric]. destruct (session_IsDuplicateMessage _ _ _) as [[dup| | |] f'] eqn:E; try done.
  intros [= <-]. exists dup, f'. split; [done|].
  destruct dup; cbn [mi_KeyId set_Flags]; destruct (_ && _); cbn; rewrite ?Z.lor_0_r; repeat split.
Qed.
End Receiving.

(** ** Properties *)

(** the header codec is a round trip: DecodeHeader reads what EncodeMessage
    writes before the payload, whatever follows, and stops at the payload.  Node
    ids the header leaves out come from the connection and from the local node, a
    message that is not encrypted has no key id and no synchronization request,
    and of the flags only those of the header field travel. *)
Theorem MessageHeader_roundtrip local i i0 payload : wf_info i ->
  Z.land (EncodeHeaderField i) kMsgHeaderField_ReservedFlagsMask = 0 ->
  exists i', DecodeHeader local (encode_header i ++ payload) i0 = (Ok payload, i') /\
    mi_SourceNodeId i' = (if has_flag kWeaveMessageFlag_SourceNodeId i then mi_SourceNodeId i else mi_SourceNodeId i0) /\
    mi_DestNodeId i' = (if has_flag kWeaveMessageFlag_DestNodeId i then mi_DestNodeId i else local) /\
    mi_MessageId i' = mi_MessageId i /\ mi_MessageVersion i' = mi_MessageVersion i /\ mi_EncryptionType i' = mi_EncryptionType i /\
    mi_KeyId i' = (if mi_EncryptionType i =? kWeaveEncryptionType_None then kNone else mi_KeyId i) /\
    mi_Flags i' = Z.land (Z.land (mi_Flags i) kMsgHeaderField_FlagsMask)
                    (if mi_EncryptionType i =? kWeaveEncryptionType_None then Z.lnot kWeaveMessageFlag_MsgCounterSyncReq else -1).
Proof.
  intros Hi Hz. eexists. split; [by apply DecodeHeader_encoded|]. unfold decoded_info. cbn.
  destruct (mi_EncryptionType i =? kWeaveEncryptionType_None); cbn [negb]; by rewrite ?Z.land_m1_r.
Qed.

Definition test_info : WeaveMessageInfo := mkInfo 42 1 7 768 8197 2 1 0.

Theorem MessageHeader_roundtrip_witness :
  exists i', DecodeHeader 9 (encode_header test_info ++ [1; 2; 3]) Info_Clear = (Ok [1; 2; 3], i') /\
    mi_SourceNodeId i' = 42 /\ mi_DestNodeId i' = 1 /\ mi_MessageId i' = 7 /\ mi_MessageVersion i' = 2 /\ mi_EncryptionType i' = 1 /\
    mi_KeyId i' = 8197 /\ mi_Flags i' = 768.
Proof.
  apply (MessageHeader_roundtrip 9 test_info Info_Clear [1; 2; 3]); [|reflexivity].
  unfold wf_info, test_info. cbn. repeat split; lia || (right; reflexivity).
Defined.

(** C10: a message goes through the layer unchanged.  What EncodeMessage makes of
    the data of a buffer fits maxLen, and DecodeMessage, on a node whose session
    state for the message has the same key, turns it back into exactly that data,
    with the source and destination, message id, version, encryption type and key
    id the sender had, and marks it as a duplicate when the receiver's session
    says so. *)
Theorem Message_roundtrip {B : BlockCipher} {BL : BlockCipherLaws B} {SHA1 : HashAlgo} {HL : HashLaws SHA1} {St} `{PersistedStorage St} {G} `{GroupKeyStore G}
    con maxLen reserve i buf (f f1 : WeaveFabricState St G) s' hs src con' i0 rb (g g1 g2 : WeaveFabricState St G) hr dup :
  let node := if mi_DestNodeId i =? kAnyNodeId then mi_SourceNodeId i else mi_DestNodeId i in
  let keyId := if mi_EncryptionType i =? kWeaveEncryptionType_None then kNone else mi_KeyId i in
  kHashLength = Z.to_nat kDigestLength ->
  EncodeMessage con maxLen reserve (mkMsg i buf f) = (Ok tt, s') -> has_flag kWeaveMessageFlag_MessageEncoded i = false ->
  wf_pbuf buf -> pb_tot_len buf = pb_len buf -> 0 <= reserve <= 1000 ->
  0 <= mi_SourceNodeId i < 18446744073709551616 -> 0 <= mi_DestNodeId i < 18446744073709551616 ->
  0 <= mi_KeyId i < 65536 -> 0 <= mi_MessageId (ms_info s') < 4294967296 ->
  GetSessionState node (mi_KeyId i) (mi_EncryptionType i) con f = (Ok hs, f1) ->
  wf_pbuf rb -> pb_data rb = pb_data (ms_buf s') ->
  (has_flag kWeaveMessageFlag_SourceNodeId i = false -> src = mi_SourceNodeId i) ->
  (has_flag kWeaveMessageFlag_DestNodeId i = false -> LocalNodeId g = mi_DestNodeId i) ->
  GetSessionState (mi_SourceNodeId i) keyId (mi_EncryptionType i) con' g = (Ok hr, g1) ->
  session_enc_key (sh_ref hr) g1 = session_enc_key (sh_ref hs) f1 ->
  session_IsDuplicateMessage (sh_ref hr) (mi_MessageId (ms_info s')) g1 = (Ok dup, g2) ->
  pb_len (ms_buf s') <= maxLen /\
  exists r, DecodeMessage src con' (mkMsg i0 rb g) = (Ok (pb_data buf), r) /\ ms_fabric r = g2 /\
    mi_SourceNodeId (ms_info r) = mi_SourceNodeId i /\ mi_DestNodeId (ms_info r) = mi_DestNodeId i /\
    mi_MessageId (ms_info r) = mi_MessageId (ms_info s') /\ mi_MessageVersion (ms_info r) = mi_MessageVersion i /\
    mi_EncryptionType (ms_info r) = mi_EncryptionType i /\ mi_KeyId (ms_info r) = keyId /\
    mi_PeerAuthMode (ms_info r) = sh_AuthMode hr /\ has_flag kWeaveMessageFlag_DuplicateMessage (ms_info r) = dup.
Proof.
  intros node keyId D20 E Hf Hw Ht Hr Rs Rd Rk Rm Es Hwr Hdr Hs Hl Er Ek Ed.
  destruct (EncodeMessage_ok D20 con maxLen reserve i buf f s' E Hf Hw Ht Hr)
    as (h & f1' & i1 & body & Es' & (S1 & S2 & S3 & S4 & S5 & S6 & S7 & _) & He & Hv & Hpos & Hi & Hz & Hb & Hws & Hds & Hmax & _).
  fold node in Es'. rewrite Es in Es'. injection Es' as <- <-. split; [done|].
  pose proof (pb_data_length buf Hw) as HLn. pose proof Hw as [].
  assert (mi_MessageId (ms_info s') = mi_MessageId i1) as Em by (by rewrite Hi). rewrite Em in Rm, Ed.
  assert (wf_info i1) as Hwi by (unfold wf_info; by rewrite S1, S2, S3, S4, S5).
  rewrite Hds in Hdr. rewrite <- Ek in Hb. rewrite <- S6 in Hs. rewrite <- S7 in Hl. rewrite <- S1 in Hs, Er. rewrite <- S2 in Hl.
  destruct (DecodeMessage_ok D20 src con' i0 rb g i1 _ (pb_data buf) body hr g1 Hdr Hwr Hwi Hz (pb_data_bytes buf Hw)
    ltac:(rewrite S5, HLn; done) Hb Hs Hl) as (rb' & E2); [|done|].
  { cbn [decoded_info mi_KeyId set_SourceNodeId]. rewrite <- Er. unfold keyId. rewrite S5. f_equal.
    destruct (mi_EncryptionType i =? kWeaveEncryptionType_None); [done|by cbn]. }
  set (i2 := decoded_info _ _ _ _) in *. rewrite E2.
  destruct (decode_finish hr (pb_data buf) (mkMsg i2 rb' g1)) as [rr r] eqn:Efin.
  assert (rr = Ok (pb_data buf)) as ->.
  { unfold decode_finish in Efin. cbn [ms_info ms_fabric ms_buf] in Efin. change (mi_MessageId i2) with (mi_MessageId i1) in Efin.
    rewrite Ed in Efin. congruence. }
  destruct (decode_finish_info _ _ _ _ _ _ Efin) as (dup' & g2' & Ed' & F1 & _ & F2 & F3 & F4 & F5 & F6 & F7 & F8 & F9).
  change (mi_MessageId i2) with (mi_MessageId i1) in *. rewrite Ed in Ed'. injection Ed' as <- <-.
  exists r. split; [done|]. split; [done|].
  assert (mi_SourceNodeId i2 = mi_SourceNodeId i1) as B1 by (unfold i2, decoded_info; cbn [mi_SourceNodeId]; destruct (has_flag kWeaveMessageFlag_SourceNodeId i1); auto).
  assert (mi_DestNodeId i2 = mi_DestNodeId i1) as B2 by (unfold i2, decoded_info; cbn [mi_DestNodeId]; destruct (has_flag kWeaveMessageFlag_DestNodeId i1); auto).
  rewrite F2, F3, F4, F5, F6, F7, F8, B1, B2, Em.
  repeat split; try done.
  - unfold i2, decoded_info, keyId. cbn [mi_KeyId]. rewrite S5, S3. by destruct (mi_EncryptionType i =? kWeaveEncryptionType_None).
  - assert (exists m, mi_Flags i2 = Z.land (Z.land (mi_Flags i1) kMsgHeaderField_FlagsMask) m) as (m & Em2).
    { unfold i2, decoded_info. cbn [mi_Flags]. destruct (negb _); [exists (-1); by rewrite Z.land_m1_r|by eexists]. }
    unfold has_flag. rewrite F9, !Z.land_lor_distr_l, Em2, <- !Z.land_assoc.
    rewrite (Z.land_comm m), (Z.land_assoc kMsgHeaderField_FlagsMask). change (Z.land kMsgHeaderField_FlagsMask kWeaveMessageFlag_DuplicateMessage) with 0.
    rewrite Z.land_0_l, Z.land_0_r. destruct (_ && _), dup; done.
Qed.

(** Node [node] with the session key 8197 shared with [peer], a buffer, and the
    codec over the evaluation cipher and hash. *)
Definition test_node (node peer : Z) : WeaveFabricState (gmap string Z * list bool) unit :=
  let f := snd (AllocSessionKey [] peer None 8197 false (test_fabric node)) in
  snd (SetSessionKey 8197 peer kWeaveEncryptionType_AES128CTRSHA1 4097 (replicate 16 3) (replicate 20 4) f).
Definition test_buf (data : list Z) : PacketBuffer :=
  mkPbuf None 40 (Z.of_nat (length data)) (Z.of_nat (length data)) 1 (replicate 40 0 ++ data ++ replicate 30 0).
Definition test_encode := EncodeMessage (B := toy_cipher) (SHA1 := toy_sha1) (St := gmap string Z * list bool) (G := unit).
Definition test_decode := DecodeMessage (B := toy_cipher) (SHA1 := toy_sha1) (St := gmap string Z * list bool) (G := unit).

Definition test_sent : res unit * MsgState (gmap string Z * list bool) unit :=
  test_encode None 200 0 (mkMsg test_info (test_buf [10; 20; 30]) (test_node 42 1)).
Definition test_wire : PacketBuffer := ms_buf (snd test_sent).

Lemma wf_test_wire : wf_pbuf test_wire.
Proof. split; [vm_compute; congruence| vm_compute; congruence| vm_compute; congruence| vm_compute; congruence| vm_compute; split; congruence|]. apply byte_ok_spec. vm_compute. reflexivity. Qed.

Lemma wf_test_buf data : Z.of_nat (length data) < 65000 -> is_bytes data -> wf_pbuf (test_buf data).
Proof.
  intros Hn Hb. unfold test_buf. split; unfold AllocSize; cbn [pb_payload pb_len pb_tot_len pb_block]; rewrite ?length_app, ?length_replicate; try lia.
  apply Forall_app_2; [by apply byte_ok_spec|]. apply Forall_app_2; [done|by apply byte_ok_spec].
Qed.

Theorem Message_roundtrip_witness :
  pb_len test_wire <= 200 /\
  exists r, test_decode 0 None (mkMsg Info_Clear test_wire (test_node 1 42)) = (Ok [10; 20; 30], r) /\
    mi_SourceNodeId (ms_info r) = 42 /\ mi_MessageId (ms_info r) = 0 /\ has_flag kWeaveMessageFlag_DuplicateMessage (ms_info r) = false.
Proof.
  pose (i := test_info). pose (g := test_node 1 42). pose (f := test_node 42 1).
  assert (session_IsDuplicateMessage (SessionKeyRef 0) (mi_MessageId (ms_info (snd test_sent))) g =
    (Ok false, snd (session_IsDuplicateMessage (SessionKeyRef 0) (mi_MessageId (ms_info (snd test_sent))) g))) as Ed by (vm_compute; reflexivity).
  destruct (Message_roundtrip (B := toy_cipher) (SHA1 := toy_sha1) None 200 0 i (test_buf [10; 20; 30]) f f (snd test_sent)
    (mkHandle (SessionKeyRef 0) 4097) 0 None Info_Clear test_wire g g
    (snd (session_IsDuplicateMessage (SessionKeyRef 0) (mi_MessageId (ms_info (snd test_sent))) g)) (mkHandle (SessionKeyRef 0) 4097) false) as (L & r & E & _ & Hs & _ & Hm & _ & _ & _ & _ & Hd).
  - reflexivity.
  - vm_compute. reflexivity.
  - reflexivity.
  - apply wf_test_buf; [reflexivity|by apply byte_ok_spec].
  - reflexivity.
  - lia.
  - vm_compute; split; congruence.
  - vm_compute; split; congruence.
  - vm_compute; split; congruence.
  - vm_compute; split; congruence.
  - vm_compute. reflexivity.
  - exact wf_test_wire.
  - reflexivity.
  - discriminate.
  - discriminate.
  - vm_compute. reflexivity.
  - vm_compute. reflexivity.
  - exact Ed.
  - split; [exact L|]. exists r. split; [exact E|]. split; [exact Hs|]. split; [rewrite Hm; vm_compute; reflexivity|exact Hd].
Defined.

(** C11: a replayed message is marked.  Once DecodeMessage has accepted a message
    under a session key, decoding the same bytes again gives the same payload with
    the DuplicateMessage flag, and leaves the fabric state as it was. *)
Theorem Message_replay_marked {B : BlockCipher} {SHA1 : HashAlgo} {St} `{PersistedStorage St} {G} `{GroupKeyStore G}
    src con i0 buf buf2 (f : WeaveFabricState St G) payload s1 :
  DecodeMessage src con (mkMsg i0 buf f) = (Ok payload, s1) -> IsSessionKey (mi_KeyId (ms_info s1)) = true -> pb_data buf2 = pb_data buf ->
  exists s2, DecodeMessage src con (mkMsg i0 buf2 (ms_fabric s1)) = (Ok payload, s2) /\
    has_flag kWeaveMessageFlag_DuplicateMessage (ms_info s2) = true /\ ms_fabric s2 = ms_fabric s1 /\
    mi_MessageId (ms_info s2) = mi_MessageId (ms_info s1) /\ mi_SourceNodeId (ms_info s2) = mi_SourceNodeId (ms_info s1).
Proof.
  intros E Hk Hd. destruct (DecodeMessage_inv _ _ _ _ _ _ _ E) as (p & i & h & f1 & buf1 & EH & EG & Ef & Hagain).
  destruct (decode_finish_info _ _ _ _ _ _ Ef) as (dup & f2 & Ed & <- & _ & F2 & _ & F4 & F5 & _). rewrite F5 in Hk.
  destruct (GetSessionState_key _ _ _ _ _ _ _ Hk EG) as (-> & slot & Es & Er & Hst).
  pose proof (FindSessionKey_bound _ _ _ _ Es) as Hb. rewrite Er in Ed.
  destruct (session_IsDuplicate_settles slot f Hb _ _ _ Ed) as (Ed2 & st & Hf2).
  assert (LocalNodeId (ms_fabric s1) = LocalNodeId f) as Hl by (rewrite Hf2; cbn; by destruct (RcvFlags st)).
  destruct (Hagain (ms_fabric s1) ltac:(rewrite Er, Hf2; apply enc_key_store) Hl buf2 (ms_fabric s1) Hd
    ltac:(rewrite Hf2; apply Hst) Hl) as (buf3 & E3).
  destruct (decode_finish h payload (mkMsg i buf3 (ms_fabric s1))) as [r s2] eqn:Ef2.
  assert (r = Ok payload) as ->.
  { unfold decode_finish in Ef2. cbn [ms_info ms_fabric ms_buf] in Ef2. rewrite Er, Ed2 in Ef2. congruence. }
  destruct (decode_finish_info _ _ _ _ _ _ Ef2) as (dup' & f3 & Ed3 & F1' & _ & F2' & _ & F4' & _ & _ & _ & _ & F9).
  rewrite Er, Ed2 in Ed3. injection Ed3 as <- Ef3. exists s2. rewrite E3. split; [done|].
  split; [|rewrite F1', F4', F2', F4, F2; done].
  unfold has_flag. rewrite F9, !Z.land_lor_distr_l. change (Z.land kWeaveMessageFlag_DuplicateMessage kWeaveMessageFlag_DuplicateMessage) with 32768.
  apply negb_true_iff, Z.eqb_neq. intros Hz. apply (f_equal (fun x => Z.testbit x 15)) in Hz.
  rewrite !Z.lor_spec in Hz. change (Z.testbit 32768 15) with true in Hz. by rewrite orb_true_r in Hz.
Qed.

Theorem Message_replay_marked_witness :
  let s1 := snd (test_decode 0 None (mkMsg Info_Clear test_wire (test_node 1 42))) in
  exists s2, test_decode 0 None (mkMsg Info_Clear test_wire (ms_fabric s1)) = (Ok [10; 20; 30], s2) /\
    has_flag kWeaveMessageFlag_DuplicateMessage (ms_info s2) = true /\ ms_fabric s2 = ms_fabric s1.
Proof.
  intros s1. destruct (Message_replay_marked (B := toy_cipher) (SHA1 := toy_sha1) 0 None Info_Clear test_wire test_wire (test_node 1 42) [10; 20; 30] s1)
    as (s2 & E & Hd & Hf & _); [vm_compute; reflexivity|vm_compute; reflexivity|reflexivity|]. exists s2. exact (conj E (conj Hd Hf)).
Defined.

(** C12: only authentic messages touch the replay window.  On a message encrypted
    under a key the receiver has, DecodeMessage goes on to the duplicate check only
    when the body decrypts to a non-empty payload followed by the HMAC of the
    header fields and that payload; every other body is an error that leaves the
    fabric state as the lookup of the session left it. *)
Theorem DecodeMessage_authentic {B : BlockCipher} {BL : BlockCipherLaws B} {SHA1 : HashAlgo} {HL : HashLaws SHA1}
    {St} `{PersistedStorage St} {G} `{GroupKeyStore G}
    src con i0 buf (f f1 : WeaveFabricState St G) p i h k : kHashLength = Z.to_nat kDigestLength ->
  wf_pbuf buf -> DecodeHeader (LocalNodeId f) (pb_data buf) (set_SourceNodeId src i0) = (Ok p, i) ->
  is_bytes p -> Z.of_nat (length p) < 65536 -> mi_EncryptionType i = kWeaveEncryptionType_AES128CTRSHA1 ->
  GetSessionState (mi_SourceNodeId i) (mi_KeyId i) (mi_EncryptionType i) con f = (Ok h, f1) -> session_enc_key (sh_ref h) f1 = Some k ->
  let plain := xor_stream (DataKey k) (message_counter i) 0 p in
  let '(r, s') := DecodeMessage src con (mkMsg i0 buf f) in
  (exists payload buf', payload <> [] /\
     plain = payload ++ hmac (take (Z.to_nat IntegrityKeySize) (IntegrityKey k)) (hmac_header i ++ payload) /\
     (r, s') = decode_finish h payload (mkMsg i buf' f1)) \/
  ((r = Err WEAVE_ERROR_INVALID_MESSAGE_LENGTH \/ r = Err WEAVE_ERROR_INTEGRITY_CHECK_FAILED) /\ ms_fabric s' = f1).
Proof.
  intros D20 Hw EH Hb Hn He EG Ek plain. unfold DecodeMessage. cbn [ms_info ms_buf ms_fabric]. rewrite EH, EG, He, Ek.
  cbn [Z.eqb kWeaveEncryptionType_None kWeaveEncryptionType_AES128CTRSHA1 Pos.eqb]. unfold past_end.
  destruct (Z.ltb_spec (Z.of_nat (length p)) (kMinPayloadLen + kDigestLength)) as [|Hlen]; [right; split; [by left|done]|].
  rewrite (Encrypt_stream i (DataKey k) p) by mlia. fold plain. unfold kMinPayloadLen, kDigestLength in *.
  assert (length plain = length p) as Lp by apply xor_stream_length.
  assert (is_bytes plain) as Bp by (by apply xor_stream_bytes).
  set (n := Z.to_nat (Z.of_nat (length p) - 20)). set (payload := take n plain).
  set (e := ComputeIntegrityCheck_AES128CTRSHA1 i (IntegrityKey k) payload).
  assert (length e = 20%nat) as Le by (unfold e; by rewrite IntegrityCheck_length).
  assert (is_bytes e) as Be by apply IntegrityCheck_bytes.
  change (Z.to_nat 20) with 20%nat. rewrite !take_ge by (rewrite ?length_drop, ?Le; lia).
  rewrite ConstantTimeCompare_spec; [|by apply Forall_drop|done|rewrite length_drop, Le; lia].
  destruct (bool_decide_reflect (drop n plain = e)) as [Eq|Ne]; cbn [negb]; [|right; split; [by right|done]].
  destruct (decode_finish _ _ _) as [r s'] eqn:Ed. left. exists payload. eexists. split; [|split; [|symmetry; exact Ed]].
  - intros Hz. apply (f_equal length) in Hz. unfold payload in Hz. rewrite length_take in Hz. cbn in Hz. lia.
  - rewrite <- (take_drop n plain) at 1. fold payload. rewrite Eq. unfold e. by rewrite IntegrityCheck_hmac.
Qed.

Theorem DecodeMessage_authentic_witness :
  let i := snd (DecodeHeader 1 (pb_data test_wire) Info_Clear) in
  let p := drop 24 (pb_data test_wire) in
  let plain := xor_stream (B := toy_cipher) (replicate 16 3) (message_counter (B := toy_cipher) i) 0 p in
  exists payload buf', payload <> [] /\
    plain = payload ++ hmac (H := toy_sha1) (replicate 20 4) (hmac_header i ++ payload) /\
    test_decode 0 None (mkMsg Info_Clear test_wire (test_node 1 42)) =
    decode_finish (mkHandle (SessionKeyRef 0) 4097) payload (mkMsg i buf' (test_node 1 42)).
Proof.
  intros i p plain.
  pose proof (DecodeMessage_authentic (B := toy_cipher) (SHA1 := toy_sha1) 0 None Info_Clear test_wire (test_node 1 42) (test_node 1 42) p i
    (mkHandle (SessionKeyRef 0) 4097) (mkMsgEncKey 8197 1 (replicate 16 3) (replicate 20 4)) eq_refl wf_test_wire
    ltac:(vm_compute; reflexivity) ltac:(apply byte_ok_spec; vm_compute; reflexivity) ltac:(vm_compute; reflexivity) ltac:(vm_compute; reflexivity)
    ltac:(vm_compute; reflexivity) ltac:(vm_compute; reflexivity)) as T.
  cbv zeta in T. revert T.
  assert (fst (test_decode 0 None (mkMsg Info_Clear test_wire (test_node 1 42))) = Ok [10; 20; 30]) as Er by (vm_compute; reflexivity). revert Er. unfold test_decode.
  destruct (DecodeMessage 0 None (mkMsg Info_Clear test_wire (test_node 1 42))) as [r s']. intros Er. cbn [fst] in Er. subst r.
  intros [(payload & buf' & T1 & T2 & T3)|[[T|T] _]]; [|discriminate T|discriminate T].
  exists payload, buf'. exact (conj T1 (conj T2 T3)).
Defined.

(** C13: framing.  An incomplete frame is reported with its length and without
    touching anything, except for the two length fields that wrap: a message
    length of 65534 or 65535 makes the frame length 0 or 1, the incomplete frame
    counts as complete, and DecodeMessage runs on all the memory of the buffer
    behind the length field, received or not. *)
Theorem DecodeMessageWithLength_framing {B : BlockCipher} {SHA1 : HashAlgo} {St} `{PersistedStorage St} {G} `{GroupKeyStore G}
    src con i buf (f : WeaveFabricState St G) msgLen :
  wf_pbuf buf -> 2 <= pb_len buf -> pb_tot_len buf = pb_len buf -> LittleEndian_Get16 (pb_data buf) = msgLen -> 0 <= msgLen < 65536 ->
  pb_len buf < msgLen + 2 ->
  let '(r, frameLen, s') := DecodeMessageWithLength src con (mkMsg i buf f) in
  (msgLen < 65534 ->
     frameLen = msgLen + 2 /\ s' = mkMsg i buf f /\
     r = Err (if AllocSize buf <? msgLen + 2 then WEAVE_ERROR_MESSAGE_TOO_LONG else WEAVE_ERROR_MESSAGE_INCOMPLETE)) /\
  (65534 <= msgLen ->
     frameLen = msgLen - 65534 /\
     exists buf', pb_data buf' = block_read (pb_payload buf + 2) (AllocSize buf - (pb_payload buf + 2)) (pb_block buf) /\
       r = fst (DecodeMessage src con (mkMsg i buf' f))).
Proof.
  intros Hw Hn Ht Hg Hm Hi. pose proof Hw as []. unfold DecodeMessageWithLength. cbn [ms_buf ms_info ms_fabric]. unfold DataLength. rewrite Hg.
  rewrite (proj2 (Z.ltb_ge (pb_len buf) 2)) by lia. rewrite MaxDataLength_eq, ReservedSize_eq by done.
  destruct (Z.lt_ge_cases msgLen 65534) as [Hs|Hs].
  - rewrite (u16_id (msgLen + 2)) by lia. rewrite (proj2 (Z.ltb_lt _ _)) by lia.
    replace (AllocSize buf - pb_payload buf + pb_payload buf) with (AllocSize buf) by lia.
    destruct (AllocSize buf <? msgLen + 2); split; [done|lia|done|lia].
  - assert (u16 (msgLen + 2) = msgLen - 65534) as -> by mlia. rewrite (proj2 (Z.ltb_ge _ _)) by lia.
    destruct (overlong_frame buf msgLen Hw Hn Ht ltac:(lia)) as (Hd & _). set (q := SetDataLength _ _) in *.
    destruct (DecodeMessage src con (mkMsg i q f)) as [[payload| | |] s] eqn:E; (split; [lia|]); intros _; (split; [done|]);
      exists q; by rewrite E.
Qed.

(** A frame of 65535 announced in a buffer of 75 bytes, 5 of them received. *)
Theorem DecodeMessageWithLength_framing_witness :
  let buf := test_buf [255; 255; 0; 0; 0] in
  let '(r, frameLen, _) := DecodeMessageWithLength (B := toy_cipher) (SHA1 := toy_sha1) 0 None (mkMsg Info_Clear buf (test_node 1 42)) in
  frameLen = 1 /\ exists buf', Z.of_nat (length (pb_data buf')) = 33 /\
    r = fst (DecodeMessage (B := toy_cipher) (SHA1 := toy_sha1) 0 None (mkMsg Info_Clear buf' (test_node 1 42))).
Proof.
  intros buf.
  pose proof (DecodeMessageWithLength_framing (B := toy_cipher) (SHA1 := toy_sha1) 0 None Info_Clear buf (test_node 1 42) 65535
    (wf_test_buf [255; 255; 0; 0; 0] eq_refl (byte_ok_spec [255; 255; 0; 0; 0] eq_refl)) ltac:(discriminate) eq_refl eq_refl ltac:(lia) ltac:(reflexivity)) as T.
  destruct (DecodeMessageWithLength _ _ _) as [[r n] s]. destruct T as [_ T]. destruct (T ltac:(lia)) as (T1 & buf' & T2 & T3).
  split; [done|]. exists buf'. split; [rewrite T2; reflexivity|done].
Defined.
