(* ===== verification/Address.v ===== *)
(** * Internet addresses and Weave node addresses

    IPAddress.cpp, IPPrefix.cpp (src/src/inet) and the conversions of
    WeaveMessageLayer.h and WeaveFabricState.cpp between node identifiers and the
    addresses of a fabric.  An address is its four 32-bit words in host order
    (the code keeps [htonl] of each). *)
From S2P Require Import Prelude Encoding.

(** The port of Weave messages (WeaveConfig.h) *)
Definition WEAVE_PORT : Z := 11095%Z.

Record IPAddress := mkAddr { Addr0 : Z; Addr1 : Z; Addr2 : Z; Addr3 : Z }.
#[export] Instance IPAddress_eq_dec : EqDecision IPAddress.
Proof. solve_decision. Defined.

(** [Addr[i]] *)
Definition Addr_word (a : IPAddress) (i : nat) : Z :=
  match i with 0%nat => Addr0 a | 1%nat => Addr1 a | 2%nat => Addr2 a | _ => Addr3 a end.

Definition IPAddress_Any : IPAddress := mkAddr 0 0 0 0.

Definition IsIPv4 (a : IPAddress) : bool := (Addr0 a =? 0) && (Addr1 a =? 0) && (Addr2 a =? 65535).
Definition IsMulticast (a : IPAddress) : bool := Z.land (Addr0 a) 4278190080 =? 4278190080.
Definition IsIPv6ULA (a : IPAddress) : bool := Z.land (Addr0 a) 4278190080 =? 4244635648.
Definition IsIPv6LinkLocal (a : IPAddress) : bool := (Addr0 a =? 4269801472) && (Addr1 a =? 0).

Definition InterfaceId (a : IPAddress) : Z :=
  if IsIPv6ULA a then Z.lor (Z.shiftl (Addr2 a) 32) (Addr3 a) else 0.
Definition Subnet (a : IPAddress) : Z := if IsIPv6ULA a then u16 (Addr1 a) else 0.
Definition GlobalId (a : IPAddress) : Z :=
  if IsIPv6ULA a
  then Z.lor (Z.shiftl (Z.land (Addr0 a) 16777215) 16) (Z.shiftr (Z.land (Addr1 a) 4294901760) 16)
  else 0.

Inductive IPAddressType := kIPAddressType_Any | kIPAddressType_IPv4 | kIPAddressType_IPv6.
Definition AddressType (a : IPAddress) : IPAddressType :=
  if bool_decide (a = IPAddress_Any) then kIPAddressType_Any
  else if IsIPv4 a then kIPAddressType_IPv4 else kIPAddressType_IPv6.

Definition MakeULA (globalId subnet interfaceId : Z) : IPAddress :=
  mkAddr (Z.lor 4244635648 (u32 (Z.shiftr (Z.land globalId 1099511562240) 16)))
         (Z.lor (u32 (Z.shiftl (Z.land globalId 65535) 16)) subnet)
         (u32 (Z.shiftr interfaceId 32)) (u32 interfaceId).
Definition MakeLLA (interfaceId : Z) : IPAddress :=
  mkAddr 4269801472 0 (u32 (Z.shiftr interfaceId 32)) (u32 interfaceId).
Definition MakeIPv6Multicast (scope groupId : Z) : IPAddress :=
  mkAddr (Z.lor 4278190080 (Z.shiftl (Z.land scope 15) 16)) 0 0 groupId.

(** WriteAddress, ReadAddress: the sixteen bytes in network order. *)
Definition WriteAddress (a : IPAddress) : list Z :=
  BigEndian_Write32 (Addr0 a) ++ BigEndian_Write32 (Addr1 a) ++ BigEndian_Write32 (Addr2 a) ++ BigEndian_Write32 (Addr3 a).
Definition ReadAddress (p : list Z) : IPAddress * list Z :=
  let '(w0, p) := BigEndian_Read32 p in
  let '(w1, p) := BigEndian_Read32 p in
  let '(w2, p) := BigEndian_Read32 p in
  let '(w3, p) := BigEndian_Read32 p in
  (mkAddr w0 w1 w2 w3, p).

(** IPPrefix *)
Record IPPrefix := mkPrefix { IPAddr : IPAddress; Length : Z }.

(** The loop of MatchAddress over whole words; [None]: a word differs. *)
Fixpoint MatchAddress_words (p a : IPAddress) (n i : nat) (l : Z) : option (nat * Z) :=
  match n with
  | 0%nat => Some (i, l)
  | S n =>
    if 32 <=? l then
      if negb (Addr_word p i =? Addr_word a i) then None else MatchAddress_words p a n (S i) (u8 (l - 32))
    else Some (i, l)
  end.

Definition MatchAddress (p : IPPrefix) (a : IPAddress) : bool :=
  let l := if Length p <=? 128 then Length p else 128 in
  match MatchAddress_words (IPAddr p) a 4 0 l with
  | None => false
  | Some (i, l) =>
    if Nat.eqb i 4 || (l =? 0) then true
    else
      let mask := u32 (Z.shiftl 4294967295 (32 - l)) in
      Z.land (Addr_word (IPAddr p) i) mask =? Z.land (Addr_word a i) mask
  end.

(** ** The addresses of a fabric *)

Definition kUniversalLocalBit : Z := 144115188075855872.    (* 0x0200000000000000 *)
Definition WeaveFabricIdToIPv6GlobalId (fabricId : Z) : Z := Z.land fabricId 1099511627775.
Definition IPv6InterfaceIdToWeaveNodeId (interfaceId : Z) : Z := Z.ldiff interfaceId kUniversalLocalBit.
Definition WeaveNodeIdToIPv6InterfaceId (nodeId : Z) : Z :=
  if nodeId <? 65536 then nodeId else Z.lor nodeId kUniversalLocalBit.

Definition kIPv6MulticastScope_Link : Z := 2.
Definition kIPV6MulticastGroup_AllNodes : Z := 1.

(** WeaveFabricState::SelectNodeAddress(nodeId, subnetId) and IsFabricAddress(addr)
    of a node of the fabric [FabricId]. *)
Definition SelectNodeAddress (anyNodeId FabricId nodeId subnetId : Z) : IPAddress :=
  if nodeId =? anyNodeId then MakeIPv6Multicast kIPv6MulticastScope_Link kIPV6MulticastGroup_AllNodes
  else MakeULA FabricId subnetId (WeaveNodeIdToIPv6InterfaceId nodeId).
Definition IsFabricAddress (FabricId : Z) (a : IPAddress) : bool :=
  IsIPv6ULA a && negb (FabricId =? 0) && (GlobalId a =? WeaveFabricIdToIPv6GlobalId FabricId).

(** ** Prefixes are prefixes of bits *)

Definition wf_addr (a : IPAddress) : Prop :=
  0 <= Addr0 a < 2 ^ 32 /\ 0 <= Addr1 a < 2 ^ 32 /\ 0 <= Addr2 a < 2 ^ 32 /\ 0 <= Addr3 a < 2 ^ 32.

Lemma wf_word a i : wf_addr a -> 0 <= Addr_word a i < 2 ^ 32.
Proof. intros (H0 & H1 & H2 & H3). unfold Addr_word. by destruct i as [|[|[|i]]]. Qed.

(** Bit [k] of the address, the most significant bit of the first word first. *)
Definition word_bit (w k : Z) : bool := Z.testbit w (31 - k).
Definition addr_bit (a : IPAddress) (k : Z) : bool := word_bit (Addr_word a (Z.to_nat (k / 32))) (k mod 32).

Lemma high_bit w k : 0 <= w < 2 ^ 32 -> 32 <= k -> Z.testbit w k = false.
Proof.
  intros Hw Hk. rewrite <- (Z.mod_small w (2 ^ 32)) by done. apply Z.mod_pow2_bits_high. lia.
Qed.

Lemma word_ext v w : 0 <= v < 2 ^ 32 -> 0 <= w < 2 ^ 32 -> (forall k, 0 <= k < 32 -> word_bit v k = word_bit w k) -> v = w.
Proof.
  intros Hv Hw E. apply Z.bits_inj'. intros k Hk. destruct (Z.lt_ge_cases k 32) as [Hlt|Hge]; [|by rewrite (high_bit v k), (high_bit w k)].
  specialize (E (31 - k) ltac:(lia)). unfold word_bit in E. by replace (31 - (31 - k)) with k in E by lia.
Qed.

Lemma mask_bit l k : 0 < l < 32 -> 0 <= k < 32 -> Z.testbit (u32 (Z.shiftl 4294967295 (32 - l))) k = (32 - l <=? k).
Proof.
  intros Hl Hk. unfold u32. change 4294967296 with (2 ^ 32). rewrite Z.mod_pow2_bits_low by lia.
  rewrite Z.shiftl_spec by lia. change 4294967295 with (Z.ones 32).
  destruct (Z.leb_spec (32 - l) k); [rewrite Z.ones_spec_low; [done|lia]|]. by rewrite Z.testbit_neg_r by lia.
Qed.

Lemma mask_match v w l : 0 <= v < 2 ^ 32 -> 0 <= w < 2 ^ 32 -> 0 < l < 32 ->
  (Z.land v (u32 (Z.shiftl 4294967295 (32 - l))) =? Z.land w (u32 (Z.shiftl 4294967295 (32 - l)))) = true <->
  (forall k, 0 <= k < l -> word_bit v k = word_bit w k).
Proof.
  intros Hv Hw Hl. set (m := u32 _). rewrite Z.eqb_eq. split.
  - intros E k Hk. assert (Z.testbit (Z.land v m) (31 - k) = Z.testbit (Z.land w m) (31 - k)) as E' by (by rewrite E).
    rewrite !Z.land_spec in E'. subst m. rewrite mask_bit in E' by lia.
    rewrite (proj2 (Z.leb_le _ _)) in E' by lia. by rewrite !andb_true_r in E'.
  - intros E. apply Z.bits_inj'. intros k Hk. rewrite !Z.land_spec.
    destruct (Z.lt_ge_cases k 32) as [Hlt|Hge]; [|by rewrite (high_bit v k), (high_bit w k)].
    subst m. rewrite mask_bit by lia. destruct (Z.leb_spec (32 - l) k); [|by rewrite !andb_false_r].
    rewrite !andb_true_r. specialize (E (31 - k) ltac:(lia)). unfold word_bit in E. by replace (31 - (31 - k)) with k in E by lia.
Qed.

(** The bits of words [i..4) up to [l] bits from the start of word [i]. *)
Definition bits_agree (p a : IPAddress) (i : nat) (l : Z) : Prop :=
  forall k, 32 * Z.of_nat i <= k < 32 * Z.of_nat i + l -> addr_bit p k = addr_bit a k.

Lemma addr_bit_word p (i : nat) k : 0 <= k < 32 -> addr_bit p (32 * Z.of_nat i + k) = word_bit (Addr_word p i) k.
Proof.
  intros Hk. unfold addr_bit. replace ((32 * Z.of_nat i + k) / 32) with (Z.of_nat i) by mlia.
  rewrite Nat2Z.id. f_equal. mlia.
Qed.

Lemma bits_agree_word p a i l : wf_addr p -> wf_addr a -> 32 <= l ->
  bits_agree p a i l <-> Addr_word p i = Addr_word a i /\ bits_agree p a (S i) (l - 32).
Proof.
  intros Hp Ha Hl. split.
  - intros E. split.
    + apply word_ext; auto using wf_word. intros k Hk. rewrite <- !addr_bit_word by done. apply E. lia.
    + intros k Hk. apply E. lia.
  - intros [Ew E] k Hk. destruct (Z.lt_ge_cases k (32 * Z.of_nat (S i))) as [Hlt|Hge]; [|apply E; lia].
    replace k with (32 * Z.of_nat i + (k - 32 * Z.of_nat i)) by lia. rewrite !addr_bit_word by lia. by rewrite Ew.
Qed.

Lemma MatchAddress_words_spec p a n : forall i l, wf_addr p -> wf_addr a -> (n + i = 4)%nat -> 0 <= l <= 32 * Z.of_nat n ->
  match MatchAddress_words p a n i l with
  | None => ~ bits_agree p a i l
  | Some (i', l') => 0 <= l' < 32 /\ (i' = 4%nat -> l' = 0) /\ (bits_agree p a i l <-> bits_agree p a i' l')
  end.
Proof.
  induction n as [|n IH]; intros i l Hp Ha Hi Hl; cbn [MatchAddress_words]; [split; [lia|split; [intros; lia|reflexivity]]|].
  destruct (Z.leb_spec 32 l) as [Hge|Hlt]; [|split; [lia|split; [intros; lia|reflexivity]]].
  pose proof (bits_agree_word p a i l Hp Ha Hge) as HB.
  destruct (Z.eqb_spec (Addr_word p i) (Addr_word a i)) as [Ew|Ew]; cbn [negb]; [|tauto].
  rewrite u8_id by lia. specialize (IH (S i) (l - 32) Hp Ha ltac:(lia) ltac:(lia)).
  destruct (MatchAddress_words p a n (S i) (l - 32)) as [[i' l']|]; tauto.
Qed.

(** C19: IPPrefix::MatchAddress is the comparison of the first Length bits: its
    loop over whole words, the byte-wide count it decrements and the mask of the
    last word accept an address exactly when every one of its first
    min(Length, 128) bits, counted from the most significant bit of the first
    word, is the prefix's.  A prefix of length 0 matches everything, and a length
    above 128 means the whole address. *)
Theorem MatchAddress_bits p a : wf_addr (IPAddr p) -> wf_addr a -> 0 <= Length p < 256 ->
  MatchAddress p a = true <-> (forall k, 0 <= k < Z.min (Length p) 128 -> addr_bit (IPAddr p) k = addr_bit a k).
Proof.
  intros Hp Ha Hl. set (l := if Length p <=? 128 then Length p else 128).
  assert (l = Z.min (Length p) 128) as El by (subst l; destruct (Z.leb_spec (Length p) 128); lia).
  transitivity (bits_agree (IPAddr p) a 0 l); [|unfold bits_agree; rewrite El; split; intros E k Hk; apply E; lia].
  unfold MatchAddress. fold l. pose proof (MatchAddress_words_spec (IPAddr p) a 4 0 l Hp Ha eq_refl ltac:(lia)) as HS.
  destruct (MatchAddress_words (IPAddr p) a 4 0 l) as [[i' l']|]; [|split; done].
  destruct HS as (Hl' & H4 & HE). rewrite HE. destruct (Z.eqb_spec l' 0) as [->|Hne].
  - rewrite orb_true_r. split; [|done]. intros _ k Hk. lia.
  - destruct (Nat.eqb_spec i' 4) as [->|_]; [by rewrite H4 in Hne|]. cbn [orb].
    rewrite mask_match by (auto using wf_word; lia). unfold bits_agree. split.
    + intros E k Hk. replace k with (32 * Z.of_nat i' + (k - 32 * Z.of_nat i')) by lia. rewrite !addr_bit_word by lia. apply E. lia.
    + intros E k Hk. rewrite <- !addr_bit_word by lia. apply E. lia.
Qed.

(** fd00:1:2:3::/52 and an address that differs from it after bit 52. *)
Theorem MatchAddress_bits_witness :
  MatchAddress (mkPrefix (mkAddr 4244635649 131072 0 0) 52) (mkAddr 4244635649 135167 7 9) = true /\
  (forall k, 0 <= k < 52 -> addr_bit (mkAddr 4244635649 131072 0 0) k = addr_bit (mkAddr 4244635649 135167 7 9) k).
Proof.
  split; [reflexivity|]. apply (MatchAddress_bits (mkPrefix (mkAddr 4244635649 131072 0 0) 52)); [..|reflexivity];
    unfold wf_addr; cbn; lia.
Defined.

(** ** The address of a node *)

Lemma land_high_byte w : 0 <= w < 2 ^ 24 -> Z.land w 4278190080 = 0.
Proof. intros Hw. change 4278190080 with (255 * 2 ^ 24). rewrite Z.land_comm. by apply land_shifted_low. Qed.

Lemma ULA_prefix w : 0 <= w < 2 ^ 24 ->
  Z.land (Z.lor 4244635648 w) 4278190080 = 4244635648 /\ Z.land (Z.lor 4244635648 w) 16777215 = w.
Proof.
  intros Hw. rewrite !Z.land_lor_distr_l. rewrite (land_high_byte w) by done. split; [reflexivity|].
  change 16777215 with (2 ^ 24 - 1). rewrite !land_ones_mod by lia. rewrite (Z.mod_small w) by done. reflexivity.
Qed.

Lemma global_high g : 0 <= g < 2 ^ 64 ->
  u32 (Z.shiftr (Z.land g 1099511562240) 16) = (g / 65536) mod 2 ^ 24.
Proof.
  intros Hg. rewrite Z.shiftr_land. change (Z.shiftr 1099511562240 16) with (2 ^ 24 - 1).
  rewrite land_ones_mod by lia. rewrite shiftr_div by lia. change (2 ^ 16) with 65536.
  apply u32_id. pose proof (Z.mod_pos_bound (g / 65536) (2 ^ 24)). lia.
Qed.

Lemma global_low g : 0 <= g -> u32 (Z.shiftl (Z.land g 65535) 16) = (g mod 65536) * 65536.
Proof.
  intros Hg. change 65535 with (2 ^ 16 - 1). rewrite land_ones_mod, shiftl_mul by lia. change (2 ^ 16) with 65536.
  apply u32_id. mlia.
Qed.

Lemma lor_low16 x s : 0 <= s < 65536 -> Z.lor (x * 65536) s = x * 65536 + s.
Proof. intros Hs. apply (lor_add_disjoint x s 16); lia. Qed.

Lemma ULA_fields g subnet iid : 0 <= g < 2 ^ 64 -> 0 <= subnet < 65536 -> 0 <= iid < 2 ^ 64 ->
  let a := MakeULA g subnet iid in
  IsIPv6ULA a = true /\ GlobalId a = WeaveFabricIdToIPv6GlobalId g /\ Subnet a = subnet /\ InterfaceId a = iid.
Proof.
  intros Hg Hs Hi a.
  assert (0 <= (g / 65536) mod 2 ^ 24 < 2 ^ 24) as Hw by (apply Z.mod_pos_bound; lia).
  assert (IsIPv6ULA a = true) as HU.
  { unfold a, IsIPv6ULA, MakeULA. cbn [Addr0]. rewrite global_high by done. by rewrite (proj1 (ULA_prefix _ Hw)). }
  split; [done|]. unfold GlobalId, Subnet, InterfaceId. rewrite HU. unfold a, MakeULA. cbn [Addr0 Addr1 Addr2 Addr3].
  rewrite global_high, global_low by lia. rewrite (proj2 (ULA_prefix _ Hw)).
  rewrite lor_low16 by done.
  split; [|split].
  - rewrite Z.shiftr_land. change (Z.shiftr 4294901760 16) with (2 ^ 16 - 1). rewrite land_ones_mod, shiftr_div, shiftl_mul by lia.
    rewrite lor_add_disjoint by (try apply Z.mod_pos_bound; lia).
    unfold WeaveFabricIdToIPv6GlobalId. change 1099511627775 with (2 ^ 40 - 1). rewrite land_ones_mod by lia.
    change (2 ^ 16) with 65536. change (2 ^ 24) with 16777216 in *. change (2 ^ 40) with 1099511627776. mlia.
  - mlia.
  - rewrite shiftl_mul, shiftr_div by lia. rewrite lor_add_disjoint by (change (2 ^ 32) with 4294967296; auto using u32_range with zarith; lia).
    change (2 ^ 32) with 4294967296. change (2 ^ 64) with 18446744073709551616 in *. mlia.
Qed.

Lemma node_interface_range n : 0 <= n < 2 ^ 64 -> 0 <= WeaveNodeIdToIPv6InterfaceId n < 2 ^ 64.
Proof.
  intros Hn. unfold WeaveNodeIdToIPv6InterfaceId. destruct (n <? 65536); [done|].
  apply lor_range; unfold kUniversalLocalBit; lia.
Qed.

Lemma node_interface_node n : 0 <= n ->
  IPv6InterfaceIdToWeaveNodeId (WeaveNodeIdToIPv6InterfaceId n) = Z.ldiff n kUniversalLocalBit.
Proof.
  intros Hn. unfold IPv6InterfaceIdToWeaveNodeId, WeaveNodeIdToIPv6InterfaceId. destruct (n <? 65536); [done|].
  apply Z.bits_inj'. intros k Hk. rewrite !Z.ldiff_spec, Z.lor_spec. by destruct (Z.testbit n k), (Z.testbit kUniversalLocalBit k).
Qed.

Lemma ldiff_clear n : Z.testbit n 57 = false -> Z.ldiff n kUniversalLocalBit = n.
Proof.
  intros Hn. apply Z.bits_inj'. intros k Hk. rewrite Z.ldiff_spec. change kUniversalLocalBit with (2 ^ 57).
  rewrite Z.pow2_bits_eqb by lia. destruct (Z.eqb_spec 57 k) as [<-|_]; [by rewrite Hn|apply andb_true_r].
Qed.

Lemma address_bytes a k : wf_addr a -> ReadAddress (WriteAddress a ++ k) = (a, k).
Proof.
  intros (H0 & H1 & H2 & H3). unfold WriteAddress, ReadAddress. rewrite <- !app_assoc, !BE_Read32_app.
  change (2 ^ 32) with 4294967296 in *. rewrite !u32_id by done. by destruct a.
Qed.

Lemma lor_word a b : 0 <= a < 2 ^ 32 -> 0 <= b < 2 ^ 32 -> 0 <= Z.lor a b < 2 ^ 32.
Proof. apply lor_range. lia. Qed.

Lemma ULA_wf g subnet iid : 0 <= subnet < 65536 -> wf_addr (MakeULA g subnet iid).
Proof.
  intros Hs. pose proof u32_range as HU. change 4294967296 with (2 ^ 32) in HU. unfold wf_addr, MakeULA. cbn [Addr0 Addr1 Addr2 Addr3].
  repeat split; try apply lor_word; try apply HU; lia.
Qed.

(** The address of a node says who the node is: for every fabric, subnet and
    node identifier but the 'any' node, the address that
    WeaveFabricState::SelectNodeAddress builds is a unique local address whose
    Subnet and InterfaceId give back the subnet and, through
    IPv6InterfaceIdToWeaveNodeId, the node with its universal/local bit
    cleared -- the node itself when that bit is clear in it; a node of fabric
    [g] takes it for an address of its own fabric exactly when the two fabric
    identifiers agree in their low 40 bits (and [g] is not 0), the bits above being lost
    in the address; and WriteAddress / ReadAddress carry it through the
    sixteen bytes of the wire. *)
Theorem NodeAddress_identifies_node any f g node subnet k :
  0 <= f < 2 ^ 64 -> 0 <= subnet < 65536 -> 0 <= node < 2 ^ 64 -> node <> any -> 0 <= g ->
  let a := SelectNodeAddress any f node subnet in
  IsIPv6ULA a = true /\ Subnet a = subnet /\
  IPv6InterfaceIdToWeaveNodeId (InterfaceId a) = Z.ldiff node kUniversalLocalBit /\
  (Z.testbit node 57 = false -> IPv6InterfaceIdToWeaveNodeId (InterfaceId a) = node) /\
  (IsFabricAddress g a = true <-> g <> 0 /\ g mod 2 ^ 40 = f mod 2 ^ 40) /\
  ReadAddress (WriteAddress a ++ k) = (a, k).
Proof.
  intros Hf Hs Hn Hany Hg a. unfold a, SelectNodeAddress. rewrite (proj2 (Z.eqb_neq _ _) Hany).
  pose proof (ULA_fields f subnet _ Hf Hs (node_interface_range node Hn)) as (HU & HG & HS & HI). cbn zeta in *.
  rewrite HS, HI, node_interface_node by lia.
  split; [done|split; [done|split; [done|split; [apply ldiff_clear|split; [|by apply address_bytes, ULA_wf]]]]].
  unfold IsFabricAddress. rewrite HU, HG. unfold WeaveFabricIdToIPv6GlobalId.
  change 1099511627775 with (2 ^ 40 - 1). rewrite !land_ones_mod by lia. cbn [andb].
  rewrite andb_true_iff, negb_true_iff, Z.eqb_neq, Z.eqb_eq. intuition congruence.
Qed.

Theorem NodeAddress_identifies_node_witness :
  let a := SelectNodeAddress (2 ^ 64 - 1) 1 1780264373284864001 3 in
  IsFabricAddress 1 a = true /\ IsFabricAddress 2 a = false /\ IPv6InterfaceIdToWeaveNodeId (InterfaceId a) = 1780264373284864001.
Proof.
  pose proof (NodeAddress_identifies_node (2 ^ 64 - 1) 1 1 1780264373284864001 3 []) as HP. cbn zeta in HP.
  destruct HP as (_ & _ & _ & HN & HF & _); [lia..|]. split; [by apply HF|]. split; [reflexivity|]. by apply HN.
Defined.
