(* ===== verification/ExchangeHeader.v ===== *)
(** * The exchange header (src/src/lib/core/WeaveExchangeMgr.cpp)

    The header that the exchange manager puts before the payload of a message, as
    PrependHeader writes it into the room reserved at the head of the buffer and
    DecodeHeader takes it off. *)
From S2P Require Import Prelude Encoding PacketBuffer.

Definition WEAVE_HEADER_RESERVE_SIZE : Z := 38.
Definition kWeaveExchangeVersion_V1 : Z := 1.
Definition kWeaveExchangeFlag_Initiator : Z := 1.
Definition kWeaveExchangeFlag_AckId : Z := 2.
Definition kWeaveExchangeFlag_NeedsAck : Z := 4.

(** class WeaveExchangeHeader; the members carry a prefix. *)
Record WeaveExchangeHeader := mkXh {
  xh_Version : Z;
  xh_Flags : Z;
  xh_ExchangeId : Z;
  xh_ProfileId : Z;
  xh_MessageType : Z;
  xh_AckMsgId : Z }.

(** The condition [Flags & flag]. *)
Definition xh_has (flag : Z) (h : WeaveExchangeHeader) : bool := negb (Z.land (xh_Flags h) flag =? 0).

(** The bytes that PrependHeader writes. *)
Definition exchange_header_bytes (h : WeaveExchangeHeader) : list Z :=
  Write8 (Z.lor (Z.shiftl (xh_Version h) 4) (Z.land (xh_Flags h) 15)) ++
  Write8 (xh_MessageType h) ++ LittleEndian_Write16 (xh_ExchangeId h) ++ LittleEndian_Write32 (xh_ProfileId h) ++
  (if xh_has kWeaveExchangeFlag_AckId h then LittleEndian_Write32 (xh_AckMsgId h) else []).

(** PrependHeader(exchangeHeader, buf) *)
Definition PrependHeader (h : WeaveExchangeHeader) : M PacketBuffer unit := fun buf =>
  let '(room, buf) := EnsureReservedSize WEAVE_HEADER_RESERVE_SIZE buf in
  if negb room then (Err WEAVE_ERROR_BUFFER_TOO_SMALL, buf)
  else if negb (xh_Version h =? kWeaveExchangeVersion_V1) then (Err WEAVE_ERROR_UNSUPPORTED_EXCHANGE_VERSION, buf)
  else
    let headLen := if xh_has kWeaveExchangeFlag_AckId h then 8 + 4 else 8 in
    let p := Start buf - headLen in
    let buf := SetStart p buf in
    (Ok tt, mkPbuf (pb_next buf) (pb_payload buf) (pb_tot_len buf) (pb_len buf) (pb_ref buf)
                   (block_write p (exchange_header_bytes h) (pb_block buf))).

(** DecodeHeader(exchangeHeader, buf): the header; [old] is what the caller's
    object held, whose AckMsgId is left alone when there is no such field. *)
Definition DecodeExchangeHeader (old : WeaveExchangeHeader) : M PacketBuffer WeaveExchangeHeader := fun buf =>
  let msgLen := DataLength buf in
  if DataLength buf <? 8 then (Err WEAVE_ERROR_INVALID_MESSAGE_LENGTH, buf)
  else
    let p := pb_data buf in
    let '(versionFlags, p) := Read8 p in
    let version := Z.shiftr versionFlags 4 in
    let flags := Z.land versionFlags 15 in
    if negb (version =? kWeaveExchangeVersion_V1) then (Err WEAVE_ERROR_UNSUPPORTED_EXCHANGE_VERSION, buf)
    else
      let '(mtype, p) := Read8 p in
      let '(xid, p) := LittleEndian_Read16 p in
      let '(profile, p) := LittleEndian_Read32 p in
      if negb (Z.land flags kWeaveExchangeFlag_AckId =? 0) then
        if Z.of_nat (length p) <? 4 then (Err WEAVE_ERROR_INVALID_MESSAGE_LENGTH, buf)
        else
          let '(ack, p) := LittleEndian_Read32 p in
          (Ok (mkXh version flags xid profile mtype ack), SetStart (Start buf + 12) buf)
      else (Ok (mkXh version flags xid profile mtype (xh_AckMsgId old)), SetStart (Start buf + 8) buf).

(** ** The round trip *)

(** The fields have their C widths; the flags are the four bits of the wire. *)
Record wf_xh (h : WeaveExchangeHeader) : Prop := {
  wx_version : xh_Version h = kWeaveExchangeVersion_V1;
  wx_flags : 0 <= xh_Flags h < 16;
  wx_xid : 0 <= xh_ExchangeId h < 65536;
  wx_profile : 0 <= xh_ProfileId h < 4294967296;
  wx_type : 0 <= xh_MessageType h < 256;
  wx_ack : 0 <= xh_AckMsgId h < 4294967296 }.

Definition header_len (h : WeaveExchangeHeader) : Z := if xh_has kWeaveExchangeFlag_AckId h then 12 else 8.

Lemma header_bytes_length h : Z.of_nat (length (exchange_header_bytes h)) = header_len h.
Proof.
  unfold exchange_header_bytes, header_len. rewrite !length_app.
  unfold LittleEndian_Write16, LittleEndian_Write32. rewrite !le_put_length.
  destruct (xh_has _ _); [rewrite le_put_length|]; reflexivity.
Qed.

Lemma header_bytes_ok h : is_bytes (exchange_header_bytes h).
Proof.
  unfold exchange_header_bytes.
  repeat apply Forall_app_2; auto using Write8_bytes, LE_Write16_bytes, LE_Write32_bytes.
  destruct (xh_has _ _); [apply LE_Write32_bytes|constructor].
Qed.

Lemma version_flags v f : 0 <= v < 16 -> 0 <= f < 16 ->
  u8 (Z.lor (Z.shiftl v 4) (Z.land f 15)) = v * 16 + f.
Proof.
  intros Hv Hf. change 15 with (2 ^ 4 - 1). rewrite land_ones_mod by lia. change (2 ^ 4) with 16.
  rewrite Z.mod_small by lia. rewrite shiftl_mul by lia. rewrite lor_add_disjoint by lia. change (2 ^ 4) with 16. apply u8_id. lia.
Qed.

Lemma version_of v f : 0 <= f < 16 -> Z.shiftr (v * 16 + f) 4 = v.
Proof. intros Hf. rewrite shiftr_div by lia. change (2 ^ 4) with 16. mlia. Qed.
Lemma flags_of v f : 0 <= f < 16 -> Z.land (v * 16 + f) 15 = f.
Proof. intros Hf. change 15 with (2 ^ 4 - 1). rewrite land_ones_mod by lia. change (2 ^ 4) with 16. mlia. Qed.

(** Writing over the bytes before the data, and then making them data. *)
Lemma prepend_bytes l p : wf_pbuf p -> is_bytes l -> Z.of_nat (length l) <= pb_payload p -> pb_tot_len p = pb_len p ->
  let q := SetStart (pb_payload p - Z.of_nat (length l)) p in
  let q := mkPbuf (pb_next q) (pb_payload q) (pb_tot_len q) (pb_len q) (pb_ref q)
                  (block_write (pb_payload p - Z.of_nat (length l)) l (pb_block q)) in
  wf_pbuf q /\ pb_data q = l ++ pb_data p /\ pb_payload q = pb_payload p - Z.of_nat (length l) /\ pb_len q = pb_len p + Z.of_nat (length l).
Proof.
  intros Hw Hb Hl Ht. pose proof Hw as []. set (s := pb_payload p - Z.of_nat (length l)).
  destruct (SetStart_back s p) as (Hq & Hd & Hs & Hn & Hk); [done|lia..|]. cbn zeta. rewrite Hk.
  assert (length (block_write s l (pb_block p)) = length (pb_block p)) as HL by (apply block_write_length; unfold AllocSize in *; lia).
  split; [|cbn [pb_payload pb_len]; repeat split; [|lia..]].
  - destruct Hq. unfold AllocSize in *. split; cbn [pb_payload pb_len pb_tot_len pb_block]; unfold AllocSize; cbn [pb_block];
      rewrite ?HL; rewrite ?Hk in *; try done. by apply block_write_bytes.
  - unfold pb_data at 1. cbn [pb_payload pb_len pb_block]. rewrite Hs, Hn. rewrite Z.add_comm.
    rewrite block_read_split by lia. f_equal.
    + replace (pb_payload p - s) with (Z.of_nat (length l)) by lia. apply block_read_write; unfold AllocSize in *; lia.
    + unfold pb_data. rewrite block_read_write_after by (unfold AllocSize in *; lia). f_equal. lia.
Qed.

Lemma PrependHeader_spec h buf : wf_xh h -> wf_pbuf buf -> pb_tot_len buf = pb_len buf ->
  match PrependHeader h buf with
  | (Ok _, buf') => wf_pbuf buf' /\ pb_data buf' = exchange_header_bytes h ++ pb_data buf
  | (Err e, buf') => e = WEAVE_ERROR_BUFFER_TOO_SMALL /\ buf' = buf /\ AllocSize buf < WEAVE_HEADER_RESERVE_SIZE + pb_len buf
  | _ => False
  end.
Proof.
  intros Hh Hw Ht. unfold PrependHeader. destruct (EnsureReservedSize WEAVE_HEADER_RESERVE_SIZE buf) as [[] p] eqn:E; cbn [negb].
  - apply EnsureReservedSize_true in E as (Hp & Hd & Hr & Hn & Ha & _ & _ & Ht' & _); [|done|unfold WEAVE_HEADER_RESERVE_SIZE; lia].
    rewrite (wx_version h Hh). cbn [Z.eqb negb]. rewrite <- Hd.
    destruct (prepend_bytes (exchange_header_bytes h) p) as (Hq & Hqd & _); [done|apply header_bytes_ok| |congruence|].
    { rewrite header_bytes_length. unfold header_len, WEAVE_HEADER_RESERVE_SIZE in *. destruct (xh_has _ _); lia. }
    rewrite header_bytes_length in Hq, Hqd. unfold header_len, Start in *. change (8 + 4) with 12.
    by destruct (xh_has _ _).
  - apply EnsureReservedSize_false in E as [-> Ha]. done.
Qed.

Lemma DecodeExchangeHeader_spec h old rest buf : wf_xh h -> wf_pbuf buf -> pb_data buf = exchange_header_bytes h ++ rest ->
  exists buf', DecodeExchangeHeader old buf =
    (Ok (mkXh (xh_Version h) (xh_Flags h) (xh_ExchangeId h) (xh_ProfileId h) (xh_MessageType h)
              (if xh_has kWeaveExchangeFlag_AckId h then xh_AckMsgId h else xh_AckMsgId old)), buf') /\
    wf_pbuf buf' /\ pb_data buf' = rest.
Proof.
  intros Hh Hw Hd. pose proof (pb_data_length buf Hw) as HL. rewrite Hd, length_app, Nat2Z.inj_add, header_bytes_length in HL.
  destruct (SetStart_forward (pb_payload buf + header_len h) buf) as (Hq & Hqd & _); [done| |].
  { unfold header_len in *. destruct (xh_has _ _); lia. }
  exists (SetStart (pb_payload buf + header_len h) buf). split; [|split; [done|]].
  - pose proof Hh as []. unfold DecodeExchangeHeader, DataLength. rewrite (proj2 (Z.ltb_ge _ _)) by (unfold header_len in HL; destruct (xh_has _ _); lia).
    rewrite Hd. unfold exchange_header_bytes. rewrite <- !app_assoc, Read8_app.
    unfold kWeaveExchangeVersion_V1 in *. rewrite version_flags, version_of, flags_of by lia. rewrite wx_version0. cbn [Z.eqb negb].
    rewrite Read8_app, LE_Read16_app, LE_Read32_app. rewrite u8_id, u16_id, u32_id by lia.
    fold (xh_has kWeaveExchangeFlag_AckId h). unfold header_len, Start. destruct (xh_has _ h) eqn:F; [|done].
    rewrite (proj2 (Z.ltb_ge _ _)) by (rewrite length_app; unfold LittleEndian_Write32; rewrite le_put_length; lia).
    rewrite LE_Read32_app, u32_id by lia. done.
  - rewrite Hqd, Hd. replace (Z.to_nat _) with (length (exchange_header_bytes h)) by (pose proof (header_bytes_length h); lia).
    by rewrite drop_app_length.
Qed.

(** C20: The exchange header round trip on the buffer itself: either
    WeaveExchangeManager::PrependHeader reports BUFFER_TOO_SMALL, only when
    the block has no room for the reserve and the payload, and the buffer is
    untouched; or DecodeHeader takes off what it put before the payload,
    returns every field of the header (the acknowledged id only where the flag
    announces it) and leaves the payload byte for byte, wherever the payload
    had to be moved. *)
Theorem ExchangeHeader_roundtrip h old buf : wf_xh h -> wf_pbuf buf -> pb_tot_len buf = pb_len buf ->
  match PrependHeader h buf with
  | (Ok _, buf') => exists buf'', DecodeExchangeHeader old buf' =
      (Ok (mkXh (xh_Version h) (xh_Flags h) (xh_ExchangeId h) (xh_ProfileId h) (xh_MessageType h)
                (if xh_has kWeaveExchangeFlag_AckId h then xh_AckMsgId h else xh_AckMsgId old)), buf'') /\
      pb_data buf'' = pb_data buf
  | (Err e, buf') => e = WEAVE_ERROR_BUFFER_TOO_SMALL /\ buf' = buf /\ AllocSize buf < WEAVE_HEADER_RESERVE_SIZE + pb_len buf
  | _ => False
  end.
Proof.
  intros Hh Hw Ht. pose proof (PrependHeader_spec h buf Hh Hw Ht) as HP. destruct (PrependHeader h buf) as [[] buf']; [|done..].
  destruct HP as [Hw' Hd]. destruct (DecodeExchangeHeader_spec h old (pb_data buf) buf' Hh Hw' Hd) as (b & E & _ & Hb). eauto.
Qed.

Definition test_header : WeaveExchangeHeader := mkXh 1 7 513 196610 4 305419896.
Definition test_payload : PacketBuffer := mkPbuf None 2 3 3 1 ([0; 0; 10; 20; 30] ++ replicate 60 0).

Theorem ExchangeHeader_roundtrip_witness :
  match PrependHeader test_header test_payload with
  | (Ok _, buf') => exists buf'', DecodeExchangeHeader (mkXh 0 0 0 0 0 0) buf' = (Ok test_header, buf'') /\ pb_data buf'' = [10; 20; 30]
  | (Err e, buf') => e = WEAVE_ERROR_BUFFER_TOO_SMALL /\ buf' = test_payload /\ AllocSize test_payload < WEAVE_HEADER_RESERVE_SIZE + pb_len test_payload
  | _ => False
  end.
Proof.
  apply (ExchangeHeader_roundtrip test_header (mkXh 0 0 0 0 0 0) test_payload).
  - split; cbn; unfold kWeaveExchangeVersion_V1; lia.
  - split; [vm_compute; intuition congruence..|]. apply byte_ok_spec. reflexivity.
  - reflexivity.
Defined.

Example header_on_the_wire : (let '(_, b) := PrependHeader test_header test_payload in pb_data b) = [23; 4; 1; 2; 2; 0; 3; 0; 120; 86; 52; 18; 10; 20; 30].
Proof. vm_compute. reflexivity. Qed.
