(* ===== verification/ExchangeTypes.v ===== *)
(** * Exchanges: the data of the exchange manager

    The state of WeaveExchangeManager and of its ExchangeContext objects
    (src/src/lib/core/WeaveExchangeMgr.h), with the retransmission table of the
    Weave Reliable Messaging Protocol (WRMP), and the elementary accesses the
    operations of ExchangeMgr are made of.

    A pointer to an ExchangeContext is its index in ContextPool, one to a table
    entry its index in RetransTable, one to a message buffer the number of the
    buffer; [m_bufs] is what the pool of PacketBufferChain promises its clients: a
    buffer is live, with its contents, or free, and using or freeing a free one is
    [Undefined].  VerifyOrDie, which ends the process, is [Undefined] too.

    Application callbacks are recorded in the log, in the order they are made;
    a record of an exchange keeps which callbacks are installed. *)
From S2P Require Import Prelude Encoding PacketBuffer PacketBufferChain MessageLayer Address ExchangeHeader.

Definition WEAVE_CONFIG_MAX_EXCHANGE_CONTEXTS : nat := 16.
Definition WEAVE_CONFIG_WRMP_RETRANS_TABLE_SIZE : nat := WEAVE_SYSTEM_CONFIG_PACKETBUFFER_MAXALLOC.
Definition WEAVE_CONFIG_MAX_UNSOLICITED_MESSAGE_HANDLERS : nat := 32.
Definition WEAVE_CONFIG_WRMP_TIMER_DEFAULT_PERIOD : Z := 200.

(** The flags of a context (ExchangeContext.cpp) and FlagUtils.cpp. *)
Definition kFlagInitiator : Z := 1.
Definition kFlagConnectionClosed : Z := 2.
Definition kFlagAutoRequestAck : Z := 4.
Definition kFlagDropAck : Z := 8.
Definition kFlagResponseExpected : Z := 16.
Definition kFlagAckPending : Z := 32.
Definition kFlagPeerRequestedAck : Z := 64.
Definition kFlagMsgRcvdFromPeer : Z := 128.

Definition FlagUtils_GetFlag (inFlags inFlag : Z) : bool := Z.land inFlags inFlag =? inFlag.
Definition FlagUtils_SetFlag (inFlag : Z) (inValue : bool) (flags : Z) : Z :=
  let setValue := FlagUtils_GetFlag flags inFlag in
  if negb (eqb setValue inValue) then
    if negb setValue then Z.lor flags inFlag else Z.ldiff flags inFlag
  else flags.

Definition kSendFlag_ExpectResponse : Z := 2.
Definition kSendFlag_RetransmissionTrickle : Z := 4.
Definition kSendFlag_DelaySend : Z := 8.
Definition kSendFlag_ReuseMessageId : Z := 16.
Definition kSendFlag_ReuseSourceId : Z := 32.
Definition kSendFlag_RetainBuffer : Z := 64.
Definition kSendFlag_AlreadyEncoded : Z := 128.
Definition kSendFlag_MulticastFromLinkLocal : Z := 256.
Definition kSendFlag_FromInitiator : Z := 512.
Definition kSendFlag_RequestAck : Z := 1024.
Definition kSendFlag_NoAutoRequestAck : Z := 2048.

Definition kWeaveMessageFlag_ReuseSourceId : Z := 32.
Definition kWeaveMessageFlag_DelaySend : Z := 64.
Definition kWeaveMessageFlag_RetainBuffer : Z := 128.
Definition kWeaveMessageFlag_MulticastFromLinkLocal : Z := 8192.
Definition kWeaveMessageFlag_PeerRequestedAck : Z := 16384.
Definition kWeaveMessageVersion_Unspecified : Z := 0.

Definition kWeaveProfile_Common : Z := 0.
Definition kMsgType_Null : Z := 2.
Definition kMsgType_WRMP_Delayed_Delivery : Z := 3.
Definition kMsgType_WRMP_Throttle_Flow : Z := 4.
Definition kWeaveProfile_Security : Z := 4.
Definition kMsgType_MsgCounterSyncResp : Z := 102.

(** [flags & flag] *)
Definition sf_has (flag flags : Z) : bool := negb (Z.land flags flag =? 0).

(** struct WRMPConfig *)
Record WRMPConfig := mkConfig {
  mInitialRetransTimeout : Z;
  mActiveRetransTimeout : Z;
  mAckPiggybackTimeout : Z;
  mMaxRetrans : Z }.
Definition gDefaultWRMPConfig : WRMPConfig := mkConfig 2000 2000 WEAVE_CONFIG_WRMP_TIMER_DEFAULT_PERIOD 3.

(** The members of ExchangeContext that identify the exchange and configure it. *)
Record Peer := mkPeer {
  ec_ExchangeId : Z;
  ec_PeerNodeId : Z;
  ec_PeerAddr : IPAddress;
  ec_PeerPort : Z;
  ec_PeerIntf : Z;
  ec_Con : option nat;
  ec_EncryptionType : Z;
  ec_KeyId : Z;
  ec_AllowDuplicateMsgs : bool;
  ec_ResponseTimeout : Z;
  ec_WRMPConfig : WRMPConfig }.

(** Which callbacks are installed. *)
Record Callbacks := mkCallbacks {
  OnMessageReceived : bool;
  OnResponseTimeout : bool;
  OnRetransmissionTimeout : bool;
  OnConnectionClosed : bool;
  OnKeyError : bool;
  OnThrottleRcvd : bool;
  OnDDRcvd : bool;
  OnSendError : bool;
  OnAckRcvd : bool }.
Definition no_callbacks : Callbacks := mkCallbacks false false false false false false false false false.

(** The members of the Trickle retransmission, and its timers (the time at which
    each goes off). *)
Record Trickle := mkTrickle {
  tr_msg : option nat;
  tr_backoff : Z;
  tr_RetransInterval : Z;
  tr_currentBcastMsgID : Z;
  tr_msgsReceived : Z;
  tr_rebroadcastThreshold : Z;
  tr_TimerTau : option Z;
  tr_CancelTimer : option Z }.
Definition no_trickle : Trickle := mkTrickle None 0 0 0 0 0 None None.

(** class ExchangeContext; [ec_used] is [ExchangeMgr != NULL]. *)
Record ExchangeContext := mkEc {
  ec_used : bool;
  ec_peer : Peer;
  ec_cb : Callbacks;
  ec_trickle : Trickle;
  ec_mMsgProtocolVersion : Z;
  ec_mRefCount : Z;
  ec_mFlags : Z;
  ec_mPendingPeerAckId : Z;
  ec_mWRMPNextAckTime : Z;
  ec_mWRMPThrottleTimeout : Z;
  ec_ResponseTimer : option Z }.

Definition no_peer : Peer := mkPeer 0 0 IPAddress_Any 0 0 None 0 0 false 0 (mkConfig 0 0 0 0).
(** [memset(ec, 0, sizeof(ExchangeContext))] *)
Definition zero_context : ExchangeContext := mkEc false no_peer no_callbacks no_trickle 0 0 0 0 0 0 None.

Definition set_used (x : bool) (e : ExchangeContext) : ExchangeContext :=
  mkEc x (ec_peer e) (ec_cb e) (ec_trickle e) (ec_mMsgProtocolVersion e) (ec_mRefCount e) (ec_mFlags e) (ec_mPendingPeerAckId e)
       (ec_mWRMPNextAckTime e) (ec_mWRMPThrottleTimeout e) (ec_ResponseTimer e).
Definition set_cb (x : Callbacks) (e : ExchangeContext) : ExchangeContext :=
  mkEc (ec_used e) (ec_peer e) x (ec_trickle e) (ec_mMsgProtocolVersion e) (ec_mRefCount e) (ec_mFlags e) (ec_mPendingPeerAckId e)
       (ec_mWRMPNextAckTime e) (ec_mWRMPThrottleTimeout e) (ec_ResponseTimer e).
Definition set_trickle (x : Trickle) (e : ExchangeContext) : ExchangeContext :=
  mkEc (ec_used e) (ec_peer e) (ec_cb e) x (ec_mMsgProtocolVersion e) (ec_mRefCount e) (ec_mFlags e) (ec_mPendingPeerAckId e)
       (ec_mWRMPNextAckTime e) (ec_mWRMPThrottleTimeout e) (ec_ResponseTimer e).
Definition set_version (x : Z) (e : ExchangeContext) : ExchangeContext :=
  mkEc (ec_used e) (ec_peer e) (ec_cb e) (ec_trickle e) x (ec_mRefCount e) (ec_mFlags e) (ec_mPendingPeerAckId e)
       (ec_mWRMPNextAckTime e) (ec_mWRMPThrottleTimeout e) (ec_ResponseTimer e).
Definition set_refCount (x : Z) (e : ExchangeContext) : ExchangeContext :=
  mkEc (ec_used e) (ec_peer e) (ec_cb e) (ec_trickle e) (ec_mMsgProtocolVersion e) x (ec_mFlags e) (ec_mPendingPeerAckId e)
       (ec_mWRMPNextAckTime e) (ec_mWRMPThrottleTimeout e) (ec_ResponseTimer e).
Definition set_flags (x : Z) (e : ExchangeContext) : ExchangeContext :=
  mkEc (ec_used e) (ec_peer e) (ec_cb e) (ec_trickle e) (ec_mMsgProtocolVersion e) (ec_mRefCount e) x (ec_mPendingPeerAckId e)
       (ec_mWRMPNextAckTime e) (ec_mWRMPThrottleTimeout e) (ec_ResponseTimer e).
Definition set_pendingAck (x : Z) (e : ExchangeContext) : ExchangeContext :=
  mkEc (ec_used e) (ec_peer e) (ec_cb e) (ec_trickle e) (ec_mMsgProtocolVersion e) (ec_mRefCount e) (ec_mFlags e) x
       (ec_mWRMPNextAckTime e) (ec_mWRMPThrottleTimeout e) (ec_ResponseTimer e).
Definition set_nextAck (x : Z) (e : ExchangeContext) : ExchangeContext :=
  mkEc (ec_used e) (ec_peer e) (ec_cb e) (ec_trickle e) (ec_mMsgProtocolVersion e) (ec_mRefCount e) (ec_mFlags e) (ec_mPendingPeerAckId e)
       x (ec_mWRMPThrottleTimeout e) (ec_ResponseTimer e).
Definition set_throttle (x : Z) (e : ExchangeContext) : ExchangeContext :=
  mkEc (ec_used e) (ec_peer e) (ec_cb e) (ec_trickle e) (ec_mMsgProtocolVersion e) (ec_mRefCount e) (ec_mFlags e) (ec_mPendingPeerAckId e)
       (ec_mWRMPNextAckTime e) x (ec_ResponseTimer e).
Definition set_responseTimer (x : option Z) (e : ExchangeContext) : ExchangeContext :=
  mkEc (ec_used e) (ec_peer e) (ec_cb e) (ec_trickle e) (ec_mMsgProtocolVersion e) (ec_mRefCount e) (ec_mFlags e) (ec_mPendingPeerAckId e)
       (ec_mWRMPNextAckTime e) (ec_mWRMPThrottleTimeout e) x.

(** The accessors of the flags. *)
Definition IsInitiator (e : ExchangeContext) : bool := FlagUtils_GetFlag (ec_mFlags e) kFlagInitiator.
Definition IsConnectionClosed (e : ExchangeContext) : bool := FlagUtils_GetFlag (ec_mFlags e) kFlagConnectionClosed.
Definition IsResponseExpected (e : ExchangeContext) : bool := FlagUtils_GetFlag (ec_mFlags e) kFlagResponseExpected.
Definition IsAckPending (e : ExchangeContext) : bool := FlagUtils_GetFlag (ec_mFlags e) kFlagAckPending.
Definition HasPeerRequestedAck (e : ExchangeContext) : bool := FlagUtils_GetFlag (ec_mFlags e) kFlagPeerRequestedAck.
Definition HasRcvdMsgFromPeer (e : ExchangeContext) : bool := FlagUtils_GetFlag (ec_mFlags e) kFlagMsgRcvdFromPeer.
Definition ShouldDropAck (e : ExchangeContext) : bool := FlagUtils_GetFlag (ec_mFlags e) kFlagDropAck.
Definition AutoRequestAck (e : ExchangeContext) : bool := FlagUtils_GetFlag (ec_mFlags e) kFlagAutoRequestAck.
Definition set_flag (flag : Z) (x : bool) (e : ExchangeContext) : ExchangeContext :=
  set_flags (FlagUtils_SetFlag flag x (ec_mFlags e)) e.
Definition SetInitiator := set_flag kFlagInitiator.
Definition SetConnectionClosed := set_flag kFlagConnectionClosed.
Definition SetResponseExpected := set_flag kFlagResponseExpected.
Definition SetAckPending := set_flag kFlagAckPending.
Definition SetPeerRequestedAck := set_flag kFlagPeerRequestedAck.
Definition SetMsgRcvdFromPeer := set_flag kFlagMsgRcvdFromPeer.
Definition SetDropAck := set_flag kFlagDropAck.
Definition SetAutoRequestAck := set_flag kFlagAutoRequestAck.

Definition GetCurrentRetransmitTimeout (e : ExchangeContext) : Z :=
  if HasRcvdMsgFromPeer e then mActiveRetransTimeout (ec_WRMPConfig (ec_peer e)) else mInitialRetransTimeout (ec_WRMPConfig (ec_peer e)).

(** class RetransTableEntry *)
Record RetransTableEntry := mkEntry {
  re_exchContext : option nat;
  re_msgId : Z;
  re_msgBuf : option nat;
  re_msgCtxt : Z;
  re_nextRetransTime : Z;
  re_sendCount : Z }.
Definition zero_entry : RetransTableEntry := mkEntry None 0 None 0 0 0.
Definition set_exchContext (x : option nat) (r : RetransTableEntry) : RetransTableEntry :=
  mkEntry x (re_msgId r) (re_msgBuf r) (re_msgCtxt r) (re_nextRetransTime r) (re_sendCount r).
Definition set_msgBuf (x : option nat) (r : RetransTableEntry) : RetransTableEntry :=
  mkEntry (re_exchContext r) (re_msgId r) x (re_msgCtxt r) (re_nextRetransTime r) (re_sendCount r).
Definition set_nextRetransTime (x : Z) (r : RetransTableEntry) : RetransTableEntry :=
  mkEntry (re_exchContext r) (re_msgId r) (re_msgBuf r) (re_msgCtxt r) x (re_sendCount r).
Definition set_sendCount (x : Z) (r : RetransTableEntry) : RetransTableEntry :=
  mkEntry (re_exchContext r) (re_msgId r) (re_msgBuf r) (re_msgCtxt r) (re_nextRetransTime r) x.

(** class UnsolicitedMessageHandler; [None]: no handler. *)
Record UnsolicitedMessageHandler := mkUmh {
  umh_Handler : option Z;
  umh_ProfileId : Z;
  umh_Con : option nat;
  umh_MessageType : Z;
  umh_AllowDuplicateMsgs : bool }.

(** What the manager does that others see: a message of the table handed to the
    message layer, and the calls of the application's callbacks. *)
Inductive Event :=
  | EvTransmit (c : nat) (msgId : Z)
  | EvSendError (c : nat) (e : WEAVE_ERROR) (msgCtxt : Z)
  | EvAckRcvd (c : nat) (msgCtxt : Z)
  | EvThrottleRcvd (c : nat) (pauseTime : Z)
  | EvDDRcvd (c : nat) (pauseTime : Z)
  | EvKeyError (c : nat) (e : WEAVE_ERROR)
  | EvResponseTimeout (c : nat)
  | EvRetransmissionTimeout (c : nat)
  | EvConnectionClosed (c : nat) (con : nat) (e : WEAVE_ERROR)
  | EvMessageReceived (c : nat) (profileId msgType : Z) (msgBuf : nat)
  | EvUnsolicited (handler : Z) (c : nat) (profileId msgType : Z) (msgBuf : nat).

(** The services the manager calls, on a state [T]: the message layer's codec
    and UDP sending, a connection's SendMessage, the timers of the system layer, the
    random numbers and the security manager.  Each says what the call returns,
    [None] for WEAVE_NO_ERROR; the answer of HandleMsgCounterSyncRespMsg is whether it
    had the manager clear the requests of the sender's pending messages. *)
Class ExchangeEnv (T : Type) := {
  env_LocalNodeId : T -> Z;
  env_FabricId : T -> Z;
  env_DefaultSubnet : T -> Z;
  env_EncodeMessage : WeaveMessageInfo -> PacketBuffer -> T -> option WEAVE_ERROR * WeaveMessageInfo * PacketBuffer * T;
  env_SendUdp : IPAddress -> Z -> Z -> PacketBuffer -> Z -> T -> option WEAVE_ERROR * T;
  env_ConSend : nat -> WeaveMessageInfo -> PacketBuffer -> T -> option WEAVE_ERROR * T;
  env_StartTimer : Z -> T -> option WEAVE_ERROR * T;
  env_GetRandU32 : T -> Z * T;
  env_IsPlatformErrorNonCritical : WEAVE_ERROR -> bool;
  env_OnEncryptedMsgRcvd : WeaveMessageInfo -> T -> T;
  env_HandleMsgCounterSyncRespMsg : WeaveMessageInfo -> PacketBuffer -> T -> bool * T }.
