(* ===== verification/ExchangeMgr.v ===== *)
(** * Exchanges: the operations of the exchange manager

    WeaveExchangeMgr.cpp and ExchangeContext.cpp with WRMP enabled, and the part of
    WeaveMessageLayer.cpp between them and UDP.

    Releasing the last reference of a context closes it, closing it may send an
    acknowledgement, and sending takes and releases a reference: the recursion is
    closed by [Release] with fuel, two being enough since the inner release never
    drops the last reference. *)
From stdpp Require Export functions.
From S2P Require Import Prelude Encoding KeyIds PacketBuffer PacketBufferChain PeerTable FabricState MessageLayer Address ExchangeHeader ExchangeTypes.
Open Scope weave_scope.

(** ** Control flow *)

(** A call whose error the caller looks at. *)
Definition attempt {S A} (m : M S A) : M S (A + WEAVE_ERROR) := fun s =>
  match m s with
  | (Ok a, s') => (Ok (inl a), s')
  | (Err e, s') => (Ok (inr e), s')
  | (Undefined, s') => (Undefined, s')
  | (Diverges, s') => (Diverges, s')
  end.
Definition throw {S A} (r : A + WEAVE_ERROR) : M S A :=
  match r with inl a => ret a | inr e => fail e end.
(** A call whose error the caller ignores. *)
Definition ignore {S A} (m : M S A) : M S unit := do* attempt m in ret tt.
Definition whenM {S} (b : bool) (m : M S unit) : M S unit := if b then m else ret tt.

(** [for (int j = i; j < i + n; j++) body(j);] *)
Fixpoint for_range {S} (n i : nat) (body : nat -> M S unit) : M S unit :=
  match n with
  | O => ret tt
  | S n => do* body i in for_range n (Datatypes.S i) body
  end.

Section Manager.
Context {T : Type} `{ExchangeEnv T}.

(** class WeaveExchangeManager, the clock ([m_now] is GetCurrentEpoch), the WRMP
    timer (the time at which it goes off), the buffers and the log. *)
Record Mgr := mkMgr {
  m_pool : nat -> ExchangeContext;
  m_table : nat -> RetransTableEntry;
  m_bufs : nat -> option PacketBuffer;
  m_contextsInUse : Z;
  m_NextExchangeId : Z;
  m_umh : nat -> UnsolicitedMessageHandler;
  m_base : Z;
  m_interval : Z;
  m_now : Z;
  m_timer : option Z;
  m_env : T;
  m_log : list Event }.

Definition set_pool x m := mkMgr x (m_table m) (m_bufs m) (m_contextsInUse m) (m_NextExchangeId m) (m_umh m) (m_base m) (m_interval m) (m_now m) (m_timer m) (m_env m) (m_log m).
Definition set_table x m := mkMgr (m_pool m) x (m_bufs m) (m_contextsInUse m) (m_NextExchangeId m) (m_umh m) (m_base m) (m_interval m) (m_now m) (m_timer m) (m_env m) (m_log m).
Definition set_bufs x m := mkMgr (m_pool m) (m_table m) x (m_contextsInUse m) (m_NextExchangeId m) (m_umh m) (m_base m) (m_interval m) (m_now m) (m_timer m) (m_env m) (m_log m).
Definition set_contextsInUse x m := mkMgr (m_pool m) (m_table m) (m_bufs m) x (m_NextExchangeId m) (m_umh m) (m_base m) (m_interval m) (m_now m) (m_timer m) (m_env m) (m_log m).
Definition set_NextExchangeId x m := mkMgr (m_pool m) (m_table m) (m_bufs m) (m_contextsInUse m) x (m_umh m) (m_base m) (m_interval m) (m_now m) (m_timer m) (m_env m) (m_log m).
Definition set_umh x m := mkMgr (m_pool m) (m_table m) (m_bufs m) (m_contextsInUse m) (m_NextExchangeId m) x (m_base m) (m_interval m) (m_now m) (m_timer m) (m_env m) (m_log m).
Definition set_base x m := mkMgr (m_pool m) (m_table m) (m_bufs m) (m_contextsInUse m) (m_NextExchangeId m) (m_umh m) x (m_interval m) (m_now m) (m_timer m) (m_env m) (m_log m).
Definition set_now x m := mkMgr (m_pool m) (m_table m) (m_bufs m) (m_contextsInUse m) (m_NextExchangeId m) (m_umh m) (m_base m) (m_interval m) x (m_timer m) (m_env m) (m_log m).
Definition set_timer x m := mkMgr (m_pool m) (m_table m) (m_bufs m) (m_contextsInUse m) (m_NextExchangeId m) (m_umh m) (m_base m) (m_interval m) (m_now m) x (m_env m) (m_log m).
Definition set_env x m := mkMgr (m_pool m) (m_table m) (m_bufs m) (m_contextsInUse m) (m_NextExchangeId m) (m_umh m) (m_base m) (m_interval m) (m_now m) (m_timer m) x (m_log m).
Definition set_log x m := mkMgr (m_pool m) (m_table m) (m_bufs m) (m_contextsInUse m) (m_NextExchangeId m) (m_umh m) (m_base m) (m_interval m) (m_now m) (m_timer m) (m_env m) x.

(** ** Accesses *)

Definition get_ec (c : nat) : M Mgr ExchangeContext := gets (fun m => m_pool m c).
Definition on_ec (c : nat) (f : ExchangeContext -> ExchangeContext) : M Mgr unit :=
  modify (fun m => set_pool (<[c := f (m_pool m c)]> (m_pool m)) m).
Definition get_re (i : nat) : M Mgr RetransTableEntry := gets (fun m => m_table m i).
Definition on_re (i : nat) (f : RetransTableEntry -> RetransTableEntry) : M Mgr unit :=
  modify (fun m => set_table (<[i := f (m_table m i)]> (m_table m)) m).
Definition emit (e : Event) : M Mgr unit := modify (fun m => set_log (m_log m ++ [e]) m).

(** Reading, changing and freeing a live buffer. *)
Definition get_buf (b : nat) : M Mgr PacketBuffer := fun m =>
  match m_bufs m b with Some p => (Ok p, m) | None => (Undefined, m) end.
Definition put_buf (b : nat) (p : PacketBuffer) : M Mgr unit := modify (fun m => set_bufs (<[b := Some p]> (m_bufs m)) m).
Definition on_buf {A} (b : nat) (f : M PacketBuffer A) : M Mgr A :=
  let* p := get_buf b in
  let '(r, p') := f p in
  do* put_buf b p' in fun m => (r, m).
Definition FreeBuf (b : nat) : M Mgr unit :=
  do* get_buf b in modify (fun m => set_bufs (<[b := None]> (m_bufs m)) m).

(** PacketBuffer::NewWithAvailableSize(n): a free buffer of the pool. *)
Definition new_pbuf : PacketBuffer :=
  init_pbuf WEAVE_SYSTEM_CONFIG_HEADER_RESERVE_SIZE (replicate (Z.to_nat WEAVE_SYSTEM_PACKETBUFFER_ALLOCSIZE_MAX) 0).
Definition NewBuf (n : Z) : M Mgr nat := fun m =>
  if WEAVE_SYSTEM_PACKETBUFFER_ALLOCSIZE_MAX <? WEAVE_SYSTEM_CONFIG_HEADER_RESERVE_SIZE + n then (Err WEAVE_ERROR_NO_MEMORY, m)
  else
    match find (fun b => bool_decide (m_bufs m b = None)) (seq 0 WEAVE_SYSTEM_CONFIG_PACKETBUFFER_MAXALLOC) with
    | Some b => (Ok b, set_bufs (<[b := Some new_pbuf]> (m_bufs m)) m)
    | None => (Err WEAVE_ERROR_NO_MEMORY, m)
    end.

(** A service that reports an error. *)
Definition service (f : T -> option WEAVE_ERROR * T) : M Mgr unit := fun m =>
  let '(r, t) := f (m_env m) in
  (match r with None => Ok tt | Some e => Err e end, set_env t m).

(** ** The message layer (WeaveMessageLayer.cpp) *)

Definition IsSendErrorNonCritical (e : WEAVE_ERROR) : bool :=
  bool_decide (e = INET_ERROR_NOT_IMPLEMENTED) || bool_decide (e = INET_ERROR_OUTBOUND_MESSAGE_TRUNCATED) ||
  bool_decide (e = INET_ERROR_MESSAGE_TOO_LONG) || bool_decide (e = INET_ERROR_NO_MEMORY) ||
  env_IsPlatformErrorNonCritical e.

Definition layer_SelectNodeAddress (t : T) (nodeId : Z) : IPAddress :=
  SelectNodeAddress kAnyNodeId (env_FabricId t) nodeId (env_DefaultSubnet t).

(** SelectDestNodeIdAndAddress(destNodeId, destAddr): both, as it leaves them. *)
Definition SelectDestNodeIdAndAddress (destNodeId : Z) (destAddr : IPAddress) : M Mgr (Z * IPAddress) := fun m =>
  let t := m_env m in
  let addr := if bool_decide (destAddr = IPAddress_Any) then layer_SelectNodeAddress t destNodeId else destAddr in
  if bool_decide (addr = IPAddress_Any) then (Err WEAVE_ERROR_INVALID_ADDRESS, m)
  else
    let node := if IsFabricAddress (env_FabricId t) addr && (destNodeId =? kNodeIdNotSpecified)
                then IPv6InterfaceIdToWeaveNodeId (InterfaceId addr) else destNodeId in
    (Ok (node, addr), m).

(** EncodeMessage(destAddr, destPort, sendIntId, msgInfo, payload): msgInfo. *)
Definition EncodeMessage_to (destAddr : IPAddress) (i : WeaveMessageInfo) (payload : nat) : M Mgr WeaveMessageInfo :=
  let* t := gets m_env in
  let i := if has_flag kWeaveMessageFlag_ReuseSourceId i then i else set_SourceNodeId (env_LocalNodeId t) i in
  let i := if negb (IsFabricAddress (env_FabricId t) destAddr) then set_Flags (Z.lor (mi_Flags i) kWeaveMessageFlag_SourceNodeId) i else i in
  let i := if negb (IsIPv6ULA destAddr) || negb (IPv6InterfaceIdToWeaveNodeId (InterfaceId destAddr) =? mi_DestNodeId i)
           then set_Flags (Z.lor (mi_Flags i) kWeaveMessageFlag_DestNodeId) i else i in
  let* p := get_buf payload in
  fun m =>
    let '(r, i, p, t) := env_EncodeMessage i p (m_env m) in
    let m := set_env t (set_bufs (<[payload := Some p]> (m_bufs m)) m) in
    match r with None => (Ok i, m) | Some e => (Err e, m) end.

(** SendMessage(destAddr, destPort, sendIntfId, payload, msgSendFlags): the UDP
    end points take the buffer unless it is to be retained. *)
Definition SendMessage_encoded (destAddr : IPAddress) (destPort sendIntfId : Z) (payload : nat) (msgSendFlags : Z) : M Mgr unit :=
  let* p := get_buf payload in
  let* r := attempt (service (env_SendUdp destAddr destPort sendIntfId p msgSendFlags)) in
  do* whenM (Z.land msgSendFlags kWeaveMessageFlag_RetainBuffer =? 0) (FreeBuf payload) in
  throw r.

(** SendMessage(destAddr, destPort, sendIntfId, msgInfo, payload): msgInfo. *)
Definition SendMessage_layer (aDestAddr : IPAddress) (destPort sendIntfId : Z) (i : WeaveMessageInfo) (payload : nat) : M Mgr WeaveMessageInfo :=
  let* r := attempt
    (let* dest := SelectDestNodeIdAndAddress (mi_DestNodeId i) aDestAddr in
     let '(node, destAddr) := dest in
     let* i := EncodeMessage_to destAddr (set_DestNodeId node i) payload in
     ret (destAddr, i)) in
  match r with
  | inr e => do* whenM (negb (has_flag kWeaveMessageFlag_RetainBuffer i)) (FreeBuf payload) in fail e
  | inl (destAddr, i) =>
    if has_flag kWeaveMessageFlag_DelaySend i then ret i
    else do* SendMessage_encoded destAddr destPort sendIntfId payload (u16 (mi_Flags i)) in ret i
  end.

(** ** Ticks *)

(** GetTickCounterFromTimeDelta(newTime, oldTime) *)
Definition GetTickCounterFromTimeDelta (interval newTime oldTime : Z) : Z := u32 (newTime - oldTime) / interval.

Definition minus_ticks (x ticks : Z) : Z := if ticks <=? x then x - ticks else 0.

Definition expire_ack (ticks : Z) (e : ExchangeContext) : ExchangeContext :=
  if ec_used e && IsAckPending e then set_nextAck (minus_ticks (ec_mWRMPNextAckTime e) ticks) e else e.
Definition expire_throttle (ticks : Z) (e : ExchangeContext) : ExchangeContext :=
  set_throttle (minus_ticks (ec_mWRMPThrottleTimeout e) ticks) e.
Definition expire_retrans (ticks : Z) (r : RetransTableEntry) : RetransTableEntry :=
  set_nextRetransTime (minus_ticks (re_nextRetransTime r) ticks) r.

Definition expire_entry (ticks : Z) (i : nat) : M Mgr unit :=
  let* r := get_re i in
  match re_exchContext r with
  | None => ret tt
  | Some c => do* on_ec c (expire_throttle ticks) in on_re i (expire_retrans ticks)
  end.

Definition WRMPExpireTicks : M Mgr unit :=
  let* m := gets id in
  let deltaTicks := u16 (GetTickCounterFromTimeDelta (m_interval m) (m_now m) (m_base m)) in
  do* for_range WEAVE_CONFIG_MAX_EXCHANGE_CONTEXTS 0 (fun i => on_ec i (expire_ack deltaTicks)) in
  do* for_range WEAVE_CONFIG_WRMP_RETRANS_TABLE_SIZE 0 (expire_entry deltaTicks) in
  modify (fun m => set_base (u64 (m_base m + u32 (deltaTicks * m_interval m))) m).

(** The next time the timer has something to do, [None] when there is nothing. *)
Definition earlier (t : Z) (w : Z * bool) : Z * bool := if t <? fst w then (t, true) else w.
Definition wake_ack (m : Mgr) (w : Z * bool) (c : nat) : Z * bool :=
  let e := m_pool m c in
  if ec_used e && IsAckPending e then earlier (ec_mWRMPNextAckTime e) w else w.
Definition wake_entry (m : Mgr) (w : Z * bool) (i : nat) : Z * bool :=
  let r := m_table m i in
  match re_exchContext r with
  | None => w
  | Some c =>
    let e := m_pool m c in
    let w := if negb (ec_mWRMPThrottleTimeout e =? 0) then earlier (ec_mWRMPThrottleTimeout e) w else w in
    earlier (re_nextRetransTime r) w
  end.
Definition next_wake (m : Mgr) : Z * bool :=
  fold_left (wake_entry m) (seq 0 WEAVE_CONFIG_WRMP_RETRANS_TABLE_SIZE)
    (fold_left (wake_ack m) (seq 0 WEAVE_CONFIG_MAX_EXCHANGE_CONTEXTS) (UINT32_MAX, false)).

Definition WRMPStopTimer : M Mgr unit := modify (set_timer None).
Definition WRMPStartTimer : M Mgr unit :=
  do* WRMPStopTimer in
  let* m := gets id in
  let '(nextWakeTime, foundWake) := next_wake m in
  if foundWake then
    let timerArmValue := s32 (u64 (u32 (nextWakeTime * m_interval m) - u64 (m_now m - m_base m))) in
    let timerArmValue := if timerArmValue <? 0 then 0 else timerArmValue in
    let* r := attempt (service (env_StartTimer timerArmValue)) in
    match r with
    | inl _ => modify (set_timer (Some (m_now m + timerArmValue)))
    | inr _ => undefined
    end
  else ret tt.

(** ** Contexts *)

Definition AddRef (c : nat) : M Mgr unit := on_ec c (fun e => set_refCount (u8 (ec_mRefCount e + 1)) e).

Definition CancelResponseTimer (c : nat) : M Mgr unit := on_ec c (set_responseTimer None).
Definition StartResponseTimer (c : nat) : M Mgr unit :=
  let* e := get_ec c in
  do* service (env_StartTimer (ec_ResponseTimeout (ec_peer e))) in
  let* now := gets m_now in
  on_ec c (set_responseTimer (Some (now + ec_ResponseTimeout (ec_peer e)))).
Definition HandleResponseTimeout (c : nat) : M Mgr unit :=
  let* e := get_ec c in
  whenM (OnResponseTimeout (ec_cb e)) (emit (EvResponseTimeout c)).

(** TeardownTrickleRetransmit *)
Definition TeardownTrickleRetransmit (c : nat) : M Mgr unit :=
  let* e := get_ec c in
  let t := ec_trickle e in
  do* match tr_msg t with None => ret tt | Some b => FreeBuf b end in
  on_ec c (set_trickle (mkTrickle None 0 0 (tr_currentBcastMsgID t) (tr_msgsReceived t) (tr_rebroadcastThreshold t) None None)).
Definition CancelRetrans := TeardownTrickleRetransmit.

(** CancelRetransmissionTimer: the timer of SetupTrickleRetransmit went off. *)
Definition CancelRetransmissionTimer (c : nat) : M Mgr unit :=
  do* CancelRetrans c in
  let* e := get_ec c in
  whenM (OnRetransmissionTimeout (ec_cb e)) (emit (EvRetransmissionTimeout c)).

(** SetupTrickleRetransmit(retransInterval, threshold, timeout) *)
Definition SetupTrickleRetransmit (c : nat) (retransInterval threshold timeout : Z) : M Mgr unit :=
  do* CancelRetrans c in
  do* on_ec c (fun e => let t := ec_trickle e in
    set_trickle (mkTrickle (tr_msg t) (tr_backoff t) retransInterval (tr_currentBcastMsgID t) (tr_msgsReceived t) threshold
                           (tr_TimerTau t) (tr_CancelTimer t)) e) in
  if timeout =? 0 then ret tt
  else
    do* service (env_StartTimer timeout) in
    let* now := gets m_now in
    on_ec c (fun e => let t := ec_trickle e in
      set_trickle (mkTrickle (tr_msg t) (tr_backoff t) (tr_RetransInterval t) (tr_currentBcastMsgID t) (tr_msgsReceived t)
                             (tr_rebroadcastThreshold t) (tr_TimerTau t) (Some (now + timeout))) e).

(** StartTimerT: an interval of 1 divides by zero. *)
Definition StartTimerT (c : nat) : M Mgr unit :=
  let* e := get_ec c in
  let t := ec_trickle e in
  let interval := tr_RetransInterval t in
  if interval =? 0 then ret tt
  else if interval =? 1 then undefined
  else
    let* rnd := fun m => let '(x, t) := env_GetRandU32 (m_env m) in (Ok x, set_env t m) in
    let backoff := u32 (1 + rnd mod (interval - 1)) in
    do* on_ec c (set_trickle (mkTrickle (tr_msg t) backoff interval (tr_currentBcastMsgID t) 0 (tr_rebroadcastThreshold t)
                                        (tr_TimerTau t) (tr_CancelTimer t))) in
    do* service (env_StartTimer backoff) in
    let* now := gets m_now in
    on_ec c (set_trickle (mkTrickle (tr_msg t) backoff interval (tr_currentBcastMsgID t) 0 (tr_rebroadcastThreshold t)
                                    (Some (now + backoff)) (tr_CancelTimer t))).

(** AllocContext: the context, [None] when there is no free one. *)
Definition AllocContext : M Mgr (option nat) := fun m =>
  match find (fun c => negb (ec_used (m_pool m c))) (seq 0 WEAVE_CONFIG_MAX_EXCHANGE_CONTEXTS) with
  | None => (Ok None, m)
  | Some c =>
    (Ok (Some c), set_contextsInUse (u64 (m_contextsInUse m + 1)) (set_pool (<[c := set_refCount 1 (set_used true zero_context)]> (m_pool m)) m))
  end.

Definition set_peer (p : Peer) (e : ExchangeContext) : ExchangeContext :=
  mkEc (ec_used e) p (ec_cb e) (ec_trickle e) (ec_mMsgProtocolVersion e) (ec_mRefCount e) (ec_mFlags e) (ec_mPendingPeerAckId e)
       (ec_mWRMPNextAckTime e) (ec_mWRMPThrottleTimeout e) (ec_ResponseTimer e).


(** NewContext(peerNodeId, peerAddr, peerPort, sendIntfId, appState) *)
Definition NewContext (peerNodeId : Z) (peerAddr : IPAddress) (peerPort sendIntfId : Z) : M Mgr (option nat) :=
  let* ec := AllocContext in
  match ec with
  | None => ret None
  | Some c =>
    let* id := gets m_NextExchangeId in
    do* modify (set_NextExchangeId (u16 (id + 1))) in
    do* on_ec c (fun e =>
      SetDropAck false (set_throttle 0 (SetMsgRcvdFromPeer false (SetAckPending false (set_nextAck 0 (set_version 0 (SetInitiator true
        (set_peer (mkPeer id peerNodeId peerAddr (if peerPort =? 0 then WEAVE_PORT else peerPort) sendIntfId None 0 0 false 0 gDefaultWRMPConfig)
          (set_cb no_callbacks e))))))))) in
    ret (Some c)
  end.

(** NewContext(con, appState), for a connection to [peerNodeId] at [peerAddr]. *)
Definition NewContext_con (con : nat) (peerNodeId : Z) (peerAddr : IPAddress) (peerPort keyId encType : Z) : M Mgr (option nat) :=
  let* ec := NewContext peerNodeId peerAddr peerPort 0 in
  match ec with
  | None => ret None
  | Some c =>
    do* on_ec c (fun e => let p := ec_peer e in
      set_peer (mkPeer (ec_ExchangeId p) (ec_PeerNodeId p) (ec_PeerAddr p) (ec_PeerPort p) (ec_PeerIntf p) (Some con) encType keyId
                       (ec_AllowDuplicateMsgs p) (ec_ResponseTimeout p) (ec_WRMPConfig p)) e) in
    ret (Some c)
  end.

(** MatchExchange(msgCon, msgInfo, exchangeHeader) *)
Definition MatchExchange (t : T) (msgCon : option nat) (i : WeaveMessageInfo) (h : WeaveExchangeHeader) (e : ExchangeContext) : bool :=
  let p := ec_peer e in
  (ec_ExchangeId p =? xh_ExchangeId h) &&
  bool_decide (ec_Con p = msgCon) &&
  (((ec_PeerNodeId p =? kAnyNodeId) && (mi_DestNodeId i =? env_LocalNodeId t)) || (ec_PeerNodeId p =? mi_SourceNodeId i)) &&
  negb (eqb (xh_has kWeaveExchangeFlag_Initiator h) (IsInitiator e)).

Definition IsWRMPControlMessage (profileId msgType : Z) : bool :=
  (profileId =? kWeaveProfile_Common) && ((msgType =? kMsgType_WRMP_Throttle_Flow) || (msgType =? kMsgType_WRMP_Delayed_Delivery)).

(** EncodeExchHeader(exchangeHeader, profileId, msgType, msgBuf, sendFlags) *)
Definition EncodeExchHeader (c : nat) (profileId msgType : Z) (msgBuf : nat) (sendFlags : Z) : M Mgr unit :=
  let* e := get_ec c in
  let flags := if IsInitiator e || sf_has kSendFlag_FromInitiator sendFlags then kWeaveExchangeFlag_Initiator else 0 in
  let* fa := (if ec_mMsgProtocolVersion e =? kWeaveMessageVersion_V2 then
     let* fa := (if HasPeerRequestedAck e then
        do* WRMPExpireTicks in
        do* on_ec c (SetAckPending false) in
        do* WRMPStartTimer in
        ret (Z.lor flags kWeaveExchangeFlag_AckId, ec_mPendingPeerAckId e)
      else ret (flags, 0)) in
     let '(flags, ack) := fa in
     ret (if sf_has kSendFlag_RequestAck sendFlags && negb (IsWRMPControlMessage profileId msgType)
          then Z.lor flags kWeaveExchangeFlag_NeedsAck else flags, ack)
   else ret (flags, 0)) in
  let '(flags, ack) := fa in
  on_buf msgBuf (PrependHeader (mkXh kWeaveExchangeVersion_V1 flags (ec_ExchangeId (ec_peer e)) profileId msgType ack)).

(** The arguments that SendMessage changes as it goes: the send flags, the message
    info and the buffer, [None] once it is no longer the caller's. *)
Record SendArgs := mkArgs { sa_flags : Z; sa_info : WeaveMessageInfo; sa_buf : option nat }.

Definition lift {A} (f : M Mgr A) : M (Mgr * SendArgs) A := fun '(m, a) => let '(r, m') := f m in (r, (m', a)).
Definition args : M (Mgr * SendArgs) SendArgs := gets snd.
Definition set_args (a : SendArgs) : M (Mgr * SendArgs) unit := modify (fun '(m, _) => (m, a)).
Definition set_sa_flags (f : Z) : M (Mgr * SendArgs) unit := modify (fun '(m, a) => (m, mkArgs f (sa_info a) (sa_buf a))).
Definition set_sa_info (i : WeaveMessageInfo) : M (Mgr * SendArgs) unit := modify (fun '(m, a) => (m, mkArgs (sa_flags a) i (sa_buf a))).
Definition set_sa_buf (b : option nat) : M (Mgr * SendArgs) unit := modify (fun '(m, a) => (m, mkArgs (sa_flags a) (sa_info a) b)).

(** SendMessage up to the throttle. *)
Definition send_request_ack (c : nat) : M (Mgr * SendArgs) unit :=
  let* e := lift (get_ec c) in
  let* a := args in
  let f := sa_flags a in
  let f := if bool_decide (ec_Con (ec_peer e) = None) && AutoRequestAck e && negb (sf_has kSendFlag_NoAutoRequestAck f)
           then Z.lor f kSendFlag_RequestAck else f in
  do* set_sa_flags f in
  do* verify (negb (sf_has kSendFlag_RequestAck f && negb (bool_decide (ec_Con (ec_peer e) = None)))) WEAVE_ERROR_INVALID_ARGUMENT in
  verify (ec_mWRMPThrottleTimeout e =? 0) WEAVE_ERROR_SEND_THROTTLED.

(** The version of the message. *)
Definition set_MessageVersion (x : Z) (i : WeaveMessageInfo) : WeaveMessageInfo :=
  mkInfo (mi_SourceNodeId i) (mi_DestNodeId i) (mi_MessageId i) (mi_Flags i) (mi_KeyId i) x (mi_EncryptionType i) (mi_PeerAuthMode i).

Definition send_version (c : nat) (profileId msgType : Z) : M (Mgr * SendArgs) unit :=
  let* e := lift (get_ec c) in
  let* a := args in
  do* (if sf_has kSendFlag_RequestAck (sa_flags a) || IsWRMPControlMessage profileId msgType ||
          ((profileId =? kWeaveProfile_Common) && (msgType =? kMsgType_Null)) then
         if ec_mMsgProtocolVersion e =? kWeaveMessageVersion_Unspecified then
           do* lift (on_ec c (set_version kWeaveMessageVersion_V2)) in
           set_sa_info (set_MessageVersion kWeaveMessageVersion_V2 (sa_info a))
         else verify (ec_mMsgProtocolVersion e =? kWeaveMessageVersion_V2) WEAVE_ERROR_WRONG_MSG_VERSION_FOR_EXCHANGE
       else ret tt) in
  let* e := lift (get_ec c) in
  let* a := args in
  do* (if ec_mMsgProtocolVersion e =? kWeaveMessageVersion_Unspecified then
         do* lift (on_ec c (set_version kWeaveMessageVersion_V1)) in
         set_sa_info (set_MessageVersion kWeaveMessageVersion_V1 (sa_info a))
       else set_sa_info (set_MessageVersion (ec_mMsgProtocolVersion e) (sa_info a))) in
  verify (negb (IsConnectionClosed e)) WEAVE_ERROR_NOT_CONNECTED.

(** Preparing a Trickle retransmission of [b]. *)
Definition send_trickle (c b : nat) : M (Mgr * SendArgs) unit :=
  let* a := args in
  let* e := lift (get_ec c) in
  whenM (sf_has kSendFlag_RetransmissionTrickle (sa_flags a))
    (do* verify (negb (sf_has kSendFlag_RequestAck (sa_flags a))) WEAVE_ERROR_INVALID_ARGUMENT in
     do* verify (bool_decide (ec_Con (ec_peer e) = None)) WEAVE_ERROR_INVALID_ARGUMENT in
     if tr_RetransInterval (ec_trickle e) =? 0 then set_sa_flags (Z.ldiff (sa_flags a) kSendFlag_RetainBuffer)
     else
       do* set_sa_flags (Z.lor (sa_flags a) kSendFlag_RetainBuffer) in
       lift (on_ec c (fun e => let t := ec_trickle e in
         set_trickle (mkTrickle (Some b) (tr_backoff t) (tr_RetransInterval t) (tr_currentBcastMsgID t) (tr_msgsReceived t)
                                (tr_rebroadcastThreshold t) (tr_TimerTau t) (tr_CancelTimer t)) e))).

Definition send_expect_response (c : nat) : M (Mgr * SendArgs) unit :=
  let* a := args in
  let* e := lift (get_ec c) in
  whenM (sf_has kSendFlag_ExpectResponse (sa_flags a))
    (do* verify (negb (IsResponseExpected e)) WEAVE_ERROR_INCORRECT_STATE in
     do* lift (on_ec c (SetResponseExpected true)) in
     whenM (0 <? ec_ResponseTimeout (ec_peer e)) (lift (StartResponseTimer c))).

(** The send flags become flags of the message. *)
Definition message_flags (sendFlags flags : Z) : Z :=
  let f := if sf_has kSendFlag_DelaySend sendFlags then Z.lor flags kWeaveMessageFlag_DelaySend else flags in
  let f := if sf_has kSendFlag_RetainBuffer sendFlags then Z.lor f kWeaveMessageFlag_RetainBuffer else f in
  let f := if sf_has kSendFlag_AlreadyEncoded sendFlags then Z.lor f kWeaveMessageFlag_MessageEncoded else f in
  let f := if sf_has kSendFlag_ReuseMessageId sendFlags then Z.lor f kWeaveMessageFlag_ReuseMessageId else f in
  let f := if sf_has kSendFlag_ReuseSourceId sendFlags then Z.lor f kWeaveMessageFlag_ReuseSourceId else f in
  if sf_has kSendFlag_MulticastFromLinkLocal sendFlags then Z.lor f kWeaveMessageFlag_MulticastFromLinkLocal else f.

(** Con->SendMessage(msgInfo, msgBuf), which always takes the buffer. *)
Definition connection_send (con : nat) (i : WeaveMessageInfo) (b : nat) : M Mgr unit :=
  let* p := get_buf b in
  let* r := attempt (service (env_ConSend con i p)) in
  do* FreeBuf b in
  throw r.

(** After a Trickle message was sent. *)
Definition send_trickle_done (c : nat) (i : WeaveMessageInfo) : M Mgr unit :=
  let* e := get_ec c in
  let t := ec_trickle e in
  do* on_ec c (set_trickle (mkTrickle (tr_msg t) (tr_backoff t) (tr_RetransInterval t) (mi_MessageId i) (tr_msgsReceived t)
                                      (tr_rebroadcastThreshold t) (tr_TimerTau t) (tr_CancelTimer t))) in
  whenM (negb (tr_RetransInterval t =? 0)) (ignore (StartTimerT c)).

(** AddToRetransTable(ec, msgBuf, messageId, msgCtxt): the
    index of the entry. *)
Definition AddToRetransTable (c msgBuf : nat) (messageId msgCtxt : Z) : M Mgr nat :=
  let* m := gets id in
  match find (fun i => bool_decide (re_exchContext (m_table m i) = None)) (seq 0 WEAVE_CONFIG_WRMP_RETRANS_TABLE_SIZE) with
  | None => fail WEAVE_ERROR_RETRANS_TABLE_FULL
  | Some i =>
    do* WRMPExpireTicks in
    let* m := gets id in
    let timeout := GetCurrentRetransmitTimeout (m_pool m c) in
    do* on_re i (fun _ => mkEntry (Some c) messageId (Some msgBuf) msgCtxt
                            (u16 (GetTickCounterFromTimeDelta (m_interval m) (timeout + m_now m) (m_base m))) 0) in
    do* AddRef c in
    do* WRMPStartTimer in
    ret i
  end.

(** ** The operations that release references

    [release] is Release, closed below. *)
Section Recursion.
Variable release : nat -> M Mgr unit.

(** ClearRetransmitTable(rEntry) *)
Definition ClearRetransmitTable_entry_ (i : nat) : M Mgr unit :=
  let* r := get_re i in
  match re_exchContext r with
  | None => ret tt
  | Some c =>
    do* WRMPExpireTicks in
    do* release c in
    do* on_re i (set_exchContext None) in
    let* r := get_re i in
    do* match re_msgBuf r with
        | None => ret tt
        | Some b => do* FreeBuf b in on_re i (set_msgBuf None)
        end in
    do* on_re i (fun _ => zero_entry) in
    WRMPStartTimer
  end.

(** SendFromRetransTable(entry) *)
Definition SendFromRetransTable_ (i : nat) : M Mgr unit :=
  let* r := get_re i in
  match re_exchContext r with
  | None => ret tt
  | Some c =>
    let* e := get_ec c in
    match re_msgBuf r with
    | None => undefined
    | Some b =>
      let* p := get_buf b in
      do* emit (EvTransmit c (re_msgId r)) in
      let* err := attempt (SendMessage_encoded (ec_PeerAddr (ec_peer e)) (ec_PeerPort (ec_peer e)) (ec_PeerIntf (ec_peer e)) b
                             kWeaveMessageFlag_RetainBuffer) in
      do* on_buf b (modify (fun q => SetDataLength (DataLength p) (SetStart (Start p) q))) in
      do* on_re i (fun r => set_sendCount (u8 (re_sendCount r + 1)) r) in
      match err with
      | inl _ => ret tt
      | inr x => if IsSendErrorNonCritical x then ret tt else do* ClearRetransmitTable_entry_ i in fail x
      end
    end
  end.

(** SendMessage: handing the encoded message over. *)
Definition send_hand_over (c b : nat) (msgCtxt : Z) : M (Mgr * SendArgs) unit :=
  let* e := lift (get_ec c) in
  let* a := args in
  let p := ec_peer e in
  match ec_Con p with
  | Some con =>
    let* r := lift (attempt (connection_send con (sa_info a) b)) in
    do* set_sa_buf None in
    throw r
  | None =>
    do* (if sf_has kSendFlag_RequestAck (sa_flags a) then
           let* dest := lift (SelectDestNodeIdAndAddress (mi_DestNodeId (sa_info a)) (ec_PeerAddr p)) in
           let '(node, addr) := dest in
           do* lift (on_ec c (fun e => let p := ec_peer e in
             set_peer (mkPeer (ec_ExchangeId p) (ec_PeerNodeId p) addr (ec_PeerPort p) (ec_PeerIntf p) (ec_Con p) (ec_EncryptionType p)
                              (ec_KeyId p) (ec_AllowDuplicateMsgs p) (ec_ResponseTimeout p) (ec_WRMPConfig p)) e)) in
           let* i := lift (EncodeMessage_to addr (set_DestNodeId node (sa_info a)) b) in
           do* set_sa_info i in
           let* k := lift (AddToRetransTable c b (mi_MessageId i) msgCtxt) in
           do* set_sa_buf None in
           lift (SendFromRetransTable_ k)
         else
           let* r := lift (attempt (SendMessage_layer (ec_PeerAddr p) (ec_PeerPort p) (ec_PeerIntf p) (sa_info a) b)) in
           do* set_sa_buf None in
           let* i := throw r in
           set_sa_info i) in
    let* a := args in
    whenM (sf_has kSendFlag_RetransmissionTrickle (sa_flags a)) (lift (send_trickle_done c (sa_info a)))
  end.

Definition send_body (c : nat) (profileId msgType : Z) (b : nat) (msgCtxt : Z) : M (Mgr * SendArgs) unit :=
  do* send_request_ack c in
  do* send_version c profileId msgType in
  do* send_trickle c b in
  let* a := args in
  do* lift (EncodeExchHeader c profileId msgType b (sa_flags a)) in
  do* send_expect_response c in
  let* a := args in
  do* set_sa_info (set_Flags (message_flags (sa_flags a) (mi_Flags (sa_info a))) (sa_info a)) in
  send_hand_over c b msgCtxt.

(** SendMessage after the label exit. *)
Definition send_exit (c : nat) (err : unit + WEAVE_ERROR) (a : SendArgs) : M Mgr unit :=
  let* e := get_ec c in
  do* whenM (match err with inr _ => IsResponseExpected e | inl _ => false end)
        (do* CancelResponseTimer c in on_ec c (SetResponseExpected false)) in
  do* match sa_buf a with
      | Some b => if sf_has kSendFlag_RetainBuffer (sa_flags a) then ret tt
                  else do* FreeBuf b in
                       on_ec c (fun e => let t := ec_trickle e in
                         if bool_decide (tr_msg t = Some b)
                         then set_trickle (mkTrickle None (tr_backoff t) (tr_RetransInterval t) (tr_currentBcastMsgID t) (tr_msgsReceived t)
                                                     (tr_rebroadcastThreshold t) (tr_TimerTau t) (tr_CancelTimer t)) e
                         else e)
      | None => ret tt
      end in
  do* release c in
  throw err.

(** SendMessage(profileId, msgType, msgBuf, sendFlags, msgInfo, msgCtxt) *)
Definition SendMessage_info_ (c : nat) (profileId msgType : Z) (b : nat) (sendFlags : Z) (i : WeaveMessageInfo) (msgCtxt : Z) : M Mgr unit :=
  let* e := get_ec c in
  if negb (ec_used e) || (ec_mRefCount e =? 0) then undefined
  else
    do* AddRef c in
    let* r := fun m =>
      let '(r, (m, a)) := attempt (send_body c profileId msgType b msgCtxt) (m, mkArgs sendFlags i (Some b)) in
      (match r with Ok x => Ok (x, a) | Err e => Err e | Undefined => Undefined | Diverges => Diverges end, m) in
    let '(err, a) := r in
    send_exit c err a.

(** SendMessage(profileId, msgType, msgBuf, sendFlags, msgCtxt) *)
Definition SendMessage_ (c : nat) (profileId msgType : Z) (b : nat) (sendFlags msgCtxt : Z) : M Mgr unit :=
  let* m := gets id in
  let p := ec_peer (m_pool m c) in
  SendMessage_info_ c profileId msgType b sendFlags
    (mkInfo (env_LocalNodeId (m_env m)) (ec_PeerNodeId p) 0 0 (ec_KeyId p) 0 (ec_EncryptionType p) 0) msgCtxt.

(** SendCommonNullMessage *)
Definition SendCommonNullMessage_ (c : nat) : M Mgr unit :=
  let* r := attempt (let* b := NewBuf 0 in SendMessage_ c kWeaveProfile_Common kMsgType_Null b kSendFlag_NoAutoRequestAck 0) in
  match r with
  | inr e => if IsSendErrorNonCritical e then ret tt else fail e
  | inl _ => ret tt
  end.

(** WRMPFlushAcks *)
Definition WRMPFlushAcks_ (c : nat) : M Mgr unit :=
  let* e := get_ec c in
  whenM (IsAckPending e) (SendCommonNullMessage_ c).

(** ClearRetransmitTable(ec) *)
Definition ClearRetransmitTable_ (c : nat) : M Mgr unit :=
  for_range WEAVE_CONFIG_WRMP_RETRANS_TABLE_SIZE 0 (fun i =>
    let* r := get_re i in
    whenM (bool_decide (re_exchContext r = Some c)) (ClearRetransmitTable_entry_ i)).

(** DoClose(clearRetransTable) *)
Definition DoClose_ (c : nat) (clearRetransTable : bool) : M Mgr unit :=
  do* on_ec c (fun e => let k := ec_cb e in
    set_cb (mkCallbacks false false false false false (OnThrottleRcvd k) (OnDDRcvd k) (OnSendError k) (OnAckRcvd k)) e) in
  do* WRMPExpireTicks in
  do* on_ec c (set_cb no_callbacks) in
  do* ignore (WRMPFlushAcks_ c) in
  do* whenM clearRetransTable (ClearRetransmitTable_ c) in
  do* WRMPStartTimer in
  do* CancelRetrans c in
  CancelResponseTimer c.

(** Release() *)
Definition Release_body (c : nat) : M Mgr unit :=
  let* e := get_ec c in
  if negb (ec_used e) || (ec_mRefCount e =? 0) then undefined
  else if ec_mRefCount e =? 1 then
    do* DoClose_ c false in
    do* on_ec c (fun e => set_used false (set_refCount 0 e)) in
    modify (fun m => set_contextsInUse (u64 (m_contextsInUse m - 1)) m)
  else on_ec c (fun e => set_refCount (ec_mRefCount e - 1) e).
End Recursion.

Fixpoint Release_fuel (fuel : nat) (c : nat) : M Mgr unit :=
  match fuel with
  | O => fun m => (Diverges, m)
  | S fuel => Release_body (Release_fuel fuel) c
  end.

Definition Release : nat -> M Mgr unit := Release_fuel 2.
Definition ClearRetransmitTable_entry := ClearRetransmitTable_entry_ Release.
Definition ClearRetransmitTable := ClearRetransmitTable_ Release.
Definition SendFromRetransTable := SendFromRetransTable_ Release.
Definition SendMessage_info := SendMessage_info_ Release.
Definition SendMessage := SendMessage_ Release.
Definition SendCommonNullMessage := SendCommonNullMessage_ Release.
Definition WRMPFlushAcks := WRMPFlushAcks_ Release.
Definition DoClose := DoClose_ Release.

(** Close(), Abort() *)
Definition Close (c : nat) : M Mgr unit :=
  let* e := get_ec c in
  if negb (ec_used e) || (ec_mRefCount e =? 0) then undefined
  else do* DoClose c false in Release c.
Definition Abort_exchange (c : nat) : M Mgr unit :=
  let* e := get_ec c in
  if negb (ec_used e) || (ec_mRefCount e =? 0) then undefined
  else do* DoClose c true in Release c.

(** ** The retransmission table *)

(** FailRetransmitTableEntries(ec, err): the callback is looked up after the
    entry was cleared. *)
Definition FailRetransmitTableEntries (c : nat) (err : WEAVE_ERROR) : M Mgr unit :=
  for_range WEAVE_CONFIG_WRMP_RETRANS_TABLE_SIZE 0 (fun i =>
    let* r := get_re i in
    whenM (bool_decide (re_exchContext r = Some c))
      (do* ClearRetransmitTable_entry i in
       let* e := get_ec c in
       whenM (OnSendError (ec_cb e)) (emit (EvSendError c err (re_msgCtxt r))))).

(** The first loop of WRMPExecuteActions: the acknowledgements that are due. *)
Definition execute_ack (c : nat) : M Mgr unit :=
  let* e := get_ec c in
  whenM (ec_used e && IsAckPending e && (ec_mWRMPNextAckTime e =? 0))
    (do* ignore (SendCommonNullMessage c) in on_ec c (SetAckPending false)).

(** The second loop: the messages that are due. *)
Definition execute_retrans (i : nat) : M Mgr unit :=
  let* r := get_re i in
  match re_exchContext r with
  | None => ret tt
  | Some c =>
    if negb (re_nextRetransTime r =? 0) then ret tt
    else
      let* e := get_ec c in
      let* err :=
        (if mMaxRetrans (ec_WRMPConfig (ec_peer e)) <? re_sendCount r then
           do* ClearRetransmitTable_entry i in ret (inr WEAVE_ERROR_MESSAGE_NOT_ACKNOWLEDGED)
         else attempt (SendFromRetransTable i)) in
      match err with
      | inl _ =>
        let* m := gets id in
        on_re i (set_nextRetransTime (u16 (GetCurrentRetransmitTimeout (m_pool m c) / m_interval m)))
      | inr x =>
        let* e := get_ec c in
        whenM (OnSendError (ec_cb e)) (emit (EvSendError c x (re_msgCtxt r)))
      end
  end.

Definition WRMPExecuteActions : M Mgr unit :=
  do* for_range WEAVE_CONFIG_MAX_EXCHANGE_CONTEXTS 0 execute_ack in
  for_range WEAVE_CONFIG_WRMP_RETRANS_TABLE_SIZE 0 execute_retrans.

(** WRMPTimeout *)
Definition WRMPTimeout : M Mgr unit :=
  do* WRMPExpireTicks in
  do* WRMPExecuteActions in
  WRMPStartTimer.

(** WRMPProcessDDMessage(PauseTimeMillis, DelayedNodeId) *)
Definition process_delayed (PauseTimeMillis DelayedNodeId : Z) (i : nat) : M Mgr unit :=
  let* r := get_re i in
  match re_exchContext r with
  | None => ret tt
  | Some c =>
    let* e := get_ec c in
    whenM (DelayedNodeId =? ec_PeerNodeId (ec_peer e))
      (let* interval := gets m_interval in
       do* on_re i (fun r => set_nextRetransTime (u16 (re_nextRetransTime r + PauseTimeMillis / interval)) r) in
       whenM (OnDDRcvd (ec_cb e)) (emit (EvDDRcvd c PauseTimeMillis)))
  end.
Definition WRMPProcessDDMessage (PauseTimeMillis DelayedNodeId : Z) : M Mgr unit :=
  do* WRMPExpireTicks in
  do* for_range WEAVE_CONFIG_WRMP_RETRANS_TABLE_SIZE 0 (process_delayed PauseTimeMillis DelayedNodeId) in
  WRMPStartTimer.

(** The entries of a peer's group messages: ClearMsgCounterSyncReq(peerNodeId),
    which clears the request in the header of each pending message, and
    RetransPendingAppGroupMsgs(peerNodeId), which sends each again without counting it. *)
Definition group_entry (peerNodeId : Z) (r : RetransTableEntry) (m : Mgr) : bool :=
  match re_exchContext r with
  | None => false
  | Some c => (ec_PeerNodeId (ec_peer (m_pool m c)) =? peerNodeId) && IsAppGroupKey (ec_KeyId (ec_peer (m_pool m c)))
  end.

Definition ClearMsgCounterSyncReq (peerNodeId : Z) : M Mgr unit :=
  for_range WEAVE_CONFIG_WRMP_RETRANS_TABLE_SIZE 0 (fun i =>
    let* m := gets id in
    whenM (group_entry peerNodeId (m_table m i) m)
      (match re_msgBuf (m_table m i) with
       | None => undefined
       | Some b => on_buf b (modify (fun p =>
           let headerField := Z.ldiff (LittleEndian_Get16 (pb_data p)) kWeaveMessageFlag_MsgCounterSyncReq in
           mkPbuf (pb_next p) (pb_payload p) (pb_tot_len p) (pb_len p) (pb_ref p)
                  (block_write (Start p) (LittleEndian_Write16 headerField) (pb_block p))))
       end)).

Definition RetransPendingAppGroupMsgs (peerNodeId : Z) : M Mgr unit :=
  for_range WEAVE_CONFIG_WRMP_RETRANS_TABLE_SIZE 0 (fun i =>
    let* m := gets id in
    whenM (group_entry peerNodeId (m_table m i) m)
      (do* on_re i (fun r => set_sendCount (u8 (re_sendCount r - 1)) r) in ignore (SendFromRetransTable i))).

(** ** Receiving *)

(** WRMPCheckAndRemRetransTable(ackMsgId, rCtxt): the context of the message
    that was waiting, [None] when there is none. *)
Definition WRMPCheckAndRemRetransTable (c : nat) (ackMsgId : Z) : M Mgr (option Z) :=
  let* m := gets id in
  match find (fun i => bool_decide (re_exchContext (m_table m i) = Some c) && (re_msgId (m_table m i) =? ackMsgId))
             (seq 0 WEAVE_CONFIG_WRMP_RETRANS_TABLE_SIZE) with
  | None => ret None
  | Some i => do* ClearRetransmitTable_entry i in ret (Some (re_msgCtxt (m_table m i)))
  end.

(** WRMPHandleRcvdAck(exchHeader, msgInfo) *)
Definition WRMPHandleRcvdAck (c : nat) (h : WeaveExchangeHeader) : M Mgr unit :=
  let* r := WRMPCheckAndRemRetransTable c (xh_AckMsgId h) in
  match r with
  | None => fail WEAVE_ERROR_INVALID_ACK_ID
  | Some ctxt =>
    let* e := get_ec c in
    whenM (OnAckRcvd (ec_cb e)) (emit (EvAckRcvd c ctxt))
  end.

(** WRMPHandleNeedsAck(msgInfo): a duplicate is acknowledged at once, without
    disturbing the acknowledgement that waits; another message makes that one be sent
    and waits in its place. *)
Definition needs_ack_duplicate (c : nat) (i : WeaveMessageInfo) : M Mgr unit :=
  let* e := get_ec c in
  let wasAckPending := IsAckPending e && negb (ec_mPendingPeerAckId e =? mi_MessageId i) in
  let tempAckId := ec_mPendingPeerAckId e in
  do* on_ec c (set_pendingAck (mi_MessageId i)) in
  let* err := attempt (SendCommonNullMessage c) in
  do* whenM wasAckPending (do* on_ec c (set_pendingAck tempAckId) in on_ec c (SetAckPending true)) in
  throw err.

Definition needs_ack_new (c : nat) (i : WeaveMessageInfo) : M Mgr unit :=
  let* e := get_ec c in
  do* whenM (IsAckPending e) (SendCommonNullMessage c) in
  do* on_ec c (set_pendingAck (mi_MessageId i)) in
  let* m := gets id in
  do* on_ec c (set_nextAck (u16 (GetTickCounterFromTimeDelta (m_interval m)
                 (mAckPiggybackTimeout (ec_WRMPConfig (ec_peer e)) + m_now m) (m_base m)))) in
  on_ec c (SetAckPending true).

Definition WRMPHandleNeedsAck (c : nat) (i : WeaveMessageInfo) : M Mgr unit :=
  do* WRMPExpireTicks in
  let* err := attempt (if has_flag kWeaveMessageFlag_DuplicateMessage i then needs_ack_duplicate c i else needs_ack_new c i) in
  do* WRMPStartTimer in
  throw err.

(** HandleThrottleFlow(PauseTimeMillis): only the first entry of the exchange is
    moved. *)
Definition throttle_entry (c : nat) (PauseTimeMillis : Z) : M Mgr unit :=
  let* m := gets id in
  match find (fun i => bool_decide (re_exchContext (m_table m i) = Some c)) (seq 0 WEAVE_CONFIG_WRMP_RETRANS_TABLE_SIZE) with
  | None => ret tt
  | Some i =>
    on_re i (fun r => set_nextRetransTime
      (if PauseTimeMillis =? 0 then 0 else u16 (re_nextRetransTime r + PauseTimeMillis / m_interval m)) r)
  end.

Definition HandleThrottleFlow (c : nat) (PauseTimeMillis : Z) : M Mgr unit :=
  do* WRMPExpireTicks in
  let* m := gets id in
  do* on_ec c (set_throttle
        (if PauseTimeMillis =? 0 then 0
         else u16 (GetTickCounterFromTimeDelta (m_interval m) (m_now m + PauseTimeMillis) (m_base m)))) in
  do* throttle_entry c PauseTimeMillis in
  let* e := get_ec c in
  do* whenM (OnThrottleRcvd (ec_cb e)) (emit (EvThrottleRcvd c PauseTimeMillis)) in
  WRMPStartTimer.

(** The [n] bytes from Start() of a buffer, which the code reads without looking
    at the length of the data. *)
Definition read_start (b : nat) (n : Z) : M Mgr (list Z) :=
  let* p := get_buf b in
  if AllocSize p <? Start p + n then undefined else ret (block_read (Start p) n (pb_block p)).

(** HandleMessage(msgInfo, exchHeader, msgBuf, umhandler) up to the release; what is
    left of the buffer: [None] when a callback took it. *)
Definition handle_wrmp (c : nat) (i : WeaveMessageInfo) (h : WeaveExchangeHeader) : M Mgr unit :=
  whenM (mi_MessageVersion i =? kWeaveMessageVersion_V2)
    (do* whenM (xh_has kWeaveExchangeFlag_AckId h) (ignore (WRMPHandleRcvdAck c h)) in
     whenM (xh_has kWeaveExchangeFlag_NeedsAck h)
       (do* on_ec c (SetPeerRequestedAck true) in
        let* e := get_ec c in
        whenM (negb (ShouldDropAck e)) (ignore (WRMPHandleNeedsAck c i)))).

Definition handle_payload (c : nat) (i : WeaveMessageInfo) (h : WeaveExchangeHeader) (b : nat) (umhandler : option Z) : M Mgr (option nat) :=
  let* e := get_ec c in
  if has_flag kWeaveMessageFlag_DuplicateMessage i && negb (ec_AllowDuplicateMsgs (ec_peer e)) then ret (Some b)
  else if (xh_ProfileId h =? kWeaveProfile_Common) && (xh_MessageType h =? kMsgType_WRMP_Throttle_Flow) then
    let* bytes := read_start b 4 in
    do* HandleThrottleFlow c (LittleEndian_Get32 bytes) in ret (Some b)
  else if (xh_ProfileId h =? kWeaveProfile_Common) && (xh_MessageType h =? kMsgType_Null) then ret (Some b)
  else
    do* CancelResponseTimer c in
    do* on_ec c (SetResponseExpected false) in
    match umhandler with
    | Some handler => do* emit (EvUnsolicited handler c (xh_ProfileId h) (xh_MessageType h) b) in ret None
    | None =>
      if OnMessageReceived (ec_cb e) then do* emit (EvMessageReceived c (xh_ProfileId h) (xh_MessageType h) b) in ret None
      else ret (Some b)
    end.

(** HandleMessage; its result is not used by its callers, and it changes one flag of
    msgInfo, for the callbacks. *)
Definition HandleMessage (c : nat) (i : WeaveMessageInfo) (h : WeaveExchangeHeader) (b : nat) (umhandler : option Z) : M Mgr unit :=
  do* AddRef c in
  do* handle_wrmp c i h in
  let* left := handle_payload c i h b umhandler in
  do* Release c in
  match left with Some b => FreeBuf b | None => ret tt end.

(** What comes with a message: msgInfo->InCon and, over UDP, msgInfo->InPacketInfo. *)
Record Incoming := mkIncoming { in_Con : option nat; in_PacketInfo : option (IPAddress * Z * Z) }.

(** The unsolicited message handler for a message, or NULL: the first that names its type, else the last for any type. *)
Definition umh_matches (msgCon : option nat) (dup : bool) (h : WeaveExchangeHeader) (u : UnsolicitedMessageHandler) : bool :=
  negb (bool_decide (umh_Handler u = None)) && (umh_ProfileId u =? xh_ProfileId h) &&
  (bool_decide (umh_Con u = None) || bool_decide (umh_Con u = msgCon)) && (negb dup || umh_AllowDuplicateMsgs u).
Fixpoint find_umh (msgCon : option nat) (dup : bool) (h : WeaveExchangeHeader) (l : list UnsolicitedMessageHandler)
    (matchingUMH : option UnsolicitedMessageHandler) : option UnsolicitedMessageHandler :=
  match l with
  | [] => matchingUMH
  | u :: l =>
    if umh_matches msgCon dup h u then
      if umh_MessageType u =? xh_MessageType h then Some u
      else find_umh msgCon dup h l (if umh_MessageType u =? -1 then Some u else matchingUMH)
    else find_umh msgCon dup h l matchingUMH
  end.

(** The exchange for a message that starts one, or that is only to be
    acknowledged. *)
Definition dispatch_new (i : WeaveMessageInfo) (h : WeaveExchangeHeader) (inc : Incoming)
    (umh : option UnsolicitedMessageHandler) (c : nat) : M Mgr unit :=
  let '(addr, port, intf) := match in_PacketInfo inc with Some x => x | None => (IPAddress_Any, 0, 0) end in
  do* on_ec c (fun e =>
    set_version (mi_MessageVersion i) (SetDropAck false (set_throttle 0 (SetMsgRcvdFromPeer true (SetAckPending false (set_nextAck 0
      (set_peer (mkPeer (xh_ExchangeId h) (mi_SourceNodeId i) addr port intf (in_Con inc) (mi_EncryptionType i) (mi_KeyId i)
                        false 0 gDefaultWRMPConfig) e))))))) in
  match umh with
  | Some u =>
    on_ec c (fun e => let p := ec_peer e in let k := ec_cb e in
      set_peer (mkPeer (ec_ExchangeId p) (ec_PeerNodeId p) (ec_PeerAddr p) (ec_PeerPort p) (ec_PeerIntf p) (ec_Con p) (ec_EncryptionType p)
                       (ec_KeyId p) (umh_AllowDuplicateMsgs u) (ec_ResponseTimeout p) (ec_WRMPConfig p))
        (set_cb (mkCallbacks true (OnResponseTimeout k) (OnRetransmissionTimeout k) (OnConnectionClosed k) (OnKeyError k)
                             (OnThrottleRcvd k) (OnDDRcvd k) (OnSendError k) (OnAckRcvd k)) (SetInitiator false e)))
  | None => on_ec c (SetInitiator (negb (xh_has kWeaveExchangeFlag_Initiator h)))
  end.

Definition dispatch_unsolicited (i : WeaveMessageInfo) (h : WeaveExchangeHeader) (b : nat) (inc : Incoming) : M Mgr (option nat) :=
  let* m := gets id in
  let msgNeedsAck := xh_has kWeaveExchangeFlag_NeedsAck h in
  let dupMsg := has_flag kWeaveMessageFlag_DuplicateMessage i in
  let initiator := xh_has kWeaveExchangeFlag_Initiator h in
  let matchingUMH := if initiator then find_umh (in_Con inc) dupMsg h (map (m_umh m) (seq 0 WEAVE_CONFIG_MAX_UNSOLICITED_MESSAGE_HANDLERS)) None else None in
  if negb initiator && negb msgNeedsAck then ret (Some b)
  else
    let sendAckAndCloseExchange :=
      msgNeedsAck && match matchingUMH with None => true | Some u => dupMsg && negb (umh_AllowDuplicateMsgs u) end &&
      negb (has_flag kWeaveMessageFlag_PeerGroupMsgIdNotSynchronized i) in
    if negb (bool_decide (matchingUMH = None)) || sendAckAndCloseExchange then
      let* ec := AllocContext in
      match ec with
      | None => ret (Some b)
      | Some c =>
        let umh := if sendAckAndCloseExchange then None else matchingUMH in
        do* dispatch_new i h inc umh c in
        do* HandleMessage c i h b (match umh with Some u => umh_Handler u | None => None end) in
        do* whenM sendAckAndCloseExchange (Close c) in
        ret None
      end
    else ret (Some b).

(** Storing a message at the start of a buffer. *)
Definition fill_buf (b : nat) (bytes : list Z) : M Mgr unit :=
  on_buf b (modify (fun p => SetDataLength (Z.of_nat (length bytes))
    (mkPbuf (pb_next p) (pb_payload p) (pb_tot_len p) (pb_len p) (pb_ref p) (block_write (Start p) bytes (pb_block p))))).

(** WeaveSecurityManager::NewMsgCounterSyncExchange(rcvdMsgInfo, rcvdMsgPacketInfo, ec);
    [rcvdMsgPacketInfo] is the source's address, port and interface, or NULL. *)
Definition NewMsgCounterSyncExchange (i : WeaveMessageInfo) (rcvdMsgPacketInfo : option (IPAddress * Z * Z)) : M Mgr nat :=
  match rcvdMsgPacketInfo with
  | None => fail WEAVE_ERROR_INVALID_ARGUMENT
  | Some (SrcAddress, SrcPort, Interface) =>
    if negb (IsAppGroupKey (mi_KeyId i)) then fail WEAVE_ERROR_INVALID_ARGUMENT
    else
      let* ec := NewContext (mi_SourceNodeId i) SrcAddress SrcPort Interface in
      match ec with
      | None => fail WEAVE_ERROR_NO_MEMORY
      | Some c =>
        do* on_ec c (fun e => let p := ec_peer e in
          set_peer (mkPeer (ec_ExchangeId p) (ec_PeerNodeId p) (ec_PeerAddr p) (ec_PeerPort p) (ec_PeerIntf p) (ec_Con p) (mi_EncryptionType i)
                           (mi_KeyId i) (ec_AllowDuplicateMsgs p) (ec_ResponseTimeout p) (ec_WRMPConfig p)) e) in
        ret c
      end
  end.

(** Sending on an exchange of its own, closed afterwards. *)
Definition on_sync_exchange (i : WeaveMessageInfo) (rcvdMsgPacketInfo : option (IPAddress * Z * Z)) (send : nat -> M Mgr unit) : M Mgr unit :=
  let* r := attempt (NewMsgCounterSyncExchange i rcvdMsgPacketInfo) in
  match r with
  | inr e => fail e
  | inl c => let* r := attempt (send c) in do* Close c in throw r
  end.

(** WeaveSecurityManager::SendSolitaryMsgCounterSyncReq, SendMsgCounterSyncResp *)
Definition SendSolitaryMsgCounterSyncReq (i : WeaveMessageInfo) (rcvdMsgPacketInfo : option (IPAddress * Z * Z)) : M Mgr unit :=
  on_sync_exchange i rcvdMsgPacketInfo SendCommonNullMessage.

Definition kWeaveMsgCounterSyncRespMsgSize : Z := 4.
Definition send_sync_resp (i : WeaveMessageInfo) (c : nat) : M Mgr unit :=
  let* msgBuf := NewBuf (WEAVE_SYSTEM_PACKETBUFFER_ALLOCSIZE_MAX - WEAVE_SYSTEM_CONFIG_HEADER_RESERVE_SIZE) in
  let* p := get_buf msgBuf in
  if AvailableDataLength p <? kWeaveMsgCounterSyncRespMsgSize then do* FreeBuf msgBuf in fail WEAVE_ERROR_BUFFER_TOO_SMALL
  else
    do* fill_buf msgBuf (LittleEndian_Write32 (mi_MessageId i)) in
    SendMessage c kWeaveProfile_Security kMsgType_MsgCounterSyncResp msgBuf 0 0.
Definition SendMsgCounterSyncResp (i : WeaveMessageInfo) (rcvdMsgPacketInfo : option (IPAddress * Z * Z)) : M Mgr unit :=
  on_sync_exchange i rcvdMsgPacketInfo (send_sync_resp i).

(** The message counter synchronisation of group keys: [true] when the message was
    a response and has been consumed.  The errors of what is sent are not looked at. *)
Definition dispatch_sync (i : WeaveMessageInfo) (h : WeaveExchangeHeader) (b : nat) (inc : Incoming) : M Mgr bool :=
  let isMsgCounterSyncResp := (xh_ProfileId h =? kWeaveProfile_Security) && (xh_MessageType h =? kMsgType_MsgCounterSyncResp) in
  do* whenM isMsgCounterSyncResp
    (let* p := get_buf b in
     let* clear := fun m => let '(x, t) := env_HandleMsgCounterSyncRespMsg i p (m_env m) in (Ok x, set_env t m) in
     do* whenM clear (ClearMsgCounterSyncReq (mi_SourceNodeId i)) in
     FreeBuf b) in
  do* (if has_flag kWeaveMessageFlag_MsgCounterSyncReq i then
         do* ignore (SendMsgCounterSyncResp i (in_PacketInfo inc)) in
         RetransPendingAppGroupMsgs (mi_SourceNodeId i)
       else whenM (negb isMsgCounterSyncResp && has_flag kWeaveMessageFlag_PeerGroupMsgIdNotSynchronized i)
              (ignore (SendSolitaryMsgCounterSyncReq i (in_PacketInfo inc)))) in
  ret isMsgCounterSyncResp.

Definition dispatch_delayed (i : WeaveMessageInfo) (b : nat) : M Mgr unit :=
  whenM (negb (has_flag kWeaveMessageFlag_DuplicateMessage i))
    (let* bytes := read_start b 12 in
     WRMPProcessDDMessage (LittleEndian_Get32 bytes) (LittleEndian_Get64 (drop 4 bytes))).

(** The rest of DispatchMessage for a decoded header: what is left of the buffer. *)
Definition dispatch_exchange (i : WeaveMessageInfo) (h : WeaveExchangeHeader) (b : nat) (inc : Incoming) : M Mgr (option nat) :=
  if (xh_ProfileId h =? kWeaveProfile_Common) && (xh_MessageType h =? kMsgType_WRMP_Delayed_Delivery) then
    do* dispatch_delayed i b in ret (Some b)
  else
    let* m := gets id in
    match find (fun c => ec_used (m_pool m c) && MatchExchange (m_env m) (in_Con inc) i h (m_pool m c))
               (seq 0 WEAVE_CONFIG_MAX_EXCHANGE_CONTEXTS) with
    | Some c =>
      do* whenM (negb (HasRcvdMsgFromPeer (m_pool m c))) (on_ec c (SetMsgRcvdFromPeer true)) in
      do* HandleMessage c i h b None in ret None
    | None => dispatch_unsolicited i h b inc
    end.

(** DispatchMessage(msgInfo, msgBuf) *)
Definition DispatchMessage (i : WeaveMessageInfo) (b : nat) (inc : Incoming) : M Mgr unit :=
  let* hd := attempt (on_buf b (DecodeExchangeHeader (mkXh 0 0 0 0 0 0))) in
  let* left := match hd with
    | inr _ => ret (Some b)
    | inl h =>
      if negb (mi_MessageVersion i =? kWeaveMessageVersion_V1) && negb (mi_MessageVersion i =? kWeaveMessageVersion_V2) then ret (Some b)
      else
        do* whenM (negb (mi_EncryptionType i =? kWeaveEncryptionType_None)) (modify (fun m => set_env (env_OnEncryptedMsgRcvd i (m_env m)) m)) in
        let* consumed := dispatch_sync i h b inc in
        if consumed then ret None else dispatch_exchange i h b inc
    end in
  match left with Some b => FreeBuf b | None => ret tt end.

(** NotifySecureSessionFailed(peerNodeId, keyId, localErr, isKeyErr), without the
    bindings. *)
Definition NotifySecureSessionFailed (peerNodeId keyId : Z) (localErr : WEAVE_ERROR) (isKeyErr : bool) : M Mgr unit :=
  for_range WEAVE_CONFIG_MAX_EXCHANGE_CONTEXTS 0 (fun c =>
    let* e := get_ec c in
    whenM (ec_used e && (ec_KeyId (ec_peer e) =? keyId) && (ec_PeerNodeId (ec_peer e) =? peerNodeId))
      (do* AddRef c in
       do* FailRetransmitTableEntries c localErr in
       let* e := get_ec c in
       do* whenM (isKeyErr && OnKeyError (ec_cb e)) (emit (EvKeyError c localErr)) in
       Release c)).

(** WRMPSendThrottleFlow(pauseTimeMillis), WRMPSendDelayedDelivery(pauseTimeMillis,
    delayedNodeId) *)
Definition send_control (c : nat) (msgType : Z) (bytes : list Z) : M Mgr unit :=
  let* b := NewBuf (Z.of_nat (length bytes)) in
  do* fill_buf b bytes in
  SendMessage c kWeaveProfile_Common msgType b kSendFlag_NoAutoRequestAck 0.
Definition WRMPSendThrottleFlow (c : nat) (pauseTimeMillis : Z) : M Mgr unit :=
  send_control c kMsgType_WRMP_Throttle_Flow (LittleEndian_Write32 pauseTimeMillis).
Definition WRMPSendDelayedDelivery (c : nat) (pauseTimeMillis delayedNodeId : Z) : M Mgr unit :=
  send_control c kMsgType_WRMP_Delayed_Delivery (LittleEndian_Write32 pauseTimeMillis ++ LittleEndian_Write64 delayedNodeId).

(** RegisterUMH(profileId, msgType, con, allowDups, handler), UnregisterUMH *)
Definition umh_is (profileId msgType : Z) (con : option nat) (u : UnsolicitedMessageHandler) : bool :=
  negb (bool_decide (umh_Handler u = None)) && (umh_ProfileId u =? profileId) && (umh_MessageType u =? msgType) && bool_decide (umh_Con u = con).
Definition on_umh (k : nat) (f : UnsolicitedMessageHandler -> UnsolicitedMessageHandler) : M Mgr unit :=
  modify (fun m => set_umh (<[k := f (m_umh m k)]> (m_umh m)) m).

Definition RegisterUMH (profileId msgType : Z) (con : option nat) (allowDups : bool) (handler : Z) : M Mgr unit :=
  let* m := gets id in
  match find (fun k => umh_is profileId msgType con (m_umh m k)) (seq 0 WEAVE_CONFIG_MAX_UNSOLICITED_MESSAGE_HANDLERS) with
  | Some k => on_umh k (fun u => mkUmh (Some handler) (umh_ProfileId u) (umh_Con u) (umh_MessageType u) (umh_AllowDuplicateMsgs u))
  | None =>
    match find (fun k => bool_decide (umh_Handler (m_umh m k) = None)) (seq 0 WEAVE_CONFIG_MAX_UNSOLICITED_MESSAGE_HANDLERS) with
    | None => fail WEAVE_ERROR_TOO_MANY_UNSOLICITED_MESSAGE_HANDLERS
    | Some k => on_umh k (fun _ => mkUmh (Some handler) profileId con msgType allowDups)
    end
  end.

Definition UnregisterUMH (profileId msgType : Z) (con : option nat) : M Mgr unit :=
  let* m := gets id in
  match find (fun k => umh_is profileId msgType con (m_umh m k)) (seq 0 WEAVE_CONFIG_MAX_UNSOLICITED_MESSAGE_HANDLERS) with
  | Some k => on_umh k (fun u => mkUmh None (umh_ProfileId u) (umh_Con u) (umh_MessageType u) (umh_AllowDuplicateMsgs u))
  | None => fail WEAVE_ERROR_NO_UNSOLICITED_MESSAGE_HANDLER
  end.

(** HandleConnectionClosed(con, conErr) *)
Definition close_connection (con : nat) (conErr : WEAVE_ERROR) (c : nat) : M Mgr unit :=
  let* e := get_ec c in
  whenM (ec_used e && bool_decide (ec_Con (ec_peer e) = Some con))
    (do* on_ec c (SetConnectionClosed true) in
     do* on_ec c (fun e => let p := ec_peer e in
       set_peer (mkPeer (ec_ExchangeId p) (ec_PeerNodeId p) (ec_PeerAddr p) (ec_PeerPort p) (ec_PeerIntf p) None (ec_EncryptionType p)
                        (ec_KeyId p) (ec_AllowDuplicateMsgs p) (ec_ResponseTimeout p) (ec_WRMPConfig p)) e) in
     whenM (OnConnectionClosed (ec_cb e)) (emit (EvConnectionClosed c con conErr))).
Definition forget_umh (con k : nat) : M Mgr unit :=
  on_umh k (fun u => if bool_decide (umh_Con u = Some con)
                     then mkUmh None (umh_ProfileId u) (umh_Con u) (umh_MessageType u) (umh_AllowDuplicateMsgs u) else u).
Definition HandleConnectionClosed (con : nat) (conErr : WEAVE_ERROR) : M Mgr unit :=
  do* for_range WEAVE_CONFIG_MAX_EXCHANGE_CONTEXTS 0 (close_connection con conErr) in
  for_range WEAVE_CONFIG_MAX_UNSOLICITED_MESSAGE_HANDLERS 0 (forget_umh con).

(** What Shutdown does to the timer and the table. *)
Definition shutdown_table : M Mgr unit :=
  do* WRMPStopTimer in for_range WEAVE_CONFIG_WRMP_RETRANS_TABLE_SIZE 0 ClearRetransmitTable_entry.

(** The members as Init sets them; the buffers, the clock and the timer are not the
    manager's. *)
Definition Mgr_reset (rand : Z) (m : Mgr) : Mgr :=
  mkMgr (fun _ => zero_context) (fun _ => zero_entry) (m_bufs m) 0 (u16 rand) (fun _ => mkUmh None 0 None 0 false)
        (m_now m) WEAVE_CONFIG_WRMP_TIMER_DEFAULT_PERIOD (m_now m) (m_timer m) (m_env m) (m_log m).

(** A manager after its first Init(msgLayer), with no buffer in use. *)
Definition Mgr_Init (rand now : Z) (t : T) : Mgr :=
  mkMgr (fun _ => zero_context) (fun _ => zero_entry) (fun _ => None) 0 (u16 rand) (fun _ => mkUmh None 0 None 0 false)
        now WEAVE_CONFIG_WRMP_TIMER_DEFAULT_PERIOD now None t [].

(** *** Init and Shutdown

    Init sets State, MessageLayer and FabricState, Shutdown resets all three:
    [em_MessageLayer] says that they are set.  OnExchangeContextChanged, which both
    set to NULL, is never called. *)
Record ExchangeManager := mkManager { em_MessageLayer : bool; em_mgr : Mgr }.

Definition on_mgr {A} (f : M Mgr A) : M ExchangeManager A := fun n =>
  let '(r, m) := f (em_mgr n) in (r, mkManager (em_MessageLayer n) m).
(** What goes through the pointers to the message layer or the fabric state. *)
Definition with_layer {A} (f : M Mgr A) : M ExchangeManager A := fun n =>
  if em_MessageLayer n then on_mgr f n else (Undefined, n).

Definition Manager_Init (rand : Z) : M ExchangeManager unit :=
  let* initialized := gets em_MessageLayer in
  if initialized then fail WEAVE_ERROR_INCORRECT_STATE
  else modify (fun n => mkManager true (Mgr_reset rand (em_mgr n))).
Definition Mgr_Shutdown : M ExchangeManager unit :=
  let* initialized := gets em_MessageLayer in
  do* whenM initialized (on_mgr shutdown_table) in
  modify (fun n => mkManager false (em_mgr n)).
End Manager.

Arguments Mgr T : clear implicits.
Arguments ExchangeManager T : clear implicits.

(** ** A node to try the operations on

    Its message layer numbers the messages it encodes from a counter, leaves the bytes alone
    and always sends. *)
Record TestNode := mkNode { tn_next : Z; tn_sent : list (list Z) }.

#[export] Instance test_env : ExchangeEnv TestNode := {|
  env_LocalNodeId := fun _ => 7;
  env_FabricId := fun _ => 1;
  env_DefaultSubnet := fun _ => 1;
  env_EncodeMessage := fun i p t => (None, set_MessageId (tn_next t) i, p, mkNode (tn_next t + 1) (tn_sent t));
  env_SendUdp := fun _ _ _ p _ t => (None, mkNode (tn_next t) (tn_sent t ++ [pb_data p]));
  env_ConSend := fun _ _ p t => (None, mkNode (tn_next t) (tn_sent t ++ [pb_data p]));
  env_StartTimer := fun _ t => (None, t);
  env_GetRandU32 := fun t => (tn_next t, t);
  env_IsPlatformErrorNonCritical := fun _ => false;
  env_OnEncryptedMsgRcvd := fun _ t => t;
  env_HandleMsgCounterSyncRespMsg := fun _ _ t => (false, t) |}.

(** Time passes, and then the timer goes off. *)
Definition wait {T} `{ExchangeEnv T} (ms : Z) : M (Mgr T) unit :=
  do* modify (fun m => set_now (m_now m + ms) m) in WRMPTimeout.

Definition test_mgr : Mgr TestNode := Mgr_Init 5 1000000 (mkNode 100 []).
Definition all_callbacks : Callbacks := mkCallbacks true true true true true true true true true.

(** An exchange with node 9, with every callback, on which a message that wants an
    acknowledgement has been sent. *)
Definition test_send : M (Mgr TestNode) nat :=
  let* ec := NewContext 9 IPAddress_Any 0 0 in
  match ec with
  | None => undefined
  | Some c =>
    do* on_ec c (set_cb all_callbacks) in
    let* b := NewBuf 4 in
    do* on_buf b (modify (SetDataLength 4)) in
    do* SendMessage c 1 1 b kSendFlag_RequestAck 77 in
    ret c
  end.

Example unacknowledged_message :
  (let '(r, m) := (do* test_send in do* wait 2000 in do* wait 2000 in do* wait 2000 in wait 2000) test_mgr in
   (r, m_log m, ec_mRefCount (m_pool m 0))) =
  (Ok tt, [EvTransmit 0 100; EvTransmit 0 100; EvTransmit 0 100; EvTransmit 0 100; EvSendError 0 WEAVE_ERROR_MESSAGE_NOT_ACKNOWLEDGED 77], 1).
Proof. vm_compute. reflexivity. Qed.
