(* ===== verification/ExchangeInv.v ===== *)
(** * Exchanges: the invariant of the manager and the rules to prove it

    A small program logic for the operations of ExchangeMgr ([wp]), the invariant
    that ties the reference counts of the contexts to the retransmission table and
    the buffers to their owners, and what an operation leaves alone ([frame]). *)
From stdpp Require Import functions.
From S2P Require Import Prelude Encoding PacketBuffer PacketBufferChain MessageLayer Address ExchangeHeader ExchangeTypes ExchangeMgr.
Local Open Scope Z_scope.
Open Scope weave_scope.

(** ** Weakest preconditions *)

#[global] Arguments for_range : simpl never.
#[global] Arguments bind : simpl never.

Definition wp {S A} (m : M S A) (s : S) (Q : res A -> S -> Prop) : Prop := Q (fst (m s)) (snd (m s)).

Lemma wp_mono {S A} (m : M S A) s (Q Q' : res A -> S -> Prop) :
  wp m s Q -> (forall r s', Q r s' -> Q' r s') -> wp m s Q'.
Proof. unfold wp. auto. Qed.

Lemma wp_bind {S A B} (m : M S A) (f : A -> M S B) s Q :
  wp m s (fun r s' => match r with Ok a => wp (f a) s' Q | Err e => Q (Err e) s' | Undefined => Q Undefined s' | Diverges => Q Diverges s' end) ->
  wp (bind m f) s Q.
Proof. unfold wp, bind. by destruct (m s) as [[] s']. Qed.

(** The calls that cannot fail are followed by the rest. *)
Lemma wp_seq {S A B} (m : M S A) (f : A -> M S B) s Q (P : A -> S -> Prop) :
  wp m s (fun r s' => exists a, r = Ok a /\ P a s') -> (forall a s', P a s' -> wp (f a) s' Q) -> wp (bind m f) s Q.
Proof. intros Hm Hf. apply wp_bind. eapply wp_mono; [exact Hm|]. intros r s' (a & -> & HP). auto. Qed.

Lemma wp_gets {S A B} (f : S -> A) (k : A -> M S B) s Q : wp (k (f s)) s Q -> wp (bind (gets f) k) s Q.
Proof. done. Qed.
Lemma wp_modify {S B} (f : S -> S) (k : unit -> M S B) s Q : wp (k tt) (f s) Q -> wp (bind (modify f) k) s Q.
Proof. done. Qed.

Lemma wp_ret {S A} (a : A) (s : S) Q : Q (Ok a) s -> wp (ret a) s Q.
Proof. done. Qed.

Lemma wp_attempt {S A} (m : M S A) s (Q : res (A + WEAVE_ERROR) -> S -> Prop) :
  wp m s (fun r s' => match r with Ok a => Q (Ok (inl a)) s' | Err e => Q (Ok (inr e)) s' | Undefined => Q Undefined s' | Diverges => Q Diverges s' end) ->
  wp (attempt m) s Q.
Proof. unfold wp, attempt. by destruct (m s) as [[] s']. Qed.

Lemma wp_ignore {S A} (m : M S A) s (Q : res unit -> S -> Prop) :
  wp m s (fun r s' => match r with Ok _ | Err _ => Q (Ok tt) s' | Undefined => Q Undefined s' | Diverges => Q Diverges s' end) ->
  wp (ignore m) s Q.
Proof. unfold wp, ignore, attempt, bind. by destruct (m s) as [[] s']. Qed.

Lemma wp_when {S} (b : bool) (m : M S unit) s Q : (b = true -> wp m s Q) -> (b = false -> Q (Ok tt) s) -> wp (whenM b m) s Q.
Proof. destruct b; intros HT HF; [by apply HT|by apply HF]. Qed.

Lemma wp_for {S} (body : nat -> M S unit) (I : S -> Prop) n : forall i s,
  (forall j s, (i <= j < i + n)%nat -> I s -> wp (body j) s (fun r s' => r = Ok tt /\ I s')) -> I s ->
  wp (for_range n i body) s (fun r s' => r = Ok tt /\ I s').
Proof.
  induction n as [|n IH]; intros i s Hb HI; [done|]. apply wp_bind.
  eapply wp_mono; [apply Hb; [lia|done]|]. intros r s' [-> HI']. apply IH; [|done]. intros j s1 Hj. apply Hb. lia.
Qed.

(** An invariant that follows the index. *)
Lemma wp_for_at {S} (body : nat -> M S unit) (I : nat -> S -> Prop) n : forall i s,
  (forall j s, (i <= j < i + n)%nat -> I j s -> wp (body j) s (fun r s' => r = Ok tt /\ I (Datatypes.S j) s')) -> I i s ->
  wp (for_range n i body) s (fun r s' => r = Ok tt /\ I (i + n)%nat s').
Proof.
  induction n as [|n IH]; intros i s Hb HI; [by rewrite Nat.add_0_r|]. apply wp_bind.
  eapply wp_mono; [apply Hb; [lia|done]|]. intros r s' [-> HI'].
  replace (i + Datatypes.S n)%nat with (Datatypes.S i + n)%nat by lia. apply IH; [|done]. intros j s1 Hj. apply Hb. lia.
Qed.

Lemma wp_itself {S A} (m : M S A) s : wp m s (fun _ s' => snd (m s) = s').
Proof. done. Qed.

Lemma wp_and {S A} (m : M S A) s (Q Q' : res A -> S -> Prop) : wp m s Q -> wp m s Q' -> wp m s (fun r s' => Q r s' /\ Q' r s').
Proof. by split. Qed.

(** A loop in two parts. *)
Lemma wp_for_split {S} (body : nat -> M S unit) n1 n2 : forall i s Q,
  wp (for_range n1 i body) s (fun r s' => r = Ok tt /\ wp (for_range n2 (i + n1) body) s' Q) -> wp (for_range (n1 + n2) i body) s Q.
Proof.
  induction n1 as [|n1 IH]; intros i s Q HW; [destruct HW as [_ HW]; by rewrite Nat.add_0_r in HW|].
  change (wp (do* body i in for_range n1 (Datatypes.S i) body) s (fun r s' => r = Ok tt /\ wp (for_range n2 (i + Datatypes.S n1) body) s' Q)) in HW.
  change (wp (do* body i in for_range (n1 + n2) (Datatypes.S i) body) s Q). revert HW. unfold wp at 1 3. unfold bind.
  destruct (body i s) as [[u|e| |] s1]; cbn; [|intros [E _]; done..]. intros HW. apply IH.
  replace (Datatypes.S i + n1)%nat with (i + Datatypes.S n1)%nat by lia. exact HW.
Qed.

(** ** Flags *)

Lemma GetFlag_bit flags k : 0 <= k -> FlagUtils_GetFlag flags (2 ^ k) = Z.testbit flags k.
Proof.
  intros Hk. unfold FlagUtils_GetFlag. destruct (Z.eqb_spec (Z.land flags (2 ^ k)) (2 ^ k)) as [E|E].
  - assert (Z.testbit (Z.land flags (2 ^ k)) k = true) as E' by (rewrite E; by apply Z.pow2_bits_true).
    rewrite Z.land_spec in E'. apply andb_prop in E'. by destruct E'.
  - destruct (Z.testbit flags k) eqn:F; [|done]. destruct E. apply Z.bits_inj'. intros j Hj. rewrite Z.land_spec, Z.pow2_bits_eqb by done.
    destruct (Z.eqb_spec k j) as [<-|]; [by rewrite F|apply andb_false_r].
Qed.

Lemma SetFlag_bit flags k x j : 0 <= k -> 0 <= j ->
  Z.testbit (FlagUtils_SetFlag (2 ^ k) x flags) j = if k =? j then x else Z.testbit flags j.
Proof.
  intros Hk Hj. unfold FlagUtils_SetFlag. rewrite GetFlag_bit by done.
  destruct (Z.testbit flags k) eqn:F, x; cbn [eqb negb]; rewrite ?Z.lor_spec, ?Z.ldiff_spec, ?Z.pow2_bits_eqb by done;
    destruct (Z.eqb_spec k j) as [<-|]; rewrite ?F, ?orb_false_r, ?andb_true_r; done.
Qed.

Lemma GetFlag_SetFlag flags k j x : 0 <= k -> 0 <= j ->
  FlagUtils_GetFlag (FlagUtils_SetFlag (2 ^ k) x flags) (2 ^ j) = if k =? j then x else FlagUtils_GetFlag flags (2 ^ j).
Proof. intros Hk Hj. rewrite !GetFlag_bit by done. by apply SetFlag_bit. Qed.

(** [flag_step]: reads of a flag after writes of flags. *)
Ltac flag_step := unfold IsInitiator, IsConnectionClosed, IsResponseExpected, IsAckPending, HasPeerRequestedAck, HasRcvdMsgFromPeer,
  ShouldDropAck, AutoRequestAck, SetInitiator, SetConnectionClosed, SetResponseExpected, SetAckPending, SetPeerRequestedAck,
  SetMsgRcvdFromPeer, SetDropAck, SetAutoRequestAck, set_flag; cbn [set_flags ec_mFlags];
  change kFlagInitiator with (2 ^ 0); change kFlagConnectionClosed with (2 ^ 1); change kFlagAutoRequestAck with (2 ^ 2);
  change kFlagDropAck with (2 ^ 3); change kFlagResponseExpected with (2 ^ 4); change kFlagAckPending with (2 ^ 5);
  change kFlagPeerRequestedAck with (2 ^ 6); change kFlagMsgRcvdFromPeer with (2 ^ 7);
  rewrite !GetFlag_SetFlag by lia; cbn [Z.eqb Pos.eqb].

(** ** Counting *)

Definition count_if (P : nat -> bool) (l : list nat) : Z := foldr (fun i n => Z.b2z (P i) + n) 0 l.

Lemma count_if_ext P Q l : (forall i, In i l -> P i = Q i) -> count_if P l = count_if Q l.
Proof. induction l as [|x l IH]; intros E; [done|]. cbn. rewrite E by (by left). f_equal. apply IH. intros i Hi. apply E. by right. Qed.

Lemma count_if_change P Q k l : NoDup l -> In k l -> (forall i, In i l -> i <> k -> P i = Q i) ->
  count_if Q l = count_if P l - Z.b2z (P k) + Z.b2z (Q k).
Proof.
  induction l as [|x l IH]; intros HN Hk E; [done|]. inversion_clear HN as [|? ? Hx HN']. rewrite list_elem_of_In in Hx. cbn. fold (count_if P l) (count_if Q l).
  destruct (decide (x = k)) as [->|Hne].
  - rewrite (count_if_ext P Q l) by (intros i Hi; apply E; [by right|congruence]). lia.
  - destruct Hk as [|Hk]; [done|]. rewrite (E x) by (auto; by left). rewrite IH; [lia|done|done|]. intros i Hi. apply E. by right.
Qed.

Lemma count_if_nonneg P l : 0 <= count_if P l <= Z.of_nat (length l).
Proof. induction l as [|x l IH]; cbn [count_if foldr length]; [lia|]. fold (count_if P l). destruct (P x); cbn [Z.b2z]; lia. Qed.

Lemma count_if_pos P l k : In k l -> P k = true -> 1 <= count_if P l.
Proof.
  induction l as [|x l IH]; [done|]. cbn. fold (count_if P l). pose proof (count_if_nonneg P l).
  intros [->|Hk] HP; [rewrite HP; cbn; lia|]. specialize (IH Hk HP). destruct (P x); cbn; lia.
Qed.

Lemma count_if_mono P Q l : (forall i, In i l -> P i = true -> Q i = true) -> count_if P l <= count_if Q l.
Proof.
  induction l as [|x l IH]; intros E; [done|]. cbn. fold (count_if P l) (count_if Q l).
  assert (Z.b2z (P x) <= Z.b2z (Q x)) by (specialize (E x (or_introl eq_refl)); destruct (P x), (Q x); cbn; try lia; discriminate E; done).
  assert (count_if P l <= count_if Q l) by (apply IH; intros i Hi; apply E; by right). lia.
Qed.

(** ** What is left alone *)

Section Invariant.
Context {T : Type} `{ExchangeEnv T}.
Implicit Types m : Mgr T.

Definition active m (i : nat) : Prop := re_exchContext (m_table m i) <> None.
Definition live m (b : nat) : Prop := is_Some (m_bufs m b).
(** A live buffer that no entry of the table holds. *)
Definition loose m (b : nat) : Prop := live m b /\ forall i, active m i -> re_msgBuf (m_table m i) <> Some b.

(** The parts of a context that the protocol's bookkeeping does not change. *)
Definition view (e : ExchangeContext) := (ec_used e, ec_WRMPConfig (ec_peer e), ec_cb e, HasRcvdMsgFromPeer e).
Definition core (e : ExchangeContext) := (view e, ec_mRefCount e, tr_msg (ec_trickle e)).

(** An entry whose time only came nearer. *)
Definition entry_le (r r' : RetransTableEntry) : Prop :=
  re_exchContext r' = re_exchContext r /\ re_msgId r' = re_msgId r /\ re_msgBuf r' = re_msgBuf r /\ re_msgCtxt r' = re_msgCtxt r /\
  re_sendCount r' = re_sendCount r /\ (0 <= re_nextRetransTime r -> 0 <= re_nextRetransTime r' <= re_nextRetransTime r).

Lemma entry_le_refl r : entry_le r r.
Proof. repeat split; auto; lia. Qed.
Lemma entry_le_trans r1 r2 r3 : entry_le r1 r2 -> entry_le r2 r3 -> entry_le r1 r3.
Proof. intros (?&?&?&?&?&HE1) (?&?&?&?&?&HE2). repeat split; try congruence; lia. Qed.

(** The clock of the manager: the base is behind now. *)
Definition time_ok m : Prop := m_interval m = WEAVE_CONFIG_WRMP_TIMER_DEFAULT_PERIOD /\ 0 <= m_base m <= m_now m /\ m_now m < 2 ^ 63.

Lemma time_same m m' : m_base m' = m_base m -> m_now m' = m_now m -> m_interval m' = m_interval m -> time_ok m -> time_ok m' /\ m_base m <= m_base m'.
Proof. unfold time_ok. intros -> -> ->. lia. Qed.

(** A live buffer that no entry holds, and its contents. *)
Definition kept m m' (b : nat) : Prop := loose m' b /\ m_bufs m' b = m_bufs m b.

(** A step that touches neither references nor ownership, and of the loose
    buffers only those of [D]. *)
Record quiet_but (D : nat -> Prop) m m' : Prop := {
  q_pool : forall c, core (m_pool m' c) = core (m_pool m c);
  q_table : forall i, entry_le (m_table m i) (m_table m' i);
  q_bufs : forall b, live m' b <-> live m b;
  q_same : forall b, ~ D b -> loose m b -> m_bufs m' b = m_bufs m b;
  q_interval : m_interval m' = m_interval m;
  q_now : m_now m' = m_now m;
  q_umh : m_umh m' = m_umh m;
  q_log : exists l, m_log m' = m_log m ++ l;
  q_time : time_ok m -> time_ok m' /\ m_base m <= m_base m' }.

Definition none : nat -> Prop := fun _ => False.
Definition all : nat -> Prop := fun _ => True.
Definition quiet := quiet_but none.

Lemma quiet_active D m m' i : quiet_but D m m' -> active m' i <-> active m i.
Proof. intros Q. unfold active. by rewrite (proj1 (q_table _ _ _ Q i)). Qed.

Lemma quiet_loose D m m' b : quiet_but D m m' -> loose m' b <-> loose m b.
Proof.
  intros Q. unfold loose. rewrite (q_bufs _ _ _ Q). split; intros [HL HA]; (split; [done|]); intros i Hi.
  - rewrite <- (proj1 (proj2 (proj2 (q_table _ _ _ Q i)))). apply HA. by apply (quiet_active D m m').
  - rewrite (proj1 (proj2 (proj2 (q_table _ _ _ Q i)))). apply HA. by apply (quiet_active D m m').
Qed.

Lemma quiet_refl D m : quiet_but D m m.
Proof. split; auto using entry_le_refl, time_same; try reflexivity. exists []. by rewrite app_nil_r. Qed.

Lemma quiet_trans D m1 m2 m3 : quiet_but D m1 m2 -> quiet_but D m2 m3 -> quiet_but D m1 m3.
Proof.
  intros Q []. pose proof Q as []. split; try congruence; eauto using entry_le_trans.
  - intros b. rewrite q_bufs0. apply q_bufs1.
  - intros b Hb Hl. rewrite q_same0; [by apply q_same1|done|by apply (quiet_loose D m1 m2)].
  - destruct q_log0 as [l' ->], q_log1 as [l ->]. exists (l ++ l'). by rewrite app_assoc.
  - intros HT. destruct (q_time1 HT) as [HT1 ?]. destruct (q_time0 HT1). split; [done|lia].
Qed.

(** Touching fewer buffers, or only buffers that are not loose. *)
Lemma quiet_more (D D' : nat -> Prop) m m' : quiet_but D m m' -> (forall b, loose m b -> D b -> D' b) -> quiet_but D' m m'.
Proof. intros [] HD. split; auto. Qed.
Lemma quiet_any D m m' : quiet m m' -> quiet_but D m m'.
Proof. intros Q. eapply quiet_more; [exact Q|]. done. Qed.

(** What a step leaves alone: the entries of [Pi], free or not, the contexts of [Pc],
    the loose buffers of [Pb]. *)
Record frame (Pi Pc Pb : nat -> Prop) m m' : Prop := {
  f_entry : forall i, Pi i -> active m i -> entry_le (m_table m i) (m_table m' i);
  f_free : forall i, Pi i -> ~ active m i -> ~ active m' i;
  f_ctx : forall c, Pc c -> ec_used (m_pool m c) = true -> view (m_pool m' c) = view (m_pool m c);
  f_loose : forall b, Pb b -> loose m b -> kept m m' b;
  f_time : time_ok m -> time_ok m' /\ m_base m <= m_base m';
  f_now : m_now m' = m_now m;
  f_umh : m_umh m' = m_umh m;
  f_log : exists l, m_log m' = m_log m ++ l }.

Lemma view_used e e' : view e' = view e -> ec_used e' = ec_used e.
Proof. unfold view. congruence. Qed.
Lemma active_le m m' i : entry_le (m_table m i) (m_table m' i) -> active m i -> active m' i.
Proof. unfold active. intros (-> & _). done. Qed.

Lemma frame_refl Pi Pc Pb m : frame Pi Pc Pb m m.
Proof. split; auto using entry_le_refl, time_same; [by split|]. exists []. by rewrite app_nil_r. Qed.

Lemma frame_trans Pi Pc Pb m1 m2 m3 : frame Pi Pc Pb m1 m2 -> frame Pi Pc Pb m2 m3 -> frame Pi Pc Pb m1 m3.
Proof.
  intros [] []. split; try congruence; auto.
  - intros i Hi Ha. eapply entry_le_trans; [by apply f_entry0|]. apply f_entry1; [done|]. eapply active_le; eauto.
  - intros c Hc Hu. rewrite f_ctx1; auto. by rewrite (view_used _ _ (f_ctx0 c Hc Hu)).
  - intros b Hb Hl. destruct (f_loose0 b Hb Hl) as [Hl2 E2]. destruct (f_loose1 b Hb Hl2) as [Hl3 E3]. split; [done|congruence].
  - intros HT. destruct (f_time0 HT) as [HT1 ?]. destruct (f_time1 HT1). split; [done|lia].
  - destruct f_log1 as [l' ->], f_log0 as [l ->]. exists (l ++ l'). by rewrite app_assoc.
Qed.

Lemma frame_weaken Pi Pc Pb Pi' Pc' Pb' m m' : frame Pi Pc Pb m m' ->
  (forall i, Pi' i -> Pi i) -> (forall c, Pc' c -> Pc c) -> (forall b, Pb' b -> Pb b) -> frame Pi' Pc' Pb' m m'.
Proof. intros [] Hi Hc Hb. split; auto. Qed.

Lemma core_view e e' : core e' = core e -> view e' = view e.
Proof. unfold core. congruence. Qed.

Lemma quiet_frame_but (D Pi Pc Pb : nat -> Prop) m m' : quiet_but D m m' -> (forall b, Pb b -> ~ D b) -> frame Pi Pc Pb m m'.
Proof.
  intros Q HD. pose proof Q as []. split; auto.
  - intros i _ Ha. by rewrite (quiet_active D m m').
  - intros c _ _. by apply core_view.
  - intros b Hb Hl. split; [by apply (quiet_loose D m m')|]. apply q_same0; [by apply HD|done].
Qed.
Lemma quiet_frame Pi Pc Pb m m' : quiet m m' -> frame Pi Pc Pb m m'.
Proof. intros Q. eapply quiet_frame_but; [exact Q|]. by intros b _ []. Qed.

(** ** The invariant

    [h c] is the number of references to context [c] other than the table's: the
    application's and those of the operations under way; [X] is an entry being cleared, whose reference has
    been taken over. *)
Definition holds (X : option nat) m (c i : nat) : bool :=
  bool_decide (re_exchContext (m_table m i) = Some c) && negb (bool_decide (X = Some i)).
Definition refs (X : option nat) m (c : nat) : Z := count_if (holds X m c) (seq 0 WEAVE_CONFIG_WRMP_RETRANS_TABLE_SIZE).

#[global] Arguments refs : simpl never.

Definition kMaxHolds : Z := 230.

Record inv (h : nat -> Z) (X : option nat) m : Prop := {
  i_time : time_ok m;
  i_out : forall i, active m i -> (i < WEAVE_CONFIG_WRMP_RETRANS_TABLE_SIZE)%nat;
  i_entry : forall i c, re_exchContext (m_table m i) = Some c -> X <> Some i -> ec_used (m_pool m c) = true;
  i_buf : forall i, active m i -> exists b, re_msgBuf (m_table m i) = Some b /\ live m b;
  i_inj : forall i j, active m i -> active m j -> re_msgBuf (m_table m i) = re_msgBuf (m_table m j) -> i = j;
  i_ref : forall c, ec_used (m_pool m c) = true -> ec_mRefCount (m_pool m c) = refs X m c + h c /\ 1 <= ec_mRefCount (m_pool m c);
  i_pool : forall c, ec_used (m_pool m c) = true -> (c < WEAVE_CONFIG_MAX_EXCHANGE_CONTEXTS)%nat;
  i_trickle : forall c, tr_msg (ec_trickle (m_pool m c)) = None;
  i_holds : forall c, 0 <= h c <= kMaxHolds;
  i_clearing : forall i, X = Some i -> active m i }.

Lemma refs_ext X m m' c : (forall i, re_exchContext (m_table m' i) = re_exchContext (m_table m i)) -> refs X m' c = refs X m c.
Proof. intros E. apply count_if_ext. intros i _. unfold holds. by rewrite E. Qed.

Lemma quiet_inv h X D m m' : quiet_but D m m' -> inv h X m -> inv h X m'.
Proof.
  intros Q I. pose proof Q as []. pose proof I as [].
  assert (forall c, ec_used (m_pool m' c) = ec_used (m_pool m c)) as HU by (intros c; by apply view_used, core_view).
  assert (forall c, ec_mRefCount (m_pool m' c) = ec_mRefCount (m_pool m c)) as HR by (intros c; specialize (q_pool0 c); unfold core in *; congruence).
  assert (forall i, re_msgBuf (m_table m' i) = re_msgBuf (m_table m i)) as HB by (intros i; apply (q_table0 i)).
  split; try congruence.
  - by apply q_time0.
  - intros i. rewrite (quiet_active D m m') by done. auto.
  - intros i c. rewrite (proj1 (q_table0 i)), HU. apply i_entry0.
  - intros i. rewrite (quiet_active D m m') by done. intros Ha. destruct (i_buf0 i Ha) as (b & Eb & Lb). exists b. rewrite HB, q_bufs0. done.
  - intros i j. rewrite !(quiet_active D m m') by done. rewrite !HB. apply i_inj0.
  - intros c. rewrite HU, HR. intros Hu. rewrite (refs_ext X m m' c); [by apply i_ref0|]. intros i. apply (q_table0 i).
  - intros c. rewrite HU. apply i_pool0.
  - intros c. specialize (q_pool0 c). specialize (i_trickle0 c). unfold core in q_pool0. congruence.
  - done.
  - intros i. rewrite (quiet_active D m m') by done. apply i_clearing0.
Qed.

(** The outcome of an operation that cannot fail, and of one that may report
    an error. *)
Definition done_with {A} h X Pi Pc Pb m0 : res A -> Mgr T -> Prop := fun r m => (exists a, r = Ok a) /\ inv h X m /\ frame Pi Pc Pb m0 m.
Definition safe_with {A} h X Pi Pc Pb m0 : res A -> Mgr T -> Prop := fun r m =>
  match r with Ok _ | Err _ => True | _ => False end /\ inv h X m /\ frame Pi Pc Pb m0 m.
Definition quietly_but {A} D m0 : res A -> Mgr T -> Prop := fun r m => (exists a, r = Ok a) /\ quiet_but D m0 m.
Definition quiet_or_fails_but {A} D m0 : res A -> Mgr T -> Prop := fun r m => match r with Ok _ | Err _ => True | _ => False end /\ quiet_but D m0 m.
Definition quietly {A} := quietly_but (A := A) none.
Definition quiet_or_fails {A} := quiet_or_fails_but (A := A) none.
End Invariant.
