(* ===== verification/ExchangeQuiet.v ===== *)
(** * Exchanges: the operations that touch no reference and no owner

    Ticks, timers, the accesses to one context and the encoding of the exchange
    header change only what [quiet] lets change. *)
From stdpp Require Import functions.
From S2P Require Import Prelude Encoding PacketBuffer PacketBufferChain MessageLayer Address ExchangeHeader ExchangeTypes ExchangeMgr ExchangeInv.
Local Open Scope Z_scope.
Open Scope weave_scope.

(** The system layer always has a timer to start. When it has none (SystemLayer.cpp:249,
    WEAVE_SYSTEM_ERROR_NO_MEMORY), WRMPStartTimer ends the process through VerifyOrDie, and
    there is no next state. *)
Class ExchangeEnvLaws (T : Type) `{ExchangeEnv T} := {
  env_StartTimer_ok : forall ms t, fst (env_StartTimer ms t) = None }.

Lemma minus_ticks_le x d : 0 <= d -> 0 <= x -> 0 <= minus_ticks x d <= x.
Proof. intros Hd Hx. unfold minus_ticks. destruct (Z.leb_spec d x); lia. Qed.

Section Quiet.
Context {T : Type} `{ExchangeEnv T}.
Implicit Types m : Mgr T.

Lemma quietly_seq {D} {A B} (f : M (Mgr T) A) (k : A -> M (Mgr T) B) m Q :
  wp f m (quietly_but D m) -> (forall a m', quiet_but D m m' -> wp (k a) m' Q) -> wp (bind f k) m Q.
Proof. intros Hf Hk. eapply wp_seq; [eapply wp_mono; [exact Hf|]|]; [intros r s' ([a ->] & HQ); exists a; split; [done|exact HQ]|]. auto. Qed.

Lemma quietly_trans {D} {A} m1 m2 (f : M (Mgr T) A) : quiet_but D m1 m2 -> wp f m2 (quietly_but D m2) -> wp f m2 (quietly_but D m1).
Proof. intros Q Hf. eapply wp_mono; [exact Hf|]. intros r s' (Hr & HQ). split; [done|]. by eapply quiet_trans. Qed.

Lemma quietly_ret {D} {A} (a : A) m : wp (ret a) m (quietly_but D m).
Proof. split; [by exists a|apply quiet_refl]. Qed.

Lemma quietly_gets {D} {A} (f : Mgr T -> A) m : wp (gets f) m (quietly_but D m).
Proof. split; [by eexists|apply quiet_refl]. Qed.

Lemma quietly_any {A} D (f : M (Mgr T) A) m : wp f m (quietly m) -> wp f m (quietly_but D m).
Proof. intros Hf. eapply wp_mono; [exact Hf|]. intros r s' (Hr & Q). split; [done|by apply quiet_any]. Qed.
Lemma fails_any {A} D (f : M (Mgr T) A) m : wp f m (quiet_or_fails m) -> wp f m (quiet_or_fails_but D m).
Proof. intros Hf. eapply wp_mono; [exact Hf|]. intros r s' (Hr & Q). split; [done|by apply quiet_any]. Qed.

(** Composing quiet operations. *)
Lemma quietly_bind {D} {A B} (f : M (Mgr T) A) (k : A -> M (Mgr T) B) m :
  wp f m (quietly_but D m) -> (forall a m', wp (k a) m' (quietly_but D m')) -> wp (bind f k) m (quietly_but D m).
Proof. intros Hf Hk. eapply quietly_seq; [done|]. intros a m' Q. by eapply quietly_trans. Qed.

Lemma quietly_for (body : nat -> M (Mgr T) unit) n i m :
  (forall j m, wp (body j) m (quietly m)) -> wp (for_range n i body) m (quietly m).
Proof.
  revert i m. induction n as [|n IH]; intros i m Hb; [apply quietly_ret|].
  apply quietly_bind; [apply Hb|]. intros _ m'. by apply IH.
Qed.

Lemma quietly_when {D} (b : bool) (f : M (Mgr T) unit) m : wp f m (quietly_but D m) -> wp (whenM b f) m (quietly_but D m).
Proof. destruct b; [done|]. intros _. apply quietly_ret. Qed.

Lemma quiet_ec_at c f m : core (f (m_pool m c)) = core (m_pool m c) -> wp (on_ec c f) m (quietly m).
Proof.
  intros Hf. split; [by eexists|]. split; try (intros; reflexivity); try (intros; done).
  - intros c'. cbn. unfold insert, fn_insert. destruct (decide (c = c')) as [<-|]; [apply Hf|done].
  - exists []. by rewrite app_nil_r.
Qed.

Lemma quiet_ec c f m : (forall e, core (f e) = core e) -> wp (on_ec c f) m (quietly m).
Proof. intros Hf. by apply quiet_ec_at. Qed.

Lemma quiet_re i f m : (forall r, entry_le r (f r)) -> wp (on_re i f) m (quietly m).
Proof.
  intros Hf. split; [by eexists|]. split; try (intros; reflexivity); try (intros; done).
  - intros j. cbn. unfold insert, fn_insert. destruct (decide (i = j)) as [<-|]; [apply Hf|apply entry_le_refl].
  - exists []. by rewrite app_nil_r.
Qed.

(** A change of the members that neither the invariant nor a frame looks at. *)
Lemma quiet_modify f m :
  (m_pool (f m) = m_pool m) -> (m_table (f m) = m_table m) -> (m_bufs (f m) = m_bufs m) -> m_interval (f m) = m_interval m ->
  m_now (f m) = m_now m -> m_umh (f m) = m_umh m -> (exists l, m_log (f m) = m_log m ++ l) -> m_base (f m) = m_base m ->
  wp (modify f) m (quietly m).
Proof.
  intros Ep Et Eb Ei En Eu El Es. split; [by eexists|]. cbn. split; try done.
  - intros c. by rewrite Ep.
  - intros i. rewrite Et. apply entry_le_refl.
  - intros b. unfold live. by rewrite Eb.
  - intros b _ _. by rewrite Eb.
  - by apply time_same.
Qed.

Lemma quiet_emit e m : wp (emit e) m (quietly m).
Proof. apply quiet_modify; try done. by exists [e]. Qed.

Lemma quiet_env f m : wp (modify (fun m => set_env (f m) m)) m (quietly m).
Proof. apply quiet_modify; try done. exists []. by rewrite app_nil_r. Qed.

Lemma quiet_timer x m : wp (modify (set_timer x)) m (quietly m).
Proof. apply quiet_modify; try done. exists []. by rewrite app_nil_r. Qed.

Lemma core_expire_ack d e : core (expire_ack d e) = core e.
Proof. unfold expire_ack. by destruct (_ && _). Qed.

Lemma entry_le_retrans d r : 0 <= d -> entry_le r (expire_retrans d r).
Proof. intros Hd. repeat split; intros; by apply minus_ticks_le. Qed.

Lemma quiet_expire_entry d i m : 0 <= d -> wp (expire_entry d i) m (quietly m).
Proof.
  intros Hd. unfold expire_entry. apply quietly_bind; [apply quietly_gets|]. intros r m'.
  destruct (re_exchContext r) as [c|]; [|apply quietly_ret].
  apply quietly_bind; [by apply quiet_ec|]. intros _ m''. apply quiet_re. intros r'. by apply entry_le_retrans.
Qed.

(** The clock base moves by whole ticks, up to now. *)
Lemma base_after m : time_ok m ->
  let d := u16 (GetTickCounterFromTimeDelta (m_interval m) (m_now m) (m_base m)) in
  u64 (m_base m + u32 (d * m_interval m)) = m_base m + d * m_interval m /\ d * m_interval m <= m_now m - m_base m.
Proof.
  intros (HI & HB & HN) d. subst d. rewrite HI. set (d := u16 _). unfold WEAVE_CONFIG_WRMP_TIMER_DEFAULT_PERIOD in *.
  assert (0 <= d <= u32 (m_now m - m_base m) / 200 /\ d < 65536) as Hd.
  { unfold d, GetTickCounterFromTimeDelta. pose proof (u32_range (m_now m - m_base m)).
    pose proof (Z.div_pos (u32 (m_now m - m_base m)) 200). unfold u16.
    pose proof (Z.mod_le (u32 (m_now m - m_base m) / 200) 65536). pose proof (Z.mod_pos_bound (u32 (m_now m - m_base m) / 200) 65536). lia. }
  assert (u32 (m_now m - m_base m) <= m_now m - m_base m) as Hu by (unfold u32; apply Z.mod_le; lia).
  assert (d * 200 <= m_now m - m_base m) by mlia.
  rewrite u32_id by lia. change (2 ^ 63) with 9223372036854775808 in HN. rewrite u64_id by lia. lia.
Qed.

(** The loops of WRMPExpireTicks leave the base for the end. *)
Definition loops_to m : res unit -> Mgr T -> Prop := fun r m' => r = Ok tt /\ quiet m m' /\ m_base m' = m_base m.

Lemma loops_for (body : nat -> M (Mgr T) unit) n i m : (forall j m, wp (body j) m (loops_to m)) -> wp (for_range n i body) m (loops_to m).
Proof.
  intros Hb. apply (wp_for body (fun m' => quiet m m' /\ m_base m' = m_base m)); [|split; [apply quiet_refl|done]].
  intros j s _ [Q E]. eapply wp_mono; [apply Hb|]. intros r s' (-> & Q' & E'). split; [done|]. split; [by eapply quiet_trans|congruence].
Qed.

Lemma loops_entry d i m : 0 <= d -> wp (expire_entry d i) m (loops_to m).
Proof.
  intros Hd. destruct (quiet_expire_entry d i m Hd) as ([[] Er] & Q). split; [done|]. split; [done|].
  unfold expire_entry. cbv [bind gets get_re]. by destruct (re_exchContext (m_table m i)).
Qed.

Lemma quiet_expire m : wp WRMPExpireTicks m (quietly m).
Proof.
  unfold WRMPExpireTicks. apply wp_gets. cbn zeta. unfold id. set (d := u16 _). assert (0 <= d) as Hd by apply u16_range.
  eapply (wp_seq _ _ m _ (fun _ m1 => quiet m m1 /\ m_base m1 = m_base m)).
  { eapply wp_mono; [apply (loops_for _ _ _ m); intros j m1; destruct (quiet_ec j (expire_ack d) m1 (core_expire_ack d)); split; [done|by split]|].
    intros r s (-> & HQ). by exists tt. }
  intros _ m1 [Q1 E1]. eapply (wp_seq _ _ m1 _ (fun _ m2 => quiet m m2 /\ m_base m2 = m_base m)).
  { eapply wp_mono; [apply (loops_for _ _ _ m1); intros; by apply loops_entry|].
    intros r s (-> & HQ & E). exists tt. split; [done|]. split; [by eapply quiet_trans|congruence]. }
  intros _ m2 [Q E]. split; [by eexists|]. cbn. pose proof Q as [].
  split; try done. intros HT. pose proof HT as (HI & HB & HN). unfold time_ok. cbn. rewrite q_interval, q_now, E.
  pose proof (base_after m HT) as [Eb Hb]. fold d in Eb, Hb. rewrite Eb. rewrite HI in *. unfold WEAVE_CONFIG_WRMP_TIMER_DEFAULT_PERIOD in *. lia.
Qed.
(** Operations that may report an error. *)
Lemma fails_seq {D} {A B} (f : M (Mgr T) A) (k : A -> M (Mgr T) B) m Q :
  wp f m (quiet_or_fails_but D m) -> (forall a m', quiet_but D m m' -> wp (k a) m' Q) -> (forall e m', quiet_but D m m' -> Q (Err e) m') -> wp (bind f k) m Q.
Proof.
  intros Hf Hk He. apply wp_bind. eapply wp_mono; [exact Hf|]. intros r s' (Hr & HQ). destruct r; try done; auto.
Qed.

Lemma fails_trans {D} {A} m1 m2 (f : M (Mgr T) A) : quiet_but D m1 m2 -> wp f m2 (quiet_or_fails_but D m2) -> wp f m2 (quiet_or_fails_but D m1).
Proof. intros Q Hf. eapply wp_mono; [exact Hf|]. intros r s' (Hr & HQ). split; [done|]. by eapply quiet_trans. Qed.

Lemma fails_bind {D} {A B} (f : M (Mgr T) A) (k : A -> M (Mgr T) B) m :
  wp f m (quiet_or_fails_but D m) -> (forall a m', quiet_but D m m' -> wp (k a) m' (quiet_or_fails_but D m')) -> wp (bind f k) m (quiet_or_fails_but D m).
Proof. intros Hf Hk. eapply fails_seq; [done| |by split]. intros a m' Q. eapply fails_trans; eauto. Qed.

Lemma quietly_fails {D} {A} (f : M (Mgr T) A) m : wp f m (quietly_but D m) -> wp f m (quiet_or_fails_but D m).
Proof. intros Hf. eapply wp_mono; [exact Hf|]. intros r s' ([a ->] & Q). by split. Qed.

Lemma fails_fail {D} {A} e m : wp (fail e : M (Mgr T) A) m (quiet_or_fails_but D m).
Proof. split; [done|apply quiet_refl]. Qed.

Lemma fails_service f m : wp (service f) m (quiet_or_fails m).
Proof.
  unfold service, wp. destruct (f (m_env m)) as [[e|] t] eqn:E; cbn; (split; [done|]);
    destruct (quiet_env (fun _ => t) m) as [_ Q]; exact Q.
Qed.

Lemma quietly_attempt {D} {A} (f : M (Mgr T) A) m : wp f m (quiet_or_fails_but D m) -> wp (attempt f) m (quietly_but D m).
Proof.
  intros Hf. apply wp_attempt. eapply wp_mono; [exact Hf|]. intros r s' (Hr & Q). destruct r; try done; (split; [by eexists|done]).
Qed.

Lemma fails_throw {D} {A} (r : A + WEAVE_ERROR) m : wp (throw r) m (quiet_or_fails_but D m).
Proof. destruct r; split; try done; apply quiet_refl. Qed.

(** A live buffer stays live when its bytes change. *)
Lemma quiet_put b p m : live m b -> wp (put_buf b p) m (quietly_but (eq b) m).
Proof.
  intros Hl. split; [by eexists|]. split; try (intros; reflexivity); try (intros; done).
  - intros b'. unfold live. cbn. unfold insert, fn_insert. destruct (decide (b = b')) as [<-|]; [|done].
    split; [intros _; exact Hl|intros _; by eexists].
  - intros b' Hne _. cbn. by rewrite fn_lookup_insert_ne.
  - exists []. by rewrite app_nil_r.
Qed.

Lemma live_get b m p : m_bufs m b = Some p -> get_buf b m = (Ok p, m).
Proof. unfold get_buf. by intros ->. Qed.

Lemma fails_on_buf {A} b (f : M PacketBuffer A) m : live m b ->
  (forall p, match fst (f p) with Ok _ | Err _ => True | _ => False end) -> wp (on_buf b f) m (quiet_or_fails_but (eq b) m).
Proof.
  intros Hl Hf. pose proof Hl as [p Ep]. unfold on_buf, wp, bind. rewrite (live_get b m p Ep).
  specialize (Hf p). destruct (f p) as [r q]. cbn in Hf |- *. split; [done|]. by destruct (quiet_put b q m Hl) as [_ Q].
Qed.

Lemma quietly_on_buf b (f : PacketBuffer -> PacketBuffer) m : live m b -> wp (on_buf b (modify f)) m (quietly_but (eq b) m).
Proof.
  intros Hl. pose proof Hl as [p Ep]. unfold on_buf, wp, bind. rewrite (live_get b m p Ep). cbn.
  split; [by eexists|]. by destruct (quiet_put b (f p) m Hl) as [_ Q].
Qed.

(** The buffer of an entry is not loose. *)
Lemma quietly_owned {A} (f : M (Mgr T) A) m i b : active m i -> re_msgBuf (m_table m i) = Some b ->
  wp f m (quietly_but (eq b) m) -> wp f m (quietly m).
Proof.
  intros Ha Eb Hf. eapply wp_mono; [exact Hf|]. intros r s' (Hr & Q). split; [done|].
  eapply quiet_more; [exact Q|]. intros b' [_ Ho] <-. by destruct (Ho i Ha).
Qed.

(** Reading the contents of a live buffer. *)
Lemma wp_get_buf {B} b (k : PacketBuffer -> M (Mgr T) B) m Q : live m b -> (forall p, m_bufs m b = Some p -> wp (k p) m Q) -> wp (bind (get_buf b) k) m Q.
Proof. intros [p Ep] Hk. unfold wp, bind. rewrite (live_get b m p Ep). by apply Hk. Qed.

Lemma PrependHeader_returns h p : match fst (PrependHeader h p) with Ok _ | Err _ => True | _ => False end.
Proof. unfold PrependHeader. destruct (EnsureReservedSize _ _) as [[] q]; cbn [negb]; [|done]. by destruct (negb _). Qed.

(** The flags that are not part of [core]. *)
Lemma core_set_flag k x e : 0 <= k < 7 -> core (set_flag (2 ^ k) x e) = core e.
Proof.
  intros Hk. unfold core, view, HasRcvdMsgFromPeer, set_flag, set_flags. cbn. change kFlagMsgRcvdFromPeer with (2 ^ 7).
  rewrite GetFlag_SetFlag by lia. by rewrite (proj2 (Z.eqb_neq k 7)) by lia.
Qed.
Lemma core_SetAckPending x e : core (SetAckPending x e) = core e.
Proof. by apply (core_set_flag 5). Qed.
Lemma core_SetResponseExpected x e : core (SetResponseExpected x e) = core e.
Proof. by apply (core_set_flag 4). Qed.
Lemma core_SetPeerRequestedAck x e : core (SetPeerRequestedAck x e) = core e.
Proof. by apply (core_set_flag 6). Qed.

Section Laws.
Context `{!ExchangeEnvLaws T}.

Lemma quietly_service ms m : wp (service (env_StartTimer ms)) m (quietly m).
Proof.
  unfold service, wp. pose proof (env_StartTimer_ok ms (m_env m)) as E. destruct (env_StartTimer ms (m_env m)) as [r t]. cbn in E. subst r.
  split; [by eexists|]. by destruct (quiet_env (fun _ => t) m) as [_ Q].
Qed.

Lemma quiet_StartTimer m : wp WRMPStartTimer m (quietly m).
Proof.
  unfold WRMPStartTimer. apply quietly_bind; [apply quiet_timer|]. intros _ m1.
  apply wp_gets. unfold id. destruct (next_wake m1) as [w []]; [|apply quietly_ret]. cbn zeta.
  apply wp_bind. apply wp_attempt. eapply wp_mono; [apply quietly_service|]. intros r m2 ([a ->] & Q).
  split; [by eexists|]. eapply quiet_trans; [exact Q|].
  match goal with |- quiet_but _ ?a (snd (modify (set_timer ?x) ?a)) => by destruct (quiet_timer x a) as [_ Q2] end.
Qed.

Lemma quiet_StartResponseTimer c m : wp (StartResponseTimer c) m (quietly m).
Proof.
  unfold StartResponseTimer. apply wp_gets. apply quietly_bind; [apply quietly_service|]. intros _ m1. apply wp_gets. by apply quiet_ec.
Qed.

(** EncodeExchHeader takes a live buffer. *)
Lemma fails_EncodeExchHeader c profileId msgType b sendFlags m : live m b -> wp (EncodeExchHeader c profileId msgType b sendFlags) m (quiet_or_fails_but (eq b) m).
Proof.
  intros Hl. unfold EncodeExchHeader. apply wp_gets. cbn zeta. apply fails_bind.
  - apply quietly_fails, quietly_any. destruct (_ =? kWeaveMessageVersion_V2); [|apply quietly_ret]. apply quietly_bind.
    + destruct (HasPeerRequestedAck _); [|apply quietly_ret].
      apply quietly_bind; [apply quiet_expire|]. intros _ m1. apply quietly_bind; [apply quiet_ec; intros; apply core_SetAckPending|].
      intros _ m2. apply quietly_bind; [apply quiet_StartTimer|]. intros _ m3. apply quietly_ret.
    + intros [flags ack] m1. apply quietly_ret.
  - intros [flags ack] m1 Q. apply fails_on_buf; [by apply (q_bufs _ _ _ Q)|apply PrependHeader_returns].
Qed.
End Laws.
End Quiet.
