(* ===== verification/ExchangeRefs.v ===== *)
(** * Exchanges: references and owners

    The steps that take and release references, fill and clear entries of the
    table, allocate and free buffers: what each does to the invariant. *)
From stdpp Require Import functions.
From S2P Require Import Prelude Encoding PacketBuffer PacketBufferChain MessageLayer Address ExchangeHeader ExchangeTypes ExchangeMgr ExchangeInv ExchangeQuiet.
Local Open Scope Z_scope.
Open Scope weave_scope.

Ltac fn := unfold insert, fn_insert; repeat case_decide; subst; try congruence; try lia.

(** One more reference to [c]. *)
Definition inc (c : nat) (h : nat -> Z) : nat -> Z := <[c := h c + 1]> h.
Definition dec (c : nat) (h : nat -> Z) : nat -> Z := <[c := h c - 1]> h.
Lemma inc_same c h : inc c h c = h c + 1.
Proof. apply fn_lookup_insert. Qed.
Lemma inc_ge c h c' : h c' <= inc c h c'.
Proof. unfold inc. fn. Qed.
Lemma dec_inc c h c' : dec c (inc c h) c' = h c'.
Proof. unfold dec, inc. fn. Qed.
Lemma inc_dec c h c' : inc c (dec c h) c' = h c'.
Proof. unfold dec, inc. fn. Qed.

Section References.
Context {T : Type} `{ExchangeEnv T}.
Implicit Types m : Mgr T.

Lemma inv_ext h h' X m : (forall c, h' c = h c) -> inv h X m -> inv h' X m.
Proof. intros E I. pose proof I as []. split; auto; intros c; rewrite E; auto. Qed.

(** Changing one context. *)
Lemma inv_ctx h h' X m c e :
  inv h X m ->
  (ec_used e = true -> (c < WEAVE_CONFIG_MAX_EXCHANGE_CONTEXTS)%nat /\ ec_mRefCount e = refs X m c + h' c /\ 1 <= ec_mRefCount e) ->
  (ec_used e = false -> forall i, re_exchContext (m_table m i) = Some c -> X = Some i) ->
  tr_msg (ec_trickle e) = None -> (forall c', c' <> c -> h' c' = h c') -> 0 <= h' c <= kMaxHolds ->
  inv h' X (set_pool (<[c := e]> (m_pool m)) m).
Proof.
  intros I HT HF Hm Hh Hc. pose proof I as []. split; cbn; auto.
  - intros i c' E HX. fn; [|by eapply i_entry]. destruct (ec_used e) eqn:U; [done|]. by destruct HX; apply HF.
  - intros c'. change (refs X (set_pool (<[c := e]> (m_pool m)) m) c') with (refs X m c').
    fn; [intros U; by apply HT|]. intros U. rewrite (Hh c') by done. by apply i_ref.
  - intros c'. fn; [intros U; by apply HT|]. by apply i_pool.
  - intros c'. fn; apply i_trickle.
  - intros c'. destruct (decide (c' = c)) as [->|]; [done|]. rewrite Hh by done. apply i_holds.
Qed.

Lemma frame_ctx (Pi Pc Pb : nat -> Prop) m c e :
  (Pc c -> ec_used (m_pool m c) = true -> view e = view (m_pool m c)) -> frame Pi Pc Pb m (set_pool (<[c := e]> (m_pool m)) m).
Proof.
  intros Hv. split; cbn; auto.
  - intros. apply entry_le_refl.
  - intros c' Hc Hu. fn. by apply Hv.
  - by split.
  - intros HT; split; [exact HT|reflexivity].
  - exists []. by rewrite app_nil_r.
Qed.

Lemma refs_range X m c : 0 <= refs X m c <= 15.
Proof. unfold refs. pose proof (count_if_nonneg (holds X m c) (seq 0 WEAVE_CONFIG_WRMP_RETRANS_TABLE_SIZE)) as HC. rewrite length_seq in HC. exact HC. Qed.

Lemma done_AddRef h X m c : inv h X m -> ec_used (m_pool m c) = true -> h c < kMaxHolds ->
  wp (AddRef c) m (done_with (inc c h) X all all all m).
Proof.
  intros I Hu Hh. pose proof (i_ref _ _ _ I c Hu) as [Er Hr]. pose proof (refs_range X m c). pose proof (i_holds _ _ _ I c). unfold kMaxHolds in *.
  split; [by eexists|]. cbn. split.
  - eapply inv_ctx; [exact I|..]; cbn.
    + intros _. split; [by apply (i_pool _ _ _ I)|]. rewrite u8_id by lia. rewrite inc_same. lia.
    + congruence.
    + apply (i_trickle _ _ _ I).
    + intros c' Hne. unfold inc. fn.
    + rewrite inc_same. unfold kMaxHolds. lia.
  - by apply frame_ctx.
Qed.

(** Giving a reference back when it is not the last. *)
Definition drop_ref (c : nat) : M (Mgr T) unit := on_ec c (fun e => set_refCount (ec_mRefCount e - 1) e).

Lemma done_drop h X m c : inv (inc c h) X m -> ec_used (m_pool m c) = true -> 0 <= h c -> 0 < refs X m c + h c ->
  wp (drop_ref c) m (done_with h X all all all m).
Proof.
  intros I Hu Hh Hr. pose proof (i_ref _ _ _ I c Hu) as [Er _]. pose proof (i_holds _ _ _ I c) as Hk. rewrite inc_same in *. unfold kMaxHolds in *.
  split; [by eexists|]. cbn. split.
  - eapply inv_ctx; [exact I|..]; cbn.
    + intros _. split; [by apply (i_pool _ _ _ I)|]. lia.
    + congruence.
    + apply (i_trickle _ _ _ I).
    + intros c' Hne. unfold inc. fn.
    + unfold kMaxHolds. lia.
  - by apply frame_ctx.
Qed.

(** ** Buffers *)

Lemma loose_bufs m bs b : (forall i, active m i -> re_msgBuf (m_table m i) <> Some b) -> is_Some (bs b) -> loose (set_bufs bs m) b.
Proof. intros Ho Hl. split; [done|]. apply Ho. Qed.

(** Freeing a buffer that nothing owns. *)
Lemma done_FreeBuf h X m b : inv h X m -> loose m b ->
  wp (FreeBuf b) m (fun r m' => r = Ok tt /\ inv h X m' /\ frame all all (fun b' => b' <> b) m m' /\ m_pool m' = m_pool m /\ m_table m' = m_table m).
Proof.
  intros I [Hl Ho]. unfold FreeBuf. apply wp_get_buf; [done|]. intros p Ep. split; [done|]. cbn. split; [|split; [|done]].
  - destruct I. split; cbn; auto.
    intros i Ha. destruct (i_buf i Ha) as (b' & Eb & Lb). exists b'. split; [done|]. unfold live. cbn. fn; [by destruct (Ho i)|done].
  - split; cbn; auto.
    + intros. apply entry_le_refl.
    + intros b' Hne [Hl' Ho']. split; [|cbn; fn]. split; [|done]. unfold live. cbn. fn; done.
    + intros HT; split; [exact HT|reflexivity].
    + exists []. by rewrite app_nil_r.
Qed.

Lemma find_seq_some (f : nat -> bool) n i : find f (seq 0 n) = Some i -> f i = true /\ (i < n)%nat.
Proof. intros E. apply find_some in E as [Hi Hf]. apply in_seq in Hi. split; [done|lia]. Qed.
Lemma find_seq_none (f : nat -> bool) n i : find f (seq 0 n) = None -> (i < n)%nat -> f i = false.
Proof. intros E Hi. apply (find_none _ _ E). apply in_seq. lia. Qed.

(** A new buffer is nobody's. *)
Lemma done_NewBuf h X n m : inv h X m ->
  wp (NewBuf n) m (fun r m' => match r with
    | Ok b => ~ live m b /\ loose m' b /\ inv h X m' /\ frame all all all m m' /\ m_pool m' = m_pool m
    | Err e => e = WEAVE_ERROR_NO_MEMORY /\ m' = m | _ => False end).
Proof.
  intros I. unfold NewBuf, wp. destruct (_ <? _); [done|]. destruct (find _ _) as [b|] eqn:E; [|done]. cbn.
  apply find_seq_some in E as [E _]. apply bool_decide_eq_true in E.
  assert (~ live m b) as Hd by (unfold live; rewrite E; by intros [? ?]).
  assert (forall i, active m i -> re_msgBuf (m_table m i) <> Some b) as Ho.
  { intros i Ha Eb. destruct (i_buf _ _ _ I i Ha) as (b' & Eb' & Lb). congruence. }
  split; [done|]. split; [apply loose_bufs; [done|]; rewrite fn_lookup_insert; by eexists|]. split; [|split; [|done]].
  - destruct I. split; cbn; auto.
    intros i Ha. destruct (i_buf i Ha) as (b' & Eb & Lb). exists b'. split; [done|]. unfold live. cbn. fn; (done || by eexists).
  - split; cbn; auto.
    + intros. apply entry_le_refl.
    + intros b' _ [Hl' Ho']. split; [|cbn; fn; done]. split; [|done]. unfold live. cbn. fn; (done || by eexists).
    + intros HT; split; [exact HT|reflexivity].
    + exists []. by rewrite app_nil_r.
Qed.

(** ** Entries of the table *)

Lemma refs_entry X m k r c : (k < WEAVE_CONFIG_WRMP_RETRANS_TABLE_SIZE)%nat ->
  refs X (set_table (<[k := r]> (m_table m)) m) c =
  refs X m c - Z.b2z (holds X m c k) + Z.b2z (bool_decide (re_exchContext r = Some c) && negb (bool_decide (X = Some k))).
Proof.
  intros Hk. unfold refs. rewrite (count_if_change (holds X m c) (holds X (set_table (<[k := r]> (m_table m)) m) c) k).
  - f_equal. unfold holds. cbn. by rewrite fn_lookup_insert.
  - apply NoDup_seq.
  - apply in_seq. lia.
  - intros i _ Hne. unfold holds. cbn. by rewrite fn_lookup_insert_ne.
Qed.

(** Filling a free entry with a buffer that nothing owns: one of the references
    to the context becomes the table's. *)
Lemma inv_fill h X m k c b id ctxt t : inv h X m -> ~ active m k -> (k < WEAVE_CONFIG_WRMP_RETRANS_TABLE_SIZE)%nat ->
  ec_used (m_pool m c) = true -> loose m b -> 1 <= h c -> X <> Some k ->
  inv (dec c h) X (set_table (<[k := mkEntry (Some c) id (Some b) ctxt t 0]> (m_table m)) m).
Proof.
  intros I Ha Hk Hu [Hl Ho] Hh HX. pose proof I as [].
  assert (forall c', holds X m c' k = false) as Hold.
  { intros c'. unfold holds. unfold active in Ha. destruct (re_exchContext (m_table m k)); [by destruct Ha|done]. }
  split; cbn; auto.
  - intros i. unfold active. cbn. fn. intros. by apply i_out.
  - intros i c'. fn; cbn; [intros [= <-] _; done|]. apply i_entry.
  - intros i. unfold active. cbn. fn; cbn; [eauto|]. apply i_buf.
  - intros i j. unfold active. cbn. fn; cbn; try done.
    + intros _ Hj Eb. by destruct (Ho j).
    + intros Hi _ Eb. by destruct (Ho i).
    + apply i_inj.
  - intros c' Hu'. rewrite refs_entry by done. rewrite Hold. cbn [Z.b2z re_exchContext]. destruct (i_ref c' Hu') as [Er Hr].
    rewrite (bool_decide_eq_false_2 (X = Some k)) by done. cbn [negb]. rewrite andb_true_r. unfold dec.
    destruct (decide (c = c')) as [<-|Hne].
    + rewrite fn_lookup_insert. rewrite bool_decide_eq_true_2 by done. cbn [Z.b2z]. lia.
    + rewrite fn_lookup_insert_ne by done. rewrite bool_decide_eq_false_2 by congruence. cbn [Z.b2z]. lia.
  - intros c'. unfold dec. fn; [|apply i_holds]. specialize (i_holds c'). lia.
  - intros i EX. unfold active. cbn. fn. by apply i_clearing.
Qed.

(** Taking over the reference of an entry that is to be cleared. *)
Lemma inv_take h m i c : inv h None m -> re_exchContext (m_table m i) = Some c -> h c < kMaxHolds -> inv (inc c h) (Some i) m.
Proof.
  intros I Ei Hh. pose proof I as []. assert (active m i) as Ha by (unfold active; congruence).
  split; auto.
  - intros j c' Ej _. by eapply i_entry.
  - intros c' Hu. destruct (i_ref c' Hu) as [Er Hr]. split; [|done]. rewrite Er.
    unfold refs. rewrite (count_if_change (holds None m c') (holds (Some i) m c') i).
    + unfold holds. rewrite (bool_decide_eq_true_2 (Some i = Some i)) by done. cbn [negb]. rewrite andb_false_r. cbn [Z.b2z].
      rewrite (bool_decide_eq_false_2 (None = Some i)) by done. cbn [negb]. rewrite andb_true_r. unfold inc.
      destruct (decide (c = c')) as [<-|Hne].
      * rewrite fn_lookup_insert. rewrite bool_decide_eq_true_2 by done. cbn [Z.b2z]. lia.
      * rewrite fn_lookup_insert_ne by done. rewrite bool_decide_eq_false_2 by congruence. cbn [Z.b2z]. lia.
    + apply NoDup_seq.
    + apply in_seq. specialize (i_out i Ha). lia.
    + intros j _ Hne. unfold holds. by rewrite (bool_decide_eq_false_2 (None = Some j)), (bool_decide_eq_false_2 (Some i = Some j)) by congruence.
  - intros c'. unfold inc. specialize (i_holds c'). fn.
  - by intros j [= <-].
Qed.

(** Clearing it. *)
Lemma inv_clear h m i r : inv h (Some i) m -> re_exchContext r = None -> (i < WEAVE_CONFIG_WRMP_RETRANS_TABLE_SIZE)%nat ->
  inv h None (set_table (<[i := r]> (m_table m)) m).
Proof.
  intros I Er Hi. pose proof I as []. split; cbn; auto.
  - intros j. unfold active. cbn. fn; apply i_out.
  - intros j c'. fn. intros E _. eapply i_entry; [exact E|congruence].
  - intros j. unfold active. cbn. fn; apply i_buf.
  - intros j k. unfold active. cbn. fn; apply i_inj.
  - intros c' Hu. destruct (i_ref c' Hu) as [Ec Hr]. split; [|done]. rewrite Ec. f_equal. unfold refs.
    apply count_if_ext. intros j _. unfold holds. cbn. rewrite (bool_decide_eq_false_2 (None = Some j)) by done.
    destruct (decide (i = j)) as [<-|Hne].
    + rewrite fn_lookup_insert, Er. rewrite (bool_decide_eq_true_2 (Some i = Some i)) by done. by rewrite andb_false_r.
    + rewrite fn_lookup_insert_ne by done. by rewrite (bool_decide_eq_false_2 (Some i = Some j)) by congruence.
  - done.
Qed.

(** Rewriting an entry that is free. *)
Lemma inv_free_entry h X m i r : inv h X m -> ~ active m i -> re_exchContext r = None ->
  inv h X (set_table (<[i := r]> (m_table m)) m) /\ frame all all all m (set_table (<[i := r]> (m_table m)) m).
Proof.
  intros I Ha Er. assert (re_exchContext (m_table m i) = None) as Ei by (unfold active in Ha; destruct (re_exchContext _); [by destruct Ha|done]).
  pose proof I as []. split; split; cbn; auto.
  - intros j. unfold active. cbn. fn. apply i_out.
  - intros j c. fn. apply i_entry.
  - intros j. unfold active. cbn. fn. apply i_buf.
  - intros j k. unfold active. cbn. fn. apply i_inj.
  - intros c Hu. rewrite (refs_ext X m); [by apply i_ref|]. intros j. cbn. fn.
  - intros j Ej. specialize (i_clearing j Ej). unfold active in *. cbn. rewrite fn_lookup_insert_ne by congruence. done.
  - intros j _ Hj. fn. apply entry_le_refl.
  - intros j _ Hj. unfold active in *. cbn. unfold insert, fn_insert. case_decide; [intros Hn; by apply Hn|done].
  - intros b _ [Hl Ho]. split; [|done]. split; [done|]. intros j. unfold active. cbn. fn. apply Ho.
  - intros HT; split; [exact HT|reflexivity].
  - exists []. by rewrite app_nil_r.
Qed.

(** Rewriting the other members of an entry. *)
Lemma inv_same_entry h X m i r : inv h X m -> re_exchContext r = re_exchContext (m_table m i) -> re_msgBuf r = re_msgBuf (m_table m i) ->
  inv h X (set_table (<[i := r]> (m_table m)) m) /\ frame (fun j => j <> i) all all m (set_table (<[i := r]> (m_table m)) m).
Proof.
  intros I Er Eb. pose proof I as []. set (m' := set_table _ m).
  assert (forall j, re_exchContext (m_table m' j) = re_exchContext (m_table m j)) as Ex by (intros j; unfold m'; cbn; fn).
  assert (forall j, re_msgBuf (m_table m' j) = re_msgBuf (m_table m j)) as Ebf by (intros j; unfold m'; cbn; fn).
  assert (forall j, active m' j <-> active m j) as Ea by (intros j; unfold active; by rewrite Ex).
  split; split; try solve [cbn; auto].
  - intros j Hj. by apply i_out, Ea.
  - intros j c. rewrite Ex. apply i_entry.
  - intros j Hj. rewrite Ebf. by apply i_buf, Ea.
  - intros j k Hj Hk. rewrite !Ebf. apply i_inj; by apply Ea.
  - intros c Hu. rewrite (refs_ext X m) by done. by apply i_ref.
  - intros j Hj. by apply Ea, i_clearing.
  - intros j Hne _. unfold m'. cbn. rewrite fn_lookup_insert_ne by done. apply entry_le_refl.
  - intros j _ Hj. by rewrite Ea.
  - intros b _ [Hl Ho]. split; [|done]. split; [done|]. intros j Hj. rewrite Ebf. by apply Ho, Ea.
  - intros HT; split; [exact HT|reflexivity].
  - exists []. by rewrite app_nil_r.
Qed.
End References.
