(* ===== verification/ExchangeSafe.v ===== *)
(** * Exchanges: every operation keeps the invariant

    The specifications of the operations, from clearing an entry to sending and
    closing: none of them is ever undefined, each keeps the references and the
    owners in order, and each says what it leaves alone. *)
From stdpp Require Import functions.
From S2P Require Import Prelude Encoding PacketBuffer PacketBufferChain FabricState MessageLayer Address ExchangeHeader ExchangeTypes ExchangeMgr ExchangeInv ExchangeQuiet ExchangeRefs.
Local Open Scope Z_scope.
Open Scope weave_scope.

Section Safe.
Context {T : Type} `{ExchangeEnv T} `{!ExchangeEnvLaws T}.
Implicit Types m : Mgr T.

Lemma quiet_refs X m m' c : quiet m m' -> refs X m' c = refs X m c.
Proof. intros Q. apply refs_ext. intros i. apply (q_table _ _ _ Q i). Qed.
Lemma quiet_used m m' c : quiet m m' -> ec_used (m_pool m' c) = ec_used (m_pool m c).
Proof. intros Q. apply view_used, core_view, (q_pool _ _ _ Q). Qed.
Lemma quiet_but_used D m m' c : quiet_but D m m' -> ec_used (m_pool m' c) = ec_used (m_pool m c).
Proof. intros Q. apply view_used, core_view, (q_pool _ _ _ Q). Qed.
Lemma frame_used (Pi Pc Pb : nat -> Prop) m m' c : frame Pi Pc Pb m m' -> Pc c -> ec_used (m_pool m c) = true -> ec_used (m_pool m' c) = true.
Proof. intros F Hc Hu. by rewrite (view_used _ _ (f_ctx _ _ _ _ _ F c Hc Hu)). Qed.

Lemma quiet_done {A} h X Pi Pc Pb m (f : M (Mgr T) A) : inv h X m -> wp f m (quietly m) -> wp f m (done_with h X Pi Pc Pb m).
Proof. intros I Hf. eapply wp_mono; [exact Hf|]. intros r s (Hr & Q). split; [done|]. split; [by eapply quiet_inv|by apply quiet_frame]. Qed.

(** Sequences of steps that cannot fail. *)
Lemma done_seq {A B} h h' X X' Pi Pc Pb (f : M (Mgr T) A) (k : A -> M (Mgr T) B) m0 m :
  frame Pi Pc Pb m0 m -> wp f m (done_with h X Pi Pc Pb m) ->
  (forall a m', inv h X m' -> frame Pi Pc Pb m0 m' -> frame Pi Pc Pb m m' -> wp (k a) m' (done_with h' X' Pi Pc Pb m0)) ->
  wp (bind f k) m (done_with h' X' Pi Pc Pb m0).
Proof.
  intros F Hf Hk. eapply wp_seq; [eapply wp_mono; [exact Hf|]|].
  - intros r s ([a ->] & I & F'). exists a. split; [done|]. exact (conj I F').
  - intros a m' [I F']. apply Hk; [done|by eapply frame_trans|done].
Qed.

(** What Release does: always, and when it is not the last reference. *)
Definition releases (release : nat -> M (Mgr T) unit) : Prop := forall h X m c,
  inv (inc c h) X m -> ec_used (m_pool m c) = true -> 0 <= h c ->
  wp (release c) m (done_with h X all (fun c' => c' <> c \/ 0 < refs X m c + h c) all m).
Definition spares (release : nat -> M (Mgr T) unit) : Prop := forall h X m c,
  inv (inc c h) X m -> ec_used (m_pool m c) = true -> 0 <= h c -> 0 < refs X m c + h c ->
  wp (release c) m (done_with h X all all all m).

Lemma Release_body_spares release : spares (Release_body release).
Proof.
  intros h X m c I Hu Hh Hr. unfold Release_body. apply wp_gets. pose proof (i_ref _ _ _ I c Hu) as [Er _]. rewrite inc_same in Er.
  rewrite Hu. cbn [negb orb]. rewrite (proj2 (Z.eqb_neq _ 0)), (proj2 (Z.eqb_neq _ 1)) by lia.
  exact (done_drop h X m c I Hu Hh Hr).
Qed.

(** ClearRetransmitTable(rEntry) *)
Lemma done_Clear release h m i c :
  releases release \/ (spares release /\ 0 < refs (Some i) m c + h c) ->
  inv h None m -> re_exchContext (m_table m i) = Some c -> h c < kMaxHolds ->
  wp (ClearRetransmitTable_entry_ release i) m (fun r m' => r = Ok tt /\ inv h None m' /\ ~ active m' i /\
    frame (fun j => j <> i) (fun c' => c' <> c \/ 0 < refs (Some i) m c + h c) all m m').
Proof.
  intros HR I Ei Hh. assert (active m i) as Ha by (unfold active; congruence).
  assert ((i < WEAVE_CONFIG_WRMP_RETRANS_TABLE_SIZE)%nat) as Hi by (by apply (i_out _ _ _ I)).
  unfold ClearRetransmitTable_entry_. apply wp_gets. rewrite Ei.
  eapply quietly_seq; [apply quiet_expire|]. intros _ m1 Q1.
  pose proof (quiet_inv _ _ _ _ _ Q1 I) as I1. set (Pc := fun c' => c' <> c \/ 0 < refs (Some i) m c + h c).
  assert (re_exchContext (m_table m1 i) = Some c) as Ei1 by (by rewrite (proj1 (q_table _ _ _ Q1 i))).
  pose proof (inv_take h m1 i c I1 Ei1 Hh) as IT. assert (ec_used (m_pool m1 c) = true) as Hu by (by eapply (i_entry _ _ _ I1)).
  assert (wp (release c) m1 (done_with h (Some i) all Pc all m1)) as HRel.
  { pose proof (i_holds _ _ _ I c). destruct HR as [HR|[HR HG]].
    - specialize (HR h (Some i) m1 c IT Hu ltac:(lia)). rewrite (quiet_refs _ m m1) in HR by done. exact HR.
    - eapply wp_mono; [apply (HR h (Some i) m1 c IT Hu); [lia|by rewrite (quiet_refs _ m m1)]|].
      intros r s (Hr & Is & F). split; [done|]. split; [done|]. by eapply frame_weaken. }
  eapply wp_seq; [eapply wp_mono; [exact HRel|]; intros r s ([a ->] & Is & F); exists a; split; [done|exact (conj Is F)]|].
  intros _ m2 [I2 F2]. assert (frame all Pc all m m2) as F02 by (eapply frame_trans; [by apply quiet_frame|exact F2]).
  assert (active m2 i) as Ha2 by (by apply (i_clearing _ _ _ I2)).
  destruct (i_buf _ _ _ I2 i Ha2) as (b & Eb & Lb).
  apply wp_modify. set (m3 := set_table _ m2).
  assert (inv h None m3) as I3 by (by apply (inv_clear h m2 i)).
  assert (~ active m3 i) as Ha3 by (unfold active, m3; cbn; rewrite fn_lookup_insert; cbn; auto).
  assert (loose m3 b) as Lo3.
  { split; [done|]. intros j Hj. assert (j <> i) as Hne by (by intros ->). unfold active, m3 in Hj |- *. cbn in *.
    rewrite fn_lookup_insert_ne in * by done. intros Ej. destruct Hne. apply (i_inj _ _ _ I2 j i); [done|done|congruence]. }
  assert (frame (fun j => j <> i) Pc (fun b' => b' <> b) m2 m3) as F23.
  { split; try done.
    - intros j Hne _. unfold m3. cbn. rewrite fn_lookup_insert_ne by done. apply entry_le_refl.
    - intros j Hne. unfold m3, active. cbn. by rewrite fn_lookup_insert_ne.
    - intros b' _ [Hl' Ho']. split; [|done]. split; [done|]. intros j. unfold active, m3. cbn. unfold insert, fn_insert. case_decide; [intros Hn; by destruct Hn|]. apply Ho'.
    - exists []. by rewrite app_nil_r. }
  apply wp_gets. assert (re_msgBuf (m_table m3 i) = Some b) as Eb3 by (unfold m3; cbn; by rewrite fn_lookup_insert). rewrite Eb3.
  (* the buffer is freed *)
  apply wp_bind. apply wp_bind. eapply wp_mono; [by apply (done_FreeBuf h None m3 b)|]. intros r m4 (-> & I4 & F34 & _ & Et4).
  assert (~ active m4 i) as Ha4 by (unfold active in *; by rewrite Et4).
  pose proof (inv_free_entry h None m4 i (set_msgBuf None (m_table m4 i)) I4 Ha4) as [I5 F45].
  { cbn. rewrite Et4. unfold m3. cbn. by rewrite fn_lookup_insert. }
  cbn. set (m5 := set_table _ m4) in *.
  assert (~ active m5 i) as Ha5 by (unfold active, m5; cbn; rewrite fn_lookup_insert; cbn; rewrite Et4; unfold m3; cbn; rewrite fn_lookup_insert; cbn; auto).
  apply wp_modify. destruct (inv_free_entry h None m5 i zero_entry I5 Ha5 eq_refl) as [I6 F56]. set (m6 := set_table _ m5) in *.
  assert (~ active m6 i) as Ha6 by (unfold active, m6; cbn; rewrite fn_lookup_insert; cbn; auto).
  eapply wp_mono; [apply quiet_StartTimer|]. intros r m7 ([[] ->] & Q7). split; [done|]. split; [by eapply quiet_inv|].
  split; [by rewrite (quiet_active none m6 m7)|].
  assert (frame (fun j => j <> i) Pc (fun b' => b' <> b) m m7) as F07.
  { eapply frame_trans; [eapply frame_weaken; [exact F02|done..]|]. eapply frame_trans; [exact F23|].
    eapply frame_trans; [eapply frame_weaken; [exact F34|done..]|]. eapply frame_trans; [eapply frame_weaken; [exact F45|done..]|].
    eapply frame_trans; [eapply frame_weaken; [exact F56|done..]|]. by apply quiet_frame. }
  pose proof (f_entry _ _ _ _ _ F02 i Logic.I Ha) as (_ & _ & EB & _). destruct F07. split; auto. intros b' _ Hb'. apply f_loose; [|done]. intros ->.
  (* the entry's buffer was not loose *)
  destruct Hb' as [_ Ho]. apply (Ho i Ha). congruence.
Qed.

(** An entry that was sent once more. *)
Definition sent (r r' : RetransTableEntry) : Prop :=
  re_exchContext r' = re_exchContext r /\ re_msgId r' = re_msgId r /\ re_msgBuf r' = re_msgBuf r /\ re_msgCtxt r' = re_msgCtxt r /\
  re_sendCount r' = u8 (re_sendCount r + 1) /\ (0 <= re_nextRetransTime r -> 0 <= re_nextRetransTime r' <= re_nextRetransTime r).

Lemma fails_SendMessage_encoded addr port intf b m : live m b ->
  wp (SendMessage_encoded addr port intf b kWeaveMessageFlag_RetainBuffer) m (quiet_or_fails m).
Proof.
  intros Hl. unfold SendMessage_encoded. apply wp_get_buf; [done|]. intros p _.
  eapply quietly_seq; [apply quietly_attempt, fails_service|]. intros r m1 Q1. eapply fails_trans; [exact Q1|].
  apply fails_throw.
Qed.

Lemma safe_SendFromRetrans release h m i c :
  releases release \/ (spares release /\ 0 < refs (Some i) m c + h c) ->
  inv h None m -> re_exchContext (m_table m i) = Some c -> h c < kMaxHolds ->
  wp (SendFromRetransTable_ release i) m (fun r m' => inv h None m' /\
    frame (fun j => j <> i) (fun c' => c' <> c \/ 0 < refs (Some i) m c + h c) all m m' /\
    match r with
    | Ok _ => sent (m_table m i) (m_table m' i) /\ view (m_pool m' c) = view (m_pool m c)
    | Err e => ~ active m' i /\ IsSendErrorNonCritical e = false
    | _ => False
    end).
Proof.
  intros HR I Ei Hh. assert (active m i) as Ha by (unfold active; congruence).
  unfold SendFromRetransTable_. apply wp_gets. rewrite Ei. apply wp_gets.
  destruct (i_buf _ _ _ I i Ha) as (b & Eb & Lb). rewrite Eb. apply wp_get_buf; [done|]. intros p Ep.
  eapply quietly_seq; [apply quiet_emit|]. intros _ m1 Q1.
  eapply quietly_seq; [apply quietly_attempt, fails_SendMessage_encoded; by apply (q_bufs _ _ _ Q1)|]. intros err m2 Q2.
  assert (quiet m m2) as Q02 by (by eapply quiet_trans).
  eapply quietly_seq; [apply quietly_on_buf; by apply (q_bufs _ _ _ Q02)|]. intros _ m3 Q3.
  assert (quiet m m3) as Q.
  { eapply quiet_trans; [exact Q02|]. eapply quiet_more; [exact Q3|]. intros b' Hb' <-. (* the entry's own buffer *)
    apply (quiet_loose none m m2) in Hb'; [|done]. by destruct Hb' as [_ Ho]; destruct (Ho i Ha). } clear Q1 Q2 Q02 Q3 m1 m2.
  pose proof (quiet_inv _ _ _ _ _ Q I) as I3. apply wp_modify. set (r' := set_sendCount _ _).
  destruct (inv_same_entry h None m3 i r' I3 eq_refl eq_refl) as [I4 F4]. set (m4 := set_table _ m3) in *.
  pose proof (q_table _ _ _ Q i) as (E1 & E2 & E3 & E4 & E5 & E6).
  assert (m_table m4 i = r') as Et by (unfold m4; cbn; by rewrite fn_lookup_insert).
  set (Pc := fun c' => c' <> c \/ 0 < refs (Some i) m c + h c).
  assert (frame (fun j => j <> i) Pc all m m4) as F04.
  { eapply frame_trans; [by apply quiet_frame|]. by eapply frame_weaken. }
  assert (sent (m_table m i) (m_table m4 i)) as Hs.
  { rewrite Et. refine (conj E1 (conj E2 (conj E3 (conj E4 (conj _ E6))))). cbn. by rewrite E5. }
  assert (view (m_pool m4 c) = view (m_pool m c)) as Hv by (apply core_view, (q_pool _ _ _ Q)).
  destruct err as [a|x]; [by split|]. destruct (IsSendErrorNonCritical x) eqn:EC; [by split|].
  assert (refs (Some i) m4 c = refs (Some i) m c) as Er.
  { rewrite <- (quiet_refs _ m m3) by done. apply refs_ext. intros j. unfold m4, r'. cbn. unfold insert, fn_insert. case_decide; [by subst|done]. }
  apply wp_bind. eapply wp_mono.
  { apply (done_Clear release h m4 i c); [by rewrite Er|done| |done]. rewrite Et. unfold r'. cbn. by rewrite E1. }
  intros r m5 (-> & I5 & Ha5 & F5). split; [done|]. split; [|done]. eapply frame_trans; [exact F04|]. rewrite Er in F5. exact F5.
Qed.

(** AddToRetransTable(ec, msgBuf, ...): one of the caller's references is taken
    again for the table. *)
Lemma safe_AddToRetrans h m c b msgId ctxt : inv h None m -> ec_used (m_pool m c) = true -> loose m b -> 1 <= h c ->
  wp (AddToRetransTable c b msgId ctxt) m (fun r m' => match r with
    | Ok k => inv h None m' /\ frame (fun j => j <> k) all (fun b' => b' <> b) m m' /\ ~ active m k /\ re_exchContext (m_table m' k) = Some c
    | Err e => e = WEAVE_ERROR_RETRANS_TABLE_FULL /\ m' = m
    | _ => False end).
Proof.
  intros I Hu Hb Hh. unfold AddToRetransTable. apply wp_gets. unfold id at 1. destruct (find _ _) as [k|] eqn:E; [|done].
  apply find_seq_some in E as [E Hk]. apply bool_decide_eq_true in E.
  eapply quietly_seq; [apply quiet_expire|]. intros _ m1 Q1. apply wp_gets. cbn zeta. apply wp_modify.
  set (t := u16 _). pose proof (quiet_inv _ _ _ _ _ Q1 I) as I1.
  assert (~ active m k) as Ha by (unfold active; rewrite E; auto).
  assert (~ active m1 k) as Ha1 by (by rewrite (quiet_active none m m1)).
  pose proof (inv_fill h None m1 k c b msgId ctxt t I1 Ha1 Hk ltac:(by rewrite (quiet_used m m1)) ltac:(by apply (quiet_loose none m m1)) Hh ltac:(done)) as I2.
  set (m2 := set_table _ m1) in *.
  assert (frame (fun j => j <> k) all (fun b' => b' <> b) m1 m2) as F12.
  { split; try done.
    - intros j Hne _. unfold m2. cbn. rewrite fn_lookup_insert_ne by done. apply entry_le_refl.
    - intros j Hne. unfold m2, active. cbn. by rewrite fn_lookup_insert_ne.
    - intros b' Hne [Hl Ho]. split; [|done]. split; [done|]. intros j. unfold active, m2. cbn. unfold insert, fn_insert. case_decide; [cbn; congruence|]. apply Ho.
    - exists []. by rewrite app_nil_r. }
  assert (frame (fun j => j <> k) all (fun b' => b' <> b) m m2) as F02 by (eapply frame_trans; [by apply quiet_frame|done]).
  pose proof (i_holds _ _ _ I c).
  eapply wp_seq; [eapply wp_mono; [apply (done_AddRef (dec c h) None m2 c I2)|]|].
  - by rewrite <- (quiet_used m m1 c Q1) in Hu.
  - unfold dec. rewrite fn_lookup_insert. lia.
  - intros r m3 ([a ->] & I3 & F3). exists a. split; [done|]. exact (conj I3 F3).
  - intros _ m3 [I3 F3]. eapply quietly_seq; [apply quiet_StartTimer|]. intros _ m4 Q4.
    assert (inv h None m4) as I4 by (eapply quiet_inv; [done|]; eapply inv_ext; [|exact I3]; intros c'; by rewrite inc_dec).
    split; [done|]. split; [|split; [done|]].
    + eapply frame_trans; [exact F02|]. eapply frame_trans; [by eapply frame_weaken|]. by apply quiet_frame.
    + change (re_exchContext (m_table m4 k) = Some c). rewrite (proj1 (q_table _ _ _ Q4 k)). rewrite (proj1 (f_entry _ _ _ _ _ F3 k Logic.I ltac:(unfold active, m2; cbn; by rewrite fn_lookup_insert))).
      unfold m2. cbn. by rewrite fn_lookup_insert.
Qed.
End Safe.
