(* ===== verification/ExchangeSend.v ===== *)
(** * Exchanges: sending, closing, releasing

    ExchangeContext::SendMessage and what it is called by: acknowledgements,
    DoClose, Release. *)
From stdpp Require Import functions.
From S2P Require Import Prelude Encoding PacketBuffer PacketBufferChain FabricState MessageLayer Address ExchangeHeader ExchangeTypes ExchangeMgr ExchangeInv ExchangeQuiet ExchangeRefs ExchangeSafe.
Local Open Scope Z_scope.
Open Scope weave_scope.

Lemma sf_lor flag x g : Z.land g flag = 0 -> sf_has flag (Z.lor x g) = sf_has flag x.
Proof. intros E. unfold sf_has. by rewrite Z.land_lor_distr_l, E, Z.lor_0_r. Qed.

Section Send.
Context {T : Type} `{ExchangeEnv T} `{!ExchangeEnvLaws T}.
Implicit Types m : Mgr T.

Lemma wp_lift {A} (f : M (Mgr T) A) m a (Q : res A -> Mgr T * SendArgs -> Prop) : wp f m (fun r m' => Q r (m', a)) -> wp (lift f) (m, a) Q.
Proof. unfold wp, lift. by destruct (f m). Qed.

Lemma wp_lift_ec {B} c (k : ExchangeContext -> M (Mgr T * SendArgs) B) m a Q : wp (k (m_pool m c)) (m, a) Q -> wp (bind (lift (get_ec c)) k) (m, a) Q.
Proof. done. Qed.
Lemma wp_args {B} (k : SendArgs -> M (Mgr T * SendArgs) B) m a Q : wp (k a) (m, a) Q -> wp (bind args k) (m, a) Q.
Proof. done. Qed.

Lemma wp_verify {S B} cond e (k : unit -> M S B) s Q : (cond = true -> wp (k tt) s Q) -> (cond = false -> Q (Err e) s) -> wp (bind (verify cond e) k) s Q.
Proof. destruct cond; intros HT HF; [by apply HT|by apply HF]. Qed.
Lemma wp_verify_last {S} cond e (s : S) (Q : res unit -> S -> Prop) : (cond = true -> Q (Ok tt) s) -> (cond = false -> Q (Err e) s) -> wp (verify cond e) s Q.
Proof. destruct cond; intros HT HF; [by apply HT|by apply HF]. Qed.

(** While a message with buffer [b] is being sent on [c]: the caller's buffer, as
    long as it is, is nobody else's. *)
Definition sending h X (Pi : nat -> Prop) (c b : nat) m0 (s : Mgr T * SendArgs) : Prop :=
  inv h X (fst s) /\ frame Pi all (fun b' => b' <> b) m0 (fst s) /\ ec_used (m_pool (fst s) c) = true /\
  sf_has kSendFlag_RetransmissionTrickle (sa_flags (snd s)) = false /\
  match sa_buf (snd s) with Some b' => b' = b /\ loose (fst s) b | None => True end.

(** Before the message is handed over. *)
Definition preparing h X (Pi : nat -> Prop) (c b : nat) m0 (s : Mgr T * SendArgs) : Prop :=
  sending h X Pi c b m0 s /\ sa_buf (snd s) = Some b /\ (sf_has kSendFlag_RequestAck (sa_flags (snd s)) = true -> X = None /\ forall i, Pi i -> active m0 i).

Definition or_fails {A} (P E : Mgr T * SendArgs -> Prop) : res A -> Mgr T * SendArgs -> Prop := fun r s =>
  match r with Ok _ => P s | Err _ => E s | _ => False end.

Lemma or_fails_bind {A B} (f : M (Mgr T * SendArgs) A) (k : A -> M (Mgr T * SendArgs) B) s (P P' E : Mgr T * SendArgs -> Prop) :
  wp f s (or_fails P E) -> (forall x s', P s' -> wp (k x) s' (or_fails P' E)) -> wp (bind f k) s (or_fails P' E).
Proof. intros Hf Hk. apply wp_bind. eapply wp_mono; [exact Hf|]. intros [] s'; cbn; try done. apply Hk. Qed.

Lemma or_fails_mono {A} (f : M (Mgr T * SendArgs) A) s (P P' E E' : Mgr T * SendArgs -> Prop) :
  wp f s (or_fails P E) -> (forall s', P s' -> P' s') -> (forall s', E s' -> E' s') -> wp f s (or_fails P' E').
Proof. intros Hf HP HE. eapply wp_mono; [exact Hf|]. intros [] s'; cbn; auto. Qed.

Lemma sending_quiet h X Pi c b m0 m m' a : quiet_but (eq b) m m' -> sending h X Pi c b m0 (m, a) -> sending h X Pi c b m0 (m', a).
Proof.
  intros Q (I & F & Hu & Ht & Hb). split; [by eapply quiet_inv|].
  split; [eapply frame_trans; [exact F|]; eapply quiet_frame_but; [exact Q|congruence]|].
  split; [cbn in *; by rewrite (quiet_but_used (eq b) m m')|]. split; [done|]. cbn in *. destruct (sa_buf a); [|done].
  destruct Hb as [-> Hb]. split; [done|]. by apply (quiet_loose (eq b) m m').
Qed.

Lemma preparing_quiet h X Pi c b m0 m m' a : quiet_but (eq b) m m' -> preparing h X Pi c b m0 (m, a) -> preparing h X Pi c b m0 (m', a).
Proof. intros Q (HS & Hb & HA). split; [by eapply sending_quiet|done]. Qed.

(** A quiet operation of the manager, while preparing. *)
Lemma preparing_lift {A B} h X Pi c b m0 m a (f : M (Mgr T) A) (k : A -> M (Mgr T * SendArgs) B) P' :
  preparing h X Pi c b m0 (m, a) -> wp f m (quiet_or_fails_but (eq b) m) ->
  (forall x m', preparing h X Pi c b m0 (m', a) -> wp (k x) (m', a) (or_fails P' (sending h X Pi c b m0))) ->
  wp (bind (lift f) k) (m, a) (or_fails P' (sending h X Pi c b m0)).
Proof.
  intros HP Hf Hk. apply wp_bind, wp_lift. eapply wp_mono; [exact Hf|]. intros r m' (Hr & Q).
  pose proof (preparing_quiet _ _ _ _ _ _ _ _ _ Q HP) as HP'. destruct r; try done; [by apply Hk|apply HP'].
Qed.

Lemma preparing_lift_last h X Pi c b m0 m a (f : M (Mgr T) unit) :
  preparing h X Pi c b m0 (m, a) -> wp f m (quiet_or_fails_but (eq b) m) -> wp (lift f) (m, a) (or_fails (preparing h X Pi c b m0) (sending h X Pi c b m0)).
Proof.
  intros HP Hf. apply wp_lift. eapply wp_mono; [exact Hf|]. intros r m' (Hr & Q).
  pose proof (preparing_quiet _ _ _ _ _ _ _ _ _ Q HP) as HP'. destruct r; try done. apply HP'.
Qed.

Lemma preparing_info h X Pi c b m0 m a i : preparing h X Pi c b m0 (m, a) -> preparing h X Pi c b m0 (m, mkArgs (sa_flags a) i (sa_buf a)).
Proof. done. Qed.

Lemma send_request_ack_spec h X Pi c b m0 m a : sending h X Pi c b m0 (m, a) -> sa_buf a = Some b ->
  (X = None /\ (forall i, Pi i -> active m0 i) \/ sf_has kSendFlag_NoAutoRequestAck (sa_flags a) = true /\ sf_has kSendFlag_RequestAck (sa_flags a) = false) ->
  wp (send_request_ack c) (m, a) (or_fails (preparing h X Pi c b m0) (sending h X Pi c b m0)).
Proof.
  intros HS Hb HX. unfold send_request_ack. apply wp_lift_ec, wp_args. cbn zeta. apply wp_modify.
  set (e := m_pool m c). set (f := if (_ : bool) then _ else sa_flags a).
  assert (sending h X Pi c b m0 (m, mkArgs f (sa_info a) (sa_buf a))) as HS'.
  { destruct HS as (I & F & Hu & Ht & HB). split; [done|]. split; [done|]. split; [done|]. split; [|done]. cbn in Ht |- *. unfold f.
    destruct (_ && _); [by rewrite sf_lor|done]. }
  assert (sf_has kSendFlag_RequestAck f = true -> X = None /\ forall i, Pi i -> active m0 i) as HA.
  { unfold f. destruct HX as [HX|[HN HR]]; [done|]. rewrite HN. cbn [negb]. rewrite andb_false_r. congruence. }
  apply wp_verify; [intros _|by intros _]. apply wp_verify_last; [|by intros _]. intros _. split; [done|]. split; [done|exact HA].
Qed.

Lemma send_version_spec h X Pi c b m0 m a profileId msgType : preparing h X Pi c b m0 (m, a) ->
  wp (send_version c profileId msgType) (m, a) (or_fails (preparing h X Pi c b m0) (sending h X Pi c b m0)).
Proof.
  intros HP. unfold send_version. apply wp_lift_ec, wp_args.
  assert (forall v m a, preparing h X Pi c b m0 (m, a) ->
    wp (do* lift (on_ec c (set_version v)) in set_sa_info (set_MessageVersion v (sa_info a))) (m, a) (or_fails (preparing h X Pi c b m0) (sending h X Pi c b m0))) as Hset.
  { clear. intros v m a HP. eapply preparing_lift; [exact HP|by apply fails_any, quietly_fails, quiet_ec|]. intros _ m' HP'. exact HP'. }
  eapply (or_fails_bind _ _ _ (preparing h X Pi c b m0)).
  - destruct (_ || _); [|exact HP]. destruct (_ =? kWeaveMessageVersion_Unspecified); [by apply Hset|].
    apply wp_verify_last; intros _; [exact HP|apply HP].
  - intros _ [m1 a1] HP1. apply wp_lift_ec, wp_args.
    eapply (or_fails_bind _ _ _ (preparing h X Pi c b m0)).
    + destruct (_ =? kWeaveMessageVersion_Unspecified); [by apply Hset|exact HP1].
    + intros _ [m2 a2] HP2. apply wp_verify_last; intros _; [exact HP2|apply HP2].
Qed.

Lemma send_trickle_spec h X Pi c b m0 m a : preparing h X Pi c b m0 (m, a) ->
  wp (send_trickle c b) (m, a) (or_fails (preparing h X Pi c b m0) (sending h X Pi c b m0)).
Proof.
  intros HP. unfold send_trickle. apply wp_args, wp_lift_ec. pose proof HP as ((_ & _ & _ & Ht & _) & _). cbn in Ht. by rewrite Ht.
Qed.

Lemma send_expect_spec h X Pi c b m0 m a : preparing h X Pi c b m0 (m, a) ->
  wp (send_expect_response c) (m, a) (or_fails (preparing h X Pi c b m0) (sending h X Pi c b m0)).
Proof.
  intros HP. unfold send_expect_response. apply wp_args, wp_lift_ec. apply wp_when; [intros _|by intros _].
  apply wp_verify; [intros _|intros _; apply HP].
  eapply preparing_lift; [exact HP|by apply fails_any, quietly_fails, quiet_ec; intros; apply core_SetResponseExpected|]. intros _ m1 HP1.
  apply wp_when; [intros _|by intros _]. apply preparing_lift_last; [done|]. apply fails_any, quietly_fails, quiet_StartResponseTimer.
Qed.

Lemma fails_SelectDest n addr m : wp (SelectDestNodeIdAndAddress n addr) m (quiet_or_fails m).
Proof. unfold SelectDestNodeIdAndAddress, wp. destruct (bool_decide (_ = IPAddress_Any)) eqn:E; cbn; (split; [done|apply quiet_refl]). Qed.

Lemma fails_EncodeMessage_to addr i b m : live m b -> wp (EncodeMessage_to addr i b) m (quiet_or_fails_but (eq b) m).
Proof.
  intros Hl. unfold EncodeMessage_to. apply wp_gets. cbn zeta. apply wp_get_buf; [done|]. intros p Ep. unfold wp.
  destruct (env_EncodeMessage _ p (m_env m)) as [[[r i'] p'] t].
  assert (quiet_but (eq b) m (set_env t (set_bufs (<[b := Some p']> (m_bufs m)) m))) as Q.
  { destruct (quiet_put b p' m Hl) as [_ Q1]. eapply quiet_trans; [exact Q1|]. apply quiet_any.
    match goal with |- quiet ?x _ => destruct (quiet_env (fun _ => t) x) as [_ Q2]; exact Q2 end. }
  destruct r; (split; [done|exact Q]).
Qed.

(** A frame lets go of one loose buffer. *)
Lemma frame_to {Pc : nat -> Prop} (b : nat) m m' : frame all Pc all m m' -> frame all Pc (fun b' => b' <> b) m m'.
Proof. intros F. by eapply frame_weaken. Qed.

Lemma refs_mono X (Pi Pc Pb : nat -> Prop) m m' c : (forall i, active m i -> Pi i) -> frame Pi Pc Pb m m' -> refs X m c <= refs X m' c.
Proof.
  intros HPi F. apply count_if_mono. intros i _ Hi. unfold holds in *. apply andb_prop in Hi as [Hi HX]. rewrite HX, andb_true_r.
  apply bool_decide_eq_true in Hi. apply bool_decide_eq_true. assert (active m i) as Ha by (unfold active; congruence).
  rewrite (proj1 (f_entry _ _ _ _ _ F i (HPi i Ha) Ha)). done.
Qed.

Definition safe_result {A} (r : res A) : Prop := match r with Ok _ | Err _ => True | _ => False end.

(** Giving the buffer up. *)
Lemma safe_free_throw {A} h X m b (r : A + WEAVE_ERROR) : inv h X m -> loose m b ->
  wp (do* FreeBuf b in throw r) m (safe_with h X all all (fun b' => b' <> b) m).
Proof.
  intros I Hb. apply wp_bind. eapply wp_mono; [by apply (done_FreeBuf h X m b)|]. intros x m' (-> & I' & F & _). split; [by destruct r|by destruct r].
Qed.

Lemma safe_connection_send h X m con i b : inv h X m -> loose m b -> wp (connection_send con i b) m (safe_with h X all all (fun b' => b' <> b) m).
Proof.
  intros I Hb. unfold connection_send. apply wp_get_buf; [apply Hb|]. intros p _.
  eapply quietly_seq; [apply quietly_attempt, fails_service|]. intros r m1 Q1.
  eapply wp_mono; [apply (safe_free_throw h X m1 b r); [by eapply quiet_inv|by apply (quiet_loose none m m1)]|].
  intros x m' (Hx & I' & F). split; [done|]. split; [done|]. eapply frame_trans; [by apply quiet_frame|done].
Qed.

Lemma safe_SendMessage_encoded h X m addr port intf b flags : inv h X m -> loose m b ->
  wp (SendMessage_encoded addr port intf b flags) m (safe_with h X all all (fun b' => b' <> b) m).
Proof.
  intros I Hb. unfold SendMessage_encoded. apply wp_get_buf; [apply Hb|]. intros p _.
  eapply quietly_seq; [apply quietly_attempt, fails_service|]. intros r m1 Q1.
  pose proof (quiet_inv _ _ _ _ _ Q1 I) as I1. assert (loose m1 b) as Hb1 by (by apply (quiet_loose none m m1)).
  destruct (Z.land flags kWeaveMessageFlag_RetainBuffer =? 0); cbn [whenM].
  - eapply wp_mono; [by apply (safe_free_throw h X m1 b r)|].
    intros x m' (Hx & I' & F). split; [done|]. split; [done|]. eapply frame_trans; [by apply quiet_frame|done].
  - apply wp_bind, wp_ret. destruct r; (split; [done|]; split; [done|by apply quiet_frame]).
Qed.

Lemma safe_SendMessage_layer h X m addr port intf i b : inv h X m -> loose m b ->
  wp (SendMessage_layer addr port intf i b) m (safe_with h X all all (fun b' => b' <> b) m).
Proof.
  intros I Hb. unfold SendMessage_layer. eapply (quietly_seq (D := eq b)).
  { apply quietly_attempt. apply fails_bind; [apply fails_any, fails_SelectDest|]. intros [node dest] m1 Q1.
    apply fails_bind; [apply fails_EncodeMessage_to; apply (q_bufs _ _ _ Q1), Hb|]. intros i' m2 _. apply quietly_fails, quietly_ret. }
  intros r m1 Q1. pose proof (quiet_inv _ _ _ _ _ Q1 I) as I1. assert (loose m1 b) as Hb1 by (by apply (quiet_loose (eq b) m m1)).
  assert (frame all all (fun b' => b' <> b) m m1) as F1 by (eapply quiet_frame_but; [exact Q1|congruence]).
  destruct r as [[dest i']|e].
  - destruct (has_flag kWeaveMessageFlag_DelaySend i'); [by split|]. apply wp_bind.
    eapply wp_mono; [by apply (safe_SendMessage_encoded h X m1 dest port intf b)|]. intros x m' (Hx & I' & F).
    destruct x; try done; (split; [done|]; split; [done|]; by eapply frame_trans).
  - destruct (has_flag kWeaveMessageFlag_RetainBuffer i); cbn [negb whenM].
    + by split.
    + apply wp_bind. eapply wp_mono; [by apply (done_FreeBuf h X m1 b)|]. intros x m' (-> & I' & F & _).
      split; [done|]. split; [done|]. by eapply frame_trans.
Qed.

Lemma sending_given h X Pi c b m0 m m' a f i : sending h X Pi c b m0 (m, a) -> sf_has kSendFlag_RetransmissionTrickle f = false ->
  inv h X m' -> frame Pi all (fun b' => b' <> b) m m' -> sending h X Pi c b m0 (m', mkArgs f i None).
Proof.
  intros (I & F & Hu & Ht & Hb) Hf I' F'. split; [done|]. split; [by eapply frame_trans|]. split; [by eapply frame_used|]. by split.
Qed.

Lemma send_hand_over_spec release h X Pi c b m0 m a ctxt : spares release -> 1 <= h c < kMaxHolds -> preparing h X Pi c b m0 (m, a) ->
  wp (send_hand_over release c b ctxt) (m, a) (or_fails (sending h X Pi c b m0) (sending h X Pi c b m0)).
Proof.
  intros HR Hh HP. unfold send_hand_over. apply wp_lift_ec, wp_args. cbn zeta.
  pose proof HP as (HS & Hb & HA). pose proof HS as (I & F & Hu & Ht & HB). cbn in I, F, Hu, Ht, HB, Hb. rewrite Hb in HB. destruct HB as [_ Hl].
  destruct (ec_Con (ec_peer (m_pool m c))) as [con|].
  - apply wp_bind, wp_lift, wp_attempt. eapply wp_mono; [by apply (safe_connection_send h X m con (sa_info a) b)|].
    intros r m' (Hr & I' & F'). pose proof (sending_given h X Pi c b m0 m m' a (sa_flags a) (sa_info a) HS Ht I' (frame_weaken _ _ _ Pi all _ _ _ F' (fun _ _ => Logic.I) (fun _ x => x) (fun _ x => x))) as HS'.
    destruct r; try done; apply HS'.
  - eapply (or_fails_bind _ _ _ (sending h X Pi c b m0)).
    + destruct (sf_has kSendFlag_RequestAck (sa_flags a)) eqn:ER.
      * destruct (HA ER) as [-> HPi]. eapply preparing_lift; [exact HP|apply fails_any, fails_SelectDest|]. intros [node addr] m1 HP1.
        eapply preparing_lift; [exact HP1|by apply fails_any, quietly_fails, quiet_ec|]. intros _ m2 HP2.
        eapply preparing_lift; [exact HP2|apply fails_EncodeMessage_to|]. { destruct HP2 as ((_ & _ & _ & _ & HB2) & Hb2 & _). cbn in HB2, Hb2. rewrite Hb2 in HB2. apply HB2. }
        intros i m3 HP3. apply wp_modify. pose proof HP3 as ((I3 & F3 & Hu3 & Ht3 & HB3) & Hb3 & _). cbn in I3, F3, Hu3, Ht3, HB3, Hb3. rewrite Hb3 in HB3. destruct HB3 as [_ Hl3].
        apply wp_bind, wp_lift. eapply wp_mono; [apply (safe_AddToRetrans h m3 c b (mi_MessageId i) ctxt I3 Hu3 Hl3); lia|].
        intros [k|e| |] m4; try done; [|intros [-> ->]; apply HP3]. intros (I4 & F4 & Hk & Ek). apply wp_modify.
        apply wp_lift. eapply wp_mono.
        { apply (safe_SendFromRetrans release h m4 k c); [right; split; [done|]; pose proof (refs_range (Some k) m4 c); lia|done|done|lia]. }
        intros r m5 (I5 & F5 & Hr). assert (frame Pi all (fun b' => b' <> b) m3 m5) as F35.
        { eapply (frame_weaken (fun j => j <> k)); [eapply frame_trans; [exact F4|eapply frame_weaken; [exact F5|done| |done]]| |done|done].
          - intros c' _. pose proof (refs_range (Some k) m4 c). right. lia.
          - intros i' Hi' Ek'. rewrite <- Ek' in Hk. apply Hk. eapply active_le; [exact (f_entry _ _ _ _ _ F3 i' Hi' (HPi i' Hi'))|by apply HPi]. }
        pose proof (sending_given h None Pi c b m0 m3 m5 (mkArgs (sa_flags a) i (Some b)) (sa_flags a) i ltac:(split; [done|]; split; [done|]; split; [done|]; split; done) Ht3 I5 F35) as HS'.
        destruct r; try done; exact HS'.
      * apply wp_bind, wp_lift, wp_attempt.
        eapply wp_mono; [by apply (safe_SendMessage_layer h X m (ec_PeerAddr (ec_peer (m_pool m c))) (ec_PeerPort (ec_peer (m_pool m c))) (ec_PeerIntf (ec_peer (m_pool m c))) (sa_info a) b)|].
        intros r m' (Hr & I' & F').
        pose proof (fun i => sending_given h X Pi c b m0 m m' a (sa_flags a) i HS Ht I' (frame_weaken _ _ _ Pi all _ _ _ F' (fun _ _ => Logic.I) (fun _ x => x) (fun _ x => x))) as HS'. destruct r; try done; apply HS'.
    + intros _ [m1 a1] HS1. apply wp_args. pose proof HS1 as (_ & _ & _ & Ht1 & _). cbn in Ht1. by rewrite Ht1.
Qed.

Lemma send_body_spec release h X Pi c profileId msgType b m0 m a ctxt : spares release -> 1 <= h c < kMaxHolds ->
  sending h X Pi c b m0 (m, a) -> sa_buf a = Some b ->
  (X = None /\ (forall i, Pi i -> active m0 i) \/ sf_has kSendFlag_NoAutoRequestAck (sa_flags a) = true /\ sf_has kSendFlag_RequestAck (sa_flags a) = false) ->
  wp (send_body release c profileId msgType b ctxt) (m, a) (or_fails (sending h X Pi c b m0) (sending h X Pi c b m0)).
Proof.
  intros HR Hh HS Hb HX. unfold send_body.
  eapply or_fails_bind; [by apply send_request_ack_spec|]. intros _ [m1 a1] HP1.
  eapply or_fails_bind; [by apply send_version_spec|]. intros _ [m2 a2] HP2.
  eapply or_fails_bind; [by apply send_trickle_spec|]. intros _ [m3 a3] HP3. apply wp_args.
  eapply preparing_lift; [exact HP3| |].
  { apply fails_EncodeExchHeader. destruct HP3 as ((_ & _ & _ & _ & HB) & E & _). cbn in HB, E. rewrite E in HB. apply HB. }
  intros _ m4 HP4. eapply or_fails_bind; [by apply send_expect_spec|]. intros _ [m5 a5] HP5. apply wp_args, wp_modify.
  by apply send_hand_over_spec.
Qed.

Lemma send_exit_spec release h X Pi c b m0 m err a : spares release -> sending (inc c h) X Pi c b m0 (m, a) ->
  (forall i, active m0 i -> Pi i) -> 0 <= h c -> 0 < refs X m0 c + h c ->
  wp (send_exit release c err a) m (fun r m' => r = fst (throw err m') /\ safe_with h X Pi all (fun b' => b' <> b) m0 r m').
Proof.
  intros HR (I & F & Hu & _ & Hb) HPi Hh Hr. cbn in I, F, Hu, Hb. unfold send_exit. apply wp_gets.
  eapply quietly_seq.
  { apply quietly_when. apply quietly_bind; [by apply quiet_ec|]. intros _ m1. apply quiet_ec. intros. apply core_SetResponseExpected. }
  intros _ m1 Q1. pose proof (quiet_inv _ _ _ _ _ Q1 I) as I1.
  assert (frame Pi all (fun b' => b' <> b) m0 m1) as F1 by (eapply frame_trans; [done|by apply quiet_frame]).
  assert (ec_used (m_pool m1 c) = true) as Hu1 by (by rewrite (quiet_used m m1)).
  eapply (wp_seq _ _ m1 _ (fun _ m2 => inv (inc c h) X m2 /\ frame Pi all (fun b' => b' <> b) m1 m2)).
  { destruct (sa_buf a) as [b'|]; [|by exists tt; split; [|split; [|apply frame_refl]]]. destruct Hb as [-> Hb].
    destruct (sf_has kSendFlag_RetainBuffer (sa_flags a)); [by exists tt; split; [|split; [|apply frame_refl]]|].
    apply wp_bind. eapply wp_mono; [apply (done_FreeBuf _ _ m1 b I1); by apply (quiet_loose none m m1)|]. intros r m2 (-> & I2 & F2 & _).
    eapply wp_mono; [apply quiet_ec_at|].
    - cbn zeta. by rewrite (i_trickle _ _ _ I2).
    - intros r m3 ([[] ->] & Q3). exists tt. split; [done|]. split; [by eapply quiet_inv|]. eapply frame_trans; [by eapply frame_weaken|by apply quiet_frame]. }
  intros _ m2 [I2 F2]. assert (frame Pi all (fun b' => b' <> b) m0 m2) as F02 by (by eapply frame_trans).
  pose proof (refs_mono X _ _ _ _ _ c HPi F02). apply wp_bind.
  eapply wp_mono; [apply (HR h X m2 c I2); [exact (frame_used _ _ _ m1 m2 c F2 Logic.I Hu1)|done|lia]|].
  intros r m3 ([[] ->] & I3 & F3). split; [by destruct err|]. split; [by destruct err|]. replace (snd (throw err m3)) with m3 by (by destruct err).
  split; [done|]. eapply frame_trans; [exact F02|by eapply frame_weaken].
Qed.

(** SendMessage with a buffer that nobody else holds, and without Trickle: it returns
    what its body returned. *)
Lemma SendMessage_info_result release h X (Pi : nat -> Prop) m c profileId msgType b sendFlags i ctxt : spares release -> inv h X m ->
  ec_used (m_pool m c) = true -> loose m b -> h c + 1 < kMaxHolds -> sf_has kSendFlag_RetransmissionTrickle sendFlags = false ->
  (X = None /\ (forall i, Pi i -> active m i) \/ sf_has kSendFlag_NoAutoRequestAck sendFlags = true /\ sf_has kSendFlag_RequestAck sendFlags = false) ->
  (forall i, active m i -> Pi i) ->
  wp (SendMessage_info_ release c profileId msgType b sendFlags i ctxt) m (fun r m' =>
    r = fst (send_body release c profileId msgType b ctxt (snd (AddRef c m), mkArgs sendFlags i (Some b))) /\
    safe_with h X Pi all (fun b' => b' <> b) m r m').
Proof.
  intros HR I Hu Hb Hh Ht HX HPi. unfold SendMessage_info_. apply wp_gets. destruct (i_ref _ _ _ I c Hu) as [Er Hr]. pose proof (i_holds _ _ _ I c).
  rewrite Hu. cbn [negb orb]. rewrite (proj2 (Z.eqb_neq _ 0)) by lia.
  eapply wp_seq; [eapply wp_mono; [apply wp_and; [apply (done_AddRef h X m c I Hu); lia|apply (wp_itself (AddRef c) m)]|]|].
  { intros r m1 (([x ->] & I1 & F1) & E1). exists x. split; [done|exact (conj (conj I1 F1) E1)]. }
  intros _ m1 [[I1 F1] E1]. rewrite E1. apply wp_bind.
  assert (sending (inc c h) X Pi c b m (m1, mkArgs sendFlags i (Some b))) as HS.
  { split; [done|]. split; [by eapply frame_weaken|]. split; [exact (frame_used _ _ _ m m1 c F1 Logic.I Hu)|]. split; [done|]. split; [done|]. by apply (f_loose _ _ _ _ _ F1 b Logic.I). }
  pose proof (send_body_spec release (inc c h) X Pi c profileId msgType b m m1 (mkArgs sendFlags i (Some b)) ctxt HR ltac:(rewrite inc_same; lia) HS eq_refl HX) as HB.
  unfold wp, or_fails in HB. unfold wp, attempt. destruct (send_body release c profileId msgType b ctxt (m1, mkArgs sendFlags i (Some b))) as [r [m2 a2]] eqn:E.
  cbn [fst snd] in HB |- *. destruct r as [[]|e| |]; try done; cbn.
  - apply (send_exit_spec release h X Pi c b m m2 (inl tt) a2); [done|exact HB|done|lia|lia].
  - apply (send_exit_spec release h X Pi c b m m2 (inr e) a2); [done|exact HB|done|lia|lia].
Qed.

Lemma safe_SendMessage_info release h X (Pi : nat -> Prop) m c profileId msgType b sendFlags i ctxt : spares release -> inv h X m ->
  ec_used (m_pool m c) = true -> loose m b -> h c + 1 < kMaxHolds -> sf_has kSendFlag_RetransmissionTrickle sendFlags = false ->
  (X = None /\ (forall i, Pi i -> active m i) \/ sf_has kSendFlag_NoAutoRequestAck sendFlags = true /\ sf_has kSendFlag_RequestAck sendFlags = false) ->
  (forall i, active m i -> Pi i) ->
  wp (SendMessage_info_ release c profileId msgType b sendFlags i ctxt) m (safe_with h X Pi all (fun b' => b' <> b) m).
Proof. intros. eapply wp_mono; [by apply (SendMessage_info_result release h X Pi m c)|]. by intros r m' [_ HX]. Qed.

Lemma safe_SendMessage release h X (Pi : nat -> Prop) m c profileId msgType b sendFlags ctxt : spares release -> inv h X m ->
  ec_used (m_pool m c) = true -> loose m b -> h c + 1 < kMaxHolds -> sf_has kSendFlag_RetransmissionTrickle sendFlags = false ->
  (X = None /\ (forall i, Pi i -> active m i) \/ sf_has kSendFlag_NoAutoRequestAck sendFlags = true /\ sf_has kSendFlag_RequestAck sendFlags = false) ->
  (forall i, active m i -> Pi i) ->
  wp (SendMessage_ release c profileId msgType b sendFlags ctxt) m (safe_with h X Pi all (fun b' => b' <> b) m).
Proof. intros. unfold SendMessage_. apply wp_gets. by apply safe_SendMessage_info. Qed.

(** An acknowledgement of its own. *)
Lemma safe_Null release h X m c : spares release -> inv h X m -> ec_used (m_pool m c) = true -> h c + 1 < kMaxHolds ->
  wp (SendCommonNullMessage_ release c) m (safe_with h X all all all m).
Proof.
  intros HR I Hu Hh. unfold SendCommonNullMessage_. apply wp_bind, wp_attempt, wp_bind.
  eapply wp_mono; [by apply (done_NewBuf h X 0 m)|]. intros [b|e| |] m1; try done.
  - intros (Hd & Hl & I1 & F1 & Ep). eapply wp_mono.
    { apply (safe_SendMessage release h X all m1 c); [done|done|by rewrite Ep|done|done|done|by right|done]. }
    intros r m2 (Hr & I2 & F2). assert (frame all all all m m2) as F.
    { assert (frame all all (fun b' => b' <> b) m m2) as [] by (eapply frame_trans; [by eapply frame_weaken|done]). split; auto.
      intros b' _ Hb'. apply f_loose; [|done]. intros ->. by destruct Hd; apply Hb'. }
    destruct r as [|e| |]; try done. destruct (IsSendErrorNonCritical e); by split.
  - intros [-> ->]. destruct (IsSendErrorNonCritical _); (split; [done|split; [done|apply frame_refl]]).
Qed.

Lemma frame_unprotected (Pc : nat -> Prop) m c f : ~ Pc c -> wp (on_ec c f) m (fun r m' => r = Ok tt /\ frame all Pc all m m').
Proof. intros Hc. split; [done|]. by apply frame_ctx. Qed.

(** DoClose leaves the context in use, with no callback; [P] and [Q] are what
    clearing its entries leaves alone. *)
Lemma done_DoClose_clear release h X (P Q : nat -> Prop) m c clear : spares release -> inv h X m -> ec_used (m_pool m c) = true ->
  h c + 1 < kMaxHolds -> Q c ->
  (clear = true -> forall m, inv h X m -> wp (ClearRetransmitTable_ release c) m (done_with h X P Q all m)) ->
  wp (DoClose_ release c clear) m (fun r m' => r = Ok tt /\ inv h X m' /\ frame P (fun c' => c' <> c /\ Q c') all m m' /\ ec_used (m_pool m' c) = true).
Proof.
  intros HR I Hu Hh HQ Hclear. unfold DoClose_. set (Pc := fun c' => c' <> c).
  assert (forall m cb, inv h X m -> ec_used (m_pool m c) = true ->
    let m' := set_pool (<[c := set_cb cb (m_pool m c)]> (m_pool m)) m in inv h X m' /\ frame all Pc all m m' /\ ec_used (m_pool m' c) = true) as Hcb.
  { clear m I Hu. intros m cb I Hu. cbn zeta. split; [|split].
    - eapply inv_ctx; [exact I|..]; cbn; [|congruence| |done|apply (i_holds _ _ _ I)].
      + intros _. split; [by apply (i_pool _ _ _ I)|]. by apply (i_ref _ _ _ I).
      + apply (i_trickle _ _ _ I).
    - by apply frame_ctx.
    - cbn. by rewrite fn_lookup_insert. }
  apply wp_modify. destruct (Hcb m (mkCallbacks false false false false false (OnThrottleRcvd (ec_cb (m_pool m c))) (OnDDRcvd (ec_cb (m_pool m c)))
    (OnSendError (ec_cb (m_pool m c))) (OnAckRcvd (ec_cb (m_pool m c)))) I Hu) as (I1 & F1 & Hu1). set (m1 := set_pool _ m) in *.
  eapply quietly_seq; [apply quiet_expire|]. intros _ m2 Q2. assert (inv h X m2) as I2 by (by eapply quiet_inv).
  assert (ec_used (m_pool m2 c) = true) as Hu2 by (by rewrite (quiet_used m1 m2)).
  apply wp_modify. destruct (Hcb m2 no_callbacks I2 Hu2) as (I3 & F3 & Hu3). set (m3 := set_pool _ m2) in *.
  assert (frame all Pc all m m3) as F03.
  { eapply frame_trans; [exact F1|]. eapply frame_trans; [by apply (quiet_frame all Pc all m1 m2)|exact F3]. }
  apply wp_bind, wp_ignore. unfold WRMPFlushAcks_. apply wp_gets.
  assert (wp (whenM (IsAckPending (m_pool m3 c)) (SendCommonNullMessage_ release c)) m3 (safe_with h X all all all m3)) as HF.
  { apply wp_when; [intros _; by apply safe_Null|intros _; split; [done|split; [done|apply frame_refl]]]. }
  eapply wp_mono; [exact HF|]. intros r m4 (Hr & I4 & F4).
  assert (ec_used (m_pool m4 c) = true) as Hu4 by (by eapply frame_used).
  assert (frame all Pc all m m4) as F04 by (eapply frame_trans; [exact F03|by eapply frame_weaken]).
  cut (wp (do* whenM clear (ClearRetransmitTable_ release c) in do* WRMPStartTimer in do* CancelRetrans c in CancelResponseTimer c) m4
    (fun r m' => r = Ok tt /\ inv h X m' /\ frame P (fun c' => c' <> c /\ Q c') all m m' /\ ec_used (m_pool m' c) = true)); [by destruct r|].
  apply wp_bind. eapply (wp_mono _ _ (done_with h X P Q all m4)).
  { apply wp_when; [intros E; by apply Hclear|intros _; split; [by eexists|split; [done|apply frame_refl]]]. }
  intros r5 m5 ([a ->] & I5 & F5). assert (ec_used (m_pool m5 c) = true) as Hu5 by (by eapply frame_used).
  eapply quietly_seq; [apply quiet_StartTimer|]. intros _ m6 Q6. assert (inv h X m6) as I6 by (by eapply quiet_inv).
  eapply quietly_seq.
  { unfold CancelRetrans, TeardownTrickleRetransmit. apply wp_gets. cbn zeta. rewrite (i_trickle _ _ _ I6 c).
    apply wp_bind, wp_ret. apply quiet_ec_at. unfold core. cbn. by rewrite (i_trickle _ _ _ I6 c). }
  intros _ m7 Q7. eapply wp_mono; [by apply quiet_ec|]. intros r8 m8 ([[] ->] & Q8).
  assert (quiet m5 m8) as Q58 by (eapply quiet_trans; [exact Q6|]; by eapply quiet_trans).
  split; [done|]. split; [by eapply quiet_inv|]. split; [|by rewrite (quiet_used m5 m8)].
  eapply frame_trans; [eapply frame_weaken; [exact F04|done|by intros c' [? ?]|done]|].
  eapply frame_trans; [eapply frame_weaken; [exact F5|done|by intros c' [? ?]|done]|by apply quiet_frame].
Qed.

Lemma done_DoClose release h X m c : spares release -> inv h X m -> ec_used (m_pool m c) = true -> h c + 1 < kMaxHolds ->
  wp (DoClose_ release c false) m (fun r m' => r = Ok tt /\ inv h X m' /\ frame all (fun c' => c' <> c) all m m' /\ ec_used (m_pool m' c) = true).
Proof.
  intros HR I Hu Hh. eapply wp_mono; [by apply (done_DoClose_clear release h X all all m c false)|].
  intros r m' (Hr & I' & F & Hu'). split; [done|]. split; [done|]. split; [by eapply frame_weaken|done].
Qed.

(** Release: with the inner releases sparing, the last reference frees the context. *)
Lemma Release_body_releases release : spares release -> releases (Release_body release).
Proof.
  intros HR h X m c I Hu Hh. destruct (decide (0 < refs X m c + h c)) as [Hr|Hr].
  { eapply wp_mono; [by apply (Release_body_spares release h X m c I Hu Hh Hr)|]. intros r s (Hx & Is & F). split; [done|]. split; [done|]. by eapply frame_weaken. }
  unfold Release_body. apply wp_gets. destruct (i_ref _ _ _ I c Hu) as [Er Hp]. rewrite inc_same in Er. pose proof (refs_range X m c).
  assert (refs X m c = 0 /\ h c = 0 /\ ec_mRefCount (m_pool m c) = 1) as (Hz & Hh0 & ->) by lia.
  rewrite Hu. cbn [negb orb Z.eqb Pos.eqb].
  set (Pc := fun c' => c' <> c \/ 0 < refs X m c + h c).
  apply wp_bind. eapply wp_mono; [apply (done_DoClose release (inc c h) X m c HR I Hu); rewrite inc_same; unfold kMaxHolds; lia|].
  intros r m1 (-> & I1 & F1 & Hu1).
  assert (forall i, re_exchContext (m_table m1 i) = Some c -> X = Some i) as Hno.
  { intros i E1. destruct (decide (X = Some i)) as [|HX]; [done|]. destruct (re_exchContext (m_table m i)) as [c'|] eqn:E.
    - assert (active m i) as Ha by (unfold active; congruence).
      destruct (f_entry _ _ _ _ _ F1 i Logic.I Ha) as [E2 _]. assert (c' = c) as -> by congruence.
      assert (1 <= refs X m c); [|lia]. apply (count_if_pos _ _ i).
      + pose proof (i_out _ _ _ I i Ha). apply in_seq. lia.
      + unfold holds. by rewrite E, bool_decide_eq_true_2, bool_decide_eq_false_2.
    - destruct (f_free _ _ _ _ _ F1 i Logic.I); unfold active; [by rewrite E; auto|congruence]. }
  apply wp_modify. set (e' := set_used false _).
  assert (inv h X (set_pool (<[c := e']> (m_pool m1)) m1)) as I2.
  { eapply inv_ctx; [exact I1|..]; cbn; [done|done|apply (i_trickle _ _ _ I1)| |].
    - intros c' Hne. unfold inc. by rewrite fn_lookup_insert_ne.
    - rewrite Hh0. unfold kMaxHolds. lia. }
  assert (frame all Pc all m (set_pool (<[c := e']> (m_pool m1)) m1)) as F2.
  { assert (~ Pc c) as Hc by (unfold Pc; intros [?|?]; [done|lia]).
    eapply frame_trans; [eapply frame_weaken; [exact F1|done| |done]|by apply frame_ctx]. intros c' Hc' ->. done. }
  split; [by eexists|]. destruct (quiet_modify (fun m => set_contextsInUse (u64 (m_contextsInUse m - 1)) m) (set_pool (<[c := e']> (m_pool m1)) m1)) as [_ Q];
    try done; [exists []; by rewrite app_nil_r|].
  split; [by eapply quiet_inv|]. eapply frame_trans; [exact F2|by apply quiet_frame].
Qed.

Lemma Release_releases : releases Release.
Proof. apply Release_body_releases, Release_body_spares. Qed.
Lemma Release_spares : spares Release.
Proof. apply Release_body_spares. Qed.
End Send.
