(* ===== verification/ExchangeWrmp.v ===== *)
(** * Exchanges: the WRMP timer and the messages received

    What the timer, the acknowledgements and the other control messages do, on
    top of the operations of ExchangeSend. *)
From stdpp Require Import functions.
From S2P Require Import Prelude Encoding KeyIds PacketBuffer PacketBufferChain PeerTable FabricState MessageLayer Address ExchangeHeader ExchangeTypes ExchangeMgr ExchangeInv ExchangeQuiet ExchangeRefs ExchangeSafe ExchangeSend.
Local Open Scope Z_scope.
Open Scope weave_scope.

Section Wrmp.
Context {T : Type} `{ExchangeEnv T} `{!ExchangeEnvLaws T}.
Implicit Types m : Mgr T.

(** References the application may hold, with room for those of the operations
    under way. *)
Definition kMaxAppHolds : Z := 200.
Definition modest (h : nat -> Z) : Prop := forall c, h c + 1 < kMaxHolds.

Lemma Release_or h m c i : releases Release \/ (spares (Release (T := T)) /\ 0 < refs (Some i) m c + h c).
Proof. left. apply Release_releases. Qed.

Lemma done_Null h m c : inv h None m -> modest h -> ec_used (m_pool m c) = true ->
  wp (SendCommonNullMessage c) m (safe_with h None all all all m).
Proof. intros I Hh Hu. apply safe_Null; auto using Release_spares. Qed.

(** The acknowledgements that are due. *)
Lemma done_execute_ack h m c : inv h None m -> modest h -> wp (execute_ack c) m (done_with h None all all all m).
Proof.
  intros I Hh. unfold execute_ack. apply wp_gets. apply wp_when; [intros E|intros _; split; [by eexists|split; [done|apply frame_refl]]].
  apply andb_prop in E as [E _]. apply andb_prop in E as [Hu _].
  apply wp_bind, wp_ignore. eapply wp_mono; [by apply done_Null|]. intros r m1 (Hr & I1 & F1).
  cut (wp (on_ec c (SetAckPending false)) m1 (done_with h None all all all m)); [by destruct r|].
  eapply wp_mono; [apply quiet_ec; intros; apply core_SetAckPending|]. intros r1 m2 (Hr1 & Q). split; [done|].
  split; [by eapply quiet_inv|]. eapply frame_trans; [exact F1|by apply quiet_frame].
Qed.

Lemma done_for h X (Pi Pc Pb : nat -> Prop) (body : nat -> M (Mgr T) unit) n i m :
  (forall j m, (i <= j < i + n)%nat -> inv h X m -> wp (body j) m (done_with h X Pi Pc Pb m)) -> inv h X m ->
  wp (for_range n i body) m (done_with h X Pi Pc Pb m).
Proof.
  intros Hb I. eapply wp_mono; [apply (wp_for body (fun m' => inv h X m' /\ frame Pi Pc Pb m m') n i m)|].
  - intros j s Hj [Is Fs]. eapply wp_mono; [by apply Hb|]. intros r s' ([[] ->] & I' & F'). split; [done|]. split; [done|by eapply frame_trans].
  - split; [done|apply frame_refl].
  - intros r s (-> & Is & Fs). split; [by eexists|done].
Qed.

(** One entry of the second loop of WRMPExecuteActions. *)
Definition rearmed (e : ExchangeContext) (interval : Z) (r r' : RetransTableEntry) : Prop :=
  re_exchContext r' = re_exchContext r /\ re_msgId r' = re_msgId r /\ re_msgBuf r' = re_msgBuf r /\ re_msgCtxt r' = re_msgCtxt r /\
  re_sendCount r' = u8 (re_sendCount r + 1) /\ re_nextRetransTime r' = u16 (GetCurrentRetransmitTimeout e / interval).

(** The end of an entry that is given up: its application is told, if it still
    listens. *)
Definition reported (c : nat) (ctxt : Z) m m' : Prop :=
  exists l e, m_log m' = m_log m ++ l /\ In (EvSendError c e ctxt) l /\ (e = WEAVE_ERROR_MESSAGE_NOT_ACKNOWLEDGED \/ IsSendErrorNonCritical e = false).

Lemma view_timeout (e e' : ExchangeContext) : view e' = view e -> GetCurrentRetransmitTimeout e' = GetCurrentRetransmitTimeout e.
Proof. unfold view, GetCurrentRetransmitTimeout. intros [= _ -> _ ->]. done. Qed.

Lemma report h m m1 c e ctxt (Pi Pc : nat -> Prop) : inv h None m1 -> frame Pi Pc all m m1 ->
  wp (let* e' := get_ec c in whenM (OnSendError (ec_cb e')) (emit (EvSendError c e ctxt))) m1 (fun r m' => r = Ok tt /\ inv h None m' /\
    quiet m1 m' /\ (OnSendError (ec_cb (m_pool m1 c)) = true -> exists l, m_log m' = m_log m ++ l ++ [EvSendError c e ctxt])).
Proof.
  intros I F. apply wp_gets. destruct (OnSendError (ec_cb (m_pool m1 c))); cbn [whenM].
  - destruct (quiet_emit (EvSendError c e ctxt) m1) as [_ Q]. split; [done|]. split; [by eapply quiet_inv|]. split; [done|].
    intros _. destruct (f_log _ _ _ _ _ F) as [l El]. exists l. cbn. by rewrite El, app_assoc.
  - split; [done|]. split; [done|]. split; [apply quiet_refl|done].
Qed.

Lemma execute_retrans_spec h m i c : inv h None m -> modest h -> re_exchContext (m_table m i) = Some c ->
  wp (execute_retrans i) m (fun r m' => r = Ok tt /\ inv h None m' /\
    frame (fun j => j <> i) (fun c' => c' <> c \/ 0 < refs (Some i) m c + h c) all m m' /\
    if negb (re_nextRetransTime (m_table m i) =? 0) then m' = m
    else
      (~ active m' i /\ (0 < refs (Some i) m c + h c -> OnSendError (ec_cb (m_pool m c)) = true -> reported c (re_msgCtxt (m_table m i)) m m')) \/
      (re_sendCount (m_table m i) <= mMaxRetrans (ec_WRMPConfig (ec_peer (m_pool m c))) /\
       rearmed (m_pool m c) (m_interval m) (m_table m i) (m_table m' i) /\ view (m_pool m' c) = view (m_pool m c))).
Proof.
  intros I Hh Ei. assert (h c < kMaxHolds) as Hk by (specialize (Hh c); unfold kMaxAppHolds, kMaxHolds in *; lia).
  assert (ec_used (m_pool m c) = true) as Hu by (by eapply (i_entry _ _ _ I)).
  unfold execute_retrans. apply wp_gets. rewrite Ei. destruct (negb (re_nextRetransTime (m_table m i) =? 0)) eqn:EN.
  { split; [done|]. split; [done|]. split; [apply frame_refl|done]. }
  apply wp_gets. set (Pc := fun c' => c' <> c \/ 0 < refs (Some i) m c + h c).
  (* telling the application *)
  assert (forall x m1, inv h None m1 -> frame (fun j => j <> i) Pc all m m1 -> ~ active m1 i ->
    (x = WEAVE_ERROR_MESSAGE_NOT_ACKNOWLEDGED \/ IsSendErrorNonCritical x = false) ->
    wp (let* e := get_ec c in whenM (OnSendError (ec_cb e)) (emit (EvSendError c x (re_msgCtxt (m_table m i))))) m1 (fun r m' => r = Ok tt /\ inv h None m' /\
      frame (fun j => j <> i) Pc all m m' /\ ((~ active m' i /\
        (0 < refs (Some i) m c + h c -> OnSendError (ec_cb (m_pool m c)) = true -> reported c (re_msgCtxt (m_table m i)) m m')) \/
      (re_sendCount (m_table m i) <= mMaxRetrans (ec_WRMPConfig (ec_peer (m_pool m c))) /\
       rearmed (m_pool m c) (m_interval m) (m_table m i) (m_table m' i) /\ view (m_pool m' c) = view (m_pool m c))))) as Htell.
  { intros x m1 I1 F1 Ha1 Hx. eapply wp_mono; [apply (report h m m1 c x (re_msgCtxt (m_table m i)) _ _ I1 F1)|].
    intros r m2 (-> & I2 & Q2 & HL). split; [done|]. split; [done|].
    split; [eapply frame_trans; [exact F1|by apply quiet_frame]|]. left. split; [by rewrite (quiet_active none m1 m2)|]. intros Hg Hcb.
    destruct HL as [l El]; [|exists (l ++ [EvSendError c x (re_msgCtxt (m_table m i))]), x; split; [exact El|split; [apply in_or_app; right; by left|done]]]. pose proof (f_ctx _ _ _ _ _ F1 c (or_intror Hg) Hu) as Hv.
    unfold view in Hv. injection Hv as _ _ -> _. done. }
  destruct (Z.ltb_spec (mMaxRetrans (ec_WRMPConfig (ec_peer (m_pool m c)))) (re_sendCount (m_table m i))) as [Hlt|Hle].
  - apply wp_bind, wp_bind. eapply wp_mono; [apply (done_Clear Release h m i c); auto using Release_or|].
    intros r m1 (-> & I1 & Ha1 & F1). apply wp_ret. apply Htell; auto.
  - apply wp_bind, wp_attempt. eapply wp_mono; [apply (safe_SendFromRetrans Release h m i c); auto using Release_or|].
    intros [[]|x| |] m1 (I1 & F1 & Hr); try done; [|apply Htell; auto; tauto].
    destruct Hr as [(E1 & E2 & E3 & E4 & E5 & _) Hv]. apply wp_gets.
    set (r' := set_nextRetransTime (u16 (GetCurrentRetransmitTimeout (m_pool m1 c) / m_interval m1)) (m_table m1 i)).
    destruct (inv_same_entry h None m1 i r' I1 eq_refl eq_refl) as [I2 F2]. split; [done|]. split; [exact I2|].
    split; [eapply frame_trans; [exact F1|by eapply frame_weaken]|]. right. split; [lia|]. split; [|exact Hv].
    cbn. rewrite fn_lookup_insert. unfold id. repeat split; cbn; try done.
    rewrite (view_timeout _ _ Hv). do 2 f_equal. pose proof (i_time _ _ _ I) as (-> & _). by pose proof (i_time _ _ _ I1) as (-> & _).
Qed.
End Wrmp.
