(* ===== verification/ExchangeRecv.v ===== *)
(** * Exchanges: contexts, closing and the messages received

    What allocation, closing and the handling of received messages do to the
    invariant, on top of the timer's specifications of ExchangeWrmp. *)
From stdpp Require Import functions.
From S2P Require Import Prelude Encoding KeyIds PacketBuffer PacketBufferChain PeerTable FabricState MessageLayer Address ExchangeHeader ExchangeTypes ExchangeMgr ExchangeInv ExchangeQuiet ExchangeRefs ExchangeSafe ExchangeSend ExchangeWrmp.
Local Open Scope Z_scope.
Open Scope weave_scope.

Section Recv.
Context {T : Type} `{ExchangeEnv T} `{!ExchangeEnvLaws T}.
Implicit Types m : Mgr T.

(** Composing operations that may report an error. *)
Lemma done_safe {A} h X Pi Pc Pb m0 (f : M (Mgr T) A) m : wp f m (done_with h X Pi Pc Pb m0) -> wp f m (safe_with h X Pi Pc Pb m0).
Proof. intros Hf. eapply wp_mono; [exact Hf|]. intros r s ([a ->] & HI). by split. Qed.

Lemma safe_from {A} h X Pi Pc Pb m0 m (f : M (Mgr T) A) : frame Pi Pc Pb m0 m -> wp f m (safe_with h X Pi Pc Pb m) -> wp f m (safe_with h X Pi Pc Pb m0).
Proof. intros F Hf. eapply wp_mono; [exact Hf|]. intros r s (Hr & I & F'). split; [done|]. split; [done|by eapply frame_trans]. Qed.

Lemma safe_seq {A B} h X Pi Pc Pb m0 (f : M (Mgr T) A) (k : A -> M (Mgr T) B) m : wp f m (safe_with h X Pi Pc Pb m0) ->
  (forall a m', inv h X m' -> frame Pi Pc Pb m0 m' -> wp (k a) m' (safe_with h X Pi Pc Pb m0)) -> wp (bind f k) m (safe_with h X Pi Pc Pb m0).
Proof. intros Hf Hk. apply wp_bind. eapply wp_mono; [exact Hf|]. intros r s (Hr & I & F). destruct r; try done. by apply Hk. Qed.

Lemma safe_ignore {A} h X Pi Pc Pb m0 (f : M (Mgr T) A) m : wp f m (safe_with h X Pi Pc Pb m0) -> wp (ignore f) m (done_with h X Pi Pc Pb m0).
Proof. intros Hf. apply wp_ignore. eapply wp_mono; [exact Hf|]. intros r s (Hr & HI). destruct r; try done; (split; [by eexists|done]). Qed.

Lemma safe_quiet {A} h X Pi Pc Pb m0 (f : M (Mgr T) A) m : inv h X m -> frame Pi Pc Pb m0 m -> wp f m (quiet_or_fails m) -> wp f m (safe_with h X Pi Pc Pb m0).
Proof.
  intros I F Hf. eapply wp_mono; [exact Hf|]. intros r s (Hr & Q). split; [done|]. split; [by eapply quiet_inv|].
  eapply frame_trans; [exact F|by apply quiet_frame].
Qed.

Lemma done_quiet {A} h X Pi Pc Pb m0 (f : M (Mgr T) A) m : inv h X m -> frame Pi Pc Pb m0 m -> wp f m (quietly m) -> wp f m (done_with h X Pi Pc Pb m0).
Proof.
  intros I F Hf. eapply wp_mono; [exact Hf|]. intros r s (Hr & Q). split; [done|]. split; [by eapply quiet_inv|].
  eapply frame_trans; [exact F|by apply quiet_frame].
Qed.

(** Sequences that cannot fail, all from the same start. *)
Lemma done_then {A B} h X Pi Pc Pb m0 (f : M (Mgr T) A) (k : A -> M (Mgr T) B) m : wp f m (done_with h X Pi Pc Pb m0) ->
  (forall a m', inv h X m' -> frame Pi Pc Pb m0 m' -> wp (k a) m' (done_with h X Pi Pc Pb m0)) -> wp (bind f k) m (done_with h X Pi Pc Pb m0).
Proof. intros Hf Hk. apply wp_bind. eapply wp_mono; [exact Hf|]. intros r s ([a ->] & I & F). by apply Hk. Qed.

Lemma done_ret {A} h X Pi Pc Pb m0 m (a : A) : inv h X m -> frame Pi Pc Pb m0 m -> wp (ret a) m (done_with h X Pi Pc Pb m0).
Proof. intros I F. split; [by eexists|done]. Qed.

Lemma done_when h X Pi Pc Pb m0 m (b : bool) (f : M (Mgr T) unit) : inv h X m -> frame Pi Pc Pb m0 m ->
  (b = true -> wp f m (done_with h X Pi Pc Pb m0)) -> wp (whenM b f) m (done_with h X Pi Pc Pb m0).
Proof. intros I F Hf. apply wp_when; [done|intros _; by apply done_ret]. Qed.

Lemma done_from {A} h X Pi Pc Pb m0 m (f : M (Mgr T) A) : frame Pi Pc Pb m0 m -> wp f m (done_with h X Pi Pc Pb m) -> wp f m (done_with h X Pi Pc Pb m0).
Proof. intros F Hf. eapply wp_mono; [exact Hf|]. intros r s (Hr & I & F'). split; [done|]. split; [done|by eapply frame_trans]. Qed.

Lemma done_weaken {A} h X (Pi Pc Pb Pi' Pc' Pb' : nat -> Prop) m0 m (f : M (Mgr T) A) : wp f m (done_with h X Pi Pc Pb m0) ->
  (forall i, Pi' i -> Pi i) -> (forall c, Pc' c -> Pc c) -> (forall b, Pb' b -> Pb b) -> wp f m (done_with h X Pi' Pc' Pb' m0).
Proof. intros Hf Hi Hc Hb. eapply wp_mono; [exact Hf|]. intros r s (Hr & I & F). split; [done|]. split; [done|by eapply frame_weaken]. Qed.

Lemma safe_weaken {A} h X (Pi Pc Pb Pi' Pc' Pb' : nat -> Prop) m0 m (f : M (Mgr T) A) : wp f m (safe_with h X Pi Pc Pb m0) ->
  (forall i, Pi' i -> Pi i) -> (forall c, Pc' c -> Pc c) -> (forall b, Pb' b -> Pb b) -> wp f m (safe_with h X Pi' Pc' Pb' m0).
Proof. intros Hf Hi Hc Hb. eapply wp_mono; [exact Hf|]. intros r s (Hr & I & F). split; [done|]. split; [done|by eapply frame_weaken]. Qed.

(** Contexts that somebody else than the table holds. *)
Definition held (h : nat -> Z) : nat -> Prop := fun c => 0 < h c.

(** One entry cleared. *)
Lemma done_Clear_held h m i c : inv h None m -> modest h -> re_exchContext (m_table m i) = Some c ->
  wp (ClearRetransmitTable_entry i) m (done_with h None none (held h) all m).
Proof.
  intros I Hh Ei. assert (h c < kMaxHolds) as Hk by (specialize (Hh c); unfold kMaxAppHolds, kMaxHolds in *; lia).
  eapply wp_mono; [apply (done_Clear Release h m i c); auto using Release_or|]. intros r s (-> & I' & _ & F).
  split; [by eexists|]. split; [done|]. eapply frame_weaken; [exact F|done| |done].
  intros c' Hc. unfold held in Hc. destruct (decide (c' = c)) as [->|]; [right|by left]. pose proof (refs_range (Some i) m c). lia.
Qed.

Lemma done_ClearRetransmitTable h m c : inv h None m -> modest h -> wp (ClearRetransmitTable c) m (done_with h None none (held h) all m).
Proof.
  intros I Hh. apply done_for; [|done]. clear m I. intros j m _ I. apply wp_gets.
  apply done_when; [done|apply frame_refl|]. intros E. apply bool_decide_eq_true in E. by apply (done_Clear_held h m j c).
Qed.

Lemma done_emit h X Pi Pc Pb m0 m e : inv h X m -> frame Pi Pc Pb m0 m -> wp (emit e) m (done_with h X Pi Pc Pb m0).
Proof. intros I F. apply done_quiet; auto using quiet_emit. Qed.

Lemma done_Fail h m c e : inv h None m -> modest h -> wp (FailRetransmitTableEntries c e) m (done_with h None none (held h) all m).
Proof.
  intros I Hh. apply done_for; [|done]. clear m I. intros j m _ I. apply wp_gets.
  apply done_when; [done|apply frame_refl|]. intros E. apply bool_decide_eq_true in E.
  eapply done_then; [by apply (done_Clear_held h m j c)|]. intros _ m1 I1 F1. apply wp_gets.
  apply done_when; [done|done|]. intros _. by apply done_emit.
Qed.

Lemma done_process_delayed h m p n i : inv h None m -> wp (process_delayed p n i) m (done_with h None none all all m).
Proof.
  intros I. unfold process_delayed. apply wp_gets. destruct (re_exchContext (m_table m i)) as [c|]; [|by apply done_ret; [|apply frame_refl]].
  apply wp_gets. apply done_when; [done|apply frame_refl|]. intros _. apply wp_gets, wp_modify.
  match goal with |- context [<[i := ?r]> (m_table m)] => destruct (inv_same_entry h None m i r I eq_refl eq_refl) as [I1 F1] end.
  apply done_when; [exact I1|by eapply frame_weaken|]. intros _. apply done_emit; [exact I1|by eapply frame_weaken].
Qed.

Lemma done_ProcessDD h m p n : inv h None m -> wp (WRMPProcessDDMessage p n) m (done_with h None none all all m).
Proof.
  intros I. eapply done_then; [by apply done_quiet; [|apply frame_refl|apply quiet_expire]|]. intros _ m1 I1 F1.
  eapply done_then; [eapply done_from; [exact F1|]; apply done_for; [intros; by apply done_process_delayed|done]|].
  intros _ m2 I2 F2. apply done_quiet; [done|done|apply quiet_StartTimer].
Qed.

(** The pending messages of a peer's group. *)
Lemma group_entry_active peer m i : group_entry peer (m_table m i) m = true -> exists c, re_exchContext (m_table m i) = Some c.
Proof. unfold group_entry. destruct (re_exchContext _); [by eexists|done]. Qed.

Lemma done_ClearSync h m peer : inv h None m -> wp (ClearMsgCounterSyncReq peer) m (done_with h None none all all m).
Proof.
  intros I. apply done_for; [|done]. clear m I. intros i m _ I. apply wp_gets. unfold id.
  apply done_when; [done|apply frame_refl|]. intros E. apply group_entry_active in E as [c Ei].
  assert (active m i) as Ha by (unfold active; congruence). destruct (i_buf _ _ _ I i Ha) as (b & Eb & Lb). rewrite Eb.
  apply done_quiet; [done|apply frame_refl|by apply (quietly_owned _ m i b); [..|apply quietly_on_buf]].
Qed.

Lemma done_RetransPending h m peer : inv h None m -> modest h -> wp (RetransPendingAppGroupMsgs peer) m (done_with h None none (held h) all m).
Proof.
  intros I Hh. apply done_for; [|done]. clear m I. intros i m _ I. apply wp_gets. unfold id.
  apply done_when; [done|apply frame_refl|]. intros E. apply group_entry_active in E as [c Ei]. apply wp_modify.
  match goal with |- context [<[i := ?r]> (m_table m)] => destruct (inv_same_entry h None m i r I eq_refl eq_refl) as [I1 F1] end.
  set (m1 := set_table _ m) in *. assert (re_exchContext (m_table m1 i) = Some c) as Ei1 by (unfold m1; cbn; by rewrite fn_lookup_insert).
  apply (done_from _ _ _ _ _ _ m1); [by eapply frame_weaken|]. apply safe_ignore.
  assert (h c < kMaxHolds) as Hk by (specialize (Hh c); unfold kMaxAppHolds, kMaxHolds in *; lia).
  eapply wp_mono; [apply (safe_SendFromRetrans Release h m1 i c); auto using Release_or|].
  intros r s (I2 & F2 & Hr). split; [by destruct r|]. split; [done|]. eapply frame_weaken; [exact F2|done| |done].
  intros c' Hc. unfold held in Hc. destruct (decide (c' = c)) as [->|]; [right|by left]. pose proof (refs_range (Some i) m1 c). lia.
Qed.

(** ** Messages received *)

Lemma done_CheckAndRem h m c id : inv h None m -> modest h -> wp (WRMPCheckAndRemRetransTable c id) m (done_with h None none (held h) all m).
Proof.
  intros I Hh. unfold WRMPCheckAndRemRetransTable. apply wp_gets. destruct (find _ _) as [i|] eqn:E; [|by apply done_ret; [|apply frame_refl]].
  apply find_seq_some in E as [E _]. apply andb_prop in E as [E _]. apply bool_decide_eq_true in E.
  eapply done_then; [by apply (done_Clear_held h m i c)|]. intros _ m1 I1 F1. by apply done_ret.
Qed.

Lemma safe_RcvdAck h m c eh : inv h None m -> modest h -> wp (WRMPHandleRcvdAck c eh) m (safe_with h None none (held h) all m).
Proof.
  intros I Hh. unfold WRMPHandleRcvdAck. eapply safe_seq; [by apply done_safe, done_CheckAndRem|].
  intros [ctxt|] m1 I1 F1; [|by split]. apply wp_gets. apply done_safe, done_when; auto. intros _. by apply done_emit.
Qed.

(** Sending an acknowledgement in the middle of an operation. *)
Lemma safe_Null_in h m0 m c (Pi Pc Pb : nat -> Prop) : inv h None m -> frame Pi Pc Pb m0 m -> h c + 1 < kMaxHolds -> ec_used (m_pool m c) = true ->
  wp (SendCommonNullMessage c) m (safe_with h None Pi Pc Pb m0).
Proof.
  intros I F Hh Hu. eapply safe_from; [exact F|]. eapply safe_weaken; [apply safe_Null; auto using Release_spares|done..].
Qed.

Lemma quiet_set_pendingAck c x m : wp (on_ec c (set_pendingAck x)) m (quietly m).
Proof. by apply quiet_ec. Qed.

Lemma safe_NeedsAck h m c i : inv h None m -> h c + 1 < kMaxHolds -> ec_used (m_pool m c) = true ->
  wp (WRMPHandleNeedsAck c i) m (safe_with h None all all all m).
Proof.
  intros I Hh Hu. unfold WRMPHandleNeedsAck.
  eapply safe_seq; [apply done_safe, done_quiet; [done|apply frame_refl|apply quiet_expire]|]. intros _ m1 I1 F1.
  assert (ec_used (m_pool m1 c) = true) as Hu1 by (by eapply frame_used).
  assert (wp (if has_flag kWeaveMessageFlag_DuplicateMessage i then needs_ack_duplicate c i else needs_ack_new c i) m1
    (safe_with h None all all all m)) as HB.
  { destruct (has_flag _ i).
    - unfold needs_ack_duplicate. apply wp_gets. cbn zeta.
      eapply safe_seq; [apply safe_quiet; [done|done|apply quietly_fails, quiet_set_pendingAck]|]. intros _ m2 I2 F2.
      apply wp_bind, wp_attempt. assert (ec_used (m_pool m2 c) = true) as Hu2 by (by eapply frame_used).
      eapply wp_mono; [apply (safe_Null_in h m m2 c all all all); done|]. intros r m3 (Hr & I3 & F3).
      assert (forall x, wp (do* whenM (IsAckPending (m_pool m1 c) && negb (ec_mPendingPeerAckId (m_pool m1 c) =? mi_MessageId i))
        (do* on_ec c (set_pendingAck (ec_mPendingPeerAckId (m_pool m1 c))) in on_ec c (SetAckPending true)) in throw x) m3 (safe_with h None all all all m (A := unit))) as HT.
      { intros x. eapply safe_seq; [|intros _ m4 I4 F4; apply safe_quiet; [done|done|apply fails_throw]].
        apply done_safe, done_when; [done..|]. intros _. apply done_quiet; [done..|].
        apply quietly_bind; [apply quiet_set_pendingAck|]. intros. apply quiet_ec. intros. apply core_SetAckPending. }
      destruct r; try done; apply HT.
    - unfold needs_ack_new. apply wp_gets. eapply safe_seq; [|intros _ m2 I2 F2].
      + apply wp_when; [intros _; by apply safe_Null_in|intros _; by split].
      + apply safe_quiet; [done|done|]. apply quietly_fails. apply quietly_bind; [apply quiet_set_pendingAck|]. intros _ m3.
        apply quietly_bind; [apply quietly_gets|]. intros mm m4. apply quietly_bind; [by apply quiet_ec|]. intros _ m5.
        apply quiet_ec. intros. apply core_SetAckPending. }
  eapply wp_bind, wp_attempt, wp_mono; [exact HB|]. intros r m2 (Hr & I2 & F2).
  assert (forall x, wp (do* WRMPStartTimer in throw x) m2 (safe_with h None all all all m (A := unit))) as HT.
  { intros x. eapply safe_seq; [apply safe_quiet; [done|done|apply quietly_fails, quiet_StartTimer]|].
    intros _ m3 I3 F3. apply safe_quiet; [done|done|apply fails_throw]. }
  destruct r; try done; apply HT.
Qed.

Lemma done_throttle_entry h m c p : inv h None m -> wp (throttle_entry c p) m (done_with h None none all all m).
Proof.
  intros I. unfold throttle_entry. apply wp_gets. destruct (find _ _) as [i|]; [|by apply done_ret; [|apply frame_refl]].
  match goal with |- wp (on_re i ?f) m _ => destruct (inv_same_entry h None m i (f (m_table m i)) I eq_refl eq_refl) as [I1 F1] end.
  split; [by eexists|]. split; [exact I1|by eapply frame_weaken].
Qed.

Lemma done_ThrottleFlow h m c p : inv h None m -> wp (HandleThrottleFlow c p) m (done_with h None none all all m).
Proof.
  intros I. unfold HandleThrottleFlow.
  eapply done_then; [apply done_quiet; [done|apply frame_refl|apply quiet_expire]|]. intros _ m1 I1 F1. apply wp_gets.
  eapply done_then; [apply done_quiet; [done|done|by apply quiet_ec]|]. intros _ m2 I2 F2.
  eapply done_then; [eapply done_from; [exact F2|by apply done_throttle_entry]|]. intros _ m3 I3 F3. apply wp_gets.
  eapply done_then; [apply done_when; [done|done|]; intros _; by apply done_emit|]. intros _ m4 I4 F4.
  apply done_quiet; [done|done|apply quiet_StartTimer].
Qed.

(** A buffer with [n] bytes of room from its start, whatever its length: what the
    code reads of a throttle or delayed delivery message. *)
Definition roomy (n : Z) (p : PacketBuffer) : Prop := Start p + n <= AllocSize p.

Lemma wp_read_start {B} b n (k : list Z -> M (Mgr T) B) m Q p : m_bufs m b = Some p -> roomy n p ->
  (forall l, wp (k l) m Q) -> wp (bind (read_start b n) k) m Q.
Proof.
  intros Ep Hr Hk. unfold wp, bind, read_start, bind. rewrite (live_get b m p Ep). unfold roomy in Hr.
  rewrite (proj2 (Z.ltb_ge _ _)) by lia. apply Hk.
Qed.

Lemma done_handle_wrmp h m c i eh : inv h None m -> modest h -> ec_used (m_pool m c) = true -> held h c ->
  wp (handle_wrmp c i eh) m (done_with h None none (held h) all m).
Proof.
  intros I Hh Hu Hc. unfold handle_wrmp. apply done_when; [done|apply frame_refl|]. intros _.
  eapply done_then; [apply done_when; [done|apply frame_refl|]; intros _; by apply safe_ignore, safe_RcvdAck|]. intros _ m1 I1 F1.
  apply done_when; [done|done|]. intros _.
  eapply done_then; [apply done_quiet; [done|done|]; apply quiet_ec; intros; apply core_SetPeerRequestedAck|]. intros _ m2 I2 F2. apply wp_gets.
  apply done_when; [done|done|]. intros _. apply safe_ignore. eapply safe_from; [exact F2|].
  eapply safe_weaken; [apply safe_NeedsAck; [done|apply Hh|by eapply frame_used]|done..].
Qed.

Lemma handle_payload_spec h m c i eh b p u : inv h None m -> m_bufs m b = Some p -> roomy 4 p ->
  wp (handle_payload c i eh b u) m (fun r m' => (r = Ok (Some b) \/ r = Ok None) /\ inv h None m' /\ frame none all all m m').
Proof.
  intros I Ep Hp. unfold handle_payload. apply wp_gets.
  destruct (_ && _); [split; [by left|]; split; [done|apply frame_refl]|].
  destruct (_ && _).
  { apply (wp_read_start b 4 _ m _ p); [done|done|]. intros l. apply wp_bind.
    eapply wp_mono; [by apply (done_ThrottleFlow h m c)|]. intros r m1 ([a ->] & I1 & F1). by split; [left|]. }
  destruct (_ && _); [split; [by left|]; split; [done|apply frame_refl]|].
  eapply quietly_seq; [by apply quiet_ec|]. intros _ m1 Q1.
  eapply quietly_seq; [apply quiet_ec; intros; apply core_SetResponseExpected|]. intros _ m2 Q2.
  assert (quiet m m2) as Q by (by eapply quiet_trans).
  assert (forall e, wp (do* emit e in ret None) m2 (fun r m' => (r = Ok (Some b) \/ r = Ok None) /\ inv h None m' /\ frame none all all m m')) as HE.
  { intros e. eapply quietly_seq; [apply quiet_emit|]. intros _ m3 Q3. assert (quiet m m3) as Q' by (by eapply quiet_trans).
    split; [by right|]. split; [by eapply quiet_inv|by apply quiet_frame]. }
  destruct u; [apply HE|]. destruct (OnMessageReceived _); [apply HE|]. split; [by left|]. split; [by eapply quiet_inv|by apply quiet_frame].
Qed.

Lemma modest_inc h c : (forall c, h c <= kMaxAppHolds) -> modest (inc c h).
Proof. intros Hh c'. unfold inc, kMaxHolds. specialize (Hh c'). unfold kMaxAppHolds in *. fn. Qed.
Lemma modest_app h : (forall c, h c <= kMaxAppHolds) -> modest h.
Proof. intros Hh c. specialize (Hh c). unfold kMaxAppHolds, kMaxHolds in *. lia. Qed.

(** What is left of a buffer is freed. *)
Lemma done_free_left h m0 m b (l : option nat) (Pi Pc : nat -> Prop) : inv h None m -> frame Pi Pc all m0 m -> loose m b -> l = Some b \/ l = None ->
  wp (match l with Some b => FreeBuf b | None => ret tt end) m (done_with h None Pi Pc (fun b' => b' <> b) m0).
Proof.
  intros I F Hb [->| ->]; [|apply done_ret; [done|by eapply frame_weaken]].
  eapply wp_mono; [by apply (done_FreeBuf h None m b)|]. intros r m' (-> & I' & F' & _). split; [by eexists|]. split; [done|].
  eapply frame_trans; [by eapply frame_weaken|by eapply frame_weaken].
Qed.

Lemma done_HandleMessage h m c i eh b p u : inv h None m -> (forall c, h c <= kMaxAppHolds) -> ec_used (m_pool m c) = true ->
  loose m b -> m_bufs m b = Some p -> roomy 4 p ->
  wp (HandleMessage c i eh b u) m (done_with h None none (held h) (fun b' => b' <> b) m).
Proof.
  intros I Hh Hu Hb Ep Hp. unfold HandleMessage. pose proof (i_holds _ _ _ I c) as Hc. pose proof (Hh c) as Hhc. unfold kMaxAppHolds in Hhc.
  eapply wp_seq; [eapply wp_mono; [apply (done_AddRef h None m c I Hu); unfold kMaxHolds; lia|]|].
  { intros r s ([a ->] & I1 & F1). exists a. split; [done|exact (conj I1 F1)]. }
  intros _ m1 [I1 F1]. assert (held (inc c h) c) as Hc1 by (unfold held; rewrite inc_same; lia).
  assert (forall c', held h c' -> held (inc c h) c') as Hheld by (unfold held; intros c' ?; pose proof (inc_ge c h c'); lia).
  assert (ec_used (m_pool m1 c) = true) as Hu1 by (by eapply frame_used).
  eapply wp_seq; [eapply wp_mono; [apply (done_handle_wrmp (inc c h) m1 c i eh I1); auto using modest_inc|]|].
  { intros r s ([a ->] & I2 & F2). exists a. split; [done|exact (conj I2 F2)]. }
  intros _ m2 [I2 F2]. assert (ec_used (m_pool m2 c) = true) as Hu2 by (by eapply frame_used).
  assert (frame none (held (inc c h)) all m m2) as F02 by (eapply frame_trans; [by eapply frame_weaken|done]).
  destruct (f_loose _ _ _ _ _ F02 b Logic.I Hb) as [Hb2 Eb2].
  apply wp_bind. eapply wp_mono; [apply (handle_payload_spec (inc c h) m2 c i eh b p u I2); [congruence|done]|].
  intros r m3 (Hr & I3 & F3). assert (ec_used (m_pool m3 c) = true) as Hu3 by (by eapply frame_used).
  assert (exists l, r = Ok l /\ (l = Some b \/ l = None)) as (l & -> & Hl) by (destruct Hr as [->| ->]; eauto).
  assert (frame none (held h) all m m3) as F03.
  { eapply frame_weaken; [eapply frame_trans; [exact F02|by eapply frame_weaken]|done|exact Hheld|done]. }
  eapply wp_seq; [eapply wp_mono; [apply (Release_releases h None m3 c I3 Hu3); lia|]|].
  { intros r s ([a ->] & I4 & F4). exists a. split; [done|exact (conj I4 F4)]. }
  intros _ m4 [I4 F4]. assert (frame none (held h) all m m4) as F04.
  { eapply frame_trans; [exact F03|]. eapply frame_weaken; [exact F4|done| |done]. intros c' Hc'. unfold held in Hc'.
    destruct (decide (c' = c)) as [->|]; [right|by left]. pose proof (refs_range None m3 c). lia. }
  apply (done_free_left h m m4 b l); auto. by apply (f_loose _ _ _ _ _ F04 b Logic.I Hb).
Qed.

(** ** Contexts *)

Lemma refs_unused h m c : inv h None m -> ec_used (m_pool m c) = false -> refs None m c = 0.
Proof.
  intros I Hu. unfold refs. rewrite (count_if_ext _ (fun _ => false)); [reflexivity|]. intros i _. unfold holds.
  destruct (decide (re_exchContext (m_table m i) = Some c)) as [E|E]; [|by rewrite bool_decide_eq_false_2].
  by rewrite (i_entry _ _ _ I i c E) in Hu.
Qed.

(** A new context has one reference, its creator's. *)
Lemma AllocContext_spec h m : inv h None m ->
  wp AllocContext m (fun r m' => (r = Ok None /\ m' = m) \/ exists c, r = Ok (Some c) /\ ec_used (m_pool m c) = false /\
    ec_used (m_pool m' c) = true /\ inv (<[c := 1]> h) None m' /\ frame all all all m m').
Proof.
  intros I. unfold AllocContext, wp. destruct (find _ _) as [c|] eqn:E; [right|by left]. exists c. split; [done|].
  apply find_seq_some in E as [E Hc]. apply negb_true_iff in E. split; [done|]. cbn.
  set (e := set_refCount 1 (set_used true zero_context)). split; [by rewrite fn_lookup_insert|].
  destruct (quiet_modify (fun m => set_contextsInUse (u64 (m_contextsInUse m + 1)) m) (set_pool (<[c := e]> (m_pool m)) m)) as [_ Q];
    try done; [exists []; by rewrite app_nil_r|]. cbn in Q.
  assert (inv (<[c := 1]> h) None (set_pool (<[c := e]> (m_pool m)) m)) as I1.
  { apply (inv_ctx h); [done|..]; cbn.
    - intros _. split; [done|]. rewrite (refs_unused h m c I E), fn_lookup_insert. lia.
    - done.
    - done.
    - intros c' Hne. by rewrite fn_lookup_insert_ne.
    - rewrite fn_lookup_insert. unfold kMaxHolds. lia. }
  split; [eapply quiet_inv; [exact Q|exact I1]|].
  eapply frame_trans; [|by apply quiet_frame]. apply frame_ctx. congruence.
Qed.

(** Changing the members of a context that the invariant does not look at. *)
Lemma done_set_ctx h m c f : inv h None m ->
  (forall e, ec_used (f e) = ec_used e /\ ec_mRefCount (f e) = ec_mRefCount e /\ tr_msg (ec_trickle (f e)) = tr_msg (ec_trickle e)) ->
  wp (on_ec c f) m (fun r m' => r = Ok tt /\ inv h None m' /\ frame all (fun c' => c' <> c) all m m' /\ ec_used (m_pool m' c) = ec_used (m_pool m c)).
Proof.
  intros I Hf. destruct (Hf (m_pool m c)) as (Eu & Er & Et). split; [done|]. cbn. split; [|split; [|by rewrite fn_lookup_insert]].
  - eapply inv_ctx; [exact I|..]; cbn.
    + rewrite Eu, Er. intros Hu. split; [by apply (i_pool _ _ _ I)|by apply (i_ref _ _ _ I)].
    + rewrite Eu. intros Hu i Ei. by rewrite (i_entry _ _ _ I i c Ei) in Hu.
    + rewrite Et. apply (i_trickle _ _ _ I).
    + done.
    + apply (i_holds _ _ _ I).
  - by apply frame_ctx.
Qed.

Lemma NewContext_spec h m peerNodeId peerAddr peerPort intf : inv h None m ->
  wp (NewContext peerNodeId peerAddr peerPort intf) m (fun r m' => (r = Ok None /\ m' = m) \/ exists c, r = Ok (Some c) /\
    ec_used (m_pool m c) = false /\ ec_used (m_pool m' c) = true /\ inv (<[c := 1]> h) None m' /\ frame all (fun c' => c' <> c) all m m').
Proof.
  intros I. unfold NewContext. apply wp_bind. eapply wp_mono; [by apply AllocContext_spec|].
  intros r m1 [[-> ->]|(c & -> & Hu & Hu1 & I1 & F1)]; [by left|]. apply wp_gets.
  eapply quietly_seq; [apply quiet_modify; try done; exists []; by rewrite app_nil_r|]. intros _ m2 Q2.
  assert (inv (<[c := 1]> h) None m2) as I2 by (by eapply quiet_inv). 
  apply wp_bind. eapply wp_mono; [by apply (done_set_ctx _ m2 c _ I2)|]. intros r m3 (-> & I3 & F3 & Hu3). right. exists c.
  split; [done|]. split; [done|]. split; [cbn; by rewrite Hu3, (quiet_used m1 m2)|]. split; [exact I3|]. eapply frame_trans; [by eapply frame_weaken|]. eapply frame_trans; [by apply quiet_frame|exact F3].
Qed.

(** Giving up a reference of one's own. *)
Lemma done_Close h m c : inv (inc c h) None m -> ec_used (m_pool m c) = true -> 0 <= h c -> modest (inc c h) ->
  wp (Close c) m (done_with h None all (fun c' => c' <> c) all m).
Proof.
  intros I Hu Hh Hm. unfold Close. apply wp_gets. destruct (i_ref _ _ _ I c Hu) as [_ Hr].
  rewrite Hu. cbn [negb orb]. rewrite (proj2 (Z.eqb_neq _ 0)) by lia. apply wp_bind.
  eapply wp_mono; [apply (done_DoClose Release (inc c h) None m c Release_spares I Hu); apply Hm|]. intros r m1 (-> & I1 & F1 & Hu1).
  eapply wp_mono; [apply (Release_releases h None m1 c I1 Hu1 Hh)|]. intros r m2 (Hr2 & I2 & F2). split; [done|]. split; [done|].
  eapply frame_trans; [exact F1|]. eapply frame_weaken; [exact F2|done| |done]. intros c' Hc. by left.
Qed.

Lemma done_Abort h m c : inv (inc c h) None m -> ec_used (m_pool m c) = true -> 0 <= h c -> modest (inc c h) ->
  wp (Abort_exchange c) m (done_with h None none (fun c' => c' <> c /\ held h c') all m).
Proof.
  intros I Hu Hh Hm. unfold Abort_exchange. apply wp_gets. destruct (i_ref _ _ _ I c Hu) as [_ Hr].
  rewrite Hu. cbn [negb orb]. rewrite (proj2 (Z.eqb_neq _ 0)) by lia. apply wp_bind.
  assert (held (inc c h) c) as Hc by (unfold held; rewrite inc_same; lia).
  eapply wp_mono; [apply (done_DoClose_clear Release (inc c h) None none (held (inc c h)) m c true Release_spares I Hu (Hm c) Hc)|].
  { intros _ m' I'. by apply done_ClearRetransmitTable. }
  intros r m1 (-> & I1 & F1 & Hu1).
  eapply wp_mono; [apply (Release_releases h None m1 c I1 Hu1 Hh)|]. intros r m2 (Hr2 & I2 & F2). split; [done|]. split; [done|].
  assert (forall c', c' <> c /\ held h c' -> c' <> c /\ held (inc c h) c') as HP.
  { unfold held. intros c' [? ?]. pose proof (inc_ge c h c'). split; [done|lia]. }
  eapply frame_trans; [eapply frame_weaken; [exact F1|done|exact HP|done]|]. eapply frame_weaken; [exact F2|done| |done].
  intros c' [Hc' _]. by left.
Qed.

Lemma done_Notify h m peer keyId e k : inv h None m -> (forall c, h c <= kMaxAppHolds) ->
  wp (NotifySecureSessionFailed peer keyId e k) m (done_with h None none (held h) all m).
Proof.
  intros I Hh. apply done_for; [|done]. clear m I. intros c m _ I. apply wp_gets.
  apply done_when; [done|apply frame_refl|]. intros E. apply andb_prop in E as [E _]. apply andb_prop in E as [Hu _].
  pose proof (i_holds _ _ _ I c) as Hc. pose proof (Hh c) as Hhc. unfold kMaxAppHolds in Hhc.
  eapply wp_seq; [eapply wp_mono; [apply (done_AddRef h None m c I Hu); unfold kMaxHolds; lia|]|].
  { intros r s ([a ->] & I1 & F1). exists a. split; [done|exact (conj I1 F1)]. }
  intros _ m1 [I1 F1]. assert (held (inc c h) c) as Hc1 by (unfold held; rewrite inc_same; lia).
  assert (ec_used (m_pool m1 c) = true) as Hu1 by (by eapply frame_used).
  eapply wp_seq; [eapply wp_mono; [apply (done_Fail (inc c h) m1 c e I1); auto using modest_inc|]|].
  { intros r s ([a ->] & I2 & F2). exists a. split; [done|exact (conj I2 F2)]. }
  intros _ m2 [I2 F2]. apply wp_gets. eapply quietly_seq; [apply quietly_when, quiet_emit|]. intros _ m3 Q3.
  assert (inv (inc c h) None m3) as I3 by (by eapply quiet_inv).
  assert (frame none (held h) all m m3) as F03.
  { eapply frame_trans; [by eapply frame_weaken|]. eapply frame_trans; [|by apply quiet_frame]. eapply frame_weaken; [exact F2|done| |done].
    unfold held. intros c' ?. pose proof (inc_ge c h c'). lia. }
  assert (ec_used (m_pool m3 c) = true) as Hu3 by (rewrite (quiet_used m2 m3) by done; by eapply frame_used).
  eapply done_from; [exact F03|]. eapply done_weaken; [apply (Release_releases h None m3 c I3 Hu3); lia|done| |done].
  unfold held. intros c' Hc'. destruct (decide (c' = c)) as [->|]; [right|by left]. pose proof (refs_range None m3 c). lia.
Qed.

(** Shutdown clears every entry. *)
(** The timer. *)
Lemma done_execute_retrans h m i : inv h None m -> modest h -> wp (execute_retrans i) m (done_with h None (fun j => j <> i) (held h) all m).
Proof.
  intros I Hh. destruct (re_exchContext (m_table m i)) as [c|] eqn:E.
  - eapply wp_mono; [by apply (execute_retrans_spec h m i c)|]. intros r m' (-> & I' & F & _). split; [by eexists|]. split; [done|].
    eapply frame_weaken; [exact F|done| |done]. unfold held. intros c' Hc'. destruct (decide (c' = c)) as [->|]; [right|by left].
    pose proof (refs_range (Some i) m c). lia.
  - unfold execute_retrans. apply wp_gets. rewrite E. by apply done_ret; [|apply frame_refl].
Qed.

Lemma done_ExecuteActions h m : inv h None m -> modest h -> wp WRMPExecuteActions m (done_with h None none (held h) all m).
Proof.
  intros I Hh. unfold WRMPExecuteActions. eapply done_then.
  - apply done_for; [|exact I]; intros c m' _ I'; eapply done_weaken; [by apply done_execute_ack|done..].
  - intros _ m2 I2 F2. eapply done_from; [exact F2|]. apply done_for; [|exact I2]. intros i m' _ I'.
    eapply done_weaken; [by apply done_execute_retrans|done..].
Qed.

Lemma done_Timeout h m : inv h None m -> modest h -> wp WRMPTimeout m (done_with h None none (held h) all m).
Proof.
  intros I Hh. unfold WRMPTimeout. eapply done_then; [apply done_quiet; [done|apply frame_refl|apply quiet_expire]|]. intros _ m1 I1 F1.
  eapply done_then; [eapply done_from; [exact F1|by apply done_ExecuteActions]|].
  intros _ m2 I2 F2. apply done_quiet; [done|done|apply quiet_StartTimer].
Qed.

(** The control messages that the application sends. *)
Lemma safe_send_control h m c ty bytes : inv h None m -> ec_used (m_pool m c) = true -> h c + 1 < kMaxHolds ->
  wp (send_control c ty bytes) m (safe_with h None none all none m).
Proof.
  intros I Hu Hh. unfold send_control. apply wp_bind. eapply wp_mono; [by apply (done_NewBuf h None _ m)|]. intros [b|e| |] m1; try done.
  - intros (_ & Hl & I1 & F1 & Ep). eapply quietly_seq; [apply quietly_on_buf, Hl|]. intros _ m2 Q2.
    assert (inv h None m2) as I2 by (by eapply quiet_inv). assert (loose m2 b) as Hl2 by (by apply (quiet_loose (eq b) m1 m2)).
    apply (safe_from _ _ _ _ _ _ m2). { eapply frame_trans; [by eapply frame_weaken|]. by eapply quiet_frame_but. }
    eapply safe_weaken; [apply (safe_SendMessage Release h None all m2 c)|..]; auto using Release_spares; [by rewrite (quiet_but_used (eq b) m1 m2), Ep|done|done|by intros ? []].
  - intros [-> ->]. split; [done|]. split; [done|apply frame_refl].
Qed.
End Recv.
