(* ===== verification/ExchangeDispatch.v ===== *)
(** * Exchanges: dispatching a message

    WeaveExchangeManager::DispatchMessage keeps the invariant, whatever the message
    says, if its buffer has room behind it. *)
From stdpp Require Import functions.
From S2P Require Import Prelude Encoding KeyIds PacketBuffer PacketBufferChain PeerTable FabricState MessageLayer Address ExchangeHeader ExchangeTypes ExchangeMgr ExchangeInv ExchangeQuiet ExchangeRefs ExchangeSafe ExchangeSend ExchangeWrmp ExchangeRecv.
Local Open Scope Z_scope.
Open Scope weave_scope.

(** The room that a received message needs behind the start of its buffer: the
    exchange header, and what the code reads of a delayed delivery message without looking
    at the length. *)
Definition kRoom : Z := 12 + 12.

Lemma DecodeExchangeHeader_room old p : 0 <= Start p -> roomy kRoom p ->
  match fst (DecodeExchangeHeader old p) with Ok _ | Err _ => True | _ => False end /\ roomy 12 (snd (DecodeExchangeHeader old p)).
Proof.
  unfold roomy, kRoom. intros H0 Hp. unfold DecodeExchangeHeader.
  assert (forall k, k <= 12 -> Start (SetStart (Start p + k) p) + 12 <= AllocSize (SetStart (Start p + k) p)) as HS.
  { intros k Hk. unfold SetStart, Start, AllocSize in *. cbn [pb_payload pb_block].
    destruct (Z.ltb_spec (pb_payload p + k) 0); [lia|]. destruct (Z.ltb_spec (Z.of_nat (length (pb_block p))) (pb_payload p + k)); lia. }
  destruct (_ <? 8); [split; [done|cbn; lia]|]. destruct (Read8 (pb_data p)) as [vf q].
  destruct (negb _); [split; [done|cbn; lia]|]. destruct (Read8 q) as [mt q1]. destruct (LittleEndian_Read16 q1) as [x q2].
  destruct (LittleEndian_Read32 q2) as [pr q3]. destruct (negb _); [|split; [done|apply HS; lia]].
  destruct (_ <? 4); [split; [done|cbn; lia]|]. destruct (LittleEndian_Read32 q3). split; [done|apply HS; lia].
Qed.

Section Dispatch.
Context {T : Type} `{ExchangeEnv T} `{!ExchangeEnvLaws T}.
Implicit Types m : Mgr T.

Definition app_modest (h : nat -> Z) : Prop := forall c, h c <= kMaxAppHolds.

(** An outcome in which the application may have come to hold another context. *)
Definition dispatched {A} (ok : A -> Mgr T -> Prop) : res A -> Mgr T -> Prop := fun r m =>
  exists a h', r = Ok a /\ inv h' None m /\ app_modest h' /\ ok a m.

Lemma app_modest_insert h c k : app_modest h -> 0 <= k <= 1 -> app_modest (<[c := k]> h).
Proof. intros Hh Hk c'. specialize (Hh c'). unfold kMaxAppHolds in *. fn. Qed.

(** *** The messages of the counter synchronisation *)

(** A new buffer was nobody's. *)
Lemma frame_new_buf (Pi Pc : nat -> Prop) m m' b : ~ live m b -> frame Pi Pc (fun b' => b' <> b) m m' -> frame Pi Pc all m m'.
Proof. intros Hd []. split; auto. intros b' _ Hb'. apply f_loose; [|done]. intros ->. by destruct Hd; apply Hb'. Qed.

Lemma safe_sync_resp h m i c : inv h None m -> ec_used (m_pool m c) = true -> h c + 1 < kMaxHolds ->
  wp (send_sync_resp i c) m (safe_with h None none all all m).
Proof.
  intros I Hu Hh. unfold send_sync_resp. apply wp_bind. eapply wp_mono; [by apply (done_NewBuf h None _ m)|]. intros [b|e| |] m1; try done.
  2: { intros [-> ->]. split; [done|]. split; [done|apply frame_refl]. }
  intros (Hd & Hl & I1 & F1 & Ep). apply wp_get_buf; [apply Hl|]. intros p _.
  assert (frame none all (fun b' => b' <> b) m m1) as F01 by (by eapply frame_weaken).
  destruct (_ <? _).
  { apply wp_bind. eapply wp_mono; [by apply (done_FreeBuf h None m1 b)|]. intros r m2 (-> & I2 & F2 & _). split; [done|]. split; [done|].
    apply (frame_new_buf _ _ _ _ b Hd). eapply frame_trans; [exact F01|]. by eapply frame_weaken. }
  eapply quietly_seq; [apply quietly_on_buf, Hl|]. intros _ m2 Q2. assert (inv h None m2) as I2 by (by eapply quiet_inv).
  assert (loose m2 b) as Hl2 by (by apply (quiet_loose (eq b) m1 m2)).
  eapply wp_mono; [apply (safe_SendMessage Release h None (active m2) m2 c); auto using Release_spares; by rewrite (quiet_but_used (eq b) m1 m2), Ep|].
  intros r m3 (Hr & I3 & F3). split; [by destruct r|]. split; [done|]. apply (frame_new_buf _ _ _ _ b Hd).
  eapply frame_trans; [exact F01|]. eapply frame_trans; [eapply quiet_frame_but; [exact Q2|by intros b' Hb' ->]|]. eapply frame_weaken; [exact F3|by intros ? []|done|done].
Qed.

(** What is sent on an exchange of its own: the application's references are as they
    were, but for the context that was free. *)
Lemma done_sync_exchange h m i pkt (send : nat -> M (Mgr T) unit) : inv h None m -> app_modest h ->
  (forall h m c, inv h None m -> ec_used (m_pool m c) = true -> h c + 1 < kMaxHolds -> wp (send c) m (safe_with h None none all all m)) ->
  wp (ignore (on_sync_exchange i pkt send)) m (fun r m' => r = Ok tt /\ exists h', inv h' None m' /\ app_modest h' /\ frame none none all m m').
Proof.
  intros I Hh Hs. apply wp_ignore. unfold on_sync_exchange, NewMsgCounterSyncExchange. apply wp_bind, wp_attempt.
  assert (exists h', inv h' None m /\ app_modest h' /\ frame none none all m m) as H0 by (exists h; split; [done|split; [done|apply frame_refl]]).
  destruct pkt as [[[addr port] intf]|]; [|by split]. destruct (negb _); [by split|].
  apply wp_bind. eapply wp_mono; [by apply (NewContext_spec h m)|]. intros r m1 [[-> ->]|(c & -> & _ & Hu1 & I1 & F1)]; [by split|].
  assert (app_modest (<[c := 1]> h)) as Hh1 by (apply app_modest_insert; [done|lia]).
  assert (frame none none all m m1) as F01 by (eapply frame_weaken; [exact F1|done|by intros ? []|done]).
  apply wp_bind. eapply wp_mono; [by apply (done_set_ctx _ m1 c _ I1)|]. intros r m2 (-> & I2 & F2 & Hu2). rewrite Hu1 in Hu2.
  assert (frame none none all m1 m2) as F12 by (eapply frame_weaken; [exact F2|done|by intros ? []|done]).
  apply wp_bind, wp_attempt. pose proof (modest_app _ Hh1 c) as Hm.
  eapply wp_mono; [apply (Hs _ m2 c I2 Hu2 Hm)|]. intros r m3 (Hr & I3 & F3).
  assert (ec_used (m_pool m3 c) = true) as Hu3 by (by eapply frame_used).
  assert (wp (Close c) m3 (done_with (<[c := 0]> h) None all (fun c' => c' <> c) all m3)) as HC.
  { apply done_Close; [|done|rewrite fn_lookup_insert; lia|apply modest_inc, app_modest_insert; [done|lia]].
    eapply inv_ext; [|exact I3]. intros c'. unfold ExchangeRefs.inc. fn. }
  assert (frame none none all m m3) as F03.
  { eapply frame_trans; [exact F01|]. eapply frame_trans; [exact F12|]. eapply frame_weaken; [exact F3|done|by intros ? []|done]. }
  assert (forall x : unit + WEAVE_ERROR, wp (do* Close c in throw x) m3 (fun r s' => match r with
    | Ok _ | Err _ => Ok tt = Ok tt /\ (exists h', inv h' None s' /\ app_modest h' /\ frame none none all m s')
    | Undefined => Undefined = Ok tt /\ (exists h', inv h' None s' /\ app_modest h' /\ frame none none all m s')
    | Diverges => Diverges = Ok tt /\ (exists h', inv h' None s' /\ app_modest h' /\ frame none none all m s') end)) as HX.
  { intros x. apply wp_bind. eapply wp_mono; [exact HC|]. intros r4 m4 ([a4 ->] & I4 & F4).
    assert (exists h', inv h' None m4 /\ app_modest h' /\ frame none none all m m4) as HE.
    { exists (<[c := 0]> h). split; [done|]. split; [apply app_modest_insert; [done|lia]|]. eapply frame_trans; [exact F03|].
      eapply frame_weaken; [exact F4|done|by intros ? []|done]. }
    by destruct x. }
  destruct r; try done; apply HX.
Qed.

Lemma done_SolitaryReq h m i pkt : inv h None m -> app_modest h ->
  wp (ignore (SendSolitaryMsgCounterSyncReq i pkt)) m (fun r m' => r = Ok tt /\ exists h', inv h' None m' /\ app_modest h' /\ frame none none all m m').
Proof.
  intros I Hh. apply (done_sync_exchange h); [done|done|]. intros h1 m1 c I1 Hu Hc. eapply safe_weaken; [by apply (safe_Null Release h1 None m1 c Release_spares)|done..].
Qed.
Lemma done_SyncResp h m i pkt : inv h None m -> app_modest h ->
  wp (ignore (SendMsgCounterSyncResp i pkt)) m (fun r m' => r = Ok tt /\ exists h', inv h' None m' /\ app_modest h' /\ frame none none all m m').
Proof. intros I Hh. apply (done_sync_exchange h); [done|done|]. intros h1 m1 c I1 Hu Hc. by apply safe_sync_resp. Qed.

Lemma done_sync h m i eh b inc : inv h None m -> app_modest h -> loose m b ->
  wp (dispatch_sync i eh b inc) m (fun r m' => exists x h', r = Ok x /\ inv h' None m' /\ app_modest h' /\ (x = false -> kept m m' b)).
Proof.
  intros I Hh Hb. unfold dispatch_sync. set (resp := _ && _).
  set (Pb := fun b' => resp = true -> b' <> b).
  assert (wp (whenM resp (let* p := get_buf b in
     let* clear := fun m => let '(x, t) := env_HandleMsgCounterSyncRespMsg i p (m_env m) in (Ok x, set_env t m) in
     do* whenM clear (ClearMsgCounterSyncReq (mi_SourceNodeId i)) in FreeBuf b)) m (done_with h None none all Pb m)) as H1.
  { apply done_when; [done|apply frame_refl|]. intros Er. apply wp_get_buf; [apply Hb|]. intros p Ep.
    eapply (quietly_seq (D := none)).
    { unfold wp. destruct (env_HandleMsgCounterSyncRespMsg i p (m_env m)) as [x t]. split; [by eexists|].
      by destruct (quiet_env (fun _ => t) m) as [_ Q]. }
    intros clear m1 Q1. assert (inv h None m1) as I1 by (by eapply quiet_inv).
    assert (frame none all all m m1) as F1 by (by apply quiet_frame).
    apply wp_bind. eapply wp_mono; [eapply done_when; [exact I1|exact F1|]; intros _; eapply done_from; [exact F1|by apply done_ClearSync]|].
    intros r m2 ([a ->] & I2 & F2). eapply wp_mono; [apply (done_FreeBuf h None m2 b I2), (f_loose _ _ _ _ _ F2 b Logic.I Hb)|].
    intros r m3 (-> & I3 & F3 & _). split; [by eexists|]. split; [done|].
    eapply frame_trans; [by eapply frame_weaken|]. eapply frame_weaken; [exact F3|done|done|]. intros b' Hb'. by apply Hb'. }
  apply wp_bind. eapply wp_mono; [exact H1|]. intros r m1 ([a ->] & I1 & F1). apply wp_bind.
  eapply (wp_mono _ _ (fun r m' => r = Ok tt /\ exists h', inv h' None m' /\ app_modest h' /\ frame none none all m1 m')).
  { destruct (has_flag kWeaveMessageFlag_MsgCounterSyncReq i).
    - apply wp_bind. eapply wp_mono; [by apply (done_SyncResp h m1 i)|]. intros r m2 (-> & h2 & I2 & Hh2 & F2).
      eapply wp_mono; [apply (done_RetransPending h2 m2 _ I2 (modest_app h2 Hh2))|]. intros r m3 ([[] ->] & I3 & F3). split; [done|].
      exists h2. split; [done|]. split; [done|]. eapply frame_trans; [exact F2|]. eapply frame_weaken; [exact F3|done|by intros ? []|done].
    - apply wp_when; intros _; [by apply (done_SolitaryReq h m1 i)|]. split; [done|]. exists h. split; [done|]. split; [done|apply frame_refl]. }
  intros r m2 (-> & h2 & I2 & Hh2 & F2). exists resp, h2. split; [done|]. split; [done|]. split; [done|]. intros Er.
  assert (Pb b) as HPb by (intros Et; by rewrite Er in Et).
  destruct (f_loose _ _ _ _ _ F1 b HPb Hb) as [Hb1 E1].
  destruct (f_loose _ _ _ _ _ F2 b Logic.I Hb1) as [Hb2 E2]. split; [done|cbn; congruence].
Qed.

Lemma done_delayed h m i b p : inv h None m -> m_bufs m b = Some p -> roomy 12 p ->
  wp (dispatch_delayed i b) m (done_with h None none all all m).
Proof.
  intros I Ep Hp. unfold dispatch_delayed. apply done_when; [done|apply frame_refl|]. intros _.
  apply (wp_read_start b 12 _ m _ p); [done|done|]. intros l. by apply done_ProcessDD.
Qed.

(** The members of a context for an unsolicited message. *)
Lemma done_dispatch_new h m i eh inc umh c : inv h None m ->
  wp (dispatch_new i eh inc umh c) m (fun r m' => r = Ok tt /\ inv h None m' /\ frame all (fun c' => c' <> c) all m m' /\ ec_used (m_pool m' c) = ec_used (m_pool m c)).
Proof.
  intros I. unfold dispatch_new. destruct (match in_PacketInfo inc with Some x => x | None => _ end) as [[addr port] intf].
  apply wp_bind. eapply wp_mono; [by apply (done_set_ctx h m c _ I)|]. intros r m1 (-> & I1 & F1 & Hu1).
  assert (forall f, (forall e, ec_used (f e) = ec_used e /\ ec_mRefCount (f e) = ec_mRefCount e /\ tr_msg (ec_trickle (f e)) = tr_msg (ec_trickle e)) ->
    wp (on_ec c f) m1 (fun r m' => r = Ok tt /\ inv h None m' /\ frame all (fun c' => c' <> c) all m m' /\ ec_used (m_pool m' c) = ec_used (m_pool m c))) as HE.
  { intros f Hf. eapply wp_mono; [by apply (done_set_ctx h m1 c f I1)|]. intros r m2 (-> & I2 & F2 & Hu2).
    split; [done|]. split; [done|]. split; [by eapply frame_trans|congruence]. }
  destruct umh; by apply HE.
Qed.

Definition left_over (b : nat) (p : PacketBuffer) : option nat -> Mgr T -> Prop := fun l m => l = None \/ (l = Some b /\ loose m b).

Lemma unsolicited_spec h m i eh b inc p : inv h None m -> app_modest h -> loose m b -> m_bufs m b = Some p -> roomy 4 p ->
  wp (dispatch_unsolicited i eh b inc) m (dispatched (left_over b p)).
Proof.
  intros I Hh Hb Ep Hp. unfold dispatch_unsolicited. apply wp_gets. cbn zeta.
  assert (forall m, inv h None m -> loose m b -> dispatched (left_over b p) (Ok (Some b)) m) as Hkeep.
  { intros m' I' Hb'. exists (Some b), h. split; [done|]. split; [done|]. split; [done|by right]. }
  destruct (_ && _); [by apply Hkeep|]. set (close := _ && _ && _). set (umh := if xh_has _ _ then _ else None).
  destruct (_ || _); [|by apply Hkeep]. apply wp_bind.
  eapply wp_mono; [by apply (AllocContext_spec h m)|]. intros r m1 [[-> ->]|(c & -> & Hu & Hu1 & I1 & F1)]; [by apply Hkeep|].
  cbn zeta. apply wp_bind. eapply wp_mono; [by apply (done_dispatch_new _ m1 i eh inc _ c I1)|]. intros r m2 (-> & I2 & F2 & Hu2).
  assert (app_modest (<[c := 1]> h)) as Hh1 by (apply app_modest_insert; [done|lia]).
  assert (frame all (fun c' => c' <> c) all m m2) as F02 by (eapply frame_trans; [by eapply frame_weaken|done]).
  destruct (f_loose _ _ _ _ _ F02 b Logic.I Hb) as [Hb2 Eb2].
  apply wp_bind. eapply wp_mono; [apply (done_HandleMessage _ m2 c i eh b p _ I2 Hh1); [congruence|done|congruence|done]|].
  intros r m3 ([a ->] & I3 & F3). assert (ec_used (m_pool m3 c) = true) as Hu3.
  { eapply frame_used; [exact F3| |congruence]. unfold held. rewrite fn_lookup_insert. lia. }
  apply wp_bind, wp_when; intros _.
  - eapply wp_mono; [apply (done_Close (<[c := 0]> h) m3 c)|].
    + eapply inv_ext; [|exact I3]. intros c'. unfold ExchangeRefs.inc. fn.
    + done.
    + rewrite fn_lookup_insert. lia.
    + apply modest_inc, app_modest_insert; [done|lia].
    + intros r m4 ([a4 ->] & I4 & _). exists None, (<[c := 0]> h). split; [done|]. split; [done|]. split; [apply app_modest_insert; [done|lia]|by left].
  - exists None, (<[c := 1]> h). split; [done|]. split; [done|]. split; [done|by left].
Qed.

Lemma exchange_spec h m i eh b inc p : inv h None m -> app_modest h -> loose m b -> m_bufs m b = Some p -> roomy 12 p ->
  wp (dispatch_exchange i eh b inc) m (dispatched (left_over b p)).
Proof.
  intros I Hh Hb Ep Hp. assert (roomy 4 p) as Hp4 by (unfold roomy in *; lia). unfold dispatch_exchange. destruct (_ && _).
  { apply wp_bind. eapply wp_mono; [by apply (done_delayed h m i b p)|]. intros r m1 ([a ->] & I1 & F1).
    exists (Some b), h. split; [done|]. split; [done|]. split; [done|]. right. split; [done|]. by apply (f_loose _ _ _ _ _ F1 b Logic.I Hb). }
  apply wp_gets. destruct (find _ _) as [c|] eqn:E; [|by apply (unsolicited_spec h m i eh b inc p)].
  apply find_seq_some in E as [E _]. apply andb_prop in E as [Hu _]. unfold id in Hu.
  apply wp_bind. eapply (wp_mono _ _ (fun r m' => r = Ok tt /\ inv h None m' /\ frame all (fun c' => c' <> c) all m m' /\ ec_used (m_pool m' c) = ec_used (m_pool m c))).
  { apply wp_when; intros _; [by apply (done_set_ctx h m c _ I)|]. split; [done|]. split; [done|]. split; [apply frame_refl|done]. }
  intros r m1 (-> & I1 & F1 & Hu1). destruct (f_loose _ _ _ _ _ F1 b Logic.I Hb) as [Hb1 Eb1].
  apply wp_bind. eapply wp_mono; [apply (done_HandleMessage h m1 c i eh b p None I1 Hh); [congruence|done|congruence|done]|].
  intros r m2 ([a ->] & I2 & F2). exists None, h. split; [done|]. split; [done|]. split; [done|by left].
Qed.

Lemma wp_on_buf {A} b (f : M PacketBuffer A) m p Q : m_bufs m b = Some p ->
  Q (fst (f p)) (set_bufs (<[b := Some (snd (f p))]> (m_bufs m)) m) -> wp (on_buf b f) m Q.
Proof. intros Ep HQ. unfold wp, on_buf, bind. rewrite (live_get b m p Ep). by destruct (f p). Qed.

(** DispatchMessage on a buffer that nobody else holds. *)
Lemma DispatchMessage_spec h m i b inc p : inv h None m -> app_modest h -> loose m b -> m_bufs m b = Some p -> 0 <= Start p -> roomy kRoom p ->
  wp (DispatchMessage i b inc) m (dispatched (fun _ _ => True)).
Proof.
  intros I Hh Hb Ep H0 Hp. unfold DispatchMessage.
  assert (forall l m, (exists h, inv h None m /\ app_modest h) -> left_over b p l m ->
    wp (match l with Some b => FreeBuf b | None => ret tt end) m (dispatched (fun _ _ => True))) as Hleft.
  { intros l m' (h' & I' & Hh') [->|[-> Hb']]; [by exists tt, h'|].
    eapply wp_mono; [by apply (done_FreeBuf h' None m' b)|]. intros r m2 (-> & I2 & _). by exists tt, h'. }
  (* the header *)
  set (q := snd (DecodeExchangeHeader (mkXh 0 0 0 0 0 0) p)).
  destruct (DecodeExchangeHeader_room (mkXh 0 0 0 0 0 0) p H0 Hp) as [Hr Hq].
  apply wp_bind, wp_attempt, (wp_on_buf b _ m p); [done|].
  destruct (DecodeExchangeHeader (mkXh 0 0 0 0 0 0) p) as [hd q'] eqn:ED. subst q. cbn [fst snd] in Hr, Hq |- *.
  destruct (quiet_put b q' m (proj1 Hb)) as [_ Q1]. cbn in Q1. set (m1 := set_bufs _ m) in *.
  assert (inv h None m1) as I1 by (by eapply quiet_inv). assert (loose m1 b) as Hb1 by (by apply (quiet_loose (eq b) m m1)).
  assert (m_bufs m1 b = Some q') as Eb1 by (unfold m1; cbn; by rewrite fn_lookup_insert).
  assert (left_over b p (Some b) m1) as HL1 by (by right).
  destruct hd as [eh|e| |]; try done; [|apply wp_bind, wp_ret, (Hleft (Some b)); [by exists h|done]].
  apply wp_bind. destruct (_ && _); [apply wp_ret, (Hleft (Some b)); [by exists h|done]|].
  eapply quietly_seq; [apply quietly_when, quiet_env|]. intros _ m2 Q2.
  assert (inv h None m2) as I2 by (by eapply quiet_inv). assert (loose m2 b) as Hb2 by (by apply (quiet_loose none m1 m2)).
  apply wp_bind. eapply wp_mono; [apply (done_sync h m2 i eh b inc I2 Hh Hb2)|].
  intros r m3 (x & h3 & -> & I3 & Hh3 & Hk). destruct x; [apply wp_ret, (Hleft None); [by exists h3|by left]|].
  destruct (Hk eq_refl) as [Hb3 Eb3].
  eapply wp_mono; [apply (exchange_spec h3 m3 i eh b inc q' I3 Hh3 Hb3); [|done]|].
  { rewrite Eb3. rewrite (q_same _ _ _ Q2) by auto. exact Eb1. }
  intros r m4 (l & h' & -> & I4 & Hh4 & Hl). apply (Hleft l); [by exists h'|exact Hl].
Qed.
End Dispatch.
