(* ===== verification/ExchangeShutdown.v ===== *)
(** * Exchanges: Shutdown

    What WeaveExchangeManager::Shutdown leaves behind when no reference to a context
    is held but the retransmission table's: an empty table, no context in use and no
    timer, so that nothing calls a manager that has no message layer. *)
From stdpp Require Import functions.
From S2P Require Import Prelude Encoding PacketBuffer PacketBufferChain ExchangeTypes ExchangeMgr ExchangeInv ExchangeQuiet ExchangeRefs ExchangeSafe ExchangeSend ExchangeWrmp ExchangeRecv.
Local Open Scope Z_scope.
Open Scope weave_scope.

(** A step after which [P] holds, whatever came before it. *)
Definition ends_in {S A} (P : S -> Prop) : res A -> S -> Prop := fun r s => (exists a, r = Ok a) -> P s.
Lemma wp_ends {S A B} (P : S -> Prop) (f : M S A) (k : A -> M S B) s :
  (forall a s, wp (k a) s (ends_in P)) -> wp (bind f k) s (ends_in P).
Proof. intros Hk. unfold wp, bind. destruct (f s) as [[a|e| |] s']; [apply Hk|by intros [? ?]..]. Qed.

Section Shutdown.
Context {T : Type} `{ExchangeEnv T}.
Implicit Types m : Mgr T.

(** The timer is armed for an entry of the table or for the acknowledgement of a context. *)
Definition timer_for m : Prop := m_timer m = None \/ (exists i, active m i) \/ exists c, ec_used (m_pool m c) = true.

Lemma wake_ack_found m l w : snd (fold_left (wake_ack m) l w) = true -> snd w = true \/ exists c, ec_used (m_pool m c) = true.
Proof.
  revert w. induction l as [|c l IH]; intros w Hw; [by left|]. destruct (IH _ Hw) as [E|]; [|by right]. revert E. unfold wake_ack.
  destruct (ec_used (m_pool m c)) eqn:Hu; cbn [andb]; [|by left]. intros _. right. by exists c.
Qed.
Lemma wake_entry_found m l w : snd (fold_left (wake_entry m) l w) = true -> snd w = true \/ exists i, active m i.
Proof.
  revert w. induction l as [|i l IH]; intros w Hw; [by left|]. destruct (IH _ Hw) as [E|]; [|by right]. revert E. unfold wake_entry.
  destruct (re_exchContext (m_table m i)) as [c|] eqn:Hi; [|by left]. intros _. right. exists i. unfold active. congruence.
Qed.
Lemma next_wake_found m w : next_wake m = (w, true) -> (exists i, active m i) \/ exists c, ec_used (m_pool m c) = true.
Proof.
  unfold next_wake. intros E. match type of E with fold_left _ ?l ?w0 = _ => pose proof (wake_entry_found m l w0) as HE end.
  rewrite E in HE. destruct (HE eq_refl) as [HA|]; [right|by left]. by destruct (wake_ack_found m _ _ HA).
Qed.

Lemma StartTimer_timer m : wp WRMPStartTimer m (ends_in timer_for).
Proof.
  unfold WRMPStartTimer. apply wp_modify, wp_gets. unfold id. destruct (next_wake _) as [w []] eqn:E; [|intros _; by left].
  cbn zeta. unfold service, attempt, wp, bind. cbn. destruct (env_StartTimer _ _) as [[e|] t]; cbn; [by intros [? ?]|].
  intros _. right. exact (next_wake_found _ w E).
Qed.

Lemma Clear_timer i m : timer_for m -> wp (ClearRetransmitTable_entry i) m (ends_in timer_for).
Proof.
  intros Hm. unfold ClearRetransmitTable_entry, ClearRetransmitTable_entry_. apply wp_gets.
  destruct (re_exchContext (m_table m i)); [|by intros _]. do 6 (apply wp_ends; intros ? ?). apply StartTimer_timer.
Qed.

(** With an empty table, a context in use has a user. *)
Lemma inv_idle m : inv (fun _ => 0) None m -> (forall i, ~ active m i) -> forall c, ec_used (m_pool m c) = false.
Proof.
  intros I Ha c. apply not_true_is_false. intros Hu. destruct (i_ref _ _ _ I c Hu) as [E H1].
  assert (refs None m c = 0) as E0; [|lia]. unfold refs. rewrite (count_if_ext _ (fun _ => false)); [done|].
  intros i _. unfold holds. rewrite bool_decide_eq_false_2; [done|]. intros Ei. apply (Ha i). unfold active. congruence.
Qed.

Lemma inv_no_holder h m : inv h None m -> (forall c, ec_used (m_pool m c) = true -> h c = 0) -> inv (fun _ => 0) None m.
Proof.
  intros [] H0. split; auto.
  - intros c Hu. rewrite <- (H0 c Hu). by apply i_ref.
  - unfold kMaxHolds. lia.
Qed.

Context `{!ExchangeEnvLaws T}.

Definition shut m : Prop := m_timer m = None /\ (forall i, ~ active m i) /\ forall c, ec_used (m_pool m c) = false.

Lemma shutdown_table_spec m : inv (fun _ => 0) None m ->
  wp shutdown_table m (fun r m' => r = Ok tt /\ inv (fun _ => 0) None m' /\ shut m').
Proof.
  intros I. unfold shutdown_table. apply wp_modify.
  pose (J := fun (j : nat) m => inv (fun _ => 0) None m /\ (forall i, (i < j)%nat -> ~ active m i) /\ timer_for m).
  eapply wp_mono; [apply (wp_for_at _ J)|].
  - intros j s _ (Ij & Hj & Ht). destruct (re_exchContext (m_table s j)) as [c|] eqn:E.
    + eapply wp_mono; [apply wp_and; [apply (Clear_timer j s Ht)|]|].
      { apply (done_Clear Release (fun _ => 0) s j c); [exact (Release_or (fun _ => 0) s c j)|done|done|unfold kMaxHolds; lia]. }
      intros r s' (HT & -> & I' & Hn & F). split; [done|]. split; [done|]. split; [|by apply HT; exists tt].
      intros i Hi. destruct (decide (i = j)) as [->|Hne]; [done|]. apply (f_free _ _ _ _ _ F); [done|]. apply Hj. lia.
    + unfold ClearRetransmitTable_entry, ClearRetransmitTable_entry_. apply wp_gets. rewrite E. apply wp_ret. split; [done|].
      split; [done|]. split; [|done]. intros i Hi. destruct (decide (i = j)) as [->|Hne]; [unfold active; congruence|]. apply Hj. lia.
  - split; [by eapply quiet_inv; [apply quiet_timer|]|]. split; [lia|by left].
  - intros r m' (-> & I' & Ha & HT). split; [done|]. split; [done|].
    assert (forall i, ~ active m' i) as Hall.
    { intros i Hi. apply (Ha i); [|done]. by apply (i_out _ _ _ I'). }
    pose proof (inv_idle m' I' Hall) as Hu. split; [|done].
    destruct HT as [|[[i Hi]|[c Hc]]]; [done|by destruct (Hall i)|by rewrite Hu in Hc].
Qed.
End Shutdown.
