(* ===== verification/ExchangeSafety.v ===== *)
(** * Exchanges: what may happen to a node, and that it is safe

    The operations that the application, the network and the clock make on the
    exchange manager, Shutdown and the next Init among them, as a step relation; every
    state they lead to is sound, and none of them is ever undefined. *)
From stdpp Require Import functions relations.
From S2P Require Import Prelude Encoding KeyIds PacketBuffer PacketBufferChain PeerTable FabricState MessageLayer Address ExchangeHeader ExchangeTypes ExchangeMgr ExchangeInv ExchangeQuiet ExchangeRefs ExchangeSafe ExchangeSend ExchangeWrmp ExchangeRecv ExchangeDispatch ExchangeShutdown.
Local Open Scope Z_scope.
Open Scope weave_scope.

Inductive Op :=
  | OpNewContext (peerNodeId : Z) (peerAddr : IPAddress) (peerPort sendIntfId : Z)
  | OpNewContext_con (con : nat) (peerNodeId : Z) (peerAddr : IPAddress) (peerPort keyId encType : Z)
  | OpSetCallbacks (c : nat) (cb : Callbacks)
  | OpSetAutoRequestAck (c : nat) (x : bool)
  | OpSetWRMPConfig (c : nat) (config : WRMPConfig)
  | OpAddRef (c : nat)
  | OpRelease (c : nat)
  | OpClose (c : nat)
  | OpAbort (c : nat)
  | OpNewBuf (n : Z)
  | OpFillBuf (b : nat) (bytes : list Z)
  | OpFreeBuf (b : nat)
  | OpSendMessage (c : nat) (profileId msgType : Z) (b : nat) (sendFlags msgCtxt : Z)
  | OpSendThrottleFlow (c : nat) (ms : Z)
  | OpSendDelayedDelivery (c : nat) (ms node : Z)
  | OpReceive (i : WeaveMessageInfo) (b : nat) (inc : Incoming)
  | OpWait (ms : Z)
  | OpResponseTimeout (c : nat)
  | OpSessionFailed (peerNodeId keyId : Z) (e : WEAVE_ERROR) (isKeyErr : bool)
  | OpConnectionClosed (con : nat) (e : WEAVE_ERROR)
  | OpRegisterUMH (profileId msgType : Z) (con : option nat) (allowDups : bool) (handler : Z)
  | OpUnregisterUMH (profileId msgType : Z) (con : option nat).

(** What needs neither the message layer nor the fabric state: the buffers and the
    registered handlers. *)
Definition without_layer (o : Op) : bool :=
  match o with OpNewBuf _ | OpFillBuf _ _ | OpFreeBuf _ | OpRegisterUMH _ _ _ _ _ | OpUnregisterUMH _ _ _ => true | _ => false end.

Inductive NodeOp :=
  | Do (o : Op)
  | DoInit (rand : Z)
  | DoShutdown.

Section Safety.
Context {T : Type} `{ExchangeEnv T}.
Implicit Types m : Mgr T.

Definition set_WRMPConfig (x : WRMPConfig) (e : ExchangeContext) : ExchangeContext :=
  let p := ec_peer e in
  set_peer (mkPeer (ec_ExchangeId p) (ec_PeerNodeId p) (ec_PeerAddr p) (ec_PeerPort p) (ec_PeerIntf p) (ec_Con p) (ec_EncryptionType p)
                   (ec_KeyId p) (ec_AllowDuplicateMsgs p) (ec_ResponseTimeout p) x) e.

Definition run_op (o : Op) : M (Mgr T) unit :=
  match o with
  | OpNewContext n a p i => ignore (NewContext n a p i)
  | OpNewContext_con con n a p k t => ignore (NewContext_con con n a p k t)
  | OpSetCallbacks c cb => on_ec c (set_cb cb)
  | OpSetAutoRequestAck c x => on_ec c (SetAutoRequestAck x)
  | OpSetWRMPConfig c x => on_ec c (set_WRMPConfig x)
  | OpAddRef c => AddRef c
  | OpRelease c => Release c
  | OpClose c => Close c
  | OpAbort c => Abort_exchange c
  | OpNewBuf n => ignore (NewBuf n)
  | OpFillBuf b bytes => fill_buf b bytes
  | OpFreeBuf b => FreeBuf b
  | OpSendMessage c p t b f x => SendMessage c p t b f x
  | OpSendThrottleFlow c ms => WRMPSendThrottleFlow c ms
  | OpSendDelayedDelivery c ms n => WRMPSendDelayedDelivery c ms n
  | OpReceive i b inc => DispatchMessage i b inc
  | OpWait ms => wait ms
  | OpResponseTimeout c => HandleResponseTimeout c
  | OpSessionFailed n k e x => NotifySecureSessionFailed n k e x
  | OpConnectionClosed con e => HandleConnectionClosed con e
  | OpRegisterUMH p t c d u => RegisterUMH p t c d u
  | OpUnregisterUMH p t c => UnregisterUMH p t c
  end.

(** Time passes while there is no message layer: a timer that goes off would use it. *)
Definition idle_wait (ms : Z) : M (Mgr T) unit :=
  do* modify (fun m => set_now (m_now m + ms) m) in
  let* timer := gets m_timer in
  match timer with None => ret tt | Some _ => undefined end.
Definition node_wait (ms : Z) : M (ExchangeManager T) unit :=
  let* up := gets em_MessageLayer in
  on_mgr (if up then wait ms else idle_wait ms).

Definition node_op (o : NodeOp) : M (ExchangeManager T) unit :=
  match o with
  | Do (OpWait ms) => node_wait ms
  | Do o => if without_layer o then on_mgr (run_op o) else with_layer (run_op o)
  | DoInit rand => Manager_Init rand
  | DoShutdown => Mgr_Shutdown
  end.

(** The references to a context other than the table's: its users'. *)
Definition holders m (c : nat) : Z := ec_mRefCount (m_pool m c) - refs None m c.
(** The caller has a reference to a context in use. *)
Definition has_ref m (c : nat) : Prop := ec_used (m_pool m c) = true /\ 1 <= holders m c.

(** What the users of the manager owe it: a reference of their own to the
    contexts they name, no more than [kMaxAppHolds] of them, a live buffer that they have not handed over,
    room in the buffers of received messages; and time is a 63-bit number of milliseconds. *)
Definition allowed (o : Op) m : Prop :=
  match o with
  | OpSetCallbacks c _ | OpSetAutoRequestAck c _ | OpSetWRMPConfig c _ | OpRelease c | OpClose c | OpAbort c
  | OpSendThrottleFlow c _ | OpSendDelayedDelivery c _ _ => has_ref m c
  | OpAddRef c => has_ref m c /\ holders m c < kMaxAppHolds
  | OpFillBuf b _ | OpFreeBuf b => loose m b
  | OpSendMessage c _ _ b f _ => has_ref m c /\ loose m b /\ sf_has kSendFlag_RetransmissionTrickle f = false
  | OpReceive _ b _ => loose m b /\ exists p, m_bufs m b = Some p /\ 0 <= Start p /\ roomy kRoom p
  | OpWait ms => 0 <= ms /\ m_now m + ms < 2 ^ 63
  | _ => True
  end.

Definition sound m : Prop := exists h, inv h None m /\ app_modest h.

(** Between Shutdown and the next Init only the buffers, the clock and the registered
    handlers are used; nobody holds a context when Shutdown is called. *)
Definition node_allowed (o : NodeOp) (n : ExchangeManager T) : Prop :=
  match o with
  | Do o => allowed o (em_mgr n) /\ (em_MessageLayer n = true \/ without_layer o = true \/ exists ms, o = OpWait ms)
  | DoInit _ => True
  | DoShutdown => forall c, ec_used (m_pool (em_mgr n) c) = true -> holders (em_mgr n) c = 0
  end.

Definition node_sound (n : ExchangeManager T) : Prop := sound (em_mgr n) /\ (em_MessageLayer n = false -> shut (em_mgr n)).

(** The states of a node that starts at [now], and those of its manager. *)
Inductive step (n : ExchangeManager T) : ExchangeManager T -> Prop :=
  | step_op o : node_allowed o n -> step n (snd (node_op o n)).
Definition node_reachable (n : ExchangeManager T) : Prop :=
  exists rand now t, 0 <= now < 2 ^ 63 /\ rtc step (mkManager true (Mgr_Init rand now t)) n.
Definition reachable m : Prop := exists up, node_reachable (mkManager up m).

Lemma sound_init rand now (t : T) : 0 <= now < 2 ^ 63 -> sound (Mgr_Init rand now t).
Proof.
  intros Hn. exists (fun _ => 0). split; [|unfold app_modest, kMaxAppHolds; intros; lia].
  split; try done. unfold time_ok. cbn. lia.
Qed.

Lemma holders_inv h m c : inv h None m -> ec_used (m_pool m c) = true -> holders m c = h c.
Proof. intros I Hu. destruct (i_ref _ _ _ I c Hu) as [E _]. unfold holders. lia. Qed.

Lemma app_modest_dec h c : app_modest h -> app_modest (dec c h).
Proof. intros Hh c'. specialize (Hh c'). unfold dec, kMaxAppHolds in *. fn. Qed.

Lemma inv_umh h X m f : inv h X m -> inv h X (set_umh f m).
Proof. intros []. by split. Qed.

Section Laws.
Context `{!ExchangeEnvLaws T}.

(** An operation that returns, in a sound state. *)
Definition keeps_sound (f : M (Mgr T) unit) m : Prop := wp f m (fun r m' => safe_result r /\ sound m').

Lemma keeps_safe h Pi Pc Pb f m : app_modest h -> wp f m (safe_with h None Pi Pc Pb m) -> keeps_sound f m.
Proof. intros Hh Hf. eapply wp_mono; [exact Hf|]. intros r m' (Hr & I & _). split; [exact Hr|]. by exists h. Qed.
Lemma keeps_done h Pi Pc Pb f m : app_modest h -> wp f m (done_with h None Pi Pc Pb m) -> keeps_sound f m.
Proof. intros Hh Hf. apply (keeps_safe h Pi Pc Pb); [done|by apply done_safe]. Qed.
Lemma keeps_ctx h c g m : inv h None m -> app_modest h ->
  (forall e, ec_used (g e) = ec_used e /\ ec_mRefCount (g e) = ec_mRefCount e /\ tr_msg (ec_trickle (g e)) = tr_msg (ec_trickle e)) -> keeps_sound (on_ec c g) m.
Proof. intros I Hh Hg. eapply wp_mono; [by apply (done_set_ctx h m c g I)|]. intros r m' (-> & I' & _). split; [done|by exists h]. Qed.
Lemma keeps_quiet h D f m : inv h None m -> app_modest h -> wp f m (quiet_or_fails_but D m) -> keeps_sound f m.
Proof. intros I Hh Hf. eapply wp_mono; [exact Hf|]. intros r m' (Hr & Q). split; [exact Hr|]. exists h. split; [by eapply quiet_inv|done]. Qed.

(** Giving a reference back. *)
Lemma keeps_released h c f m (Pi Pc Pb : nat -> Prop) : inv h None m -> app_modest h -> has_ref m c ->
  (inv (inc c (dec c h)) None m -> 0 <= dec c h c -> modest (inc c (dec c h)) -> wp f m (done_with (dec c h) None Pi Pc Pb m)) -> keeps_sound f m.
Proof.
  intros I Hh [Hu Hc] Hf. rewrite (holders_inv h m c I Hu) in Hc. apply (keeps_done (dec c h) Pi Pc Pb); [by apply app_modest_dec|]. apply Hf.
  - eapply inv_ext; [|exact I]. intros c'. apply inc_dec.
  - unfold dec. rewrite fn_lookup_insert. lia.
  - by apply modest_inc, app_modest_dec.
Qed.

Lemma keeps_NewContext h n a p i m (k : option nat -> M (Mgr T) (option nat)) : inv h None m -> app_modest h ->
  (forall r m h c, inv h None m -> app_modest h -> (r = None \/ r = Some c) -> wp (k r) m (fun x m' => (exists a, x = Ok a) /\ sound m')) ->
  keeps_sound (ignore (bind (NewContext n a p i) k)) m.
Proof.
  intros I Hh Hk. apply wp_ignore, wp_bind. eapply wp_mono; [by apply (NewContext_spec h m n a p i)|].
  intros r m1 [[-> ->]|(c & -> & _ & _ & I1 & _)].
  - eapply wp_mono; [apply (Hk None m h 0%nat I Hh); by left|]. by intros r m' ([x ->] & S).
  - eapply wp_mono; [apply (Hk (Some c) m1 (<[c := 1]> h) c I1); [apply app_modest_insert; [done|lia]|by right]|]. by intros r m' ([x ->] & S).
Qed.

Lemma keeps_wait h ms m : inv h None m -> app_modest h -> 0 <= ms -> m_now m + ms < 2 ^ 63 -> keeps_sound (wait ms) m.
Proof.
  intros I Hh Hms Hn. unfold wait, keeps_sound. apply wp_modify.
  assert (inv h None (set_now (m_now m + ms) m)) as I1.
  { destruct I. split; try done. destruct i_time as (E & HB & HN). unfold time_ok. cbn. lia. }
  by apply (keeps_done h none (held h) all); [|apply done_Timeout, modest_app].
Qed.

Lemma keeps_closed h con e m : inv h None m -> app_modest h -> keeps_sound (HandleConnectionClosed con e) m.
Proof.
  intros I Hh. unfold HandleConnectionClosed. apply wp_bind.
  eapply wp_mono; [apply (wp_for _ (fun m => inv h None m)); [|exact I]|].
  - clear m I. intros c m _ I. unfold close_connection. apply wp_gets. apply wp_when; [intros _|done].
    eapply quietly_seq; [by apply quiet_ec; intros; apply (core_set_flag 1)|]. intros _ m1 Q1.
    eapply quietly_seq; [by apply quiet_ec|]. intros _ m2 Q2. assert (inv h None m2) as I2 by (eapply quiet_inv; [exact Q2|]; by eapply quiet_inv).
    apply wp_when; [intros _|done]. eapply wp_mono; [apply quiet_emit|]. intros r m3 ([[] ->] & Q3). split; [done|by eapply quiet_inv].
  - intros r m1 (-> & I1). eapply wp_mono; [apply (wp_for _ (fun m => inv h None m)); [|exact I1]|].
    + intros k m2 _ I2. split; [done|]. by apply inv_umh.
    + intros r m2 (-> & I2). split; [done|by exists h].
Qed.

Lemma keeps_umh h (f : M (Mgr T) unit) m : inv h None m -> app_modest h ->
  ((exists g, f m = (Ok tt, set_umh g m)) \/ exists e, f m = (Err e, m)) -> keeps_sound f m.
Proof.
  intros I Hh [[g E]|[e E]]; unfold keeps_sound, wp; rewrite E; (split; [done|]); exists h; (split; [|done]); [by apply inv_umh|done].
Qed.

Lemma run_op_sound o m : sound m -> allowed o m -> keeps_sound (run_op o) m.
Proof.
  intros (h & I & Hh) Ho. pose proof (modest_app h Hh) as Hm.
  assert (forall c, has_ref m c -> ec_used (m_pool m c) = true /\ h c + 1 < kMaxHolds) as Hc by (intros c [Hu _]; split; [done|apply Hm]).
  destruct o; cbn [run_op allowed] in *.
  - apply wp_ignore. eapply wp_mono; [by apply (NewContext_spec h m)|]. intros r m1 [[-> ->]|(c & -> & _ & _ & I1 & _)]; (split; [done|]).
    + by exists h.
    + exists (<[c := 1]> h). split; [done|apply app_modest_insert; [done|lia]].
  - apply (keeps_NewContext h); [done|done|]. intros [c|] m1 h1 c1 I1 Hh1 _; [|by split; [eexists|exists h1]].
    apply wp_bind. eapply wp_mono; [by apply (done_set_ctx h1 m1 c _ I1)|]. intros r m2 (-> & I2 & _). split; [by eexists|by exists h1].
  - by apply (keeps_ctx h).
  - by apply (keeps_ctx h).
  - by apply (keeps_ctx h).
  - destruct Ho as [Hr Hlt]. pose proof Hr as [Hu H1]. rewrite (holders_inv h m c I Hu) in Hlt, H1.
    apply (keeps_done (inc c h) all all all).
    + intros c'. specialize (Hh c'). unfold inc, kMaxAppHolds in *. fn.
    + apply done_AddRef; [done|done|by unfold kMaxAppHolds, kMaxHolds in *; lia].
  - eapply (keeps_released h c); [done|done|done|]. intros I' Hc' Hm'. apply (Release_releases _ None m c I'); [apply Ho|done].
  - eapply (keeps_released h c); [done|done|done|]. intros I' Hc' Hm'. apply done_Close; [done|apply Ho|done|done].
  - eapply (keeps_released h c); [done|done|done|]. intros I' Hc' Hm'. apply done_Abort; [done|apply Ho|done|done].
  - apply wp_ignore. eapply wp_mono; [by apply (done_NewBuf h None n m)|]. intros [b|e| |] m1; try done.
    + intros (_ & _ & I1 & _). split; [done|by exists h].
    + intros [-> ->]. split; [done|by exists h].
  - apply (keeps_quiet h (eq b)); [done|done|]. apply quietly_fails, quietly_on_buf, Ho.
  - eapply wp_mono; [by apply (done_FreeBuf h None m b)|]. intros r m1 (-> & I1 & _). split; [done|by exists h].
  - destruct Ho as (Hr & Hl & Ht). destruct (Hc c Hr). eapply (keeps_safe h (active m)); [done|].
    apply (safe_SendMessage Release h None (active m)); auto using Release_spares.
  - destruct (Hc c Ho). eapply (keeps_safe h); [done|by apply safe_send_control].
  - destruct (Hc c Ho). eapply (keeps_safe h); [done|by apply safe_send_control].
  - destruct Ho as (Hl & p & Ep & H0 & Hp). eapply wp_mono; [by apply (DispatchMessage_spec h m i b inc p)|].
    intros r m1 (a & h' & -> & I1 & Hh1 & _). split; [done|by exists h'].
  - destruct Ho. by apply (keeps_wait h).
  - apply (keeps_quiet h none); [done|done|]. unfold HandleResponseTimeout. apply wp_gets. apply quietly_fails, quietly_when, quiet_emit.
  - by eapply (keeps_done h), done_Notify.
  - by apply (keeps_closed h).
  - apply (keeps_umh h); [done|done|]. unfold RegisterUMH, bind, gets, on_umh, modify, id. destruct (find _ _); [left; by eexists|].
    destruct (find _ _); [left; by eexists|right; by eexists].
  - apply (keeps_umh h); [done|done|]. unfold UnregisterUMH, bind, gets, on_umh, modify, id. destruct (find _ _); [left; by eexists|right; by eexists].
Qed.

Lemma wp_fst {A} (f : M (Mgr T) A) m (P : res A -> Prop) Q : wp f m (fun r m' => P r /\ Q m') -> P (fst (f m)).
Proof. unfold wp. by intros []. Qed.

Lemma run_op_next o m : sound m -> allowed o m -> sound (snd (run_op o m)).
Proof. intros HS Ho. pose proof (run_op_sound o m HS Ho) as HX. unfold keeps_sound, wp in HX. destruct (run_op o m) as [r m']. apply HX. Qed.

(** ** Init and Shutdown *)

Definition keeps_node (f : M (ExchangeManager T) unit) n : Prop := wp f n (fun r n' => safe_result r /\ node_sound n').

Lemma wp_on_mgr {A} (f : M (Mgr T) A) n Q : wp f (em_mgr n) (fun r m' => Q r (mkManager (em_MessageLayer n) m')) -> wp (on_mgr f) n Q.
Proof. unfold wp, on_mgr. by destruct (f (em_mgr n)). Qed.

Lemma keeps_up f m : keeps_sound f m -> keeps_node (on_mgr f) (mkManager true m).
Proof. intros Hf. apply wp_on_mgr. unfold keeps_sound in Hf. eapply wp_mono; [exact Hf|]. intros r m' [Hr HS]. split; [done|]. by split. Qed.

(** What needs no message layer leaves an idle manager idle. *)
Lemma idle_op o m : without_layer o = true -> let m' := snd (run_op o m) in m_timer m' = m_timer m /\ m_pool m' = m_pool m /\ m_table m' = m_table m.
Proof.
  destruct o; try done; intros _; cbn [run_op]; cbv zeta.
  - unfold ignore, attempt, bind, NewBuf. destruct (_ <? _); [done|]. by destruct (find _ _).
  - unfold fill_buf, on_buf, bind, get_buf. destruct (m_bufs m b); [|done]. cbn. done.
  - unfold FreeBuf, bind, get_buf. by destruct (m_bufs m b).
  - unfold RegisterUMH, bind, gets, on_umh, modify, id. destruct (find _ _); [done|]. by destruct (find _ _).
  - unfold UnregisterUMH, bind, gets, on_umh, modify, id. by destruct (find _ _).
Qed.

Lemma keeps_down o m : sound m -> shut m -> allowed o m -> without_layer o = true -> keeps_node (on_mgr (run_op o)) (mkManager false m).
Proof.
  intros HS (Ht & Ha & Hu) Ho Hw. apply wp_on_mgr. pose proof (run_op_sound o m HS Ho) as HO. unfold keeps_sound in HO. pose proof (idle_op o m Hw) as (Et & Ep & Etab).
  eapply wp_mono; [apply wp_and; [exact HO|exact (wp_itself (run_op o) m)]|]. intros r m' [[Hr HS'] E].
  cbv zeta in *. rewrite <- E in *. split; [done|]. split; [exact HS'|]. intros _. unfold shut, active. cbn [em_mgr].
  split; [congruence|]. split; [intros i Hi; apply (Ha i); unfold active; congruence|intros c; rewrite Ep; apply Hu].
Qed.

Lemma keeps_idle_wait ms m : sound m -> shut m -> allowed (OpWait ms) m -> keeps_node (on_mgr (idle_wait ms)) (mkManager false m).
Proof.
  intros (h & I & Hh) (Ht & Hs) [Hms Hn]. apply wp_on_mgr. unfold idle_wait. apply wp_modify, wp_gets. change (m_timer (set_now _ _)) with (m_timer m). rewrite Ht.
  split; [done|]. split; [|by split]. exists h. split; [|done]. destruct I. split; try done. destruct i_time as (E & HB & HN). unfold time_ok. cbn. lia.
Qed.

Lemma reset_sound rand m : sound m -> sound (Mgr_reset rand m).
Proof.
  intros (h & I & _). exists (fun _ => 0). split; [|unfold app_modest, kMaxAppHolds; intros; lia].
  destruct (i_time _ _ _ I) as (_ & HB & HN). split; try done. unfold time_ok. cbn. lia.
Qed.

Lemma keeps_Init rand n : node_sound n -> keeps_node (Manager_Init rand) n.
Proof.
  intros [HS Hd]. unfold Manager_Init, keeps_node. apply wp_gets. destruct (em_MessageLayer n) eqn:E; (split; [done|]).
  - split; [exact HS|]. cbn. congruence.
  - split; [by apply reset_sound|done].
Qed.

Lemma Mgr_Shutdown_shuts n : node_sound n -> node_allowed DoShutdown n ->
  wp Mgr_Shutdown n (fun r n' => r = Ok tt /\ node_sound n' /\ em_MessageLayer n' = false).
Proof.
  intros [(h & I & Hh) Hd] H0. unfold Mgr_Shutdown. apply wp_gets.
  eapply (wp_seq _ _ n _ (fun _ n1 => sound (em_mgr n1) /\ shut (em_mgr n1))).
  - apply wp_when; intros E; [|exists tt; split; [done|]; by split; [exists h|apply Hd]]. apply wp_on_mgr.
    eapply wp_mono; [apply shutdown_table_spec, (inv_no_holder h); [done|]|].
    + intros c Hu. rewrite <- (holders_inv h (em_mgr n) c I Hu). by apply H0.
    + intros r m' (-> & I' & Hs). exists tt. split; [done|]. split; [|done]. exists (fun _ => 0). split; [done|]. unfold app_modest, kMaxAppHolds; intros; lia.
  - intros _ n1 [HS Hs]. split; [done|]. by split; [split|].
Qed.

Lemma node_op_keeps o n : node_sound n -> node_allowed o n -> keeps_node (node_op o) n.
Proof.
  intros HS Ho. destruct o as [o|rand|].
  - destruct n as [[] m], HS as [HS Hd], Ho as [Ho Hl]; cbn [em_mgr em_MessageLayer] in *.
    + pose proof (keeps_up _ m (run_op_sound o m HS Ho)) as HK. by destruct o.
    + specialize (Hd eq_refl). destruct Hl as [|[Hw|[ms ->]]]; [done| |by apply keeps_idle_wait].
      pose proof (keeps_down o m HS Hd Ho Hw) as HK. by destruct o.
  - by apply keeps_Init.
  - eapply wp_mono; [by apply Mgr_Shutdown_shuts|]. by intros r n' (-> & HS' & _).
Qed.

Lemma node_op_next o n : node_sound n -> node_allowed o n -> node_sound (snd (node_op o n)).
Proof. intros HS Ho. pose proof (node_op_keeps o n HS Ho) as HX. unfold keeps_node, wp in HX. apply HX. Qed.

Lemma node_reachable_sound n : node_reachable n -> node_sound n.
Proof.
  intros (rand & now & t & Hn & HR). assert (node_sound (mkManager true (Mgr_Init rand now t))) as HS by (split; [by apply sound_init|done]). clear Hn.
  induction HR as [n|n1 n2 n3 [o Ho] HR IH]; [done|]. by apply IH, node_op_next.
Qed.
Lemma reachable_sound m : reachable m -> sound m.
Proof. intros [up HR]. apply (node_reachable_sound _ HR). Qed.
End Laws.

(** C21: No operation on the exchange manager is ever undefined: in every state that the
    operations of the application, the messages received, the timer, the failures of
    sessions, the closing of connections, Shutdown and the next Init can lead to, the next
    operation returns, with success or an error: it uses no freed buffer or context, lets no
    reference count wrap around, releases nothing that is not held, and goes through no
    pointer to the message layer or the fabric state while they are NULL. After Shutdown the
    retransmission table is empty, no context is in use and no timer is armed. It is assumed
    that the system layer has a timer whenever one is started (without one the process ends
    in VerifyOrDie), and that the application keeps to its part: it names only contexts of
    which it holds a reference, holds at most 200 of each, hands over each buffer once,
    sends no message with the Trickle flag (for an interval of 1 StartTimerT divides by
    zero), holds no reference when it calls Shutdown, as its doc asks, and until the next
    Init uses only buffers and the registration of handlers. The payload of a received
    buffer starts at least 24 bytes before the buffer's end, the clock stays below 2^63 ms,
    and the application's callbacks are recorded, what they call on the manager being
    operations of their own that follow. *)
Theorem Exchange_never_undefined `{!ExchangeEnvLaws T} n o : node_reachable n -> node_allowed o n ->
  safe_result (fst (node_op o n)) /\ (o = DoShutdown -> shut (em_mgr (snd (node_op o n)))).
Proof.
  intros HR Ho. pose proof (node_reachable_sound n HR) as HS. split; [apply (node_op_keeps o n HS Ho)|].
  intros ->. destruct (Mgr_Shutdown_shuts n HS Ho) as (_ & [_ Hs] & Hf). by apply Hs.
Qed.

(** C22: In every reachable state the tables of the exchange manager agree: an entry
    of the retransmission table is within the table, belongs to an exchange
    context in use and owns a live buffer that no other entry owns; an exchange
    context in use lies within the pool and has a reference count of at
    least 1, below 256, that counts its entries of the table and its users; and
    the base of the timer's ticks is never ahead of the clock. *)
Theorem Exchange_tables_agree `{!ExchangeEnvLaws T} m : reachable m ->
  (forall i c, re_exchContext (m_table m i) = Some c -> (i < WEAVE_CONFIG_WRMP_RETRANS_TABLE_SIZE)%nat /\ ec_used (m_pool m c) = true /\
     exists b, re_msgBuf (m_table m i) = Some b /\ live m b) /\
  (forall i j, active m i -> active m j -> re_msgBuf (m_table m i) = re_msgBuf (m_table m j) -> i = j) /\
  (forall c, ec_used (m_pool m c) = true -> (c < WEAVE_CONFIG_MAX_EXCHANGE_CONTEXTS)%nat /\ 1 <= ec_mRefCount (m_pool m c) < 256 /\
     refs None m c <= ec_mRefCount (m_pool m c)) /\
  0 <= m_base m <= m_now m.
Proof.
  intros HR. destruct (reachable_sound m HR) as (h & I & Hh). split; [|split; [|split]].
  - intros i c Ei. assert (active m i) as Ha by (unfold active; congruence).
    split; [by apply I|]. split; [by eapply i_entry|by apply I].
  - apply I.
  - intros c Hu. destruct (i_ref _ _ _ I c Hu) as [E H1]. pose proof (refs_range None m c). specialize (Hh c). unfold kMaxAppHolds in Hh.
    unfold WEAVE_CONFIG_WRMP_RETRANS_TABLE_SIZE, WEAVE_SYSTEM_CONFIG_PACKETBUFFER_MAXALLOC in *. pose proof (i_holds _ _ _ I c). split; [by eapply i_pool|]. lia.
  - apply (i_time _ _ _ I).
Qed.
End Safety.

(** ** A run of the test node: a message that wants an acknowledgement *)

#[export] Instance test_laws : ExchangeEnvLaws TestNode.
Proof. by split. Qed.

Definition run_ops {T} `{ExchangeEnv T} (l : list Op) (m : Mgr T) : Mgr T := foldl (fun m o => snd (run_op o m)) m l.

Definition test_ops : list Op :=
  [OpNewContext 9 IPAddress_Any 0 0; OpSetCallbacks 0 all_callbacks; OpNewBuf 4; OpFillBuf 0 [1; 2; 3; 4];
   OpSendMessage 0 1 1 0 kSendFlag_RequestAck 77].
Definition test_sent : Mgr TestNode := run_ops test_ops test_mgr.

(** A manager with its message layer. *)
Definition running {T} `{ExchangeEnv T} (m : Mgr T) : Prop := node_reachable (mkManager true m).

Lemma node_step {T} `{ExchangeEnv T} (n : ExchangeManager T) o : node_reachable n -> node_allowed o n -> node_reachable (snd (node_op o n)).
Proof. intros (rand & now & t & Hn & HR) Ho. exists rand, now, t. split; [done|]. eapply rtc_r; [exact HR|by constructor]. Qed.

Lemma node_op_layer {T} `{ExchangeEnv T} (m : Mgr T) o : node_op (Do o) (mkManager true m) = on_mgr (run_op o) (mkManager true m).
Proof. destruct o; cbn [node_op without_layer run_op]; unfold with_layer, node_wait, bind, gets; cbn [em_MessageLayer]; reflexivity. Qed.
Lemma node_op_up {T} `{ExchangeEnv T} (m : Mgr T) o : snd (node_op (Do o) (mkManager true m)) = mkManager true (snd (run_op o m)).
Proof. rewrite node_op_layer. unfold on_mgr. cbn [em_mgr em_MessageLayer]. by destruct (run_op o m). Qed.

Lemma running_step {T} `{ExchangeEnv T} (m : Mgr T) o : running m -> allowed o m -> running (snd (run_op o m)).
Proof. intros HR Ho. unfold running. rewrite <- node_op_up. apply node_step; [exact HR|]. split; [exact Ho|by left]. Qed.
Lemma running_init {T} `{ExchangeEnv T} rand now (t : T) : 0 <= now < 2 ^ 63 -> running (Mgr_Init rand now t).
Proof. intros Hn. by exists rand, now, t. Qed.
Lemma running_reachable {T} `{ExchangeEnv T} (m : Mgr T) : running m -> reachable m.
Proof. by exists true. Qed.

(** A buffer, while the table is empty. *)
Lemma loose_idle {T} `{ExchangeEnv T} (m : Mgr T) b : live m b -> (forall i, re_exchContext (m_table m i) = None) -> loose m b.
Proof. intros Hl Ht. split; [done|]. intros i Ha. by destruct Ha. Qed.

Ltac test_allowed := cbn [allowed]; lazymatch goal with
  | |- _ /\ _ => split; test_allowed
  | |- has_ref _ _ => split; test_allowed
  | |- loose _ _ => apply loose_idle; [eexists; vm_compute; reflexivity|intros ?; vm_compute; reflexivity]
  | |- exists _, _ => eexists; split; [vm_compute; reflexivity|test_allowed]
  | |- _ => first [exact Logic.I | vm_compute; reflexivity | vm_compute; congruence]
  end.
Ltac test_run := lazymatch goal with
  | |- running (snd (run_op _ _)) => apply running_step; [test_run|test_allowed]
  | |- _ => apply running_init; lia
  end.

Lemma test_sent_running : running test_sent.
Proof. unfold test_sent, test_ops, run_ops. cbn [foldl]. test_run. Qed.
Lemma test_sent_reachable : reachable test_sent.
Proof. apply running_reachable, test_sent_running. Qed.

(** The application closes its exchange while its message is not acknowledged. *)
Definition test_closed : ExchangeManager TestNode := mkManager true (snd (run_op (OpClose 0) test_sent)).
Definition test_shut : ExchangeManager TestNode := snd (node_op DoShutdown test_closed).
Definition test_again : ExchangeManager TestNode := snd (node_op (DoInit 9) test_shut).

Lemma test_closed_reachable : node_reachable test_closed.
Proof. apply running_step; [exact test_sent_running|]. test_allowed. Qed.

Lemma test_shut_allowed : node_allowed DoShutdown test_closed.
Proof. intros c. do 16 (destruct c as [|c]; [vm_compute; done|]). vm_compute. done. Qed.

Lemma Exchange_never_undefined_witness :
  node_reachable test_closed /\ active (em_mgr test_closed) 0 /\ shut (em_mgr test_shut) /\
  node_reachable test_again /\ safe_result (fst (node_op (Do (OpNewContext 9 IPAddress_Any 0 0)) test_again)).
Proof.
  pose proof test_closed_reachable as HR. split; [exact HR|]. split; [vm_compute; congruence|].
  split; [exact (proj2 (Exchange_never_undefined test_closed DoShutdown HR test_shut_allowed) eq_refl)|].
  assert (node_reachable test_again) as HA by (apply node_step; [by apply node_step, test_shut_allowed|exact Logic.I]). split; [exact HA|].
  assert (node_allowed (Do (OpNewContext 9 IPAddress_Any 0 0)) test_again) as Ho by (split; [exact Logic.I|left; vm_compute; reflexivity]).
  exact (proj1 (Exchange_never_undefined test_again _ HA Ho)).
Defined.

Lemma Exchange_tables_agree_witness : active test_sent 0 /\ ec_mRefCount (m_pool test_sent 0) = 2 /\ 0 <= m_base test_sent <= m_now test_sent.
Proof.
  split; [vm_compute; congruence|]. split; [vm_compute; reflexivity|].
  exact (proj2 (proj2 (proj2 (Exchange_tables_agree test_sent test_sent_reachable)))).
Defined.
