(* ===== verification/ExchangeLive.v ===== *)
(** * Exchanges: a message that is not acknowledged is given up

    How the WRMP timer brings an entry of the retransmission table to its end, what
    else the node may be doing meanwhile. *)
From stdpp Require Import functions.
From S2P Require Import Prelude Encoding KeyIds PacketBuffer PacketBufferChain PeerTable FabricState MessageLayer Address ExchangeHeader ExchangeTypes ExchangeMgr ExchangeInv ExchangeQuiet ExchangeRefs ExchangeSafe ExchangeSend ExchangeWrmp ExchangeRecv ExchangeDispatch ExchangeSafety.
Local Open Scope Z_scope.
Open Scope weave_scope.

(** The longest time between two looks at the clock that loses no tick: deltaTicks
    is 16 bits wide. *)
Definition kMaxElapsed : Z := 65536 * WEAVE_CONFIG_WRMP_TIMER_DEFAULT_PERIOD.

Section Ticks.
Context {T : Type} `{ExchangeEnv T} `{!ExchangeEnvLaws T}.
Implicit Types m : Mgr T.

Lemma expire_entry_table d j m : wp (expire_entry d j) m (fun r m' => r = Ok tt /\ (forall k, m_table m' k =
    (if bool_decide (k = j) && negb (bool_decide (re_exchContext (m_table m j) = None)) then expire_retrans d (m_table m k) else m_table m k))).
Proof.
  unfold expire_entry. apply wp_gets. destruct (re_exchContext (m_table m j)) as [c|] eqn:E.
  - apply wp_modify. split; [done|]. intros k. cbn. unfold insert, fn_insert. rewrite andb_true_r. case_decide as D.
    + subst. by rewrite bool_decide_eq_true_2.
    + by rewrite bool_decide_eq_false_2 by congruence.
  - split; [done|]. intros k. by rewrite (bool_decide_eq_true_2 (None = None)), andb_false_r by done.
Qed.

Lemma expire_table d n m : wp (for_range n 0 (expire_entry d)) m (fun r m' => r = Ok tt /\ forall k c, (k < n)%nat ->
    re_exchContext (m_table m k) = Some c -> m_table m' k = expire_retrans d (m_table m k)).
Proof.
  eapply wp_mono; [apply (wp_for_at (expire_entry d) (fun j m' =>
    (forall k c, (k < j)%nat -> re_exchContext (m_table m k) = Some c -> m_table m' k = expire_retrans d (m_table m k)) /\
    (forall k, (j <= k)%nat -> m_table m' k = m_table m k)) n 0 m)|].
  - intros j s Hj [HL HG]. eapply wp_mono; [apply expire_entry_table|]. intros r s' (-> & E). split; [done|]. split.
    + intros k c Hk Ec. rewrite E. destruct (decide (k = j)) as [->|Hne].
      * rewrite !HG by lia. rewrite bool_decide_eq_true_2 by done. by rewrite bool_decide_eq_false_2 by congruence.
      * rewrite bool_decide_eq_false_2 by done. apply (HL k c); [lia|done].
    + intros k Hk. rewrite E, bool_decide_eq_false_2 by lia. apply HG. lia.
  - split; [lia|done].
  - intros r s (-> & HL & _). split; [done|]. intros k c Hk. apply HL. lia.
Qed.

Lemma on_ec_for_table (f : nat -> ExchangeContext -> ExchangeContext) n i m :
  wp (for_range n i (fun c => on_ec c (f c))) m (fun r m' => r = Ok tt /\ m_table m' = m_table m /\ m_base m' = m_base m /\ m_now m' = m_now m /\ m_interval m' = m_interval m).
Proof.
  apply (wp_for _ (fun m' => m_table m' = m_table m /\ m_base m' = m_base m /\ m_now m' = m_now m /\ m_interval m' = m_interval m)); [|done]. intros j s _ HI. by split.
Qed.

(** WRMPExpireTicks at full precision. *)
Lemma expire_exact m i c : time_ok m -> m_now m - m_base m < kMaxElapsed ->
  re_exchContext (m_table m i) = Some c -> (i < WEAVE_CONFIG_WRMP_RETRANS_TABLE_SIZE)%nat ->
  wp WRMPExpireTicks m (fun r m' => r = Ok tt /\ quiet m m' /\
    re_nextRetransTime (m_table m' i) = minus_ticks (re_nextRetransTime (m_table m i)) ((m_now m - m_base m) / WEAVE_CONFIG_WRMP_TIMER_DEFAULT_PERIOD) /\
    m_now m' - m_base m' < WEAVE_CONFIG_WRMP_TIMER_DEFAULT_PERIOD).
Proof.
  intros HT He Ec Hi. pose proof HT as (EI & HB & HN). unfold kMaxElapsed, WEAVE_CONFIG_WRMP_TIMER_DEFAULT_PERIOD in *.
  set (d := u16 (GetTickCounterFromTimeDelta (m_interval m) (m_now m) (m_base m))).
  assert (d = (m_now m - m_base m) / 200) as Ed.
  { unfold d, GetTickCounterFromTimeDelta. rewrite EI, u32_id by lia. apply u16_id. mlia. }
  pose proof (base_after m HT) as [Eb _]. fold d in Eb. rewrite EI in Eb. unfold WEAVE_CONFIG_WRMP_TIMER_DEFAULT_PERIOD in Eb.
  assert (wp WRMPExpireTicks m (fun r m' => r = Ok tt /\ m_table m' i = expire_retrans d (m_table m i) /\ m_now m' = m_now m /\ m_base m' = m_base m + d * 200)) as HX.
  { unfold WRMPExpireTicks. apply wp_gets. cbn zeta. unfold id. fold d. apply wp_bind.
    eapply wp_mono; [apply (on_ec_for_table (fun _ => expire_ack d))|]. intros r m1 (-> & E1 & B1 & N1 & I1). apply wp_bind.
    eapply wp_mono; [apply wp_and; [apply (expire_table d _ m1)|apply (loops_for _ _ _ m1); intros; apply loops_entry; apply u16_range]|].
    intros r m2 ((-> & HTb) & _ & Q & B2). split; [done|]. cbn. rewrite (q_now _ _ _ Q), (q_interval _ _ _ Q), B2, B1, N1, I1, EI.
    split; [|done]. rewrite (HTb i c); [by rewrite E1|done|by rewrite E1]. }
  eapply wp_mono; [apply wp_and; [exact HX|apply quiet_expire]|]. intros r m' ((-> & E1 & N1 & B1) & _ & Q). split; [done|]. split; [done|].
  rewrite E1, N1, B1, Ed. split; [done|]. mlia.
Qed.

(** ** One entry, from one timeout to the next *)

(** The entry [i] waits for the acknowledgement of a message of [c]: sent [s]
    times, [n] ticks from being sent again. *)
Definition waiting m (i c : nat) (ctxt s n : Z) : Prop :=
  re_exchContext (m_table m i) = Some c /\ re_msgCtxt (m_table m i) = ctxt /\ re_sendCount (m_table m i) = s /\
  re_nextRetransTime (m_table m i) = n /\ 0 <= s /\ 0 <= n.

(** A tick nearer, or sent once more. *)
Definition nearer (K W s n s' n' : Z) : Prop := (s' = s /\ n' < n) \/ (s <= K /\ s' = s + 1 /\ n' <= W).

Definition max_retrans m (c : nat) : Z := mMaxRetrans (ec_WRMPConfig (ec_peer (m_pool m c))).
Definition retrans_ticks m (c : nat) : Z := u16 (GetCurrentRetransmitTimeout (m_pool m c) / WEAVE_CONFIG_WRMP_TIMER_DEFAULT_PERIOD).

Lemma view_max m m' c : view (m_pool m' c) = view (m_pool m c) -> max_retrans m' c = max_retrans m c.
Proof. unfold view, max_retrans. by intros [= _ -> _ _]. Qed.
Lemma view_ticks m m' c : view (m_pool m' c) = view (m_pool m c) -> retrans_ticks m' c = retrans_ticks m c.
Proof. intros E. unfold retrans_ticks. by rewrite (view_timeout _ _ E). Qed.
Lemma view_cb m m' c : view (m_pool m' c) = view (m_pool m c) -> ec_cb (m_pool m' c) = ec_cb (m_pool m c).
Proof. unfold view. congruence. Qed.

Section Entry.
Context (h : nat -> Z) (i c : nat) (ctxt : Z).

(** What a step that leaves the entry and its exchange alone keeps. *)
Definition leaves m m' : Prop := inv h None m' /\ frame (eq i) (eq c) none m m'.

Lemma leaves_refl m : inv h None m -> leaves m m.
Proof. intros I. split; [done|apply frame_refl]. Qed.
Lemma leaves_trans m1 m2 m3 : leaves m1 m2 -> leaves m2 m3 -> leaves m1 m3.
Proof. intros [_ F1] [I F2]. split; [done|by eapply frame_trans]. Qed.

Lemma leaves_of m m' (Pi Pc Pb : nat -> Prop) : inv h None m' -> frame Pi Pc Pb m m' -> Pi i -> Pc c -> leaves m m'.
Proof. intros I F Hi Hc. split; [done|]. eapply frame_weaken; [exact F|by intros ? <-|by intros ? <-|by intros ? []]. Qed.

Lemma leaves_waiting m m' s n : leaves m m' -> waiting m i c ctxt s n -> exists n', waiting m' i c ctxt s n' /\ n' <= n.
Proof.
  intros [_ F] (E1 & E2 & E3 & E4 & Hs & Hn). assert (active m i) as Ha by (unfold active; congruence).
  destruct (f_entry _ _ _ _ _ F i eq_refl Ha) as (F1 & _ & _ & F4 & F5 & F6). exists (re_nextRetransTime (m_table m' i)).
  unfold waiting. rewrite F1, F4, F5. repeat split; try done; lia.
Qed.

Lemma reported_before m0 m m' : leaves m m' -> reported c ctxt m0 m -> reported c ctxt m0 m'.
Proof.
  intros [_ F] (l & e & El & Hi & He). destruct (f_log _ _ _ _ _ F) as [l' El']. exists (l ++ l'), e.
  split; [by rewrite El', El, app_assoc|]. split; [apply in_or_app; by left|done].
Qed.

(** The end of a timeout: the failure is reported, or the entry is nearer to it. *)
Definition outcome m0 K W s n m : Prop :=
  inv h None m /\ view (m_pool m c) = view (m_pool m0 c) /\ (exists l, m_log m = m_log m0 ++ l) /\
  (reported c ctxt m0 m \/ exists s' n', waiting m i c ctxt s' n' /\ nearer K W s n s' n').

Lemma outcome_leaves m0 K W s n m m' : ec_used (m_pool m0 c) = true -> leaves m m' -> outcome m0 K W s n m -> outcome m0 K W s n m'.
Proof.
  intros Hu HL (I & Hv & [l El] & HO). pose proof HL as [I' F]. split; [done|]. split; [|split].
  - rewrite (f_ctx _ _ _ _ _ F c eq_refl); [done|]. by rewrite (view_used _ _ Hv).
  - destruct (f_log _ _ _ _ _ F) as [l' El']. exists (l ++ l'). by rewrite El', El, app_assoc.
  - destruct HO as [HR|(s' & n' & HW & HN)]; [left; by eapply reported_before|]. right.
    destruct (leaves_waiting m m' s' n' HL HW) as (n'' & HW' & Hle). exists s', n''. split; [done|]. unfold nearer in *. lia.
Qed.

Lemma for_leaves (body : nat -> M (Mgr T) unit) n k (P : Mgr T -> Prop) m :
  (forall j m, (k <= j < k + n)%nat -> inv h None m -> wp (body j) m (fun r m' => r = Ok tt /\ leaves m m')) ->
  (forall m m', leaves m m' -> P m -> P m') -> inv h None m -> P m ->
  wp (for_range n k body) m (fun r m' => r = Ok tt /\ inv h None m' /\ P m').
Proof.
  intros Hb HP I HPm. apply (wp_for body (fun m => inv h None m /\ P m)); [|done]. intros j s Hj [Is HPs].
  eapply wp_mono; [by apply Hb|]. intros r s' (-> & HL). split; [done|]. split; [apply HL|by eapply HP].
Qed.

Lemma retrans_leaves j m : modest h -> held h c -> j <> i -> inv h None m -> wp (execute_retrans j) m (fun r m' => r = Ok tt /\ leaves m m').
Proof.
  intros Hm Hc Hj I. eapply wp_mono; [by apply (done_execute_retrans h m j)|]. intros r m' ([[] ->] & I' & F). split; [done|].
  eapply leaves_of; [done|exact F|congruence|done].
Qed.

(** The turn of the entry itself. *)
Lemma retrans_turn m0 m s n n0 : modest h -> held h c -> inv h None m -> waiting m i c ctxt s n -> n <= Z.max 0 (n0 - 1) ->
  view (m_pool m c) = view (m_pool m0 c) -> (exists l, m_log m = m_log m0 ++ l) -> OnSendError (ec_cb (m_pool m c)) = true -> 0 <= max_retrans m c <= 254 ->
  wp (execute_retrans i) m (fun r m' => r = Ok tt /\ outcome m0 (max_retrans m c) (retrans_ticks m c) s n0 m').
Proof.
  intros Hm Hc I HW Hn Hv [l0 El0] Hcb HK. pose proof HW as (E1 & E2 & E3 & E4 & Hs & Hn0).
  eapply wp_mono; [by apply (execute_retrans_spec h m i c)|]. intros r m' (-> & I' & F & HX). split; [done|]. split; [done|].
  assert (ec_used (m_pool m c) = true) as Hu by (by eapply (i_entry _ _ _ I)).
  assert (0 < refs (Some i) m c + h c) as Hr by (pose proof (refs_range (Some i) m c); unfold held in Hc; lia).
  assert (view (m_pool m' c) = view (m_pool m c)) as Hv' by (apply (f_ctx _ _ _ _ _ F); [by right|done]).
  destruct (f_log _ _ _ _ _ F) as [l El]. split; [congruence|]. split; [exists (l0 ++ l); by rewrite El, El0, app_assoc|].
  rewrite E4 in HX. destruct (Z.eqb_spec n 0) as [->|Hne]; cbn [negb] in HX.
  - destruct HX as [[_ HR]|(Hle & (R1 & _ & _ & R4 & R5 & R6) & _)].
    + left. destruct (HR Hr Hcb) as (l1 & e & El1 & Hin & He). rewrite E2 in Hin. exists (l0 ++ l1), e.
      split; [by rewrite El1, El0, app_assoc|]. split; [apply in_or_app; by right|done].
    + right. unfold max_retrans in HK |- *. exists (s + 1), (retrans_ticks m c). unfold waiting. rewrite R1, R4, R5, R6, E3.
      rewrite (proj1 (i_time _ _ _ I)). rewrite E3 in Hle. rewrite u8_id by lia. unfold retrans_ticks.
      pose proof (u16_range (GetCurrentRetransmitTimeout (m_pool m c) / WEAVE_CONFIG_WRMP_TIMER_DEFAULT_PERIOD)).
      split; [repeat split; (done || lia)|]. right. repeat split; lia.
  - subst m'. right. exists s, n. split; [done|]. left. split; [done|lia].
Qed.
(** What the timer finds due, done. *)
Lemma execute_spec m0 m s n n0 : modest h -> held h c -> (i < WEAVE_CONFIG_WRMP_RETRANS_TABLE_SIZE)%nat -> inv h None m ->
  waiting m i c ctxt s n -> n <= Z.max 0 (n0 - 1) -> view (m_pool m c) = view (m_pool m0 c) -> (exists l, m_log m = m_log m0 ++ l) ->
  OnSendError (ec_cb (m_pool m c)) = true -> 0 <= max_retrans m c <= 254 -> ec_used (m_pool m c) = true ->
  wp WRMPExecuteActions m (fun r m' => r = Ok tt /\ outcome m0 (max_retrans m c) (retrans_ticks m c) s n0 m').
Proof.
  intros Hm Hc Hi I HW Hn Hv [l0 El0] Hcb HK Hu. unfold WRMPExecuteActions. apply wp_bind.
  eapply wp_mono; [apply (for_leaves (fun c' => execute_ack c') _ _ (leaves m) m)|].
  - intros j m1 _ I1. eapply wp_mono; [by apply (done_execute_ack h m1 j)|]. intros r m2 ([[] ->] & I2 & F2). split; [done|].
    by eapply leaves_of.
  - intros m1 m2 HL HP. by eapply leaves_trans.
  - done.
  - by apply leaves_refl.
  - intros r m1 (-> & I1 & L1). replace WEAVE_CONFIG_WRMP_RETRANS_TABLE_SIZE with (i + S (WEAVE_CONFIG_WRMP_RETRANS_TABLE_SIZE - S i))%nat by lia.
    apply wp_for_split. eapply wp_mono; [apply (for_leaves execute_retrans i 0 (leaves m) m1)|].
    + intros j m2 Hj I2. apply retrans_leaves; [done|done|lia|done].
    + intros m2 m3 HL HP. by eapply leaves_trans.
    + done.
    + done.
    + intros r m2 (-> & I2 & L2). split; [done|]. destruct (leaves_waiting m m2 s n L2 HW) as (n' & HW' & Hle).
      pose proof L2 as [_ F2]. assert (view (m_pool m2 c) = view (m_pool m c)) as Hv2 by (by apply (f_ctx _ _ _ _ _ F2)).
      rewrite <- (view_max m m2 c Hv2), <- (view_ticks m m2 c Hv2) in *. cbn [plus for_range]. apply wp_bind.
      eapply wp_mono; [apply (retrans_turn m0 m2 s n' n0 Hm Hc I2 HW')|].
      * lia.
      * congruence.
      * destruct (f_log _ _ _ _ _ F2) as [l El]. exists (l0 ++ l). by rewrite El, El0, app_assoc.
      * by rewrite (view_cb m m2 c Hv2).
      * done.
      * intros r m3 (-> & HO). eapply wp_mono; [apply (for_leaves execute_retrans (WEAVE_CONFIG_WRMP_RETRANS_TABLE_SIZE - S i) (S i) (outcome m0 (max_retrans m2 c) (retrans_ticks m2 c) s n0) m3)|].
        -- intros j m4 Hj I4. apply retrans_leaves; [done|done|lia|done].
        -- intros m4 m5 HL. apply outcome_leaves; [|done]. rewrite <- (view_used _ _ Hv). done.
        -- apply HO.
        -- done.
        -- intros r m4 (-> & _ & HO4). by split.
Qed.

(** Time passes, and the timer goes off. *)
Definition timely m (ms : Z) : Prop :=
  m_now m - m_base m < WEAVE_CONFIG_WRMP_TIMER_DEFAULT_PERIOD /\ WEAVE_CONFIG_WRMP_TIMER_DEFAULT_PERIOD <= ms /\ ms + WEAVE_CONFIG_WRMP_TIMER_DEFAULT_PERIOD <= kMaxElapsed /\ m_now m + ms < 2 ^ 63.

Lemma wait_inv ms m : inv h None m -> 0 <= ms -> m_now m + ms < 2 ^ 63 -> inv h None (set_now (m_now m + ms) m).
Proof. intros [] Hms Hn. split; try done. destruct i_time as (E & HB & HN). unfold time_ok. cbn. lia. Qed.

Lemma wait_spec m ms s n : modest h -> held h c -> (i < WEAVE_CONFIG_WRMP_RETRANS_TABLE_SIZE)%nat -> inv h None m -> waiting m i c ctxt s n ->
  OnSendError (ec_cb (m_pool m c)) = true -> 0 <= max_retrans m c <= 254 -> timely m ms ->
  wp (wait ms) m (fun r m' => r = Ok tt /\ outcome m (max_retrans m c) (retrans_ticks m c) s n m' /\ m_now m' = m_now m + ms /\ m_now m' - m_base m' < WEAVE_CONFIG_WRMP_TIMER_DEFAULT_PERIOD).
Proof.
  intros Hm Hc Hi I HW Hcb HK (HB & Hms & Hmax & Hn). unfold wait. apply wp_modify. unfold WRMPTimeout. set (m0 := set_now (m_now m + ms) m).
  assert (0 <= ms) as Hms0 by (unfold WEAVE_CONFIG_WRMP_TIMER_DEFAULT_PERIOD in *; lia).
  pose proof (wait_inv ms m I Hms0 Hn) as I0. fold m0 in I0. pose proof HW as (E1 & _).
  assert (ec_used (m_pool m c) = true) as Hu by (by eapply (i_entry _ _ _ I)).
  apply wp_bind. eapply wp_mono; [apply (expire_exact m0 i c (i_time _ _ _ I0)); [cbn; unfold WEAVE_CONFIG_WRMP_TIMER_DEFAULT_PERIOD in *; lia|done|done]|].
  intros r m1 (-> & Q1 & E1' & B1). assert (leaves m0 m1) as L1 by (split; [by eapply quiet_inv|by apply quiet_frame]).
  destruct (leaves_waiting m0 m1 s n L1 HW) as (n1 & HW1 & _). pose proof L1 as [I1 F1].
  assert (view (m_pool m1 c) = view (m_pool m c)) as Hv1 by (by apply (f_ctx _ _ _ _ _ F1)).
  assert (n1 <= Z.max 0 (n - 1)) as Hn1.
  { destruct HW as (_ & _ & _ & E4 & _), HW1 as (_ & _ & _ & E4' & _). change (m_table m0 i) with (m_table m i) in E1'. rewrite E4, E4' in E1'. rewrite E1'.
    unfold minus_ticks. cbn. unfold WEAVE_CONFIG_WRMP_TIMER_DEFAULT_PERIOD in *. pose proof (i_time _ _ _ I) as (_ & HB0 & _).
    assert (1 <= (m_now m + ms - m_base m) / 200) by mlia. destruct (Z.leb_spec ((m_now m + ms - m_base m) / 200) n); lia. }
  apply wp_bind. eapply wp_mono; [apply wp_and; [apply (execute_spec m m1 s n1 n Hm Hc Hi I1 HW1 Hn1 Hv1)|by apply (done_ExecuteActions h)]|].
  - destruct (f_log _ _ _ _ _ F1) as [l El]. by exists l.
  - by rewrite (view_cb m m1 c Hv1).
  - by rewrite (view_max m m1 c Hv1).
  - by rewrite (view_used _ _ Hv1).
  - intros r m2 ((-> & HO) & _ & I2 & F2). eapply wp_mono; [apply quiet_StartTimer|]. intros r m3 ([[] ->] & Q3).
    assert (leaves m2 m3) as L3 by (split; [by eapply quiet_inv|by apply quiet_frame]).
    rewrite (view_max m m1 c Hv1), (view_ticks m m1 c Hv1) in HO. split; [done|]. split; [by eapply outcome_leaves|].
    destruct L3 as [_ F3]. destruct (f_time _ _ _ _ _ F2 (i_time _ _ _ I1)) as [T2 B2]. destruct (f_time _ _ _ _ _ F3 T2) as [_ B3].
    rewrite (f_now _ _ _ _ _ F3), (f_now _ _ _ _ _ F2), (f_now _ _ _ _ _ F1). split; [done|].
    rewrite (f_now _ _ _ _ _ F1) in B1. lia.
Qed.
End Entry.

(** ** Timeouts among other operations *)

Lemma wp_result {S A} (f : M S A) s Q : wp f s Q -> Q (fst (f s)) (snd (f s)).
Proof. unfold wp. by destruct (f s). Qed.

Lemma wait_keeps h ms m : inv h None m -> modest h -> 0 <= ms -> m_now m + ms < 2 ^ 63 ->
  wp (wait ms) m (fun _ m' => inv h None m' /\ (forall c, held h c -> ec_used (m_pool m c) = true -> view (m_pool m' c) = view (m_pool m c)) /\
    (exists l, m_log m' = m_log m ++ l) /\ m_now m' = m_now m + ms).
Proof.
  intros I Hm Hms Hn. unfold wait. apply wp_modify. eapply wp_mono; [apply (done_Timeout h); [by apply wait_inv|done]|].
  intros r m' (_ & I' & F). split; [done|]. split; [intros c; apply (f_ctx _ _ _ _ _ F)|split; [apply (f_log _ _ _ _ _ F)|apply (f_now _ _ _ _ _ F)]].
Qed.

Section Run.
Context (i c : nat).

(** The node waits, [k] times, at least a tick each and no longer than the clock
    can follow, and between the waits does what it may that leaves the entry [i]
    and the exchange [c] alone. *)
Inductive run : nat -> Mgr T -> Mgr T -> Prop :=
  | run_stop m : run 0 m m
  | run_wait ms k m m1 m' :
      WEAVE_CONFIG_WRMP_TIMER_DEFAULT_PERIOD <= ms -> ms + WEAVE_CONFIG_WRMP_TIMER_DEFAULT_PERIOD <= kMaxElapsed -> m_now m + ms < 2 ^ 63 ->
      snd (wait ms m) = m1 -> run k m1 m' -> run (S k) m m'
  | run_other o k m m1 m' :
      allowed o m -> snd (run_op o m) = m1 -> has_ref m1 c -> frame (eq i) (eq c) none m m1 -> run k m1 m' -> run k m m'.

Definition budget (K W s n : Z) : Z := Z.max 0 (K + 1 - s) * (W + 1) + n.

Lemma budget_nearer K W s n s' n' : 0 <= W -> 0 <= n -> nearer K W s n s' n' -> budget K W s' n' < budget K W s n.
Proof.
  intros HW Hn [(-> & Hlt)|(Hs & -> & Hle)]; unfold budget; [lia|].
  rewrite !Z.max_r by lia. replace (K + 1 - s) with (K + 1 - (s + 1) + 1) by lia. nia.
Qed.

Context (ctxt : Z) (m0 : Mgr T).
Let K := max_retrans m0 c.
Let W := retrans_ticks m0 c.

Definition progress (b : Z) m : Prop :=
  sound m /\ has_ref m c /\ view (m_pool m c) = view (m_pool m0 c) /\ (exists l, m_log m = m_log m0 ++ l) /\
  (reported c ctxt m0 m \/ exists s n, waiting m i c ctxt s n /\ budget K W s n <= b /\ m_now m - m_base m < WEAVE_CONFIG_WRMP_TIMER_DEFAULT_PERIOD).

Lemma reported_later m m' : (exists l, m_log m' = m_log m ++ l) -> reported c ctxt m0 m -> reported c ctxt m0 m'.
Proof.
  intros [l' El'] (l & e & El & Hin & He). exists (l ++ l'), e. split; [by rewrite El', El, app_assoc|].
  split; [apply in_or_app; by left|done].
Qed.

Lemma reported_from m m' : (exists l, m_log m = m_log m0 ++ l) -> reported c ctxt m m' -> reported c ctxt m0 m'.
Proof.
  intros [l0 El0] (l & e & El & Hin & He). exists (l0 ++ l), e. split; [by rewrite El, El0, app_assoc|].
  split; [apply in_or_app; by right|done].
Qed.

Lemma longer_trans m1 m2 m3 : (exists l, m_log m2 = m_log m1 ++ l) -> (exists l, m_log m3 = m_log m2 ++ l) -> exists l, m_log m3 = m_log m1 ++ l.
Proof. intros [l1 E1] [l2 E2]. exists (l1 ++ l2). by rewrite E2, E1, app_assoc. Qed.

Lemma has_ref_held h m : inv h None m -> has_ref m c -> held h c.
Proof. intros I [Hu Hr]. rewrite (holders_inv h m c I Hu) in Hr. unfold held. lia. Qed.
Lemma held_has_ref h m : inv h None m -> ec_used (m_pool m c) = true -> held h c -> has_ref m c.
Proof. intros I Hu Hr. split; [done|]. rewrite (holders_inv h m c I Hu). unfold held in Hr. lia. Qed.

Lemma progress_wait b ms m : OnSendError (ec_cb (m_pool m0 c)) = true -> 0 <= K <= 254 -> (i < WEAVE_CONFIG_WRMP_RETRANS_TABLE_SIZE)%nat ->
  WEAVE_CONFIG_WRMP_TIMER_DEFAULT_PERIOD <= ms -> ms + WEAVE_CONFIG_WRMP_TIMER_DEFAULT_PERIOD <= kMaxElapsed -> m_now m + ms < 2 ^ 63 ->
  progress b m -> progress (b - 1) (snd (wait ms m)).
Proof.
  intros Hcb HK Hi Hms Hmax Hn ((h & I & Hh) & Hr & Hv & Hl & HP). pose proof (has_ref_held h m I Hr) as Hc. pose proof (modest_app h Hh) as Hm.
  pose proof Hr as [Hu _]. destruct HP as [HR|(s & n & HW & Hb & HB)].
  - assert (0 <= ms) as Hms0 by (unfold WEAVE_CONFIG_WRMP_TIMER_DEFAULT_PERIOD in *; lia).
    destruct (wp_result _ _ _ (wait_keeps h ms m I Hm Hms0 Hn)) as (I' & HV & Hl' & _). pose proof (HV c Hc Hu) as Hv'.
    split; [by exists h|]. split; [apply (held_has_ref h); [done|by rewrite (view_used _ _ Hv')|done]|]. split; [congruence|].
    split; [by eapply longer_trans|]. left. by eapply reported_later.
  - pose proof (wait_spec h i c ctxt m ms s n Hm Hc Hi I HW) as HX. rewrite (view_cb m0 m c Hv), (view_max m0 m c Hv), (view_ticks m0 m c Hv) in HX.
    assert (timely m ms) as HT by by unfold timely. specialize (HX Hcb HK HT). destruct (wp_result _ _ _ HX) as (_ & (I' & Hv' & Hl' & HO) & _ & HB').
    split; [by exists h|]. split; [apply (held_has_ref h); [done|by rewrite (view_used _ _ Hv')|done]|]. split; [congruence|].
    split; [by eapply longer_trans|]. destruct HO as [HR|(s' & n' & HW' & HN)]; [left; by eapply reported_from|].
    right. exists s', n'. split; [done|]. split; [|done].
    assert (budget K W s' n' < budget K W s n); [|lia]. apply budget_nearer; [apply u16_range|apply HW|done].
Qed.

Lemma progress_other b o m : allowed o m -> has_ref (snd (run_op o m)) c -> frame (eq i) (eq c) none m (snd (run_op o m)) ->
  progress b m -> progress b (snd (run_op o m)).
Proof.
  intros Ho Hr' F (HS & [Hu _] & Hv & Hl & HP). assert (sound (snd (run_op o m))) as HS' by (by apply run_op_next).
  assert (view (m_pool (snd (run_op o m)) c) = view (m_pool m c)) as Hv' by (by apply (f_ctx _ _ _ _ _ F)).
  split; [done|]. split; [done|]. split; [congruence|]. split; [eapply longer_trans; [exact Hl|apply F]|].
  destruct HP as [HR|(s & n & HW & Hb & HB)]; [left; eapply reported_later; [apply F|done]|]. right.
  destruct HS' as (h' & I' & _). destruct (leaves_waiting h' i c ctxt m _ s n (conj I' F) HW) as (n' & HW' & Hle). exists s, n'.
  destruct HS as (h & I & _). pose proof (f_time _ _ _ _ _ F (i_time _ _ _ I)) as [_ HB']. split; [done|]. rewrite (f_now _ _ _ _ _ F). unfold budget in *. lia.
Qed.

Lemma run_progress k m m' : OnSendError (ec_cb (m_pool m0 c)) = true -> 0 <= K <= 254 -> (i < WEAVE_CONFIG_WRMP_RETRANS_TABLE_SIZE)%nat ->
  run k m m' -> forall b, progress b m -> progress (b - Z.of_nat k) m'.
Proof.
  intros Hcb HK Hi HR. induction HR as [m|ms k m m1 m' H1 H2 H3 <- _ IH|o k m m1 m' H1 <- H2 H3 _ IH]; intros b HP.
  - by replace (b - Z.of_nat 0) with b by lia.
  - replace (b - Z.of_nat (S k)) with (b - 1 - Z.of_nat k) by lia. by apply IH, progress_wait.
  - by apply IH, progress_other.
Qed.
End Run.

(** C23: A message that asked for an acknowledgement and got none is given up after a
    bounded number of timeouts: whatever the node does meanwhile that leaves the
    entry of the retransmission table and its exchange alone, once it has waited
    (K + 1 - sendCount) * (W + 1) + nextRetransTime + 1 times, for K retransmissions
    allowed (254 at most) and a retransmission timeout of W ticks, the
    application is told through OnSendError: not acknowledged, or the error that
    a retransmission met. *)
Theorem Message_unacknowledged_is_given_up m m' i c ctxt s n k : reachable m -> has_ref m c ->
  (i < WEAVE_CONFIG_WRMP_RETRANS_TABLE_SIZE)%nat -> waiting m i c ctxt s n -> OnSendError (ec_cb (m_pool m c)) = true ->
  0 <= max_retrans m c <= 254 -> m_now m - m_base m < WEAVE_CONFIG_WRMP_TIMER_DEFAULT_PERIOD ->
  run i c k m m' -> budget (max_retrans m c) (retrans_ticks m c) s n < Z.of_nat k -> reported c ctxt m m'.
Proof.
  intros HR Hr Hi HW Hcb HK HB Hrun Hk.
  destruct (run_progress i c ctxt m k m m' Hcb HK Hi Hrun (budget (max_retrans m c) (retrans_ticks m c) s n)) as (_ & _ & _ & _ & HP).
  - split; [by apply reachable_sound|]. split; [done|]. split; [done|]. split; [exists []; by rewrite app_nil_r|].
    right. by exists s, n.
  - destruct HP as [HP|(s' & n' & HW' & Hb & _)]; [done|]. exfalso.
    assert (0 <= budget (max_retrans m c) (retrans_ticks m c) s' n'); [|lia]. unfold budget.
    destruct HW' as (_ & _ & _ & _ & _ & Hn'). pose proof (u16_range (GetCurrentRetransmitTimeout (m_pool m c) / WEAVE_CONFIG_WRMP_TIMER_DEFAULT_PERIOD)).
    unfold retrans_ticks. nia.
Qed.
End Ticks.

(** ** Forty-four timeouts of the test node, with a buffer allocated meanwhile *)

Definition after_wait {T} `{ExchangeEnv T} (ms : Z) (m : Mgr T) : Mgr T := snd (wait ms m).
Definition waits {T} `{ExchangeEnv T} (ms : Z) (k : nat) (m : Mgr T) : Mgr T := Nat.iter k (after_wait ms) m.

Lemma wait_sound {T} `{ExchangeEnv T} `{!ExchangeEnvLaws T} ms (m : Mgr T) : sound m -> 0 <= ms -> m_now m + ms < 2 ^ 63 ->
  exists m1, snd (wait ms m) = m1 /\ after_wait ms m = m1 /\ sound m1 /\ m_now m1 = m_now m + ms.
Proof.
  intros (h & I & Hh) Hms Hn. pose proof (wait_keeps h ms m I (modest_app h Hh) Hms Hn) as HX. unfold wp in HX.
  unfold after_wait. destruct (wait ms m) as [r m1]. exists m1. destruct HX as (I' & _ & _ & Hn'). split; [done|]. split; [done|]. split; [by exists h|done].
Qed.

Lemma run_waits {T} `{ExchangeEnv T} `{!ExchangeEnvLaws T} i c ms k : forall m : Mgr T, sound m ->
  WEAVE_CONFIG_WRMP_TIMER_DEFAULT_PERIOD <= ms -> ms + WEAVE_CONFIG_WRMP_TIMER_DEFAULT_PERIOD <= kMaxElapsed -> m_now m + Z.of_nat k * ms < 2 ^ 63 ->
  run i c k m (waits ms k m).
Proof.
  induction k as [|k IH]; intros m (h & I & Hh) H1 H2 Hn; [constructor|].
  assert (0 <= ms) by (unfold WEAVE_CONFIG_WRMP_TIMER_DEFAULT_PERIOD in *; lia). assert (m_now m + ms < 2 ^ 63) as Hn1 by nia.
  destruct (wait_sound ms m (ex_intro _ h (conj I Hh)) ltac:(done) Hn1) as (m1 & Em & Ea & HS & Hn').
  unfold waits in *. rewrite Nat.iter_succ_r, Ea. apply (run_wait i c ms k m m1); [exact H1|exact H2|exact Hn1|exact Em|]. apply IH; [exact HS|exact H1|exact H2|]. rewrite Hn'. lia.
Qed.

Lemma NewBuf_frame {T} `{ExchangeEnv T} `{!ExchangeEnvLaws T} n (m : Mgr T) : sound m -> frame all all none m (snd (run_op (OpNewBuf n) m)).
Proof.
  intros (h & I & _). apply (wp_result (run_op (OpNewBuf n)) m (fun _ m' => frame all all none m m')). cbn [run_op]. apply wp_ignore.
  eapply wp_mono; [by apply (done_NewBuf h None n m)|]. intros [b|e| |] m' HX; try done.
  - destruct HX as (_ & _ & _ & F & _). by eapply frame_weaken.
  - destruct HX as [_ ->]. apply frame_refl.
Qed.

Definition test_busy : Mgr TestNode := snd (run_op (OpNewBuf 8) test_sent).

Lemma Message_unacknowledged_is_given_up_witness :
  waiting test_sent 0 0 77 1 10 /\ run 0 0 44 test_sent (waits 2000 44 test_busy) /\ reported 0 77 test_sent (waits 2000 44 test_busy).
Proof.
  pose proof test_sent_reachable as HR. pose proof (reachable_sound test_sent HR) as HS.
  assert (has_ref test_sent 0) as Hr by (split; vm_compute; congruence).
  assert (waiting test_sent 0 0 77 1 10) as HW by (repeat split; vm_compute; congruence).
  assert (run 0 0 44 test_sent (waits 2000 44 test_busy)) as Hrun.
  { apply (run_other 0 0 (OpNewBuf 8) 44 test_sent test_busy); [exact Logic.I|reflexivity|split; vm_compute; congruence| |].
    - eapply frame_weaken; [exact (NewBuf_frame 8 test_sent HS)|by intros|by intros|by intros].
    - apply run_waits; [by apply run_op_next|done|done|vm_compute; reflexivity]. }
  split; [exact HW|]. split; [exact Hrun|].
  apply (Message_unacknowledged_is_given_up test_sent _ 0 0 77 1 10 44 HR Hr); [vm_compute; lia|exact HW|reflexivity|split; vm_compute; congruence|reflexivity|exact Hrun|reflexivity].
Defined.
