(* ===== verification/ExchangeThrottle.v ===== *)
(** * Exchanges: a throttled exchange stays throttled

    WRMPExpireTicks counts an exchange's throttle time down only for the exchanges
    that have an entry in the retransmission table. *)
From stdpp Require Import functions relations.
From S2P Require Import Prelude Encoding KeyIds PacketBuffer PacketBufferChain PeerTable FabricState MessageLayer Address ExchangeHeader ExchangeTypes ExchangeMgr ExchangeInv ExchangeQuiet ExchangeRefs ExchangeSafe ExchangeSend ExchangeWrmp ExchangeRecv ExchangeDispatch ExchangeSafety.
Local Open Scope Z_scope.
Open Scope weave_scope.

Section Throttle.
Context {T : Type} `{ExchangeEnv T} `{!ExchangeEnvLaws T}.
Implicit Types m : Mgr T.

(** Nothing to do for the timer. *)
Definition idle m : Prop :=
  (forall i, re_exchContext (m_table m i) = None) /\ (forall c, ec_used (m_pool m c) && IsAckPending (m_pool m c) = false).

(** The contexts and the table are the same. *)
Definition same m m' : Prop := (forall c, m_pool m' c = m_pool m c) /\ (forall i, m_table m' i = m_table m i).

Lemma same_idle m m' : same m m' -> idle m -> idle m'.
Proof. intros [HP HT] [H1 H2]. split; intros x; [by rewrite HT|by rewrite HP]. Qed.

Lemma same_holders m m' c : same m m' -> holders m' c = holders m c.
Proof. intros [HP HT]. unfold holders. rewrite HP, (refs_ext None m m' c); [done|]. intros i. by rewrite HT. Qed.

Lemma for_same (body : nat -> M (Mgr T) unit) n m : idle m ->
  (forall j m, idle m -> wp (body j) m (fun r m' => r = Ok tt /\ same m m')) -> wp (for_range n 0 body) m (fun r m' => r = Ok tt /\ same m m').
Proof.
  intros HI Hb. apply (wp_for body (fun m' => same m m')); [|by split]. intros j s _ Hs.
  eapply wp_mono; [apply Hb; by eapply same_idle|]. intros r s' (-> & HP & HT). split; [done|]. destruct Hs as [HP0 HT0].
  split; intros x; [by rewrite HP|by rewrite HT].
Qed.

Lemma idle_expire m : idle m -> wp WRMPExpireTicks m (fun r m' => r = Ok tt /\ same m m').
Proof.
  intros HI. unfold WRMPExpireTicks. apply wp_gets. cbn zeta. apply wp_bind. eapply wp_mono; [apply for_same; [done|]|].
  - intros j s [_ HA]. split; [done|]. split; [|done]. intros c. cbn. unfold insert, fn_insert. case_decide as D; [subst|done].
    unfold expire_ack. by rewrite HA.
  - intros r m1 (-> & S1). apply wp_bind. eapply wp_mono; [apply for_same; [by eapply same_idle|]|].
    + intros j s [HT _]. unfold expire_entry. apply wp_gets. rewrite HT. by split.
    + intros r m2 (-> & HP & HT). split; [done|]. destruct S1 as [HP1 HT1]. split; intros x; cbn; [by rewrite HP|by rewrite HT].
Qed.

Lemma same_StartTimer m : wp WRMPStartTimer m (fun r m' => r = Ok tt /\ same m m').
Proof.
  unfold WRMPStartTimer, WRMPStopTimer. apply wp_modify, wp_gets. destruct (next_wake _) as [t [|]]; [|by split].
  apply wp_bind, wp_attempt. unfold wp, service. set (x := if _ : bool then _ else _).
  pose proof (env_StartTimer_ok x (m_env (set_timer None m))) as Ht.
  destruct (env_StartTimer x (m_env (set_timer None m))) as [[e|] t']; [done|by split].
Qed.

Lemma idle_wait ms m : idle m -> wp (wait ms) m (fun r m' => r = Ok tt /\ same m m').
Proof.
  intros HI. unfold wait. apply wp_modify. unfold WRMPTimeout. apply wp_bind. eapply wp_mono; [by apply idle_expire|]. intros r m1 (-> & S1).
  pose proof (same_idle _ _ S1 HI) as I1. unfold WRMPExecuteActions. apply wp_bind, wp_bind. eapply wp_mono; [apply for_same; [done|]|].
  - intros c s [_ HA]. unfold execute_ack. apply wp_gets. rewrite HA. by split.
  - intros r m2 (-> & S2). eapply wp_mono; [apply for_same; [by eapply same_idle|]|].
    + intros i s [HT _]. unfold execute_retrans. apply wp_gets. rewrite HT. by split.
    + intros r m3 (-> & S3). eapply wp_mono; [apply same_StartTimer|]. intros r m4 (-> & S4). split; [done|].
      destruct S1 as [P1 T1], S2 as [P2 T2], S3 as [P3 T3], S4 as [P4 T4]. split; intros x; [by rewrite P4, P3, P2, P1|by rewrite T4, T3, T2, T1].
Qed.

Definition throttled m (c : nat) : Prop := ec_mWRMPThrottleTimeout (m_pool m c) <> 0 /\ ec_Con (ec_peer (m_pool m c)) = None.

Lemma refused_body release c profileId msgType b ctxt m a : throttled m c ->
  fst (send_body release c profileId msgType b ctxt (m, a)) = Err WEAVE_ERROR_SEND_THROTTLED.
Proof.
  intros [Ht Hc]. change (wp (send_body release c profileId msgType b ctxt) (m, a) (fun r _ => r = Err WEAVE_ERROR_SEND_THROTTLED)).
  unfold send_body, send_request_ack. apply wp_bind.
  apply wp_lift_ec, wp_args. cbn zeta. apply wp_modify. rewrite Hc. apply wp_verify; [intros _|by rewrite andb_false_r].
  apply wp_verify_last; [|done]. intros E. by apply Z.eqb_eq in E.
Qed.

Lemma AddRef_throttled m c : throttled m c -> throttled (snd (AddRef c m)) c.
Proof. unfold throttled. cbn. rewrite fn_lookup_insert. done. Qed.

Lemma refused m c profileId msgType b sendFlags ctxt : sound m -> throttled m c ->
  allowed (OpSendMessage c profileId msgType b sendFlags ctxt) m ->
  fst (run_op (OpSendMessage c profileId msgType b sendFlags ctxt) m) = Err WEAVE_ERROR_SEND_THROTTLED.
Proof.
  intros (h & I & Hh) HT ([Hu _] & Hb & Hf). cbn [run_op]. unfold SendMessage, SendMessage_.
  change (wp (let* m := gets id in let p := ec_peer (m_pool m c) in SendMessage_info_ Release c profileId msgType b sendFlags
    (mkInfo (env_LocalNodeId (m_env m)) (ec_PeerNodeId p) 0 0 (ec_KeyId p) 0 (ec_EncryptionType p) 0) ctxt) m (fun r _ => r = Err WEAVE_ERROR_SEND_THROTTLED)).
  apply wp_gets. cbn zeta. eapply wp_mono; [apply (SendMessage_info_result Release h None (active m) m c); auto using Release_spares; apply (modest_app h Hh)|].
  intros r m' [-> _]. by apply refused_body, AddRef_throttled.
Qed.

Definition total (l : list Z) : Z := foldr Z.add 0 l.

Lemma total_pos l : Forall (fun ms => 0 <= ms) l -> 0 <= total l.
Proof. induction 1 as [|ms l Hms _ IH]; [done|]. unfold total in *. cbn. lia. Qed.

Lemma run_ops_cons o l m : run_ops (o :: l) m = run_ops l (snd (run_op o m)).
Proof. done. Qed.

Lemma wait_next ms m : sound m -> idle m -> 0 <= ms -> m_now m + ms < 2 ^ 63 ->
  exists m1, snd (run_op (OpWait ms) m) = m1 /\ sound m1 /\ same m m1 /\ m_now m1 = m_now m + ms.
Proof.
  intros (h & I & Hh) HI Hms Hn. cbn [run_op].
  assert (wp (wait ms) m (fun _ m1 => inv h None m1 /\ m_now m1 = m_now m + ms)) as HX.
  { unfold wait. apply wp_modify. assert (inv h None (set_now (m_now m + ms) m)) as I1.
    { destruct I. split; try done. destruct i_time as (E & HB & HN). unfold time_ok. cbn. lia. }
    eapply wp_mono; [apply (done_Timeout h); [exact I1|by apply modest_app]|]. intros r m1 (_ & I' & F). split; [done|]. apply (f_now _ _ _ _ _ F). }
  pose proof (wp_and _ _ _ _ HX (idle_wait ms m HI)) as HY. unfold wp in HY. destruct (wait ms m) as [r m1]. destruct HY as ((I' & Hn') & _ & HS).
  exists m1. split; [done|]. split; [by exists h|done].
Qed.

Lemma waits_same l : Forall (fun ms => 0 <= ms) l -> forall m, sound m -> idle m -> m_now m + total l < 2 ^ 63 ->
  sound (run_ops (map OpWait l) m) /\ same m (run_ops (map OpWait l) m).
Proof.
  induction 1 as [|ms l Hms Hl IH]; intros m HS HI Hn; [by split|]. pose proof (total_pos l Hl). cbn in Hn. fold (total l) in Hn.
  destruct (wait_next ms m HS HI Hms ltac:(lia)) as (m1 & E & HS1 & Hm & En). cbn [map]. rewrite run_ops_cons, E.
  destruct (IH m1 HS1) as [HS2 [HP HT]]; [by eapply same_idle|rewrite En; lia|]. split; [done|].
  destruct Hm as [HP1 HT1]. split; intros x; [by rewrite HP|by rewrite HT].
Qed.

(** C24: An exchange that its peer has throttled while the retransmission table is
    empty stays throttled for ever: however long the node waits, every SendMessage
    on it is refused with WEAVE_ERROR_SEND_THROTTLED, since WRMPExpireTicks counts the
    throttle time down only for exchanges that have an entry in the table. *)
Theorem Throttle_without_entries_never_ends m c l profileId msgType b sendFlags ctxt : reachable m -> throttled m c -> idle m ->
  Forall (fun ms => 0 <= ms) l -> m_now m + total l < 2 ^ 63 ->
  allowed (OpSendMessage c profileId msgType b sendFlags ctxt) (run_ops (map OpWait l) m) ->
  fst (run_op (OpSendMessage c profileId msgType b sendFlags ctxt) (run_ops (map OpWait l) m)) = Err WEAVE_ERROR_SEND_THROTTLED.
Proof.
  intros HR HT HI Hl Hn Ho. destruct (waits_same l Hl m (reachable_sound m HR) HI Hn) as [HS [HP _]].
  apply refused; [exact HS| |exact Ho]. unfold throttled in *. by rewrite HP.
Qed.
End Throttle.

(** The test node's peer asks it to pause for a second. *)
Definition test_throttle : list Op :=
  [OpNewContext 9 IPAddress_Any 0 0; OpSetCallbacks 0 all_callbacks; OpNewBuf 40; OpFillBuf 0 [16; 4; 5; 0; 0; 0; 0; 0; 232; 3; 0; 0];
   OpReceive (mkInfo 9 7 1 0 0 kWeaveMessageVersion_V2 0 0) 0 (mkIncoming None None); OpNewBuf 4].
Definition test_paused : Mgr TestNode := run_ops test_throttle test_mgr.

Lemma test_paused_reachable : reachable test_paused.
Proof. apply running_reachable. unfold test_paused, test_throttle, run_ops. cbn [foldl]. test_run. Qed.

Lemma test_paused_stuck : throttled test_paused 0 /\ idle test_paused /\ m_now test_paused + total (replicate 10 60000) < 2 ^ 63.
Proof.
  split; [split; vm_compute; congruence|]. split; [|vm_compute; reflexivity].
  split; [intros i; vm_compute; reflexivity|]. intros c.
  do 16 (destruct c as [|c]; [vm_compute; reflexivity|]). vm_compute. reflexivity.
Qed.

Lemma Throttle_without_entries_never_ends_witness :
  m_log test_paused = [EvThrottleRcvd 0 1000] /\ allowed (OpSendMessage 0 1 1 0 0 0) (run_ops (map OpWait (replicate 10 60000)) test_paused) /\
  fst (run_op (OpSendMessage 0 1 1 0 0 0) (run_ops (map OpWait (replicate 10 60000)) test_paused)) = Err WEAVE_ERROR_SEND_THROTTLED.
Proof.
  assert (allowed (OpSendMessage 0 1 1 0 0 0) (run_ops (map OpWait (replicate 10 60000)) test_paused)) as Ho by test_allowed.
  assert (Forall (fun ms => 0 <= ms) (replicate 10 60000)) as Hl by (by repeat constructor). destruct test_paused_stuck as (HT & HI & Hn).
  split; [vm_compute; reflexivity|]. split; [exact Ho|].
  exact (Throttle_without_entries_never_ends test_paused 0 (replicate 10 60000) 1 1 0 0 0 test_paused_reachable HT HI Hl Hn Ho).
Defined.
