(* ===== verification/PairingCode.v ===== *)
(** * Pairing codes (lib/support/pairing-code)

    A pairing code is a big-endian base-32 numeral in the alphabet of Verhoeff32,
    followed by its check character. *)
From S2P Require Import Prelude Verhoeff.
Local Open Scope Z_scope.

(** ** PairingCodeUtils.cpp

    Strings are lists of character codes; an output buffer is the list of its
    bytes, which the functions return as they leave it. *)

Definition kStandardPairingCodeLength : Z := 6.
Definition kKryptonitePairingCodeLength : Z := 9.
Definition kPairingCodeLenMin : Z := 2.
Definition kBitsPerCharacter : Z := 5.
Definition kCharacterValueMask : Z := Z.shiftl 1 kBitsPerCharacter - 1.
Definition kUInt64OverflowMask : Z := u64 (Z.shiftl kCharacterValueMask (64 - kBitsPerCharacter)).

(** VerifyPairingCode(pairingCode, pairingCodeLen) *)
Definition VerifyPairingCode (pairingCode : list Z) : res unit :=
  let len := Z.of_nat (length pairingCode) in
  if negb (kPairingCodeLenMin <=? len) then Err WEAVE_ERROR_INVALID_ARGUMENT
  else if negb (ValidateCheckChar2 Verhoeff32 (arr pairingCode (len - 1)) (take (Z.to_nat (len - 1)) pairingCode))
  then Err WEAVE_ERROR_INVALID_ARGUMENT else Ok tt.

(** toupper in the C locale *)
Definition toupper (ch : Z) : Z := if (97 <=? ch) && (ch <=? 122) then ch - 32 else ch.

(** One character of NormalizePairingCode: I, O, Q and Z are taken for the digits
    they look like. *)
Definition normalize_char (ch : Z) : Z :=
  let ch := toupper ch in
  if ch =? 73 then 49 else if (ch =? 79) || (ch =? 81) then 48 else if ch =? 90 then 50 else ch.

Fixpoint normalize_loop (n i newLen : nat) (pairingCode : list Z) : nat * list Z :=
  match n with
  | O => (newLen, pairingCode)
  | S n =>
    let ch := normalize_char (arr pairingCode (Z.of_nat i)) in
    if Verhoeff32_CharToVal ch <? 0 then normalize_loop n (S i) newLen pairingCode
    else normalize_loop n (S i) (S newLen) (<[newLen := ch]> pairingCode)
  end.

(** NormalizePairingCode(pairingCode, pairingCodeLen): the new length and the
    string's buffer. *)
Definition NormalizePairingCode (pairingCode : list Z) : nat * list Z :=
  let '(newLen, pairingCode') := normalize_loop (length pairingCode) 0 0 pairingCode in
  (newLen, if Nat.ltb newLen (length pairingCode) then <[newLen := 0]> pairingCode' else pairingCode').

(** The loop of IntToPairingCode, which counts [i] down from pairingCodeLen - 2;
    [n] is i + 1. *)
Fixpoint encode_loop (n : nat) (val : Z) (outBuf : list Z) : Z * list Z :=
  match n with
  | O => (val, outBuf)
  | S i => encode_loop i (Z.shiftr val kBitsPerCharacter) (<[i := Verhoeff32_ValToChar (Z.land val kCharacterValueMask)]> outBuf)
  end.

(** IntToPairingCode(val, pairingCodeLen, outBuf) *)
Definition IntToPairingCode (val pairingCodeLen : Z) (outBuf : list Z) : res unit * list Z :=
  if negb (kPairingCodeLenMin <=? pairingCodeLen) then (Err WEAVE_ERROR_INVALID_ARGUMENT, outBuf)
  else
    let n := Z.to_nat (pairingCodeLen - 1) in
    let '(val, outBuf) := encode_loop n val outBuf in
    if negb (val =? 0) then (Err WEAVE_ERROR_INVALID_ARGUMENT, outBuf)
    else
      let outBuf := <[n := ComputeCheckChar Verhoeff32 (take n outBuf)]> outBuf in
      (Ok tt, <[Z.to_nat pairingCodeLen := 0]> outBuf).

Fixpoint decode_loop (chars : list Z) (val : Z) : res Z :=
  match chars with
  | [] => Ok val
  | ch :: chars =>
    let chVal := Verhoeff32_CharToVal ch in
    if negb (0 <=? chVal) then Err WEAVE_ERROR_INVALID_ARGUMENT
    else if negb (Z.land val kUInt64OverflowMask =? 0) then Err WEAVE_ERROR_INVALID_ARGUMENT
    else decode_loop chars (Z.lor (u64 (Z.shiftl val kBitsPerCharacter)) chVal)
  end.

(** PairingCodeToInt(pairingCode, pairingCodeLen, val) *)
Definition PairingCodeToInt (pairingCode : list Z) : res Z :=
  let len := Z.of_nat (length pairingCode) in
  if negb (kPairingCodeLenMin <=? len) then Err WEAVE_ERROR_INVALID_ARGUMENT
  else decode_loop (take (Z.to_nat (len - 1)) pairingCode) 0.

Definition IsValidPairingCodeChar (ch : Z) : bool := 0 <=? Verhoeff32_CharToVal ch.
Definition PairingCodeCharToInt (ch : Z) : Z := Verhoeff32_CharToVal ch.
Definition IntToPairingCodeChar (val : Z) : Z := Verhoeff32_ValToChar val.

(** ** KryptonitePairingCodeUtils.cpp and NevisPairingCodeUtils.cpp *)

(** The two products differ in the length of the code and the range of the ids. *)
Record Product := mkProduct { pr_len : Z; pr_base : Z; pr_max : Z }.
Definition Kryptonite : Product := mkProduct kKryptonitePairingCodeLength 0x18B430C000000000 0x18B430CFFFFFFFFF.
Definition Nevis : Product := mkProduct kStandardPairingCodeLength 0x18B4300400000000 0x18B4300401FFFFFF.

Definition PairingCodeToDeviceId (pr : Product) (pairingCode : list Z) : res Z :=
  if negb (Z.of_nat (length pairingCode) =? pr_len pr) then Err WEAVE_ERROR_INVALID_ARGUMENT
  else match VerifyPairingCode pairingCode with
       | Ok _ => match PairingCodeToInt pairingCode with Ok deviceId => Ok (u64 (deviceId + pr_base pr)) | r => r end
       | Err e => Err e
       | Undefined => Undefined
       | Diverges => Diverges
       end.

Definition DeviceIdToPairingCode (pr : Product) (deviceId : Z) (pairingCodeBuf : list Z) : res unit * list Z :=
  if negb ((pr_base pr <=? deviceId) && (deviceId <=? pr_max pr)) then (Err WEAVE_ERROR_INVALID_ARGUMENT, pairingCodeBuf)
  else if negb (pr_len pr + 1 <=? Z.of_nat (length pairingCodeBuf)) then (Err WEAVE_ERROR_BUFFER_TOO_SMALL, pairingCodeBuf)
  else IntToPairingCode (deviceId - pr_base pr) (pr_len pr) pairingCodeBuf.

Definition KryptonitePairingCodeToDeviceId := PairingCodeToDeviceId Kryptonite.
Definition KryptoniteDeviceIdToPairingCode := DeviceIdToPairingCode Kryptonite.
Definition NevisPairingCodeToDeviceId := PairingCodeToDeviceId Nevis.
Definition NevisDeviceIdToPairingCode := DeviceIdToPairingCode Nevis.

(** The values of TestPairingCodeUtils.cpp. *)
Example nevis_code : NevisPairingCodeToDeviceId [48; 48; 52; 72; 76; 88] = Ok 0x18B4300400001234 /\
  NevisDeviceIdToPairingCode 0x18B4300400001234 (replicate 7 0) = (Ok tt, [48; 48; 52; 72; 76; 88; 0]).
Proof. split; vm_compute; reflexivity. Qed.
Example kryptonite_code : KryptonitePairingCodeToDeviceId [49; 88; 78; 68; 80; 51; 87; 87; 51] = Ok 0x18B430CFACDB8FBD /\
  KryptoniteDeviceIdToPairingCode 0x18B430CFACDB8FBD (replicate 10 0) = (Ok tt, [49; 88; 78; 68; 80; 51; 87; 87; 51; 0]).
Proof. split; vm_compute; reflexivity. Qed.
Example normalize_letters : NormalizePairingCode [72; 90; 79; 87; 81; 73] = (6%nat, [72; 50; 48; 87; 48; 49]).
Proof. vm_compute. reflexivity. Qed.

(** ** Numerals *)

(** The last [n] base-32 digits of a number, most significant first. *)
Fixpoint digits (n : nat) (val : Z) : list Z :=
  match n with O => [] | S n => digits n (val / 32) ++ [val mod 32] end.
Definition number (ds : list Z) : Z := fold_left (fun a d => a * 32 + d) ds 0.

Lemma digits_length n : forall val, length (digits n val) = n.
Proof. induction n as [|n IH]; intros val; [done|]. cbn. rewrite length_app, IH. cbn. lia. Qed.

Lemma digits_range n : forall val, Forall (fun d => 0 <= d < 32) (digits n val).
Proof. induction n as [|n IH]; intros val; [constructor|]. apply Forall_app. split; [apply IH|]. constructor; [mlia|constructor]. Qed.

Lemma number_snoc ds d : number (ds ++ [d]) = number ds * 32 + d.
Proof. unfold number. by rewrite fold_left_app. Qed.

Lemma number_digits n : forall val, number (digits n val) = val mod 32 ^ Z.of_nat n.
Proof.
  induction n as [|n IH]; intros val; [by rewrite Z.mod_1_r|]. cbn [digits]. rewrite number_snoc, IH.
  replace (32 ^ Z.of_nat (S n)) with (32 * 32 ^ Z.of_nat n) by (rewrite Nat2Z.inj_succ, Z.pow_succ_r by lia; lia).
  rewrite Z.rem_mul_r by lia. lia.
Qed.

Lemma number_range ds : Forall (fun d => 0 <= d < 32) ds -> 0 <= number ds < 32 ^ Z.of_nat (length ds).
Proof.
  induction ds as [|d ds IH] using rev_ind; [intros _; cbn; lia|]. intros [Hds Hd]%Forall_app. inversion_clear Hd.
  rewrite number_snoc, length_app. cbn [length]. replace (Z.of_nat (length ds + 1)) with (Z.succ (Z.of_nat (length ds))) by lia.
  rewrite Z.pow_succ_r by lia. specialize (IH Hds). lia.
Qed.

Lemma digits_number ds : Forall (fun d => 0 <= d < 32) ds -> digits (length ds) (number ds) = ds.
Proof.
  induction ds as [|d ds IH] using rev_ind; [done|]. intros [Hds Hd]%Forall_app. inversion_clear Hd.
  rewrite number_snoc, length_app, Nat.add_comm. cbn [length Nat.add digits].
  replace ((number ds * 32 + d) / 32) with (number ds) by mlia. replace ((number ds * 32 + d) mod 32) with d by mlia. by rewrite IH.
Qed.

(** ** The loops *)

Lemma land_mask v : Z.land v kCharacterValueMask = v mod 32.
Proof. apply (land_ones_mod v 5). lia. Qed.

(** What is written: the digits, over the first [n] bytes. *)
Lemma encode_loop_spec n : forall val buf, (n <= length buf)%nat ->
  encode_loop n val buf = (val / 32 ^ Z.of_nat n, map Verhoeff32_ValToChar (digits n val) ++ drop n buf).
Proof.
  induction n as [|n IH]; intros val buf Hn; [by rewrite Z.div_1_r|]. cbn [encode_loop digits].
  rewrite IH by (rewrite length_insert; lia). rewrite land_mask, shiftr_div by done. change (2 ^ kBitsPerCharacter) with 32. f_equal.
  - rewrite Nat2Z.inj_succ, Z.pow_succ_r, Z.div_div by lia. done.
  - rewrite map_app, <- app_assoc. f_equal. cbn [map app]. rewrite insert_take_drop by lia.
    rewrite drop_app_length' by (rewrite length_take; lia). done.
Qed.

Lemma valued_range ch : 0 <= Verhoeff32_CharToVal ch -> 0 <= Verhoeff32_CharToVal ch < 32.
Proof. pose proof (Verhoeff32_charval ch). lia. Qed.

Lemma decode_step a d : 0 <= a < 2 ^ 64 -> 0 <= d < 32 ->
  if a <? 2 ^ 59 then Z.land a kUInt64OverflowMask = 0 /\ Z.lor (u64 (Z.shiftl a kBitsPerCharacter)) d = a * 32 + d
  else Z.land a kUInt64OverflowMask <> 0.
Proof.
  intros Ha Hd. assert (Z.land a kUInt64OverflowMask = (a / 2 ^ 59) * 2 ^ 59) as E.
  { change kUInt64OverflowMask with (Z.shiftl (Z.ones 5) 59). rewrite <- shiftl_mul, <- shiftr_div by lia.
    apply Z.bits_inj'. intros n Hn. rewrite Z.land_spec, !Z.shiftl_spec by done.
    destruct (Z.ltb_spec n 59) as [Hlt|Hge]; [rewrite !(Z.testbit_neg_r _ (n - 59)) by lia; apply andb_false_r|].
    rewrite Z.shiftr_spec by lia. replace (n - 59 + 59) with n by lia. destruct (Z.ltb_spec n 64) as [Hlt|Hge'].
    - rewrite Z.ones_spec_low by lia. apply andb_true_r.
    - rewrite Z.ones_spec_high by lia. rewrite andb_false_r. symmetry. destruct (Z.eq_dec a 0) as [->|Hz]; [apply Z.bits_0|].
      apply Z.bits_above_log2; [lia|]. apply Z.log2_lt_pow2; [lia|]. pose proof (Z.pow_le_mono_r 2 64 n). lia. }
  rewrite E. destruct (Z.ltb_spec a (2 ^ 59)) as [Hlt|Hge].
  - split; [rewrite Z.div_small by lia; done|]. rewrite shiftl_mul by done. change (2 ^ kBitsPerCharacter) with 32.
    rewrite u64_id by lia. apply (lor_add_disjoint a d 5); lia.
  - assert (1 <= a / 2 ^ 59) by (apply Z.div_le_lower_bound; lia). lia.
Qed.

Definition valued (ch : Z) : Prop := 0 <= Verhoeff32_CharToVal ch.

(** What is read: the number, when there is one and it fits. *)
Lemma decode_loop_spec chars : forall a, 0 <= a < 2 ^ 64 ->
  decode_loop chars a =
    if forallb (fun ch => 0 <=? Verhoeff32_CharToVal ch) chars && (fold_left (fun a d => a * 32 + d) (map Verhoeff32_CharToVal chars) a <? 2 ^ 64)
    then Ok (fold_left (fun a d => a * 32 + d) (map Verhoeff32_CharToVal chars) a) else Err WEAVE_ERROR_INVALID_ARGUMENT.
Proof.
  induction chars as [|ch chars IH]; intros a Ha; cbn [decode_loop forallb map fold_left].
  { by rewrite (proj2 (Z.ltb_lt a (2 ^ 64))) by lia. }
  destruct (Z.leb_spec 0 (Verhoeff32_CharToVal ch)) as [Hv|Hv]; [|done]. cbn [negb andb]. apply valued_range in Hv.
  pose proof (decode_step a _ Ha Hv) as HS. destruct (Z.ltb_spec a (2 ^ 59)) as [Hlt|Hge].
  - destruct HS as [-> ->]. cbn [Z.eqb negb]. apply IH. lia.
  - rewrite (proj2 (Z.eqb_neq _ _) HS). cbn [negb].
    destruct (forallb _ chars) eqn:Ef; [|done]. cbn [andb].
    assert (2 ^ 64 <= fold_left (fun a d => a * 32 + d) (map Verhoeff32_CharToVal chars) (a * 32 + Verhoeff32_CharToVal ch)) as Hle.
    { assert (2 ^ 64 <= a * 32 + Verhoeff32_CharToVal ch) as H0 by lia. revert H0. generalize (a * 32 + Verhoeff32_CharToVal ch).
      clear - Ef. induction chars as [|c chars IH]; intros x Hx; [done|]. cbn in Ef |- *. bool_prop. apply IH; [done|lia]. }
    by rewrite (proj2 (Z.ltb_ge _ _) Hle).
Qed.

(** ** Canonical codes *)

(** A character that NormalizePairingCode keeps as it is. *)
Definition canonical (ch : Z) : Prop := valued ch /\ normalize_char ch = ch.

Lemma canonical_char ch : canonical ch -> Verhoeff32_ValToChar (Verhoeff32_CharToVal ch) = ch.
Proof.
  intros [Hv Hn]. unfold valued in Hv. assert (48 <= ch <= 121) as Hr.
  { unfold Verhoeff32_CharToVal in Hv. destruct (_ && _) eqn:E; [bool_prop; lia|lia]. }
  pose proof (all_upto_spec 122 (fun ch => implb ((0 <=? Verhoeff32_CharToVal ch) && (normalize_char ch =? ch))
    (Verhoeff32_ValToChar (Verhoeff32_CharToVal ch) =? ch)) ltac:(vm_compute; reflexivity) ch ltac:(lia)) as HC.
  cbv beta in HC. rewrite (proj2 (Z.leb_le _ _) Hv), (proj2 (Z.eqb_eq _ _) Hn) in HC. by apply Z.eqb_eq in HC.
Qed.

Lemma chars_of_digits ds : Forall (fun d => 0 <= d < 32) ds -> map Verhoeff32_CharToVal (map Verhoeff32_ValToChar ds) = ds.
Proof. induction 1 as [|d ds Hd _ IH]; [done|]. cbn. rewrite IH. f_equal. by apply (char_val Verhoeff32). Qed.

Lemma digits_of_chars body : Forall canonical body -> map Verhoeff32_ValToChar (map Verhoeff32_CharToVal body) = body.
Proof. induction 1 as [|ch body Hc _ IH]; [done|]. cbn. by rewrite IH, canonical_char. Qed.

Lemma digits_valued ds : Forall (fun d => 0 <= d < 32) ds -> forallb (fun ch => 0 <=? Verhoeff32_CharToVal ch) (map Verhoeff32_ValToChar ds) = true.
Proof.
  induction 1 as [|d ds Hd _ IH]; [done|]. cbn [map forallb]. rewrite IH, andb_true_r. apply Z.leb_le.
  pose proof (char_val Verhoeff32 d Hd) as E. cbn in E. lia.
Qed.

(** The code of a number: its digits and their check character. *)
Definition code_of (n : nat) (val : Z) : list Z :=
  let body := map Verhoeff32_ValToChar (digits n val) in body ++ [ComputeCheckChar Verhoeff32 body].

Lemma body_length n val : length (map Verhoeff32_ValToChar (digits n val)) = n.
Proof. by rewrite length_map, digits_length. Qed.

Lemma encode_spec val len buf : 2 <= len -> len + 1 <= Z.of_nat (length buf) -> 0 <= val ->
  if val <? 32 ^ (len - 1)
  then IntToPairingCode val len buf = (Ok tt, code_of (Z.to_nat (len - 1)) val ++ 0 :: drop (Z.to_nat (len + 1)) buf)
  else fst (IntToPairingCode val len buf) = Err WEAVE_ERROR_INVALID_ARGUMENT.
Proof.
  intros Hlen Hbuf Hv. unfold IntToPairingCode. rewrite (proj2 (Z.leb_le _ _)) by (unfold kPairingCodeLenMin; lia). cbn [negb].
  set (n := Z.to_nat (len - 1)). rewrite encode_loop_spec by lia. replace (Z.of_nat n) with (len - 1) by lia.
  destruct (Z.ltb_spec val (32 ^ (len - 1))) as [Hlt|Hge].
  - rewrite Z.div_small by lia. cbn [Z.eqb negb]. f_equal. unfold code_of. set (body := map _ _).
    assert (length body = n) as HL by apply body_length.
    rewrite take_app_length' by done. destruct (drop n buf) as [|x rest] eqn:E; [apply (f_equal length) in E; rewrite length_drop in E; cbn in E; lia|].
    destruct rest as [|y rest]; [apply (f_equal length) in E; rewrite length_drop in E; cbn in E; lia|].
    assert (drop (Z.to_nat (len + 1)) buf = rest) as ->.
    { apply (f_equal (drop 2)) in E. rewrite drop_drop in E. transitivity (drop (n + 2) buf); [f_equal; lia|exact E]. }
    rewrite insert_app_r_alt by lia. rewrite HL, Nat.sub_diag. cbn [insert list_insert].
    rewrite insert_app_r_alt by lia. rewrite HL. replace (Z.to_nat len - n)%nat with 1%nat by lia. cbn. by rewrite <- app_assoc.
  - assert (1 <= val / 32 ^ (len - 1)) by (apply Z.div_le_lower_bound; lia). rewrite (proj2 (Z.eqb_neq _ _)) by lia. done.
Qed.

Lemma Verify_snoc body k : (1 <= length body)%nat -> VerifyPairingCode (body ++ [k]) = if ComputeCheckChar Verhoeff32 body =? k then Ok tt else Err WEAVE_ERROR_INVALID_ARGUMENT.
Proof.
  intros Hb. unfold VerifyPairingCode, ValidateCheckChar2, kPairingCodeLenMin. rewrite length_app. cbn [length].
  rewrite (proj2 (Z.leb_le _ _)) by lia. cbn [negb]. replace (Z.to_nat _) with (length body) by lia.
  rewrite take_app_length. unfold arr. replace (Z.to_nat _) with (length body) by lia. rewrite app_nth2, Nat.sub_diag by lia. cbn.
  by destruct (_ =? k).
Qed.

Lemma ToInt_snoc body k : (1 <= length body)%nat -> PairingCodeToInt (body ++ [k]) = decode_loop body 0.
Proof.
  intros Hb. unfold PairingCodeToInt, kPairingCodeLenMin. rewrite length_app. cbn [length]. rewrite (proj2 (Z.leb_le _ _)) by lia. cbn [negb].
  replace (Z.to_nat _) with (length body) by lia. by rewrite take_app_length.
Qed.

(** ** NormalizePairingCode *)

Definition normal_form (s : list Z) : list Z := filter valued (map normalize_char s).

#[export] Instance valued_dec ch : Decision (valued ch).
Proof. unfold valued. apply _. Defined.

Lemma normalize_char_idem ch : normalize_char (normalize_char ch) = normalize_char ch.
Proof.
  destruct (Z.le_gt_cases 0 ch) as [H0|H0], (Z.le_gt_cases 123 ch) as [H1|H1]; try lia.
  - assert (forall x, 123 <= x -> normalize_char x = x) as E; [|by rewrite !(E ch) by lia]. intros x Hx.
    unfold normalize_char, toupper. rewrite (proj2 (Z.leb_gt x 122)), andb_false_r by lia.
    rewrite !(proj2 (Z.eqb_neq x _)) by lia. done.
  - pose proof (all_upto_spec 123 (fun x => normalize_char (normalize_char x) =? normalize_char x) ltac:(vm_compute; reflexivity) ch ltac:(lia)) as E.
    by apply Z.eqb_eq in E.
  - assert (forall x, x < 0 -> normalize_char x = x) as E; [|by rewrite !(E ch) by lia]. intros x Hx.
    unfold normalize_char, toupper. rewrite (proj2 (Z.leb_gt 97 x)) by lia. cbn [andb]. rewrite !(proj2 (Z.eqb_neq x _)) by lia. done.
Qed.

Lemma normal_form_canonical s : Forall canonical (normal_form s).
Proof.
  unfold normal_form. induction s as [|ch s IH]; [constructor|]. cbn [map]. rewrite filter_cons. destruct (decide _) as [Hv|]; [|done].
  constructor; [|done]. split; [done|]. apply normalize_char_idem.
Qed.

Lemma normalize_loop_spec n : forall i newLen done buf, (newLen <= i)%nat -> (i + n = length buf)%nat -> take newLen buf = done -> length done = newLen ->
  let '(newLen', buf') := normalize_loop n i newLen buf in
  take newLen' buf' = done ++ normal_form (drop i buf) /\ (newLen' <= i + n)%nat /\ length buf' = length buf /\ newLen' = length (done ++ normal_form (drop i buf)).
Proof.
  induction n as [|n IH]; intros i newLen done buf Hle Hn Ht HL; cbn [normalize_loop].
  { rewrite drop_ge by lia. cbn. rewrite app_nil_r. repeat split; try lia. done. }
  assert (drop i buf = arr buf (Z.of_nat i) :: drop (S i) buf) as Ed.
  { destruct (lookup_lt_is_Some_2 buf i ltac:(lia)) as [x Ex]. rewrite (drop_S _ _ _ Ex). f_equal. unfold arr. rewrite Nat2Z.id.
    symmetry. by apply nth_lookup_Some. }
  rewrite Ed. unfold normal_form. cbn [map]. set (ch := normalize_char (arr buf (Z.of_nat i))). rewrite filter_cons. fold (normal_form (drop (S i) buf)).
  destruct (Z.ltb_spec (Verhoeff32_CharToVal ch) 0) as [Hb|Hv].
  - rewrite decide_False by (unfold valued; lia). specialize (IH (S i) newLen done buf ltac:(lia) ltac:(lia) Ht HL).
    destruct (normalize_loop n (S i) newLen buf) as [newLen' buf']. destruct IH as (E1 & E2 & E3 & E4). repeat split; try done; lia.
  - rewrite decide_True by done. specialize (IH (S i) (S newLen) (done ++ [ch]) (<[newLen := ch]> buf) ltac:(lia) ltac:(rewrite length_insert; lia)).
    rewrite insert_take_drop in IH by lia.
    assert (take (S newLen) (take newLen buf ++ ch :: drop (S newLen) buf) = done ++ [ch]) as Et.
    { rewrite Ht, take_app, HL. replace (S newLen - newLen)%nat with 1%nat by lia. rewrite take_ge by lia. done. }
    specialize (IH Et ltac:(rewrite length_app; cbn; lia)). rewrite <- insert_take_drop in IH by lia.
    rewrite drop_insert_lt in IH by lia. rewrite length_insert in IH. rewrite <- app_assoc in IH. cbn [app] in IH.
    destruct (normalize_loop n (S i) (S newLen) _) as [newLen' buf']. destruct IH as (E1 & E2 & E3 & E4). repeat split; try done; lia.
Qed.

(** NormalizePairingCode leaves the characters that have a value, spelled as the
    alphabet spells them, at the front of the string's buffer. *)
Lemma NormalizePairingCode_spec s : let '(n, buf) := NormalizePairingCode s in
  take n buf = normal_form s /\ n = length (normal_form s) /\ length buf = length s /\ ((n < length s)%nat -> arr buf (Z.of_nat n) = 0).
Proof.
  unfold NormalizePairingCode. pose proof (normalize_loop_spec (length s) 0 0 [] s ltac:(lia) ltac:(lia) eq_refl eq_refl) as HL.
  destruct (normalize_loop _ _ _ _) as [n buf]. cbn [app drop] in HL. destruct HL as (E1 & E2 & E3 & E4).
  destruct (Nat.ltb_spec n (length s)) as [Hlt|Hge].
  - rewrite take_insert_ge by lia. rewrite length_insert. repeat split; try done. intros _. unfold arr. rewrite Nat2Z.id.
    apply nth_lookup_Some. apply list_lookup_insert_eq. lia.
  - repeat split; try done. lia.
Qed.

(** C25: Pairing codes and numbers correspond one to one: a number that fits in
    pairingCodeLen - 1 base-32 digits is encoded as a code, NUL-terminated in the
    buffer, that verifies and decodes to it, and any other number is
    refused; and a code in normal form that verifies and decodes to a
    number is the code of that number. *)
Theorem PairingCode_bijection val len buf : 2 <= len <= 255 -> 0 <= val < 2 ^ 64 -> len + 1 <= Z.of_nat (length buf) ->
  (if val <? 32 ^ (len - 1)
   then exists code, Z.of_nat (length code) = len /\ IntToPairingCode val len buf = (Ok tt, code ++ 0 :: drop (Z.to_nat (len + 1)) buf) /\
     VerifyPairingCode code = Ok tt /\ PairingCodeToInt code = Ok val
   else fst (IntToPairingCode val len buf) = Err WEAVE_ERROR_INVALID_ARGUMENT) /\
  (forall code, Z.of_nat (length code) = len -> Forall canonical (removelast code) -> VerifyPairingCode code = Ok tt -> PairingCodeToInt code = Ok val ->
     IntToPairingCode val len buf = (Ok tt, code ++ 0 :: drop (Z.to_nat (len + 1)) buf)).
Proof.
  intros Hlen Hv Hbuf. pose proof (encode_spec val len buf ltac:(lia) Hbuf ltac:(lia)) as HE. split.
  - destruct (Z.ltb_spec val (32 ^ (len - 1))) as [Hlt|_]; [|exact HE]. exists (code_of (Z.to_nat (len - 1)) val).
    pose proof (body_length (Z.to_nat (len - 1)) val) as HL. unfold code_of in *. rewrite length_app, HL. cbn [length].
    split; [lia|]. split; [exact HE|]. rewrite Verify_snoc, Z.eqb_refl, ToInt_snoc by lia. split; [done|].
    rewrite decode_loop_spec by lia. rewrite chars_of_digits, digits_valued by apply digits_range. cbn [andb].
    change (fold_left _ _ 0) with (number (digits (Z.to_nat (len - 1)) val)). rewrite number_digits.
    rewrite Z.mod_small by (replace (Z.of_nat (Z.to_nat (len - 1))) with (len - 1) by lia; lia). by rewrite (proj2 (Z.ltb_lt _ _)) by lia.
  - intros code Hc Hcan. destruct code as [|k body _] using rev_ind; [cbn in Hc; lia|]. rewrite removelast_last in Hcan.
    rewrite length_app in Hc. cbn [length] in Hc. rewrite Verify_snoc, ToInt_snoc by lia.
    destruct (Z.eqb_spec (ComputeCheckChar Verhoeff32 body) k) as [Ek|]; [intros _|done].
    rewrite decode_loop_spec by lia. change (fold_left _ _ 0) with (number (map Verhoeff32_CharToVal body)).
    destruct (_ && _); [intros [= E]|done]. assert (Forall (fun d => 0 <= d < 32) (map Verhoeff32_CharToVal body)) as Hd.
    { apply Forall_map. eapply Forall_impl; [|exact Hcan]. intros ch [Hch _]. by apply valued_range. }
    pose proof (number_range _ Hd) as Hr. rewrite E, length_map in Hr. replace (Z.of_nat (length body)) with (len - 1) in Hr by lia.
    rewrite (proj2 (Z.ltb_lt _ _)) in HE by lia. rewrite HE. f_equal. unfold code_of. f_equal.
    assert (digits (Z.to_nat (len - 1)) val = map Verhoeff32_CharToVal body) as ->.
    { rewrite <- (digits_number _ Hd), E, length_map. f_equal. lia. }
    rewrite digits_of_chars by done. by rewrite Ek.
Qed.

Lemma PairingCode_bijection_witness :
  IntToPairingCode 0x1234 6 (replicate 7 0) = (Ok tt, [48; 48; 52; 72; 76; 88] ++ 0 :: drop 7 (replicate 7 0)).
Proof.
  apply (PairingCode_bijection 0x1234 6 (replicate 7 0)); [lia|lia|cbn; lia|reflexivity| |vm_compute; reflexivity|vm_compute; reflexivity].
  repeat constructor; vm_compute; congruence.
Defined.
