(* ===== verification/SimpleAlloc.v ===== *)
(** * The simple allocator of the security manager (lib/core/WeaveSecurityMgr-SimpleAlloc.cpp)

    Memory blocks of fixed sizes, in network buffers that are taken when the first
    block of a buffer is allocated and released with its last one, or in a buffer
    dedicated to them. *)
From S2P Require Import Prelude.
Local Open Scope Z_scope.

(** ** The tables *)

(** The block sets of one configuration (BlockSetParams). *)
Record Config := mkConfig {
  kNumberOfNetworkBuffers : nat;
  sBlockSetParams : list Z;
  sBufferAllocationMask : list Z;
  kTotalMemorySize : Z;
  kMinBufferSize : Z }.
Definition kMaxBlockSize : Z := 600.

Definition block_set (size count bufferIndex isLongTerm : Z) : Z :=
  Z.lor (Z.lor (Z.lor (Z.land (Z.shiftl size 0) 7) (Z.land (Z.shiftl count 3) 24)) (Z.land (Z.shiftl bufferIndex 5) 96)) (Z.land (Z.shiftl isLongTerm 7) 128).

Definition default_config : Config :=
  mkConfig 2 [block_set 1 1 0 1; block_set 4 1 0 1; block_set 4 1 0 0; block_set 5 2 1 0] [7; 24] (Z.shiftl (1 * 1 + 4 * 1 + 4 * 1 + 5 * 2) 7) 1240.
(** WEAVE_CONFIG_SIMPLE_ALLOCATOR_USE_SMALL_BUFFERS *)
Definition small_config : Config :=
  mkConfig 4 [block_set 1 1 0 1; block_set 4 1 0 1; block_set 4 1 1 0; block_set 5 1 2 0; block_set 5 1 3 0] [3; 4; 8; 16]
    (Z.shiftl (1 * 1 + 4 * 1 + 4 * 1 + 5 * 1 + 5 * 1) 7) 600.

(** DecodeBlockSetParams: blockSize, blockCount, blockBufferIndex, blockIsLongTerm *)
Definition DecodeBlockSetParams (sNetworkBuffersUsed : bool) (p : Z) : Z * nat * nat * bool :=
  (Z.shiftl (Z.land p 7) 7, Z.to_nat (Z.shiftr (Z.land p 24) 3), if sNetworkBuffersUsed then Z.to_nat (Z.shiftr (Z.land p 96) 5) else 0%nat, Z.land p 128 =? 128).

(** ** The interface to the packet buffers

    A network buffer is known by the address of its Start(). *)
Class BufferPool (P : Type) := {
  pool_new : Z -> P -> option Z * P;
  pool_free : Z -> P -> P }.

Section Alloc.
Context {P : Type} `{BufferPool P} (cfg : Config).

Record Allocator := mkAlloc {
  sMemBlocksAllocated : Z;
  sNetworkBuffersUsed : bool;
  sMemBufs : list (option Z);
  a_pool : P }.

Definition alloc_start (p : P) : Allocator := mkAlloc 0 true (replicate (kNumberOfNetworkBuffers cfg) None) p.

Definition mem_buf (a : Allocator) (b : nat) : option Z := match sMemBufs a !! b with Some x => x | None => None end.
Definition set_blocks (x : Z) (a : Allocator) : Allocator := mkAlloc x (sNetworkBuffersUsed a) (sMemBufs a) (a_pool a).
Definition set_buf (b : nat) (x : option Z) (a : Allocator) : Allocator := mkAlloc (sMemBlocksAllocated a) (sNetworkBuffersUsed a) (<[b := x]> (sMemBufs a)) (a_pool a).
Definition set_pool (p : P) (a : Allocator) : Allocator := mkAlloc (sMemBlocksAllocated a) (sNetworkBuffersUsed a) (sMemBufs a) p.

(** MemoryInit(buf, bufSize), the pointer NULL being 0 *)
Definition MemoryInit (buf bufSize : Z) (a : Allocator) : res unit * Allocator :=
  if negb (buf =? 0) then
    let bufByteOffset := buf mod 4 in
    let '(buf, bufSize) := if negb (bufByteOffset =? 0) then (buf + (4 - bufByteOffset), u64 (bufSize - (4 - bufByteOffset))) else (buf, bufSize) in
    if bufSize <? kTotalMemorySize cfg then (Err WEAVE_ERROR_BUFFER_TOO_SMALL, a)
    else (Ok tt, mkAlloc (sMemBlocksAllocated a) false (<[0%nat := Some buf]> (sMemBufs a)) (a_pool a))
  else (Ok tt, a).

Fixpoint shutdown_bufs (n b : nat) (a : Allocator) : Allocator :=
  match n with
  | O => a
  | S n => shutdown_bufs n (S b) (match mem_buf a b with Some x => set_buf b None (set_pool (pool_free x (a_pool a)) a) | None => a end)
  end.
Definition MemoryShutdown (a : Allocator) : Allocator :=
  let a := if sNetworkBuffersUsed a then shutdown_bufs (kNumberOfNetworkBuffers cfg) 0 a else set_buf 0 None a in
  mkAlloc 0 true (sMemBufs a) (a_pool a).

(** How a loop over the blocks ends: by a return, or with the next blockIndex and
    bufferOffset. *)
Inductive scan (A : Type) := Return (r : A) (a : Allocator) | More (blockIndex : Z) (bufferOffset : list Z).
Arguments Return {A} r a.
Arguments More {A} blockIndex bufferOffset.

Definition advance (b : nat) (n : Z) (bufferOffset : list Z) : list Z := <[b := u16 (arr bufferOffset (Z.of_nat b) + n)]> bufferOffset.

(** The memory of buffer [b], which is taken from the pool when it is not there. *)
Definition buffer_memory (b : nat) (a : Allocator) : option Z * Allocator :=
  if sNetworkBuffersUsed a then
    match mem_buf a b with
    | Some x => (Some x, a)
    | None => let '(x, p) := pool_new (kMinBufferSize cfg) (a_pool a) in (x, set_buf b x (set_pool p a))
    end
  else (mem_buf a b, a).

Fixpoint alloc_blocks (n : nat) (blockSize : Z) (b : nat) (blockIndex : Z) (bufferOffset : list Z) (a : Allocator) : scan (option Z) :=
  match n with
  | O => More blockIndex bufferOffset
  | S n =>
    if Z.land blockIndex (sMemBlocksAllocated a) =? 0 then
      let '(memBufStart, a') := buffer_memory b a in
      match memBufStart with
      | None => Return None a'
      | Some s => Return (Some (s + arr bufferOffset (Z.of_nat b))) (set_blocks (Z.lor (sMemBlocksAllocated a') blockIndex) a')
      end
    else alloc_blocks n blockSize b (u8 (Z.shiftl blockIndex 1)) (advance b blockSize bufferOffset) a
  end.

Fixpoint alloc_sets (params : list Z) (size : Z) (isLongTermAlloc : bool) (blockIndex : Z) (bufferOffset : list Z) (a : Allocator) : option Z * Allocator :=
  match params with
  | [] => (None, a)
  | p :: params =>
    let '(blockSize, blockCount, b, blockIsLongTerm) := DecodeBlockSetParams (sNetworkBuffersUsed a) p in
    if (size <=? blockSize) && (isLongTermAlloc || negb blockIsLongTerm) then
      match alloc_blocks blockCount blockSize b blockIndex bufferOffset a with
      | Return r a' => (r, a')
      | More blockIndex bufferOffset => alloc_sets params size isLongTermAlloc blockIndex bufferOffset a
      end
    else alloc_sets params size isLongTermAlloc (u8 (Z.shiftl blockIndex (Z.of_nat blockCount))) (advance b (blockSize * Z.of_nat blockCount) bufferOffset) a
  end.

(** MemoryAlloc(size, isLongTermAlloc) and MemoryAlloc(size) *)
Definition MemoryAlloc (size : Z) (isLongTermAlloc : bool) (a : Allocator) : option Z * Allocator :=
  if (size =? 0) || (kMaxBlockSize <? size) then (None, a)
  else alloc_sets (sBlockSetParams cfg) size isLongTermAlloc 1 (replicate (kNumberOfNetworkBuffers cfg) 0) a.
Definition MemoryAlloc_short (size : Z) (a : Allocator) : option Z * Allocator := MemoryAlloc size false a.

(** The block found: it is marked as free, and its network buffer released with
    the last of its blocks. *)
Definition free_block (b : nat) (blockIndex : Z) (a : Allocator) : Allocator :=
  let a := set_blocks (Z.land (sMemBlocksAllocated a) (u8 (Z.lnot blockIndex))) a in
  if sNetworkBuffersUsed a && (Z.land (sMemBlocksAllocated a) (arr (sBufferAllocationMask cfg) (Z.of_nat b)) =? 0) then
    match mem_buf a b with Some x => set_buf b None (set_pool (pool_free x (a_pool a)) a) | None => a end
  else a.

Fixpoint free_blocks (n : nat) (p s blockSize : Z) (b : nat) (blockIndex : Z) (bufferOffset : list Z) (a : Allocator) : scan unit :=
  match n with
  | O => More blockIndex bufferOffset
  | S n =>
    if p =? s + arr bufferOffset (Z.of_nat b) then Return tt (free_block b blockIndex a)
    else free_blocks n p s blockSize b (u8 (Z.shiftl blockIndex 1)) (advance b blockSize bufferOffset) a
  end.

Fixpoint free_sets (params : list Z) (p : Z) (blockIndex : Z) (bufferOffset : list Z) (a : Allocator) : Allocator :=
  match params with
  | [] => a
  | q :: params =>
    let '(blockSize, blockCount, b, _) := DecodeBlockSetParams (sNetworkBuffersUsed a) q in
    let found := match mem_buf a b with
      | None => More blockIndex bufferOffset
      | Some s =>
        let o := arr bufferOffset (Z.of_nat b) in
        if (s + o <=? p) && (p <? s + o + blockSize * Z.of_nat blockCount)
        then free_blocks blockCount p s blockSize b blockIndex bufferOffset a else More blockIndex bufferOffset
      end in
    match found with
    | Return _ a' => a'
    | More blockIndex bufferOffset =>
      free_sets params p (u8 (Z.shiftl blockIndex (Z.of_nat blockCount))) (advance b (blockSize * Z.of_nat blockCount) bufferOffset) a
    end
  end.

(** MemoryFree(p) *)
Definition MemoryFree (p : Z) (a : Allocator) : Allocator := free_sets (sBlockSetParams cfg) p 1 (replicate (kNumberOfNetworkBuffers cfg) 0) a.

(** ** The blocks one after the other *)

(** A block: its mark, its buffer, its offset there and the parameters of its set. *)
Record Place := mkPlace { pl_mark : Z; pl_buf : nat; pl_off : Z; pl_size : Z; pl_long : bool }.

Fixpoint set_places (n : nat) (blockSize : Z) (b : nat) (long : bool) (blockIndex : Z) (off : list Z) : list Place :=
  match n with
  | O => []
  | S n => mkPlace blockIndex b (arr off (Z.of_nat b)) blockSize long ::
           set_places n blockSize b long (u8 (Z.shiftl blockIndex 1)) (advance b blockSize off)
  end.
Fixpoint all_places (net : bool) (params : list Z) (blockIndex : Z) (off : list Z) : list Place :=
  match params with
  | [] => []
  | p :: params =>
    let '(blockSize, blockCount, b, long) := DecodeBlockSetParams net p in
    set_places blockCount blockSize b long blockIndex off ++
    all_places net params (u8 (Z.shiftl blockIndex (Z.of_nat blockCount))) (advance b (blockSize * Z.of_nat blockCount) off)
  end.
Definition places (net : bool) : list Place := all_places net (sBlockSetParams cfg) 1 (replicate (kNumberOfNetworkBuffers cfg) 0).

Definition fits (size : Z) (long : bool) (pl : Place) : bool := (size <=? pl_size pl) && (long || negb (pl_long pl)).
Definition is_free (a : Allocator) (pl : Place) : bool := Z.land (pl_mark pl) (sMemBlocksAllocated a) =? 0.

Definition take_block (pl : Place) (a : Allocator) : option Z * Allocator :=
  let '(memBufStart, a') := buffer_memory (pl_buf pl) a in
  match memBufStart with
  | None => (None, a')
  | Some s => (Some (s + pl_off pl), set_blocks (Z.lor (sMemBlocksAllocated a') (pl_mark pl)) a')
  end.

Lemma shift_shift x i j : 0 <= i -> 0 <= j -> u8 (Z.shiftl (u8 (Z.shiftl x i)) j) = u8 (Z.shiftl x (i + j)).
Proof. intros Hi Hj. rewrite !shiftl_mul, Z.pow_add_r by lia. unfold u8. rewrite Zmult_mod_idemp_l. f_equal. lia. Qed.

Lemma offset_advance_advance b m n off : advance b n (advance b m off) = advance b (m + n) off.
Proof.
  unfold advance. rewrite list_insert_insert_eq. unfold arr. rewrite Nat2Z.id.
  destruct (Nat.lt_ge_cases b (length off)) as [Hlt|Hge].
  - f_equal. rewrite (nth_lookup_Some _ _ 0 (u16 (nth b off 0 + m))) by (by apply list_lookup_insert_eq).
    unfold u16. rewrite Zplus_mod_idemp_l. f_equal. lia.
  - rewrite !list_insert_ge by lia. done.
Qed.

Definition norm (off : list Z) : Prop := Forall (fun x => 0 <= x < 65536) off.

Lemma advance_norm b n off : norm off -> norm (advance b n off).
Proof. intros Hn. apply Forall_insert; [done|apply u16_range]. Qed.

Lemma offset_advance_0 b off : norm off -> advance b 0 off = off.
Proof.
  intros Hn. unfold advance, arr. rewrite Nat2Z.id, Z.add_0_r. destruct (Nat.lt_ge_cases b (length off)) as [Hlt|Hge]; [|by apply list_insert_ge].
  destruct (lookup_lt_is_Some_2 off b Hlt) as [x Ex]. rewrite (nth_lookup_Some _ _ _ _ Ex), u16_id by (by eapply Forall_lookup_1 in Hn).
  by apply list_insert_id.
Qed.

Lemma shift_0 x : 0 <= x < 256 -> u8 (Z.shiftl x 0) = x.
Proof. intros Hx. rewrite Z.shiftl_0_r. by apply u8_id. Qed.

Lemma more_step n b size blockIndex off : norm off -> 0 <= blockIndex < 256 ->
  u8 (Z.shiftl (u8 (Z.shiftl blockIndex 1)) (Z.of_nat n)) = u8 (Z.shiftl blockIndex (Z.of_nat (S n))) /\
  advance b (size * Z.of_nat n) (advance b size off) = advance b (size * Z.of_nat (S n)) off.
Proof. intros Hn Hb. rewrite shift_shift, offset_advance_advance by lia. split; f_equal; [f_equal; lia|lia]. Qed.

(** MemoryAlloc is first fit. *)
Lemma alloc_blocks_find n size b long a : forall blockIndex off, norm off -> 0 <= blockIndex < 256 ->
  alloc_blocks n size b blockIndex off a =
  match find (is_free a) (set_places n size b long blockIndex off) with
  | Some pl => let '(r, a') := take_block pl a in Return r a'
  | None => More (u8 (Z.shiftl blockIndex (Z.of_nat n))) (advance b (size * Z.of_nat n) off)
  end.
Proof.
  induction n as [|n IH]; intros blockIndex off Hn Hb; cbn [alloc_blocks set_places find].
  { by rewrite Z.mul_0_r, offset_advance_0, shift_0. }
  unfold is_free at 1. cbn [pl_mark]. destruct (_ =? 0).
  - unfold take_block. cbn [pl_buf pl_off pl_mark]. by destruct (buffer_memory b a) as [[x|] a'].
  - rewrite IH by (apply advance_norm || apply u8_range; done). destruct (more_step n b size blockIndex off Hn Hb) as [-> ->]. done.
Qed.

Lemma find_app {A} (f : A -> bool) l1 l2 : find f (l1 ++ l2) = match find f l1 with Some x => Some x | None => find f l2 end.
Proof. induction l1 as [|x l1 IH]; [done|]. cbn. by destruct (f x). Qed.

Lemma set_places_fits n size b long req l a : forall blockIndex off,
  find (fun pl => fits req l pl && is_free a pl) (set_places n size b long blockIndex off) =
  if (req <=? size) && (l || negb long) then find (is_free a) (set_places n size b long blockIndex off) else None.
Proof.
  induction n as [|n IH]; intros blockIndex off; cbn [set_places find]; [by destruct (_ && _)|].
  unfold fits at 1. cbn [pl_size pl_long]. rewrite IH. by destruct ((req <=? size) && (l || negb long)).
Qed.

Lemma alloc_sets_find params req l a : forall blockIndex off, norm off -> 0 <= blockIndex < 256 ->
  alloc_sets params req l blockIndex off a =
  match find (fun pl => fits req l pl && is_free a pl) (all_places (sNetworkBuffersUsed a) params blockIndex off) with
  | Some pl => take_block pl a
  | None => (None, a)
  end.
Proof.
  induction params as [|p params IH]; intros blockIndex off Hn Hb; cbn [alloc_sets all_places]; [done|].
  destruct (DecodeBlockSetParams (sNetworkBuffersUsed a) p) as [[[size count] b] long]. rewrite find_app, (set_places_fits count size b long req l a).
  assert (alloc_sets params req l (u8 (Z.shiftl blockIndex (Z.of_nat count))) (advance b (size * Z.of_nat count) off) a =
    match find (fun pl => fits req l pl && is_free a pl) (all_places (sNetworkBuffersUsed a) params (u8 (Z.shiftl blockIndex (Z.of_nat count))) (advance b (size * Z.of_nat count) off)) with
    | Some pl => take_block pl a | None => (None, a) end) as HR by (apply IH; [by apply advance_norm|apply u8_range]).
  destruct (_ && _); [|exact HR]. rewrite (alloc_blocks_find count size b long a) by done. destruct (find (is_free a) _) as [pl|]; [|exact HR].
  by destruct (take_block pl a).
Qed.

Lemma norm_zero n : norm (replicate n 0).
Proof. apply Forall_replicate. lia. Qed.

Lemma MemoryAlloc_first_fit req l a : 0 < req -> MemoryAlloc req l a =
  if kMaxBlockSize <? req then (None, a) else
  match find (fun pl => fits req l pl && is_free a pl) (places (sNetworkBuffersUsed a)) with
  | Some pl => take_block pl a
  | None => (None, a)
  end.
Proof.
  intros Hr. unfold MemoryAlloc, places. rewrite (proj2 (Z.eqb_neq req 0)) by lia. cbn [orb]. destruct (_ <? _); [done|].
  apply alloc_sets_find; [apply norm_zero|lia].
Qed.

(** The address of a block whose buffer is there. *)
Definition place_addr (a : Allocator) (pl : Place) : option Z := match mem_buf a (pl_buf pl) with Some s => Some (s + pl_off pl) | None => None end.

(** ** MemoryFree finds the block *)

Definition in_range (a : Allocator) (p : Z) (b : nat) (o len : Z) : bool :=
  match mem_buf a b with Some s => (s + o <=? p) && (p <? s + o + len) | None => false end.

Lemma free_sets_skip q params p blockIndex off a :
  let '(size, count, b, _) := DecodeBlockSetParams (sNetworkBuffersUsed a) q in
  in_range a p b (arr off (Z.of_nat b)) (size * Z.of_nat count) = false ->
  free_sets (q :: params) p blockIndex off a =
  free_sets params p (u8 (Z.shiftl blockIndex (Z.of_nat count))) (advance b (size * Z.of_nat count) off) a.
Proof.
  cbn [free_sets]. destruct (DecodeBlockSetParams _ q) as [[[size count] b] long]. unfold in_range. cbn zeta.
  destruct (mem_buf a b); [|done]. by intros ->.
Qed.

Lemma free_blocks_hit n p s size b a : forall j blockIndex off, (j < n)%nat -> 0 < size -> (b < length off)%nat -> 0 <= blockIndex < 256 ->
  0 <= arr off (Z.of_nat b) -> arr off (Z.of_nat b) + size * Z.of_nat n < 65536 -> p = s + arr off (Z.of_nat b) + size * Z.of_nat j ->
  free_blocks n p s size b blockIndex off a = Return tt (free_block b (u8 (Z.shiftl blockIndex (Z.of_nat j))) a).
Proof.
  induction n as [|n IH]; intros j blockIndex off Hj Hs Hb Hi H0 Hw Hp; [lia|]. cbn [free_blocks]. destruct j as [|j].
  - rewrite (proj2 (Z.eqb_eq _ _)) by lia. by rewrite shift_0.
  - rewrite (proj2 (Z.eqb_neq _ _)) by lia. assert (arr (advance b size off) (Z.of_nat b) = arr off (Z.of_nat b) + size) as Ea.
    { unfold advance, arr at 1. rewrite Nat2Z.id. rewrite (nth_lookup_Some _ _ 0 _ (list_lookup_insert_eq _ _ _ Hb)). apply u16_id. nia. }
    rewrite (IH j); [|lia|done|unfold advance; by rewrite length_insert|apply u8_range|lia|nia|nia].
    rewrite shift_shift by lia. do 4 f_equal. lia.
Qed.

Lemma free_sets_hit q params p blockIndex off a j s :
  let '(size, count, b, _) := DecodeBlockSetParams (sNetworkBuffersUsed a) q in
  mem_buf a b = Some s -> (j < count)%nat -> 0 < size -> (b < length off)%nat -> 0 <= blockIndex < 256 ->
  0 <= arr off (Z.of_nat b) -> arr off (Z.of_nat b) + size * Z.of_nat count < 65536 -> p = s + arr off (Z.of_nat b) + size * Z.of_nat j ->
  free_sets (q :: params) p blockIndex off a = free_block b (u8 (Z.shiftl blockIndex (Z.of_nat j))) a.
Proof.
  cbn [free_sets]. destruct (DecodeBlockSetParams _ q) as [[[size count] b] long]. intros Hm Hj Hs Hb Hi H0 Hw Hp. rewrite Hm. cbn zeta.
  rewrite (proj2 (Z.leb_le _ _)) by nia. rewrite (proj2 (Z.ltb_lt _ _)) by nia. cbn [andb].
  by rewrite (free_blocks_hit count p s size b a j).
Qed.
End Alloc.

Arguments Allocator P : clear implicits.

#[export] Instance Place_eq_dec : EqDecision Place.
Proof. solve_decision. Defined.

(** ** The default configuration *)

(** What the pool promises: the buffers it has given out do not overlap, and have the
    size that was asked for. *)
Class BufferPoolLaws (P : Type) `{BufferPool P} := {
  pool_live : P -> Z -> Z -> Prop;
  pool_new_some n p a p' : pool_new n p = (Some a, p') -> 0 < n ->
    pool_live p' a n /\ forall b m, pool_live p b m -> pool_live p' b m /\ (a + n <= b \/ b + m <= a);
  pool_new_none n p p' : pool_new n p = (None, p') -> forall b m, pool_live p b m -> pool_live p' b m;
  pool_free_other a p b m : pool_live p b m -> b <> a -> pool_live (pool_free a p) b m }.

Section Default.
Context {P : Type} `{BufferPoolLaws P}.
Abbreviation cfg := default_config.
Implicit Types (a : Allocator P) (own : list (Place * Z)).

Lemma places_net : places cfg true =
  [mkPlace 1 0 0 128 true; mkPlace 2 0 128 512 true; mkPlace 4 0 640 512 false; mkPlace 8 1 0 640 false; mkPlace 16 1 640 640 false].
Proof. vm_compute. reflexivity. Qed.
Lemma places_ded : places cfg false =
  [mkPlace 1 0 0 128 true; mkPlace 2 0 128 512 true; mkPlace 4 0 640 512 false; mkPlace 8 0 1152 640 false; mkPlace 16 0 1792 640 false].
Proof. vm_compute. reflexivity. Qed.

Ltac each_place H := first [rewrite places_net in H | rewrite places_ded in H]; repeat (destruct H as [<-|H]; [|]); [..|destruct H].

(** The blocks allocated, with the sizes asked for. *)
Record inv own a : Prop := {
  v_own : Forall (fun o => In (fst o) (places cfg (sNetworkBuffersUsed a)) /\ 0 < snd o <= kMaxBlockSize /\ snd o <= pl_size (fst o)) own;
  v_nodup : List.NoDup (map fst own);
  v_mask : forall pl, In pl (places cfg (sNetworkBuffersUsed a)) -> is_free a pl = true <-> ~ In pl (map fst own);
  v_len : length (sMemBufs a) = 2%nat;
  v_there : forall o, In o own -> exists s, mem_buf a (pl_buf (fst o)) = Some s;
  v_live : sNetworkBuffersUsed a = true -> forall b s, mem_buf a b = Some s ->
    pool_live (a_pool a) s (kMinBufferSize cfg) /\ exists o, In o own /\ pl_buf (fst o) = b;
  v_apart : sNetworkBuffersUsed a = true -> forall b b' s s', mem_buf a b = Some s -> mem_buf a b' = Some s' -> b <> b' ->
    s + kMinBufferSize cfg <= s' \/ s' + kMinBufferSize cfg <= s }.

Lemma marks_apart net pl pl' : In pl (places cfg net) -> In pl' (places cfg net) -> pl <> pl' -> Z.land (pl_mark pl) (pl_mark pl') = 0.
Proof. intros H1 H2 Hne. destruct net; each_place H1; each_place H2; (done || reflexivity). Qed.
Lemma marks_self net pl : In pl (places cfg net) -> Z.land (pl_mark pl) (pl_mark pl) <> 0.
Proof. intros H1. destruct net; each_place H1; done. Qed.
Lemma marks_clear net pl pl' : In pl (places cfg net) -> In pl' (places cfg net) ->
  Z.land (pl_mark pl) (u8 (Z.lnot (pl_mark pl'))) = if bool_decide (pl_mark pl = pl_mark pl') then 0 else pl_mark pl.
Proof. intros H1 H2. destruct net; each_place H1; each_place H2; reflexivity. Qed.
Lemma marks_inj net pl pl' : In pl (places cfg net) -> In pl' (places cfg net) -> pl_mark pl = pl_mark pl' -> pl = pl'.
Proof. intros H1 H2. destruct net; each_place H1; each_place H2; done. Qed.
Lemma place_in_buffer pl : In pl (places cfg true) -> (pl_buf pl < 2)%nat /\ 0 <= pl_off pl /\ pl_off pl + Z.min (pl_size pl) kMaxBlockSize <= kMinBufferSize cfg.
Proof. intros H1. each_place H1; cbn; unfold kMaxBlockSize; lia. Qed.
Lemma place_in_memory pl : In pl (places cfg false) -> pl_buf pl = 0%nat /\ 0 <= pl_off pl /\ pl_off pl + pl_size pl <= kTotalMemorySize cfg.
Proof. intros H1. each_place H1; (split; [done|]); split; vm_compute; congruence. Qed.
Lemma places_apart net pl pl' : In pl (places cfg net) -> In pl' (places cfg net) -> pl <> pl' -> pl_buf pl = pl_buf pl' ->
  pl_off pl + pl_size pl <= pl_off pl' \/ pl_off pl' + pl_size pl' <= pl_off pl.
Proof. intros H1 H2 Hne. destruct net; each_place H1; each_place H2; (done || (cbn; lia)). Qed.
Lemma mask_of_buffer b m : (b < 2)%nat -> Z.land m (arr (sBufferAllocationMask cfg) (Z.of_nat b)) = 0 ->
  forall pl, In pl (places cfg true) -> pl_buf pl = b -> Z.land (pl_mark pl) m = 0.
Proof.
  intros Hb Hm pl Hp <-. rewrite Z.land_comm.
  assert (Z.land (arr (sBufferAllocationMask cfg) (Z.of_nat (pl_buf pl))) (pl_mark pl) = pl_mark pl) as E by (each_place Hp; reflexivity).
  rewrite <- E, Z.land_assoc, Hm. apply Z.land_0_l.
Qed.
Lemma buffer_in_use b m : (b < 2)%nat -> Z.land m (arr (sBufferAllocationMask cfg) (Z.of_nat b)) <> 0 ->
  exists pl, In pl (places cfg true) /\ pl_buf pl = b /\ Z.land (pl_mark pl) m <> 0.
Proof.
  intros Hb Hm. rewrite places_net. destruct b as [|[|b]]; [| |lia].
  - change (arr _ _) with (Z.lor (Z.lor 1 2) 4) in Hm. rewrite !Z.land_lor_distr_r in Hm.
    destruct (Z.eq_dec (Z.land m 1) 0) as [E1|N1]; [|eexists; split; [left; reflexivity|]; cbn [pl_buf pl_mark]; by rewrite Z.land_comm].
    destruct (Z.eq_dec (Z.land m 2) 0) as [E2|N2]; [|eexists; split; [right; left; reflexivity|]; cbn [pl_buf pl_mark]; by rewrite Z.land_comm].
    rewrite E1, E2 in Hm. eexists; split; [right; right; left; reflexivity|]. cbn [pl_buf pl_mark]. by rewrite Z.land_comm.
  - change (arr _ _) with (Z.lor 8 16) in Hm. rewrite !Z.land_lor_distr_r in Hm.
    destruct (Z.eq_dec (Z.land m 8) 0) as [E1|N1]; [|eexists; split; [do 3 right; left; reflexivity|]; cbn [pl_buf pl_mark]; by rewrite Z.land_comm].
    rewrite E1 in Hm. eexists; split; [do 4 right; left; reflexivity|]. cbn [pl_buf pl_mark]. by rewrite Z.land_comm.
Qed.

Lemma mem_buf_set b b' x a : (b < length (sMemBufs a))%nat -> mem_buf (set_buf b x a) b' = if decide (b = b') then x else mem_buf a b'.
Proof.
  intros Hb. unfold mem_buf. cbn. destruct (decide (b = b')) as [<-|Hne]; [by rewrite list_lookup_insert_eq|by rewrite list_lookup_insert_ne].
Qed.

Definition same_addrs own a a' : Prop := sNetworkBuffersUsed a' = sNetworkBuffersUsed a /\
  (sNetworkBuffersUsed a = false -> sMemBufs a' = sMemBufs a) /\ forall o, In o own -> place_addr a' (fst o) = place_addr a (fst o).

Lemma fits_spec req l pl : fits req l pl = true -> req <= pl_size pl.
Proof. unfold fits. intros E. bool_prop. done. Qed.

(** Marking a block whose buffer is there. *)
Lemma mark_step own a pl req s : inv own a -> In pl (places cfg (sNetworkBuffersUsed a)) -> is_free a pl = true -> 0 < req <= kMaxBlockSize ->
  req <= pl_size pl -> mem_buf a (pl_buf pl) = Some s -> inv ((pl, req) :: own) (set_blocks (Z.lor (sMemBlocksAllocated a) (pl_mark pl)) a).
Proof.
  intros [] Hp Hf Hr Hs Hm. pose proof (proj1 (v_mask0 pl Hp) Hf) as Hnew. split; cbn [sNetworkBuffersUsed set_blocks]; try done.
  - by constructor.
  - by constructor.
  - intros pl' Hp'. unfold is_free. cbn [sMemBlocksAllocated set_blocks map fst]. rewrite Z.land_lor_distr_r, Z.eqb_eq, Z.lor_eq_0_iff.
    specialize (v_mask0 pl' Hp'). unfold is_free in v_mask0. rewrite Z.eqb_eq in v_mask0. split.
    + intros [E1 E2] [<-|Hin]; [by apply (marks_self _ pl Hp) in E2|]. by apply v_mask0 in E1.
    + intros Hni. split; [apply v_mask0; intros Hin; apply Hni; by right|]. apply (marks_apart (sNetworkBuffersUsed a)); [done|done|].
      intros ->. apply Hni. by left.
  - intros o [<-|Ho]; [by exists s|by apply v_there0].
  - intros Hn b s' Hb. destruct (v_live0 Hn b s' Hb) as (HL & o & Ho & Eo). split; [done|]. exists o. split; [by right|done].
Qed.

(** A buffer from the pool. *)
Lemma buffer_step own a pl req x p' : inv own a -> sNetworkBuffersUsed a = true -> In pl (places cfg true) -> is_free a pl = true -> 0 < req <= kMaxBlockSize ->
  req <= pl_size pl -> mem_buf a (pl_buf pl) = None -> pool_new (kMinBufferSize cfg) (a_pool a) = (x, p') ->
  let a' := set_buf (pl_buf pl) x (set_pool p' a) in
  match x with
  | None => inv own a' | Some s => inv ((pl, req) :: own) (set_blocks (Z.lor (sMemBlocksAllocated a') (pl_mark pl)) a')
  end /\ same_addrs own a a'.
Proof.
  intros I Hn Hp Hf Hr Hs Hm E a'. destruct (place_in_buffer pl Hp) as (Hb & _). pose proof I as [].
  assert (forall b, mem_buf a' b = if decide (pl_buf pl = b) then x else mem_buf a b) as EM by (intros b; unfold a'; rewrite (mem_buf_set _ _ _ (set_pool p' a)) by (cbn; lia); done).
  assert (forall o, In o own -> pl_buf (fst o) <> pl_buf pl) as Hne by (intros o Ho Eo; destruct (v_there0 o Ho) as [s Es]; congruence).
  split.
  - destruct x as [s|].
    + destruct (pool_new_some _ _ _ _ E) as [HL HA]; [done|].
      assert (inv ((pl, req) :: own) (set_blocks (Z.lor (sMemBlocksAllocated a') (pl_mark pl)) a')) as HI; [|exact HI].
      split; cbn [sNetworkBuffersUsed set_blocks set_buf set_pool a']; try done.
      * rewrite Hn. by constructor; [|rewrite <- Hn].
      * constructor; [|done]. apply v_mask0; [by rewrite Hn|done].
      * intros pl' Hp'. unfold is_free. cbn [sMemBlocksAllocated set_blocks map fst a' set_buf set_pool]. rewrite Z.land_lor_distr_r, Z.eqb_eq, Z.lor_eq_0_iff.
        specialize (v_mask0 pl' Hp'). unfold is_free in v_mask0. rewrite Z.eqb_eq in v_mask0. rewrite Hn in Hp'. split.
        -- intros [E1 E2] [<-|Hin]; [by apply (marks_self _ pl Hp) in E2|]. by apply v_mask0 in E1.
        -- intros Hni. split; [apply v_mask0; intros Hin; apply Hni; by right|]. apply (marks_apart true); [done|done|]. intros ->. apply Hni. by left.
      * unfold a'. cbn [sMemBufs set_blocks set_buf set_pool]. by rewrite length_insert.
      * intros o [<-|Ho]; [exists s; change (mem_buf a' (pl_buf pl) = Some s); rewrite EM; by rewrite decide_True|].
        change (exists s, mem_buf a' (pl_buf o.1) = Some s). rewrite EM, decide_False by (apply not_eq_sym, Hne, Ho). by apply v_there0.
      * intros _ b s'. change (mem_buf a' b = Some s' -> pool_live p' s' (kMinBufferSize cfg) /\ exists o, In o ((pl, req) :: own) /\ pl_buf o.1 = b). rewrite EM.
        destruct (decide (pl_buf pl = b)) as [<-|Hbb]; [intros [= <-]; split; [done|]; exists (pl, req); split; [by left|done]|].
        intros Hb'. destruct (v_live0 Hn b s' Hb') as (HL' & o & Ho & Eo). split; [by apply HA|]. exists o. split; [by right|done].
      * intros _ b b' s1 s2. change (mem_buf a' b = Some s1 -> mem_buf a' b' = Some s2 -> b <> b' -> s1 + kMinBufferSize cfg <= s2 \/ s2 + kMinBufferSize cfg <= s1).
        rewrite !EM. destruct (decide (pl_buf pl = b)) as [<-|H1], (decide (pl_buf pl = b')) as [<-|H2]; intros E1 E2 Hbb; try done.
        -- injection E1 as <-. destruct (HA _ _ (proj1 (v_live0 Hn b' s2 E2))) as [_ HA']. lia.
        -- injection E2 as <-. destruct (HA _ _ (proj1 (v_live0 Hn b s1 E1))) as [_ HA']. lia.
        -- by apply (v_apart0 Hn b b').
    + assert (forall b, mem_buf a' b = mem_buf a b) as EM' by (intros b; rewrite EM; by destruct (decide (pl_buf pl = b)) as [<-|]).
      assert (inv own a') as HI; [|exact HI]. split; try done.
      * unfold a'. cbn [sMemBufs set_blocks set_buf set_pool]. by rewrite length_insert.
      * intros o Ho. rewrite EM'. by apply v_there0.
      * intros _ b s'. rewrite EM'. intros Hb'. destruct (v_live0 Hn b s' Hb') as (HL' & HO). split; [|done]. by apply (pool_new_none _ _ _ E).
      * intros _ b b' s1 s2. rewrite !EM'. by apply v_apart0.
  - split; [done|]. split; [congruence|]. intros o Ho. unfold place_addr. by rewrite EM, decide_False by (apply not_eq_sym, Hne, Ho).
Qed.

Lemma same_addrs_refl own a : same_addrs own a a.
Proof. by split. Qed.

Lemma alloc_step own a req l : inv own a -> 0 < req ->
  let '(r, a') := MemoryAlloc cfg req l a in
  same_addrs own a a' /\ match r with
  | None => inv own a'
  | Some p => req <= kMaxBlockSize /\ exists pl, inv ((pl, req) :: own) a' /\ place_addr a' pl = Some p
  end.
Proof.
  intros I Hr. rewrite MemoryAlloc_first_fit by done. destruct (Z.ltb_spec kMaxBlockSize req) as [|Hk]; [by split|].
  destruct (find _ _) as [pl|] eqn:E; [|by split]. apply find_some in E as [Hp E]. apply andb_prop in E as [Ef%fits_spec Ei].
  unfold take_block, buffer_memory. destruct (sNetworkBuffersUsed a) eqn:Hn.
  - destruct (mem_buf a (pl_buf pl)) as [s|] eqn:Em.
    + split; [by split|]. split; [done|]. exists pl. split; [by apply (mark_step own a pl req s); rewrite ?Hn|]. unfold place_addr. change (mem_buf (set_blocks _ a) (pl_buf pl)) with (mem_buf a (pl_buf pl)). by rewrite Em.
    + destruct (pool_new (kMinBufferSize cfg) (a_pool a)) as [x p'] eqn:Ep.
      destruct (buffer_step own a pl req x p' I Hn Hp Ei ltac:(lia) Ef Em Ep) as [HI HS]. destruct x as [s|]; [|done].
      split; [exact HS|]. split; [done|]. exists pl. split; [exact HI|]. unfold place_addr. destruct (place_in_buffer pl Hp) as (Hb & _).
      change (match mem_buf (set_buf (pl_buf pl) (Some s) (set_pool p' a)) (pl_buf pl) with Some s => Some (s + pl_off pl) | None => None end = Some (s + pl_off pl)).
      rewrite mem_buf_set by (cbn; rewrite (v_len _ _ I); lia). by rewrite decide_True.
  - destruct (mem_buf a (pl_buf pl)) as [s|] eqn:Em; [|by split]. split; [by split|]. split; [done|]. exists pl.
    split; [by apply (mark_step own a pl req s); rewrite ?Hn|]. unfold place_addr. change (mem_buf (set_blocks _ a) (pl_buf pl)) with (mem_buf a (pl_buf pl)). by rewrite Em.
Qed.

(** One set passed over, and the set of the block. *)
Lemma pass q params p blockIndex off a net size count b long blockIndex' off' : sNetworkBuffersUsed a = net ->
  DecodeBlockSetParams net q = (size, count, b, long) -> u8 (Z.shiftl blockIndex (Z.of_nat count)) = blockIndex' ->
  advance b (size * Z.of_nat count) off = off' -> in_range a p b (arr off (Z.of_nat b)) (size * Z.of_nat count) = false ->
  free_sets cfg (q :: params) p blockIndex off a = free_sets cfg params p blockIndex' off' a.
Proof. intros Hn Ed <- <- Hr. pose proof (free_sets_skip cfg q params p blockIndex off a) as HS. rewrite Hn, Ed in HS. by apply HS. Qed.

Lemma arrive q params p blockIndex off a net size count b long j s mark o : sNetworkBuffersUsed a = net ->
  DecodeBlockSetParams net q = (size, count, b, long) -> u8 (Z.shiftl blockIndex (Z.of_nat j)) = mark -> arr off (Z.of_nat b) = o ->
  mem_buf a b = Some s -> p = s + o + size * Z.of_nat j ->
  (Nat.ltb j count && (0 <? size) && Nat.ltb b (length off) && (0 <=? blockIndex) && (blockIndex <? 256) && (0 <=? o) && (o + size * Z.of_nat count <? 65536)) = true ->
  free_sets cfg (q :: params) p blockIndex off a = free_block cfg b mark a.
Proof.
  intros Hn Ed <- <- Hm Hp E. pose proof (free_sets_hit cfg q params p blockIndex off a j s) as HS. rewrite Hn, Ed in HS.
  repeat (apply andb_prop in E as [E ?]). repeat match goal with H : Nat.ltb _ _ = true |- _ => apply Nat.ltb_lt in H end. bool_prop. apply HS; (done || lia).
Qed.

Lemma out_of_range a p b o len : (forall s, mem_buf a b = Some s -> p < s + o \/ s + o + len <= p) -> in_range a p b o len = false.
Proof.
  intros HO. unfold in_range. destruct (mem_buf a b) as [s|]; [|done]. apply andb_false_iff.
  destruct (HO s eq_refl); [left; apply Z.leb_gt|right; apply Z.ltb_ge]; lia.
Qed.

Ltac passing := eapply eq_trans; [eapply pass; [eassumption|vm_compute; reflexivity|vm_compute; reflexivity|vm_compute; reflexivity|
  apply out_of_range; intros ? ?]|].
Ltac arriving j := eapply (arrive _ _ _ _ _ _ _ _ _ _ _ j); [eassumption|vm_compute; reflexivity|vm_compute; reflexivity|vm_compute; reflexivity|eassumption|
  cbn; lia|vm_compute; reflexivity].

Ltac beside HA := simplify_eq; match goal with H0 : mem_buf _ 0 = Some _, H1 : mem_buf _ 1 = Some _ |- _ =>
  pose proof (HA eq_refl 0%nat 1%nat _ _ H0 H1 ltac:(done)) as HAB; change (kMinBufferSize cfg) with 1240 in HAB; vm_compute arr; lia end.

Lemma MemoryFree_finds own a pl p : inv own a -> In pl (places cfg (sNetworkBuffersUsed a)) -> place_addr a pl = Some p ->
  MemoryFree cfg p a = free_block cfg (pl_buf pl) (pl_mark pl) a.
Proof.
  intros [] Hp Ha. unfold place_addr in Ha. destruct (mem_buf a (pl_buf pl)) as [s|] eqn:Em; [|done]. injection Ha as <-.
  unfold MemoryFree. destruct (sNetworkBuffersUsed a) eqn:Hn; each_place Hp; cbn [pl_buf pl_off pl_mark] in *.
  - arriving 0%nat.
  - passing; [simplify_eq; vm_compute arr; lia|]. arriving 0%nat.
  - do 2 (passing; [simplify_eq; vm_compute arr; lia|]). arriving 0%nat.
  - do 3 (passing; [beside v_apart0|]). arriving 0%nat.
  - do 3 (passing; [beside v_apart0|]). arriving 1%nat.
  - arriving 0%nat.
  - passing; [simplify_eq; vm_compute arr; lia|]. arriving 0%nat.
  - do 2 (passing; [simplify_eq; vm_compute arr; lia|]). arriving 0%nat.
  - do 3 (passing; [simplify_eq; vm_compute arr; lia|]). arriving 0%nat.
  - do 3 (passing; [simplify_eq; vm_compute arr; lia|]). arriving 1%nat.
Qed.

Lemma freed_mask a pl pl' net : In pl (places cfg net) -> In pl' (places cfg net) ->
  Z.land (pl_mark pl) (Z.land (sMemBlocksAllocated a) (u8 (Z.lnot (pl_mark pl')))) = 0 <-> pl = pl' \/ is_free a pl = true.
Proof.
  intros H1 H2. rewrite (Z.land_comm (sMemBlocksAllocated a)), Z.land_assoc, (marks_clear net pl pl' H1 H2). unfold is_free. rewrite Z.eqb_eq.
  destruct (decide (pl_mark pl = pl_mark pl')) as [E|Hne].
  - rewrite bool_decide_eq_true_2 by done. split; [intros _; left; by apply (marks_inj net)|done].
  - rewrite bool_decide_eq_false_2 by done. split; [by right|]. intros [->|E]; done.
Qed.

(** A block given back: the allocator without it. *)
Record remains own a a' : Prop := {
  r_net : sNetworkBuffersUsed a' = sNetworkBuffersUsed a;
  r_len : length (sMemBufs a') = length (sMemBufs a);
  r_there : forall o, In o own -> mem_buf a' (pl_buf (fst o)) = mem_buf a (pl_buf (fst o));
  r_bufs : forall b s, mem_buf a' b = Some s -> mem_buf a b = Some s;
  r_live : sNetworkBuffersUsed a = true -> forall b s, mem_buf a' b = Some s -> pool_live (a_pool a) s (kMinBufferSize cfg) ->
    pool_live (a_pool a') s (kMinBufferSize cfg) /\ exists o, In o own /\ pl_buf (fst o) = b;
  r_ded : sNetworkBuffersUsed a = false -> sMemBufs a' = sMemBufs a }.

Lemma inv_remains own1 own2 a a' pl n : inv (own1 ++ (pl, n) :: own2) a -> remains (own1 ++ own2) a a' ->
  sMemBlocksAllocated a' = Z.land (sMemBlocksAllocated a) (u8 (Z.lnot (pl_mark pl))) -> inv (own1 ++ own2) a'.
Proof.
  intros [] [] Em. assert (forall o, In o (own1 ++ own2) -> In o (own1 ++ (pl, n) :: own2)) as Hsub by (intros o; rewrite !in_app_iff; cbn; tauto).
  apply Forall_app in v_own0 as [HF1 HF2]. inversion_clear HF2 as [|? ? [Hpl _] HF2']. split; rewrite ?r_net0.
  - by apply Forall_app.
  - rewrite map_app in *. by apply List.NoDup_remove in v_nodup0 as [HN _].
  - intros pl' Hp'. unfold is_free. rewrite Em, Z.eqb_eq, (freed_mask a pl' pl _ Hp' Hpl), (v_mask0 pl' Hp').
    rewrite !map_app in *. apply List.NoDup_remove in v_nodup0 as [_ HN]. split.
    + intros [->|Hn]; [exact HN|]. intros Hx. apply Hn. rewrite in_app_iff in *. cbn. tauto.
    + intros Hn. destruct (Z.eq_dec (pl_mark pl') (pl_mark pl)) as [E|E]; [left; by apply (marks_inj (sNetworkBuffersUsed a))|].
      right. rewrite in_app_iff in *. cbn. intros [Hx|[Hx|Hx]]; [tauto|by subst|tauto].
  - by rewrite r_len0.
  - intros o Ho. rewrite r_there0 by done. by apply v_there0, Hsub.
  - intros Hn b s Hb. apply r_live0; [done|done|]. by apply (v_live0 Hn b s), r_bufs0.
  - intros Hn b b' s s' Hb Hb'. by apply (v_apart0 Hn b b'); apply r_bufs0.
Qed.

Lemma free_remains own1 own2 a pl n : inv (own1 ++ (pl, n) :: own2) a -> remains (own1 ++ own2) a (free_block cfg (pl_buf pl) (pl_mark pl) a) /\
  sMemBlocksAllocated (free_block cfg (pl_buf pl) (pl_mark pl) a) = Z.land (sMemBlocksAllocated a) (u8 (Z.lnot (pl_mark pl))).
Proof.
  intros I. pose proof I as []. pose proof v_own0 as HF. apply Forall_app in HF as [HF1 HF2]. inversion_clear HF2 as [|? ? [Hpl _] HF2']. cbn [fst] in Hpl.
  assert (forall o, In o (own1 ++ (pl, n) :: own2) -> fst o <> pl -> In o (own1 ++ own2)) as Hback.
  { intros o Ho Hne. rewrite in_app_iff in *. cbn in Ho. destruct Ho as [|[<-|]]; [tauto|done|tauto]. }
  assert (forall o, In o (own1 ++ own2) -> In o (own1 ++ (pl, n) :: own2) /\ fst o <> pl) as Hsub.
  { intros o Ho. split; [rewrite in_app_iff in *; cbn; tauto|]. rewrite map_app in v_nodup0. cbn [map fst] in v_nodup0. apply List.NoDup_remove in v_nodup0 as [_ HN].
    intros E. apply HN. rewrite <- map_app, <- E. by apply (in_map fst). }
  assert (forall o, In o (own1 ++ own2) -> In (fst o) (places cfg (sNetworkBuffersUsed a))) as Hpo.
  { intros o Ho. apply Hsub in Ho as [Ho _]. rewrite List.Forall_forall in v_own0. by apply v_own0. }
  set (mask := Z.land (sMemBlocksAllocated a) (u8 (Z.lnot (pl_mark pl)))).
  assert (remains (own1 ++ own2) a (set_blocks mask a) \/ sNetworkBuffersUsed a = true) as HD.
  { destruct (sNetworkBuffersUsed a) eqn:Hn; [by right|]. left. split; try done. intros Hn'. congruence. }
  unfold free_block. cbv zeta. cbn [sMemBlocksAllocated sNetworkBuffersUsed set_blocks]. fold mask. destruct (sNetworkBuffersUsed a) eqn:Hn; cbn [andb].
  2: { split; [|done]. destruct HD as [|]; [done|congruence]. }
  destruct (place_in_buffer pl Hpl) as (Hb & _).
  change (mem_buf (set_blocks mask a) (pl_buf pl)) with (mem_buf a (pl_buf pl)).
  destruct (v_there0 (pl, n) ltac:(apply in_or_app; right; by left)) as [x Ex]. cbn [fst] in Ex.
  destruct (Z.eqb_spec (Z.land mask (arr (sBufferAllocationMask cfg) (Z.of_nat (pl_buf pl)))) 0) as [Em|Em].
  - rewrite Ex. split; [|done]. assert (forall o, In o (own1 ++ own2) -> pl_buf (fst o) <> pl_buf pl) as Hne.
    { intros o Ho Eo. pose proof (mask_of_buffer _ _ Hb Em (fst o) (Hpo o Ho) Eo) as Hz. apply (freed_mask a (fst o) pl true (Hpo o Ho) Hpl) in Hz as [Hz|Hz].
      - by apply Hsub in Ho as [_ Ho].
      - apply (v_mask0 _ (Hpo o Ho)) in Hz. apply Hz, in_map. by apply Hsub. }
    set (a' := set_buf (pl_buf pl) None (set_pool (pool_free x (a_pool (set_blocks mask a))) (set_blocks mask a))).
    assert (forall b, mem_buf a' b = if decide (pl_buf pl = b) then None else mem_buf a b) as EM.
    { intros b. unfold a'. rewrite mem_buf_set by (cbn; lia). done. }
    split.
    + by symmetry.
    + unfold a'. cbn [sMemBufs set_buf set_pool set_blocks]. by rewrite length_insert.
    + intros o Ho. rewrite EM, decide_False by (apply not_eq_sym, Hne, Ho). done.
    + intros b s. rewrite EM. by destruct (decide _).
    + intros _ b s. rewrite EM. destruct (decide _) as [|Hbb]; [done|]. intros Es HL. split.
      * apply pool_free_other; [done|]. intros ->. destruct (v_apart0 eq_refl _ _ _ _ Ex Es Hbb) as [Hx|Hx]; change (kMinBufferSize cfg) with 1240 in Hx; lia.
      * destruct (v_live0 eq_refl b s Es) as (_ & o & Ho & Eo). exists o. split; [|done]. apply Hback; [done|]. congruence.
    + by rewrite Hn.
  - split; [|done]. split; try done. intros _ b s Es HL. split; [done|]. destruct (decide (b = pl_buf pl)) as [->|Hbb].
    + destruct (buffer_in_use _ _ Hb Em) as (pl' & Hp' & Eb & Hz).
      assert (~ (pl' = pl \/ is_free a pl' = true)) as HN by (by rewrite <- (freed_mask a pl' pl true Hp' Hpl)).
      assert (In pl' (map fst (own1 ++ (pl, n) :: own2))) as Hin.
      { destruct (in_dec Place_eq_dec pl' (map fst (own1 ++ (pl, n) :: own2))) as [|Hni]; [done|]. exfalso. apply HN. right. by apply v_mask0. }
      apply in_map_iff in Hin as (o & <- & Ho). exists o. split; [|done]. apply Hback; [done|]. tauto.
    + destruct (v_live0 eq_refl b s Es) as (_ & o & Ho & Eo). exists o. split; [|done]. apply Hback; [done|]. congruence.
Qed.

Lemma free_step own1 own2 a pl n p : inv (own1 ++ (pl, n) :: own2) a -> place_addr a pl = Some p ->
  inv (own1 ++ own2) (MemoryFree cfg p a) /\ same_addrs (own1 ++ own2) a (MemoryFree cfg p a).
Proof.
  intros I Ha. pose proof (v_own _ _ I) as HF. apply Forall_app in HF as [_ HF]. inversion_clear HF as [|? ? [Hpl _] _].
  rewrite (MemoryFree_finds _ a pl p I Hpl Ha). destruct (free_remains own1 own2 a pl n I) as [HR Em].
  split; [by eapply inv_remains|]. split; [apply HR|]. split; [apply HR|]. intros o Ho. unfold place_addr. by rewrite (r_there _ _ _ HR o Ho).
Qed.

(** ** What a user sees *)

(** The blocks a user holds: address and size asked for. *)
Abbreviation Held := (list (Z * Z)).

Inductive AllocOp :=
  | OpAlloc (size : Z) (isLongTermAlloc : bool)
  | OpFree (i : nat).

(** A user frees only what it holds. *)
Definition alloc_op (st : Held * Allocator P) (op : AllocOp) : Held * Allocator P :=
  let '(held, a) := st in
  match op with
  | OpAlloc size l => let '(r, a') := MemoryAlloc cfg size l a in (match r with Some p => (p, size) :: held | None => held end, a')
  | OpFree i => match held !! i with Some (p, _) => (delete i held, MemoryFree cfg p a) | None => st end
  end.
Definition alloc_run (ops : list AllocOp) (st : Held * Allocator P) : Held * Allocator P := fold_left alloc_op ops st.

Definition op_sized (op : AllocOp) : Prop := match op with OpAlloc size _ => 0 <= size | OpFree _ => True end.

Definition holds a (h : Z * Z) (o : Place * Z) : Prop := place_addr a (fst o) = Some (fst h) /\ snd h = snd o.

Lemma holds_same own a a' held : same_addrs own a a' -> Forall2 (holds a) held own -> Forall2 (holds a') held own.
Proof.
  intros (_ & _ & HS) HF. induction HF as [|h o held own [Ha Hn] HF IH]; [constructor|]. constructor.
  - split; [rewrite HS; [done|by left]|done].
  - apply IH. intros o' Ho'. apply HS. by right.
Qed.

Lemma step_op own st op : op_sized op -> inv own (snd st) -> Forall2 (holds (snd st)) (fst st) own ->
  exists own', inv own' (snd (alloc_op st op)) /\ Forall2 (holds (snd (alloc_op st op))) (fst (alloc_op st op)) own' /\
    sNetworkBuffersUsed (snd (alloc_op st op)) = sNetworkBuffersUsed (snd st) /\
    (sNetworkBuffersUsed (snd st) = false -> sMemBufs (snd (alloc_op st op)) = sMemBufs (snd st)).
Proof.
  destruct st as [held a]. intros Hs I HF. cbn [fst snd] in *. destruct op as [size l|i]; cbn [alloc_op op_sized] in *.
  - destruct (Z.eq_dec size 0) as [->|Hne]; [by exists own|].
    pose proof (alloc_step own a size l I ltac:(lia)) as HA. destruct (MemoryAlloc cfg size l a) as [[p|] a']; destruct HA as [HS HI]; cbn [fst snd].
    + destruct HI as (_ & pl & I' & Ha). exists ((pl, size) :: own). split; [done|]. split; [|by split; apply HS].
      constructor; [by split|]. by eapply holds_same.
    + exists own. split; [done|]. split; [by eapply holds_same|by split; apply HS].
  - destruct (held !! i) as [[p n]|] eqn:Ei; [|by exists own]. cbn [fst snd].
    destruct (Forall2_lookup_l _ _ _ _ _ HF Ei) as ([pl n'] & Eo & Ha & En). cbn [fst snd] in *. subst n'.
    pose proof (take_drop_middle _ _ _ Eo) as Et. rewrite <- Et in I. destruct (free_step _ _ a pl n p I Ha) as [I' HS].
    exists (take i own ++ drop (S i) own). split; [exact I'|]. split; [|by split; apply HS]. rewrite delete_take_drop.
    eapply holds_same; [exact HS|]. apply Forall2_app; [by apply Forall2_take|by apply Forall2_drop].
Qed.


(** The bytes that MemoryInit skips to reach a 4-byte boundary. *)
Definition padding (ded : Z * Z) : Z := if fst ded mod 4 =? 0 then 0 else 4 - fst ded mod 4.

(** Where a block [h] lies: in a buffer of the pool, or in the memory [ded] given to
    MemoryInit.  When that memory is shorter than its own padding, which MemoryInit
    accepts (its size wraps around), a block lies behind its end. *)
Definition in_memory a (ded : Z * Z) (h : Z * Z) : Prop :=
  if sNetworkBuffersUsed a
  then exists s, pool_live (a_pool a) s (kMinBufferSize cfg) /\ s <= fst h /\ fst h + snd h <= s + kMinBufferSize cfg
  else if padding ded <=? snd ded then fst ded <= fst h /\ fst h + snd h <= fst ded + snd ded
  else fst ded + snd ded < fst h.

(** The states of an allocator that starts: on network buffers, or on the memory
    given to MemoryInit, of any size that it accepts. *)
Inductive started (ded : Z * Z) : Allocator P -> Prop :=
  | started_net p : started ded (alloc_start cfg p)
  | started_ded p a : 0 < fst ded -> 0 <= snd ded < 2 ^ 64 -> MemoryInit cfg (fst ded) (snd ded) (alloc_start cfg p) = (Ok tt, a) -> started ded a.

(** The dedicated memory is where MemoryInit put it. *)
Definition dedicated (ded : Z * Z) a : Prop := sNetworkBuffersUsed a = false ->
  exists s, mem_buf a 0 = Some s /\
    if padding ded <=? snd ded then fst ded <= s /\ s + kTotalMemorySize cfg <= fst ded + snd ded else fst ded + snd ded < s.

Lemma started_inv ded a : started ded a -> inv [] a /\ dedicated ded a.
Proof.
  assert (forall net m p, inv [] (mkAlloc 0 net [m; None] p) \/ net = true /\ m <> None) as HI.
  { intros net m p. destruct net, m as [x|]; [by right| | |]; left; (split; cbn; [constructor|constructor| |done|done| |]);
      try (intros pl _; unfold is_free; cbn; rewrite Z.land_0_r; tauto); try done; intros _ b; unfold mem_buf; cbn; by destruct b as [|[|b]]. }
  intros [p|p a' Hpos Hs E].
  - split; [|done]. by destruct (HI true None p) as [|[_ ?]].
  - unfold MemoryInit in E. rewrite (proj2 (Z.eqb_neq (fst ded) 0)) in E by lia. cbn [negb] in E.
    assert (0 <= padding ded <= 3) as Hp by (unfold padding; destruct (Z.eqb_spec (fst ded mod 4) 0); mlia).
    destruct (if negb (fst ded mod 4 =? 0) then _ else _) as [buf size] eqn:Eb.
    assert (buf = fst ded + padding ded /\ size = u64 (snd ded - padding ded)) as [-> ->].
    { unfold padding in *. destruct (Z.eqb_spec (fst ded mod 4) 0); cbn [negb] in Eb, Hp |- *; injection Eb as <- <-; [|done].
      split; [lia|]. symmetry. rewrite Z.sub_0_r. apply u64_id. lia. }
    destruct (Z.ltb_spec (u64 (snd ded - padding ded)) (kTotalMemorySize cfg)) as [|Hle]; [done|]. injection E as <-. split.
    + by destruct (HI false (Some (fst ded + padding ded)) p) as [|[? _]].
    + intros _. exists (fst ded + padding ded). split; [done|]. destruct (Z.leb_spec (padding ded) (snd ded)); [|lia].
      rewrite u64_id in Hle by lia. lia.
Qed.

Lemma run_ops_inv ded ops : Forall op_sized ops -> forall own st, inv own (snd st) -> Forall2 (holds (snd st)) (fst st) own -> dedicated ded (snd st) ->
  exists own', inv own' (snd (alloc_run ops st)) /\ Forall2 (holds (snd (alloc_run ops st))) (fst (alloc_run ops st)) own' /\ dedicated ded (snd (alloc_run ops st)).
Proof.
  induction 1 as [|op ops Ho _ IH]; intros own st I HF HD; [by exists own|]. destruct (step_op own st op Ho I HF) as (own' & I' & HF' & En & Em).
  apply (IH own' (alloc_op st op)); [done|done|]. intros Hn. rewrite En in Hn. destruct (HD Hn) as (s & Es & HS). exists s. split; [|done].
  unfold mem_buf in *. by rewrite (Em Hn).
Qed.

Lemma holds_memory own a ded h o : inv own a -> dedicated ded a -> In o own -> holds a h o -> in_memory a ded h.
Proof.
  intros I HD Ho [Ha En]. pose proof (v_own _ _ I) as HF. rewrite List.Forall_forall in HF. destruct (HF o Ho) as (Hp & Hn & Hs).
  unfold place_addr in Ha. destruct (mem_buf a (pl_buf (fst o))) as [s|] eqn:Em; [|done]. injection Ha as Ha. unfold in_memory.
  destruct (sNetworkBuffersUsed a) eqn:Hnet.
  - destruct (v_live _ _ I Hnet _ _ Em) as [HL _]. destruct (place_in_buffer _ Hp) as (_ & L0 & L1). exists s. split; [done|]. lia.
  - destruct (place_in_memory _ Hp) as (Eb & L0 & L1). rewrite Eb in Em. destruct (HD Hnet) as (s' & Es' & HS). rewrite Em in Es'. injection Es' as <-.
    destruct (padding ded <=? snd ded); lia.
Qed.

Lemma holds_apart own a h h' o o' : inv own a -> In o own -> In o' own -> fst o <> fst o' -> holds a h o -> holds a h' o' ->
  fst h + snd h <= fst h' \/ fst h' + snd h' <= fst h.
Proof.
  intros I Ho Ho' Hne [Ha En] [Ha' En']. pose proof (v_own _ _ I) as HF. rewrite List.Forall_forall in HF.
  destruct (HF o Ho) as (Hp & Hn & Hs), (HF o' Ho') as (Hp' & Hn' & Hs'). unfold place_addr in *.
  destruct (mem_buf a (pl_buf (fst o))) as [s|] eqn:Em; [|done]. destruct (mem_buf a (pl_buf (fst o'))) as [s'|] eqn:Em'; [|done]. injection Ha as Ha. injection Ha' as Ha'.
  destruct (decide (pl_buf (fst o) = pl_buf (fst o'))) as [Eb|Eb].
  - assert (s = s') as <- by congruence. pose proof (places_apart _ _ _ Hp Hp' Hne Eb). lia.
  - destruct (sNetworkBuffersUsed a) eqn:Hnet.
    + pose proof (v_apart _ _ I Hnet _ _ _ _ Em Em' Eb). destruct (place_in_buffer _ Hp) as (_ & L0 & L1), (place_in_buffer _ Hp') as (_ & L0' & L1'). lia.
    + exfalso. apply Eb. destruct (place_in_memory _ Hp) as [-> _]. by destruct (place_in_memory _ Hp') as [-> _].
Qed.

(** C26: Whatever blocks a user of the simple allocator (in its default configuration)
    allocates, and whichever of them it gives back in whatever order, the blocks
    that it holds never overlap, each lies with the size asked for within a live
    network buffer (or the memory given to MemoryInit), and when it holds none
    every network buffer has been returned to the pool.  The exception: memory that
    is shorter than the one to three bytes that MemoryInit skips to align it is
    accepted, since its size wraps around (WeaveSecurityMgr-SimpleAlloc.cpp:365),
    and then every block lies behind the end of the memory given. *)
Theorem SimpleAlloc_blocks_disjoint ded a0 ops : started ded a0 -> Forall op_sized ops ->
  let '(held, a) := alloc_run ops ([], a0) in
  (forall i j h h', held !! i = Some h -> held !! j = Some h' -> i <> j -> fst h + snd h <= fst h' \/ fst h' + snd h' <= fst h) /\
  Forall (in_memory a ded) held /\
  (held = [] -> sNetworkBuffersUsed a = true -> forall b, mem_buf a b = None).
Proof.
  intros Hst Hops. destruct (started_inv ded a0 Hst) as [I0 D0].
  destruct (run_ops_inv ded ops Hops [] ([], a0) I0 ltac:(constructor) D0) as (own & I & HF & HD). destruct (alloc_run ops ([], a0)) as [held a]. cbn [fst snd] in *.
  split; [|split].
  - intros i j h h' Ei Ej Hij. destruct (Forall2_lookup_l _ _ _ _ _ HF Ei) as (o & Eo & Ho), (Forall2_lookup_l _ _ _ _ _ HF Ej) as (o' & Eo' & Ho').
    apply (holds_apart own a h h' o o'); try done; [by eapply list_elem_of_In, list_elem_of_lookup_2|by eapply list_elem_of_In, list_elem_of_lookup_2|].
    intros E. apply Hij. pose proof (v_nodup _ _ I) as HN. apply NoDup_ListNoDup in HN.
    apply (NoDup_lookup (map fst own) i j (fst o)); [done|by rewrite list_lookup_fmap, Eo|by rewrite list_lookup_fmap, Eo', E].
  - apply Forall_lookup. intros i h Ei. destruct (Forall2_lookup_l _ _ _ _ _ HF Ei) as (o & Eo & Ho).
    apply (holds_memory own a ded h o); try done. by eapply list_elem_of_In, list_elem_of_lookup_2.
  - intros -> Hn b. inversion HF; subst. destruct (mem_buf a b) as [s|] eqn:Es; [|done]. by destruct (v_live _ _ I Hn b s Es) as (_ & o & [] & _).
Qed.
End Default.

(** ** A pool to try it on: as many buffers of 1700 bytes as there are list elements,
    from address 4096 on *)
Definition kTestBufferSize : Z := 1700.
#[export] Instance test_pool : BufferPool (list bool) := {|
  pool_new := fun n p => if kTestBufferSize <? n then (None, p) else
    match find (fun i => negb (default true (p !! i))) (seq 0 (length p)) with
    | Some i => (Some (4096 + kTestBufferSize * Z.of_nat i), <[i := true]> p)
    | None => (None, p)
    end;
  pool_free := fun a p => imap (fun i x => if a =? 4096 + kTestBufferSize * Z.of_nat i then false else x) p |}.

Example alloc_twice :
  let a := alloc_start default_config [false; false] in
  let '(p, a) := MemoryAlloc default_config 500 true a in
  let '(q, a) := MemoryAlloc default_config 600 false a in
  let '(r, a) := MemoryAlloc default_config 600 false a in
  let '(s, a) := MemoryAlloc default_config 600 false a in
  (p, q, r, s, a_pool a, a_pool (MemoryFree default_config 4224 a)) = (Some 4224, Some 5796, Some 6436, None, [true; true], [false; true]).
Proof. vm_compute. reflexivity. Qed.

(** With small buffers a block of the second set does not fit in the buffer: the
    two blocks of network buffer 0 take 640 bytes, of which 600 are asked for. *)
Lemma small_buffers_overrun {P} `{BufferPool P} size (p : P) s p' : 472 < size <= 512 -> pool_new (kMinBufferSize small_config) p = (Some s, p') ->
  fst (MemoryAlloc small_config size true (alloc_start small_config p)) = Some (s + 128) /\ s + kMinBufferSize small_config < s + 128 + size.
Proof.
  intros Hs Hp. split; [|cbn; lia]. rewrite MemoryAlloc_first_fit by lia. rewrite (proj2 (Z.ltb_ge _ _)) by (unfold kMaxBlockSize; lia).
  change (places small_config _) with (mkPlace 1 0 0 128 true :: tail (places small_config true)).
  change (tail (places small_config true)) with (mkPlace 2 0 128 512 true :: tail (tail (places small_config true))). cbn [find]. unfold fits at 1. cbn [pl_size pl_long].
  rewrite (proj2 (Z.leb_gt size 128)) by lia. cbn [andb]. unfold fits at 1. cbn [pl_size pl_long]. rewrite (proj2 (Z.leb_le size 512)) by lia. cbn.
  unfold take_block, buffer_memory. cbn -[Z.add kMinBufferSize]. by rewrite Hp.
Qed.

(** MemoryInit's padding is taken off the size before the size is looked at: the
    first block is then behind the two bytes given. *)
Lemma MemoryInit_tiny : let '(r, a) := MemoryInit default_config 4097 2 (alloc_start default_config [false]) in
  r = Ok tt /\ fst (MemoryAlloc default_config 128 true a) = Some 4100.
Proof. vm_compute. split; reflexivity. Qed.

#[export] Program Instance test_pool_laws : BufferPoolLaws (list bool) := {|
  pool_live := fun p a n => n <= kTestBufferSize /\ exists i, p !! i = Some true /\ a = 4096 + kTestBufferSize * Z.of_nat i |}.
Next Obligation.
  intros n p a p' E Hn. unfold pool_new, test_pool in E. destruct (Z.ltb_spec kTestBufferSize n) as [|Hle]; [done|].
  destruct (find _ _) as [i|] eqn:Ef; [|done]. injection E as <- <-. apply find_some in Ef as [Hi Hf]. apply in_seq in Hi.
  assert (p !! i = Some false) as Ei.
  { destruct (lookup_lt_is_Some_2 p i ltac:(lia)) as [x Ex]. rewrite Ex in Hf. cbn in Hf. destruct x; done. }
  split; [split; [done|]; exists i; split; [apply list_lookup_insert_eq; lia|done]|].
  intros b m (Hm & j & Ej & ->). assert (i <> j) by congruence. split; [split; [done|]; exists j; by rewrite list_lookup_insert_ne|].
  unfold kTestBufferSize in *. lia.
Qed.
Next Obligation.
  intros n p p' E b m HL. unfold pool_new, test_pool in E. destruct (_ <? _); [by injection E as <-|]. destruct (find _ _); [done|]. by injection E as <-.
Qed.
Next Obligation.
  intros a p b m (Hm & j & Ej & ->) Hne. split; [done|]. exists j. split; [|done]. cbn. rewrite list_lookup_imap, Ej. cbn.
  by rewrite (proj2 (Z.eqb_neq _ _)) by congruence.
Qed.

Lemma SimpleAlloc_blocks_disjoint_witness :
  let '(held, a) := alloc_run [OpAlloc 500 true; OpAlloc 600 false; OpAlloc 100 true; OpAlloc 700 true; OpFree 1; OpAlloc 640 false; OpAlloc 600 false] ([], alloc_start default_config [false; false]) in
  held = [(5796, 600); (4096, 100); (4224, 500)] /\
  (forall i j h h', held !! i = Some h -> held !! j = Some h' -> i <> j -> fst h + snd h <= fst h' \/ fst h' + snd h' <= fst h) /\
  Forall (in_memory a (0, 0)) held.
Proof.
  pose proof (SimpleAlloc_blocks_disjoint (0, 0) (alloc_start default_config [false; false])
    [OpAlloc 500 true; OpAlloc 600 false; OpAlloc 100 true; OpAlloc 700 true; OpFree 1; OpAlloc 640 false; OpAlloc 600 false] (started_net _ _)) as HW.
  assert (Forall op_sized [OpAlloc 500 true; OpAlloc 600 false; OpAlloc 100 true; OpAlloc 700 true; OpFree 1; OpAlloc 640 false; OpAlloc 600 false]) as Hs
    by (repeat constructor; cbn; lia).
  specialize (HW Hs). destruct (alloc_run _ _) as [held a] eqn:E. destruct HW as (H1 & H2 & _).
  split; [|split; [exact H1|exact H2]]. apply (f_equal fst) in E. vm_compute in E. by symmetry.
Defined.
