(* ===== verification/Base64.v ===== *)
(** * Base-64 (lib/support/Base64.cpp)

    The encoder and the decoder over either alphabet, with the 16-bit interface and
    the 32-bit one that works through it in chunks.  Input and output buffers are
    lists of bytes; the output is separate from the input. *)
From S2P Require Import Prelude Encoding.
Local Open Scope Z_scope.

(** ** The alphabets *)

Definition Base64ValToChar (val : Z) : Z :=
  if val <? 26 then 65 + val
  else let val := u8 (val - 26) in if val <? 26 then 97 + val
  else let val := u8 (val - 26) in if val <? 10 then 48 + val
  else if val =? 10 then 43 else if val =? 11 then 47 else 61.

Definition Base64CharToVal (c : Z) : Z :=
  if c =? 43 then 62 else if c =? 47 then 63
  else let c := u8 (c - 48) in if c <? 10 then c + 52
  else let c := u8 (c - 17) in if c <? 26 then c
  else let c := u8 (c - 32) in if c <? 26 then c + 26 else UINT8_MAX.

Definition Base64URLValToChar (val : Z) : Z :=
  if val <? 26 then 65 + val
  else let val := u8 (val - 26) in if val <? 26 then 97 + val
  else let val := u8 (val - 26) in if val <? 10 then 48 + val
  else if val =? 10 then 45 else if val =? 11 then 95 else 61.

Definition Base64URLCharToVal (c : Z) : Z :=
  if c =? 45 then 62 else if c =? 95 then 63
  else let c := u8 (c - 48) in if c <? 10 then c + 52
  else let c := u8 (c - 17) in if c <? 26 then c
  else let c := u8 (c - 32) in if c <? 26 then c + 26 else UINT8_MAX.

(** ** Encoding *)

(** One turn of the loop of Base64Encode: the four values, of which the last ones may be UINT8_MAX. *)
Definition encode_group (x : Z) (y z : option Z) : list Z :=
  let val1 := Z.shiftr x 2 in
  let val2 := Z.land (Z.shiftl x 4) 63 in
  match y with
  | None => [val1; val2; UINT8_MAX; UINT8_MAX]
  | Some y =>
    let val2 := Z.lor val2 (Z.shiftr y 4) in
    let val3 := Z.land (Z.shiftl y 2) 63 in
    match z with
    | None => [val1; val2; val3; UINT8_MAX]
    | Some z => [val1; val2; Z.lor val3 (Z.shiftr z 6); Z.land z 63]
    end
  end.

(** Base64Encode(in, inLen, out, valToCharFunct): what is written to out. *)
Fixpoint Base64Encode (valToChar : Z -> Z) (inp : list Z) : list Z :=
  match inp with
  | [] => []
  | [x] => map valToChar (encode_group x None None)
  | [x; y] => map valToChar (encode_group x (Some y) None)
  | x :: y :: z :: inp => map valToChar (encode_group x (Some y) (Some z)) ++ Base64Encode valToChar inp
  end.
(** What it returns. *)
Definition Base64Encode_len (out : list Z) : Z := u16 (Z.of_nat (length out)).

(** The chunks of Base64Encode32 and Base64Decode32. *)
Definition kMaxConvert_encode : nat := Z.to_nat (65535 / 4 * 3).
Definition kMaxConvert_decode : nat := Z.to_nat (65535 / 4 * 4).

(** Base64Encode32(in, inLen, out, valToCharFunct): the length returned, and what is
    written; [fuel] bounds the turns of the loop, [outLen] is its variable. *)
Fixpoint Base64Encode32 (valToChar : Z -> Z) (fuel : nat) (inp : list Z) (outLen : Z) : res (Z * list Z) :=
  match fuel with
  | O => Diverges
  | S fuel =>
    let chunk := Base64Encode valToChar (take kMaxConvert_encode inp) in
    let outLen := u32 (outLen + Base64Encode_len chunk) in
    match drop kMaxConvert_encode inp with
    | [] => Ok (outLen, chunk)
    | rest =>
      match Base64Encode32 valToChar fuel rest outLen with
      | Ok (n, out) => Ok (n, chunk ++ out)
      | r => r
      end
    end
  end.

(** ** Decoding *)

(** Base64Decode(in, inLen, out, charToValFunct): [None] when it fails, else what is
    written to out. *)
Fixpoint Base64Decode (charToVal : Z -> Z) (inp : list Z) : option (list Z) :=
  match inp with
  | [] => Some []
  | [_] => None
  | ca :: cb :: inp =>
    let a := charToVal ca in
    let b := charToVal cb in
    if (a =? UINT8_MAX) || (b =? UINT8_MAX) then None
    else
      let x := u8 (Z.lor (Z.shiftl a 2) (Z.shiftr b 4)) in
      match inp with
      | [] => Some [x]
      | cc :: inp =>
        if cc =? 61 then Some [x]
        else
          let c := charToVal cc in
          if c =? UINT8_MAX then None
          else
            let y := u8 (Z.lor (Z.shiftl b 4) (Z.shiftr c 2)) in
            match inp with
            | [] => Some [x; y]
            | cd :: inp =>
              if cd =? 61 then Some [x; y]
              else
                let d := charToVal cd in
                if d =? UINT8_MAX then None
                else match Base64Decode charToVal inp with
                     | Some out => Some (x :: y :: u8 (Z.lor (Z.shiftl c 6) d) :: out)
                     | None => None
                     end
            end
      end
  end.
Definition Base64Decode_len (out : option (list Z)) : Z :=
  match out with Some out => u16 (Z.of_nat (length out)) | None => UINT16_MAX end.

(** Base64Decode32(in, inLen, out, charToValFunct) *)
Fixpoint Base64Decode32 (charToVal : Z -> Z) (fuel : nat) (inp : list Z) (outLen : Z) : res (Z * list Z) :=
  match fuel with
  | O => Diverges
  | S fuel =>
    let chunk := Base64Decode charToVal (take kMaxConvert_decode inp) in
    if Base64Decode_len chunk =? UINT16_MAX then Ok (UINT32_MAX, [])
    else
      let outLen := u32 (outLen + Base64Decode_len chunk) in
      match drop kMaxConvert_decode inp with
      | [] => Ok (outLen, default [] chunk)
      | rest =>
        match Base64Decode32 charToVal fuel rest outLen with
        | Ok (n, out) => Ok (n, default [] chunk ++ out)
        | r => r
        end
      end
  end.

(** The strings of the file's own test. *)
Example encode_foobar : Base64Encode Base64ValToChar [102; 111; 111; 98; 97] = [90; 109; 57; 118; 89; 109; 69; 61].
Proof. vm_compute. reflexivity. Qed.
Example decode_unpadded : Base64Decode Base64CharToVal [90; 109; 57; 118; 89; 109; 69] = Some [102; 111; 111; 98; 97].
Proof. vm_compute. reflexivity. Qed.
Example decode_short : Base64Decode Base64CharToVal [90; 109; 57; 118; 89] = None.
Proof. vm_compute. reflexivity. Qed.

(** ** What is decoded is what was encoded *)

Class Alphabet (valToChar charToVal : Z -> Z) : Prop := {
  char_of_val v : 0 <= v < 64 -> charToVal (valToChar v) = v /\ valToChar v <> 61;
  char_of_pad : valToChar UINT8_MAX = 61 }.

Lemma alphabet_check valToChar charToVal :
  all_upto 64 (fun v => (charToVal (valToChar v) =? v) && negb (valToChar v =? 61)) = true -> valToChar UINT8_MAX = 61 -> Alphabet valToChar charToVal.
Proof.
  intros HC HP. split; [|done]. intros v Hv. pose proof (all_upto_spec _ _ HC v Hv) as E. cbv beta in E. bool_prop. done.
Qed.
#[export] Instance alphabet_base64 : Alphabet Base64ValToChar Base64CharToVal.
Proof. by apply alphabet_check; vm_compute. Qed.
#[export] Instance alphabet_base64url : Alphabet Base64URLValToChar Base64URLCharToVal.
Proof. by apply alphabet_check; vm_compute. Qed.

(** The bit operations on bytes and 6-bit values, as arithmetic. *)
Lemma six_bits x : 0 <= x -> Z.land x 63 = x mod 64.
Proof. intros. apply (land_ones_mod x 6). lia. Qed.

Lemma enc_val1 x : 0 <= x < 256 -> Z.shiftr x 2 = x / 4.
Proof. intros. by rewrite shiftr_div by lia. Qed.
Lemma enc_val2 x y : 0 <= x < 256 -> 0 <= y < 256 -> Z.lor (Z.land (Z.shiftl x 4) 63) (Z.shiftr y 4) = x mod 4 * 16 + y / 16.
Proof.
  intros Hx Hy. rewrite six_bits, shiftl_mul, shiftr_div by (try apply Z.shiftl_nonneg; lia). change (2 ^ 4) with 16.
  replace (x * 16 mod 64) with (x mod 4 * 2 ^ 4) by mlia. apply lor_add_disjoint; [lia|mlia].
Qed.
Lemma enc_val2_last x : 0 <= x < 256 -> Z.land (Z.shiftl x 4) 63 = x mod 4 * 16.
Proof. intros Hx. rewrite six_bits, shiftl_mul by (try apply Z.shiftl_nonneg; lia). change (2 ^ 4) with 16. mlia. Qed.
Lemma enc_val3 y z : 0 <= y < 256 -> 0 <= z < 256 -> Z.lor (Z.land (Z.shiftl y 2) 63) (Z.shiftr z 6) = y mod 16 * 4 + z / 64.
Proof.
  intros Hy Hz. rewrite six_bits, shiftl_mul, shiftr_div by (try apply Z.shiftl_nonneg; lia). change (2 ^ 2) with 4. change (2 ^ 6) with 64.
  replace (y * 4 mod 64) with (y mod 16 * 2 ^ 2) by mlia. apply lor_add_disjoint; [lia|mlia].
Qed.
Lemma enc_val3_last y : 0 <= y < 256 -> Z.land (Z.shiftl y 2) 63 = y mod 16 * 4.
Proof. intros Hy. rewrite six_bits, shiftl_mul by (try apply Z.shiftl_nonneg; lia). change (2 ^ 2) with 4. mlia. Qed.
Lemma enc_val4 z : 0 <= z < 256 -> Z.land z 63 = z mod 64.
Proof. intros. apply six_bits. lia. Qed.

Lemma dec1 a b : 0 <= a < 64 -> 0 <= b < 64 -> u8 (Z.lor (Z.shiftl a 2) (Z.shiftr b 4)) = a * 4 + b / 16.
Proof. intros Ha Hb. rewrite shiftl_mul, shiftr_div by lia. rewrite lor_add_disjoint by mlia. apply u8_id. mlia. Qed.
Lemma dec2 b c : 0 <= b < 64 -> 0 <= c < 64 -> u8 (Z.lor (Z.shiftl b 4) (Z.shiftr c 2)) = b mod 16 * 16 + c / 4.
Proof. intros Hb Hc. rewrite shiftl_mul, shiftr_div by lia. rewrite lor_add_disjoint by mlia. mlia. Qed.
Lemma dec3 c d : 0 <= c < 64 -> 0 <= d < 64 -> u8 (Z.lor (Z.shiftl c 6) d) = c mod 4 * 64 + d.
Proof. intros Hc Hd. rewrite shiftl_mul by lia. rewrite lor_add_disjoint by lia. mlia. Qed.

Section Alphabet.
Context (valToChar charToVal : Z -> Z) `{!Alphabet valToChar charToVal}.
Abbreviation encode := (Base64Encode valToChar).
Abbreviation decode := (Base64Decode charToVal).

Lemma val_char v : 0 <= v < 64 -> charToVal (valToChar v) = v.
Proof. intros Hv. by destruct (char_of_val v Hv). Qed.
Lemma val_max v : 0 <= v < 64 -> (v =? UINT8_MAX) = false.
Proof. intros Hv. apply Z.eqb_neq. unfold UINT8_MAX. lia. Qed.
Lemma val_pad v : 0 <= v < 64 -> (valToChar v =? 61) = false.
Proof. intros Hv. apply Z.eqb_neq. by destruct (char_of_val v Hv). Qed.

(** A whole group, then the rest. *)
Lemma decode_group x y z l : is_byte x -> is_byte y -> is_byte z ->
  decode (map valToChar (encode_group x (Some y) (Some z)) ++ l) = match decode l with Some out => Some (x :: y :: z :: out) | None => None end.
Proof.
  unfold is_byte. intros Hx Hy Hz. cbn [encode_group map app].
  rewrite enc_val1, enc_val2, enc_val3, enc_val4 by lia. cbn [Base64Decode].
  rewrite !val_char, !val_max, !val_pad by mlia. cbn [orb].
  rewrite dec1, dec2, dec3 by mlia.
  replace (x / 4 * 4 + (x mod 4 * 16 + y / 16) / 16) with x by mlia.
  replace ((x mod 4 * 16 + y / 16) mod 16 * 16 + (y mod 16 * 4 + z / 64) / 4) with y by mlia.
  replace ((y mod 16 * 4 + z / 64) mod 4 * 64 + z mod 64) with z by mlia. done.
Qed.

Lemma decode_two x y : is_byte x -> is_byte y -> decode (map valToChar (encode_group x (Some y) None)) = Some [x; y].
Proof.
  unfold is_byte. intros Hx Hy. cbn [encode_group map]. rewrite enc_val1, enc_val2, enc_val3_last, char_of_pad by lia. cbn [Base64Decode].
  rewrite !val_char, !val_max, !val_pad by mlia. cbn [orb]. cbn [Z.eqb Pos.eqb].
  rewrite dec1, dec2 by mlia.
  replace (x / 4 * 4 + (x mod 4 * 16 + y / 16) / 16) with x by mlia.
  replace ((x mod 4 * 16 + y / 16) mod 16 * 16 + y mod 16 * 4 / 4) with y by mlia. done.
Qed.

Lemma decode_one x : is_byte x -> decode (map valToChar (encode_group x None None)) = Some [x].
Proof.
  unfold is_byte. intros Hx. cbn [encode_group map]. rewrite enc_val1, enc_val2_last, char_of_pad by lia. cbn [Base64Decode].
  rewrite !val_char, !val_max by mlia. cbn [orb]. cbn [Z.eqb Pos.eqb]. rewrite dec1 by mlia.
  replace (x / 4 * 4 + x mod 4 * 16 / 16) with x by mlia. done.
Qed.

Lemma three_ind (P : list Z -> Prop) : P [] -> (forall x, P [x]) -> (forall x y, P [x; y]) -> (forall x y z l, P l -> P (x :: y :: z :: l)) -> forall l, P l.
Proof.
  intros H0 H1 H2 H3 l. induction l as [l IH] using (induction_ltof1 _ (@length Z)). unfold ltof in IH.
  destruct l as [|x [|y [|z l]]]; auto. apply H3, IH. cbn. lia.
Qed.

Ltac split_bytes := repeat match goal with H : Forall _ (_ :: _) |- _ => apply List.Forall_cons_iff in H as [? H] end.

Lemma decode_encode l : is_bytes l -> decode (encode l) = Some l.
Proof.
  induction l as [|x|x y|x y z l IH] using three_ind; intros Hl; split_bytes; [done|by apply decode_one|by apply decode_two|].
  change (encode (x :: y :: z :: l)) with (map valToChar (encode_group x (Some y) (Some z)) ++ encode l).
  by rewrite decode_group, IH.
Qed.

Lemma encode_length l : Z.of_nat (length (encode l)) = (Z.of_nat (length l) + 2) / 3 * 4.
Proof.
  induction l as [|x|x y|x y z l IH] using three_ind; [done|done|done|].
  change (encode (x :: y :: z :: l)) with (map valToChar (encode_group x (Some y) (Some z)) ++ encode l).
  rewrite length_app, length_map. cbn [length encode_group]. mlia.
Qed.

(** The chunks of the encoder are those of the decoder. *)
Lemma encode_app n : forall l1 l2, length l1 = (3 * n)%nat -> encode (l1 ++ l2) = encode l1 ++ encode l2 /\ length (encode l1) = (4 * n)%nat.
Proof.
  induction n as [|n IH]; intros l1 l2 Hl; [by destruct l1|]. destruct l1 as [|x [|y [|z l1]]]; cbn in Hl; try lia.
  destruct (IH l1 l2 ltac:(lia)) as [E1 E2]. cbn [app].
  change (encode (x :: y :: z :: l1 ++ l2)) with (map valToChar (encode_group x (Some y) (Some z)) ++ encode (l1 ++ l2)).
  change (encode (x :: y :: z :: l1)) with (map valToChar (encode_group x (Some y) (Some z)) ++ encode l1).
  rewrite E1, app_assoc, length_app, length_map, E2. cbn [length encode_group]. split; [done|lia].
Qed.

Definition chunk : nat := Z.to_nat (65535 / 4).
Lemma chunk_encode : kMaxConvert_encode = (3 * chunk)%nat.
Proof. unfold kMaxConvert_encode, chunk. lia. Qed.
Lemma chunk_decode : kMaxConvert_decode = (4 * chunk)%nat.
Proof. unfold kMaxConvert_decode, chunk. lia. Qed.
Lemma chunk_pos : (0 < chunk)%nat /\ Z.of_nat chunk = 16383.
Proof. unfold chunk. change (65535 / 4) with 16383. lia. Qed.
#[local] Opaque kMaxConvert_encode kMaxConvert_decode chunk.

Lemma encode32_spec fuel : forall inp outLen, (length inp < fuel)%nat -> 0 <= outLen -> outLen + (Z.of_nat (length inp) + 2) / 3 * 4 < 2 ^ 32 ->
  Base64Encode32 valToChar fuel inp outLen = Ok (outLen + Z.of_nat (length (encode inp)), encode inp).
Proof.
  induction fuel as [|fuel IH]; intros inp outLen Hf H0 Hlen; [lia|]. cbn [Base64Encode32]. rewrite chunk_encode. destruct chunk_pos as [Hp Hc].
  unfold Base64Encode_len. destruct (drop (3 * chunk) inp) as [|b rest] eqn:Ed.
  - assert (length inp <= 3 * chunk)%nat as Hle by (apply (f_equal length) in Ed; rewrite length_drop in Ed; cbn in Ed; lia).
    rewrite take_ge by done. rewrite encode_length in *. rewrite u16_id by mlia. by rewrite u32_id by mlia.
  - assert (3 * chunk < length inp)%nat as Hlt by (apply (f_equal length) in Ed; rewrite length_drop in Ed; cbn in Ed; lia).
    assert (length (take (3 * chunk) inp) = 3 * chunk)%nat as Ht by (rewrite length_take; lia).
    destruct (encode_app chunk (take (3 * chunk) inp) (b :: rest) Ht) as [E1 E2].
    assert (inp = take (3 * chunk) inp ++ b :: rest) as Ei by (by rewrite <- Ed, take_drop).
    assert (length inp = 3 * chunk + length (b :: rest))%nat as El by (rewrite Ei at 1; by rewrite length_app, Ht).
    rewrite E2, u16_id, u32_id by mlia. rewrite IH; [|lia|lia|mlia]. assert (encode inp = encode (take (3 * chunk) inp) ++ encode (b :: rest)) as E by (rewrite Ei at 1; exact E1).
    rewrite E, length_app, E2. do 2 f_equal. lia.
Qed.

Lemma decode32_spec fuel : forall inp outLen, is_bytes inp -> (length inp < fuel)%nat -> 0 <= outLen -> outLen + Z.of_nat (length inp) < 2 ^ 32 ->
  Base64Decode32 charToVal fuel (encode inp) outLen = Ok (outLen + Z.of_nat (length inp), inp).
Proof.
  induction fuel as [|fuel IH]; intros inp outLen Hb Hf H0 Hlen; [lia|]. cbn [Base64Decode32]. rewrite chunk_decode. destruct chunk_pos as [Hp Hc].
  destruct (Nat.le_gt_cases (length inp) (3 * chunk)) as [Hle|Hlt].
  - pose proof (encode_length inp) as HL. rewrite take_ge, drop_ge by mlia. rewrite decode_encode by done. unfold Base64Decode_len. cbn [default].
    rewrite u16_id by mlia. rewrite (proj2 (Z.eqb_neq _ _)) by (unfold UINT16_MAX; lia). by rewrite u32_id by lia.
  - assert (length (take (3 * chunk) inp) = 3 * chunk)%nat as Ht by (rewrite length_take; lia).
    assert (length (drop (3 * chunk) inp) = length inp - 3 * chunk)%nat as Hd by apply length_drop.
    destruct (encode_app chunk (take (3 * chunk) inp) (drop (3 * chunk) inp) Ht) as [E1 E2]. rewrite take_drop in E1.
    pose proof (take_drop (3 * chunk) inp) as Ei. rewrite <- Ei in Hb. apply Forall_app in Hb as [Hb1 Hb2].
    rewrite E1, take_app_length', drop_app_length' by done. rewrite decode_encode by done. unfold Base64Decode_len. cbn [default].
    rewrite Ht, u16_id by lia. rewrite (proj2 (Z.eqb_neq _ _)) by (unfold UINT16_MAX; lia). rewrite u32_id by lia.
    assert (encode (drop (3 * chunk) inp) <> []) as Hne.
    { intros E. pose proof (encode_length (drop (3 * chunk) inp)) as HL. rewrite E, Hd in HL. cbn [length] in HL. clear - HL Hlt. mlia. }
    destruct (encode (drop (3 * chunk) inp)) as [|c rest] eqn:Ee; [done|]. rewrite <- Ee, IH by (done || lia). rewrite Hd. unfold id. rewrite take_drop. do 2 f_equal. lia.
Qed.
End Alphabet.

(** C27: What Base64Encode32 writes, in either alphabet and for any number of bytes for
    which the length of the text fits in 32 bits, is four characters for every
    three bytes or part of three, and Base64Decode32 reads the bytes back from
    it; both loops end, and return the lengths written. *)
Theorem Base64_roundtrip valToChar charToVal inp : Alphabet valToChar charToVal -> is_bytes inp -> Z.of_nat (length inp) <= 3221225469 ->
  exists out, Z.of_nat (length out) = (Z.of_nat (length inp) + 2) / 3 * 4 /\
    Base64Encode32 valToChar (S (length inp)) inp 0 = Ok (Z.of_nat (length out), out) /\
    Base64Decode32 charToVal (S (length inp)) out 0 = Ok (Z.of_nat (length inp), inp).
Proof.
  intros HA Hb Hl. exists (Base64Encode valToChar inp). split; [apply encode_length|]. split.
  - rewrite encode32_spec; [done|lia|lia|mlia].
  - rewrite (decode32_spec valToChar charToVal); [done|done|lia|lia|lia].
Qed.

Lemma Base64_roundtrip_witness : exists out, Z.of_nat (length out) = 8 /\
  Base64Encode32 Base64URLValToChar 6 [251; 255; 111; 98; 97] 0 = Ok (Z.of_nat (length out), out) /\
  Base64Decode32 Base64URLCharToVal 6 out 0 = Ok (5, [251; 255; 111; 98; 97]).
Proof.
  apply (Base64_roundtrip Base64URLValToChar Base64URLCharToVal [251; 255; 111; 98; 97]); [apply _|repeat constructor; unfold is_byte; lia|cbn; lia].
Defined.
