(* ===== verification/ASN1OID.v ===== *)
(** * ASN.1 object identifiers (lib/support/ASN1OID.h and ASN1OID.cpp)

    The tables of the object identifiers the library knows, and the functions that
    search them.  An OID is a number; its encoding is a list of bytes. *)
From S2P Require Import Prelude.
From Stdlib Require Import Strings.String.
Local Open Scope Z_scope.
Local Open Scope list_scope.

Definition kOID_NotSpecified : Z := 0.
Definition kOID_Unknown : Z := 65535.
Definition kOIDCategory_NotSpecified : Z := 0.
Definition kOIDCategory_Unknown : Z := 3840.
Definition kOIDCategory_Mask : Z := 3840.

(** EnumVal, and EncodedOID with its length *)
Definition sOIDTable : list (Z * list Z) := [
  (0x0101, [42; 134; 72; 134; 247; 13; 1; 1; 1]);
  (0x0102, [42; 134; 72; 206; 61; 2; 1]);
  (0x0103, [43; 129; 4; 1; 12]);
  (0x0104, [43; 129; 4; 1; 13]);
  (0x0201, [42; 134; 72; 134; 247; 13; 1; 1; 2]);
  (0x0202, [42; 134; 72; 134; 247; 13; 1; 1; 4]);
  (0x0203, [42; 134; 72; 134; 247; 13; 1; 1; 5]);
  (0x0204, [42; 134; 72; 206; 61; 4; 1]);
  (0x0205, [42; 134; 72; 206; 61; 4; 3; 2]);
  (0x0206, [42; 134; 72; 134; 247; 13; 2; 9]);
  (0x0301, [85; 4; 3]);
  (0x0302, [85; 4; 4]);
  (0x0303, [85; 4; 5]);
  (0x0304, [85; 4; 6]);
  (0x0305, [85; 4; 7]);
  (0x0306, [85; 4; 8]);
  (0x0307, [85; 4; 10]);
  (0x0308, [85; 4; 11]);
  (0x0309, [85; 4; 12]);
  (0x030A, [85; 4; 41]);
  (0x030B, [85; 4; 42]);
  (0x030C, [85; 4; 43]);
  (0x030D, [85; 4; 44]);
  (0x030E, [85; 4; 46]);
  (0x030F, [85; 4; 65]);
  (0x0310, [9; 146; 38; 137; 147; 242; 44; 100; 1; 25]);
  (0x0311, [43; 6; 1; 4; 1; 130; 195; 43; 1; 1]);
  (0x0312, [43; 6; 1; 4; 1; 130; 195; 43; 1; 2]);
  (0x0313, [43; 6; 1; 4; 1; 130; 195; 43; 1; 3]);
  (0x0314, [43; 6; 1; 4; 1; 130; 195; 43; 1; 4]);
  (0x0401, [42; 134; 72; 206; 61; 3; 0; 1]);
  (0x0402, [42; 134; 72; 206; 61; 3; 0; 2]);
  (0x0403, [42; 134; 72; 206; 61; 3; 0; 3]);
  (0x0404, [42; 134; 72; 206; 61; 3; 0; 4]);
  (0x0405, [42; 134; 72; 206; 61; 3; 0; 5]);
  (0x0406, [42; 134; 72; 206; 61; 3; 0; 6]);
  (0x0407, [42; 134; 72; 206; 61; 3; 0; 7]);
  (0x0408, [42; 134; 72; 206; 61; 3; 0; 8]);
  (0x0409, [42; 134; 72; 206; 61; 3; 0; 9]);
  (0x040A, [42; 134; 72; 206; 61; 3; 0; 10]);
  (0x040B, [42; 134; 72; 206; 61; 3; 0; 11]);
  (0x040C, [42; 134; 72; 206; 61; 3; 0; 12]);
  (0x040D, [42; 134; 72; 206; 61; 3; 0; 13]);
  (0x040E, [42; 134; 72; 206; 61; 3; 0; 14]);
  (0x040F, [42; 134; 72; 206; 61; 3; 0; 15]);
  (0x0410, [42; 134; 72; 206; 61; 3; 0; 16]);
  (0x0411, [42; 134; 72; 206; 61; 3; 0; 17]);
  (0x0412, [42; 134; 72; 206; 61; 3; 0; 18]);
  (0x0413, [42; 134; 72; 206; 61; 3; 0; 19]);
  (0x0414, [42; 134; 72; 206; 61; 3; 0; 20]);
  (0x0415, [42; 134; 72; 206; 61; 3; 1; 1]);
  (0x0416, [42; 134; 72; 206; 61; 3; 1; 2]);
  (0x0417, [42; 134; 72; 206; 61; 3; 1; 3]);
  (0x0418, [42; 134; 72; 206; 61; 3; 1; 4]);
  (0x0419, [42; 134; 72; 206; 61; 3; 1; 5]);
  (0x041A, [42; 134; 72; 206; 61; 3; 1; 6]);
  (0x041B, [42; 134; 72; 206; 61; 3; 1; 7]);
  (0x041C, [43; 129; 4; 0; 6]);
  (0x041D, [43; 129; 4; 0; 7]);
  (0x041E, [43; 129; 4; 0; 28]);
  (0x041F, [43; 129; 4; 0; 29]);
  (0x0420, [43; 129; 4; 0; 9]);
  (0x0421, [43; 129; 4; 0; 8]);
  (0x0422, [43; 129; 4; 0; 30]);
  (0x0423, [43; 129; 4; 0; 31]);
  (0x0424, [43; 129; 4; 0; 32]);
  (0x0425, [43; 129; 4; 0; 33]);
  (0x0426, [43; 129; 4; 0; 10]);
  (0x0427, [43; 129; 4; 0; 34]);
  (0x0428, [43; 129; 4; 0; 35]);
  (0x0429, [43; 129; 4; 0; 4]);
  (0x042A, [43; 129; 4; 0; 5]);
  (0x042B, [43; 129; 4; 0; 22]);
  (0x042C, [43; 129; 4; 0; 23]);
  (0x042D, [43; 129; 4; 0; 1]);
  (0x042E, [43; 129; 4; 0; 2]);
  (0x042F, [43; 129; 4; 0; 15]);
  (0x0430, [43; 129; 4; 0; 24]);
  (0x0431, [43; 129; 4; 0; 25]);
  (0x0432, [43; 129; 4; 0; 26]);
  (0x0433, [43; 129; 4; 0; 27]);
  (0x0434, [43; 129; 4; 0; 3]);
  (0x0435, [43; 129; 4; 0; 16]);
  (0x0436, [43; 129; 4; 0; 17]);
  (0x0437, [43; 129; 4; 0; 36]);
  (0x0438, [43; 129; 4; 0; 37]);
  (0x0439, [43; 129; 4; 0; 38]);
  (0x043A, [43; 129; 4; 0; 39]);
  (0x0501, [85; 29; 35]);
  (0x0502, [85; 29; 14]);
  (0x0503, [85; 29; 15]);
  (0x0504, [85; 29; 19]);
  (0x0505, [85; 29; 37]);
  (0x0601, [43; 6; 1; 5; 5; 7; 3; 1]);
  (0x0602, [43; 6; 1; 5; 5; 7; 3; 2]);
  (0x0603, [43; 6; 1; 5; 5; 7; 3; 3]);
  (0x0604, [43; 6; 1; 5; 5; 7; 3; 4]);
  (0x0605, [43; 6; 1; 5; 5; 7; 3; 8]);
  (0x0606, [43; 6; 1; 5; 5; 7; 3; 9])].

(** EnumVal and Name *)
Definition sOIDNameTable : list (Z * string) := [
  (0x0101, "RSAEncryption"%string);
  (0x0102, "ECPublicKey"%string);
  (0x0103, "ECDH"%string);
  (0x0104, "ECMQV"%string);
  (0x0201, "MD2WithRSAEncryption"%string);
  (0x0202, "MD5WithRSAEncryption"%string);
  (0x0203, "SHA1WithRSAEncryption"%string);
  (0x0204, "ECDSAWithSHA1"%string);
  (0x0205, "ECDSAWithSHA256"%string);
  (0x0206, "HMACWithSHA256"%string);
  (0x0301, "CommonName"%string);
  (0x0302, "Surname"%string);
  (0x0303, "SerialNumber"%string);
  (0x0304, "CountryName"%string);
  (0x0305, "LocalityName"%string);
  (0x0306, "StateOrProvinceName"%string);
  (0x0307, "OrganizationName"%string);
  (0x0308, "OrganizationalUnitName"%string);
  (0x0309, "Title"%string);
  (0x030A, "Name"%string);
  (0x030B, "GivenName"%string);
  (0x030C, "Initials"%string);
  (0x030D, "GenerationQualifier"%string);
  (0x030E, "DNQualifier"%string);
  (0x030F, "Pseudonym"%string);
  (0x0310, "DomainComponent"%string);
  (0x0311, "WeaveDeviceId"%string);
  (0x0312, "WeaveServiceEndpointId"%string);
  (0x0313, "WeaveCAId"%string);
  (0x0314, "WeaveSoftwarePublisherId"%string);
  (0x0401, "c2pnb163v1"%string);
  (0x0402, "c2pnb163v2"%string);
  (0x0403, "c2pnb163v3"%string);
  (0x0404, "c2pnb176w1"%string);
  (0x0405, "c2tnb191v1"%string);
  (0x0406, "c2tnb191v2"%string);
  (0x0407, "c2tnb191v3"%string);
  (0x0408, "c2onb191v4"%string);
  (0x0409, "c2onb191v5"%string);
  (0x040A, "c2pnb208w1"%string);
  (0x040B, "c2tnb239v1"%string);
  (0x040C, "c2tnb239v2"%string);
  (0x040D, "c2tnb239v3"%string);
  (0x040E, "c2onb239v4"%string);
  (0x040F, "c2onb239v5"%string);
  (0x0410, "c2pnb272w1"%string);
  (0x0411, "c2pnb304w1"%string);
  (0x0412, "c2tnb359v1"%string);
  (0x0413, "c2pnb368w1"%string);
  (0x0414, "c2tnb431r1"%string);
  (0x0415, "prime192v1"%string);
  (0x0416, "prime192v2"%string);
  (0x0417, "prime192v3"%string);
  (0x0418, "prime239v1"%string);
  (0x0419, "prime239v2"%string);
  (0x041A, "prime239v3"%string);
  (0x041B, "prime256v1"%string);
  (0x041C, "secp112r1"%string);
  (0x041D, "secp112r2"%string);
  (0x041E, "secp128r1"%string);
  (0x041F, "secp128r2"%string);
  (0x0420, "secp160k1"%string);
  (0x0421, "secp160r1"%string);
  (0x0422, "secp160r2"%string);
  (0x0423, "secp192k1"%string);
  (0x0424, "secp224k1"%string);
  (0x0425, "secp224r1"%string);
  (0x0426, "secp256k1"%string);
  (0x0427, "secp384r1"%string);
  (0x0428, "secp521r1"%string);
  (0x0429, "sect113r1"%string);
  (0x042A, "sect113r2"%string);
  (0x042B, "sect131r1"%string);
  (0x042C, "sect131r2"%string);
  (0x042D, "sect163k1"%string);
  (0x042E, "sect163r1"%string);
  (0x042F, "sect163r2"%string);
  (0x0430, "sect193r1"%string);
  (0x0431, "sect193r2"%string);
  (0x0432, "sect233k1"%string);
  (0x0433, "sect233r1"%string);
  (0x0434, "sect239k1"%string);
  (0x0435, "sect283k1"%string);
  (0x0436, "sect283r1"%string);
  (0x0437, "sect409k1"%string);
  (0x0438, "sect409r1"%string);
  (0x0439, "sect571k1"%string);
  (0x043A, "sect571r1"%string);
  (0x0501, "AuthorityKeyIdentifier"%string);
  (0x0502, "SubjectKeyIdentifier"%string);
  (0x0503, "KeyUsage"%string);
  (0x0504, "BasicConstraints"%string);
  (0x0505, "ExtendedKeyUsage"%string);
  (0x0601, "ServerAuth"%string);
  (0x0602, "ClientAuth"%string);
  (0x0603, "CodeSigning"%string);
  (0x0604, "EmailProtection"%string);
  (0x0605, "TimeStamping"%string);
  (0x0606, "OCSPSigning"%string)].

Fixpoint find_encoding (table : list (Z * list Z)) (encodedOID : list Z) : Z :=
  match table with
  | [] => kOID_Unknown
  | (enumVal, encoded) :: table => if decide (encodedOID = encoded) then enumVal else find_encoding table encodedOID
  end.
(** ParseObjectID(encodedOID, encodedOIDLen), the NULL pointer being the empty list *)
Definition ParseObjectID (encodedOID : list Z) : Z :=
  match encodedOID with [] => kOID_NotSpecified | _ => find_encoding sOIDTable encodedOID end.

Fixpoint find_oid {A} (table : list (Z * A)) (oid : Z) : option A :=
  match table with
  | [] => None
  | (enumVal, x) :: table => if oid =? enumVal then Some x else find_oid table oid
  end.
Definition GetEncodedObjectID (oid : Z) : option (list Z) := find_oid sOIDTable oid.

Definition GetOIDCategory (oid : Z) : Z :=
  if oid =? kOID_Unknown then kOIDCategory_Unknown
  else if oid =? kOID_NotSpecified then kOIDCategory_NotSpecified
  else Z.land oid kOIDCategory_Mask.

Definition GetOIDName (oid : Z) : string :=
  if oid =? kOID_Unknown then "Unknown"%string
  else if oid =? kOID_NotSpecified then "NotSpecified"%string
  else default "Unknown"%string (find_oid sOIDNameTable oid).

Example oid_sha256 : ParseObjectID [42; 134; 72; 206; 61; 4; 3; 2] = 0x0205 /\ GetOIDName 0x0205 = "ECDSAWithSHA256"%string /\ GetOIDCategory 0x0205 = 0x0200.
Proof. repeat split. Qed.

(** ** Finding what was found *)

Lemma find_oid_in {A} (table : list (Z * A)) oid x : find_oid table oid = Some x -> In (oid, x) table.
Proof.
  induction table as [|[v y] table IH]; [done|]. simpl. destruct (oid =? v) eqn:E; [|auto].
  bool_prop. intros [= <-]. left. congruence.
Qed.

Definition entry_ok (e : Z * list Z) : bool :=
  let '(oid, encoded) := e in
  (ParseObjectID encoded =? oid) && forallb byte_ok encoded && Nat.ltb (List.length encoded) 128.

Lemma GetEncodedObjectID_spec oid encoded : GetEncodedObjectID oid = Some encoded ->
  ParseObjectID encoded = oid /\ is_bytes encoded /\ (0 < List.length encoded < 128)%nat.
Proof.
  intros E%find_oid_in. assert (forallb entry_ok sOIDTable = true) as HT by (vm_compute; reflexivity).
  rewrite forallb_forall in HT. apply HT in E as HO. unfold entry_ok in HO. bool_prop.
  split; [done|]. split; [by apply byte_ok_spec|]. apply Nat.ltb_lt in H0. split; [|done].
  destruct encoded; simpl; [|lia]. exfalso. clear -E. revert E. vm_compute. intuition congruence.
Qed.
