(* ===== verification/ASN1Writer.v ===== *)
(** * The ASN.1 writer (lib/support/ASN1Writer.cpp)

    DER into one buffer.  The length of a constructed type is not known when its
    head is written: five bytes are reserved for it, a pointer to them is kept in a
    list that grows down from the end of the buffer, and Finalize closes the gaps.

    The buffer is a list of bytes and pointers into it are offsets; [ptr] is the
    size of a pointer.  An entry of the list is [None] until it is written.  A write
    that would reach the list, or leave the buffer, is [Undefined]. *)
From S2P Require Import Prelude Encoding PacketBuffer TLVReader ASN1OID.
Local Open Scope Z_scope.
Local Open Scope weave_scope.

Definition kLengthFieldReserveSize : Z := 5.
Definition kMaxElementLength : Z := 2147483647.
Definition kUnkownLength : Z := -1.
Definition kUnknownLengthMarker : Z := 255.

Record ASN1Writer := mkASN1Writer {
  aw_mem : list Z;
  mWritePoint : Z;
  aw_bufEnd : Z;
  mDeferredLengthList : list (option Z) }.

Definition set_aw_mem (mem : list Z) (w : ASN1Writer) : ASN1Writer := mkASN1Writer mem (mWritePoint w) (aw_bufEnd w) (mDeferredLengthList w).
Definition set_aw_point (p : Z) (w : ASN1Writer) : ASN1Writer := mkASN1Writer (aw_mem w) p (aw_bufEnd w) (mDeferredLengthList w).
Definition set_aw_deferred (l : list (option Z)) (w : ASN1Writer) : ASN1Writer := mkASN1Writer (aw_mem w) (mWritePoint w) (aw_bufEnd w) l.

(** Init(buf, maxLen), for a buffer at the address [addr] *)
Definition ASN1Writer_Init (addr : Z) (buf : list Z) : ASN1Writer :=
  mkASN1Writer buf 0 (Z.ldiff (addr + Z.of_nat (length buf)) 3 - addr) [].

(** GetLengthWritten *)
Definition ASN1_GetLengthWritten (w : ASN1Writer) : Z := u16 (mWritePoint w).

(** ** Lengths *)

Definition GetLengthOfLength (len : Z) : Z :=
  if len =? kUnkownLength then kLengthFieldReserveSize
  else if len <? 128 then 1
  else if len <? 256 then 2
  else if len <? 65536 then 3
  else if len <? Z.shiftl 1 24 then 4
  else 5.

(** The loop of EncodeLength, from the last byte to the first. *)
Fixpoint encode_length_loop (lenOfLen : nat) (lenToEncode : Z) (bytes : list Z) : list Z :=
  match lenOfLen with
  | O => bytes
  | S lenOfLen => encode_length_loop lenOfLen (Z.shiftr lenToEncode 8) (u8 lenToEncode :: bytes)
  end.
(** EncodeLength(buf, lenOfLen, lenToEncode): the bytes it stores. *)
Definition EncodeLength (lenOfLen lenToEncode : Z) : list Z :=
  if lenOfLen =? 1 then [u8 lenToEncode]
  else Z.lor 128 (lenOfLen - 1) :: encode_length_loop (Z.to_nat (lenOfLen - 1)) lenToEncode [].

(** What the first byte of a length field says about its size. *)
Definition length_field_size (firstByte : Z) : Z := if firstByte <? 128 then 1 else Z.land firstByte 127 + 1.

Section Writer.
Context (ptr : Z).

(** Where the deferred-length list starts, as an offset. *)
Definition deferred_start (w : ASN1Writer) : Z := aw_bufEnd w - ptr * Z.of_nat (length (mDeferredLengthList w)).

Definition store (off : Z) (bytes : list Z) : M ASN1Writer unit := fun w =>
  if (0 <=? off) && (off + Z.of_nat (length bytes) <=? deferred_start w)
  then (Ok tt, set_aw_mem (block_write off bytes (aw_mem w)) w) else (Undefined, w).
Definition load (off : Z) : M ASN1Writer Z := fun w =>
  if (0 <=? off) && (off <? Z.of_nat (length (aw_mem w))) then (Ok (arr (aw_mem w) off), w) else (Undefined, w).
(** An entry of the list that was never written is whatever the buffer holds. *)
Definition entry (e : option Z) : M ASN1Writer Z := match e with Some lenField => ret lenField | None => undefined end.

(** Writing at mWritePoint, and moving it. *)
Definition poke (bytes : list Z) : M ASN1Writer unit := fun w => store (mWritePoint w) bytes w.
Definition advance_point (n : Z) : M ASN1Writer unit := modify (fun w => set_aw_point (mWritePoint w + n) w).
Definition put_bytes (bytes : list Z) : M ASN1Writer unit := do* poke bytes in advance_point (Z.of_nat (length bytes)).

(** ** Heads *)

(** EncodeHead(cls, tag, isConstructed, len) *)
Definition EncodeHead (cls tag : Z) (isConstructed : bool) (len : Z) : M ASN1Writer unit :=
  if 31 <=? tag then fail ASN1_ERROR_UNSUPPORTED_ENCODING
  else
    let lenOfLen := GetLengthOfLength len in
    do* modify (fun w => if len =? kUnkownLength then set_aw_deferred (None :: mDeferredLengthList w) w else w) in
    let totalLen := u16 (1 + lenOfLen + (if len =? kUnkownLength then 0 else len)) in
    let* room := gets (fun w => mWritePoint w + totalLen <=? deferred_start w) in
    do* verify room ASN1_ERROR_OVERFLOW in
    do* put_bytes [u8 (Z.lor (Z.lor cls (if isConstructed then 32 else 0)) tag)] in
    do* (if len =? kUnkownLength
         then do* poke [kUnknownLengthMarker] in
              modify (fun w => set_aw_deferred (Some (mWritePoint w) :: drop 1 (mDeferredLengthList w)) w)
         else poke (EncodeLength lenOfLen len)) in
    advance_point lenOfLen.

(** The loop of WriteDeferredLength over the list, most recent entry first. *)
Fixpoint deferred_scan (l : list (option Z)) (lenAdj : Z) : M ASN1Writer unit :=
  match l with
  | [] => fail ASN1_ERROR_INVALID_STATE
  | e :: l =>
    let* lenField := entry e in
    let* lenFieldFirstByte := load lenField in
    if lenFieldFirstByte =? kUnknownLengthMarker then
      let* point := gets mWritePoint in
      let elemLen := u32 (point - lenField - lenAdj) in
      do* verify (elemLen <=? kMaxElementLength) ASN1_ERROR_LENGTH_OVERFLOW in
      store lenField (EncodeLength (GetLengthOfLength elemLen) elemLen)
    else deferred_scan l (u32 (lenAdj + (kLengthFieldReserveSize - length_field_size lenFieldFirstByte)))
  end.
Definition WriteDeferredLength : M ASN1Writer unit := fun w => deferred_scan (mDeferredLengthList w) kLengthFieldReserveSize w.

(** ** Finalize *)

(** memmove(dest, src, n) in the buffer *)
Definition memmove (dest src n : Z) : M ASN1Writer unit := fun w =>
  if (0 <=? dest) && (0 <=? src) && (dest + n <=? Z.of_nat (length (aw_mem w))) && (src + n <=? Z.of_nat (length (aw_mem w)))
  then (Ok tt, set_aw_mem (block_write dest (block_read src n (aw_mem w)) (aw_mem w)) w) else (Undefined, w).

(** The loop of Finalize over the list, oldest entry first. *)
Fixpoint finalize_spans (l : list (option Z)) (compactPoint spanStart : Z) : M ASN1Writer (Z * Z) :=
  match l with
  | [] => ret (compactPoint, spanStart)
  | e :: l =>
    let* lenField := entry e in
    let* lenFieldFirstByte := load lenField in
    if lenFieldFirstByte =? kUnknownLengthMarker then fail ASN1_ERROR_INVALID_STATE
    else
      let spanEnd := lenField + length_field_size lenFieldFirstByte in
      if spanStart =? compactPoint then finalize_spans l spanEnd (lenField + kLengthFieldReserveSize)
      else
        let spanLen := u32 (spanEnd - spanStart) in
        do* memmove compactPoint spanStart spanLen in
        finalize_spans l (compactPoint + spanLen) (lenField + kLengthFieldReserveSize)
  end.
Definition ASN1_Finalize : M ASN1Writer unit := fun w =>
  (let* cs := finalize_spans (rev (mDeferredLengthList w)) 0 0 in
   let '(compactPoint, spanStart) := cs in
   if compactPoint <? spanStart then
     let* point := gets mWritePoint in
     let spanLen := u32 (point - spanStart) in
     do* memmove compactPoint spanStart spanLen in
     modify (set_aw_point (compactPoint + spanLen))
   else modify (set_aw_point compactPoint)) w.

(** ** Values *)

(** PutValue(cls, tag, isConstructed, val, valLen), [val] the bytes that the caller
    passes with their length, of which the uint16_t [valLen] keeps 16 bits. *)
Definition PutValue (cls tag : Z) (isConstructed : bool) (val : list Z) : M ASN1Writer unit :=
  let valLen := u16 (Z.of_nat (length val)) in
  do* EncodeHead cls tag isConstructed valLen in put_bytes (take (Z.to_nat valLen) val).

Definition kASN1TagClass_Universal : Z := 0.
Definition kASN1UniversalTag_Boolean : Z := 1.
Definition kASN1UniversalTag_Integer : Z := 2.
Definition kASN1UniversalTag_BitString : Z := 3.
Definition kASN1UniversalTag_OctetString : Z := 4.
Definition kASN1UniversalTag_Null : Z := 5.
Definition kASN1UniversalTag_ObjectId : Z := 6.
Definition kASN1UniversalTag_UTCTime : Z := 23.
Definition kASN1UniversalTag_GeneralizedTime : Z := 24.

(** A length of 16 bits is the whole value's. *)
Lemma PutValue_short cls tag isConstructed val : Z.of_nat (length val) < 65536 ->
  PutValue cls tag isConstructed val = (do* EncodeHead cls tag isConstructed (Z.of_nat (length val)) in put_bytes val).
Proof. intros HL. unfold PutValue. by rewrite u16_id, Nat2Z.id, firstn_all by lia. Qed.

(** The loop of PutInteger that drops the leading bytes that only repeat the sign;
    [n] bounds what may still be dropped. *)
Fixpoint drop_sign_bytes (n : nat) (encodedVal : list Z) : list Z :=
  match n, encodedVal with
  | S n, b0 :: (b1 :: _) as rest =>
    if (b0 =? 0) && (Z.land b1 128 =? 0) then drop_sign_bytes n rest
    else if (b0 =? 255) && (Z.land b1 128 =? 128) then drop_sign_bytes n rest
    else encodedVal
  | _, _ => encodedVal
  end.
Definition ASN1_PutInteger (val : Z) : M ASN1Writer unit :=
  PutValue kASN1TagClass_Universal kASN1UniversalTag_Integer false (drop_sign_bytes 7 (BigEndian_Write64 (u64 val))).
Definition ASN1_PutBoolean (val : bool) : M ASN1Writer unit :=
  do* EncodeHead kASN1TagClass_Universal kASN1UniversalTag_Boolean false 1 in put_bytes [if val then 255 else 0].

Definition PutObjectId_bytes (val : list Z) : M ASN1Writer unit := PutValue kASN1TagClass_Universal kASN1UniversalTag_ObjectId false val.
Definition PutObjectId (oid : Z) : M ASN1Writer unit :=
  match GetEncodedObjectID oid with
  | None => fail ASN1_ERROR_UNKNOWN_OBJECT_ID
  | Some encodedOID => PutObjectId_bytes encodedOID
  end.
Definition ASN1_PutString (tag : Z) (val : list Z) : M ASN1Writer unit := PutValue kASN1TagClass_Universal tag false val.
Definition PutOctetString (val : list Z) : M ASN1Writer unit := PutValue kASN1TagClass_Universal kASN1UniversalTag_OctetString false val.
Definition PutOctetString_tagged (cls tag : Z) (val : list Z) : M ASN1Writer unit := PutValue cls tag false val.
Definition ASN1_PutNull : M ASN1Writer unit := EncodeHead kASN1TagClass_Universal kASN1UniversalTag_Null false 0.

(** The static functions ReverseBits (the reader has the same) and HighestBit *)
Definition ReverseBits (v : Z) : Z :=
  let v := u8 (Z.lor (Z.land (Z.shiftr v 1) 85) (Z.shiftl (Z.land v 85) 1)) in
  let v := u8 (Z.lor (Z.land (Z.shiftr v 2) 51) (Z.shiftl (Z.land v 51) 2)) in
  u8 (Z.lor (Z.shiftr v 4) (Z.shiftl v 4)).
Definition HighestBit (v : Z) : Z :=
  let '(highestBit, v) := if 65535 <? v then (16, Z.shiftr v 16) else (0, v) in
  let '(highestBit, v) := if 255 <? v then (Z.lor highestBit 8, Z.shiftr v 8) else (highestBit, v) in
  let '(highestBit, v) := if 15 <? v then (Z.lor highestBit 4, Z.shiftr v 4) else (highestBit, v) in
  let '(highestBit, v) := if 3 <? v then (Z.lor highestBit 2, Z.shiftr v 2) else (highestBit, v) in
  u8 (Z.lor highestBit (Z.shiftr v 1)).

(** PutBitString(val): the value's bytes, then the call. *)
Definition bit_string_len (val : Z) : Z :=
  if val =? 0 then 1 else if val <? 256 then 2 else if val <? 65536 then 3 else if val <? Z.shiftl 1 24 then 4 else 5.
Definition bit_string_bytes (val : Z) : list Z :=
  let len := bit_string_len val in
  if val =? 0 then [0]
  else
    let b1 := [ReverseBits (u8 val)] in
    let '(bytes, val) :=
      if 3 <=? len then
        let val := Z.shiftr val 8 in
        let b2 := b1 ++ [ReverseBits (u8 val)] in
        if 4 <=? len then
          let val := Z.shiftr val 8 in
          let b3 := b2 ++ [ReverseBits (u8 val)] in
          if len =? 5 then
            let val := Z.shiftr val 8 in
            (b3 ++ [ReverseBits (u8 val)], val)
          else (b3, val)
        else (b2, val)
      else (b1, val) in
    u8 (7 - HighestBit val) :: bytes.
Definition PutBitString (val : Z) : M ASN1Writer unit :=
  do* EncodeHead kASN1TagClass_Universal kASN1UniversalTag_BitString false (bit_string_len val) in
  put_bytes (bit_string_bytes val).
(** PutBitString(unusedBitCount, encodedBits, encodedBitsLen), the length again a
    uint16_t *)
Definition PutBitString_bytes (unusedBitCount : Z) (encodedBits : list Z) : M ASN1Writer unit :=
  let encodedBitsLen := u16 (Z.of_nat (length encodedBits)) in
  do* EncodeHead kASN1TagClass_Universal kASN1UniversalTag_BitString false (encodedBitsLen + 1) in
  do* put_bytes [unusedBitCount] in put_bytes (take (Z.to_nat encodedBitsLen) encodedBits).

(** The overloads that take their value from a TLV reader: an error of GetBytes is
    not looked at, and the bytes it did not store are left as they are.  The length
    is converted to int32_t. *)
Definition put_from_reader (val : TLVReader) : M ASN1Writer TLVReader := fun w =>
  let valLen := GetLength val in
  match GetBytes valLen val with
  | (Ok bytes, val') => (do* put_bytes bytes in ret val') w
  | (Err _, val') => (do* advance_point valLen in ret val') w
  | (Undefined, val') => (Undefined, w)
  | (Diverges, val') => (Diverges, w)
  end.
Definition PutValue_reader (cls tag : Z) (isConstructed : bool) (val : TLVReader) : M ASN1Writer TLVReader :=
  do* EncodeHead cls tag isConstructed (s32 (GetLength val)) in put_from_reader val.
Definition PutOctetString_reader (cls tag : Z) (val : TLVReader) : M ASN1Writer TLVReader := PutValue_reader cls tag false val.
Definition PutBitString_reader (unusedBitCount : Z) (encodedBits : TLVReader) : M ASN1Writer TLVReader :=
  do* EncodeHead kASN1TagClass_Universal kASN1UniversalTag_BitString false (s32 (u32 (GetLength encodedBits + 1))) in
  do* put_bytes [unusedBitCount] in put_from_reader encodedBits.

(** ASN1UniversalTime *)
Record ASN1UniversalTime := mkASN1Time { at_Year : Z; at_Month : Z; at_Day : Z; at_Hour : Z; at_Minute : Z; at_Second : Z }.
Definition itoa2 (val : Z) : list Z := [48 + (val / 10) mod 10; 48 + val mod 10].
Definition time_digits (val : ASN1UniversalTime) : list Z :=
  itoa2 (at_Year val / 100) ++ itoa2 (at_Year val) ++ itoa2 (at_Month val) ++ itoa2 (at_Day val) ++
  itoa2 (at_Hour val) ++ itoa2 (at_Minute val) ++ itoa2 (at_Second val) ++ [90].
Definition PutTime (val : ASN1UniversalTime) : M ASN1Writer unit :=
  if 2050 <=? at_Year val then PutValue kASN1TagClass_Universal kASN1UniversalTag_GeneralizedTime false (time_digits val)
  else PutValue kASN1TagClass_Universal kASN1UniversalTag_UTCTime false (drop 2 (time_digits val)).

(** ** Containers *)

Definition StartConstructedType (cls tag : Z) : M ASN1Writer unit := EncodeHead cls tag true kUnkownLength.
Definition EndConstructedType : M ASN1Writer unit := WriteDeferredLength.
Definition StartEncapsulatedType (cls tag : Z) (bitStringEncoding : bool) : M ASN1Writer unit :=
  do* EncodeHead cls tag false kUnkownLength in
  if bitStringEncoding then
    let* full := gets (fun w => mWritePoint w =? deferred_start w) in
    do* verify (negb full) ASN1_ERROR_OVERFLOW in
    put_bytes [0]
  else ret tt.
Definition EndEncapsulatedType : M ASN1Writer unit := WriteDeferredLength.
End Writer.
