(* ===== verification/ASN1Reader.v ===== *)
(** * The ASN.1 reader (lib/support/ASN1Reader.cpp)

    A pull parser over one buffer.  The buffer is a list of bytes and pointers into
    it are offsets, which may lie outside of it; a byte read there is [Undefined].
    mBufEnd is the length of the buffer and the saved contexts are a stack. *)
From S2P Require Import Prelude Encoding PacketBuffer TLVReader ASN1OID ASN1Writer.
Local Open Scope Z_scope.
Local Open Scope weave_scope.

Record ASN1ParseContext := mkParseContext { pc_ElemStart : Z; pc_HeadLen : Z; pc_ValueLen : Z; pc_IsIndefiniteLen : bool; pc_ContainerEnd : Z }.
Definition kMaxContextDepth : nat := 32.

Record ASN1Reader := mkASN1Reader {
  ar_buf : list Z;
  ar_Class : Z;
  ar_Tag : Z;
  ar_Value : option Z;
  ar_ValueLen : Z;
  ar_IsConstructed : bool;
  ar_IsIndefiniteLen : bool;
  ar_IsEndOfContents : bool;
  ar_ElemStart : Z;
  ar_ContainerEnd : Z;
  ar_HeadLen : Z;
  ar_SavedContexts : list ASN1ParseContext }.

Definition ar_BufEnd (r : ASN1Reader) : Z := Z.of_nat (length (ar_buf r)).

(** The fields of the element that DecodeHead sets one after the other *)
Definition set_ar_head (cls : Z) (isConstructed : bool) (r : ASN1Reader) : ASN1Reader :=
  mkASN1Reader (ar_buf r) cls (ar_Tag r) (ar_Value r) (ar_ValueLen r) isConstructed (ar_IsIndefiniteLen r) (ar_IsEndOfContents r)
    (ar_ElemStart r) (ar_ContainerEnd r) (ar_HeadLen r) (ar_SavedContexts r).
Definition set_ar_tag (tag : Z) (r : ASN1Reader) : ASN1Reader :=
  mkASN1Reader (ar_buf r) (ar_Class r) tag (ar_Value r) (ar_ValueLen r) (ar_IsConstructed r) (ar_IsIndefiniteLen r) (ar_IsEndOfContents r)
    (ar_ElemStart r) (ar_ContainerEnd r) (ar_HeadLen r) (ar_SavedContexts r).
Definition set_ar_len (valueLen : Z) (isIndefiniteLen : bool) (r : ASN1Reader) : ASN1Reader :=
  mkASN1Reader (ar_buf r) (ar_Class r) (ar_Tag r) (ar_Value r) valueLen (ar_IsConstructed r) isIndefiniteLen (ar_IsEndOfContents r)
    (ar_ElemStart r) (ar_ContainerEnd r) (ar_HeadLen r) (ar_SavedContexts r).
Definition set_ar_value (headLen : Z) (isEndOfContents : bool) (value : option Z) (r : ASN1Reader) : ASN1Reader :=
  mkASN1Reader (ar_buf r) (ar_Class r) (ar_Tag r) value (ar_ValueLen r) (ar_IsConstructed r) (ar_IsIndefiniteLen r) isEndOfContents
    (ar_ElemStart r) (ar_ContainerEnd r) headLen (ar_SavedContexts r).
(** The position: mElemStart, mContainerEnd and the stack *)
Definition set_ar_position (elemStart containerEnd : Z) (saved : list ASN1ParseContext) (r : ASN1Reader) : ASN1Reader :=
  mkASN1Reader (ar_buf r) (ar_Class r) (ar_Tag r) (ar_Value r) (ar_ValueLen r) (ar_IsConstructed r) (ar_IsIndefiniteLen r) (ar_IsEndOfContents r)
    elemStart containerEnd (ar_HeadLen r) saved.

Definition ResetElementState (r : ASN1Reader) : ASN1Reader :=
  mkASN1Reader (ar_buf r) 0 0 None 0 false false false (ar_ElemStart r) (ar_ContainerEnd r) 0 (ar_SavedContexts r).

(** Init(buf, len) *)
Definition ASN1Reader_Init (buf : list Z) : ASN1Reader :=
  mkASN1Reader buf 0 0 None 0 false false false 0 (Z.of_nat (length buf)) 0 [].

(** ** DecodeHead *)

(** A byte read through [p], which the code checks only against mBufEnd or not at all. *)
Definition deref (p : Z) : M ASN1Reader Z := fun r =>
  if (0 <=? p) && (p <? ar_BufEnd r) then (Ok (arr (ar_buf r) p), r) else (Undefined, r).
Definition check_end (p : Z) : M ASN1Reader unit := fun r => verify (negb (ar_BufEnd r <=? p)) ASN1_ERROR_UNDERRUN r.

(** The loop over a tag of more than one byte: [p] does not move, so every turn
    reads the same byte. *)
Fixpoint tag_loop (fuel : nat) (p : Z) : M ASN1Reader unit :=
  match fuel with
  | O => fun r => (Diverges, r)
  | S fuel =>
    do* check_end p in
    let* tag := gets ar_Tag in
    do* verify (Z.land tag 0xFE000000 =? 0) ASN1_ERROR_TAG_OVERFLOW in
    let* b := deref p in
    do* modify (set_ar_tag (Z.lor (u32 (Z.shiftl tag 7)) (Z.land b 127))) in
    if negb (Z.land b 128 =? 0) then tag_loop fuel p else ret tt
  end.
(** The turns after which the loop has ended, if it ever does. *)
Definition tag_fuel : nat := 6.

Fixpoint length_loop (lenLen : nat) (p : Z) : M ASN1Reader Z :=
  match lenLen with
  | O => ret p
  | S lenLen =>
    do* check_end p in
    let* valueLen := gets ar_ValueLen in
    do* verify (Z.land valueLen 0xFF000000 =? 0) ASN1_ERROR_LENGTH_OVERFLOW in
    let* b := deref p in
    do* modify (fun r => set_ar_len (Z.lor (u32 (Z.shiftl valueLen 8)) b) (ar_IsIndefiniteLen r) r) in
    length_loop lenLen (p + 1)
  end.

Definition DecodeHead_with (fuel : nat) : M ASN1Reader unit :=
  let* elemStart := gets ar_ElemStart in
  let p := elemStart in
  do* check_end p in
  let* b := deref p in
  do* modify (fun r => set_ar_tag (Z.land b 31) (set_ar_head (Z.land b 192) (negb (Z.land b 32 =? 0)) r)) in
  let p := p + 1 in
  do* (if Z.land b 31 =? 31 then do* modify (set_ar_tag 0) in tag_loop fuel p else ret tt) in
  do* check_end p in
  let* b := deref p in
  let* p := (if Z.land b 128 =? 0 then do* modify (set_ar_len (Z.land b 127) false) in ret (p + 1)
             else if b =? 128 then do* modify (set_ar_len 0 true) in ret (p + 1)
             else do* modify (fun r => set_ar_len 0 (ar_IsIndefiniteLen r) r) in
                  let* p := length_loop (Z.to_nat (Z.land b 127)) (p + 1) in
                  do* modify (fun r => set_ar_len (ar_ValueLen r) false r) in ret p) in
  modify (fun r => set_ar_value (u32 (p - elemStart))
    ((ar_Class r =? 0) && (ar_Tag r =? 0) && negb (ar_IsConstructed r) && (ar_ValueLen r =? 0)) (Some p) r).
Definition ASN1_DecodeHead : M ASN1Reader unit := DecodeHead_with tag_fuel.

(** ** Moving *)

Definition ASN1_Next : M ASN1Reader unit := fun r =>
  if ar_IsEndOfContents r then (Err ASN1_END, r)
  else if ar_IsIndefiniteLen r then (Err ASN1_ERROR_UNSUPPORTED_ENCODING, r)
  else
    let r := set_ar_position (ar_ElemStart r + u32 (ar_HeadLen r + ar_ValueLen r)) (ar_ContainerEnd r) (ar_SavedContexts r) r in
    let r := ResetElementState r in
    if ar_ElemStart r =? ar_ContainerEnd r then (Err ASN1_END, r) else ASN1_DecodeHead r.

(** A NULL Value, left by a head that did not decode, is not a pointer into the buffer. *)
Definition ASN1_EnterContainer (offset : Z) : M ASN1Reader unit := fun r =>
  if Nat.eqb (length (ar_SavedContexts r)) kMaxContextDepth then (Err ASN1_ERROR_MAX_DEPTH_EXCEEDED, r)
  else
    match ar_Value r with
    | None => (Undefined, r)
    | Some value =>
      let saved := mkParseContext (ar_ElemStart r) (ar_HeadLen r) (ar_ValueLen r) (ar_IsIndefiniteLen r) (ar_ContainerEnd r) :: ar_SavedContexts r in
      (Ok tt, ResetElementState (set_ar_position (value + offset)
                (if ar_IsIndefiniteLen r then ar_ContainerEnd r else value + ar_ValueLen r) saved r))
    end.

Definition ASN1_ExitContainer : M ASN1Reader unit := fun r =>
  match ar_SavedContexts r with
  | [] => (Err ASN1_ERROR_INVALID_STATE, r)
  | prevContext :: saved =>
    if pc_IsIndefiniteLen prevContext
    then (Err ASN1_ERROR_UNSUPPORTED_ENCODING, set_ar_position (ar_ElemStart r) (ar_ContainerEnd r) saved r)
    else (Ok tt, ResetElementState (set_ar_position (pc_ElemStart prevContext + pc_HeadLen prevContext + pc_ValueLen prevContext)
                   (pc_ContainerEnd prevContext) saved r))
  end.

Definition EnterConstructedType : M ASN1Reader unit := fun r =>
  if negb (ar_IsConstructed r) then (Err ASN1_ERROR_INVALID_STATE, r) else ASN1_EnterContainer 0 r.
Definition ExitConstructedType : M ASN1Reader unit := ASN1_ExitContainer.
Definition EnterEncapsulatedType : M ASN1Reader unit := fun r =>
  if negb (ar_Class r =? kASN1TagClass_Universal) || (negb (ar_Tag r =? kASN1UniversalTag_OctetString) && negb (ar_Tag r =? kASN1UniversalTag_BitString))
  then (Err ASN1_ERROR_INVALID_STATE, r)
  else if ar_IsConstructed r then (Err ASN1_ERROR_UNSUPPORTED_ENCODING, r)
  else ASN1_EnterContainer (if ar_Tag r =? kASN1UniversalTag_BitString then 1 else 0) r.
Definition ExitEncapsulatedType : M ASN1Reader unit := ASN1_ExitContainer.
Definition IsContained (r : ASN1Reader) : bool := match ar_SavedContexts r with [] => false | _ => true end.

(** ** Values *)

(** The guards that every Get operation starts with; [lenErr] is the error, if any,
    for the length of the value. *)
Definition checked_value (lenErr : Z -> option WEAVE_ERROR) : M ASN1Reader Z := fun r =>
  match ar_Value r with
  | None => (Err ASN1_ERROR_INVALID_STATE, r)
  | Some value =>
    match lenErr (ar_ValueLen r) with
    | Some e => (Err e, r)
    | None => if ar_ContainerEnd r <? ar_ElemStart r + ar_HeadLen r + ar_ValueLen r then (Err ASN1_ERROR_UNDERRUN, r) else (Ok value, r)
    end
  end.

Fixpoint deref_all (n : nat) (p : Z) : M ASN1Reader (list Z) :=
  match n with
  | O => ret []
  | S n => let* b := deref p in let* rest := deref_all n (p + 1) in ret (b :: rest)
  end.
(** The bytes of the value. *)
Definition value_bytes (value : Z) : M ASN1Reader (list Z) := fun r => deref_all (Z.to_nat (ar_ValueLen r)) value r.

Definition ASN1_GetInteger : M ASN1Reader Z :=
  let* value := checked_value (fun n => if n <? 1 then Some ASN1_ERROR_INVALID_ENCODING else if 8 <? n then Some ASN1_ERROR_VALUE_OVERFLOW else None) in
  let* bytes := value_bytes value in
  ret (fold_left (fun val b => s64 (Z.lor (Z.shiftl val 8) b)) bytes (if Z.land (arr bytes 0) 128 =? 0 then 0 else -1)).

Definition ASN1_GetBoolean : M ASN1Reader bool :=
  let* value := checked_value (fun n => if negb (n =? 1) then Some ASN1_ERROR_INVALID_ENCODING else None) in
  let* b := deref value in
  if b =? 0 then ret false else if b =? 255 then ret true else fail ASN1_ERROR_INVALID_ENCODING.

Definition not_empty (n : Z) : option WEAVE_ERROR := if n <? 1 then Some ASN1_ERROR_INVALID_ENCODING else None.

(** ParseObjectID looks at the bytes only when an entry of its table has their
    number; the length is converted to uint16_t. *)
Definition ASN1_GetObjectId : M ASN1Reader Z :=
  let* value := checked_value not_empty in
  let* len := gets (fun r => u16 (ar_ValueLen r)) in
  if len =? 0 then ret kOID_NotSpecified
  else if existsb (fun e => Z.of_nat (length (snd e)) =? len) sOIDTable then
    let* bytes := deref_all (Z.to_nat len) value in
    ret (ParseObjectID bytes)
  else ret kOID_Unknown.

(** isdigit in the C locale, and a number of two digits *)
Definition isdigit (c : Z) : bool := (48 <=? c) && (c <=? 57).
Definition two_digits (bytes : list Z) (i : Z) : Z := (arr bytes i - 48) * 10 + (arr bytes (i + 1) - 48).

(** A time of [n] digits and a Z. *)
Definition time_bytes (n : Z) : M ASN1Reader (list Z) :=
  let* value := checked_value not_empty in
  let* valueLen := gets ar_ValueLen in
  do* verify (valueLen =? n + 1) ASN1_ERROR_UNSUPPORTED_ENCODING in
  let* bytes := value_bytes value in
  do* verify (arr bytes n =? 90) ASN1_ERROR_UNSUPPORTED_ENCODING in
  do* verify (forallb isdigit (take (Z.to_nat n) bytes)) ASN1_ERROR_INVALID_ENCODING in
  ret bytes.
Definition GetUTCTime : M ASN1Reader ASN1UniversalTime :=
  let* bytes := time_bytes 12 in
  let year := two_digits bytes 0 in
  ret (mkASN1Time (if 50 <=? year then year + 1900 else year + 2000)
         (two_digits bytes 2) (two_digits bytes 4) (two_digits bytes 6) (two_digits bytes 8) (two_digits bytes 10)).
Definition GetGeneralizedTime : M ASN1Reader ASN1UniversalTime :=
  let* bytes := time_bytes 14 in
  ret (mkASN1Time ((arr bytes 0 - 48) * 1000 + (arr bytes 1 - 48) * 100 + (arr bytes 2 - 48) * 10 + (arr bytes 3 - 48))
         (two_digits bytes 4) (two_digits bytes 6) (two_digits bytes 8) (two_digits bytes 10) (two_digits bytes 12)).

Fixpoint bits_loop (bytes : list Z) (shift outVal : Z) : Z :=
  match bytes with
  | [] => outVal
  | b :: bytes => bits_loop bytes (shift + 8) (Z.lor outVal (u32 (Z.shiftl (ReverseBits b) shift)))
  end.
Definition GetBitString : M ASN1Reader Z :=
  let* value := checked_value (fun n => if n <? 1 then Some ASN1_ERROR_INVALID_ENCODING else if 5 <? n then Some ASN1_ERROR_UNSUPPORTED_ENCODING else None) in
  let* valueLen := gets ar_ValueLen in
  if valueLen =? 1 then ret 0
  else
    let* bytes := deref_all (Z.to_nat (valueLen - 1)) (value + 1) in
    ret (bits_loop (drop 1 bytes) 8 (ReverseBits (arr bytes 0))).

(** ** DumpASN1

    What is printed of an element: its nesting level and its head. *)
Record DumpLine := mkDumpLine { dl_level : Z; dl_class : Z; dl_tag : Z; dl_constructed : bool; dl_length : option Z }.
Definition dump_line (nestLevel : Z) (r : ASN1Reader) : DumpLine :=
  mkDumpLine nestLevel (ar_Class r) (ar_Tag r) (ar_IsConstructed r) (if ar_IsIndefiniteLen r then None else Some (ar_ValueLen r)).

(** The lines printed and how the function ends. *)
Fixpoint DumpASN1 (fuel : nat) (nestLevel : Z) (r : ASN1Reader) : list DumpLine * res unit :=
  match fuel with
  | O => ([], Diverges)
  | S fuel =>
    match ASN1_Next r with
    | (Err ASN1_END, r) =>
      if IsContained r then
        match ExitConstructedType r with
        | (Ok _, r) => DumpASN1 fuel (nestLevel - 1) r
        | (e, _) => ([], e)
        end
      else ([], Err ASN1_END)
    | (Ok _, r) =>
      let line := dump_line nestLevel r in
      if ar_IsConstructed r then
        match EnterConstructedType r with
        | (Ok _, r) => let '(lines, e) := DumpASN1 fuel (nestLevel + 1) r in (line :: lines, e)
        | (e, _) => ([line], e)
        end
      else let '(lines, e) := DumpASN1 fuel nestLevel r in (line :: lines, e)
    | (e, _) => ([], e)
    end
  end.

(** ** ASN1Macros.h: the steps of a parser of a given type *)

Definition ASN1_VERIFY_TAG (cls tag : Z) : M ASN1Reader unit := fun r =>
  verify ((ar_Class r =? cls) && (ar_Tag r =? tag)) ASN1_ERROR_INVALID_ENCODING r.
Definition ASN1_PARSE_ELEMENT (cls tag : Z) : M ASN1Reader unit := do* ASN1_Next in ASN1_VERIFY_TAG cls tag.
Definition ASN1_PARSE_ENTER_CONSTRUCTED (cls tag : Z) : M ASN1Reader unit :=
  do* ASN1_Next in do* ASN1_VERIFY_TAG cls tag in EnterConstructedType.
Definition ASN1_PARSE_ENTER_ENCAPSULATED (cls tag : Z) : M ASN1Reader unit :=
  do* ASN1_Next in do* ASN1_VERIFY_TAG cls tag in EnterEncapsulatedType.
(** The test both EXIT macros start with: nothing is left in the container. *)
Definition ASN1_EXPECT_END : M ASN1Reader unit := fun r =>
  match ASN1_Next r with
  | (Ok _, r) => (Err ASN1_ERROR_INVALID_ENCODING, r)
  | (Err e, r) => if decide (e = ASN1_END) then (Ok tt, r) else (Err e, r)
  | other => other
  end.
Definition ASN1_EXIT_CONSTRUCTED : M ASN1Reader unit := do* ASN1_EXPECT_END in ExitConstructedType.
Definition ASN1_EXIT_ENCAPSULATED : M ASN1Reader unit := do* ASN1_EXPECT_END in ExitEncapsulatedType.
Definition ASN1_PARSE_INTEGER : M ASN1Reader Z :=
  do* ASN1_PARSE_ELEMENT kASN1TagClass_Universal kASN1UniversalTag_Integer in ASN1_GetInteger.
Definition ASN1_PARSE_BOOLEAN : M ASN1Reader bool :=
  do* ASN1_PARSE_ELEMENT kASN1TagClass_Universal kASN1UniversalTag_Boolean in ASN1_GetBoolean.
Definition ASN1_PARSE_OBJECT_ID : M ASN1Reader Z :=
  do* ASN1_PARSE_ELEMENT kASN1TagClass_Universal kASN1UniversalTag_ObjectId in ASN1_GetObjectId.
Definition ASN1_PARSE_NULL : M ASN1Reader unit := ASN1_PARSE_ELEMENT kASN1TagClass_Universal kASN1UniversalTag_Null.
Definition ASN1_PARSE_BIT_STRING : M ASN1Reader Z :=
  do* ASN1_PARSE_ELEMENT kASN1TagClass_Universal kASN1UniversalTag_BitString in GetBitString.
Definition ASN1_PARSE_TIME : M ASN1Reader ASN1UniversalTime :=
  do* ASN1_Next in
  fun r =>
    if (ar_Class r =? kASN1TagClass_Universal) && (ar_Tag r =? kASN1UniversalTag_UTCTime) then GetUTCTime r
    else if (ar_Class r =? kASN1TagClass_Universal) && (ar_Tag r =? kASN1UniversalTag_GeneralizedTime) then GetGeneralizedTime r
    else (Err ASN1_ERROR_INVALID_ENCODING, r).
