(* ===== verification/ASN1Tree.v ===== *)
(** * ASN.1 values, their encoding, and how they are written and read

    A value is a tree; [der] is its encoding by the Distinguished Encoding Rules,
    [put_item] the calls of the writer that make it, and [parse_item] the calls of
    the reader, as the macros of ASN1Macros.h arrange them, for its type. *)
From S2P Require Import Prelude Encoding PacketBuffer TLVReader ASN1OID ASN1Writer ASN1Reader.
Local Open Scope Z_scope.
Local Open Scope weave_scope.

Inductive item :=
  | AInteger (v : Z)
  | ABoolean (b : bool)
  | ABits (v : Z)
  | ATime (t : ASN1UniversalTime)
  | AObjectId (oid : Z)
  | ANull
  | APrimitive (cls tag : Z) (val : list Z)
  | AConstructed (cls tag : Z) (l : list item)
  | AEncapsulated (bits : bool) (l : list item).

Section Induction.
Variable P : item -> Prop.
Hypotheses (HI : forall v, P (AInteger v)) (HB : forall b, P (ABoolean b)) (HS : forall v, P (ABits v))
  (HT : forall t, P (ATime t)) (HO : forall oid, P (AObjectId oid)) (HN : P ANull)
  (HP : forall cls tag val, P (APrimitive cls tag val))
  (HC : forall cls tag l, Forall P l -> P (AConstructed cls tag l))
  (HE : forall bits l, Forall P l -> P (AEncapsulated bits l)).
Fixpoint item_rect' (i : item) : P i :=
  let all := fix all (l : list item) : Forall P l :=
    match l with [] => Forall_nil _ | i :: l => Forall_cons _ _ _ (item_rect' i) (all l) end in
  match i with
  | AInteger v => HI v | ABoolean b => HB b | ABits v => HS v | ATime t => HT t | AObjectId oid => HO oid | ANull => HN
  | APrimitive cls tag val => HP cls tag val
  | AConstructed cls tag l => HC cls tag l (all l)
  | AEncapsulated bits l => HE bits l (all l)
  end.
End Induction.

(** ** The encoding *)

Definition tag_byte (cls tag : Z) (isConstructed : bool) : Z := cls + (if isConstructed then 32 else 0) + tag.
(** A length: itself below 128, else the number of its bytes and the bytes. *)
Definition der_length (n : Z) : list Z :=
  if n <? 128 then [n] else
  let k := if n <? 256 then 1%nat else if n <? 65536 then 2%nat else if n <? 16777216 then 3%nat else 4%nat in
  (128 + Z.of_nat k) :: rev (le_put k n).
Definition tlv (cls tag : Z) (isConstructed : bool) (val : list Z) : list Z :=
  tag_byte cls tag isConstructed :: der_length (Z.of_nat (length val)) ++ val.

(** The shortest two's complement form of an integer. *)
Fixpoint int_size (n : nat) (v : Z) : nat :=
  match n with
  | O => 1%nat
  | S n => if (-128 <=? v) && (v <? 128) then 1%nat else S (int_size n (v / 256))
  end.
Definition der_integer (v : Z) : list Z := rev (le_put (int_size 7 v) v).

(** A bit string: the number of unused bits, then the bits from the lowest on. *)
Definition reversed_byte (b : Z) : Z := fold_left (fun a i => a + (if Z.testbit b i then 2 ^ (7 - i) else 0)) (upto 8) 0.
Definition der_bits (v : Z) : list Z :=
  if v =? 0 then [0]
  else let n := Z.log2 v in (7 - n mod 8) :: map reversed_byte (le_put (Z.to_nat (n / 8 + 1)) v).

Definition der_time (t : ASN1UniversalTime) : Z * list Z :=
  let two x := [48 + x / 10; 48 + x mod 10] in
  let rest := two (at_Month t) ++ two (at_Day t) ++ two (at_Hour t) ++ two (at_Minute t) ++ two (at_Second t) ++ [90] in
  if 2050 <=? at_Year t then (kASN1UniversalTag_GeneralizedTime, two (at_Year t / 100) ++ two (at_Year t mod 100) ++ rest)
  else (kASN1UniversalTag_UTCTime, two (at_Year t mod 100) ++ rest).

(** The class, tag and contents of a value that is not made of others. *)
Definition leaf (i : item) : option (Z * Z * list Z) :=
  match i with
  | AInteger v => Some (0, kASN1UniversalTag_Integer, der_integer v)
  | ABoolean b => Some (0, kASN1UniversalTag_Boolean, [if b then 255 else 0])
  | ABits v => Some (0, kASN1UniversalTag_BitString, der_bits v)
  | ATime t => Some (0, fst (der_time t), snd (der_time t))
  | AObjectId oid => match GetEncodedObjectID oid with Some val => Some (0, kASN1UniversalTag_ObjectId, val) | None => None end
  | ANull => Some (0, kASN1UniversalTag_Null, [])
  | APrimitive cls tag val => Some (cls, tag, val)
  | AConstructed _ _ _ | AEncapsulated _ _ => None
  end.

Definition encapsulating_tag (bits : bool) : Z := if bits then kASN1UniversalTag_BitString else kASN1UniversalTag_OctetString.

Fixpoint der (i : item) : list Z :=
  match i with
  | AConstructed cls tag l => tlv cls tag true (concat (map der l))
  | AEncapsulated bits l => tlv 0 (encapsulating_tag bits) false ((if bits then [0] else []) ++ concat (map der l))
  | _ => match leaf i with Some (cls, tag, val) => tlv cls tag false val | None => [] end
  end.
Definition ders (l : list item) : list Z := concat (map der l).

(** ** Writing *)

Section Put.
Context (ptr : Z).
Fixpoint put_item (i : item) : M ASN1Writer unit :=
  let put_items := fix put_items (l : list item) : M ASN1Writer unit :=
    match l with [] => ret tt | i :: l => do* put_item i in put_items l end in
  match i with
  | AInteger v => ASN1_PutInteger ptr v
  | ABoolean b => ASN1_PutBoolean ptr b
  | ABits v => PutBitString ptr v
  | ATime t => PutTime ptr t
  | AObjectId oid => PutObjectId ptr oid
  | ANull => ASN1_PutNull ptr
  | APrimitive cls tag val => PutOctetString_tagged ptr cls tag val
  | AConstructed cls tag l => do* StartConstructedType ptr cls tag in do* put_items l in EndConstructedType ptr
  | AEncapsulated bits l =>
    do* StartEncapsulatedType ptr kASN1TagClass_Universal (encapsulating_tag bits) bits in do* put_items l in EndEncapsulatedType ptr
  end.
Fixpoint put_items (l : list item) : M ASN1Writer unit :=
  match l with [] => ret tt | i :: l => do* put_item i in put_items l end.
End Put.

(** The room a value takes while it is written, and the entries of the list. *)
Fixpoint raw_size (i : item) : Z :=
  match i with
  | AConstructed _ _ l => 6 + fold_right Z.add 0 (map raw_size l)
  | AEncapsulated bits l => 6 + (if bits then 1 else 0) + fold_right Z.add 0 (map raw_size l)
  | _ => Z.of_nat (length (der i))
  end.
Fixpoint containers (i : item) : Z :=
  match i with
  | AConstructed _ _ l | AEncapsulated _ l => 1 + fold_right Z.add 0 (map containers l)
  | _ => 0
  end.
Definition raw_sizes (l : list item) : Z := fold_right Z.add 0 (map raw_size l).
Definition all_containers (l : list item) : Z := fold_right Z.add 0 (map containers l).

(** ** Reading *)

Inductive schema :=
  | SInteger | SBoolean | SBits | STime | SObjectId | SNull
  | SPrimitive (cls tag : Z)
  | SConstructed (cls tag : Z) (l : list schema)
  | SEncapsulated (bits : bool) (l : list schema).

Fixpoint type_of (i : item) : schema :=
  match i with
  | AInteger _ => SInteger | ABoolean _ => SBoolean | ABits _ => SBits | ATime _ => STime | AObjectId _ => SObjectId | ANull => SNull
  | APrimitive cls tag _ => SPrimitive cls tag
  | AConstructed cls tag l => SConstructed cls tag (map type_of l)
  | AEncapsulated bits l => SEncapsulated bits (map type_of l)
  end.

(** The contents of a primitive value, as Value and ValueLen give them. *)
Definition contents : M ASN1Reader (list Z) := fun r => value_bytes (default 0 (ar_Value r)) r.

Fixpoint parse_item (s : schema) : M ASN1Reader item :=
  let parse_items := fix parse_items (l : list schema) : M ASN1Reader (list item) :=
    match l with [] => ret [] | s :: l => let* i := parse_item s in let* rest := parse_items l in ret (i :: rest) end in
  match s with
  | SInteger => let* v := ASN1_PARSE_INTEGER in ret (AInteger v)
  | SBoolean => let* b := ASN1_PARSE_BOOLEAN in ret (ABoolean b)
  | SBits => let* v := ASN1_PARSE_BIT_STRING in ret (ABits v)
  | STime => let* t := ASN1_PARSE_TIME in ret (ATime t)
  | SObjectId => let* oid := ASN1_PARSE_OBJECT_ID in ret (AObjectId oid)
  | SNull => do* ASN1_PARSE_NULL in ret ANull
  | SPrimitive cls tag => do* ASN1_PARSE_ELEMENT cls tag in let* val := contents in ret (APrimitive cls tag val)
  | SConstructed cls tag l =>
    do* ASN1_PARSE_ENTER_CONSTRUCTED cls tag in
    let* items := parse_items l in
    do* ASN1_EXIT_CONSTRUCTED in ret (AConstructed cls tag items)
  | SEncapsulated bits l =>
    do* ASN1_PARSE_ENTER_ENCAPSULATED kASN1TagClass_Universal (encapsulating_tag bits) in
    let* items := parse_items l in
    do* ASN1_EXIT_ENCAPSULATED in ret (AEncapsulated bits items)
  end.
Fixpoint parse_items (l : list schema) : M ASN1Reader (list item) :=
  match l with [] => ret [] | s :: l => let* i := parse_item s in let* rest := parse_items l in ret (i :: rest) end.

(** ** The values that can be encoded *)

Definition digits2 (x : Z) : bool := (0 <=? x) && (x <? 100).
Definition class_ok (cls : Z) : bool := (cls =? 0) || (cls =? 64) || (cls =? 128) || (cls =? 192).
(** The tag of one byte, and not the end-of-contents mark. *)
Definition tag_ok (cls tag : Z) : bool := class_ok cls && (0 <=? tag) && (tag <? 31) && negb ((cls =? 0) && (tag =? 0)).

Fixpoint item_ok (i : item) : bool :=
  match i with
  | AInteger v => (-9223372036854775808 <=? v) && (v <? 9223372036854775808)
  | ABits v => (0 <=? v) && (v <? 4294967296)
  | ATime t => (1950 <=? at_Year t) && (at_Year t <? 10000) && digits2 (at_Month t) && digits2 (at_Day t) &&
               digits2 (at_Hour t) && digits2 (at_Minute t) && digits2 (at_Second t)
  | AObjectId oid => match GetEncodedObjectID oid with Some _ => true | None => false end
  | APrimitive cls tag val => tag_ok cls tag && forallb byte_ok val && (Z.of_nat (length val) <=? 65531)
  | AConstructed cls tag l => tag_ok cls tag && forallb item_ok l
  | AEncapsulated _ l => forallb item_ok l
  | ABoolean _ | ANull => true
  end.
Fixpoint depth (i : item) : nat :=
  match i with
  | AConstructed _ _ l | AEncapsulated _ l => S (fold_right Nat.max 0%nat (map depth l))
  | _ => 0%nat
  end.
Definition depths (l : list item) : nat := fold_right Nat.max 0%nat (map depth l).

(** A certificate-like value, there and back. *)
Definition example_items : list item :=
  [AConstructed 0 16 [AInteger (-129); AObjectId 0x0205; AEncapsulated true [ABoolean true; AConstructed 128 3 []];
                      ABits 773; ATime (mkASN1Time 2050 2 3 4 5 6); ATime (mkASN1Time 1999 12 31 23 59 59); ANull; APrimitive 128 1 [1; 2; 3]]].

Definition written (ptr : Z) (l : list item) (n : nat) : res unit * list Z :=
  let '(r, w) := (do* put_items ptr l in ASN1_Finalize) (ASN1Writer_Init 0 (replicate n 7)) in
  (r, take (Z.to_nat (ASN1_GetLengthWritten w)) (aw_mem w)).

Example items_written : written 8 example_items 160 = (Ok tt, ders example_items) /\ fst (written 8 example_items 60) = Err ASN1_ERROR_OVERFLOW.
Proof. split; vm_compute; reflexivity. Qed.
Example items_read : fst (parse_items (map type_of example_items) (ASN1Reader_Init (ders example_items))) = Ok example_items.
Proof. vm_compute. reflexivity. Qed.
