(* ===== verification/ASN1Leaf.v ===== *)
(** * Integers, bit strings and times in ASN.1

    The bytes the writer makes of them are their encoding, and the reader's
    arithmetic on those bytes gives the value back. *)
From S2P Require Import Prelude Encoding PacketBuffer TLVReader ASN1OID ASN1Writer ASN1Reader ASN1Tree.
Local Open Scope Z_scope.
Local Open Scope weave_scope.

(** ** Integers *)

Definition fits (k : nat) (v : Z) : Prop := - (256 ^ Z.of_nat k / 2) <= v < 256 ^ Z.of_nat k / 2.

Lemma pow256_S k : 256 ^ Z.of_nat (S k) = 256 * 256 ^ Z.of_nat k.
Proof. rewrite Nat2Z.inj_succ, Z.pow_succ_r; lia. Qed.
Lemma pow256_pos k : 0 < 256 ^ Z.of_nat k.
Proof. apply Z.pow_pos_nonneg; lia. Qed.
Lemma half_S k : 256 ^ Z.of_nat (S k) / 2 = 128 * 256 ^ Z.of_nat k.
Proof. rewrite pow256_S. symmetry. apply Z.div_unique_exact; lia. Qed.
Lemma fits_S k v : (0 < k)%nat -> fits (S k) v <-> fits k (v / 256).
Proof.
  intros Hk. unfold fits. destruct k as [|k]; [lia|]. rewrite !half_S, pow256_S. pose proof (pow256_pos k) as HP.
  Z.to_euclidean_division_equations. lia.
Qed.
Lemma fits_1 v : fits 1 v <-> -128 <= v < 128.
Proof. unfold fits. change (256 ^ Z.of_nat 1 / 2) with 128. lia. Qed.

Lemma small_spec v : (-128 <=? v) && (v <? 128) = true <-> fits 1 v.
Proof. rewrite fits_1, andb_true_iff, Z.leb_le, Z.ltb_lt. done. Qed.

Lemma fits_mono k v : fits 1 v -> fits (S k) v.
Proof.
  rewrite fits_1. intros H. induction k as [|k IH]; [by apply fits_1|]. unfold fits in *. rewrite (half_S (S k)), pow256_S. rewrite half_S in IH.
  pose proof (pow256_pos k). lia.
Qed.

Lemma int_size_fits n : forall v, fits (S n) v -> int_size (S n) v = int_size n v.
Proof.
  induction n as [|n IH]; intros v H.
  - cbn [int_size]. rewrite (proj2 (small_spec v)); done.
  - change (int_size (S (S n)) v) with (if (-128 <=? v) && (v <? 128) then 1%nat else S (int_size (S n) (v / 256))).
    rewrite IH by (apply (proj1 (fits_S (S n) v ltac:(lia)) H)). done.
Qed.
Lemma int_size_full n : forall v, ~ fits (S n) v -> int_size (S n) v = S (S n).
Proof.
  induction n as [|n IH]; intros v H.
  - cbn [int_size]. destruct ((-128 <=? v) && (v <? 128)) eqn:E; [|done]. by apply small_spec in E.
  - change (int_size (S (S n)) v) with (if (-128 <=? v) && (v <? 128) then 1%nat else S (int_size (S n) (v / 256))).
    destruct ((-128 <=? v) && (v <? 128)) eqn:E; [apply small_spec, (fits_mono (S n)) in E; done|].
    rewrite IH; [done|]. rewrite <- fits_S by lia. done.
Qed.
Lemma int_size_bounds n v : fits (S n) v -> (1 <= int_size n v <= S n)%nat /\ fits (int_size n v) v.
Proof.
  revert v. induction n as [|n IH]; intros v H; [split; [cbn; lia|done]|]. cbn [int_size].
  destruct ((-128 <=? v) && (v <? 128)) eqn:E; [apply small_spec in E; split; [lia|done]|].
  apply fits_S in H; [|lia]. apply IH in H as [HB HF]. split; [lia|]. apply fits_S; [lia|done].
Qed.

Lemma le_put_snoc n : forall v, le_put (S n) v = le_put n v ++ [(v / 256 ^ Z.of_nat n) mod 256].
Proof.
  induction n as [|n IH]; intros v; [cbn; by rewrite Z.div_1_r|].
  change (le_put (S (S n)) v) with (v mod 256 :: le_put (S n) (v / 256)). rewrite IH. cbn [le_put app]. do 3 f_equal.
  rewrite pow256_S, Z.div_div by (try lia; apply pow256_pos). done.
Qed.
Lemma le_put_u64 v : le_put 8 (u64 v) = le_put 8 v.
Proof. by apply (le_put_mod 8 v 8). Qed.

Lemma byte_high_all : all_upto 256 (fun b => Bool.eqb (Z.land b 128 =? 0) (b <? 128) && Bool.eqb (Z.land b 128 =? 128) (negb (b <? 128))) = true.
Proof. vm_compute. reflexivity. Qed.
Lemma byte_high b : 0 <= b < 256 -> (Z.land b 128 =? 0) = (b <? 128) /\ (Z.land b 128 =? 128) = negb (b <? 128).
Proof.
  intros Hb. pose proof (all_upto_spec _ _ byte_high_all b Hb) as E. cbv beta in E. apply andb_prop in E as [E1 E2].
  apply eqb_prop in E1, E2. done.
Qed.

(** Whether the first of two leading bytes only repeats the sign. *)
Lemma sign_bytes q : -32768 <= q < 32768 ->
  let b0 := (q / 256) mod 256 in let b1 := q mod 256 in
  ((b0 =? 0) && (Z.land b1 128 =? 0) || (b0 =? 255) && (Z.land b1 128 =? 128)) = (-128 <=? q) && (q <? 128).
Proof.
  intros Hq b0 b1. destruct (byte_high b1 ltac:(subst b1; mlia)) as [-> ->]. subst b0 b1.
  apply Bool.eq_iff_eq_true. rewrite orb_true_iff, !andb_true_iff, negb_true_iff, Z.leb_le, !Z.ltb_lt, !Z.eqb_eq, Z.ltb_ge. mlia.
Qed.

Lemma drop_sign_bytes_spec n : forall v, fits (S n) v -> drop_sign_bytes n (rev (le_put (S n) v)) = rev (le_put (int_size n v) v).
Proof.
  induction n as [|n IH]; intros v H; [done|].
  pose proof (le_put_snoc (S n) v) as E1. pose proof (le_put_snoc n v) as E2. rewrite E1, rev_app_distr, E2, rev_app_distr. cbn [rev app].
  set (q := v / 256 ^ Z.of_nat n). assert (-32768 <= q < 32768 /\ (fits (S n) v <-> -128 <= q < 128)) as [Hq HF].
  { unfold fits in *. rewrite !half_S, ?pow256_S in *. pose proof (pow256_pos n) as HP. subst q.
    split; [|]; Z.to_euclidean_division_equations; nia. }
  assert (v / 256 ^ Z.of_nat (S n) = q / 256) as -> by (subst q; rewrite pow256_S, Z.mul_comm, Z.div_div by (try lia; apply pow256_pos); done).
  pose proof (sign_bytes q Hq) as HS. cbv zeta in HS.
  assert (rev (le_put (S n) v) = q mod 256 :: rev (le_put n v)) as ER by (rewrite E2, rev_app_distr; done).
  cbn [drop_sign_bytes]. destruct ((-128 <=? q) && (q <? 128)) eqn:E.
  - assert (fits (S n) v) as HV by (apply HF; bool_prop; lia). rewrite int_size_fits by done. rewrite <- (IH v HV), ER.
    destruct ((q / 256) mod 256 =? 0), (Z.land (q mod 256) 128 =? 0), ((q / 256) mod 256 =? 255), (Z.land (q mod 256) 128 =? 128); cbn in HS |- *; done.
  - assert (~ fits (S n) v) as HV by (rewrite HF; intros ?; apply andb_false_iff in E; destruct E; bool_prop; lia). rewrite int_size_full by done.
    rewrite E1, rev_app_distr, ER. cbn [rev app]. replace (v / 256 ^ Z.of_nat (S n)) with (q / 256) by (subst q; rewrite pow256_S, Z.mul_comm, Z.div_div by (try lia; apply pow256_pos); done).
    destruct ((q / 256) mod 256 =? 0), (Z.land (q mod 256) 128 =? 0), ((q / 256) mod 256 =? 255), (Z.land (q mod 256) 128 =? 128); cbn in HS |- *; done.
Qed.

Lemma fits_8 v : -9223372036854775808 <= v < 9223372036854775808 <-> fits 8 v.
Proof. unfold fits. change (256 ^ Z.of_nat 8 / 2) with 9223372036854775808. done. Qed.

Lemma PutInteger_bytes v : fits 8 v -> drop_sign_bytes 7 (BigEndian_Write64 (u64 v)) = der_integer v.
Proof. intros H. unfold BigEndian_Write64, der_integer. rewrite le_put_u64. by apply drop_sign_bytes_spec. Qed.

Lemma s64_id x : fits 8 x -> s64 x = x.
Proof. rewrite <- fits_8. mlia. Qed.
Lemma fits_8_div v : fits 8 v -> fits 8 (v / 256).
Proof. rewrite <- !fits_8. mlia. Qed.

Lemma GetInteger_fold k : forall v, fits 8 v ->
  fold_left (fun val b => s64 (Z.lor (Z.shiftl val 8) b)) (rev (le_put k v)) (v / 256 ^ Z.of_nat k) = v.
Proof.
  induction k as [|k IH]; intros v H; [cbn; by rewrite Z.div_1_r|].
  cbn [le_put rev]. rewrite fold_left_app. cbn [fold_left].
  replace (v / 256 ^ Z.of_nat (S k)) with (v / 256 / 256 ^ Z.of_nat k) by (rewrite pow256_S, Z.div_div by (try lia; apply pow256_pos); done).
  rewrite IH by (by apply fits_8_div). rewrite shiftl_mul, (lor_add_disjoint _ _ 8) by mlia.
  rewrite s64_id; [change (2 ^ 8) with 256; mlia|]. replace (v / 256 * 2 ^ 8 + v mod 256) with v by (change (2 ^ 8) with 256; mlia). done.
Qed.

Lemma der_integer_length v : fits 8 v -> (1 <= length (der_integer v) <= 8)%nat.
Proof. intros H. unfold der_integer. rewrite length_rev, le_put_length. apply (int_size_bounds 7). done. Qed.

Lemma GetInteger_value v : fits 8 v ->
  fold_left (fun val b => s64 (Z.lor (Z.shiftl val 8) b)) (der_integer v) (if Z.land (arr (der_integer v) 0) 128 =? 0 then 0 else -1) = v.
Proof.
  intros H. destruct (int_size_bounds 7 v H) as [HB HF]. unfold der_integer. set (k := int_size 7 v) in *.
  rewrite <- (GetInteger_fold k v H) at 3. f_equal. destruct k as [|k]; [lia|]. rewrite le_put_snoc, rev_app_distr. cbn [rev app].
  unfold arr. change (Z.to_nat 0) with 0%nat. cbn [nth]. set (q := v / 256 ^ Z.of_nat k).
  assert (-128 <= q < 128 /\ v / 256 ^ Z.of_nat (S k) = q / 256) as [Hq ->].
  { split; [|subst q; rewrite pow256_S, Z.mul_comm, Z.div_div by (try lia; apply pow256_pos); done].
    unfold fits in HF. rewrite half_S in HF. pose proof (pow256_pos k) as HP. subst q.
    Z.to_euclidean_division_equations; nia. }
  destruct (byte_high (q mod 256) ltac:(mlia)) as [-> _]. destruct (q mod 256 <? 128) eqn:E; bool_prop; mlia.
Qed.

(** ** Bit strings *)

Lemma reverse_all : all_upto 256 (fun b => (ReverseBits b =? reversed_byte b) && (ReverseBits (reversed_byte b) =? b) && byte_ok (reversed_byte b)) = true.
Proof. vm_compute. reflexivity. Qed.
Lemma reverse_byte b : 0 <= b < 256 -> ReverseBits b = reversed_byte b /\ ReverseBits (reversed_byte b) = b /\ is_byte (reversed_byte b).
Proof.
  intros Hb. pose proof (all_upto_spec _ _ reverse_all b Hb) as E. cbv beta in E. bool_prop. unfold byte_ok in *. bool_prop.
  repeat split; try done; lia.
Qed.
Lemma highest_all : all_upto 256 (fun b => (b =? 0) || (u8 (7 - HighestBit b) =? 7 - Z.log2 b)) = true.
Proof. vm_compute. reflexivity. Qed.
Lemma highest_byte b : 0 < b < 256 -> u8 (7 - HighestBit b) = 7 - Z.log2 b /\ 0 <= Z.log2 b < 8.
Proof.
  intros Hb. pose proof (all_upto_spec _ _ highest_all b ltac:(lia)) as E. cbv beta in E.
  apply orb_prop in E as [E|E]; bool_prop; [lia|]. split; [done|]. split; [apply Z.log2_nonneg|]. apply Z.log2_lt_pow2; lia.
Qed.

Lemma log2_bytes k v : 0 <= k -> 0 < v / 256 ^ k -> Z.log2 v = 8 * k + Z.log2 (v / 256 ^ k).
Proof.
  intros Hk Hv. replace (256 ^ k) with (2 ^ (8 * k)) in * by (rewrite Z.pow_mul_r by lia; done).
  rewrite <- Z.shiftr_div_pow2 in * by lia. rewrite Z.log2_shiftr; [|destruct (Z.le_gt_cases v 0); [|done]].
  - assert (8 * k <= Z.log2 v); [|lia]. destruct (Z.le_gt_cases (8 * k) (Z.log2 v)); [done|].
    rewrite Z.shiftr_eq_0 in Hv; lia || (try lia).
    destruct (Z.le_gt_cases 0 v); [done|]. exfalso. assert (Z.shiftr v (8 * k) < 0) by (by apply Z.shiftr_neg). lia.
  - exfalso. rewrite Z.shiftr_div_pow2 in Hv by lia. assert (v / 2 ^ (8 * k) <= 0); [|lia].
    apply Z.div_le_upper_bound; [apply Z.pow_pos_nonneg; lia|]. lia.
Qed.

(** The value in [k] bytes of which the last is not zero. *)
Lemma der_bits_bytes k v : (0 < k)%nat -> 0 < v / 256 ^ Z.of_nat (k - 1) < 256 ->
  der_bits v = u8 (7 - HighestBit (v / 256 ^ Z.of_nat (k - 1))) :: map ReverseBits (le_put k v).
Proof.
  intros Hk Hv. set (t := v / 256 ^ Z.of_nat (k - 1)) in *. destruct (highest_byte t Hv) as [-> Ht].
  assert (v <> 0) as Hz by (intros ->; subst t; rewrite Z.div_0_l in Hv by (pose proof (pow256_pos (k - 1)); lia); lia).
  unfold der_bits. rewrite (proj2 (Z.eqb_neq v 0) Hz). pose proof (log2_bytes (Z.of_nat (k - 1)) v ltac:(lia) ltac:(fold t; lia)) as HL. fold t in HL.
  rewrite HL. replace ((8 * Z.of_nat (k - 1) + Z.log2 t) mod 8) with (Z.log2 t) by mlia.
  replace (Z.to_nat ((8 * Z.of_nat (k - 1) + Z.log2 t) / 8 + 1)) with k by mlia. f_equal.
  apply map_ext_in. intros b Hb. pose proof (le_put_bytes k v) as HB. rewrite List.Forall_forall in HB. symmetry. exact (proj1 (reverse_byte b (HB b Hb))).
Qed.

Lemma PutBitString_value v : 0 <= v < 4294967296 -> bit_string_bytes v = der_bits v /\ bit_string_len v = Z.of_nat (length (der_bits v)).
Proof.
  intros Hv. destruct (Z.eq_dec v 0) as [->|Hz]; [done|].
  assert (exists k, (0 < k)%nat /\ 0 < v / 256 ^ Z.of_nat (k - 1) < 256 /\ bit_string_len v = Z.of_nat k + 1 /\
    bit_string_bytes v = u8 (7 - HighestBit (v / 256 ^ Z.of_nat (k - 1))) :: map ReverseBits (le_put k v)) as (k & Hk & Ht & HL & HB).
  { unfold bit_string_bytes, bit_string_len. rewrite (proj2 (Z.eqb_neq v 0) Hz). change (Z.shiftl 1 24) with 16777216.
    destruct (v <? 256) eqn:E1; [exists 1%nat|destruct (v <? 65536) eqn:E2; [exists 2%nat|destruct (v <? 16777216) eqn:E3; [exists 3%nat|exists 4%nat]]];
      bool_prop; cbn -[ReverseBits HighestBit Z.div Z.pow u8]; rewrite ?shiftr_div by lia; rewrite ?Z.div_1_r.
    all: change (256 ^ 0) with 1; change (256 ^ 1) with 256; change (256 ^ 2) with 65536; change (256 ^ 3) with 16777216; change (2 ^ 8) with 256.
    all: rewrite ?Z.div_1_r, ?Z.div_div by lia; cbn [Z.mul Pos.mul].
    all: split; [lia|]; split; [Z.to_euclidean_division_equations; lia|]; split; [lia|]; reflexivity. }
  rewrite (der_bits_bytes k v Hk Ht). split; [done|]. rewrite HL. cbn [length]. rewrite length_map, le_put_length. lia.
Qed.

Lemma bits_loop_spec k : forall w s acc, 0 <= s -> 0 <= acc < 2 ^ s -> s + 8 * Z.of_nat k <= 32 ->
  bits_loop (map reversed_byte (le_put k w)) s acc = acc + (w mod 256 ^ Z.of_nat k) * 2 ^ s.
Proof.
  induction k as [|k IH]; intros w s acc Hs Ha Hk; [cbn; rewrite Z.mod_1_r; lia|]. cbn [le_put map bits_loop].
  destruct (reverse_byte (w mod 256) ltac:(mlia)) as (_ & -> & _). rewrite shiftl_mul by lia.
  assert (2 ^ (s + 8) = 256 * 2 ^ s) as HP by (rewrite Z.pow_add_r by lia; change (2 ^ 8) with 256; lia).
  assert (2 ^ (s + 8) <= 4294967296) as HM by (change 4294967296 with (2 ^ 32); apply Z.pow_le_mono_r; lia).
  pose proof (Z.mod_pos_bound w 256 ltac:(lia)) as Hb. assert (0 < 2 ^ s) by (apply Z.pow_pos_nonneg; lia).
  rewrite u32_id by nia. rewrite Z.lor_comm, lor_add_disjoint by lia. rewrite IH by nia.
  rewrite pow256_S, Z.rem_mul_r by (try lia; apply pow256_pos). rewrite HP. lia.
Qed.

Lemma GetBitString_value v : 0 < v < 4294967296 ->
  bits_loop (drop 1 (drop 1 (der_bits v))) 8 (ReverseBits (arr (drop 1 (der_bits v)) 0)) = v /\ (2 <= length (der_bits v) <= 5)%nat.
Proof.
  intros Hv. unfold der_bits. rewrite (proj2 (Z.eqb_neq v 0)) by lia. set (k := Z.to_nat (Z.log2 v / 8 + 1)).
  pose proof (Z.log2_nonneg v) as HL0. assert (Z.log2 v < 32) as HL1 by (apply Z.log2_lt_pow2; lia).
  assert (1 <= Z.of_nat k <= 4) as Hk by (unfold k; mlia). cbn [drop length]. rewrite length_map, le_put_length. split; [|lia].
  assert (v < 256 ^ Z.of_nat k) as HB.
  { replace (256 ^ Z.of_nat k) with (2 ^ (8 * Z.of_nat k)) by (rewrite Z.pow_mul_r by lia; done). apply Z.log2_lt_pow2; [lia|]. unfold k. mlia. }
  destruct k as [|k]; [lia|]. cbn [le_put map drop]. unfold arr. change (Z.to_nat 0) with 0%nat. cbn [nth]. change (drop 0 (map reversed_byte (le_put k (v / 256)))) with (map reversed_byte (le_put k (v / 256))).
  destruct (reverse_byte (v mod 256) ltac:(mlia)) as (_ & -> & _). rewrite bits_loop_spec by (try lia; change (2 ^ 8) with 256; mlia).
  rewrite pow256_S in HB. change (2 ^ 8) with 256. rewrite (Z.mod_small (v / 256)) by (split; [apply Z.div_pos; lia|apply Z.div_lt_upper_bound; lia]).
  pose proof (Z.div_mod v 256 ltac:(lia)). lia.
Qed.

(** ** Times *)

Definition time_ok (t : ASN1UniversalTime) : Prop := item_ok (ATime t) = true.
Lemma time_ok_spec t : time_ok t -> 1950 <= at_Year t < 10000 /\ (0 <= at_Month t < 100) /\ (0 <= at_Day t < 100) /\
  (0 <= at_Hour t < 100) /\ (0 <= at_Minute t < 100) /\ (0 <= at_Second t < 100).
Proof. unfold time_ok. cbn [item_ok]. unfold digits2. intros H. bool_prop. lia. Qed.

Lemma itoa2_two x : 0 <= x < 100 -> itoa2 x = [48 + x / 10; 48 + x mod 10].
Proof. intros. unfold itoa2. by replace ((x / 10) mod 10) with (x / 10) by mlia. Qed.
Lemma itoa2_year x : itoa2 x = [48 + x mod 100 / 10; 48 + (x mod 100) mod 10].
Proof. unfold itoa2. replace ((x / 10) mod 10) with (x mod 100 / 10) by mlia. by replace (x mod 10) with ((x mod 100) mod 10) by mlia. Qed.

Lemma PutTime_bytes t : time_ok t ->
  (if 2050 <=? at_Year t then (kASN1UniversalTag_GeneralizedTime, time_digits t) else (kASN1UniversalTag_UTCTime, drop 2 (time_digits t))) = der_time t.
Proof.
  intros (HY & HM & HD & HH & HMi & HS)%time_ok_spec. unfold time_digits, der_time.
  rewrite (itoa2_two (at_Year t / 100)) by mlia. rewrite (itoa2_year (at_Year t)), !itoa2_two by lia. done.
Qed.

Lemma isdigit_two x : 0 <= x < 100 -> isdigit (48 + x / 10) = true /\ isdigit (48 + x mod 10) = true.
Proof. intros. unfold isdigit. rewrite !andb_true_iff, !Z.leb_le. mlia. Qed.
Lemma two_digits_at l i x : 0 <= x < 100 -> arr l i = 48 + x / 10 -> arr l (i + 1) = 48 + x mod 10 -> two_digits l i = x.
Proof. unfold two_digits. intros Hx -> ->. mlia. Qed.

Lemma der_time_read t : time_ok t ->
  let '(tag, bytes) := der_time t in
  let n := if tag =? kASN1UniversalTag_UTCTime then 12 else 14 in
  Z.of_nat (length bytes) = n + 1 /\ arr bytes n = 90 /\ forallb isdigit (take (Z.to_nat n) bytes) = true /\ is_bytes bytes /\
  (if tag =? kASN1UniversalTag_UTCTime
   then mkASN1Time (if 50 <=? two_digits bytes 0 then two_digits bytes 0 + 1900 else two_digits bytes 0 + 2000)
          (two_digits bytes 2) (two_digits bytes 4) (two_digits bytes 6) (two_digits bytes 8) (two_digits bytes 10)
   else mkASN1Time ((arr bytes 0 - 48) * 1000 + (arr bytes 1 - 48) * 100 + (arr bytes 2 - 48) * 10 + (arr bytes 3 - 48))
          (two_digits bytes 4) (two_digits bytes 6) (two_digits bytes 8) (two_digits bytes 10) (two_digits bytes 12)) = t.
Proof.
  intros (HY & HM & HD & HH & HMi & HS)%time_ok_spec. unfold der_time. destruct t as [Y Mo D H Mi S]. cbn [at_Year at_Month at_Day at_Hour at_Minute at_Second] in *.
  destruct (isdigit_two Mo HM) as [DM1 DM2], (isdigit_two D HD) as [DD1 DD2], (isdigit_two H HH) as [DH1 DH2], (isdigit_two Mi HMi) as [DI1 DI2], (isdigit_two S HS) as [DS1 DS2].
  destruct (isdigit_two (Y mod 100) ltac:(mlia)) as [DY1 DY2], (isdigit_two (Y / 100) ltac:(mlia)) as [DC1 DC2].
  assert (forall x, isdigit (48 + x / 10) = true -> isdigit (48 + x mod 10) = true -> is_byte (48 + x / 10) /\ is_byte (48 + x mod 10)) as HB.
  { unfold isdigit, is_byte. intros x H1 H2. bool_prop. lia. }
  assert (is_byte 90) as H90 by (unfold is_byte; lia).
  destruct (2050 <=? Y) eqn:E; bool_prop.
  - change (kASN1UniversalTag_GeneralizedTime =? kASN1UniversalTag_UTCTime) with false. cbv iota zeta. cbn [app].
    split; [done|]. split; [done|]. split; [change (Z.to_nat 14) with 14%nat; cbn [take forallb]; by rewrite DC1, DC2, DY1, DY2, DM1, DM2, DD1, DD2, DH1, DH2, DI1, DI2, DS1, DS2|].
    split; [repeat (constructor; [first [done | by (eapply HB; eassumption)]|]); constructor|].
    rewrite (two_digits_at _ 4 Mo), (two_digits_at _ 6 D), (two_digits_at _ 8 H), (two_digits_at _ 10 Mi), (two_digits_at _ 12 S) by (done || lia).
    f_equal. unfold arr. change (Z.to_nat 0) with 0%nat. change (Z.to_nat 1) with 1%nat. change (Z.to_nat 2) with 2%nat. change (Z.to_nat 3) with 3%nat.
    cbn [nth]. mlia.
  - change (kASN1UniversalTag_UTCTime =? kASN1UniversalTag_UTCTime) with true. cbv iota zeta. cbn [app].
    split; [done|]. split; [done|]. split; [change (Z.to_nat 12) with 12%nat; cbn [take forallb]; by rewrite DY1, DY2, DM1, DM2, DD1, DD2, DH1, DH2, DI1, DI2, DS1, DS2|].
    split; [repeat (constructor; [first [done | by (eapply HB; eassumption)]|]); constructor|].
    rewrite (two_digits_at _ 0 (Y mod 100)), (two_digits_at _ 2 Mo), (two_digits_at _ 4 D), (two_digits_at _ 6 H), (two_digits_at _ 8 Mi), (two_digits_at _ 10 S) by (done || lia || mlia).
    f_equal. destruct (50 <=? Y mod 100) eqn:E2; bool_prop; mlia.
Qed.
