(* ===== verification/ASN1Doc.v ===== *)
(** * The buffer of the ASN.1 writer

    What the writer's buffer holds: text, and between it length fields of five bytes
    of which a closed one uses its first bytes only.  The operations add to such a
    document; Finalize leaves its text and the used bytes. *)
From S2P Require Import Prelude Encoding PacketBuffer TLVReader ASN1OID ASN1Writer ASN1Reader ASN1Tree.
Local Open Scope Z_scope.
Local Open Scope weave_scope.

Abbreviation len l := (Z.of_nat (length l)).

(** Appends grouped to the right, with conses in front. *)
Ltac app_norm := repeat first [progress cbn [app] | rewrite <- app_assoc].

(** ** Documents *)

Record field := mkField { f_bytes : list Z; f_pad : list Z }.
Inductive doc := Text (s : list Z) | Then (s : list Z) (f : field) (d : doc).

Definition f_raw (f : field) : list Z := f_bytes f ++ f_pad f.
Fixpoint raw (d : doc) : list Z := match d with Text s => s | Then s f d => s ++ f_raw f ++ raw d end.
Fixpoint compact (d : doc) : list Z := match d with Text s => s | Then s f d => s ++ f_bytes f ++ compact d end.
Fixpoint dapp (d e : doc) : doc :=
  match d with
  | Then s f d => Then s f (dapp d e)
  | Text s => match e with Text t => Text (s ++ t) | Then t f e => Then (s ++ t) f e end
  end.
Fixpoint fields (d : doc) : Z := match d with Text _ => 0 | Then _ _ d => 1 + fields d end.
(** Where the length fields are. *)
Fixpoint offs (pos : Z) (d : doc) : list Z :=
  match d with Text _ => [] | Then s _ d => pos + len s :: offs (pos + len s + 5) d end.

Definition field_ok (f : field) : Prop := length (f_raw f) = 5%nat /\ f_bytes f <> [].
(** A finished length, short enough for Finalize to have a byte to drop. *)
Definition field_closed (f : field) : Prop := exists n, f_bytes f = der_length n /\ 0 <= n < 16777216.
Fixpoint doc_all (P : field -> Prop) (d : doc) : Prop := match d with Text _ => True | Then _ f d => P f /\ doc_all P d end.
Abbreviation shaped := (doc_all field_ok).
Abbreviation closed := (doc_all field_closed).

Lemma raw_dapp d e : raw (dapp d e) = raw d ++ raw e.
Proof. induction d as [s|s f d IH]; cbn [raw dapp]; [|by rewrite IH, !app_assoc]. destruct e; cbn [raw]; by rewrite ?app_assoc. Qed.
Lemma compact_dapp d e : compact (dapp d e) = compact d ++ compact e.
Proof. induction d as [s|s f d IH]; cbn [compact dapp]; [|by rewrite IH, !app_assoc]. destruct e; cbn [compact]; by rewrite ?app_assoc. Qed.
Lemma fields_dapp d e : fields (dapp d e) = fields d + fields e.
Proof. induction d as [s|s f d IH]; cbn [fields dapp]; [by destruct e|]. lia. Qed.
Lemma doc_all_dapp P d e : doc_all P (dapp d e) <-> doc_all P d /\ doc_all P e.
Proof. induction d as [s|s f d IH]; cbn [doc_all dapp]; [destruct e; cbn [doc_all]; tauto|]. rewrite IH. tauto. Qed.
Lemma dapp_assoc a b c : dapp (dapp a b) c = dapp a (dapp b c).
Proof.
  induction a as [s|s f d IH]; cbn [dapp]; [|by rewrite IH].
  destruct b as [t|t g b]; cbn [dapp]; [|done]. destruct c; cbn [dapp]; by rewrite app_assoc.
Qed.
Lemma dapp_nil d : dapp d (Text []) = d.
Proof. induction d as [s|s f d IH]; cbn [dapp]; [by rewrite app_nil_r|by rewrite IH]. Qed.
Lemma fields_nonneg d : 0 <= fields d.
Proof. induction d; cbn [fields]; lia. Qed.

Lemma offs_dapp d e : shaped d -> forall pos, offs pos (dapp d e) = offs pos d ++ offs (pos + len (raw d)) e.
Proof.
  induction d as [s|s f d IH]; cbn [doc_all dapp]; intros HS pos.
  - destruct e as [t|t g e]; cbn [offs raw]; [done|]. rewrite length_app, app_nil_l. f_equal; [lia|]. f_equal. lia.
  - cbn [offs raw]. destruct HS as [[HF _] HS]. rewrite IH by done. cbn [app]. do 3 f_equal. rewrite !length_app, HF. lia.
Qed.
Lemma offs_length d : forall pos, len (offs pos d) = fields d.
Proof. induction d as [s|s f d IH]; intros pos; cbn [offs fields length]; [done|]. rewrite Nat2Z.inj_succ, IH. lia. Qed.

(** ** Length fields *)

Lemma encode_length_loop_spec k : forall n acc, encode_length_loop k n acc = rev (le_put k n) ++ acc.
Proof.
  induction k as [|k IH]; intros n acc; [done|]. cbn [encode_length_loop le_put rev]. rewrite IH, shiftr_div by lia.
  change (2 ^ 8) with 256. by rewrite <- app_assoc.
Qed.
Lemma EncodeLength_der n : 0 <= n < 2147483648 -> EncodeLength (GetLengthOfLength n) n = der_length n.
Proof.
  intros Hn. unfold GetLengthOfLength, der_length, EncodeLength, kUnkownLength, kLengthFieldReserveSize. change (Z.shiftl 1 24) with 16777216.
  destruct (n =? -1) eqn:E; bool_prop; [lia|].
  destruct (n <? 128) eqn:E1; bool_prop; [by rewrite u8_id by lia|].
  destruct (n <? 256) eqn:E2; [|destruct (n <? 65536) eqn:E3; [|destruct (n <? 16777216) eqn:E4]]; cbn -[Z.of_nat le_put];
    rewrite encode_length_loop_spec, app_nil_r; done.
Qed.
Lemma der_length_length n : 0 <= n < 2147483648 -> len (der_length n) = GetLengthOfLength n.
Proof.
  intros Hn. unfold GetLengthOfLength, der_length, kUnkownLength, kLengthFieldReserveSize. change (Z.shiftl 1 24) with 16777216.
  destruct (n =? -1) eqn:E; bool_prop; [lia|].
  destruct (n <? 128) eqn:E1; bool_prop; [done|].
  destruct (n <? 256) eqn:E2; [|destruct (n <? 65536) eqn:E3; [|destruct (n <? 16777216) eqn:E4]]; cbn [length]; rewrite length_rev, le_put_length; done.
Qed.
Lemma lol_range n : 1 <= GetLengthOfLength n <= 5.
Proof. unfold GetLengthOfLength, kLengthFieldReserveSize. repeat case_match; lia. Qed.

(** The first byte of a closed field gives its size, and is not the mark of an open one. *)
Lemma der_length_first n : 0 <= n < 2147483648 ->
  exists b rest, der_length n = b :: rest /\ b <> kUnknownLengthMarker /\ length_field_size b = len (der_length n).
Proof.
  intros Hn. unfold der_length, length_field_size, kUnknownLengthMarker.
  destruct (n <? 128) eqn:E1; bool_prop.
  - exists n, []. split; [done|]. split; [lia|]. apply Z.ltb_lt in E1. rewrite E1. done.
  - destruct (n <? 256) eqn:E2; [|destruct (n <? 65536) eqn:E3; [|destruct (n <? 16777216) eqn:E4]];
      (eexists _, _; split; [reflexivity|]; split; [done|]; cbn [length]; rewrite length_rev, le_put_length; done).
Qed.

(** ** What the writer's state holds *)

(** A length field that is open. *)
Definition open_field (pad : list Z) : field := mkField [kUnknownLengthMarker] pad.
(** The end of EncodeHead when the length is unknown. *)
Definition close_head (ptr : Z) : M ASN1Writer unit :=
  do* poke ptr [kUnknownLengthMarker] in
  modify (fun w => set_aw_deferred (Some (mWritePoint w) :: drop 1 (mDeferredLengthList w)) w).

Section Doc.
Context (ptr e : Z) (ptr_pos : 0 <= ptr).

(** [pend] is the entry that EncodeHead has made room for but not written yet. *)
Record holds (pend : list (option Z)) (d : doc) (w : ASN1Writer) : Prop := {
  h_mem : exists rest, aw_mem w = raw d ++ rest;
  h_point : mWritePoint w = len (raw d);
  h_list : mDeferredLengthList w = pend ++ map Some (rev (offs 0 d));
  h_end : aw_bufEnd w = e;
  h_size : e <= len (aw_mem w) < 4294967296;
  h_shaped : shaped d }.

Lemma holds_start pend d w : holds pend d w -> deferred_start ptr w = e - ptr * (fields d + len pend).
Proof. intros []. unfold deferred_start. rewrite h_list0, h_end0, length_app, length_map, length_rev, Nat2Z.inj_add, offs_length. lia. Qed.

Lemma block_write_app a b c l : length l = length b -> block_write (len a) l (a ++ b ++ c) = a ++ l ++ c.
Proof.
  intros HL. unfold block_write. rewrite Nat2Z.id, take_app_length. do 2 f_equal.
  rewrite app_assoc. apply drop_app_exact. rewrite length_app. lia.
Qed.
Lemma block_read_app a b c : block_read (len a) (len b) (a ++ b ++ c) = b.
Proof. unfold block_read. by rewrite !Nat2Z.id, drop_app_length, take_app_length. Qed.

Lemma split_rest (rest : list Z) n : n <= len rest -> 0 <= n -> exists a b, rest = a ++ b /\ len a = n.
Proof. intros. exists (take (Z.to_nat n) rest), (drop (Z.to_nat n) rest). rewrite take_drop, length_take. split; [done|lia]. Qed.

Lemma poke_holds pend d w bs : holds pend d w -> len (raw d) + len bs + ptr * (fields d + len pend) <= e ->
  exists w', poke ptr bs w = (Ok tt, w') /\ holds pend d w' /\ exists rest, aw_mem w' = raw d ++ bs ++ rest.
Proof.
  intros H HR. pose proof (holds_start _ _ _ H) as HS. destruct H as [[rest HM] HP HL HE HZ HSh].
  assert (0 <= ptr * (fields d + len pend)) by (pose proof (fields_nonneg d); nia).
  destruct (split_rest rest (len bs)) as (a & b & -> & Ha); [rewrite HM, length_app in HZ; lia|lia|].
  unfold poke, store. rewrite HP, HS.
  assert ((0 <=? len (raw d)) && (len (raw d) + len bs <=? e - ptr * (fields d + len pend)) = true) as -> by (apply andb_true_intro; split; apply Z.leb_le; lia).
  eexists. split; [reflexivity|]. rewrite HM, block_write_app by lia. split; [split; cbn; eauto|cbn; eauto].
  rewrite HM in HZ. rewrite !length_app in HZ |- *. lia.
Qed.

Lemma put_bytes_holds pend d w bs : holds pend d w -> len (raw d) + len bs + ptr * (fields d + len pend) <= e ->
  exists w', put_bytes ptr bs w = (Ok tt, w') /\ holds pend (dapp d (Text bs)) w'.
Proof.
  intros H HR. destruct (poke_holds _ _ _ _ H HR) as (w1 & E1 & [_ HP HL HE HZ HSh] & rest & HM).
  unfold put_bytes. rewrite (bind_ok _ _ _ _ _ E1). eexists. split; [reflexivity|]. split; cbn; [|rewrite raw_dapp, length_app; cbn [raw]; lia| |done|done|].
  - exists rest. by rewrite raw_dapp, HM, <- app_assoc.
  - rewrite offs_dapp by done. cbn [offs]. by rewrite app_nil_r.
  - rewrite doc_all_dapp. done.
Qed.

(** ** Heads *)

Lemma tag_lor_all : forallb (fun cls => forallb (fun c : bool => all_upto 31 (fun tag => u8 (Z.lor (Z.lor cls (if c then 32 else 0)) tag) =? tag_byte cls tag c)) [true; false]) [0; 64; 128; 192] = true.
Proof. vm_compute. reflexivity. Qed.
Lemma tag_lor cls tag c : class_ok cls = true -> 0 <= tag < 31 -> u8 (Z.lor (Z.lor cls (if c : bool then 32 else 0)) tag) = tag_byte cls tag c.
Proof.
  intros HC HT. pose proof tag_lor_all as HA. rewrite forallb_forall in HA.
  assert (In cls [0; 64; 128; 192]) as HI.
  { unfold class_ok in HC. repeat rewrite orb_true_iff in HC. destruct HC as [[[HC|HC]|HC]|HC]; apply Z.eqb_eq in HC; subst; simpl; auto. }
  apply HA in HI. rewrite forallb_forall in HI. specialize (HI c). cbv beta in HI.
  pose proof (all_upto_spec _ _ (HI ltac:(destruct c; simpl; auto)) tag HT) as E. by apply Z.eqb_eq in E.
Qed.

Lemma EncodeHead_known cls tag c n d w : class_ok cls = true -> 0 <= tag < 31 -> 0 <= n <= 65531 -> holds [] d w ->
  let head := tag_byte cls tag c :: der_length n in
  (len (raw d) + len head + n + ptr * fields d <= e ->
     exists w', EncodeHead ptr cls tag c n w = (Ok tt, w') /\ holds [] (dapp d (Text head)) w') /\
  (e < len (raw d) + len head + n + ptr * fields d -> EncodeHead ptr cls tag c n w = (Err ASN1_ERROR_OVERFLOW, w)).
Proof.
  intros HC HT Hn H head. pose proof (holds_start _ _ _ H) as HS. pose proof (h_point _ _ _ H) as HP. cbn [length] in HS. rewrite Z.add_0_r in HS.
  pose proof (der_length_length n ltac:(lia)) as HD. pose proof (lol_range n) as HLR.
  assert (len head = 1 + GetLengthOfLength n) as HH by (subst head; cbn [length]; lia).
  assert (n <= 65535 - 1 - GetLengthOfLength n) as Hfit.
  { unfold GetLengthOfLength, kUnkownLength, kLengthFieldReserveSize in *. change (Z.shiftl 1 24) with 16777216 in *. repeat case_match; bool_prop; lia. }
  assert ((n =? kUnkownLength) = false) as HU by (unfold kUnkownLength; lia).
  assert (EncodeHead ptr cls tag c n w = (do* verify (len (raw d) + (1 + GetLengthOfLength n + n) <=? e - ptr * fields d) ASN1_ERROR_OVERFLOW in
    do* put_bytes ptr [tag_byte cls tag c] in do* poke ptr (der_length n) in advance_point (GetLengthOfLength n)) w) as E.
  { unfold EncodeHead. destruct (31 <=? tag) eqn:E31; [apply Z.leb_le in E31; lia|]. rewrite HU. unfold bind at 1. cbn [modify].
    rewrite u16_id by lia. unfold bind at 1. cbn [gets]. rewrite HP, HS, tag_lor, EncodeLength_der by (done || lia). done. }
  rewrite E. split; intros HR.
  - assert ((len (raw d) + (1 + GetLengthOfLength n + n) <=? e - ptr * fields d) = true) as -> by (apply Z.leb_le; lia).
    cbn [verify bind ret]. destruct (put_bytes_holds [] d w [tag_byte cls tag c] H ltac:(cbn [length]; lia)) as (w1 & E1 & H1).
    rewrite (bind_ok _ _ _ _ _ E1).
    assert ((do* poke ptr (der_length n) in advance_point (GetLengthOfLength n)) = put_bytes ptr (der_length n)) as -> by (unfold put_bytes; by rewrite HD).
    destruct (put_bytes_holds [] _ w1 (der_length n) H1) as (w2 & E2 & H2).
    { rewrite raw_dapp, length_app, fields_dapp. cbn [raw length fields]. lia. }
    exists w2. split; [done|]. rewrite dapp_assoc in H2. exact H2.
  - assert ((len (raw d) + (1 + GetLengthOfLength n + n) <=? e - ptr * fields d) = false) as -> by (apply Z.leb_gt; lia). done.
Qed.
Lemma EncodeHead_unknown cls tag c d w : class_ok cls = true -> 0 <= tag < 31 -> holds [] d w ->
  (len (raw d) + 6 + ptr * (fields d + 1) <= e ->
     exists pad w', EncodeHead ptr cls tag c kUnkownLength w = (Ok tt, w') /\
       holds [] (dapp d (Then [tag_byte cls tag c] (open_field pad) (Text []))) w') /\
  (e < len (raw d) + 6 + ptr * (fields d + 1) -> exists w', EncodeHead ptr cls tag c kUnkownLength w = (Err ASN1_ERROR_OVERFLOW, w')).
Proof.
  intros HC HT H. assert (holds [None] d (set_aw_deferred (None :: mDeferredLengthList w) w)) as H0.
  { destruct H as [HM HP HL HE HZ HSh]. split; cbn; try done. by rewrite HL. }
  pose proof (holds_start _ _ _ H0) as HS. change (len [None]) with 1 in HS. pose proof (h_point _ _ _ H0) as HP.
  assert (EncodeHead ptr cls tag c kUnkownLength w = (do* verify (len (raw d) + 6 <=? e - ptr * (fields d + 1)) ASN1_ERROR_OVERFLOW in
    do* put_bytes ptr [tag_byte cls tag c] in do* close_head ptr in advance_point 5) (set_aw_deferred (None :: mDeferredLengthList w) w)) as E.
  { unfold EncodeHead, close_head. destruct (31 <=? tag) eqn:E31; [apply Z.leb_le in E31; lia|]. rewrite tag_lor by done.
    unfold bind at 1, modify at 1. change (kUnkownLength =? kUnkownLength) with true. cbv iota. unfold bind at 1, gets at 1. by rewrite HS, HP. }
  rewrite E. split; intros HR.
  - assert ((len (raw d) + 6 <=? e - ptr * (fields d + 1)) = true) as -> by (apply Z.leb_le; lia). cbn [verify]. rewrite bind_ret.
    destruct (put_bytes_holds [None] d _ [tag_byte cls tag c] H0) as (w1 & E1 & H1); [cbn [length]; lia|].
    rewrite (bind_ok _ _ _ _ _ E1). set (d1 := dapp d (Text [tag_byte cls tag c])) in *.
    assert (len (raw d1) = len (raw d) + 1 /\ fields d1 = fields d) as [HL1 HF1].
    { unfold d1. rewrite raw_dapp, length_app, fields_dapp. cbn [raw length fields]. lia. }
    destruct (poke_holds [None] d1 w1 [kUnknownLengthMarker] H1) as (w2 & E2 & H2 & rest & HM2); [cbn [length]; lia|].
    destruct (split_rest rest 4) as (pad & rest' & -> & Hpad); [|lia|].
    { pose proof (h_size _ _ _ H2) as HZ. rewrite HM2, !length_app in HZ. cbn [length] in HZ. pose proof (fields_nonneg d). nia. }
    exists pad. unfold close_head. rewrite (bind_ok _ _ _ _ _ (bind_ok _ _ _ _ _ E2)). eexists. split; [reflexivity|].
    assert (dapp d (Then [tag_byte cls tag c] (open_field pad) (Text [])) = dapp d1 (Then [] (open_field pad) (Text []))) as ->
      by (unfold d1; by rewrite dapp_assoc).
    destruct H2 as [_ HP2 HL2 HE2 HZ2 HS2]. split; cbn.
    + exists rest'. rewrite HM2, raw_dapp. cbn [raw open_field f_raw f_bytes f_pad app]. by rewrite <- !app_assoc, app_nil_r.
    + rewrite HP2, raw_dapp, length_app. cbn [raw f_raw open_field f_bytes f_pad app length]. rewrite length_app. cbn [length]. lia.
    + rewrite HL2, HP2, offs_dapp, rev_app_distr by done. cbn. by rewrite Z.add_0_r.
    + done.
    + done.
    + rewrite doc_all_dapp. repeat split; [done| |done]. cbn [f_raw open_field f_bytes f_pad app length]. lia.
  - assert ((len (raw d) + 6 <=? e - ptr * (fields d + 1)) = false) as -> by (apply Z.leb_gt; lia). cbn. eauto.
Qed.

(** ** Closing a container *)

Lemma load_app a b rest w : aw_mem w = a ++ b :: rest -> load (len a) w = (Ok b, w).
Proof.
  intros HM. unfold load. rewrite HM, length_app. cbn [length].
  assert ((0 <=? len a) && (len a <? Z.of_nat (length a + S (length rest))) = true) as -> by (apply andb_true_intro; split; [apply Z.leb_le|apply Z.ltb_lt]; lia).
  unfold arr. rewrite Nat2Z.id, app_nth2 by lia. by rewrite Nat.sub_diag.
Qed.

Lemma u32_wrap a b : u32 (a + u32 b) = u32 (a + b).
Proof. mlia. Qed.

(** Over closed fields the scan only adds up what they leave unused. *)
Lemma scan_closed b : closed b -> shaped b -> forall pre post rest adj w, aw_mem w = pre ++ raw b ++ post ->
  exists adj', deferred_scan ptr (map Some (rev (offs (len pre) b)) ++ rest) adj w = deferred_scan ptr rest adj' w /\
    u32 adj' = u32 (adj + (len (raw b) - len (compact b))).
Proof.
  induction b as [s|s f b IH]; cbn [doc_all offs raw compact]; intros HC HS pre post rest adj w HM.
  - exists adj. split; [done|]. f_equal. lia.
  - destruct HC as [(n & HF & Hn) HC], HS as [[HF5 _] HS]. cbn [rev]. rewrite map_app, <- app_assoc.
    destruct (IH HC HS (pre ++ s ++ f_raw f) post (map Some [len pre + len s] ++ rest) adj w) as (adj1 & E1 & HA1).
    { rewrite HM, <- !app_assoc. done. }
    rewrite !length_app, HF5 in E1. replace (Z.of_nat (length pre + (length s + 5))) with (len pre + len s + 5) in E1 by lia. rewrite E1.
    destruct (der_length_first n ltac:(lia)) as (b0 & bs & HD & HB & HLF). cbn [map app deferred_scan entry].
    rewrite bind_ret. rewrite <- Nat2Z.inj_add, <- length_app.
    rewrite (bind_ok _ _ _ b0 w) by (eapply load_app; rewrite HM; unfold f_raw; rewrite HF, HD, <- !app_assoc; reflexivity).
    assert ((b0 =? kUnknownLengthMarker) = false) as -> by (by apply Z.eqb_neq). eexists. split; [reflexivity|].
    rewrite HLF, <- HF, !length_app, HF5. unfold kLengthFieldReserveSize. unfold u32 in *. rewrite !Nat2Z.inj_add. clear -HA1. Z.to_euclidean_division_equations; lia.
Qed.

Lemma WriteDeferredLength_holds d s pad b w : holds [] (dapp d (Then s (open_field pad) b)) w -> closed b -> len (compact b) < 2147483648 ->
  len (raw (dapp d (Then s (open_field pad) b))) + ptr * fields (dapp d (Then s (open_field pad) b)) <= e ->
  exists f w', WriteDeferredLength ptr w = (Ok tt, w') /\ holds [] (dapp d (Then s f b)) w' /\
    f_bytes f = der_length (len (compact b)) /\ length (f_raw f) = 5%nat.
Proof.
  intros H HC Hn HR. pose proof (holds_start _ _ _ H) as HS. destruct H as [[rest HM] HP HL HE HZ HSh].
  rewrite doc_all_dapp in HSh. destruct HSh as [HSd [[HF5 _] HSb]]. set (n := len (compact b)) in *.
  rewrite offs_dapp in HL by done. cbn [offs] in HL. rewrite rev_app_distr in HL. cbn [rev app] in HL. rewrite !map_app, <- app_assoc, Z.add_0_l in HL.
  rewrite raw_dapp in HM. cbn [raw] in HM. cbn [f_raw open_field f_bytes f_pad app length] in HF5, HM.
  destruct (scan_closed b HC HSb (raw d ++ s ++ kUnknownLengthMarker :: pad) rest (map Some [len (raw d) + len s] ++ map Some (rev (offs 0 d))) 5 w) as (adj & E & HA).
  { rewrite HM. app_norm. done. }
  unfold WriteDeferredLength, kLengthFieldReserveSize. rewrite HL. cbn [map app] in E |- *.
  rewrite !length_app in E. cbn [length] in E. replace (Z.of_nat (length (raw d) + (length s + S (length pad)))) with (len (raw d) + len s + 5) in E by lia.
  rewrite E. cbn [deferred_scan entry]. rewrite bind_ret, <- Nat2Z.inj_add, <- length_app.
  rewrite (bind_ok _ _ _ kUnknownLengthMarker w) by (eapply load_app; rewrite HM; app_norm; reflexivity).
  rewrite Z.eqb_refl, (bind_ok (gets mWritePoint) _ w (mWritePoint w) w eq_refl), HP, raw_dapp. cbn [raw]. rewrite !length_app. cbn [open_field f_raw f_bytes f_pad app length].
  assert (u32 (Z.of_nat (length (raw d) + (length s + (S (length pad) + length (raw b)))) - Z.of_nat (length (raw d) + length s) - adj) = n) as ->.
  { assert (len pad = 4) by lia. clear -HA H Hn. subst n. mlia. }
  unfold kMaxElementLength. assert ((n <=? 2147483647) = true) as -> by (apply Z.leb_le; lia). cbn [verify]. rewrite bind_ret, EncodeLength_der by lia.
  pose proof (der_length_length n ltac:(lia)) as HDL. pose proof (lol_range n) as HLR.
  destruct (split_rest (kUnknownLengthMarker :: pad) (len (der_length n))) as (x & y & Exy & Hx); [cbn [length]; lia|lia|].
  assert (length x + length y = 5)%nat as Hxy by (rewrite <- length_app, <- Exy; cbn [length]; lia).
  exists (mkField (der_length n) y). unfold store. rewrite HS.
  rewrite raw_dapp, fields_dapp in *. cbn [raw fields open_field f_raw f_bytes f_pad length] in *. rewrite !length_app in HR. cbn [length app] in HR.
  change (Z.of_nat 0) with 0. rewrite Z.add_0_r.
  assert ((0 <=? Z.of_nat (length (raw d) + length s)) && (Z.of_nat (length (raw d) + length s) + len (der_length n) <=? e - ptr * (fields d + (1 + fields b))) = true) as ->.
  { apply andb_true_intro; split; apply Z.leb_le; [lia|]. change (length (f_raw (open_field pad))) with (S (length pad)) in HR. lia. }
  eexists. split; [reflexivity|]. rewrite <- length_app.
  assert (block_write (len (raw d ++ s)) (der_length n) (aw_mem w) = (raw d ++ s) ++ der_length n ++ y ++ raw b ++ rest) as ->.
  { rewrite HM. rewrite <- (block_write_app (raw d ++ s) x (y ++ raw b ++ rest) (der_length n)) by lia. f_equal. app_norm. do 2 f_equal.
    change (kUnknownLengthMarker :: pad ++ raw b ++ rest) with ((kUnknownLengthMarker :: pad) ++ raw b ++ rest). by rewrite Exy, <- app_assoc. }
  assert (length (f_raw (mkField (der_length n) y)) = 5%nat) as HF5'. { unfold f_raw. cbn [f_bytes f_pad]. rewrite length_app. lia. }
  split; [|done]. split; cbn.
  - exists rest. rewrite raw_dapp. cbn [raw]. unfold f_raw. cbn [f_bytes f_pad]. by rewrite <- !app_assoc.
  - rewrite HP, raw_dapp, !length_app. cbn [raw]. rewrite !length_app, HF5'. change (f_raw (open_field pad)) with (kUnknownLengthMarker :: pad). cbn [length]. lia.
  - rewrite HL, offs_dapp by done. cbn [offs]. rewrite rev_app_distr. cbn [rev]. rewrite !map_app, <- app_assoc. done.
  - done.
  - rewrite HM, !length_app in HZ. cbn [length] in HZ. rewrite !length_app in HZ. rewrite !length_app. lia.
  - rewrite doc_all_dapp. repeat split; [done|done| |done]. intros HN. cbn in HN. rewrite HN in HDL. cbn in HDL. lia.
Qed.

(** ** Operations that write a code

    [writes m size count code]: where there is room for [size] bytes and [count]
    entries of the list, [m] adds closed text that comes to [code]; where there is
    not, it fails with OVERFLOW. *)
Definition need (d : doc) (size count : Z) : Z := len (raw d) + size + ptr * (fields d + count).
Definition writes (m : M ASN1Writer unit) (size count : Z) (code : list Z) : Prop := forall d w, holds [] d w -> need d 0 0 <= e ->
  (need d size count <= e -> exists b w', m w = (Ok tt, w') /\ holds [] (dapp d b) w' /\ closed b /\ compact b = code /\
     len (raw b) = size /\ fields b = count) /\
  (e < need d size count -> exists w', m w = (Err ASN1_ERROR_OVERFLOW, w')).

Lemma writes_ret : writes (ret tt) 0 0 [].
Proof.
  intros d w H HR. split; [|lia]. intros _. exists (Text []), w. rewrite dapp_nil. done.
Qed.

Lemma writes_bind m1 m2 s1 c1 k1 s2 c2 k2 : writes m1 s1 c1 k1 -> writes m2 s2 c2 k2 -> 0 <= s2 -> 0 <= c2 ->
  writes (do* m1 in m2) (s1 + s2) (c1 + c2) (k1 ++ k2).
Proof.
  intros H1 H2 Hs Hc d w H HR. destruct (H1 d w H HR) as [Ho1 He1]. unfold need in *.
  destruct (Z.le_gt_cases (len (raw d) + s1 + ptr * (fields d + c1)) e) as [Hle|Hgt].
  - destruct (Ho1 Hle) as (b1 & w1 & E1 & Hh1 & HC1 & HK1 & HS1 & HF1).
    destruct (H2 _ _ Hh1) as [Ho2 He2]; [unfold need; rewrite raw_dapp, length_app, fields_dapp, !Z.add_0_r, HF1; lia|].
    unfold need in Ho2, He2. rewrite raw_dapp, length_app, fields_dapp, HF1 in Ho2, He2. split; intros HN.
    + destruct Ho2 as (b2 & w2 & E2 & Hh2 & HC2 & HK2 & HS2 & HF2); [lia|]. exists (dapp b1 b2), w2.
      rewrite (bind_ok _ _ _ _ _ E1), <- dapp_assoc, doc_all_dapp, compact_dapp, raw_dapp, length_app, fields_dapp, HK1, HK2.
      do 4 (split; [done|]). lia.
    + destruct He2 as (w2 & E2); [lia|]. exists w2. by rewrite (bind_ok _ _ _ _ _ E1).
  - destruct (He1 Hgt) as (w1 & E1). split; [intros HN; exfalso; nia|]. intros _. exists w1. by rewrite (bind_err _ _ _ _ _ E1).
Qed.

(** A value that is not made of others. *)
Lemma writes_PutValue cls tag val : class_ok cls = true -> 0 <= tag < 31 -> len val <= 65531 ->
  writes (PutValue ptr cls tag false val) (len (tlv cls tag false val)) 0 (tlv cls tag false val).
Proof.
  intros HC HT HV d w H HR. destruct (EncodeHead_known cls tag false (len val) d w HC HT ltac:(lia) H) as [Ho He].
  unfold need, tlv in *. cbn [length] in *. rewrite length_app. rewrite Z.add_0_r. split; intros HN.
  - destruct Ho as (w1 & E1 & H1); [lia|]. destruct (put_bytes_holds [] _ w1 val H1) as (w2 & E2 & H2).
    { rewrite raw_dapp, length_app, fields_dapp. cbn [raw length fields]. lia. }
    exists (Text (tag_byte cls tag false :: der_length (len val) ++ val)), w2. rewrite PutValue_short, (bind_ok _ _ _ _ _ E1) by lia. rewrite dapp_assoc in H2.
    do 4 (split; [done|]). cbn [raw length fields]. rewrite length_app. done.
  - rewrite PutValue_short, (bind_err _ _ _ _ _ (He ltac:(lia))) by lia. eauto.
Qed.

(** A container: the code of its contents after the tag and their length. *)
Lemma writes_container cls tag c m size count code : class_ok cls = true -> 0 <= tag < 31 -> 0 <= size -> 0 <= count ->
  len code < 16777216 -> writes m size count code ->
  writes (do* EncodeHead ptr cls tag c kUnkownLength in do* m in WriteDeferredLength ptr) (6 + size) (1 + count) (tlv cls tag c code).
Proof.
  intros HC HT Hs Hc HK Hm d w H HR. destruct (EncodeHead_unknown cls tag c d w HC HT H) as [Ho He]. unfold need in *.
  destruct (Z.le_gt_cases (len (raw d) + 6 + ptr * (fields d + 1)) e) as [Hle|Hgt].
  - destruct (Ho Hle) as (pad & w1 & E1 & H1). rewrite (bind_ok _ _ _ _ _ E1). pose proof (h_shaped _ _ _ H1) as HS1. rewrite doc_all_dapp in HS1.
    destruct HS1 as [_ [[H5 _] _]]. set (d1 := dapp d (Then [tag_byte cls tag c] (open_field pad) (Text []))) in *.
    assert (len (raw d1) = len (raw d) + 6 /\ fields d1 = fields d + 1) as [HL1 HF1].
    { unfold d1. rewrite raw_dapp, length_app, fields_dapp. cbn [raw fields]. rewrite !length_app, H5. cbn [length]. lia. }
    destruct (Hm d1 w1 H1) as [Ho2 He2]; [unfold need; rewrite HL1, HF1, !Z.add_0_r; lia|].
    unfold need in Ho2, He2. rewrite HL1, HF1 in Ho2, He2. split; intros HN.
    + destruct Ho2 as (b & w2 & E2 & H2 & HCb & HKb & HSb & HFb); [lia|]. rewrite (bind_ok _ _ _ _ _ E2).
      assert (dapp d1 b = dapp d (Then [tag_byte cls tag c] (open_field pad) b)) as Ed by (unfold d1; rewrite dapp_assoc; cbn [dapp]; by destruct b).
      rewrite Ed in H2.
      assert (len (raw (dapp d (Then [tag_byte cls tag c] (open_field pad) b))) + ptr * fields (dapp d (Then [tag_byte cls tag c] (open_field pad) b)) <= e) as HR2.
      { rewrite raw_dapp, length_app, fields_dapp. cbn [raw fields]. rewrite !length_app, H5, HFb. cbn [length]. lia. }
      destruct (WriteDeferredLength_holds _ _ _ _ _ H2 HCb ltac:(rewrite HKb; lia) HR2) as (f & w3 & E3 & H3 & HF3 & H53).
      rewrite HKb in HF3. exists (Then [tag_byte cls tag c] f b), w3. split; [done|]. split; [done|]. split; [|split; [|split]].
      * split; [|done]. exists (len code). split; [done|lia].
      * cbn [compact]. rewrite HF3, HKb. done.
      * cbn [raw]. rewrite !length_app, H53. cbn [length]. lia.
      * cbn [fields]. lia.
    + destruct He2 as (w2 & E2); [lia|]. exists w2. by rewrite (bind_err _ _ _ _ _ E2).
  - destruct (He Hgt) as (w1 & E1). split; [intros HN; exfalso; nia|]. intros _. exists w1. by rewrite (bind_err _ _ _ _ _ E1).
Qed.

(** The count of unused bits of an encapsulating bit string. *)
Definition put_bit_count (bits : bool) : M ASN1Writer unit :=
  if bits then
    let* full := gets (fun w => mWritePoint w =? deferred_start ptr w) in
    do* verify (negb full) ASN1_ERROR_OVERFLOW in
    put_bytes ptr [0]
  else ret tt.
Lemma writes_bit_count (bits : bool) : writes (put_bit_count bits) (if bits then 1 else 0) 0 (if bits then [0] else []).
Proof.
  destruct bits; [|apply writes_ret]. intros d w H HR. pose proof (holds_start _ _ _ H) as HS. unfold need in *. cbn [length] in HS.
  unfold put_bit_count. rewrite (bind_ok (gets _) _ w (len (raw d) =? e - ptr * (fields d + Z.of_nat 0)) w) by (unfold gets; by rewrite (h_point _ _ _ H), HS).
  rewrite !Z.add_0_r in *. split; intros HN.
  - assert ((len (raw d) =? e - ptr * fields d) = false) as -> by (apply Z.eqb_neq; lia). cbn [negb verify]. rewrite bind_ret.
    destruct (put_bytes_holds [] d w [0] H) as (w1 & E1 & H1); [cbn [length]; lia|]. exists (Text [0]), w1. done.
  - assert ((len (raw d) =? e - ptr * fields d) = true) as -> by (apply Z.eqb_eq; lia). exists w. done.
Qed.
End Doc.
