(* ===== verification/ASN1Write.v ===== *)
(** * The ASN.1 writer produces the encoding

    Finalize removes what the length fields leave unused, and the Put operations and
    containers write the encoding of the value they are given. *)
From S2P Require Import Prelude Encoding PacketBuffer TLVReader ASN1OID ASN1Writer ASN1Reader ASN1Tree ASN1Leaf ASN1Doc.
Local Open Scope Z_scope.
Local Open Scope weave_scope.

(** ** Finalize *)

Definition with_mem (w : ASN1Writer) (mem : list Z) : ASN1Writer := set_aw_mem mem w.

(** Moving a span down over what is dropped before it. *)
Lemma memmove_down above junk span post w : aw_mem w = above ++ junk ++ span ++ post ->
  exists junk', memmove (len above) (len above + len junk) (len span) w = (Ok tt, with_mem w (above ++ span ++ junk' ++ post)) /\ length junk' = length junk.
Proof.
  intros HM. exists (drop (length span) (junk ++ span)). split; [|rewrite length_drop, length_app; lia].
  unfold memmove, with_mem. rewrite HM, !length_app.
  rewrite (proj2 (Z.leb_le 0 (len above))), (proj2 (Z.leb_le 0 (len above + len junk))) by lia.
  rewrite (proj2 (Z.leb_le (len above + len span) _)), (proj2 (Z.leb_le (len above + len junk + len span) _)) by lia. cbn [andb].
  do 3 f_equal. rewrite <- Nat2Z.inj_add, <- length_app.
  replace (above ++ junk ++ span ++ post) with ((above ++ junk) ++ span ++ post) by (by rewrite <- app_assoc). rewrite block_read_app.
  rewrite <- app_assoc.
  assert (junk ++ span ++ post = take (length span) (junk ++ span) ++ drop (length span) (junk ++ span) ++ post) as ->
    by (rewrite app_assoc, <- (take_drop (length span) (junk ++ span)) at 1; by rewrite <- app_assoc).
  apply block_write_app. rewrite length_take, length_app. lia.
Qed.

(** One turn of the loop of Finalize, with [k] for the rest. *)
Lemma move_span {A} above junk span post w (k : Z -> M ASN1Writer A) : aw_mem w = above ++ junk ++ span ++ post -> len (aw_mem w) < 4294967296 ->
  exists junk', length junk' = length junk /\
    (let spanEnd := len above + len junk + len span in
     if len above + len junk =? len above then k spanEnd
     else let spanLen := u32 (spanEnd - (len above + len junk)) in
          do* memmove (len above) (len above + len junk) spanLen in k (len above + spanLen)) w =
    k (len (above ++ span)) (with_mem w (above ++ span ++ junk' ++ post)).
Proof.
  intros HM HL. cbv zeta. destruct (Z.eq_dec (len junk) 0) as [Hz|Hz].
  - destruct junk; [|cbn in Hz; lia]. exists []. split; [done|]. cbn [app] in *. unfold with_mem. rewrite <- HM.
    cbn [length]. rewrite Z.add_0_r, Z.eqb_refl, length_app, Nat2Z.inj_add. by destruct w.
  - rewrite (proj2 (Z.eqb_neq _ _)) by lia. destruct (memmove_down _ _ _ _ _ HM) as (junk' & E & HJ). exists junk'. split; [done|].
    rewrite HM, !length_app in HL. replace (u32 _) with (len span) by (rewrite u32_id by lia; lia).
    rewrite (bind_ok _ _ _ _ _ E), length_app, Nat2Z.inj_add. done.
Qed.

(** What the loop of Finalize has done: the text and lengths up to the last field
    are together, what was dropped follows, and then the text after it. *)
Lemma finalize_spans_spec d : closed d -> shaped d -> forall above junk post w, aw_mem w = above ++ junk ++ raw d ++ post ->
  len (aw_mem w) < 4294967296 ->
  exists above' junk' tail,
    finalize_spans (map Some (offs (len above + len junk) d)) (len above) (len above + len junk) w =
      (Ok (len above', len above' + len junk'), with_mem w (above' ++ junk' ++ tail ++ post)) /\
    above' ++ tail = above ++ compact d /\ length (above' ++ junk' ++ tail) = length (above ++ junk ++ raw d) /\
    (0 < len junk' <-> 0 < len junk + fields d) /\ (fields d = 0 -> above' = above).
Proof.
  induction d as [s|s f d IH]; cbn [doc_all offs raw compact fields]; intros HC HS above junk post w HM HL.
  - exists above, junk, s. cbn [map finalize_spans]. split; [|split; [done|split; [done|split; [lia|done]]]].
    unfold ret, with_mem. rewrite <- HM. by destruct w.
  - destruct HC as [(n & HF & Hn) HC], HS as [[HF5 _] HS]. destruct (der_length_first n ltac:(lia)) as (b0 & bs & HD & HB & HLF).
    pose proof (der_length_length n ltac:(lia)) as HDL. rewrite <- HF in HLF, HDL, HD.
    assert (GetLengthOfLength n <= 4) as HG by (unfold GetLengthOfLength, kUnkownLength; change (Z.shiftl 1 24) with 16777216; repeat case_match; bool_prop; lia).
    assert (len (f_bytes f) + len (f_pad f) = 5) as HPad by (unfold f_raw in HF5; rewrite length_app in HF5; lia).
    cbn [map finalize_spans entry]. rewrite bind_ret.
    rewrite (bind_ok _ _ _ b0 w).
    2:{ replace (len above + len junk + len s) with (len (above ++ junk ++ s)) by (rewrite !length_app; lia).
        apply load_app with (rest := bs ++ f_pad f ++ raw d ++ post). rewrite HM. unfold f_raw. rewrite HD. app_norm. done. }
    rewrite (proj2 (Z.eqb_neq b0 kUnknownLengthMarker) HB), HLF. set (span := s ++ f_bytes f).
    assert (len span = len s + len (f_bytes f)) as HSp by (unfold span; rewrite length_app; lia).
    assert (aw_mem w = above ++ junk ++ span ++ f_pad f ++ raw d ++ post) as HM' by (rewrite HM; unfold span, f_raw; by app_norm).
    destruct (move_span above junk span (f_pad f ++ raw d ++ post) w
      (fun cp => finalize_spans (map Some (offs (len above + len junk + len s + 5) d)) cp (len above + len junk + len s + kLengthFieldReserveSize)) HM' HL) as (junk1 & HJ1 & E).
    cbv zeta in E. rewrite HSp, Z.add_assoc in E. rewrite E. unfold kLengthFieldReserveSize. clear E.
    assert (len above + len junk + len s + 5 = len (above ++ span) + len (junk1 ++ f_pad f)) as -> by (rewrite !length_app, HJ1; lia).
    edestruct (IH HC HS (above ++ span) (junk1 ++ f_pad f) post) as (above' & junk' & tail & E & HT & HN & HP & _); [..|exists above', junk', tail; rewrite E].
    + cbn. by app_norm.
    + cbn. rewrite HM', !length_app in HL. rewrite !length_app, HJ1. lia.
    + split; [done|]. split; [rewrite HT; unfold span; by app_norm|].
      split; [rewrite HN; unfold span, f_raw; rewrite !length_app, HJ1; lia|]. rewrite length_app in HP. pose proof (fields_nonneg d). split; lia.
Qed.

Lemma Finalize_ok ptr e d w : 0 <= ptr -> holds e [] d w -> closed d ->
  exists w', ASN1_Finalize w = (Ok tt, w') /\
    take (Z.to_nat (mWritePoint w')) (aw_mem w') = (if 0 <? fields d then compact d else []) /\
    mWritePoint w' = (if 0 <? fields d then len (compact d) else 0).
Proof.
  intros Hptr [[post HM] HP HLi HE [_ HL] HS] HC. rewrite app_nil_l in HLi.
  destruct (finalize_spans_spec d HC HS [] [] post w HM HL) as (above & junk & tail & E & HT & HN & HJ & HA). cbn [app length] in *.
  change (Z.of_nat 0 + Z.of_nat 0) with 0 in E. change (Z.of_nat 0) with 0 in E, HJ.
  unfold ASN1_Finalize. rewrite HLi, <- map_rev, rev_involutive, (bind_ok _ _ _ _ _ E).
  assert (len above + len junk + len tail = len (raw d)) as HSum by (rewrite !length_app in HN; lia).
  destruct (0 <? fields d) eqn:EF; bool_prop.
  - rewrite (proj2 (Z.ltb_lt (len above) _)) by lia.
    rewrite (bind_ok (gets mWritePoint) _ _ (len (raw d)) (with_mem w (above ++ junk ++ tail ++ post))) by (unfold gets; cbn; by rewrite HP).
    assert (u32 (len (raw d) - (len above + len junk)) = len tail) as ->.
    { rewrite HM, length_app in HL. rewrite u32_id by lia. lia. }
    destruct (memmove_down above junk tail post (with_mem w (above ++ junk ++ tail ++ post)) eq_refl) as (junk' & E2 & _).
    rewrite (bind_ok _ _ _ _ _ E2). eexists. split; [reflexivity|]. cbn. rewrite <- Nat2Z.inj_add, <- length_app, Nat2Z.id.
    split; [|by rewrite HT]. rewrite app_assoc, take_app_length. done.
  - assert (junk = []) as -> by (destruct junk; [done|cbn in HJ; lia]). rewrite (proj2 (Z.ltb_ge (len above) _)) by (cbn; lia).
    rewrite (HA ltac:(pose proof (fields_nonneg d); lia)). eexists. split; [reflexivity|]. done.
Qed.

(** ** Values *)

Lemma bind_assoc {S A B C} (m : M S A) (f : A -> M S B) (g : B -> M S C) s : bind (bind m f) g s = bind m (fun x => bind (f x) g) s.
Proof. unfold bind. by destruct (m s) as [[] ?]. Qed.

Lemma bind_ext {S A B} (m : M S A) (f g : A -> M S B) s : (forall x s', f x s' = g x s') -> bind m f s = bind m g s.
Proof. intros E. unfold bind. by destruct (m s) as [[] ?]. Qed.

Lemma tag_ok_spec cls tag : tag_ok cls tag = true -> class_ok cls = true /\ 0 <= tag < 31 /\ ~ (cls = 0 /\ tag = 0).
Proof. unfold tag_ok. intros H. bool_prop. apply andb_false_iff in H0. split; [done|]. split; [lia|]. intros [-> ->]. by destruct H0. Qed.

Lemma tlv_length cls tag c val : len val < len (tlv cls tag c val).
Proof. unfold tlv. cbn [length]. rewrite length_app. lia. Qed.

(** The class and tag of a universal type are in order. *)
Ltac universal := split; [done|]; split; [split; [done|by vm_compute]|]; split; [by intros [_ ?]|].

(** The contents of a value that is not made of others: short enough for the writer
    and tagged with one byte. *)
Lemma leaf_ok i cls tag val : item_ok i = true -> leaf i = Some (cls, tag, val) ->
  class_ok cls = true /\ 0 <= tag < 31 /\ ~ (cls = 0 /\ tag = 0) /\ len val <= 65531 /\ is_bytes val.
Proof.
  assert (is_byte 0 /\ is_byte 255) as [H0b H255b] by (unfold is_byte; lia).
  destruct i as [v|b|v|t|oid| |cls' tag' val'|cls' tag' l|bits l]; intros HO E; cbn [leaf] in E; try discriminate.
  - injection E as <- <- <-. cbn [item_ok] in HO. apply andb_prop in HO as [H1%Z.leb_le H2%Z.ltb_lt].
    assert (fits 8 v) as HF by (apply (proj1 (fits_8 v)); lia). pose proof (der_integer_length v HF).
    universal. split; [lia|]. unfold der_integer. apply Forall_rev, le_put_bytes.
  - injection E as <- <- <-. universal. split; [done|]. destruct b; by repeat constructor.
  - injection E as <- <- <-. cbn [item_ok] in HO. apply andb_prop in HO as [H1%Z.leb_le H2%Z.ltb_lt].
    destruct (PutBitString_value v ltac:(lia)) as [HB _].
    universal. split; [destruct (Z.eq_dec v 0) as [->|Hz]; [done|]; destruct (GetBitString_value v ltac:(lia)); lia|].
    unfold der_bits. destruct (v =? 0); [by repeat constructor|]. constructor; [unfold is_byte; mlia|]. apply List.Forall_map.
    eapply List.Forall_impl; [|apply le_put_bytes]. intros b Hb. by apply reverse_byte.
  - injection E as <- <- <-. pose proof (der_time_read t HO) as HR. destruct (der_time t) as [tag bytes] eqn:ET. cbn [fst snd].
    destruct HR as (HL & _ & _ & HB & _). assert (tag = 23 \/ tag = 24) as HT by (unfold der_time in ET; destruct (2050 <=? at_Year t); injection ET as <- _; auto).
    split; [done|]. split; [lia|]. split; [lia|]. split; [|done]. destruct (tag =? kASN1UniversalTag_UTCTime); lia.
  - destruct (GetEncodedObjectID oid) as [enc|] eqn:EO; [|discriminate]. injection E as <- <- <-. destruct (GetEncodedObjectID_spec oid enc EO) as (_ & HB & HL).
    universal. split; [lia|done].
  - injection E as <- <- <-. universal. by split.
  - injection E as <- <- <-. cbn [item_ok] in HO. apply andb_prop in HO as [HO HL%Z.leb_le]. apply andb_prop in HO as [HT HB%byte_ok_spec].
    apply tag_ok_spec in HT as (HC & HT & HN). done.
Qed.

(** The writer's calls for such a value put a head and the contents. *)
Lemma put_leaf ptr i cls tag val w : item_ok i = true -> leaf i = Some (cls, tag, val) -> i <> ANull -> put_item ptr i w = PutValue ptr cls tag false val w.
Proof.
  destruct i as [v|b|v|t|oid| |cls' tag' val'|cls' tag' l|bits l]; intros HO E HN; cbn [leaf] in E; try discriminate; try done.
  - injection E as <- <- <-. cbn [item_ok] in HO. apply andb_prop in HO as [H1%Z.leb_le H2%Z.ltb_lt].
    cbn [put_item]. unfold ASN1_PutInteger. rewrite PutInteger_bytes by (apply (proj1 (fits_8 v)); lia). done.
  - injection E as <- <- <-. done.
  - injection E as <- <- <-. cbn [item_ok] in HO. apply andb_prop in HO as [H1%Z.leb_le H2%Z.ltb_lt].
    destruct (PutBitString_value v ltac:(lia)) as [HB HL]. cbn [put_item]. unfold PutBitString. rewrite PutValue_short by (rewrite <- HL; unfold bit_string_len; repeat case_match; lia). by rewrite HB, HL.
  - injection E as <- <- <-. cbn [put_item]. unfold PutTime. rewrite <- (PutTime_bytes t HO). by destruct (2050 <=? at_Year t).
  - destruct (GetEncodedObjectID oid) as [enc|] eqn:EO; [|discriminate]. injection E as <- <- <-. cbn [put_item]. unfold PutObjectId. by rewrite EO.
  - injection E as <- <- <-. done.
Qed.

Section Items.
Context (ptr e : Z) (ptr_pos : 0 <= ptr).

Lemma writes_ext m m' size count code : (forall w, m w = m' w) -> writes ptr e m' size count code -> writes ptr e m size count code.
Proof. intros E H d w. rewrite E. apply H. Qed.

Lemma writes_null : writes ptr e (ASN1_PutNull ptr) 2 0 (tlv 0 5 false []).
Proof.
  intros d w H HR. destruct (EncodeHead_known ptr e ptr_pos 0 5 false 0 d w eq_refl ltac:(lia) ltac:(lia) H) as [Ho He].
  unfold need in *. change (len (tag_byte 0 5 false :: der_length 0)) with 2 in *. rewrite Z.add_0_r. split; intros HN.
  - destruct Ho as (w1 & E1 & H1); [lia|]. exists (Text [5; 0]), w1. done.
  - exists w. apply He. lia.
Qed.

Definition sized (i : item) : Prop := 0 <= raw_size i /\ 0 <= containers i.
Lemma sizes_nonneg l : Forall sized l -> 0 <= raw_sizes l /\ 0 <= all_containers l.
Proof. unfold raw_sizes, all_containers, sized. induction 1; cbn; lia. Qed.
Lemma item_sized i : sized i.
Proof.
  induction i as [| | | | | | |cls tag l H|bits l H] using item_rect'; try (split; cbn [raw_size containers]; lia);
    apply sizes_nonneg in H; unfold sized, raw_sizes, all_containers in *; cbn [raw_size containers]; destruct_and?; try destruct bits; lia.
Qed.
Lemma all_sized l : 0 <= raw_sizes l /\ 0 <= all_containers l.
Proof. apply sizes_nonneg. apply List.Forall_forall. intros i _. apply item_sized. Qed.

Lemma ders_length i l : In i l -> len (der i) <= len (ders l).
Proof.
  unfold ders. induction l as [|j l IH]; [done|]. cbn [map concat]. rewrite length_app. intros [->|Hi]; [lia|]. specialize (IH Hi). lia.
Qed.

(** The nested lists are the lists. *)
Lemma put_item_constructed cls tag l : put_item ptr (AConstructed cls tag l) =
  (do* StartConstructedType ptr cls tag in do* put_items ptr l in EndConstructedType ptr).
Proof. reflexivity. Qed.
Lemma put_item_encapsulated bits l : put_item ptr (AEncapsulated bits l) =
  (do* StartEncapsulatedType ptr kASN1TagClass_Universal (encapsulating_tag bits) bits in do* put_items ptr l in EndEncapsulatedType ptr).
Proof. reflexivity. Qed.

Definition item_writes (i : item) : Prop := item_ok i = true -> len (der i) < 16777216 -> writes ptr e (put_item ptr i) (raw_size i) (containers i) (der i).

Lemma writes_items l : Forall item_writes l -> forallb item_ok l = true -> len (ders l) < 16777216 ->
  writes ptr e (put_items ptr l) (raw_sizes l) (all_containers l) (ders l).
Proof.
  induction 1 as [|i l Hi Hl IH]; [intros _ _; apply writes_ret|]. cbn [forallb]. intros [HO HOs]%andb_prop.
  change (ders (i :: l)) with (der i ++ ders l). rewrite length_app. intros HL.
  change (raw_sizes (i :: l)) with (raw_size i + raw_sizes l). change (all_containers (i :: l)) with (containers i + all_containers l).
  apply writes_bind; [done|apply Hi; [done|lia]|apply IH; [done|lia]|apply all_sized|apply all_sized].
Qed.

Lemma leaf_writes i cls tag val : item_ok i = true -> leaf i = Some (cls, tag, val) -> i <> ANull -> der i = tlv cls tag false val ->
  raw_size i = len (der i) -> containers i = 0 -> writes ptr e (put_item ptr i) (raw_size i) (containers i) (der i).
Proof.
  intros HO HL HN -> -> ->. destruct (leaf_ok i cls tag val HO HL) as (HC & HT & _ & HV & _).
  eapply writes_ext; [intros w; by eapply put_leaf|]. by apply writes_PutValue.
Qed.

Lemma item_written i : item_writes i.
Proof.
  induction i as [v|b|v|t|oid| |cls tag val|cls tag l H|bits l H] using item_rect'; intros HO HL.
  6: exact writes_null.
  5: { cbn [item_ok] in HO. destruct (GetEncodedObjectID oid) as [enc|] eqn:EO; [|discriminate].
       apply (leaf_writes _ 0 6 enc); try done; cbn [leaf item_ok der]; rewrite EO; done. }
  1-5: by eapply leaf_writes.
  - cbn [item_ok] in HO. apply andb_prop in HO as [HT HO]. apply tag_ok_spec in HT as (HC & HT & _). destruct (all_sized l).
    pose proof (tlv_length cls tag true (ders l)) as HTL. cbn [der] in HL. fold (ders l) in HL.
    rewrite put_item_constructed. apply (writes_container ptr e ptr_pos cls tag true _ (raw_sizes l) (all_containers l) (ders l)); try done; [lia|].
    apply writes_items; [done|done|lia].
  - cbn [item_ok] in HO. destruct (all_sized l). cbn [der] in HL. fold (ders l) in HL.
    pose proof (tlv_length 0 (encapsulating_tag bits) false ((if bits then [0] else []) ++ ders l)) as HTL. rewrite length_app in HTL.
    assert (0 <= encapsulating_tag bits < 31) as HT by (by destruct bits).
    replace (raw_size (AEncapsulated bits l)) with (6 + ((if bits then 1 else 0) + raw_sizes l)) by (cbn [raw_size]; fold (raw_sizes l); lia).
    eapply writes_ext with (m' := do* EncodeHead ptr 0 (encapsulating_tag bits) false kUnkownLength in
      do* (do* put_bit_count ptr bits in put_items ptr l) in WriteDeferredLength ptr).
    { intros w. rewrite put_item_encapsulated. unfold StartEncapsulatedType. rewrite bind_assoc. apply bind_ext. intros _ w'.
      symmetry. apply (bind_assoc (put_bit_count ptr bits)). }
    cbn [containers]. fold (all_containers l).
    apply (writes_container ptr e ptr_pos 0 _ false _ ((if bits then 1 else 0) + raw_sizes l) (all_containers l) ((if bits then [0] else []) ++ ders l)); try done;
      [destruct bits; lia|rewrite length_app; lia|].
    apply (writes_bind ptr e ptr_pos _ _ _ 0 _ _ (all_containers l)); [by apply writes_bit_count| |done|done].
    apply writes_items; [done|done|lia].
Qed.
End Items.
