(* ===== verification/ASN1Read.v ===== *)
(** * The ASN.1 reader reads the encoding

    Next, Enter, Exit and the Get operations at an encoded value, wherever it stands
    in the buffer. *)
From S2P Require Import Prelude Encoding PacketBuffer TLVReader ASN1OID ASN1Writer ASN1Reader ASN1Tree ASN1Leaf ASN1Doc ASN1Write.
Local Open Scope Z_scope.
Local Open Scope weave_scope.

(** The reader is about to read what starts at [pos], in a container that ends at
    [cend]: the current element, if there is one, is done with. *)
Record ready (buf : list Z) (pos cend : Z) (saved : list ASN1ParseContext) (r : ASN1Reader) : Prop := {
  rd_buf : ar_buf r = buf;
  rd_pos : ar_ElemStart r + u32 (ar_HeadLen r + ar_ValueLen r) = pos;
  rd_end : ar_ContainerEnd r = cend;
  rd_saved : ar_SavedContexts r = saved;
  rd_eoc : ar_IsEndOfContents r = false;
  rd_indefinite : ar_IsIndefiniteLen r = false }.

(** The reader after a successful Next. *)
Definition at_element (buf : list Z) (pos cend : Z) (saved : list ASN1ParseContext) (cls tag : Z) (c : bool) (hl vl : Z) : ASN1Reader :=
  mkASN1Reader buf cls tag (Some (pos + hl)) vl c false false pos cend hl saved.

Lemma deref_app a b rest r : ar_buf r = a ++ b :: rest -> deref (len a) r = (Ok b, r).
Proof.
  intros HB. unfold deref, ar_BufEnd. rewrite HB, length_app. cbn [length].
  rewrite (proj2 (Z.leb_le 0 (len a))), (proj2 (Z.ltb_lt (len a) _)) by lia. cbn [andb].
  unfold arr. rewrite Nat2Z.id, app_nth2 by lia. by rewrite Nat.sub_diag.
Qed.
Lemma check_end_app a b rest r : ar_buf r = a ++ b :: rest -> check_end (len a) r = (Ok tt, r).
Proof.
  intros HB. unfold check_end, ar_BufEnd. rewrite HB, length_app. cbn [length]. rewrite (proj2 (Z.leb_gt _ (len a))) by lia. done.
Qed.

Lemma deref_all_app l : forall a rest r, ar_buf r = a ++ l ++ rest -> deref_all (length l) (len a) r = (Ok l, r).
Proof.
  induction l as [|b l IH]; intros a rest r HB; [done|]. cbn [deref_all length].
  rewrite (bind_ok _ _ _ _ _ (deref_app a b (l ++ rest) r HB)).
  replace (len a + 1) with (len (a ++ [b])) by (rewrite length_app; cbn [length]; lia).
  rewrite (bind_ok _ _ _ _ _ (IH (a ++ [b]) rest r ltac:(rewrite HB; by app_norm))). done.
Qed.

(** The loop over the bytes of a long length. *)
Lemma length_loop_spec l : forall a rest r v, ar_buf r = a ++ l ++ rest -> is_bytes l -> ar_ValueLen r = v -> 0 <= v ->
  v * 256 ^ len l + 256 ^ len l <= 4294967296 ->
  length_loop (length l) (len a) r = (Ok (len a + len l), set_ar_len (fold_left (fun x b => x * 256 + b) l v) (ar_IsIndefiniteLen r) r).
Proof.
  induction l as [|b l IH]; intros a rest r v HB Hby HV Hv HM; cbn [length_loop length fold_left].
  - unfold ret. change (Z.of_nat 0) with 0. rewrite Z.add_0_r, <- HV. by destruct r.
  - inversion Hby as [|? ? Hb Hl]; subst. unfold is_byte in Hb. cbn [length] in HM. rewrite pow256_S in HM. pose proof (pow256_pos (length l)) as HP.
    set (v := ar_ValueLen r) in *. assert (v < 16777216) as Hv24 by nia.
    rewrite (bind_ok _ _ _ _ _ (check_end_app a b (l ++ rest) r HB)). rewrite (bind_ok (gets ar_ValueLen) _ _ v r eq_refl).
    assert (Z.land v 0xFF000000 = 0) as ->.
    { replace 0xFF000000 with (255 * 2 ^ 24) by reflexivity. rewrite Z.land_comm. apply land_shifted_low; [lia|]. change (2 ^ 24) with 16777216. lia. }
    cbn [Z.eqb verify]. rewrite bind_ret. rewrite (bind_ok _ _ _ _ _ (deref_app a b (l ++ rest) r HB)).
    rewrite shiftl_mul by lia. change (2 ^ 8) with 256. rewrite u32_id by lia. change 256 with (2 ^ 8) at 1. rewrite lor_add_disjoint by (change (2 ^ 8) with 256; lia).
    change (2 ^ 8) with 256. unfold bind at 1, modify at 1.
    replace (len a + 1) with (len (a ++ [b])) by (rewrite length_app; cbn [length]; lia).
    rewrite (IH (a ++ [b]) rest _ (v * 256 + b)); [|cbn; rewrite HB; by app_norm|done|done|lia|nia].
    cbn. rewrite length_app. cbn [length]. do 2 f_equal. lia.
Qed.

Lemma tag_byte_all : forallb (fun cls => forallb (fun c : bool => all_upto 31 (fun tag => let b := tag_byte cls tag c in
  (Z.land b 31 =? tag) && (Z.land b 192 =? cls) && Bool.eqb (negb (Z.land b 32 =? 0)) c && byte_ok b)) [true; false]) [0; 64; 128; 192] = true.
Proof. vm_compute. reflexivity. Qed.
Lemma tag_byte_parts cls tag c : class_ok cls = true -> 0 <= tag < 31 -> let b := tag_byte cls tag c in
  Z.land b 31 = tag /\ Z.land b 192 = cls /\ negb (Z.land b 32 =? 0) = c /\ is_byte b.
Proof.
  intros HC HT. pose proof tag_byte_all as HA. rewrite forallb_forall in HA.
  assert (In cls [0; 64; 128; 192]) as HI.
  { unfold class_ok in HC. repeat rewrite orb_true_iff in HC. destruct HC as [[[HC|HC]|HC]|HC]; apply Z.eqb_eq in HC; subst; simpl; auto. }
  apply HA in HI. rewrite forallb_forall in HI. specialize (HI c ltac:(destruct c; simpl; auto)). cbv beta in HI.
  pose proof (all_upto_spec _ _ HI tag HT) as E. cbv zeta beta in E. bool_prop. apply eqb_prop in H1. unfold byte_ok in *. bool_prop. repeat split; done || lia.
Qed.

Lemma fold_le_put k : forall n, 0 <= n < 256 ^ Z.of_nat k -> fold_left (fun x b => x * 256 + b) (rev (le_put k n)) 0 = n.
Proof.
  induction k as [|k IH]; intros n Hn; [cbn in Hn |- *; lia|]. cbn [le_put rev]. rewrite fold_left_app. cbn [fold_left].
  rewrite pow256_S in Hn. rewrite IH by (split; [apply Z.div_pos; lia|apply Z.div_lt_upper_bound; lia]). mlia.
Qed.

(** The part of DecodeHead that reads the length. *)
Definition decode_length (p : Z) : M ASN1Reader Z :=
  let* b := deref p in
  if Z.land b 128 =? 0 then do* modify (set_ar_len (Z.land b 127) false) in ret (p + 1)
  else if b =? 128 then do* modify (set_ar_len 0 true) in ret (p + 1)
  else do* modify (fun r => set_ar_len 0 (ar_IsIndefiniteLen r) r) in
       let* p := length_loop (Z.to_nat (Z.land b 127)) (p + 1) in
       do* modify (fun r => set_ar_len (ar_ValueLen r) false r) in ret p.

Lemma small_length_all : all_upto 128 (fun b => (Z.land b 128 =? 0) && (Z.land b 127 =? b)) = true.
Proof. vm_compute. reflexivity. Qed.

Lemma decode_length_spec a n rest r : ar_buf r = a ++ der_length n ++ rest -> 0 <= n < 16777216 -> ar_IsIndefiniteLen r = false ->
  decode_length (len a) r = (Ok (len a + len (der_length n)), set_ar_len n false r).
Proof.
  intros HB Hn HI. unfold decode_length, der_length in *. destruct (n <? 128) eqn:E1; bool_prop.
  - rewrite (bind_ok _ _ _ _ _ (deref_app a n rest r HB)). pose proof (all_upto_spec _ _ small_length_all n ltac:(lia)) as E. cbv beta in E. bool_prop.
    rewrite (proj2 (Z.eqb_eq _ 0) H). unfold bind, modify, ret. rewrite H0. done.
  - set (k := if n <? 256 then 1%nat else if n <? 65536 then 2%nat else if n <? 16777216 then 3%nat else 4%nat) in *.
    assert ((1 <= k <= 3)%nat /\ n < 256 ^ Z.of_nat k) as [Hk Hnk].
    { unfold k. destruct (n <? 256) eqn:E2; [|destruct (n <? 65536) eqn:E3; [|destruct (n <? 16777216) eqn:E4]]; bool_prop; split; lia. }
    rewrite (bind_ok _ _ _ _ _ (deref_app a (128 + Z.of_nat k) (rev (le_put k n) ++ rest) r HB)).
    assert (Z.land (128 + Z.of_nat k) 128 = 128 /\ Z.land (128 + Z.of_nat k) 127 = Z.of_nat k) as [-> ->]
      by (destruct k as [|[|[|[|]]]]; try lia; done).
    rewrite (proj2 (Z.eqb_neq (128 + Z.of_nat k) 128)) by lia. change (128 =? 0) with false. cbv iota.
    unfold bind at 1, modify at 1. rewrite Nat2Z.id.
    replace (len a + 1) with (len (a ++ [128 + Z.of_nat k])) by (rewrite length_app; cbn [length]; lia).
    replace k with (length (rev (le_put k n))) at 1 by (by rewrite length_rev, le_put_length).
    rewrite (bind_ok _ _ _ _ _ (length_loop_spec (rev (le_put k n)) (a ++ [128 + Z.of_nat k]) rest (set_ar_len 0 (ar_IsIndefiniteLen r) r) 0 ltac:(cbn; rewrite HB; by app_norm)
      ltac:(apply Forall_rev, le_put_bytes) eq_refl ltac:(lia)
      ltac:(rewrite length_rev, le_put_length; assert (256 ^ Z.of_nat k <= 256 ^ 3) by (apply Z.pow_le_mono_r; lia); change (256 ^ 3) with 16777216 in *; lia))).
    rewrite fold_le_put by lia. unfold bind, modify, ret. cbn. rewrite HI, !length_app, length_rev, le_put_length. cbn [length]. do 2 f_equal. lia.
Qed.

Lemma Next_encoded buf pre cls tag c n rest pos cend saved r : ready buf pos cend saved r -> pos = len pre ->
  buf = pre ++ tag_byte cls tag c :: der_length n ++ rest -> class_ok cls = true -> 0 <= tag < 31 -> ~ (cls = 0 /\ tag = 0) -> 0 <= n < 16777216 -> pos <> cend ->
  ASN1_Next r = (Ok tt, at_element buf pos cend saved cls tag c (1 + len (der_length n)) n).
Proof.
  intros [HB HP HE HS HEoc HI] -> HBuf HC HT HN Hn Hpos. unfold ASN1_Next. rewrite HEoc, HI, HP.
  cbv zeta. set (r0 := ResetElementState _).
  assert (r0 = mkASN1Reader buf 0 0 None 0 false false false (len pre) cend 0 saved) as Er0
    by (unfold r0, ResetElementState; cbn; by rewrite HE, HS, HB).
  change (ar_ElemStart r0) with (len pre). replace (ar_ContainerEnd r0) with cend by (by rewrite Er0).
  rewrite (proj2 (Z.eqb_neq (len pre) cend) Hpos). clearbody r0. subst r0. set (r0 := mkASN1Reader _ _ _ _ _ _ _ _ _ _ _ _).
  destruct (tag_byte_parts cls tag c HC HT) as (H31 & H192 & H32 & Hbyte). set (b := tag_byte cls tag c) in *.
  assert (ASN1_DecodeHead r0 = (let* p := (do* check_end (len pre + 1) in decode_length (len pre + 1)) in
    modify (fun r => set_ar_value (u32 (p - len pre)) ((ar_Class r =? 0) && (ar_Tag r =? 0) && negb (ar_IsConstructed r) && (ar_ValueLen r =? 0)) (Some p) r))
    (set_ar_tag tag (set_ar_head cls c r0))) as ->.
  { unfold ASN1_DecodeHead, DecodeHead_with. unfold bind at 1, gets at 1. change (ar_ElemStart r0) with (len pre).
    rewrite (bind_ok _ _ _ _ _ (check_end_app pre b (der_length n ++ rest) r0 HBuf)), (bind_ok _ _ _ _ _ (deref_app pre b (der_length n ++ rest) r0 HBuf)).
    rewrite H31, H192, H32. unfold bind at 1, modify at 1. rewrite (proj2 (Z.eqb_neq tag 31)) by lia. rewrite bind_ret. rewrite bind_assoc. apply bind_ext. intros _ s. unfold decode_length. by rewrite bind_assoc. }
  destruct (der_length_first n ltac:(lia)) as (b1 & bs & HD & _).
  assert (len pre + 1 = len (pre ++ [b])) as E1 by (rewrite length_app; cbn [length]; lia). rewrite E1.
  rewrite (bind_ok _ _ _ (len (pre ++ [b]) + len (der_length n)) (set_ar_len n false (set_ar_tag tag (set_ar_head cls c r0)))).
  2:{ rewrite (bind_ok _ _ _ _ _ (check_end_app (pre ++ [b]) b1 (bs ++ rest) (set_ar_tag tag (set_ar_head cls c r0)) ltac:(cbn; rewrite HBuf, HD; by app_norm))).
      apply decode_length_spec with (rest := rest); [cbn; rewrite HBuf; by app_norm|done|done]. }
  rewrite <- E1. unfold modify, at_element, set_ar_value. cbn. rewrite u32_id by (pose proof (lol_range n); pose proof (der_length_length n ltac:(lia)); lia).
  replace (len pre + 1 + len (der_length n) - len pre) with (1 + len (der_length n)) by lia.
  replace (len pre + 1 + len (der_length n)) with (len pre + (1 + len (der_length n))) by lia. do 2 f_equal.
  destruct (cls =? 0) eqn:E2; [|done]. destruct (tag =? 0) eqn:E3; [|done]. bool_prop. tauto.
Qed.

(** ** Values *)

(** The encoding of contents [val] under a class and tag stands at [pos]. *)
Record placed (buf : list Z) (pos cend cls tag : Z) (c : bool) (val : list Z) : Prop := {
  pl_split : exists pre rest, buf = pre ++ tlv cls tag c val ++ rest /\ pos = len pre;
  pl_end : pos + len (tlv cls tag c val) <= cend;
  pl_class : class_ok cls = true;
  pl_tag : 0 <= tag < 31;
  pl_eoc : ~ (cls = 0 /\ tag = 0);
  pl_len : len val < 16777216 }.

Definition head_len (val : list Z) : Z := 1 + len (der_length (len val)).
Definition here (buf : list Z) (pos cend : Z) (saved : list ASN1ParseContext) (cls tag : Z) (c : bool) (val : list Z) : ASN1Reader :=
  at_element buf pos cend saved cls tag c (head_len val) (len val).

Lemma tlv_len cls tag c val : len (tlv cls tag c val) = head_len val + len val.
Proof. unfold tlv, head_len. cbn [length]. rewrite length_app. lia. Qed.

Section Value.
Context (buf : list Z) (pos cend : Z) (saved : list ASN1ParseContext) (cls tag : Z) (c : bool) (val : list Z) (HP : placed buf pos cend cls tag c val).

Lemma Next_here r : ready buf pos cend saved r -> ASN1_Next r = (Ok tt, here buf pos cend saved cls tag c val).
Proof using HP.
  intros H. destruct HP as [(pre & rest & HBuf & HPos) HE HC HT HN HV]. rewrite tlv_len in HE. unfold head_len in HE.
  eapply Next_encoded; try done; [|lia|lia]. rewrite HBuf. unfold tlv. by app_norm.
Qed.

Lemma ready_after : ready buf (pos + len (tlv cls tag c val)) cend saved (here buf pos cend saved cls tag c val).
Proof using HP.
  split; try done. unfold here, at_element. cbn [ar_ElemStart ar_HeadLen ar_ValueLen]. rewrite tlv_len, u32_id; [lia|].
  pose proof (pl_len _ _ _ _ _ _ _ HP). unfold head_len. pose proof (der_length_length (len val) ltac:(lia)). pose proof (lol_range (len val)). lia.
Qed.

Lemma verify_here : ASN1_VERIFY_TAG cls tag (here buf pos cend saved cls tag c val) = (Ok tt, here buf pos cend saved cls tag c val).
Proof using. unfold ASN1_VERIFY_TAG. cbn. by rewrite !Z.eqb_refl. Qed.

Lemma PARSE_ELEMENT_here r : ready buf pos cend saved r -> ASN1_PARSE_ELEMENT cls tag r = (Ok tt, here buf pos cend saved cls tag c val).
Proof using HP. intros H. unfold ASN1_PARSE_ELEMENT. rewrite (bind_ok _ _ _ _ _ (Next_here r H)). apply verify_here. Qed.

Lemma checked_here lenErr : lenErr (len val) = None ->
  checked_value lenErr (here buf pos cend saved cls tag c val) = (Ok (pos + head_len val), here buf pos cend saved cls tag c val).
Proof using HP.
  intros HLe. pose proof (pl_end _ _ _ _ _ _ _ HP) as HE. rewrite tlv_len in HE. unfold checked_value. cbn. rewrite HLe.
  by rewrite (proj2 (Z.ltb_ge cend (pos + head_len val + len val))) by lia.
Qed.

Lemma value_at k l : val = k ++ l ->
  deref_all (length l) (pos + head_len val + len k) (here buf pos cend saved cls tag c val) = (Ok l, here buf pos cend saved cls tag c val).
Proof using HP.
  intros Hl. destruct HP as [(pre & rest & HBuf & HPos) _ _ _ _ _].
  replace (pos + head_len val + len k) with (len (pre ++ tag_byte cls tag c :: der_length (len val) ++ k))
    by (rewrite HPos; unfold head_len; rewrite length_app; cbn [length]; rewrite length_app; lia).
  apply deref_all_app with (rest := rest). cbn. rewrite HBuf. unfold tlv. rewrite Hl at 2. by app_norm.
Qed.

Lemma value_here : value_bytes (pos + head_len val) (here buf pos cend saved cls tag c val) = (Ok val, here buf pos cend saved cls tag c val).
Proof using HP. unfold value_bytes. cbn. rewrite Nat2Z.id. rewrite <- (Z.add_0_r (pos + head_len val)). by apply (value_at [] val). Qed.

Lemma byte_here b : val = [b] -> deref (pos + head_len val) (here buf pos cend saved cls tag c val) = (Ok b, here buf pos cend saved cls tag c val).
Proof using HP.
  intros HV. pose proof (value_at [] [b] HV) as E. cbn [length deref_all] in E. change (Z.of_nat 0) with 0 in E. rewrite Z.add_0_r in E.
  unfold bind in E. destruct (deref (pos + head_len val) (here buf pos cend saved cls tag c val)) as [[x| | |] s]; try discriminate. cbn in E. by injection E as -> ->.
Qed.
End Value.

Ltac parse H := rewrite (bind_ok _ _ _ _ _ H).

(** The Get operations on the contents of their types. *)
Section Get.
Context (buf : list Z) (pos cend : Z) (saved : list ASN1ParseContext) (r : ASN1Reader) (HR : ready buf pos cend saved r).
Abbreviation done_at cls tag val := (here buf pos cend saved cls tag false val).

Local Ltac check_value HP val tac :=
  match goal with |- bind (checked_value ?f) _ ?r = _ =>
    let E := fresh in assert (f (len val) = None) as E by tac;
    rewrite (bind_ok _ _ _ _ _ (checked_here _ _ _ saved _ _ _ _ HP f E)); clear E
  end.
Lemma PARSE_INTEGER_ok v : fits 8 v -> placed buf pos cend 0 2 false (der_integer v) -> ASN1_PARSE_INTEGER r = (Ok v, done_at 0 2 (der_integer v)).
Proof using HR.
  intros HF HP. pose proof (der_integer_length v HF) as HL. unfold ASN1_PARSE_INTEGER, ASN1_GetInteger.
  parse (PARSE_ELEMENT_here _ _ _ saved _ _ _ _ HP r HR).
  check_value HP (der_integer v) ltac:(rewrite (proj2 (Z.ltb_ge (len (der_integer v)) 1)), (proj2 (Z.ltb_ge 8 (len (der_integer v)))) by lia; done).
  parse (value_here _ _ _ saved _ _ _ _ HP). unfold ret. by rewrite GetInteger_value.
Qed.
Lemma PARSE_BOOLEAN_ok b : placed buf pos cend 0 1 false [if b : bool then 255 else 0] -> ASN1_PARSE_BOOLEAN r = (Ok b, done_at 0 1 [if b then 255 else 0]).
Proof using HR.
  intros HP. unfold ASN1_PARSE_BOOLEAN, ASN1_GetBoolean. parse (PARSE_ELEMENT_here _ _ _ saved _ _ _ _ HP r HR).
  parse (checked_here _ _ _ saved _ _ _ _ HP (fun n => if negb (n =? 1) then Some ASN1_ERROR_INVALID_ENCODING else None) eq_refl).
  parse (byte_here _ _ _ saved _ _ _ _ HP _ eq_refl). by destruct b.
Qed.
Lemma PARSE_BITS_ok v : 0 <= v < 4294967296 -> placed buf pos cend 0 3 false (der_bits v) -> ASN1_PARSE_BIT_STRING r = (Ok v, done_at 0 3 (der_bits v)).
Proof using HR.
  intros Hv HP. unfold ASN1_PARSE_BIT_STRING, GetBitString. parse (PARSE_ELEMENT_here _ _ _ saved _ _ _ _ HP r HR).
  assert (v = 0 /\ der_bits v = [0] \/ 0 < v /\ bits_loop (drop 1 (drop 1 (der_bits v))) 8 (ReverseBits (arr (drop 1 (der_bits v)) 0)) = v /\ (2 <= length (der_bits v) <= 5)%nat) as HCase.
  { destruct (Z.eq_dec v 0) as [->|Hz]; [by left|]. right. split; [lia|]. apply GetBitString_value. lia. }
  assert (1 <= len (der_bits v) <= 5) as HL by (destruct HCase as [[_ ->]|(_ & _ & ?)]; [done|lia]).
  check_value HP (der_bits v) ltac:(rewrite (proj2 (Z.ltb_ge (len (der_bits v)) 1)), (proj2 (Z.ltb_ge 5 (len (der_bits v)))) by lia; done).
  rewrite (bind_ok (gets ar_ValueLen) _ (done_at 0 3 (der_bits v)) (len (der_bits v)) _ eq_refl). destruct HCase as [[-> ->]|(Hz & HG & HB)]; [done|].
  rewrite (proj2 (Z.eqb_neq (len (der_bits v)) 1)) by lia.
  destruct (der_bits v) as [|b bs] eqn:ED; [cbn in HB; lia|]. cbn [length drop] in *. replace (Z.to_nat (Z.of_nat (S (length bs)) - 1)) with (length bs) by lia.
  pose proof (value_at _ _ _ saved _ _ _ _ HP [b] bs eq_refl) as EV. change (len [b]) with 1 in EV. parse EV. unfold ret. rewrite !drop_0 in HG. by rewrite HG.
Qed.
Lemma PARSE_OBJECT_ID_ok oid enc : GetEncodedObjectID oid = Some enc -> placed buf pos cend 0 6 false enc -> ASN1_PARSE_OBJECT_ID r = (Ok oid, done_at 0 6 enc).
Proof using HR.
  intros HO HP. destruct (GetEncodedObjectID_spec oid enc HO) as (HPa & _ & HL). unfold ASN1_PARSE_OBJECT_ID, ASN1_GetObjectId.
  parse (PARSE_ELEMENT_here _ _ _ saved _ _ _ _ HP r HR).
  check_value HP enc ltac:(unfold not_empty; rewrite (proj2 (Z.ltb_ge (len enc) 1)) by lia; done).
  rewrite (bind_ok (gets _) _ _ (len enc) (done_at 0 6 enc)) by (unfold gets; cbn; rewrite u16_id by lia; done).
  rewrite (proj2 (Z.eqb_neq (len enc) 0)) by lia.
  assert (existsb (fun e => Z.of_nat (length (snd e)) =? len enc) sOIDTable = true) as ->.
  { apply existsb_exists. exists (oid, enc). split; [by apply find_oid_in|]. apply Z.eqb_refl. }
  rewrite Nat2Z.id. pose proof (value_here _ _ _ saved _ _ _ _ HP) as EV. unfold value_bytes in EV. cbn in EV. rewrite Nat2Z.id in EV. parse EV. unfold ret. by rewrite HPa.
Qed.
Lemma time_bytes_ok n tag bytes : placed buf pos cend 0 tag false bytes -> len bytes = n + 1 -> 0 <= n -> arr bytes n = 90 ->
  forallb isdigit (take (Z.to_nat n) bytes) = true -> time_bytes n (done_at 0 tag bytes) = (Ok bytes, done_at 0 tag bytes).
Proof using.
  intros HP HL Hn HZ HD. unfold time_bytes. check_value HP bytes ltac:(unfold not_empty; rewrite (proj2 (Z.ltb_ge (len bytes) 1)) by lia; done).
  rewrite (bind_ok (gets ar_ValueLen) _ (done_at 0 tag bytes) (len bytes) _ eq_refl). rewrite (proj2 (Z.eqb_eq (len bytes) (n + 1)) HL). cbn [verify]. rewrite bind_ret.
  parse (value_here _ _ _ saved _ _ _ _ HP). rewrite HZ, HD. done.
Qed.
Lemma PARSE_TIME_ok t : time_ok t -> placed buf pos cend 0 (fst (der_time t)) false (snd (der_time t)) ->
  ASN1_PARSE_TIME r = (Ok t, done_at 0 (fst (der_time t)) (snd (der_time t))).
Proof using HR.
  intros HO. pose proof (der_time_read t HO) as HT. assert (fst (der_time t) = 23 \/ fst (der_time t) = 24) as HTag by (unfold der_time; destruct (2050 <=? at_Year t); auto).
  destruct (der_time t) as [tag bytes]. cbn [fst snd] in *. destruct HT as (HL & HZ & HD & _ & HV). intros HP.
  unfold ASN1_PARSE_TIME. parse (Next_here _ _ _ saved _ _ _ _ HP r HR). cbn [here at_element ar_Class ar_Tag].
  destruct HTag as [-> | ->]; [change (23 =? kASN1UniversalTag_UTCTime) with true in *|change (24 =? kASN1UniversalTag_UTCTime) with false in *];
    cbn [andb Z.eqb Pos.eqb kASN1TagClass_Universal kASN1UniversalTag_GeneralizedTime].
  - unfold GetUTCTime. parse (time_bytes_ok 12 23 bytes HP HL ltac:(lia) HZ HD). unfold ret. cbv zeta. by rewrite HV.
  - unfold GetGeneralizedTime. parse (time_bytes_ok 14 24 bytes HP HL ltac:(lia) HZ HD). unfold ret. by rewrite HV.
Qed.
Lemma PARSE_PRIMITIVE_ok cls tag val : placed buf pos cend cls tag false val ->
  (do* ASN1_PARSE_ELEMENT cls tag in contents) r = (Ok val, done_at cls tag val).
Proof using HR.
  intros HP. parse (PARSE_ELEMENT_here _ _ _ saved _ _ _ _ HP r HR). exact (value_here _ _ _ saved _ _ _ _ HP).
Qed.
End Get.

(** ** Containers *)

(** The saved context of a container that is being read. *)
Definition context (pos cend : Z) (val : list Z) : ASN1ParseContext := mkParseContext pos (head_len val) (len val) false cend.

Lemma EnterContainer_here buf pos cend saved cls tag c val off : placed buf pos cend cls tag c val -> (length saved < 32)%nat ->
  exists r', ASN1_EnterContainer off (here buf pos cend saved cls tag c val) = (Ok tt, r') /\
    ready buf (pos + head_len val + off) (pos + head_len val + len val) (context pos cend val :: saved) r'.
Proof.
  intros HP HD. unfold ASN1_EnterContainer. cbn [here at_element ar_SavedContexts]. unfold kMaxContextDepth.
  rewrite (proj2 (Nat.eqb_neq (length saved) 32)) by lia. eexists. split; [reflexivity|]. split; try done. apply Z.add_0_r.
Qed.

(** Leaving a container whose contents have been read. *)
Lemma exit_here buf pos cend saved cls tag c val r : placed buf pos cend cls tag c val ->
  ready buf (pos + head_len val + len val) (pos + head_len val + len val) (context pos cend val :: saved) r ->
  exists r', (do* ASN1_EXPECT_END in ASN1_ExitContainer) r = (Ok tt, r') /\ ready buf (pos + len (tlv cls tag c val)) cend saved r'.
Proof.
  pose proof (tlv_len cls tag c val) as HT. set (t := len (tlv cls tag c val)) in *. clearbody t.
  intros HP [HB HPos HE HS HEoc HI]. unfold ASN1_EXPECT_END, ASN1_Next, bind. rewrite HEoc, HI. cbv zeta.
  rewrite HPos, HE. cbn [ResetElementState set_ar_position ar_ElemStart ar_ContainerEnd]. rewrite Z.eqb_refl, HS. cbn.
  eexists. split; [reflexivity|]. split; try done. rewrite HT, Z.add_assoc. apply Z.add_0_r.
Qed.

(** ** Any value *)

Definition reads (i : item) : Prop := forall buf pre rest pos cend saved r, ready buf pos cend saved r -> item_ok i = true ->
  buf = pre ++ der i ++ rest -> pos = len pre -> pos + len (der i) <= cend -> len (der i) < 16777216 -> (length saved + depth i <= 32)%nat ->
  exists r', parse_item (type_of i) r = (Ok i, r') /\ ready buf (pos + len (der i)) cend saved r'.

Lemma reads_items l : Forall reads l -> forall buf pre rest pos cend saved r, ready buf pos cend saved r -> forallb item_ok l = true ->
  buf = pre ++ ders l ++ rest -> pos = len pre -> pos + len (ders l) <= cend -> len (ders l) < 16777216 -> (length saved + depths l <= 32)%nat ->
  exists r', parse_items (map type_of l) r = (Ok l, r') /\ ready buf (pos + len (ders l)) cend saved r'.
Proof.
  induction 1 as [|i l Hi Hl IH]; intros buf pre rest pos cend saved r HR HO HB HP HE HL HD.
  - exists r. split; [done|]. cbn. by rewrite Z.add_0_r.
  - cbn [forallb] in HO. apply andb_prop in HO as [HO HOs]. change (ders (i :: l)) with (der i ++ ders l) in *. rewrite length_app in *.
    change (depths (i :: l)) with (Nat.max (depth i) (depths l)) in HD.
    destruct (Hi buf pre (ders l ++ rest) pos cend saved r HR HO ltac:(by rewrite HB, <- app_assoc) HP ltac:(lia) ltac:(lia) ltac:(lia)) as (r1 & E1 & H1).
    destruct (IH buf (pre ++ der i) rest (pos + len (der i)) cend saved r1 H1 HOs ltac:(by rewrite HB, <- !app_assoc) ltac:(rewrite length_app; lia) ltac:(lia) ltac:(lia) ltac:(lia)) as (r2 & E2 & H2).
    exists r2. cbn [map parse_items]. parse E1. parse E2. split; [done|]. by replace (pos + Z.of_nat (length (der i) + length (ders l))) with (pos + len (der i) + len (ders l)) by lia.
Qed.

Lemma parse_item_constructed cls tag l : parse_item (SConstructed cls tag l) =
  (do* ASN1_PARSE_ENTER_CONSTRUCTED cls tag in let* items := parse_items l in do* ASN1_EXIT_CONSTRUCTED in ret (AConstructed cls tag items)).
Proof. reflexivity. Qed.
Lemma parse_item_encapsulated bits l : parse_item (SEncapsulated bits l) =
  (do* ASN1_PARSE_ENTER_ENCAPSULATED kASN1TagClass_Universal (encapsulating_tag bits) in
   let* items := parse_items l in do* ASN1_EXIT_ENCAPSULATED in ret (AEncapsulated bits items)).
Proof. reflexivity. Qed.

(** The contents of a container, after [k] bytes of its own, and its end. *)
Lemma contents_read l : Forall reads l -> forall buf pos cend saved cls tag c k r, placed buf pos cend cls tag c (k ++ ders l) ->
  ready buf (pos + head_len (k ++ ders l) + len k) (pos + head_len (k ++ ders l) + len (k ++ ders l)) (context pos cend (k ++ ders l) :: saved) r ->
  forallb item_ok l = true -> (length saved + S (depths l) <= 32)%nat ->
  exists r', (forall f : list item -> item, (let* items := parse_items (map type_of l) in do* (do* ASN1_EXPECT_END in ASN1_ExitContainer) in ret (f items)) r = (Ok (f l), r')) /\
    ready buf (pos + len (tlv cls tag c (k ++ ders l))) cend saved r'.
Proof.
  intros H buf pos cend saved cls tag c k r HP HR HO HD. pose proof HP as [(pre & rest & HB & HPos) HE _ _ _ HL]. set (val := k ++ ders l) in *.
  assert (len val = len k + len (ders l)) as HVL by (unfold val; rewrite length_app; lia).
  destruct (reads_items l H buf (pre ++ tag_byte cls tag c :: der_length (len val) ++ k) rest (pos + head_len val + len k) (pos + head_len val + len val)
    (context pos cend val :: saved) r HR HO) as (r2 & E2 & H2).
  - rewrite HB. unfold tlv, val. by app_norm.
  - rewrite HPos, length_app. unfold head_len. cbn [length]. rewrite length_app. lia.
  - lia.
  - lia.
  - cbn [length]. lia.
  - replace (pos + head_len val + len k + len (ders l)) with (pos + head_len val + len val) in H2 by lia.
    destruct (exit_here buf pos cend saved cls tag c val r2 HP H2) as (r3 & E3 & H3). exists r3. split; [|done]. intros f. parse E2. by parse E3.
Qed.

(** The values that are not made of others. *)
Lemma leaf_read i cls tag val buf pos cend saved r : ready buf pos cend saved r -> item_ok i = true -> leaf i = Some (cls, tag, val) ->
  placed buf pos cend cls tag false val -> parse_item (type_of i) r = (Ok i, here buf pos cend saved cls tag false val).
Proof.
  intros HR HO HL HP. destruct i as [v|b|v|t|oid| |cls' tag' val'|cls' tag' l|bits l]; cbn [leaf] in HL; try discriminate; cbn [type_of parse_item].
  - injection HL as <- <- <-. cbn [item_ok] in HO. apply andb_prop in HO as [H1%Z.leb_le H2%Z.ltb_lt].
    by parse (PARSE_INTEGER_ok _ _ _ _ _ HR v ltac:(apply (proj1 (fits_8 v)); lia) HP).
  - injection HL as <- <- <-. by parse (PARSE_BOOLEAN_ok _ _ _ _ _ HR b HP).
  - injection HL as <- <- <-. cbn [item_ok] in HO. apply andb_prop in HO as [H1%Z.leb_le H2%Z.ltb_lt]. by parse (PARSE_BITS_ok _ _ _ _ _ HR v ltac:(lia) HP).
  - injection HL as <- <- <-. by parse (PARSE_TIME_ok _ _ _ _ _ HR t HO HP).
  - destruct (GetEncodedObjectID oid) as [enc|] eqn:EO; [|discriminate]. injection HL as <- <- <-. by parse (PARSE_OBJECT_ID_ok _ _ _ _ _ HR oid enc EO HP).
  - injection HL as <- <- <-. unfold ASN1_PARSE_NULL. by parse (PARSE_ELEMENT_here _ _ _ saved _ _ _ _ HP r HR).
  - injection HL as <- <- <-. rewrite <- bind_assoc. by parse (PARSE_PRIMITIVE_ok _ _ _ _ _ HR cls' tag' val' HP).
Qed.

Lemma leaf_reads i cls tag val : leaf i = Some (cls, tag, val) -> der i = tlv cls tag false val -> reads i.
Proof.
  intros HL HDer buf pre rest pos cend saved r HR HO HB HP HE HS _. destruct (leaf_ok i cls tag val HO HL) as (HC & HT & HN & HV & _).
  rewrite HDer in *. assert (placed buf pos cend cls tag false val) as HPd by (split; try done; [eauto|lia]).
  eexists. split; [by eapply leaf_read|by apply ready_after].
Qed.

Lemma item_read i : reads i.
Proof.
  induction i as [v|b|v|t|oid| |cls tag val|cls tag l H|bits l H] using item_rect'.
  5: { intros buf pre rest pos cend saved r HR HO. pose proof HO as HO'. cbn [item_ok] in HO'. destruct (GetEncodedObjectID oid) as [enc|] eqn:EO; [|done].
       apply (leaf_reads (AObjectId oid) 0 6 enc); [cbn [leaf]; by rewrite EO|cbn [der leaf]; by rewrite EO|done|done]. }
  1-6: by eapply leaf_reads.
  - intros buf pre rest pos cend saved r HR HO HB HP HE HL HD. cbn [item_ok] in HO. apply andb_prop in HO as [HT HO]. apply tag_ok_spec in HT as (HC & HT & HN).
    cbn [der depth type_of] in *. fold (ders l) in *. fold (depths l) in *. pose proof (tlv_length cls tag true (ders l)) as HTL.
    assert (placed buf pos cend cls tag true (ders l)) as HPd by (split; try done; [eauto|lia]).
    destruct (EnterContainer_here buf pos cend saved cls tag true (ders l) 0 HPd ltac:(lia)) as (r1 & E1 & H1).
    destruct (contents_read l H buf pos cend saved cls tag true [] r1 HPd H1 HO HD) as (r2 & E2 & H2).
    exists r2. split; [|done]. rewrite parse_item_constructed. unfold ASN1_PARSE_ENTER_CONSTRUCTED.
    rewrite (bind_ok _ _ r tt r1) by (parse (Next_here _ _ _ saved _ _ _ _ HPd r HR); by parse (verify_here buf pos cend saved cls tag true (ders l))). apply E2.
  - intros buf pre rest pos cend saved r HR HO HB HP HE HL HD. cbn [item_ok] in HO.
    cbn [der depth type_of] in *. fold (ders l) in *. fold (depths l) in *. set (k := if bits then [0] else []) in *.
    pose proof (tlv_length 0 (encapsulating_tag bits) false (k ++ ders l)) as HTL.
    assert (placed buf pos cend 0 (encapsulating_tag bits) false (k ++ ders l)) as HPd by (split; try done; [eauto|by destruct bits|by destruct bits; intros [_ ?]|lia]).
    destruct (EnterContainer_here buf pos cend saved 0 (encapsulating_tag bits) false (k ++ ders l) (len k) HPd ltac:(lia)) as (r1 & E1 & H1).
    destruct (contents_read l H buf pos cend saved 0 (encapsulating_tag bits) false k r1 HPd H1 HO HD) as (r2 & E2 & H2).
    exists r2. split; [|done]. rewrite parse_item_encapsulated. unfold ASN1_PARSE_ENTER_ENCAPSULATED.
    rewrite (bind_ok _ _ r tt r1); [apply E2|]. parse (Next_here _ _ _ saved _ _ _ _ HPd r HR). parse (verify_here buf pos cend saved 0 (encapsulating_tag bits) false (k ++ ders l)).
    rewrite <- E1. unfold k. by destruct bits.
Qed.
