(* ===== verification/ASN1.v ===== *)
(** * ASN.1: the writer and the reader together

    The writer's output is the encoding, the reader gives back what was written, and
    where the two go wrong. *)
From S2P Require Import Prelude Encoding PacketBuffer TLVReader ASN1OID ASN1Writer ASN1Reader ASN1Tree ASN1Leaf ASN1Doc ASN1Write ASN1Read.
Local Open Scope Z_scope.
Local Open Scope weave_scope.

(** ** Writing *)

Definition write_items (ptr : Z) (l : list item) : M ASN1Writer unit := do* put_items ptr l in ASN1_Finalize.
(** The bytes that count after Finalize. *)
Definition output (w : ASN1Writer) : list Z := take (Z.to_nat (mWritePoint w)) (aw_mem w).

Lemma ldiff_3 x : 0 <= x -> Z.ldiff x 3 <= x.
Proof. intros. change 3 with (Z.ones 2). rewrite Z.ldiff_ones_r, shiftl_mul, shiftr_div by lia. change (2 ^ 2) with 4. mlia. Qed.

Lemma Init_holds addr buf : 0 <= addr -> len buf < 4294967296 -> let w := ASN1Writer_Init addr buf in holds (aw_bufEnd w) [] (Text []) w.
Proof.
  intros Ha Hb w. pose proof (ldiff_3 (addr + len buf) ltac:(lia)). split; [by exists buf|done|done|done| |done].
  unfold w, ASN1Writer_Init. cbn [aw_bufEnd aw_mem]. lia.
Qed.

Lemma write_items_ok ptr addr buf l : 0 <= ptr -> 0 <= addr -> len buf < 4294967296 -> forallb item_ok l = true -> len (ders l) < 16777216 ->
  let w0 := ASN1Writer_Init addr buf in 0 <= aw_bufEnd w0 ->
  let '(r, w) := write_items ptr l w0 in
  if decide (raw_sizes l + ptr * all_containers l <= aw_bufEnd w0)
  then r = Ok tt /\ output w = (if 0 <? all_containers l then ders l else []) /\ mWritePoint w = len (output w)
  else r = Err ASN1_ERROR_OVERFLOW.
Proof.
  intros Hp Ha Hb HO HL w0 He. set (e := aw_bufEnd w0) in *.
  assert (writes ptr e (put_items ptr l) (raw_sizes l) (all_containers l) (ders l)) as HW.
  { apply writes_items; try done. apply List.Forall_forall. intros i _. by apply item_written. }
  destruct (HW (Text []) w0 (Init_holds addr buf Ha Hb)) as [Ho Hov]; [unfold need; cbn [raw fields length]; change (Z.of_nat 0) with 0; lia|]. unfold need in *. cbn [raw fields length] in *.
  change (Z.of_nat 0) with 0 in *. rewrite !Z.add_0_l in *. unfold write_items.
  destruct (decide _) as [Hle|Hgt].
  - destruct (Ho Hle) as (b & w1 & E1 & H1 & HC & HK & HS & HF). rewrite (bind_ok _ _ _ _ _ E1). replace (dapp (Text []) b) with b in H1 by (by destruct b).
    destruct (Finalize_ok ptr e b w1 Hp H1 HC) as (w2 & E2 & HT & HP).
    rewrite E2. rewrite HF, HK in *. unfold output. rewrite HT. split; [done|]. split; [done|]. rewrite HP. by destruct (0 <? all_containers l).
  - destruct (Hov ltac:(lia)) as (w1 & E1). by rewrite (bind_err _ _ _ _ _ E1).
Qed.

(** ** The loop over a long tag

    Every turn reads the same byte [b], so the loop is a function of it. *)
Fixpoint tag_run (fuel : nat) (b tag : Z) : res unit * Z :=
  match fuel with
  | O => (Diverges, tag)
  | S fuel =>
    if negb (Z.land tag 0xFE000000 =? 0) then (Err ASN1_ERROR_TAG_OVERFLOW, tag)
    else
      let tag := Z.lor (u32 (Z.shiftl tag 7)) (Z.land b 127) in
      if negb (Z.land b 128 =? 0) then tag_run fuel b tag else (Ok tt, tag)
  end.

Lemma tag_loop_run fuel a b rest : forall r, ar_buf r = a ++ b :: rest ->
  tag_loop fuel (len a) r = let '(o, tag) := tag_run fuel b (ar_Tag r) in (o, set_ar_tag tag r).
Proof.
  induction fuel as [|fuel IH]; intros r HB; [by destruct r|]. cbn [tag_loop tag_run].
  rewrite (bind_ok _ _ _ _ _ (check_end_app a b rest r HB)), (bind_ok (gets ar_Tag) _ r (ar_Tag r) r eq_refl).
  destruct (Z.land (ar_Tag r) 0xFE000000 =? 0); cbn [verify negb]; [|by destruct r]. rewrite bind_ret, (bind_ok _ _ _ _ _ (deref_app a b rest r HB)).
  unfold bind at 1, modify at 1. set (tag := Z.lor _ _). destruct (negb (Z.land b 128 =? 0)); [|done].
  rewrite (IH (set_ar_tag tag r) HB). change (ar_Tag (set_ar_tag tag r)) with tag. by destruct (tag_run fuel b tag).
Qed.

Definition settled (r : res unit * Z) : bool := match fst r with Diverges => false | Undefined => false | _ => true end.
Lemma tag_run_all : all_upto 256 (fun b => Bool.eqb (settled (tag_run tag_fuel b 0)) (negb (b =? 128))) = true.
Proof. vm_compute. reflexivity. Qed.
Lemma tag_run_more fuel : forall b tag more, settled (tag_run fuel b tag) = true -> tag_run (fuel + more) b tag = tag_run fuel b tag.
Proof.
  induction fuel as [|fuel IH]; intros b tag more; [done|]. cbn [tag_run Nat.add]. destruct (negb (Z.land tag 0xFE000000 =? 0)); [done|].
  destruct (negb (Z.land b 128 =? 0)); [|done]. apply IH.
Qed.
Lemma tag_run_128 fuel : tag_run fuel 128 0 = (Diverges, 0).
Proof. induction fuel as [|fuel IH]; [done|]. cbn [tag_run]. exact IH. Qed.
Lemma tag_run_fuel b fuel : is_byte b -> (tag_fuel <= fuel)%nat -> tag_run fuel b 0 = tag_run tag_fuel b 0 /\
  (fst (tag_run tag_fuel b 0) = Diverges <-> b = 128) /\ fst (tag_run tag_fuel b 0) <> Undefined.
Proof.
  intros Hb Hf. pose proof (all_upto_spec _ _ tag_run_all b Hb) as E. cbv beta in E. apply eqb_prop in E.
  destruct (Z.eq_dec b 128) as [->|Hne]; [by rewrite !tag_run_128|]. rewrite (proj2 (Z.eqb_neq b 128) Hne) in E. cbn [negb] in E.
  replace fuel with (tag_fuel + (fuel - tag_fuel))%nat by lia. split; [by apply tag_run_more|]. unfold settled in E. destruct (fst (tag_run tag_fuel b 0)); done.
Qed.

(** The rest of DecodeHead returns, whatever the bytes. *)
Definition returns {A} (o : res A * ASN1Reader) : Prop := fst o <> Undefined /\ fst o <> Diverges.
Lemma split_at (l : list Z) p : 0 <= p < len l -> exists a b rest, l = a ++ b :: rest /\ p = len a.
Proof.
  intros Hp. destruct (nth_error l (Z.to_nat p)) as [b|] eqn:E; [|apply nth_error_None in E; lia].
  apply nth_error_split in E as (a & rest & -> & Ha). exists a, b, rest. split; [done|lia].
Qed.
Lemma check_end_cases p r : 0 <= p -> (exists a b rest, ar_buf r = a ++ b :: rest /\ p = len a) \/ (forall A (k : M ASN1Reader A), (do* check_end p in k) r = (Err ASN1_ERROR_UNDERRUN, r)) /\ len (ar_buf r) <= p.
Proof.
  intros Hp. destruct (Z.lt_ge_cases p (len (ar_buf r))) as [Hlt|Hge]; [left; by apply split_at|right]. split; [|done].
  intros A k. unfold bind, check_end, ar_BufEnd. by rewrite (proj2 (Z.leb_le (len (ar_buf r)) p)) by lia.
Qed.
Lemma length_loop_returns n : forall p r, 0 <= p -> returns (length_loop n p r).
Proof.
  induction n as [|n IH]; intros p r Hp; [done|]. cbn [length_loop].
  destruct (check_end_cases p r Hp) as [(a & b & rest & HB & ->)|[E _]]; [|by rewrite E].
  rewrite (bind_ok _ _ _ _ _ (check_end_app a b rest r HB)), (bind_ok (gets ar_ValueLen) _ r (ar_ValueLen r) r eq_refl).
  destruct (Z.land (ar_ValueLen r) 0xFF000000 =? 0); cbn [verify]; [|done]. rewrite bind_ret, (bind_ok _ _ _ _ _ (deref_app a b rest r HB)).
  unfold bind at 1, modify at 1. apply IH. lia.
Qed.
Definition decode_rest (elemStart p : Z) : M ASN1Reader unit :=
  do* check_end p in
  let* p := decode_length p in
  modify (fun r => set_ar_value (u32 (p - elemStart))
    ((ar_Class r =? 0) && (ar_Tag r =? 0) && negb (ar_IsConstructed r) && (ar_ValueLen r =? 0)) (Some p) r).
Lemma decode_rest_returns s p r : 0 <= p -> returns (decode_rest s p r).
Proof.
  intros Hp. unfold decode_rest. destruct (check_end_cases p r Hp) as [(a & b & rest & HB & ->)|[E _]]; [|by rewrite E].
  rewrite (bind_ok _ _ _ _ _ (check_end_app a b rest r HB)). unfold decode_length. rewrite bind_assoc, (bind_ok _ _ _ _ _ (deref_app a b rest r HB)).
  destruct (Z.land b 128 =? 0); [done|]. destruct (b =? 128); [done|]. rewrite bind_assoc. unfold bind at 1, modify at 1. rewrite bind_assoc. unfold bind at 1.
  pose proof (length_loop_returns (Z.to_nat (Z.land b 127)) (len a + 1) (set_ar_len 0 (ar_IsIndefiniteLen r) r) ltac:(lia)) as [H1 H2].
  destruct (length_loop _ _ _) as [[] ?]; done.
Qed.

Lemma DecodeHead_parts fuel a b rest r : ar_buf r = a ++ b :: rest -> ar_ElemStart r = len a ->
  DecodeHead_with fuel r =
  (do* (if Z.land b 31 =? 31 then do* modify (set_ar_tag 0) in tag_loop fuel (len a + 1) else ret tt) in decode_rest (len a) (len a + 1))
    (set_ar_tag (Z.land b 31) (set_ar_head (Z.land b 192) (negb (Z.land b 32 =? 0)) r)).
Proof.
  intros HB HP. unfold DecodeHead_with. unfold bind at 1, gets at 1. rewrite HP.
  rewrite (bind_ok _ _ _ _ _ (check_end_app a b rest r HB)), (bind_ok _ _ _ _ _ (deref_app a b rest r HB)). unfold bind at 1, modify at 1.
  apply bind_ext. intros _ s. unfold decode_rest. apply bind_ext. intros _ s'. unfold decode_length. by rewrite bind_assoc.
Qed.

(** What an element's first two bytes must be for its head never to be decoded. *)
Definition endless_head (r : ASN1Reader) : Prop :=
  exists a b rest, ar_buf r = a ++ b :: 128 :: rest /\ ar_ElemStart r = len a /\ Z.land b 31 = 31.

Lemma DecodeHead_returns r fuel : is_bytes (ar_buf r) -> 0 <= ar_ElemStart r -> (tag_fuel <= fuel)%nat ->
  DecodeHead_with fuel r = ASN1_DecodeHead r /\ fst (ASN1_DecodeHead r) <> Undefined /\ (fst (ASN1_DecodeHead r) = Diverges <-> endless_head r).
Proof.
  intros Hby Hp Hf. unfold ASN1_DecodeHead. destruct (check_end_cases (ar_ElemStart r) r Hp) as [(a & b & rest & HB & HE)|[E HL]].
  2:{ assert (forall n, DecodeHead_with n r = (Err ASN1_ERROR_UNDERRUN, r)) as E' by (intros n; unfold DecodeHead_with; unfold bind at 1, gets at 1; apply E).
      rewrite !E'. split; [done|]. split; [done|]. split; [done|]. intros (a & b & rest & HB & HE & _). rewrite HB, length_app in HL. cbn [length] in HL. lia. }
  rewrite !(DecodeHead_parts _ a b rest r HB HE). set (r1 := set_ar_tag _ _).
  assert (endless_head r <-> Z.land b 31 = 31 /\ exists rest', rest = 128 :: rest') as Hend.
  { split.
    - intros (a' & b' & rest' & HB' & HE' & HT). assert (len a' = len a) as HLen by lia. rewrite HB in HB'. apply app_inj_1 in HB' as [<- [= -> ->]]; [|lia]. eauto.
    - intros [HT [rest' ->]]. exists a, b, rest'. done. }
  destruct (Z.land b 31 =? 31) eqn:ET; bool_prop.
  2:{ rewrite bind_ret. destruct (decode_rest_returns (len a) (len a + 1) r1 ltac:(lia)) as [H1 H2]. split; [done|]. split; [done|]. split; [done|]. tauto. }
  set (r2 := set_ar_tag 0 r1).
  assert (forall n, (do* (do* modify (set_ar_tag 0) in tag_loop n (len a + 1)) in decode_rest (len a) (len a + 1)) r1 =
    (do* tag_loop n (len a + 1) in decode_rest (len a) (len a + 1)) r2) as EM by (intros n; by rewrite bind_assoc).
  rewrite !EM. clear EM. destruct rest as [|b1 rest'].
  - assert (forall n, tag_loop (S n) (len a + 1) r2 = (Err ASN1_ERROR_UNDERRUN, r2)) as EU.
    { intros n. cbn [tag_loop]. destruct (check_end_cases (len a + 1) r2 ltac:(lia)) as [(a' & b' & rest' & HB' & HE')|[E _]]; [|apply E].
      exfalso. change (ar_buf r2) with (ar_buf r) in HB'. apply (f_equal length) in HB'. rewrite HB, !length_app in HB'. cbn [length] in HB'. lia. }
    destruct fuel as [|fuel]; [unfold tag_fuel in Hf; lia|]. unfold tag_fuel. rewrite !(bind_err _ _ _ _ _ (EU _)). split; [done|]. split; [done|]. split; [done|].
    intros (_ & rest' & ?)%Hend. done.
  - assert (is_byte b1) as Hb1.
    { rewrite HB in Hby. apply Forall_app in Hby as [_ Hby]. inversion Hby as [|? ? _ Hby']. by inversion Hby'. }
    destruct (tag_run_fuel b1 fuel Hb1 Hf) as (ERun & HDiv & HUn).
    assert (forall n, tag_loop n (len a + 1) r2 = let '(o, tag) := tag_run n b1 0 in (o, set_ar_tag tag r2)) as EL.
    { intros n. replace (len a + 1) with (len (a ++ [b])) by (rewrite length_app; cbn [length]; lia).
      apply tag_loop_run with (rest := rest'). change (ar_buf r2) with (ar_buf r). rewrite HB. by app_norm. }
    unfold bind. rewrite !EL, ERun. split; [done|]. destruct (tag_run tag_fuel b1 0) as [[[]| | |] tag]; cbn [fst] in *.
    + destruct (decode_rest_returns (len a) (len a + 1) (set_ar_tag tag r2) ltac:(lia)) as [H1 H2]. split; [done|]. split; [done|].
      intros (_ & rest'' & [= E _])%Hend. by apply HDiv in E.
    + split; [done|]. split; [done|]. intros (_ & rest'' & [= E _])%Hend. by apply HDiv in E.
    + done.
    + split; [done|]. split; [|done]. intros _. apply Hend. split; [done|]. exists rest'. by rewrite (proj1 HDiv eq_refl).
Qed.

(** ** What goes wrong *)

(** Without a container Finalize throws away everything that was written. *)
Example Finalize_drops_all : let '(r, w) := write_items 8 [AInteger 5; ABoolean true] (ASN1Writer_Init 0 (replicate 40 0)) in r = Ok tt /\ output w = [].
Proof. vm_compute. split; reflexivity. Qed.

(** A value of 65532 to 65535 bytes passes the test for room in a small buffer, and is
    copied over the end of it: the length that is tested, with the head's four
    bytes, is a uint16_t. *)
Lemma PutValue_overruns val : 65532 <= Z.of_nat (length val) <= 65535 ->
  fst (PutOctetString 8 val (ASN1Writer_Init 0 (replicate 16 0))) = Undefined.
Proof.
  intros HL. unfold PutOctetString. rewrite PutValue_short by lia.
  assert (exists w1, EncodeHead 8 0 4 false (Z.of_nat (length val)) (ASN1Writer_Init 0 (replicate 16 0)) = (Ok tt, w1) /\
    mWritePoint w1 = 4 /\ deferred_start 8 w1 = 16) as (w1 & E & HP & HS).
  { assert (Z.of_nat (length val) = 65532 \/ Z.of_nat (length val) = 65533 \/ Z.of_nat (length val) = 65534 \/ Z.of_nat (length val) = 65535)
      as [E|[E|[E|E]]] by lia; rewrite E; eexists; split; [vm_compute; reflexivity|done|vm_compute; reflexivity|done|vm_compute; reflexivity|done|vm_compute; reflexivity|done]. }
  rewrite (bind_ok _ _ _ _ _ E). unfold put_bytes, poke, store, bind. rewrite HP, HS. rewrite (proj2 (Z.leb_gt (4 + _) 16)) by lia. by rewrite andb_false_r.
Qed.

(** A tag that does not fit in one byte is refused, before anything is written. *)
Lemma PutValue_long_tag ptr cls tag isConstructed val w : 31 <= tag ->
  PutValue ptr cls tag isConstructed val w = (Err ASN1_ERROR_UNSUPPORTED_ENCODING, w).
Proof. intros HT. unfold PutValue, EncodeHead, bind. by rewrite (proj2 (Z.leb_le 31 tag)) by lia. Qed.

(** A container that says it is longer than the buffer lets GetInteger read past it. *)
Definition long_container : list Z := [48; 100; 2; 8; 1].
Lemma GetInteger_reads_past : fst ((do* ASN1_PARSE_ENTER_CONSTRUCTED 0 16 in ASN1_PARSE_INTEGER) (ASN1Reader_Init long_container)) = Undefined.
Proof. vm_compute. reflexivity. Qed.

(** An element of 2^32 - 6 bytes after a head of 6: Next adds the two in 32 bits and
    stays where it is, and DumpASN1 lists the element for ever. *)
Definition endless : list Z := [4; 132; 255; 255; 255; 250].
Lemma DumpASN1_endless fuel : snd (DumpASN1 fuel 0 (ASN1Reader_Init endless)) = Diverges.
Proof.
  assert (exists r1, ASN1_Next (ASN1Reader_Init endless) = (Ok tt, r1) /\ ASN1_Next r1 = (Ok tt, r1) /\ ar_IsConstructed r1 = false) as (r1 & E0 & E1 & EC)
    by (eexists; split; [vm_compute; reflexivity|split; vm_compute; reflexivity]).
  assert (forall n, snd (DumpASN1 n 0 r1) = Diverges) as HD.
  { induction n as [|n IH]; [done|]. cbn [DumpASN1]. rewrite E1, EC. destruct (DumpASN1 n 0 r1). done. }
  destruct fuel as [|fuel]; [done|]. cbn [DumpASN1]. rewrite E0, EC. specialize (HD fuel). by destruct (DumpASN1 fuel 0 r1).
Qed.

(** A time before 1950 is written as a UTCTime and read as one of the next century. *)
Lemma PutTime_before_1950 : let '(r, w) := write_items 8 [AConstructed 0 16 [ATime (mkASN1Time 1949 1 2 3 4 5)]] (ASN1Writer_Init 0 (replicate 40 0)) in
  r = Ok tt /\ fst (parse_items [SConstructed 0 16 [STime]] (ASN1Reader_Init (output w))) = Ok [AConstructed 0 16 [ATime (mkASN1Time 2049 1 2 3 4 5)]].
Proof. vm_compute. split; reflexivity. Qed.

(** ** Properties *)



(** C29: what the ASN.1 writer wrote the reader reads.  Any values with a container
    among them, nested at most 32 deep, that fit the buffer, are written; parsing the
    bytes that Finalize leaves for values of the same types, as the macros of
    ASN1Macros.h do it, gives the same values, integers over all of int64_t, bit
    strings over uint32_t, times of the years 1950 to 9999 and object identifiers of
    the table included; and nothing follows them.  The values have tags of one byte
    (0 to 30), primitives of at most 65531 bytes and an encoding below 2^24 bytes. *)
Theorem ASN1_roundtrip ptr addr buf l : 0 <= ptr -> 0 <= addr -> Z.of_nat (length buf) < 4294967296 ->
  forallb item_ok l = true -> Z.of_nat (length (ders l)) < 16777216 -> (depths l <= 32)%nat -> 0 < all_containers l ->
  raw_sizes l + ptr * all_containers l <= aw_bufEnd (ASN1Writer_Init addr buf) ->
  let '(r, w) := write_items ptr l (ASN1Writer_Init addr buf) in
  let '(v, rd) := parse_items (map type_of l) (ASN1Reader_Init (output w)) in
  r = Ok tt /\ v = Ok l /\ fst (ASN1_Next rd) = Err ASN1_END.
Proof.
  intros Hp Ha Hb HO HL HD HC HF. destruct (all_sized l) as [HS _].
  assert (0 <= aw_bufEnd (ASN1Writer_Init addr buf)) as He by (pose proof (Z.mul_nonneg_nonneg ptr (all_containers l)); lia).
  pose proof (write_items_ok ptr addr buf l Hp Ha Hb HO HL He) as H. cbv zeta in H.
  destruct (write_items ptr l _) as [r w]. rewrite decide_True in H by done. destruct H as (-> & HOut & _).
  rewrite (proj2 (Z.ltb_lt 0 _) HC) in HOut. rewrite HOut.
  destruct (reads_items l ltac:(apply List.Forall_forall; intros i _; apply item_read) (ders l) [] [] 0 (len (ders l)) [] (ASN1Reader_Init (ders l))) as (rd & E & H);
    try done; [by rewrite app_nil_r|]. rewrite E. split; [done|]. split; [done|].
  destruct H as [_ HP HE _ HEo HI]. unfold ASN1_Next. rewrite HEo, HI. cbv zeta. rewrite HP, HE.
  unfold ResetElementState, set_ar_position. cbn [ar_ElemStart ar_ContainerEnd]. rewrite Z.add_0_l, Z.eqb_refl. done.
Qed.

Lemma ASN1_roundtrip_witness : let '(r, w) := write_items 8 example_items (ASN1Writer_Init 0 (replicate 160 7)) in
  let '(v, rd) := parse_items (map type_of example_items) (ASN1Reader_Init (output w)) in
  r = Ok tt /\ v = Ok example_items /\ fst (ASN1_Next rd) = Err ASN1_END.
Proof.
  apply (ASN1_roundtrip 8 0 (replicate 160 7) example_items); try lia; try (vm_compute; reflexivity); vm_compute; try lia; discriminate.
Defined.

(** C30: decoding the head of an element ends for every input but one.  In any state
    of the reader over a buffer of bytes, DecodeHead returns - it never reads outside
    of the buffer, and six turns of its loop over a long tag are enough - except when
    the element starts with a long tag (its low five bits are ones) whose next byte
    is 0x80: then the loop, which never moves to the next byte, does not end. *)
Theorem ASN1_DecodeHead_terminates r fuel : is_bytes (ar_buf r) -> 0 <= ar_ElemStart r -> (tag_fuel <= fuel)%nat ->
  DecodeHead_with fuel r = ASN1_DecodeHead r /\ fst (ASN1_DecodeHead r) <> Undefined /\
  (fst (ASN1_DecodeHead r) = Diverges <-> endless_head r).
Proof. apply DecodeHead_returns. Qed.

Lemma ASN1_DecodeHead_terminates_witness :
  fst (ASN1_DecodeHead (ASN1Reader_Init [31; 128; 1])) = Diverges /\ fst (ASN1_DecodeHead (ASN1Reader_Init [31; 129; 1])) = Err ASN1_ERROR_TAG_OVERFLOW /\
  fst (DecodeHead_with 100 (ASN1Reader_Init [2; 1; 5])) = Ok tt.
Proof.
  destruct (ASN1_DecodeHead_terminates (ASN1Reader_Init [31; 128; 1]) 6 ltac:(by apply byte_ok_spec) ltac:(done) ltac:(done)) as (_ & _ & H1).
  destruct (ASN1_DecodeHead_terminates (ASN1Reader_Init [2; 1; 5]) 100 ltac:(by apply byte_ok_spec) ltac:(done) ltac:(unfold tag_fuel; lia)) as (H2 & _).
  split; [apply H1; by exists [], 31, [1]|]. split; [reflexivity|]. rewrite H2. reflexivity.
Defined.
