(* ===== verification/CircularTLV.v ===== *)
(** * The circular TLV buffer (lib/core/WeaveCircularTLVBuffer.cpp)

    A ring of bytes that a TLV writer appends to and a TLV reader reads from; when it
    is full the oldest top-level element is read over and evicted.

    The ring is a list of bytes, pointers into it are offsets.  The head may be the
    offset just past the end, as in the code.  The callback mProcessEvictedElement is
    a parameter, with a state of its own; one that changes the ring is not modelled. *)
From S2P Require Import Prelude PacketBuffer Encoding TLVTypes TLVReader TLVReaderRefine TLVWriter TLVHead TLVTree TLVSkip.
Local Open Scope Z_scope.
Local Open Scope weave_scope.

Record CircularTLVBuffer := mkCircular {
  mQueue : list Z;
  mQueueHead : Z;
  mQueueLength : Z;
  mImplicitProfileId : Z }.

Definition mQueueSize (q : CircularTLVBuffer) : Z := Z.of_nat (length (mQueue q)).
Definition set_queue (head len : Z) (q : CircularTLVBuffer) : CircularTLVBuffer := mkCircular (mQueue q) head len (mImplicitProfileId q).
Definition set_memory (mem : list Z) (q : CircularTLVBuffer) : CircularTLVBuffer := mkCircular mem (mQueueHead q) (mQueueLength q) (mImplicitProfileId q).

(** The constructor.  kCommonProfileId is 0. *)
Definition CircularTLVBuffer_new (inBuffer : list Z) : CircularTLVBuffer := mkCircular inBuffer 0 0 0.

Definition QueueTail (q : CircularTLVBuffer) : Z := (mQueueHead q + mQueueLength q) mod mQueueSize q.
Definition Circular_DataLength (q : CircularTLVBuffer) : Z := mQueueLength q.
Definition Circular_AvailableDataLength (q : CircularTLVBuffer) : Z := mQueueSize q - mQueueLength q.

(** ** Reading *)

(** GetNextBuffer(ioReader, outBufStart, outBufLen): [readerStart] is the pointer
    passed in, [None] for NULL. *)
Definition Circular_GetNextBuffer (readerStart : option Z) (q : CircularTLVBuffer) : Z * Z :=
  let tail := QueueTail q in
  let bounded outBufStart :=
    if negb (mQueueLength q =? 0) && (tail <=? outBufStart)
    then (outBufStart, if (tail =? outBufStart) && (if readerStart is Some _ then true else false) then 0 else mQueueSize q - outBufStart)
    else (outBufStart, tail - outBufStart) in
  match readerStart with
  | None => bounded (if mQueueHead q =? mQueueSize q then 0 else mQueueHead q)
  | Some p => if mQueueSize q <=? p then bounded 0 else (p, 0)
  end.

(** The buffers the reader gets: the first by Init, the second when it is at the end
    of the first. *)
Definition first_buffer (q : CircularTLVBuffer) : Z * Z := Circular_GetNextBuffer None q.
Definition second_buffer (q : CircularTLVBuffer) : Z * Z :=
  let '(start, len) := first_buffer q in Circular_GetNextBuffer (Some (start + len)) q.
Definition buffer_bytes (q : CircularTLVBuffer) (b : Z * Z) : list Z := block_read (fst b) (snd b) (mQueue q).
Definition following_buffers (q : CircularTLVBuffer) : list (list Z) :=
  if snd (second_buffer q) =? 0 then [] else [buffer_bytes q (second_buffer q)].

(** CircularTLVReader::Init: what GetNextBuffer will supply is the rest of the chain
    of buffers.  The two buffers hold mMaxLen bytes, so no third one is asked for. *)
Definition CircularTLVReader_Init (q : CircularTLVBuffer) : TLVReader :=
  mkReader kProfileIdNotSpecified true AnonymousTag 0 (following_buffers q) (Some (buffer_bytes q (first_buffer q)))
    0 (Circular_DataLength q) kTLVType_NotSpecified kTLVControlByte_NotSpecified false.

(** GetReadPoint, as an offset: the end of the buffer the reader is in, less what it
    has not read of it. *)
Definition read_point (q : CircularTLVBuffer) (r : TLVReader) : Z :=
  let '(start, len) :=
    match mBufHandle r with
    | [] => if snd (second_buffer q) =? 0 then first_buffer q else second_buffer q
    | _ => first_buffer q
    end in
  start + len - Z.of_nat (length (default [] (mReadPoint r))).

Section Evict.
Context {A : Type} (mProcessEvictedElement : option (CircularTLVBuffer -> A -> TLVReader -> res unit * A)).

Definition EvictHead : M (CircularTLVBuffer * A) unit := fun s =>
  let '(q, app) := s in
  let reader := set_implicit (mImplicitProfileId q) (CircularTLVReader_Init q) in
  match (do* Next in Skip) reader with
  | (Ok _, reader') =>
    let newLen := mQueueLength q - GetLengthRead reader' in
    let newHead := read_point q reader' in
    match mProcessEvictedElement with
    | Some process =>
      match process q app reader with
      | (Ok _, app) => (Ok tt, (set_queue newHead newLen q, app))
      | (e, app) => (e, (q, app))
      end
    | None => (Ok tt, (set_queue newHead newLen q, app))
    end
  | (e, _) => (e, s)
  end.

(** ** Writing *)

(** GetNewBuffer(ioWriter, outBufStart, outBufLen): the tail is taken before the
    eviction. *)
Definition Circular_GetNewBuffer : M (CircularTLVBuffer * A) (Z * Z) :=
  let* tail := gets (fun s => QueueTail (fst s)) in
  do* (fun s => if mQueueSize (fst s) <=? mQueueLength (fst s) then EvictHead s else (Ok tt, s)) in
  gets (fun s => let q := fst s in
    (tail, if mQueueHead q <=? tail then mQueueSize q - tail else mQueueHead q - tail)).

(** FinalizeBuffer(ioWriter, inBufStart, inBufLen) *)
Definition Circular_FinalizeBuffer (inBufStart inBufLen : Z) (q : CircularTLVBuffer) : CircularTLVBuffer :=
  let tail := inBufStart + inBufLen in
  if inBufLen =? 0 then q
  else set_queue (mQueueHead q) (if tail <=? mQueueHead q then mQueueSize q + (tail - mQueueHead q) else tail - mQueueHead q) q.

(** The fields of a CircularTLVWriter that WriteData works on, with the ring. *)
Record CircularTLVWriter := mkCWriter {
  cw_queue : CircularTLVBuffer;
  cw_app : A;
  cw_bufStart : Z;
  cw_writePoint : Z;
  cw_remainingLen : Z;
  cw_lenWritten : Z }.

(** Init(buf).  An error of GetNewBuffer is not looked at: it leaves mBufStart and
    mRemainingLen as they were, uninitialised in a new writer. *)
Definition CircularTLVWriter_Init (q : CircularTLVBuffer) (app : A) : res CircularTLVWriter :=
  match Circular_GetNewBuffer (q, app) with
  | (Ok (start, len), (q, app)) => Ok (mkCWriter q app start start (u32 len) 0)
  | _ => Undefined
  end.

(** The lines of WriteData that go on to a new buffer.  mMaxLen is UINT32_MAX. *)
Definition next_buffer : M CircularTLVWriter unit := fun w =>
  let q := Circular_FinalizeBuffer (cw_bufStart w) (u32 (cw_writePoint w - cw_bufStart w)) (cw_queue w) in
  match Circular_GetNewBuffer (q, cw_app w) with
  | (Ok (start, len), (q, app)) =>
    (Ok tt, mkCWriter q app start start (Z.min (u32 len) (u32 (UINT32_MAX - cw_lenWritten w))) (cw_lenWritten w))
  | (Err e, (q, app)) => (Err e, mkCWriter q app (cw_bufStart w) (cw_writePoint w) (cw_remainingLen w) (cw_lenWritten w))
  | (Undefined, _) => (Undefined, w)
  | (Diverges, _) => (Diverges, w)
  end.
Definition store_bytes (p : list Z) (w : CircularTLVWriter) : CircularTLVWriter :=
  let n := Z.of_nat (length p) in
  mkCWriter (set_memory (block_write (cw_writePoint w) p (mQueue (cw_queue w))) (cw_queue w)) (cw_app w)
    (cw_bufStart w) (cw_writePoint w + n) (cw_remainingLen w - n) (u32 (cw_lenWritten w + n)).

Fixpoint Circular_WriteData_loop (fuel : nat) (p : list Z) : M CircularTLVWriter unit :=
  match p with
  | [] => ret tt
  | _ =>
    match fuel with
    | O => fun w => (Diverges, w)
    | S fuel =>
      do* (fun w => if cw_remainingLen w =? 0 then next_buffer w else (Ok tt, w)) in
      fun w =>
        let writeLen := Z.to_nat (Z.min (Z.of_nat (length p)) (cw_remainingLen w)) in
        Circular_WriteData_loop fuel (drop writeLen p) (store_bytes (take writeLen p) w)
    end
  end.
(** Every round stores a byte at least. *)
Definition Circular_WriteData (p : list Z) : M CircularTLVWriter unit := fun w =>
  if negb (u32 (cw_lenWritten w + Z.of_nat (length p)) <=? UINT32_MAX) then (Err WEAVE_ERROR_BUFFER_TOO_SMALL, w)
  else Circular_WriteData_loop (length p) p w.

(** The writer's Finalize, once no container is open. *)
Definition Circular_Finalize (w : CircularTLVWriter) : CircularTLVBuffer :=
  Circular_FinalizeBuffer (cw_bufStart w) (u32 (cw_writePoint w - cw_bufStart w)) (cw_queue w).

(** An element is written by several calls of WriteData. *)
Fixpoint write_all (ps : list (list Z)) : M CircularTLVWriter unit :=
  match ps with
  | [] => ret tt
  | p :: ps => do* Circular_WriteData p in write_all ps
  end.
(** A writer on the ring, the calls and Finalize. *)
Definition append_element (ps : list (list Z)) (q : CircularTLVBuffer) (app : A) : res (CircularTLVBuffer * A) :=
  match CircularTLVWriter_Init q app with
  | Ok w => match write_all ps w with
            | (Ok _, w) => Ok (Circular_Finalize w, cw_app w)
            | (Err e, _) => Err e
            | (Undefined, _) => Undefined
            | (Diverges, _) => Diverges
            end
  | Err e => Err e
  | Undefined => Undefined
  | Diverges => Diverges
  end.
End Evict.

(** ** What the ring holds *)

Definition contents (q : CircularTLVBuffer) : list Z :=
  let n := Z.min (mQueueLength q) (mQueueSize q - mQueueHead q) in
  block_read (mQueueHead q) n (mQueue q) ++ block_read 0 (mQueueLength q - n) (mQueue q).

Example ring_7 :
  let put p q := match append_element (A := unit) None p q tt with Ok (q, _) => q | _ => q end in
  let q := put [[5]; [1; 2]] (put [[8]] (CircularTLVBuffer_new (replicate 7 0))) in
  contents q = [8; 5; 1; 2] /\ contents (put [[6]; [1; 2; 3; 4]] q) = [6; 1; 2; 3; 4] /\
  contents (put [[12; 2]; [1; 1]] (put [[8]] q)) = [8; 12; 2; 1; 1] /\
  append_element (A := unit) None [[12; 6]; [1; 2; 3; 4; 5; 6]] q tt = Err WEAVE_ERROR_TLV_UNDERRUN.
Proof. vm_compute. repeat split. Qed.
