(* ===== verification/CircularTLVLog.v ===== *)
(** * The circular TLV buffer is a log of whole elements

    The abstract state of the ring is the list of the top-level elements it holds.
    Appending an element drops as many of the oldest ones as make room for it, and no
    more. *)
From S2P Require Import Prelude PacketBuffer Encoding TLVTypes TLVReader TLVReaderRefine TLVWriter TLVHead TLVTree TLVSkip CircularTLV.
Local Open Scope Z_scope.
Local Open Scope weave_scope.

Abbreviation len l := (Z.of_nat (length l)).

(** ** Where the reader is

    A reader only moves forward in its buffers: what is left of the current one and
    the ones that follow come from the end of what there was. *)
Definition left_over (r : TLVReader) : Z := len (current r) + len (concat (mBufHandle r)).
Record follows (r r' : TLVReader) : Prop := {
  fw_place : exists pre c, current r :: mBufHandle r = pre ++ c :: mBufHandle r' /\ (length (current r') <= length c)%nat;
  fw_count : mLenRead r' + left_over r' <= mLenRead r + left_over r;
  fw_read : 0 <= mLenRead r';
  fw_chain : GetNextBuffer r' = GetNextBuffer r }.
Definition forward {A} (m : M TLVReader A) : Prop := forall r a r', 0 <= mLenRead r -> m r = (Ok a, r') -> follows r r'.

Definition same_place (r r' : TLVReader) : Prop := mReadPoint r' = mReadPoint r /\ mBufHandle r' = mBufHandle r /\ mLenRead r' = mLenRead r /\
  GetNextBuffer r' = GetNextBuffer r.

Lemma follows_same r r' : 0 <= mLenRead r -> same_place r r' -> follows r r'.
Proof.
  intros H0 (HP & HB & HL & HG). split; [exists [], (current r)| | |done]; unfold left_over, current; rewrite ?HP, ?HB, ?HL; [|lia..]. split; [done|lia].
Qed.

Lemma follows_drop r r' n l : 0 <= mLenRead r -> 0 <= n <= len l -> mReadPoint r = Some l -> mReadPoint r' = Some (drop (Z.to_nat n) l) ->
  mBufHandle r' = mBufHandle r -> mLenRead r' = u32 (mLenRead r + n) -> GetNextBuffer r' = GetNextBuffer r -> follows r r'.
Proof.
  intros H0 Hn HP HP' HB HL HG. split; [exists [], (current r)| | |done]; unfold left_over, current; rewrite ?HP, ?HP', ?HB, ?HL; simpl; rewrite ?length_drop.
  - split; [done|lia].
  - mlia.
  - apply u32_range.
Qed.

Lemma follows_trans r s t : follows r s -> follows s t -> follows r t.
Proof.
  intros [(pre & c & E1 & L1) C1 N1 G1] [(pre2 & c2 & E2 & L2) C2 N2 G2]. split; [|lia|done|congruence].
  destruct pre2 as [|x pre2]; cbn [app] in E2; injection E2 as E2 E3.
  - exists pre, c. rewrite E1, E3. split; [done|]. rewrite E2 in L1. lia.
  - exists (pre ++ c :: pre2), c2. rewrite E1, E3, <- app_assoc. done.
Qed.

Lemma forward_bind {A B} (m : M TLVReader A) (f : A -> M TLVReader B) : forward m -> (forall a, forward (f a)) -> forward (bind m f).
Proof.
  intros Hm Hf r b r' H0 (a & s & E1 & E2)%bind_inv. pose proof (Hm r a s H0 E1) as H1.
  eapply follows_trans; [exact H1|]. eapply Hf; [apply H1|exact E2].
Qed.

Lemma forward_same {A} (f : TLVReader -> res A * TLVReader) :
  (forall r, same_place r (snd (f r))) -> forward f.
Proof. intros H r a r' H0 E. specialize (H r). rewrite E in H. by apply follows_same. Qed.

(** A step from a state that differs in other fields only. *)
Lemma forward_from {A} (m : M TLVReader A) r s a r' : forward m -> same_place r s -> 0 <= mLenRead r -> m s = (Ok a, r') -> follows r r'.
Proof.
  intros Hm HS H0 E. apply (follows_trans r s); [by apply follows_same|]. apply (Hm s a r'); [|done]. destruct HS as (_ & _ & -> & _). done.
Qed.

Lemma forward_ret {A} (a : A) : forward (ret a).
Proof. by apply forward_same. Qed.

Lemma forward_EnsureData e : forward (EnsureData e).
Proof.
  intros r a r' H0. unfold EnsureData. destruct (mReadPoint r) as [[|x l]|] eqn:EP; [|by intros [= _ <-]; apply follows_same..].
  destruct (_ =? _); [done|]. destruct (negb _); [done|]. destruct (mBufHandle r) as [|b rest] eqn:EB; [done|].
  cbv zeta. destruct (_ =? _); [done|]. intros [= _ <-].
  split; [exists [[]], b| |done|done]; unfold left_over, current; rewrite EP, EB; simpl; rewrite ?length_app, length_take; [split; [done|]|]; lia.
Qed.

Lemma forward_ReadData_loop fuel : forall n acc, forward (ReadData_loop fuel n acc).
Proof.
  induction fuel as [|fuel IH]; intros n acc; cbn [ReadData_loop]; destruct (negb _) eqn:EN; [apply forward_ret|done|apply forward_ret|].
  bool_prop. apply forward_bind; [apply forward_EnsureData|]. intros _ r a r' H0. destruct (mReadPoint r) as [l|] eqn:EP; [|done].
  cbv zeta. set (k := if _ <? _ then _ else _). intros E. eapply follows_trans; [|eapply IH; [|exact E]; apply u32_range].
  apply (follows_drop _ _ k l); try done. unfold k. pose proof (u32_range (len l)). destruct (Z.ltb_spec (u32 (len l)) n); mlia.
Qed.

Lemma forward_ReadHead n : 0 <= n -> forward (ReadHead n).
Proof.
  intros Hn r a r' H0. unfold ReadHead. destruct (mReadPoint r) as [l|] eqn:EP; [|done].
  destruct (Z.ltb_spec (len l) n); [by apply forward_ReadData_loop|]. intros [= _ <-]. by apply (follows_drop _ _ n l).
Qed.

Lemma forward_VerifyElement : forward VerifyElement.
Proof. apply forward_same. intros r. unfold VerifyElement. by destruct (VerifyElement_error r). Qed.

Lemma forward_ReadElement : forward ReadElement.
Proof.
  apply forward_bind; [apply forward_EnsureData|]. intros _ r a r' H0. destruct (mReadPoint r) as [[|c l]|] eqn:EP; [done| |done].
  cbv zeta. destruct (negb _); [done|]. refine (forward_from (bind (ReadHead _) _) r (set_control c r) a r' _ _ H0); [|done].
  pose proof (head_bytes_bound c). apply forward_bind; [apply forward_ReadHead; lia|]. intros p s b s' Hs. destruct (ReadTag _ _ _) as [tag p'].
  refine (forward_from VerifyElement s _ b s' forward_VerifyElement _ Hs). done.
Qed.

Lemma forward_SkipData : forward SkipData.
Proof.
  intros r a r' H0. unfold SkipData. destruct (TLVTypeHasLength _); [|by apply forward_ret].
  apply (forward_bind (ReadData _)); [intros s b s'; apply forward_ReadData_loop|intros; apply forward_ret|done].
Qed.

Lemma forward_SkipToEnd_loop fuel : forall outer nest, forward (SkipToEndOfContainer_loop fuel outer nest).
Proof.
  induction fuel as [|fuel IH]; intros outer nest; cbn [SkipToEndOfContainer_loop]; [done|].
  assert (forall n, forward (do* SkipData in do* ReadElement in SkipToEndOfContainer_loop fuel outer n)) as Hgo.
  { intros n. apply forward_bind; [apply forward_SkipData|intros _]. apply forward_bind; [apply forward_ReadElement|intros _; apply IH]. }
  intros r a r' H0. cbv zeta. destruct (_ =? _).
  - destruct (_ =? _); [by apply (forward_ret tt)|]. by apply (forward_from _ _ _ _ _ (Hgo _)).
  - destruct (TLVTypeIsContainer _); [by apply (forward_from _ _ _ _ _ (Hgo _))|by apply Hgo].
Qed.

Lemma forward_Skip : forward Skip.
Proof.
  intros r a r' H0. unfold Skip. destruct (_ =? _); [done|]. destruct (TLVTypeIsContainer _) eqn:EC.
  - apply forward_bind; [| |done].
    + intros s b s' Hs. unfold EnterContainer. destruct (negb _); [done|]. intros [= _ <-]. by apply follows_same.
    + intros o. apply forward_bind; [|intros _; by apply forward_same]. intros s b s' Hs. unfold SkipToEndOfContainer.
      by apply (forward_from _ _ _ _ _ (forward_SkipToEnd_loop _ _ _)).
  - apply forward_bind; [apply forward_SkipData|intros _; by apply forward_same|done].
Qed.

Lemma forward_Next : forward Next.
Proof.
  apply forward_bind; [apply forward_Skip|]. intros _. apply forward_bind; [apply forward_ReadElement|]. intros _.
  apply forward_same. intros r. by destruct (_ =? _).
Qed.

(** ** The ring *)

Record ring_ok (q : CircularTLVBuffer) : Prop := {
  ring_size : 0 < mQueueSize q < 4294967296;
  ring_head : 0 <= mQueueHead q <= mQueueSize q;
  ring_len : 0 <= mQueueLength q <= mQueueSize q }.

Lemma QueueTail_cases q : ring_ok q ->
  QueueTail q = if mQueueHead q + mQueueLength q <? mQueueSize q then mQueueHead q + mQueueLength q
                else if mQueueHead q + mQueueLength q <? 2 * mQueueSize q then mQueueHead q + mQueueLength q - mQueueSize q else 0.
Proof.
  intros [HS HH HL]. unfold QueueTail.
  destruct (Z.ltb_spec (mQueueHead q + mQueueLength q) (mQueueSize q)); [by rewrite Z.mod_small by lia|].
  destruct (Z.ltb_spec (mQueueHead q + mQueueLength q) (2 * mQueueSize q)).
  - rewrite <- (Z.mod_add _ (-1)) by lia. apply Z.mod_small. lia.
  - rewrite <- (Z.mod_add _ (-2)) by lia. rewrite Z.mod_small; lia.
Qed.

(** Splits on every comparison of the goal. *)
Ltac zcases := repeat match goal with
  | |- context [?a <? ?b] => destruct (Z.ltb_spec a b)
  | |- context [?a <=? ?b] => destruct (Z.leb_spec a b)
  | |- context [?a =? ?b] => destruct (Z.eqb_spec a b)
  end; cbn [andb negb fst snd]; try lia.

(** The two buffers of a reader. *)
Lemma first_buffer_eq q : ring_ok q -> first_buffer q =
  (if mQueueHead q =? mQueueSize q then (0, mQueueLength q) else (mQueueHead q, Z.min (mQueueLength q) (mQueueSize q - mQueueHead q))).
Proof.
  intros H. pose proof H as [HS HH HL]. unfold first_buffer, Circular_GetNextBuffer. rewrite (QueueTail_cases q H), andb_false_r.
  zcases; f_equal; lia.
Qed.

Lemma second_buffer_len q : ring_ok q -> snd (second_buffer q) =
  (if mQueueHead q =? mQueueSize q then 0 else Z.max 0 (mQueueLength q - (mQueueSize q - mQueueHead q))).
Proof.
  intros H. pose proof H as [HS HH HL]. unfold second_buffer. rewrite (first_buffer_eq q H). unfold Circular_GetNextBuffer. rewrite (QueueTail_cases q H).
  zcases.
Qed.

Lemma second_buffer_start q : ring_ok q -> snd (second_buffer q) <> 0 -> fst (second_buffer q) = 0.
Proof.
  intros H. pose proof H as [HS HH HL]. unfold second_buffer. rewrite (first_buffer_eq q H). unfold Circular_GetNextBuffer. rewrite (QueueTail_cases q H).
  zcases.
Qed.

Lemma contents_length q : ring_ok q -> len (contents q) = mQueueLength q.
Proof.
  intros [HS HH HL]. unfold contents. cbv zeta. unfold mQueueSize in *. rewrite length_app, Nat2Z.inj_add, !block_read_length; lia.
Qed.

Lemma block_read_none off l : block_read off 0 l = [].
Proof. done. Qed.

Lemma buffers_contents q : ring_ok q -> buffer_bytes q (first_buffer q) ++ concat (following_buffers q) = contents q.
Proof.
  intros H. pose proof H as [HS HH HL]. unfold following_buffers, contents, buffer_bytes. rewrite (first_buffer_eq q H), (second_buffer_len q H).
  pose proof (second_buffer_start q H) as H0. rewrite (second_buffer_len q H) in H0. cbv zeta.
  destruct (Z.eqb_spec (mQueueHead q) (mQueueSize q)) as [E|E]; cbn [fst snd].
  - rewrite Z.eqb_refl, E, Z.sub_diag, Z.min_r, Z.sub_0_r, app_nil_r by lia. done.
  - destruct (Z.eqb_spec (Z.max 0 (mQueueLength q - (mQueueSize q - mQueueHead q))) 0) as [E0|E0]; cbn [concat].
    + rewrite Z.min_l by lia. by rewrite Z.sub_diag.
    + rewrite H0, app_nil_r by done. do 2 f_equal. lia.
Qed.

Lemma first_buffer_length q : ring_ok q -> len (buffer_bytes q (first_buffer q)) = snd (first_buffer q).
Proof.
  intros H. pose proof H as [HS HH HL]. unfold buffer_bytes. unfold mQueueSize in HS. rewrite (first_buffer_eq q H). unfold mQueueSize in *.
  destruct (_ =? _); cbn [fst snd]; rewrite block_read_length; lia.
Qed.

Lemma second_buffer_length q : ring_ok q -> snd (second_buffer q) <> 0 -> len (buffer_bytes q (second_buffer q)) = snd (second_buffer q).
Proof.
  intros H E. pose proof H as [HS HH HL]. pose proof (second_buffer_start q H E) as H0. pose proof (second_buffer_len q H) as H2.
  unfold buffer_bytes. rewrite H0. revert H2. unfold mQueueSize in *. zcases; intros; rewrite block_read_length; lia.
Qed.

Lemma following_ok q : ring_ok q -> Forall chunk_ok (following_buffers q).
Proof.
  intros H. pose proof H as [HS HH HL]. unfold following_buffers. destruct (Z.eqb_spec (snd (second_buffer q)) 0) as [E|E]; [constructor|].
  constructor; [|constructor]. pose proof (second_buffer_length q H E) as HB. pose proof (second_buffer_len q H) as H2.
  assert (0 < snd (second_buffer q) < 4294967296) by (revert H2 E; zcases).
  split; [|lia]. intros E0. rewrite E0 in HB. simpl in HB. lia.
Qed.

Definition ring_reader (q : CircularTLVBuffer) : TLVReader := set_implicit (mImplicitProfileId q) (CircularTLVReader_Init q).

Lemma ring_reader_wf q : ring_ok q -> wf (ring_reader q).
Proof.
  intros H. pose proof H as [HS HH HL]. exists (buffer_bytes q (first_buffer q)). split; [done|]. cbn. split; [done|]. split; [|by apply following_ok].
  rewrite first_buffer_length, first_buffer_eq by done. unfold Circular_DataLength. destruct (_ =? _); cbn [snd]; lia.
Qed.

Lemma ring_reader_flat q : ring_ok q -> flat (ring_reader q) = contents q.
Proof.
  intros H. pose proof (contents_length q H) as HC. rewrite <- (buffers_contents q H) in HC |- *. rewrite length_app in HC.
  unfold flat, current, ring_reader. cbn [set_implicit CircularTLVReader_Init mReadPoint GetNextBuffer mMaxLen mLenRead mBufHandle default Circular_DataLength].
  f_equal. apply take_ge. unfold Circular_DataLength, id. lia.
Qed.


(** GetReadPoint after [mLenRead r] bytes. *)
Lemma read_point_spec q r : ring_ok q -> follows (ring_reader q) r -> len (flat r) = mQueueLength q - mLenRead r ->
  mMaxLen r = mQueueLength q ->
  let head := read_point q r in
  (mLenRead r <= mQueueSize q - mQueueHead q /\ head = mQueueHead q + mLenRead r) \/
  head = mQueueHead q + mLenRead r - mQueueSize q /\ mQueueSize q - mQueueHead q <= mLenRead r.
Proof.
  intros H [(pre & c & E & L) HC HR HG] HF HM. pose proof H as [HS HH HL]. cbv zeta. unfold flat in HF. change (GetNextBuffer (ring_reader q)) with true in HG. rewrite HG, HM, length_app, length_take in HF.
  assert (mLenRead r + len (current r) + len (concat (mBufHandle r)) <= mQueueLength q) as HA.
  { unfold left_over in HC. pose proof (contents_length q H) as HL0. rewrite <- (buffers_contents q H), length_app in HL0.
    change (current (ring_reader q)) with (buffer_bytes q (first_buffer q)) in HC. change (mBufHandle (ring_reader q)) with (following_buffers q) in HC.
    change (mLenRead (ring_reader q)) with 0 in HC. lia. }
  change (current (ring_reader q)) with (buffer_bytes q (first_buffer q)) in E. change (mBufHandle (ring_reader q)) with (following_buffers q) in E.
  pose proof (first_buffer_length q H) as L1. pose proof (second_buffer_len q H) as L2. pose proof (second_buffer_start q H) as S2.
  pose proof (second_buffer_length q H) as B2. pose proof (first_buffer_eq q H) as EF. unfold following_buffers in E.
  unfold read_point. change (default [] (mReadPoint r)) with (current r).
  destruct (Z.eqb_spec (snd (second_buffer q)) 0) as [E2|E2].
  - assert (c = buffer_bytes q (first_buffer q) /\ mBufHandle r = []) as [-> EB].
    { destruct pre as [|x [|y pre]]; cbn [app] in E; by simplify_eq/=. }
    rewrite EB in *. cbn [concat length] in HF, HA. rewrite EF in *. rewrite E2 in L2. revert L1 L2. zcases; intros; cbn [fst snd] in *; lia.
  - destruct pre as [|x [|y pre]]; cbn [app] in E; [injection E as E1 E3|injection E as E1 E3 E4|by destruct pre; injection E].
    + rewrite <- E3 in *. cbn [concat] in HF, HA. rewrite app_nil_r in HF, HA. specialize (B2 E2). rewrite <- E1, EF in *. revert L1 L2. zcases; intros; cbn [fst snd] in *; lia.
    + rewrite <- E4 in *. rewrite <- E3 in L. specialize (B2 E2). specialize (S2 E2).
      destruct (second_buffer q) as [s2 n2]. cbn [fst snd] in *. subst s2. rewrite EF in *. revert L1 L2. cbn [concat length] in HF, HA. zcases; intros; cbn [fst snd] in *; lia.
Qed.

(** ** Eviction *)

Lemma Next_enc t r rest : wf r -> done_elem r -> is_profile (ImplicitProfileId r) -> valid (mContainerType r) t ->
  flat r = enc (mContainerType r) (ImplicitProfileId r) t ++ rest ->
  exists r', Next r = (Ok tt, r') /\ at_elem t r' rest /\ same_context r r'.
Proof.
  intros Hw Hd Hi Hv Hf. rewrite enc_parts in Hf.
  assert (let '(et, tag, v) := elem_parts t in tag_ok (mContainerType r) tag /\ is_elem_type et /\ et <> 24 /\
    (TLVTypeHasLength et = true -> field_value et v = len (elem_data (ImplicitProfileId r) t))) as HP.
  { destruct (is_container t) eqn:EC.
    - destruct t as [| | | | | | |tag c ts]; try done. destruct Hv as (Ht & Hc & _). cbn [elem_parts].
      assert (c = 21 \/ c = 22 \/ c = 23) as [-> |[-> | ->]] by lia; by repeat split; (apply Ht || done).
    - pose proof (simple_parts _ t EC Hv) as HP. replace (elem_data (ImplicitProfileId r) t) with (elem_data 0 t) by (by destruct t).
      destruct (elem_parts t) as [[et tag] v]. destruct HP as (P1 & P2 & P3 & P4 & P5). split; [done|]. split; [done|]. split; [done|].
      intros HL. rewrite HL in P5. by destruct P5. }
  pose proof (Next_element r) as HN. unfold at_elem. destruct (elem_parts t) as [[et tag] v]. destruct HP as (P1 & P2 & P3 & P4).
  destruct (HN et tag v (elem_data (ImplicitProfileId r) t ++ rest)) as (r' & E & Hw' & Hf' & Hs & H1 & H2 & H3); try done.
  - by rewrite Hf, <- app_assoc.
  - intros HL. rewrite (P4 HL), length_app. lia.
  - exists r'. split; [done|]. split; [|done]. pose proof Hs as (S1 & _). by rewrite S1.
Qed.

Lemma conserves_Next : conserves Next.
Proof.
  apply conserves_bind; [apply conserves_Skip|intros _]. apply conserves_bind; [apply conserves_ReadElement|intros _].
  intros r a r' Hw. destruct (_ =? _); [done|]. by intros [= _ <-].
Qed.

(** The element at the start of a reader, read over: where that leaves the reader. *)
Lemma Next_Skip_enc q t rest : ring_ok q -> is_profile (mImplicitProfileId q) -> valid (-1) t ->
  contents q = enc (-1) (mImplicitProfileId q) t ++ rest ->
  exists r, (do* Next in Skip) (ring_reader q) = (Ok tt, r) /\ mLenRead r = len (enc (-1) (mImplicitProfileId q) t) /\
    flat r = rest /\ follows (ring_reader q) r /\ mMaxLen r = mQueueLength q.
Proof.
  intros H Hi Hv HC. pose proof (ring_reader_wf q H) as Hw. pose proof (ring_reader_flat q H) as Hf.
  destruct (Next_enc t (ring_reader q) rest Hw) as (r1 & E1 & HA & S1 & S2 & S3); try done; [by rewrite Hf|].
  destruct (Skip_elem t r1 rest HA) as (r2 & E2 & Hw2 & Hf2 & (T1 & T2 & T3) & _); [by rewrite S1|by rewrite S3|].
  assert ((do* Next in Skip) (ring_reader q) = (Ok tt, r2)) as E by (by rewrite (bind_ok _ _ _ _ _ E1)).
  assert (follows (ring_reader q) r2) as HF by (eapply (forward_bind Next _ forward_Next (fun _ => forward_Skip)); [|exact E]; done).
  exists r2. split; [done|]. split; [|split; [done|split; [done|]]].
  - assert (total r2 = total (ring_reader q)) as HT.
    { apply (conserves_bind Next (fun _ => Skip) conserves_Next (fun _ => conserves_Skip) _ _ _ Hw E). }
    unfold total in HT. rewrite Hf, Hf2, HC, length_app in HT. change (mLenRead (ring_reader q)) with 0 in HT. lia.
  - rewrite T2, S2. done.
Qed.

Lemma read_point_contents q r n : ring_ok q -> follows (ring_reader q) r -> len (flat r) = mQueueLength q - n ->
  mLenRead r = n -> mMaxLen r = mQueueLength q -> n <= mQueueLength q ->
  let q' := set_queue (read_point q r) (mQueueLength q - n) q in
  ring_ok q' /\ contents q' = drop (Z.to_nat n) (contents q) /\ QueueTail q' = QueueTail q.
Proof.
  intros H HF HL HR HM Hn. pose proof (fw_read _ _ HF) as H0. pose proof (read_point_spec q r H HF ltac:(lia) HM) as HP. cbv zeta in HP.
  pose proof H as [HS HH HQ]. cbv zeta. set (head := read_point q r) in *. rewrite HR in *.
  assert (ring_ok (set_queue head (mQueueLength q - n) q)) as HO.
  { split; unfold set_queue, mQueueSize in *; cbn [mQueue mQueueHead mQueueLength]; lia. }
  split; [done|]. split.
  - unfold contents, set_queue. cbn [mQueue mQueueHead mQueueLength]. change (mQueueSize (mkCircular (mQueue q) _ _ _)) with (mQueueSize q). cbv zeta.
    assert (forall k, 0 <= k <= mQueueSize q -> len (block_read (mQueueHead q) (Z.min k (mQueueSize q - mQueueHead q)) (mQueue q)) = Z.min k (mQueueSize q - mQueueHead q)) as HB.
    { intros k Hk. rewrite block_read_length; unfold mQueueSize in *; lia. }
    specialize (HB (mQueueLength q) HQ). destruct HP as [[HP ->]|[-> HP]].
    + rewrite drop_app_le, block_read_drop by lia. f_equal; f_equal; lia.
    + rewrite drop_app_ge by lia. rewrite Z.min_l by lia. replace (mQueueLength q - n - (mQueueLength q - n)) with 0 by lia. rewrite block_read_none, app_nil_r.
      replace (Z.to_nat n - length _)%nat with (Z.to_nat (n - (mQueueSize q - mQueueHead q))) by lia.
      rewrite block_read_drop by lia. f_equal; lia.
  - rewrite !QueueTail_cases by done. unfold set_queue. cbn [mQueueHead mQueueLength]. change (mQueueSize (mkCircular (mQueue q) _ _ _)) with (mQueueSize q). zcases.
Qed.

(** ** The free part of the ring *)

(** How much GetNewBuffer gives at the tail. *)
Definition room (q : CircularTLVBuffer) : Z :=
  if mQueueHead q <=? QueueTail q then mQueueSize q - QueueTail q else mQueueHead q - QueueTail q.

Lemma room_bounds q : ring_ok q -> mQueueLength q < mQueueSize q ->
  0 <= QueueTail q /\ 0 < room q /\ QueueTail q + room q <= mQueueSize q /\ mQueueLength q + room q <= mQueueSize q.
Proof. intros H HF. pose proof H as [HS HH HL]. unfold room. rewrite (QueueTail_cases q H). zcases. Qed.

Lemma set_memory_ok q mem : ring_ok q -> length mem = length (mQueue q) -> ring_ok (set_memory mem q).
Proof. intros [HS HH HL] E. split; unfold mQueueSize, set_memory in *; cbn [mQueue mQueueHead mQueueLength]; by rewrite E. Qed.

(** What is written in the free part is not seen in the ring, ... *)
Lemma contents_store q off p : ring_ok q -> mQueueLength q < mQueueSize q -> QueueTail q <= off -> off + len p <= QueueTail q + room q ->
  contents (set_memory (block_write off p (mQueue q)) q) = contents q.
Proof.
  intros H HF. pose proof H as [HS HH HL]. pose proof (room_bounds q H HF) as (B1 & B2 & B3 & _). unfold contents, room in *. revert B1 B2 B3.
  assert (forall l, mQueueSize (set_memory (block_write off l (mQueue q)) q) = len (block_write off l (mQueue q))) as -> by done.
  rewrite (QueueTail_cases q H). cbn [set_memory mQueue mQueueHead mQueueLength]. unfold mQueueSize in *.
  assert (forall a n, (0 <= n -> 0 <= a /\ (a + n <= off \/ off + len p <= a)) -> 0 <= off -> off + len p <= len (mQueue q) -> 
    block_read a n (block_write off p (mQueue q)) = block_read a n (mQueue q)) as HR.
  { intros a n Ha H1 H2. destruct (Z.leb_spec 0 n); [|unfold block_read; by replace (Z.to_nat n) with 0%nat by lia].
    destruct (Ha ltac:(done)) as [H3 [H4|H4]]; [apply block_read_write_before|apply block_read_write_after]; lia. }
  zcases; intros; rewrite block_write_length by lia; f_equal; apply HR; lia.
Qed.

(** ... and FinalizeBuffer appends it. *)
Lemma Finalize_appends q x : ring_ok q -> mQueueLength q < mQueueSize q -> len x <= room q -> block_read (QueueTail q) (len x) (mQueue q) = x ->
  let q' := Circular_FinalizeBuffer (QueueTail q) (len x) q in
  ring_ok q' /\ contents q' = contents q ++ x.
Proof.
  intros H HF Hx HR. pose proof H as [HS HH HL]. pose proof (room_bounds q H HF) as (B1 & B2 & B3 & B4). cbv zeta. unfold Circular_FinalizeBuffer.
  destruct (Z.eqb_spec (len x) 0) as [E|E]; [destruct x; [by rewrite app_nil_r|done]|].
  assert (0 < len x) as H0 by lia. assert (mQueueLength q + len x <= mQueueSize q) as H1 by lia.
  assert ((if QueueTail q + len x <=? mQueueHead q then mQueueSize q + (QueueTail q + len x - mQueueHead q) else QueueTail q + len x - mQueueHead q) = mQueueLength q + len x) as ->.
  { revert Hx. unfold room. rewrite (QueueTail_cases q H). zcases. }
  split; [split; unfold set_queue, mQueueSize in *; cbn [mQueue mQueueHead mQueueLength]; lia|].
  rewrite <- HR at 2. unfold contents. cbn [set_queue mQueue mQueueHead mQueueLength]. change (mQueueSize (set_queue _ _ q)) with (mQueueSize q). cbv zeta.
  revert Hx. unfold room. rewrite (QueueTail_cases q H). destruct (Z.ltb_spec (mQueueHead q + mQueueLength q) (mQueueSize q)).
  - zcases. intros Hx. rewrite !Z.min_l by lia. rewrite !Z.sub_diag, !block_read_none, !app_nil_r. apply block_read_split; lia.
  - zcases. intros Hx. rewrite !Z.min_r by lia. rewrite <- app_assoc. f_equal.
    replace (mQueueHead q + mQueueLength q - mQueueSize q) with (0 + (mQueueLength q - (mQueueSize q - mQueueHead q))) by lia.
    rewrite <- block_read_split by lia. f_equal. lia.
Qed.

(** ** The log

    [ts] are elements of the log and [n] the bytes that go after them: dropping stops
    as soon as there is room. *)
Definition evicts (size impl n : Z) (ts ts' : list tlv) : Prop :=
  exists k, ts' = drop k ts /\ forall j, (j < k)%nat -> size < len (enc_list (-1) impl (drop j ts)) + n.

Lemma evicts_refl size impl n ts : evicts size impl n ts ts.
Proof. exists 0%nat. split; [by rewrite drop_0|lia]. Qed.

Lemma evicts_one size impl n t ts : size < len (enc_list (-1) impl (t :: ts)) + n -> evicts size impl n (t :: ts) ts.
Proof. intros H. exists 1%nat. split; [done|]. intros j Hj. replace j with 0%nat by lia. done. Qed.

Lemma evicts_trans size impl n m ts ts' ts'' : n <= m -> evicts size impl n ts ts' -> evicts size impl m ts' ts'' -> evicts size impl m ts ts''.
Proof.
  intros Hn (k & -> & H1) (k2 & -> & H2). exists (k + k2)%nat. split; [by rewrite drop_drop|]. intros j Hj.
  destruct (Nat.lt_ge_cases j k) as [Hk|Hk]; [specialize (H1 j Hk); lia|]. specialize (H2 (j - k)%nat ltac:(lia)). rewrite drop_drop in H2.
  by replace (k + (j - k))%nat with j in H2 by lia.
Qed.

Lemma evicts_mono size impl n m ts ts' : n <= m -> evicts size impl n ts ts' -> evicts size impl m ts ts'.
Proof. intros Hn (k & -> & H). exists k. split; [done|]. intros j Hj. specialize (H j Hj). lia. Qed.

Lemma evicts_valid size impl n ts ts' : evicts size impl n ts ts' -> valid_list (-1) ts -> valid_list (-1) ts'.
Proof. intros (k & -> & _). clear n. revert ts. induction k as [|k IH]; intros [|t ts]; try done. intros [_ H]. by apply IH. Qed.

Abbreviation log impl ts := (enc_list (-1) impl ts).

Section Log.
Context {A : Type} (process : option (CircularTLVBuffer -> A -> TLVReader -> res unit * A)).
(** The callback, if there is one, lets every element go. *)
Definition lets_go : Prop := match process with Some f => forall q a r, fst (f q a r) = Ok tt | None => True end.
Context (HGo : lets_go).

Lemma EvictHead_ok q app t rest : ring_ok q -> is_profile (mImplicitProfileId q) -> valid (-1) t ->
  contents q = enc (-1) (mImplicitProfileId q) t ++ rest ->
  exists head app', let q' := set_queue head (len rest) q in
  EvictHead process (q, app) = (Ok tt, (q', app')) /\ ring_ok q' /\ contents q' = rest /\ QueueTail q' = QueueTail q.
Proof.
  intros H Hi Hv HC. destruct (Next_Skip_enc q t rest H Hi Hv HC) as (r & E & HR & Hf & HF & HM). pose proof (contents_length q H) as HL.
  rewrite HC, length_app in HL.
  destruct (read_point_contents q r (len (enc (-1) (mImplicitProfileId q) t)) H HF ltac:(rewrite Hf; lia) HR HM ltac:(lia)) as (H1 & H2 & H3).
  rewrite HC, Nat2Z.id, drop_app_length in H2.
  replace (mQueueLength q - len (enc (-1) (mImplicitProfileId q) t)) with (len rest) in * by lia.
  unfold EvictHead. change (set_implicit (mImplicitProfileId q) (CircularTLVReader_Init q)) with (ring_reader q). rewrite E. cbv zeta. unfold GetLengthRead. rewrite HR.
  replace (mQueueLength q - len (enc (-1) (mImplicitProfileId q) t)) with (len rest) by lia.
  unfold lets_go in HGo. destruct process as [f|]; [|by exists (read_point q r), app].
  specialize (HGo q app (ring_reader q)). destruct (f q app (ring_reader q)) as [e app']. cbn [fst] in HGo. subst e. by exists (read_point q r), app'.
Qed.

Lemma GetNewBuffer_ok q app ts y n : ring_ok q -> is_profile (mImplicitProfileId q) -> valid_list (-1) ts ->
  contents q = log (mImplicitProfileId q) ts ++ y -> len y < n <= mQueueSize q ->
  exists ts' head app', let q' := set_queue head (len (log (mImplicitProfileId q) ts' ++ y)) q in
  Circular_GetNewBuffer process (q, app) = (Ok (QueueTail q', room q'), (q', app')) /\ ring_ok q' /\ mQueueLength q' < mQueueSize q /\
  contents q' = log (mImplicitProfileId q) ts' ++ y /\ evicts (mQueueSize q) (mImplicitProfileId q) n ts ts'.
Proof.
  intros H Hi Hv HC Hn. pose proof H as [HS HH HL]. pose proof (contents_length q H) as HCL. rewrite HC in HCL. unfold Circular_GetNewBuffer, bind, gets. cbn [fst].
  destruct (Z.leb_spec (mQueueSize q) (mQueueLength q)) as [HF|HF].
  - destruct ts as [|t ts]; [simpl in HCL; lia|]. destruct Hv as [Hv Hvs]. unfold enc_list in HC, HCL. cbn [map concat] in HC, HCL.
    rewrite <- app_assoc in HC, HCL. destruct (EvictHead_ok q app t _ H Hi Hv HC) as (head & app' & E & H1 & H2 & H3).
    exists ts, head, app'. cbv zeta. rewrite E. cbn [fst]. pose proof (enc_nonempty (-1) (mImplicitProfileId q) t Hv Hi) as HN. rewrite length_app in HCL.
    unfold enc_list. split; [unfold room; rewrite H3; done|]. split; [done|]. split; [unfold set_queue; cbn [mQueueLength]; lia|]. split; [done|].
    apply evicts_one. unfold enc_list. cbn [map concat]. rewrite length_app. rewrite length_app in HCL. lia.
  - exists ts, (mQueueHead q), app. cbv zeta. rewrite HCL. replace (set_queue (mQueueHead q) (mQueueLength q) q) with q by (by destruct q). 
    split; [done|]. split; [done|]. split; [done|]. split; [done|]. apply evicts_refl.
Qed.

(** A writer that has written [y ++ x] after the elements [ts], [x] of it since
    FinalizeBuffer. *)
Record writing (size impl : Z) (ts : list tlv) (y x : list Z) (w : @CircularTLVWriter A) : Prop := {
  wr_ring : ring_ok (cw_queue w);
  wr_size : mQueueSize (cw_queue w) = size;
  wr_impl : mImplicitProfileId (cw_queue w) = impl;
  wr_free : mQueueLength (cw_queue w) < size;
  wr_contents : contents (cw_queue w) = log impl ts ++ y;
  wr_start : cw_bufStart w = QueueTail (cw_queue w);
  wr_point : cw_writePoint w = cw_bufStart w + len x;
  wr_bytes : block_read (QueueTail (cw_queue w)) (len x) (mQueue (cw_queue w)) = x;
  wr_room : 0 <= cw_remainingLen w /\ len x + cw_remainingLen w <= room (cw_queue w);
  wr_written : cw_lenWritten w = len y + len x }.

Context (size impl : Z) (Himpl : is_profile impl).

Lemma store_ok ts y x w p : writing size impl ts y x w -> len p <= cw_remainingLen w -> writing size impl ts y (x ++ p) (store_bytes p w).
Proof.
  intros [H E1 E2 HF HC E3 E4 HB HR HW] Hp. pose proof (room_bounds _ H ltac:(by rewrite E1)) as (B1 & B2 & B3 & B4). pose proof H as [HS HH HL].
  pose proof (block_write_length (cw_writePoint w) p (mQueue (cw_queue w)) ltac:(lia) ltac:(unfold mQueueSize in *; lia)) as HLen.
  unfold store_bytes. split; cbn [cw_queue cw_bufStart cw_writePoint cw_remainingLen cw_lenWritten].
  - by apply set_memory_ok.
  - rewrite <- E1. unfold mQueueSize, set_memory. cbn [mQueue]. by rewrite HLen.
  - done.
  - done.
  - rewrite contents_store; [done|done|by rewrite E1|lia|lia].
  - rewrite E3. unfold QueueTail, mQueueSize, set_memory. cbn [mQueue mQueueHead mQueueLength]. by rewrite HLen.
  - rewrite length_app. lia.
  - cbn [set_memory mQueue]. unfold QueueTail, mQueueSize. cbn [set_memory mQueue mQueueHead mQueueLength]. rewrite HLen.
    fold (mQueueSize (cw_queue w)). fold (QueueTail (cw_queue w)). rewrite length_app, Nat2Z.inj_add, block_read_split by lia.
    rewrite E4, E3. rewrite block_read_write_before by (unfold mQueueSize in *; lia). rewrite HB. f_equal.
    apply block_read_write; unfold mQueueSize in *; lia.
  - unfold room, QueueTail, mQueueSize. cbn [set_memory mQueue mQueueHead mQueueLength]. rewrite HLen, length_app.
    fold (mQueueSize (cw_queue w)). fold (QueueTail (cw_queue w)). fold (room (cw_queue w)). lia.
  - rewrite HW, length_app, u32_id; [lia|].
    assert (len y <= mQueueLength (cw_queue w)) by (rewrite <- (contents_length _ H), HC, length_app; lia). lia.
Qed.

Lemma ring_Finalize_ok ts y x w : writing size impl ts y x w ->
  let q := Circular_Finalize w in ring_ok q /\ contents q = log impl ts ++ y ++ x /\ mQueueSize q = size /\ mImplicitProfileId q = impl.
Proof.
  intros [H E1 E2 HF HC E3 E4 HB HR HW]. unfold Circular_Finalize. rewrite E4, E3. pose proof (room_bounds _ H ltac:(by rewrite E1)) as (B1 & B2 & B3 & B4).
  pose proof H as [HS HH HL]. replace (u32 (QueueTail (cw_queue w) + len x - QueueTail (cw_queue w))) with (len x) by (rewrite u32_id; lia).
  destruct (Finalize_appends (cw_queue w) x H ltac:(by rewrite E1) ltac:(lia) HB) as [F1 F2].
  split; [done|]. split; [by rewrite F2, HC, <- app_assoc|]. unfold Circular_FinalizeBuffer, set_queue, mQueueSize in *. by destruct (_ =? _).
Qed.

Lemma next_buffer_ok ts y x w n : writing size impl ts y x w -> valid_list (-1) ts -> len y + len x < n <= size ->
  exists ts' w', next_buffer process w = (Ok tt, w') /\ writing size impl ts' (y ++ x) [] w' /\ 0 < cw_remainingLen w' /\ evicts size impl n ts ts'.
Proof.
  intros HW Hv Hn. destruct (ring_Finalize_ok ts y x w HW) as (F1 & F2 & F3 & F4). unfold next_buffer. fold (Circular_Finalize w).
  destruct (GetNewBuffer_ok (Circular_Finalize w) (cw_app w) ts (y ++ x) n F1) as (ts' & head & app' & E & G1 & G2 & G3 & G4);
    rewrite ?F3, ?F4 in *; try done; [rewrite length_app; lia|].
  cbv zeta in E. rewrite E. pose proof (wr_written _ _ _ _ _ _ HW) as HL. set (q := set_queue head _ _) in *.
  pose proof G1 as [HS HH HQ]. assert (mQueueSize q = size) as ES by done. pose proof (room_bounds q G1 ltac:(by rewrite ES)) as (B1 & B2 & B3 & B4).
  assert (0 < Z.min (u32 (room q)) (u32 (UINT32_MAX - cw_lenWritten w)) <= room q) as HM by (rewrite !u32_id; unfold UINT32_MAX; lia).
  eexists ts', _. split; [done|]. split; [|split; [|done]]; [|cbn [cw_remainingLen]; lia].
  split; cbn [cw_queue cw_bufStart cw_writePoint cw_remainingLen cw_lenWritten]; try done; rewrite ?length_app; cbn [length]; lia.
Qed.

(** The state of a writer that has written [z] after [ts]. *)
Definition written (ts : list tlv) (z : list Z) (w : CircularTLVWriter) : Prop := exists y x, z = y ++ x /\ writing size impl ts y x w.

Lemma ring_WriteData_loop_ok fuel : forall p ts z w, written ts z w -> valid_list (-1) ts -> (length p <= fuel)%nat -> len z + len p <= size ->
  exists ts' w', Circular_WriteData_loop process fuel p w = (Ok tt, w') /\ written ts' (z ++ p) w' /\ evicts size impl (len z + len p) ts ts'.
Proof.
  induction fuel as [|fuel IH]; intros p ts z w HW Hv Hf Hn; (destruct p as [|b p0]; [exists ts, w; rewrite app_nil_r; cbn [length]; by repeat split; auto using evicts_refl|]);
    [simpl in Hf; lia|]. set (p := b :: p0) in *. assert (0 < len p) as Hp by (unfold p; simpl; lia). cbn [Circular_WriteData_loop].
  assert (exists ts1 w1, (if cw_remainingLen w =? 0 then next_buffer process w else (Ok tt, w)) = (Ok tt, w1) /\ written ts1 z w1 /\
    0 < cw_remainingLen w1 /\ evicts size impl (len z + len p) ts ts1) as (ts1 & w1 & E1 & (y & x & -> & HW1) & HR1 & HE1).
  { destruct HW as (y & x & -> & HW). rewrite length_app in *. destruct (Z.eqb_spec (cw_remainingLen w) 0) as [E|E].
    - destruct (next_buffer_ok ts y x w (len y + len x + len p) HW Hv ltac:(lia)) as (ts1 & w1 & E1 & HW1 & HR1 & HE1).
      exists ts1, w1. split; [done|]. split; [exists (y ++ x), []; by rewrite app_nil_r|]. split; [done|]. by rewrite Nat2Z.inj_add.
    - exists ts, w. split; [done|]. split; [by exists y, x|]. split; [|apply evicts_refl]. pose proof (wr_room _ _ _ _ _ _ HW). lia. }
  unfold p at 1. cbv iota. unfold bind at 1. cbv beta. rewrite E1. cbv iota zeta. set (n := Z.to_nat (Z.min (len p) (cw_remainingLen w1))).
  assert (len (take n p) = Z.min (len p) (cw_remainingLen w1)) as HT by (rewrite length_take; lia).
  destruct (IH (drop n p) ts1 ((y ++ x) ++ take n p) (store_bytes (take n p) w1)) as (ts2 & w2 & E2 & HW2 & HE2).
  - exists y, (x ++ take n p). rewrite <- app_assoc. split; [done|]. apply store_ok; [done|lia].
  - by eapply evicts_valid.
  - rewrite length_drop. lia.
  - rewrite !length_app, length_take, length_drop in *. lia.
  - exists ts2, w2. rewrite E2. rewrite <- app_assoc, take_drop in HW2. split; [done|]. split; [done|].
    eapply evicts_trans; [|exact HE1|eapply evicts_mono; [|exact HE2]]; rewrite ?length_app, ?length_take, ?length_drop; lia.
Qed.

Lemma ring_WriteData_ok p ts z w : written ts z w -> valid_list (-1) ts -> len z + len p <= size ->
  exists ts' w', Circular_WriteData process p w = (Ok tt, w') /\ written ts' (z ++ p) w' /\ evicts size impl (len z + len p) ts ts'.
Proof.
  intros HW Hv Hn. unfold Circular_WriteData. pose proof (u32_range (cw_lenWritten w + len p)).
  destruct (Z.leb_spec (u32 (cw_lenWritten w + len p)) UINT32_MAX); [|unfold UINT32_MAX in *; lia]. by apply ring_WriteData_loop_ok.
Qed.

Lemma write_all_ok ps : forall ts z w, written ts z w -> valid_list (-1) ts -> len z + len (concat ps) <= size ->
  exists ts' w', write_all process ps w = (Ok tt, w') /\ written ts' (z ++ concat ps) w' /\ evicts size impl (len z + len (concat ps)) ts ts'.
Proof.
  induction ps as [|p ps IH]; intros ts z w HW Hv Hn; cbn [write_all concat] in *.
  - exists ts, w. rewrite app_nil_r. by repeat split; auto using evicts_refl.
  - rewrite length_app in *. destruct (ring_WriteData_ok p ts z w HW Hv ltac:(lia)) as (ts1 & w1 & E1 & HW1 & HE1).
    destruct (IH ts1 (z ++ p) w1 HW1) as (ts2 & w2 & E2 & HW2 & HE2); [by eapply evicts_valid|rewrite length_app; lia|].
    exists ts2, w2. rewrite (bind_ok _ _ _ _ _ E1), app_assoc. split; [done|]. split; [done|].
    eapply evicts_trans; [|exact HE1|eapply evicts_mono; [|exact HE2]]; rewrite ?length_app; lia.
Qed.
End Log.

(** What an append leaves in the ring. *)
Lemma append_log {A} (process : option (CircularTLVBuffer -> A -> TLVReader -> res unit * A)) q app ts ps :
  lets_go process -> ring_ok q -> is_profile (mImplicitProfileId q) -> valid_list (-1) ts -> contents q = log (mImplicitProfileId q) ts ->
  0 < len (concat ps) <= mQueueSize q ->
  exists ts' q' app', append_element process ps q app = Ok (q', app') /\ ring_ok q' /\ mQueueSize q' = mQueueSize q /\ mImplicitProfileId q' = mImplicitProfileId q /\
    contents q' = log (mImplicitProfileId q) ts' ++ concat ps /\ evicts (mQueueSize q) (mImplicitProfileId q) (len (concat ps)) ts ts'.
Proof.
  intros HGo H Hi Hv HC Hn. pose proof H as [HS HH HL].
  destruct (GetNewBuffer_ok process HGo q app ts [] (len (concat ps)) H Hi Hv) as (ts1 & head & app1 & E1 & G1 & G2 & G3 & G4); [by rewrite app_nil_r|cbn [length]; lia|].
  unfold append_element, CircularTLVWriter_Init. cbv zeta in E1. rewrite E1. set (q1 := set_queue head _ q) in *.
  assert (mQueueSize q1 = mQueueSize q) as ES by done. pose proof (room_bounds q1 G1 G2) as (B1 & B2 & B3 & B4).
  destruct (write_all_ok process HGo (mQueueSize q) (mImplicitProfileId q) Hi ps ts1 [] (mkCWriter q1 app1 (QueueTail q1) (QueueTail q1) (u32 (room q1)) 0))
    as (ts2 & w2 & E2 & (y & x & EZ & HW2) & HE2); [|by eapply evicts_valid|cbn [length]; lia|].
  - exists [], []. split; [done|]. split; cbn [cw_queue cw_bufStart cw_writePoint cw_remainingLen cw_lenWritten length]; try done; [lia|].
    rewrite u32_id by lia. lia.
  - rewrite E2. destruct (ring_Finalize_ok (mQueueSize q) (mImplicitProfileId q) ts2 y x w2 HW2) as (F1 & F2 & F3 & F4).
    exists ts2, (Circular_Finalize w2), (cw_app w2). split; [done|]. split; [done|]. split; [done|]. split; [done|].
    split; [by rewrite F2; cbn in EZ; rewrite EZ|]. eapply evicts_trans; [|exact G4|exact HE2]. lia.
Qed.

(** ** Properties *)

(** When the callback keeps the element, or the element cannot be read over,
    EvictHead changes nothing. *)
Lemma EvictHead_refused {A} (process : option (CircularTLVBuffer -> A -> TLVReader -> res unit * A)) q app r s :
  EvictHead process (q, app) = (r, s) -> r <> Ok tt -> fst s = q.
Proof.
  unfold EvictHead. destruct (bind Next _ _) as [[[]| | |] rd]; [|by intros [= <- <-]..].
  destruct process as [f|]; [|by intros [= <- <-]]. destruct (f q app _) as [[[]| | |] a]; by intros [= <- <-].
Qed.

(** C31: the circular TLV buffer is a log of whole elements.  When the ring holds the
    encodings of the elements [ts] one after the other, wherever in memory they
    start and even wrapped around, and the callback lets every element go, then
    writing an element, in any pieces, through a CircularTLVWriter succeeds as long
    as its encoding fits the ring.  Afterwards the ring holds the new element after
    what is left of [ts]: all but its [k] oldest elements, where [k] is the least
    number whose eviction makes room - no element is lost that need not be, and none
    is cut. *)
Theorem CircularTLVBuffer_is_log {A} (process : option (CircularTLVBuffer -> A -> TLVReader -> res unit * A)) q app ts t ps :
  let impl := mImplicitProfileId q in
  lets_go process -> ring_ok q -> is_profile impl -> valid_list (-1) ts -> contents q = enc_list (-1) impl ts ->
  valid (-1) t -> concat ps = enc (-1) impl t -> Z.of_nat (length (enc (-1) impl t)) <= mQueueSize q ->
  exists k q' app', append_element process ps q app = Ok (q', app') /\ ring_ok q' /\
    mQueueSize q' = mQueueSize q /\ mImplicitProfileId q' = impl /\
    contents q' = enc_list (-1) impl (drop k ts ++ [t]) /\
    forall j, (j < k)%nat -> mQueueSize q < Z.of_nat (length (enc_list (-1) impl (drop j ts ++ [t]))).
Proof.
  intros impl HGo H Hi Hv HC Ht HP Hn. pose proof (enc_nonempty (-1) impl t Ht Hi) as H1.
  destruct (append_log process q app ts ps HGo H Hi Hv HC) as (ts' & q' & app' & E & H2 & H3 & H4 & H5 & k & -> & HK); [rewrite HP; fold impl; lia|].
  assert (forall l, enc_list (-1) impl (l ++ [t]) = enc_list (-1) impl l ++ enc (-1) impl t) as EA.
  { intros l. unfold enc_list. rewrite map_app, concat_app. cbn [map concat]. by rewrite app_nil_r. }
  exists k, q', app'. split; [done|]. split; [done|]. split; [done|]. split; [done|]. split; [by rewrite H5, HP, EA|].
  intros j Hj. specialize (HK j Hj). rewrite EA, length_app, <- HP. fold impl in HK. lia.
Qed.

(** A ring of 7 bytes whose head is in the middle: the number 513, wrapped around
    the end, and the boolean after it; a string of 4 bytes takes the place of the
    number only.  The callback is handed a reader that also sees the part of the
    string that is written already. *)
Definition wrapped_ring : CircularTLVBuffer := mkCircular [2; 8; 0; 0; 0; 5; 1] 5 4 0.
Definition wrapped_elements : list tlv := [TUInt AnonymousTag 513; TBool AnonymousTag false].

Definition keep_log (q : CircularTLVBuffer) (evicted : list (list Z)) (r : TLVReader) : res unit * list (list Z) := (Ok tt, evicted ++ [flat r]).

Lemma CircularTLVBuffer_is_log_witness :
  (exists k q' app', append_element (Some keep_log) [[12]; [2]; [104; 105]] wrapped_ring [] = Ok (q', app') /\
    contents q' = enc_list (-1) 0 (drop k wrapped_elements ++ [TUtf8 AnonymousTag [104; 105]])) /\
  append_element (Some keep_log) [[12]; [2]; [104; 105]] wrapped_ring [] = 
    Ok (mkCircular [2; 8; 12; 2; 104; 105; 1] 1 5 0, [[5; 1; 2; 8; 12; 2; 104]]).
Proof.
  split; [|vm_compute; reflexivity].
  assert (ring_ok wrapped_ring) as H1 by (vm_compute; repeat split; discriminate).
  assert (valid_list (-1) wrapped_elements) as H2 by (vm_compute; repeat split; auto; discriminate).
  assert (valid (-1) (TUtf8 AnonymousTag [104; 105])) as H3 by (vm_compute; repeat split; auto; discriminate).
  destruct (CircularTLVBuffer_is_log (Some keep_log) wrapped_ring [] wrapped_elements (TUtf8 AnonymousTag [104; 105]) [[12]; [2]; [104; 105]]
    (fun _ _ _ => eq_refl) H1 ltac:(vm_compute; split; discriminate) H2 ltac:(vm_compute; reflexivity) H3 ltac:(vm_compute; reflexivity)
    ltac:(vm_compute; discriminate)) as (k & q' & a & E & _ & _ & _ & HC & _).
  exists k, q', a. split; [exact E|exact HC].
Defined.
