(* ===== verification/SerialNumber.v ===== *)
(** * Serial numbers (lib/support/SerialNumberUtils.cpp)

    The manufacturing weeks of serial numbers, over the calendar of TimeUtils, and the
    syntax of a serial number.  A string is the list of its characters. *)
From S2P Require Import Prelude TimeUtils.
Local Open Scope Z_scope.

Definition kDaysInDecember : Z := 31.
Definition kDaysInWeek : Z := 7.

(** The manufacturing year and week. *)
Definition DateToManufacturingWeek (year month day : Z) : Z * Z :=
  if (month =? 12) && (kDaysInDecember + 1 - FirstWeekdayOfYear (u16 (year + 1)) <=? day) then (u16 (year + 1), 1)
  else
    let dayOfYear := CalendarDateToOrdinalDate year month day in
    (year, u8 (Z.quot (dayOfYear + FirstWeekdayOfYear year - 1) kDaysInWeek + 1)).

(** The year, the month and the day. *)
Definition ManufacturingWeekToDate (mfgYear mfgWeek : Z) : Z * Z * Z :=
  let firstWeekdayOfYear := FirstWeekdayOfYear mfgYear in
  if mfgWeek =? 1 then
    if firstWeekdayOfYear =? 0 then (mfgYear, 1, 1)
    else (u16 (mfgYear - 1), 12, u8 (kDaysInDecember + 1 - firstWeekdayOfYear))
  else
    let dayOfYear := u16 ((mfgWeek - 1) * kDaysInWeek + 1 - firstWeekdayOfYear) in
    let '(month, day) := OrdinalDateToCalendarDate mfgYear dayOfYear in
    (mfgYear, month, day).

(** CONVERT_DECIMAL2(PTR, VAL), at index [i] of the string *)
Definition CONVERT_DECIMAL2 (serialNum : list Z) (i : Z) : res Z :=
  let v := u16 (arr serialNum i - 48) in
  if negb (v <=? 9) then Err WEAVE_ERROR_INVALID_ARGUMENT
  else
    let val := v * 10 in
    let v := u16 (arr serialNum (i + 1) - 48) in
    if negb (v <=? 9) then Err WEAVE_ERROR_INVALID_ARGUMENT else Ok (val + v).

Definition ExtractManufacturingDateFromSerialNumber (serialNum : list Z) : res (Z * Z * Z) :=
  if negb (Z.of_nat (length serialNum) =? 16) then Err WEAVE_ERROR_INVALID_ARGUMENT
  else
    match CONVERT_DECIMAL2 serialNum 8 with
    | Ok mfgWeek =>
      match CONVERT_DECIMAL2 serialNum 10 with
      | Ok mfgYear => Ok (ManufacturingWeekToDate (mfgYear + 2000) mfgWeek)
      | Err e => Err e | Undefined => Undefined | Diverges => Diverges
      end
    | Err e => Err e | Undefined => Undefined | Diverges => Diverges
    end.

Definition in_range (lo hi c : Z) : bool := (lo <=? c) && (c <=? hi).
Definition IsBase34NoIOChar (ch : Z) : bool := in_range 65 72 ch || in_range 74 78 ch || in_range 80 90 ch || in_range 48 57 ch.

Definition IsValidSerialNumber (serialNum : list Z) : bool :=
  let digit i := in_range 48 57 (arr serialNum i) in
  let letter i := in_range 65 90 (arr serialNum i) in
  (Z.of_nat (length serialNum) =? 16) && digit 0 && digit 1 && letter 2 && letter 3 && digit 4 && digit 5 && letter 6 && letter 7 &&
  (if CONVERT_DECIMAL2 serialNum 8 is Ok mfgWeek then in_range 1 53 mfgWeek else false) &&
  (if CONVERT_DECIMAL2 serialNum 10 is Ok mfgYear then true else false) &&
  forallb (fun i => IsBase34NoIOChar (arr serialNum i)) [12; 13; 14; 15].

(** ** The weeks *)

(** The day of the week of day [n] since 1 January 1970, a Thursday; 0 is Sunday. *)
Definition weekday (n : Z) : Z := (n + 4) mod 7.

(** 1 January, and the bounds of a year. *)
Definition new_year (y : Z) : Z := day_number (y, 1, 1).

Lemma new_year_next y : 1970 <= y -> new_year (y + 1) = new_year y + 365 + leap y.
Proof.
  intros Hy. unfold new_year, day_number, march_year. change (1 <=? 2) with true. cbv iota. pose proof (march_next (y - 1) ltac:(lia)) as H.
  replace (y - 1 + 1) with y in H by lia. replace (y + 1 - 1) with y by lia. lia.
Qed.

Lemma in_year y m d : valid_date (y, m, d) -> new_year y <= day_number (y, m, d) < new_year (y + 1).
Proof.
  intros (Hy & Hm & Hd). rewrite new_year_next by lia. pose proof (leap_range y). pose proof (march_next (y - 1) ltac:(lia)) as HN.
  replace (y - 1 + 1) with y in HN by lia. assert (d <= 31) as Hd31 by (pose proof (month_days_range y m); lia). unfold new_year, day_number, march_day, march_year, march_month, month_days in *. change (1 <=? 2) with true. cbv iota.
  destruct (Z.leb_spec m 2); [|].
  - destruct (Z.eqb_spec m 2); [subst; Z.to_euclidean_division_equations; lia|]. assert (m = 1) as -> by lia. Z.to_euclidean_division_equations; lia.
  - destruct (Z.eqb_spec m 2); [lia|]. assert (march_day m d + 60 <= 365) as HD.
    { unfold march_day, march_month. destruct (Z.leb_spec m 2); [lia|]. Z.to_euclidean_division_equations; lia. }
    unfold march_day, march_month in HD. destruct (Z.leb_spec m 2); [lia|]. Z.to_euclidean_division_equations; lia.
Qed.

Lemma new_year_mono y y' : 1970 <= y -> y <= y' -> new_year y <= new_year y'.
Proof.
  intros Hy H. replace y' with (y + Z.of_nat (Z.to_nat (y' - y))) by lia. induction (Z.to_nat (y' - y)) as [|k IH]; [rewrite Z.add_0_r; lia|].
  replace (y + Z.of_nat (S k)) with (y + Z.of_nat k + 1) by lia. rewrite new_year_next by lia. pose proof (leap_range (y + Z.of_nat k)). lia.
Qed.

(** The date of a day. *)
Lemma day_exists y n : 1970 <= y -> 0 <= n -> new_year y <= n < new_year (y + 1) -> exists m d, valid_date (y, m, d) /\ day_number (y, m, d) = n.
Proof.
  intros Hy Hn HJ. destruct (date_of_number (Z.to_nat n)) as [HV HN]. destruct (date_of (Z.to_nat n)) as [[y1 m] d]. rewrite Z2Nat.id in HN by lia.
  pose proof (in_year y1 m d HV) as HI. pose proof HV as (Hy1 & _).
  assert (y1 = y) as ->; [|by exists m, d]. destruct (Z.lt_trichotomy y1 y) as [H|[H|H]]; [|done|].
  - pose proof (new_year_mono (y1 + 1) y). lia.
  - pose proof (new_year_mono (y + 1) y1). lia.
Qed.

Lemma FirstWeekday_spec y : 1970 <= y <= 28276 -> FirstWeekdayOfYear y = weekday (new_year y).
Proof.
  intros Hy. destruct (Calendar_ordinal y 1 1) as (_ & _ & H); [split; [lia|]; split; [lia|]; pose proof (month_days_range y 1); lia|lia|].
  rewrite H. unfold weekday, new_year. f_equal. lia.
Qed.

(** The manufacturing year of a day is the year of the Saturday of its week, the
    weeks of a year are counted from the one of 1 January. *)
Definition saturday (n : Z) : Z := n - weekday n + 6.
Definition mfg_year (y n : Z) : Z := if new_year (y + 1) <=? saturday n then y + 1 else y.

Lemma DateToManufacturingWeek_spec y m d : valid_date (y, m, d) -> y <= 28275 ->
  let n := day_number (y, m, d) in
  DateToManufacturingWeek y m d = (mfg_year y n, (saturday n - new_year (mfg_year y n)) / 7 + 1).
Proof.
  intros HV Hy2. pose proof HV as (Hy & Hm & Hd). cbv zeta. pose proof (in_year y m d HV) as HI. pose proof (new_year_next y Hy) as HN. pose proof (leap_range y).
  destruct (Calendar_ordinal y m d HV ltac:(lia)) as (HO & _ & _). fold (new_year y) in HO. set (n := day_number (y, m, d)) in *.
  unfold DateToManufacturingWeek, kDaysInDecember, kDaysInWeek, mfg_year. rewrite (u16_id (y + 1)) by lia.
  rewrite !FirstWeekday_spec by lia. rewrite HO.
  assert (m = 12 -> n = new_year (y + 1) - 32 + d) as H12.
  { intros ->. unfold n, new_year, day_number, march_year, march_day. change (12 <=? 2) with false. change (1 <=? 2) with true. cbv iota.
    change (march_month 12) with 9. change (march_month 1) with 10. replace (y + 1 - 1) with y by lia. Z.to_euclidean_division_equations; lia. }
  assert (m < 12 -> n <= new_year (y + 1) - 31) as H11.
  { intros Hm12. pose proof (march_next (y - 1) ltac:(lia)) as HM. replace (y - 1 + 1) with y in HM by lia. pose proof (month_days_range y m).
    unfold n, new_year, day_number, march_year, march_day, march_month. change (1 <=? 2) with true. cbv iota. replace (y + 1 - 1) with y by lia.
    destruct (Z.leb_spec m 2); Z.to_euclidean_division_equations; lia. }
  unfold saturday, weekday in *.
  destruct (Z.eqb_spec m 12) as [E|E]; cbn [andb].
  - specialize (H12 E). destruct (Z.leb_spec (31 + 1 - (new_year (y + 1) + 4) mod 7) d), (Z.leb_spec (new_year (y + 1)) (n - (n + 4) mod 7 + 6)).
    + f_equal. Z.to_euclidean_division_equations; lia.
    + exfalso. Z.to_euclidean_division_equations; lia.
    + exfalso. Z.to_euclidean_division_equations; lia.
    + f_equal. rewrite Z.quot_div_nonneg, u8_id by (Z.to_euclidean_division_equations; lia). Z.to_euclidean_division_equations; lia.
  - destruct (Z.leb_spec (new_year (y + 1)) (n - (n + 4) mod 7 + 6)); [exfalso; Z.to_euclidean_division_equations; lia|].
    f_equal. rewrite Z.quot_div_nonneg, u8_id by (Z.to_euclidean_division_equations; lia). Z.to_euclidean_division_equations; lia.
Qed.

Lemma ManufacturingWeekToDate_spec y n : 1970 <= y <= 28275 -> 3 <= n -> new_year y <= n < new_year (y + 1) ->
  let '(y', m, d) := ManufacturingWeekToDate (mfg_year y n) ((saturday n - new_year (mfg_year y n)) / 7 + 1) in
  valid_date (y', m, d) /\ y' <= 28276 /\ day_number (y', m, d) = n - weekday n.
Proof.
  intros Hy Hn HI. set (my := mfg_year y n). set (w := (saturday n - new_year my) / 7 + 1).
  pose proof (new_year_next y ltac:(lia)) as HN. pose proof (new_year_next (y + 1) ltac:(lia)) as HN2. pose proof (leap_range y). pose proof (leap_range (y + 1)).
  assert (1970 <= my <= 28276 /\ new_year my <= saturday n < new_year (my + 1) /\ n < new_year (my + 1)) as (Hmy & HS & HE).
  { unfold my, mfg_year, saturday, weekday. destruct (Z.leb_spec (new_year (y + 1)) (n - (n + 4) mod 7 + 6)); Z.to_euclidean_division_equations; lia. }
  unfold ManufacturingWeekToDate, kDaysInDecember, kDaysInWeek. rewrite FirstWeekday_spec by lia. destruct (Z.eqb_spec w 1) as [E|E].
  - destruct (Z.eqb_spec (weekday (new_year my)) 0) as [E0|E0].
    + split; [split; [lia|]; split; [lia|]; pose proof (month_days_range my 1); lia|]. split; [lia|]. fold (new_year my).
      unfold w, saturday, weekday in *. Z.to_euclidean_division_equations; lia.
    + assert (1 <= weekday (new_year my) <= 6) as HW by (unfold weekday in *; Z.to_euclidean_division_equations; lia).
      assert (new_year my - weekday (new_year my) = n - weekday n) as HD by (unfold w, saturday, weekday in *; Z.to_euclidean_division_equations; lia).
      assert (1970 < my) as H70.
      { destruct (Z.eq_dec my 1970) as [E1|]; [|lia]. rewrite E1 in *. change (new_year 1970) with 0 in *. change (weekday 0) with 4 in *.
        unfold weekday in HD. Z.to_euclidean_division_equations; lia. }
      rewrite u16_id, u8_id by lia. split; [split; [lia|]; split; [lia|]; change (month_days (my - 1) 12) with 31; lia|]. split; [lia|]. rewrite <- HD.
      unfold new_year, day_number, march_year, march_day. change (12 <=? 2) with false. change (1 <=? 2) with true. cbv iota.
      change (march_month 12) with 9. change (march_month 1) with 10. Z.to_euclidean_division_equations; lia.
  - assert (2 <= w <= 54) as Hw. { pose proof (new_year_next my ltac:(lia)). pose proof (leap_range my). unfold w, saturday, weekday in *. Z.to_euclidean_division_equations; lia. }
    assert (new_year my + ((w - 1) * 7 + 1 - weekday (new_year my)) - 1 = n - weekday n) as HD by (unfold w, saturday, weekday in *; Z.to_euclidean_division_equations; lia).
    assert (0 <= weekday n) as Hwd by (unfold weekday; Z.to_euclidean_division_equations; lia).
    assert (0 <= weekday (new_year my) <= 6) as HW by (unfold weekday; Z.to_euclidean_division_equations; lia).
    destruct (day_exists my (n - weekday n) ltac:(lia)) as (m & d & HV & HNum); [unfold weekday; Z.to_euclidean_division_equations; lia|lia|].
    destruct (Calendar_ordinal my m d HV ltac:(lia)) as (HO & HO2 & _). fold (new_year my) in HO.
    rewrite u16_id by lia. replace ((w - 1) * 7 + 1 - weekday (new_year my)) with (CalendarDateToOrdinalDate my m d) by lia.
    rewrite HO2. split; [done|]. split; [lia|done].
Qed.

Lemma mfg_year_bounds y n : 1970 <= y -> new_year y <= n < new_year (y + 1) ->
  1970 <= mfg_year y n /\ new_year (mfg_year y n) <= saturday n < new_year (mfg_year y n + 1).
Proof.
  intros Hy HI. pose proof (new_year_next y Hy) as HN. pose proof (new_year_next (y + 1) ltac:(lia)) as HN2. pose proof (leap_range y). pose proof (leap_range (y + 1)).
  unfold mfg_year, saturday, weekday. destruct (Z.leb_spec (new_year (y + 1)) (n - (n + 4) mod 7 + 6)); Z.to_euclidean_division_equations; lia.
Qed.

Lemma year_unique y y' t : 1970 <= y -> 1970 <= y' -> new_year y <= t < new_year (y + 1) -> new_year y' <= t < new_year (y' + 1) -> y = y'.
Proof.
  intros H H' HI HI'. destruct (Z.lt_trichotomy y y') as [HL|[HL|HL]]; [|done|].
  - pose proof (new_year_mono (y + 1) y'). lia.
  - pose proof (new_year_mono (y' + 1) y). lia.
Qed.

(** ** Properties *)

(** C32: manufacturing weeks are the weeks of the calendar, from Sunday to Saturday.
    Let a date have the number n of days since 1 January 1970 (from the first Sunday
    on, and before the year 28276).  DateToManufacturingWeek gives the year of the
    Saturday of its week, which may be the next year, and a week from 1 to 53;
    ManufacturingWeekToDate takes them back to a valid date, the Sunday the week
    began with: 0 to 6 days before, with n + 4 a multiple of 7 on 1 January 1970's
    count.  That Sunday is in the same manufacturing week. *)
Theorem ManufacturingWeek_is_calendar_week y m d n : valid_date (y, m, d) -> y < kMaxYearInDaysSinceEpoch32 ->
  CalendarDateToDaysSinceEpoch y m d = (true, n) -> 3 <= n ->
  let '(mfgYear, mfgWeek) := DateToManufacturingWeek y m d in
  let '(y', m', d') := ManufacturingWeekToDate mfgYear mfgWeek in
  1 <= mfgWeek <= 53 /\ 1 <= m' <= 12 /\ 1 <= d' <= DaysInMonth y' m' /\
  CalendarDateToDaysSinceEpoch y' m' d' = (true, n - (n + 4) mod 7) /\
  (y' <= 28275 -> DateToManufacturingWeek y' m' d' = (mfgYear, mfgWeek)) /\
  exists ms ds, valid_date (mfgYear, ms, ds) /\ day_number (mfgYear, ms, ds) = n - (n + 4) mod 7 + 6.
Proof.
  unfold kMaxYearInDaysSinceEpoch32. intros HV Hy2 HN Hn. pose proof HV as (Hy & _). destruct (CalendarDate_day_number y m d HV ltac:(lia)) as [HN' _].
  assert (day_number (y, m, d) = n) as En by (rewrite HN in HN'; congruence). pose proof (in_year y m d HV) as HI.
  pose proof (DateToManufacturingWeek_spec y m d HV ltac:(lia)) as HW. cbv zeta in HW. rewrite En in HI, HW. rewrite HW.
  pose proof (ManufacturingWeekToDate_spec y n ltac:(lia) Hn HI) as HS.
  destruct (mfg_year_bounds y n Hy HI) as (HM1 & HM2). pose proof (new_year_next (mfg_year y n) HM1). pose proof (leap_range (mfg_year y n)).
  destruct (ManufacturingWeekToDate _ _) as [[y' m'] d']. destruct HS as (HV' & Hy' & HD). pose proof HV' as (Hy1 & Hm' & Hd').
  split; [Z.to_euclidean_division_equations; lia|]. split; [done|]. rewrite DaysInMonth_spec by done. split; [done|].
  destruct (CalendarDate_day_number y' m' d' HV' Hy') as [-> _]. rewrite HD. split; [done|]. split.
  - intros Hy3. rewrite (DateToManufacturingWeek_spec y' m' d' HV' Hy3), HD. pose proof (in_year y' m' d' HV') as HI'. rewrite HD in HI'.
    assert (saturday (n - weekday n) = saturday n) as HSat by (unfold saturday, weekday; Z.to_euclidean_division_equations; lia).
    destruct (mfg_year_bounds y' (n - weekday n) Hy1 HI') as (HM1' & HM2'). rewrite HSat in *.
    by rewrite (year_unique _ _ (saturday n) HM1' HM1 HM2' HM2).
  - destruct (day_exists (mfg_year y n) (saturday n) HM1) as (ms & ds & HE); [unfold saturday, weekday; Z.to_euclidean_division_equations; lia|done|by exists ms, ds].
Qed.

Lemma ManufacturingWeek_is_calendar_week_witness :
  DateToManufacturingWeek 2014 12 31 = (2015, 1) /\ ManufacturingWeekToDate 2015 1 = (2014, 12, 28) /\
  CalendarDateToDaysSinceEpoch 2014 12 28 = (true, 16435 - (16435 + 4) mod 7).
Proof.
  pose proof (ManufacturingWeek_is_calendar_week 2014 12 31 16435 ltac:(vm_compute; repeat split; discriminate) ltac:(reflexivity) ltac:(vm_compute; reflexivity) ltac:(lia)) as H.
  assert (DateToManufacturingWeek 2014 12 31 = (2015, 1)) as E1 by (vm_compute; reflexivity).
  assert (ManufacturingWeekToDate 2015 1 = (2014, 12, 28)) as E2 by (vm_compute; reflexivity).
  rewrite E1, E2 in H. split; [done|]. split; [done|apply H].
Defined.

(** The date of a serial number with a valid syntax. *)
Lemma serial_decimal s i v : CONVERT_DECIMAL2 s i = Ok v -> 0 <= v <= 99.
Proof.
  unfold CONVERT_DECIMAL2. destruct (Z.leb_spec (u16 (arr s i - 48)) 9); [|done]. cbn [negb].
  destruct (Z.leb_spec (u16 (arr s (i + 1) - 48)) 9); [|done]. cbn [negb]. intros [= <-]. pose proof (u16_range (arr s i - 48)). pose proof (u16_range (arr s (i + 1) - 48)). lia.
Qed.

Lemma serial_dates_all : all_upto 100 (fun yy => all_upto 53 (fun w =>
  let '(y, m, d) := ManufacturingWeekToDate (yy + 2000) (w + 1) in
  let '(ok, n) := CalendarDateToDaysSinceEpoch y m d in
  ok && (1 <=? m) && (m <=? 12) && (1 <=? d) && (d <=? DaysInMonth y m) && ((n + 4) mod 7 =? 0) &&
  (let '(my, mw) := DateToManufacturingWeek y m d in
   ((my =? yy + 2000) && (mw =? w + 1)) || ((w =? 52) && (my =? yy + 2001) && (mw =? 1))))) = true.
Proof. vm_compute. reflexivity. Qed.

(** The week of a serial number may also be 0 or more than 53: no date. *)
Lemma Extract_week_0 : ExtractManufacturingDateFromSerialNumber [48; 49; 65; 65; 48; 49; 82; 83; 48; 48; 49; 52; 48; 48; 48; 48] = Ok (2014, 82, 219).
Proof. vm_compute. reflexivity. Qed.

(** The date of every serial number that IsValidSerialNumber accepts is the Sunday of
    the week it names, but for a week 53 that is the first one of the next year. *)
Lemma IsValidSerialNumber_date s : IsValidSerialNumber s = true -> exists w yy y m d n,
  CONVERT_DECIMAL2 s 8 = Ok w /\ CONVERT_DECIMAL2 s 10 = Ok yy /\ 1 <= w <= 53 /\
  ExtractManufacturingDateFromSerialNumber s = Ok (y, m, d) /\ CalendarDateToDaysSinceEpoch y m d = (true, n) /\
  1 <= m <= 12 /\ 1 <= d <= DaysInMonth y m /\ (n + 4) mod 7 = 0 /\
  (DateToManufacturingWeek y m d = (yy + 2000, w) \/ w = 53 /\ DateToManufacturingWeek y m d = (yy + 2001, 1)).
Proof.
  unfold IsValidSerialNumber, ExtractManufacturingDateFromSerialNumber, in_range. intros H. bool_prop.
  destruct (CONVERT_DECIMAL2 s 8) as [w| | |] eqn:E8; try done. destruct (CONVERT_DECIMAL2 s 10) as [yy| | |] eqn:E10; try done. bool_prop.
  pose proof (serial_decimal s 10 yy E10) as Hyy.
  replace (Z.of_nat (length s) =? 16) with true by (symmetry; by apply Z.eqb_eq). cbn [negb].
  pose proof (all_upto_spec _ _ (all_upto_spec _ _ serial_dates_all yy ltac:(lia)) (w - 1) ltac:(lia)) as HA. cbv beta in HA.
  replace (w - 1 + 1) with w in HA by lia. destruct (ManufacturingWeekToDate (yy + 2000) w) as [[y m] d].
  destruct (CalendarDateToDaysSinceEpoch y m d) as [ok n] eqn:EN. destruct (DateToManufacturingWeek y m d) as [my mw] eqn:EW.
  bool_prop. subst ok. exists w, yy, y, m, d, n. repeat (split; [done || lia|]).
  match goal with H : (_ || _)%bool = true |- _ => apply orb_prop in H as [H|H] end; bool_prop; subst; [left; done|right].
  split; [lia|done].
Qed.
