(* ===== verification/CertTime.v ===== *)
(** * Packed certificate times (lib/profiles/security/WeaveCert.cpp)

    The notBefore and notAfter times of Weave certificates: the fields of a calendar
    time, from the year 2000 on, packed into one number.  All months have 31 days, so
    that packing and unpacking need no calendar. *)
From S2P Require Import Prelude TimeUtils ASN1Writer.
Local Open Scope Z_scope.

Definition kNullCertTime : Z := 0.
Definition kMonthsPerYear : Z := 12.
Definition kMaxDaysPerMonth : Z := 31.
Definition kHoursPerDay : Z := 24.
Definition kMinutesPerHour : Z := 60.
Definition kCertTimeBaseYear : Z := 2000.
Definition kCertTimeMaxYear : Z := kCertTimeBaseYear + UINT32_MAX / (kMonthsPerYear * kMaxDaysPerMonth * kHoursPerDay * kMinutesPerHour * kSecondsPerMinute).
Definition kX509NoWellDefinedExpirationDateYear : Z := 9999.

Definition PackCertTime (time : ASN1UniversalTime) : res Z :=
  if at_Year time <? kCertTimeBaseYear then Err ASN1_ERROR_UNSUPPORTED_ENCODING
  else if at_Year time =? kX509NoWellDefinedExpirationDateYear then Ok kNullCertTime
  else if kCertTimeMaxYear <? at_Year time then Err ASN1_ERROR_UNSUPPORTED_ENCODING
  else
    let packedTime := u32 (at_Year time - kCertTimeBaseYear) in
    let packedTime := u32 (packedTime * kMonthsPerYear + at_Month time - 1) in
    let packedTime := u32 (packedTime * kMaxDaysPerMonth + at_Day time - 1) in
    let packedTime := u32 (packedTime * kHoursPerDay + at_Hour time) in
    let packedTime := u32 (packedTime * kMinutesPerHour + at_Minute time) in
    Ok (u32 (packedTime * kSecondsPerMinute + at_Second time)).

Definition UnpackCertTime (packedTime : Z) : ASN1UniversalTime :=
  if packedTime =? kNullCertTime then
    mkASN1Time kX509NoWellDefinedExpirationDateYear kMonthsPerYear kMaxDaysPerMonth (kHoursPerDay - 1) (kMinutesPerHour - 1) (kSecondsPerMinute - 1)
  else
    let second := u8 (packedTime mod kSecondsPerMinute) in
    let packedTime := packedTime / kSecondsPerMinute in
    let minute := u8 (packedTime mod kMinutesPerHour) in
    let packedTime := packedTime / kMinutesPerHour in
    let hour := u8 (packedTime mod kHoursPerDay) in
    let packedTime := packedTime / kHoursPerDay in
    let day := u8 (packedTime mod kMaxDaysPerMonth + 1) in
    let packedTime := packedTime / kMaxDaysPerMonth in
    let month := u8 (packedTime mod kMonthsPerYear + 1) in
    let packedTime := packedTime / kMonthsPerYear in
    mkASN1Time (u16 (packedTime + kCertTimeBaseYear)) month day hour minute second.

Definition PackedCertTimeToDate (packedTime : Z) : Z := u16 (packedTime / kSecondsPerDay).
Definition PackedCertDateToTime (packedDate : Z) : Z := u32 (packedDate * kSecondsPerDay).

(** PackCertTime's error is not looked at: a time before 2000 leaves the result
    uninitialised. *)
Definition SecondsSinceEpochToPackedCertTime (secondsSinceEpoch : Z) : res Z :=
  let '((year, month, day), (hour, minute, second)) := SecondsSinceEpochToCalendarTime secondsSinceEpoch in
  match PackCertTime (mkASN1Time year month day hour minute second) with
  | Ok packedTime => Ok packedTime
  | _ => Undefined
  end.

(** ** Properties of the packing *)

(** The fields are those of a date and a time of day. *)
Definition calendar_time (t : ASN1UniversalTime) : Prop :=
  1 <= at_Month t <= 12 /\ 1 <= at_Day t <= 31 /\ 0 <= at_Hour t < 24 /\ 0 <= at_Minute t < 60 /\ 0 <= at_Second t < 60.

(** The number without the wrap-around. *)
Definition packed (t : ASN1UniversalTime) : Z :=
  (((((at_Year t - 2000) * 12 + (at_Month t - 1)) * 31 + (at_Day t - 1)) * 24 + at_Hour t) * 60 + at_Minute t) * 60 + at_Second t.

Lemma PackCertTime_packed t : calendar_time t -> 2000 <= at_Year t <= kCertTimeMaxYear -> PackCertTime t = Ok (u32 (packed t)).
Proof.
  change kCertTimeMaxYear with 2133. intros (Hm & Hd & Hh & Hmi & Hs) Hy. unfold PackCertTime, kCertTimeBaseYear, kX509NoWellDefinedExpirationDateYear. change kCertTimeMaxYear with 2133.
  rewrite (proj2 (Z.ltb_ge _ _)), (proj2 (Z.eqb_neq _ _)), (proj2 (Z.ltb_ge 2133 _)) by lia. f_equal.
  unfold packed, kMonthsPerYear, kMaxDaysPerMonth, kHoursPerDay, kMinutesPerHour, kSecondsPerMinute.
  rewrite (u32_id (at_Year t - 2000)), (u32_id ((at_Year t - 2000) * 12 + at_Month t - 1)), (u32_id (((at_Year t - 2000) * 12 + at_Month t - 1) * 31 + at_Day t - 1)) by lia.
  rewrite (u32_id ((((at_Year t - 2000) * 12 + at_Month t - 1) * 31 + at_Day t - 1) * 24 + at_Hour t)) by lia.
  rewrite (u32_id (((((at_Year t - 2000) * 12 + at_Month t - 1) * 31 + at_Day t - 1) * 24 + at_Hour t) * 60 + at_Minute t)) by lia. f_equal. lia.
Qed.

Lemma Unpack_packed t : calendar_time t -> 2000 <= at_Year t <= kCertTimeMaxYear -> 0 < packed t -> UnpackCertTime (packed t) = t.
Proof.
  change kCertTimeMaxYear with 2133. destruct t as [y m d h mi s]. intros (Hm & Hd & Hh & Hmi & Hs) Hy H0. cbn [at_Year at_Month at_Day at_Hour at_Minute at_Second] in *.
  unfold UnpackCertTime, kNullCertTime. rewrite (proj2 (Z.eqb_neq _ _)) by lia. unfold packed in *. cbn [at_Year at_Month at_Day at_Hour at_Minute at_Second] in *.
  unfold kMonthsPerYear, kMaxDaysPerMonth, kHoursPerDay, kMinutesPerHour, kSecondsPerMinute, kCertTimeBaseYear.
  pose (A := (y - 2000) * 12 + (m - 1)). pose (B := A * 31 + (d - 1)). pose (C := B * 24 + h). pose (D := C * 60 + mi).
  assert (forall q n r, 0 <= r < n -> (q * n + r) mod n = r /\ (q * n + r) / n = q) as HD.
  { intros q n r Hr. rewrite Z.add_comm, Z_mod_plus_full, Z_div_plus_full by lia. rewrite Z.mod_small, Z.div_small by lia. lia. }
  change ((((((y - 2000) * 12 + (m - 1)) * 31 + (d - 1)) * 24 + h) * 60 + mi) * 60 + s) with (D * 60 + s).
  destruct (HD D 60 s Hs) as [-> ->]. change D with (C * 60 + mi). destruct (HD C 60 mi Hmi) as [-> ->]. change C with (B * 24 + h). destruct (HD B 24 h Hh) as [-> ->].
  change B with (A * 31 + (d - 1)). destruct (HD A 31 (d - 1) ltac:(lia)) as [-> ->]. change A with ((y - 2000) * 12 + (m - 1)). destruct (HD (y - 2000) 12 (m - 1) ltac:(lia)) as [-> ->].
  rewrite !u8_id, u16_id by lia. f_equal; lia.
Qed.

(** Earlier and later. *)
Definition time_fields (t : ASN1UniversalTime) : list Z := [at_Year t; at_Month t; at_Day t; at_Hour t; at_Minute t; at_Second t].
Fixpoint before (l l' : list Z) : Prop :=
  match l, l' with
  | x :: l, y :: l' => x < y \/ x = y /\ before l l'
  | _, _ => False
  end.

Lemma packed_before t t' : calendar_time t -> calendar_time t' -> before (time_fields t) (time_fields t') <-> packed t < packed t'.
Proof. intros (?&?&?&?&?) (?&?&?&?&?). unfold time_fields, before, packed. lia. Qed.

(** C33: packed certificate times are faithful and ordered.  Every calendar time of
    the years 2000 to 2132 packs to a 32-bit number that unpacks to it again, but for
    the first second of 2000: it packs to the number that stands for no expiration.
    Of two such times the earlier one, field by field, has the smaller number, and
    the packed dates that validation compares keep the order of the days: the first
    second of a packed date is the greatest multiple of a day not after the time. *)
Theorem CertTime_roundtrip t t' : calendar_time t -> calendar_time t' -> 2000 <= at_Year t <= 2132 -> 2000 <= at_Year t' <= 2132 ->
  exists p p', PackCertTime t = Ok p /\ PackCertTime t' = Ok p' /\ 0 <= p < 4294967296 /\
    (if decide (p = kNullCertTime) then t = mkASN1Time 2000 1 1 0 0 0 else UnpackCertTime p = t) /\
    (before (time_fields t) (time_fields t') <-> p < p') /\
    PackedCertDateToTime (PackedCertTimeToDate p) = p - p mod kSecondsPerDay /\
    PackedCertDateToTime (PackedCertTimeToDate p) = packed (mkASN1Time (at_Year t) (at_Month t) (at_Day t) 0 0 0).
Proof.
  intros HT HT' Hy Hy'. assert (kCertTimeMaxYear = 2133) as HK by reflexivity.
  assert (0 <= packed t < 4294967296 /\ 0 <= packed t' < 4294967296) as [HP HP'].
  { destruct HT as (?&?&?&?&?), HT' as (?&?&?&?&?). unfold packed. lia. }
  exists (packed t), (packed t'). rewrite !PackCertTime_packed by (done || lia). rewrite !u32_id by done.
  split; [done|]. split; [done|]. split; [done|]. split.
  - case_decide as HN.
    + destruct t as [y m d h mi s], HT as (?&?&?&?&?). unfold packed, kNullCertTime in HN. cbn [at_Year at_Month at_Day at_Hour at_Minute at_Second] in *. f_equal; lia.
    + unfold kNullCertTime in HN. apply Unpack_packed; [done|lia|lia].
  - split; [by apply packed_before|]. unfold PackedCertDateToTime, PackedCertTimeToDate, kSecondsPerDay.
    destruct HT as (?&?&?&?&?). unfold packed in *. cbn [at_Year at_Month at_Day at_Hour at_Minute at_Second].
    set (D := ((at_Year t - 2000) * 12 + (at_Month t - 1)) * 31 + (at_Day t - 1)) in *.
    rewrite u16_id, u32_id by (Z.to_euclidean_division_equations; lia). Z.to_euclidean_division_equations; lia.
Qed.

Lemma CertTime_roundtrip_witness : exists p p', PackCertTime (mkASN1Time 2015 2 28 23 59 59) = Ok p /\ PackCertTime (mkASN1Time 2015 3 1 0 0 0) = Ok p' /\
  UnpackCertTime p = mkASN1Time 2015 2 28 23 59 59 /\ p < p'.
Proof.
  destruct (CertTime_roundtrip (mkASN1Time 2015 2 28 23 59 59) (mkASN1Time 2015 3 1 0 0 0)) as (p & p' & HP & HP' & _ & HU & HB & _).
  - vm_compute. repeat split; discriminate.
  - vm_compute. repeat split; discriminate.
  - cbn. lia.
  - cbn. lia.
  - exists p, p'. split; [exact HP|]. split; [exact HP'|]. split.
    + assert (p <> kNullCertTime) as HN by (vm_compute in HP; injection HP as <-; discriminate). by rewrite decide_False in HU.
    + apply HB. cbn. lia.
Defined.

(** The year 2133 is accepted whole, and wraps around from 18 August on. *)
Lemma PackCertTime_wraps : PackCertTime (mkASN1Time 2133 12 31 0 0 0) = Ok 11813504 /\ UnpackCertTime 11813504 = mkASN1Time 2000 5 13 17 31 44.
Proof. vm_compute. split; reflexivity. Qed.

(** The first second of 2000 turns into the end of 9999. *)
Lemma PackCertTime_2000 : PackCertTime (mkASN1Time 2000 1 1 0 0 0) = Ok 0 /\ UnpackCertTime 0 = mkASN1Time 9999 12 31 23 59 59.
Proof. vm_compute. split; reflexivity. Qed.

(** A packed date is 16 bits wide: from the year 2133 on its time wraps around. *)
Lemma PackedCertDate_wraps : PackedCertDateToTime 49711 = 63104.
Proof. vm_compute. reflexivity. Qed.

Lemma PackedCertTime_before_2000 : SecondsSinceEpochToPackedCertTime 946684799 = Undefined /\ SecondsSinceEpochToPackedCertTime 946684801 = Ok 1.
Proof. vm_compute. split; reflexivity. Qed.
