(* ===== verification/Cert.v ===== *)
(** * Certificates and their validation (lib/profiles/security/WeaveCert.cpp, WeaveCert.h)

    What is extracted from a Weave certificate, the set of certificates, and the
    search for a chain of valid certificates up to a trusted one.  Signature
    verification, over the hash of a certificate, is a parameter. *)
From S2P Require Import Prelude ASN1OID CertTime.
Local Open Scope Z_scope.
Local Open Scope weave_scope.

(** ** The data of a certificate *)

Definition kOIDCategory_PubKeyAlgo : Z := 0x0100.
Definition kOIDCategory_SigAlgo : Z := 0x0200.
Definition kOIDCategory_AttributeType : Z := 0x0300.
Definition kOIDCategory_EllipticCurve : Z := 0x0400.
Definition kOIDCategory_Extension : Z := 0x0500.
Definition kOIDCategory_KeyPurpose : Z := 0x0600.
Definition kOID_Mask : Z := 0x00FF.
Definition kOID_SigAlgo_ECDSAWithSHA1 : Z := 0x0204.
Definition kOID_SigAlgo_ECDSAWithSHA256 : Z := 0x0205.
Definition kOID_AttributeType_WeaveDeviceId : Z := 0x0311.
Definition kOID_AttributeType_WeaveServiceEndpointId : Z := 0x0312.
Definition kOID_AttributeType_WeaveCAId : Z := 0x0313.
Definition kOID_AttributeType_WeaveSoftwarePublisherId : Z := 0x0314.

Definition kKeyUsageFlag_KeyCertSign : Z := 0x0020.
Definition kCertFlag_ExtPresent_AuthKeyId : Z := 0x0001.
Definition kCertFlag_ExtPresent_SubjectKeyId : Z := 0x0002.
Definition kCertFlag_ExtPresent_KeyUsage : Z := 0x0004.
Definition kCertFlag_ExtPresent_BasicConstraints : Z := 0x0008.
Definition kCertFlag_ExtPresent_ExtendedKeyUsage : Z := 0x0010.
Definition kCertFlag_AuthKeyIdPresent : Z := 0x0020.
Definition kCertFlag_PathLenConstPresent : Z := 0x0040.
Definition kCertFlag_IsCA : Z := 0x0080.
Definition kCertFlag_IsTrusted : Z := 0x0100.
Definition kCertFlag_TBSHashPresent : Z := 0x0200.
Definition kDecodeFlag_GenerateTBSHash : Z := 0x0001.
Definition kDecodeFlag_IsTrusted : Z := 0x0002.
Definition kValidateFlag_IgnoreNotBefore : Z := 0x0001.
Definition kValidateFlag_IgnoreNotAfter : Z := 0x0002.
Definition kValidateFlag_RequireSHA256 : Z := 0x0004.
Definition kCertType_NotSpecified : Z := 0.
Definition kCertType_General : Z := 1.
Definition kCertType_Device : Z := 2.
Definition kCertType_ServiceEndpoint : Z := 3.
Definition kCertType_FirmwareSigning : Z := 4.
Definition kCertType_CA : Z := 6.

(** A flag is set when one of its bits is. *)
Definition has_flag (flags flag : Z) : bool := negb (Z.land flags flag =? 0).

(** A pointer to constant bytes: [None] is NULL, else what lies from there on. *)
Definition pointer : Type := option (list Z).
(** [len] bytes from a pointer. *)
Definition pointed (p : pointer) (len : Z) : list Z := take (Z.to_nat len) (default [] p).

(** The AttrValue union has two members, of which AttrOID says the one in use. *)
Record WeaveDN := mkDN { WeaveId : Z; AttrString : list Z; AttrOID : Z }.
Definition set_AttrOID (oid : Z) (dn : WeaveDN) : WeaveDN := mkDN (WeaveId dn) (AttrString dn) oid.
Definition set_WeaveId (id : Z) (dn : WeaveDN) : WeaveDN := mkDN id (AttrString dn) (AttrOID dn).
Definition set_AttrString (s : list Z) (dn : WeaveDN) : WeaveDN := mkDN (WeaveId dn) s (AttrOID dn).

Definition IsWeaveIdX509Attr (oid : Z) : bool :=
  (oid =? kOID_AttributeType_WeaveDeviceId) || (oid =? kOID_AttributeType_WeaveServiceEndpointId) ||
  (oid =? kOID_AttributeType_WeaveCAId) || (oid =? kOID_AttributeType_WeaveSoftwarePublisherId).
Definition IsWeaveX509Attr (oid : Z) : bool :=
  (oid =? kOID_AttributeType_WeaveDeviceId) || (oid =? kOID_AttributeType_WeaveServiceEndpointId) ||
  (oid =? kOID_AttributeType_WeaveCAId) || (oid =? kOID_AttributeType_WeaveSoftwarePublisherId).

Definition DN_IsEqual (dn other : WeaveDN) : bool :=
  if (AttrOID dn =? kOID_Unknown) || (AttrOID dn =? kOID_NotSpecified) || negb (AttrOID dn =? AttrOID other) then false
  else if IsWeaveIdX509Attr (AttrOID dn) then WeaveId dn =? WeaveId other
  else bool_decide (AttrString dn = AttrString other).
Definition DN_IsEmpty (dn : WeaveDN) : bool := AttrOID dn =? kOID_NotSpecified.

Record CertificateKeyId := mkKeyId { Id : pointer; KeyIdLen : Z }.
Definition KeyId_IsEqual (id other : CertificateKeyId) : bool :=
  match Id id, Id other with
  | Some _, Some _ => (KeyIdLen id =? KeyIdLen other) && bool_decide (pointed (Id id) (KeyIdLen id) = pointed (Id other) (KeyIdLen id))
  | _, _ => false
  end.
Definition KeyId_IsEmpty (id : CertificateKeyId) : bool := match Id id with None => true | Some _ => false end.

(** PublicKey.EC and Signature.EC are the fields ECPoint, ECPointLen, SigR, SigRLen,
    SigS and SigSLen. *)
Record WeaveCertificateData := mkCert {
  SubjectDN : WeaveDN;
  IssuerDN : WeaveDN;
  SubjectKeyId : CertificateKeyId;
  AuthKeyId : CertificateKeyId;
  ECPoint : pointer;
  ECPointLen : Z;
  SigR : pointer;
  SigRLen : Z;
  SigS : pointer;
  SigSLen : Z;
  PubKeyCurveId : Z;
  EncodedCert : pointer;
  EncodedCertLen : Z;
  CertFlags : Z;
  KeyUsageFlags : Z;
  PubKeyAlgoOID : Z;
  SigAlgoOID : Z;
  CertType : Z;
  KeyPurposeFlags : Z;
  NotBeforeDate : Z;
  NotAfterDate : Z;
  PathLenConstraint : Z;
  TBSHash : list Z }.

Definition zero_dn : WeaveDN := mkDN 0 [] 0.
Definition zero_keyid : CertificateKeyId := mkKeyId None 0.
(** memset(cert, 0, sizeof( *cert)) *)
Definition zero_cert : WeaveCertificateData :=
  mkCert zero_dn zero_dn zero_keyid zero_keyid None 0 None 0 None 0 0 None 0 0 0 0 0 0 0 0 0 0 (replicate 32 0).

Definition set_SubjectDN (v : WeaveDN) (c : WeaveCertificateData) : WeaveCertificateData :=
  mkCert v (IssuerDN c) (SubjectKeyId c) (AuthKeyId c) (ECPoint c) (ECPointLen c) (SigR c) (SigRLen c) (SigS c)
    (SigSLen c) (PubKeyCurveId c) (EncodedCert c) (EncodedCertLen c) (CertFlags c) (KeyUsageFlags c) (PubKeyAlgoOID c)
    (SigAlgoOID c) (CertType c) (KeyPurposeFlags c) (NotBeforeDate c) (NotAfterDate c) (PathLenConstraint c)
    (TBSHash c).
Definition set_IssuerDN (v : WeaveDN) (c : WeaveCertificateData) : WeaveCertificateData :=
  mkCert (SubjectDN c) v (SubjectKeyId c) (AuthKeyId c) (ECPoint c) (ECPointLen c) (SigR c) (SigRLen c) (SigS c)
    (SigSLen c) (PubKeyCurveId c) (EncodedCert c) (EncodedCertLen c) (CertFlags c) (KeyUsageFlags c) (PubKeyAlgoOID c)
    (SigAlgoOID c) (CertType c) (KeyPurposeFlags c) (NotBeforeDate c) (NotAfterDate c) (PathLenConstraint c)
    (TBSHash c).
Definition set_SubjectKeyId (v : CertificateKeyId) (c : WeaveCertificateData) : WeaveCertificateData :=
  mkCert (SubjectDN c) (IssuerDN c) v (AuthKeyId c) (ECPoint c) (ECPointLen c) (SigR c) (SigRLen c) (SigS c)
    (SigSLen c) (PubKeyCurveId c) (EncodedCert c) (EncodedCertLen c) (CertFlags c) (KeyUsageFlags c) (PubKeyAlgoOID c)
    (SigAlgoOID c) (CertType c) (KeyPurposeFlags c) (NotBeforeDate c) (NotAfterDate c) (PathLenConstraint c)
    (TBSHash c).
Definition set_AuthKeyId (v : CertificateKeyId) (c : WeaveCertificateData) : WeaveCertificateData :=
  mkCert (SubjectDN c) (IssuerDN c) (SubjectKeyId c) v (ECPoint c) (ECPointLen c) (SigR c) (SigRLen c) (SigS c)
    (SigSLen c) (PubKeyCurveId c) (EncodedCert c) (EncodedCertLen c) (CertFlags c) (KeyUsageFlags c) (PubKeyAlgoOID c)
    (SigAlgoOID c) (CertType c) (KeyPurposeFlags c) (NotBeforeDate c) (NotAfterDate c) (PathLenConstraint c)
    (TBSHash c).
Definition set_ECPoint (v : pointer) (c : WeaveCertificateData) : WeaveCertificateData :=
  mkCert (SubjectDN c) (IssuerDN c) (SubjectKeyId c) (AuthKeyId c) v (ECPointLen c) (SigR c) (SigRLen c) (SigS c)
    (SigSLen c) (PubKeyCurveId c) (EncodedCert c) (EncodedCertLen c) (CertFlags c) (KeyUsageFlags c) (PubKeyAlgoOID c)
    (SigAlgoOID c) (CertType c) (KeyPurposeFlags c) (NotBeforeDate c) (NotAfterDate c) (PathLenConstraint c)
    (TBSHash c).
Definition set_ECPointLen (v : Z) (c : WeaveCertificateData) : WeaveCertificateData :=
  mkCert (SubjectDN c) (IssuerDN c) (SubjectKeyId c) (AuthKeyId c) (ECPoint c) v (SigR c) (SigRLen c) (SigS c)
    (SigSLen c) (PubKeyCurveId c) (EncodedCert c) (EncodedCertLen c) (CertFlags c) (KeyUsageFlags c) (PubKeyAlgoOID c)
    (SigAlgoOID c) (CertType c) (KeyPurposeFlags c) (NotBeforeDate c) (NotAfterDate c) (PathLenConstraint c)
    (TBSHash c).
Definition set_SigR (v : pointer) (c : WeaveCertificateData) : WeaveCertificateData :=
  mkCert (SubjectDN c) (IssuerDN c) (SubjectKeyId c) (AuthKeyId c) (ECPoint c) (ECPointLen c) v (SigRLen c) (SigS c)
    (SigSLen c) (PubKeyCurveId c) (EncodedCert c) (EncodedCertLen c) (CertFlags c) (KeyUsageFlags c) (PubKeyAlgoOID c)
    (SigAlgoOID c) (CertType c) (KeyPurposeFlags c) (NotBeforeDate c) (NotAfterDate c) (PathLenConstraint c)
    (TBSHash c).
Definition set_SigRLen (v : Z) (c : WeaveCertificateData) : WeaveCertificateData :=
  mkCert (SubjectDN c) (IssuerDN c) (SubjectKeyId c) (AuthKeyId c) (ECPoint c) (ECPointLen c) (SigR c) v (SigS c)
    (SigSLen c) (PubKeyCurveId c) (EncodedCert c) (EncodedCertLen c) (CertFlags c) (KeyUsageFlags c) (PubKeyAlgoOID c)
    (SigAlgoOID c) (CertType c) (KeyPurposeFlags c) (NotBeforeDate c) (NotAfterDate c) (PathLenConstraint c)
    (TBSHash c).
Definition set_SigS (v : pointer) (c : WeaveCertificateData) : WeaveCertificateData :=
  mkCert (SubjectDN c) (IssuerDN c) (SubjectKeyId c) (AuthKeyId c) (ECPoint c) (ECPointLen c) (SigR c) (SigRLen c) v
    (SigSLen c) (PubKeyCurveId c) (EncodedCert c) (EncodedCertLen c) (CertFlags c) (KeyUsageFlags c) (PubKeyAlgoOID c)
    (SigAlgoOID c) (CertType c) (KeyPurposeFlags c) (NotBeforeDate c) (NotAfterDate c) (PathLenConstraint c)
    (TBSHash c).
Definition set_SigSLen (v : Z) (c : WeaveCertificateData) : WeaveCertificateData :=
  mkCert (SubjectDN c) (IssuerDN c) (SubjectKeyId c) (AuthKeyId c) (ECPoint c) (ECPointLen c) (SigR c) (SigRLen c)
    (SigS c) v (PubKeyCurveId c) (EncodedCert c) (EncodedCertLen c) (CertFlags c) (KeyUsageFlags c) (PubKeyAlgoOID c)
    (SigAlgoOID c) (CertType c) (KeyPurposeFlags c) (NotBeforeDate c) (NotAfterDate c) (PathLenConstraint c)
    (TBSHash c).
Definition set_PubKeyCurveId (v : Z) (c : WeaveCertificateData) : WeaveCertificateData :=
  mkCert (SubjectDN c) (IssuerDN c) (SubjectKeyId c) (AuthKeyId c) (ECPoint c) (ECPointLen c) (SigR c) (SigRLen c)
    (SigS c) (SigSLen c) v (EncodedCert c) (EncodedCertLen c) (CertFlags c) (KeyUsageFlags c) (PubKeyAlgoOID c)
    (SigAlgoOID c) (CertType c) (KeyPurposeFlags c) (NotBeforeDate c) (NotAfterDate c) (PathLenConstraint c)
    (TBSHash c).
Definition set_EncodedCert (v : pointer) (c : WeaveCertificateData) : WeaveCertificateData :=
  mkCert (SubjectDN c) (IssuerDN c) (SubjectKeyId c) (AuthKeyId c) (ECPoint c) (ECPointLen c) (SigR c) (SigRLen c)
    (SigS c) (SigSLen c) (PubKeyCurveId c) v (EncodedCertLen c) (CertFlags c) (KeyUsageFlags c) (PubKeyAlgoOID c)
    (SigAlgoOID c) (CertType c) (KeyPurposeFlags c) (NotBeforeDate c) (NotAfterDate c) (PathLenConstraint c)
    (TBSHash c).
Definition set_EncodedCertLen (v : Z) (c : WeaveCertificateData) : WeaveCertificateData :=
  mkCert (SubjectDN c) (IssuerDN c) (SubjectKeyId c) (AuthKeyId c) (ECPoint c) (ECPointLen c) (SigR c) (SigRLen c)
    (SigS c) (SigSLen c) (PubKeyCurveId c) (EncodedCert c) v (CertFlags c) (KeyUsageFlags c) (PubKeyAlgoOID c)
    (SigAlgoOID c) (CertType c) (KeyPurposeFlags c) (NotBeforeDate c) (NotAfterDate c) (PathLenConstraint c)
    (TBSHash c).
Definition set_CertFlags (v : Z) (c : WeaveCertificateData) : WeaveCertificateData :=
  mkCert (SubjectDN c) (IssuerDN c) (SubjectKeyId c) (AuthKeyId c) (ECPoint c) (ECPointLen c) (SigR c) (SigRLen c)
    (SigS c) (SigSLen c) (PubKeyCurveId c) (EncodedCert c) (EncodedCertLen c) v (KeyUsageFlags c) (PubKeyAlgoOID c)
    (SigAlgoOID c) (CertType c) (KeyPurposeFlags c) (NotBeforeDate c) (NotAfterDate c) (PathLenConstraint c)
    (TBSHash c).
Definition set_KeyUsageFlags (v : Z) (c : WeaveCertificateData) : WeaveCertificateData :=
  mkCert (SubjectDN c) (IssuerDN c) (SubjectKeyId c) (AuthKeyId c) (ECPoint c) (ECPointLen c) (SigR c) (SigRLen c)
    (SigS c) (SigSLen c) (PubKeyCurveId c) (EncodedCert c) (EncodedCertLen c) (CertFlags c) v (PubKeyAlgoOID c)
    (SigAlgoOID c) (CertType c) (KeyPurposeFlags c) (NotBeforeDate c) (NotAfterDate c) (PathLenConstraint c)
    (TBSHash c).
Definition set_PubKeyAlgoOID (v : Z) (c : WeaveCertificateData) : WeaveCertificateData :=
  mkCert (SubjectDN c) (IssuerDN c) (SubjectKeyId c) (AuthKeyId c) (ECPoint c) (ECPointLen c) (SigR c) (SigRLen c)
    (SigS c) (SigSLen c) (PubKeyCurveId c) (EncodedCert c) (EncodedCertLen c) (CertFlags c) (KeyUsageFlags c) v
    (SigAlgoOID c) (CertType c) (KeyPurposeFlags c) (NotBeforeDate c) (NotAfterDate c) (PathLenConstraint c)
    (TBSHash c).
Definition set_SigAlgoOID (v : Z) (c : WeaveCertificateData) : WeaveCertificateData :=
  mkCert (SubjectDN c) (IssuerDN c) (SubjectKeyId c) (AuthKeyId c) (ECPoint c) (ECPointLen c) (SigR c) (SigRLen c)
    (SigS c) (SigSLen c) (PubKeyCurveId c) (EncodedCert c) (EncodedCertLen c) (CertFlags c) (KeyUsageFlags c)
    (PubKeyAlgoOID c) v (CertType c) (KeyPurposeFlags c) (NotBeforeDate c) (NotAfterDate c) (PathLenConstraint c)
    (TBSHash c).
Definition set_CertType (v : Z) (c : WeaveCertificateData) : WeaveCertificateData :=
  mkCert (SubjectDN c) (IssuerDN c) (SubjectKeyId c) (AuthKeyId c) (ECPoint c) (ECPointLen c) (SigR c) (SigRLen c)
    (SigS c) (SigSLen c) (PubKeyCurveId c) (EncodedCert c) (EncodedCertLen c) (CertFlags c) (KeyUsageFlags c)
    (PubKeyAlgoOID c) (SigAlgoOID c) v (KeyPurposeFlags c) (NotBeforeDate c) (NotAfterDate c) (PathLenConstraint c)
    (TBSHash c).
Definition set_KeyPurposeFlags (v : Z) (c : WeaveCertificateData) : WeaveCertificateData :=
  mkCert (SubjectDN c) (IssuerDN c) (SubjectKeyId c) (AuthKeyId c) (ECPoint c) (ECPointLen c) (SigR c) (SigRLen c)
    (SigS c) (SigSLen c) (PubKeyCurveId c) (EncodedCert c) (EncodedCertLen c) (CertFlags c) (KeyUsageFlags c)
    (PubKeyAlgoOID c) (SigAlgoOID c) (CertType c) v (NotBeforeDate c) (NotAfterDate c) (PathLenConstraint c)
    (TBSHash c).
Definition set_NotBeforeDate (v : Z) (c : WeaveCertificateData) : WeaveCertificateData :=
  mkCert (SubjectDN c) (IssuerDN c) (SubjectKeyId c) (AuthKeyId c) (ECPoint c) (ECPointLen c) (SigR c) (SigRLen c)
    (SigS c) (SigSLen c) (PubKeyCurveId c) (EncodedCert c) (EncodedCertLen c) (CertFlags c) (KeyUsageFlags c)
    (PubKeyAlgoOID c) (SigAlgoOID c) (CertType c) (KeyPurposeFlags c) v (NotAfterDate c) (PathLenConstraint c)
    (TBSHash c).
Definition set_NotAfterDate (v : Z) (c : WeaveCertificateData) : WeaveCertificateData :=
  mkCert (SubjectDN c) (IssuerDN c) (SubjectKeyId c) (AuthKeyId c) (ECPoint c) (ECPointLen c) (SigR c) (SigRLen c)
    (SigS c) (SigSLen c) (PubKeyCurveId c) (EncodedCert c) (EncodedCertLen c) (CertFlags c) (KeyUsageFlags c)
    (PubKeyAlgoOID c) (SigAlgoOID c) (CertType c) (KeyPurposeFlags c) (NotBeforeDate c) v (PathLenConstraint c)
    (TBSHash c).
Definition set_PathLenConstraint (v : Z) (c : WeaveCertificateData) : WeaveCertificateData :=
  mkCert (SubjectDN c) (IssuerDN c) (SubjectKeyId c) (AuthKeyId c) (ECPoint c) (ECPointLen c) (SigR c) (SigRLen c)
    (SigS c) (SigSLen c) (PubKeyCurveId c) (EncodedCert c) (EncodedCertLen c) (CertFlags c) (KeyUsageFlags c)
    (PubKeyAlgoOID c) (SigAlgoOID c) (CertType c) (KeyPurposeFlags c) (NotBeforeDate c) (NotAfterDate c) v (TBSHash c).
Definition set_TBSHash (v : list Z) (c : WeaveCertificateData) : WeaveCertificateData :=
  mkCert (SubjectDN c) (IssuerDN c) (SubjectKeyId c) (AuthKeyId c) (ECPoint c) (ECPointLen c) (SigR c) (SigRLen c)
    (SigS c) (SigSLen c) (PubKeyCurveId c) (EncodedCert c) (EncodedCertLen c) (CertFlags c) (KeyUsageFlags c)
    (PubKeyAlgoOID c) (SigAlgoOID c) (CertType c) (KeyPurposeFlags c) (NotBeforeDate c) (NotAfterDate c)
    (PathLenConstraint c) v.
(** certData.CertFlags |= flag *)
Definition add_flag (flag : Z) (c : WeaveCertificateData) : WeaveCertificateData := set_CertFlags (Z.lor (CertFlags c) flag) c.

(** DetermineCertType(cert): the certificate with its type. *)
Definition DetermineCertType (c : WeaveCertificateData) : res WeaveCertificateData :=
  if has_flag (CertFlags c) kCertFlag_IsCA then
    if has_flag (CertFlags c) kCertFlag_ExtPresent_KeyUsage && has_flag (KeyUsageFlags c) kKeyUsageFlag_KeyCertSign
    then Ok (set_CertType kCertType_CA c) else Err WEAVE_ERROR_CERT_USAGE_NOT_ALLOWED
  else if AttrOID (SubjectDN c) =? kOID_AttributeType_WeaveDeviceId then Ok (set_CertType kCertType_Device c)
  else if AttrOID (SubjectDN c) =? kOID_AttributeType_WeaveServiceEndpointId then Ok (set_CertType kCertType_ServiceEndpoint c)
  else if AttrOID (SubjectDN c) =? kOID_AttributeType_WeaveSoftwarePublisherId then Ok (set_CertType kCertType_FirmwareSigning c)
  else Ok (set_CertType kCertType_General c).

(** ** The set *)

(** A buffer: where it is, and its bytes. *)
Definition buffer : Type := Z * list Z.

(** [Certs] is [None] for NULL; mFreeFunct is not NULL exactly when mAllocFunct is
    not.  mAllocFunct says whether an allocation of a size succeeds. *)
Record WeaveCertificateSet := mkCertSet {
  Certs : option (list WeaveCertificateData);
  CertCount : Z;
  MaxCerts : Z;
  mAllocFunct : option (Z -> option buffer);
  mDecodeBuf : option buffer;
  mDecodeBufSize : Z }.
Definition set_Certs (certs : option (list WeaveCertificateData)) (count : Z) (s : WeaveCertificateSet) : WeaveCertificateSet :=
  mkCertSet certs count (MaxCerts s) (mAllocFunct s) (mDecodeBuf s) (mDecodeBufSize s).

Definition CertificateSet_new : WeaveCertificateSet := mkCertSet None 0 0 None None 0.
(** Init(maxCerts, decodeBufSize, allocFunct, freeFunct): [mem] is what the array's
    allocation gives, uninitialised. *)
Definition CertificateSet_Init_alloc (maxCerts decodeBufSize : Z) (allocFunct : Z -> option buffer) (mem : option (list WeaveCertificateData)) : M WeaveCertificateSet unit := fun s =>
  match mem with
  | None => (Err WEAVE_ERROR_NO_MEMORY, set_Certs None (CertCount s) s)
  | Some _ => (Ok tt, mkCertSet mem 0 maxCerts (Some allocFunct) None decodeBufSize)
  end.
(** Init(certsArray, certArraySize, decodeBuf, decodeBufSize) *)
Definition CertificateSet_Init (certsArray : option (list WeaveCertificateData)) (certArraySize : Z) (decodeBuf : option buffer) (decodeBufSize : Z) : WeaveCertificateSet :=
  mkCertSet certsArray 0 certArraySize None decodeBuf decodeBufSize.
Definition CertificateSet_Release (s : WeaveCertificateSet) : WeaveCertificateSet :=
  match mAllocFunct s with
  | Some _ => mkCertSet None (CertCount s) (MaxCerts s) (mAllocFunct s) None (mDecodeBufSize s)
  | None => s
  end.
(** Clear zeroes MaxCerts places: none at all on the set of the constructor, which has
    no array and no places. *)
Definition CertificateSet_Clear : M WeaveCertificateSet unit := fun s =>
  match Certs s with
  | Some _ => (Ok tt, set_Certs (Some (replicate (Z.to_nat (MaxCerts s)) zero_cert)) 0 s)
  | None => if MaxCerts s =? 0 then (Ok tt, set_Certs None 0 s) else (Undefined, s)
  end.

(** The certificates in use, in a set that has its array. *)
Definition loaded (s : WeaveCertificateSet) : list WeaveCertificateData := take (Z.to_nat (CertCount s)) (default [] (Certs s)).

(** FindCert and LastCert: the index of the certificate.  Where there is no array
    FindCert may only be called with a count of 0. *)
Fixpoint find_index (f : WeaveCertificateData -> bool) (l : list WeaveCertificateData) (i : nat) : option nat :=
  match l with
  | [] => None
  | c :: l => if f c then Some i else find_index f l (S i)
  end.
Definition FindCert (subjectKeyId : CertificateKeyId) (s : WeaveCertificateSet) : res (option nat) :=
  match Certs s with
  | Some _ => Ok (find_index (fun cert => KeyId_IsEqual (SubjectKeyId cert) subjectKeyId) (loaded s) 0)
  | None => if CertCount s =? 0 then Ok None else Undefined
  end.
Definition LastCert (s : WeaveCertificateSet) : option nat := if 0 <? CertCount s then Some (Z.to_nat (CertCount s - 1)) else None.

(** Storing to Certs[CertCount]. *)
Definition store_cert (c : WeaveCertificateData) (count : Z) : M WeaveCertificateSet unit := fun s =>
  match Certs s with
  | Some certs => (Ok tt, set_Certs (Some (<[Z.to_nat (CertCount s) := c]> certs)) count s)
  | None => (Undefined, s)
  end.

(** AddTrustedKey(caId, curveId, pubKey, pubKeyId, pubKeyIdLen): the length of the id
    is stored in 8 bits. *)
Definition AddTrustedKey (caId curveId : Z) (pubKey : pointer) (pubKeyLen : Z) (pubKeyId : pointer) (pubKeyIdLen : Z) : M WeaveCertificateSet unit := fun s =>
  if negb (CertCount s <? MaxCerts s) then (Err WEAVE_ERROR_NO_MEMORY, s)
  else
    let dn := mkDN caId [] kOID_AttributeType_WeaveCAId in
    let id := mkKeyId pubKeyId (u8 pubKeyIdLen) in
    let flags := fold_left Z.lor [kCertFlag_AuthKeyIdPresent; kCertFlag_ExtPresent_AuthKeyId; kCertFlag_ExtPresent_BasicConstraints;
      kCertFlag_ExtPresent_SubjectKeyId; kCertFlag_ExtPresent_KeyUsage; kCertFlag_IsCA; kCertFlag_IsTrusted] 0 in
    let cert := set_SubjectDN dn (set_IssuerDN dn (set_PubKeyCurveId curveId (set_ECPoint pubKey (set_ECPointLen pubKeyLen
      (set_SubjectKeyId id (set_AuthKeyId id (set_KeyUsageFlags kKeyUsageFlag_KeyCertSign (set_CertFlags flags (set_CertType kCertType_CA zero_cert))))))))) in
    store_cert cert (u8 (CertCount s + 1)) s.

(** ** Validation *)

(** TrustAnchor is the index of the certificate.  CertValidationResults is an array
    of CertValidationResultsLen codes; [None] is WEAVE_NO_ERROR. *)
Record ValidationContext := mkContext {
  EffectiveTime : Z;
  TrustAnchor : option nat;
  RequiredKeyUsages : Z;
  ValidateFlags : Z;
  CertValidationResults : option (list (option WEAVE_ERROR));
  RequiredKeyPurposes : Z;
  RequiredCertType : Z }.
Definition set_TrustAnchor (a : option nat) (x : ValidationContext) : ValidationContext :=
  mkContext (EffectiveTime x) a (RequiredKeyUsages x) (ValidateFlags x) (CertValidationResults x) (RequiredKeyPurposes x) (RequiredCertType x).
Definition set_CertValidationResults (l : option (list (option WEAVE_ERROR))) (x : ValidationContext) : ValidationContext :=
  mkContext (EffectiveTime x) (TrustAnchor x) (RequiredKeyUsages x) (ValidateFlags x) l (RequiredKeyPurposes x) (RequiredCertType x).

Definition kLastSecondOfDay : Z := 86399.
Definition kWeaveVendor_NestLabs : Z := 0x235A.
Definition kWeaveCurveId_VendorMask : Z := 0xFFFF0000.
Definition kWeaveCurveId_VendorShift : Z := 16.
Definition WeaveCurveIdToOID (weaveCurveId : Z) : Z :=
  if negb (Z.land weaveCurveId kWeaveCurveId_VendorMask =? Z.shiftl kWeaveVendor_NestLabs kWeaveCurveId_VendorShift) then kOID_Unknown
  else Z.lor kOIDCategory_EllipticCurve (Z.land kOID_Mask weaveCurveId).
Definition OIDToWeaveCurveId (curveOID : Z) : Z := Z.lor (Z.shiftl kWeaveVendor_NestLabs kWeaveCurveId_VendorShift) (Z.land kOID_Mask curveOID).

(** The exit of ValidateCert: the result goes to the array, if there is one. *)
Definition record_result (i : nat) (m : M ValidationContext unit) : M ValidationContext unit := fun x =>
  let '(r, x) := m x in
  let put e := set_CertValidationResults (match CertValidationResults x with Some l => Some (<[i := e]> l) | None => None end) x in
  match r with
  | Ok _ => (r, put None)
  | Err e => (r, put (Some e))
  | _ => (r, x)
  end.

Section Validate.
(** Crypto::VerifyECDSASignature: curve, hash, the two parts of the signature and the
    public key; [None] is success. *)
Context (Crypto_VerifyECDSASignature : Z -> list Z -> list Z -> list Z -> list Z -> option WEAVE_ERROR).

Definition Cert_VerifyECDSASignature (msgHash sigR sigS : list Z) (cert : WeaveCertificateData) : option WEAVE_ERROR :=
  Crypto_VerifyECDSASignature (WeaveCurveIdToOID (PubKeyCurveId cert)) msgHash sigR sigS (pointed (ECPoint cert) (ECPointLen cert)).

Context (certs : list WeaveCertificateData).
Definition nth_cert (i : nat) : WeaveCertificateData := nth i certs zero_cert.
Definition cert_count : Z := Z.of_nat (length certs).

(** The conditions on the use of a certificate at a depth. *)
Definition verify_use (cert : WeaveCertificateData) (depth : Z) : M ValidationContext unit := fun x =>
  (if 0 <? depth then
     do* verify (has_flag (CertFlags cert) kCertFlag_IsCA) WEAVE_ERROR_CERT_USAGE_NOT_ALLOWED in
     do* verify (has_flag (CertFlags cert) kCertFlag_ExtPresent_KeyUsage && has_flag (KeyUsageFlags cert) kKeyUsageFlag_KeyCertSign) WEAVE_ERROR_CERT_USAGE_NOT_ALLOWED in
     do* verify (CertType cert =? kCertType_CA) WEAVE_ERROR_WRONG_CERT_TYPE in
     if has_flag (CertFlags cert) kCertFlag_PathLenConstPresent
     then verify (depth - 1 <=? PathLenConstraint cert) WEAVE_ERROR_CERT_PATH_LEN_CONSTRAINT_EXCEEDED else ret tt
   else
     do* (if negb (RequiredKeyUsages x =? 0)
          then verify (has_flag (CertFlags cert) kCertFlag_ExtPresent_KeyUsage &&
                       (Z.land (KeyUsageFlags cert) (RequiredKeyUsages x) =? RequiredKeyUsages x)) WEAVE_ERROR_CERT_USAGE_NOT_ALLOWED else ret tt) in
     do* (if negb (RequiredKeyPurposes x =? 0)
          then verify (has_flag (CertFlags cert) kCertFlag_ExtPresent_ExtendedKeyUsage &&
                       (Z.land (KeyPurposeFlags cert) (RequiredKeyPurposes x) =? RequiredKeyPurposes x)) WEAVE_ERROR_CERT_USAGE_NOT_ALLOWED else ret tt) in
     if negb (RequiredCertType x =? kCertType_NotSpecified)
     then verify (CertType cert =? RequiredCertType x) WEAVE_ERROR_WRONG_CERT_TYPE else ret tt) x.
Definition verify_time (cert : WeaveCertificateData) (validateFlags : Z) : M ValidationContext unit := fun x =>
  (do* (if negb (NotBeforeDate cert =? 0) && negb (has_flag validateFlags kValidateFlag_IgnoreNotBefore)
        then verify (PackedCertDateToTime (NotBeforeDate cert) <=? EffectiveTime x) WEAVE_ERROR_CERT_NOT_VALID_YET else ret tt) in
   if negb (NotAfterDate cert =? 0) && negb (has_flag validateFlags kValidateFlag_IgnoreNotAfter)
   then verify (EffectiveTime x <=? u32 (PackedCertDateToTime (NotAfterDate cert) + kLastSecondOfDay)) WEAVE_ERROR_CERT_EXPIRED else ret tt) x.

(** The length of the hash that was signed. *)
Definition hash_len (cert : WeaveCertificateData) : Z := if SigAlgoOID cert =? kOID_SigAlgo_ECDSAWithSHA256 then 32 else 20.

(** The loop of FindValidCert over the certificates from [i] on, [err] being the
    error so far; [validate] is ValidateCert. *)
Fixpoint find_valid (validate : nat -> M ValidationContext unit) (subjectDN : WeaveDN) (subjectKeyId : CertificateKeyId)
    (l : list WeaveCertificateData) (i : nat) (err : WEAVE_ERROR) : M ValidationContext nat :=
  match l with
  | [] => fail err
  | candidateCert :: l =>
    if (negb (DN_IsEmpty subjectDN) && negb (DN_IsEqual (SubjectDN candidateCert) subjectDN)) ||
       (negb (KeyId_IsEmpty subjectKeyId) && negb (KeyId_IsEqual (SubjectKeyId candidateCert) subjectKeyId))
    then find_valid validate subjectDN subjectKeyId l (S i) err
    else fun x =>
      match validate i x with
      | (Ok _, x) => (Ok i, x)
      | (Err e, x) => find_valid validate subjectDN subjectKeyId l (S i) e x
      | (Undefined, x) => (Undefined, x)
      | (Diverges, x) => (Diverges, x)
      end
  end.
Definition FindValidCert_at (validate : nat -> M ValidationContext unit) (subjectDN : WeaveDN) (subjectKeyId : CertificateKeyId) (depth : Z) : M ValidationContext nat :=
  let err := if 0 <? depth then WEAVE_ERROR_CA_CERT_NOT_FOUND else WEAVE_ERROR_CERT_NOT_FOUND in
  if DN_IsEmpty subjectDN && KeyId_IsEmpty subjectKeyId then fail err
  else find_valid validate subjectDN subjectKeyId certs 0 err.

(** Any error of the search is reported as CA_CERT_NOT_FOUND. *)
Definition or_not_found {A} (m : M ValidationContext A) : M ValidationContext A := fun x =>
  match m x with
  | (Err _, x) => (Err WEAVE_ERROR_CA_CERT_NOT_FOUND, x)
  | other => other
  end.

Fixpoint ValidateCert_at (fuel : nat) (i : nat) (validateFlags depth : Z) : M ValidationContext unit :=
  match fuel with
  | O => fun x => (Diverges, x)
  | S fuel =>
    let cert := nth_cert i in
    record_result i
      (do* verify_use cert depth in
       do* verify_time cert validateFlags in
       if has_flag (CertFlags cert) kCertFlag_IsTrusted then modify (set_TrustAnchor (Some i))
       else if DN_IsEqual (IssuerDN cert) (SubjectDN cert) && KeyId_IsEqual (AuthKeyId cert) (SubjectKeyId cert) then fail WEAVE_ERROR_CERT_NOT_TRUSTED
       else
         do* verify (depth <? cert_count) WEAVE_ERROR_CERT_PATH_TOO_LONG in
         do* verify (has_flag (CertFlags cert) kCertFlag_TBSHashPresent) WEAVE_ERROR_INVALID_ARGUMENT in
         do* (if has_flag validateFlags kValidateFlag_RequireSHA256
              then verify (SigAlgoOID cert =? kOID_SigAlgo_ECDSAWithSHA256) WEAVE_ERROR_WRONG_CERT_SIGNATURE_ALGORITHM else ret tt) in
         let validateFlags := if SigAlgoOID cert =? kOID_SigAlgo_ECDSAWithSHA256 then Z.lor validateFlags kValidateFlag_RequireSHA256 else validateFlags in
         let depth' := u8 (depth + 1) in
         let* caCert := or_not_found (FindValidCert_at (fun j => ValidateCert_at fuel j validateFlags depth') (IssuerDN cert) (AuthKeyId cert) depth') in
         match Cert_VerifyECDSASignature (take (Z.to_nat (hash_len cert)) (TBSHash cert)) (pointed (SigR cert) (SigRLen cert)) (pointed (SigS cert) (SigSLen cert)) (nth_cert caCert) with
         | Some e => fail e
         | None => ret tt
         end)
  end.
(** A chain is not longer than there are certificates, and one more. *)
Definition validate_fuel : nat := S (S (length certs)).

(** The public ValidateCert and FindValidCert *)
Definition reset_results : M ValidationContext unit := fun x =>
  match CertValidationResults x with
  | Some l => if negb (cert_count <=? Z.of_nat (length l)) then (Err WEAVE_ERROR_INVALID_ARGUMENT, x)
              else (Ok tt, set_CertValidationResults (Some (map (fun _ => Some WEAVE_CERT_NOT_USED) l)) x)
  | None => (Ok tt, x)
  end.
Definition ValidateCert (i : nat) : M ValidationContext unit := fun x =>
  if negb (Z.of_nat i <? cert_count) then (Err WEAVE_ERROR_INVALID_ARGUMENT, x)
  else (do* reset_results in do* modify (set_TrustAnchor None) in ValidateCert_at validate_fuel i (ValidateFlags x) 0) x.
Definition FindValidCert (subjectDN : WeaveDN) (subjectKeyId : CertificateKeyId) : M ValidationContext nat := fun x =>
  (do* reset_results in do* modify (set_TrustAnchor None) in
   FindValidCert_at (fun j => ValidateCert_at validate_fuel j (ValidateFlags x) 0) subjectDN subjectKeyId 0) x.
End Validate.
