(* ===== verification/CertChain.v ===== *)
(** * Chains of certificates

    What the validation of Cert.v promises: a certification path, from the certificate
    to a trusted one, and that the search for one ends. *)
From S2P Require Import Prelude ASN1OID CertTime Cert.
Local Open Scope Z_scope.
Local Open Scope weave_scope.

Section Chain.
Context (Crypto_VerifyECDSASignature : Z -> list Z -> list Z -> list Z -> list Z -> option WEAVE_ERROR).
Context (certs : list WeaveCertificateData).
Abbreviation cert := (nth_cert certs).
Abbreviation count := (cert_count certs).

(** ** Certification paths *)

Definition trusted (c : WeaveCertificateData) : bool := has_flag (CertFlags c) kCertFlag_IsTrusted.
Definition sha256_signed (c : WeaveCertificateData) : bool := SigAlgoOID c =? kOID_SigAlgo_ECDSAWithSHA256.

(** What a certificate [depth] steps above the one that is validated may be used for. *)
Definition usable (x : ValidationContext) (depth : Z) (c : WeaveCertificateData) : Prop :=
  if decide (0 < depth) then
    has_flag (CertFlags c) kCertFlag_IsCA = true /\ has_flag (CertFlags c) kCertFlag_ExtPresent_KeyUsage = true /\
    has_flag (KeyUsageFlags c) kKeyUsageFlag_KeyCertSign = true /\ CertType c = kCertType_CA /\
    (has_flag (CertFlags c) kCertFlag_PathLenConstPresent = true -> depth - 1 <= PathLenConstraint c)
  else
    (RequiredKeyUsages x <> 0 -> has_flag (CertFlags c) kCertFlag_ExtPresent_KeyUsage = true /\
       Z.land (KeyUsageFlags c) (RequiredKeyUsages x) = RequiredKeyUsages x) /\
    (RequiredKeyPurposes x <> 0 -> has_flag (CertFlags c) kCertFlag_ExtPresent_ExtendedKeyUsage = true /\
       Z.land (KeyPurposeFlags c) (RequiredKeyPurposes x) = RequiredKeyPurposes x) /\
    (RequiredCertType x <> kCertType_NotSpecified -> CertType c = RequiredCertType x).
Definition in_time (x : ValidationContext) (c : WeaveCertificateData) : Prop :=
  (NotBeforeDate c <> 0 -> has_flag (ValidateFlags x) kValidateFlag_IgnoreNotBefore = false -> PackedCertDateToTime (NotBeforeDate c) <= EffectiveTime x) /\
  (NotAfterDate c <> 0 -> has_flag (ValidateFlags x) kValidateFlag_IgnoreNotAfter = false ->
     EffectiveTime x <= u32 (PackedCertDateToTime (NotAfterDate c) + kLastSecondOfDay)).

(** [ca] has the names that [c] gives for its issuer, and at least one is given. *)
Definition matches (dn : WeaveDN) (id : CertificateKeyId) (ca : WeaveCertificateData) : bool :=
  (DN_IsEmpty dn || DN_IsEqual (SubjectDN ca) dn) && (KeyId_IsEmpty id || KeyId_IsEqual (SubjectKeyId ca) id).
Definition names_issuer (c ca : WeaveCertificateData) : Prop :=
  (DN_IsEmpty (IssuerDN c) && KeyId_IsEmpty (AuthKeyId c) = false) /\ matches (IssuerDN c) (AuthKeyId c) ca = true.
Definition self_issued (c : WeaveCertificateData) : bool := DN_IsEqual (IssuerDN c) (SubjectDN c) && KeyId_IsEqual (AuthKeyId c) (SubjectKeyId c).
(** [ca] issued [c]: the names match and the signature verifies. *)
Definition issued (c ca : WeaveCertificateData) : Prop :=
  names_issuer c ca /\ has_flag (CertFlags c) kCertFlag_TBSHashPresent = true /\
  Cert_VerifyECDSASignature Crypto_VerifyECDSASignature (take (Z.to_nat (hash_len c)) (TBSHash c))
    (pointed (SigR c) (SigRLen c)) (pointed (SigS c) (SigSLen c)) ca = None.

(** The path [p] of indices from [i], which stands [d] steps above the certificate
    that is validated, to the trusted certificate [a]; [sha] says that only SHA-256
    signatures are wanted, which one of them also asks of those above it. *)
Record certification_path (x : ValidationContext) (d : Z) (sha : bool) (i a : nat) (p : list nat) : Prop := {
  path_from : p !! 0%nat = Some i;
  path_to : p !! (length p - 1)%nat = Some a;
  path_anchor : trusted (cert a) = true;
  path_certs : forall k j, p !! k = Some j -> (j < length certs)%nat /\ usable x (d + Z.of_nat k) (cert j) /\ in_time x (cert j);
  path_issued : forall k j j', p !! k = Some j -> p !! S k = Some j' ->
    trusted (cert j) = false /\ self_issued (cert j) = false /\ issued (cert j) (cert j');
  path_sha256 : forall k j j', p !! k = Some j -> p !! S k = Some j' ->
    sha = true \/ (exists k' j'', (k' < k)%nat /\ p !! k' = Some j'' /\ sha256_signed (cert j'') = true) -> sha256_signed (cert j) = true }.

Lemma path_one x d sha i : (i < length certs)%nat -> usable x d (cert i) -> in_time x (cert i) -> trusted (cert i) = true ->
  certification_path x d sha i i [i].
Proof.
  intros Hi HU HT HA. split; try done. intros [|k] j; [|done]. intros [= <-]. by rewrite Z.add_0_r.
Qed.

Lemma path_cons x d sha i j a p : (i < length certs)%nat -> usable x d (cert i) -> in_time x (cert i) ->
  trusted (cert i) = false -> self_issued (cert i) = false -> issued (cert i) (cert j) -> (sha = true -> sha256_signed (cert i) = true) ->
  certification_path x (d + 1) (sha || sha256_signed (cert i)) j a p -> certification_path x d sha i a (i :: p).
Proof.
  intros Hi HU HT HN HSelf HI HS [PF PT PA PC PI PS]. split.
  - done.
  - destruct p as [|j0 p]; [done|]. cbn [length] in *. by replace (S (S (length p)) - 1)%nat with (S (S (length p) - 1)) by lia.
  - done.
  - intros [|k] j0; [intros [= <-]; by rewrite Z.add_0_r|]. intros Hk. replace (d + Z.of_nat (S k)) with (d + 1 + Z.of_nat k) by lia. by apply PC.
  - intros [|k] j0 j'; [|apply PI]. intros [= <-] Hj. assert (j' = j) as -> by (change ((i :: p) !! 1%nat) with (p !! 0%nat) in Hj; congruence). done.
  - intros [|k] j0 j'.
    + intros [= <-] Hj [->|(k' & ? & Hk' & _)]; [by apply HS|lia].
    + intros Hk Hk1 HX. apply (PS k j0 j' Hk Hk1). destruct HX as [->|(k' & j'' & Hk' & Hj'' & HSh)]; [by left|].
      destruct k' as [|k']; [injection Hj'' as <-; left; rewrite HSh; apply orb_true_r|]. right. exists k', j''. split; [lia|done].
Qed.

(** The other way round. *)
Lemma path_inv x d sha i a p : certification_path x d sha i a (i :: p) -> (i < length certs)%nat /\ usable x d (cert i) /\ in_time x (cert i) /\
  match p with
  | [] => i = a /\ trusted (cert i) = true
  | j :: _ => trusted (cert i) = false /\ self_issued (cert i) = false /\ issued (cert i) (cert j) /\ (sha = true -> sha256_signed (cert i) = true) /\
      certification_path x (d + 1) (sha || sha256_signed (cert i)) j a p
  end.
Proof.
  intros [PF PT PA PC PI PS]. destruct (PC 0%nat i eq_refl) as (Hi & HU & HT). rewrite Z.add_0_r in HU. split; [done|]. split; [done|]. split; [done|].
  destruct p as [|j p]; [injection PT as ->; done|]. destruct (PI 0%nat i j eq_refl eq_refl) as (HN & HSelf & HI).
  split; [done|]. split; [done|]. split; [done|]. split; [intros Hs; apply (PS 0%nat i j eq_refl eq_refl); by left|]. split; try done.
  - rewrite <- PT. cbn [length]. by replace (S (S (length p)) - 1)%nat with (S (S (length p) - 1)) by lia.
  - intros k j0 Hk. replace (d + 1 + Z.of_nat k) with (d + Z.of_nat (S k)) by lia. by apply (PC (S k)).
  - intros k j0 j' Hk Hk'. by apply (PI (S k)).
  - intros k j0 j' Hk Hk' HX. apply (PS (S k) j0 j' Hk Hk'). destruct HX as [[->|HSh]%orb_prop|(k' & j'' & Hlt & Hj'' & HSh)]; [by left| |].
    + right. exists 0%nat, i. split; [lia|done].
    + right. exists (S k'), j''. split; [lia|done].
Qed.

(** ** The checks of one certificate *)

(** What validation does not change of its context. *)
Definition same_params (x x' : ValidationContext) : Prop :=
  EffectiveTime x' = EffectiveTime x /\ RequiredKeyUsages x' = RequiredKeyUsages x /\ ValidateFlags x' = ValidateFlags x /\
  RequiredKeyPurposes x' = RequiredKeyPurposes x /\ RequiredCertType x' = RequiredCertType x.
Lemma same_refl x : same_params x x.
Proof. done. Qed.
Lemma same_trans x y z : same_params x y -> same_params y z -> same_params x z.
Proof. intros (?&?&?&?&?) (?&?&?&?&?). repeat split; congruence. Qed.
Lemma usable_same x x' d c : same_params x x' -> usable x' d c -> usable x d c.
Proof. intros (E1 & E2 & E3 & E4 & E5). unfold usable. by rewrite E2, E4, E5. Qed.
Lemma in_time_same x x' c : same_params x x' -> in_time x' c -> in_time x c.
Proof. intros (E1 & E2 & E3 & E4 & E5). unfold in_time. by rewrite E1, E3. Qed.
Lemma path_same x x' d sha i a p : same_params x x' -> certification_path x' d sha i a p -> certification_path x d sha i a p.
Proof.
  intros HS [PF PT PA PC PI PS]. split; try done. intros k j Hk. destruct (PC k j Hk) as (H1 & H2 & H3).
  eauto using usable_same, in_time_same.
Qed.

(** The checks either pass, leaving the context alone, or fail with an error. *)
Definition checks (m : M ValidationContext unit) (x : ValidationContext) (P : Prop) : Prop :=
  (m x = (Ok tt, x) /\ P) \/ exists e, m x = (Err e, x) /\ ~ P.
Lemma checks_verify b e x : checks (verify b e) x (b = true).
Proof. destruct b; [by left|right]. by exists e. Qed.
Lemma checks_ret x : checks (ret tt) x True.
Proof. by left. Qed.
Lemma checks_bind m1 m2 x P Q : checks m1 x P -> checks m2 x Q -> checks (do* m1 in m2) x (P /\ Q).
Proof.
  intros [[E1 H1]|(e & E1 & H1)] H2; [|right; exists e; rewrite (bind_err _ _ _ _ _ E1); by split; [|intros []]].
  unfold checks; rewrite (bind_ok _ _ _ _ _ E1). destruct H2 as [[E2 H2]|(e & E2 & H2)]; [by left|right; exists e; by split; [|intros []]].
Qed.
Lemma checks_if (b : bool) m x P : checks m x P -> checks (if b then m else ret tt) x (b = true -> P).
Proof.
  intros H. destruct b; [|by left]. destruct H as [[E H]|(e & E & H)]; [by left|right]. exists e. split; [done|]. intros HP. by apply H, HP.
Qed.
Lemma checks_iff m x P Q : checks m x P -> (P <-> Q) -> checks m x Q.
Proof. intros [[E H]|(e & E & H)] HPQ; [left|right; exists e]; rewrite <- HPQ; done. Qed.

Lemma verify_use_spec c d x : checks (verify_use c d) x (usable x d c).
Proof.
  unfold verify_use, usable. destruct (Z.ltb_spec 0 d) as [Hd|Hd].
  - rewrite decide_True by done. eapply checks_iff.
    + apply checks_bind; [apply checks_verify|]. apply checks_bind; [apply checks_verify|]. apply checks_bind; [apply checks_verify|].
      apply checks_if, checks_verify.
    + rewrite andb_true_iff, Z.eqb_eq, Z.leb_le. tauto.
  - rewrite decide_False by lia. eapply checks_iff.
    + apply checks_bind; [apply checks_if, checks_verify|]. apply checks_bind; [apply checks_if, checks_verify|]. apply checks_if, checks_verify.
    + rewrite !andb_true_iff, !negb_true_iff, !Z.eqb_eq, !Z.eqb_neq. tauto.
Qed.

(** The flags of a deeper step differ from those of the context in the demand for
    SHA-256 only. *)
Definition time_flags (x : ValidationContext) (flags : Z) : Prop :=
  has_flag flags kValidateFlag_IgnoreNotBefore = has_flag (ValidateFlags x) kValidateFlag_IgnoreNotBefore /\
  has_flag flags kValidateFlag_IgnoreNotAfter = has_flag (ValidateFlags x) kValidateFlag_IgnoreNotAfter.
Lemma verify_time_spec c flags x : time_flags x flags -> checks (verify_time c flags) x (in_time x c).
Proof.
  intros [E1 E2]. unfold verify_time, in_time. rewrite E1, E2. eapply checks_iff.
  - apply checks_bind; apply checks_if, checks_verify.
  - rewrite !andb_true_iff, !negb_true_iff, !Z.eqb_neq, !Z.leb_le. tauto.
Qed.

Lemma flags_lor flags n m : has_flag (Z.lor flags n) m = has_flag flags m || has_flag n m.
Proof.
  unfold has_flag. rewrite Z.land_comm, Z.land_lor_distr_r, !(Z.land_comm m). destruct (Z.eqb_spec (Z.lor (Z.land flags m) (Z.land n m)) 0) as [E|E].
  - apply Z.lor_eq_0_iff in E as [-> ->]. done.
  - destruct (Z.eqb_spec (Z.land flags m) 0) as [E1|]; [|done]. destruct (Z.eqb_spec (Z.land n m) 0) as [E2|]; [|done]. exfalso. apply E. by rewrite E1, E2.
Qed.
Definition next_flags (c : WeaveCertificateData) (flags : Z) : Z := if sha256_signed c then Z.lor flags kValidateFlag_RequireSHA256 else flags.
Lemma next_flags_sha c flags : has_flag (next_flags c flags) kValidateFlag_RequireSHA256 = has_flag flags kValidateFlag_RequireSHA256 || sha256_signed c.
Proof. unfold next_flags. destruct (sha256_signed c); [|by rewrite orb_false_r]. by rewrite flags_lor. Qed.
Lemma next_flags_time x x' c flags : same_params x x' -> time_flags x flags -> time_flags x' (next_flags c flags).
Proof.
  intros (_ & _ & E & _) [H1 H2]. unfold time_flags, next_flags. rewrite E. destruct (sha256_signed c); [|done].
  rewrite !flags_lor, H1, H2. change (has_flag kValidateFlag_RequireSHA256 kValidateFlag_IgnoreNotBefore) with false.
  change (has_flag kValidateFlag_RequireSHA256 kValidateFlag_IgnoreNotAfter) with false. by rewrite !orb_false_r.
Qed.

(** ** The search *)

Lemma checks_ok m x P u x' : checks m x P -> m x = (Ok u, x') -> x' = x /\ P.
Proof. intros [[E H]|(e & E & _)] E'; rewrite E in E'; [by injection E' as _ <-|done]. Qed.
Lemma checks_holds m x P : checks m x P -> P -> m x = (Ok tt, x).
Proof. intros [[E H]|(e & E & HN)] HP; [done|by destruct HN]. Qed.

Definition same_after {A} (m : M ValidationContext A) : Prop := forall x, same_params x (snd (m x)).
Lemma same_after_ret {A} (a : A) : same_after (ret a).
Proof. by intros x. Qed.
Lemma same_after_bind {A B} (m : M ValidationContext A) (f : A -> M ValidationContext B) : same_after m -> (forall a, same_after (f a)) -> same_after (bind m f).
Proof. intros H1 H2 x. unfold bind. specialize (H1 x). destruct (m x) as [[a|e| |] x1]; cbn in *; [|done..]. eapply same_trans; [done|apply H2]. Qed.
Lemma same_after_if {A} (b : bool) (m m' : M ValidationContext A) : same_after m -> same_after m' -> same_after (if b then m else m').
Proof. by destruct b. Qed.
Lemma same_after_checks m P : (forall x, checks m x (P x)) -> same_after m.
Proof. intros H x. destruct (H x) as [[-> _]|(e & -> & _)]; done. Qed.
Lemma same_after_verify b e : same_after (verify b e).
Proof. by destruct b. Qed.
Lemma same_after_or_not_found {A} (m : M ValidationContext A) : same_after m -> same_after (or_not_found m).
Proof. intros H x. unfold or_not_found. specialize (H x). by destruct (m x) as [[| | |] x1]. Qed.
Lemma same_after_record i m : same_after m -> same_after (record_result i m).
Proof. intros H x. unfold record_result. specialize (H x). by destruct (m x) as [[| | |] x1]. Qed.
Lemma same_after_find validate dn id l : (forall j, same_after (validate j)) -> forall i err, same_after (find_valid validate dn id l i err).
Proof.
  intros HV. induction l as [|c l IH]; intros i err; [done|]. cbn [find_valid]. destruct (_ || _); [apply IH|]. intros x. specialize (HV i x).
  destruct (validate i x) as [[u|e| |] x1]; cbn in *; try done. eapply same_trans; [done|apply IH].
Qed.
Lemma same_after_verify_use c d : same_after (verify_use c d).
Proof. apply (same_after_checks _ (fun x => usable x d c)). intros x. apply verify_use_spec. Qed.
Lemma same_after_verify_time c flags : same_after (verify_time c flags).
Proof.
  intros x. unfold verify_time. destruct (negb (NotBeforeDate c =? 0) && _), (negb (NotAfterDate c =? 0) && _); unfold bind, verify; repeat destruct (_ <=? _); done.
Qed.
Lemma same_after_ValidateCert_at fuel : forall i flags d, same_after (ValidateCert_at Crypto_VerifyECDSASignature certs fuel i flags d).
Proof.
  induction fuel as [|fuel IH]; intros i flags d; [done|]. cbn [ValidateCert_at]. apply same_after_record.
  apply same_after_bind; [apply same_after_verify_use|intros _]. apply same_after_bind; [apply same_after_verify_time|intros _].
  apply same_after_if; [done|]. apply same_after_if; [done|].
  apply same_after_bind; [apply same_after_verify|intros _]. apply same_after_bind; [apply same_after_verify|intros _].
  apply same_after_bind; [apply same_after_if; [apply same_after_verify|done]|intros _].
  apply same_after_bind; [|intros j; by destruct (Cert_VerifyECDSASignature _ _ _ _ _)].
  apply same_after_or_not_found. unfold FindValidCert_at. apply same_after_if; [done|]. apply same_after_find. intros j. apply IH.
Qed.

(** A certificate that is found matches and has been validated last. *)
Lemma find_valid_ok validate dn id l : (forall j, same_after (validate j)) -> forall i err x j x',
  find_valid validate dn id l i err x = (Ok j, x') -> exists x0, (i <= j < i + length l)%nat /\ matches dn id (nth (j - i) l zero_cert) = true /\
  same_params x x0 /\ validate j x0 = (Ok tt, x').
Proof.
  intros HV. induction l as [|c l IH]; intros i err x j x'; [done|]. cbn [find_valid length]. destruct (_ || _) eqn:EM.
  - intros H. destruct (IH _ _ _ _ _ H) as (x0 & Hj & HM & HS & HE). exists x0. split; [lia|]. replace (j - i)%nat with (S (j - S i)) by lia. done.
  - specialize (HV i x). destruct (validate i x) as [[[]|e| |] x1] eqn:EV; try done.
    + intros [= -> ->]. exists x. split; [lia|]. rewrite Nat.sub_diag. split; [|done]. cbn [nth]. unfold matches.
      apply orb_false_iff in EM as [H1%andb_false_iff H2%andb_false_iff]. rewrite !negb_false_iff in H1, H2. apply andb_true_iff. split; apply orb_true_iff; tauto.
    + intros H. destruct (IH _ _ _ _ _ H) as (x0 & Hj & HM & HS & HE). exists x0. split; [lia|]. replace (j - i)%nat with (S (j - S i)) by lia.
      split; [done|]. split; [|done]. eapply same_trans; [exact HV|done].
Qed.

(** The only certificate that matches is found, if it is valid. *)
Lemma find_valid_unique validate dn id j : forall l i, (forall k c, l !! k = Some c -> matches dn id c = bool_decide (i + k = j)%nat) ->
  forall err x x', (i <= j < i + length l)%nat -> validate j x = (Ok tt, x') -> find_valid validate dn id l i err x = (Ok j, x').
Proof.
  induction l as [|c l IH]; intros i HU err x x' Hj HE; cbn [length] in Hj; [lia|]. cbn [find_valid].
  pose proof (HU 0%nat c eq_refl) as H0. rewrite Nat.add_0_r in H0.
  assert ((negb (DN_IsEmpty dn) && negb (DN_IsEqual (SubjectDN c) dn)) || (negb (KeyId_IsEmpty id) && negb (KeyId_IsEqual (SubjectKeyId c) id)) = negb (matches dn id c)) as ->.
  { unfold matches. by rewrite negb_andb, !negb_orb. }
  rewrite H0. case_bool_decide as EJ; cbn [negb].
  - subst j. by rewrite HE.
  - apply IH; [|lia|done]. intros k c' Hk. rewrite (HU (S k) c' Hk). f_equal. apply bool_decide_ext. lia.
Qed.

Abbreviation validate := (ValidateCert_at Crypto_VerifyECDSASignature certs).

Lemma record_result_ok i m x u x' : record_result i m x = (Ok u, x') -> exists x0, m x = (Ok u, x0) /\ same_params x0 x' /\ TrustAnchor x' = TrustAnchor x0.
Proof. unfold record_result. destruct (m x) as [[a|e| |] x0]; try done. intros [= -> <-]. by exists x0. Qed.

Lemma sha_flag c flags : (if SigAlgoOID c =? kOID_SigAlgo_ECDSAWithSHA256 then Z.lor flags kValidateFlag_RequireSHA256 else flags) = next_flags c flags.
Proof. done. Qed.

Lemma FindValidCert_ok fuel flags d dn id x j x' : FindValidCert_at certs (fun j => validate fuel j flags d) dn id d x = (Ok j, x') ->
  exists x0, (j < length certs)%nat /\ DN_IsEmpty dn && KeyId_IsEmpty id = false /\ matches dn id (cert j) = true /\ same_params x x0 /\ validate fuel j flags d x0 = (Ok tt, x').
Proof.
  unfold FindValidCert_at. destruct (DN_IsEmpty dn && KeyId_IsEmpty id) eqn:EE; [done|]. intros H.
  destruct (find_valid_ok _ _ _ _ (fun j => same_after_ValidateCert_at fuel j flags d) _ _ _ _ _ H) as (x0 & Hj & HM & HS & HE).
  exists x0. rewrite Nat.sub_0_r in HM. split; [lia|done].
Qed.

Lemma validate_sound fuel : forall i flags d x x', (i < length certs)%nat -> 0 <= d -> count <= 255 -> time_flags x flags ->
  validate fuel i flags d x = (Ok tt, x') ->
  exists a p, certification_path x d (has_flag flags kValidateFlag_RequireSHA256) i a (i :: p) /\ TrustAnchor x' = Some a /\ d + Z.of_nat (length p) <= Z.max d count.
Proof.
  induction fuel as [|fuel IH]; intros i flags d x x' Hi Hd HC HF; [done|]. cbn [ValidateCert_at]. intros (x0 & H & HS0 & ->)%record_result_ok.
  apply bind_inv in H as (u1 & x1 & E1 & H). destruct (checks_ok _ _ _ _ _ (verify_use_spec _ _ _) E1) as [-> HU]. clear E1.
  apply bind_inv in H as (u2 & x1 & E1 & H). destruct (checks_ok _ _ _ _ _ (verify_time_spec _ _ _ HF) E1) as [-> HT]. clear E1.
  destruct (has_flag (CertFlags (cert i)) kCertFlag_IsTrusted) eqn:ETr; [injection H as <-; exists i, []; split; [by apply path_one|split; [done|cbn; lia]]|].
  destruct (DN_IsEqual (IssuerDN (cert i)) (SubjectDN (cert i)) && KeyId_IsEqual (AuthKeyId (cert i)) (SubjectKeyId (cert i))) eqn:ESelf; [done|].
  apply bind_inv in H as (u3 & x1 & E1 & H). destruct (checks_ok _ _ _ _ _ (checks_verify _ _ _) E1) as [-> HDep%Z.ltb_lt]. clear E1.
  apply bind_inv in H as (u4 & x1 & E1 & H). destruct (checks_ok _ _ _ _ _ (checks_verify _ _ _) E1) as [-> HHash]. clear E1.
  apply bind_inv in H as (u5 & x1 & E1 & H). destruct (checks_ok _ _ _ _ _ (checks_if _ _ _ _ (checks_verify _ _ _)) E1) as [-> HSha]. clear E1.
  rewrite sha_flag in H. apply bind_inv in H as (j & x1 & E1 & H). unfold or_not_found in E1.
  destruct (FindValidCert_at _ _ _ _ _ x) as [[j'|e| |] x1'] eqn:EF; try done. injection E1 as -> ->. rewrite u8_id in EF by lia.
  apply FindValidCert_ok in EF as (x2 & Hj & HE & HM & HS & HV).
  assert (issued (cert i) (cert j) /\ x0 = x1) as [HI ->].
  { destruct (Cert_VerifyECDSASignature _ _ _ _ _) eqn:EV; [done|]. by injection H as <-. }
  destruct (IH j _ (d + 1) x2 x1 Hj ltac:(lia) HC (next_flags_time x x2 _ _ HS HF) HV) as (a & p & HP & HA & HL).
  exists a, (j :: p). split; [|split; [done|cbn [length]; lia]]. eapply path_cons; try done. rewrite <- next_flags_sha. by eapply path_same.
Qed.

(** ** The search ends *)

Definition ends {A} (r : res A) : Prop := match r with Ok _ | Err _ => True | _ => False end.
Lemma ends_find v dn id l : (forall j x, (j < length certs)%nat -> ends (fst (v j x))) -> forall i err x, (i + length l <= length certs)%nat -> ends (fst (find_valid v dn id l i err x)).
Proof.
  intros HV. induction l as [|c l IH]; intros i err x Hi; cbn [length] in Hi; [done|]. cbn [find_valid]. destruct (_ || _); [apply IH; lia|].
  specialize (HV i x ltac:(lia)). destruct (v i x) as [[u|e| |] x1]; cbn in *; try done. apply IH. lia.
Qed.
Lemma ends_bind {A B} (m : M ValidationContext A) (f : A -> M ValidationContext B) x : ends (fst (m x)) -> (forall a x', ends (fst (f a x'))) -> ends (fst (bind m f x)).
Proof. intros H1 H2. unfold bind. destruct (m x) as [[a|e| |] x1]; cbn in *; try done. Qed.
Lemma ends_checks m x P : checks m x P -> ends (fst (m x)).
Proof. intros [[-> _]|(e & -> & _)]; done. Qed.
Lemma ends_verify b e x : ends (fst (verify b e x : res unit * ValidationContext)).
Proof. by destruct b. Qed.

Lemma validate_ends fuel : forall i flags d x, (i < length certs)%nat -> 0 <= d <= count -> count <= 255 -> (length certs < Z.to_nat d + fuel)%nat ->
  ends (fst (validate fuel i flags d x)).
Proof.
  induction fuel as [|fuel IH]; intros i flags d x Hi Hd HC Hf; [unfold cert_count in *; lia|]. cbn [ValidateCert_at].
  assert (forall i m x, ends (fst (m x)) -> ends (fst (record_result i m x))) as HR.
  { intros i0 m x0 H. unfold record_result. by destruct (m x0) as [[| | |] ?]. }
  apply HR. apply ends_bind; [eapply ends_checks, verify_use_spec|intros _ x1]. apply ends_bind.
  { unfold verify_time, verify. destruct (negb (NotBeforeDate (cert i) =? 0) && _), (negb (NotAfterDate (cert i) =? 0) && _); unfold bind; repeat destruct (_ <=? _); done. }
  intros _ x2. destruct (has_flag _ _); [done|]. destruct (_ && _); [done|]. unfold bind at 1. destruct (Z.ltb_spec d count) as [Hlt|]; [|done]. cbn [verify ret].
  apply ends_bind; [apply ends_verify|intros _ x3]. apply ends_bind; [destruct (has_flag _ _); [apply ends_verify|done]|intros _ x4].
  apply ends_bind; [|intros j x5; by destruct (Cert_VerifyECDSASignature _ _ _ _ _)].
  assert (forall (m : M ValidationContext nat) x, ends (fst (m x)) -> ends (fst (or_not_found m x))) as HN.
  { intros m x0 H. unfold or_not_found. by destruct (m x0) as [[| | |] ?]. }
  apply HN. unfold FindValidCert_at. destruct (_ && _); [done|]. apply ends_find; [|lia]. intros j x5 Hj. rewrite u8_id by lia.
  apply IH; [done|lia|done|unfold cert_count in *; lia].
Qed.

(** ** A path is found where issuers are unambiguous *)

Definition unique_issuers : Prop := forall i j j', (i < length certs)%nat -> (j < length certs)%nat -> (j' < length certs)%nat ->
  matches (IssuerDN (cert i)) (AuthKeyId (cert i)) (cert j) = true -> matches (IssuerDN (cert i)) (AuthKeyId (cert i)) (cert j') = true -> j = j'.

Lemma validate_complete p : unique_issuers -> forall fuel i flags d x a, certification_path x d (has_flag flags kValidateFlag_RequireSHA256) i a (i :: p) ->
  0 <= d -> count <= 255 -> time_flags x flags -> d + Z.of_nat (length p) <= count -> (length p < fuel)%nat ->
  exists x', validate fuel i flags d x = (Ok tt, x').
Proof.
  intros HU. induction p as [|j p IH]; intros fuel i flags d x a HP Hd HC HF HL Hf; (destruct fuel as [|fuel]; [lia|]); cbn [ValidateCert_at];
    apply path_inv in HP as (Hi & HUs & HT & HP); unfold record_result;
    rewrite (bind_ok _ _ _ _ _ (checks_holds _ _ _ (verify_use_spec _ _ _) HUs)), (bind_ok _ _ _ _ _ (checks_holds _ _ _ (verify_time_spec _ _ _ HF) HT)).
  - destruct HP as [-> HA]. unfold trusted in HA. rewrite HA. cbn. eauto.
  - destruct HP as (HTr & HSelf & ((HE & HM) & HHash & HV) & HSha & HP). cbn [length] in *. unfold trusted in HTr. rewrite HTr. unfold self_issued in HSelf. rewrite HSelf.
    rewrite (proj2 (Z.ltb_lt d count)) by lia. cbn [verify]. rewrite bind_ret, HHash. cbn [verify]. rewrite bind_ret, sha_flag.
    rewrite (bind_ok _ _ x tt x) by (apply (checks_holds _ _ _ (checks_if _ _ _ _ (checks_verify _ _ _))); apply HSha).
    assert (same_params x x) as HSx by done. rewrite <- next_flags_sha in HP. pose proof HP as [_ _ _ PC _ _]. destruct (PC 0%nat j eq_refl) as (Hj & _ & _).
    destruct (IH fuel j _ (d + 1) x a HP ltac:(lia) HC (next_flags_time x x _ _ HSx HF) ltac:(lia) ltac:(lia)) as (x' & EV).
    assert (FindValidCert_at certs (fun j => validate fuel j (next_flags (cert i) flags) (u8 (d + 1))) (IssuerDN (cert i)) (AuthKeyId (cert i)) (u8 (d + 1)) x = (Ok j, x')) as EF.
    { rewrite u8_id by lia. unfold FindValidCert_at. rewrite HE. apply find_valid_unique; [|lia|done]. intros k c Hk. rewrite Nat.add_0_l.
      assert (cert k = c /\ (k < length certs)%nat) as [<- Hk'] by (split; [by apply nth_lookup_Some|by eapply lookup_lt_Some]).
      case_bool_decide as EK; [by rewrite EK|]. apply not_true_iff_false. intros HM'. apply EK. by apply (HU i k j). }
    rewrite (bind_ok _ _ x j x') by (unfold or_not_found; by rewrite EF). rewrite HV. cbn. eauto.
Qed.

(** ** The public operations *)

(** The array for the results, if there is one, has an entry for each certificate. *)
Definition results_fit (x : ValidationContext) : Prop := match CertValidationResults x with Some l => count <= Z.of_nat (length l) | None => True end.
Lemma reset_results_spec x : (results_fit x /\ exists x0, reset_results certs x = (Ok tt, x0) /\ same_params x x0) \/
  (~ results_fit x /\ reset_results certs x = (Err WEAVE_ERROR_INVALID_ARGUMENT, x)).
Proof.
  unfold reset_results, results_fit. destruct (CertValidationResults x) as [l|]; [|left; split; [done|by exists x]].
  destruct (Z.leb_spec count (Z.of_nat (length l))); [left|right]; (split; [lia|]); [|done]. by eexists.
Qed.
Lemma time_flags_self x : time_flags x (ValidateFlags x).
Proof. done. Qed.

Lemma ValidateCert_sound i x x' : Z.of_nat (length certs) <= 255 -> ValidateCert Crypto_VerifyECDSASignature certs i x = (Ok tt, x') ->
  exists a p, certification_path x 0 (has_flag (ValidateFlags x) kValidateFlag_RequireSHA256) i a p /\ TrustAnchor x' = Some a /\ Z.of_nat (length p) <= count + 1.
Proof.
  intros HC. unfold ValidateCert. destruct (Z.ltb_spec (Z.of_nat i) count) as [Hi|]; [|done]. cbn [negb].
  destruct (reset_results_spec x) as [(_ & x0 & E & HS)|[_ E]]; [|rewrite (bind_err _ _ _ _ _ E); done]. rewrite (bind_ok _ _ _ _ _ E). unfold bind at 1, modify. intros HV.
  assert (same_params x (set_TrustAnchor None x0)) as HS' by done. pose proof HS' as (_ & _ & EF & _).
  apply validate_sound in HV as (a & p & HP & HA & HL); [|unfold cert_count in Hi; lia|lia|unfold cert_count; lia|unfold time_flags; by rewrite EF].
  exists a, (i :: p). split; [by eapply path_same|]. split; [done|]. cbn [length]. unfold cert_count in *. lia.
Qed.

Lemma ValidateCert_ends i x : Z.of_nat (length certs) <= 255 -> ends (fst (ValidateCert Crypto_VerifyECDSASignature certs i x)).
Proof.
  intros HC. unfold ValidateCert. destruct (Z.ltb_spec (Z.of_nat i) count) as [Hi|]; [|done]. cbn [negb].
  destruct (reset_results_spec x) as [(_ & x0 & E & HS)|[_ E]]; [|by rewrite (bind_err _ _ _ _ _ E)]. rewrite (bind_ok _ _ _ _ _ E). unfold bind at 1, modify.
  apply validate_ends; unfold cert_count, validate_fuel in *; lia.
Qed.

Lemma ValidateCert_complete i a p x : unique_issuers -> Z.of_nat (length certs) <= 255 -> results_fit x ->
  certification_path x 0 (has_flag (ValidateFlags x) kValidateFlag_RequireSHA256) i a p -> Z.of_nat (length p) <= count + 1 ->
  exists x', ValidateCert Crypto_VerifyECDSASignature certs i x = (Ok tt, x').
Proof.
  intros HU HC HF HP HL. destruct p as [|i' p]; [by destruct HP|]. pose proof (path_from _ _ _ _ _ _ HP) as [= ->]. destruct (path_inv _ _ _ _ _ _ HP) as (Hi & _).
  unfold ValidateCert. rewrite (proj2 (Z.ltb_lt _ count)) by (unfold cert_count; lia). cbn [negb].
  destruct (reset_results_spec x) as [(_ & x0 & E & HS)|[HN _]]; [|done]. rewrite (bind_ok _ _ _ _ _ E). unfold bind at 1, modify.
  pose proof HS as (E1 & E2 & E3 & E4 & E5). cbn [length] in HL.
  apply (validate_complete p HU _ _ _ _ _ a); try (unfold cert_count, validate_fuel in *; lia).
  - apply (path_same _ x); [|done]. repeat split; cbn; congruence.
  - unfold time_flags. cbn. by rewrite E3.
Qed.
End Chain.

(** ** Properties *)

(** C34: validation is sound.  When ValidateCert succeeds for a certificate of a set,
    there is a certification path from it to a trusted certificate of the set, which
    the context then names as the trust anchor: the certificate has the key usages,
    key purposes and type asked for; every certificate above it is a CA certificate
    that may sign certificates, no further up than its path length constraint allows;
    all of them are valid at the effective time, as far as the flags have it checked;
    each one but the anchor was issued by the next - the issuer's names match, and its
    signature over the certificate's hash verifies with the next one's key - and none
    of them is self-issued; and from the first SHA-256 signature on, or from the start
    when the flags ask for it, every signature is by SHA-256. *)
Theorem CertValidation_sound verify certs i x x' : Z.of_nat (length certs) <= 255 -> ValidateCert verify certs i x = (Ok tt, x') ->
  exists a p, certification_path verify certs x 0 (has_flag (ValidateFlags x) kValidateFlag_RequireSHA256) i a p /\
    TrustAnchor x' = Some a /\ Z.of_nat (length p) <= cert_count certs + 1.
Proof. apply ValidateCert_sound. Qed.

(** C35: validation ends for every set of certificates, circular ones included, with
    success or an error code.  Where each certificate names at most one certificate of
    the set as its issuer, it succeeds exactly when there is a certification path to
    a trusted certificate no longer than one more than the number of certificates. *)
Theorem CertValidation_decides verify certs i x : Z.of_nat (length certs) <= 255 -> results_fit certs x ->
  (exists r, fst (ValidateCert verify certs i x) = Ok r \/ exists e, fst (ValidateCert verify certs i x) = Err e) /\
  (unique_issuers certs ->
   fst (ValidateCert verify certs i x) = Ok tt <->
   exists a p, certification_path verify certs x 0 (has_flag (ValidateFlags x) kValidateFlag_RequireSHA256) i a p /\ Z.of_nat (length p) <= cert_count certs + 1).
Proof.
  intros HC HF. split.
  - pose proof (ValidateCert_ends verify certs i x HC) as H. destruct (fst _) as [r|e| |]; try done; exists tt; [left; by destruct r|right; eauto].
  - intros HU. split.
    + destruct (ValidateCert verify certs i x) as [r x'] eqn:E. cbn. intros ->. destruct (ValidateCert_sound verify certs i x x' HC E) as (a & p & HP & _ & HL). eauto.
    + intros (a & p & HP & HL). destruct (ValidateCert_complete verify certs i a p x HU HC HF HP HL) as (x' & ->). done.
Qed.

(** A root, two intermediate certificates of the same name, and a device.  A
    signature is the hash and the key; the device's is by the second intermediate. *)
Definition ca_dn (n : Z) : WeaveDN := mkDN n [] kOID_AttributeType_WeaveCAId.
Definition key_id (n : Z) : CertificateKeyId := mkKeyId (Some [n]) 1.
Definition ca_flags : Z := 0x028F.
Definition example_cert (subject issuer : WeaveDN) (id authId key signer flags usage type : Z) : WeaveCertificateData :=
  set_SubjectDN subject (set_IssuerDN issuer (set_SubjectKeyId (key_id id) (set_AuthKeyId (key_id authId) (set_ECPoint (Some [key]) (set_ECPointLen 1
    (set_SigR (Some (take 32 (id :: replicate 31 0))) (set_SigRLen 32 (set_SigS (Some [signer]) (set_SigSLen 1 (set_PubKeyCurveId 0x235A001B
    (set_CertFlags flags (set_KeyUsageFlags usage (set_CertType type (set_SigAlgoOID kOID_SigAlgo_ECDSAWithSHA256 (set_TBSHash (take 32 (id :: replicate 31 0))
    (set_NotBeforeDate 5000 zero_cert)))))))))))))))).
Definition example_verify (curve : Z) (hash r s pub : list Z) : option WEAVE_ERROR :=
  if decide (curve = 0x041B /\ hash = r /\ pub = s) then None else Some WEAVE_ERROR_INVALID_SIGNATURE.
Definition root_cert : WeaveCertificateData := example_cert (ca_dn 1) (ca_dn 1) 10 10 100 100 (Z.lor ca_flags kCertFlag_IsTrusted) kKeyUsageFlag_KeyCertSign kCertType_CA.
Definition intermediate_cert (key : Z) : WeaveCertificateData := example_cert (ca_dn 2) (ca_dn 1) 20 10 key 100 ca_flags kKeyUsageFlag_KeyCertSign kCertType_CA.
Definition device_cert : WeaveCertificateData := example_cert (mkDN 77 [] kOID_AttributeType_WeaveDeviceId) (ca_dn 2) 30 20 102 101 0x0207 1 kCertType_Device.
Definition example_context : ValidationContext := mkContext 500000000 None 1 kValidateFlag_RequireSHA256 (Some (replicate 4 None)) 0 kCertType_Device.
Definition example_set : list WeaveCertificateData := [device_cert; intermediate_cert 101; root_cert].

Lemma CertValidation_sound_witness : exists p, certification_path example_verify example_set example_context 0 true 0 2 p.
Proof.
  destruct (ValidateCert example_verify example_set 0 example_context) as [r x'] eqn:E.
  assert (r = Ok tt /\ TrustAnchor x' = Some 2%nat) as [-> HA] by (revert E; vm_compute; intros E; inversion E; split; reflexivity).
  destruct (CertValidation_sound example_verify example_set 0 example_context x' ltac:(vm_compute; discriminate) E) as (a & p & HP & HA' & _).
  rewrite HA in HA'. injection HA' as <-. exists p. exact HP.
Defined.

Lemma example_unique : unique_issuers example_set.
Proof.
  assert (forallb (fun i => forallb (fun j => forallb (fun j' => implb (matches (IssuerDN (nth_cert example_set i)) (AuthKeyId (nth_cert example_set i)) (nth_cert example_set j) &&
    matches (IssuerDN (nth_cert example_set i)) (AuthKeyId (nth_cert example_set i)) (nth_cert example_set j')) (Nat.eqb j j')) (seq 0 3)) (seq 0 3)) (seq 0 3) = true) as H by (vm_compute; reflexivity).
  intros i j j' Hi Hj Hj' HM HM'. rewrite forallb_forall in H. pose proof (H i ltac:(apply in_seq; cbn in Hi; lia)) as H1. cbv beta in H1.
  rewrite forallb_forall in H1. pose proof (H1 j ltac:(apply in_seq; cbn in Hj; lia)) as H2. cbv beta in H2.
  rewrite forallb_forall in H2. pose proof (H2 j' ltac:(apply in_seq; cbn in Hj'; lia)) as H3. cbv beta in H3. rewrite HM, HM' in H3. by apply Nat.eqb_eq.
Qed.

Lemma CertValidation_decides_witness : exists a p, certification_path example_verify example_set example_context 0 true 0 a p.
Proof.
  destruct (CertValidation_decides example_verify example_set 0 example_context ltac:(vm_compute; discriminate) ltac:(vm_compute; discriminate)) as [_ H].
  destruct (H example_unique) as [H1 _]. destruct (H1 ltac:(vm_compute; reflexivity)) as (a & p & HP & _). exists a, p. exact HP.
Defined.

(** The signature is tried with the first valid issuer only: with two CA certificates
    of the same name and key id the right one is not reached. *)
Lemma ValidateCert_first_issuer_only : let certs := [device_cert; intermediate_cert 55; intermediate_cert 101; root_cert] in
  fst (ValidateCert example_verify certs 0 example_context) = Err WEAVE_ERROR_INVALID_SIGNATURE /\
  fst (ValidateCert example_verify [device_cert; intermediate_cert 101; intermediate_cert 55; root_cert] 0 example_context) = Ok tt /\
  TrustAnchor (snd (ValidateCert example_verify certs 0 example_context)) = Some 3%nat.
Proof. vm_compute. repeat split. Qed.
