(* ===== verification/CertToX509.v ===== *)
(** * From Weave certificates to X.509 (lib/profiles/security/WeaveToX509.cpp, WeaveCert.cpp)

    The conversion of a certificate from TLV to DER, field by field, which also fills
    in the certificate's data; and the operations of the certificate set that load and
    save certificates, which use it to make the hash that was signed. *)
From S2P Require Import Prelude Encoding TLVTypes TLVWriter TLVReader ASN1OID ASN1Writer CertTime Cert.
Local Open Scope Z_scope.
Local Open Scope weave_scope.

(** ** The tags *)

Definition kWeaveProfile_Security : Z := 4.
Definition kTag_WeaveCertificate : Z := 1.
Definition kTag_WeaveCertificateList : Z := 4.
Definition kTag_SerialNumber : Z := 1.
Definition kTag_SignatureAlgorithm : Z := 2.
Definition kTag_Issuer : Z := 3.
Definition kTag_NotBefore : Z := 4.
Definition kTag_NotAfter : Z := 5.
Definition kTag_Subject : Z := 6.
Definition kTag_PublicKeyAlgorithm : Z := 7.
Definition kTag_EllipticCurveIdentifier : Z := 8.
Definition kTag_RSAPublicKey : Z := 9.
Definition kTag_EllipticCurvePublicKey : Z := 10.
Definition kTag_RSASignature : Z := 11.
Definition kTag_ECDSASignature : Z := 12.
Definition kCertificateExtensionTagsStart : Z := 128.
Definition kTag_AuthorityKeyIdentifier : Z := 128.
Definition kTag_SubjectKeyIdentifier : Z := 129.
Definition kTag_KeyUsage : Z := 130.
Definition kTag_BasicConstraints : Z := 131.
Definition kTag_ExtendedKeyUsage : Z := 132.
Definition kCertificateExtensionTagsEnd : Z := 255.
Definition kTag_RSAPublicKey_Modulus : Z := 1.
Definition kTag_RSAPublicKey_PublicExponent : Z := 2.
Definition kTag_ECDSASignature_r : Z := 1.
Definition kTag_ECDSASignature_s : Z := 2.
Definition kTag_AuthorityKeyIdentifier_Critical : Z := 1.
Definition kTag_AuthorityKeyIdentifier_KeyIdentifier : Z := 2.
Definition kTag_AuthorityKeyIdentifier_Issuer : Z := 3.
Definition kTag_AuthorityKeyIdentifier_SerialNumber : Z := 4.
Definition kTag_SubjectKeyIdentifier_Critical : Z := 1.
Definition kTag_SubjectKeyIdentifier_KeyIdentifier : Z := 2.
Definition kTag_KeyUsage_KeyUsage : Z := 2.
Definition kTag_BasicConstraints_Critical : Z := 1.
Definition kTag_BasicConstraints_IsCA : Z := 2.
Definition kTag_BasicConstraints_PathLenConstraint : Z := 3.
Definition kTag_ExtendedKeyUsage_Critical : Z := 1.
Definition kTag_ExtendedKeyUsage_KeyPurposes : Z := 2.

Definition kASN1TagClass_ContextSpecific : Z := 128.
Definition kASN1UniversalTag_UTF8String : Z := 12.
Definition kASN1UniversalTag_Sequence : Z := 16.
Definition kASN1UniversalTag_Set : Z := 17.
Definition kASN1UniversalTag_PrintableString : Z := 19.
Definition kASN1UniversalTag_IA5String : Z := 22.

Definition kOID_PubKeyAlgo_RSAEncryption : Z := 0x0101.
Definition kOID_PubKeyAlgo_ECPublicKey : Z := 0x0102.
Definition kOID_PubKeyAlgo_ECDH : Z := 0x0103.
Definition kOID_PubKeyAlgo_ECMQV : Z := 0x0104.
Definition kOID_SigAlgo_MD2WithRSAEncryption : Z := 0x0201.
Definition kOID_SigAlgo_MD5WithRSAEncryption : Z := 0x0202.
Definition kOID_SigAlgo_SHA1WithRSAEncryption : Z := 0x0203.
Definition kOID_AttributeType_DomainComponent : Z := 0x0310.
Definition kOID_Extension_AuthorityKeyIdentifier : Z := 0x0501.
Definition kOID_Extension_SubjectKeyIdentifier : Z := 0x0502.
Definition kOID_Extension_KeyUsage : Z := 0x0503.
Definition kOID_Extension_BasicConstraints : Z := 0x0504.
Definition kOID_Extension_ExtendedKeyUsage : Z := 0x0505.
Definition kOID_KeyPurpose_ServerAuth : Z := 0x0601.
Definition kOID_KeyPurpose_ClientAuth : Z := 0x0602.
Definition kOID_KeyPurpose_CodeSigning : Z := 0x0603.
Definition kOID_KeyPurpose_EmailProtection : Z := 0x0604.
Definition kOID_KeyPurpose_TimeStamping : Z := 0x0605.
Definition kOID_KeyPurpose_OCSPSigning : Z := 0x0606.
Definition kKeyPurposeFlag_ServerAuth : Z := 0x01.
Definition kKeyPurposeFlag_ClientAuth : Z := 0x02.
Definition kKeyPurposeFlag_CodeSigning : Z := 0x04.
Definition kKeyPurposeFlag_EmailProtection : Z := 0x08.
Definition kKeyPurposeFlag_TimeStamping : Z := 0x10.
Definition kKeyPurposeFlag_OCSPSigning : Z := 0x20.

(** ** The three objects of a conversion *)

Record Conv := mkConv { cv_reader : TLVReader; cv_writer : ASN1Writer; cv_cert : WeaveCertificateData }.
Definition on_reader {A} (m : M TLVReader A) : M Conv A := fun s =>
  let '(r, rd) := m (cv_reader s) in (r, mkConv rd (cv_writer s) (cv_cert s)).
Definition on_writer {A} (m : M ASN1Writer A) : M Conv A := fun s =>
  let '(r, w) := m (cv_writer s) in (r, mkConv (cv_reader s) w (cv_cert s)).
Definition on_cert (f : WeaveCertificateData -> WeaveCertificateData) : M Conv unit := fun s =>
  (Ok tt, mkConv (cv_reader s) (cv_writer s) (f (cv_cert s))).
Definition look {A} (f : TLVReader -> A) : M Conv A := fun s => (Ok (f (cv_reader s)), s).
Definition get_value {A} (f : TLVReader -> res A) : M Conv A := fun s => (f (cv_reader s), s).
(** The writer's overloads that take the value from the reader *)
Definition from_reader (m : TLVReader -> M ASN1Writer TLVReader) : M Conv unit := fun s =>
  match m (cv_reader s) (cv_writer s) with
  | (Ok rd, w) => (Ok tt, mkConv rd w (cv_cert s))
  | (Err e, w) => (Err e, mkConv (cv_reader s) w (cv_cert s))
  | (Undefined, w) => (Undefined, mkConv (cv_reader s) w (cv_cert s))
  | (Diverges, w) => (Diverges, mkConv (cv_reader s) w (cv_cert s))
  end.
(** nextRes = reader.Next(), where the end of the container is no error *)
Definition next_or_end : M Conv unit := fun s =>
  match Next (cv_reader s) with
  | (Err WEAVE_END_OF_TLV, rd) => (Ok tt, mkConv rd (cv_writer s) (cv_cert s))
  | (r, rd) => (r, mkConv rd (cv_writer s) (cv_cert s))
  end.
(** A string in place: GetDataPtr, and its length *)
Definition data_ptr : M Conv (list Z) := on_reader GetDataPtr.

Section Convert.
Context (ptr : Z).

(** ASN1_START_CONSTRUCTED ... ASN1_END_CONSTRUCTED and the like *)
Definition constructed (cls tag : Z) (m : M Conv unit) : M Conv unit :=
  do* on_writer (StartConstructedType ptr cls tag) in do* m in on_writer (EndConstructedType ptr).
Definition sequence (m : M Conv unit) : M Conv unit := constructed kASN1TagClass_Universal kASN1UniversalTag_Sequence m.
Definition encapsulated (tag : Z) (bitStringEncoding : bool) (m : M Conv unit) : M Conv unit :=
  do* on_writer (StartEncapsulatedType ptr kASN1TagClass_Universal tag bitStringEncoding) in do* m in on_writer (EndEncapsulatedType ptr).

Definition IsCertificateExtensionTag (tag : Z) : bool :=
  if IsContextTag tag then
    let tagNum := TagNumFromTag tag in
    (kCertificateExtensionTagsStart <=? tagNum) && (tagNum <=? kCertificateExtensionTagsEnd)
  else false.

(** ** Names *)

(** snprintf("%016llX") *)
Definition hex_digit (v : Z) : Z := if v <? 10 then 48 + v else 55 + v.
Definition weave_id_string (weaveId : Z) : list Z := map (fun i => hex_digit (Z.land (Z.shiftr weaveId (4 * (15 - i))) 15)) (upto 16).

(** The caller's DN is a field of the certificate, which [upd] updates. *)
Definition ConvertDistinguishedName (upd : (WeaveDN -> WeaveDN) -> WeaveCertificateData -> WeaveCertificateData) : M Conv unit :=
  let* outerContainer := on_reader EnterContainer in
  do* on_reader Next in
  let* tlvTag := look GetTag in
  do* verify (IsContextTag tlvTag) WEAVE_ERROR_INVALID_TLV_TAG in
  let tlvTagNum := TagNumFromTag tlvTag in
  let* elemType := look GetType in
  let attrOID := Z.lor kOIDCategory_AttributeType (Z.land tlvTagNum 127) in
  do* on_cert (upd (set_AttrOID attrOID)) in
  let* attr :=
    (if IsWeaveIdX509Attr attrOID then
       do* verify (elemType =? kTLVType_UnsignedInteger) WEAVE_ERROR_WRONG_TLV_TYPE in
       let* weaveId := get_value Get_u64 in
       do* on_cert (upd (set_WeaveId weaveId)) in
       ret (kASN1UniversalTag_UTF8String, weave_id_string weaveId)
     else
       do* verify (elemType =? kTLVType_UTF8String) WEAVE_ERROR_WRONG_TLV_TYPE in
       let* asn1AttrVal := data_ptr in
       let* asn1AttrValLen := look GetLength in
       let val := take (Z.to_nat asn1AttrValLen) asn1AttrVal in
       let asn1Tag :=
         if IsWeaveX509Attr attrOID then kASN1UniversalTag_UTF8String
         else if attrOID =? kOID_AttributeType_DomainComponent then kASN1UniversalTag_IA5String
         else if negb (Z.land tlvTagNum 128 =? 0) then kASN1UniversalTag_PrintableString else kASN1UniversalTag_UTF8String in
       do* on_cert (upd (set_AttrString val)) in
       ret (asn1Tag, val)) in
  let '(asn1Tag, asn1AttrVal) := attr in
  do* on_reader VerifyEndOfContainer in
  do* on_reader (ExitContainer outerContainer) in
  sequence (constructed kASN1TagClass_Universal kASN1UniversalTag_Set (sequence
    (do* on_writer (PutObjectId ptr attrOID) in on_writer (ASN1_PutString ptr asn1Tag asn1AttrVal)))).

(** ** Validity and public key *)

Definition ConvertValidity : M Conv unit := sequence
  (do* on_reader (NextExpect kTLVType_UnsignedInteger (ContextTag kTag_NotBefore)) in
   let* packedTime := get_value Get_u32 in
   do* on_cert (set_NotBeforeDate (PackedCertTimeToDate packedTime)) in
   do* on_writer (PutTime ptr (UnpackCertTime packedTime)) in
   do* on_reader (NextExpect kTLVType_UnsignedInteger (ContextTag kTag_NotAfter)) in
   let* packedTime := get_value Get_u32 in
   do* on_cert (set_NotAfterDate (PackedCertTimeToDate packedTime)) in
   on_writer (PutTime ptr (UnpackCertTime packedTime))).

Definition is_ec_algo (oid : Z) : bool := (oid =? kOID_PubKeyAlgo_ECPublicKey) || (oid =? kOID_PubKeyAlgo_ECDH) || (oid =? kOID_PubKeyAlgo_ECMQV).
Definition is_rsa_sig (oid : Z) : bool :=
  (oid =? kOID_SigAlgo_MD2WithRSAEncryption) || (oid =? kOID_SigAlgo_MD5WithRSAEncryption) || (oid =? kOID_SigAlgo_SHA1WithRSAEncryption).

Definition ConvertSubjectPublicKeyInfo : M Conv unit :=
  do* on_reader (NextExpect kTLVType_UnsignedInteger (ContextTag kTag_PublicKeyAlgorithm)) in
  let* weavePubKeyAlgoId := get_value Get_u32 in
  let pubKeyAlgoOID := u16 (Z.lor kOIDCategory_PubKeyAlgo weavePubKeyAlgoId) in
  do* on_cert (set_PubKeyAlgoOID pubKeyAlgoOID) in
  let* pubKeyCurveOID :=
    (if is_ec_algo pubKeyAlgoOID then
       do* on_reader (NextExpect kTLVType_UnsignedInteger (ContextTag kTag_EllipticCurveIdentifier)) in
       let* weaveCurveId := get_value Get_u32 in
       let weaveCurveId := if weaveCurveId <? 65536 then Z.lor weaveCurveId (Z.shiftl kWeaveVendor_NestLabs 16) else weaveCurveId in
       do* on_cert (set_PubKeyCurveId weaveCurveId) in
       ret (WeaveCurveIdToOID weaveCurveId)
     else do* verify (pubKeyAlgoOID =? kOID_PubKeyAlgo_RSAEncryption) WEAVE_ERROR_UNSUPPORTED_CERT_FORMAT in ret kOID_NotSpecified) in
  sequence
    (do* sequence
       (do* on_writer (PutObjectId ptr pubKeyAlgoOID) in
        if pubKeyAlgoOID =? kOID_PubKeyAlgo_RSAEncryption then on_writer (ASN1_PutNull ptr) else on_writer (PutObjectId ptr pubKeyCurveOID)) in
     if pubKeyAlgoOID =? kOID_PubKeyAlgo_RSAEncryption then
       do* on_reader (NextExpect kTLVType_Structure (ContextTag kTag_RSAPublicKey)) in
       let* pubKeyOuterContainer := on_reader EnterContainer in
       do* encapsulated kASN1UniversalTag_BitString true
         (sequence
           (do* on_reader (NextExpect kTLVType_ByteString (ContextTag kTag_RSAPublicKey_Modulus)) in
            do* from_reader (PutValue_reader ptr kASN1TagClass_Universal kASN1UniversalTag_Integer false) in
            do* on_reader (NextExpect kTLVType_SignedInteger (ContextTag kTag_RSAPublicKey_PublicExponent)) in
            let* exp := get_value Get_s64 in
            on_writer (ASN1_PutInteger ptr exp))) in
       on_reader (ExitContainer pubKeyOuterContainer)
     else
       do* on_reader (NextExpect kTLVType_ByteString (ContextTag kTag_EllipticCurvePublicKey)) in
       let* ecPoint := data_ptr in
       do* on_cert (set_ECPoint (Some ecPoint)) in
       let* len := look GetLength in
       do* verify (len <=? UINT16_MAX) WEAVE_ERROR_UNSUPPORTED_CERT_FORMAT in
       do* on_cert (set_ECPointLen len) in
       on_writer (PutBitString_bytes ptr 0 (take (Z.to_nat len) ecPoint))).

(** ** Extensions *)

Definition ConvertAuthorityKeyIdentifierExtension : M Conv unit :=
  do* on_cert (add_flag kCertFlag_ExtPresent_AuthKeyId) in
  sequence
    (let* tag := look GetTag in
     if tag =? ContextTag kTag_AuthorityKeyIdentifier_KeyIdentifier then
       let* type := look GetType in
       do* verify (type =? kTLVType_ByteString) WEAVE_ERROR_WRONG_TLV_TYPE in
       let* id := data_ptr in
       do* on_cert (fun c => set_AuthKeyId (mkKeyId (Some id) (KeyIdLen (AuthKeyId c))) c) in
       let* len := look GetLength in
       do* verify (len <=? UINT8_MAX) WEAVE_ERROR_UNSUPPORTED_CERT_FORMAT in
       do* on_cert (set_AuthKeyId (mkKeyId (Some id) len)) in
       do* on_writer (PutOctetString_tagged ptr kASN1TagClass_ContextSpecific 0 (take (Z.to_nat len) id)) in
       next_or_end
     else ret tt).

Definition ConvertSubjectKeyIdentifierExtension : M Conv unit :=
  do* on_cert (add_flag kCertFlag_ExtPresent_SubjectKeyId) in
  let* type := look GetType in
  do* verify (type =? kTLVType_ByteString) WEAVE_ERROR_WRONG_TLV_TYPE in
  let* tag := look GetTag in
  do* verify (tag =? ContextTag kTag_SubjectKeyIdentifier_KeyIdentifier) WEAVE_ERROR_UNEXPECTED_TLV_ELEMENT in
  let* len := look GetLength in
  do* verify (len <=? UINT8_MAX) WEAVE_ERROR_UNSUPPORTED_CERT_FORMAT in
  do* on_cert (fun c => set_SubjectKeyId (mkKeyId (Id (SubjectKeyId c)) len) c) in
  let* id := data_ptr in
  do* on_cert (set_SubjectKeyId (mkKeyId (Some id) len)) in
  on_writer (PutOctetString ptr (take (Z.to_nat len) id)).

Definition ConvertKeyUsageExtension : M Conv unit :=
  do* on_cert (add_flag kCertFlag_ExtPresent_KeyUsage) in
  let* tag := look GetTag in
  do* verify (tag =? ContextTag kTag_KeyUsage_KeyUsage) WEAVE_ERROR_UNEXPECTED_TLV_ELEMENT in
  let* keyUsageBits := get_value Get_u16 in
  do* on_writer (PutBitString ptr keyUsageBits) in
  on_cert (set_KeyUsageFlags keyUsageBits).

Definition ConvertBasicConstraintsExtension : M Conv unit :=
  do* on_cert (add_flag kCertFlag_ExtPresent_BasicConstraints) in
  sequence
    (let* tag := look GetTag in
     do* (if tag =? ContextTag kTag_BasicConstraints_IsCA then
            let* isCA := get_value Get_bool in
            do* (if isCA then do* on_writer (ASN1_PutBoolean ptr true) in on_cert (add_flag kCertFlag_IsCA) else ret tt) in
            next_or_end
          else ret tt) in
     let* tag := look GetTag in
     if tag =? ContextTag kTag_BasicConstraints_PathLenConstraint then
       let* pathLenConstraint := get_value Get_u8 in
       do* on_writer (ASN1_PutInteger ptr pathLenConstraint) in
       do* on_cert (set_PathLenConstraint pathLenConstraint) in
       on_cert (add_flag kCertFlag_PathLenConstPresent)
     else ret tt).

Definition key_purpose_flag (keyPurposeOID : Z) : Z :=
  if keyPurposeOID =? kOID_KeyPurpose_ServerAuth then kKeyPurposeFlag_ServerAuth
  else if keyPurposeOID =? kOID_KeyPurpose_ClientAuth then kKeyPurposeFlag_ClientAuth
  else if keyPurposeOID =? kOID_KeyPurpose_CodeSigning then kKeyPurposeFlag_CodeSigning
  else if keyPurposeOID =? kOID_KeyPurpose_EmailProtection then kKeyPurposeFlag_EmailProtection
  else if keyPurposeOID =? kOID_KeyPurpose_TimeStamping then kKeyPurposeFlag_TimeStamping
  else if keyPurposeOID =? kOID_KeyPurpose_OCSPSigning then kKeyPurposeFlag_OCSPSigning
  else 0.

(** The loop over the key purposes; each turn reads an element. *)
Fixpoint key_purposes (fuel : nat) : M Conv unit :=
  match fuel with
  | O => fun s => (Diverges, s)
  | S fuel => fun s =>
    match on_reader (NextExpect kTLVType_UnsignedInteger AnonymousTag) s with
    | (Ok _, s) =>
      (let* weaveKeyPurposeId := get_value Get_u16 in
       let keyPurposeOID := Z.lor kOIDCategory_KeyPurpose weaveKeyPurposeId in
       do* on_writer (PutObjectId ptr keyPurposeOID) in
       do* on_cert (fun c => set_KeyPurposeFlags (Z.lor (KeyPurposeFlags c) (key_purpose_flag keyPurposeOID)) c) in
       key_purposes fuel) s
    | (Err WEAVE_END_OF_TLV, s) => (Ok tt, s)
    | other => other
    end
  end.
Definition ConvertExtendedKeyUsageExtension : M Conv unit :=
  do* on_cert (add_flag kCertFlag_ExtPresent_ExtendedKeyUsage) in
  sequence
    (let* tag := look GetTag in
     do* verify (tag =? ContextTag kTag_ExtendedKeyUsage_KeyPurposes) WEAVE_ERROR_WRONG_TLV_TYPE in
     let* type := look GetType in
     do* verify (type =? kTLVType_Array) WEAVE_ERROR_WRONG_TLV_TYPE in
     let* outerContainer := on_reader EnterContainer in
     do* (fun s => key_purposes (S (bytes_left (cv_reader s))) s) in
     on_reader (ExitContainer outerContainer)).

Definition extension_oid (extensionTagNum : Z) : option Z :=
  if extensionTagNum =? kTag_AuthorityKeyIdentifier then Some kOID_Extension_AuthorityKeyIdentifier
  else if extensionTagNum =? kTag_SubjectKeyIdentifier then Some kOID_Extension_SubjectKeyIdentifier
  else if extensionTagNum =? kTag_KeyUsage then Some kOID_Extension_KeyUsage
  else if extensionTagNum =? kTag_BasicConstraints then Some kOID_Extension_BasicConstraints
  else if extensionTagNum =? kTag_ExtendedKeyUsage then Some kOID_Extension_ExtendedKeyUsage
  else None.
Definition ConvertExtension : M Conv unit :=
  let* extensionTagNum := look (fun r => TagNumFromTag (GetTag r)) in
  match extension_oid extensionTagNum with
  | None => fail WEAVE_ERROR_UNEXPECTED_TLV_ELEMENT
  | Some extensionOID =>
    let* outerContainer := on_reader EnterContainer in
    do* sequence
      (do* on_writer (PutObjectId ptr extensionOID) in
       do* next_or_end in
       let* tag := look GetTag in
       do* (if tag =? ContextTag kTag_BasicConstraints_Critical then
              let* critical := get_value Get_bool in
              do* (if critical then on_writer (ASN1_PutBoolean ptr true) else ret tt) in
              next_or_end
            else ret tt) in
       encapsulated kASN1UniversalTag_OctetString false
         (if extensionTagNum =? kTag_AuthorityKeyIdentifier then ConvertAuthorityKeyIdentifierExtension
          else if extensionTagNum =? kTag_SubjectKeyIdentifier then ConvertSubjectKeyIdentifierExtension
          else if extensionTagNum =? kTag_KeyUsage then ConvertKeyUsageExtension
          else if extensionTagNum =? kTag_BasicConstraints then ConvertBasicConstraintsExtension
          else if extensionTagNum =? kTag_ExtendedKeyUsage then ConvertExtendedKeyUsageExtension
          else fail WEAVE_ERROR_UNSUPPORTED_CERT_FORMAT)) in
    do* on_reader VerifyEndOfContainer in
    on_reader (ExitContainer outerContainer)
  end.

(** The loop over the extensions; each turn reads an element. *)
Fixpoint convert_extensions (fuel : nat) : M Conv unit :=
  match fuel with
  | O => fun s => (Diverges, s)
  | S fuel =>
    do* ConvertExtension in
    do* on_reader Next in
    let* tag := look GetTag in
    if IsCertificateExtensionTag tag then convert_extensions fuel else ret tt
  end.
Definition ConvertExtensions : M Conv unit :=
  constructed kASN1TagClass_ContextSpecific 3 (sequence (fun s => convert_extensions (S (bytes_left (cv_reader s))) s)).

(** ** Signatures *)

(** DecodeWeaveECDSASignature(reader, sig), of WeaveSig.cpp: the lengths are stored in
    8 bits. *)
Definition DecodeWeaveECDSASignature : M Conv (list Z * Z * (list Z * Z)) :=
  let* type := look GetType in
  do* verify (type =? kTLVType_Structure) WEAVE_ERROR_WRONG_TLV_TYPE in
  let* containerType := on_reader EnterContainer in
  do* on_reader (NextExpect kTLVType_ByteString (ContextTag kTag_ECDSASignature_r)) in
  let* r := data_ptr in
  let* rLen := look GetLength in
  do* on_reader (NextExpect kTLVType_ByteString (ContextTag kTag_ECDSASignature_s)) in
  let* s := data_ptr in
  let* sLen := look GetLength in
  do* on_reader (ExitContainer containerType) in
  ret (r, u8 rLen, (s, u8 sLen)).

Definition ConvertRSASignature : M Conv unit :=
  let* type := look GetType in
  do* verify (type =? kTLVType_ByteString) WEAVE_ERROR_WRONG_TLV_TYPE in
  let* tag := look GetTag in
  do* verify (tag =? ContextTag kTag_RSASignature) WEAVE_ERROR_UNEXPECTED_TLV_ELEMENT in
  from_reader (PutBitString_reader ptr 0).

Definition ConvertECDSASignature : M Conv unit :=
  let* tag := look GetTag in
  do* verify (tag =? ContextTag kTag_ECDSASignature) WEAVE_ERROR_UNEXPECTED_TLV_ELEMENT in
  let* sig := DecodeWeaveECDSASignature in
  let '(r, rLen, (s, sLen)) := sig in
  encapsulated kASN1UniversalTag_BitString true
    (sequence
      (do* on_writer (PutValue ptr kASN1TagClass_Universal kASN1UniversalTag_Integer false (take (Z.to_nat rLen) r)) in
       on_writer (PutValue ptr kASN1TagClass_Universal kASN1UniversalTag_Integer false (take (Z.to_nat sLen) s)))).

(** ** Certificates *)

Definition update_IssuerDN (f : WeaveDN -> WeaveDN) (c : WeaveCertificateData) : WeaveCertificateData := set_IssuerDN (f (IssuerDN c)) c.
Definition update_SubjectDN (f : WeaveDN -> WeaveDN) (c : WeaveCertificateData) : WeaveCertificateData := set_SubjectDN (f (SubjectDN c)) c.

(** The element with the issuer's or the subject's name: a common tag is accepted too. *)
Definition next_name (tagNum : Z) : M Conv unit :=
  do* on_reader Next in
  let* tag := look GetTag in
  do* verify ((tag =? CommonTag tagNum) || (tag =? ContextTag tagNum)) WEAVE_ERROR_UNEXPECTED_TLV_ELEMENT in
  let* type := look GetType in
  verify (type =? kTLVType_Path) WEAVE_ERROR_WRONG_TLV_TYPE.

Definition ConvertTBSCertificate : M Conv unit := sequence
  (do* constructed kASN1TagClass_ContextSpecific 0 (on_writer (ASN1_PutInteger ptr 2)) in
   do* on_reader (NextExpect kTLVType_ByteString (ContextTag kTag_SerialNumber)) in
   do* from_reader (PutValue_reader ptr kASN1TagClass_Universal kASN1UniversalTag_Integer false) in
   do* sequence
     (do* on_reader (NextExpect kTLVType_UnsignedInteger (ContextTag kTag_SignatureAlgorithm)) in
      let* weaveSigAlgo := get_value Get_u32 in
      let sigAlgoOID := u16 (Z.lor weaveSigAlgo kOIDCategory_SigAlgo) in
      do* on_writer (PutObjectId ptr sigAlgoOID) in
      do* (if is_rsa_sig sigAlgoOID then on_writer (ASN1_PutNull ptr) else ret tt) in
      on_cert (set_SigAlgoOID sigAlgoOID)) in
   do* next_name kTag_Issuer in
   do* ConvertDistinguishedName update_IssuerDN in
   do* ConvertValidity in
   do* next_name kTag_Subject in
   do* ConvertDistinguishedName update_SubjectDN in
   do* ConvertSubjectPublicKeyInfo in
   do* on_reader Next in
   let* tag := look GetTag in
   if IsCertificateExtensionTag tag then ConvertExtensions else ret tt).

Definition ConvertCert : M Conv unit :=
  let* type := look GetType in
  do* (if type =? kTLVType_NotSpecified then on_reader Next else ret tt) in
  let* type := look GetType in
  do* verify (type =? kTLVType_Structure) WEAVE_ERROR_WRONG_TLV_TYPE in
  let* tag := look GetTag in
  do* verify ((tag =? ProfileTag kWeaveProfile_Security kTag_WeaveCertificate) || (tag =? AnonymousTag)) WEAVE_ERROR_UNEXPECTED_TLV_ELEMENT in
  let* containerType := on_reader EnterContainer in
  do* sequence
    (do* ConvertTBSCertificate in
     let* sigAlgoOID := (fun s => (Ok (SigAlgoOID (cv_cert s)), s)) in
     do* sequence
       (do* on_writer (PutObjectId ptr sigAlgoOID) in
        if is_rsa_sig sigAlgoOID then on_writer (ASN1_PutNull ptr) else ret tt) in
     if is_rsa_sig sigAlgoOID then ConvertRSASignature else ConvertECDSASignature) in
  do* on_reader VerifyEndOfContainer in
  on_reader (ExitContainer containerType).

(** ConvertWeaveCertToX509Cert: the X.509 certificate that the buffer holds.  The
    length is the writer's, a uint16_t. *)
Definition ConvertWeaveCertToX509Cert (weaveCert : list Z) (x509CertAddr : Z) (x509CertBuf : list Z) : res (list Z) :=
  match (do* ConvertCert in on_writer ASN1_Finalize) (mkConv (Init weaveCert) (ASN1Writer_Init x509CertAddr x509CertBuf) zero_cert) with
  | (Ok _, s) => Ok (take (Z.to_nat (ASN1_GetLengthWritten (cv_writer s))) (aw_mem (cv_writer s)))
  | (Err e, _) => Err e
  | (Undefined, _) => Undefined
  | (Diverges, _) => Diverges
  end.

(** ** Loading certificates *)

Context (SHA1 SHA256 : list Z -> list Z).

(** The bytes of the buffer the writer has filled are hashed into TBSHash. *)
Definition hash_tbs : M Conv unit :=
  do* on_writer ASN1_Finalize in
  do* (fun s =>
    let tbs := take (Z.to_nat (ASN1_GetLengthWritten (cv_writer s))) (aw_mem (cv_writer s)) in
    let hash := if SigAlgoOID (cv_cert s) =? kOID_SigAlgo_ECDSAWithSHA1 then SHA1 tbs else SHA256 tbs in
    on_cert (fun c => set_TBSHash (hash ++ drop (length hash) (TBSHash c)) c) s) in
  on_cert (add_flag kCertFlag_TBSHashPresent).

(** The certificate's signature, the last of its elements. *)
Definition load_signature : M Conv unit :=
  let* type := look GetType in
  do* verify (type =? kTLVType_Structure) WEAVE_ERROR_WRONG_TLV_TYPE in
  let* tag := look GetTag in
  do* verify (tag =? ContextTag kTag_ECDSASignature) WEAVE_ERROR_UNEXPECTED_TLV_ELEMENT in
  let* containerType2 := on_reader EnterContainer in
  do* on_reader (NextExpect kTLVType_ByteString (ContextTag kTag_ECDSASignature_r)) in
  let* r := data_ptr in
  do* on_cert (set_SigR (Some r)) in
  let* rLen := look GetLength in
  do* on_cert (set_SigRLen (u8 rLen)) in
  do* on_reader (NextExpect kTLVType_ByteString (ContextTag kTag_ECDSASignature_s)) in
  let* s := data_ptr in
  do* on_cert (set_SigS (Some s)) in
  let* sLen := look GetLength in
  do* on_cert (set_SigSLen (u8 sLen)) in
  on_reader (ExitContainer containerType2).

(** The elements of a certificate, inside of its structure. *)
Definition load_elements (decodeFlags : Z) : M Conv unit :=
  let* containerType := on_reader EnterContainer in
  do* ConvertTBSCertificate in
  let expectedFlags := Z.lor kCertFlag_ExtPresent_SubjectKeyId kCertFlag_ExtPresent_AuthKeyId in
  do* (fun s => verify (Z.land (CertFlags (cv_cert s)) expectedFlags =? expectedFlags) WEAVE_ERROR_UNSUPPORTED_CERT_FORMAT s) in
  do* (fun s => verify ((SigAlgoOID (cv_cert s) =? kOID_SigAlgo_ECDSAWithSHA1) || (SigAlgoOID (cv_cert s) =? kOID_SigAlgo_ECDSAWithSHA256))
         WEAVE_ERROR_UNSUPPORTED_SIGNATURE_TYPE s) in
  do* (if has_flag decodeFlags kDecodeFlag_GenerateTBSHash then hash_tbs else ret tt) in
  do* load_signature in
  on_reader (ExitContainer containerType).

(** reader.GetReadPoint() - cert->EncodedCert; a reader that has gone to another
    buffer in between makes it undefined. *)
Definition encoded_length (start now : TLVReader) : res Z :=
  match mReadPoint start, mReadPoint now with
  | Some l, Some l' => if Nat.eqb (length (mBufHandle start)) (length (mBufHandle now)) then Ok (u16 (Z.of_nat (length l) - Z.of_nat (length l'))) else Undefined
  | _, _ => Undefined
  end.

(** LoadCert(reader, decodeFlags, cert): the index of the certificate.  Certs[CertCount]
    holds what was decoded when an error is found; an error of DetermineCertType leaves
    the certificate in the set. *)
Definition LoadCert (decodeFlags : Z) : M (TLVReader * WeaveCertificateSet) nat := fun st =>
  let '(rd, s) := st in
  if negb (GetType rd =? kTLVType_Structure) then (Err WEAVE_ERROR_INVALID_ARGUMENT, st)
  else if negb (CertCount s <? MaxCerts s) then (Err WEAVE_ERROR_NO_MEMORY, st)
  else
    match (match mDecodeBuf s with Some b => Some b | None => match mAllocFunct s with Some alloc => alloc (mDecodeBufSize s) | None => None end end) with
    | None => (Err WEAVE_ERROR_NO_MEMORY, st)
    | Some (addr, buf) =>
      let put c count := store_cert c count s in
      match load_elements decodeFlags (mkConv rd (ASN1Writer_Init addr buf) (set_EncodedCert (mReadPoint rd) zero_cert)) with
      | (Ok _, cv) =>
        match encoded_length rd (cv_reader cv) with
        | Ok encodedLen =>
          let cert := set_EncodedCertLen encodedLen (cv_cert cv) in
          let cert := if has_flag decodeFlags kDecodeFlag_IsTrusted then add_flag kCertFlag_IsTrusted cert else cert in
          let count := u8 (CertCount s + 1) in
          match DetermineCertType cert with
          | Ok cert => let '(r, s') := put cert count in (match r with Ok _ => Ok (Z.to_nat (CertCount s)) | Err e => Err e | Undefined => Undefined | Diverges => Diverges end, (cv_reader cv, s'))
          | Err e => let '(r, s') := put cert count in (match r with Ok _ => Err e | Err e => Err e | Undefined => Undefined | Diverges => Diverges end, (cv_reader cv, s'))
          | _ => (Undefined, (cv_reader cv, s))
          end
        | _ => (Undefined, (cv_reader cv, s))
        end
      | (Err e, cv) => let '(r, s') := put (cv_cert cv) (CertCount s) in (match r with Ok _ => Err e | Err e => Err e | Undefined => Undefined | Diverges => Diverges end, (cv_reader cv, s'))
      | (Undefined, cv) => (Undefined, (cv_reader cv, s))
      | (Diverges, cv) => (Diverges, (cv_reader cv, s))
      end
    end.

(** An operation on the reader alone, in the pair. *)
Definition rd {A} (m : M TLVReader A) : M (TLVReader * WeaveCertificateSet) A := fun st =>
  let '(r, reader) := m (fst st) in (r, (reader, snd st)).

(** LoadCert(weaveCert, weaveCertLen, decodeFlags, cert) *)
Definition LoadCert_encoded (weaveCert : list Z) (decodeFlags : Z) : M WeaveCertificateSet nat := fun s =>
  let '(r, st) := (do* rd (NextExpect kTLVType_Structure (ProfileTag kWeaveProfile_Security kTag_WeaveCertificate)) in LoadCert decodeFlags)
                    (set_implicit kWeaveProfile_Security (Init weaveCert), s) in
  (r, snd st).

(** LoadCerts(reader, decodeFlags); each turn of the loop reads an element. *)
Fixpoint load_certs (fuel : nat) (decodeFlags : Z) : M (TLVReader * WeaveCertificateSet) unit :=
  match fuel with
  | O => fun st => (Diverges, st)
  | S fuel => fun st =>
    match rd Next st with
    | (Ok _, st) => (do* LoadCert decodeFlags in load_certs fuel decodeFlags) st
    | (Err WEAVE_END_OF_TLV, st) => (Ok tt, st)
    | other => other
    end
  end.
Definition LoadCerts (decodeFlags : Z) : M (TLVReader * WeaveCertificateSet) unit := fun st =>
  if GetType (fst st) =? kTLVType_Structure then (do* LoadCert decodeFlags in ret tt) st
  else
    (let* containerType := rd EnterContainer in
     do* (fun st => load_certs (S (bytes_left (fst st))) decodeFlags st) in
     rd (ExitContainer containerType)) st.
(** LoadCerts(encodedCerts, encodedCertsLen, decodeFlags) *)
Definition LoadCerts_encoded (encodedCerts : list Z) (decodeFlags : Z) : M WeaveCertificateSet unit := fun s =>
  let '(r, st) :=
    (do* rd Next in
     do* (fun st =>
       let type := GetType (fst st) in
       let tag := GetTag (fst st) in
       verify (((type =? kTLVType_Structure) && (tag =? ProfileTag kWeaveProfile_Security kTag_WeaveCertificate)) ||
               ((type =? kTLVType_Array) && (tag =? ProfileTag kWeaveProfile_Security kTag_WeaveCertificateList))) WEAVE_ERROR_UNEXPECTED_TLV_ELEMENT st) in
     LoadCerts decodeFlags) (set_implicit kWeaveProfile_Security (Init encodedCerts), s) in
  (r, snd st).
End Convert.

(** ** Saving certificates *)

(** SaveCerts(writer, firstCert, includeTrusted), [firstCert] being an index; without
    the array there is nothing to read a certificate from. *)
Definition save_cert (c : WeaveCertificateData) : M TLVWriter unit :=
  PutPreEncodedContainer AnonymousTag kTLVType_Structure (pointed (EncodedCert c) (EncodedCertLen c)).
Fixpoint save_certs (l : list WeaveCertificateData) (i : nat) (firstCert : option nat) (includeTrusted : bool) : M TLVWriter unit :=
  match l with
  | [] => ret tt
  | c :: l =>
    do* (if (match EncodedCert c with Some _ => true | None => false end) && negb (bool_decide (firstCert = Some i)) &&
            (includeTrusted || negb (has_flag (CertFlags c) kCertFlag_IsTrusted))
         then save_cert c else ret tt) in
    save_certs l (S i) firstCert includeTrusted
  end.
Definition SaveCerts (s : WeaveCertificateSet) (firstCert : option nat) (includeTrusted : bool) : M TLVWriter unit :=
  match Certs s, firstCert with
  | Some certs, Some i => do* save_cert (nth i certs zero_cert) in save_certs (loaded s) 0 firstCert includeTrusted
  | Some _, None => save_certs (loaded s) 0 firstCert includeTrusted
  | None, Some _ => undefined
  | None, None => if CertCount s =? 0 then ret tt else undefined
  end.
