(* ===== verification/X509ToCert.v ===== *)
(** * From X.509 to Weave certificates (lib/profiles/security/X509ToWeave.cpp)

    The conversion of a certificate from DER to TLV, field by field, with the macros
    of ASN1Macros.h. *)
From S2P Require Import Prelude Encoding PacketBuffer TLVTypes TLVReader TLVWriter ASN1OID ASN1Writer ASN1Reader CertTime Cert CertToX509.
Local Open Scope Z_scope.
Local Open Scope weave_scope.

(** ** The two objects of a conversion *)

Record XConv := mkXConv { xc_reader : ASN1Reader; xc_writer : TLVWriter }.
Definition on_asn1 {A} (m : M ASN1Reader A) : M XConv A := fun s => let '(r, rd) := m (xc_reader s) in (r, mkXConv rd (xc_writer s)).
Definition on_tlv {A} (m : M TLVWriter A) : M XConv A := fun s => let '(r, w) := m (xc_writer s) in (r, mkXConv (xc_reader s) w).
Definition peek {A} (f : ASN1Reader -> A) : M XConv A := fun s => (Ok (f (xc_reader s)), s).
(** err = reader.Next(), whatever it is *)
Definition next_err : M XConv (option WEAVE_ERROR) := fun s =>
  match ASN1_Next (xc_reader s) with
  | (Ok _, rd) => (Ok None, mkXConv rd (xc_writer s))
  | (Err e, rd) => (Ok (Some e), mkXConv rd (xc_writer s))
  | (Undefined, rd) => (Undefined, mkXConv rd (xc_writer s))
  | (Diverges, rd) => (Diverges, mkXConv rd (xc_writer s))
  end.
(** err == ASN1_NO_ERROR and the element has the class and the tag *)
Definition at_tag (err : option WEAVE_ERROR) (cls tag : Z) : M XConv bool :=
  peek (fun r => match err with None => (ar_Class r =? cls) && (ar_Tag r =? tag) | Some _ => false end).
(** Anything but ASN1_END or success ends the conversion. *)
Definition unless_end (err : option WEAVE_ERROR) : M XConv unit :=
  match err with
  | Some e => if decide (e = ASN1_END) then ret tt else fail e
  | None => ret tt
  end.
Definition must_end (err : option WEAVE_ERROR) (unexpected : WEAVE_ERROR) : M XConv unit :=
  match err with
  | Some e => if decide (e = ASN1_END) then ret tt else fail e
  | None => fail unexpected
  end.

(** ASN1_PARSE_ENTER_... or ASN1_ENTER_..., a body and ASN1_EXIT_... *)
Definition parse_constructed (cls tag : Z) (m : M XConv unit) : M XConv unit :=
  do* on_asn1 (ASN1_PARSE_ENTER_CONSTRUCTED cls tag) in do* m in on_asn1 ASN1_EXIT_CONSTRUCTED.
Definition parse_sequence (m : M XConv unit) : M XConv unit := parse_constructed kASN1TagClass_Universal kASN1UniversalTag_Sequence m.
Definition ASN1_ENTER_CONSTRUCTED (cls tag : Z) : M ASN1Reader unit := do* ASN1_VERIFY_TAG cls tag in EnterConstructedType.
Definition enter_constructed (cls tag : Z) (m : M XConv unit) : M XConv unit :=
  do* on_asn1 (ASN1_ENTER_CONSTRUCTED cls tag) in do* m in on_asn1 ASN1_EXIT_CONSTRUCTED.
Definition ASN1_ENTER_ENCAPSULATED (cls tag : Z) : M ASN1Reader unit := do* ASN1_VERIFY_TAG cls tag in EnterEncapsulatedType.
Definition enter_encapsulated (tag : Z) (m : M XConv unit) : M XConv unit :=
  do* on_asn1 (ASN1_ENTER_ENCAPSULATED kASN1TagClass_Universal tag) in do* m in on_asn1 ASN1_EXIT_ENCAPSULATED.

(** writer.PutBytes or PutString of [n] bytes from the pointer [p] into the reader's
    buffer.  Bytes outside of the buffer are undefined once they are copied; a writer
    without room for them fails first. *)
Definition put_bytes_at (type tag p n : Z) : M XConv unit := fun s =>
  let buf := ar_buf (xc_reader s) in
  let bufEnd := Z.of_nat (length buf) in
  if (0 <=? p) && (p + n <=? bufEnd) then on_tlv (WriteElementWithData type tag (block_read p n buf)) s
  else
    (do* on_tlv (WriteElementHead (Z.lor type (if n <=? UINT8_MAX then kTLVFieldSize_1Byte else if n <=? UINT16_MAX then kTLVFieldSize_2Byte else kTLVFieldSize_4Byte)) tag n) in
     on_tlv (fun w =>
       let rem := wRemainingLen w in
       if negb (u32 (wLenWritten w + n) <=? wMaxLen w) then (Err WEAVE_ERROR_BUFFER_TOO_SMALL, w)
       else if (n <=? rem) || (p <? 0) || (bufEnd <? p + rem) then (Undefined, w)
       else (Err WEAVE_ERROR_NO_MEMORY, append (block_read p rem buf) w))) s.
(** With reader.Value + [skip] and reader.ValueLen - [skip] *)
Definition put_value_at (type tag skip : Z) : M XConv unit := fun s =>
  match ar_Value (xc_reader s) with
  | Some p => put_bytes_at type tag (p + skip) (u32 (ar_ValueLen (xc_reader s) - skip)) s
  | None => (Undefined, s)
  end.
Definition PutBytes_value (tag : Z) : M XConv unit := put_value_at kTLVType_ByteString tag 0.
Definition PutString_value (tag : Z) : M XConv unit := put_value_at kTLVType_UTF8String tag 0.

(** A container of the writer *)
Definition container (tag type : Z) (m : M XConv unit) : M XConv unit :=
  let* outerContainer := on_tlv (StartContainer tag type) in do* m in on_tlv (EndContainer outerContainer).

(** ** Names *)

(** The loop of ParseWeaveIdAttribute over the characters from [p] on. *)
Fixpoint parse_weave_id (n : nat) (p weaveId : Z) : M ASN1Reader Z :=
  match n with
  | O => ret weaveId
  | S n =>
    let weaveId := u64 (Z.shiftl weaveId 4) in
    let* ch := deref p in
    if (48 <=? ch) && (ch <=? 57) then parse_weave_id n (p + 1) (Z.lor weaveId (ch - 48))
    else if (65 <=? ch) && (ch <=? 70) then parse_weave_id n (p + 1) (Z.lor weaveId (ch - 65 + 10))
    else fail ASN1_ERROR_INVALID_ENCODING
  end.
Definition ParseWeaveIdAttribute : M ASN1Reader Z := fun r =>
  if negb (ar_ValueLen r =? 16) then (Err ASN1_ERROR_INVALID_ENCODING, r)
  else match ar_Value r with Some p => parse_weave_id 16 p 0 r | None => (Undefined, r) end.

Definition convert_attribute : M XConv unit :=
  let* attrOID := on_asn1 ASN1_PARSE_OBJECT_ID in
  do* verify (GetOIDCategory attrOID =? kOIDCategory_AttributeType) ASN1_ERROR_INVALID_ENCODING in
  do* on_asn1 ASN1_Next in
  let* cls := peek ar_Class in
  let* tag := peek ar_Tag in
  do* verify ((cls =? kASN1TagClass_Universal) &&
    ((tag =? kASN1UniversalTag_PrintableString) || (tag =? kASN1UniversalTag_UTF8String) || (tag =? kASN1UniversalTag_IA5String)))
    ASN1_ERROR_UNSUPPORTED_ENCODING in
  do* (if IsWeaveX509Attr attrOID then verify (tag =? kASN1UniversalTag_UTF8String) ASN1_ERROR_INVALID_ENCODING else ret tt) in
  let tlvTagNum := u8 (Z.land attrOID kOID_Mask) in
  let tlvTagNum := if tag =? kASN1UniversalTag_PrintableString then Z.lor tlvTagNum 128 else tlvTagNum in
  if IsWeaveIdX509Attr attrOID then
    let* weaveId := on_asn1 ParseWeaveIdAttribute in
    on_tlv (Put_u64 (ContextTag tlvTagNum) weaveId)
  else PutString_value (ContextTag tlvTagNum).

(** The loop over the names; each turn reads an element.  An error other than the end
    is not looked at: the macro that follows calls Next again. *)
Fixpoint convert_names (fuel : nat) : M XConv unit :=
  match fuel with
  | O => fun s => (Diverges, s)
  | S fuel =>
    let* err := next_err in
    match err with
    | Some _ => ret tt
    | None =>
      do* enter_constructed kASN1TagClass_Universal kASN1UniversalTag_Set
        (do* parse_sequence convert_attribute in
         let* err := next_err in must_end err ASN1_ERROR_UNSUPPORTED_ENCODING) in
      convert_names fuel
    end
  end.
Definition conversion_fuel (s : XConv) : nat := S (length (ar_buf (xc_reader s))).
Definition X509_ConvertDistinguishedName (tag : Z) : M XConv unit :=
  container tag kTLVType_Path (parse_sequence (fun s => convert_names (conversion_fuel s) s)).

(** ** Validity and public key *)

Definition pack_time (time : ASN1UniversalTime) : M XConv Z := fun s => (PackCertTime time, s).
Definition X509_ConvertValidity : M XConv unit := parse_sequence
  (let* notBeforeTime := on_asn1 ASN1_PARSE_TIME in
   let* packedNotBeforeTime := pack_time notBeforeTime in
   do* on_tlv (Put_u32 (ContextTag kTag_NotBefore) packedNotBeforeTime) in
   let* notAfterTime := on_asn1 ASN1_PARSE_TIME in
   let* packedNotAfterTime := pack_time notAfterTime in
   on_tlv (Put_u32 (ContextTag kTag_NotAfter) packedNotAfterTime)).

Definition is_universal (tag : Z) : M XConv bool := peek (fun r => (ar_Class r =? kASN1TagClass_Universal) && (ar_Tag r =? tag)).
Definition X509_ConvertSubjectPublicKeyInfo : M XConv unit :=
  do* on_asn1 (ASN1_PARSE_ENTER_CONSTRUCTED kASN1TagClass_Universal kASN1UniversalTag_Sequence) in
  do* on_asn1 (ASN1_PARSE_ENTER_CONSTRUCTED kASN1TagClass_Universal kASN1UniversalTag_Sequence) in
  let* keyAlgo := on_asn1 ASN1_PARSE_OBJECT_ID in
  do* verify ((keyAlgo =? kOID_PubKeyAlgo_RSAEncryption) || is_ec_algo keyAlgo) ASN1_ERROR_UNSUPPORTED_ENCODING in
  do* on_tlv (Put_u8 (ContextTag kTag_PublicKeyAlgorithm) (u8 (Z.land keyAlgo kOID_Mask))) in
  do* (if keyAlgo =? kOID_PubKeyAlgo_RSAEncryption then on_asn1 ASN1_PARSE_NULL
       else if is_ec_algo keyAlgo then
         do* on_asn1 ASN1_Next in
         let* ecParameters := is_universal kASN1UniversalTag_Sequence in
         do* verify (negb ecParameters) ASN1_ERROR_UNSUPPORTED_ENCODING in
         let* implicitlyCA := is_universal kASN1UniversalTag_Null in
         do* verify (negb implicitlyCA) ASN1_ERROR_UNSUPPORTED_ENCODING in
         do* on_asn1 (ASN1_VERIFY_TAG kASN1TagClass_Universal kASN1UniversalTag_ObjectId) in
         let* namedCurveOID := on_asn1 ASN1_GetObjectId in
         do* verify (GetOIDCategory namedCurveOID =? kOIDCategory_EllipticCurve) ASN1_ERROR_UNSUPPORTED_ENCODING in
         on_tlv (Put_u32 (ContextTag kTag_EllipticCurveIdentifier) (OIDToWeaveCurveId namedCurveOID))
       else ret tt) in
  do* on_asn1 ASN1_EXIT_CONSTRUCTED in
  do* on_asn1 (ASN1_PARSE_ELEMENT kASN1TagClass_Universal kASN1UniversalTag_BitString) in
  do* (if keyAlgo =? kOID_PubKeyAlgo_RSAEncryption then
         enter_encapsulated kASN1UniversalTag_BitString
           (container (ContextTag kTag_RSAPublicKey) kTLVType_Structure
             (parse_sequence
               (do* on_asn1 (ASN1_PARSE_ELEMENT kASN1TagClass_Universal kASN1UniversalTag_Integer) in
                do* PutBytes_value (ContextTag kTag_RSAPublicKey_Modulus) in
                let* exp := on_asn1 ASN1_PARSE_INTEGER in
                on_tlv (Put_u64 (ContextTag kTag_RSAPublicKey_PublicExponent) (u64 exp)))))
       else if is_ec_algo keyAlgo then put_value_at kTLVType_ByteString (ContextTag kTag_EllipticCurvePublicKey) 1
       else ret tt) in
  on_asn1 ASN1_EXIT_CONSTRUCTED.

(** ** Extensions *)

Definition X509_ConvertAuthorityKeyIdentifierExtension : M XConv unit := parse_sequence
  (let* err := next_err in
   let* keyIdentifier := at_tag err kASN1TagClass_ContextSpecific 0 in
   let* err :=
     (if keyIdentifier then
        let* isConstructed := peek ar_IsConstructed in
        do* verify (negb isConstructed) ASN1_ERROR_INVALID_ENCODING in
        do* PutBytes_value (ContextTag kTag_AuthorityKeyIdentifier_KeyIdentifier) in
        next_err
      else ret err) in
   let* authorityCertIssuer := at_tag err kASN1TagClass_ContextSpecific 1 in
   let* err :=
     (if authorityCertIssuer then
        do* enter_constructed kASN1TagClass_ContextSpecific 1
          (do* parse_constructed kASN1TagClass_ContextSpecific 4 (X509_ConvertDistinguishedName (ContextTag kTag_AuthorityKeyIdentifier_Issuer)) in
           let* err := next_err in
           verify (match err with None => false | Some _ => true end) ASN1_ERROR_UNSUPPORTED_ENCODING) in
        next_err
      else ret err) in
   let* authorityCertSerialNumber := at_tag err kASN1TagClass_ContextSpecific 2 in
   let* err :=
     (if authorityCertSerialNumber then
        do* PutBytes_value (ContextTag kTag_AuthorityKeyIdentifier_SerialNumber) in
        next_err
      else ret err) in
   unless_end err).

(** writer.PutBoolean of the critical flag, if it is set; the tag is 1 in every
    extension. *)
Definition put_critical (critical : bool) : M XConv unit :=
  if critical then on_tlv (PutBoolean (ContextTag kTag_AuthorityKeyIdentifier_Critical) critical) else ret tt.

(** The two fields of BasicConstraints, with the error of the last Next() between them. *)
Definition parse_is_CA : M XConv (bool * option WEAVE_ERROR) :=
  let* err := next_err in
  let* hasCA := at_tag err kASN1TagClass_Universal kASN1UniversalTag_Boolean in
  if hasCA then
    let* isCA := on_asn1 ASN1_GetBoolean in
    do* verify isCA ASN1_ERROR_INVALID_ENCODING in
    let* err := next_err in ret (isCA, err)
  else ret (false, err).
Definition parse_path_len (err : option WEAVE_ERROR) : M XConv Z :=
  let* hasPathLen := at_tag err kASN1TagClass_Universal kASN1UniversalTag_Integer in
  if hasPathLen then
    let* pathLenConstraint := on_asn1 ASN1_GetInteger in
    do* verify (0 <=? pathLenConstraint) ASN1_ERROR_INVALID_ENCODING in ret pathLenConstraint
  else ret (-1).
Definition X509_ConvertBasicConstraints (critical : bool) : M XConv unit :=
  do* on_asn1 (ASN1_PARSE_ENTER_CONSTRUCTED kASN1TagClass_Universal kASN1UniversalTag_Sequence) in
  let* ca := parse_is_CA in
  let '(isCA, err) := ca in
  let* pathLenConstraint := parse_path_len err in
  let* outerContainer := on_tlv (StartContainer (ContextTag kTag_BasicConstraints) kTLVType_Structure) in
  do* put_critical critical in
  do* (if isCA then on_tlv (PutBoolean (ContextTag kTag_BasicConstraints_IsCA) isCA) else ret tt) in
  do* (if negb (pathLenConstraint =? -1) then on_tlv (Put_u32 (ContextTag kTag_BasicConstraints_PathLenConstraint) (u32 pathLenConstraint)) else ret tt) in
  do* on_asn1 ASN1_EXIT_CONSTRUCTED in
  on_tlv (EndContainer outerContainer).

(** The loop over the key purposes; each turn reads an element. *)
Fixpoint convert_key_purposes (fuel : nat) : M XConv unit :=
  match fuel with
  | O => fun s => (Diverges, s)
  | S fuel =>
    let* err := next_err in
    match err with
    | Some _ => unless_end err
    | None =>
      let* keyPurpose := on_asn1 ASN1_GetObjectId in
      do* verify (negb (keyPurpose =? kOID_Unknown)) ASN1_ERROR_UNSUPPORTED_ENCODING in
      do* verify (GetOIDCategory keyPurpose =? kOIDCategory_KeyPurpose) ASN1_ERROR_INVALID_ENCODING in
      do* on_tlv (Put_u8 AnonymousTag (u8 (Z.land keyPurpose kOID_Mask))) in
      convert_key_purposes fuel
    end
  end.

(** The content of extnValue. *)
Definition convert_extension_value (extensionOID : Z) (critical : bool) : M XConv unit :=
  if extensionOID =? kOID_Extension_AuthorityKeyIdentifier then
    container (ContextTag kTag_AuthorityKeyIdentifier) kTLVType_Structure (do* put_critical critical in X509_ConvertAuthorityKeyIdentifierExtension)
  else if extensionOID =? kOID_Extension_SubjectKeyIdentifier then
    do* on_asn1 (ASN1_PARSE_ELEMENT kASN1TagClass_Universal kASN1UniversalTag_OctetString) in
    container (ContextTag kTag_SubjectKeyIdentifier) kTLVType_Structure
      (do* put_critical critical in PutBytes_value (ContextTag kTag_SubjectKeyIdentifier_KeyIdentifier))
  else if extensionOID =? kOID_Extension_KeyUsage then
    do* on_asn1 (ASN1_PARSE_ELEMENT kASN1TagClass_Universal kASN1UniversalTag_BitString) in
    container (ContextTag kTag_KeyUsage) kTLVType_Structure
      (do* put_critical critical in
       let* keyUsageBits := on_asn1 GetBitString in
       on_tlv (Put_u32 (ContextTag kTag_KeyUsage_KeyUsage) keyUsageBits))
  else if extensionOID =? kOID_Extension_BasicConstraints then X509_ConvertBasicConstraints critical
  else if extensionOID =? kOID_Extension_ExtendedKeyUsage then
    container (ContextTag kTag_ExtendedKeyUsage) kTLVType_Structure
      (do* put_critical critical in
       container (ContextTag kTag_ExtendedKeyUsage_KeyPurposes) kTLVType_Array
         (parse_sequence (fun s => convert_key_purposes (conversion_fuel s) s)))
  else fail ASN1_ERROR_UNSUPPORTED_ENCODING.

Definition X509_ConvertExtension : M XConv unit := enter_constructed kASN1TagClass_Universal kASN1UniversalTag_Sequence
  (let* extensionOID := on_asn1 ASN1_PARSE_OBJECT_ID in
   do* verify (negb (extensionOID =? kOID_Unknown)) ASN1_ERROR_UNSUPPORTED_ENCODING in
   do* verify (GetOIDCategory extensionOID =? kOIDCategory_Extension) ASN1_ERROR_INVALID_ENCODING in
   do* on_asn1 ASN1_Next in
   let* hasCritical := is_universal kASN1UniversalTag_Boolean in
   let* critical :=
     (if hasCritical then
        let* critical := on_asn1 ASN1_GetBoolean in
        do* verify critical ASN1_ERROR_INVALID_ENCODING in
        do* on_asn1 ASN1_Next in ret critical
      else ret false) in
   enter_encapsulated kASN1UniversalTag_OctetString (convert_extension_value extensionOID critical)).

Fixpoint convert_extension_list (fuel : nat) : M XConv unit :=
  match fuel with
  | O => fun s => (Diverges, s)
  | S fuel =>
    let* err := next_err in
    match err with
    | Some _ => unless_end err
    | None => do* X509_ConvertExtension in convert_extension_list fuel
    end
  end.
Definition X509_ConvertExtensions : M XConv unit := parse_sequence (fun s => convert_extension_list (conversion_fuel s) s).

(** ** Certificates *)

Definition is_ecdsa_sig (oid : Z) : bool := (oid =? kOID_SigAlgo_ECDSAWithSHA1) || (oid =? kOID_SigAlgo_ECDSAWithSHA256).

(** The TBSCertificate: its signature algorithm. *)
Definition convert_tbs : M XConv Z :=
  do* on_asn1 (ASN1_PARSE_ENTER_CONSTRUCTED kASN1TagClass_Universal kASN1UniversalTag_Sequence) in
  do* parse_constructed kASN1TagClass_ContextSpecific 0
    (let* version := on_asn1 ASN1_PARSE_INTEGER in verify (version =? 2) ASN1_ERROR_UNSUPPORTED_ENCODING) in
  do* on_asn1 (ASN1_PARSE_ELEMENT kASN1TagClass_Universal kASN1UniversalTag_Integer) in
  do* PutBytes_value (ContextTag kTag_SerialNumber) in
  do* on_asn1 (ASN1_PARSE_ENTER_CONSTRUCTED kASN1TagClass_Universal kASN1UniversalTag_Sequence) in
  let* sigAlgo := on_asn1 ASN1_PARSE_OBJECT_ID in
  do* verify (GetOIDCategory sigAlgo =? kOIDCategory_SigAlgo) ASN1_ERROR_INVALID_ENCODING in
  do* verify (is_rsa_sig sigAlgo || is_ecdsa_sig sigAlgo) ASN1_ERROR_UNSUPPORTED_ENCODING in
  do* on_tlv (Put_u8 (ContextTag kTag_SignatureAlgorithm) (u8 (Z.ldiff sigAlgo kOIDCategory_Mask))) in
  do* (if is_rsa_sig sigAlgo then on_asn1 ASN1_PARSE_NULL else ret tt) in
  do* on_asn1 ASN1_EXIT_CONSTRUCTED in
  do* X509_ConvertDistinguishedName (ContextTag kTag_Issuer) in
  do* X509_ConvertValidity in
  do* X509_ConvertDistinguishedName (ContextTag kTag_Subject) in
  do* X509_ConvertSubjectPublicKeyInfo in
  let* err := next_err in
  let* issuerUniqueID := at_tag err kASN1TagClass_ContextSpecific 1 in
  do* verify (negb issuerUniqueID) ASN1_ERROR_UNSUPPORTED_ENCODING in
  let* subjectUniqueID := at_tag err kASN1TagClass_ContextSpecific 2 in
  do* verify (negb subjectUniqueID) ASN1_ERROR_UNSUPPORTED_ENCODING in
  let* extensions := at_tag err kASN1TagClass_ContextSpecific 3 in
  let* err :=
    (if extensions then
       do* enter_constructed kASN1TagClass_ContextSpecific 3 X509_ConvertExtensions in next_err
     else ret err) in
  (* if (err != ASN1_END) ExitNow(): success, when there is some other element *)
  match err with
  | Some e => if decide (e = ASN1_END) then do* on_asn1 ASN1_EXIT_CONSTRUCTED in ret sigAlgo else fail e
  | None => ret (-1)
  end.

(** [convert_tbs] gives -1 when ConvertCertificate is left there, without an error. *)
Definition ConvertCertificate : M XConv unit :=
  let* containerType := on_tlv (StartContainer (ProfileTag kWeaveProfile_Security kTag_WeaveCertificate) kTLVType_Structure) in
  do* on_asn1 (ASN1_PARSE_ENTER_CONSTRUCTED kASN1TagClass_Universal kASN1UniversalTag_Sequence) in
  let* sigAlgo := convert_tbs in
  if sigAlgo =? -1 then ret tt
  else
    do* on_asn1 ASN1_Next in
    do* on_asn1 (ASN1_PARSE_ELEMENT kASN1TagClass_Universal kASN1UniversalTag_BitString) in
    do* (if is_rsa_sig sigAlgo then put_value_at kTLVType_ByteString (ContextTag kTag_RSASignature) 1
         else if is_ecdsa_sig sigAlgo then
           enter_encapsulated kASN1UniversalTag_BitString
             (container (ContextTag kTag_ECDSASignature) kTLVType_Structure
               (parse_sequence
                 (do* on_asn1 (ASN1_PARSE_ELEMENT kASN1TagClass_Universal kASN1UniversalTag_Integer) in
                  do* PutBytes_value (ContextTag kTag_ECDSASignature_r) in
                  do* on_asn1 (ASN1_PARSE_ELEMENT kASN1TagClass_Universal kASN1UniversalTag_Integer) in
                  PutBytes_value (ContextTag kTag_ECDSASignature_s))))
         else ret tt) in
    do* on_asn1 ASN1_EXIT_CONSTRUCTED in
    on_tlv (EndContainer containerType).

(** ConvertX509CertToWeaveCert: what the buffer of [weaveCertBufSize] bytes holds. *)
Definition ConvertX509CertToWeaveCert (x509Cert : list Z) (weaveCertBufSize : Z) : res (list Z) :=
  match ConvertCertificate (mkXConv (ASN1Reader_Init x509Cert) (InitWriter weaveCertBufSize)) with
  | (Ok _, s) =>
    match Finalize (xc_writer s) with
    | (Ok _, w) => Ok (take (Z.to_nat (GetLengthWritten w)) (wCur w))
    | (Err e, _) => Err e
    | (Undefined, _) => Undefined
    | (Diverges, _) => Diverges
    end
  | (Err e, _) => Err e
  | (Undefined, _) => Undefined
  | (Diverges, _) => Diverges
  end.
