(* ===== verification/CertSpec.v ===== *)
(** * What a certificate is

    An abstract certificate, with its two forms: the TLV elements of a Weave
    certificate and the ASN.1 values of an X.509 certificate (src/doc/specs and the
    comments of WeaveToX509.cpp and X509ToWeave.cpp).  The converters are shown to go
    from the encoding of one form to the encoding of the other. *)
From S2P Require Import Prelude TLVTypes TLVWriter TLVHead TLVTree TimeUtils ASN1OID ASN1Writer ASN1Tree CertTime Cert CertToX509.
Local Open Scope Z_scope.
Local Open Scope weave_scope.

(** ** Abstract certificates *)

(** A distinguished name: one attribute, an identifier of Weave or a string. *)
Inductive attribute :=
  | IdAttr (oid id : Z)
  | NameAttr (oid : Z) (printable : bool) (s : list Z).
Inductive public_key :=
  | ECKey (algo curve : Z) (point : list Z)
  | RSAKey (modulus : list Z) (exponent : Z).
Inductive extension :=
  | AuthKeyIdExt (critical : bool) (id : option (list Z))
  | SubjectKeyIdExt (critical : bool) (id : list Z)
  | KeyUsageExt (critical : bool) (bits : Z)
  | BasicConstraintsExt (critical isCA : bool) (pathLen : option Z)
  | ExtendedKeyUsageExt (critical : bool) (purposes : list Z).
Inductive signature :=
  | ECDSASig (r s : list Z)
  | RSASig (s : list Z).

(** Times are packed, object identifiers are those of ASN1OID. *)
Record certificate := mkCertificate {
  c_serial : list Z;
  c_sigAlgo : Z;
  c_issuer : attribute;
  c_notBefore : Z;
  c_notAfter : Z;
  c_subject : attribute;
  c_key : public_key;
  c_extensions : list extension;
  c_signature : signature }.

(** ** The Weave form *)

Abbreviation Ctx := ContextTag.
Definition attribute_tlv (a : attribute) : TLVTree.tlv :=
  match a with
  | IdAttr oid id => TUInt (Ctx (Z.land oid 127)) id
  | NameAttr oid printable s => TUtf8 (Ctx (Z.land oid 127 + (if printable then 128 else 0))) s
  end.
Definition key_tlvs (k : public_key) : list TLVTree.tlv :=
  match k with
  | ECKey algo curve point =>
    [TUInt (Ctx kTag_PublicKeyAlgorithm) (Z.land algo kOID_Mask); TUInt (Ctx kTag_EllipticCurveIdentifier) (OIDToWeaveCurveId curve);
     TBytes (Ctx kTag_EllipticCurvePublicKey) point]
  | RSAKey modulus exponent =>
    [TUInt (Ctx kTag_PublicKeyAlgorithm) (Z.land kOID_PubKeyAlgo_RSAEncryption kOID_Mask);
     TContainer (Ctx kTag_RSAPublicKey) kTLVType_Structure
       [TBytes (Ctx kTag_RSAPublicKey_Modulus) modulus; TInt (Ctx kTag_RSAPublicKey_PublicExponent) exponent]]
  end.
Definition critical_tlv (critical : bool) : list TLVTree.tlv := if critical then [TBool (Ctx 1) true] else [].
Definition extension_tlv (x : extension) : TLVTree.tlv :=
  match x with
  | AuthKeyIdExt critical id => TContainer (Ctx kTag_AuthorityKeyIdentifier) kTLVType_Structure
      (critical_tlv critical ++ match id with Some id => [TBytes (Ctx kTag_AuthorityKeyIdentifier_KeyIdentifier) id] | None => [] end)
  | SubjectKeyIdExt critical id => TContainer (Ctx kTag_SubjectKeyIdentifier) kTLVType_Structure
      (critical_tlv critical ++ [TBytes (Ctx kTag_SubjectKeyIdentifier_KeyIdentifier) id])
  | KeyUsageExt critical bits => TContainer (Ctx kTag_KeyUsage) kTLVType_Structure
      (critical_tlv critical ++ [TUInt (Ctx kTag_KeyUsage_KeyUsage) bits])
  | BasicConstraintsExt critical isCA pathLen => TContainer (Ctx kTag_BasicConstraints) kTLVType_Structure
      (critical_tlv critical ++ (if isCA then [TBool (Ctx kTag_BasicConstraints_IsCA) true] else []) ++
       match pathLen with Some n => [TUInt (Ctx kTag_BasicConstraints_PathLenConstraint) n] | None => [] end)
  | ExtendedKeyUsageExt critical purposes => TContainer (Ctx kTag_ExtendedKeyUsage) kTLVType_Structure
      (critical_tlv critical ++ [TContainer (Ctx kTag_ExtendedKeyUsage_KeyPurposes) kTLVType_Array
         (map (fun oid => TUInt AnonymousTag (Z.land oid kOID_Mask)) purposes)])
  end.
Definition signature_tlv (s : signature) : TLVTree.tlv :=
  match s with
  | ECDSASig r s => TContainer (Ctx kTag_ECDSASignature) kTLVType_Structure [TBytes (Ctx kTag_ECDSASignature_r) r; TBytes (Ctx kTag_ECDSASignature_s) s]
  | RSASig s => TBytes (Ctx kTag_RSASignature) s
  end.
Definition certificate_elems (c : certificate) : list TLVTree.tlv :=
  [TBytes (Ctx kTag_SerialNumber) (c_serial c); TUInt (Ctx kTag_SignatureAlgorithm) (Z.land (c_sigAlgo c) kOID_Mask);
   TContainer (Ctx kTag_Issuer) kTLVType_Path [attribute_tlv (c_issuer c)];
   TUInt (Ctx kTag_NotBefore) (c_notBefore c); TUInt (Ctx kTag_NotAfter) (c_notAfter c);
   TContainer (Ctx kTag_Subject) kTLVType_Path [attribute_tlv (c_subject c)]] ++
  key_tlvs (c_key c) ++ map extension_tlv (c_extensions c) ++ [signature_tlv (c_signature c)].
Definition certificate_tlv (c : certificate) : TLVTree.tlv :=
  TContainer (ProfileTag kWeaveProfile_Security kTag_WeaveCertificate) kTLVType_Structure (certificate_elems c).
Definition weave_encoding (c : certificate) : list Z := TLVTree.enc (-1) kProfileIdNotSpecified (certificate_tlv c).

(** ** The X.509 form *)

Definition ASequence (l : list item) : item := AConstructed kASN1TagClass_Universal kASN1UniversalTag_Sequence l.
Definition string_tag (oid : Z) (printable : bool) : Z :=
  if oid =? kOID_AttributeType_DomainComponent then kASN1UniversalTag_IA5String
  else if printable then kASN1UniversalTag_PrintableString else kASN1UniversalTag_UTF8String.
Definition attribute_items (a : attribute) : list item :=
  match a with
  | IdAttr oid id => [AObjectId oid; APrimitive kASN1TagClass_Universal kASN1UniversalTag_UTF8String (weave_id_string id)]
  | NameAttr oid printable s => [AObjectId oid; APrimitive kASN1TagClass_Universal (string_tag oid printable) s]
  end.
Definition name_item (a : attribute) : item := ASequence [AConstructed kASN1TagClass_Universal kASN1UniversalTag_Set [ASequence (attribute_items a)]].
Definition key_item (k : public_key) : item :=
  match k with
  | ECKey algo curve point =>
    ASequence [ASequence [AObjectId algo; AObjectId curve]; APrimitive kASN1TagClass_Universal kASN1UniversalTag_BitString (0 :: point)]
  | RSAKey modulus exponent =>
    ASequence [ASequence [AObjectId kOID_PubKeyAlgo_RSAEncryption; ANull];
      AEncapsulated true [ASequence [APrimitive kASN1TagClass_Universal kASN1UniversalTag_Integer modulus; AInteger exponent]]]
  end.
Definition extension_parts (x : extension) : Z * bool * item :=
  match x with
  | AuthKeyIdExt critical id => (kOID_Extension_AuthorityKeyIdentifier, critical,
      ASequence (match id with Some id => [APrimitive kASN1TagClass_ContextSpecific 0 id] | None => [] end))
  | SubjectKeyIdExt critical id => (kOID_Extension_SubjectKeyIdentifier, critical, APrimitive kASN1TagClass_Universal kASN1UniversalTag_OctetString id)
  | KeyUsageExt critical bits => (kOID_Extension_KeyUsage, critical, ABits bits)
  | BasicConstraintsExt critical isCA pathLen => (kOID_Extension_BasicConstraints, critical,
      ASequence ((if isCA then [ABoolean true] else []) ++ match pathLen with Some n => [AInteger n] | None => [] end))
  | ExtendedKeyUsageExt critical purposes => (kOID_Extension_ExtendedKeyUsage, critical, ASequence (map AObjectId purposes))
  end.
Definition extension_item (x : extension) : item :=
  let '(oid, critical, value) := extension_parts x in
  ASequence (AObjectId oid :: (if critical then [ABoolean true] else []) ++ [AEncapsulated false [value]]).
Definition sig_algo_items (oid : Z) : list item := AObjectId oid :: (if is_rsa_sig oid then [ANull] else []).
Definition signature_item (s : signature) : item :=
  match s with
  | ECDSASig r s => AEncapsulated true [ASequence [APrimitive kASN1TagClass_Universal kASN1UniversalTag_Integer r;
                                                   APrimitive kASN1TagClass_Universal kASN1UniversalTag_Integer s]]
  | RSASig s => APrimitive kASN1TagClass_Universal kASN1UniversalTag_BitString (0 :: s)
  end.
Definition tbs_item (c : certificate) : item :=
  ASequence ([AConstructed kASN1TagClass_ContextSpecific 0 [AInteger 2];
              APrimitive kASN1TagClass_Universal kASN1UniversalTag_Integer (c_serial c);
              ASequence (sig_algo_items (c_sigAlgo c)); name_item (c_issuer c);
              ASequence [ATime (UnpackCertTime (c_notBefore c)); ATime (UnpackCertTime (c_notAfter c))];
              name_item (c_subject c); key_item (c_key c)] ++
             match c_extensions c with
             | [] => []
             | l => [AConstructed kASN1TagClass_ContextSpecific 3 [ASequence (map extension_item l)]]
             end).
Definition certificate_item (c : certificate) : item :=
  ASequence [tbs_item c; ASequence (sig_algo_items (c_sigAlgo c)); signature_item (c_signature c)].
Definition x509_encoding (c : certificate) : list Z := der (certificate_item c).

(** ** The certificates that both forms can express *)

Definition bytes_upto (n : Z) (s : list Z) : bool := forallb byte_ok s && (Z.of_nat (length s) <=? n).
Definition known_oid (category oid : Z) : bool :=
  (GetOIDCategory oid =? category) && (match GetEncodedObjectID oid with Some _ => true | None => false end).
Definition within (lo hi v : Z) : bool := (lo <=? v) && (v <=? hi).

Definition attribute_ok (a : attribute) : bool :=
  match a with
  | IdAttr oid id => IsWeaveIdX509Attr oid && within 0 18446744073709551615 id
  | NameAttr oid printable s =>
    known_oid kOIDCategory_AttributeType oid && negb (IsWeaveIdX509Attr oid) &&
    negb (printable && (oid =? kOID_AttributeType_DomainComponent)) && bytes_upto 65531 s
  end.
Definition key_ok (k : public_key) : bool :=
  match k with
  | ECKey algo curve point => is_ec_algo algo && known_oid kOIDCategory_EllipticCurve curve && bytes_upto 65530 point
  | RSAKey modulus exponent => bytes_upto 65531 modulus && within (-9223372036854775808) 9223372036854775807 exponent
  end.

(** How large the values may be that the code reads into smaller ones: the lengths of
    the key identifiers, the bits of the key usage, the path length and the lengths of r and s. *)
Record limits := mkLimits { l_id : Z; l_usage : Z; l_path : Z; l_sig : Z }.
(** What the Weave form can express (WeaveToX509.cpp refuses longer key identifiers),
    what the X.509 form can, and what goes through the code unchanged. *)
Definition weave_limits : limits := mkLimits 255 18446744073709551615 18446744073709551615 4294967295.
Definition x509_limits : limits := mkLimits 65531 4294967295 9223372036854775807 65531.
Definition both_limits : limits := mkLimits 255 4294967295 9223372036854775807 65531.
Definition kept_limits : limits := mkLimits 255 65535 255 255.

Definition extension_ok (l : limits) (x : extension) : bool :=
  match x with
  | AuthKeyIdExt _ (Some id) | SubjectKeyIdExt _ id => bytes_upto (l_id l) id
  | AuthKeyIdExt _ None => true
  | KeyUsageExt _ bits => within 0 (l_usage l) bits
  | BasicConstraintsExt _ _ (Some n) => within 0 (l_path l) n
  | BasicConstraintsExt _ _ None => true
  | ExtendedKeyUsageExt _ purposes => forallb (known_oid kOIDCategory_KeyPurpose) purposes
  end.
(** The signature's kind is that of its algorithm. *)
Definition signature_ok (l : limits) (algo : Z) (s : signature) : bool :=
  match s with
  | ECDSASig r s => ((algo =? kOID_SigAlgo_ECDSAWithSHA1) || (algo =? kOID_SigAlgo_ECDSAWithSHA256)) && bytes_upto (l_sig l) r && bytes_upto (l_sig l) s
  | RSASig s => is_rsa_sig algo && bytes_upto 65530 s
  end.
Definition certificate_ok (l : limits) (c : certificate) : bool :=
  bytes_upto 65531 (c_serial c) && attribute_ok (c_issuer c) && within 0 4294967295 (c_notBefore c) && within 0 4294967295 (c_notAfter c) &&
  attribute_ok (c_subject c) && key_ok (c_key c) && forallb (extension_ok l) (c_extensions c) && signature_ok l (c_sigAlgo c) (c_signature c).

(** ** What the code keeps

    WeaveToX509.cpp reads the key usage with Get(uint16_t) and the path length with
    Get(uint8_t), and WeaveSig.cpp stores the lengths of r and s in 8 bits. *)
Definition kept_bytes (s : list Z) : list Z := take (Z.to_nat (u8 (Z.of_nat (length s)))) s.
Definition kept_extension (x : extension) : extension :=
  match x with
  | KeyUsageExt critical bits => KeyUsageExt critical (u16 bits)
  | BasicConstraintsExt critical isCA (Some n) => BasicConstraintsExt critical isCA (Some (u8 n))
  | x => x
  end.
Definition kept_signature (s : signature) : signature := match s with ECDSASig r s => ECDSASig (kept_bytes r) (kept_bytes s) | s => s end.
Definition with_parts (f : extension -> extension) (g : signature -> signature) (c : certificate) : certificate :=
  mkCertificate (c_serial c) (c_sigAlgo c) (c_issuer c) (c_notBefore c) (c_notAfter c) (c_subject c) (c_key c) (map f (c_extensions c)) (g (c_signature c)).
Definition kept_in_x509 : certificate -> certificate := with_parts kept_extension kept_signature.
(** X509ToWeave.cpp casts the path length to uint32_t. *)
Definition cast_extension (x : extension) : extension :=
  match x with BasicConstraintsExt critical isCA (Some n) => BasicConstraintsExt critical isCA (Some (u32 n)) | x => x end.
Definition kept_in_weave : certificate -> certificate := with_parts cast_extension id.

(** ** The parts of the forms can be encoded *)

Lemma tag_fields_all : all_upto 256 (fun n => let t := Ctx n in
  (tag_hi t =? 4294967295) && (tag_lo t =? n) && IsContextTag t && (TagNumFromTag t =? n)) = true.
Proof. vm_compute. reflexivity. Qed.
Lemma tag_fields n : 0 <= n < 256 -> tag_hi (Ctx n) = 4294967295 /\ tag_lo (Ctx n) = n /\ TagNumFromTag (Ctx n) = n.
Proof.
  intros Hn. pose proof (all_upto_spec _ _ tag_fields_all n Hn) as H. cbv beta zeta in H. bool_prop. done.
Qed.
Lemma Ctx_ok ct n : 0 <= n < 256 -> ct = 21 \/ ct = 23 -> TLVTree.tag_ok ct (Ctx n).
Proof.
  intros Hn Hc. destruct (tag_fields n Hn) as (Hh & Hl & _). split.
  - split; [|intros _; left; lia]. unfold ContextTag, is_tag, kSpecialTagMarker. pose proof (lor_range 18446744069414584320 n 64 ltac:(lia) ltac:(lia) ltac:(lia)). lia.
  - rewrite Hh, Hl, Z.eqb_refl. by rewrite (proj2 (Z.ltb_lt n 256)) by lia.
Qed.
(** The conditions of [valid], one by one. *)
Ltac valid_fields := repeat match goal with
  | |- _ /\ _ => split
  | |- TLVTree.tag_ok _ (Ctx _) => apply Ctx_ok; [done|auto]
  | |- True => done
  | _ => first [lia | done]
  end.
Lemma Anonymous_ok : TLVTree.tag_ok 22 AnonymousTag.
Proof. split; [apply anonymous_plain|]. right. done. Qed.
Lemma TagNum_Ctx n : 0 <= n < 256 -> TagNumFromTag (Ctx n) = n.
Proof. intros Hn. apply (tag_fields n Hn). Qed.
Lemma IsContextTag_Ctx n : 0 <= n < 256 -> IsContextTag (Ctx n) = true.
Proof. intros Hn. pose proof (all_upto_spec _ _ tag_fields_all n Hn) as H. cbv beta zeta in H. by bool_prop. Qed.
Lemma Ctx_inj m n : 0 <= m < 256 -> 0 <= n < 256 -> (Ctx m =? Ctx n) = (m =? n).
Proof.
  intros Hm Hn. destruct (Z.eqb_spec m n) as [->|H]; [apply Z.eqb_refl|]. apply Z.eqb_neq. intros E. apply H.
  rewrite <- (TagNum_Ctx m Hm), <- (TagNum_Ctx n Hn). by rewrite E.
Qed.

(** What holds of all identifiers of a category in the table holds of a known one. *)
Lemma known_oid_all category (P : Z -> bool) : forallb (fun e => negb (GetOIDCategory (fst e) =? category) || P (fst e)) sOIDTable = true ->
  forall oid, known_oid category oid = true -> P oid = true.
Proof.
  intros HA oid H. unfold known_oid in H. bool_prop. destruct (GetEncodedObjectID oid) as [enc|] eqn:E; [|done].
  apply find_oid_in in E. rewrite forallb_forall in HA. apply HA in E. cbn [fst] in E. rewrite H in E. rewrite Z.eqb_refl in E. done.
Qed.
Lemma known_oid_encoded category oid : known_oid category oid = true -> item_ok (AObjectId oid) = true.
Proof. unfold known_oid. cbn [item_ok]. intros H. by bool_prop. Qed.
Lemma within_spec lo hi v : within lo hi v = true -> lo <= v <= hi.
Proof. unfold within. intros H. bool_prop. lia. Qed.
Lemma bytes_upto_spec n s : bytes_upto n s = true -> is_bytes s /\ Z.of_nat (length s) <= n.
Proof. unfold bytes_upto. intros H. bool_prop. split; [by apply byte_ok_spec|done]. Qed.
Lemma bytes_upto_item n s cls tag : bytes_upto n s = true -> n <= 65531 -> tag_ok cls tag = true -> item_ok (APrimitive cls tag s) = true.
Proof. unfold bytes_upto. intros H Hn Ht. bool_prop. cbn [item_ok]. rewrite Ht, H, (proj2 (Z.leb_le _ 65531)) by lia. done. Qed.

(** *** Names *)

Lemma weave_id_string_ok id : bytes_upto 16 (weave_id_string id) = true.
Proof.
  unfold bytes_upto, weave_id_string. rewrite length_map. cbn. rewrite andb_true_r. repeat (apply andb_true_intro; split; [|try done]).
  all: unfold byte_ok, hex_digit; match goal with |- context [Z.land ?a 15] => pose proof (Z.land_nonneg a 15); assert (0 <= Z.land a 15 < 16) by
    (change 15 with (2 ^ 4 - 1); rewrite land_ones_mod by lia; apply Z.mod_pos_bound; lia) end.
  all: case_match; bool_prop; rewrite ?andb_true_iff, ?Z.leb_le, ?Z.ltb_lt; lia.
Qed.
Lemma id_oid oid : IsWeaveIdX509Attr oid = true -> oid = 0x311 \/ oid = 0x312 \/ oid = 0x313 \/ oid = 0x314.
Proof. unfold IsWeaveIdX509Attr, kOID_AttributeType_WeaveDeviceId, kOID_AttributeType_WeaveServiceEndpointId, kOID_AttributeType_WeaveCAId, kOID_AttributeType_WeaveSoftwarePublisherId. rewrite !orb_true_iff, !Z.eqb_eq. tauto. Qed.
Definition attribute_oid (a : attribute) : Z := match a with IdAttr oid _ => oid | NameAttr oid _ _ => oid end.
(** The number of an attribute's tag, and the identifier that comes back from it. *)
Lemma attribute_num a : attribute_ok a = true -> let oid := attribute_oid a in
  0 <= Z.land oid 127 < 128 /\ Z.lor kOIDCategory_AttributeType (Z.land oid 127) = oid /\ item_ok (AObjectId oid) = true /\ Z.land oid kOID_Mask = Z.land oid 127.
Proof.
  intros H oid. set (P := fun oid => within 0 127 (Z.land oid 127) && (Z.lor kOIDCategory_AttributeType (Z.land oid 127) =? oid) &&
    item_ok (AObjectId oid) && (Z.land oid kOID_Mask =? Z.land oid 127)).
  assert (P oid = true) as HP.
  { subst oid. destruct a as [oid id|oid printable s]; cbn [attribute_ok attribute_oid] in *.
    - bool_prop. apply id_oid in H as [-> |[-> |[-> | ->]]]; by vm_compute.
    - bool_prop. revert H. apply known_oid_all. vm_compute. reflexivity. }
  unfold P in HP. rewrite !andb_true_iff, !Z.eqb_eq in HP. destruct HP as [[[HP%within_spec H1] H2] H3]. split; [lia|done].
Qed.
Definition attribute_bit (a : attribute) : Z := match a with NameAttr _ true _ => 128 | _ => 0 end.
Definition attribute_tag (a : attribute) : Z := Ctx (Z.land (attribute_oid a) 127 + attribute_bit a).
Lemma attribute_valid a : attribute_ok a = true -> TLVTree.valid 23 (attribute_tlv a).
Proof.
  intros H. destruct (attribute_num a H) as (H1 & _). destruct a as [oid id|oid printable s]; cbn [attribute_ok attribute_oid attribute_tlv TLVTree.valid] in *.
  - bool_prop. apply within_spec in H0. split; [|done]. apply Ctx_ok; [lia|auto].
  - bool_prop. apply bytes_upto_spec in H0 as [_ H0]. split; [|unfold strlen; lia]. apply Ctx_ok; [destruct printable; lia|auto].
Qed.
Lemma name_item_ok a : attribute_ok a = true -> item_ok (name_item a) = true.
Proof.
  intros H. destruct (attribute_num a H) as (_ & _ & H1 & _). unfold name_item, ASequence. cbn [item_ok forallb]. rewrite !andb_true_iff.
  repeat split; try done. destruct a as [oid id|oid printable s]; cbn [attribute_items attribute_oid forallb attribute_ok] in *; rewrite H1.
  - rewrite (bytes_upto_item 16) by (done || apply weave_id_string_ok). done.
  - bool_prop. rewrite (bytes_upto_item 65531); [done|done|done|]. unfold string_tag. by repeat case_match.
Qed.

(** *** Keys, extensions and signatures *)

Lemma is_ec_algo_spec algo : is_ec_algo algo = true -> algo = 0x102 \/ algo = 0x103 \/ algo = 0x104.
Proof. unfold is_ec_algo, kOID_PubKeyAlgo_ECPublicKey, kOID_PubKeyAlgo_ECDH, kOID_PubKeyAlgo_ECMQV. rewrite !orb_true_iff, !Z.eqb_eq. tauto. Qed.
Lemma curve_id curve : known_oid kOIDCategory_EllipticCurve curve = true -> let id := OIDToWeaveCurveId curve in
  65536 <= id <= 4294967295 /\ WeaveCurveIdToOID id = curve /\ item_ok (AObjectId curve) = true.
Proof.
  intros H id. pose (P := fun curve => let id := OIDToWeaveCurveId curve in within 65536 4294967295 id && (WeaveCurveIdToOID id =? curve) && item_ok (AObjectId curve)).
  assert (P curve = true) as HP by (revert H; apply known_oid_all; vm_compute; reflexivity). unfold P in HP. cbv zeta in HP. fold id in HP.
  rewrite !andb_true_iff, !Z.eqb_eq in HP. destruct HP as [[HP%within_spec H1] H2]. done.
Qed.
Lemma key_valid k : key_ok k = true -> TLVTree.valid_list 21 (key_tlvs k).
Proof.
  destruct k as [algo curve point|modulus exponent]; intros H; cbn [key_ok] in H; bool_prop; cbn [key_tlvs TLVTree.valid_list foldr TLVTree.valid].
  - apply is_ec_algo_spec in H. apply bytes_upto_spec in H0 as [_ H0]. destruct (curve_id curve H1) as (H2 & _).
    assert (0 <= Z.land algo kOID_Mask <= 255) by (by destruct H as [-> |[-> | ->]]). unfold strlen. valid_fields.
  - apply bytes_upto_spec in H as [_ H]. apply within_spec in H0. unfold strlen. valid_fields.
Qed.
Lemma key_item_ok k : key_ok k = true -> item_ok (key_item k) = true.
Proof.
  destruct k as [algo curve point|modulus exponent]; intros H; cbn [key_ok] in H; bool_prop; unfold key_item, ASequence; cbn [item_ok forallb]; rewrite !andb_true_iff.
  - destruct (curve_id curve H1) as (_ & _ & H2). apply is_ec_algo_spec in H. unfold bytes_upto in H0. bool_prop.
    repeat split; try done; [by destruct H as [-> |[-> | ->]]|]. cbn [length]. apply Z.leb_le. lia.
  - apply within_spec in H0. unfold bytes_upto in H. bool_prop. repeat split; try done; try (apply Z.leb_le; lia). apply Z.ltb_lt. lia.
Qed.

Lemma purpose_num oid : known_oid kOIDCategory_KeyPurpose oid = true ->
  0 <= Z.land oid kOID_Mask <= 255 /\ Z.lor kOIDCategory_KeyPurpose (Z.land oid kOID_Mask) = oid.
Proof.
  intros H. pose (P := fun oid => within 0 255 (Z.land oid kOID_Mask) && (Z.lor kOIDCategory_KeyPurpose (Z.land oid kOID_Mask) =? oid)).
  assert (P oid = true) as HP by (revert H; apply known_oid_all; vm_compute; reflexivity). unfold P in HP.
  rewrite andb_true_iff, Z.eqb_eq in HP. destruct HP as [HP%within_spec H1]. done.
Qed.
Lemma valid_list_app ct a b : TLVTree.valid_list ct (a ++ b) <-> TLVTree.valid_list ct a /\ TLVTree.valid_list ct b.
Proof. unfold TLVTree.valid_list. induction a; cbn; tauto. Qed.
Lemma valid_list_Forall ct l : TLVTree.valid_list ct l <-> Forall (TLVTree.valid ct) l.
Proof. unfold TLVTree.valid_list. induction l; cbn; [by split|]. rewrite List.Forall_cons_iff. tauto. Qed.
Lemma critical_valid critical : TLVTree.valid_list 21 (critical_tlv critical).
Proof. destruct critical; [|done]. split; [|done]. apply Ctx_ok; [done|auto]. Qed.
Lemma extension_valid x : extension_ok weave_limits x = true -> TLVTree.valid 21 (extension_tlv x).
Proof.
  assert (forall n l, 0 <= n < 256 -> TLVTree.valid_list 21 l -> TLVTree.valid 21 (TContainer (Ctx n) 21 l)) as HS.
  { intros n l Hn Hl. split; [apply Ctx_ok; [done|auto]|]. split; [lia|done]. }
  assert (forall n m id, 0 <= n < 256 -> bytes_upto m id = true -> m <= 255 -> TLVTree.valid_list 21 [TBytes (Ctx n) id]) as HB.
  { intros n m id Hn [_ H]%bytes_upto_spec Hm. split; [|done]. split; [apply Ctx_ok; [done|auto]|unfold strlen; lia]. }
  assert (forall n v, 0 <= n < 256 -> 0 <= v <= 18446744073709551615 -> TLVTree.valid_list 21 [TUInt (Ctx n) v]) as HU.
  { intros n v Hn Hv. split; [|done]. split; [apply Ctx_ok; [done|auto]|lia]. }
  destruct x as [critical id|critical id|critical bits|critical isCA pathLen|critical purposes]; cbn [extension_ok extension_tlv l_id l_usage l_path weave_limits]; intros H;
    apply HS; try done; rewrite ?valid_list_app; split; try apply critical_valid.
  - destruct id; [|done]. by eapply HB.
  - by eapply HB.
  - apply HU; [done|]. by apply within_spec.
  - split; [destruct isCA; [|done]; split; [|done]; apply Ctx_ok; [done|auto]|].
    destruct pathLen; [|done]. apply within_spec in H. apply HU; [done|lia].
  - split; [|done]. split; [apply Ctx_ok; [done|auto]|]. split; [done|]. apply valid_list_Forall, Forall_map, List.Forall_forall. intros oid Ho.
    rewrite forallb_forall in H. apply H, purpose_num in Ho as [Ho _]. split; [apply Anonymous_ok|lia].
Qed.
Lemma extension_item_ok x : extension_ok x509_limits x = true -> item_ok (extension_item x) = true.
Proof.
  intros H. unfold extension_item. destruct (extension_parts x) as [[oid critical] value] eqn:E.
  assert (item_ok (AObjectId oid) = true /\ item_ok value = true) as [H1 H2].
  { destruct x as [cr id|cr id|cr bits|cr isCA pathLen|cr purposes]; cbn [extension_ok extension_parts l_id l_usage l_path x509_limits] in *; injection E as <- <- <-; (split; [done|]).
    - destruct id; [|done]. unfold ASequence. cbn [item_ok forallb]. unfold bytes_upto in H. bool_prop. rewrite H, (proj2 (Z.leb_le _ 65531)) by lia. done.
    - eapply bytes_upto_item; [done|lia|done].
    - apply within_spec in H. cbn [item_ok]. rewrite andb_true_iff, Z.leb_le, Z.ltb_lt. lia.
    - unfold ASequence. cbn [item_ok]. rewrite forallb_app. apply andb_true_intro; split; [done|]. apply andb_true_intro; split; [by destruct isCA|].
      destruct pathLen; [|done]. apply within_spec in H. cbn [forallb item_ok]. rewrite !andb_true_iff, Z.leb_le, Z.ltb_lt. lia.
    - unfold ASequence. cbn [item_ok]. apply andb_true_intro; split; [done|]. apply forallb_forall. intros i (o & <- & Ho)%in_map_iff.
      rewrite forallb_forall in H. by eapply known_oid_encoded, H. }
  unfold ASequence. cbn [item_ok forallb] in H1 |- *. rewrite H1, forallb_app. cbn [forallb item_ok]. rewrite H2. by destruct critical.
Qed.

Lemma sig_algo_cases l algo s : signature_ok l algo s = true -> 0x201 <= algo <= 0x205.
Proof.
  unfold signature_ok, is_rsa_sig, kOID_SigAlgo_ECDSAWithSHA1, kOID_SigAlgo_ECDSAWithSHA256, kOID_SigAlgo_MD2WithRSAEncryption, kOID_SigAlgo_MD5WithRSAEncryption, kOID_SigAlgo_SHA1WithRSAEncryption.
  destruct s; intros H; bool_prop; repeat (rewrite orb_true_iff in H); rewrite ?Z.eqb_eq in H; lia.
Qed.
Lemma sig_algo_facts l algo s : signature_ok l algo s = true -> 0 <= Z.land algo kOID_Mask <= 255 /\
  u16 (Z.lor (Z.land algo kOID_Mask) kOIDCategory_SigAlgo) = algo /\ forallb item_ok (sig_algo_items algo) = true.
Proof.
  intros H%sig_algo_cases. assert (algo = 0x201 \/ algo = 0x202 \/ algo = 0x203 \/ algo = 0x204 \/ algo = 0x205) as HC by lia.
  by destruct HC as [-> |[-> |[-> |[-> | ->]]]]; vm_compute.
Qed.
Lemma signature_valid algo s : signature_ok weave_limits algo s = true -> TLVTree.valid 21 (signature_tlv s).
Proof.
  destruct s as [r s|s]; intros H; cbn [signature_ok l_sig weave_limits] in H; bool_prop.
  - apply bytes_upto_spec in H0 as [_ H0], H1 as [_ H1]. cbn [signature_tlv TLVTree.valid foldr]. unfold strlen. valid_fields.
  - apply bytes_upto_spec in H0 as [_ H0]. split; [apply Ctx_ok; [done|auto]|unfold strlen; lia].
Qed.
Lemma signature_item_ok algo s : signature_ok x509_limits algo s = true -> item_ok (signature_item s) = true.
Proof.
  destruct s as [r s|s]; intros H; cbn [signature_ok l_sig x509_limits] in H; bool_prop; unfold signature_item, ASequence; cbn [item_ok forallb]; rewrite !andb_true_iff.
  - unfold bytes_upto in *. bool_prop. rewrite !Z.leb_le. repeat split; done || lia.
  - unfold bytes_upto in *. bool_prop. rewrite !Z.leb_le. cbn [length]. repeat split; done || lia.
Qed.

(** *** Certificates *)

Lemma UnpackCertTime_calendar p : 0 < p < 4294967296 -> let t := UnpackCertTime p in
  calendar_time t /\ 2000 <= at_Year t <= kCertTimeMaxYear /\ packed t = p.
Proof.
  intros Hp. unfold UnpackCertTime, kNullCertTime. rewrite (proj2 (Z.eqb_neq p 0)) by lia.
  unfold kSecondsPerMinute, kMinutesPerHour, kHoursPerDay, kMaxDaysPerMonth, kMonthsPerYear, kCertTimeBaseYear. change kCertTimeMaxYear with 2133.
  pose (a := p / 60). pose (b := a / 60). pose (d := b / 24). pose (e := d / 31). pose (y := e / 12).
  change (p / 60) with a. change (a / 60) with b. change (b / 24) with d. change (d / 31) with e. change (e / 12) with y. cbv zeta.
  assert (0 <= y <= 133) as Hy by (subst y e d b a; Z.to_euclidean_division_equations; lia).
  rewrite !u8_id, u16_id by (Z.to_euclidean_division_equations; lia).
  unfold calendar_time, packed. cbn [at_Year at_Month at_Day at_Hour at_Minute at_Second].
  replace (y + 2000 - 2000) with y by lia. replace (e mod 12 + 1 - 1) with (e mod 12) by lia. replace (d mod 31 + 1 - 1) with (d mod 31) by lia.
  pose proof (Z.div_mod e 12 ltac:(lia)) as E1. pose proof (Z.div_mod d 31 ltac:(lia)) as E2. pose proof (Z.div_mod b 24 ltac:(lia)) as E3.
  pose proof (Z.div_mod a 60 ltac:(lia)) as E4. pose proof (Z.div_mod p 60 ltac:(lia)) as E5.
  pose proof (Z.mod_pos_bound e 12 ltac:(lia)). pose proof (Z.mod_pos_bound d 31 ltac:(lia)). pose proof (Z.mod_pos_bound b 24 ltac:(lia)).
  pose proof (Z.mod_pos_bound a 60 ltac:(lia)). pose proof (Z.mod_pos_bound p 60 ltac:(lia)).
  change (e / 12) with y in E1. change (d / 31) with e in E2. change (b / 24) with d in E3. change (a / 60) with b in E4. change (p / 60) with a in E5.
  repeat split; lia.
Qed.

(** Packing gives back what was unpacked, the time without an end included. *)
Lemma Pack_Unpack p : 0 <= p < 4294967296 -> PackCertTime (UnpackCertTime p) = Ok p.
Proof.
  intros Hp. destruct (Z.eq_dec p 0) as [->|Hz]; [done|]. destruct (UnpackCertTime_calendar p ltac:(lia)) as (HC & HY & HP).
  rewrite PackCertTime_packed by done. by rewrite HP, u32_id.
Qed.
Lemma time_item_ok p : within 0 4294967295 p = true -> item_ok (ATime (UnpackCertTime p)) = true.
Proof.
  intros Hp%within_spec. destruct (Z.eq_dec p 0) as [->|Hz]; [done|]. destruct (UnpackCertTime_calendar p ltac:(lia)) as ((H1 & H2 & H3 & H4 & H5) & HY & _).
  change kCertTimeMaxYear with 2133 in HY. cbn [item_ok]. unfold digits2. rewrite !andb_true_iff, !Z.leb_le, !Z.ltb_lt. lia.
Qed.

Record certificate_parts (l : limits) (c : certificate) : Prop := {
  p_serial : bytes_upto 65531 (c_serial c) = true;
  p_issuer : attribute_ok (c_issuer c) = true;
  p_notBefore : within 0 4294967295 (c_notBefore c) = true;
  p_notAfter : within 0 4294967295 (c_notAfter c) = true;
  p_subject : attribute_ok (c_subject c) = true;
  p_key : key_ok (c_key c) = true;
  p_extensions : Forall (fun x => extension_ok l x = true) (c_extensions c);
  p_signature : signature_ok l (c_sigAlgo c) (c_signature c) = true }.
Lemma certificate_ok_spec l c : certificate_ok l c = true -> certificate_parts l c.
Proof.
  unfold certificate_ok. rewrite !andb_true_iff. intros (((((((H1 & H2) & H3) & H4) & H5) & H6) & H7) & H8). rewrite forallb_forall in H7.
  split; try done. by apply List.Forall_forall.
Qed.

Lemma certificate_elems_valid c : certificate_parts weave_limits c -> TLVTree.valid_list 21 (certificate_elems c).
Proof.
  intros []. unfold certificate_elems. rewrite !valid_list_app. split; [|split; [by apply key_valid|split]].
  - destruct (sig_algo_facts _ _ _ p_signature0) as (Ha & _). apply bytes_upto_spec in p_serial0 as [_ Hs]. apply within_spec in p_notBefore0, p_notAfter0.
    pose proof (attribute_valid _ p_issuer0). pose proof (attribute_valid _ p_subject0).
    cbn [TLVTree.valid_list foldr TLVTree.valid]. unfold strlen. valid_fields.
  - apply valid_list_Forall, Forall_map. eapply List.Forall_impl; [|exact p_extensions0]. intros x. apply extension_valid.
  - split; [|done]. by eapply signature_valid.
Qed.
Lemma profile_tag_ok : TLVTree.tag_ok (-1) (ProfileTag kWeaveProfile_Security kTag_WeaveCertificate).
Proof. split; [split; [by vm_compute|by vm_compute]|]. vm_compute. auto. Qed.
Lemma certificate_valid c : certificate_parts weave_limits c -> TLVTree.valid (-1) (certificate_tlv c).
Proof. intros H. split; [apply profile_tag_ok|]. split; [done|]. by apply certificate_elems_valid. Qed.

Lemma extensions_item_ok l : Forall (fun x => extension_ok x509_limits x = true) l -> forallb item_ok (map extension_item l) = true.
Proof. intros H. apply forallb_forall. intros i (x & <- & Hx)%in_map_iff. rewrite List.Forall_forall in H. by apply extension_item_ok, H. Qed.
Lemma tbs_item_ok c : certificate_parts x509_limits c -> item_ok (tbs_item c) = true.
Proof.
  intros []. destruct (sig_algo_facts _ _ _ p_signature0) as (_ & _ & Ha). unfold tbs_item, ASequence. cbn [item_ok]. rewrite forallb_app.
  apply andb_true_intro; split; [done|]. apply andb_true_intro; split.
  - cbn [forallb item_ok]. rewrite !andb_true_iff. unfold bytes_upto in p_serial0. apply andb_prop in p_serial0 as [Hb Hl].
    pose proof (time_item_ok _ p_notBefore0) as Ht1. pose proof (time_item_ok _ p_notAfter0) as Ht2. cbn [item_ok] in Ht1, Ht2. rewrite !andb_true_iff in Ht1, Ht2.
    repeat split; try done; try tauto; [by apply name_item_ok..|by apply key_item_ok].
  - destruct (c_extensions c) as [|x l] eqn:E; [done|]. cbn [forallb item_ok]. rewrite extensions_item_ok by done. done.
Qed.
Lemma certificate_item_ok c : certificate_parts x509_limits c -> item_ok (certificate_item c) = true.
Proof.
  intros H. pose proof (tbs_item_ok c H) as Ht. destruct H. destruct (sig_algo_facts _ _ _ p_signature0) as (_ & _ & Ha).
  unfold certificate_item, ASequence. cbn [item_ok forallb]. fold (ASequence []). cbn [item_ok] in Ht. rewrite !andb_true_iff.
  repeat split; try done. by eapply signature_item_ok.
Qed.

(** ** What is kept *)

Definition limits_le (l l' : limits) : Prop := l_id l <= l_id l' /\ l_usage l <= l_usage l' /\ l_path l <= l_path l' /\ l_sig l <= l_sig l'.
Lemma bytes_upto_le n m s : n <= m -> bytes_upto n s = true -> bytes_upto m s = true.
Proof. unfold bytes_upto. rewrite !andb_true_iff, !Z.leb_le. intuition lia. Qed.
Lemma within_intro lo hi v : lo <= v <= hi -> within lo hi v = true.
Proof. intros H. unfold within. rewrite andb_true_iff, !Z.leb_le. done. Qed.
Lemma within_le lo n m v : n <= m -> within lo n v = true -> within lo m v = true.
Proof. unfold within. rewrite !andb_true_iff, !Z.leb_le. intuition lia. Qed.
Lemma parts_le l l' c : limits_le l l' -> certificate_parts l c -> certificate_parts l' c.
Proof.
  intros (L1 & L2 & L3 & L4) []. split; try done.
  - eapply List.Forall_impl; [|exact p_extensions0]. intros [cr [id|]|cr id|cr bits|cr isCA [n|]|cr purposes]; cbn [extension_ok]; eauto using bytes_upto_le, within_le.
  - destruct (c_signature c) as [r s|s]; cbn [signature_ok] in *; [|done]. rewrite !andb_true_iff in *. destruct p_signature0 as [[H1 H2] H3]. eauto using bytes_upto_le.
Qed.
Ltac limits_lia := unfold limits_le; cbn [l_id l_usage l_path l_sig kept_limits both_limits weave_limits x509_limits]; lia.

Lemma kept_bytes_ok n s : 255 <= n -> forallb byte_ok s = true -> bytes_upto n (kept_bytes s) = true.
Proof.
  intros Hn Hs. unfold bytes_upto, kept_bytes. pose proof (u8_range (Z.of_nat (length s))). rewrite length_take. apply andb_true_intro; split; [|apply Z.leb_le; lia].
  apply forallb_forall. intros b Hb. rewrite forallb_forall in Hs. apply Hs.
  rewrite <- (take_drop (Z.to_nat (u8 (Z.of_nat (length s)))) s). apply in_or_app. by left.
Qed.
Lemma kept_bytes_id n s : n <= 255 -> bytes_upto n s = true -> kept_bytes s = s.
Proof. intros Hn [_ Hs]%bytes_upto_spec. unfold kept_bytes. rewrite u8_id by lia. rewrite Nat2Z.id. apply take_ge. lia. Qed.

(** A certificate with some of its extensions and its signature changed. *)
Lemma with_parts_ok (f : extension -> extension) (g : signature -> signature) l l' c : (forall x, extension_ok l x = true -> extension_ok l' (f x) = true) ->
  (forall algo s, signature_ok l algo s = true -> signature_ok l' algo (g s) = true) -> certificate_parts l c -> certificate_parts l' (with_parts f g c).
Proof.
  intros Hf Hg []. split; cbn [with_parts c_serial c_issuer c_notBefore c_notAfter c_subject c_key c_extensions c_sigAlgo c_signature]; eauto.
  apply Forall_map. eapply List.Forall_impl; [|exact p_extensions0]. exact Hf.
Qed.
Lemma with_parts_id (f : extension -> extension) (g : signature -> signature) l c : (forall x, extension_ok l x = true -> f x = x) ->
  (forall algo s, signature_ok l algo s = true -> g s = s) -> certificate_parts l c -> with_parts f g c = c.
Proof.
  intros Hf Hg []. unfold with_parts. rewrite (Hg _ _ p_signature0). destruct c as [c1 c2 c3 c4 c5 c6 c7 l0 c8]. cbn in *. f_equal.
  clear -Hf p_extensions0. induction p_extensions0 as [|x l' Hx Hl IH]; [done|]. cbn [map]. by rewrite (Hf x Hx), IH.
Qed.

Lemma kept_in_x509_ok c : certificate_parts weave_limits c -> certificate_parts kept_limits (kept_in_x509 c).
Proof.
  apply with_parts_ok.
  - intros [cr [id|]|cr id|cr bits|cr isCA [n|]|cr purposes]; cbn [extension_ok kept_extension l_id l_usage l_path kept_limits weave_limits]; try done; intros _; apply within_intro; [pose proof (u16_range bits)|pose proof (u8_range n)]; lia.
  - intros algo [r s|s]; [|done]. cbn [signature_ok kept_signature l_sig kept_limits weave_limits]. rewrite !andb_true_iff. unfold bytes_upto. rewrite !andb_true_iff.
    intros [[Ha [Hr _]] [Hs _]]. split; [split; [done|]|]; apply andb_prop; by apply kept_bytes_ok.
Qed.
Lemma kept_in_x509_id c : certificate_parts kept_limits c -> kept_in_x509 c = c.
Proof.
  apply with_parts_id.
  - intros [cr [id|]|cr id|cr bits|cr isCA [n|]|cr purposes]; cbn [extension_ok kept_extension l_id l_usage l_path kept_limits]; try done; intros H%within_spec; [by rewrite u16_id by lia|by rewrite u8_id by lia].
  - intros algo [r s|s]; [|done]. cbn [signature_ok kept_signature l_sig kept_limits]. rewrite !andb_true_iff. intros [[_ Hr] Hs]. by rewrite !(kept_bytes_id 255).
Qed.
Lemma kept_in_weave_ok c : certificate_parts both_limits c -> certificate_parts both_limits (kept_in_weave c).
Proof.
  apply with_parts_ok; [|done].
  intros [cr [id|]|cr id|cr bits|cr isCA [n|]|cr purposes]; cbn [extension_ok cast_extension l_id l_usage l_path both_limits]; try done; intros _; apply within_intro; pose proof (u32_range n); lia.
Qed.
Lemma kept_in_weave_id c : certificate_parts kept_limits c -> kept_in_weave c = c.
Proof.
  apply with_parts_id; [|done].
  intros [cr [id|]|cr id|cr bits|cr isCA [n|]|cr purposes]; cbn [extension_ok cast_extension l_path kept_limits]; try done; intros H%within_spec; by rewrite u32_id by lia.
Qed.
Lemma kept_in_both c : kept_in_x509 (kept_in_weave c) = kept_in_x509 c.
Proof.
  unfold kept_in_x509, kept_in_weave, with_parts. cbn. f_equal. rewrite map_map. apply map_ext.
  intros [cr [id|]|cr id|cr bits|cr isCA [n|]|cr purposes]; cbn [cast_extension kept_extension]; try done.
  do 2 f_equal. unfold u8, u32. apply Z.mod_mod_divide. by exists 16777216.
Qed.
