(* ===== verification/TLVCursor.v ===== *)
(** * A TLV reader at the elements of a container

    Where a reader over one buffer stands: at an element, before the next one, or at
    the end of the container; and how Next, EnterContainer, ExitContainer and the Get
    functions move it or leave it there. *)
From S2P Require Import Prelude Encoding TLVTypes TLVReader TLVReaderRefine TLVWriter TLVHead TLVTree TLVSkip CircularTLVLog.
Local Open Scope Z_scope.
Local Open Scope weave_scope.

Section Cursor.
Context (p : Z) (Hp : is_profile p).

(** The reader's buffers and context. *)
Record reader_in (ct : Z) (r : TLVReader) : Prop := {
  ri_wf : wf r;
  ri_chain : mBufHandle r = [];
  ri_implicit : ImplicitProfileId r = p;
  ri_container : mContainerType r = ct }.

(** What follows: the elements [es], the end of the container, and [rest]. *)
Definition tail (ct : Z) (es : list tlv) (rest : list Z) : list Z := enc_list ct p es ++ 24 :: rest.

(** At the element [t], with [es] after it. *)
Record at_elt (ct : Z) (t : tlv) (es : list tlv) (rest : list Z) (r : TLVReader) : Prop := {
  ae_reader : reader_in ct r;
  ae_elem : at_elem t r (tail ct es rest);
  ae_valid : valid ct t;
  ae_valids : valid_list ct es }.
(** Before [es]. *)
Record before_elts (ct : Z) (es : list tlv) (rest : list Z) (r : TLVReader) : Prop := {
  be_reader : reader_in ct r;
  be_done : done_elem r;
  be_flat : flat r = tail ct es rest;
  be_valids : valid_list ct es }.
(** The next element is the first of [es]: nothing else is left but the current
    element's data. *)
Definition ahead (ct : Z) (es : list tlv) (rest : list Z) (r : TLVReader) : Prop := exists r1, Skip r = (Ok tt, r1) /\ before_elts ct es rest r1.
(** The end of the container has been read. *)
Record at_end (ct : Z) (rest : list Z) (r : TLVReader) : Prop := {
  en_reader : reader_in ct r;
  en_type : ElementType r = 24;
  en_tag : mElemTag r = AnonymousTag;
  en_flat : flat r = rest }.

Lemma chain_stays {A} (m : M TLVReader A) r a r' : forward m -> 0 <= mLenRead r -> mBufHandle r = [] -> m r = (Ok a, r') -> mBufHandle r' = [].
Proof.
  intros Hm H0 Hc E. destruct (Hm r a r' H0 E) as [(pre & c & HP & _) _ _ _]. rewrite Hc in HP.
  destruct pre as [|x pre]; injection HP; [by intros|]. intros HP' _. by destruct pre.
Qed.
Lemma wf_read r : wf r -> 0 <= mLenRead r.
Proof. intros (l & _ & H & _). done. Qed.

Lemma Skip_clears r r' : Skip r = (Ok tt, r') -> ClearElementState r' = r'.
Proof.
  unfold Skip. destruct (_ =? _); [done|]. destruct (TLVTypeIsContainer _); intros E.
  - apply bind_inv in E as (o & s & _ & E). unfold ExitContainer in E. apply bind_inv in E as ([] & s' & _ & [= <-]). done.
  - apply bind_inv in E as ([] & s & _ & [= <-]). done.
Qed.
Lemma Next_skip r r1 : Skip r = (Ok tt, r1) -> done_elem r1 -> Next r = Next r1.
Proof.
  intros E Hd. unfold Next. rewrite (bind_ok _ _ _ _ _ E), (bind_ok _ _ _ _ _ (Skip_done r1 Hd)). by rewrite (Skip_clears r r1 E).
Qed.
Lemma before_ahead ct es rest r : before_elts ct es rest r -> ahead ct es rest r.
Proof.
  intros [HR HD HF HV]. exists (ClearElementState r). split; [by apply Skip_done|]. destruct HR as [HW HC HI HCt].
  split; [split; try done; by apply Clear_wf|by apply done_clear|done|done].
Qed.

Lemma at_ahead ct t es rest r : at_elt ct t es rest r -> ahead ct es rest r.
Proof.
  intros [[HW HC HI HCt] HE HV HVs]. destruct (Skip_elem t r (tail ct es rest) HE ltac:(by rewrite HI) ltac:(by rewrite HCt)) as (r1 & E & Hw1 & Hf1 & (S1 & S2 & S3) & Hd1).
  exists r1. split; [done|]. split; [|done|done|done]. split; [done| |congruence|congruence].
  by apply (chain_stays Skip r tt r1 forward_Skip (wf_read r HW) HC E).
Qed.

Lemma Next_cons ct t es rest r : ahead ct (t :: es) rest r -> exists r', Next r = (Ok tt, r') /\ at_elt ct t es rest r'.
Proof.
  intros (r1 & E & [[HW HC HI HCt] HD HF HV]). rewrite (Next_skip r r1 E HD). destruct HV as [HV HVs].
  unfold tail, enc_list in HF. cbn [map concat] in HF. rewrite <- app_assoc, enc_parts in HF. fold (enc_list ct p es) in HF. fold (tail ct es rest) in HF.
  pose proof (elem_parts_type ct t HV) as HT.
  assert (let '(et, tag, v) := elem_parts t in tag_ok ct tag /\
    (TLVTypeHasLength et = true -> field_value et v = Z.of_nat (length (elem_data p t)))) as HG.
  { destruct (is_container t) eqn:Ec.
    - destruct t; try done. destruct HV as (Ht & Hc & _). cbn [elem_parts]. split; [done|].
      assert (ctype = 21 \/ ctype = 22 \/ ctype = 23) as [-> |[-> | ->]] by lia; done.
    - pose proof (simple_parts ct t Ec HV) as Hs. destruct (elem_parts t) as [[et tag] v]. destruct Hs as (S1 & _ & _ & _ & S5). split; [done|].
      intros Hl. rewrite Hl in S5. destruct S5 as [-> _]. assert (elem_data p t = elem_data 0 t) as -> by (by destruct t). done. }
  destruct (elem_parts t) as [[et tag] v] eqn:EP. destruct HT as (He & H24 & _), HG as (Ht & Hl).
  rewrite <- app_assoc in HF. subst ct. rewrite <- HI in HF at 1.
  destruct (Next_element r1 et tag v (elem_data p t ++ tail (mContainerType r1) es rest) HW HD Ht ltac:(by rewrite HI) He H24 HF) as (r2 & E2 & Hw2 & Hf2 & (S1 & S2 & S3) & T1 & T2 & T3).
  { intros Hty. rewrite (Hl Hty), length_app. lia. }
  exists r2. split; [done|]. split; [| |done|done].
  - split; [done| |congruence|congruence]. by apply (chain_stays Next r1 tt r2 forward_Next (wf_read r1 HW) HC E2).
  - split; [done|]. split; [by rewrite Hf2, S1, HI|]. by rewrite EP.
Qed.

Lemma Next_nil ct rest r : ahead ct [] rest r -> ct <> -1 -> exists r', Next r = (Err WEAVE_END_OF_TLV, r') /\ at_end ct rest r'.
Proof.
  intros (r1 & E & [[HW HC HI HCt] HD HF HV]) Hct. rewrite (Next_skip r r1 E HD). unfold Next. rewrite (bind_ok _ _ _ _ _ (Skip_done r1 HD)).
  destruct (ReadElement_end (ClearElementState r1) rest (Clear_wf r1 HW) ltac:(by rewrite <- HI in Hp) ltac:(by rewrite <- HCt in Hct) HF) as (r2 & E2 & Hw2 & Hf2 & (S1 & S2 & S3) & T1 & T2 & T3).
  rewrite (bind_ok _ _ _ _ _ E2), T1. exists r2. split; [done|]. split; [|done|done|done]. split; [done| |cbn in S1; congruence|cbn in S3; congruence].
  by apply (chain_stays ReadElement (ClearElementState r1) tt r2 forward_ReadElement (wf_read _ (Clear_wf r1 HW)) HC E2).
Qed.
Lemma Next_at_end ct rest r : at_end ct rest r -> Next r = (Err WEAVE_END_OF_TLV, r).
Proof. intros [_ HT _ _]. unfold Next, Skip, bind. by rewrite HT. Qed.
Lemma VerifyEnd_ahead ct rest r : ahead ct [] rest r -> ct <> -1 -> exists r', VerifyEndOfContainer r = (Ok tt, r') /\ at_end ct rest r'.
Proof. intros H Hct. destruct (Next_nil ct rest r H Hct) as (r' & E & HE). exists r'. unfold VerifyEndOfContainer. by rewrite E. Qed.
Lemma VerifyEnd_at_end ct rest r : at_end ct rest r -> VerifyEndOfContainer r = (Ok tt, r).
Proof. intros H. unfold VerifyEndOfContainer. by rewrite (Next_at_end ct rest r H). Qed.

(** ** Containers *)

Lemma Enter_before ct tag c ts es rest r : at_elt ct (TContainer tag c ts) es rest r ->
  exists r', EnterContainer r = (Ok ct, r') /\ before_elts c ts (tail ct es rest) r'.
Proof.
  intros [[HW HC HI HCt] (_ & HF & T1 & T2 & T3) (Ht & Hc & HV) HVs]. destruct (container_type_ok c Hc) as [Hco _].
  unfold EnterContainer. rewrite T1, Hco, HCt. eexists. split; [done|].
  split; [|by apply done_clear| |done].
  - by split.
  - change (flat r = tail c ts (tail ct es rest)). rewrite HF, HI. cbn [elem_data]. unfold tail at 2. by rewrite <- app_assoc.
Qed.
(** At a structure in anything: what it contains and what follows its end. *)
Record at_struct (o : Z) (ts : list tlv) (rest : list Z) (r : TLVReader) : Prop := {
  as_reader : reader_in o r;
  as_type : ElementType r = kTLVType_Structure;
  as_flat : flat r = tail kTLVType_Structure ts rest;
  as_valids : valid_list kTLVType_Structure ts }.
Lemma Enter_struct o ts rest r : at_struct o ts rest r -> exists r', EnterContainer r = (Ok o, r') /\ before_elts kTLVType_Structure ts rest r'.
Proof.
  intros [[HW HC HI HCt] HT HF HV]. unfold EnterContainer. rewrite HT, HCt. eexists. split; [reflexivity|].
  split; [by split|by apply done_clear|exact HF|done].
Qed.
Lemma struct_type o ts rest r : at_struct o ts rest r -> GetType r = kTLVType_Structure.
Proof. intros [_ HT _ _]. unfold GetType. by rewrite HT. Qed.
Lemma elt_struct ct tag ts es rest r : at_elt ct (TContainer tag kTLVType_Structure ts) es rest r -> at_struct ct ts (tail ct es rest) r.
Proof.
  intros [[HW HC HI HCt] (_ & HF & T1 & T2 & T3) (Ht & Hc & HV) HVs]. split; [by split|done| |done].
  rewrite HF, HI. cbn [elem_data]. unfold tail at 2. by rewrite <- app_assoc.
Qed.
(** The only element of a buffer, a structure. *)
Lemma Next_top tag ts r : wf r -> done_elem r -> mBufHandle r = [] -> ImplicitProfileId r = p -> mContainerType r = -1 ->
  valid (-1) (TContainer tag kTLVType_Structure ts) -> flat r = enc (-1) p (TContainer tag kTLVType_Structure ts) ->
  exists r', Next r = (Ok tt, r') /\ at_struct (-1) ts [] r' /\ mElemTag r' = tag.
Proof using Hp.
  intros HW HD HC HI HCt (Ht & Hc & HV) HF. cbn [enc] in HF. rewrite <- HI in HF at 1. rewrite <- HCt in HF at 1.
  destruct (Next_element r kTLVType_Structure tag 0 (concat (map (enc kTLVType_Structure p) ts) ++ [24]) HW HD) as (r1 & E1 & Hw1 & Hf1 & (S1 & S2 & S3) & T1 & T2 & T3);
    try done; [by rewrite HCt|by rewrite HI|].
  exists r1. split; [done|]. split; [|done]. split; [|done|exact Hf1|done]. split; [done| |congruence|congruence].
  by apply (chain_stays Next r tt r1 forward_Next (wf_read r HW) HC E1).
Qed.
Lemma Enter_elt ct tag c ts es rest r : at_elt ct (TContainer tag c ts) es rest r ->
  exists r', EnterContainer r = (Ok ct, r') /\ ahead c ts (tail ct es rest) r'.
Proof. intros H. destruct (Enter_before _ _ _ _ _ _ _ H) as (r' & E & H'). exists r'. split; [done|by apply before_ahead]. Qed.
Lemma Exit_clear o r r1 rest : SkipToEndOfContainer r = (Ok tt, r1) -> wf r1 -> mBufHandle r1 = [] -> ImplicitProfileId r1 = p -> flat r1 = rest ->
  exists r', ExitContainer o r = (Ok tt, r') /\ reader_in o r' /\ done_elem r' /\ flat r' = rest /\ GetType r' = kTLVType_NotSpecified.
Proof.
  intros E Hw Hc Hi Hf. unfold ExitContainer. rewrite (bind_ok _ _ _ _ _ E). eexists. split; [done|].
  split; [split; try done; by apply keeps_wf; [intros ?|]|]. split; [by apply done_clear|done].
Qed.
(** ExitContainer at the end, or at the last element when it is no container. *)
Definition leaves (o : Z) (rest : list Z) (r : TLVReader) : Prop :=
  exists r', ExitContainer o r = (Ok tt, r') /\ reader_in o r' /\ done_elem r' /\ flat r' = rest /\ GetType r' = kTLVType_NotSpecified.
Lemma Exit_at_end ct o rest r : at_end ct rest r -> leaves o rest r.
Proof.
  intros [[HW HC HI HCt] HT HTg HF]. apply (Exit_clear o r (SetContainerOpen false r)); try done.
  unfold SkipToEndOfContainer. cbn [SkipToEndOfContainer_loop]. change (ElementType (SetContainerOpen false r)) with (ElementType r). by rewrite HT.
Qed.
Lemma SkipData_Skip r r1 : TLVTypeIsContainer (ElementType r) = false -> Skip r = (Ok tt, r1) ->
  exists s, SkipData r = (Ok tt, s) /\ r1 = ClearElementState s /\ ElementType r <> 24.
Proof.
  intros Hc. unfold Skip. rewrite Hc. unfold kTLVElementType_EndOfContainer. destruct (Z.eqb_spec (ElementType r) 24); [done|].
  intros ([] & s & E & [= <-])%bind_inv. eauto.
Qed.
Lemma at_elt_open b ct t es rest r : at_elt ct t es rest r -> at_elt ct t es rest (SetContainerOpen b r).
Proof.
  intros [[HW HC HI HCt] (_ & HF & HT) HV HVs]. assert (wf (SetContainerOpen b r)) by (by apply keeps_wf; [intros ?|]).
  split; [by split| |done|done]. split; [done|]. split; [exact HF|exact HT].
Qed.
Lemma Exit_skips ct rest r r1 o : wf r -> mBufHandle r = [] -> Skip (SetContainerOpen false r) = (Ok tt, r1) -> before_elts ct [] rest r1 ->
  TLVTypeIsContainer (ElementType r) = false -> ct <> -1 -> leaves o rest r.
Proof.
  intros HW HC E1 [[HW1 HC1 HI1 HCt1] HD1 HF1 _] Hcn Hct. set (r0 := SetContainerOpen false r) in *. change (ElementType r) with (ElementType r0) in Hcn.
  destruct (SkipData_Skip r0 r1 Hcn E1) as (s & E & -> & Hne).
  destruct (ReadElement_end s rest HW1 ltac:(by cbn in HI1; rewrite HI1) ltac:(by cbn in HCt1; rewrite HCt1) HF1) as (r2 & E2 & Hw2 & Hf2 & (S1 & S2 & S3) & T2 & _).
  apply (Exit_clear o r r2); [|done| |by cbn in HI1; congruence|done].
  - unfold SkipToEndOfContainer. fold r0. cbn [SkipToEndOfContainer_loop]. rewrite Hcn. unfold kTLVElementType_EndOfContainer.
    rewrite (proj2 (Z.eqb_neq (ElementType r0) 24)) by done. by rewrite (bind_ok _ _ _ _ _ E), (bind_ok _ _ _ _ _ E2), T2.
  - by apply (chain_stays ReadElement s tt r2 forward_ReadElement (wf_read s HW1) HC1 E2).
Qed.
Lemma Exit_last ct t rest r o : at_elt ct t [] rest r -> is_container t = false -> ct <> -1 -> leaves o rest r.
Proof.
  intros H0 Hs Hct. pose proof (at_elt_open false _ _ _ _ _ H0) as H. destruct (at_ahead ct t [] rest _ H) as (r1 & E1 & H1). destruct H0 as [[HW HC _ _] HE HV _].
  pose proof (simple_parts ct t Hs HV) as HP. destruct HE as (_ & _ & T). destruct (elem_parts t) as [[et tag] v]. destruct HP as (_ & _ & _ & Hcn & _), T as (T1 & _).
  apply (Exit_skips ct rest r r1 o); try done. by rewrite T1.
Qed.
Lemma Exit_before ct rest r o : before_elts ct [] rest r -> ct <> -1 -> leaves o rest r.
Proof.
  intros [[HW HC HI HCt] HD HF HV] Hct. assert (wf (SetContainerOpen false r)) as HW0 by (by apply keeps_wf; [intros ?|]).
  destruct HD as (HD1 & HD2 & HD3). apply (Exit_skips ct rest r (ClearElementState (SetContainerOpen false r)) o); try done.
  by apply Skip_done.
Qed.
(** After ExitContainer the elements of the outer container are ahead. *)
Lemma leaves_ahead o es rest r : leaves o (tail o es rest) r -> valid_list o es -> exists r', ExitContainer o r = (Ok tt, r') /\ ahead o es rest r'.
Proof. intros (r' & E & HR & HD & HF & _) HV. exists r'. split; [done|]. by apply before_ahead. Qed.

(** ** The current element *)

Definition tree_type (t : tlv) : Z :=
  match t with
  | TInt _ _ => kTLVType_SignedInteger | TUInt _ _ => kTLVType_UnsignedInteger | TBool _ _ => kTLVType_Boolean
  | TFloat _ _ => kTLVType_FloatingPointNumber | TNull _ => kTLVType_Null | TUtf8 _ _ => kTLVType_UTF8String | TBytes _ _ => kTLVType_ByteString
  | TContainer _ c _ => c
  end.
Definition tree_tag (t : tlv) : Z :=
  match t with
  | TInt tag _ | TUInt tag _ | TBool tag _ | TFloat tag _ | TNull tag | TUtf8 tag _ | TBytes tag _ | TContainer tag _ _ => tag
  end.

Lemma elt_tag ct t es rest r : at_elt ct t es rest r -> mElemTag r = tree_tag t.
Proof. intros [_ (_ & _ & H) _ _]. by destruct t as [| | |? []| | | |]; destruct H as (_ & -> & _). Qed.
Lemma elt_type ct t es rest r : at_elt ct t es rest r -> GetType r = tree_type t.
Proof.
  intros [_ (_ & _ & H) HV _]. destruct (elem_parts t) as [[et tag] v] eqn:E. destruct H as (He & _). rewrite (GetType_of r et He).
  destruct t as [tag' v'|tag' v'|tag' b|tag' [v'|v']|tag'|tag' s|tag' s|tag' c ts]; cbn [elem_parts valid tree_type] in *; injection E as <- <- <-; try done.
  - pose proof (int_type_cases v') as H. simpl in H. destruct H as [<-|[<-|[<-|[<-|[]]]]]; done.
  - pose proof (uint_type_cases v') as H. simpl in H. destruct H as [<-|[<-|[<-|[<-|[]]]]]; done.
  - by destruct b.
  - destruct HV as [_ HV]. destruct (len_size_spec (strlen s) 12 ltac:(unfold strlen in *; lia) ltac:(auto)) as (_ & _ & _ & _ & Hz).
    assert (len_size (strlen s) = 0 \/ len_size (strlen s) = 1 \/ len_size (strlen s) = 2) as [-> |[-> | ->]] by lia; done.
  - destruct HV as [_ HV]. destruct (len_size_spec (strlen s) 16 ltac:(unfold strlen in *; lia) ltac:(auto)) as (_ & _ & _ & _ & Hz).
    assert (len_size (strlen s) = 0 \/ len_size (strlen s) = 1 \/ len_size (strlen s) = 2) as [-> |[-> | ->]] by lia; done.
  - destruct HV as (_ & Hc & _). assert (c = 21 \/ c = 22 \/ c = 23) as [-> |[-> | ->]] by lia; done.
Qed.
Lemma NextExpect_cons ct t es rest r type tag : ahead ct (t :: es) rest r -> tree_type t = type -> tree_tag t = tag ->
  exists r', NextExpect type tag r = (Ok tt, r') /\ at_elt ct t es rest r'.
Proof.
  intros H Hty Htg. destruct (Next_cons ct t es rest r H) as (r' & E & H'). exists r'. split; [|done].
  unfold NextExpect. rewrite (bind_ok _ _ _ _ _ E), (elt_type _ _ _ _ _ H'), (elt_tag _ _ _ _ _ H'), Hty, Htg, !Z.eqb_refl. done.
Qed.
Lemma NextExpect_end ct rest r type tag : ahead ct [] rest r -> ct <> -1 -> exists r', NextExpect type tag r = (Err WEAVE_END_OF_TLV, r') /\ at_end ct rest r'.
Proof. intros H Hct. destruct (Next_nil ct rest r H Hct) as (r' & E & H'). exists r'. split; [|done]. unfold NextExpect. by rewrite (bind_err _ _ _ _ _ E). Qed.

Lemma elt_uint ct tag v es rest r : at_elt ct (TUInt tag v) es rest r -> Get_u64 r = Ok v.
Proof. intros [_ (_ & _ & T1 & _ & T3) [_ HV] _]. by apply get_uint. Qed.
Lemma elt_int ct tag v es rest r : at_elt ct (TInt tag v) es rest r -> Get_s64 r = Ok v.
Proof. intros [_ (_ & _ & T1 & _ & T3) [_ HV] _]. by apply get_int. Qed.
Lemma elt_bool ct tag b es rest r : at_elt ct (TBool tag b) es rest r -> Get_bool r = Ok b.
Proof. intros [_ (_ & _ & T1 & _) _ _]. unfold Get_bool. rewrite T1. by destruct b. Qed.

(** Strings. *)
Definition string_elt (t : tlv) (s : list Z) : Prop := (exists tag, t = TUtf8 tag s) \/ (exists tag, t = TBytes tag s).
Lemma string_elt_parts ct t s : string_elt t s -> valid ct t -> exists et, strlen s <= 4294967295 /\ TLVTypeHasLength et = true /\
  TLVTypeIsContainer et = false /\ et <> 24 /\ elem_parts t = (et, tree_tag t, strlen s) /\ field_value et (strlen s) = strlen s /\ forall impl, elem_data impl t = s.
Proof.
  intros [[tag ->]|[tag ->]] [_ HV]; assert (0 <= strlen s) by (unfold strlen; lia).
  - destruct (len_size_spec (strlen s) 12 ltac:(lia) ltac:(auto)) as (_ & H1 & H2 & H3 & H4). exists (12 + len_size (strlen s)). repeat split; try done.
    unfold TLVTypeIsContainer, kTLVElementType_Structure. rewrite u8_id by lia. destruct (Z.leb_spec 21 (12 + len_size (strlen s))); [lia|done].
  - destruct (len_size_spec (strlen s) 16 ltac:(lia) ltac:(auto)) as (_ & H1 & H2 & H3 & H4). exists (16 + len_size (strlen s)). repeat split; try done.
    unfold TLVTypeIsContainer, kTLVElementType_Structure. rewrite u8_id by lia. destruct (Z.leb_spec 21 (16 + len_size (strlen s))); [lia|done].
Qed.
Lemma elt_length ct t s es rest r : at_elt ct t es rest r -> string_elt t s -> GetLength r = Z.of_nat (length s).
Proof.
  intros [_ (_ & _ & T) HV _] Hs. destruct (string_elt_parts ct t s Hs HV) as (et & HL & H1 & H2 & H3 & HE & HF & _). rewrite HE in T. destruct T as (T1 & _ & T3).
  unfold GetLength. rewrite T1, H1, T3, HF. unfold strlen in *. apply u32_id. lia.
Qed.
Lemma elt_data_ptr ct t s es rest r : at_elt ct t es rest r -> string_elt t s ->
  GetDataPtr r = (Ok (s ++ tail ct es rest), r).
Proof.
  intros [[HW HC HI HCt] (_ & HFl & T) HV _] Hs. destruct (string_elt_parts ct t s Hs HV) as (et & HL & H1 & H2 & H3 & HE & HF & HD). rewrite HE in T. destruct T as (T1 & _ & T3).
  unfold GetDataPtr. change (TLVTypeIsString (ElementType r)) with (TLVTypeHasLength (ElementType r)). rewrite T1, H1. cbn [negb].
  rewrite HD in HFl. destruct (wf_current r HW) as (HR & L1 & L2 & _).
  assert (current r = flat r) as HCur by (unfold flat; rewrite HC; destruct (GetNextBuffer r); cbn [concat]; by rewrite ?take_nil, app_nil_r).
  assert (EnsureData WEAVE_ERROR_TLV_UNDERRUN r = (Ok tt, r)) as HED.
  { unfold EnsureData. rewrite HR, HCur, HFl. unfold tail. destruct s; [|done]. by destruct (enc_list ct p es). }
  rewrite (bind_ok _ _ _ _ _ HED), HR, HCur, HFl, T3, HF. rewrite HCur, HFl in L2. rewrite !u32_id by (unfold strlen in *; lia).
  assert ((Z.of_nat (length (s ++ tail ct es rest)) <? strlen s) = false) as -> by (apply Z.ltb_ge; rewrite length_app; unfold strlen; lia). done.
Qed.
Lemma elt_GetBytes ct t s es rest r : at_elt ct t es rest r -> string_elt t s ->
  exists r', GetBytes (GetLength r) r = (Ok s, r') /\ ahead ct es rest r'.
Proof.
  intros [[HW HC HI HCt] (_ & HFl & T) HV HVs] Hs. destruct (string_elt_parts ct t s Hs HV) as (et & HL & H1 & H2 & H3 & HE & HF & HD). rewrite HE in T. destruct T as (T1 & T2 & T3).
  rewrite HD in HFl. rewrite HF in T3. destruct (GetBytes_string r et (tree_tag t) s (tail ct es rest)) as (r' & E & Hw' & Hf' & (S1 & S2 & S3) & Hd'); try done.
  exists r'. split; [done|]. apply before_ahead. split; [|done|done|done]. split; [done| |congruence|congruence].
  apply (chain_stays (GetBytes (GetLength r)) r s r'); [|by apply wf_read|done|done].
  intros r0 a r0' H0. unfold GetBytes. destruct (negb _); [done|]. destruct (_ <? _); [done|].
  apply (forward_bind (ReadData _)); [intros x b x'; apply forward_ReadData_loop| |done]. intros d. apply forward_bind; [by apply forward_same|intros _; apply forward_ret].
Qed.

(** The elements that are left are no more than the bytes. *)
Lemma elts_length ct es : valid_list ct es -> (length es <= length (enc_list ct p es))%nat.
Proof using Hp.
  intros HV. unfold enc_list. induction es as [|t es IH]; [done|].
  destruct HV as [HV HVs]. cbn [map concat length]. rewrite length_app. pose proof (enc_nonempty ct p t HV Hp). specialize (IH HVs). lia.
Qed.
Lemma before_bytes_left ct es rest r : before_elts ct es rest r -> (length es <= bytes_left r)%nat.
Proof using Hp.
  intros [[HW HC HI HCt] _ HF HV]. pose proof (flat_bytes_left r HW) as H. pose proof (elts_length ct es HV). rewrite HF in H. unfold tail in H. rewrite length_app in H. lia.
Qed.
Lemma elt_bytes_left ct t es rest r : at_elt ct t es rest r -> (length es <= bytes_left r)%nat.
Proof using Hp.
  intros [[HW HC HI HCt] (_ & HF & _) _ HV]. pose proof (flat_bytes_left r HW) as H. pose proof (elts_length ct es HV). rewrite HF in H. unfold tail in H. rewrite !length_app in H. lia.
Qed.
End Cursor.
