(* ===== verification/CertConv.v ===== *)
(** * Conversion steps as writer steps

    A step of the conversion to X.509 does to the ASN.1 writer what [put_items] does
    with some values: it fails where the writer fails, and otherwise writes what the
    writer writes, moves the reader and fills in the certificate's data.  The rules
    here build such a statement along the code. *)
From S2P Require Import Prelude Encoding TLVTypes TLVReader PacketBuffer ASN1OID ASN1Writer ASN1Tree ASN1Leaf ASN1Write Cert CertToX509 CertSpec.
Local Open Scope Z_scope.
Local Open Scope weave_scope.

Section Emits.
Context (ptr : Z) (ptr_pos : 0 <= ptr).

(** The buffer is as long as the writer thinks; what is written stays in it. *)
Definition in_buffer (w : ASN1Writer) : Prop := aw_bufEnd w <= Z.of_nat (length (aw_mem w)).
Definition keeps (o : M ASN1Writer unit) : Prop := forall w w', in_buffer w -> o w = (Ok tt, w') -> in_buffer w'.

Lemma keeps_bind o1 o2 : keeps o1 -> keeps o2 -> keeps (do* o1 in o2).
Proof. intros H1 H2 w w' Hw ([] & w1 & E1 & E2)%bind_inv. eauto. Qed.
Lemma keeps_modify f : (forall w, aw_mem (f w) = aw_mem w /\ aw_bufEnd (f w) = aw_bufEnd w) -> keeps (modify f).
Proof. intros Hf w w' Hw [= <-]. unfold in_buffer. by destruct (Hf w) as [-> ->]. Qed.
Lemma keeps_verify b e : keeps (verify b e).
Proof. intros w w' Hw. unfold verify. destruct b; [by intros [= <-]|done]. Qed.
Lemma deferred_start_le w : deferred_start ptr w <= aw_bufEnd w.
Proof. unfold deferred_start. nia. Qed.
Lemma keeps_store off bytes : keeps (store ptr off bytes).
Proof.
  intros w w' Hw. unfold store. destruct (_ && _) eqn:E; [|done]. bool_prop. intros [= <-]. pose proof (deferred_start_le w).
  unfold in_buffer in *. cbn [set_aw_mem aw_mem aw_bufEnd]. rewrite block_write_length by lia. done.
Qed.
Lemma keeps_poke bytes : keeps (poke ptr bytes).
Proof. intros w w' Hw. apply (keeps_store (mWritePoint w) bytes w w' Hw). Qed.
Lemma keeps_advance n : keeps (advance_point n).
Proof. by apply keeps_modify. Qed.
Lemma keeps_put_bytes bytes : keeps (put_bytes ptr bytes).
Proof. apply keeps_bind; [apply keeps_poke|apply keeps_advance]. Qed.
Lemma keeps_gets {A} (f : ASN1Writer -> A) (k : A -> M ASN1Writer unit) : (forall a, keeps (k a)) -> keeps (bind (gets f) k).
Proof. intros H w w' Hw (a & w1 & [= <- <-] & E)%bind_inv. by eapply H. Qed.
Lemma keeps_EncodeHead cls tag c n : keeps (EncodeHead ptr cls tag c n).
Proof.
  unfold EncodeHead. destruct (31 <=? tag); [by intros w w' _|]. apply keeps_bind; [apply keeps_modify; intros w; by destruct (_ =? _)|].
  apply keeps_gets. intros room. apply keeps_bind; [apply keeps_verify|]. apply keeps_bind; [apply keeps_put_bytes|]. apply keeps_bind; [|apply keeps_advance].
  destruct (_ =? _); [|apply keeps_poke]. apply keeps_bind; [apply keeps_poke|by apply keeps_modify].
Qed.
Lemma keeps_load off (k : Z -> M ASN1Writer unit) : (forall b, keeps (k b)) -> keeps (bind (load off) k).
Proof. intros H w w' Hw (b & w1 & E1 & E)%bind_inv. unfold load in E1. destruct (_ && _); [|done]. injection E1 as <- <-. by eapply H. Qed.
Lemma keeps_scan l : forall adj, keeps (deferred_scan ptr l adj).
Proof.
  induction l as [|e l IH]; intros adj; cbn [deferred_scan]; [by intros w w' _|]. destruct e as [off|]; [|by intros w w' _].
  intros w w' Hw. cbn [entry]. rewrite bind_ret. revert w w' Hw. apply keeps_load. intros b. destruct (_ =? _); [|apply IH].
  apply keeps_gets. intros pt. apply keeps_bind; [apply keeps_verify|apply keeps_store].
Qed.
Lemma keeps_WriteDeferredLength : keeps (WriteDeferredLength ptr).
Proof. intros w w' Hw. apply keeps_scan, Hw. Qed.
Lemma keeps_PutValue cls tag c val : keeps (PutValue ptr cls tag c val).
Proof. apply keeps_bind; [apply keeps_EncodeHead|apply keeps_put_bytes]. Qed.
Lemma keeps_StartEncapsulated cls tag bits : keeps (StartEncapsulatedType ptr cls tag bits).
Proof.
  apply keeps_bind; [apply keeps_EncodeHead|]. destruct bits; [|intros w w' Hw [= <-]; done]. apply keeps_gets. intros full.
  apply keeps_bind; [apply keeps_verify|apply keeps_put_bytes].
Qed.
Lemma keeps_items l : Forall (fun i => keeps (put_item ptr i)) l -> keeps (put_items ptr l).
Proof. induction 1 as [|i l Hi Hl IH]; [by intros w w' Hw [= <-]|]. by apply keeps_bind. Qed.
Lemma keeps_item i : keeps (put_item ptr i).
Proof.
  induction i as [v|b|v|t|oid| |cls tag val|cls tag l H|bits l H] using item_rect'.
  1-7: cbn [put_item]; unfold ASN1_PutInteger, ASN1_PutBoolean, PutBitString, PutTime, PutObjectId, PutObjectId_bytes, ASN1_PutNull, PutOctetString_tagged; try apply keeps_PutValue; try apply keeps_EncodeHead.
  - apply keeps_bind; [apply keeps_EncodeHead|apply keeps_put_bytes].
  - apply keeps_bind; [apply keeps_EncodeHead|apply keeps_put_bytes].
  - destruct (_ <=? _); apply keeps_PutValue.
  - destruct (GetEncodedObjectID oid); [apply keeps_PutValue|by intros w w' _].
  - rewrite put_item_constructed. apply keeps_bind; [apply keeps_EncodeHead|]. apply keeps_bind; [by apply keeps_items|apply keeps_WriteDeferredLength].
  - rewrite put_item_encapsulated. apply keeps_bind; [apply keeps_StartEncapsulated|]. apply keeps_bind; [by apply keeps_items|apply keeps_WriteDeferredLength].
Qed.

(** [m] does to the writer what [o] does. *)
Definition as_does {A} (x : res unit * ASN1Writer) (y : res A * Conv) (done : A * (ASN1Writer -> Conv)) : Prop :=
  match x with
  | (Ok _, w') => y = (Ok (fst done), snd done w') /\ in_buffer w'
  | (Err e, _) => fst y = Err e
  | (Undefined, _) => fst y = Undefined
  | (Diverges, _) => fst y = Diverges
  end.
Definition acts {A} (m : M Conv A) (rd : TLVReader) (c : WeaveCertificateData) (o : M ASN1Writer unit) (a : A) (rd' : TLVReader) (c' : WeaveCertificateData) : Prop :=
  forall w, in_buffer w -> as_does (o w) (m (mkConv rd w c)) (a, fun w' => mkConv rd' w' c').
Definition emits {A} (m : M Conv A) (rd : TLVReader) (c : WeaveCertificateData) (l : list item) (a : A) (rd' : TLVReader) (c' : WeaveCertificateData) : Prop :=
  acts m rd c (put_items ptr l) a rd' c'.

Lemma acts_ext {A} (m : M Conv A) rd c o o' a rd' c' : (forall w, o w = o' w) -> acts m rd c o' a rd' c' -> acts m rd c o a rd' c'.
Proof. intros E H w Hw. rewrite E. by apply H. Qed.
Lemma acts_bind {A B} (m : M Conv A) (k : A -> M Conv B) rd c o1 a rd1 c1 o2 b rd2 c2 :
  acts m rd c o1 a rd1 c1 -> acts (k a) rd1 c1 o2 b rd2 c2 -> acts (bind m k) rd c (do* o1 in o2) b rd2 c2.
Proof.
  intros H1 H2 w Hw. specialize (H1 w Hw). unfold bind. destruct (o1 w) as [[[]|e| |] w1]; cbn [as_does] in H1.
  - destruct H1 as [-> Hw1]. exact (H2 w1 Hw1).
  - destruct (m (mkConv rd w c)) as [[] ?]; by simplify_eq/=.
  - destruct (m (mkConv rd w c)) as [[] ?]; by simplify_eq/=.
  - destruct (m (mkConv rd w c)) as [[] ?]; by simplify_eq/=.
Qed.
(** An operation that leaves the writer alone. *)
Lemma acts_pure {A B} (m : M Conv A) (k : A -> M Conv B) rd c o a rd1 c1 b rd2 c2 :
  (forall w, m (mkConv rd w c) = (Ok a, mkConv rd1 w c1)) -> acts (k a) rd1 c1 o b rd2 c2 -> acts (bind m k) rd c o b rd2 c2.
Proof. intros H1 H2 w Hw. specialize (H2 w Hw). unfold bind. by rewrite H1. Qed.
Lemma acts_writer o rd c : keeps o -> acts (on_writer o) rd c o tt rd c.
Proof. intros Ho w Hw. unfold on_writer. cbn [cv_writer cv_reader cv_cert]. destruct (o w) as [[[]|e| |] w1] eqn:E; [|done..]. split; [done|]. by eapply Ho. Qed.

Lemma put_items_app l1 l2 w : put_items ptr (l1 ++ l2) w = (do* put_items ptr l1 in put_items ptr l2) w.
Proof.
  revert w. induction l1 as [|i l1 IH]; intros w; [done|]. cbn [app put_items]. rewrite bind_assoc. apply bind_ext. intros _ w'. apply IH.
Qed.
Lemma put_items_1 i w : put_items ptr [i] w = put_item ptr i w.
Proof. cbn [put_items]. unfold bind, ret. by destruct (put_item ptr i w) as [[[]|e| |] w1]. Qed.

Section Rules.
Context {A B : Type} (k : A -> M Conv B) (rd : TLVReader) (c : WeaveCertificateData) (l : list item) (b : B) (rd2 : TLVReader) (c2 : WeaveCertificateData).
Lemma emits_bind (m : M Conv A) l1 a rd1 c1 : emits m rd c l1 a rd1 c1 -> emits (k a) rd1 c1 l b rd2 c2 -> emits (bind m k) rd c (l1 ++ l) b rd2 c2.
Proof. intros H1 H2. eapply acts_ext; [apply put_items_app|]. by eapply acts_bind. Qed.
Lemma emits_bind1 (m : M Conv A) i a rd1 c1 : emits m rd c [i] a rd1 c1 -> emits (k a) rd1 c1 l b rd2 c2 -> emits (bind m k) rd c (i :: l) b rd2 c2.
Proof. intros H1 H2. change (i :: l) with ([i] ++ l). by eapply emits_bind. Qed.
Lemma emits_reader (m : M TLVReader A) a rd1 : m rd = (Ok a, rd1) -> emits (k a) rd1 c l b rd2 c2 -> emits (bind (on_reader m) k) rd c l b rd2 c2.
Proof. intros E. apply acts_pure. intros w. unfold on_reader. cbn [cv_reader]. by rewrite E. Qed.
Lemma emits_pure (m : M Conv A) a rd1 c1 : (forall w, m (mkConv rd w c) = (Ok a, mkConv rd1 w c1)) -> emits (k a) rd1 c1 l b rd2 c2 -> emits (bind m k) rd c l b rd2 c2.
Proof. apply acts_pure. Qed.
Lemma emits_look (f : TLVReader -> A) : emits (k (f rd)) rd c l b rd2 c2 -> emits (bind (look f) k) rd c l b rd2 c2.
Proof. by apply acts_pure. Qed.
Lemma emits_value (f : TLVReader -> res A) a : f rd = Ok a -> emits (k a) rd c l b rd2 c2 -> emits (bind (get_value f) k) rd c l b rd2 c2.
Proof. intros E. apply acts_pure. intros w. unfold get_value. cbn [cv_reader]. by rewrite E. Qed.
End Rules.

Section UnitRules.
Context {B : Type} (k : unit -> M Conv B) (rd : TLVReader) (c : WeaveCertificateData) (l : list item) (b : B) (rd2 : TLVReader) (c2 : WeaveCertificateData).
Lemma emits_cert f : emits (k tt) rd (f c) l b rd2 c2 -> emits (bind (on_cert f) k) rd c l b rd2 c2.
Proof. by apply acts_pure. Qed.
Lemma emits_verify (cond : bool) e : cond = true -> emits (k tt) rd c l b rd2 c2 -> emits (bind (verify cond e) k) rd c l b rd2 c2.
Proof. intros ->. by apply acts_pure. Qed.
Lemma emits_skip (cond : bool) (m : M Conv unit) : cond = false -> emits (k tt) rd c l b rd2 c2 -> emits (bind (if cond then m else ret tt) k) rd c l b rd2 c2.
Proof. intros ->. by apply acts_pure. Qed.
End UnitRules.

Lemma emits_ret {A} (a : A) rd c : emits (ret a) rd c [] a rd c.
Proof. by intros w. Qed.
Lemma emits_last_cert f rd c : emits (on_cert f) rd c [] tt rd (f c).
Proof. by intros w. Qed.
Lemma emits_last_reader m rd c rd' : m rd = (Ok tt, rd') -> emits (on_reader m) rd c [] tt rd' c.
Proof. intros E w Hw. cbn. unfold on_reader. cbn. by rewrite E. Qed.
Lemma emits_item i o rd c : (forall w, put_item ptr i w = o w) -> emits (on_writer o) rd c [i] tt rd c.
Proof.
  intros E. eapply acts_ext with (o' := o); [intros w; by rewrite put_items_1, E|]. apply acts_writer.
  intros w w' Hw. rewrite <- E. by apply keeps_item.
Qed.
Lemma emits_constructed cls tag m rd c l rd' c' : emits m rd c l tt rd' c' -> emits (constructed ptr cls tag m) rd c [AConstructed cls tag l] tt rd' c'.
Proof.
  intros H. eapply acts_ext; [intros w; by rewrite put_items_1, put_item_constructed|].
  eapply acts_bind; [apply acts_writer, keeps_EncodeHead|]. eapply acts_bind; [exact H|]. apply acts_writer, keeps_WriteDeferredLength.
Qed.
Lemma emits_sequence m rd c l rd' c' : emits m rd c l tt rd' c' -> emits (sequence ptr m) rd c [ASequence l] tt rd' c'.
Proof. apply emits_constructed. Qed.
Lemma emits_encapsulated bits m rd c l rd' c' : emits m rd c l tt rd' c' -> emits (encapsulated ptr (encapsulating_tag bits) bits m) rd c [AEncapsulated bits l] tt rd' c'.
Proof.
  intros H. eapply acts_ext; [intros w; by rewrite put_items_1, put_item_encapsulated|].
  eapply acts_bind; [apply acts_writer, keeps_StartEncapsulated|]. eapply acts_bind; [exact H|]. apply acts_writer, keeps_WriteDeferredLength.
Qed.

(** Writing a value in two parts. *)
Lemma block_write_write off a b block : 0 <= off -> off + Z.of_nat (length (a ++ b)) <= Z.of_nat (length block) ->
  block_write off (a ++ b) block = block_write (off + Z.of_nat (length a)) b (block_write off a block).
Proof.
  rewrite length_app. intros H0 H. unfold block_write. rewrite length_app, <- !app_assoc.
  assert (length (take (Z.to_nat off) block) = Z.to_nat off) as HL by (rewrite length_take; lia).
  replace (Z.to_nat (off + Z.of_nat (length a))) with (length (take (Z.to_nat off) block) + length a)%nat by lia.
  rewrite take_app_add', take_app_length by done. rewrite <- app_assoc. do 3 f_equal.
  rewrite <- Nat.add_assoc, drop_app_add', drop_app_add', drop_drop by done. f_equal. lia.
Qed.
Lemma put_bytes_app a b w : in_buffer w ->
  match put_bytes ptr (a ++ b) w with
  | (Ok _, w') => (do* put_bytes ptr a in put_bytes ptr b) w = (Ok tt, w')
  | (Err _, _) | (Diverges, _) => False
  | (Undefined, _) => fst ((do* put_bytes ptr a in put_bytes ptr b) w) = Undefined
  end.
Proof.
  intros Hw. unfold put_bytes, poke, store, bind, advance_point, modify. rewrite length_app. pose proof (deferred_start_le w) as HD. unfold in_buffer in Hw.
  destruct (0 <=? mWritePoint w) eqn:E0; cbn [andb]; [|done]. bool_prop.
  destruct (Z.leb_spec (mWritePoint w + Z.of_nat (length a)) (deferred_start ptr w)); cbn [andb].
  - cbn [set_aw_mem set_aw_point mWritePoint aw_mem]. change (deferred_start ptr (set_aw_point _ _)) with (deferred_start ptr w).
    rewrite (proj2 (Z.leb_le 0 (mWritePoint w + Z.of_nat (length a)))) by lia. cbn [andb].
    destruct (Z.leb_spec (mWritePoint w + Z.of_nat (length a + length b)) (deferred_start ptr w)).
    + rewrite (proj2 (Z.leb_le _ (deferred_start ptr w))) by lia. rewrite block_write_write by (rewrite ?length_app; lia).
      rewrite Nat2Z.inj_add. unfold set_aw_mem, set_aw_point. cbn. by rewrite Z.add_assoc.
    + rewrite (proj2 (Z.leb_gt _ (deferred_start ptr w))) by lia. done.
  - rewrite (proj2 (Z.leb_gt _ (deferred_start ptr w))) by lia. done.
Qed.
(** The same run of the writer, up to the state it is left in after a failure. *)
Definition same_run (o o' : M ASN1Writer unit) : Prop := forall w, in_buffer w ->
  match o w with
  | (Ok _, w') => o' w = (Ok tt, w')
  | (Err e, _) => fst (o' w) = Err e
  | (Undefined, _) => fst (o' w) = Undefined
  | (Diverges, _) => fst (o' w) = Diverges
  end.
Lemma same_run_bind o1 o2 o2' : keeps o1 -> same_run o2 o2' -> same_run (do* o1 in o2) (do* o1 in o2').
Proof.
  intros Hk H w Hw. unfold bind. pose proof (Hk w) as HK. destruct (o1 w) as [[[]|e| |] w1]; [|done..]. by apply H, HK.
Qed.
Lemma same_run_put_bytes a b : same_run (put_bytes ptr (a ++ b)) (do* put_bytes ptr a in put_bytes ptr b).
Proof. intros w Hw. pose proof (put_bytes_app a b w Hw) as H. by destruct (put_bytes ptr (a ++ b) w) as [[[]|e| |] w1]. Qed.
Lemma acts_same_run o o' rd c : keeps o -> same_run o o' -> acts (on_writer o') rd c o tt rd c.
Proof.
  intros Hk H w Hw. specialize (H w Hw). specialize (Hk w). unfold on_writer. cbn [cv_writer cv_reader cv_cert].
  destruct (o w) as [[[]|e| |] w1]; cbn [as_does]; [rewrite H; split; [done|by apply Hk]|by destruct (o' w)..].
Qed.
Lemma PutBitString_bytes_run bits : Z.of_nat (length bits) < 65535 ->
  same_run (put_item ptr (APrimitive 0 kASN1UniversalTag_BitString (0 :: bits))) (PutBitString_bytes ptr 0 bits).
Proof.
  intros HL.  cbn [put_item]. unfold PutOctetString_tagged, PutBitString_bytes. rewrite PutValue_short by (cbn [length]; lia).
  rewrite (u16_id (Z.of_nat (length bits))), Nat2Z.id, firstn_all by lia. change kASN1TagClass_Universal with 0.
  replace (Z.of_nat (length (0 :: bits))) with (Z.of_nat (length bits) + 1) by (cbn [length]; lia).
  apply same_run_bind; [apply keeps_EncodeHead|]. apply (same_run_put_bytes [0] bits).
Qed.
Lemma emits_PutBitString_bytes bits rd c : Z.of_nat (length bits) < 65535 ->
  emits (on_writer (PutBitString_bytes ptr 0 bits)) rd c [APrimitive 0 kASN1UniversalTag_BitString (0 :: bits)] tt rd c.
Proof. intros HL. eapply acts_ext; [intros w; apply put_items_1|]. apply acts_same_run; [apply keeps_item|by apply PutBitString_bytes_run]. Qed.

(** A value that is copied from the reader. *)
Lemma acts_from_reader m o rd c rd' : keeps o -> (forall w, m rd w = (do* o in ret rd') w) -> acts (from_reader m) rd c o tt rd' c.
Proof.
  intros Hk E w Hw. specialize (Hk w). unfold from_reader. cbn [cv_writer cv_reader cv_cert]. rewrite E. unfold bind, ret.
  destruct (o w) as [[[]|e| |] w1]; cbn; [split; [done|by apply Hk]|done..].
Qed.
Lemma emits_PutValue_reader cls tag s rd c rd' : GetLength rd = Z.of_nat (length s) -> GetBytes (GetLength rd) rd = (Ok s, rd') -> Z.of_nat (length s) <= 65531 ->
  emits (from_reader (PutValue_reader ptr cls tag false)) rd c [APrimitive cls tag s] tt rd' c.
Proof.
  intros HL HG Hs. eapply acts_ext; [intros w; apply put_items_1|]. apply acts_from_reader; [apply keeps_item|]. intros w.
  unfold PutValue_reader. cbn [put_item]. unfold PutOctetString_tagged. rewrite PutValue_short by lia. rewrite bind_assoc, HL. replace (s32 (Z.of_nat (length s))) with (Z.of_nat (length s)) by mlia.
  apply bind_ext. intros _ w'. unfold put_from_reader. by rewrite HG.
Qed.
Lemma emits_PutBitString_reader s rd c rd' : GetLength rd = Z.of_nat (length s) -> GetBytes (GetLength rd) rd = (Ok s, rd') -> Z.of_nat (length s) <= 65530 ->
  emits (from_reader (PutBitString_reader ptr 0)) rd c [APrimitive 0 kASN1UniversalTag_BitString (0 :: s)] tt rd' c.
Proof.
  intros HL HG Hs. eapply acts_ext with (o' := put_item ptr (APrimitive 0 kASN1UniversalTag_BitString (0 :: s))); [intros w; apply put_items_1|].
  intros w Hw. pose proof (PutBitString_bytes_run s ltac:(lia) w Hw) as H. pose proof (keeps_item (APrimitive 0 kASN1UniversalTag_BitString (0 :: s)) w) as HK.
  assert (from_reader (PutBitString_reader ptr 0) (mkConv rd w c) =
    match PutBitString_bytes ptr 0 s w with (Ok _, w') => (Ok tt, mkConv rd' w' c) | (Err e, w') => (Err e, mkConv rd w' c)
    | (Undefined, w') => (Undefined, mkConv rd w' c) | (Diverges, w') => (Diverges, mkConv rd w' c) end) as E.
  { unfold from_reader. cbn [cv_writer cv_reader cv_cert]. unfold PutBitString_reader, PutBitString_bytes. rewrite HL, (u16_id (Z.of_nat (length s))), Nat2Z.id, firstn_all by lia.
    replace (s32 (u32 (Z.of_nat (length s) + 1))) with (Z.of_nat (length s) + 1) by mlia. unfold put_from_reader. rewrite HG. unfold bind, ret.
    destruct (EncodeHead _ _ _ _ _ w) as [[[]|e| |] w1]; try done. destruct (put_bytes ptr [0] w1) as [[[]|e| |] w2]; try done.
    by destruct (put_bytes ptr s w2) as [[[]|e| |] w3]. }
  rewrite E. destruct (put_item _ _ w) as [[[]|e| |] w1]; cbn [as_does].
  - rewrite H. split; [done|by apply HK].
  - destruct (PutBitString_bytes ptr 0 s w) as [[] ?]; by simplify_eq/=.
  - destruct (PutBitString_bytes ptr 0 s w) as [[] ?]; by simplify_eq/=.
  - destruct (PutBitString_bytes ptr 0 s w) as [[] ?]; by simplify_eq/=.
Qed.
End Emits.
