(* ===== verification/CertToX509Refine.v ===== *)
(** * The conversion of Weave certificates writes the X.509 form

    Each converter of CertToX509, at the element of a certificate that it converts,
    writes the values of the X.509 form, fills in the certificate's data and leaves
    the reader after the element. *)
From S2P Require Import Prelude Encoding TLVTypes TLVReader TLVReaderRefine TLVWriter TLVHead TLVTree TLVSkip TLVCursor.
From S2P Require Import ASN1OID ASN1Writer ASN1Tree ASN1Leaf ASN1Write CertTime Cert CertToX509 CertSpec CertConv.
Local Open Scope Z_scope.
Local Open Scope weave_scope.

(** ** The data of a certificate *)

(** What a pointer shows: the bytes that count.  EncodedCert stays what it is. *)
Definition cut (q : pointer) (n : Z) : pointer := match q with Some _ => Some (pointed q n) | None => None end.
Definition cut_id (id : CertificateKeyId) : CertificateKeyId := mkKeyId (cut (Id id) (KeyIdLen id)) (KeyIdLen id).
Definition data_of (c : WeaveCertificateData) : WeaveCertificateData :=
  mkCert (SubjectDN c) (IssuerDN c) (cut_id (SubjectKeyId c)) (cut_id (AuthKeyId c)) (cut (ECPoint c) (ECPointLen c)) (ECPointLen c)
    (cut (SigR c) (SigRLen c)) (SigRLen c) (cut (SigS c) (SigSLen c)) (SigSLen c) (PubKeyCurveId c)
    (EncodedCert c) (EncodedCertLen c) (CertFlags c) (KeyUsageFlags c) (PubKeyAlgoOID c)
    (SigAlgoOID c) (CertType c) (KeyPurposeFlags c) (NotBeforeDate c) (NotAfterDate c) (PathLenConstraint c) (TBSHash c).

Lemma pointed_app s rest n : n = Z.of_nat (length s) -> pointed (Some (s ++ rest)) n = s.
Proof. intros ->. unfold pointed. change (default [] (Some (s ++ rest))) with (s ++ rest). by rewrite Nat2Z.id, take_app_length. Qed.

(** What the parts of a certificate add to the data. *)
Definition name_data (a : attribute) (dn : WeaveDN) : WeaveDN :=
  match a with
  | IdAttr oid id => set_WeaveId id (set_AttrOID oid dn)
  | NameAttr oid _ s => set_AttrString s (set_AttrOID oid dn)
  end.
Definition validity_data (notBefore notAfter : Z) (c : WeaveCertificateData) : WeaveCertificateData :=
  set_NotAfterDate (PackedCertTimeToDate notAfter) (set_NotBeforeDate (PackedCertTimeToDate notBefore) c).
Definition key_data (k : public_key) (c : WeaveCertificateData) : WeaveCertificateData :=
  match k with
  | ECKey algo curve point =>
    set_ECPointLen (Z.of_nat (length point)) (set_ECPoint (Some point) (set_PubKeyCurveId (OIDToWeaveCurveId curve) (set_PubKeyAlgoOID algo c)))
  | RSAKey _ _ => set_PubKeyAlgoOID kOID_PubKeyAlgo_RSAEncryption c
  end.
Definition add_purpose (c : WeaveCertificateData) (oid : Z) : WeaveCertificateData :=
  set_KeyPurposeFlags (Z.lor (KeyPurposeFlags c) (key_purpose_flag oid)) c.
Definition key_id (id : list Z) : CertificateKeyId := mkKeyId (Some id) (Z.of_nat (length id)).
Definition extension_data (c : WeaveCertificateData) (x : extension) : WeaveCertificateData :=
  match x with
  | AuthKeyIdExt _ id =>
    let c := add_flag kCertFlag_ExtPresent_AuthKeyId c in match id with Some id => set_AuthKeyId (key_id id) c | None => c end
  | SubjectKeyIdExt _ id => set_SubjectKeyId (key_id id) (add_flag kCertFlag_ExtPresent_SubjectKeyId c)
  | KeyUsageExt _ bits => set_KeyUsageFlags bits (add_flag kCertFlag_ExtPresent_KeyUsage c)
  | BasicConstraintsExt _ isCA pathLen =>
    let c := add_flag kCertFlag_ExtPresent_BasicConstraints c in
    let c := if isCA then add_flag kCertFlag_IsCA c else c in
    match pathLen with Some n => add_flag kCertFlag_PathLenConstPresent (set_PathLenConstraint n c) | None => c end
  | ExtendedKeyUsageExt _ purposes => fold_left add_purpose purposes (add_flag kCertFlag_ExtPresent_ExtendedKeyUsage c)
  end.
(** All but the signature, which validation needs too. *)
Definition tbs_data (crt : certificate) (c : WeaveCertificateData) : WeaveCertificateData :=
  let c := set_SigAlgoOID (c_sigAlgo crt) c in
  let c := update_IssuerDN (name_data (c_issuer crt)) c in
  let c := validity_data (c_notBefore crt) (c_notAfter crt) c in
  let c := update_SubjectDN (name_data (c_subject crt)) c in
  fold_left extension_data (c_extensions crt) (key_data (c_key crt) c).

(** The extensions leave the signature algorithm alone. *)
Lemma purposes_sig l : forall c, SigAlgoOID (fold_left add_purpose l c) = SigAlgoOID c.
Proof. induction l as [|o l IH]; intros c; [done|]. cbn [fold_left]. by rewrite IH. Qed.
Lemma extensions_sig l : forall c, SigAlgoOID (fold_left extension_data l c) = SigAlgoOID c.
Proof.
  induction l as [|x l IH]; intros c; [done|]. cbn [fold_left]. rewrite IH. destruct x as [? []| | |? [] []|? purposes]; try done. cbn [extension_data]. by rewrite purposes_sig.
Qed.

Section Refine.
Context (ptr : Z) (ptr_pos : 0 <= ptr) (p : Z) (Hp : is_profile p).
Abbreviation at_elt := (TLVCursor.at_elt p).
Abbreviation ahead := (TLVCursor.ahead p).
Abbreviation at_end := (TLVCursor.at_end p).
Abbreviation tail := (TLVCursor.tail p).
Abbreviation emits := (CertConv.emits ptr).

(** One step of the code. *)
Ltac reader E := eapply emits_reader; [exact E|].
Ltac value E := eapply emits_value; [exact E|].
Ltac look := eapply emits_look.
Ltac cert := eapply emits_cert.
Ltac item := eapply emits_bind1; [apply emits_item; [exact ptr_pos|reflexivity]|].
Ltac last_item := apply emits_item; [exact ptr_pos|reflexivity].
Ltac seq := eapply emits_bind1; [apply emits_sequence; [exact ptr_pos|]|].
Ltac last_seq := apply emits_sequence; [exact ptr_pos|].

(** ** Names *)

Lemma attribute_bits_all : all_upto 128 (fun m => (Z.land m 127 =? m) && (Z.land (m + 128) 127 =? m) && (Z.land m 128 =? 0) && negb (Z.land (m + 128) 128 =? 0)) = true.
Proof. vm_compute. reflexivity. Qed.
Lemma attribute_bits m (b : bool) : 0 <= m < 128 -> let n := m + (if b then 128 else 0) in
  Z.land n 127 = m /\ negb (Z.land n 128 =? 0) = b /\ 0 <= n < 256.
Proof.
  intros Hm n. pose proof (all_upto_spec _ _ attribute_bits_all m Hm) as H. cbv beta in H. rewrite !andb_true_iff, !Z.eqb_eq in H. destruct H as [[[H1 H2] H3] H4].
  subst n. destruct b; rewrite ?Z.add_0_r; split; try done; (split; [|lia]); [done|]. by rewrite H3.
Qed.

Lemma ConvertDistinguishedName_emits upd n a es rest rd c : at_elt 21 (TContainer (Ctx n) 23 [attribute_tlv a]) es rest rd -> attribute_ok a = true ->
  (forall f g c, upd g (upd f c) = upd (fun dn => g (f dn)) c) ->
  exists rd', emits (ConvertDistinguishedName ptr upd) rd c [name_item a] tt rd' (upd (name_data a) c) /\ ahead 21 es rest rd'.
Proof.
  intros H Ha Hu. destruct (attribute_num a Ha) as (Hn & Ho & _). destruct (Enter_elt p 21 _ _ _ _ _ _ H) as (r1 & E1 & H1). pose proof (ae_valids _ _ _ _ _ _ H) as HVs.
  destruct (Next_cons p Hp 23 _ _ _ _ H1) as (r2 & E2 & H2). pose proof (at_ahead p Hp _ _ _ _ _ H2) as H2'.
  destruct (VerifyEnd_ahead p Hp 23 _ _ H2' ltac:(done)) as (r3 & E3 & H3).
  destruct (leaves_ahead p 21 es rest r3 (Exit_at_end p 23 21 _ r3 H3) HVs) as (r4 & E4 & H4). exists r4. split; [|done].
  unfold ConvertDistinguishedName. reader E1. reader E2. look. unfold GetTag. rewrite (elt_tag p _ _ _ _ _ H2).
  assert (exists n, tree_tag (attribute_tlv a) = Ctx n /\ 0 <= n < 256 /\ Z.land n 127 = Z.land (attribute_oid a) 127 /\
    match a with NameAttr _ printable _ => negb (Z.land n 128 =? 0) = printable | _ => True end) as (m & -> & Hm & Hl & Hb).
  { destruct a as [oid id|oid printable s]; cbn [attribute_tlv tree_tag attribute_oid] in *.
    - destruct (attribute_bits _ false Hn) as (B1 & _ & B3). rewrite Z.add_0_r in *. by exists (Z.land oid 127).
    - destruct (attribute_bits _ printable Hn) as (B1 & B2 & B3). by exists (Z.land oid 127 + (if printable then 128 else 0)). }
  eapply emits_verify; [by apply IsContextTag_Ctx|]. rewrite TagNum_Ctx, Hl, Ho by done. look. rewrite (elt_type p _ _ _ _ _ H2). cert.
  assert (forall tag s c', emits (do* on_reader VerifyEndOfContainer in do* on_reader (ExitContainer 21) in
    sequence ptr (constructed ptr kASN1TagClass_Universal kASN1UniversalTag_Set (sequence ptr
      (do* on_writer (PutObjectId ptr (attribute_oid a)) in on_writer (ASN1_PutString ptr tag s))))) r2 c'
    [ASequence [AConstructed kASN1TagClass_Universal kASN1UniversalTag_Set [ASequence [AObjectId (attribute_oid a); APrimitive kASN1TagClass_Universal tag s]]]] tt r4 c') as HTail.
  { intros tag s c'. reader E3. reader E4. last_seq. apply emits_constructed; [exact ptr_pos|]. last_seq. item. last_item. }
  destruct a as [oid id|oid printable s]; cbn [attribute_ok attribute_tlv tree_type attribute_oid] in *.
  - rewrite andb_true_iff in Ha. destruct Ha as [Ha Hid]. rewrite Ha. change [name_item (IdAttr oid id)] with ([] ++ [name_item (IdAttr oid id)]).
    eapply emits_bind with (a := (kASN1UniversalTag_UTF8String, weave_id_string id)); [|apply HTail]. eapply emits_verify; [done|]. value (elt_uint p _ _ _ _ _ _ H2). cert. rewrite Hu. apply emits_ret.
  - rewrite !andb_true_iff in Ha. destruct Ha as [[[Ha1 Ha2] Ha3] Ha4]. apply negb_true_iff in Ha2. rewrite Ha2. change [name_item (NameAttr oid printable s)] with ([] ++ [name_item (NameAttr oid printable s)]).
    assert (string_elt (TUtf8 (Ctx (Z.land oid 127 + (if printable then 128 else 0))) s) s) as Hs by (left; by eexists).
    eapply emits_bind with (a := (string_tag oid printable, s)); [|apply HTail]. eapply emits_verify; [done|]. unfold data_ptr. reader (elt_data_ptr p _ _ _ _ _ _ H2 Hs). look. rewrite (elt_length p _ _ _ _ _ _ H2 Hs).
    change (IsWeaveX509Attr oid) with (IsWeaveIdX509Attr oid). rewrite Ha2. cert. rewrite Hu, Nat2Z.id, take_app_length.
    replace (if oid =? kOID_AttributeType_DomainComponent then _ else _) with (string_tag oid printable); [apply emits_ret|].
    unfold string_tag. by rewrite Hb.
Qed.

(** ** Validity and public key *)

Lemma elt_u32 ct tag v es rest r : at_elt ct (TUInt tag v) es rest r -> 0 <= v < 4294967296 -> Get_u32 r = Ok v.
Proof. intros H Hv. unfold Get_u32. rewrite (elt_uint p _ _ _ _ _ _ H). cbn. by rewrite u32_id. Qed.

Lemma ConvertValidity_emits nb na es rest rd c : ahead 21 (TUInt (Ctx kTag_NotBefore) nb :: TUInt (Ctx kTag_NotAfter) na :: es) rest rd ->
  within 0 4294967295 nb = true -> within 0 4294967295 na = true ->
  exists rd', emits (ConvertValidity ptr) rd c [ASequence [ATime (UnpackCertTime nb); ATime (UnpackCertTime na)]] tt rd' (validity_data nb na c) /\ ahead 21 es rest rd'.
Proof.
  intros H Hb%within_spec Ha%within_spec.
  destruct (NextExpect_cons p Hp 21 _ _ _ _ kTLVType_UnsignedInteger (Ctx kTag_NotBefore) H eq_refl eq_refl) as (r1 & E1 & H1).
  destruct (NextExpect_cons p Hp 21 _ _ _ _ kTLVType_UnsignedInteger (Ctx kTag_NotAfter) (at_ahead p Hp _ _ _ _ _ H1) eq_refl eq_refl) as (r2 & E2 & H2).
  exists r2. split; [|by apply at_ahead with (t := TUInt (Ctx kTag_NotAfter) na)]. unfold ConvertValidity. last_seq.
  reader E1. value (elt_u32 _ _ _ _ _ _ H1 ltac:(lia)). cert. item. reader E2. value (elt_u32 _ _ _ _ _ _ H2 ltac:(lia)). cert. last_item.
Qed.

Lemma ConvertSubjectPublicKeyInfo_emits k es rest rd c : ahead 21 (key_tlvs k ++ es) rest rd -> key_ok k = true ->
  exists rd' c', emits (ConvertSubjectPublicKeyInfo ptr) rd c [key_item k] tt rd' c' /\ data_of c' = key_data k (data_of c) /\ ahead 21 es rest rd'.
Proof.
  intros H Hk. destruct k as [algo curve point|modulus exponent]; cbn [key_tlvs app key_ok] in *; rewrite !andb_true_iff in Hk;
    destruct (NextExpect_cons p Hp 21 _ _ _ _ kTLVType_UnsignedInteger (Ctx kTag_PublicKeyAlgorithm) H eq_refl eq_refl) as (r1 & E1 & H1).
  - destruct Hk as [[Hal Hc] Hpt]. destruct (curve_id curve Hc) as (Hid & Hcv & _). apply bytes_upto_spec in Hpt as [_ Hpt].
    destruct (NextExpect_cons p Hp 21 _ _ _ _ kTLVType_UnsignedInteger (Ctx kTag_EllipticCurveIdentifier) (at_ahead p Hp _ _ _ _ _ H1) eq_refl eq_refl) as (r2 & E2 & H2).
    destruct (NextExpect_cons p Hp 21 _ _ _ _ kTLVType_ByteString (Ctx kTag_EllipticCurvePublicKey) (at_ahead p Hp _ _ _ _ _ H2) eq_refl eq_refl) as (r3 & E3 & H3).
    assert (string_elt (TBytes (Ctx kTag_EllipticCurvePublicKey) point) point) as Hs by (right; by eexists).
    assert (0 <= Z.land algo kOID_Mask <= 255 /\ u16 (Z.lor kOIDCategory_PubKeyAlgo (Z.land algo kOID_Mask)) = algo /\ (algo =? kOID_PubKeyAlgo_RSAEncryption) = false) as (Hr & Hu & Hrsa).
    { apply is_ec_algo_spec in Hal. by destruct Hal as [-> |[-> | ->]]. }
    eexists r3, _. split; [|split; [|by apply at_ahead with (t := TBytes (Ctx kTag_EllipticCurvePublicKey) point)]].
    + unfold ConvertSubjectPublicKeyInfo. reader E1. value (elt_u32 _ _ _ _ _ _ H1 ltac:(lia)). rewrite Hu. cert. rewrite Hal, Hrsa. change [key_item (ECKey algo curve point)] with ([] ++ [key_item (ECKey algo curve point)]).
      eapply emits_bind with (a := curve).
      * reader E2. value (elt_u32 _ _ _ _ _ _ H2 ltac:(lia)). rewrite (proj2 (Z.ltb_ge _ 65536)) by lia. cert. rewrite Hcv. apply emits_ret.
      * last_seq. seq; [item; last_item|]. reader E3. unfold data_ptr. reader (elt_data_ptr p _ _ _ _ _ _ H3 Hs). cert. look. rewrite (elt_length p _ _ _ _ _ _ H3 Hs).
        eapply emits_verify; [apply Z.leb_le; unfold UINT16_MAX; lia|]. cert. rewrite Nat2Z.id, take_app_length. apply emits_PutBitString_bytes; [exact ptr_pos|lia].
    + unfold data_of. cbn. rewrite pointed_app by done. done.
  - destruct Hk as [Hm He]. apply bytes_upto_spec in Hm as [_ Hm]. apply within_spec in He.
    destruct (NextExpect_cons p Hp 21 _ _ _ _ kTLVType_Structure (Ctx kTag_RSAPublicKey) (at_ahead p Hp _ _ _ _ _ H1) eq_refl eq_refl) as (r2 & E2 & H2).
    destruct (Enter_elt p 21 _ _ _ _ _ _ H2) as (r3 & E3 & H3). pose proof (ae_valids _ _ _ _ _ _ H2) as HVs.
    destruct (NextExpect_cons p Hp 21 _ _ _ _ kTLVType_ByteString (Ctx kTag_RSAPublicKey_Modulus) H3 eq_refl eq_refl) as (r4 & E4 & H4).
    assert (string_elt (TBytes (Ctx kTag_RSAPublicKey_Modulus) modulus) modulus) as Hs by (right; by eexists).
    destruct (elt_GetBytes p _ _ _ _ _ _ H4 Hs) as (r5 & E5 & H5).
    destruct (NextExpect_cons p Hp 21 _ _ _ _ kTLVType_SignedInteger (Ctx kTag_RSAPublicKey_PublicExponent) H5 eq_refl eq_refl) as (r6 & E6 & H6).
    destruct (leaves_ahead p 21 es rest r6 (Exit_last p Hp _ _ _ _ 21 H6 eq_refl ltac:(done)) HVs) as (r7 & E7 & H7).
    eexists r7, _. split; [|split; [|done]].
    + unfold ConvertSubjectPublicKeyInfo. reader E1. value (elt_u32 _ _ _ _ _ _ H1 ltac:(done)). change (u16 (Z.lor kOIDCategory_PubKeyAlgo (Z.land kOID_PubKeyAlgo_RSAEncryption kOID_Mask))) with kOID_PubKeyAlgo_RSAEncryption. cert.
      change [key_item (RSAKey modulus exponent)] with ([] ++ [key_item (RSAKey modulus exponent)]). eapply emits_bind with (a := kOID_NotSpecified); [eapply emits_verify; [done|apply emits_ret]|].
      last_seq. seq; [item; last_item|]. reader E2. reader E3. rewrite <- (app_nil_r [AEncapsulated true _]). eapply emits_bind; [|apply emits_last_reader; exact E7].
      apply (emits_encapsulated ptr ptr_pos true). last_seq. reader E4. eapply emits_bind1; [apply emits_PutValue_reader; [done|by apply (elt_length p _ _ _ _ _ _ H4 Hs)|exact E5|done]|].
      reader E6. value (elt_int p _ _ _ _ _ _ H6). last_item.
    + done.
Qed.

(** ** Extensions *)

(** At the first of the elements, or at the end when there is none. *)
Definition here (ct : Z) (es : list TLVTree.tlv) (rest : list Z) (r : TLVReader) : Prop :=
  match es with [] => at_end ct rest r | t :: es => at_elt ct t es rest r end.
Definition here_tag (es : list TLVTree.tlv) : Z := match es with [] => AnonymousTag | t :: _ => tree_tag t end.
Lemma here_GetTag ct es rest r : here ct es rest r -> GetTag r = here_tag es.
Proof. unfold GetTag. destruct es as [|t es]; intros H; [apply (en_tag p _ _ _ H)|apply (elt_tag p _ _ _ _ _ H)]. Qed.
Lemma next_here ct es rest r : ahead ct es rest r -> ct <> -1 -> exists r', here ct es rest r' /\ forall w c, next_or_end (mkConv r w c) = (Ok tt, mkConv r' w c).
Proof.
  intros H Hc. unfold next_or_end. cbn [cv_reader]. destruct es as [|t es].
  - destruct (Next_nil p Hp ct rest r H Hc) as (r' & E & H'). exists r'. split; [done|]. intros w c. by rewrite E.
  - destruct (Next_cons p Hp ct t es rest r H) as (r' & E & H'). exists r'. split; [done|]. intros w c. by rewrite E.
Qed.
Lemma emits_next r r' c : (forall w c, next_or_end (mkConv r w c) = (Ok tt, mkConv r' w c)) -> emits next_or_end r c [] tt r' c.
Proof. intros E w Hw. by rewrite E. Qed.
(** Nothing is left in the container. *)
Definition finished (ct : Z) (rest : list Z) (r : TLVReader) : Prop := ahead ct [] rest r \/ at_end ct rest r.
Lemma finished_exit ct o es rest r : finished ct (tail o es rest) r -> ct <> -1 -> valid_list o es ->
  exists r1 r2, VerifyEndOfContainer r = (Ok tt, r1) /\ ExitContainer o r1 = (Ok tt, r2) /\ ahead o es rest r2.
Proof.
  intros H Hc HV. assert (exists r1, VerifyEndOfContainer r = (Ok tt, r1) /\ at_end ct (tail o es rest) r1) as (r1 & E1 & H1).
  { destruct H as [H|H]; [by apply VerifyEnd_ahead|]. exists r. split; [by eapply VerifyEnd_at_end|done]. }
  destruct (leaves_ahead p o es rest r1 (Exit_at_end p ct o _ r1 H1) HV) as (r2 & E2 & H2). by exists r1, r2.
Qed.
Lemma here_finished ct t rest r : at_elt ct t [] rest r -> finished ct rest r.
Proof. intros H. left. by eapply at_ahead. Qed.

(** The elements after the critical flag, and the converter that reads them. *)
Definition extension_elts (x : extension) : list TLVTree.tlv :=
  match x with
  | AuthKeyIdExt _ id => match id with Some id => [TBytes (Ctx kTag_AuthorityKeyIdentifier_KeyIdentifier) id] | None => [] end
  | SubjectKeyIdExt _ id => [TBytes (Ctx kTag_SubjectKeyIdentifier_KeyIdentifier) id]
  | KeyUsageExt _ bits => [TUInt (Ctx kTag_KeyUsage_KeyUsage) bits]
  | BasicConstraintsExt _ isCA pathLen => (if isCA then [TBool (Ctx kTag_BasicConstraints_IsCA) true] else []) ++
      match pathLen with Some n => [TUInt (Ctx kTag_BasicConstraints_PathLenConstraint) n] | None => [] end
  | ExtendedKeyUsageExt _ purposes => [TContainer (Ctx kTag_ExtendedKeyUsage_KeyPurposes) kTLVType_Array
         (map (fun oid => TUInt AnonymousTag (Z.land oid kOID_Mask)) purposes)]
  end.
Definition extension_critical (x : extension) : bool := snd (fst (extension_parts x)).
Definition extension_value (x : extension) : item := snd (extension_parts x).
Definition extension_num (x : extension) : Z :=
  match x with
  | AuthKeyIdExt _ _ => kTag_AuthorityKeyIdentifier | SubjectKeyIdExt _ _ => kTag_SubjectKeyIdentifier | KeyUsageExt _ _ => kTag_KeyUsage
  | BasicConstraintsExt _ _ _ => kTag_BasicConstraints | ExtendedKeyUsageExt _ _ => kTag_ExtendedKeyUsage
  end.
Lemma extension_tlv_parts x : extension_tlv x = TContainer (Ctx (extension_num x)) kTLVType_Structure (critical_tlv (extension_critical x) ++ extension_elts x).
Proof. by destruct x. Qed.
Definition converter (x : extension) : M Conv unit :=
  match x with
  | AuthKeyIdExt _ _ => ConvertAuthorityKeyIdentifierExtension ptr | SubjectKeyIdExt _ _ => ConvertSubjectKeyIdentifierExtension ptr
  | KeyUsageExt _ _ => ConvertKeyUsageExtension ptr | BasicConstraintsExt _ _ _ => ConvertBasicConstraintsExtension ptr
  | ExtendedKeyUsageExt _ _ => ConvertExtendedKeyUsageExtension ptr
  end.

(** What a converter does at the elements after the flag. *)
Definition converts (x : extension) : Prop := forall rest rd c, here 21 (extension_elts x) rest rd ->
  exists rd' c', emits (converter x) rd c [extension_value (kept_extension x)] tt rd' c' /\ data_of c' = extension_data (data_of c) (kept_extension x) /\ finished 21 rest rd'.

Lemma AuthKeyId_converts critical id : extension_ok weave_limits (AuthKeyIdExt critical id) = true -> converts (AuthKeyIdExt critical id).
Proof.
  intros Hx rest rd c H. cbn [converter]. unfold ConvertAuthorityKeyIdentifierExtension. pose proof (here_GetTag _ _ _ _ H) as HT. destruct id as [id|]; cbn [extension_elts here here_tag tree_tag extension_ok l_id l_path weave_limits] in *.
  - apply bytes_upto_spec in Hx as [_ Hx]. assert (string_elt (TBytes (Ctx kTag_AuthorityKeyIdentifier_KeyIdentifier) id) id) as Hs by (right; by eexists).
    destruct (next_here 21 [] rest rd (at_ahead p Hp _ _ _ _ _ H) ltac:(done)) as (r1 & H1 & E1). eexists r1, _. split; [|split; [|by right]].
    + cert. last_seq. look. rewrite HT, Z.eqb_refl. look. rewrite (elt_type p _ _ _ _ _ H). eapply emits_verify; [done|]. unfold data_ptr. reader (elt_data_ptr p _ _ _ _ _ _ H Hs). cert. look.
      rewrite (elt_length p _ _ _ _ _ _ H Hs). eapply emits_verify; [apply Z.leb_le; unfold UINT8_MAX; lia|]. cert. rewrite Nat2Z.id, take_app_length.
      eapply emits_bind1; [by apply emits_item|]. by apply emits_next.
    + unfold data_of. cbn. unfold cut_id. cbn. rewrite pointed_app by done. done.
  - eexists rd, _. split; [|split; [|by right]]; [cert; last_seq; look; rewrite HT; apply emits_ret|done].
Qed.
Lemma SubjectKeyId_converts critical id : extension_ok weave_limits (SubjectKeyIdExt critical id) = true -> converts (SubjectKeyIdExt critical id).
Proof.
  intros Hx rest rd c H. cbn [converter]. unfold ConvertSubjectKeyIdentifierExtension. pose proof (here_GetTag _ _ _ _ H) as HT. cbn [extension_elts here here_tag tree_tag extension_ok l_id l_path weave_limits] in *.
  apply bytes_upto_spec in Hx as [_ Hx]. assert (string_elt (TBytes (Ctx kTag_SubjectKeyIdentifier_KeyIdentifier) id) id) as Hs by (right; by eexists).
  eexists rd, _. split; [|split; [|by eapply here_finished]].
  - cert. look. rewrite (elt_type p _ _ _ _ _ H). eapply emits_verify; [done|]. look. rewrite HT. eapply emits_verify; [apply Z.eqb_refl|]. look.
    rewrite (elt_length p _ _ _ _ _ _ H Hs). eapply emits_verify; [apply Z.leb_le; unfold UINT8_MAX; lia|]. cert. unfold data_ptr. reader (elt_data_ptr p _ _ _ _ _ _ H Hs). cert.
    rewrite Nat2Z.id, take_app_length. last_item.
  - unfold data_of. cbn. unfold cut_id. cbn. rewrite pointed_app by done. done.
Qed.
Lemma KeyUsage_converts critical bits : extension_ok weave_limits (KeyUsageExt critical bits) = true -> converts (KeyUsageExt critical bits).
Proof.
  intros Hx%within_spec rest rd c H. cbn [converter]. unfold ConvertKeyUsageExtension. pose proof (here_GetTag _ _ _ _ H) as HT. cbn [extension_elts here here_tag tree_tag] in *.
  assert (Get_u16 rd = Ok (u16 bits)) as E by (unfold Get_u16; by rewrite (elt_uint p _ _ _ _ _ _ H)).
  eexists rd, _. split; [|split; [|by eapply here_finished]].
  - cert. look. rewrite HT. eapply emits_verify; [apply Z.eqb_refl|]. value E. item. apply emits_last_cert.
  - done.
Qed.
Lemma BasicConstraints_converts critical isCA pathLen : extension_ok weave_limits (BasicConstraintsExt critical isCA pathLen) = true -> converts (BasicConstraintsExt critical isCA pathLen).
Proof.
  intros Hx rest rd c H. cbn [converter]. unfold ConvertBasicConstraintsExtension. set (pl := match pathLen with Some n => [TUInt (Ctx kTag_BasicConstraints_PathLenConstraint) n] | None => [] end).
  pose (c1 := add_flag kCertFlag_ExtPresent_BasicConstraints c). pose (c2 := if isCA then add_flag kCertFlag_IsCA c1 else c1).
  assert (exists r1, here 21 pl rest r1 /\ emits (if GetTag rd =? Ctx kTag_BasicConstraints_IsCA then
       let* isCA := get_value Get_bool in
       do* (if isCA then do* on_writer (ASN1_PutBoolean ptr true) in on_cert (add_flag kCertFlag_IsCA) else ret tt) in next_or_end
     else ret tt) rd c1 (if isCA then [ABoolean true] else []) tt r1 c2) as (r1 & H1 & HCA).
  { pose proof (here_GetTag _ _ _ _ H) as HT. cbn [extension_elts] in H, HT. fold pl in H, HT. destruct isCA; cbn [app here here_tag tree_tag] in *.
    - destruct (next_here 21 pl rest rd (at_ahead p Hp _ _ _ _ _ H) ltac:(done)) as (r1 & H1 & E1). exists r1. split; [done|]. rewrite HT, Z.eqb_refl.
      value (elt_bool p _ _ _ _ _ _ H). cbv iota. rewrite <- (app_nil_r [ABoolean true]). eapply emits_bind; [item; apply emits_last_cert|]. by apply emits_next.
    - exists rd. split; [done|]. rewrite HT. destruct pathLen; apply emits_ret. }
  pose proof (here_GetTag _ _ _ _ H1) as HT. subst pl. destruct pathLen as [n|]; cbn [here here_tag tree_tag kept_extension] in *.
  - eexists r1, _. split; [|split; [|by eapply here_finished]].
    + cert. last_seq. fold c1. look. eapply emits_bind; [exact HCA|]. look. rewrite HT. change (Ctx kTag_BasicConstraints_PathLenConstraint =? Ctx kTag_BasicConstraints_PathLenConstraint) with true.
      assert (Get_u8 r1 = Ok (u8 n)) as E by (unfold Get_u8; by rewrite (elt_uint p _ _ _ _ _ _ H1)). value E. item. cert. apply emits_last_cert.
    + unfold c2, c1. by destruct isCA.
  - exists r1, c2. split; [|split; [|by right]].
    + cert. last_seq. fold c1. look. eapply emits_bind; [exact HCA|]. look. rewrite HT. apply emits_ret.
    + unfold c2, c1. by destruct isCA.
Qed.

Definition purpose_tlv (oid : Z) : TLVTree.tlv := TUInt AnonymousTag (Z.land oid kOID_Mask).
Lemma key_purposes_emits purposes : forallb (known_oid kOIDCategory_KeyPurpose) purposes = true -> forall fuel rest rd c, (length purposes < fuel)%nat ->
  ahead 22 (map purpose_tlv purposes) rest rd ->
  exists rd', emits (key_purposes ptr fuel) rd c (map AObjectId purposes) tt rd' (fold_left add_purpose purposes c) /\ at_end 22 rest rd'.
Proof.
  induction purposes as [|oid l IH]; intros Hk fuel rest rd c Hf H; (destruct fuel as [|fuel]; [cbn in Hf; lia|]); cbn [map forallb length fold_left] in *.
  - destruct (NextExpect_end p Hp 22 rest rd kTLVType_UnsignedInteger AnonymousTag H ltac:(done)) as (r1 & E1 & H1). exists r1. split; [|done].
    intros w Hw. cbn [key_purposes]. unfold on_reader. cbn [cv_reader cv_writer cv_cert]. by rewrite E1.
  - apply andb_prop in Hk as [Ho Hk]. destruct (purpose_num oid Ho) as [Hr Hl].
    destruct (NextExpect_cons p Hp 22 _ _ _ _ kTLVType_UnsignedInteger AnonymousTag H eq_refl eq_refl) as (r1 & E1 & H1).
    destruct (IH Hk fuel rest r1 (add_purpose c oid) ltac:(lia) (at_ahead p Hp _ _ _ _ _ H1)) as (r2 & E2 & H2). exists r2. split; [|done].
    intros w Hw. cbn [key_purposes]. unfold on_reader at 1. cbn [cv_reader cv_writer cv_cert]. rewrite E1. revert w Hw.
    assert (Get_u16 r1 = Ok (Z.land oid kOID_Mask)) as E by (unfold Get_u16; rewrite (elt_uint p _ _ _ _ _ _ H1); cbn; by rewrite u16_id by lia).
    apply (emits_value ptr _ _ _ _ _ _ _ _ _ E). rewrite Hl. item. cert. exact E2.
Qed.
Lemma fold_data {A} (f : WeaveCertificateData -> A -> WeaveCertificateData) l : (forall c x, data_of (f c x) = f (data_of c) x) ->
  forall c, data_of (fold_left f l c) = fold_left f l (data_of c).
Proof. intros Hf. induction l as [|x l IH]; intros c; [done|]. cbn [fold_left]. by rewrite IH, Hf. Qed.
Lemma ExtendedKeyUsage_converts critical purposes : extension_ok weave_limits (ExtendedKeyUsageExt critical purposes) = true -> converts (ExtendedKeyUsageExt critical purposes).
Proof.
  intros Hx rest rd c H. cbn [converter]. unfold ConvertExtendedKeyUsageExtension. pose proof (here_GetTag _ _ _ _ H) as HT. cbn [extension_elts here here_tag tree_tag extension_ok l_id l_path weave_limits] in *.
  destruct (Enter_before p _ _ _ _ _ _ _ H) as (r1 & E1 & H1). pose proof (before_bytes_left p Hp _ _ _ _ H1) as HL. rewrite length_map in HL.
  destruct (key_purposes_emits purposes Hx (S (bytes_left r1)) _ r1 (add_flag kCertFlag_ExtPresent_ExtendedKeyUsage c) ltac:(lia) (before_ahead p _ _ _ _ H1)) as (r2 & E2 & H2).
  destruct (leaves_ahead p 21 [] rest r2 (Exit_at_end p 22 21 _ r2 H2) ltac:(done)) as (r3 & E3 & H3). eexists r3, _. split; [|split; [|by left]].
  - cert. last_seq. look. rewrite HT. eapply emits_verify; [done|]. look. rewrite (elt_type p _ _ _ _ _ H). eapply emits_verify; [done|]. reader E1.
    rewrite <- (app_nil_r (map AObjectId purposes)). eapply emits_bind; [|apply emits_last_reader; exact E3]. exact E2.
  - by apply (fold_data add_purpose purposes).
Qed.
Lemma extension_converts x : extension_ok weave_limits x = true -> converts x.
Proof. destruct x; [apply AuthKeyId_converts|apply SubjectKeyId_converts|apply KeyUsage_converts|apply BasicConstraints_converts|apply ExtendedKeyUsage_converts]. Qed.

(** The tests on the tag of an extension choose its identifier and its converter. *)
Lemma converter_choice x : extension_oid (extension_num x) = Some (fst (fst (extension_parts x))) /\
  (if extension_num x =? kTag_AuthorityKeyIdentifier then ConvertAuthorityKeyIdentifierExtension ptr
   else if extension_num x =? kTag_SubjectKeyIdentifier then ConvertSubjectKeyIdentifierExtension ptr
   else if extension_num x =? kTag_KeyUsage then ConvertKeyUsageExtension ptr
   else if extension_num x =? kTag_BasicConstraints then ConvertBasicConstraintsExtension ptr
   else if extension_num x =? kTag_ExtendedKeyUsage then ConvertExtendedKeyUsageExtension ptr
   else fail WEAVE_ERROR_UNSUPPORTED_CERT_FORMAT) = converter x.
Proof. by destruct x. Qed.
Lemma extension_num_range x : 128 <= extension_num x <= 132.
Proof. by destruct x. Qed.
Lemma extension_elts_tag x : (here_tag (extension_elts x) =? Ctx 1) = false.
Proof. by destruct x as [? []| | |? [] []|]. Qed.
Lemma extension_item_parts x : extension_item x = ASequence (AObjectId (fst (fst (extension_parts x))) ::
  (if extension_critical x then [ABoolean true] else []) ++ [AEncapsulated false [extension_value x]]).
Proof. by destruct x. Qed.

Lemma extension_item_kept x : extension_item (kept_extension x) = ASequence (AObjectId (fst (fst (extension_parts x))) ::
  (if extension_critical x then [ABoolean true] else []) ++ [AEncapsulated false [extension_value (kept_extension x)]]).
Proof. rewrite extension_item_parts. by destruct x as [| | |? ? []|]. Qed.

Lemma ConvertExtension_emits x es rest rd c : at_elt 21 (extension_tlv x) es rest rd -> extension_ok weave_limits x = true ->
  exists rd' c', emits (ConvertExtension ptr) rd c [extension_item (kept_extension x)] tt rd' c' /\ data_of c' = extension_data (data_of c) (kept_extension x) /\ ahead 21 es rest rd'.
Proof.
  intros H Hx. pose proof (ae_valids _ _ _ _ _ _ H) as HVs. rewrite extension_tlv_parts in H. destruct (Enter_elt p 21 _ _ _ _ _ _ H) as (r1 & E1 & H1).
  destruct (next_here 21 _ _ r1 H1 ltac:(done)) as (r2 & H2 & E2). pose proof (here_GetTag _ _ _ _ H2) as HT2.
  assert (exists r3, here 21 (extension_elts x) (tail 21 es rest) r3 /\ emits (if GetTag r2 =? Ctx kTag_BasicConstraints_Critical then
      let* critical := get_value Get_bool in do* (if critical then on_writer (ASN1_PutBoolean ptr true) else ret tt) in next_or_end
    else ret tt) r2 c (if extension_critical x then [ABoolean true] else []) tt r3 c) as (r3 & H3 & E3).
  { rewrite HT2. destruct (extension_critical x); cbn [critical_tlv app here here_tag tree_tag] in *.
    - destruct (next_here 21 _ _ r2 (at_ahead p Hp _ _ _ _ _ H2) ltac:(done)) as (r3 & H3 & E3). exists r3. split; [done|].
      rewrite Z.eqb_refl. value (elt_bool p _ _ _ _ _ _ H2). cbv iota. item. by apply emits_next.
    - exists r2. split; [done|]. change kTag_BasicConstraints_Critical with 1. rewrite extension_elts_tag. apply emits_ret. }
  destruct (extension_converts x Hx _ _ c H3) as (r4 & c' & E4 & HD & H4). destruct (finished_exit 21 21 es rest r4 H4 ltac:(done) HVs) as (r5 & r6 & E5 & E6 & H6).
  exists r6, c'. split; [|done]. destruct (converter_choice x) as [HO HC]. unfold ConvertExtension. look. change (GetTag rd) with (mElemTag rd). rewrite (elt_tag p _ _ _ _ _ H). cbn [tree_tag].
  rewrite TagNum_Ctx by (pose proof (extension_num_range x); lia). rewrite HO, HC. reader E1. rewrite extension_item_kept. seq.
  - item. eapply emits_bind with (l1 := []); [apply emits_next; exact E2|]. look. eapply emits_bind; [exact E3|]. apply (emits_encapsulated ptr ptr_pos false). exact E4.
  - reader E5. apply emits_last_reader. exact E6.
Qed.

Lemma IsCertificateExtensionTag_extension x : IsCertificateExtensionTag (tree_tag (extension_tlv x)) = true.
Proof. by destruct x. Qed.
Lemma IsCertificateExtensionTag_signature s : IsCertificateExtensionTag (tree_tag (signature_tlv s)) = false.
Proof. by destruct s. Qed.

(** The loop ends at the signature, which follows the extensions. *)
Lemma convert_extensions_emits l : forall fuel x s rest rd c, (length l < fuel)%nat -> at_elt 21 (extension_tlv x) (map extension_tlv l ++ [signature_tlv s]) rest rd ->
  extension_ok weave_limits x = true -> Forall (fun x => extension_ok weave_limits x = true) l ->
  exists rd' c', emits (convert_extensions ptr fuel) rd c (map extension_item (map kept_extension (x :: l))) tt rd' c' /\ data_of c' = fold_left extension_data (map kept_extension (x :: l)) (data_of c) /\
    at_elt 21 (signature_tlv s) [] rest rd'.
Proof.
  induction l as [|y l IH]; intros fuel x s rest rd c Hf H Hx Hl; (destruct fuel as [|fuel]; [cbn in Hf; lia|]); cbn [convert_extensions];
    destruct (ConvertExtension_emits x _ rest rd c H Hx) as (r1 & c1 & E1 & HD1 & H1); destruct (Next_cons p Hp 21 _ _ _ _ H1) as (r2 & E2 & H2).
  - exists r2, c1. split; [|by split]. cbn [map]. eapply emits_bind1; [exact E1|]. reader E2. look. unfold GetTag. rewrite (elt_tag p _ _ _ _ _ H2), IsCertificateExtensionTag_signature. apply emits_ret.
  - inversion Hl as [|? ? Hy Hl']; subst. destruct (IH fuel y s rest r2 c1 ltac:(cbn in Hf; lia) H2 Hy Hl') as (r3 & c2 & E3 & HD3 & H3).
    exists r3, c2. split; [|split; [|done]]; [|cbn [fold_left] in HD3 |- *; by rewrite HD3, HD1]. cbn [map] in E3 |- *. eapply emits_bind1; [exact E1|]. reader E2. look. unfold GetTag.
    change (GetTag r2) with (mElemTag r2). rewrite (elt_tag p _ _ _ _ _ H2), IsCertificateExtensionTag_extension. exact E3.
Qed.

(** ** Signatures *)

Lemma kept_app s t : take (Z.to_nat (u8 (Z.of_nat (length s)))) (s ++ t) = kept_bytes s.
Proof. unfold kept_bytes. assert (u8 (Z.of_nat (length s)) <= Z.of_nat (length s)) by (unfold u8; apply Z.mod_le; lia). apply take_app_le. lia. Qed.
Lemma ConvertECDSASignature_emits r s rest rd c : at_elt 21 (signature_tlv (ECDSASig r s)) [] rest rd ->
  exists rd', emits (ConvertECDSASignature ptr) rd c [signature_item (kept_signature (ECDSASig r s))] tt rd' c /\ ahead 21 [] rest rd'.
Proof.
  intros H. destruct (Enter_elt p 21 _ _ _ _ _ _ H) as (r1 & E1 & H1).
  destruct (NextExpect_cons p Hp 21 _ _ _ _ kTLVType_ByteString (Ctx kTag_ECDSASignature_r) H1 eq_refl eq_refl) as (r2 & E2 & H2).
  destruct (NextExpect_cons p Hp 21 _ _ _ _ kTLVType_ByteString (Ctx kTag_ECDSASignature_s) (at_ahead p Hp _ _ _ _ _ H2) eq_refl eq_refl) as (r3 & E3 & H3).
  assert (string_elt (TBytes (Ctx kTag_ECDSASignature_r) r) r) as Hsr by (right; by eexists). assert (string_elt (TBytes (Ctx kTag_ECDSASignature_s) s) s) as Hss by (right; by eexists).
  destruct (leaves_ahead p 21 [] rest r3 (Exit_last p Hp _ _ _ _ 21 H3 eq_refl ltac:(done)) ltac:(done)) as (r4 & E4 & H4). exists r4. split; [|done].
  unfold ConvertECDSASignature. look. change (GetTag rd) with (mElemTag rd). rewrite (elt_tag p _ _ _ _ _ H). eapply emits_verify; [done|].
  eapply emits_bind with (l1 := []) (a := (r ++ tail 21 [TBytes (Ctx kTag_ECDSASignature_s) s] (tail 21 [] rest), u8 (Z.of_nat (length r)), (s ++ tail 21 [] (tail 21 [] rest), u8 (Z.of_nat (length s))))).
  - unfold DecodeWeaveECDSASignature. look. rewrite (elt_type p _ _ _ _ _ H). eapply emits_verify; [done|]. reader E1. reader E2. unfold data_ptr. reader (elt_data_ptr p _ _ _ _ _ _ H2 Hsr).
    look. rewrite (elt_length p _ _ _ _ _ _ H2 Hsr). reader E3. reader (elt_data_ptr p _ _ _ _ _ _ H3 Hss). look. rewrite (elt_length p _ _ _ _ _ _ H3 Hss). reader E4.
    apply emits_ret.
  - rewrite !kept_app. apply (emits_encapsulated ptr ptr_pos true). last_seq. item. last_item.
Qed.
Lemma ConvertRSASignature_emits s rest rd c : at_elt 21 (signature_tlv (RSASig s)) [] rest rd -> bytes_upto 65530 s = true ->
  exists rd', emits (ConvertRSASignature ptr) rd c [signature_item (RSASig s)] tt rd' c /\ ahead 21 [] rest rd'.
Proof.
  intros H [_ Hs]%bytes_upto_spec. assert (string_elt (TBytes (Ctx kTag_RSASignature) s) s) as Hss by (right; by eexists).
  destruct (elt_GetBytes p _ _ _ _ _ _ H Hss) as (r1 & E1 & H1). exists r1. split; [|done].
  unfold ConvertRSASignature. look. rewrite (elt_type p _ _ _ _ _ H). eapply emits_verify; [done|]. look. change (GetTag rd) with (mElemTag rd). rewrite (elt_tag p _ _ _ _ _ H). eapply emits_verify; [done|].
  apply emits_PutBitString_reader; [done|by apply (elt_length p _ _ _ _ _ _ H Hss)|done|done].
Qed.

(** ** Certificates *)

Lemma next_name_emits n a es rest rd c : ahead 21 (TContainer (Ctx n) kTLVType_Path [attribute_tlv a] :: es) rest rd ->
  exists rd', emits (next_name n) rd c [] tt rd' c /\ at_elt 21 (TContainer (Ctx n) kTLVType_Path [attribute_tlv a]) es rest rd'.
Proof.
  intros H. destruct (Next_cons p Hp 21 _ _ _ _ H) as (r1 & E1 & H1). exists r1. split; [|done]. unfold next_name. reader E1. look.
  change (GetTag r1) with (mElemTag r1). rewrite (elt_tag p _ _ _ _ _ H1). cbn [tree_tag]. eapply emits_verify; [by rewrite Z.eqb_refl, orb_true_r|]. look. rewrite (elt_type p _ _ _ _ _ H1). intros w Hw. by split.
Qed.
Lemma sig_algo_emits algo rd c : emits (do* on_writer (PutObjectId ptr algo) in if is_rsa_sig algo then on_writer (ASN1_PutNull ptr) else ret tt) rd c (sig_algo_items algo) tt rd c.
Proof. unfold sig_algo_items. item. destruct (is_rsa_sig algo); [last_item|apply emits_ret]. Qed.

Lemma ConvertTBSCertificate_emits crt rest rd c : ahead 21 (certificate_elems crt) rest rd -> certificate_parts weave_limits crt ->
  exists rd' c', emits (ConvertTBSCertificate ptr) rd c [tbs_item (kept_in_x509 crt)] tt rd' c' /\ data_of c' = tbs_data (kept_in_x509 crt) (data_of c) /\
    at_elt 21 (signature_tlv (c_signature crt)) [] rest rd'.
Proof.
  intros H []. destruct (sig_algo_facts _ _ _ p_signature) as (Hr & Hu & _). apply bytes_upto_spec in p_serial as [_ Hs]. unfold certificate_elems in H. cbn [app] in H.
  destruct (NextExpect_cons p Hp 21 _ _ _ _ kTLVType_ByteString (Ctx kTag_SerialNumber) H eq_refl eq_refl) as (r1 & E1 & H1).
  assert (string_elt (TBytes (Ctx kTag_SerialNumber) (c_serial crt)) (c_serial crt)) as Hss by (right; by eexists).
  destruct (elt_GetBytes p _ _ _ _ _ _ H1 Hss) as (r2 & E2 & H2).
  destruct (NextExpect_cons p Hp 21 _ _ _ _ kTLVType_UnsignedInteger (Ctx kTag_SignatureAlgorithm) H2 eq_refl eq_refl) as (r3 & E3 & H3).
  pose (c1 := set_SigAlgoOID (c_sigAlgo crt) c). destruct (next_name_emits kTag_Issuer _ _ _ r3 c1 (at_ahead p Hp _ _ _ _ _ H3)) as (r4 & E4 & H4).
  destruct (ConvertDistinguishedName_emits update_IssuerDN _ _ _ _ r4 c1 H4 p_issuer ltac:(done)) as (r5 & E5 & H5). set (c2 := update_IssuerDN _ c1) in E5.
  destruct (ConvertValidity_emits _ _ _ _ r5 c2 H5 p_notBefore p_notAfter) as (r6 & E6 & H6). set (c3 := validity_data _ _ c2) in E6.
  destruct (next_name_emits kTag_Subject _ _ _ r6 c3 H6) as (r7 & E7 & H7).
  destruct (ConvertDistinguishedName_emits update_SubjectDN _ _ _ _ r7 c3 H7 p_subject ltac:(done)) as (r8 & E8 & H8). set (c4 := update_SubjectDN _ c3) in E8.
  destruct (ConvertSubjectPublicKeyInfo_emits _ _ _ r8 c4 H8 p_key) as (r9 & c5 & E9 & HD9 & H9).
  assert (exists r10, Next r9 = (Ok tt, r10) /\ exists r11 c6, emits (let* tag := look GetTag in if IsCertificateExtensionTag tag then ConvertExtensions ptr else ret tt) r10 c5
      (match map kept_extension (c_extensions crt) with [] => [] | l => [AConstructed kASN1TagClass_ContextSpecific 3 [ASequence (map extension_item l)]] end) tt r11 c6 /\
      data_of c6 = fold_left extension_data (map kept_extension (c_extensions crt)) (data_of c5) /\ at_elt 21 (signature_tlv (c_signature crt)) [] rest r11) as (r10 & E10 & r11 & c6 & E11 & HD11 & H11).
  { destruct (c_extensions crt) as [|x l]; cbn [map app] in H9; destruct (Next_cons p Hp 21 _ _ _ _ H9) as (r10 & E10 & H10); exists r10; (split; [done|]).
    - exists r10, c5. split; [|done]. look. change (GetTag r10) with (mElemTag r10). rewrite (elt_tag p _ _ _ _ _ H10), IsCertificateExtensionTag_signature. apply emits_ret.
    - inversion p_extensions as [|? ? Hx Hl]; subst. pose proof (elt_bytes_left p Hp _ _ _ _ _ H10) as HL. rewrite length_app, length_map in HL.
      destruct (convert_extensions_emits l (S (bytes_left r10)) x (c_signature crt) rest r10 c5 ltac:(lia) H10 Hx Hl) as (r11 & c6 & E11 & HD11 & H11).
      exists r11, c6. split; [|done]. look. change (GetTag r10) with (mElemTag r10). rewrite (elt_tag p _ _ _ _ _ H10), IsCertificateExtensionTag_extension.
      apply emits_constructed; [exact ptr_pos|]. last_seq. exact E11. }
  exists r11, c6. split; [|split; [|done]].
  - unfold ConvertTBSCertificate. last_seq. cbn [app]. eapply emits_bind1; [apply emits_constructed; [exact ptr_pos|last_item]|]. reader E1.
    eapply emits_bind1; [apply emits_PutValue_reader; [done|by apply (elt_length p _ _ _ _ _ _ H1 Hss)|exact E2|done]|].
    eapply emits_bind1 with (c1 := c1); [last_seq; reader E3; value (elt_u32 _ _ _ _ _ _ H3 ltac:(lia)); cbv zeta; rewrite Hu|].
    + unfold sig_algo_items. item. rewrite <- (app_nil_r (if is_rsa_sig _ then [ANull] else [])). eapply emits_bind; [|apply emits_last_cert]. destruct (is_rsa_sig _); [last_item|apply emits_ret].
    + eapply emits_bind with (l1 := []); [exact E4|]. eapply emits_bind1; [exact E5|]. eapply emits_bind1; [exact E6|]. eapply emits_bind with (l1 := []); [exact E7|].
      eapply emits_bind1; [exact E8|]. eapply emits_bind1; [exact E9|]. reader E10. exact E11.
  - unfold tbs_data. by rewrite HD11, HD9.
Qed.

Lemma ConvertCert_emits crt rd c : GetType rd = kTLVType_NotSpecified ->
  wf rd -> done_elem rd -> mBufHandle rd = [] -> ImplicitProfileId rd = p -> mContainerType rd = -1 -> flat rd = enc (-1) p (certificate_tlv crt) -> certificate_parts weave_limits crt ->
  exists rd' c', emits (ConvertCert ptr) rd c [certificate_item (kept_in_x509 crt)] tt rd' c' /\ data_of c' = tbs_data (kept_in_x509 crt) (data_of c).
Proof.
  intros HT HW HD HC HI HCt HF HP. destruct (Next_top p Hp _ _ rd HW HD HC HI HCt (certificate_valid crt HP) HF) as (r1 & E1 & H1 & HTg).
  destruct (Enter_struct p _ _ _ _ H1) as (r2 & E2 & H2). destruct (ConvertTBSCertificate_emits crt [] r2 c (before_ahead p _ _ _ _ H2) HP) as (r3 & c1 & E3 & HD3 & H3).
  assert (SigAlgoOID c1 = c_sigAlgo crt) as HS.
  { change (SigAlgoOID (data_of c1) = c_sigAlgo crt). rewrite HD3. unfold tbs_data. rewrite extensions_sig. cbn [kept_in_x509 with_parts c_key]. by destruct (c_key crt). }
  assert (exists r4, emits (if is_rsa_sig (c_sigAlgo crt) then ConvertRSASignature ptr else ConvertECDSASignature ptr) r3 c1 [signature_item (kept_signature (c_signature crt))] tt r4 c1 /\ ahead 21 [] [] r4) as (r4 & E4 & H4).
  { destruct HP as [_ _ _ _ _ _ _ Hsig]. destruct (c_signature crt) as [r s|s]; cbn [signature_ok] in Hsig; rewrite !andb_true_iff in Hsig.
    - destruct Hsig as [[Ha _] _]. assert (is_rsa_sig (c_sigAlgo crt) = false) as ->.
      { rewrite orb_true_iff, !Z.eqb_eq in Ha. by destruct Ha as [-> | ->]. } by apply ConvertECDSASignature_emits.
    - destruct Hsig as [-> Hs]. by apply ConvertRSASignature_emits. }
  destruct (VerifyEnd_ahead p Hp 21 _ _ H4 ltac:(done)) as (r5 & E5 & H5). destruct (Exit_at_end p 21 (-1) _ r5 H5) as (r6 & E6 & _).
  exists r6, c1. split; [|done]. unfold ConvertCert. look. rewrite HT. eapply emits_bind with (l1 := []); [apply emits_last_reader; exact E1|].
  look. rewrite (struct_type p _ _ _ _ H1). eapply emits_verify; [done|]. look. change (GetTag r1) with (mElemTag r1). rewrite HTg. eapply emits_verify; [done|]. reader E2. seq.
  - eapply emits_bind1; [exact E3|]. eapply emits_pure with (a := c_sigAlgo crt); [intros w; cbn; by rewrite HS|]. seq; [apply sig_algo_emits|]. exact E4.
  - reader E5. apply emits_last_reader. exact E6.
Qed.
End Refine.
