(* ===== verification/ASN1Cursor.v ===== *)
(** * An ASN.1 reader at the values of a container

    Where a reader stands among encoded values: at one, before the next, or at the end
    of the container; and how the reader's operations and the steps of ASN1Macros.h
    move it. *)
From S2P Require Import Prelude Encoding PacketBuffer TLVReader ASN1OID ASN1Writer ASN1Reader ASN1Tree ASN1Leaf ASN1Doc ASN1Write ASN1Read.
Local Open Scope Z_scope.
Local Open Scope weave_scope.

(** The class, tag, form and contents of a value's encoding. *)
Definition parts (i : item) : Z * Z * bool * list Z :=
  match i with
  | AConstructed cls tag l => (cls, tag, true, ders l)
  | AEncapsulated bits l => (0, encapsulating_tag bits, false, (if bits then [0] else []) ++ ders l)
  | _ => match leaf i with Some (cls, tag, val) => (cls, tag, false, val) | None => (0, 0, false, []) end
  end.
Lemma der_parts i : item_ok i = true -> let '(cls, tag, c, val) := parts i in
  der i = tlv cls tag c val /\ class_ok cls = true /\ 0 <= tag < 31 /\ ~ (cls = 0 /\ tag = 0).
Proof.
  intros HO. destruct i as [v|b|v|t|oid| |cls tag val|cls tag l|bits l].
  5: { pose proof HO as HO'. cbn [item_ok] in HO'. destruct (GetEncodedObjectID oid) as [enc|] eqn:EO; [|done]. cbn [parts leaf der]. rewrite EO.
       destruct (leaf_ok (AObjectId oid) 0 6 enc HO ltac:(cbn [leaf]; by rewrite EO)) as (H1 & H2 & H3 & _). done. }
  1-6: match goal with |- context [parts ?i] => destruct (leaf i) as [[[cls' tag'] val']|] eqn:E; [|done]; destruct (leaf_ok i cls' tag' val' HO E) as (H1 & H2 & H3 & _);
    cbn [parts der]; rewrite E; done end.
  - cbn [item_ok] in HO. apply andb_prop in HO as [HT _]. apply tag_ok_spec in HT. done.
  - cbn [parts]. split; [done|]. destruct bits; (split; [done|]; split; [done|]; by intros [_ ?]).
Qed.

(** The container that is read: the buffer, the container's end and the contexts. *)
Record frame := mkFrame { fr_buf : list Z; fr_end : Z; fr_saved : list ASN1ParseContext }.

Definition items_fit (F : frame) (l : list item) : Prop :=
  forallb item_ok l = true /\ len (ders l) < 16777216 /\ (length (fr_saved F) + depths l <= 32)%nat.

(** [l] is what is left in the container. *)
Definition upcoming (F : frame) (l : list item) (r : ASN1Reader) : Prop :=
  exists pre rest, ready (fr_buf F) (len pre) (fr_end F) (fr_saved F) r /\ fr_buf F = pre ++ ders l ++ rest /\ fr_end F = len pre + len (ders l) /\ items_fit F l.

(** At [i], with [l] after it. *)
Record at_item (F : frame) (i : item) (l : list item) (r : ASN1Reader) : Prop := {
  ai_here : let '(cls, tag, c, val) := parts i in exists pos, placed (fr_buf F) pos (fr_end F) cls tag c val /\
    r = here (fr_buf F) pos (fr_end F) (fr_saved F) cls tag c val;
  ai_ok : item_ok i = true;
  ai_depth : (length (fr_saved F) + depth i <= 32)%nat;
  ai_next : upcoming F l r }.

Lemma ders_cons i l : ders (i :: l) = der i ++ ders l.
Proof. done. Qed.
Lemma fit_cons F i l : items_fit F (i :: l) -> item_ok i = true /\ len (der i) < 16777216 /\ (length (fr_saved F) + depth i <= 32)%nat /\ items_fit F l.
Proof.
  intros (HO & HL & HD). cbn [forallb] in HO. apply andb_prop in HO as [HO HOs]. rewrite ders_cons, length_app in HL. change (depths (i :: l)) with (Nat.max (depth i) (depths l)) in HD.
  split; [done|]. split; [lia|]. split; [lia|]. split; [done|]. split; lia.
Qed.

Lemma Next_item F i l r : upcoming F (i :: l) r -> exists r', ASN1_Next r = (Ok tt, r') /\ at_item F i l r'.
Proof.
  intros (pre & rest & HR & HB & HE & HF). destruct (fit_cons F i l HF) as (HO & HL & HD & HFs). pose proof (der_parts i HO) as HP.
  destruct (parts i) as [[[cls tag] c] val] eqn:EP. destruct HP as (Hder & HC & HT & HN). rewrite ders_cons, Hder in *. rewrite length_app in HE.
  assert (placed (fr_buf F) (len pre) (fr_end F) cls tag c val) as HPl.
  { split; try done; [exists pre, (ders l ++ rest); by rewrite HB, <- app_assoc|lia|]. pose proof (tlv_length cls tag c val). lia. }
  eexists. split; [by apply (Next_here _ _ _ (fr_saved F) _ _ _ _ HPl)|]. split; [rewrite EP; eauto|done|done|].
  exists (pre ++ tlv cls tag c val), rest. split; [|split; [by rewrite HB, <- !app_assoc|split; [rewrite length_app; lia|done]]].
  rewrite length_app, Nat2Z.inj_add. by apply ready_after.
Qed.
Lemma ASN1_Next_end F r : upcoming F [] r -> exists r', ASN1_Next r = (Err ASN1_END, r') /\ upcoming F [] r'.
Proof.
  intros (pre & rest & [HB HP HE HS HEo HI] & HB' & HE' & HF). unfold ASN1_Next. rewrite HEo, HI. cbv zeta.
  rewrite HP, HE, HE'. cbn [ders map concat length]. rewrite Z.add_0_r.
  unfold ResetElementState, set_ar_position. cbn [ar_ElemStart ar_ContainerEnd]. rewrite Z.eqb_refl. eexists. split; [reflexivity|].
  exists pre, rest. split; [|done]. cbn [ders map concat length] in HE'. split; try done; cbn; [by rewrite Z.add_0_r|lia].
Qed.

(** The current element. *)
Lemma item_head F i l r : at_item F i l r -> let '(cls, tag, c, val) := parts i in ar_Class r = cls /\ ar_Tag r = tag /\ ar_IsConstructed r = c.
Proof. intros [H _ _ _]. destruct (parts i) as [[[cls tag] c] val]. by destruct H as (pos & _ & ->). Qed.

(** A reader about to read the value that another one stands at. *)
Lemma ready_before F pos : ready (fr_buf F) pos (fr_end F) (fr_saved F) (mkASN1Reader (fr_buf F) 0 0 None 0 false false false pos (fr_end F) 0 (fr_saved F)).
Proof. split; try done. apply Z.add_0_r. Qed.
Lemma get_here {A} F pos cls tag c val (g : M ASN1Reader A) x r' : placed (fr_buf F) pos (fr_end F) cls tag c val ->
  (forall r, ready (fr_buf F) pos (fr_end F) (fr_saved F) r -> (do* ASN1_PARSE_ELEMENT cls tag in g) r = (Ok x, r')) ->
  g (here (fr_buf F) pos (fr_end F) (fr_saved F) cls tag c val) = (Ok x, r').
Proof.
  intros HP H. specialize (H _ (ready_before F pos)).
  by rewrite (bind_ok _ _ _ _ _ (PARSE_ELEMENT_here _ _ _ (fr_saved F) _ _ _ _ HP _ (ready_before F pos))) in H.
Qed.
Lemma item_integer F v l r : at_item F (AInteger v) l r -> ASN1_GetInteger r = (Ok v, r).
Proof.
  intros [(pos & HP & ->) HO _ _]. cbn [item_ok] in HO. apply andb_prop in HO as [H1%Z.leb_le H2%Z.ltb_lt]. apply (get_here F pos 0 2 false _ _ _ _ HP).
  intros r HR. apply (PARSE_INTEGER_ok _ _ _ _ _ HR v); [apply (proj1 (fits_8 v)); lia|done].
Qed.
Lemma item_boolean F b l r : at_item F (ABoolean b) l r -> ASN1_GetBoolean r = (Ok b, r).
Proof. intros [(pos & HP & ->) HO _ _]. apply (get_here F pos 0 1 false _ _ _ _ HP). intros r HR. by apply (PARSE_BOOLEAN_ok _ _ _ _ _ HR b). Qed.
Lemma item_bits F v l r : at_item F (ABits v) l r -> GetBitString r = (Ok v, r).
Proof.
  intros [(pos & HP & ->) HO _ _]. cbn [item_ok] in HO. apply andb_prop in HO as [H1%Z.leb_le H2%Z.ltb_lt]. apply (get_here F pos 0 3 false _ _ _ _ HP).
  intros r HR. apply (PARSE_BITS_ok _ _ _ _ _ HR v); [lia|done].
Qed.
Lemma item_oid F oid l r : at_item F (AObjectId oid) l r -> ASN1_GetObjectId r = (Ok oid, r).
Proof.
  intros [HP HO _ _]. cbn [item_ok] in HO. cbn [parts leaf] in HP. destruct (GetEncodedObjectID oid) as [enc|] eqn:EO; [|done]. destruct HP as (pos & HP & ->).
  apply (get_here F pos 0 6 false _ _ _ _ HP). intros r HR. by apply (PARSE_OBJECT_ID_ok _ _ _ _ _ HR oid enc EO).
Qed.

(** ** Steps of ASN1Macros.h *)

(** The class and tag of a value. *)
Definition item_class (i : item) : Z := fst (fst (fst (parts i))).
Definition item_tag (i : item) : Z := snd (fst (fst (parts i))).
Lemma item_class_tag F i l r : at_item F i l r -> ar_Class r = item_class i /\ ar_Tag r = item_tag i.
Proof. intros H. pose proof (item_head F i l r H) as HH. unfold item_class, item_tag. destruct (parts i) as [[[cls tag] c] val]. tauto. Qed.
Lemma VERIFY_TAG_ok F i l r cls tag : at_item F i l r -> item_class i = cls -> item_tag i = tag -> ASN1_VERIFY_TAG cls tag r = (Ok tt, r).
Proof. intros H HC HT. destruct (item_class_tag F i l r H) as [E1 E2]. unfold ASN1_VERIFY_TAG. by rewrite E1, E2, HC, HT, !Z.eqb_refl. Qed.
Lemma PARSE_ELEMENT_item F i l r cls tag : upcoming F (i :: l) r -> item_class i = cls -> item_tag i = tag ->
  exists r', ASN1_PARSE_ELEMENT cls tag r = (Ok tt, r') /\ at_item F i l r'.
Proof.
  intros H HC HT. destruct (Next_item F i l r H) as (r' & E & H'). exists r'. split; [|done]. unfold ASN1_PARSE_ELEMENT.
  rewrite (bind_ok _ _ _ _ _ E). by apply (VERIFY_TAG_ok F i l).
Qed.
Lemma PARSE_INTEGER_item F v l r : upcoming F (AInteger v :: l) r -> exists r', ASN1_PARSE_INTEGER r = (Ok v, r') /\ upcoming F l r'.
Proof.
  intros H. destruct (PARSE_ELEMENT_item F _ l r 0 2 H eq_refl eq_refl) as (r' & E & H'). exists r'. split; [|apply (ai_next _ _ _ _ H')]. unfold ASN1_PARSE_INTEGER.
  rewrite (bind_ok _ _ _ _ _ E). by apply (item_integer F v l).
Qed.
Lemma PARSE_OBJECT_ID_item F oid l r : upcoming F (AObjectId oid :: l) r -> exists r', ASN1_PARSE_OBJECT_ID r = (Ok oid, r') /\ upcoming F l r'.
Proof.
  intros H. assert (item_class (AObjectId oid) = 0 /\ item_tag (AObjectId oid) = 6) as [HC HT].
  { destruct H as (_ & _ & _ & _ & _ & HF). destruct (fit_cons F _ l HF) as (HO & _). cbn [item_ok] in HO. unfold item_class, item_tag. cbn [parts leaf]. by destruct (GetEncodedObjectID oid). }
  destruct (PARSE_ELEMENT_item F _ l r 0 6 H HC HT) as (r' & E & H'). exists r'. split; [|apply (ai_next _ _ _ _ H')]. unfold ASN1_PARSE_OBJECT_ID.
  rewrite (bind_ok _ _ _ _ _ E). by apply (item_oid F oid l).
Qed.
Lemma PARSE_NULL_item F l r : upcoming F (ANull :: l) r -> exists r', ASN1_PARSE_NULL r = (Ok tt, r') /\ upcoming F l r'.
Proof. intros H. destruct (PARSE_ELEMENT_item F _ l r 0 5 H eq_refl eq_refl) as (r' & E & H'). exists r'. split; [done|apply (ai_next _ _ _ _ H')]. Qed.
Lemma PARSE_TIME_item F t l r : upcoming F (ATime t :: l) r -> exists r', ASN1_PARSE_TIME r = (Ok t, r') /\ upcoming F l r'.
Proof.
  intros H. destruct (Next_item F _ l r H) as (r1 & E & [(pos & HP & ->) HO _ HN]). exists (here (fr_buf F) pos (fr_end F) (fr_saved F) 0 (fst (der_time t)) false (snd (der_time t))). split; [|done].
  pose proof (PARSE_TIME_ok _ _ _ _ _ (ready_before F pos) t HO HP) as E2. unfold ASN1_PARSE_TIME in E2 |- *.
  rewrite (bind_ok _ _ _ _ _ (Next_here _ _ _ (fr_saved F) _ _ _ _ HP _ (ready_before F pos))) in E2. by rewrite (bind_ok _ _ _ _ _ E).
Qed.

(** Entering a value made of others, and leaving it when all of them were read. *)
Definition enters (F : frame) (inner l : list item) (F' : frame) (r' : ASN1Reader) : Prop :=
  upcoming F' inner r' /\ fr_buf F' = fr_buf F /\ forall r2, upcoming F' [] r2 -> exists r3, ASN1_EXIT_CONSTRUCTED r2 = (Ok tt, r3) /\ upcoming F l r3.
Lemma enter_here F i l r inner k c cls tag : at_item F i l r -> parts i = (cls, tag, c, k ++ ders inner) -> forallb item_ok inner = true -> depth i = S (depths inner) ->
  exists r' F', ASN1_EnterContainer (len k) r = (Ok tt, r') /\ enters F inner l F' r'.
Proof.
  intros [H HO HD HN] EP HOs HDi. rewrite EP in H. destruct H as (pos & HP & ->). destruct HN as (pre & rest & HR & HB & HE & HF). pose proof (ready_after _ _ _ (fr_saved F) _ _ _ _ HP) as HR'.
  destruct (EnterContainer_here _ _ _ (fr_saved F) _ _ _ _ (len k) HP ltac:(lia)) as (r1 & E1 & H1). set (val := k ++ ders inner) in *.
  assert (len val = len k + len (ders inner)) as HVL by (unfold val; rewrite length_app; lia). pose proof HP as [(pre0 & rest0 & HB0 & HPos) HE0 _ _ _ HL].
  exists r1, (mkFrame (fr_buf F) (pos + head_len val + len val) (context pos (fr_end F) val :: fr_saved F)). split; [done|]. split; [|split; [done|]].
  - exists (pre0 ++ tag_byte cls tag c :: der_length (len val) ++ k), rest0. cbn [fr_buf fr_end fr_saved].
    assert (len (pre0 ++ tag_byte cls tag c :: der_length (len val) ++ k) = pos + head_len val + len k) as HLP
      by (rewrite HPos, length_app; unfold head_len; cbn [length]; rewrite length_app; lia).
    rewrite HLP. split; [done|]. split; [rewrite HB0; unfold tlv, val; by app_norm|]. split; [lia|]. split; [done|]. cbn [fr_saved length]. split; lia.
  - intros r2 (pre2 & rest2 & HR2 & HB2 & HE2 & _). cbn [fr_buf fr_end fr_saved ders map concat length] in *. rewrite Z.add_0_r in HE2. rewrite <- HE2 in HR2.
    destruct (exit_here _ _ _ (fr_saved F) _ _ _ _ _ HP HR2) as (r3 & E3 & H3). exists r3. split; [done|]. exists pre, rest.
    assert (len pre = pos + len (tlv cls tag c val)) as EPos by (destruct HR as [_ HRp _ _ _ _], HR' as [_ HRp' _ _ _ _]; by rewrite <- HRp, HRp').
    split; [by rewrite EPos|done].
Qed.
Lemma Enter_constructed F cls tag inner l r : at_item F (AConstructed cls tag inner) l r ->
  exists r' F', EnterConstructedType r = (Ok tt, r') /\ enters F inner l F' r'.
Proof.
  intros H. pose proof (ai_ok _ _ _ _ H) as HO. cbn [item_ok] in HO. apply andb_prop in HO as [_ HO].
  destruct (enter_here F _ l r inner [] true cls tag H eq_refl HO eq_refl) as (r' & F' & E & H'). exists r', F'. split; [|done].
  destruct (item_head F _ l r H) as (_ & _ & HC). unfold EnterConstructedType. by rewrite HC.
Qed.
Lemma Enter_encapsulated F bits inner l r : at_item F (AEncapsulated bits inner) l r ->
  exists r' F', EnterEncapsulatedType r = (Ok tt, r') /\ enters F inner l F' r'.
Proof.
  intros H. pose proof (ai_ok _ _ _ _ H) as HO. cbn [item_ok] in HO.
  destruct (enter_here F _ l r inner (if bits then [0] else []) false 0 (encapsulating_tag bits) H eq_refl HO eq_refl) as (r' & F' & E & H'). exists r', F'. split; [|done].
  destruct (item_head F _ l r H) as (HC1 & HC2 & HC3). unfold EnterEncapsulatedType. rewrite HC1, HC2, HC3. rewrite <- E. by destruct bits.
Qed.

(** The contents of a value as bytes of the buffer. *)
Lemma item_bytes F cls tag val l r : at_item F (APrimitive cls tag val) l r -> exists p, ar_Value r = Some p /\ ar_ValueLen r = len val /\ ar_buf r = fr_buf F /\
  exists pre rest, fr_buf F = pre ++ val ++ rest /\ p = len pre.
Proof.
  intros [(pos & HP & ->) _ _ _]. exists (pos + head_len val). split; [done|]. split; [done|]. split; [done|]. destruct HP as [(pre & rest & HB & ->) _ _ _ _ _].
  exists (pre ++ tag_byte cls tag false :: der_length (len val)), rest. split; [rewrite HB; unfold tlv; by app_norm|].
  rewrite length_app. unfold head_len. cbn [length]. lia.
Qed.

(** There are no more values than bytes. *)
Lemma items_length F l r : upcoming F l r -> (length l <= length (ar_buf r))%nat.
Proof.
  intros (pre & rest & [HB _ _ _ _ _] & HB' & _ & (HO & _)). rewrite HB, HB', !length_app. assert (length l <= length (ders l))%nat; [|lia]. clear -HO.
  induction l as [|i l IH]; [done|]. cbn [forallb] in HO. apply andb_prop in HO as [HO HOs]. rewrite ders_cons, length_app. pose proof (der_parts i HO) as HP.
  destruct (parts i) as [[[cls tag] c] val]. destruct HP as [-> _]. specialize (IH HOs). unfold tlv. cbn [length]. lia.
Qed.
