(* ===== verification/XConvRun.v ===== *)
(** * Steps of the conversion from X.509 as steps of the TLV writer

    A step of X509ToCert does to the TLV writer what [put_list] does with some
    elements, and moves the ASN.1 reader.  The rules here build such a statement along
    the code. *)
From S2P Require Import Prelude Encoding PacketBuffer TLVTypes TLVReader TLVWriter TLVHead TLVTree ASN1OID ASN1Writer ASN1Reader ASN1Tree ASN1Leaf ASN1Doc ASN1Write ASN1Cursor Cert CertToX509 X509ToCert.
Local Open Scope Z_scope.
Local Open Scope weave_scope.

(** [m] does to the writer what [o] does. *)
Definition does {A} (m : M XConv A) (r : ASN1Reader) (o : M TLVWriter unit) (a : A) (r' : ASN1Reader) : Prop := forall w,
  match o w with
  | (Ok _, w') => m (mkXConv r w) = (Ok a, mkXConv r' w')
  | (Err e, _) => fst (m (mkXConv r w)) = Err e
  | (Undefined, _) => fst (m (mkXConv r w)) = Undefined
  | (Diverges, _) => fst (m (mkXConv r w)) = Diverges
  end.
Definition yields {A} (m : M XConv A) (r : ASN1Reader) (ts : list TLVTree.tlv) (a : A) (r' : ASN1Reader) : Prop := does m r (put_list ts) a r'.

Lemma does_ext {A} (m : M XConv A) r o o' a r' : (forall w, o w = o' w) -> does m r o' a r' -> does m r o a r'.
Proof. intros E H w. rewrite E. apply H. Qed.
Lemma does_bind {A B} (m : M XConv A) (k : A -> M XConv B) r o1 a r1 o2 b r2 :
  does m r o1 a r1 -> does (k a) r1 o2 b r2 -> does (bind m k) r (do* o1 in o2) b r2.
Proof.
  intros H1 H2 w. specialize (H1 w). unfold bind. destruct (o1 w) as [[[]|e| |] w1].
  - rewrite H1. exact (H2 w1).
  - destruct (m (mkXConv r w)) as [[] ?]; by simplify_eq/=.
  - destruct (m (mkXConv r w)) as [[] ?]; by simplify_eq/=.
  - destruct (m (mkXConv r w)) as [[] ?]; by simplify_eq/=.
Qed.
Lemma does_pure {A B} (m : M XConv A) (k : A -> M XConv B) r o a r1 b r2 :
  (forall w, m (mkXConv r w) = (Ok a, mkXConv r1 w)) -> does (k a) r1 o b r2 -> does (bind m k) r o b r2.
Proof. intros H1 H2 w. specialize (H2 w). unfold bind. by rewrite H1. Qed.
Lemma does_writer o r : does (on_tlv o) r o tt r.
Proof. intros w. unfold on_tlv. cbn. by destruct (o w) as [[[]|e| |] w1]. Qed.

Lemma put_list_app l1 l2 w : put_list (l1 ++ l2) w = (do* put_list l1 in put_list l2) w.
Proof.
  revert w. induction l1 as [|t l1 IH]; intros w; [done|]. change (put_list ((t :: l1) ++ l2)) with (do* put t in put_list (l1 ++ l2)).
  change (put_list (t :: l1)) with (do* put t in put_list l1). rewrite bind_assoc. apply bind_ext. intros _ w'. apply IH.
Qed.
Lemma put_list_1 t w : put_list [t] w = put t w.
Proof. unfold put_list. cbn [foldr]. unfold bind, ret. by destruct (put t w) as [[[]|e| |] w1]. Qed.
Lemma put_container tag c ts w : put (TContainer tag c ts) w = (let* outer := StartContainer tag c in do* put_list ts in EndContainer outer) w.
Proof. reflexivity. Qed.

(** [m] writes [ts] and leaves [l] to be read. *)
Definition writes_to {A} (m : M XConv A) (r : ASN1Reader) (ts : list TLVTree.tlv) (a : A) (F : frame) (l : list item) : Prop :=
  exists r', yields m r ts a r' /\ upcoming F l r'.

Section Rules.
Context {A B : Type} (k : A -> M XConv B) (r : ASN1Reader) (ts : list TLVTree.tlv) (b : B) (F : frame) (l : list item).
Lemma to_bind (m : M XConv A) ts1 a r1 : yields m r ts1 a r1 -> writes_to (k a) r1 ts b F l -> writes_to (bind m k) r (ts1 ++ ts) b F l.
Proof. intros H1 (r2 & H2 & H). exists r2. split; [|done]. eapply does_ext; [apply put_list_app|]. by eapply does_bind. Qed.
Lemma to_bind_to (m : M XConv A) ts1 a F1 l1 : writes_to m r ts1 a F1 l1 -> (forall r1, upcoming F1 l1 r1 -> writes_to (k a) r1 ts b F l) -> writes_to (bind m k) r (ts1 ++ ts) b F l.
Proof. intros (r1 & H1 & HU) H. eapply to_bind; [exact H1|]. by apply H. Qed.
Lemma to_bind1 (m : M XConv A) t a r1 : yields m r [t] a r1 -> writes_to (k a) r1 ts b F l -> writes_to (bind m k) r (t :: ts) b F l.
Proof. apply (to_bind m [t]). Qed.
Lemma to_bind_to1 (m : M XConv A) t a F1 l1 : writes_to m r [t] a F1 l1 -> (forall r1, upcoming F1 l1 r1 -> writes_to (k a) r1 ts b F l) -> writes_to (bind m k) r (t :: ts) b F l.
Proof. apply (to_bind_to m [t]). Qed.
Lemma to_pure (m : M XConv A) a r1 : (forall w, m (mkXConv r w) = (Ok a, mkXConv r1 w)) -> writes_to (k a) r1 ts b F l -> writes_to (bind m k) r ts b F l.
Proof. intros E (r2 & H2 & H). exists r2. split; [|done]. by eapply does_pure. Qed.
Lemma to_asn1 (m : M ASN1Reader A) a r1 : m r = (Ok a, r1) -> writes_to (k a) r1 ts b F l -> writes_to (bind (on_asn1 m) k) r ts b F l.
Proof. intros E. apply to_pure. intros w. unfold on_asn1. cbn [xc_reader xc_writer]. by rewrite E. Qed.
Lemma to_peek (f : ASN1Reader -> A) : writes_to (k (f r)) r ts b F l -> writes_to (bind (peek f) k) r ts b F l.
Proof. by apply to_pure. Qed.
End Rules.

Section UnitRules.
Context {B : Type} (k : unit -> M XConv B) (r : ASN1Reader) (ts : list TLVTree.tlv) (b : B) (F : frame) (l : list item).
Lemma to_verify (cond : bool) e : cond = true -> writes_to (k tt) r ts b F l -> writes_to (bind (verify cond e) k) r ts b F l.
Proof. intros ->. by apply to_pure. Qed.
Lemma to_nothing : writes_to (k tt) r ts b F l -> writes_to (bind (ret tt) k) r ts b F l.
Proof. by apply to_pure. Qed.
Lemma to_elem t o : (forall w, put t w = o w) -> writes_to (k tt) r ts b F l -> writes_to (bind (on_tlv o) k) r (t :: ts) b F l.
Proof.
  intros E H. change (t :: ts) with ([t] ++ ts). eapply to_bind; [|exact H]. eapply does_ext; [|apply does_writer]. intros w. by rewrite put_list_1, E.
Qed.
End UnitRules.

Lemma yields_ret {A} (a : A) r : yields (ret a) r [] a r.
Proof. by intros w. Qed.
Lemma to_ret {A} (a : A) r F l : upcoming F l r -> writes_to (ret a) r [] a F l.
Proof. intros H. exists r. split; [apply yields_ret|done]. Qed.
Lemma yields_elem t o r : (forall w, put t w = o w) -> yields (on_tlv o) r [t] tt r.
Proof. intros E. eapply does_ext; [|apply does_writer]. intros w. by rewrite put_list_1, E. Qed.
Lemma to_last_elem t o r F l : (forall w, put t w = o w) -> upcoming F l r -> writes_to (on_tlv o) r [t] tt F l.
Proof. intros E H. exists r. split; [by apply yields_elem|done]. Qed.
Lemma to_last_asn1 {A} (m : M ASN1Reader A) a r r' F l : m r = (Ok a, r') -> upcoming F l r' -> writes_to (on_asn1 m) r [] a F l.
Proof. intros E H. exists r'. split; [|done]. intros w. cbn. unfold on_asn1. cbn. by rewrite E. Qed.

(** *** Containers of the writer *)

(** The same with something to follow, such as the end of a container. *)
Lemma does_step {A B} (m : M XConv A) (k : A -> M XConv B) r ts1 a r1 ts2 o b r2 :
  yields m r ts1 a r1 -> does (k a) r1 (do* put_list ts2 in o) b r2 -> does (bind m k) r (do* put_list (ts1 ++ ts2) in o) b r2.
Proof.
  intros H1 H2. eapply does_ext; [|eapply does_bind; [exact H1|exact H2]]. intros w. rewrite <- bind_assoc. unfold bind at 1 3. by rewrite put_list_app.
Qed.
Lemma does_last o r : does (on_tlv o) r (do* put_list [] in o) tt r.
Proof. eapply does_ext; [|apply does_writer]. intros w. reflexivity. Qed.
Lemma yields_open tag c (k : Z -> M XConv unit) r ts r' :
  (forall outer, does (k outer) r (do* put_list ts in EndContainer outer) tt r') -> yields (bind (on_tlv (StartContainer tag c)) k) r [TContainer tag c ts] tt r'.
Proof.
  intros H. eapply does_ext; [intros w; rewrite put_list_1; apply put_container|]. intros w. unfold bind, on_tlv. cbn [xc_reader xc_writer].
  destruct (StartContainer tag c w) as [[outer|e| |] w1]; [exact (H outer w1)|done..].
Qed.
Lemma yields_container tag c m r ts r' : yields m r ts tt r' -> yields (container tag c m) r [TContainer tag c ts] tt r'.
Proof.
  intros H. unfold container. apply yields_open. intros outer. rewrite <- (app_nil_r ts). eapply does_step; [exact H|apply does_last].
Qed.
Lemma to_container tag c m r ts F l : writes_to m r ts tt F l -> writes_to (container tag c m) r [TContainer tag c ts] tt F l.
Proof. intros (r' & H & HU). exists r'. split; [by apply yields_container|done]. Qed.

(** *** Values made of others *)


Lemma enter_constructed_step F cls tag inner l r : at_item F (AConstructed cls tag inner) l r ->
  exists r' F', ASN1_ENTER_CONSTRUCTED cls tag r = (Ok tt, r') /\ enters F inner l F' r'.
Proof.
  intros H. destruct (Enter_constructed F cls tag inner l r H) as (r' & F' & E & H'). exists r', F'. split; [|done]. unfold ASN1_ENTER_CONSTRUCTED.
  by rewrite (bind_ok _ _ _ _ _ (VERIFY_TAG_ok F _ l r cls tag H eq_refl eq_refl)).
Qed.
Lemma parse_enter_step F cls tag inner l r : upcoming F (AConstructed cls tag inner :: l) r ->
  exists r' F', ASN1_PARSE_ENTER_CONSTRUCTED cls tag r = (Ok tt, r') /\ enters F inner l F' r'.
Proof.
  intros H. destruct (Next_item F _ l r H) as (r1 & E1 & H1). destruct (enter_constructed_step F cls tag inner l r1 H1) as (r' & F' & E & H'). exists r', F'. split; [|done].
  unfold ASN1_PARSE_ENTER_CONSTRUCTED. by rewrite (bind_ok _ _ _ _ _ E1).
Qed.
Lemma enter_encapsulated_step F bits inner l r : at_item F (AEncapsulated bits inner) l r ->
  exists r' F', ASN1_ENTER_ENCAPSULATED kASN1TagClass_Universal (encapsulating_tag bits) r = (Ok tt, r') /\ enters F inner l F' r'.
Proof.
  intros H. destruct (Enter_encapsulated F bits inner l r H) as (r' & F' & E & H'). exists r', F'. split; [|done]. unfold ASN1_ENTER_ENCAPSULATED.
  by rewrite (bind_ok _ _ _ _ _ (VERIFY_TAG_ok F _ l r _ _ H eq_refl eq_refl)).
Qed.
Section Contents.
Context (m : M XConv unit) (F : frame) (l inner : list item) (r : ASN1Reader) (ts : list TLVTree.tlv).
Hypothesis H_inner : forall F' r', upcoming F' inner r' -> fr_buf F' = fr_buf F -> writes_to m r' ts tt F' [].
Lemma to_contents F' r' : enters F inner l F' r' -> writes_to (do* m in on_asn1 ASN1_EXIT_CONSTRUCTED) r' ts tt F l.
Proof using H_inner.
  intros (HU & HB & HX). destruct (H_inner F' r' HU HB) as (r1 & H1 & HU1). destruct (HX r1 HU1) as (r2 & E2 & H2).
  rewrite <- (app_nil_r ts). eapply to_bind; [exact H1|]. by eapply to_last_asn1.
Qed.
Lemma to_parse_constructed cls tag : upcoming F (AConstructed cls tag inner :: l) r -> writes_to (parse_constructed cls tag m) r ts tt F l.
Proof using H_inner.
  intros H. destruct (parse_enter_step F cls tag inner l r H) as (r' & F' & E & HE). unfold parse_constructed. eapply to_asn1; [exact E|]. by eapply to_contents.
Qed.
Lemma to_enter_constructed cls tag : at_item F (AConstructed cls tag inner) l r -> writes_to (enter_constructed cls tag m) r ts tt F l.
Proof using H_inner.
  intros H. destruct (enter_constructed_step F cls tag inner l r H) as (r' & F' & E & HE). unfold enter_constructed. eapply to_asn1; [exact E|]. by eapply to_contents.
Qed.
Lemma to_enter_encapsulated bits : at_item F (AEncapsulated bits inner) l r -> writes_to (enter_encapsulated (encapsulating_tag bits) m) r ts tt F l.
Proof using H_inner.
  intros H. destruct (enter_encapsulated_step F bits inner l r H) as (r' & F' & E & HE). unfold enter_encapsulated. eapply to_asn1; [exact E|]. by eapply to_contents.
Qed.
End Contents.

(** *** Reading the next value, if there is one *)

Lemma next_err_item F i l r : upcoming F (i :: l) r -> exists r', at_item F i l r' /\ forall w, next_err (mkXConv r w) = (Ok None, mkXConv r' w).
Proof. intros H. destruct (Next_item F i l r H) as (r' & E & H'). exists r'. split; [done|]. intros w. unfold next_err. cbn [xc_reader]. by rewrite E. Qed.
Lemma next_err_end F r : upcoming F [] r -> exists r', upcoming F [] r' /\ forall w, next_err (mkXConv r w) = (Ok (Some ASN1_END), mkXConv r' w).
Proof. intros H. destruct (ASN1_Next_end F r H) as (r' & E & H'). exists r'. split; [done|]. intros w. unfold next_err. cbn [xc_reader]. by rewrite E. Qed.

(** *** Copying a value's bytes *)

Lemma put_value_ok F cls tag val l r type t k s w : at_item F (APrimitive cls tag val) l r -> val = k ++ s ->
  put_value_at type t (Z.of_nat (length k)) (mkXConv r w) = on_tlv (WriteElementWithData type t s) (mkXConv r w).
Proof.
  intros H ->. pose proof (ai_next _ _ _ _ H) as (_ & _ & _ & _ & _ & HF). pose proof H as [_ HO _ _]. cbn [item_ok] in HO. apply andb_prop in HO as [_ HL%Z.leb_le].
  destruct (item_bytes F cls tag _ l r H) as (q & EV & EL & EB & pre & rest & HB & ->). rewrite length_app in HL. unfold put_value_at, put_bytes_at. cbn [xc_reader]. rewrite EV, EL, EB, HB.
  replace (u32 (len (k ++ s) - len k)) with (len s) by (rewrite length_app, u32_id; lia).
  rewrite (proj2 (Z.leb_le 0 _)) by lia. rewrite (proj2 (Z.leb_le (len pre + len k + len s) _)) by (rewrite !length_app; lia). cbn [andb].
  replace (len pre + len k) with (len (pre ++ k)) by (rewrite length_app; lia).
  replace (pre ++ (k ++ s) ++ rest) with ((pre ++ k) ++ s ++ rest) by (by rewrite <- !app_assoc). by rewrite block_read_app.
Qed.
Lemma yields_bytes F cls tag val l r t k s : at_item F (APrimitive cls tag val) l r -> val = k ++ s ->
  yields (put_value_at kTLVType_ByteString t (Z.of_nat (length k))) r [TBytes t s] tt r.
Proof.
  intros H E. eapply does_ext; [intros w; apply put_list_1|]. intros w. rewrite (put_value_ok F cls tag val l r kTLVType_ByteString t k s w H E). by apply does_writer.
Qed.
Lemma yields_string F cls tag val l r t : at_item F (APrimitive cls tag val) l r -> yields (PutString_value t) r [TUtf8 t val] tt r.
Proof.
  intros H. eapply does_ext; [intros w; apply put_list_1|]. intros w. change (PutString_value t) with (put_value_at kTLVType_UTF8String t (Z.of_nat (length (@nil Z)))).
  rewrite (put_value_ok F cls tag val l r kTLVType_UTF8String t [] val w H eq_refl). by apply does_writer.
Qed.
Lemma yields_PutBytes F cls tag val l r t : at_item F (APrimitive cls tag val) l r -> yields (PutBytes_value t) r [TBytes t val] tt r.
Proof. intros H. by apply (yields_bytes F cls tag val l r t [] val). Qed.
