(* ===== verification/X509ToCertRefine.v ===== *)
(** * The conversion of X.509 certificates writes the Weave form

    Each converter of X509ToCert, before or at the value that it converts, writes the
    elements of the Weave form and leaves the reader after the value. *)
From S2P Require Import Prelude Encoding PacketBuffer TLVTypes TLVReader TLVWriter TLVHead TLVTree ASN1OID ASN1Writer ASN1Reader ASN1Tree ASN1Leaf ASN1Doc ASN1Write ASN1Read ASN1Cursor CertTime Cert CertToX509 CertSpec X509ToCert XConvRun.
Local Open Scope Z_scope.
Local Open Scope weave_scope.

Ltac asn1 E := eapply to_asn1; [exact E|].
Ltac peek := eapply to_peek.
Ltac elem := eapply to_elem; [reflexivity|].
Ltac last_elem := apply to_last_elem; [reflexivity|].

(** ** Weave identifiers in names *)

Definition nibbles (id : Z) : list Z := map (fun i => Z.land (Z.shiftr id (4 * (15 - i))) 15) (upto 16).
Lemma weave_id_nibbles id : weave_id_string id = map hex_digit (nibbles id).
Proof. unfold weave_id_string, nibbles. by rewrite map_map. Qed.
Lemma nibbles_range id d : In d (nibbles id) -> 0 <= d < 16.
Proof. intros (i & <- & _)%in_map_iff. change 15 with (2 ^ 4 - 1) at 2 4. rewrite land_ones_mod by lia. apply Z.mod_pos_bound. lia. Qed.
Lemma digits_fold n : forall id v, 0 <= id ->
  fold_left (fun v d => v * 16 + d) (map (fun i => (id / 16 ^ (Z.of_nat n - 1 - i)) mod 16) (upto (Z.of_nat n))) v = v * 16 ^ Z.of_nat n + id mod 16 ^ Z.of_nat n.
Proof.
  induction n as [|n IH]; intros id v Hid.
  - change (Z.of_nat 0) with 0. change (upto 0) with (@nil Z). cbn [map fold_left]. rewrite Z.pow_0_r, Z.mod_1_r. lia.
  - replace (upto (Z.of_nat (S n))) with (upto (Z.of_nat n) ++ [Z.of_nat n]).
    2:{ unfold upto. rewrite Nat2Z.inj_succ, <- Z.add_1_r, seqZ_app by lia. done. }
    rewrite map_app, fold_left_app. cbn [map fold_left].
    rewrite (map_ext_in _ (fun i => ((id / 16) / 16 ^ (Z.of_nat n - 1 - i)) mod 16)).
    + rewrite IH by (apply Z.div_pos; lia). rewrite Nat2Z.inj_succ. replace (Z.succ (Z.of_nat n) - 1 - Z.of_nat n) with 0 by lia.
      rewrite Z.pow_0_r, Z.div_1_r, Z.pow_succ_r by lia. rewrite Z.rem_mul_r by (try lia; apply Z.pow_pos_nonneg; lia). lia.
    + intros i Hi. apply list_elem_of_In, elem_of_seqZ in Hi. f_equal. rewrite Z.div_div by (try lia; apply Z.pow_pos_nonneg; lia). f_equal.
      rewrite <- Z.pow_succ_r by lia. f_equal. lia.
Qed.
Lemma nibbles_fold id : 0 <= id < 18446744073709551616 -> fold_left (fun v d => v * 16 + d) (nibbles id) 0 = id.
Proof.
  intros Hid. unfold nibbles. rewrite (map_ext_in _ (fun i => (id / 16 ^ (Z.of_nat 16 - 1 - i)) mod 16)).
  - etransitivity; [apply (digits_fold 16 id 0); lia|]. rewrite Z.mod_small; [lia|]. change (16 ^ Z.of_nat 16) with 18446744073709551616. lia.
  - intros i Hi. apply list_elem_of_In, elem_of_seqZ in Hi. change 15 with (2 ^ 4 - 1) at 2. rewrite land_ones_mod by lia. rewrite shiftr_div by lia.
    change (2 ^ 4) with 16. f_equal. f_equal. rewrite Z.pow_mul_r by lia. done.
Qed.

Lemma hex_digit_cases d : 0 <= d < 16 -> 48 <= hex_digit d <= 57 /\ hex_digit d - 48 = d \/ 65 <= hex_digit d <= 70 /\ hex_digit d - 65 + 10 = d.
Proof. intros Hd. unfold hex_digit. destruct (Z.ltb_spec d 10); lia. Qed.
Lemma parse_weave_id_digits ds : forall pre rest v k r, ar_buf r = pre ++ map hex_digit ds ++ rest -> Forall (fun d => 0 <= d < 16) ds ->
  0 <= v < 16 ^ Z.of_nat k -> (k + length ds <= 16)%nat -> parse_weave_id (length ds) (len pre) v r = (Ok (fold_left (fun v d => v * 16 + d) ds v), r).
Proof.
  induction ds as [|d ds IH]; intros pre rest v k r HB HD Hv Hk; [done|]. inversion HD as [|? ? Hd HD']; subst. cbn [length] in Hk.
  assert (0 <= v * 16 < 16 ^ Z.of_nat (S k) - 15) as Hv' by (rewrite Nat2Z.inj_succ, Z.pow_succ_r by lia; lia).
  assert (16 ^ Z.of_nat (S k) <= 16 ^ 16) as Hb by (apply Z.pow_le_mono_r; lia). change (16 ^ 16) with 18446744073709551616 in Hb.
  cbn [length parse_weave_id fold_left]. rewrite shiftl_mul by lia. change (2 ^ 4) with 16. rewrite u64_id by lia.
  cbn [map] in HB. rewrite (bind_ok _ _ _ _ _ (deref_app pre (hex_digit d) _ r HB)).
  assert (Z.lor (v * 16) d = v * 16 + d) as HL by (change 16 with (2 ^ 4); apply lor_add_disjoint; lia).
  replace (len pre + 1) with (len (pre ++ [hex_digit d])) by (rewrite length_app; cbn; lia).
  assert (ar_buf r = (pre ++ [hex_digit d]) ++ map hex_digit ds ++ rest) as HB' by (by rewrite <- app_assoc).
  destruct (hex_digit_cases d Hd) as [[Hh E]|[Hh E]].
  - rewrite (proj2 (Z.leb_le 48 _)), (proj2 (Z.leb_le _ 57)) by lia. cbn [andb]. rewrite E, HL. apply (IH _ rest _ (S k)); [done|done|lia|lia].
  - rewrite (proj2 (Z.leb_gt _ 57)) by lia. rewrite andb_false_r, (proj2 (Z.leb_le 65 _)), (proj2 (Z.leb_le _ 70)) by lia. cbn [andb].
    rewrite E, HL. apply (IH _ rest _ (S k)); [done|done|lia|lia].
Qed.
Lemma ParseWeaveId_item F cls tag id l r : at_item F (APrimitive cls tag (weave_id_string id)) l r -> 0 <= id < 18446744073709551616 -> ParseWeaveIdAttribute r = (Ok id, r).
Proof.
  intros H Hid. destruct (item_bytes F cls tag _ l r H) as (q & EV & EL & EB & pre & rest & HB & ->). unfold ParseWeaveIdAttribute.
  rewrite EL, EV. change (len (weave_id_string id) =? 16) with true. cbn [negb]. rewrite weave_id_nibbles in HB.
  change 16%nat with (length (nibbles id)). rewrite (parse_weave_id_digits (nibbles id) pre rest 0 0 r); [by rewrite nibbles_fold|by rewrite EB| |cbn; lia|done].
  apply List.Forall_forall. apply nibbles_range.
Qed.

(** ** Names *)

Ltac item_step H r' H' E := match type of H with upcoming ?F (?i :: ?l) ?r => destruct (Next_item F i l r H) as (r' & E & H') end.

Lemma attribute_category a : attribute_ok a = true -> (GetOIDCategory (attribute_oid a) =? kOIDCategory_AttributeType) = true.
Proof.
  destruct a as [oid id|oid printable s]; cbn [attribute_ok attribute_oid]; rewrite !andb_true_iff; intros H.
  - destruct H as [H%id_oid _]. by destruct H as [-> |[-> |[-> | ->]]].
  - destruct H as [[[H _] _] _]. unfold known_oid in H. by apply andb_prop in H as [H _].
Qed.
(** The string's tag gives back its form. *)
Lemma string_tag_facts oid printable : negb (printable && (oid =? kOID_AttributeType_DomainComponent)) = true ->
  let tag := string_tag oid printable in
  (tag =? kASN1UniversalTag_PrintableString) || (tag =? kASN1UniversalTag_UTF8String) || (tag =? kASN1UniversalTag_IA5String) = true /\
  (tag =? kASN1UniversalTag_PrintableString) = printable.
Proof. unfold string_tag. by destruct (oid =? _), printable. Qed.
Lemma convert_attribute_ok F a r : upcoming F (attribute_items a) r -> attribute_ok a = true -> writes_to convert_attribute r [attribute_tlv a] tt F [].
Proof.
  intros H Ha. destruct (attribute_num a Ha) as (Hn & _ & _ & Hm). pose proof (attribute_category a Ha) as HCat.
  assert (exists i, attribute_items a = [AObjectId (attribute_oid a); i]) as [i Ei] by (destruct a; by eexists). rewrite Ei in H.
  destruct (PARSE_OBJECT_ID_item F _ _ r H) as (r1 & E1 & H1). item_step H1 r2 H2 E2. destruct (item_class_tag F _ _ r2 H2) as [HC HT].
  unfold convert_attribute. asn1 E1. eapply to_verify; [done|]. asn1 E2. peek. peek. rewrite HC, HT, Hm.
  change (IsWeaveX509Attr (attribute_oid a)) with (IsWeaveIdX509Attr (attribute_oid a)). rewrite u8_id by lia.
  destruct a as [oid id|oid printable s]; cbn [attribute_items attribute_oid attribute_ok attribute_tlv] in *; injection Ei as <-;
    unfold item_class, item_tag; cbn [parts leaf fst snd]; rewrite !andb_true_iff in Ha.
  - destruct Ha as [Ha Hid%within_spec]. eapply to_verify; [done|]. rewrite Ha. eapply to_verify; [done|]. cbv zeta. cbn [Z.eqb].
    eapply to_asn1; [apply (ParseWeaveId_item F _ _ id _ _ H2); lia|]. apply to_last_elem; [done|]. apply (ai_next _ _ _ _ H2).
  - destruct Ha as [[[Ho Hw%negb_true_iff] Hp] Hs]. destruct (string_tag_facts oid printable Hp) as [Ht1 Ht2]. eapply to_verify; [by rewrite Ht1|].
    rewrite Hw. apply to_nothing. cbv zeta. rewrite Ht2. exists r2. split; [|apply (ai_next _ _ _ _ H2)].
    replace (Z.land oid 127 + (if printable then 128 else 0)) with (if printable then Z.lor (Z.land oid 127) 128 else Z.land oid 127); [by eapply yields_string|].
    destruct printable; [|lia]. rewrite Z.lor_comm. change 128 with (1 * 2 ^ 7). rewrite lor_add_disjoint by (change (2 ^ 7) with 128; lia). lia.
Qed.

Lemma convert_name F a r n : upcoming F (name_item a :: n) r -> attribute_ok a = true -> forall tag,
  writes_to (X509_ConvertDistinguishedName tag) r [TContainer tag kTLVType_Path [attribute_tlv a]] tt F n.
Proof.
  intros H Ha tag. unfold X509_ConvertDistinguishedName. apply to_container. eapply to_parse_constructed; [|exact H]. clear r H. intros F1 r H _.
  destruct (next_err_item F1 _ _ r H) as (r1 & H1 & E1).
  assert (forall fuel, writes_to (convert_names (S (S fuel))) r [attribute_tlv a] tt F1 []) as HN.
  { intros fuel. cbn [convert_names]. eapply to_pure; [exact E1|]. cbv iota. eapply to_bind_to1.
    - eapply to_enter_constructed; [|exact H1]. intros F2 r2 H2 _. eapply to_bind_to1.
      + eapply to_parse_constructed; [|exact H2]. intros F3 r3 H3 _. by apply convert_attribute_ok.
      + intros r3 H3. destruct (next_err_end _ _ H3) as (r4 & H4 & E4). eapply to_pure; [exact E4|]. by apply to_ret.
    - intros r2 H2. destruct (next_err_end _ _ H2) as (r3 & H3 & E3). eapply to_pure; [exact E3|]. by apply to_ret. }
  pose proof (items_length F1 _ r H) as HL. cbn [length] in HL.
  destruct (HN (length (ar_buf r) - 1)%nat) as (r' & HY & HU). exists r'. split; [|done]. intros w. specialize (HY w).
  unfold conversion_fuel. cbn [xc_reader]. by replace (S (length (ar_buf r))) with (S (S (length (ar_buf r) - 1))) by lia.
Qed.

(** ** Validity and keys *)

Lemma convert_validity F p q r n : upcoming F (ASequence [ATime (UnpackCertTime p); ATime (UnpackCertTime q)] :: n) r ->
  within 0 4294967295 p = true -> within 0 4294967295 q = true ->
  writes_to X509_ConvertValidity r [TUInt (Ctx kTag_NotBefore) p; TUInt (Ctx kTag_NotAfter) q] tt F n.
Proof.
  intros H Hp%within_spec Hq%within_spec. eapply to_parse_constructed; [|exact H]. clear r H. intros F1 r H _.
  destruct (PARSE_TIME_item F1 _ _ r H) as (r1 & E1 & H1). destruct (PARSE_TIME_item F1 _ _ r1 H1) as (r2 & E2 & H2).
  assert (forall t, 0 <= t <= 4294967295 -> forall r w, pack_time (UnpackCertTime t) (mkXConv r w) = (Ok t, mkXConv r w)) as HT.
  { intros t Ht r' w. unfold pack_time. by rewrite Pack_Unpack by lia. }
  asn1 E1. eapply to_pure; [intros w; by apply HT|]. elem. asn1 E2. eapply to_pure; [intros w; by apply HT|]. by last_elem.
Qed.

Definition ec_key (k : public_key) : bool := match k with ECKey _ _ _ => true | RSAKey _ _ => false end.
Lemma convert_ec_key F k r n : upcoming F (key_item k :: n) r -> key_ok k = true -> ec_key k = true ->
  writes_to X509_ConvertSubjectPublicKeyInfo r (key_tlvs k) tt F n.
Proof.
  destruct k as [algo curve point|]; [|done]. intros H Hk _. cbn [key_ok] in Hk. rewrite !andb_true_iff in Hk. destruct Hk as [[Ha Hc] Hp].
  destruct (curve_id curve Hc) as (Hi & _ & _). destruct (parse_enter_step F _ _ _ _ r H) as (r1 & F1 & E1 & H1 & _ & X1).
  destruct (parse_enter_step F1 _ _ _ _ r1 H1) as (r2 & F2 & E2 & H2 & _ & X2). destruct (PARSE_OBJECT_ID_item F2 _ _ r2 H2) as (r3 & E3 & H3).
  item_step H3 r4 H4 E4.
  assert (item_class (AObjectId curve) = 0 /\ item_tag (AObjectId curve) = 6) as [IC IT].
  { pose proof (ai_ok _ _ _ _ H4) as HO. cbn [item_ok] in HO. unfold item_class, item_tag. cbn [parts leaf]. by destruct (GetEncodedObjectID curve). }
  destruct (item_class_tag F2 _ _ r4 H4) as [C4 T4]. rewrite IC in C4. rewrite IT in T4.
  pose proof (is_ec_algo_spec algo Ha) as Ha'. assert ((algo =? kOID_PubKeyAlgo_RSAEncryption) = false) as HR by (by destruct Ha' as [-> |[-> | ->]]).
  unfold X509_ConvertSubjectPublicKeyInfo. asn1 E1. asn1 E2. asn1 E3. eapply to_verify; [by rewrite Ha, orb_true_r|].
  assert (u8 (Z.land algo kOID_Mask) = Z.land algo kOID_Mask) as -> by (by destruct Ha' as [-> |[-> | ->]]).
  cbn [key_tlvs]. elem. rewrite HR, Ha. change [?a; ?b] with ([a] ++ [b]). eapply to_bind_to with (F1 := F2) (l1 := []).
  - asn1 E4. unfold is_universal. peek. rewrite C4, T4. eapply to_verify; [done|]. peek. rewrite C4, T4. eapply to_verify; [done|].
    eapply to_asn1; [by eapply (VERIFY_TAG_ok F2)|]. eapply to_asn1; [by eapply item_oid|]. eapply to_verify; [unfold known_oid in Hc; by apply andb_prop in Hc as [Hc _]|].
    last_elem. apply (ai_next _ _ _ _ H4).
  - intros r5 H5. destruct (X2 r5 H5) as (r6 & E6 & H6). destruct (PARSE_ELEMENT_item F1 _ _ r6 kASN1TagClass_Universal kASN1UniversalTag_BitString H6 eq_refl eq_refl) as (r7 & E7 & H7).
    destruct (X1 r7 (ai_next _ _ _ _ H7)) as (r8 & E8 & H8). asn1 E6. asn1 E7. eapply to_bind1; [by apply (yields_bytes F1 _ _ _ _ _ _ [0] point H7)|].
    by eapply to_last_asn1.
Qed.

(** ** Extensions *)

Lemma put_critical_ok critical r : yields (put_critical critical) r (critical_tlv critical) tt r.
Proof. unfold put_critical. destruct critical; [by apply yields_elem|apply yields_ret]. Qed.
Lemma at_tag_step {B} (k : bool -> M XConv B) err cls tag r ts b F l :
  writes_to (k match err with None => (ar_Class r =? cls) && (ar_Tag r =? tag) | Some _ => false end) r ts b F l -> writes_to (bind (at_tag err cls tag) k) r ts b F l.
Proof. exact (to_peek k r ts b F l (fun r => match err with None => (ar_Class r =? cls) && (ar_Tag r =? tag) | Some _ => false end)). Qed.
Lemma next_err_last F r : upcoming F [] r -> writes_to next_err r [] (Some ASN1_END) F [].
Proof. intros H. destruct (next_err_end F r H) as (r' & H' & E). exists r'. split; [|done]. intros w. apply E. Qed.

Lemma convert_auth_key_id F id r n : upcoming F (ASequence (match id with Some id => [APrimitive kASN1TagClass_ContextSpecific 0 id] | None => [] end) :: n) r ->
  writes_to X509_ConvertAuthorityKeyIdentifierExtension r (match id with Some id => [TBytes (Ctx kTag_AuthorityKeyIdentifier_KeyIdentifier) id] | None => [] end) tt F n.
Proof.
  intros H. eapply to_parse_constructed; [|exact H]. clear r H. intros F1 r H _. destruct id as [id|].
  - destruct (next_err_item F1 _ _ r H) as (r1 & H1 & E1). eapply to_pure; [exact E1|]. apply at_tag_step. destruct (item_class_tag F1 _ _ r1 H1) as [-> ->]. cbn [item_class item_tag parts leaf fst snd Z.eqb andb].
    destruct (item_head F1 _ _ r1 H1) as (_ & _ & HC). eapply to_bind_to1 with (F1 := F1) (l1 := []) (a := Some ASN1_END).
    + peek. eapply to_verify; [by rewrite HC|]. eapply to_bind1; [by apply (yields_PutBytes F1 _ _ _ _ _ _ H1)|]. apply next_err_last, (ai_next _ _ _ _ H1).
    + intros r2 H2. apply at_tag_step. cbv iota. eapply to_bind with (ts1 := []); [apply yields_ret|]. apply at_tag_step. cbv iota. eapply to_bind with (ts1 := []); [apply yields_ret|]. by apply to_ret.
  - destruct (next_err_end F1 _ H) as (r1 & H1 & E1). eapply to_pure; [exact E1|]. do 3 (apply at_tag_step; cbv iota; eapply to_bind with (ts1 := []); [apply yields_ret|]). by apply to_ret.
Qed.

Definition path_len_items (pathLen : option Z) : list item := match pathLen with Some n => [AInteger n] | None => [] end.
Definition at_path_len (F : frame) (pathLen : option Z) (err : option WEAVE_ERROR) (r : ASN1Reader) : Prop :=
  match pathLen with Some n => err = None /\ at_item F (AInteger n) [] r | None => err = Some ASN1_END /\ upcoming F [] r end.
Lemma next_path_len F pathLen r : upcoming F (path_len_items pathLen) r ->
  exists r' err, (forall w, next_err (mkXConv r w) = (Ok err, mkXConv r' w)) /\ at_path_len F pathLen err r'.
Proof.
  intros H. destruct pathLen as [n|]; [destruct (next_err_item F _ _ r H) as (r' & H' & E)|destruct (next_err_end F r H) as (r' & H' & E)]; (do 2 eexists; split; [exact E|by split]).
Qed.
Lemma at_tag_is F i l r w cls tag b : at_item F i l r -> (item_class i =? cls) && (item_tag i =? tag) = b -> at_tag None cls tag (mkXConv r w) = (Ok b, mkXConv r w).
Proof. intros H <-. by destruct (item_class_tag F i l r H) as [<- <-]. Qed.
Lemma on_asn1_ok {A} (m : M ASN1Reader A) r a r' w : m r = (Ok a, r') -> on_asn1 m (mkXConv r w) = (Ok a, mkXConv r' w).
Proof. intros E. unfold on_asn1. cbn. by rewrite E. Qed.
Lemma parse_is_CA_ok F (isCA : bool) pathLen r : upcoming F ((if isCA then [ABoolean true] else []) ++ path_len_items pathLen) r ->
  exists r' err, (forall w, parse_is_CA (mkXConv r w) = (Ok (isCA, err), mkXConv r' w)) /\ at_path_len F pathLen err r'.
Proof.
  intros H. unfold parse_is_CA. destruct isCA; cbn [app] in H.
  - destruct (next_err_item F _ _ r H) as (r2 & H2 & E2). destruct (next_path_len F _ r2 (ai_next _ _ _ _ H2)) as (r3 & err & E3 & H3). exists r3, err. split; [|done].
    intros w. rewrite (bind_ok _ _ _ _ _ (E2 w)), (bind_ok _ _ _ _ _ (at_tag_is F _ _ r2 w 0 1 true H2 eq_refl)). cbn match.
    rewrite (bind_ok _ _ _ _ _ (on_asn1_ok _ _ _ _ w (item_boolean F true _ r2 H2))). change (verify true ASN1_ERROR_INVALID_ENCODING) with (@ret XConv unit tt). by rewrite bind_ret, (bind_ok _ _ _ _ _ (E3 w)).
  - destruct (next_path_len F _ r H) as (r3 & err & E3 & H3). exists r3, err. split; [|done]. intros w. rewrite (bind_ok _ _ _ _ _ (E3 w)). destruct pathLen as [n|], H3 as [-> H3]; [|done].
    by rewrite (bind_ok _ _ _ _ _ (at_tag_is F _ _ r3 w 0 1 false H3 eq_refl)).
Qed.
Definition path_len_value (pathLen : option Z) : Z := match pathLen with Some n => n | None => -1 end.
Lemma parse_path_len_ok F pathLen err r : at_path_len F pathLen err r -> 0 <= default 0 pathLen ->
  exists r', (forall w, parse_path_len err (mkXConv r w) = (Ok (path_len_value pathLen), mkXConv r' w)) /\ upcoming F [] r'.
Proof.
  intros H Hn. exists r. destruct pathLen as [n|], H as [-> H]; (split; [|by try apply (ai_next _ _ _ _ H)]); intros w; unfold parse_path_len; [|done].
  rewrite (bind_ok _ _ _ _ _ (at_tag_is F _ _ r w 0 2 true H eq_refl)). cbn match. rewrite (bind_ok _ _ _ _ _ (on_asn1_ok _ _ _ _ w (item_integer F n _ r H))).
  unfold bind, verify. rewrite (proj2 (Z.leb_le 0 n)) by done. done.
Qed.
Lemma cast_basic critical isCA pathLen : cast_extension (BasicConstraintsExt critical isCA pathLen) = BasicConstraintsExt critical isCA (option_map u32 pathLen).
Proof. by destruct pathLen. Qed.
Lemma convert_basic_constraints F critical isCA pathLen r n :
  upcoming F (snd (extension_parts (BasicConstraintsExt critical isCA pathLen)) :: n) r -> extension_ok both_limits (BasicConstraintsExt critical isCA pathLen) = true ->
  writes_to (X509_ConvertBasicConstraints critical) r [extension_tlv (cast_extension (BasicConstraintsExt critical isCA pathLen))] tt F n.
Proof.
  intros H Hx. assert (0 <= default 0 pathLen) as Hn by (destruct pathLen; [apply within_spec in Hx; cbn; lia|cbn; lia]).
  destruct (parse_enter_step F _ _ _ _ r H) as (r1 & F1 & E1 & H1 & _ & X1). destruct (parse_is_CA_ok F1 isCA pathLen r1 H1) as (r2 & err & E2 & H2).
  destruct (parse_path_len_ok F1 pathLen err r2 H2 ltac:(lia)) as (r3 & E3 & H3). destruct (X1 r3 H3) as (r4 & E4 & H4).
  rewrite cast_basic. unfold X509_ConvertBasicConstraints. asn1 E1. eapply to_pure; [exact E2|]. cbv iota. eapply to_pure; [exact E3|]. exists r4. split; [|done].
  apply yields_open. intros outer. eapply does_step; [apply put_critical_ok|]. eapply does_step with (r1 := r3) (a := tt); [destruct isCA; [by apply yields_elem|apply yields_ret]|].
  rewrite <- (app_nil_r (match option_map u32 pathLen with Some n => _ | None => _ end)). eapply does_step with (r1 := r3) (a := tt).
  - destruct pathLen as [m|]; [|apply yields_ret]. cbn [path_len_value] in *. change (default 0 (Some m)) with m in Hn. rewrite (proj2 (Z.eqb_neq m (-1))) by lia. by apply yields_elem.
  - eapply does_pure; [intros w; by apply on_asn1_ok|]. apply does_last.
Qed.

Lemma convert_purposes_loop F l : forall fuel r, (length l < fuel)%nat -> upcoming F (map AObjectId l) r -> forallb (known_oid kOIDCategory_KeyPurpose) l = true ->
  writes_to (convert_key_purposes fuel) r (map (fun oid => TUInt AnonymousTag (Z.land oid kOID_Mask)) l) tt F [].
Proof.
  induction l as [|oid l IH]; intros fuel r Hf H Hl; (destruct fuel as [|fuel]; [cbn in Hf; lia|]); cbn [map convert_key_purposes] in *.
  - destruct (next_err_end F r H) as (r1 & H1 & E1). eapply to_pure; [exact E1|]. by apply to_ret.
  - cbn [forallb] in Hl. apply andb_prop in Hl as [Ho Hl]. destruct (purpose_num oid Ho) as [Hr _]. destruct (next_err_item F _ _ r H) as (r1 & H1 & E1).
    pose proof Ho as Ho'. unfold known_oid in Ho'. apply andb_prop in Ho' as [Hc _]. assert (negb (oid =? kOID_Unknown) = true) as Hu.
    { apply negb_true_iff, Z.eqb_neq. intros ->. by vm_compute in Hc. }
    eapply to_pure; [exact E1|]. cbv iota. eapply to_asn1; [by eapply item_oid|]. eapply to_verify; [done|]. eapply to_verify; [done|]. rewrite u8_id by lia. elem.
    apply IH; [cbn in Hf; lia|apply (ai_next _ _ _ _ H1)|done].
Qed.
(** A loop that takes its fuel from the buffer. *)
Lemma with_fuel {A} (f : nat -> M XConv A) r ts a F l : writes_to (f (S (length (ar_buf r)))) r ts a F l -> writes_to (fun s => f (conversion_fuel s) s) r ts a F l.
Proof. intros (r' & HY & HU). exists r'. split; [|done]. intros w. exact (HY w). Qed.

Lemma convert_value_ok F x r : upcoming F [snd (extension_parts x)] r -> extension_ok both_limits x = true ->
  writes_to (convert_extension_value (fst (fst (extension_parts x))) (snd (fst (extension_parts x)))) r [extension_tlv (cast_extension x)] tt F [].
Proof.
  assert (forall m k critical ts, writes_to m r ts tt F [] -> k = put_critical critical -> writes_to (bind k (fun _ => m)) r (critical_tlv critical ++ ts) tt F []) as HC.
  { intros m k critical ts H ->. eapply to_bind; [apply put_critical_ok|exact H]. }
  intros H Hx. destruct x as [critical id|critical id|critical bits|critical isCA pathLen|critical purposes]; cbn [extension_parts fst snd] in H |- *.
  - apply to_container. apply HC; [|done]. by apply convert_auth_key_id.
  - change (convert_extension_value _ _) with (do* on_asn1 (ASN1_PARSE_ELEMENT kASN1TagClass_Universal kASN1UniversalTag_OctetString) in
      container (ContextTag kTag_SubjectKeyIdentifier) kTLVType_Structure (do* put_critical critical in PutBytes_value (ContextTag kTag_SubjectKeyIdentifier_KeyIdentifier))).
    destruct (PARSE_ELEMENT_item F _ _ r kASN1TagClass_Universal kASN1UniversalTag_OctetString H eq_refl eq_refl) as (r1 & E1 & H1). asn1 E1. apply to_container.
    eapply to_bind; [apply put_critical_ok|]. exists r1. split; [by eapply yields_PutBytes|apply (ai_next _ _ _ _ H1)].
  - change (convert_extension_value _ _) with (do* on_asn1 (ASN1_PARSE_ELEMENT kASN1TagClass_Universal kASN1UniversalTag_BitString) in
      container (ContextTag kTag_KeyUsage) kTLVType_Structure (do* put_critical critical in
        let* keyUsageBits := on_asn1 GetBitString in on_tlv (Put_u32 (ContextTag kTag_KeyUsage_KeyUsage) keyUsageBits))).
    destruct (PARSE_ELEMENT_item F _ _ r kASN1TagClass_Universal kASN1UniversalTag_BitString H eq_refl eq_refl) as (r1 & E1 & H1).
    asn1 E1. apply to_container. eapply to_bind; [apply put_critical_ok|]. eapply to_asn1; [by eapply item_bits|]. last_elem. apply (ai_next _ _ _ _ H1).
  - by apply convert_basic_constraints.
  - apply to_container. apply HC; [|done]. apply to_container. eapply to_parse_constructed; [|exact H]. clear r H HC. intros F1 r H _. apply with_fuel.
    apply convert_purposes_loop; [|done|done]. pose proof (items_length F1 _ r H) as HL. rewrite length_map in HL. lia.
Qed.

Lemma convert_extension_ok F x l r : at_item F (extension_item x) l r -> extension_ok both_limits x = true -> writes_to X509_ConvertExtension r [extension_tlv (cast_extension x)] tt F l.
Proof.
  intros H Hx. unfold extension_item in H. destruct (extension_parts x) as [[oid critical] value] eqn:EP. eapply to_enter_constructed; [|exact H]. clear r H. intros F1 r H _.
  assert ((negb (oid =? kOID_Unknown) && (GetOIDCategory oid =? kOIDCategory_Extension)) = true) as [Hu Hc]%andb_prop by (by destruct x; injection EP as <- _ _).
  destruct (PARSE_OBJECT_ID_item F1 _ _ r H) as (r1 & E1 & H1). asn1 E1. eapply to_verify; [done|]. eapply to_verify; [done|].
  assert (convert_extension_value oid critical = convert_extension_value (fst (fst (extension_parts x))) (snd (fst (extension_parts x)))) as EV by (by rewrite EP).
  assert (forall r2, at_item F1 (AEncapsulated false [value]) [] r2 ->
    writes_to (enter_encapsulated kASN1UniversalTag_OctetString (convert_extension_value oid critical)) r2 [extension_tlv (cast_extension x)] tt F1 []) as HV.
  { intros r2 H2. apply (to_enter_encapsulated _ F1 [] [value] r2 _) with (bits := false); [|done]. intros F2 r3 H3 _. rewrite EV.
    apply convert_value_ok; [by rewrite EP|done]. }
  destruct critical; cbn [app] in H1; item_step H1 r2 H2 E2; asn1 E2; unfold is_universal; peek.
  - destruct (item_class_tag F1 _ _ r2 H2) as [-> ->]. pose proof (ai_next _ _ _ _ H2) as H2'. item_step H2' r3 H3 E3.
    eapply to_pure with (a := true); [|by apply HV]. intros w. match goal with |- context [if ?c then _ else _] => change c with true end. cbv iota.
    rewrite (bind_ok _ _ _ _ _ (on_asn1_ok _ _ _ _ w (item_boolean F1 true _ r2 H2))). change (verify true ASN1_ERROR_INVALID_ENCODING) with (@ret XConv unit tt).
    by rewrite bind_ret, (bind_ok _ _ _ _ _ (on_asn1_ok _ _ _ _ w E3)).
  - destruct (item_class_tag F1 _ _ r2 H2) as [-> ->]. eapply to_pure with (a := false); [done|]. by apply HV.
Qed.

Lemma convert_extension_loop F l : forall fuel r, (length l < fuel)%nat -> upcoming F (map extension_item l) r -> Forall (fun x => extension_ok both_limits x = true) l ->
  writes_to (convert_extension_list fuel) r (map extension_tlv (map cast_extension l)) tt F [].
Proof.
  induction l as [|x l IH]; intros fuel r Hf H Hl; (destruct fuel as [|fuel]; [cbn in Hf; lia|]); cbn [map convert_extension_list] in *.
  - destruct (next_err_end F r H) as (r1 & H1 & E1). eapply to_pure; [exact E1|]. by apply to_ret.
  - inversion Hl as [|? ? Hx Hl']; subst. destruct (next_err_item F _ _ r H) as (r1 & H1 & E1). eapply to_pure; [exact E1|]. cbv iota.
    eapply to_bind_to1; [by apply convert_extension_ok|].
    intros r2 H2. apply IH; [cbn in Hf; lia|done|done].
Qed.
Lemma convert_extensions_ok F l r n : upcoming F (ASequence (map extension_item l) :: n) r -> Forall (fun x => extension_ok both_limits x = true) l ->
  writes_to X509_ConvertExtensions r (map extension_tlv (map cast_extension l)) tt F n.
Proof.
  intros H Hl. eapply to_parse_constructed; [|exact H]. clear r H. intros F1 r H _. apply with_fuel. apply convert_extension_loop; [|done|done].
  pose proof (items_length F1 _ r H) as HL. rewrite length_map in HL. lia.
Qed.

(** ** Certificates *)

Lemma sig_algo_read l algo s : signature_ok l algo s = true -> (GetOIDCategory algo =? kOIDCategory_SigAlgo) = true /\ is_rsa_sig algo || is_ecdsa_sig algo = true /\
  u8 (Z.ldiff algo kOIDCategory_Mask) = Z.land algo kOID_Mask /\ is_rsa_sig algo = (match s with RSASig _ => true | ECDSASig _ _ => false end) /\
  is_ecdsa_sig algo = (match s with RSASig _ => false | ECDSASig _ _ => true end) /\ algo <> -1.
Proof.
  intros H. pose proof (sig_algo_cases l algo s H) as HC. assert (algo = 0x201 \/ algo = 0x202 \/ algo = 0x203 \/ algo = 0x204 \/ algo = 0x205) as HC' by lia.
  by destruct HC' as [-> |[-> |[-> |[-> | ->]]]]; destruct s; vm_compute in H |- *.
Qed.
Definition tbs_elems (c : certificate) : list TLVTree.tlv :=
  [TBytes (Ctx kTag_SerialNumber) (c_serial c); TUInt (Ctx kTag_SignatureAlgorithm) (Z.land (c_sigAlgo c) kOID_Mask);
   TContainer (Ctx kTag_Issuer) kTLVType_Path [attribute_tlv (c_issuer c)];
   TUInt (Ctx kTag_NotBefore) (c_notBefore c); TUInt (Ctx kTag_NotAfter) (c_notAfter c);
   TContainer (Ctx kTag_Subject) kTLVType_Path [attribute_tlv (c_subject c)]] ++
  key_tlvs (c_key c) ++ map extension_tlv (c_extensions c).
Lemma certificate_elems_split c : certificate_elems c = tbs_elems c ++ [signature_tlv (c_signature c)].
Proof. unfold certificate_elems, tbs_elems. by rewrite <- !app_assoc. Qed.

Lemma convert_version F r n : upcoming F (AConstructed kASN1TagClass_ContextSpecific 0 [AInteger 2] :: n) r ->
  writes_to (parse_constructed kASN1TagClass_ContextSpecific 0
    (let* version := on_asn1 ASN1_PARSE_INTEGER in verify (version =? 2) ASN1_ERROR_UNSUPPORTED_ENCODING)) r [] tt F n.
Proof.
  intros H. eapply to_parse_constructed; [|exact H]. intros F1 r1 H1 _. destruct (PARSE_INTEGER_item F1 _ _ r1 H1) as (r2 & E2 & H2). asn1 E2. by apply to_ret.
Qed.

Lemma convert_tbs_ok F c r n : upcoming F (tbs_item c :: n) r -> certificate_parts both_limits c -> ec_key (c_key c) = true ->
  writes_to convert_tbs r (tbs_elems (kept_in_weave c)) (c_sigAlgo c) F n.
Proof.
  intros H [] Hk. destruct (sig_algo_read _ _ _ p_signature) as (Hc & Hs & Hu & _). destruct (parse_enter_step F _ _ _ _ r H) as (r1 & F1 & E1 & H1 & _ & X1). cbn [app] in H1.
  unfold convert_tbs. asn1 E1. change (tbs_elems (kept_in_weave c)) with ([] ++ tbs_elems (kept_in_weave c)). eapply to_bind_to; [by apply convert_version|]. clear E1 H1. intros r2 H2.
  destruct (PARSE_ELEMENT_item F1 _ _ r2 kASN1TagClass_Universal kASN1UniversalTag_Integer H2 eq_refl eq_refl) as (r3 & E3 & H3). asn1 E3.
  destruct (parse_enter_step F1 _ _ _ _ r3 (ai_next _ _ _ _ H3)) as (r4 & F2 & E4 & H4 & _ & X2). destruct (PARSE_OBJECT_ID_item F2 _ _ r4 H4) as (r5 & E5 & H5).
  assert (exists r6, (if is_rsa_sig (c_sigAlgo c) then ASN1_PARSE_NULL else ret tt) r5 = (Ok tt, r6) /\ upcoming F2 [] r6) as (r6 & E6 & H6).
  { destruct (is_rsa_sig (c_sigAlgo c)); [by apply PARSE_NULL_item in H5|by exists r5]. }
  destruct (X2 r6 H6) as (r7 & E7 & H7). unfold tbs_elems. cbn [app].
  eapply to_bind1; [by eapply yields_PutBytes|]. asn1 E4. asn1 E5. eapply to_verify; [done|]. eapply to_verify; [done|]. rewrite Hu. elem.
  eapply to_pure with (a := tt) (r1 := r6); [intros w; destruct (is_rsa_sig (c_sigAlgo c)); [by apply on_asn1_ok|by injection E6 as ->]|]. asn1 E7. clear E4 H4 X2 E5 H5 E6 H6 E7.
  eapply to_bind_to1; [by apply convert_name|]. intros r8 H8.
  match goal with |- writes_to _ _ (?a :: ?b :: ?l) _ _ _ => change (a :: b :: l) with ([a; b] ++ l) end. eapply to_bind_to; [by apply convert_validity|]. intros r9 H9.
  eapply to_bind_to1; [by apply convert_name|]. intros r10 H10. eapply to_bind_to; [by eapply convert_ec_key|]. clear -p_extensions X1. intros r1 H1.
  assert (forall r ts, writes_to (on_asn1 ASN1_EXIT_CONSTRUCTED) r ts tt F n ->
    writes_to (if decide (ASN1_END = ASN1_END) then do* on_asn1 ASN1_EXIT_CONSTRUCTED in ret (c_sigAlgo c) else fail ASN1_END) r ts (c_sigAlgo c) F n) as HE.
  { intros r ts H. rewrite decide_True by done. rewrite <- (app_nil_r ts). eapply to_bind_to; [exact H|]. intros r2 H2. by apply to_ret. }
  assert (forall r2, upcoming F1 [] r2 -> writes_to (on_asn1 ASN1_EXIT_CONSTRUCTED) r2 [] tt F n) as HX.
  { intros r2 H2. destruct (X1 r2 H2) as (r3 & E3 & H3). by eapply to_last_asn1. }
  change (c_extensions (kept_in_weave c)) with (map cast_extension (c_extensions c)). destruct (c_extensions c) as [|x l].
  - destruct (next_err_end F1 r1 H1) as (r2 & H2 & E2). eapply to_pure; [exact E2|]. do 2 (apply at_tag_step; eapply to_verify; [done|]). apply at_tag_step.
    eapply to_bind with (ts1 := []); [apply yields_ret|]. by apply HE, HX.
  - destruct (next_err_item F1 _ _ r1 H1) as (r2 & H2 & E2). eapply to_pure; [exact E2|]. destruct (item_class_tag F1 _ _ r2 H2) as [HC HT].
    do 2 (apply at_tag_step; eapply to_verify; [by rewrite HC, HT|]). apply at_tag_step. cbv iota. rewrite HC, HT. rewrite <- (app_nil_r (map extension_tlv _)).
    eapply to_bind_to with (F1 := F1) (l1 := []) (a := Some ASN1_END).
    + rewrite <- (app_nil_r (map extension_tlv _)). eapply to_bind_to; [|intros r3 H3; by apply next_err_last]. eapply to_enter_constructed; [|exact H2]. intros F3 r3 H3 _. by apply convert_extensions_ok.
    + intros r3 H3. by apply HE, HX.
Qed.

Lemma convert_signature_ok F c r : at_item F (signature_item (c_signature c)) [] r -> certificate_parts both_limits c ->
  writes_to (if is_rsa_sig (c_sigAlgo c) then put_value_at kTLVType_ByteString (ContextTag kTag_RSASignature) 1
     else if is_ecdsa_sig (c_sigAlgo c) then
       enter_encapsulated kASN1UniversalTag_BitString
         (container (ContextTag kTag_ECDSASignature) kTLVType_Structure
           (parse_sequence
             (do* on_asn1 (ASN1_PARSE_ELEMENT kASN1TagClass_Universal kASN1UniversalTag_Integer) in
              do* PutBytes_value (ContextTag kTag_ECDSASignature_r) in
              do* on_asn1 (ASN1_PARSE_ELEMENT kASN1TagClass_Universal kASN1UniversalTag_Integer) in
              PutBytes_value (ContextTag kTag_ECDSASignature_s))))
     else ret tt) r [signature_tlv (c_signature c)] tt F [].
Proof.
  intros H []. destruct (sig_algo_read _ _ _ p_signature) as (_ & _ & _ & -> & -> & _). destruct (c_signature c) as [sr ss|s].
  - eapply (to_enter_encapsulated _ F [] _ r _) with (bits := true); [|exact H]. intros F1 r2 H2 _. apply to_container. eapply to_parse_constructed; [|exact H2]. intros F2 r3 H3 _.
    destruct (PARSE_ELEMENT_item F2 _ _ r3 kASN1TagClass_Universal kASN1UniversalTag_Integer H3 eq_refl eq_refl) as (r4 & E4 & H4). asn1 E4.
    eapply to_bind1; [by eapply yields_PutBytes|].
    destruct (PARSE_ELEMENT_item F2 _ _ r4 kASN1TagClass_Universal kASN1UniversalTag_Integer (ai_next _ _ _ _ H4) eq_refl eq_refl) as (r5 & E5 & H5). asn1 E5.
    exists r5. split; [by eapply yields_PutBytes|apply (ai_next _ _ _ _ H5)].
  - exists r. split; [by apply (yields_bytes F _ _ _ _ _ _ [0] s H)|apply (ai_next _ _ _ _ H)].
Qed.

(** A reader that was given the encoding of the X.509 form writes the Weave form. *)
Lemma ConvertCertificate_yields c r F : upcoming F [certificate_item c] r -> certificate_parts both_limits c -> ec_key (c_key c) = true ->
  exists r', yields ConvertCertificate r [certificate_tlv (kept_in_weave c)] tt r'.
Proof.
  intros H HP Hk. destruct (parse_enter_step F _ _ _ _ r H) as (r1 & F1 & E1 & H1 & _ & X1). destruct (convert_tbs_ok F1 c r1 _ H1 HP Hk) as (r2 & Y2 & H2).
  item_step H2 r3 H3 E3.
  assert (item_class (signature_item (c_signature c)) = 0 /\ item_tag (signature_item (c_signature c)) = 3) as [IC IT] by (by destruct (c_signature c)).
  destruct (PARSE_ELEMENT_item F1 _ _ r3 kASN1TagClass_Universal kASN1UniversalTag_BitString (ai_next _ _ _ _ H3) IC IT) as (r4 & E4 & H4).
  destruct (convert_signature_ok F1 c r4 H4 HP) as (r5 & Y5 & H5). destruct (X1 r5 H5) as (r6 & E6 & H6).
  destruct (sig_algo_read _ _ _ (p_signature _ _ HP)) as (_ & _ & _ & _ & _ & HN). exists r6. unfold ConvertCertificate, certificate_tlv. rewrite certificate_elems_split.
  apply yields_open. intros outer. eapply does_pure; [intros w; by apply on_asn1_ok|]. eapply does_step; [exact Y2|]. rewrite (proj2 (Z.eqb_neq _ _)) by done.
  eapply does_pure; [intros w; by apply on_asn1_ok|]. eapply does_pure; [intros w; by apply on_asn1_ok|]. rewrite <- (app_nil_r [signature_tlv _]). eapply does_step; [exact Y5|].
  eapply does_pure; [intros w; by apply on_asn1_ok|]. apply does_last.
Qed.
