(* ===== verification/CertConvert.v ===== *)
(** * Certificates between the Weave and the X.509 form

    What ConvertWeaveCertToX509Cert and ConvertX509CertToWeaveCert give for the
    encodings of a certificate, and that they are inverses of each other. *)
From S2P Require Import Prelude Encoding TLVTypes TLVReader TLVReaderRefine TLVWriter TLVHead TLVTree TLV TLVCursor.
From S2P Require Import ASN1OID ASN1Writer ASN1Reader ASN1Tree ASN1Leaf ASN1Doc ASN1Write ASN1Read ASN1 ASN1Cursor.
From S2P Require Import CertTime Cert CertToX509 CertSpec CertConv CertToX509Refine X509ToCert XConvRun X509ToCertRefine.
Local Open Scope Z_scope.
Local Open Scope weave_scope.

(** ** A writer over one buffer stays in it *)

Definition stays {A} (m : M TLVWriter A) : Prop := forall w, wGetNewBuffer w = false ->
  let w' := snd (m w) in wDone w' = wDone w /\ wBufStart w' = wBufStart w /\ wGetNewBuffer w' = false.
Lemma stays_bind {A B} (m : M TLVWriter A) (k : A -> M TLVWriter B) : stays m -> (forall a, stays (k a)) -> stays (bind m k).
Proof.
  intros Hm Hk w Hw. specialize (Hm w Hw). unfold bind. destruct (m w) as [[a|e| |] w1]; cbn [snd] in *; try done.
  destruct Hm as (H1 & H2 & H3). destruct (Hk a w1 H3) as (H4 & H5 & H6). by rewrite H4, H5, H6.
Qed.
Lemma stays_loop fuel : forall p, stays (WriteData_loop fuel p).
Proof.
  induction fuel as [|fuel IH]; intros [|b p]; cbn [WriteData_loop]; try by intros w Hw. apply stays_bind.
  - intros w Hw. case_match; [|done]. unfold NextBuffer. by rewrite Hw.
  - intros _ w Hw. apply (IH _ (append _ w) Hw).
Qed.
Lemma stays_WriteData p : stays (WriteData p).
Proof. intros w Hw. unfold WriteData. case_match; [done|]. by apply stays_loop. Qed.
Lemma stays_head et tag v : stays (WriteElementHead et tag v).
Proof. intros w Hw. unfold WriteElementHead. case_match; [done|]. case_match; [done|]. case_match; [done|]. by apply stays_WriteData. Qed.
Lemma stays_data ty tag s : stays (WriteElementWithData ty tag s).
Proof. apply stays_bind; [apply stays_head|]. intros _. apply stays_WriteData. Qed.
Lemma stays_Start tag c : stays (StartContainer tag c).
Proof.
  intros w Hw. unfold StartContainer. case_match; [done|]. assert (wGetNewBuffer (reserve w) = false /\ wDone (reserve w) = wDone w /\ wBufStart (reserve w) = wBufStart w) as (H1 & H2 & H3)
    by (unfold reserve; by case_match). pose proof (stays_head c tag 0 (reserve w) H1) as HS. rewrite H2, H3 in HS.
  destruct (WriteElementHead c tag 0 (reserve w)) as [[[]|e| |] w1]; cbn [snd] in *; try done. unfold unreserve. by case_match.
Qed.
Lemma stays_End o : stays (EndContainer o).
Proof.
  intros w Hw. unfold EndContainer. case_match; [done|]. set (w0 := unreserve (set_wContainerType o w)).
  assert (wGetNewBuffer w0 = false /\ wDone w0 = wDone w /\ wBufStart w0 = wBufStart w) as (H1 & H2 & H3) by (unfold w0, unreserve; by case_match).
  pose proof (stays_head kTLVElementType_EndOfContainer AnonymousTag 0 w0 H1) as HS. by rewrite H2, H3 in HS.
Qed.
Lemma stays_put t : stays (put t).
Proof.
  induction t as [| | | | | | |tag c ts IH] using tlv_nested_ind; cbn [put]; [apply stays_head..|by destruct v; apply stays_head|apply stays_head|apply stays_data|apply stays_data|].
  apply stays_bind; [apply stays_Start|]. intros o. apply stays_bind; [|intros _; apply stays_End].
  induction IH as [|t ts Ht Hts IH]; [by intros w Hw|]. apply stays_bind; [done|]. intros _. exact IH.
Qed.

(** ** From X.509 *)

Lemma certificate_depth c : (depth (certificate_item c) <= 12)%nat.
Proof.
  assert (forall l n, Forall (fun i => depth i <= n)%nat l -> (fold_right Nat.max 0%nat (map depth l) <= n)%nat) as HD.
  { intros l n. induction 1; cbn; lia. }
  assert (forall x, (depth (extension_item x) <= 4)%nat) as HX.
  { intros x. destruct x as [critical [id|]|critical id|critical bits|critical isCA [n|]|critical purposes]; try (destruct critical; try destruct isCA; cbn; lia).
    assert (fold_right Nat.max 0%nat (map depth (map AObjectId purposes)) <= 0)%nat as HP by (apply HD; by apply List.Forall_forall; intros i (o & <- & _)%in_map_iff).
    destruct critical; cbn; lia. }
  assert (fold_right Nat.max 0%nat (map depth (map extension_item (c_extensions c))) <= 4)%nat as HE.
  { apply HD. apply List.Forall_forall. intros i (x & <- & _)%in_map_iff. apply HX. }
  unfold certificate_item, tbs_item, ASequence, sig_algo_items. cbn [depth map fold_right app].
  destruct (is_rsa_sig (c_sigAlgo c)), (c_issuer c), (c_subject c), (c_key c), (c_signature c), (c_extensions c) as [|x l]; cbn in *; lia.
Qed.

Lemma upcoming_certificate c : certificate_parts x509_limits c -> len (x509_encoding c) < 16777216 ->
  upcoming (mkFrame (x509_encoding c) (len (x509_encoding c)) []) [certificate_item c] (ASN1Reader_Init (x509_encoding c)).
Proof.
  intros HP HL. assert (ders [certificate_item c] = x509_encoding c) as HE by apply app_nil_r. exists [], []. cbn [fr_buf fr_end fr_saved]. rewrite HE.
  split; [by split|]. split; [by rewrite app_nil_r|]. split; [done|]. unfold items_fit. rewrite HE. cbn [forallb fr_saved]. rewrite (certificate_item_ok c HP).
  split; [done|]. split; [done|]. pose proof (certificate_depth c). unfold depths. cbn [map fold_right length]. lia.
Qed.

Lemma both_x509 : limits_le both_limits x509_limits.
Proof. limits_lia. Qed.
Lemma both_weave : limits_le both_limits weave_limits.
Proof. limits_lia. Qed.
Lemma kept_both : limits_le kept_limits both_limits.
Proof. limits_lia. Qed.
Lemma kept_item_ok c : certificate_parts weave_limits c -> item_ok (certificate_item (kept_in_x509 c)) = true.
Proof. intros HP. apply certificate_item_ok, (parts_le kept_limits); [limits_lia|]. by apply kept_in_x509_ok. Qed.

Lemma X509_to_Weave c size : certificate_parts both_limits c -> ec_key (c_key c) = true -> len (x509_encoding c) < 16777216 ->
  let m := kept_in_weave c in len (weave_encoding m) <= size < 4294967296 ->
  ConvertX509CertToWeaveCert (x509_encoding c) size = Ok (weave_encoding m).
Proof.
  intros HP Hk HL m HS. destruct (ConvertCertificate_yields c _ _ (upcoming_certificate c (parts_le _ _ c both_x509 HP) HL) HP Hk) as (r' & HY).
  unfold ConvertX509CertToWeaveCert. fold m in HY. specialize (HY (InitWriter size)). rewrite put_list_1 in HY.
  destruct (put_ok (certificate_tlv m) (InitWriter size) (TLVTree.depth (certificate_tlv m))) as (w & E & Hw).
  - apply (wwf_InitWriter kProfileIdNotSpecified). lia.
  - apply certificate_valid, (parts_le _ _ _ both_weave). by apply kept_in_weave_ok.
  - done.
  - lia.
  - apply (room_InitWriter kProfileIdNotSpecified). apply HS.
  - rewrite E in HY. rewrite HY. cbn [xc_writer]. pose proof (stays_put (certificate_tlv m) (InitWriter size) eq_refl) as HT. rewrite E in HT. cbn [snd] in HT. destruct HT as (H1 & H2 & _).
    destruct Hw as ((_ & _ & _ & _ & HO & _) & HO2 & HL2 & _ & _ & _ & HM & _). unfold Finalize. rewrite HO.
    unfold out in HO2. rewrite H1, H2 in HO2. cbn [InitWriter wDone wBufStart wCur concat app] in HO2. change (enc (wContainerType (InitWriter size)) (wImplicitProfileId (InitWriter size)) (certificate_tlv m)) with (weave_encoding m) in *.
    unfold logical in HL2. cbn [InitWriter wMaxLen wLenWritten] in HL2, HM. unfold GetLengthWritten. replace (wLenWritten w) with (len (weave_encoding m)) by lia.
    rewrite Nat2Z.id, HO2. by rewrite firstn_all.
Qed.

(** ** To X.509 *)

Lemma certificate_containers c : 0 < containers (certificate_item c).
Proof.
  unfold certificate_item, ASequence. set (l := [_; _; _]). change (0 < 1 + all_containers l). pose proof (all_sized l). lia.
Qed.
Lemma Weave_to_X509 ptr c addr buf : 0 <= ptr -> certificate_parts weave_limits c -> 0 <= addr -> len buf < 4294967296 -> 0 <= aw_bufEnd (ASN1Writer_Init addr buf) ->
  let n := kept_in_x509 c in len (x509_encoding n) < 65536 -> len (weave_encoding c) < 4294967296 ->
  ConvertWeaveCertToX509Cert ptr (weave_encoding c) addr buf =
    if decide (raw_size (certificate_item n) + ptr * containers (certificate_item n) <= aw_bufEnd (ASN1Writer_Init addr buf)) then Ok (x509_encoding n) else Err ASN1_ERROR_OVERFLOW.
Proof.
  intros Hp HP Ha Hb He n HL HW.
  destruct (ConvertCert_emits ptr Hp kProfileIdNotSpecified ltac:(done) c (Init (weave_encoding c)) zero_cert) as (rd & c' & HE & _); try done.
  { by apply (wf_Init kProfileIdNotSpecified). }
  { unfold flat. by rewrite app_nil_r. }
  pose proof (write_items_ok ptr addr buf [certificate_item n] Hp Ha Hb) as HWr. unfold ders in HWr. cbn [map concat forallb] in HWr. rewrite (kept_item_ok c HP : item_ok (certificate_item n) = true), app_nil_r in HWr.
  unfold x509_encoding in HL. specialize (HWr eq_refl ltac:(lia) He). cbv zeta in HWr. unfold raw_sizes, all_containers in HWr. cbn [map fold_right] in HWr. rewrite !Z.add_0_r in HWr.
  pose proof (ldiff_3 (addr + len buf) ltac:(lia)). assert (in_buffer (ASN1Writer_Init addr buf)) as HB by (unfold in_buffer, ASN1Writer_Init; cbn [aw_bufEnd aw_mem]; lia).
  specialize (HE _ HB). fold n in HE. unfold write_items in HWr. unfold ConvertWeaveCertToX509Cert. unfold bind at 1 in HWr. unfold bind.
  destruct (put_items ptr [certificate_item n] (ASN1Writer_Init addr buf)) as [[[]|e| |] w1]; cbn [as_does] in HE.
  - destruct HE as [HE _]. rewrite HE. cbn [fst snd]. unfold on_writer. cbn [cv_reader cv_writer cv_cert]. destruct (ASN1_Finalize w1) as [r w2]. destruct (decide _).
    + destruct HWr as (-> & HO & HPt). cbn [cv_reader cv_writer cv_cert]. pose proof (certificate_containers n) as HC.
      rewrite (proj2 (Z.ltb_lt 0 _) HC) in HO. unfold x509_encoding in HL |- *. unfold ASN1_GetLengthWritten. rewrite HPt, HO, u16_id by lia. f_equal. rewrite <- HO at 2. unfold output. by rewrite HPt, HO.
    + by rewrite HWr.
  - destruct (ConvertCert ptr _) as [x s]. cbn [fst] in HE. subst x. destruct (decide _); [by destruct HWr|by injection HWr as ->].
  - by destruct (decide _); [destruct HWr|].
  - by destruct (decide _); [destruct HWr|].
Qed.


(** ** A certificate of TestWeaveCertData.cpp *)

Definition test_device : certificate := mkCertificate [8; 39; 14; 125; 68; 10; 151; 1] 0x205 (IdAttr 0x313 1780101555756728322) 524275200 526953599 (IdAttr 0x311 1780100529276321793)
   (ECKey 0x102 0x425
    [4; 66; 125; 201; 220; 190; 134; 135; 72; 123; 65; 5; 95; 79; 219; 127; 145; 190; 27; 83; 145; 94; 1; 171; 117; 216; 225; 133; 246; 33; 177; 29; 195; 147; 5; 72; 245; 178; 138; 144; 188; 250; 26; 36; 71; 231; 52; 111; 21; 128; 74; 216; 162; 90; 145; 79; 126])
   [BasicConstraintsExt true false None; KeyUsageExt true 5; ExtendedKeyUsageExt true [0x602; 0x601]; SubjectKeyIdExt false [72; 37; 128; 40; 45; 243; 202; 137]; AuthKeyIdExt false (Some [70; 243; 241; 175; 222; 48; 120; 159])]
   (ECDSASig [0; 135; 218; 77; 122; 203; 76; 23; 15; 87; 149; 22; 149; 192; 214; 168; 159; 110; 92; 60; 207; 108; 231; 20; 204; 248; 213; 23; 145]
    [122; 191; 106; 241; 0; 161; 132; 103; 20; 245; 243; 250; 105; 56; 160; 31; 173; 170; 36; 251; 182; 36; 189; 62; 167; 164; 164; 0]).
Definition test_device_Weave : list Z :=
  [213; 0; 0; 4; 0; 1; 0; 48; 1; 8; 8; 39; 14; 125; 68; 10; 151; 1; 36; 2; 5; 55; 3; 39; 19; 2; 0; 0; 255; 238; 48; 180; 24; 24; 38; 4; 0; 206;
   63; 31; 38; 5; 127; 172; 104; 31; 55; 6; 39; 17; 1; 0; 0; 0; 0; 48; 180; 24; 24; 36; 7; 2; 38; 8; 37; 0; 90; 35; 48; 10; 57; 4; 66; 125;
   201; 220; 190; 134; 135; 72; 123; 65; 5; 95; 79; 219; 127; 145; 190; 27; 83; 145; 94; 1; 171; 117; 216; 225; 133; 246; 33; 177; 29; 195;
   147; 5; 72; 245; 178; 138; 144; 188; 250; 26; 36; 71; 231; 52; 111; 21; 128; 74; 216; 162; 90; 145; 79; 126; 53; 131; 41; 1; 24; 53; 130;
   41; 1; 36; 2; 5; 24; 53; 132; 41; 1; 54; 2; 4; 2; 4; 1; 24; 24; 53; 129; 48; 2; 8; 72; 37; 128; 40; 45; 243; 202; 137; 24; 53; 128; 48; 2;
   8; 70; 243; 241; 175; 222; 48; 120; 159; 24; 53; 12; 48; 1; 29; 0; 135; 218; 77; 122; 203; 76; 23; 15; 87; 149; 22; 149; 192; 214; 168; 159;
   110; 92; 60; 207; 108; 231; 20; 204; 248; 213; 23; 145; 48; 2; 28; 122; 191; 106; 241; 0; 161; 132; 103; 20; 245; 243; 250; 105; 56; 160;
   31; 173; 170; 36; 251; 182; 36; 189; 62; 167; 164; 164; 0; 24; 24].
Definition test_device_DER : list Z :=
  [48; 130; 1; 145; 48; 130; 1; 63; 160; 3; 2; 1; 2; 2; 8; 8; 39; 14; 125; 68; 10; 151; 1; 48; 10; 6; 8; 42; 134; 72; 206; 61; 4; 3; 2; 48; 34;
   49; 32; 48; 30; 6; 10; 43; 6; 1; 4; 1; 130; 195; 43; 1; 3; 12; 16; 49; 56; 66; 52; 51; 48; 69; 69; 70; 70; 48; 48; 48; 48; 48; 50; 48; 30;
   23; 13; 49; 54; 48; 52; 50; 52; 48; 48; 48; 48; 48; 48; 90; 23; 13; 49; 54; 48; 53; 50; 51; 50; 51; 53; 57; 53; 57; 90; 48; 34; 49; 32; 48;
   30; 6; 10; 43; 6; 1; 4; 1; 130; 195; 43; 1; 1; 12; 16; 49; 56; 66; 52; 51; 48; 48; 48; 48; 48; 48; 48; 48; 48; 48; 49; 48; 78; 48; 16; 6; 7;
   42; 134; 72; 206; 61; 2; 1; 6; 5; 43; 129; 4; 0; 33; 3; 58; 0; 4; 66; 125; 201; 220; 190; 134; 135; 72; 123; 65; 5; 95; 79; 219; 127; 145;
   190; 27; 83; 145; 94; 1; 171; 117; 216; 225; 133; 246; 33; 177; 29; 195; 147; 5; 72; 245; 178; 138; 144; 188; 250; 26; 36; 71; 231; 52; 111;
   21; 128; 74; 216; 162; 90; 145; 79; 126; 163; 106; 48; 104; 48; 12; 6; 3; 85; 29; 19; 1; 1; 255; 4; 2; 48; 0; 48; 14; 6; 3; 85; 29; 15; 1;
   1; 255; 4; 4; 3; 2; 5; 160; 48; 32; 6; 3; 85; 29; 37; 1; 1; 255; 4; 22; 48; 20; 6; 8; 43; 6; 1; 5; 5; 7; 3; 2; 6; 8; 43; 6; 1; 5; 5; 7; 3;
   1; 48; 17; 6; 3; 85; 29; 14; 4; 10; 4; 8; 72; 37; 128; 40; 45; 243; 202; 137; 48; 19; 6; 3; 85; 29; 35; 4; 12; 48; 10; 128; 8; 70; 243; 241;
   175; 222; 48; 120; 159; 48; 10; 6; 8; 42; 134; 72; 206; 61; 4; 3; 2; 3; 64; 0; 48; 61; 2; 29; 0; 135; 218; 77; 122; 203; 76; 23; 15; 87;
   149; 22; 149; 192; 214; 168; 159; 110; 92; 60; 207; 108; 231; 20; 204; 248; 213; 23; 145; 2; 28; 122; 191; 106; 241; 0; 161; 132; 103; 20;
   245; 243; 250; 105; 56; 160; 31; 173; 170; 36; 251; 182; 36; 189; 62; 167; 164; 164; 0].
Example test_device_encodings : certificate_ok kept_limits test_device = true /\ weave_encoding test_device = test_device_Weave /\ x509_encoding test_device = test_device_DER.
Proof. vm_compute. repeat split; reflexivity. Qed.
Example test_device_converted : ConvertWeaveCertToX509Cert 8 test_device_Weave 0 (replicate 1024 0) = Ok test_device_DER /\
  ConvertX509CertToWeaveCert test_device_DER 1024 = Ok test_device_Weave.
Proof. split; vm_compute; reflexivity. Qed.

(** [test_device] with a path length of 256, a key usage of 17 bits and a signature value of
    257 bytes; and with a key usage that only the Weave form expresses. *)
Definition with_extensions (l : list extension) (sig : signature) (c : certificate) : certificate :=
  mkCertificate (c_serial c) (c_sigAlgo c) (c_issuer c) (c_notBefore c) (c_notAfter c) (c_subject c) (c_key c) l sig.
Definition wide_cert : certificate := with_extensions [BasicConstraintsExt true true (Some 256); KeyUsageExt true 65541] (ECDSASig (replicate 257 9) [5; 6]) test_device.
Definition wider_cert : certificate := with_extensions [KeyUsageExt true 4294967301] (ECDSASig [1] [2]) test_device.
Example wide_cert_kept : certificate_ok both_limits wide_cert = true /\ certificate_ok weave_limits wider_cert = true /\
  c_extensions (kept_in_x509 wide_cert) = [BasicConstraintsExt true true (Some 0); KeyUsageExt true 5] /\ c_signature (kept_in_x509 wide_cert) = ECDSASig [9] [5; 6] /\
  c_extensions (kept_in_x509 wider_cert) = [KeyUsageExt true 5].
Proof. vm_compute. repeat split; reflexivity. Qed.

(** ** Properties *)


(** C37: Converting a certificate and converting it back gives what the code keeps of it,
    and the two conversions are inverses, byte for byte, on the certificates that are kept.
    Take any certificate with an EC key that both forms express: the certificates of C36
    with a path length below 2^63, a key usage of 32 bits and r and s of at most 65531
    bytes. From its Weave form to X.509 and back, the path length is taken modulo 256, the
    key usage modulo 65536, and r and s are cut to their length modulo 256; from its X.509
    form to Weave the path length is taken modulo 2^32, and back to X.509 the rest is lost
    as well. With a path length of at most 255, a key usage of 16 bits and r and s of at
    most 255 bytes both ways give the same bytes again. The X.509 encodings are smaller than
    64 KB, the Weave encodings fit the output buffer, and the X.509 buffer has room for the
    unfinished form. *)
Theorem Cert_conversions_inverse ptr c addr buf size : 0 <= ptr -> certificate_ok both_limits c = true -> ec_key (c_key c) = true -> 0 <= addr ->
  Z.of_nat (length buf) < 4294967296 -> size < 4294967296 -> let n := kept_in_x509 c in let m := kept_in_weave c in
  Forall (fun x => Z.of_nat (length (x509_encoding x)) < 65536 /\ Z.of_nat (length (weave_encoding x)) <= size) [c; n; m] ->
  raw_size (certificate_item n) + ptr * containers (certificate_item n) <= aw_bufEnd (ASN1Writer_Init addr buf) ->
  let to_x509 w := ConvertWeaveCertToX509Cert ptr w addr buf in
  let to_weave d := ConvertX509CertToWeaveCert d size in
  (to_x509 (weave_encoding c) = Ok (x509_encoding n) /\ to_weave (x509_encoding n) = Ok (weave_encoding n)) /\
  (to_weave (x509_encoding c) = Ok (weave_encoding m) /\ to_x509 (weave_encoding m) = Ok (x509_encoding n)) /\
  (certificate_ok kept_limits c = true -> n = c /\ m = c).
Proof.
  intros Hp Hc%certificate_ok_spec Hk Ha Hb Hs n m HF Hr. pose proof (item_sized (certificate_item n)) as [H1 H2]. pose proof (Z.mul_nonneg_nonneg _ _ Hp H2).
  rewrite !List.Forall_cons_iff in HF. destruct HF as ([Lc Wc] & [Ln Wn] & [Lm Wm] & _).
  pose proof (parts_le _ _ c both_weave Hc) as Hw. pose proof (kept_in_x509_ok c Hw : certificate_parts kept_limits n) as Hn. pose proof (kept_in_weave_ok c Hc : certificate_parts both_limits m) as Hm.
  assert (forall x, certificate_parts weave_limits x -> Z.of_nat (length (weave_encoding x)) <= size -> kept_in_x509 x = n -> ConvertWeaveCertToX509Cert ptr (weave_encoding x) addr buf = Ok (x509_encoding n)) as EX.
  { intros x Hx Hl En. rewrite Weave_to_X509 by (rewrite ?En; done || lia). rewrite En. by rewrite decide_True. }
  assert (forall x, certificate_parts both_limits x -> ec_key (c_key x) = true -> Z.of_nat (length (x509_encoding x)) < 65536 -> Z.of_nat (length (weave_encoding (kept_in_weave x))) <= size ->
    ConvertX509CertToWeaveCert (x509_encoding x) size = Ok (weave_encoding (kept_in_weave x))) as EW by (intros; apply X509_to_Weave; done || lia).
  pose proof (kept_in_weave_id n Hn) as En. split; [split; [by apply EX|]|split; [split; [by apply EW|]|]].
  - rewrite <- En at 2. apply EW; [by apply (parts_le _ _ n kept_both)|exact Hk|exact Ln|by rewrite En].
  - apply EX; [by apply (parts_le _ _ m both_weave)|exact Wm|apply kept_in_both].
  - intros HK%certificate_ok_spec. by split; [apply kept_in_x509_id|apply kept_in_weave_id].
Qed.
Lemma Cert_conversions_inverse_witness :
  (ConvertWeaveCertToX509Cert 8 (weave_encoding test_device) 0 (replicate 1024 0) = Ok (x509_encoding test_device) /\
   ConvertX509CertToWeaveCert (x509_encoding test_device) 1024 = Ok (weave_encoding test_device)) /\
  ConvertX509CertToWeaveCert (x509_encoding wide_cert) 1024 = Ok (weave_encoding wide_cert) /\
  ConvertWeaveCertToX509Cert 8 (weave_encoding wide_cert) 0 (replicate 1024 0) = Ok (x509_encoding (kept_in_x509 wide_cert)).
Proof.
  assert (forall c, certificate_ok both_limits c = true -> ec_key (c_key c) = true -> let n := kept_in_x509 c in let m := kept_in_weave c in
    Forall (fun x => Z.of_nat (length (x509_encoding x)) < 65536 /\ Z.of_nat (length (weave_encoding x)) <= 1024) [c; n; m] ->
    raw_size (certificate_item n) + 8 * containers (certificate_item n) <= 1024 ->
    (ConvertWeaveCertToX509Cert 8 (weave_encoding c) 0 (replicate 1024 0) = Ok (x509_encoding n) /\ ConvertX509CertToWeaveCert (x509_encoding n) 1024 = Ok (weave_encoding n)) /\
    (ConvertX509CertToWeaveCert (x509_encoding c) 1024 = Ok (weave_encoding m) /\ ConvertWeaveCertToX509Cert 8 (weave_encoding m) 0 (replicate 1024 0) = Ok (x509_encoding n)) /\
    (certificate_ok kept_limits c = true -> n = c /\ m = c)) as HC.
  { intros c Hc Hk n m HF Hr. exact (Cert_conversions_inverse 8 c 0 (replicate 1024 0) 1024 ltac:(lia) Hc Hk ltac:(lia) ltac:(vm_compute; reflexivity) ltac:(lia) HF Hr). }
  split.
  - destruct (HC test_device) as (H1 & _ & HK); [vm_compute; reflexivity|vm_compute; reflexivity|repeat constructor; vm_compute; done|vm_compute; discriminate|].
    destruct (HK ltac:(vm_compute; reflexivity)) as [E _]. by rewrite E in H1.
  - destruct (HC wide_cert) as ([H1 _] & [H2 _] & _); [vm_compute; reflexivity|vm_compute; reflexivity|repeat constructor; vm_compute; done|vm_compute; discriminate|].
    split; [|exact H1]. rewrite H2. vm_compute. reflexivity.
Defined.

(** An RSA key does not come back: its exponent is written as an unsigned number,
    which the conversion to X.509 does not take. *)
Definition rsa_cert : certificate :=
  mkCertificate [7] 0x204 (IdAttr 0x313 1) 524275200 526953599 (IdAttr 0x311 2) (RSAKey [0; 187; 3] 65537) [] (ECDSASig [1] [2]).
Lemma RSA_exponent_not_restored : certificate_ok kept_limits rsa_cert = true /\
  ConvertWeaveCertToX509Cert 8 (weave_encoding rsa_cert) 0 (replicate 1024 0) = Ok (x509_encoding rsa_cert) /\
  match ConvertX509CertToWeaveCert (x509_encoding rsa_cert) 1024 with
  | Ok w => w <> weave_encoding rsa_cert /\ ConvertWeaveCertToX509Cert 8 w 0 (replicate 1024 0) = Err WEAVE_ERROR_WRONG_TLV_TYPE
  | _ => False
  end.
Proof. vm_compute. repeat split; try reflexivity. discriminate. Qed.
