(* ===== verification/CertLoad.v ===== *)
(** * Loading certificates into a set

    What LoadCert makes of the encoding of a certificate: the data that validation
    reads, and the hash that its signature is checked against. *)
From S2P Require Import Prelude Encoding TLVTypes TLVReader TLVReaderRefine TLVWriter TLVHead TLVTree TLV CircularTLVLog TLVCursor.
From S2P Require Import ASN1OID ASN1Writer ASN1Tree ASN1Leaf ASN1Write ASN1 CertTime Cert CertToX509 CertSpec CertConv CertToX509Refine CertConvert.
Local Open Scope Z_scope.
Local Open Scope weave_scope.

(** ** What is loaded *)

Definition signature_data (s : signature) (c : WeaveCertificateData) : WeaveCertificateData :=
  match s with
  | ECDSASig r s => set_SigSLen (Z.of_nat (length s)) (set_SigS (Some s) (set_SigRLen (Z.of_nat (length r)) (set_SigR (Some r) c)))
  | RSASig _ => c
  end.
(** The hash goes into the first bytes of TBSHash. *)
Definition hash_data (hash : list Z) (c : WeaveCertificateData) : WeaveCertificateData :=
  add_flag kCertFlag_TBSHashPresent (set_TBSHash (hash ++ drop (length hash) (TBSHash c)) c).
(** The elements of a certificate, with the end of their structure. *)
Definition certificate_body (crt : certificate) : list Z := enc_list 21 kProfileIdNotSpecified (certificate_elems crt) ++ [24].
(** The data of what the code keeps of the certificate; [encoded] is the buffer from its
    elements on. *)
Definition loaded_data (SHA1 SHA256 : list Z -> list Z) (flags : Z) (crt : certificate) (encoded : list Z) : WeaveCertificateData :=
  let kept := kept_in_x509 crt in
  let c := tbs_data kept zero_cert in
  let tbs := der (tbs_item kept) in
  let c := if has_flag flags kDecodeFlag_GenerateTBSHash
           then hash_data (if c_sigAlgo crt =? kOID_SigAlgo_ECDSAWithSHA1 then SHA1 tbs else SHA256 tbs) c else c in
  let c := signature_data (c_signature kept) c in
  let c := set_EncodedCertLen (Z.of_nat (length (certificate_body crt))) (set_EncodedCert (Some encoded) c) in
  if has_flag flags kDecodeFlag_IsTrusted then add_flag kCertFlag_IsTrusted c else c.

(** The extensions without which no certificate is loaded. *)
Definition is_auth_key_id (x : extension) : bool := match x with AuthKeyIdExt _ _ => true | _ => false end.
Definition is_subject_key_id (x : extension) : bool := match x with SubjectKeyIdExt _ _ => true | _ => false end.
Definition has_key_ids (crt : certificate) : bool := existsb is_auth_key_id (c_extensions crt) && existsb is_subject_key_id (c_extensions crt).

(** ** Flags *)

Lemma land_lor_keeps a b f : Z.land a f = f -> Z.land (Z.lor a b) f = f.
Proof. intros H. rewrite Z.land_lor_distr_l, H. apply Z.bits_inj'. intros n Hn. rewrite Z.lor_spec, Z.land_spec. by destruct (Z.testbit f n), (Z.testbit b n). Qed.
Lemma purposes_flags l : forall c, CertFlags (fold_left add_purpose l c) = CertFlags c.
Proof. induction l as [|o l IH]; intros c; [done|]. cbn [fold_left]. by rewrite IH. Qed.
Definition extension_flag (x : extension) : Z :=
  match x with
  | AuthKeyIdExt _ _ => kCertFlag_ExtPresent_AuthKeyId
  | SubjectKeyIdExt _ _ => kCertFlag_ExtPresent_SubjectKeyId
  | KeyUsageExt _ _ => kCertFlag_ExtPresent_KeyUsage
  | BasicConstraintsExt _ _ _ => kCertFlag_ExtPresent_BasicConstraints
  | ExtendedKeyUsageExt _ _ => kCertFlag_ExtPresent_ExtendedKeyUsage
  end.
Lemma extension_flags c x : exists g, CertFlags (extension_data c x) = Z.lor (Z.lor (CertFlags c) (extension_flag x)) g.
Proof.
  destruct x as [cr [id|]|cr id|cr bits|cr isCA pathLen|cr purposes]; cbn [extension_data].
  1-4: by exists 0; rewrite Z.lor_0_r.
  - set (f := kCertFlag_ExtPresent_BasicConstraints). exists (Z.lor (if isCA then kCertFlag_IsCA else 0) (match pathLen with Some _ => kCertFlag_PathLenConstPresent | None => 0 end)).
    destruct isCA, pathLen; unfold add_flag; cbn; by rewrite ?Z.lor_0_r, ?Z.lor_0_l, ?Z.lor_assoc.
  - exists 0. rewrite purposes_flags, Z.lor_0_r. done.
Qed.
Lemma extensions_flag l f : forall c, Z.land (CertFlags c) f = f \/ existsb (fun x => Z.land (extension_flag x) f =? f) l = true ->
  Z.land (CertFlags (fold_left extension_data l c)) f = f.
Proof.
  induction l as [|x l IH]; intros c; cbn [existsb fold_left]; [by intros [?|?]|]. intros H. apply IH. destruct (extension_flags c x) as [g ->]. rewrite orb_true_iff, Z.eqb_eq in H.
  destruct H as [H|[H|H]]; [left..|by right]; apply land_lor_keeps; [by apply land_lor_keeps|]. rewrite Z.lor_comm. by apply land_lor_keeps.
Qed.
Lemma key_ids_flags crt c : has_key_ids crt = true -> let f := Z.lor kCertFlag_ExtPresent_SubjectKeyId kCertFlag_ExtPresent_AuthKeyId in
  Z.land (CertFlags (tbs_data crt c)) f = f.
Proof.
  intros [Ha Hs]%andb_prop f. unfold f. rewrite Z.land_lor_distr_r. unfold tbs_data. f_equal; apply extensions_flag; right; apply existsb_exists.
  - apply existsb_exists in Hs as (x & Hx & H). exists x. split; [done|]. by destruct x.
  - apply existsb_exists in Ha as (x & Hx & H). exists x. split; [done|]. by destruct x.
Qed.

Lemma kept_key_ids crt : has_key_ids (kept_in_x509 crt) = has_key_ids crt.
Proof.
  assert (forall f l, (forall x, f (kept_extension x) = f x) -> existsb f (map kept_extension l) = existsb f l) as HE.
  { intros f l Hf. induction l as [|x l IH]; [done|]. cbn [map existsb]. by rewrite Hf, IH. }
  unfold has_key_ids. cbn [kept_in_x509 with_parts c_extensions]. rewrite !HE; [done|by intros [| | |? ? []|]..].
Qed.

(** Where the certificate came from does not change the rest. *)
Lemma purposes_EncodedCert q l : forall c, fold_left add_purpose l (set_EncodedCert q c) = set_EncodedCert q (fold_left add_purpose l c).
Proof. induction l as [|o l IH]; intros c; [done|]. cbn [fold_left]. by rewrite <- IH. Qed.
Lemma extension_EncodedCert q c x : extension_data (set_EncodedCert q c) x = set_EncodedCert q (extension_data c x).
Proof. destruct x as [cr [id|]|cr id|cr bits|cr [] [n|]|cr purposes]; try done. cbn [extension_data]. rewrite <- purposes_EncodedCert. done. Qed.
Lemma tbs_EncodedCert crt q c : tbs_data crt (set_EncodedCert q c) = set_EncodedCert q (tbs_data crt c).
Proof.
  assert (forall l c, fold_left extension_data l (set_EncodedCert q c) = set_EncodedCert q (fold_left extension_data l c)) as HL.
  { induction l as [|x l IH]; intros c'; [done|]. cbn [fold_left]. by rewrite extension_EncodedCert, IH. }
  unfold tbs_data. rewrite <- HL. f_equal. by destruct (c_key crt).
Qed.

(** ** The elements of a certificate do not depend on the implicit profile *)

Lemma special_head ct p q et tag v : IsSpecialTag tag = true -> head ct p et tag v = head ct q et tag v.
Proof. intros H. unfold head, ElementHeadTag. by rewrite H. Qed.
Fixpoint special (t : TLVTree.tlv) : bool :=
  IsSpecialTag (tree_tag t) && match t with TContainer _ _ ts => forallb special ts | _ => true end.
Lemma special_enc p q t : forall ct, special t = true -> enc ct p t = enc ct q t.
Proof.
  induction t as [tag v|tag v|tag b|tag v|tag|tag s|tag s|tag c ts IH] using tlv_nested_ind; intros ct H; cbn [special tree_tag] in H; apply andb_prop in H as [Ht Hs]; cbn [enc];
    rewrite ?(special_head ct p q) by done; try done; [by destruct v; apply special_head|].
  do 2 f_equal. clear Ht. induction IH as [|t ts Ht Hts IH']; [done|]. cbn [forallb map concat] in *. apply andb_prop in Hs as [H1 H2]. by rewrite (Ht c H1), IH'.
Qed.
Lemma special_list ct p q ts : forallb special ts = true -> enc_list ct p ts = enc_list ct q ts.
Proof. unfold enc_list. induction ts as [|t ts IH]; [done|]. cbn [forallb map concat]. intros [H1 H2]%andb_prop. by rewrite (special_enc p q t ct H1), IH. Qed.
Lemma Ctx_special n : 0 <= n < 256 -> IsSpecialTag (Ctx n) = true.
Proof.
  intros Hn. assert (all_upto 256 (fun n => IsSpecialTag (Ctx n)) = true) as H by (vm_compute; reflexivity). exact (all_upto_spec _ _ H n Hn).
Qed.
Lemma certificate_special lim c : certificate_parts lim c -> forallb special (certificate_elems c) = true.
Proof.
  assert (forall a, attribute_ok a = true -> special (attribute_tlv a) = true) as HA.
  { intros a Ha. destruct (attribute_num a Ha) as (Hn & _). destruct a as [oid id|oid printable s]; cbn [attribute_tlv attribute_oid special tree_tag] in *; [by rewrite Ctx_special by lia|by rewrite Ctx_special by (destruct printable; lia)]. }
  assert (forall l, forallb special (map (fun oid => TUInt AnonymousTag (Z.land oid kOID_Mask)) l) = true) as HP by (by induction l).
  intros []. unfold certificate_elems. rewrite !forallb_app. rewrite !andb_true_iff. split; [|split; [by destruct (c_key c)|split; [|by destruct (c_signature c)]]].
  - cbn [forallb special tree_tag]. by rewrite (HA _ p_issuer), (HA _ p_subject).
  - apply forallb_forall. intros t (x & <- & _)%in_map_iff. destruct x as [[] [id|]|[] id|[] bits|[] [] [n|]|[] purposes]; try reflexivity; cbn [extension_tlv critical_tlv app special forallb]; by rewrite HP.
Qed.

(** ** The run of LoadCert *)

Section Load.
Context (ptr : Z) (ptr_pos : 0 <= ptr) (SHA1 SHA256 : list Z -> list Z) (p : Z) (Hp : is_profile p).
Abbreviation ahead := (TLVCursor.ahead p).
Abbreviation at_elt := (TLVCursor.at_elt p).

(** A writer with room for a value takes it, and Finalize leaves its encoding. *)
Lemma emits_finalized m rd c i rd' c' addr buf : emits ptr m rd c [i] tt rd' c' -> item_ok i = true -> 0 < containers i -> 0 <= addr -> Z.of_nat (length buf) < 4294967296 ->
  Z.of_nat (length (der i)) < 65536 -> raw_size i + ptr * containers i <= aw_bufEnd (ASN1Writer_Init addr buf) ->
  exists w w', m (mkConv rd (ASN1Writer_Init addr buf) c) = (Ok tt, mkConv rd' w c') /\ ASN1_Finalize w = (Ok tt, w') /\
    take (Z.to_nat (ASN1_GetLengthWritten w')) (aw_mem w') = der i.
Proof using ptr_pos.
  intros HE HO HC Ha Hb HL HR. pose proof (item_sized i) as [H1 H2]. pose proof (Z.mul_nonneg_nonneg _ _ ptr_pos H2).
  pose proof (write_items_ok ptr addr buf [i] ptr_pos Ha Hb) as HW. unfold ders, raw_sizes, all_containers in HW. cbn [map concat forallb fold_right] in HW. rewrite HO, app_nil_r, !Z.add_0_r in HW.
  specialize (HW eq_refl ltac:(lia) ltac:(lia)). cbv zeta in HW. rewrite (proj2 (Z.ltb_lt 0 _) HC) in HW.
  pose proof (ldiff_3 (addr + Z.of_nat (length buf)) ltac:(lia)). assert (in_buffer (ASN1Writer_Init addr buf)) as HB by (unfold in_buffer, ASN1Writer_Init; cbn [aw_bufEnd aw_mem]; lia).
  specialize (HE _ HB). unfold write_items in HW. unfold bind in HW. destruct (put_items ptr [i] (ASN1Writer_Init addr buf)) as [[[]|e| |] w]; [|rewrite decide_True in HW by done; by destruct HW..].
  cbn [as_does fst snd] in HE. destruct HE as [HE _]. destruct (ASN1_Finalize w) as [r w'] eqn:EF. rewrite decide_True in HW by done. destruct HW as (-> & HOut & HPt). exists w, w'. split; [done|]. split; [done|].
  unfold ASN1_GetLengthWritten. rewrite HPt, HOut, u16_id by lia. rewrite <- HOut at 2. unfold output. by rewrite HPt, HOut.
Qed.

Ltac run E := rewrite (bind_ok _ _ _ _ _ E).
Lemma on_reader_ok {A} (m : M TLVReader A) rd a rd' w c : m rd = (Ok a, rd') -> on_reader m (mkConv rd w c) = (Ok a, mkConv rd' w c).
Proof. intros E. unfold on_reader. cbn. by rewrite E. Qed.
Lemma data_ptr_ok t s es rest rd w c : at_elt 21 t es rest rd -> string_elt t s -> data_ptr (mkConv rd w c) = (Ok (s ++ tail p 21 es rest), mkConv rd w c).
Proof using Hp. intros H Hs. unfold data_ptr. apply on_reader_ok. by eapply elt_data_ptr. Qed.

Lemma kept_length s : Z.of_nat (length (kept_bytes s)) = u8 (Z.of_nat (length s)).
Proof. unfold kept_bytes. assert (0 <= u8 (Z.of_nat (length s)) <= Z.of_nat (length s)) by (unfold u8; split; [apply Z.mod_pos_bound; lia|apply Z.mod_le; lia]). rewrite length_take. lia. Qed.
Lemma pointed_kept s rest : pointed (Some (s ++ rest)) (u8 (Z.of_nat (length s))) = kept_bytes s.
Proof. exact (kept_app s rest). Qed.
Lemma set_SigR_data r rest c : data_of (set_SigRLen (u8 (Z.of_nat (length r))) (set_SigR (Some (r ++ rest)) c)) =
  set_SigRLen (Z.of_nat (length (kept_bytes r))) (set_SigR (Some (kept_bytes r)) (data_of c)).
Proof. unfold data_of, set_SigR, set_SigRLen, set_SigS, set_SigSLen. cbn -[pointed kept_bytes u8]. by rewrite pointed_kept, kept_length. Qed.
Lemma set_SigS_data s rest c : data_of (set_SigSLen (u8 (Z.of_nat (length s))) (set_SigS (Some (s ++ rest)) c)) =
  set_SigSLen (Z.of_nat (length (kept_bytes s))) (set_SigS (Some (kept_bytes s)) (data_of c)).
Proof. unfold data_of, set_SigR, set_SigRLen, set_SigS, set_SigSLen. cbn -[pointed kept_bytes u8]. by rewrite pointed_kept, kept_length. Qed.

Lemma look_step {B} (f : TLVReader -> Z) (k : Z -> M Conv B) rd w c : bind (look f) k (mkConv rd w c) = k (f rd) (mkConv rd w c).
Proof. done. Qed.
Lemma cert_step {B} f (k : unit -> M Conv B) rd w c : bind (on_cert f) k (mkConv rd w c) = k tt (mkConv rd w (f c)).
Proof. done. Qed.
Lemma verify_step {B} (cond : bool) e (k : unit -> M Conv B) s : cond = true -> bind (verify cond e) k s = k tt s.
Proof. by intros ->. Qed.

Lemma signature_loads r s rest rd w c : at_elt 21 (signature_tlv (ECDSASig r s)) [] rest rd ->
  exists rd' c', load_signature (mkConv rd w c) = (Ok tt, mkConv rd' w c') /\ data_of c' = signature_data (kept_signature (ECDSASig r s)) (data_of c) /\ before_elts p 21 [] rest rd'.
Proof using Hp.
  intros H. destruct (Enter_elt p 21 _ _ _ _ _ _ H) as (r1 & E1 & H1).
  destruct (NextExpect_cons p Hp 21 _ _ _ _ kTLVType_ByteString (Ctx kTag_ECDSASignature_r) H1 eq_refl eq_refl) as (r2 & E2 & H2).
  destruct (NextExpect_cons p Hp 21 _ _ _ _ kTLVType_ByteString (Ctx kTag_ECDSASignature_s) (at_ahead p Hp _ _ _ _ _ H2) eq_refl eq_refl) as (r3 & E3 & H3).
  assert (string_elt (TBytes (Ctx kTag_ECDSASignature_r) r) r) as Hsr by (right; by eexists). assert (string_elt (TBytes (Ctx kTag_ECDSASignature_s) s) s) as Hss by (right; by eexists).
  destruct (Exit_last p Hp _ _ _ _ 21 H3 eq_refl ltac:(done)) as (r4 & E4 & HR4 & HD4 & HF4 & _).
  eexists r4, _. split; [|split; [|by split]].
  - unfold load_signature. rewrite look_step, verify_step by (by rewrite (elt_type p _ _ _ _ _ H)). rewrite look_step. change (GetTag rd) with (mElemTag rd). rewrite verify_step by (by rewrite (elt_tag p _ _ _ _ _ H)).
    rewrite (bind_ok _ _ _ _ _ (on_reader_ok _ _ _ _ w c E1)), (bind_ok _ _ _ _ _ (on_reader_ok _ _ _ _ w c E2)), (bind_ok _ _ _ _ _ (data_ptr_ok _ _ _ _ _ w c H2 Hsr)), cert_step, look_step, cert_step.
    rewrite (elt_length p _ _ _ _ _ _ H2 Hsr), (bind_ok _ _ _ _ _ (on_reader_ok _ _ _ _ w _ E3)), (bind_ok _ _ _ _ _ (data_ptr_ok _ _ _ _ _ w _ H3 Hss)), cert_step, look_step, cert_step.
    rewrite (elt_length p _ _ _ _ _ _ H3 Hss). by apply on_reader_ok.
  - by rewrite set_SigS_data, set_SigR_data.
Qed.

(** The elements of a certificate, after its structure has been entered. *)
Lemma kept_tbs_ok c : certificate_parts weave_limits c -> item_ok (tbs_item (kept_in_x509 c)) = true.
Proof. intros HP. apply tbs_item_ok, (parts_le kept_limits); [limits_lia|]. by apply kept_in_x509_ok. Qed.
Lemma elements_load flags crt o rest rd r1 c addr buf : EnterContainer rd = (Ok o, r1) -> ahead 21 (certificate_elems crt) rest r1 -> certificate_parts weave_limits crt ->
  has_key_ids crt = true -> is_rsa_sig (c_sigAlgo crt) = false -> 0 <= addr -> Z.of_nat (length buf) < 4294967296 -> Z.of_nat (length (der (tbs_item (kept_in_x509 crt)))) < 65536 ->
  raw_size (tbs_item (kept_in_x509 crt)) + ptr * containers (tbs_item (kept_in_x509 crt)) <= aw_bufEnd (ASN1Writer_Init addr buf) ->
  exists rd' w' c', load_elements ptr SHA1 SHA256 flags (mkConv rd (ASN1Writer_Init addr buf) c) = (Ok tt, mkConv rd' w' c') /\
    data_of c' = signature_data (kept_signature (c_signature crt)) (let c := tbs_data (kept_in_x509 crt) (data_of c) in let tbs := der (tbs_item (kept_in_x509 crt)) in
      if has_flag flags kDecodeFlag_GenerateTBSHash then hash_data (if c_sigAlgo crt =? kOID_SigAlgo_ECDSAWithSHA1 then SHA1 tbs else SHA256 tbs) c else c) /\
    reader_in p o rd' /\ done_elem rd' /\ flat rd' = rest.
Proof using Hp ptr_pos.
  intros E1 H1 HP HK HS Ha Hb HL HR. destruct (ConvertTBSCertificate_emits ptr ptr_pos p Hp crt rest r1 c H1 HP) as (r2 & c2 & E2 & HD2 & H2).
  assert (0 < containers (tbs_item (kept_in_x509 crt))) as HC by (unfold tbs_item, ASequence; set (l := _ ++ _); change (0 < 1 + all_containers l); pose proof (all_sized l); lia).
  destruct (emits_finalized _ _ _ _ _ _ addr buf E2 (kept_tbs_ok crt HP) HC Ha Hb HL HR) as (w2 & w3 & F2 & F3 & HO).
  assert (CertFlags c2 = CertFlags (tbs_data (kept_in_x509 crt) (data_of c))) as HF by (by rewrite <- HD2). assert (SigAlgoOID c2 = c_sigAlgo crt) as HSig.
  { change (SigAlgoOID (data_of c2) = c_sigAlgo crt). rewrite HD2. unfold tbs_data. rewrite extensions_sig. cbn [kept_in_x509 with_parts c_key]. by destruct (c_key crt). }
  destruct HP as [_ _ _ _ _ _ _ Hsig]. destruct (c_signature crt) as [r s|s]; cbn [signature_ok] in Hsig; rewrite !andb_true_iff in Hsig; [|destruct Hsig; congruence].
  destruct Hsig as [[Hsa _] _].
  pose (c3 := if has_flag flags kDecodeFlag_GenerateTBSHash then hash_data (if c_sigAlgo crt =? kOID_SigAlgo_ECDSAWithSHA1 then SHA1 (der (tbs_item (kept_in_x509 crt))) else SHA256 (der (tbs_item (kept_in_x509 crt)))) c2 else c2).
  pose (w4 := if has_flag flags kDecodeFlag_GenerateTBSHash then w3 else w2).
  destruct (signature_loads r s rest r2 w4 c3 H2) as (r4 & c4 & E4 & HD4 & H4). destruct (Exit_before p Hp 21 rest r4 o H4 ltac:(done)) as (r5 & E5 & HR5 & HD5 & HF5 & _).
  exists r5, w4, c4. split; [|split; [|by split]].
  - unfold load_elements. rewrite (bind_ok _ _ _ _ _ (on_reader_ok _ _ _ _ _ c E1)), (bind_ok _ _ _ _ _ F2). cbv zeta. unfold bind at 1. cbn [cv_cert]. rewrite HF.
    rewrite <- kept_key_ids in HK. pose proof (key_ids_flags (kept_in_x509 crt) (data_of c) HK) as HKF. cbv zeta in HKF. rewrite HKF, Z.eqb_refl. cbn [verify ret]. unfold bind at 1. cbn [cv_cert]. rewrite HSig. rewrite Hsa. cbn [verify ret].
    assert ((if has_flag flags kDecodeFlag_GenerateTBSHash then hash_tbs SHA1 SHA256 else ret tt) (mkConv r2 w2 c2) = (Ok tt, mkConv r2 w4 c3)) as E3.
    { unfold w4, c3. destruct (has_flag flags kDecodeFlag_GenerateTBSHash); [|done]. unfold hash_tbs. unfold bind, on_writer. cbn [cv_writer cv_reader cv_cert]. rewrite F3. cbn [cv_writer cv_reader cv_cert].
      rewrite HO, HSig. done. }
    rewrite (bind_ok _ _ _ _ _ E3), (bind_ok _ _ _ _ _ E4). by apply on_reader_ok.
  - rewrite HD4. f_equal. unfold c3. destruct (has_flag flags kDecodeFlag_GenerateTBSHash); [|done]. rewrite <- HD2. done.
Qed.

(** The buffer LoadCert decodes into. *)
Definition decode_buffer (s : WeaveCertificateSet) : option buffer :=
  match mDecodeBuf s with Some b => Some b | None => match mAllocFunct s with Some alloc => alloc (mDecodeBufSize s) | None => None end end.
(** DetermineCertType: its outcome and the certificate after it. *)
Definition type_outcome {A} (a : A) (c : WeaveCertificateData) : res A :=
  match DetermineCertType c with Ok _ => Ok a | Err e => Err e | Undefined => Undefined | Diverges => Diverges end.
Definition typed (c : WeaveCertificateData) : WeaveCertificateData := match DetermineCertType c with Ok c => c | _ => c end.
Lemma determine_data c : DetermineCertType (data_of c) = match DetermineCertType c with Ok c' => Ok (data_of c') | Err e => Err e | Undefined => Undefined | Diverges => Diverges end.
Proof.
  unfold DetermineCertType. cbn [data_of CertFlags KeyUsageFlags SubjectDN AttrOID]. destruct (has_flag (CertFlags c) _); [by destruct (_ && _)|].
  do 3 (destruct (_ =? _); [done|]). done.
Qed.
Lemma typed_data c : data_of (typed c) = typed (data_of c).
Proof. unfold typed. rewrite determine_data. by destruct (DetermineCertType c). Qed.
Lemma outcome_data {A} (a : A) c : type_outcome a (data_of c) = type_outcome a c.
Proof. unfold type_outcome. rewrite determine_data. by destruct (DetermineCertType c). Qed.
Lemma outcome_cases c : (exists c', DetermineCertType c = Ok c') \/ (exists e, DetermineCertType c = Err e).
Proof. unfold DetermineCertType. repeat case_match; eauto. Qed.

Lemma body_flat crt rest : certificate_parts weave_limits crt -> tail p 21 (certificate_elems crt) rest = certificate_body crt ++ rest.
Proof. intros HP. unfold tail, certificate_body. rewrite (special_list 21 p kProfileIdNotSpecified) by (by eapply certificate_special). by rewrite <- app_assoc. Qed.
Lemma read_point o r : reader_in p o r -> mReadPoint r = Some (flat r).
Proof.
  intros [HW HC _ _]. destruct (wf_current r HW) as [-> _]. unfold flat. rewrite HC. cbn [concat]. rewrite take_nil. by destruct (GetNextBuffer r); rewrite app_nil_r.
Qed.

Lemma LoadCert_ok flags crt o rest rd s certs addr buf : at_struct p o (certificate_elems crt) rest rd -> certificate_parts weave_limits crt ->
  has_key_ids crt = true -> is_rsa_sig (c_sigAlgo crt) = false -> Certs s = Some certs -> CertCount s < MaxCerts s -> decode_buffer s = Some (addr, buf) ->
  0 <= addr -> Z.of_nat (length buf) < 4294967296 -> Z.of_nat (length (der (tbs_item (kept_in_x509 crt)))) < 65536 -> Z.of_nat (length (certificate_body crt)) < 65536 ->
  raw_size (tbs_item (kept_in_x509 crt)) + ptr * containers (tbs_item (kept_in_x509 crt)) <= aw_bufEnd (ASN1Writer_Init addr buf) ->
  exists rd' cert, let i := Z.to_nat (CertCount s) in let loaded := loaded_data SHA1 SHA256 flags crt (certificate_body crt ++ rest) in
    LoadCert ptr SHA1 SHA256 flags (rd, s) = (type_outcome i loaded, (rd', set_Certs (Some (<[i := cert]> certs)) (u8 (CertCount s + 1)) s)) /\
    data_of cert = typed loaded /\ reader_in p o rd' /\ done_elem rd' /\ flat rd' = rest.
Proof using Hp ptr_pos.
  intros H HP HK HS HC Hm Hb Ha Hbl HL HBL HR. destruct (Enter_struct p _ _ _ _ H) as (r1 & E1 & H1). pose proof (struct_type p _ _ _ _ H) as HTy. destruct H as [HRd _ HFl _].
  pose proof (read_point _ _ HRd) as HRP. rewrite HFl, body_flat in HRP by done.
  destruct (elements_load flags crt o rest rd r1 (set_EncodedCert (mReadPoint rd) zero_cert) addr buf E1 (before_ahead p _ _ _ _ H1) HP HK HS Ha Hbl HL HR) as (rd' & w' & c' & EL & HD & HR' & HDn & HF).
  pose proof (read_point _ _ HR') as HRP'. rewrite HF in HRP'.
  set (c2 := if has_flag flags kDecodeFlag_IsTrusted then add_flag kCertFlag_IsTrusted (set_EncodedCertLen (Z.of_nat (length (certificate_body crt))) c') else set_EncodedCertLen (Z.of_nat (length (certificate_body crt))) c').
  assert (data_of c2 = loaded_data SHA1 SHA256 flags crt (certificate_body crt ++ rest)) as HD2.
  { assert (data_of c' = set_EncodedCert (Some (certificate_body crt ++ rest)) (signature_data (c_signature (kept_in_x509 crt)) (if has_flag flags kDecodeFlag_GenerateTBSHash
       then hash_data (if c_sigAlgo crt =? kOID_SigAlgo_ECDSAWithSHA1 then SHA1 (der (tbs_item (kept_in_x509 crt))) else SHA256 (der (tbs_item (kept_in_x509 crt)))) (tbs_data (kept_in_x509 crt) zero_cert) else tbs_data (kept_in_x509 crt) zero_cert))) as HD'.
    { rewrite HD, HRP. change (data_of (set_EncodedCert ?q zero_cert)) with (set_EncodedCert q zero_cert). cbv zeta. rewrite tbs_EncodedCert.
      change (c_signature (kept_in_x509 crt)) with (kept_signature (c_signature crt)).
      by destruct (has_flag flags kDecodeFlag_GenerateTBSHash), (c_signature crt). }
    unfold loaded_data. cbv zeta. rewrite <- HD'. unfold c2. by destruct (has_flag flags kDecodeFlag_IsTrusted). }
  exists rd', (typed c2). cbv zeta. split; [|split; [by rewrite typed_data, HD2|done]].
  unfold LoadCert. rewrite HTy. change (negb (kTLVType_Structure =? kTLVType_Structure)) with false. cbv iota. rewrite (proj2 (Z.ltb_lt _ _)) by done. cbn [negb]. cbv iota.
  fold (decode_buffer s). rewrite Hb. rewrite EL. cbn [cv_reader cv_cert]. unfold encoded_length. rewrite HRP, HRP'. destruct HRd as [_ HCh _ _], HR' as [_ HCh' _ _]. rewrite HCh, HCh'. cbn [length Nat.eqb].
  replace (u16 (Z.of_nat (length (certificate_body crt ++ rest)) - Z.of_nat (length rest))) with (Z.of_nat (length (certificate_body crt))) by (rewrite length_app, u16_id; lia).
  cbv zeta. fold c2. rewrite <- HD2, outcome_data. unfold type_outcome, typed, store_cert. rewrite HC. destruct (outcome_cases c2) as [[c3 ->]|[e ->]]; done.
Qed.

(** *** Lists of certificates *)

(** A certificate in a list has no tag. *)
Definition listed (crt : certificate) : TLVTree.tlv := TContainer AnonymousTag kTLVType_Structure (certificate_elems crt).
Record loadable (flags addr : Z) (buf : list Z) (crt : certificate) : Prop := {
  ld_parts : certificate_parts weave_limits crt;
  ld_ids : has_key_ids crt = true;
  ld_ecdsa : is_rsa_sig (c_sigAlgo crt) = false;
  ld_type : type_outcome tt (loaded_data SHA1 SHA256 flags crt []) = Ok tt;
  ld_tbs : Z.of_nat (length (der (tbs_item (kept_in_x509 crt)))) < 65536;
  ld_body : Z.of_nat (length (certificate_body crt)) < 65536;
  ld_room : raw_size (tbs_item (kept_in_x509 crt)) + ptr * containers (tbs_item (kept_in_x509 crt)) <= aw_bufEnd (ASN1Writer_Init addr buf) }.

(** The certificates from the place [i] on are those of the list. *)
Definition loaded_at (flags : Z) (certs : list WeaveCertificateData) (i : nat) (crts : list certificate) : Prop :=
  forall k crt, crts !! k = Some crt -> exists cert rest, certs !! (i + k)%nat = Some cert /\
    data_of cert = typed (loaded_data SHA1 SHA256 flags crt (certificate_body crt ++ rest)).

Lemma outcome_fields {A} (a : A) c c' : CertFlags c = CertFlags c' -> KeyUsageFlags c = KeyUsageFlags c' -> SubjectDN c = SubjectDN c' -> type_outcome a c = type_outcome a c'.
Proof.
  intros E1 E2 E3. unfold type_outcome, DetermineCertType. rewrite E1, E2, E3. destruct (has_flag (CertFlags c') _); [by destruct (_ && _)|]. do 3 (destruct (_ =? _); [done|]). done.
Qed.
Lemma loadable_outcome {A} (a : A) flags addr buf crt q : loadable flags addr buf crt -> type_outcome a (loaded_data SHA1 SHA256 flags crt q) = Ok a.
Proof.
  intros []. rewrite (outcome_fields a _ (loaded_data SHA1 SHA256 flags crt [])) by (unfold loaded_data; cbv zeta; by destruct (has_flag flags kDecodeFlag_IsTrusted)).
  revert ld_type0. unfold type_outcome. by destruct (DetermineCertType _).
Qed.

Lemma load_certs_ok flags addr buf crts : 0 <= addr -> Z.of_nat (length buf) < 4294967296 -> Forall (loadable flags addr buf) crts ->
  forall fuel rest rd s certs, (length crts < fuel)%nat -> ahead 22 (map listed crts) rest rd -> Certs s = Some certs -> decode_buffer s = Some (addr, buf) ->
  0 <= CertCount s -> CertCount s + Z.of_nat (length crts) <= MaxCerts s -> MaxCerts s <= 255 -> Z.of_nat (length certs) = MaxCerts s ->
  exists rd' certs', let i := Z.to_nat (CertCount s) in
    load_certs ptr SHA1 SHA256 fuel flags (rd, s) = (Ok tt, (rd', set_Certs (Some certs') (CertCount s + Z.of_nat (length crts)) s)) /\
    at_end p 22 rest rd' /\ length certs' = length certs /\ loaded_at flags certs' i crts /\
    forall j, (j < i)%nat \/ (i + length crts <= j)%nat -> certs' !! j = certs !! j.
Proof using Hp ptr_pos.
  intros Ha Hbl. induction 1 as [|crt crts Hc Hcs IH]; intros fuel rest rd s certs Hf H HC Hb H0 Hn Hm Hlc; (destruct fuel as [|fuel]; [cbn in Hf; lia|]); cbn [map length] in *.
  - destruct (Next_nil p Hp 22 rest rd H ltac:(done)) as (rd' & E & H'). exists rd', certs. cbv zeta. cbn [load_certs]. unfold CertToX509.rd at 1. cbn [fst snd]. rewrite E. rewrite Z.add_0_r.
    split; [by destruct s; cbn in HC; subst|]. split; [done|]. split; [done|]. split; [|done]. intros k crt Hk. done.
  - destruct (Next_cons p Hp 22 _ _ _ _ H) as (r1 & E1 & H1). pose proof (ae_valids _ _ _ _ _ _ H1) as HVs. apply (elt_struct p) in H1. pose proof Hc as [HP HK HS HT HL HBL HR].
    destruct (LoadCert_ok flags crt 22 _ r1 s certs addr buf H1 HP HK HS HC ltac:(lia) Hb Ha Hbl HL HBL HR) as (r2 & cert & E2 & HD & HR2 & HDn & HF2). cbv zeta in E2, HD.
    rewrite (loadable_outcome _ _ _ _ _ _ Hc) in E2. rewrite u8_id in E2 by lia. set (i := Z.to_nat (CertCount s)) in *. set (s1 := set_Certs (Some (<[i := cert]> certs)) (CertCount s + 1) s) in *.
    assert (ahead 22 (map listed crts) rest r2) as H2 by (by apply (before_ahead p)).
    destruct (IH fuel rest r2 s1 (<[i := cert]> certs) ltac:(lia) H2 eq_refl Hb ltac:(cbn; lia) ltac:(cbn; lia) Hm ltac:(rewrite length_insert; done)) as (r3 & certs' & E3 & H3 & HL3 & HA & HO).
    cbv zeta in E3, HA, HO. replace (Z.to_nat (CertCount s1)) with (S i) in * by (cbn; lia). rewrite length_insert in HL3. exists r3, certs'. cbv zeta. split; [|split; [done|split; [done|split]]].
    + cbn [load_certs]. unfold CertToX509.rd at 1. cbn [fst snd]. rewrite E1. unfold bind. rewrite E2, E3. by replace (CertCount s + Z.of_nat (S (length crts))) with (CertCount s1 + Z.of_nat (length crts)) by (cbn [s1 set_Certs CertCount]; lia).
    + intros [|k] crt' Hk.
      * injection Hk as <-. exists cert, (tail p 22 (map listed crts) rest). split; [|done]. rewrite Nat.add_0_r, HO by lia. apply list_lookup_insert_eq. lia.
      * replace (i + S k)%nat with (S i + k)%nat by lia. by apply HA.
    + intros j Hj. rewrite HO by lia. apply list_lookup_insert_ne. lia.
Qed.

(** *** Encodings by themselves, with the profile in the tag *)

Lemma Next_qualified et n r rest : wf r -> done_elem r -> mBufHandle r = [] -> ImplicitProfileId r = p -> mContainerType r = -1 -> et = 21 \/ et = 22 -> n = 1 \/ n = 4 ->
  flat r = [192 + et; 0; 0; 4; 0; n; 0] ++ rest ->
  exists r', Next r = (Ok tt, r') /\ reader_in p (-1) r' /\ ElementType r' = et /\ mElemTag r' = ProfileTag kWeaveProfile_Security n /\ flat r' = rest.
Proof using Hp.
  intros HW HD HC HI HCt Het Hn HF. assert (Z.land (192 + et) kTLVTypeMask = et) as HEt by (by destruct Het as [-> | ->]).
  destruct (ReadElement_spec (ClearElementState r) [192 + et; 0; 0; 4; 0; n; 0] (192 + et) [0; 0; 4; 0; n; 0] rest (Clear_wf r HW) HF eq_refl) as (r1 & E & Hw1 & Hf1 & (S1 & S2 & S3) & HL).
  { by destruct Het as [-> | ->]. }
  { rewrite HEt. by destruct Het as [-> | ->]. }
  { by destruct Het as [-> | ->]. }
  rewrite HEt in E. assert (ReadTag (ImplicitProfileId (ClearElementState r)) (Z.land (192 + et) kTLVTagControlMask) [0; 0; 4; 0; n; 0] = (ProfileTag kWeaveProfile_Security n, [])) as HT
    by (by destruct Het as [-> | ->], Hn as [-> | ->]). rewrite HT in E. set (r2 := set_element _ _ _ r1) in E.
  assert (ElementType r2 = et) as HE2. { unfold r2, ElementType. cbn [set_element mControlByte]. by destruct Het as [-> | ->]. }
  assert (VerifyElement r2 = (Ok tt, r2)) as EV.
  { apply VerifyElement_ok; [|by rewrite HE2; destruct Het as [-> | ->]|by rewrite HE2; destruct Het as [-> | ->]]. change (mContainerType r2) with (mContainerType r1). change (mElemTag r2) with (ProfileTag kWeaveProfile_Security n).
    rewrite S3. change (mContainerType (ClearElementState r)) with (mContainerType r). rewrite HCt. destruct Hn as [-> | ->]; (split; [split; [by vm_compute|by vm_compute]|vm_compute; auto]). }
  rewrite EV in E. exists r2. split; [|split; [|done]].
  - unfold Next. rewrite (bind_ok _ _ _ _ _ (Skip_done r HD)), (bind_ok _ _ _ _ _ E), HE2. by destruct Het as [-> | ->].
  - split; [by apply keeps_wf; auto with weave| |by rewrite <- HI; exact S1|by rewrite <- HCt; exact S3].
    apply (chain_stays ReadElement (ClearElementState r) tt r2 forward_ReadElement (wf_read _ (Clear_wf r HW)) HC E).
Qed.
Lemma qualified_head et n : et = 21 \/ et = 22 -> n = 1 \/ n = 4 -> head (-1) kProfileIdNotSpecified et (ProfileTag kWeaveProfile_Security n) 0 = [192 + et; 0; 0; 4; 0; n; 0].
Proof. by intros [-> | ->] [-> | ->]. Qed.
Lemma Init_reads data : Z.of_nat (length data) < 4294967296 -> let r := set_implicit p (Init data) in
  wf r /\ done_elem r /\ mBufHandle r = [] /\ ImplicitProfileId r = p /\ mContainerType r = -1 /\ flat r = data.
Proof. intros HL r. split; [by apply wf_Init|]. do 4 (split; [done|]). unfold flat. apply app_nil_r. Qed.
End Load.

Definition list_encoding (crts : list certificate) : list Z :=
  enc (-1) kProfileIdNotSpecified (TContainer (ProfileTag kWeaveProfile_Security kTag_WeaveCertificateList) kTLVType_Array (map listed crts)).

Lemma security_profile : is_profile kWeaveProfile_Security.
Proof. unfold is_profile, kWeaveProfile_Security. lia. Qed.


(** A small decode buffer and hashes that only tell their inputs apart by length. *)
Definition example_set (n : nat) : WeaveCertificateSet := mkCertSet (Some (replicate n zero_cert)) 0 (Z.of_nat n) None (Some (0, replicate 1024 0)) 1024.
Definition toy_hash (tag : Z) (l : list Z) : list Z := [tag; Z.of_nat (length l) mod 256].

(** ** Loading and saving lists *)

Lemma listed_valid p flags SHA1 SHA256 ptr addr buf crts : Forall (loadable ptr SHA1 SHA256 flags addr buf) crts -> valid_list 22 (map listed crts) /\
  enc_list 22 p (map listed crts) = enc_list 22 kProfileIdNotSpecified (map listed crts).
Proof.
  intros H. split.
  - apply valid_list_Forall, Forall_map. eapply List.Forall_impl; [|exact H]. intros crt []. split; [apply Anonymous_ok|]. split; [done|]. by apply certificate_elems_valid.
  - apply special_list. apply forallb_forall. intros t (crt & <- & Hc)%in_map_iff. rewrite List.Forall_forall in H. specialize (H crt Hc) as [HP].
    cbn [listed special tree_tag]. by rewrite (certificate_special _ _ HP).
Qed.

Lemma LoadCerts_ok ptr SHA1 SHA256 flags crts s certs addr buf : 0 <= ptr -> Forall (loadable ptr SHA1 SHA256 flags addr buf) crts ->
  Certs s = Some certs -> decode_buffer s = Some (addr, buf) -> 0 <= addr -> Z.of_nat (length buf) < 4294967296 -> 0 <= CertCount s ->
  CertCount s + Z.of_nat (length crts) <= MaxCerts s <= 255 -> Z.of_nat (length certs) = MaxCerts s -> Z.of_nat (length (list_encoding crts)) < 4294967296 ->
  exists certs', let i := Z.to_nat (CertCount s) in
    LoadCerts_encoded ptr SHA1 SHA256 (list_encoding crts) flags s = (Ok tt, set_Certs (Some certs') (CertCount s + Z.of_nat (length crts)) s) /\
    length certs' = length certs /\ loaded_at SHA1 SHA256 flags certs' i crts /\ forall j, (j < i)%nat \/ (i + length crts <= j)%nat -> certs' !! j = certs !! j.
Proof.
  intros Hp HL HC Hb Ha Hbl H0 Hm Hlc HE. destruct (listed_valid kWeaveProfile_Security _ _ _ _ _ _ _ HL) as [HV HEn].
  assert (list_encoding crts = [192 + 22; 0; 0; 4; 0; 4; 0] ++ tail kWeaveProfile_Security 22 (map listed crts) []) as HEq.
  { unfold tail. rewrite HEn. unfold list_encoding. cbn [enc]. f_equal. }
  destruct (Init_reads kWeaveProfile_Security (list_encoding crts) HE) as (HW & HD & HCh & HI & HCt & HF). set (r := set_implicit kWeaveProfile_Security (Init (list_encoding crts))) in *.
  rewrite HEq in HF. destruct (Next_qualified kWeaveProfile_Security security_profile 22 4 r _ HW HD HCh HI HCt ltac:(auto) ltac:(auto) HF) as (r1 & E1 & [HW1 HC1 HI1 HCt1] & HT1 & HG1 & HF1).
  assert (exists r2, EnterContainer r1 = (Ok (-1), r2) /\ before_elts kWeaveProfile_Security 22 (map listed crts) [] r2) as (r2 & E2 & H2).
  { unfold EnterContainer. rewrite HT1, HCt1. eexists. split; [reflexivity|]. split; [by split|by apply done_clear|exact HF1|done]. }
  pose proof (before_bytes_left _ security_profile _ _ _ _ H2) as HBL. rewrite length_map in HBL.
  destruct (load_certs_ok ptr Hp SHA1 SHA256 kWeaveProfile_Security security_profile flags addr buf crts Ha Hbl HL (S (bytes_left r2)) [] r2 s certs ltac:(lia) (before_ahead _ _ _ _ _ H2) HC Hb H0 ltac:(lia) ltac:(lia) Hlc)
    as (r3 & certs' & E3 & H3 & HLen & HA & HO). cbv zeta in E3, HA, HO.
  destruct (Exit_at_end kWeaveProfile_Security 22 (-1) [] r3 H3) as (r4 & E4 & _). exists certs'. cbv zeta. split; [|done].
  assert (GetType r1 = kTLVType_Array) as HGT by (unfold GetType; by rewrite HT1).
  unfold LoadCerts_encoded. fold r. unfold rd at 1. unfold bind at 1. cbn [fst snd]. rewrite E1. unfold bind at 1. cbn [fst snd]. rewrite HGT. change (GetTag r1) with (mElemTag r1). rewrite HG1.
  change (verify _ _ _) with (@Ok unit tt, (r1, s)). cbv iota. unfold LoadCerts. cbn [fst snd]. rewrite HGT. change (kTLVType_Array =? kTLVType_Structure) with false. cbv iota.
  unfold bind at 1, rd at 1. cbn [fst snd]. rewrite E2. unfold bind at 1. cbn [fst snd]. rewrite E3. unfold rd. cbn [fst snd]. by rewrite E4.
Qed.

Lemma tag_head_allowed w et : wContainerType w = 22 -> tag_allowed (wContainerType w) (wImplicitProfileId w) et AnonymousTag.
Proof. intros ->. apply tag_ok_allowed, Anonymous_ok. Qed.
Lemma save_cert_ok cert crt rest SHA1 SHA256 flags w d : data_of cert = typed (loaded_data SHA1 SHA256 flags crt (certificate_body crt ++ rest)) -> certificate_parts weave_limits crt ->
  wwf w -> wContainerType w = 22 -> is_profile (wImplicitProfileId w) -> 0 <= d -> TLVTree.room w (Z.of_nat (length (enc 22 (wImplicitProfileId w) (listed crt)))) d ->
  EncodedCert cert = Some (certificate_body crt ++ rest) /\
  exists w', save_cert cert w = (Ok tt, w') /\ wrote (enc 22 (wImplicitProfileId w) (listed crt)) w w'.
Proof.
  intros HD HP Hw Hct Hi Hd Hr.
  assert (EncodedCert cert = Some (certificate_body crt ++ rest) /\ EncodedCertLen cert = Z.of_nat (length (certificate_body crt))) as [HE HL].
  { change (EncodedCert cert) with (EncodedCert (data_of cert)). change (EncodedCertLen cert) with (EncodedCertLen (data_of cert)). rewrite HD.
    unfold typed, DetermineCertType. set (c := loaded_data _ _ _ _ _). assert (EncodedCert c = Some (certificate_body crt ++ rest) /\ EncodedCertLen c = Z.of_nat (length (certificate_body crt))) as [H1 H2]
      by (unfold c, loaded_data; cbv zeta; by destruct (has_flag flags kDecodeFlag_IsTrusted)).
    rewrite <- H1, <- H2. destruct (has_flag (CertFlags c) _); [by destruct (_ && _)|]. do 3 (destruct (_ =? _); [done|]). done. }
  split; [done|]. assert (enc 22 (wImplicitProfileId w) (listed crt) = head 22 (wImplicitProfileId w) 21 AnonymousTag 0 ++ certificate_body crt) as HEn.
  { unfold certificate_body. rewrite (special_list 21 kProfileIdNotSpecified (wImplicitProfileId w)) by (by eapply certificate_special). done. }
  rewrite HEn in *. rewrite length_app, Nat2Z.inj_add in Hr. rewrite <- Hct in *. unfold save_cert, PutPreEncodedContainer. change (negb (TLVTypeIsContainer kTLVType_Structure)) with false. cbv iota.
  destruct (WriteElementHead_ok 21 AnonymousTag 0 w d) as (w1 & E1 & H1); try done; [apply anonymous_plain|by apply tag_head_allowed|eapply room_le; [| |exact Hr]; lia|].
  change (WriteElementHead kTLVType_Structure) with (WriteElementHead 21). rewrite (bind_ok _ _ _ _ _ E1).
  assert (pointed (EncodedCert cert) (EncodedCertLen cert) = certificate_body crt) as -> by (rewrite HE, HL; by apply pointed_app).
  destruct (WriteData_ok (certificate_body crt) w1 d) as (w2 & E2 & H2); [by destruct H1|eapply room_wrote; [exact H1|exact Hr]|done|].
  exists w2. split; [done|]. by eapply wrote_trans.
Qed.

Lemma save_certs_ok SHA1 SHA256 flags d crts : 0 <= d -> Forall (certificate_parts weave_limits) crts -> forall certs i w, Forall2 (fun crt cert => exists rest,
    data_of cert = typed (loaded_data SHA1 SHA256 flags crt (certificate_body crt ++ rest))) crts certs ->
  wwf w -> wContainerType w = 22 -> is_profile (wImplicitProfileId w) -> TLVTree.room w (Z.of_nat (length (enc_list 22 (wImplicitProfileId w) (map listed crts)))) d ->
  exists w', save_certs certs i None true w = (Ok tt, w') /\ wrote (enc_list 22 (wImplicitProfileId w) (map listed crts)) w w'.
Proof.
  intros Hd. induction 1 as [|crt crts HP HPs IH]; intros certs i w H Hw Hct Hi Hr.
  - inversion H; subst. exists w. split; [done|]. by apply wrote_nil.
  - inversion H as [|? cert ? certs' (rest & HD) H']; subst. unfold enc_list in *. cbn [map concat] in *. rewrite length_app, Nat2Z.inj_add in Hr. cbn [save_certs].
    destruct (save_cert_ok cert crt rest SHA1 SHA256 flags w d HD HP Hw Hct Hi Hd) as (HE & w1 & E1 & H1); [eapply room_le; [| |exact Hr]; lia|].
    rewrite HE. rewrite bool_decide_eq_false_2 by done. cbn [andb orb negb].
    pose proof H1 as (W1 & _ & _ & _ & W5 & W6 & _). destruct (IH certs' (S i) w1) as (w2 & E2 & H2); rewrite ?W5, ?W6; try done; [by eapply room_wrote|].
    exists w2. rewrite (bind_ok _ _ _ _ _ E1). split; [done|]. rewrite W6 in H2. by eapply wrote_trans.
Qed.


(** The certificate that issued [test_device], from TestWeaveCertData.cpp too. *)
Definition test_ca : certificate := mkCertificate [8; 108; 71; 142; 69; 202; 193; 154] 0x205 (IdAttr 0x313 1780101555756728321) 524334771 2131374770 (IdAttr 0x313 1780101555756728322)
   (ECKey 0x102 0x425
    [4; 42; 234; 191; 47; 224; 229; 152; 245; 177; 142; 112; 166; 117; 194; 219; 189; 145; 4; 239; 213; 196; 203; 159; 83; 255; 23; 171; 41; 153; 106; 137; 3; 185; 114; 135; 185; 214; 84; 171; 174; 108; 93; 1; 147; 171; 218; 123; 228; 84; 210; 99; 86; 186; 6; 95; 159])
   [BasicConstraintsExt true true None; KeyUsageExt true 96; SubjectKeyIdExt false [70; 243; 241; 175; 222; 48; 120; 159]; AuthKeyIdExt false (Some [77; 152; 18; 76; 237; 221; 30; 31])]
   (ECDSASig [36; 211; 170; 148; 112; 168; 240; 240; 121; 137; 4; 225; 243; 121; 171; 97; 53; 134; 184; 31; 88; 54; 28; 85; 77; 102; 43; 64]
    [97; 156; 201; 197; 52; 83; 108; 216; 0; 60; 157; 152; 54; 108; 75; 254; 151; 190; 46; 24; 97; 80; 96; 13; 252; 20; 118; 67]).
Lemma test_loadable : Forall (loadable 8 (toy_hash 1) (toy_hash 2) kDecodeFlag_GenerateTBSHash 0 (replicate 1024 0)) [test_ca; test_device].
Proof.
  repeat constructor; try (vm_compute; reflexivity); try (vm_compute; discriminate); by apply certificate_ok_spec; vm_compute.
Qed.

(** What is not kept: a path length of 256 is loaded as 0, and 257 bytes of r as the first
    one. *)
Definition wide_ca : certificate := with_extensions (BasicConstraintsExt true true (Some 256) :: List.tl (c_extensions test_ca)) (ECDSASig (replicate 257 9) [5; 6]) test_ca.
Lemma LoadCert_cuts : certificate_ok both_limits wide_ca = true /\
  match LoadCert_encoded 8 (toy_hash 1) (toy_hash 2) (weave_encoding wide_ca) kDecodeFlag_GenerateTBSHash (example_set 2) with
  | (Ok i, s) => match default [] (Certs s) !! i with
                 | Some cert => PathLenConstraint cert = 0 /\ has_flag (CertFlags cert) kCertFlag_PathLenConstPresent = true /\ SigRLen cert = 1
                 | None => False
                 end
  | _ => False
  end.
Proof. vm_compute. repeat split; reflexivity. Qed.
