(* ===== verification/CertSet.v ===== *)
(** * The certificate set is well-formed

    Whatever bytes are loaded, the members of the set and of its certificates stay in
    the ranges of their C++ types, and every pointer that validation follows
    points to as many bytes as the length beside it says. *)
From stdpp Require Import relations.
From S2P Require Import Prelude Encoding TLVTypes TLVReader TLVWriter ASN1OID ASN1Writer CertTime Cert CertToX509 CertSpec CertConvert CertLoad.
Local Open Scope Z_scope.
Local Open Scope weave_scope.

(** ** The types *)

Definition is_u8 (x : Z) : Prop := 0 <= x < 256.
Definition is_u16 (x : Z) : Prop := 0 <= x < 65536.
Definition is_u32 (x : Z) : Prop := 0 <= x < 4294967296.
(** From the pointer on there are [len] bytes. *)
Definition spans (p : pointer) (len : Z) : Prop := len <= Z.of_nat (length (default [] p)).

Record cert_typed (c : WeaveCertificateData) : Prop := {
  ct_subject : is_u16 (AttrOID (SubjectDN c));
  ct_issuer : is_u16 (AttrOID (IssuerDN c));
  ct_subject_id : is_u8 (KeyIdLen (SubjectKeyId c)) /\ spans (Id (SubjectKeyId c)) (KeyIdLen (SubjectKeyId c));
  ct_auth_id : is_u8 (KeyIdLen (AuthKeyId c)) /\ spans (Id (AuthKeyId c)) (KeyIdLen (AuthKeyId c));
  ct_point : is_u16 (ECPointLen c) /\ spans (ECPoint c) (ECPointLen c);
  ct_sig : is_u8 (SigRLen c) /\ spans (SigR c) (SigRLen c) /\ is_u8 (SigSLen c) /\ spans (SigS c) (SigSLen c);
  ct_words : is_u32 (PubKeyCurveId c) /\ is_u16 (EncodedCertLen c) /\ is_u16 (CertFlags c) /\ is_u16 (KeyUsageFlags c) /\
    is_u16 (PubKeyAlgoOID c) /\ is_u16 (SigAlgoOID c) /\ is_u16 (NotBeforeDate c) /\ is_u16 (NotAfterDate c);
  ct_bytes : is_u8 (CertType c) /\ is_u8 (KeyPurposeFlags c) /\ is_u8 (PathLenConstraint c);
  ct_hash : length (TBSHash c) = 32%nat }.

(** After Release, and after an Init that got no memory, the set has no array and keeps
    its count. *)
Record set_typed (s : WeaveCertificateSet) : Prop := {
  st_count : 0 <= CertCount s <= MaxCerts s;
  st_max : is_u8 (MaxCerts s);
  st_certs : match Certs s with Some certs => Z.of_nat (length certs) = MaxCerts s | None => True end;
  st_loaded : Forall cert_typed (loaded s) }.

Lemma zero_cert_typed : cert_typed zero_cert.
Proof. by vm_compute. Qed.
Lemma flags_u16 a b : is_u16 a -> is_u16 b -> is_u16 (Z.lor a b).
Proof. apply (lor_range a b 16). lia. Qed.
Lemma flags_u8 a b : is_u8 a -> is_u8 b -> is_u8 (Z.lor a b).
Proof. apply (lor_range a b 8). lia. Qed.

(** ** Steps of a conversion that keep the certificate's types *)

Definition holds_typed (s : Conv) : Prop := cert_typed (cv_cert s).
Definition preserves {A} (m : M Conv A) : Prop := forall s a s', holds_typed s -> m s = (Ok a, s') -> holds_typed s'.

Lemma preserves_bind {A B} (m : M Conv A) (f : A -> M Conv B) : preserves m -> (forall a, preserves (f a)) -> preserves (bind m f).
Proof. intros Hm Hf s b s' Hs (a & s1 & E1 & E2)%bind_inv. by eapply Hf, E2; eapply Hm, E1. Qed.
Lemma preserves_ret {A} (a : A) : preserves (ret a).
Proof. intros s b s' Hs [= ? <-]. exact Hs. Qed.
Lemma preserves_fail {A} e : preserves (@fail Conv A e).
Proof. by intros s b s' _ [=]. Qed.
Lemma preserves_reader {A} (m : M TLVReader A) : preserves (on_reader m).
Proof. intros s a s' Hs. unfold on_reader. destruct (m _) as [r rd]. intros [= ? <-]. exact Hs. Qed.
Lemma preserves_writer {A} (m : M ASN1Writer A) : preserves (on_writer m).
Proof. intros s a s' Hs. unfold on_writer. destruct (m _) as [r w]. intros [= ? <-]. exact Hs. Qed.
Lemma preserves_look {A} (f : TLVReader -> A) : preserves (look f).
Proof. intros s a s' Hs [= ? <-]. exact Hs. Qed.
Lemma preserves_from_reader m : preserves (from_reader m).
Proof. intros s a s' Hs. unfold from_reader. destruct (m _ _) as [[] w]; intros [=]; subst; exact Hs. Qed.
Lemma preserves_next_or_end : preserves next_or_end.
Proof. intros s a s' Hs. unfold next_or_end. destruct (Next _) as [[|[]| |] rd]; intros [=]; subst; exact Hs. Qed.
Lemma preserves_on_cert f : (forall c, cert_typed c -> cert_typed (f c)) -> preserves (on_cert f).
Proof. intros Hf s a s' Hs [= _ <-]. by apply Hf. Qed.
Lemma preserves_verify b e {B} (k : M Conv B) : (b = true -> preserves k) -> preserves (do* verify b e in k).
Proof. intros Hk s a s' Hs. unfold bind, verify. destruct b; [by apply Hk|done]. Qed.
Lemma preserves_verify_last b e : preserves (@verify Conv b e).
Proof. intros s a s' Hs. unfold verify. destruct b; [intros [= ? <-]; exact Hs|done]. Qed.
Lemma preserves_get {A B} (f : TLVReader -> res A) (k : A -> M Conv B) : (forall r v, f r = Ok v -> preserves (k v)) -> preserves (let* v := get_value f in k v).
Proof. intros Hk s a s' Hs. unfold bind, get_value. destruct (f _) as [v| | |] eqn:E; try done. by apply (Hk _ _ E). Qed.
Lemma preserves_if {A} (b : bool) (m m' : M Conv A) : (b = true -> preserves m) -> (b = false -> preserves m') -> preserves (if b then m else m').
Proof. destruct b; auto. Qed.
Lemma preserves_state {A} (f : Conv -> M Conv A) : (forall s, preserves (f s)) -> preserves (fun s => f s s).
Proof. intros Hf s. apply Hf. Qed.

Lemma res_map_inv {A B} (f : A -> B) (r : res A) b : res_map f r = Ok b -> exists a, b = f a.
Proof. destruct r; try done. intros [= <-]. by eexists. Qed.
Lemma Get_u32_range r v : Get_u32 r = Ok v -> is_u32 v.
Proof. intros [x ->]%res_map_inv. apply u32_range. Qed.
Lemma Get_u16_range r v : Get_u16 r = Ok v -> is_u16 v.
Proof. intros [x ->]%res_map_inv. apply u16_range. Qed.
Lemma Get_u8_range r v : Get_u8 r = Ok v -> is_u8 v.
Proof. intros [x ->]%res_map_inv. apply u8_range. Qed.

Lemma flags_u32 a b : is_u32 a -> is_u32 b -> is_u32 (Z.lor a b).
Proof. apply (lor_range a b 32). lia. Qed.
Lemma u8_typed x : is_u8 (u8 x).
Proof. apply u8_range. Qed.
Lemma u16_typed x : is_u16 (u16 x).
Proof. apply u16_range. Qed.

Lemma spans_u8 p len : is_u32 len -> spans p len -> spans p (u8 len).
Proof. unfold is_u32, spans. intros H. assert (u8 len <= len) by mlia. lia. Qed.

(** One member is assigned, with a value of its type. *)
Create HintDb cert_types.
#[export] Hint Resolve flags_u16 flags_u8 flags_u32 spans_u8 u8_typed u16_typed Get_u8_range Get_u16_range Get_u32_range : cert_types.
#[export] Hint Extern 3 (is_u16 ?x) => is_const x; vm_compute; split; [discriminate|reflexivity] : cert_types.
#[export] Hint Extern 3 (is_u32 ?x) => is_const x; vm_compute; split; [discriminate|reflexivity] : cert_types.
#[export] Hint Extern 3 (is_u8 ?x) => is_const x; vm_compute; split; [discriminate|reflexivity] : cert_types.
Ltac assign := let c := fresh "c" in intros c [????????]; constructor; cbn in *; intuition (eauto with cert_types).
Ltac keep := repeat first
  [ apply preserves_ret | apply preserves_fail | apply preserves_reader | apply preserves_writer | apply preserves_look | apply preserves_from_reader
  | apply preserves_next_or_end | apply preserves_verify_last | assumption | solve [auto with cert_preserves]
  | apply preserves_verify; intros ? | apply preserves_if; intros ? | apply preserves_get; intros ???
  | apply preserves_on_cert | apply preserves_bind; [|intros ?] ].
Create HintDb cert_preserves.

Section Keep.
Context (ptr : Z).

Lemma preserves_constructed cls tag m : preserves m -> preserves (constructed ptr cls tag m).
Proof. intros Hm. unfold constructed. keep. Qed.
Lemma preserves_sequence m : preserves m -> preserves (sequence ptr m).
Proof. apply preserves_constructed. Qed.
Lemma preserves_encapsulated tag b m : preserves m -> preserves (encapsulated ptr tag b m).
Proof. intros Hm. unfold encapsulated. keep. Qed.

(** A pointer and its length, from the same element *)
Lemma EnsureData_element e r r' : EnsureData e r = (Ok tt, r') -> GetLength r' = GetLength r /\ ElementType r' = ElementType r /\ mElemLenOrVal r' = mElemLenOrVal r.
Proof.
  unfold EnsureData. destruct (mReadPoint r) as [[|]|]; [|by intros [= <-]..].
  destruct (_ =? _); [done|]. destruct (negb _); [done|]. destruct (mBufHandle r); [done|]. cbv zeta. destruct (_ =? _); [done|]. by intros [= <-].
Qed.
Lemma GetDataPtr_spans r l r' : GetDataPtr r = (Ok l, r') -> GetLength r' <= Z.of_nat (length l) /\ GetLength r' = GetLength r.
Proof.
  unfold GetDataPtr. destruct (negb _) eqn:ES; [done|]. intros ([] & r1 & (HL & HT & HV)%EnsureData_element & E)%bind_inv.
  destruct (mReadPoint r1) as [l1|]; [|done]. destruct (_ <? _) eqn:EL; [done|]. injection E as <- <-. split; [|done]. apply Z.ltb_ge in EL.
  assert (TLVTypeHasLength (ElementType r1) = true) as HH.
  { rewrite HT. by apply negb_false_iff in ES. }
  unfold GetLength. rewrite HH. pose proof (u32_range (Z.of_nat (length l1))). revert EL. generalize (u32 (mElemLenOrVal r1)). intros v. mlia.
Qed.
Lemma data_ptr_spans s l s' : data_ptr s = (Ok l, s') ->
  GetLength (cv_reader s') <= Z.of_nat (length l) /\ GetLength (cv_reader s') = GetLength (cv_reader s) /\ cv_cert s' = cv_cert s.
Proof.
  unfold data_ptr, on_reader. destruct (GetDataPtr _) as [r rd] eqn:E. intros [= -> <-]. apply GetDataPtr_spans in E. cbn. intuition.
Qed.
Lemma GetLength_range r : 0 <= GetLength r < 4294967296.
Proof. unfold GetLength. destruct (TLVTypeHasLength _); [apply u32_range|lia]. Qed.

(** ** The converters *)

#[local] Hint Resolve preserves_constructed preserves_sequence preserves_encapsulated : cert_preserves.
Ltac body := repeat first [apply preserves_sequence | apply preserves_constructed | apply preserves_encapsulated | progress keep].

Lemma ConvertDistinguishedName_preserves (upd : (WeaveDN -> WeaveDN) -> WeaveCertificateData -> WeaveCertificateData) :
  (forall oid c, is_u16 oid -> cert_typed c -> cert_typed (upd (set_AttrOID oid) c)) ->
  (forall id c, cert_typed c -> cert_typed (upd (set_WeaveId id) c)) -> (forall v c, cert_typed c -> cert_typed (upd (set_AttrString v) c)) ->
  preserves (ConvertDistinguishedName ptr upd).
Proof.
  intros H1 H2 H3. unfold ConvertDistinguishedName. body; auto.
  - intros c. apply H1. apply flags_u16; [auto with cert_types|]. change 127 with (2 ^ 7 - 1). rewrite land_ones_mod by lia. unfold is_u16. mlia.
  - destruct a4. body.
Qed.
Lemma ConvertValidity_preserves : preserves (ConvertValidity ptr).
Proof. unfold ConvertValidity. body; assign. Qed.
Lemma ConvertKeyUsageExtension_preserves : preserves (ConvertKeyUsageExtension ptr).
Proof. unfold ConvertKeyUsageExtension. body; assign. Qed.
Lemma ConvertBasicConstraintsExtension_preserves : preserves (ConvertBasicConstraintsExtension ptr).
Proof. unfold ConvertBasicConstraintsExtension. body; assign. Qed.

(** The pointer is stored first, then the length of the same element: in between the
    certificate is [f] of a typed one. *)
Definition preserves_after {A} (f : WeaveCertificateData -> WeaveCertificateData) (m : M Conv A) : Prop := forall s a s',
  holds_typed s -> m (mkConv (cv_reader s) (cv_writer s) (f (cv_cert s))) = (Ok a, s') -> holds_typed s'.
Lemma preserves_span {B} (f : list Z -> WeaveCertificateData -> WeaveCertificateData) (k : list Z -> Z -> M Conv B) :
  (forall p len, is_u32 len -> spans (Some p) len -> preserves_after (f p) (k p len)) ->
  preserves (let* p := data_ptr in do* on_cert (f p) in let* len := look GetLength in k p len).
Proof.
  intros Hk s a s' Hs (p & s1 & (H1 & H2 & H3)%data_ptr_spans & E)%bind_inv.
  eapply (Hk p (GetLength (cv_reader s1)) (GetLength_range _) H1 s1 a s'); [unfold holds_typed; by rewrite H3|exact E].
Qed.
Lemma after_verify {B} f b e (k : M Conv B) : (b = true -> preserves_after f k) -> preserves_after f (do* verify b e in k).
Proof. intros Hk s a s' Hs. unfold bind, verify. destruct b; [by apply Hk|done]. Qed.
Lemma after_set {B} f g (k : M Conv B) : (forall c, cert_typed c -> cert_typed (g (f c))) -> preserves k -> preserves_after f (do* on_cert g in k).
Proof. intros Hg Hk s a s' Hs. unfold bind, on_cert. cbn. apply Hk. by apply Hg. Qed.

Lemma length_u8 len : is_u32 len -> (len <=? UINT8_MAX) = true -> is_u8 len.
Proof. intros [H _] HL%Z.leb_le. split; [done|]. unfold UINT8_MAX in HL. lia. Qed.
Lemma length_u16 len : is_u32 len -> (len <=? UINT16_MAX) = true -> is_u16 len.
Proof. intros [H _] HL%Z.leb_le. split; [done|]. unfold UINT16_MAX in HL. lia. Qed.
#[local] Hint Resolve length_u8 length_u16 : cert_types.

(** Here the length comes first. *)
Lemma preserves_length_span {B} e g f (k : list Z -> Z -> M Conv B) :
  (forall p len, is_u8 len -> spans (Some p) len -> forall c, cert_typed c -> cert_typed (f p len (g len c))) -> (forall p len, preserves (k p len)) ->
  preserves (let* len := look GetLength in do* verify (len <=? UINT8_MAX) e in do* on_cert (g len) in let* p := data_ptr in do* on_cert (f p len) in k p len).
Proof.
  intros Hf Hk s x s' Hs (len & s1 & [= <- <-] & E)%bind_inv. destruct (GetLength (cv_reader s) <=? UINT8_MAX) eqn:HL; [|done].
  apply bind_inv in E as ([] & s2 & [= <-] & E). apply bind_inv in E as ([] & s3 & [= <-] & E).
  apply bind_inv in E as (p & s4 & (H1 & H2 & H3)%data_ptr_spans & E). apply bind_inv in E as ([] & s5 & [= <-] & E). cbn in H2, H3.
  eapply Hk, E. unfold holds_typed. cbn. rewrite H3. apply Hf; [by apply length_u8; [apply GetLength_range|]|unfold spans; cbn; lia|done].
Qed.

Ltac walk := repeat first
  [ assumption | apply preserves_length_span; [intros ????; assign|intros ??] | apply preserves_sequence | apply preserves_constructed | apply preserves_encapsulated | apply preserves_span; intros ???? | apply after_verify; intros ? | apply after_set; [assign|]
  | apply preserves_ret | apply preserves_fail | apply preserves_reader | apply preserves_writer | apply preserves_look | apply preserves_from_reader
  | apply preserves_next_or_end | apply preserves_verify_last | solve [auto with cert_preserves]
  | apply preserves_verify; intros ? | apply preserves_if; intros ? | apply preserves_get; intros ???
  | apply preserves_on_cert; assign | apply preserves_bind; [|intros ?] ].
Lemma ConvertAuthorityKeyIdentifierExtension_preserves : preserves (ConvertAuthorityKeyIdentifierExtension ptr).
Proof. unfold ConvertAuthorityKeyIdentifierExtension. walk. Qed.
Lemma ConvertSubjectKeyIdentifierExtension_preserves : preserves (ConvertSubjectKeyIdentifierExtension ptr).
Proof.
  unfold ConvertSubjectKeyIdentifierExtension. walk.
Qed.
Lemma key_purpose_flag_u8 oid : is_u8 (key_purpose_flag oid).
Proof. unfold key_purpose_flag. repeat (destruct (_ =? _); [auto with cert_types|]). unfold is_u8. lia. Qed.
#[local] Hint Resolve key_purpose_flag_u8 : cert_types.
Lemma on_reader_typed {A} (m : M TLVReader A) s r s' : holds_typed s -> on_reader m s = (r, s') -> holds_typed s'.
Proof. unfold on_reader. destruct (m _) as [x rd]. intros Hs [= _ <-]. exact Hs. Qed.
Lemma key_purposes_preserves fuel : preserves (key_purposes ptr fuel).
Proof.
  induction fuel as [|fuel IH]; [by intros s a s' _ [=]|]. intros s a s' Hs. cbn [key_purposes].
  destruct (on_reader _ s) as [r s1] eqn:E. assert (holds_typed s1) as H1 by (by eapply on_reader_typed, E). destruct r as [|[]| |]; try done.
  - refine ((_ : preserves _) s1 a s' H1). walk.
  - by intros [= _ <-].
Qed.
#[local] Hint Resolve key_purposes_preserves : cert_preserves.
Lemma ConvertExtendedKeyUsageExtension_preserves : preserves (ConvertExtendedKeyUsageExtension ptr).
Proof. unfold ConvertExtendedKeyUsageExtension. walk. apply (preserves_state (fun s => key_purposes ptr _)). intros s. apply key_purposes_preserves. Qed.
#[local] Hint Resolve ConvertAuthorityKeyIdentifierExtension_preserves ConvertSubjectKeyIdentifierExtension_preserves ConvertKeyUsageExtension_preserves
  ConvertBasicConstraintsExtension_preserves ConvertExtendedKeyUsageExtension_preserves : cert_preserves.

Lemma ConvertSubjectPublicKeyInfo_preserves : preserves (ConvertSubjectPublicKeyInfo ptr).
Proof.
  unfold ConvertSubjectPublicKeyInfo. walk. destruct (_ <? _); [|eauto with cert_types].
  apply flags_u32; [eauto with cert_types|]. vm_compute. split; [discriminate|reflexivity].
Qed.
Lemma ConvertExtension_preserves : preserves (ConvertExtension ptr).
Proof.
  unfold ConvertExtension. apply preserves_bind; [walk|intros n]. destruct (extension_oid n); [|walk]. walk.
Qed.
Lemma convert_extensions_preserves fuel : preserves (convert_extensions ptr fuel).
Proof. induction fuel as [|fuel IH]; [by intros s a s' _ [=]|]. cbn [convert_extensions]. pose proof ConvertExtension_preserves. walk. Qed.
Lemma ConvertExtensions_preserves : preserves (ConvertExtensions ptr).
Proof. unfold ConvertExtensions. walk. apply (preserves_state (fun s => convert_extensions ptr _)). intros s. apply convert_extensions_preserves. Qed.
Lemma ConvertTBSCertificate_preserves : preserves (ConvertTBSCertificate ptr).
Proof.
  pose proof ConvertSubjectPublicKeyInfo_preserves. pose proof ConvertExtensions_preserves. pose proof ConvertValidity_preserves.
  assert (preserves (ConvertDistinguishedName ptr update_IssuerDN)) by (apply ConvertDistinguishedName_preserves; intros v; [intros c Hv; revert c|..]; assign).
  assert (preserves (ConvertDistinguishedName ptr update_SubjectDN)) by (apply ConvertDistinguishedName_preserves; intros v; [intros c Hv; revert c|..]; assign).
  unfold ConvertTBSCertificate, next_name. walk.
Qed.

(** ** Loading *)

Context (SHA1 SHA256 : list Z -> list Z).
Context (SHA1_length : forall m, length (SHA1 m) = 20%nat) (SHA256_length : forall m, length (SHA256 m) = 32%nat).

Lemma hash_tbs_preserves : preserves (hash_tbs SHA1 SHA256).
Proof.
  unfold hash_tbs. walk.
  match goal with |- preserves (fun s => on_cert (@?g s) s) => apply (preserves_state (fun s => on_cert (g s))) end. intros s. apply preserves_on_cert. cbv zeta.
  intros c [????????]. constructor; cbn; try done. rewrite length_app, length_drop, ct_hash0.
  destruct (_ =? _); rewrite ?SHA1_length, ?SHA256_length; lia.
Qed.
Lemma load_signature_preserves : preserves load_signature.
Proof. unfold load_signature. walk. Qed.
Lemma load_elements_preserves flags : preserves (load_elements ptr SHA1 SHA256 flags).
Proof.
  pose proof ConvertTBSCertificate_preserves. pose proof hash_tbs_preserves. pose proof load_signature_preserves. unfold load_elements.
  walk; match goal with |- preserves (fun s => verify (@?b s) ?e s) => apply (preserves_state (fun s => verify (b s) e)); intros ?; apply preserves_verify_last end.
Qed.

(** ** The set *)

Lemma store_counted c certs s : set_typed s -> Certs s = Some certs -> CertCount s < MaxCerts s -> cert_typed c ->
  set_typed (set_Certs (Some (<[Z.to_nat (CertCount s) := c]> certs)) (u8 (CertCount s + 1)) s).
Proof.
  intros [[H0 H1] [H2 H3] HC HL] EC HM Hc. rewrite EC in HC. rewrite u8_id by lia. unfold loaded in HL. rewrite EC in HL. cbn in HL.
  constructor; cbn; [lia|done|by rewrite length_insert|]. unfold loaded. cbn. replace (Z.to_nat (CertCount s + 1)) with (S (Z.to_nat (CertCount s))) by lia.
  rewrite (take_S_r _ _ c) by (apply list_lookup_insert_eq; lia). apply Forall_app. split; [|by constructor]. by rewrite take_insert_ge by lia.
Qed.
Lemma store_uncounted c certs s : set_typed s -> Certs s = Some certs ->
  set_typed (set_Certs (Some (<[Z.to_nat (CertCount s) := c]> certs)) (CertCount s) s).
Proof.
  intros [H1 H3 HC HL] EC. rewrite EC in HC. unfold loaded in HL. rewrite EC in HL. cbn in HL.
  constructor; cbn; [done|done|by rewrite length_insert|]. unfold loaded. cbn. by rewrite take_insert_ge by lia.
Qed.
Lemma type_typed c c' : cert_typed c -> DetermineCertType c = Ok c' -> cert_typed c'.
Proof.
  intros Hc. assert (forall v, is_u8 v -> cert_typed (set_CertType v c)) as HT by (intros v Hv; revert c Hc; assign).
  unfold DetermineCertType. repeat case_match; try done; intros [= <-]; apply HT; auto with cert_types.
Qed.
(** Where [store_cert] is the last step, the set stays typed when the certificate is
    counted and typed, or not counted. *)
Lemma store_typed c count s : set_typed s -> count = CertCount s \/ count = u8 (CertCount s + 1) /\ CertCount s < MaxCerts s /\ cert_typed c ->
  set_typed (snd (store_cert c count s)).
Proof.
  intros Hs Hc. unfold store_cert. destruct (Certs s) as [certs|] eqn:EC; [|done]. cbn.
  destruct Hc as [->|(-> & HM & Hc)]; [by apply store_uncounted|by apply store_counted].
Qed.
Lemma LoadCert_typed flags rd s : set_typed s -> set_typed (snd (snd (LoadCert ptr SHA1 SHA256 flags (rd, s)))).
Proof.
  intros Hs. unfold LoadCert. destruct (negb (_ =? _)); [done|]. destruct (negb (CertCount s <? MaxCerts s)) eqn:EM; [done|]. bool_prop.
  destruct (match mDecodeBuf s with Some _ => _ | None => _ end) as [[addr buf]|]; [|done]. cbv zeta.
  destruct (load_elements _ _ _ _ _) as [r cv] eqn:E. destruct r as [u|e| |]; [|..]; try done.
  - destruct (encoded_length _ _) as [n| | |] eqn:EN; try done.
    assert (is_u16 n) as Hn. { unfold encoded_length in EN. repeat case_match; try done. injection EN as <-. apply u16_typed. }
    apply load_elements_preserves in E; [|by vm_compute]. unfold holds_typed in E.
    set (cert := if has_flag flags kDecodeFlag_IsTrusted then _ else _).
    assert (cert_typed cert) as Hc by (unfold cert; destruct (has_flag _ _); revert E; generalize (cv_cert cv); assign).
    destruct (DetermineCertType cert) as [c'|e| |] eqn:ET; try done.
    + pose proof (store_typed c' (u8 (CertCount s + 1)) s Hs (or_intror (conj eq_refl (conj EM (type_typed _ _ Hc ET))))) as H. by destruct (store_cert _ _ _).
    + pose proof (store_typed cert (u8 (CertCount s + 1)) s Hs (or_intror (conj eq_refl (conj EM Hc)))) as H. by destruct (store_cert _ _ _).
  - pose proof (store_typed (cv_cert cv) (CertCount s) s Hs (or_introl eq_refl)) as H. by destruct (store_cert _ _ _).
Qed.

(** Every step of an operation on the reader and the set leaves the set typed. *)
Definition types {A} (m : M (TLVReader * WeaveCertificateSet) A) : Prop := forall st, set_typed (snd st) -> set_typed (snd (snd (m st))).
Lemma types_bind {A B} (m : M (TLVReader * WeaveCertificateSet) A) (f : A -> M (TLVReader * WeaveCertificateSet) B) : types m -> (forall a, types (f a)) -> types (bind m f).
Proof. intros Hm Hf st Hs. specialize (Hm st Hs). unfold bind. destruct (m st) as [[a|e| |] st']; [by apply Hf|done..]. Qed.
Lemma types_rd {A} (m : M TLVReader A) : types (rd m).
Proof. intros [r s] Hs. unfold rd. cbn. by destruct (m r). Qed.
Lemma types_LoadCert flags : types (LoadCert ptr SHA1 SHA256 flags).
Proof. intros [r s]. apply LoadCert_typed. Qed.
Lemma types_load_certs fuel flags : types (load_certs ptr SHA1 SHA256 fuel flags).
Proof.
  induction fuel as [|fuel IH]; intros st Hs; [done|]. cbn [load_certs]. pose proof (types_rd Next st Hs) as H1.
  destruct (rd Next st) as [[|[]| |] st1]; try done. apply types_bind; [apply types_LoadCert|done|done].
Qed.
Lemma types_LoadCerts flags : types (LoadCerts ptr SHA1 SHA256 flags).
Proof.
  intros st Hs. unfold LoadCerts. destruct (_ =? _).
  - apply types_bind; [apply types_LoadCert|by intros _ ?|done].
  - apply types_bind; [apply types_rd|intros ct|done]. apply types_bind; [intros st'; apply types_load_certs|intros _]. apply types_rd.
Qed.
Lemma LoadCert_encoded_typed weaveCert flags s : set_typed s -> set_typed (snd (LoadCert_encoded ptr SHA1 SHA256 weaveCert flags s)).
Proof.
  intros Hs. unfold LoadCert_encoded. destruct (bind _ _ _) as [r st] eqn:E. cbn. change st with (snd (r, st)). rewrite <- E.
  apply types_bind; [apply types_rd|intros _; apply types_LoadCert|done].
Qed.
Lemma LoadCerts_encoded_typed encodedCerts flags s : set_typed s -> set_typed (snd (LoadCerts_encoded ptr SHA1 SHA256 encodedCerts flags s)).
Proof.
  intros Hs. unfold LoadCerts_encoded. destruct (bind _ _ _) as [r st] eqn:E. cbn. change st with (snd (r, st)). rewrite <- E.
  apply types_bind; [apply types_rd|intros _|done]. apply types_bind; [|intros _; apply types_LoadCerts].
  intros st' Hs'. unfold verify. by case_match.
Qed.
Lemma AddTrustedKey_typed caId curveId pubKey pubKeyLen pubKeyId pubKeyIdLen s : set_typed s -> is_u32 curveId ->
  is_u16 pubKeyLen -> spans pubKey pubKeyLen -> is_u16 pubKeyIdLen -> spans pubKeyId pubKeyIdLen ->
  set_typed (snd (AddTrustedKey caId curveId pubKey pubKeyLen pubKeyId pubKeyIdLen s)).
Proof.
  intros Hs H1 H2 H3 H4 H5. unfold AddTrustedKey. destruct (negb _) eqn:EM; [done|]. bool_prop. cbv zeta. apply store_typed; [done|]. right. split; [done|]. split; [done|].
  assert (is_u32 pubKeyIdLen) by (unfold is_u16, is_u32 in *; lia). pose proof (spans_u8 pubKeyId pubKeyIdLen).
  destruct zero_cert_typed as [????????]. constructor; cbn in *; intuition (auto with cert_types).
  vm_compute. split; [discriminate|reflexivity].
Qed.
Lemma Clear_typed s : set_typed s -> set_typed (snd (CertificateSet_Clear s)).
Proof.
  intros Hs. pose proof Hs as [H1 [H2 H3] H4 H5]. unfold CertificateSet_Clear. destruct (Certs s) eqn:EC; cbn.
  - constructor; cbn; [lia|done|rewrite length_replicate; lia|by constructor].
  - case_match; cbn; [|done]. constructor; cbn; [lia|done|done|by constructor].
Qed.
(** Without an array nothing is counted that could be read. *)
Lemma no_array_typed s : 0 <= CertCount s <= MaxCerts s -> is_u8 (MaxCerts s) -> Certs s = None -> set_typed s.
Proof. intros H1 H2 HC. constructor; [done|done|by rewrite HC|]. unfold loaded. rewrite HC. cbn. by destruct (Z.to_nat _). Qed.
Lemma Release_typed s : set_typed s -> set_typed (CertificateSet_Release s).
Proof. intros Hs. pose proof Hs as [H1 H2 _ _]. unfold CertificateSet_Release. case_match; [|done]. by apply no_array_typed. Qed.
Lemma Init_alloc_typed maxCerts decodeBufSize allocFunct mem s : is_u8 maxCerts -> (forall l, mem = Some l -> Z.of_nat (length l) = maxCerts) ->
  set_typed s -> set_typed (snd (CertificateSet_Init_alloc maxCerts decodeBufSize allocFunct mem s)).
Proof.
  intros HM Hl [H1 H2 _ _]. unfold CertificateSet_Init_alloc. destruct mem as [l|]; cbn [snd].
  - constructor; cbn; [unfold is_u8 in HM; lia|done|by apply Hl|by constructor].
  - by apply no_array_typed.
Qed.

(** What may be done with a set: the pointers and lengths given to it are right, an
    allocation gives an array of the size asked for or nothing, and the bytes that are
    loaded are any. *)
Inductive set_step (s : WeaveCertificateSet) : WeaveCertificateSet -> Prop :=
  | step_Init certsArray decodeBuf decodeBufSize : Z.of_nat (length certsArray) < 256 ->
      set_step s (CertificateSet_Init (Some certsArray) (Z.of_nat (length certsArray)) decodeBuf decodeBufSize)
  | step_Init_null decodeBuf decodeBufSize : set_step s (CertificateSet_Init None 0 decodeBuf decodeBufSize)
  | step_Init_alloc maxCerts mem decodeBufSize allocFunct : is_u8 maxCerts -> (forall l, mem = Some l -> Z.of_nat (length l) = maxCerts) ->
      set_step s (snd (CertificateSet_Init_alloc maxCerts decodeBufSize allocFunct mem s))
  | step_Release : set_step s (CertificateSet_Release s)
  | step_Clear : set_step s (snd (CertificateSet_Clear s))
  | step_AddTrustedKey caId curveId pubKey pubKeyLen pubKeyId pubKeyIdLen : is_u32 curveId ->
      is_u16 pubKeyLen -> spans pubKey pubKeyLen -> is_u16 pubKeyIdLen -> spans pubKeyId pubKeyIdLen ->
      set_step s (snd (AddTrustedKey caId curveId pubKey pubKeyLen pubKeyId pubKeyIdLen s))
  | step_LoadCert decodeFlags reader : set_step s (snd (snd (LoadCert ptr SHA1 SHA256 decodeFlags (reader, s))))
  | step_LoadCerts decodeFlags reader : set_step s (snd (snd (LoadCerts ptr SHA1 SHA256 decodeFlags (reader, s))))
  | step_LoadCert_encoded weaveCert decodeFlags : set_step s (snd (LoadCert_encoded ptr SHA1 SHA256 weaveCert decodeFlags s))
  | step_LoadCerts_encoded encodedCerts decodeFlags : set_step s (snd (LoadCerts_encoded ptr SHA1 SHA256 encodedCerts decodeFlags s)).

Lemma set_step_typed s s' : set_typed s -> set_step s s' -> set_typed s'.
Proof.
  intros Hs [certs buf n H|buf n|maxCerts mem n alloc HM Hl| | |caId curveId pk pkLen id idLen H1 H2 H3 H4 H5|flags rd|flags rd|w flags|w flags].
  - constructor; cbn; [lia|unfold is_u8; lia|done|by constructor].
  - by apply no_array_typed.
  - by apply Init_alloc_typed.
  - by apply Release_typed.
  - by apply Clear_typed.
  - by apply AddTrustedKey_typed.
  - by apply LoadCert_typed.
  - by apply types_LoadCerts.
  - by apply LoadCert_encoded_typed.
  - by apply LoadCerts_encoded_typed.
Qed.
End Keep.

(** C40: the certificate set is well-formed in every state that its operations reach -
    the two Inits, also one whose allocation fails, Release, Clear, AddTrustedKey and
    the four ways to load - whatever certificates, damaged and hostile ones included,
    are loaded.  It never counts more certificates than MaxCerts, and while it has an
    array this has MaxCerts places; every certificate that it counts there has all
    members in the ranges of their C++ types; and each key identifier, EC point and
    signature value that validation compares or verifies lies within the bytes that
    its pointer points to, and the hash of the certificate within its array.  After a
    Release, or an Init that got no memory, there is no array while the count stays as
    it was: nothing is said of certificates then. *)
Theorem CertificateSet_typed ptr SHA1 SHA256 s :
  (forall m, length (SHA1 m) = 20%nat) -> (forall m, length (SHA256 m) = 32%nat) ->
  rtc (set_step ptr SHA1 SHA256) CertificateSet_new s -> set_typed s.
Proof.
  intros H1 H2 HR. assert (set_typed CertificateSet_new) as H0 by (by constructor).
  induction HR as [s|s s1 s2 HS _ IH]; [done|]. apply IH. by eapply set_step_typed.
Qed.
Lemma CertificateSet_typed_witness : let hash n (l : list Z) := replicate n (Z.of_nat (length l) mod 256) in
  let s := snd (LoadCerts_encoded 8 (hash 20%nat) (hash 32%nat) (list_encoding [test_ca; test_device]) kDecodeFlag_GenerateTBSHash (example_set 3)) in
  CertCount s = 2 /\ set_typed s.
Proof.
  intros hash s. split; [vm_compute; reflexivity|]. apply (CertificateSet_typed 8 (hash 20%nat) (hash 32%nat)); [intros m; apply length_replicate..|].
  eapply rtc_l; [apply (step_Init 8 _ _ _ (replicate 3 zero_cert) (Some (0, replicate 1024 0)) 1024); vm_compute; reflexivity|].
  eapply rtc_l; [apply step_LoadCerts_encoded|apply rtc_refl].
Defined.

(** After Release the count still says how many certificates there were, and the array
    is gone. *)
Lemma Release_keeps_count s alloc : mAllocFunct s = Some alloc -> CertCount (CertificateSet_Release s) = CertCount s /\ Certs (CertificateSet_Release s) = None.
Proof. intros H. unfold CertificateSet_Release. by rewrite H. Qed.
(** So that a search of a released set reads through the null pointer, and so does
    saving its certificates. *)
Lemma Release_undefined s alloc subjectKeyId w includeTrusted : mAllocFunct s = Some alloc -> 0 < CertCount s ->
  FindCert subjectKeyId (CertificateSet_Release s) = Undefined /\ fst (SaveCerts (CertificateSet_Release s) None includeTrusted w) = Undefined.
Proof.
  intros Ha Hc. destruct (Release_keeps_count s alloc Ha) as [H1 H2]. unfold FindCert, SaveCerts. rewrite H1, H2.
  by rewrite (proj2 (Z.eqb_neq (CertCount s) 0)) by lia.
Qed.
