(* ===== verification/HostPortList.v ===== *)
(** * Host and port lists (lib/core/HostPortList.cpp)

    A packed list of host names and ports, as the service directory sends it, with a
    table of suffixes that names may share.  The list is the bytes from mElements on;
    NULL is the empty list of bytes.  A read past the last byte is [Undefined]. *)
From S2P Require Import Prelude Encoding PacketBuffer Address.
Local Open Scope Z_scope.
Local Open Scope weave_scope.

Definition kHostPortControl_TypeMask : Z := 3.
Definition kHostPortControl_HasSuffixIndex : Z := 4.
Definition kHostPortControl_HasPort : Z := 8.
Definition kHostPortType_FullyQualified : Z := 0.
Definition kHostPortType_Indexed : Z := 1.

Record HostPortList := mkHostPortList { mElements : list Z; mSuffixTable : list Z; mCount : Z; mSuffixCount : Z }.
Definition HostPortList_Clear (l : HostPortList) : HostPortList := mkHostPortList [] [] 0 0.
Definition HostPortList_IsEmpty (l : HostPortList) : bool := mCount l =? 0.

(** ** Reading through the pointer elem *)

(** *elem++ *)
Definition next_byte : M (list Z) Z := fun p => match p with b :: p => (Ok b, p) | [] => (Undefined, p) end.
(** *elem *)
Definition peek_byte : M (list Z) Z := fun p => match p with b :: _ => (Ok b, p) | [] => (Undefined, p) end.
(** [n] bytes from elem on, and elem += n *)
Definition next_bytes (n : Z) : M (list Z) (list Z) := fun p =>
  if n <=? Z.of_nat (length p) then (Ok (take (Z.to_nat n) p), drop (Z.to_nat n) p) else (Undefined, p).
Definition next_le16 : M (list Z) Z := fun p => if 2 <=? Z.of_nat (length p) then let '(v, p) := LittleEndian_Read16 p in (Ok v, p) else (Undefined, p).

(** The pointer elem, and the caller's hostBuf *)
Definition on_elem {A} (m : M (list Z) A) : M (list Z * list Z) A := fun s => let '(r, p) := m (fst s) in (r, (p, snd s)).
Definition on_hostBuf {A} (m : M (list Z) A) : M (list Z * list Z) A := fun s => let '(r, b) := m (snd s) in (r, (fst s, b)).
Definition write_host (off : Z) (l : list Z) : M (list Z) unit := fun b =>
  if off + Z.of_nat (length l) <=? Z.of_nat (length b) then (Ok tt, block_write off l b) else (Undefined, b).

(** GetSuffix(index, hostBuf + off, hostBufSize - off, suffixLen) *)
Fixpoint skip_suffixes (index : nat) : M (list Z) unit :=
  match index with
  | O => ret tt
  | S index => let* n := next_byte in do* next_bytes n in skip_suffixes index
  end.
Definition GetSuffix (l : HostPortList) (index off : Z) : M (list Z) Z := fun buf =>
  if negb (index <? mSuffixCount l) then (Err WEAVE_ERROR_INVALID_HOST_SUFFIX_INDEX, buf)
  else
    let '(r, s) :=
      (do* on_elem (skip_suffixes (Z.to_nat index)) in
       let* suffixLen := on_elem next_byte in
       do* verify (suffixLen <? Z.of_nat (length buf) - off) WEAVE_ERROR_BUFFER_TOO_SMALL in
       let* suffix := on_elem (next_bytes suffixLen) in
       do* on_hostBuf (write_host off suffix) in
       do* on_hostBuf (write_host (off + suffixLen) [0]) in
       ret suffixLen) (mSuffixTable l, buf) in
    (r, snd s).

(** Get(elem, hostBuf, hostBufSize, port): hostLen is 8 bits wide. *)
Definition GetElement (l : HostPortList) : M (list Z * list Z) Z :=
  let* control := on_elem next_byte in
  let type := Z.land control kHostPortControl_TypeMask in
  do* verify ((type =? kHostPortType_FullyQualified) || (type =? kHostPortType_Indexed)) WEAVE_ERROR_UNSUPPORTED_HOST_PORT_ELEMENT in
  let* hostLen := on_elem next_byte in
  do* (fun s => verify (hostLen <? Z.of_nat (length (snd s))) WEAVE_ERROR_BUFFER_TOO_SMALL s) in
  let* host := on_elem (next_bytes hostLen) in
  do* on_hostBuf (write_host 0 host) in
  let* hostLen :=
    (if negb (Z.land control kHostPortControl_HasSuffixIndex =? 0) then
       let* hostLen :=
         (if type =? kHostPortType_Indexed then
            let* index := on_elem peek_byte in
            let* suffixLen := on_hostBuf (GetSuffix l index hostLen) in ret (u8 (hostLen + suffixLen))
          else ret hostLen) in
       do* on_elem (next_bytes 1) in ret hostLen
     else ret hostLen) in
  do* on_hostBuf (write_host hostLen [0]) in
  if negb (Z.land control kHostPortControl_HasPort =? 0) then on_elem next_le16 else ret WEAVE_PORT.

Definition SkipElement : M (list Z) unit :=
  let* control := next_byte in
  let type := Z.land control kHostPortControl_TypeMask in
  do* verify ((type =? kHostPortType_FullyQualified) || (type =? kHostPortType_Indexed)) WEAVE_ERROR_UNSUPPORTED_HOST_PORT_ELEMENT in
  let* hostLen := next_byte in
  do* next_bytes hostLen in
  do* (if negb (Z.land control kHostPortControl_HasSuffixIndex =? 0) then do* next_bytes 1 in ret tt else ret tt) in
  if negb (Z.land control kHostPortControl_HasPort =? 0) then do* next_bytes 2 in ret tt else ret tt.

(** Get(index, hostBuf, hostBufSize, port): the port; the state is hostBuf. *)
Fixpoint skip_elements (index : nat) : M (list Z) unit :=
  match index with
  | O => ret tt
  | S index => do* SkipElement in skip_elements index
  end.
Definition HostPortList_Get (l : HostPortList) (index : Z) : M (list Z) Z := fun buf =>
  if negb (index <? mCount l) then (Err WEAVE_ERROR_INVALID_ARGUMENT, buf)
  else let '(r, s) := (do* on_elem (skip_elements (Z.to_nat index)) in GetElement l) (mElements l, buf) in (r, snd s).
(** Pop: mElements moves as far as the element was read, also on an error. *)
Definition HostPortList_Pop : M (HostPortList * list Z) Z := fun '(l, buf) =>
  if negb (0 <? mCount l) then (Err WEAVE_ERROR_HOST_PORT_LIST_EMPTY, (l, buf))
  else
    let '(r, (p, buf)) := GetElement l (mElements l, buf) in
    (r, (mkHostPortList p (mSuffixTable l) (match r with Ok _ => mCount l - 1 | _ => mCount l end) (mSuffixCount l), buf)).

(** ** The list as entries *)

Record host_entry := mkEntry { he_reserved : Z; he_indexed : bool; he_host : list Z; he_suffix : option Z; he_port : option Z }.
Definition entry_flags (e : host_entry) : Z :=
  match he_port e with Some _ => kHostPortControl_HasPort | None => 0 end + match he_suffix e with Some _ => kHostPortControl_HasSuffixIndex | None => 0 end +
  (if he_indexed e then kHostPortType_Indexed else kHostPortType_FullyQualified).
Definition entry_control (e : host_entry) : Z := 16 * he_reserved e + entry_flags e.
Definition entry_bytes (e : host_entry) : list Z :=
  entry_control e :: Z.of_nat (length (he_host e)) :: he_host e ++ (match he_suffix e with Some i => [i] | None => [] end) ++
  (match he_port e with Some p => LittleEndian_Write16 p | None => [] end).
Definition suffix_bytes (s : list Z) : list Z := Z.of_nat (length s) :: s.
Definition entry_ok (e : host_entry) : Prop :=
  0 <= he_reserved e < 16 /\ Z.of_nat (length (he_host e)) < 256 /\
  match he_suffix e with Some i => 0 <= i < 256 | None => True end /\ match he_port e with Some p => 0 <= p < 65536 | None => True end.

(** [l] holds the entries [es] and the suffixes [ss], and anything after them. *)
Record holds (l : HostPortList) (es : list host_entry) (ss : list (list Z)) : Prop := {
  hl_entries : exists rest, mElements l = concat (map entry_bytes es) ++ rest;
  hl_count : mCount l = Z.of_nat (length es);
  hl_suffixes : exists rest, mSuffixTable l = concat (map suffix_bytes ss) ++ rest;
  hl_suffixCount : mSuffixCount l = Z.of_nat (length ss);
  hl_entries_ok : Forall entry_ok es;
  hl_suffixes_ok : Forall (fun s => Z.of_nat (length s) < 256) ss }.

(** What Get gives for an entry, and hostBuf after it. *)
Definition entry_result (ss : list (list Z)) (e : host_entry) (buf : list Z) : res Z * list Z :=
  let host := he_host e in
  let port := default WEAVE_PORT (he_port e) in
  let copied := host ++ drop (length host) buf in
  if (length buf <=? length host)%nat then (Err WEAVE_ERROR_BUFFER_TOO_SMALL, buf)
  else match (if he_indexed e then he_suffix e else None) with
  | None => (Ok port, host ++ 0 :: drop (S (length host)) buf)
  | Some i =>
    match ss !! Z.to_nat i with
    | None => (Err WEAVE_ERROR_INVALID_HOST_SUFFIX_INDEX, copied)
    | Some s =>
      let name := host ++ s in
      if (length buf <=? length name)%nat then (Err WEAVE_ERROR_BUFFER_TOO_SMALL, copied)
      else (Ok port, block_write (u8 (Z.of_nat (length name))) [0] (name ++ 0 :: drop (S (length name)) buf))
    end
  end.

(** ** Reading an encoded entry *)

Lemma next_bytes_app l k : next_bytes (Z.of_nat (length l)) (l ++ k) = (Ok l, k).
Proof.
  unfold next_bytes. rewrite length_app. destruct (_ <=? _) eqn:E; [|bool_prop; lia]. by rewrite Nat2Z.id, take_app_length, drop_app_length.
Qed.
Lemma next_le16_app v k : 0 <= v < 65536 -> next_le16 (LittleEndian_Write16 v ++ k) = (Ok v, k).
Proof. intros H. unfold next_le16. rewrite LE_Read16_app, u16_id by done. rewrite length_app. change (length (LittleEndian_Write16 v)) with 2%nat. destruct (_ <=? _) eqn:E; [done|bool_prop; lia]. Qed.
Lemma write_host_app off l b : 0 <= off -> off + Z.of_nat (length l) <= Z.of_nat (length b) -> write_host off l b = (Ok tt, block_write off l b).
Proof. intros H0 H. unfold write_host. destruct (_ <=? _) eqn:E; [done|bool_prop; lia]. Qed.

(** The bits of a control byte *)
Lemma control_flags e m : Z.land 15 m = m -> Z.land (entry_control e) m = Z.land (entry_flags e) m.
Proof.
  intros Hm. rewrite <- Hm, !Z.land_assoc. f_equal. change 15 with (2 ^ 4 - 1). rewrite !land_ones_mod by lia. unfold entry_control.
  destruct (he_port e), (he_suffix e), (he_indexed e); unfold entry_flags; mlia.
Qed.

(** The reader at an entry: its type is supported. *)
Lemma entry_supported e : let type := Z.land (entry_control e) kHostPortControl_TypeMask in
  type = (if he_indexed e then 1 else 0) /\ ((type =? kHostPortType_FullyQualified) || (type =? kHostPortType_Indexed)) = true.
Proof. cbv zeta. rewrite control_flags by done. unfold entry_flags. by destruct (he_port e), (he_suffix e), (he_indexed e). Qed.
Lemma entry_has_suffix e : negb (Z.land (entry_control e) kHostPortControl_HasSuffixIndex =? 0) = match he_suffix e with Some _ => true | None => false end.
Proof. rewrite control_flags by done. unfold entry_flags. by destruct (he_port e), (he_suffix e), (he_indexed e). Qed.
Lemma entry_has_port e : negb (Z.land (entry_control e) kHostPortControl_HasPort =? 0) = match he_port e with Some _ => true | None => false end.
Proof. rewrite control_flags by done. unfold entry_flags. by destruct (he_port e), (he_suffix e), (he_indexed e). Qed.

Ltac step E := erewrite bind_ok by (exact E).
Ltac step_ := erewrite bind_ok by reflexivity.

Lemma SkipElement_entry e k : entry_ok e -> SkipElement (entry_bytes e ++ k) = (Ok tt, k).
Proof.
  intros (H1 & H2 & H3 & H4). unfold SkipElement, entry_bytes. cbn [app]. rewrite <- !app_assoc. step_. cbv zeta.
  destruct (entry_supported e) as [_ ->]. step_. step_. step (next_bytes_app (he_host e) ((match he_suffix e with Some i => [i] | None => [] end) ++ (match he_port e with Some p => LittleEndian_Write16 p | None => [] end) ++ k)).
  rewrite entry_has_suffix, entry_has_port. destruct (he_suffix e) as [i|].
  - erewrite bind_ok by (step (next_bytes_app [i] ((match he_port e with Some p => LittleEndian_Write16 p | None => [] end) ++ k)); reflexivity).
    destruct (he_port e) as [p|]; [|done]. by step (next_bytes_app (LittleEndian_Write16 p) k).
  - step_. destruct (he_port e) as [p|]; [|done]. by step (next_bytes_app (LittleEndian_Write16 p) k).
Qed.
Lemma skip_elements_entries n es k : Forall entry_ok es -> (n <= length es)%nat -> skip_elements n (concat (map entry_bytes es) ++ k) = (Ok tt, concat (map entry_bytes (drop n es)) ++ k).
Proof.
  revert es. induction n as [|n IH]; intros es Hes Hn; [done|]. destruct es as [|e es]; [cbn in Hn; lia|]. apply Forall_cons_1 in Hes as [He Hes].
  cbn [skip_elements map concat]. rewrite <- app_assoc. step (SkipElement_entry e (concat (map entry_bytes es) ++ k) He). apply IH; [done|cbn in Hn; lia].
Qed.
Lemma skip_suffixes_entries n ss k : (n <= length ss)%nat -> skip_suffixes n (concat (map suffix_bytes ss) ++ k) = (Ok tt, concat (map suffix_bytes (drop n ss)) ++ k).
Proof.
  revert ss. induction n as [|n IH]; intros ss Hn; [done|]. destruct ss as [|s ss]; [cbn in Hn; lia|].
  cbn [skip_suffixes map concat suffix_bytes app]. rewrite <- app_assoc. step_. step (next_bytes_app s (concat (map suffix_bytes ss) ++ k)). apply IH. cbn in Hn. lia.
Qed.

(** ** Looking up an entry *)

Lemma elem_ok {A} (m : M (list Z) A) p p' a b : m p = (Ok a, p') -> on_elem m (p, b) = (Ok a, (p', b)).
Proof. intros E. unfold on_elem. cbn [fst snd]. by rewrite E. Qed.
Lemma hostBuf_ok {A} (m : M (list Z) A) p b b' a : m b = (Ok a, b') -> on_hostBuf m (p, b) = (Ok a, (p, b')).
Proof. intros E. unfold on_hostBuf. cbn [fst snd]. by rewrite E. Qed.

Lemma write_first l b : (length l <= length b)%nat -> write_host 0 l b = (Ok tt, l ++ drop (length l) b).
Proof. intros H. by rewrite write_host_app by lia. Qed.
Lemma write_after l x k b : Z.of_nat (length x) = Z.of_nat (length k) -> write_host (Z.of_nat (length l)) k (l ++ x ++ b) = (Ok tt, l ++ k ++ b).
Proof.
  intros H. rewrite write_host_app by (rewrite ?length_app; lia). unfold block_write. rewrite Nat2Z.id, take_app_length.
  by rewrite <- drop_drop, drop_app_length, drop_app_length' by lia.
Qed.

Lemma split_room (n : nat) (b : list Z) : (n < length b)%nat -> exists x y r, b = x ++ y :: r /\ length x = n /\ r = drop (S n) b.
Proof.
  intros H. destruct (drop n b) as [|y r] eqn:E; [apply (f_equal length) in E; rewrite length_drop in E; cbn in E; lia|].
  exists (take n b), y, r. rewrite <- E, take_drop, length_take. split; [done|]. split; [lia|].
  replace (S n) with (n + 1)%nat by lia. by rewrite <- drop_drop, E.
Qed.
Lemma GetSuffix_entry l es ss i host b : holds l es ss -> 0 <= i < 256 ->
  GetSuffix l i (Z.of_nat (length host)) (host ++ b) =
  match ss !! Z.to_nat i with
  | None => (Err WEAVE_ERROR_INVALID_HOST_SUFFIX_INDEX, host ++ b)
  | Some s =>
    if (length (host ++ b) <=? length (host ++ s))%nat then (Err WEAVE_ERROR_BUFFER_TOO_SMALL, host ++ b)
    else (Ok (Z.of_nat (length s)), host ++ s ++ 0 :: drop (S (length s)) b)
  end.
Proof.
  intros [_ _ [k HS] HC _ HO] Hi. unfold GetSuffix. rewrite HC. destruct (ss !! Z.to_nat i) as [s|] eqn:E.
  - apply lookup_lt_Some in E as HL. destruct (negb _) eqn:EN; [bool_prop; lia|].
    rewrite HS. step (elem_ok _ _ _ _ (host ++ b) (skip_suffixes_entries (Z.to_nat i) ss k ltac:(lia))). rewrite (drop_S _ _ _ E). cbn [map concat suffix_bytes app].
    step_. rewrite !length_app. destruct (length host + length b <=? length host + length s)%nat eqn:EB.
    + apply Nat.leb_le in EB. replace (_ <? _) with false by (symmetry; apply Z.ltb_ge; lia). done.
    + apply Nat.leb_gt in EB. replace (_ <? _) with true by (symmetry; apply Z.ltb_lt; lia). step_. rewrite <- app_assoc. step (elem_ok _ _ _ _ (host ++ b) (next_bytes_app s (concat (map suffix_bytes (drop (S (Z.to_nat i)) ss)) ++ k))).
      destruct (split_room (length s) b) as (x & y & r & -> & Hx & Hr); [lia|]. rewrite <- Hr.
      step (hostBuf_ok _ (concat (map suffix_bytes (drop (S (Z.to_nat i)) ss)) ++ k) _ _ _ (write_after host x s (y :: r) ltac:(lia))).
      pose proof (write_after (host ++ s) [y] [0] r eq_refl) as EW. rewrite length_app, Nat2Z.inj_add, <- !app_assoc in EW. by step (hostBuf_ok _ (concat (map suffix_bytes (drop (S (Z.to_nat i)) ss)) ++ k) _ _ _ EW).
  - apply lookup_ge_None in E. destruct (negb _) eqn:EN; [done|bool_prop; lia].
Qed.

Lemma port_entry e k b : entry_ok e ->
  (if negb (Z.land (entry_control e) kHostPortControl_HasPort =? 0) then on_elem next_le16 else ret WEAVE_PORT)
    ((match he_port e with Some p => LittleEndian_Write16 p | None => [] end) ++ k, b) = (Ok (default WEAVE_PORT (he_port e)), (k, b)).
Proof.
  intros (_ & _ & _ & H). rewrite entry_has_port. destruct (he_port e) as [p|]; [|done]. exact (elem_ok _ _ _ _ b (next_le16_app p k H)).
Qed.

(** GetElement at an entry gives the entry's result; when it succeeds, the pointer is
    at the next entry. *)
Lemma GetElement_entry l es ss e k buf : holds l es ss -> entry_ok e ->
  exists p, GetElement l (entry_bytes e ++ k, buf) = (fst (entry_result ss e buf), (p, snd (entry_result ss e buf))) /\
    (forall v, fst (entry_result ss e buf) = Ok v -> p = k).
Proof.
  intros Hl He. pose proof He as (H1 & H2 & H3 & H4). unfold GetElement, entry_bytes. cbn [app]. rewrite <- !app_assoc. step_. cbv zeta.
  destruct (entry_supported e) as [HT ->]. step_. step_. unfold entry_result. cbn [snd].
  set (tail := (match he_port e with Some p => _ | None => _ end) ++ k).
  destruct (length buf <=? length (he_host e))%nat eqn:EL.
  - apply Nat.leb_le in EL. erewrite bind_err; [|cbn [snd]; replace (_ <? _) with false by (symmetry; apply Z.ltb_ge; lia); reflexivity]. eexists. by split.
  - apply Nat.leb_gt in EL. erewrite bind_ok by (cbn [snd]; replace (_ <? _) with true by (symmetry; apply Z.ltb_lt; lia); reflexivity).
    step (elem_ok _ _ _ _ buf (next_bytes_app (he_host e) ((match he_suffix e with Some i => [i] | None => [] end) ++ tail))).
    step (hostBuf_ok _ ((match he_suffix e with Some i => [i] | None => [] end) ++ tail) _ _ _ (write_first (he_host e) buf ltac:(lia))).
    destruct (split_room (length (he_host e)) buf EL) as (x & y & r & -> & Hx & Hr). rewrite <- Hr, <- Hx, drop_app_length, Hx. rewrite entry_has_suffix, HT.
    assert (forall b, (do* on_hostBuf (write_host (Z.of_nat (length (he_host e))) [0]) in
      if negb (Z.land (entry_control e) kHostPortControl_HasPort =? 0) then on_elem next_le16 else ret WEAVE_PORT) (tail, he_host e ++ y :: b) =
      (Ok (default WEAVE_PORT (he_port e)), (k, he_host e ++ 0 :: b))) as HN.
    { intros b. step (hostBuf_ok _ tail _ _ _ (write_after (he_host e) [y] [0] b eq_refl)). by apply port_entry. }
    destruct (he_suffix e) as [i|] eqn:ES; [|step_; exists k; split; [by destruct (he_indexed e)|done]].
    destruct (he_indexed e) eqn:EI; [|erewrite bind_ok by (step_; step (elem_ok _ _ _ _ (he_host e ++ y :: r) (next_bytes_app [i] tail)); reflexivity); exists k; split; [by apply HN|done]].
    change (1 =? kHostPortType_Indexed) with true. cbv iota. cbn [app].
    pose proof (GetSuffix_entry l es ss i (he_host e) (y :: r) Hl H3) as EG. destruct (ss !! Z.to_nat i) as [s|] eqn:EI'.
    + replace (length (he_host e ++ y :: r)) with (length (x ++ y :: r)) in EG by (rewrite !length_app, Hx; done).
      destruct (length (x ++ y :: r) <=? length (he_host e ++ s))%nat eqn:EB.
      * exists (i :: tail). split; [|done]. erewrite bind_err; [reflexivity|]. erewrite bind_err; [reflexivity|]. step_. erewrite bind_err; [reflexivity|].
        unfold on_hostBuf. cbn [snd]. rewrite EG. reflexivity.
      * apply Nat.leb_gt in EB. exists k. split; [|done].
        erewrite bind_ok by (erewrite bind_ok by (step_; erewrite bind_ok by (unfold on_hostBuf; cbn [fst snd]; rewrite EG; reflexivity); reflexivity);
          step (elem_ok _ _ _ _ (he_host e ++ s ++ 0 :: drop (S (length s)) (y :: r)) (next_bytes_app [i] tail)); reflexivity).
        rewrite <- Nat2Z.inj_add, <- length_app.
        rewrite !length_app in EB. cbn [length] in EB. pose proof (length_app (he_host e) s) as HA. cbn [fst snd].
        replace (drop (S (length (he_host e ++ s))) (x ++ y :: r)) with (drop (S (length s)) (y :: r)).
        2: { rewrite HA, <- Hx. replace (S (length x + length s)) with (length x + S (length s))%nat by lia. by rewrite <- drop_drop, drop_app_length. }
        rewrite <- app_assoc. step (hostBuf_ok _ tail _ _ _ (write_host_app (u8 (Z.of_nat (length (he_host e ++ s)))) [0] (he_host e ++ s ++ 0 :: drop (S (length s)) (y :: r))
          (proj1 (u8_range _)) ltac:(assert (u8 (Z.of_nat (length (he_host e ++ s))) <= Z.of_nat (length (he_host e ++ s))) by mlia; rewrite !length_app in *; cbn [length drop]; rewrite length_drop; lia))).
        by apply port_entry.
    + exists (i :: tail). split; [|done]. erewrite bind_err; [reflexivity|]. erewrite bind_err; [reflexivity|]. step_. erewrite bind_err; [reflexivity|].
      unfold on_hostBuf. cbn [snd]. rewrite EG. reflexivity.
Qed.

(** The list refines the list of its entries: Get gives the result of the entry at the
    index, and Pop that of the first entry, leaving the list of the others when it
    succeeds. *)
Theorem HostPortList_refines_entries l es ss i buf : holds l es ss -> 0 <= i ->
  HostPortList_Get l i buf = match es !! Z.to_nat i with Some e => entry_result ss e buf | None => (Err WEAVE_ERROR_INVALID_ARGUMENT, buf) end /\
  match es with
  | [] => HostPortList_Pop (l, buf) = (Err WEAVE_ERROR_HOST_PORT_LIST_EMPTY, (l, buf))
  | e :: es' => exists l', HostPortList_Pop (l, buf) = (fst (entry_result ss e buf), (l', snd (entry_result ss e buf))) /\
      forall port, fst (entry_result ss e buf) = Ok port -> holds l' es' ss
  end.
Proof.
  intros Hl Hi. pose proof Hl as [[k HE] HC [k' HS] HSC HO HSO]. split.
  - unfold HostPortList_Get. rewrite HC. destruct (es !! Z.to_nat i) as [e|] eqn:E.
    + apply lookup_lt_Some in E as HL. destruct (negb _) eqn:EN; [bool_prop; lia|]. rewrite HE.
      step (elem_ok _ _ _ _ buf (skip_elements_entries (Z.to_nat i) es k HO ltac:(lia))). rewrite (drop_S _ _ _ E). cbn [map concat]. rewrite <- app_assoc.
      destruct (GetElement_entry l es ss e (concat (map entry_bytes (drop (S (Z.to_nat i)) es)) ++ k) buf Hl) as (p & -> & _); [by eapply Forall_lookup_1|].
      by destruct (entry_result ss e buf).
    + apply lookup_ge_None in E. destruct (negb _) eqn:EN; [done|bool_prop; lia].
  - unfold HostPortList_Pop. rewrite HC. destruct es as [|e es]; [done|]. apply Forall_cons_1 in HO as [He HO'].
    destruct (negb _) eqn:EN; [bool_prop; cbn in EN; lia|]. rewrite HE. cbn [map concat]. rewrite <- app_assoc.
    destruct (GetElement_entry l (e :: es) ss e (concat (map entry_bytes es) ++ k) buf Hl He) as (p & -> & Hp).
    eexists. split; [reflexivity|]. intros port HP. rewrite HP. constructor; cbn; [exists k; by apply (Hp port)|cbn [length]; lia|by exists k'|done..].
Qed.

(** Two hosts, the second with a shared suffix and the default port. *)
Definition example_list : HostPortList :=
  mkHostPortList [8; 2; 97; 98; 87; 43; 5; 1; 99; 0] [3; 46; 100; 101] 2 1.
Lemma HostPortList_example : HostPortList_Get example_list 1 (replicate 8 7) = (Ok 11095, [99; 46; 100; 101; 0; 7; 7; 7]) /\
  fst (HostPortList_Get example_list 1 (replicate 4 7)) = Err WEAVE_ERROR_BUFFER_TOO_SMALL.
Proof. split; vm_compute; reflexivity. Qed.

(** The name's length wraps around at 256: of a host of 200 bytes with a suffix of 100
    the first 44 are left. *)
Definition long_entry : host_entry := mkEntry 0 true (replicate 200 97) (Some 0) None.
Lemma long_name_cut : let '(r, buf) := entry_result [replicate 100 98] long_entry (replicate 400 7) in
  r = Ok 11095 /\ take 45 buf = replicate 44 97 ++ [0].
Proof. vm_compute. split; reflexivity. Qed.
